(* ===== verification/_CoqProject ===== *)
-Q . S2P
Prelude.v
Bytes.v
Capability.v
Errors.v
ReviewProtocol.v
BrowserProtocol.v
ReviewDomain.v
Events.v
Regex.v
ControlAuthorisation.v
DestinationPolicy.v
Completion.v
EntityId.v
Text.v
RepositoryIdentity.v
RepositoryTheorems.v
Numbers.v
StableJson.v
Validation.v
Schema.v
Patterns.v
Codec.v
CodecTheorems.v
PlatformSchema.v
PlatformValidate.v
PlatformCodec.v
ReviewSchema.v
ReviewValidate.v
ReviewCodec.v
ConnectorSchema.v
ConnectorValidate.v
ConnectorCodec.v
BrowserSchema.v
BrowserValidate.v
BrowserCodec.v
LiveViewSchema.v
LiveViewValidate.v
LiveViewCodec.v
McpSchema.v
McpValidate.v
McpCodec.v
ProtocolTheorems.v
Idempotency.v
IdempotencyTheorems.v
RateLimit.v
Geometry.v
Store.v
BrowserSessions.v
WorkerSessions.v
Jobs.v
PublishedServices.v
Reconciliation.v
Records.v
ProjectInput.v
ProjectInputTheorems.v
Projects.v
Inbox.v
ReviewService.v
FindingService.v
VerificationService.v
Preserve.v
Invariants.v
Samples.v
Effects.v
ProjectTheorems.v
ControlInvariants.v
BrowserLifecycle.v
ControlTheorems.v
SweepTheorems.v
RouteLifecycle.v
RouteTheorems.v
ReconciliationTheorems.v
JobTheorems.v
FindingTheorems.v
SubmissionTheorems.v
ReviewTheorems.v
Evolution.v
Lifecycle.v
LifecycleTheorems.v
LiveStream.v
