(* ===== verification/Prelude.v ===== *)
(** * ReviewPlane: a verification development

    ReviewPlane is a control plane through which people review a web
    application in a live browser and agents work on what they found.  People
    write reviews and findings with annotated screenshots, agents claim findings
    and submit verifications with evidence, and only a person decides.  The
    browser is run by a worker process; who may drive it is settled by leases and
    control epochs kept in PostgreSQL.  The development models the TypeScript of
    that control plane, the protocol package it shares with its clients, and the
    control state of the browser worker.

    ** How the model reads the code

    A function that throws is a function into [result E A].  A method of a
    service is a computation of the monad [M] of [Store]: it reads and writes the
    tables, draws identifiers from the platform's random source (an argument,
    [Entropy]), reads a clock, and may throw; what it did before throwing is
    kept, except that [inTransaction] ([src/apps/server/src/db/pool.ts]) puts the
    tables back.  A table is a finite map by primary key; the [CHECK]
    constraints and unique indexes of [src/apps/server/migrations] guard the
    statement that writes a row, with SQL's three-valued logic where a [CHECK]
    can meet NULL.  JSON columns are [json] values, [integer] columns carry their
    width, numbers that are not integers are exact decimals or binary64 values
    ([Numbers]), strings are sequences of 8-bit code units.

    A method that runs in one transaction is one step.  A method that reads, or
    waits for another process, before its transaction is split where it waits,
    and the step relations ([Lifecycle.steps], [BrowserLifecycle.moves],
    [RouteLifecycle.route_moves])
    interleave the pieces of any number of callers; the method itself is the
    composition of its pieces.

    ** The parts

    The shared language: [Prelude] (results, JavaScript strings, JSON, SQL logic),
    [Errors] ([errors.ts]), [Numbers], [Regex] (the fragment of regular
    expressions the screens use, with what a match means).

    The rules of a review: [ReviewProtocol] (vocabularies and transition tables
    of [generated/review/v1/types.ts] and their reader
    [review-transitions.ts]), [ReviewDomain] (every rule of
    [reviews/domain.ts]), [Completion] (the completion gate,
    [reviews/completion.ts]), [Geometry] ([annotation-geometry.ts]), [EntityId]
    ([entity-id.ts]).

    The state: [Events] (the event log and its outbox rows, [events/append.ts])
    and [Store] (rows, constraints, transactions).

    The review service, [reviews/service.ts]: [ReviewService], [FindingService],
    [VerificationService], with the response objects ([Records]) and the inbox
    ([Inbox], [agents/inbox.ts]).

    Control of browsers: [BrowserProtocol] ([generated/browser/v1/types.ts]),
    [ControlAuthorisation] (the control plane's matrix,
    [browser-sessions/authorisation.ts], and the worker's check,
    [session/control.ts]), [BrowserSessions] ([browser-sessions/service.ts] with
    [workers.ts] and [monitor.ts]), [WorkerSessions] ([session/manager.ts] of
    the worker), [LiveStream] (the framing of the live view,
    [live-view-stream.ts]).

    Routes to development machines: [DestinationPolicy]
    ([published-services/destination-policy.ts]), [Bytes] (UTF-8, base64url,
    big-endian integers) and [Capability] (the tokens the gateway verifies,
    [packages/protocol/src/capability.ts]), [PublishedServices]
    ([published-services/service.ts], [repository.ts], [session-binder.ts]),
    [Reconciliation] (what a connector that lost its channel may go on with,
    [connectors/reconciliation.ts], and what is done about it,
    [published-services/reconciliation.ts]).

    Background work: [Jobs] ([jobs/runner.ts]).  Retries: [StableJson] and
    [Idempotency] ([agents/idempotency.ts], with the calls of [reviews/routes.ts]
    and of the MCP server's [tools.ts] around it).  Sign-in: [RateLimit]
    ([identity/rate-limit.ts]).

    Projects: [Text] (scans of strings), [RepositoryIdentity]
    ([packages/protocol/src/repository-identity.ts]), [ProjectInput] and [Projects]
    ([projects/service.ts]: its readers, and the service).

    The protocols.  [Validation] is [validate-runtime.ts]; [Schema] is the subset of
    JSON Schema that the generator takes ([packages/protocol/tools/schema-model.ts]),
    with the violations a schema finds and the documents that conform to it; [Codec]
    is [canonical.ts], [sensitive.ts] and what the generated encoders, decoders and
    types are made of, with the codec that a schema stands for.  Of each protocol -
    platform, review, connector, browser, live view and MCP - there are three files:
    [PlatformSchema] (the schema, [packages/protocol/schemas]; patterns are in
    [Patterns]), [PlatformValidate] and [PlatformCodec] (the generated
    [validate.ts], and [types.ts], [encode.ts], [decode.ts] and [dispatch.ts],
    function by function as they were printed), and likewise
    [ReviewSchema] and so on.  A codec of an object is the record [Coded], the
    interface between the generated files and the theorems; [codes] are its laws.

    ** What is proved

    [Invariants] and [ControlInvariants]: well-formed tables, kept by every
    operation whether it returns or throws, through the rules of [Preserve].
    [Effects] and [Evolution]: what a run wrote, and the preorder every run stays
    within.  From these:

    - [FindingTheorems], [ReviewTheorems], [SubmissionTheorems]: a successful
      operation was the caller's to make and did exactly what it says; a refused
      one left an audit record and nothing else.
    - [LifecycleTheorems]: over every sequence of requests, tenants are
      isolated, agents decide nothing, history only grows, a stale version is
      refused, a failed request changes the log alone.
    - [ReviewDomain], [Completion], [Events], [Geometry]: each checker against
      the property it decides.
    - [ControlTheorems]: over every interleaving, the interactive commands sent
      under one epoch come from one controller; what a grant does; a refusal
      leaves a record.  [SweepTheorems]: no overdue reservation survives a
      sweep.  [ControlAuthorisation]: the matrix, and that the worker agrees.
    - [LiveStream]: the decoder returns the records the stream encodes whatever
      the chunks, and holds a bounded buffer.
    - [Capability], [DestinationPolicy]: the verifier accepts exactly the
      authentic tokens; the policy against what it permits.
    - [RouteLifecycle], [RouteTheorems]: over every interleaving of requests,
      completions, revocations, sweeps, minting and reconciliation, what holds of
      every route and every capability, and how they may go on; what a request
      does; a browser is bound only to a route that carries traffic for it, with
      a token the gateway accepts.
    - [ReconciliationTheorems]: the decision table, that the answer a connector
      gets is what the tables say, and that a revoked connector carries nothing.
    - [JobTheorems]: what a claim takes, and that a runner that goes on polling
      brings every job to an end.
    - [CodecTheorems], [ProtocolTheorems]: every generated validator finds what its
      schema finds, and nothing exactly on the documents that conform; what is
      accepted is decoded to its type and encoded again without loss; the encoding
      is canonical; every message goes to the functions of its payload.
    - [RepositoryTheorems], [ProjectInputTheorems], [StableJson]: every spelling of
      a repository is one identity, which reads back and keeps no credentials; what
      is made of a project's input is accepted again; comparing stable texts
      compares values.
    - [ProjectTheorems]: what an update decides, and that the projects of every
      history keep their constraints and their slugs apart.
    - [IdempotencyTheorems]: over every interleaving of routes, the operation behind
      a key takes effect at most once.  [RateLimit]: how many guesses at a password
      a quarter of an hour has room for.

    Where the code parts from what it means to do, a theorem exhibits it on
    reachable states: a late claim on a disposed finding, an accepted review with
    a reopened finding, archiving read as a reopen, the before picture submitted
    as after, a release that moves the epoch back, a report that undoes a pause,
    an expired lease that still controls, a change of control the worker is not
    told of, a vanished runner that stops the queue, a gateway left carrying a
    route that ended, a reconnect that undoes a pause, a claim that learns
    another connector's sessions, a metadata endpoint the policy lets through, a
    tool call that frees the key it waits for, a constant the validators drop,
    attempts in flight that the limiter does not count, eight clone URLs that do
    not read back, the same viewport accepted twice.

    ** Fuel and bounds

    [Events.assertPayloadCarriesNoSecret] counts the source's own depth limit.
    [LiveStream.push] gives its loop the length of the buffer, more than the
    records it can hold; [Regex.ends] gives a repetition the length of the rest
    of the string, and [test_spec] shows both suffice for every input.
    [JobTheorems.polls] is the number of attempts left in the queue, and the
    theorem is that it is enough.  [Idempotency.claim_from] retries once, as the
    source does.

    ** Not modelled

    Statements interleaved within a transaction (a transaction is atomic, as
    under serialisable isolation or a row lock), commit failures, and foreign
    keys other than those that an operation relies on.  The answers of other
    processes (the browser worker, the connector, the gateway, object storage,
    job handlers) are arguments, and so are HMAC-SHA-256, SHA-256 and the random
    source.  Pages, contexts and the screencast belong to Chromium.  Of the browser
    sessions, the worker registry's writes, the reconciliation pass and the
    read-only timeline are left out; of the review service, exports, search and
    paged lists; of the protocols, the reading of a frame's text with [JSON.parse],
    the bounds on its bytes, and the constants of [types.ts] that no modelled code
    uses.  The generator is not modelled, what it printed is.  Strings hold 8-bit
    code units, so that surrogates and the two line separators that the encoders
    escape do not occur.  Routes, sessions of people and credentials, artefact
    storage, the connectors' channel and certificates, the MCP server's rendering,
    the web client, backup, and the services in Go are outside the development. *)

From Stdlib Require Import OrdersEx.
From Stdlib Require Export Ascii SpecFloat.
From stdpp Require Export prelude gmap strings list fin_maps pretty sorting.

(** ** Results

    TypeScript code that throws is modelled by functions into [result E A]:
    [Err e] is the thrown value and [Ok a] the returned one. *)

Inductive result (E A : Type) : Type :=
| Ok (a : A)
| Err (e : E).
Arguments Ok {E A} a.
Arguments Err {E A} e.

#[export] Instance result_ret {E} : MRet (result E) := fun A a => Ok a.
#[export] Instance result_bind {E} : MBind (result E) := fun A B f m =>
  match m with Ok a => f a | Err e => Err e end.
#[export] Instance result_fmap {E} : FMap (result E) := fun A B f m =>
  match m with Ok a => Ok (f a) | Err e => Err e end.
#[export] Instance result_eq_dec {E A} `{EqDecision E, EqDecision A} :
  EqDecision (result E A).
Proof. solve_decision. Defined.

Definition is_ok {E A} (r : result E A) : bool :=
  match r with Ok _ => true | Err _ => false end.

Declare Scope rp_scope.
Delimit Scope rp_scope with rp.

(** A check passes. *)
Notation "'pass' m" := (m = Ok tt) (at level 70, m at level 69) : rp_scope.
Open Scope rp_scope.

Section result_lemmas.
Context {E A B : Type}.
Implicit Types (m : result E A) (f : A → result E B).

Lemma bind_ok m f b : (m ≫= f) = Ok b ↔ ∃ a, m = Ok a ∧ f a = Ok b.
Proof. destruct m; cbn; naive_solver. Qed.

Lemma bind_err m f e :
  (m ≫= f) = Err e ↔ m = Err e ∨ ∃ a, m = Ok a ∧ f a = Err e.
Proof. destruct m; cbn; naive_solver. Qed.

Lemma is_ok_true m : is_ok m = true ↔ ∃ a, m = Ok a.
Proof. destruct m; naive_solver. Qed.
End result_lemmas.

Lemma pass_is_ok {E} (m : result E unit) : is_ok m = true ↔ pass m.
Proof. destruct m as [[]|]; naive_solver. Qed.

Lemma then_ok {E B} (m : result E unit) (k : result E B) b :
  (m ;; k) = Ok b ↔ pass m ∧ k = Ok b.
Proof. destruct m as [[]|]; cbn; naive_solver. Qed.

(** ** JavaScript strings

    A Rocq [string] stands for a JavaScript string whose UTF-16 code units are
    all below 256, one character for one code unit. *)

Lemma append_nil s : "" +:+ s = s.
Proof. done. Qed.

Lemma append_cons c s s' : String c s +:+ s' = String c (s +:+ s').
Proof. done. Qed.

Lemma append_assoc (a b c : string) : (a +:+ b) +:+ c = a +:+ (b +:+ c).
Proof. induction a as [|x a IH]; [done|]. by apply (f_equal (String x)). Qed.

Lemma length_append s s' : String.length (s +:+ s') = String.length s + String.length s'.
Proof. induction s as [|c s IH]; [done|]. rewrite append_cons. cbn. by rewrite IH. Qed.

Definition js_space (c : ascii) : bool :=
  let n := N_of_ascii c in
  bool_decide (9 ≤ n ≤ 13)%N || bool_decide (n = 32)%N || bool_decide (n = 160)%N.

Fixpoint trim_start (s : string) : string :=
  match s with
  | String c s' => if js_space c then trim_start s' else s
  | EmptyString => ""
  end.

Definition trim (s : string) : string :=
  String.rev (trim_start (String.rev (trim_start s))).

(** [s.split(sep)] for a one-character separator. *)
Fixpoint split (sep : ascii) (s : string) : list string :=
  match s with
  | EmptyString => [""]
  | String c s' =>
      if decide (c = sep) then "" :: split sep s'
      else match split sep s' with
           | w :: ws => String c w :: ws
           | [] => [String c ""]
           end
  end.

Fixpoint join (sep : string) (ws : list string) : string :=
  match ws with
  | [] => ""
  | [w] => w
  | w :: ws' => w +:+ sep +:+ join sep ws'
  end.

Section split_lemmas.
Context (sep : ascii).

Fixpoint free_of (s : string) : bool :=
  match s with
  | EmptyString => true
  | String c s' => negb (bool_decide (c = sep)) && free_of s'
  end.

Lemma split_free s : free_of s = true → split sep s = [s].
Proof.
  induction s as [|c s IH]; [done|]. cbn [free_of split].
  destruct (decide (c = sep)) as [->|Hne].
  - by rewrite bool_decide_true.
  - rewrite bool_decide_false by done. intros Hs. by rewrite IH.
Qed.

Lemma split_app s s' :
  free_of s = true → split sep (s +:+ String sep s') = s :: split sep s'.
Proof.
  induction s as [|c s IH].
  - intros _. rewrite append_nil. cbn [split]. by rewrite decide_True.
  - rewrite append_cons. cbn [free_of split]. destruct (decide (c = sep)) as [->|Hne].
    + by rewrite bool_decide_true.
    + rewrite bool_decide_false by done. intros Hs. by rewrite IH.
Qed.

Lemma split_join ws :
  ws ≠ [] → Forall (λ w, free_of w = true) ws →
  split sep (join (String sep "") ws) = ws.
Proof.
  induction ws as [|w [|w' ws] IH]; intros Hne Hall; [done| |].
  - decompose_Forall_hyps. by apply split_free.
  - apply Forall_cons in Hall as [Hw Hws].
    change (join (String sep "") (w :: w' :: ws))
      with (w +:+ String sep (join (String sep "") (w' :: ws))).
    rewrite split_app by done. by rewrite IH.
Qed.

Lemma free_of_app s s' : free_of (s +:+ s') = free_of s && free_of s'.
Proof.
  induction s as [|c s IH]; [done|]. rewrite append_cons. cbn [free_of].
  by rewrite IH, andb_assoc.
Qed.

Lemma free_of_join d ws :
  free_of d = true → Forall (λ w, free_of w = true) ws →
  free_of (join d ws) = true.
Proof.
  intros Hd. induction ws as [|w [|w' ws] IH]; intros Hall; [done| |].
  - by decompose_Forall_hyps.
  - apply Forall_cons in Hall as [Hw Hws]. cbn [join].
    rewrite !free_of_app, Hw, Hd. by apply IH.
Qed.
Lemma join_split s : join (String sep "") (split sep s) = s.
Proof.
  induction s as [|c s IH]; [done|]. cbn [split].
  assert (split sep s ≠ []) as Hne by (destruct s; cbn; repeat case_match; done).
  case_decide as Hc.
  - subst c. destruct (split sep s) as [|w ws]; [done|]. cbn [join] in *. by rewrite append_nil, IH.
  - destruct (split sep s) as [|w ws]; [done|]. destruct ws; cbn [join] in *; by rewrite <- IH.
Qed.

Lemma free_of_list s : Forall (λ c, c ≠ sep) (String.list_ascii_of_string s) → free_of s = true.
Proof.
  induction s as [|c s IH]; cbn [String.list_ascii_of_string free_of]; [done|].
  intros [Hc Hs]%Forall_cons. by rewrite bool_decide_false, IH.
Qed.
End split_lemmas.

(** [s.slice(0, n)]. *)
Definition slice_to (n : nat) (s : string) : string := String.substring 0 n s.

(** ** Numbers and JSON values

    A JavaScript number that is not an integer is modelled by an exact decimal
    [mantissa * 10^-decimals], kept in the shortest form: [dec_norm]; where the
    source computes with doubles it is an IEEE binary64 value ([spec_float]).
    Integers are [Z]. *)

Record Dec := mk_dec { mantissa : Z; decimals : nat }.
#[export] Instance Dec_eq_dec : EqDecision Dec.
Proof. solve_decision. Defined.

Definition dec_of_Z (z : Z) : Dec := mk_dec z 0.

(** The shortest form: no trailing zero after the point. *)
Fixpoint strip_zeros (m : Z) (k : nat) : Dec :=
  match k with
  | O => mk_dec m 0
  | S k' => if bool_decide (m `mod` 10 = 0)%Z then strip_zeros (m `div` 10)%Z k'
            else mk_dec m k
  end.
Definition dec_norm (d : Dec) : Dec := strip_zeros (mantissa d) (decimals d).

Fixpoint zeros (n : nat) : string :=
  match n with O => "" | S n' => String "0" (zeros n') end.

(** [String(x)] for a number in shortest form. *)
Definition dec_to_string (d : Dec) : string :=
  match decimals d with
  | O => pretty (mantissa d)
  | k =>
      let scale := (10 ^ Z.of_nat k)%Z in
      let whole := (Z.abs (mantissa d) `div` scale)%Z in
      let frac := pretty (Z.abs (mantissa d) `mod` scale)%Z in
      (if bool_decide (mantissa d < 0)%Z then "-" else "")
        +:+ pretty whole +:+ "." +:+ zeros (k - String.length frac) +:+ frac
  end.

(** The values that payloads and error details carry.  A [Date] is kept as the
    number of milliseconds it stands for. *)
Inductive json : Type :=
| JNull
| JBool (b : bool)
| JNum (n : Z)
| JDec (d : Dec)
| JFloat (f : spec_float)
| JStr (s : string)
| JDate (t : Z)
| JArr (items : list json)
| JObj (members : list (string * json)).

(** An object under construction: its members in the order they are written. *)
Abbreviation members := (list (string * json)).

(** [...(c === undefined ? {} : { k: f(c) })] *)
Definition opt_member {A} (k : string) (f : A → json) (o : option A) : members :=
  match o with Some a => [(k, f a)] | None => [] end.

(** [x ?? null] *)
Definition or_null {A} (f : A → json) (o : option A) : json :=
  match o with Some a => f a | None => JNull end.

(** ** Closed vocabularies

    The enumerations of the protocol are string unions; each becomes an
    inductive type with the names of its members. *)

Class Vocabulary (A : Type) `{EqDecision A} := {
  vocab : list A;
  name : A → string;
  vocab_complete : ∀ a, a ∈ vocab;
  name_inj : Inj (=) (=) name
}.
#[export] Existing Instance name_inj.

Definition of_name {A} `{Vocabulary A} (s : string) : option A :=
  snd <$> list_find (λ a, name a = s) vocab.

Lemma of_name_name {A} `{Vocabulary A} (a : A) : of_name (name a) = Some a.
Proof.
  unfold of_name.
  destruct (list_find _ vocab) as [[i b]|] eqn:Hf; cbn.
  - apply list_find_Some in Hf as (_ & Hb & _). f_equal. by apply (inj name).
  - apply list_find_None in Hf. rewrite Forall_forall in Hf.
    destruct (Hf a); [apply vocab_complete | done].
Qed.

Lemma of_name_Some {A} `{Vocabulary A} s (a : A) : of_name s = Some a ↔ name a = s.
Proof.
  split; [|intros <-; apply of_name_name].
  unfold of_name. intros Hs.
  destruct (list_find _ vocab) as [[i b]|] eqn:Hf; simplify_eq/=.
  by apply list_find_Some in Hf as (_ & ? & _).
Qed.

(** [values.includes(x)] *)
Definition includes {A} `{EqDecision A} (l : list A) (a : A) : bool :=
  bool_decide (a ∈ l).

(** The instance obligations of a vocabulary given by its list of names. *)
Ltac solve_vocabulary :=
  first
    [ intros []; cbn; repeat (first [left | right]); fail
    | intros a; destruct a; cbn; set_solver
    | intros a b; destruct a, b; cbn; intros; first [reflexivity | discriminate] ].

(** ** Lists *)

Section filters.
Context {A : Type} (P : A → Prop) `{!∀ a, Decision (P a)}.
Lemma filter_none (l : list A) : (∀ a, a ∈ l → ¬ P a) → filter P l = [].
Proof.
  induction l as [|a l IH]; intros Hl; [done|].
  rewrite filter_cons_False by (apply Hl; left). apply IH. intros b Hb. apply Hl. by right.
Qed.
Lemma filter_all (l : list A) : (∀ a, a ∈ l → P a) → filter P l = l.
Proof.
  induction l as [|a l IH]; intros Hl; [done|].
  rewrite filter_cons_True by (apply Hl; left). f_equal. apply IH. intros b Hb. apply Hl. by right.
Qed.
End filters.

Lemma NoDup_fmap_elem {A B} (f : A → B) l x y :
  NoDup (f <$> l) → x ∈ l → y ∈ l → f x = f y → x = y.
Proof.
  induction l as [|z l IH]; [by intros _ ?%elem_of_nil|]. rewrite fmap_cons, NoDup_cons.
  intros [Hz Hl] [->|Hx]%elem_of_cons [->|Hy]%elem_of_cons He; [done| | |by apply IH].
  - destruct Hz. rewrite He. by apply list_elem_of_fmap_2.
  - destruct Hz. rewrite <- He. by apply list_elem_of_fmap_2.
Qed.

(** The order of strings. *)
Lemma leb_lt a b : String.leb a b = true ↔ String.compare a b = Lt ∨ a = b.
Proof.
  unfold String.leb. destruct (String.compare a b) eqn:Hc.
  - apply String.compare_eq_iff in Hc. split; [by right|done].
  - split; [by left|done].
  - split; [done|]. intros [?|Heq]; [done|]. subst.
    pose proof (String.compare_antisym b b) as Hb.
    by rewrite Hc in Hb.
Qed.
Lemma leb_trans a b c : String.leb a b = true → String.leb b c = true → String.leb a c = true.
Proof.
  rewrite !leb_lt. intros [Hab| ->] [Hbc| ->]; auto. left.
  by apply (StrictOrder_Transitive (StrictOrder := String_as_OT.lt_strorder) _ b).
Qed.

(** ** Automation *)

Create HintDb rp.
#[export] Hint Rewrite @bind_ok @then_ok : rp.

(** Case analysis on boolean tests and decisions. *)
Ltac destruct_tests :=
  repeat match goal with
  | H : context [if ?b then _ else _] |- _ => destruct b eqn:?
  | |- context [if ?b then _ else _] => destruct b eqn:?
  end.
