(* ===== verification/Bytes.v ===== *)
(** * Bytes: integers, text and base64url

    [Buffer.from(s, "utf8")], [buffer.toString("utf8")], [Buffer.from(s,
    "base64url")] and [buffer.toString("base64url")] of the platform.  Decoded
    text is a list of UTF-16 code units, since bytes from outside can stand for
    characters that a Rocq [string] has no room for; [units] are those of a
    string. *)

From Stdlib Require Export Strings.Byte.
From S2P Require Import Prelude.

Local Open Scope N_scope.

Definition to_byte (n : N) : byte :=
  match Byte.of_N (N.land n 255) with Some b => b | None => "000"%byte end.
#[export] Instance byte_eq_dec : EqDecision byte := Byte.byte_eq_dec.

Lemma to_byte_N n : Byte.to_N (to_byte n) = N.land n 255.
Proof.
  unfold to_byte. destruct (Byte.of_N (N.land n 255)) as [b|] eqn:Hb; [by apply Byte.to_of_N|].
  apply Byte.of_N_None_iff in Hb. exfalso.
  assert (N.land n 255 < 256) by (change 255 with (N.ones 8); rewrite N.land_ones; by apply N.mod_lt).
  lia.
Qed.
Lemma byte_below b : Byte.to_N b < 256.
Proof. pose proof (Byte.to_N_bounded b). lia. Qed.
Lemma to_byte_small n : n < 256 → Byte.to_N (to_byte n) = n.
Proof.
  intros Hn. rewrite to_byte_N. change 255 with (N.ones 8). rewrite N.land_ones.
  by apply N.mod_small.
Qed.
Lemma of_byte b : to_byte (Byte.to_N b) = b.
Proof.
  unfold to_byte. assert (N.land (Byte.to_N b) 255 = Byte.to_N b) as ->.
  { rewrite <- to_byte_N. by apply to_byte_small, byte_below. }
  by rewrite Byte.of_to_N.
Qed.

(** ** Big-endian integers *)

(** [for (shift = 8 * (n - 1); shift >= 0; shift -= 8) push(v >> shift & 0xff)]. *)
Definition big_endian (n : nat) (v : N) : list byte :=
  (λ i, to_byte (N.shiftr v (8 * N.of_nat i))) <$> reverse (seq 0 n).
Definition of_big_endian (l : list byte) : N :=
  foldl (λ v b, N.lor (N.shiftl v 8) (Byte.to_N b)) 0 l.

Lemma length_big_endian n v : length (big_endian n v) = n.
Proof. unfold big_endian. by rewrite length_fmap, length_reverse, length_seq. Qed.
Lemma big_endian_S n v :
  big_endian (S n) v = big_endian n (N.shiftr v 8) ++ [to_byte v].
Proof.
  unfold big_endian. rewrite <- cons_seq, <- fmap_S_seq, reverse_cons, fmap_app.
  f_equal.
  rewrite <- !fmap_reverse, <- list_fmap_compose. apply list_fmap_ext. intros i j _. cbn.
  rewrite N.shiftr_shiftr. do 2 f_equal. lia.
Qed.
Lemma of_big_endian_snoc l b :
  of_big_endian (l ++ [b]) = N.lor (N.shiftl (of_big_endian l) 8) (Byte.to_N b).
Proof. unfold of_big_endian. by rewrite foldl_app. Qed.

Lemma big_endian_round_trip n v : v < 2 ^ (8 * N.of_nat n) → of_big_endian (big_endian n v) = v.
Proof.
  revert v. induction n as [|n IH]; intros v Hv.
  - cbn in *. lia.
  - rewrite big_endian_S, of_big_endian_snoc, to_byte_N, IH.
    + apply N.bits_inj. intros i. rewrite N.lor_spec, N.land_spec.
      change 255 with (N.ones 8). destruct (decide (8 ≤ i)) as [Hi|Hi].
      * rewrite N.shiftl_spec_high', N.shiftr_spec', N.ones_spec_high by done.
        rewrite andb_false_r, orb_false_r. f_equal. lia.
      * rewrite N.shiftl_spec_low, N.ones_spec_low by lia. by rewrite andb_true_r.
    + rewrite N.shiftr_div_pow2. apply N.Div0.div_lt_upper_bound.
      rewrite <- N.pow_add_r. replace (8 + 8 * N.of_nat n) with (8 * N.of_nat (S n)) by lia. done.
Qed.

(** ** UTF-8 *)

Definition units (s : string) : list N := N_of_ascii <$> String.list_ascii_of_string s.

(** A character below 256 takes one byte or two. *)
Definition utf8_char (c : N) : list byte :=
  if bool_decide (c < 128) then [to_byte c]
  else [to_byte (192 + N.shiftr c 6); to_byte (128 + N.land c 63)].
Definition utf8 (s : string) : list byte := units s ≫= utf8_char.

(** The decoder of the Encoding standard: [needed] continuation bytes are still
    to come, the next of them between [lo] and [hi]; what does not fit becomes
    U+FFFD, and the byte that did not fit is looked at again. *)
Definition REPLACEMENT : N := 65533.
Definition code_units (c : N) : list N :=
  if bool_decide (c < 65536) then [c]
  else [55296 + N.shiftr (c - 65536) 10; 56320 + N.land (c - 65536) 1023].
Definition lead (b : N) : list N * (nat * N * N * N) :=
  if bool_decide (b < 128) then ([b], (0%nat, 0, 128, 191))
  else if bool_decide (194 ≤ b ≤ 223) then ([], (1%nat, N.land b 31, 128, 191))
  else if bool_decide (224 ≤ b ≤ 239) then
    ([], (2%nat, N.land b 15, if bool_decide (b = 224) then 160 else 128,
          if bool_decide (b = 237) then 159 else 191))
  else if bool_decide (240 ≤ b ≤ 244) then
    ([], (3%nat, N.land b 7, if bool_decide (b = 240) then 144 else 128,
          if bool_decide (b = 244) then 143 else 191))
  else ([REPLACEMENT], (0%nat, 0, 128, 191)).
Fixpoint utf8_step (l : list byte) (needed : nat) (c lo hi : N) : list N :=
  match l with
  | [] => match needed with O => [] | S _ => [REPLACEMENT] end
  | x :: l' =>
      let b := Byte.to_N x in
      match needed with
      | S n =>
          if bool_decide (lo ≤ b ≤ hi) then
            let c' := N.lor (N.shiftl c 6) (N.land b 63) in
            match n with
            | O => code_units c' ++ utf8_step l' 0 0 128 191
            | S _ => utf8_step l' n c' 128 191
            end
          else
            let '(out, (n', c', lo', hi')) := lead b in
            REPLACEMENT :: out ++ utf8_step l' n' c' lo' hi'
      | O =>
          let '(out, (n', c', lo', hi')) := lead b in out ++ utf8_step l' n' c' lo' hi'
      end
  end.
Definition of_utf8 (l : list byte) : list N := utf8_step l 0 0 128 191.

Lemma utf8_char_round_trip c tail : c < 256 → of_utf8 (utf8_char c ++ tail) = c :: of_utf8 tail.
Proof.
  intros Hc. unfold utf8_char. case_bool_decide as Hlow.
  - unfold of_utf8. cbn [app utf8_step]. rewrite to_byte_small by lia.
    unfold lead. by rewrite bool_decide_true.
  - unfold of_utf8. cbn [app utf8_step].
    assert (N.shiftr c 6 < 4).
    { rewrite N.shiftr_div_pow2. apply N.Div0.div_lt_upper_bound. cbn. lia. }
    assert (2 ≤ N.shiftr c 6).
    { rewrite N.shiftr_div_pow2. apply N.div_le_lower_bound; cbn; lia. }
    assert (N.land c 63 < 64).
    { change 63 with (N.ones 6). rewrite N.land_ones. apply N.mod_lt. done. }
    rewrite !to_byte_small by lia. unfold lead.
    rewrite bool_decide_false, bool_decide_true by lia. cbn [app].
    rewrite bool_decide_true by lia.
    assert (N.lor (N.shiftl (N.land (192 + N.shiftr c 6) 31) 6) (N.land (128 + N.land c 63) 63) = c)
      as ->.
    { assert (∃ n, c = N.of_nat n ∧ (n < 256)%nat) as (n & -> & Hn).
      { exists (N.to_nat c). lia. }
      assert (Forall (λ n, let c := N.of_nat n in
        N.lor (N.shiftl (N.land (192 + N.shiftr c 6) 31) 6) (N.land (128 + N.land c 63) 63)
          = N.land c 255) (seq 0 256)) as Hall.
      { apply (bool_decide_unpack _). vm_compute. exact I. }
      rewrite Forall_forall in Hall. rewrite (Hall n) by (apply elem_of_seq; lia).
      change 255 with (N.ones 8). rewrite N.land_ones. apply N.mod_small. cbn. lia. }
    unfold code_units. by rewrite bool_decide_true by lia.
Qed.

Lemma utf8_round_trip s : of_utf8 (utf8 s) = units s.
Proof.
  unfold utf8, units. induction (String.list_ascii_of_string s) as [|c l IH]; [done|].
  cbn [fmap list_fmap]. rewrite bind_cons, utf8_char_round_trip; [by f_equal|].
  apply N_ascii_bounded.
Qed.

Lemma units_inj s s' : units s = units s' → s = s'.
Proof.
  unfold units. intros Hs.
  assert (String.list_ascii_of_string s = String.list_ascii_of_string s') as Hl.
  { apply (list_fmap_eq_inj N_of_ascii); [|done]. intros a b Hab.
    by rewrite <- (ascii_N_embedding a), Hab, ascii_N_embedding. }
  rewrite <- (String.string_of_list_ascii_of_string s), Hl.
  apply String.string_of_list_ascii_of_string.
Qed.

(** ** base64url

    Eight bits to a byte, six to a character; the last character is filled with
    zeros and nothing is padded. *)

Definition bits_of (width : list N) (v : N) : list bool := N.testbit v <$> width.
Definition byte_bits (b : byte) : list bool := bits_of [7; 6; 5; 4; 3; 2; 1; 0] (Byte.to_N b).
Definition sextet_bits (v : N) : list bool := bits_of [5; 4; 3; 2; 1; 0] v.
Definition bits_value (l : list bool) : N := foldl (λ v (b : bool), 2 * v + if b then 1 else 0) 0 l.

Definition ALPHABET : string := "ABCDEFGHIJKLMNOPQRSTUVWXYZabcdefghijklmnopqrstuvwxyz0123456789-_".
Definition sextet_char (v : N) : ascii := default "A"%char (String.get (N.to_nat v) ALPHABET).
(** The decoder reads both alphabets. *)
Definition char_sextet (c : ascii) : option N :=
  if bool_decide (c = "+"%char) then Some 62
  else if bool_decide (c = "/"%char) then Some 63
  else (λ p, N.of_nat p.1) <$> list_find (eq c) (String.list_ascii_of_string ALPHABET).

Fixpoint sextets (bits : list bool) : list (list bool) :=
  match bits with
  | [] => []
  | a :: b :: c :: d :: e :: f :: rest => [a; b; c; d; e; f] :: sextets rest
  | short => [take 6 (short ++ replicate 5 false)]
  end.
Fixpoint octets (bits : list bool) : list byte :=
  match bits with
  | a :: b :: c :: d :: e :: f :: g :: h :: rest =>
      to_byte (bits_value [a; b; c; d; e; f; g; h]) :: octets rest
  | _ => []
  end.

Definition base64url (l : list byte) : string :=
  String.string_of_list_ascii ((λ b, sextet_char (bits_value b)) <$> sextets (l ≫= byte_bits)).
(** What is in neither alphabet is skipped, and [=] ends the text. *)
Fixpoint before_padding (l : list ascii) : list ascii :=
  match l with
  | [] => []
  | c :: l' => if bool_decide (c = "="%char) then [] else c :: before_padding l'
  end.
Definition of_base64url (s : string) : list byte :=
  octets (omap char_sextet (before_padding (String.list_ascii_of_string s)) ≫= sextet_bits).

Lemma sextet_char_ok v :
  v < 64 → char_sextet (sextet_char v) = Some v ∧ sextet_char v ≠ "="%char
    ∧ sextet_char v ≠ "."%char.
Proof.
  intros Hv. assert (Forall (λ n, char_sextet (sextet_char (N.of_nat n)) = Some (N.of_nat n)
    ∧ sextet_char (N.of_nat n) ≠ "="%char ∧ sextet_char (N.of_nat n) ≠ "."%char) (seq 0 64)) as Hall.
  { apply (bool_decide_unpack _). vm_compute. exact I. }
  rewrite Forall_forall in Hall. specialize (Hall (N.to_nat v)).
  rewrite N2Nat.id in Hall. apply Hall, elem_of_seq. lia.
Qed.

Lemma sextets_length bits : Forall (λ b, length b = 6%nat) (sextets bits).
Proof.
  assert (∀ n bits, (length bits ≤ n)%nat → Forall (λ b, length b = 6%nat) (sextets bits)) as H;
    [|by eapply H].
  intros n. induction n as [|n IH]; intros [|a [|b [|c [|d [|e [|f rest]]]]]] Hn; cbn in Hn;
    try lia; try (by repeat constructor).
  constructor; [done|]. apply IH. lia.
Qed.
Lemma sextets_join bits : ∃ pad, (length pad < 6)%nat ∧ concat (sextets bits) = bits ++ pad.
Proof.
  assert (∀ n bits, (length bits ≤ n)%nat →
    ∃ pad, (length pad < 6)%nat ∧ concat (sextets bits) = bits ++ pad) as H; [|by eapply H].
  intros n. induction n as [|n IH]; intros [|a [|b [|c [|d [|e [|f rest]]]]]] Hn; cbn in Hn;
    try lia;
    try (by (exists []; split; [cbn; lia|]));
    first [by (exists (replicate 5 false); split; [cbn; lia|])
          |by (exists (replicate 4 false); split; [cbn; lia|])
          |by (exists (replicate 3 false); split; [cbn; lia|])
          |by (exists (replicate 2 false); split; [cbn; lia|])
          |by (exists (replicate 1 false); split; [cbn; lia|])|idtac].
  destruct (IH rest) as (pad & Hp & Hj); [lia|]. exists pad. split; [done|].
  cbn [sextets concat]. by rewrite Hj.
Qed.

Lemma bits_value_sextet b : length b = 6%nat → bits_value b < 64 ∧ sextet_bits (bits_value b) = b.
Proof.
  intros Hb. do 6 (destruct b as [|? b]; [discriminate|]). destruct b; [|discriminate].
  repeat match goal with x : bool |- _ => destruct x end; by split; vm_compute.
Qed.
Lemma byte_bits_ok b : ∃ x0 x1 x2 x3 x4 x5 x6 x7, byte_bits b = [x0; x1; x2; x3; x4; x5; x6; x7]
  ∧ to_byte (bits_value [x0; x1; x2; x3; x4; x5; x6; x7]) = b.
Proof. do 8 eexists. split; [reflexivity|]. by destruct b. Qed.

Lemma octets_join l pad : (length pad < 8)%nat → octets ((l ≫= byte_bits) ++ pad) = l.
Proof.
  intros Hp. induction l as [|b l IH].
  - cbn. do 8 (destruct pad as [|? pad]; [done|]). cbn in Hp. lia.
  - rewrite bind_cons. destruct (byte_bits_ok b) as (x0 & x1 & x2 & x3 & x4 & x5 & x6 & x7 & -> & Hv).
    cbn [app octets]. by rewrite Hv, IH.
Qed.

Lemma before_padding_id l : Forall (λ c, c ≠ "="%char) l → before_padding l = l.
Proof.
  induction 1 as [|c l Hc _ IH]; [done|]. cbn. by rewrite bool_decide_false, IH.
Qed.

Lemma base64url_round_trip l : of_base64url (base64url l) = l.
Proof.
  unfold of_base64url, base64url. rewrite String.list_ascii_of_string_of_list_ascii.
  pose proof (sextets_length (l ≫= byte_bits)) as Hs.
  assert (∀ bs, Forall (λ b, length b = 6%nat) bs →
    omap char_sextet (before_padding ((λ b, sextet_char (bits_value b)) <$> bs)) ≫= sextet_bits = concat bs)
    as Hd.
  { intros bs Hbs. rewrite before_padding_id.
    - induction Hbs as [|b bs Hb _ IH]; [done|]. apply bits_value_sextet in Hb as [Hv Hb].
      destruct (sextet_char_ok _ Hv) as [Hc _]. rewrite fmap_cons. cbn [omap list_omap]. rewrite Hc, bind_cons, Hb.
      cbn [concat]. by rewrite IH.
    - apply Forall_fmap. eapply Forall_impl; [exact Hbs|]. intros b [Hv _]%bits_value_sextet.
      by apply (sextet_char_ok _ Hv). }
  rewrite Hd by done. destruct (sextets_join (l ≫= byte_bits)) as (pad & Hp & ->).
  apply octets_join. lia.
Qed.

Lemma String_length_of_list l : String.length (String.string_of_list_ascii l) = length l.
Proof. induction l as [|c l IH]; [done|]. cbn. by rewrite IH. Qed.

Lemma base64url_no_dot l : free_of "." (base64url l) = true.
Proof.
  apply free_of_list. unfold base64url. rewrite String.list_ascii_of_string_of_list_ascii.
  apply Forall_fmap. eapply Forall_impl; [apply sextets_length|].
  intros b [Hv _]%bits_value_sextet. by apply (sextet_char_ok _ Hv).
Qed.

Lemma sextets_count bits : (6 * length (sextets bits) ≤ length bits + 5)%nat.
Proof.
  assert (∀ n bits, (length bits ≤ n)%nat → (6 * length (sextets bits) ≤ length bits + 5)%nat) as H;
    [|by eapply H].
  intros n. induction n as [|n IH]; intros [|a [|b [|c [|d [|e [|f rest]]]]]] Hn; cbn in Hn;
    try lia; try (cbn; lia).
  specialize (IH rest ltac:(lia)). cbn [sextets length]. lia.
Qed.
Lemma byte_bits_count l : length (l ≫= byte_bits) = (8 * length l)%nat.
Proof. induction l as [|b l IH]; [done|]. rewrite bind_cons, length_app, IH. cbn. lia. Qed.

(** Eight bits to a byte, six to a character, rounded up. *)
Lemma base64url_length l : (6 * String.length (base64url l) ≤ 8 * length l + 5)%nat.
Proof.
  unfold base64url. rewrite String_length_of_list, length_fmap.
  pose proof (sextets_count (l ≫= byte_bits)). rewrite byte_bits_count in *. lia.
Qed.

(** ** Digests

    [createHash("sha256").update(bytes).digest("hex")]: Node's [crypto]. *)
Class Sha256 := sha256_hex : list byte → string.
