(* ===== verification/Capability.v ===== *)
(** * Route capabilities: the bearer token of a browser session
    ([src/packages/protocol/src/capability.ts])

    The token is [rp1.payload.mac], both parts in base64url, the MAC over the
    payload under the signing key.  HMAC-SHA256 is the platform's: an argument.
    The fields of minted claims are strings; those of decoded claims are code
    units. *)

From S2P Require Import Prelude Bytes.

Class Hmac := hmac_sha256 : list byte → list byte → list byte.

Definition CAPABILITY_SCHEME : string := "rp1".
Definition CAPABILITY_MAC_DOMAIN : string := "reviewplane/route-capability/v1".
Definition CAPABILITY_PAYLOAD_VERSION : N := 1.
Definition MAX_CAPABILITY_KEY_ID_LENGTH : nat := 32.
Definition MAX_CAPABILITY_IDENTIFIER_LENGTH : nat := 64.
Definition MIN_CAPABILITY_SIGNING_KEY_BYTES : nat := 32.
Definition MAX_CAPABILITY_TOKEN_LENGTH : nat := 512.

Record CapabilityClaims (text : Type) := mk_claims {
  cap_keyId : text;
  cap_capabilityId : text;
  cap_routeId : text;
  cap_projectId : text;
  cap_browserSessionId : text;
  cap_issuedAt : Z;
  cap_expiresAt : Z
}.
Arguments mk_claims {text} _ _ _ _ _ _ _.
Arguments cap_keyId {text} _.
Arguments cap_capabilityId {text} _.
Arguments cap_routeId {text} _.
Arguments cap_projectId {text} _.
Arguments cap_browserSessionId {text} _.
Arguments cap_issuedAt {text} _.
Arguments cap_expiresAt {text} _.

Inductive CapabilityRejection :=
| malformed | unsupported_version | unknown_key | bad_signature | expired.
#[export] Instance CapabilityRejection_eq_dec : EqDecision CapabilityRejection.
Proof. solve_decision. Defined.
Record CapabilityError := capability_error { rejection : CapabilityRejection; reason : string }.

Definition CapabilityKeyring := gmap (list N) (list byte).

(** [decodeBase64Url]: text the lenient decoder reads otherwise is refused. *)
Definition decodeBase64Url (text : string) : option (list byte) :=
  let bytes := of_base64url text in
  if bool_decide (base64url bytes = text) then Some bytes else None.

(** ** Encoding *)

Definition MAX_SAFE_INTEGER : Z := 9007199254740991.
Definition isSafeInteger (z : Z) : bool :=
  bool_decide (- MAX_SAFE_INTEGER ≤ z ≤ MAX_SAFE_INTEGER)%Z.

Definition boundCapabilityField (what value : string) (maximum : nat) : result string unit :=
  if bool_decide (value = "") then Err ("capability " +:+ what +:+ " must not be empty")
  else if bool_decide (maximum < length (utf8 value)) then
    Err ("capability " +:+ what +:+ " exceeds " +:+ pretty maximum +:+ " bytes")
  else Ok tt.
Definition appendField (value : string) : list byte :=
  let bytes := utf8 value in to_byte (N.of_nat (length bytes)) :: bytes.
Definition appendUint64 (value : Z) : list byte := big_endian 8 (Z.to_N value).

Definition encodeCapabilityPayload (claims : CapabilityClaims string) : result string (list byte) :=
  boundCapabilityField "key_id" (cap_keyId claims) MAX_CAPABILITY_KEY_ID_LENGTH ;;
  boundCapabilityField "capability_id" (cap_capabilityId claims) MAX_CAPABILITY_IDENTIFIER_LENGTH ;;
  boundCapabilityField "route_id" (cap_routeId claims) MAX_CAPABILITY_IDENTIFIER_LENGTH ;;
  boundCapabilityField "project_id" (cap_projectId claims) MAX_CAPABILITY_IDENTIFIER_LENGTH ;;
  boundCapabilityField "browser_session_id" (cap_browserSessionId claims)
    MAX_CAPABILITY_IDENTIFIER_LENGTH ;;
  if negb (isSafeInteger (cap_issuedAt claims)) || negb (isSafeInteger (cap_expiresAt claims))
  then Err "capability timestamps must be safe integers"
  else if bool_decide (cap_issuedAt claims < 0)%Z || bool_decide (cap_expiresAt claims < 0)%Z
  then Err "capability timestamps must not be negative"
  else if bool_decide (cap_expiresAt claims ≤ cap_issuedAt claims)%Z
  then Err "capability must expire after it is issued"
  else Ok ([to_byte CAPABILITY_PAYLOAD_VERSION] ++ appendField (cap_keyId claims)
    ++ appendUint64 (cap_issuedAt claims) ++ appendUint64 (cap_expiresAt claims)
    ++ appendField (cap_capabilityId claims) ++ appendField (cap_routeId claims)
    ++ appendField (cap_projectId claims) ++ appendField (cap_browserSessionId claims)).

(** ** Decoding

    A cursor into the payload is the rest of it. *)

Definition readField (rest : list byte) : option (list N * list byte) :=
  match rest with
  | [] => None
  | b :: rest' =>
      let n := N.to_nat (Byte.to_N b) in
      if bool_decide (length rest' < n) then None
      else Some (of_utf8 (take n rest'), drop n rest')
  end.
Definition readUint64 (l : list byte) : Z := Z.of_N (of_big_endian (take 8 l)).

Definition refused {A} (r : CapabilityRejection) (m : string) : result CapabilityError A :=
  Err (capability_error r m).
Definition field_or {A} (o : option A) (what : string) : result CapabilityError A :=
  match o with
  | Some a => Ok a
  | None => refused malformed ("payload is truncated at " +:+ what)
  end.

Definition decodeCapabilityPayload (payload : list byte) :
    result CapabilityError (CapabilityClaims (list N)) :=
  match payload with
  | [] => refused malformed "payload is empty"
  | version :: rest =>
      if negb (bool_decide (Byte.to_N version = CAPABILITY_PAYLOAD_VERSION)) then
        refused unsupported_version
          ("payload version " +:+ pretty (Byte.to_N version) +:+ " is not supported")
      else
        '(keyId, rest) ← field_or (readField rest) "key_id";
        if bool_decide (length rest < 16) then
          refused malformed "payload is truncated at the timestamps"
        else
          let issuedAt := readUint64 rest in
          let expiresAt := readUint64 (drop 8 rest) in
          '(capabilityId, rest) ← field_or (readField (drop 16 rest)) "capability_id";
          '(routeId, rest) ← field_or (readField rest) "route_id";
          '(projectId, rest) ← field_or (readField rest) "project_id";
          '(browserSessionId, rest) ← field_or (readField rest) "browser_session_id";
          if negb (bool_decide (rest = [])) then refused malformed "payload carries trailing bytes"
          else if negb (isSafeInteger issuedAt) || negb (isSafeInteger expiresAt) then
            refused malformed "payload timestamps are out of range"
          else Ok (mk_claims keyId capabilityId routeId projectId browserSessionId issuedAt expiresAt)
  end.

(** ** Tokens *)

Section tokens.
Context `{Hmac}.

Definition capabilityMac (key payload : list byte) : list byte :=
  hmac_sha256 key (utf8 CAPABILITY_MAC_DOMAIN ++ payload).

Definition token_of (key payload : list byte) : string :=
  CAPABILITY_SCHEME +:+ "." +:+ base64url payload +:+ "." +:+ base64url (capabilityMac key payload).

Definition mintCapability (key : list byte) (claims : CapabilityClaims string) : result string string :=
  if bool_decide (length key < MIN_CAPABILITY_SIGNING_KEY_BYTES) then
    Err ("capability signing key must be at least " +:+ pretty MIN_CAPABILITY_SIGNING_KEY_BYTES
           +:+ " bytes")
  else
    payload ← encodeCapabilityPayload claims;
    let token := token_of key payload in
    if bool_decide (MAX_CAPABILITY_TOKEN_LENGTH < String.length token) then
      Err ("capability token of " +:+ pretty (String.length token) +:+ " characters exceeds the "
             +:+ pretty MAX_CAPABILITY_TOKEN_LENGTH +:+ " character schema bound")
    else Ok token.

Definition verifyCapability (keys : CapabilityKeyring) (token : string) (nowUnix : Z) :
    result CapabilityError (CapabilityClaims (list N)) :=
  if bool_decide (MAX_CAPABILITY_TOKEN_LENGTH < String.length token) then
    refused malformed ("token of " +:+ pretty (String.length token) +:+ " characters exceeds the "
      +:+ pretty MAX_CAPABILITY_TOKEN_LENGTH +:+ " character bound")
  else match split "." token with
  | [scheme; body; signature] =>
      if negb (bool_decide (scheme = CAPABILITY_SCHEME)) then
        refused malformed "token is not scheme.payload.signature"
      else match decodeBase64Url body with
      | None => refused malformed "payload is not base64url"
      | Some payload =>
          match decodeBase64Url signature with
          | None => refused malformed "signature is not base64url"
          | Some mac =>
              claims ← decodeCapabilityPayload payload;
              match keys !! cap_keyId claims with
              | None => refused unknown_key "no signing key for the token's key identifier"
              | Some key =>
                  if bool_decide (length key < MIN_CAPABILITY_SIGNING_KEY_BYTES) then
                    refused unknown_key "no signing key for the token's key identifier"
                  else if negb (bool_decide (mac = capabilityMac key payload)) then
                    refused bad_signature "signature does not verify"
                  else if bool_decide (cap_expiresAt claims ≤ nowUnix)%Z then
                    refused expired "capability expired"
                  else Ok claims
              end
          end
      end
  | _ => refused malformed "token is not scheme.payload.signature"
  end.
End tokens.

(** ** Theorems *)

Definition claims_units (c : CapabilityClaims string) : CapabilityClaims (list N) :=
  mk_claims (units (cap_keyId c)) (units (cap_capabilityId c)) (units (cap_routeId c))
    (units (cap_projectId c)) (units (cap_browserSessionId c)) (cap_issuedAt c) (cap_expiresAt c).

Definition bounded (value : string) (maximum : nat) : Prop :=
  value ≠ "" ∧ length (utf8 value) ≤ maximum.
(** What [mintCapability] asks of its claims. *)
Definition mintable (c : CapabilityClaims string) : Prop :=
  bounded (cap_keyId c) 32 ∧ bounded (cap_capabilityId c) 64 ∧ bounded (cap_routeId c) 64
  ∧ bounded (cap_projectId c) 64 ∧ bounded (cap_browserSessionId c) 64
  ∧ (0 ≤ cap_issuedAt c < cap_expiresAt c)%Z ∧ (cap_expiresAt c ≤ MAX_SAFE_INTEGER)%Z.

Lemma bound_pass what value maximum :
  pass (boundCapabilityField what value maximum) ↔ bounded value maximum.
Proof.
  unfold boundCapabilityField, bounded. repeat case_bool_decide; try (by split; [|intros []]).
  - by split; [|intros [? ?]; lia].
  - split; [intros _; split; [done|lia]|done].
Qed.

Definition payload_of (c : CapabilityClaims string) : list byte :=
  [to_byte CAPABILITY_PAYLOAD_VERSION] ++ appendField (cap_keyId c)
  ++ appendUint64 (cap_issuedAt c) ++ appendUint64 (cap_expiresAt c)
  ++ appendField (cap_capabilityId c) ++ appendField (cap_routeId c)
  ++ appendField (cap_projectId c) ++ appendField (cap_browserSessionId c).

Lemma encode_ok c p : encodeCapabilityPayload c = Ok p ↔ mintable c ∧ p = payload_of c.
Proof.
  unfold encodeCapabilityPayload, mintable, isSafeInteger.
  rewrite !then_ok, !bound_pass. fold (payload_of c).
  unfold MAX_CAPABILITY_KEY_ID_LENGTH, MAX_CAPABILITY_IDENTIFIER_LENGTH, MAX_SAFE_INTEGER.
  split.
  - intros (? & ? & ? & ? & ? & Hr). repeat case_bool_decide; cbn in Hr; try discriminate.
    injection Hr as <-. split_and!; try done; lia.
  - intros ((? & ? & ? & ? & ? & ? & ?) & ->). split_and!; try done.
    repeat case_bool_decide; cbn; try done; lia.
Qed.

Lemma readField_append value rest :
  length (utf8 value) ≤ 64 → readField (appendField value ++ rest) = Some (units value, rest).
Proof.
  intros Hl. unfold appendField. cbn [app readField]. rewrite to_byte_small by lia.
  rewrite Nat2N.id, bool_decide_false by (rewrite length_app; lia).
  by rewrite take_app_length, drop_app_length, utf8_round_trip.
Qed.
Lemma readUint64_append v rest :
  (0 ≤ v ≤ MAX_SAFE_INTEGER)%Z → readUint64 (appendUint64 v ++ rest) = v.
Proof.
  unfold MAX_SAFE_INTEGER. intros Hv. unfold readUint64, appendUint64.
  rewrite take_app_length' by (symmetry; apply length_big_endian).
  rewrite big_endian_round_trip; [lia|]. cbn. lia.
Qed.

Lemma decode_payload c : mintable c → decodeCapabilityPayload (payload_of c) = Ok (claims_units c).
Proof.
  intros ([_ Hk] & [_ Hc] & [_ Hr] & [_ Hp] & [_ Hb] & Ht & He).
  unfold payload_of. cbn [app decodeCapabilityPayload].
  rewrite bool_decide_true by done. cbn [negb].
  rewrite readField_append by lia. cbn [field_or mbind result_bind].
  assert (∀ v, length (appendUint64 v) = 8) as H8 by (intros; apply length_big_endian).
  rewrite bool_decide_false by (rewrite !length_app, !H8; lia).
  rewrite readUint64_append by lia.
  rewrite (drop_app_length' (appendUint64 _)) by (symmetry; apply H8). rewrite readUint64_append by lia.
  replace (drop 16 _) with (appendField (cap_capabilityId c) ++ appendField (cap_routeId c)
    ++ appendField (cap_projectId c) ++ appendField (cap_browserSessionId c))
    by (by rewrite (app_assoc (appendUint64 _)), drop_app_length' by (by rewrite length_app, !H8)).
  rewrite !readField_append by lia. cbn [field_or mbind result_bind].
  rewrite readField_append by lia. cbn [field_or mbind result_bind].
  rewrite readField_append by lia. cbn [field_or mbind result_bind].
  rewrite <- (app_nil_r (appendField (cap_browserSessionId c))), readField_append by lia.
  cbn [field_or mbind result_bind]. rewrite bool_decide_true by done. cbn [negb].
  unfold isSafeInteger, MAX_SAFE_INTEGER in *.
  rewrite !bool_decide_true by lia. done.
Qed.

(** *** The text of a token *)

Lemma decodeBase64Url_Some text l : decodeBase64Url text = Some l ↔ text = base64url l.
Proof.
  unfold decodeBase64Url. case_bool_decide as Hc; split; try done.
  - by intros [= <-].
  - intros ->. by rewrite base64url_round_trip.
  - intros ->. by rewrite base64url_round_trip in Hc.
Qed.

Section authenticity.
Context `{Hmac}.

Lemma dot_append s : "." +:+ s = String "." s.
Proof. done. Qed.
Lemma split_token key payload :
  split "." (token_of key payload)
    = [CAPABILITY_SCHEME; base64url payload; base64url (capabilityMac key payload)].
Proof.
  unfold token_of. rewrite !dot_append, !split_app by first [done|apply base64url_no_dot].
  by rewrite split_free by apply base64url_no_dot.
Qed.

(** C14: the verifier accepts exactly the authentic tokens.  A token is accepted,
    with its claims, exactly when it is the text of a payload that decodes to
    them and of its MAC under the key they name, that key is in the ring and long
    enough, and the claims have not expired: nothing else that decodes leniently,
    carries another MAC or is longer than the schema allows gets through, and a
    payload has one token under one key. *)
Theorem verifyCapability_exact (keys : CapabilityKeyring) (token : string) (nowUnix : Z)
    (claims : CapabilityClaims (list N)) :
  verifyCapability keys token nowUnix = Ok claims ↔
  ∃ payload key, token = token_of key payload ∧ String.length token ≤ MAX_CAPABILITY_TOKEN_LENGTH ∧
    decodeCapabilityPayload payload = Ok claims ∧ keys !! cap_keyId claims = Some key ∧
    MIN_CAPABILITY_SIGNING_KEY_BYTES ≤ length key ∧ (nowUnix < cap_expiresAt claims)%Z.
Proof.
  unfold verifyCapability. case_bool_decide as Hlen.
  { split; [done|]. intros (? & ? & _ & ? & _). lia. }
  split.
  - destruct (split "." token) as [|scheme [|body [|signature [|? ?]]]] eqn:Hs; try done.
    case_bool_decide as Hscheme; cbn [negb]; [|done]. subst scheme.
    destruct (decodeBase64Url body) as [payload|] eqn:Hp; [|done].
    destruct (decodeBase64Url signature) as [mac|] eqn:Hm; [|done].
    apply decodeBase64Url_Some in Hp as ->. apply decodeBase64Url_Some in Hm as ->.
    intros (c & Hd & Hr)%bind_ok.
    destruct (keys !! cap_keyId c) as [key|] eqn:Hk; [|done].
    repeat case_bool_decide; try done. cbn [negb] in Hr. injection Hr as <-. subst.
    exists payload, key. split_and!; try done; [|lia..].
    rewrite <- (join_split "." token), Hs. done.
  - intros (payload & key & -> & _ & Hd & Hk & Hkey & Hnow).
    rewrite split_token, bool_decide_true by done. cbn [negb].
    rewrite !(proj2 (decodeBase64Url_Some _ _) eq_refl), Hd. cbn [mbind result_bind].
    rewrite Hk, bool_decide_false, bool_decide_true, bool_decide_false by first [lia|done]. done.
Qed.

Lemma token_payload key payload key' payload' :
  token_of key payload = token_of key' payload' → payload' = payload.
Proof.
  intros Ht. apply (f_equal (split ".")) in Ht. rewrite !split_token in Ht.
  apply (f_equal (λ l, nth 1 l "")) in Ht. cbn [nth] in Ht.
  by rewrite <- (base64url_round_trip payload'), <- Ht, base64url_round_trip.
Qed.

Lemma utf8_length s : length (utf8 s) ≤ 2 * String.length s.
Proof.
  unfold utf8, units. induction s as [|c s IH]; [done|].
  cbn [String.list_ascii_of_string fmap list_fmap]. rewrite bind_cons, length_app.
  cbn [String.length]. assert (length (utf8_char (N_of_ascii c)) ≤ 2); [|cbn in *; lia].
  unfold utf8_char. case_bool_decide; cbn; lia.
Qed.

(** No token that is minted comes near the bound the minting checks. *)
Lemma token_length key c :
  (∀ k m, length (hmac_sha256 k m) = 32) → mintable c →
  String.length (token_of key (payload_of c)) ≤ 462.
Proof.
  intros Hmac ([_ Hk] & [_ Hc] & [_ Hr] & [_ Hp] & [_ Hb] & _ & _).
  unfold token_of. rewrite !length_append. cbn [String.length CAPABILITY_SCHEME].
  pose proof (base64url_length (payload_of c)) as H1.
  pose proof (base64url_length (capabilityMac key (payload_of c))) as H2.
  unfold capabilityMac in *. rewrite Hmac in H2.
  assert (length (payload_of c) ≤ 310); [|lia].
  unfold payload_of, appendField, appendUint64. rewrite !length_app, !length_big_endian.
  cbn [length]. lia.
Qed.

Lemma verify_minted key c keys nowUnix :
  String.length (token_of key (payload_of c)) ≤ 462 → mintable c →
  verifyCapability keys (token_of key (payload_of c)) nowUnix =
    match keys !! units (cap_keyId c) with
    | None => refused unknown_key "no signing key for the token's key identifier"
    | Some key' =>
        if bool_decide (length key' < MIN_CAPABILITY_SIGNING_KEY_BYTES) then
          refused unknown_key "no signing key for the token's key identifier"
        else if negb (bool_decide (capabilityMac key (payload_of c) = capabilityMac key' (payload_of c)))
        then refused bad_signature "signature does not verify"
        else if bool_decide (cap_expiresAt c ≤ nowUnix)%Z then refused expired "capability expired"
        else Ok (claims_units c)
    end.
Proof.
  intros Hlen Hc. unfold verifyCapability, MAX_CAPABILITY_TOKEN_LENGTH.
  rewrite bool_decide_false by lia. rewrite split_token, bool_decide_true by done. cbn [negb].
  rewrite !(proj2 (decodeBase64Url_Some _ _) eq_refl), decode_payload by done. done.
Qed.

Lemma claims_units_inj c c' : claims_units c = claims_units c' → c = c'.
Proof. destruct c, c'. unfold claims_units. cbn. intros [=]. f_equal; by try apply units_inj. Qed.

Lemma mintCapability_ok k c t :
  (∀ k m, length (hmac_sha256 k m) = 32) →
  mintCapability k c = Ok t ↔
    MIN_CAPABILITY_SIGNING_KEY_BYTES ≤ length k ∧ mintable c ∧ t = token_of k (payload_of c).
Proof.
  intros Hmac. unfold mintCapability. case_bool_decide as Hk.
  { split; [done|]. intros [? _]. lia. }
  rewrite bind_ok. setoid_rewrite encode_ok. split.
  - intros (p & [Hd ->] & Ht). cbv zeta in Ht. case_bool_decide; [done|].
    injection Ht as <-. split_and!; [lia|done|done].
  - intros (_ & Hd & ->). exists (payload_of c). split; [done|]. cbv zeta.
    rewrite bool_decide_false; [done|]. pose proof (token_length k c Hmac Hd).
    unfold MAX_CAPABILITY_TOKEN_LENGTH. lia.
Qed.

(** A verifier that holds the key. *)
Lemma minted_verifies key c token keys nowUnix :
  (∀ k m, length (hmac_sha256 k m) = 32) → mintCapability key c = Ok token →
  keys !! units (cap_keyId c) = Some key →
  verifyCapability keys token nowUnix =
    if bool_decide (nowUnix < cap_expiresAt c)%Z then Ok (claims_units c)
    else refused expired "capability expired".
Proof.
  intros Hmac (Hk & Hc & ->)%mintCapability_ok Hkey; [|done].
  rewrite verify_minted, Hkey by first [done|by apply token_length].
  rewrite bool_decide_false by lia. rewrite bool_decide_true by done. cbn [negb].
  repeat case_bool_decide; first [done|lia].
Qed.

(** C27: minting and verifying a capability.  [mintCapability] returns a token for
    exactly the claims whose fields are present and bounded and whose times are
    in order, and its check of the token's length never fires; a verifier that
    holds the key returns exactly the claims until they expire and refuses them
    from that second on; a verifier without the key, or with one that gives
    another MAC, refuses them; and two sets of claims never share a token. *)
Theorem minted_capability_verifies (key : list byte) (c : CapabilityClaims string)
    (Hmac : ∀ k m, length (hmac_sha256 k m) = 32) :
  (∀ token, mintCapability key c = Ok token ↔
     MIN_CAPABILITY_SIGNING_KEY_BYTES ≤ length key ∧ mintable c ∧ token = token_of key (payload_of c)) ∧
  ∀ token, mintCapability key c = Ok token →
    String.length token ≤ 462 ∧
    (∀ keys nowUnix, keys !! units (cap_keyId c) = Some key →
       verifyCapability keys token nowUnix =
         if bool_decide (nowUnix < cap_expiresAt c)%Z then Ok (claims_units c)
         else refused expired "capability expired") ∧
    (∀ keys nowUnix, keys !! units (cap_keyId c) = None →
       verifyCapability keys token nowUnix
         = refused unknown_key "no signing key for the token's key identifier") ∧
    (∀ keys nowUnix key', keys !! units (cap_keyId c) = Some key' →
       capabilityMac key' (payload_of c) ≠ capabilityMac key (payload_of c) →
       ∃ r m, verifyCapability keys token nowUnix = refused r m ∧ r ∈ [unknown_key; bad_signature]) ∧
    (∀ key' c', mintCapability key' c' = Ok token → c' = c).
Proof.
  pose proof (λ k c t, mintCapability_ok k c t Hmac) as Hmint.
  split; [apply Hmint|]. intros token Htoken. pose proof Htoken as (Hk & Hc & Heq)%Hmint.
  pose proof (token_length key c Hmac Hc) as Hlen.
  split; [by rewrite Heq|]. split; [by intros; apply (minted_verifies key)|].
  rewrite Heq. split; [|split].
  - intros keys nowUnix Hkey. by rewrite verify_minted, Hkey by done.
  - intros keys nowUnix key' Hkey Hne. rewrite verify_minted, Hkey by done.
    case_bool_decide; [by eexists _, _; split; [reflexivity|left]|].
    rewrite bool_decide_false by congruence. eexists _, _. split; [reflexivity|]. right. left.
  - intros key' c' (Hk' & Hc' & Ht)%Hmint. apply claims_units_inj.
    assert (payload_of c' = payload_of c) as Hp by by eapply token_payload.
    apply decode_payload in Hc, Hc'. rewrite Hp in Hc'. congruence.
Qed.
End authenticity.

(** A keyed sum of the length of the real MAC, to evaluate with. *)
#[export] Instance toy_mac : Hmac := λ key m,
  to_byte (foldl (λ v b, v + Byte.to_N b)%N 7%N (key ++ m)) :: take 31 (key ++ replicate 31 "000"%byte).
Definition sample_key : list byte := replicate 32 "011"%byte.
Definition sample_claims : CapabilityClaims string :=
  mk_claims "k1" "cap_1" "svc_1" "prj_1" "brs_1" 1000 4600.
Definition sample_token : string :=
  match mintCapability sample_key sample_claims with Ok t => t | Err _ => "" end.
Definition sample_ring : CapabilityKeyring := {[ units "k1" := sample_key ]}.

Example forged_tokens :
  verifyCapability sample_ring (sample_token +:+ "A") 2000
    = refused bad_signature "signature does not verify" ∧
  verifyCapability sample_ring ("rp2" +:+ String.substring 3 500 sample_token) 2000
    = refused malformed "token is not scheme.payload.signature" ∧
  verifyCapability sample_ring (sample_token +:+ "=") 2000
    = refused malformed "signature is not base64url" ∧
  verifyCapability ∅ sample_token 2000
    = refused unknown_key "no signing key for the token's key identifier".
Proof. by vm_compute. Qed.

Lemma toy_mac_length k m : length (hmac_sha256 k m) = 32.
Proof.
  unfold hmac_sha256, toy_mac. cbn [length]. rewrite length_take, length_app, length_replicate. lia.
Qed.

Lemma minted_capability_verifies_witness :
  verifyCapability sample_ring sample_token 4599 = Ok (claims_units sample_claims) ∧
  verifyCapability sample_ring sample_token 4600 = refused expired "capability expired".
Proof.
  destruct (minted_capability_verifies sample_key sample_claims toy_mac_length) as [_ Hv].
  assert (mintCapability sample_key sample_claims = Ok sample_token) as Hm by (vm_compute; reflexivity).
  destruct (Hv _ Hm) as (_ & Hok & _).
  split; [rewrite (Hok sample_ring 4599%Z eq_refl)|rewrite (Hok sample_ring 4600%Z eq_refl)]; reflexivity.
Defined.
