(* ===== verification/Errors.v ===== *)
(** * Errors: the stable error codes of the API and the [ApiError] value
    ([src/apps/server/src/errors.ts]). *)

From S2P Require Import Prelude.

Inductive ApiErrorCode :=
| AUTHENTICATION_REQUIRED | AUTHORISATION_DENIED | PROJECT_CONTEXT_AMBIGUOUS
| PROJECT_CONTEXT_MISMATCH | RESOURCE_NOT_FOUND | RESOURCE_STALE
| VERSION_CONFLICT | IDEMPOTENCY_CONFLICT | VALIDATION_FAILED
| CONNECTOR_OFFLINE | PUBLISHED_SERVICE_UNAVAILABLE
| BROWSER_CAPACITY_EXHAUSTED | BROWSER_SESSION_NOT_ACTIVE
| BROWSER_COMMAND_TIMEOUT | CONTROL_NOT_OWNED | CONTROL_EPOCH_STALE
| POLICY_DENIED | APPROVAL_REQUIRED | EVIDENCE_REQUIRED
| ARTEFACT_UPLOAD_INCOMPLETE | ARTEFACT_STORE_UNAVAILABLE
| UNSUPPORTED_CAPABILITY | RATE_LIMITED | INTERNAL_ERROR
| ENROLMENT_TOKEN_INVALID | IDENTITY_REVOKED | PROTOCOL_UNSUPPORTED
| PROJECT_NOT_AUTHORISED | WORKSPACE_NOT_FOUND | DESTINATION_NOT_ALLOWED
| PORT_NOT_LISTENING | ROUTE_LIMIT_EXCEEDED | ROUTE_EXPIRED
| STREAM_LIMIT_EXCEEDED | CONTROL_PLANE_UNAVAILABLE | UPGRADE_REQUIRED.

#[export] Instance ApiErrorCode_eq_dec : EqDecision ApiErrorCode.
Proof. solve_decision. Defined.

Definition code_name (c : ApiErrorCode) : string :=
  match c with
  | AUTHENTICATION_REQUIRED => "AUTHENTICATION_REQUIRED"
  | AUTHORISATION_DENIED => "AUTHORISATION_DENIED"
  | PROJECT_CONTEXT_AMBIGUOUS => "PROJECT_CONTEXT_AMBIGUOUS"
  | PROJECT_CONTEXT_MISMATCH => "PROJECT_CONTEXT_MISMATCH"
  | RESOURCE_NOT_FOUND => "RESOURCE_NOT_FOUND"
  | RESOURCE_STALE => "RESOURCE_STALE"
  | VERSION_CONFLICT => "VERSION_CONFLICT"
  | IDEMPOTENCY_CONFLICT => "IDEMPOTENCY_CONFLICT"
  | VALIDATION_FAILED => "VALIDATION_FAILED"
  | CONNECTOR_OFFLINE => "CONNECTOR_OFFLINE"
  | PUBLISHED_SERVICE_UNAVAILABLE => "PUBLISHED_SERVICE_UNAVAILABLE"
  | BROWSER_CAPACITY_EXHAUSTED => "BROWSER_CAPACITY_EXHAUSTED"
  | BROWSER_SESSION_NOT_ACTIVE => "BROWSER_SESSION_NOT_ACTIVE"
  | BROWSER_COMMAND_TIMEOUT => "BROWSER_COMMAND_TIMEOUT"
  | CONTROL_NOT_OWNED => "CONTROL_NOT_OWNED"
  | CONTROL_EPOCH_STALE => "CONTROL_EPOCH_STALE"
  | POLICY_DENIED => "POLICY_DENIED"
  | APPROVAL_REQUIRED => "APPROVAL_REQUIRED"
  | EVIDENCE_REQUIRED => "EVIDENCE_REQUIRED"
  | ARTEFACT_UPLOAD_INCOMPLETE => "ARTEFACT_UPLOAD_INCOMPLETE"
  | ARTEFACT_STORE_UNAVAILABLE => "ARTEFACT_STORE_UNAVAILABLE"
  | UNSUPPORTED_CAPABILITY => "UNSUPPORTED_CAPABILITY"
  | RATE_LIMITED => "RATE_LIMITED"
  | INTERNAL_ERROR => "INTERNAL_ERROR"
  | ENROLMENT_TOKEN_INVALID => "ENROLMENT_TOKEN_INVALID"
  | IDENTITY_REVOKED => "IDENTITY_REVOKED"
  | PROTOCOL_UNSUPPORTED => "PROTOCOL_UNSUPPORTED"
  | PROJECT_NOT_AUTHORISED => "PROJECT_NOT_AUTHORISED"
  | WORKSPACE_NOT_FOUND => "WORKSPACE_NOT_FOUND"
  | DESTINATION_NOT_ALLOWED => "DESTINATION_NOT_ALLOWED"
  | PORT_NOT_LISTENING => "PORT_NOT_LISTENING"
  | ROUTE_LIMIT_EXCEEDED => "ROUTE_LIMIT_EXCEEDED"
  | ROUTE_EXPIRED => "ROUTE_EXPIRED"
  | STREAM_LIMIT_EXCEEDED => "STREAM_LIMIT_EXCEEDED"
  | CONTROL_PLANE_UNAVAILABLE => "CONTROL_PLANE_UNAVAILABLE"
  | UPGRADE_REQUIRED => "UPGRADE_REQUIRED"
  end.

Definition STATUS_BY_CODE (c : ApiErrorCode) : Z :=
  match c with
  | AUTHENTICATION_REQUIRED => 401
  | AUTHORISATION_DENIED => 403
  | PROJECT_CONTEXT_AMBIGUOUS => 409
  | PROJECT_CONTEXT_MISMATCH => 403
  | RESOURCE_NOT_FOUND => 404
  | RESOURCE_STALE => 409
  | VERSION_CONFLICT => 409
  | IDEMPOTENCY_CONFLICT => 409
  | VALIDATION_FAILED => 422
  | CONNECTOR_OFFLINE => 503
  | PUBLISHED_SERVICE_UNAVAILABLE => 409
  | BROWSER_CAPACITY_EXHAUSTED => 503
  | BROWSER_SESSION_NOT_ACTIVE => 409
  | BROWSER_COMMAND_TIMEOUT => 504
  | CONTROL_NOT_OWNED => 409
  | CONTROL_EPOCH_STALE => 409
  | POLICY_DENIED => 403
  | APPROVAL_REQUIRED => 403
  | EVIDENCE_REQUIRED => 422
  | ARTEFACT_UPLOAD_INCOMPLETE => 409
  | ARTEFACT_STORE_UNAVAILABLE => 503
  | UNSUPPORTED_CAPABILITY => 400
  | RATE_LIMITED => 429
  | INTERNAL_ERROR => 500
  | ENROLMENT_TOKEN_INVALID => 401
  | IDENTITY_REVOKED => 403
  | PROTOCOL_UNSUPPORTED => 400
  | PROJECT_NOT_AUTHORISED => 403
  | WORKSPACE_NOT_FOUND => 404
  | DESTINATION_NOT_ALLOWED => 422
  | PORT_NOT_LISTENING => 503
  | ROUTE_LIMIT_EXCEEDED => 429
  | ROUTE_EXPIRED => 409
  | STREAM_LIMIT_EXCEEDED => 429
  | CONTROL_PLANE_UNAVAILABLE => 503
  | UPGRADE_REQUIRED => 426
  end%Z.

(** [new ApiError(code, message, details, status, diagnostic)]. *)
Record ApiError := mk_ApiError {
  code : ApiErrorCode;
  message : string;
  details : option members;
  status_override : option Z;
  diagnostic : option string
}.

Definition error_status (e : ApiError) : Z :=
  default (STATUS_BY_CODE (code e)) (status_override e).

(** [throw new ApiError(code, message, details)]. *)
Definition api_error (c : ApiErrorCode) (m : string) (d : members) : ApiError :=
  mk_ApiError c m (Some d) None None.

Definition throw {A} (c : ApiErrorCode) (m : string) (d : members) :
    result ApiError A :=
  Err (api_error c m d).

Definition notFound (what : string) : ApiError :=
  mk_ApiError RESOURCE_NOT_FOUND (what +:+ " was not found.") None None None.

(** What a caught failure can be, as [renderError] tells them apart. *)
Inductive RequestFailure :=
| ApiFailure (e : ApiError)
| SchemaFailure                       (** carries a [validation] member *)
| FrameworkFailure (statusCode : Z)   (** a numeric [statusCode] member *)
| OtherFailure.

(** [apiError]: the error envelope. *)
Definition apiError (c : ApiErrorCode) (m requestId : string)
    (d : option members) : json :=
  JObj [("error", JObj ([("code", JStr (code_name c)); ("message", JStr m)]
                          ++ opt_member "details" JObj d));
        ("meta", JObj [("request_id", JStr requestId)])].

(** [renderError]: the status and body a failure is answered with. *)
Definition renderError (f : RequestFailure) (requestId : string) : Z * json :=
  match f with
  | ApiFailure e =>
      (error_status e, apiError (code e) (message e) requestId (details e))
  | SchemaFailure =>
      (STATUS_BY_CODE VALIDATION_FAILED,
       apiError VALIDATION_FAILED
         "The request body does not match the schema for this endpoint."
         requestId None)
  | FrameworkFailure s =>
      if bool_decide (400 ≤ s < 500)%Z
      then (s, apiError VALIDATION_FAILED "The request could not be read."
                 requestId None)
      else (500%Z, apiError INTERNAL_ERROR "The request could not be completed."
                     requestId None)
  | OtherFailure =>
      (500%Z, apiError INTERNAL_ERROR "The request could not be completed."
                requestId None)
  end.

(** ** Refusals

    The result monad of the checks: [refuses c m] says that the check [m]
    refuses with the code [c]. *)

Definition refuses {A} (c : ApiErrorCode) (m : result ApiError A) : Prop :=
  match m with Err e => code e = c | Ok _ => False end.

Definition refuse_code {A} (m : result ApiError A) : option ApiErrorCode :=
  match m with Err e => Some (code e) | Ok _ => None end.

Lemma refuses_code {A} c (m : result ApiError A) :
  refuses c m ↔ refuse_code m = Some c.
Proof. destruct m; cbn; naive_solver. Qed.

Lemma refuse_code_then {A} (m : result ApiError unit) (k : result ApiError A) :
  refuse_code (m ;; k) =
    match refuse_code m with Some c => Some c | None => refuse_code k end.
Proof. by destruct m. Qed.

Lemma refuse_code_None {A} (m : result ApiError A) :
  refuse_code m = None ↔ ∃ a, m = Ok a.
Proof. destruct m; cbn; naive_solver. Qed.

Lemma pass_code (m : result ApiError unit) : pass m ↔ refuse_code m = None.
Proof. by destruct m as [[]|]. Qed.
