(* ===== verification/ReviewProtocol.v ===== *)
(** * The review protocol: vocabularies and transition tables

    The string unions and the [x-protocol] tables of
    [src/packages/protocol/src/generated/review/v1/types.ts], and their typed
    reader [src/packages/protocol/src/review-transitions.ts]. *)

From S2P Require Import Prelude.

(** ** Vocabularies *)

Inductive ActorType :=
| human_user | agent_session | connector | browser_worker | system | integration.

Inductive ReviewStatus :=
| DRAFT | READY | ASSIGNED | R_IN_PROGRESS | R_AWAITING_HUMAN_REVIEW
| CHANGES_REQUESTED | ACCEPTED | CANCELLED | ARCHIVED.

Inductive FindingStatus :=
| OPEN | CLAIMED | IN_PROGRESS | BLOCKED | FIXED_UNVERIFIED
| AWAITING_HUMAN_REVIEW | RESOLVED | REOPENED | WONT_FIX | DUPLICATE.

Inductive FindingSource := human | agent.

Inductive FindingSeverity :=
| sev_critical | sev_high | sev_medium | sev_low | sev_suggestion.

Inductive ReviewPriority := pri_critical | pri_high | pri_medium | pri_low.

Inductive VerificationStatus := submitted | accepted | rejected | superseded.

#[export] Instance ActorType_eq_dec : EqDecision ActorType.
Proof. solve_decision. Defined.
#[export] Instance ReviewStatus_eq_dec : EqDecision ReviewStatus.
Proof. solve_decision. Defined.
#[export] Instance FindingStatus_eq_dec : EqDecision FindingStatus.
Proof. solve_decision. Defined.
#[export] Instance FindingSource_eq_dec : EqDecision FindingSource.
Proof. solve_decision. Defined.
#[export] Instance FindingSeverity_eq_dec : EqDecision FindingSeverity.
Proof. solve_decision. Defined.
#[export] Instance ReviewPriority_eq_dec : EqDecision ReviewPriority.
Proof. solve_decision. Defined.
#[export] Instance VerificationStatus_eq_dec : EqDecision VerificationStatus.
Proof. solve_decision. Defined.

Definition ACTOR_TYPE_VALUES : list ActorType :=
  [human_user; agent_session; connector; browser_worker; system; integration].

Definition actor_type_name (a : ActorType) : string :=
  match a with
  | human_user => "human_user"
  | agent_session => "agent_session"
  | connector => "connector"
  | browser_worker => "browser_worker"
  | system => "system"
  | integration => "integration"
  end.

Definition REVIEW_STATUS_VALUES : list ReviewStatus :=
  [DRAFT; READY; ASSIGNED; R_IN_PROGRESS; R_AWAITING_HUMAN_REVIEW;
   CHANGES_REQUESTED; ACCEPTED; CANCELLED; ARCHIVED].

Definition review_status_name (s : ReviewStatus) : string :=
  match s with
  | DRAFT => "DRAFT"
  | READY => "READY"
  | ASSIGNED => "ASSIGNED"
  | R_IN_PROGRESS => "IN_PROGRESS"
  | R_AWAITING_HUMAN_REVIEW => "AWAITING_HUMAN_REVIEW"
  | CHANGES_REQUESTED => "CHANGES_REQUESTED"
  | ACCEPTED => "ACCEPTED"
  | CANCELLED => "CANCELLED"
  | ARCHIVED => "ARCHIVED"
  end.

Definition FINDING_STATUS_VALUES : list FindingStatus :=
  [OPEN; CLAIMED; IN_PROGRESS; BLOCKED; FIXED_UNVERIFIED;
   AWAITING_HUMAN_REVIEW; RESOLVED; REOPENED; WONT_FIX; DUPLICATE].

Definition finding_status_name (s : FindingStatus) : string :=
  match s with
  | OPEN => "OPEN"
  | CLAIMED => "CLAIMED"
  | IN_PROGRESS => "IN_PROGRESS"
  | BLOCKED => "BLOCKED"
  | FIXED_UNVERIFIED => "FIXED_UNVERIFIED"
  | AWAITING_HUMAN_REVIEW => "AWAITING_HUMAN_REVIEW"
  | RESOLVED => "RESOLVED"
  | REOPENED => "REOPENED"
  | WONT_FIX => "WONT_FIX"
  | DUPLICATE => "DUPLICATE"
  end.

Definition FINDING_SOURCE_VALUES : list FindingSource := [human; agent].
Definition finding_source_name (s : FindingSource) : string :=
  match s with human => "human" | agent => "agent" end.

Definition FINDING_SEVERITY_VALUES : list FindingSeverity :=
  [sev_critical; sev_high; sev_medium; sev_low; sev_suggestion].
Definition finding_severity_name (s : FindingSeverity) : string :=
  match s with
  | sev_critical => "critical" | sev_high => "high" | sev_medium => "medium"
  | sev_low => "low" | sev_suggestion => "suggestion"
  end.

Definition REVIEW_PRIORITY_VALUES : list ReviewPriority :=
  [pri_critical; pri_high; pri_medium; pri_low].
Definition review_priority_name (p : ReviewPriority) : string :=
  match p with
  | pri_critical => "critical" | pri_high => "high"
  | pri_medium => "medium" | pri_low => "low"
  end.

Definition VERIFICATION_STATUS_VALUES : list VerificationStatus :=
  [submitted; accepted; rejected; superseded].
Definition verification_status_name (s : VerificationStatus) : string :=
  match s with
  | submitted => "submitted" | accepted => "accepted"
  | rejected => "rejected" | superseded => "superseded"
  end.

#[export] Instance ActorType_vocabulary : Vocabulary ActorType.
Proof. refine {| vocab := ACTOR_TYPE_VALUES; name := actor_type_name |};
  solve_vocabulary. Defined.
#[export] Instance ReviewStatus_vocabulary : Vocabulary ReviewStatus.
Proof. refine {| vocab := REVIEW_STATUS_VALUES; name := review_status_name |};
  solve_vocabulary. Defined.
#[export] Instance FindingStatus_vocabulary : Vocabulary FindingStatus.
Proof. refine {| vocab := FINDING_STATUS_VALUES; name := finding_status_name |};
  solve_vocabulary. Defined.
#[export] Instance FindingSource_vocabulary : Vocabulary FindingSource.
Proof. refine {| vocab := FINDING_SOURCE_VALUES; name := finding_source_name |};
  solve_vocabulary. Defined.
#[export] Instance FindingSeverity_vocabulary : Vocabulary FindingSeverity.
Proof. refine {| vocab := FINDING_SEVERITY_VALUES; name := finding_severity_name |};
  solve_vocabulary. Defined.
#[export] Instance ReviewPriority_vocabulary : Vocabulary ReviewPriority.
Proof. refine {| vocab := REVIEW_PRIORITY_VALUES; name := review_priority_name |};
  solve_vocabulary. Defined.
#[export] Instance VerificationStatus_vocabulary : Vocabulary VerificationStatus.
Proof. refine {| vocab := VERIFICATION_STATUS_VALUES;
                 name := verification_status_name |};
  solve_vocabulary. Defined.

(** ** The tables, as the schema carries them *)

Definition REVIEW_STATUS_TRANSITIONS : list string :=
  ["DRAFT:READY:human_user";
   "DRAFT:CANCELLED:human_user";
   "READY:ASSIGNED:human_user,agent_session";
   "READY:DRAFT:human_user";
   "READY:CANCELLED:human_user";
   "ASSIGNED:IN_PROGRESS:human_user,agent_session";
   "ASSIGNED:READY:human_user";
   "ASSIGNED:CANCELLED:human_user";
   "IN_PROGRESS:AWAITING_HUMAN_REVIEW:human_user,agent_session";
   "IN_PROGRESS:CHANGES_REQUESTED:human_user";
   "IN_PROGRESS:CANCELLED:human_user";
   "AWAITING_HUMAN_REVIEW:ACCEPTED:human_user";
   "AWAITING_HUMAN_REVIEW:CHANGES_REQUESTED:human_user";
   "AWAITING_HUMAN_REVIEW:CANCELLED:human_user";
   "CHANGES_REQUESTED:IN_PROGRESS:human_user,agent_session";
   "CHANGES_REQUESTED:ASSIGNED:human_user";
   "CHANGES_REQUESTED:CANCELLED:human_user";
   "ACCEPTED:CHANGES_REQUESTED:human_user";
   "ACCEPTED:ARCHIVED:human_user";
   "CANCELLED:ARCHIVED:human_user"].

Definition FINDING_STATUS_TRANSITIONS : list string :=
  ["OPEN:CLAIMED:human_user,agent_session";
   "OPEN:IN_PROGRESS:human_user";
   "OPEN:BLOCKED:human_user";
   "OPEN:WONT_FIX:human_user";
   "OPEN:DUPLICATE:human_user";
   "CLAIMED:IN_PROGRESS:human_user,agent_session";
   "CLAIMED:BLOCKED:human_user";
   "CLAIMED:OPEN:human_user";
   "IN_PROGRESS:FIXED_UNVERIFIED:human_user,agent_session";
   "IN_PROGRESS:BLOCKED:human_user,agent_session";
   "IN_PROGRESS:AWAITING_HUMAN_REVIEW:human_user";
   "BLOCKED:IN_PROGRESS:human_user";
   "BLOCKED:OPEN:human_user";
   "FIXED_UNVERIFIED:AWAITING_HUMAN_REVIEW:human_user,agent_session";
   "FIXED_UNVERIFIED:IN_PROGRESS:human_user";
   "AWAITING_HUMAN_REVIEW:RESOLVED:human_user";
   "AWAITING_HUMAN_REVIEW:REOPENED:human_user";
   "AWAITING_HUMAN_REVIEW:WONT_FIX:human_user";
   "AWAITING_HUMAN_REVIEW:DUPLICATE:human_user";
   "RESOLVED:REOPENED:human_user";
   "REOPENED:CLAIMED:human_user";
   "REOPENED:IN_PROGRESS:human_user,agent_session";
   "WONT_FIX:REOPENED:human_user";
   "DUPLICATE:REOPENED:human_user"].

Definition FINAL_FINDING_DISPOSITIONS : list string :=
  ["RESOLVED"; "WONT_FIX"; "DUPLICATE"].
Definition ACTIVE_REVIEW_STATUSES_TABLE : list string :=
  ["DRAFT"; "READY"; "ASSIGNED"; "IN_PROGRESS"; "AWAITING_HUMAN_REVIEW";
   "CHANGES_REQUESTED"; "ACCEPTED"].
Definition IMMUTABLE_REVIEW_STATUSES : list string :=
  ["ACCEPTED"; "CANCELLED"; "ARCHIVED"].

(** ** The typed reader *)

Section transitions.
Context {TStatus : Type} `{Vocabulary TStatus}.

Record StatusTransition := {
  from : TStatus;
  to : TStatus;
  actorTypes : list ActorType
}.

(** One entry: exactly three parts, no empty actor name.  The casts
    [from as TStatus] and [names as ActorType[]] read a name of the
    vocabulary. *)
Definition parse_entry (entry : string) : option StatusTransition :=
  match split ":"%char entry with
  | [f; t; actors] =>
      let names := split ","%char actors in
      if bool_decide ("" ∈ names) then None
      else
        f ← of_name f; t ← of_name t; names ← mapM of_name names;
        Some {| from := f; to := t; actorTypes := names |}
  | _ => None
  end.

(** [parse]: [None] is the error thrown while the module loads. *)
Definition parse (entries : list string) : option (list StatusTransition) :=
  mapM parse_entry entries.

Definition label (row : StatusTransition) : string :=
  name (from row) +:+ ":" +:+ name (to row).

Definition print_entry (row : StatusTransition) : string :=
  label row +:+ ":" +:+ join "," (name <$> actorTypes row).

Definition find_row (table : list StatusTransition) (f t : TStatus) :
    option StatusTransition :=
  snd <$> list_find (λ row, from row = f ∧ to row = t) table.

Definition is_legal (table : list StatusTransition) (f t : TStatus) : bool :=
  match find_row table f t with Some _ => true | None => false end.

Definition may_move (table : list StatusTransition) (a : ActorType)
    (f t : TStatus) : bool :=
  match find_row table f t with
  | Some row => includes (actorTypes row) a
  | None => false
  end.

Definition transitionsAvailableTo (a : ActorType) (f : TStatus)
    (table : list StatusTransition) : list string :=
  label <$> filter (λ row, from row = f ∧ a ∈ actorTypes row) table.
End transitions.
Arguments StatusTransition TStatus : clear implicits.

Definition REVIEW_TRANSITIONS : list (StatusTransition ReviewStatus) :=
  default [] (parse REVIEW_STATUS_TRANSITIONS).
Definition FINDING_TRANSITIONS : list (StatusTransition FindingStatus) :=
  default [] (parse FINDING_STATUS_TRANSITIONS).

Definition FINAL_DISPOSITIONS : list FindingStatus :=
  default [] (mapM of_name FINAL_FINDING_DISPOSITIONS).
Definition ACTIVE_REVIEW_STATUS_VALUES : list ReviewStatus :=
  default [] (mapM of_name ACTIVE_REVIEW_STATUSES_TABLE).
Definition IMMUTABLE_REVIEW_STATUS_VALUES : list ReviewStatus :=
  default [] (mapM of_name IMMUTABLE_REVIEW_STATUSES).

Definition isReviewTransitionLegal (f t : ReviewStatus) : bool :=
  is_legal REVIEW_TRANSITIONS f t.
Definition isFindingTransitionLegal (f t : FindingStatus) : bool :=
  is_legal FINDING_TRANSITIONS f t.
Definition mayActorMoveReview (a : ActorType) (f t : ReviewStatus) : bool :=
  may_move REVIEW_TRANSITIONS a f t.
Definition mayActorMoveFinding (a : ActorType) (f t : FindingStatus) : bool :=
  may_move FINDING_TRANSITIONS a f t.

Definition findingTransitionsFor (a : ActorType) : list string :=
  label <$> filter (λ row, a ∈ actorTypes row) FINDING_TRANSITIONS.

(** The insertion order of a JavaScript [Set]. *)
Definition set_add {A} `{EqDecision A} (l : list A) (a : A) : list A :=
  if bool_decide (a ∈ l) then l else l ++ [a].

Definition reviewStatusesReachableBy (a : ActorType) : list ReviewStatus :=
  foldl (λ reachable row,
           if includes (actorTypes row) a then set_add reachable (to row)
           else reachable) [] REVIEW_TRANSITIONS.

Definition isActiveReviewStatus (s : ReviewStatus) : bool :=
  includes ACTIVE_REVIEW_STATUS_VALUES s.
Definition isImmutableReviewStatus (s : ReviewStatus) : bool :=
  includes IMMUTABLE_REVIEW_STATUS_VALUES s.
Definition isFinalDisposition (s : FindingStatus) : bool :=
  includes FINAL_DISPOSITIONS s.

(** ** Theorems *)

(** The tables, read; used to compute with them. *)
Lemma parse_tables :
  parse REVIEW_STATUS_TRANSITIONS = Some REVIEW_TRANSITIONS ∧
  parse FINDING_STATUS_TRANSITIONS = Some FINDING_TRANSITIONS.
Proof. by vm_compute. Qed.

Lemma actor_names_clean (a : ActorType) :
  name a ≠ "" ∧ free_of "," (name a) = true ∧ free_of ":" (name a) = true.
Proof. by destruct a. Qed.

(** The transition-table reader is the inverse of the printed row.  For any
    status vocabulary whose names hold no colon, every row that names at least
    one actor type is printed as [from:to:actor,...] and read back by
    [parse_entry] as that row: nothing is dropped, renamed or reordered, and no
    well-formed row is refused. *)
Theorem parse_print_entry {TStatus} `{Vocabulary TStatus}
    (Hclean : ∀ s : TStatus, free_of ":" (name s) = true)
    (row : StatusTransition TStatus) (Hactors : actorTypes row ≠ []) :
  parse_entry (print_entry row) = Some row.
Proof.
  destruct row as [f t actors]. unfold parse_entry, print_entry, label.
  cbn [from to actorTypes] in *.
  rewrite !append_assoc, !(append_cons ":"), !append_nil.
  rewrite (split_app ":" (name f)) by apply Hclean.
  rewrite (split_app ":" (name t)) by apply Hclean.
  assert (Forall (λ w, free_of "," w = true) (name <$> actors)) as Hcomma.
  { apply Forall_fmap, Forall_true. intros a. apply actor_names_clean. }
  assert (Forall (λ w, free_of ":" w = true) (name <$> actors)) as Hcolon.
  { apply Forall_fmap, Forall_true. intros a. apply actor_names_clean. }
  rewrite split_free by (by apply free_of_join). cbn beta iota zeta.
  rewrite (split_join "," (name <$> actors)) by (try done; by destruct actors).
  rewrite bool_decide_false; last first.
  { intros (a & Ha & _)%list_elem_of_fmap. by destruct (actor_names_clean a). }
  rewrite !of_name_name. cbn [mbind option_bind].
  assert (mapM of_name (name <$> actors) = Some actors) as ->.
  { apply mapM_Some, Forall2_fmap_l, Forall_Forall2_diag, Forall_true.
    intros a. apply of_name_name. }
  done.
Qed.

Example parse_print_entry_witness :
  parse_entry (print_entry
    {| from := READY; to := ASSIGNED; actorTypes := [human_user; agent_session] |})
  = Some {| from := READY; to := ASSIGNED; actorTypes := [human_user; agent_session] |}.
Proof.
  apply parse_print_entry.
  - intros []; reflexivity.
  - discriminate.
Defined.

(** A fact about every pair of statuses of a finite vocabulary, by computation. *)
Ltac by_table := intros; repeat match goal with
  | a : ActorType |- _ => destruct a
  | s : ReviewStatus |- _ => destruct s
  | s : FindingStatus |- _ => destruct s
  | s : FindingSource |- _ => destruct s
  end; vm_compute in *; (done || naive_solver).

Lemma review_move_legal a f t :
  mayActorMoveReview a f t = true → isReviewTransitionLegal f t = true.
Proof. by_table. Qed.

Lemma finding_move_legal a f t :
  mayActorMoveFinding a f t = true → isFindingTransitionLegal f t = true.
Proof. by_table. Qed.

Lemma human_moves_review f t :
  mayActorMoveReview human_user f t = isReviewTransitionLegal f t.
Proof. by_table. Qed.

Lemma human_moves_finding f t :
  mayActorMoveFinding human_user f t = isFindingTransitionLegal f t.
Proof. by_table. Qed.

Lemma only_humans_and_agents_move_findings a f t :
  mayActorMoveFinding a f t = true → a = human_user ∨ a = agent_session.
Proof. by_table. Qed.

Lemma final_disposition_cases s :
  isFinalDisposition s = true ↔ s = RESOLVED ∨ s = WONT_FIX ∨ s = DUPLICATE.
Proof. destruct s; vm_compute; naive_solver. Qed.

Lemma immutable_status_cases s :
  isImmutableReviewStatus s = true ↔ s = ACCEPTED ∨ s = CANCELLED ∨ s = ARCHIVED.
Proof. destruct s; vm_compute; naive_solver. Qed.
