(* ===== verification/BrowserProtocol.v ===== *)
(** * The browser protocol: session statuses, controllers and commands

    The string unions and the envelopes of
    [src/packages/protocol/src/generated/browser/v1/types.ts] that the control
    of a browser session reads.  An [ErrorClass] is one of the [ApiErrorCode]s
    of the same name. *)

From S2P Require Import Prelude Errors.

Inductive SessionStatus :=
| REQUESTED | ALLOCATING | BS_READY | ACTIVE | PAUSED | DEGRADED
| TERMINATING | TERMINATED | FAILED.
#[export] Instance SessionStatus_eq_dec : EqDecision SessionStatus.
Proof. solve_decision. Defined.

Definition status_name (s : SessionStatus) : string :=
  match s with
  | REQUESTED => "REQUESTED"
  | ALLOCATING => "ALLOCATING"
  | BS_READY => "READY"
  | ACTIVE => "ACTIVE"
  | PAUSED => "PAUSED"
  | DEGRADED => "DEGRADED"
  | TERMINATING => "TERMINATING"
  | TERMINATED => "TERMINATED"
  | FAILED => "FAILED"
  end.

Inductive ControllerType := by_agent | by_human | by_system.
#[export] Instance ControllerType_eq_dec : EqDecision ControllerType.
Proof. solve_decision. Defined.

Definition controller_type_name (t : ControllerType) : string :=
  match t with by_agent => "agent" | by_human => "human" | by_system => "system" end.

Record ControllerIdentity := { ct_type : ControllerType; ct_id : string }.
#[export] Instance ControllerIdentity_eq_dec : EqDecision ControllerIdentity.
Proof. solve_decision. Defined.

Inductive TerminationReason :=
| tr_requested | tr_duration_limit | tr_capacity | tr_policy | tr_worker_shutdown | tr_failure.

Definition reason_name (r : TerminationReason) : string :=
  match r with
  | tr_requested => "requested"
  | tr_duration_limit => "duration_limit"
  | tr_capacity => "capacity"
  | tr_policy => "policy"
  | tr_worker_shutdown => "worker_shutdown"
  | tr_failure => "failure"
  end.

Inductive CommandName :=
| navigate | snapshot | click | type_text | select_option | press_key | scroll
| resize | wait | take_screenshot.
#[export] Instance CommandName_eq_dec : EqDecision CommandName.
Proof. solve_decision. Defined.

Definition command_name (c : CommandName) : string :=
  match c with
  | navigate => "navigate"
  | snapshot => "snapshot"
  | click => "click"
  | type_text => "type_text"
  | select_option => "select_option"
  | press_key => "press_key"
  | scroll => "scroll"
  | resize => "resize"
  | wait => "wait"
  | take_screenshot => "take_screenshot"
  end.

Definition INTERACTIVE_COMMANDS : list CommandName :=
  [navigate; click; type_text; select_option; press_key; scroll; resize; wait].
Definition SYSTEM_CAPTURE_COMMANDS : list CommandName := [snapshot; take_screenshot].

(** The members of a command the control path reads: [type_text.text] and
    [take_screenshot.purpose] are absent when their object is. *)
Record BrowserCommand := {
  bc_command : CommandName;
  bc_timeout_ms : Z;
  bc_type_text : option string;
  bc_screenshot_purpose : option string
}.

(** The page-derived parts of a result, and the refusal it carries. *)
Record NavigationResult := { nv_url : option string; nv_http_status : option Z }.
Record ScreenshotResult := {
  ss_artefact_id : string;
  ss_full_page : bool;
  ss_viewport : json;
  ss_size_bytes : Z;
  ss_sha256 : string;
  ss_captured_at : string
}.
Record CommandError := {
  ce_code : ApiErrorCode;
  ce_message : string;
  ce_retryable : bool;
  ce_current_epoch : option Z
}.
Record BrowserCommandResult := {
  br_ok : bool;
  br_command : CommandName;
  br_sequence : Z;
  br_control_epoch : Z;
  br_trust : string;
  br_error : option CommandError;
  br_navigation : option NavigationResult;
  br_screenshot : option ScreenshotResult
}.

(** The worker's report of a transition. *)
Record SessionStatusReport := {
  sr_status : SessionStatus;
  sr_previous_status : option SessionStatus;
  sr_reason : option string;
  sr_control_epoch : option Z;
  sr_current_controller : option ControllerIdentity
}.

(** Both layers hold these two tests and compare controllers alike. *)
Definition isInteractive (c : CommandName) : bool := includes INTERACTIVE_COMMANDS c.
Definition isSystemCapture (c : CommandName) : bool := includes SYSTEM_CAPTURE_COMMANDS c.
Definition sameController (l r : ControllerIdentity) : bool :=
  bool_decide (ct_type l = ct_type r) && bool_decide (ct_id l = ct_id r).

Lemma sameController_true l r : sameController l r = true ↔ l = r.
Proof.
  destruct l, r. unfold sameController. cbn.
  rewrite andb_true_iff, !bool_decide_eq_true. naive_solver.
Qed.

(** Every command is interactive or a capture, and none is both. *)
Lemma command_kinds c : isInteractive c = negb (isSystemCapture c).
Proof. by destruct c. Qed.
