(* ===== verification/ReviewDomain.v ===== *)
(** * The review and finding rules
    ([src/apps/server/src/modules/reviews/domain.ts])

    Each [assert...] function of the source throws an [ApiError] or returns;
    here it is a [check]: [Ok tt] or [Err e]. *)

From S2P Require Import Prelude Errors ReviewProtocol.

Abbreviation check := (result ApiError unit).

Definition field (f : string) : members := [("field", JStr f)].
Definition strs (l : list string) : json := JArr (JStr <$> l).

(** ** Vocabulary read from the tables *)

Definition AGENT_TRANSITION_LABELS : list string :=
  findingTransitionsFor agent_session.

Definition agentTransitionsFrom (status : FindingStatus) : list string :=
  transitionsAvailableTo agent_session status FINDING_TRANSITIONS.

Definition AGENT_REVIEW_STATUSES : list ReviewStatus :=
  reviewStatusesReachableBy agent_session.

Definition ACTIVE_REVIEW_STATUSES : list ReviewStatus :=
  ACTIVE_REVIEW_STATUS_VALUES.

Definition isHumanActor (a : ActorType) : bool := bool_decide (a = human_user).

(** ** Checks on a request against the record it names *)

Definition assertExpectedVersion (current expected : Z) (what : string) : check :=
  if bool_decide (current ≠ expected)
  then throw VERSION_CONFLICT
         ("The " +:+ what +:+ " changed since it was loaded.")
         [("current_version", JNum current); ("expected_version", JNum expected)]
  else Ok ().

Definition claim_moved : string :=
  "The verification this decision named is no longer the finding's current claim.".

Definition assertVerificationUnderReview (current named : option string) : check :=
  match current with
  | None =>
      match named with
      | None => Ok ()
      | Some n => throw VERSION_CONFLICT claim_moved
                    [("current_verification_id", JNull);
                     ("expected_verification_id", JStr n)]
      end
  | Some c =>
      match named with
      | None =>
          throw EVIDENCE_REQUIRED
            "A decision about a finding under review must name the verification it is about, so that evidence replaced since it was read cannot be accepted in its place."
            [("field", JStr "verification_id");
             ("required_evidence", strs ["verification_id"])]
      | Some n =>
          if bool_decide (n ≠ c)
          then throw VERSION_CONFLICT claim_moved
                 [("current_verification_id", JStr c);
                  ("expected_verification_id", JStr n)]
          else Ok ()
      end
  end.

Definition assertFindingTakesVerification (status : FindingStatus) : check :=
  if negb (isFinalDisposition status) then Ok ()
  else throw POLICY_DENIED
         ("A finding a human has disposed of as " +:+ name status
          +:+ " takes no further verification. Ask for it to be reopened, which is a human decision, and submit the claim against the reopened finding.")
         (field "status").

Definition assertDecisionReason (what : string) (reason : option string) : check :=
  if bool_decide (trim (default "" reason) ≠ "") then Ok ()
  else throw EVIDENCE_REQUIRED
         (what +:+ " requires a reason: work sent back with nothing said is work nobody can act on, and a decision nobody can read later is not one anybody can review.")
         [("field", JStr "reason"); ("required_evidence", strs ["reason"])].

(** ** Review transitions *)

Definition assertReviewTransition (f t : ReviewStatus) : check :=
  if bool_decide (f = t) then Ok ()
  else if negb (isReviewTransitionLegal f t)
  then throw POLICY_DENIED
         ("A review cannot move from " +:+ name f +:+ " to " +:+ name t +:+ ".")
         (field "status")
  else Ok ().

Definition assertReviewMutable (status : ReviewStatus)
    (change_status : option ReviewStatus) (fields : list string) : check :=
  if negb (isImmutableReviewStatus status) then Ok ()
  else if bool_decide (length fields = 0)
          && (bool_decide (change_status = Some ARCHIVED)
              || (bool_decide (status = ACCEPTED)
                  && bool_decide (change_status = Some CHANGES_REQUESTED)))
  then Ok ()
  else throw POLICY_DENIED
         ("A " +:+ name status +:+ " review is immutable except for archival metadata, comments and an explicit reopen.")
         (field (default "status" (head fields))).

Definition only_a_human_accepts : string :=
  "Only a human may accept a review. An agent submits work for review and a human decides.".

Definition assertActorMayMoveReview (a : ActorType) (f t : ReviewStatus) : check :=
  if bool_decide (f = t) then Ok ()
  else if mayActorMoveReview a f t then Ok ()
  else if bool_decide (t = ACCEPTED)
  then throw AUTHORISATION_DENIED only_a_human_accepts (field "status")
  else throw AUTHORISATION_DENIED
         ("A " +:+ name a +:+ " principal may not move a review from "
          +:+ name f +:+ " to " +:+ name t +:+ ".")
         (field "status" ++
          [("allowed_transitions", strs (transitionsAvailableTo a f REVIEW_TRANSITIONS))]).

Definition CLOSING_REVIEW_STATUSES : list ReviewStatus :=
  [ACCEPTED; CANCELLED; ARCHIVED].

Definition assertActorMayCloseReview (a : ActorType) (t : ReviewStatus) : check :=
  if negb (includes CLOSING_REVIEW_STATUSES t) then Ok ()
  else if isHumanActor a then Ok ()
  else if bool_decide (t = ACCEPTED)
  then throw AUTHORISATION_DENIED only_a_human_accepts (field "status")
  else throw AUTHORISATION_DENIED
         ("A " +:+ name a +:+ " principal may not move a review to " +:+ name t
          +:+ ". Withdrawing or archiving a review disposes of the feedback it carries, which is a human decision.")
         (field "status").

(** ** Finding transitions *)

Definition human_authored_denial (t : FindingStatus) : string :=
  "A human-authored finding cannot be set to " +:+ name t
  +:+ " by an agent. Submit verification and mark it AWAITING_HUMAN_REVIEW instead.".

Definition assertActorMayDispose (a : ActorType) (source : FindingSource)
    (t : FindingStatus) : check :=
  if negb (isFinalDisposition t) then Ok ()
  else if isHumanActor a then Ok ()
  else if bool_decide (a = agent_session) && bool_decide (source = human)
  then throw AUTHORISATION_DENIED (human_authored_denial t) (field "status")
  else throw AUTHORISATION_DENIED
         ("A finding cannot be set to " +:+ name t +:+ " by a " +:+ name a
          +:+ " principal. A final disposition is a human decision, and no project policy permits otherwise.")
         (field "status").

Definition isHumanReservedStatus (requested : string) : bool :=
  includes (name <$> FINAL_DISPOSITIONS) requested
  || includes (name <$> CLOSING_REVIEW_STATUSES) requested.

Definition assertFindingTransition (f t : FindingStatus) : check :=
  if bool_decide (f = t) then Ok ()
  else if negb (isFindingTransitionLegal f t)
  then throw POLICY_DENIED
         ("A finding cannot move from " +:+ name f +:+ " to " +:+ name t +:+ ".")
         (field "status")
  else Ok ().

Definition assertActorMayMoveFinding (a : ActorType) (source : FindingSource)
    (f t : FindingStatus) : check :=
  if bool_decide (f = t) then Ok ()
  else if mayActorMoveFinding a f t then Ok ()
  else if isHumanActor a
  then throw POLICY_DENIED
         ("A finding cannot move from " +:+ name f +:+ " to " +:+ name t +:+ ".")
         (field "status")
  else if bool_decide (a ≠ agent_session)
  then throw AUTHORISATION_DENIED
         ("A " +:+ name a +:+ " principal may not change the status of a finding.")
         (field "status")
  else if bool_decide (source = human) && isFinalDisposition t
  then throw AUTHORISATION_DENIED (human_authored_denial t) (field "status")
  else if isFinalDisposition t
  then throw AUTHORISATION_DENIED
         ("A finding cannot be set to " +:+ name t
          +:+ " by an agent. A final disposition is a human decision, and no project policy permits otherwise.")
         (field "status" ++ [("allowed_transitions", strs (agentTransitionsFrom f))])
  else throw POLICY_DENIED
         ("An agent may not move a finding from " +:+ name f +:+ " to " +:+ name t
          +:+ ". No project policy permits it.")
         (field "status" ++ [("allowed_transitions", strs (agentTransitionsFrom f))]).

(** ** Acceptance *)

Record AcceptanceFinding := {
  af_id : string;
  af_source : FindingSource;
  af_status : FindingStatus
}.

Definition is_outstanding (f : AcceptanceFinding) : bool :=
  bool_decide (af_source f = human) && negb (isFinalDisposition (af_status f)).

Definition assertReviewAcceptable (findings : list AcceptanceFinding) : check :=
  match filter (λ f, is_outstanding f = true) findings with
  | [] => Ok ()
  | first :: _ as outstanding =>
      throw POLICY_DENIED
        (pretty (length outstanding) +:+ " human-authored finding(s) are neither resolved nor explicitly waived, so this review cannot be accepted yet.")
        (field "findings" ++
         [("reason", JStr ("finding " +:+ af_id first +:+ " is " +:+ name (af_status first)))])
  end.

(** ** Evidence *)

(** The commit context of a claim; the result is [branchCorroborated]. *)
Definition assertVerificationCommitContext
    (capturedCommit commit branch : string) (workspaceBranch : option string) :
    result ApiError bool :=
  if bool_decide (commit = capturedCommit)
  then throw EVIDENCE_REQUIRED
         "The verification commit is the commit the finding was captured at, so it cannot be the commit that fixed it. Report the commit the change landed in."
         [("field", JStr "commit");
          ("required_evidence", strs ["commit_after_the_change"])]
  else match workspaceBranch with
  | None => Ok false
  | Some w =>
      if bool_decide (w ≠ branch)
      then throw EVIDENCE_REQUIRED
             ("The workspace is on branch " +:+ w +:+ " and the verification claims branch "
              +:+ branch +:+ ". Report the workspace state before submitting, or submit from the branch the change is on.")
             (field "branch")
      else Ok true
  end.

Definition assertCompletionEvidence (t : FindingStatus)
    (resolutionNote : option string) (missing : option (list string))
    (actorType : option ActorType) : check :=
  if bool_decide (t = FIXED_UNVERIFIED)
  then
    match resolutionNote with
    | Some note =>
        if bool_decide (trim note ≠ "") then Ok ()
        else throw EVIDENCE_REQUIRED
               "A finding cannot be claimed fixed without a resolution note describing what was changed and how it was checked."
               [("required_evidence", strs ["resolution_note"; "after_screenshot_artefact"])]
    | None =>
        throw EVIDENCE_REQUIRED
          "A finding cannot be claimed fixed without a resolution note describing what was changed and how it was checked."
          [("required_evidence", strs ["resolution_note"; "after_screenshot_artefact"])]
    end
  else if bool_decide (t ≠ AWAITING_HUMAN_REVIEW) then Ok ()
  else if bool_decide (actorType ≠ Some agent_session) then Ok ()
  else match missing with
  | None | Some [] => Ok ()
  | Some m =>
      throw EVIDENCE_REQUIRED
        ("A finding cannot be submitted for human review until its verification carries the evidence this project requires. Outstanding: "
         +:+ join ", " m +:+ ".")
        (field "status" ++ [("required_evidence", strs m)])
  end.

(** ** Captured context *)

Definition REQUIRED_FINDING_CONTEXT : list string :=
  ["url"; "viewport"; "viewport.device_scale_factor"; "scroll_position";
   "captured_commit"; "screenshot_artefact_id"].

(** [body[field]]: [None] is [undefined]. *)
Definition get_member (k : string) (o : members) : option json :=
  snd <$> (snd <$> list_find (λ kv, kv.1 = k) o).

Definition is_number (v : option json) : bool :=
  match v with Some (JNum _) | Some (JDec _) | Some (JFloat _) => true | _ => false end.

Definition context_present (body : members) (f : string) : bool :=
  if bool_decide (f = "viewport.device_scale_factor")
  then match get_member "viewport" body with
       | Some (JObj viewport) => is_number (get_member "device_scale_factor" viewport)
       | _ => false
       end
  else match get_member f body with
       | None | Some JNull => false
       | Some (JStr s) => bool_decide (s ≠ "")
       | Some _ => true
       end.

Definition missingCapturedContext (body : members) : list string :=
  filter (λ f, context_present body f = false) REQUIRED_FINDING_CONTEXT.

Definition assertCapturedContext (body : members) : check :=
  match missingCapturedContext body with
  | [] => Ok ()
  | missing =>
      throw UNSUPPORTED_CAPABILITY
        "A finding without its captured context cannot be reproduced later and is refused rather than stored incomplete."
        [("missing_context", strs missing)]
  end.

(** ** Theorems *)

Section lookup_lemmas.
Lemma get_member_cons k k' v o :
  get_member k ((k', v) :: o) = if decide (k' = k) then Some v else get_member k o.
Proof.
  unfold get_member. cbn [list_find]. cbn.
  destruct (decide (k' = k)); [done|]. destruct (list_find _ o) as [[]|]; done.
Qed.
End lookup_lemmas.

Lemma assertExpectedVersion_pass current expected what :
  pass (assertExpectedVersion current expected what) ↔ current = expected.
Proof. unfold assertExpectedVersion. case_bool_decide; naive_solver. Qed.

Lemma assertVerificationUnderReview_pass current named :
  pass (assertVerificationUnderReview current named) ↔ named = current.
Proof.
  destruct current, named; cbn; try case_bool_decide; naive_solver.
Qed.

Lemma assertReviewMutable_pass status change fields :
  pass (assertReviewMutable status change fields) ↔
    isImmutableReviewStatus status = false
    ∨ (fields = [] ∧ (change = Some ARCHIVED
                      ∨ (status = ACCEPTED ∧ change = Some CHANGES_REQUESTED))).
Proof.
  unfold assertReviewMutable. destruct (isImmutableReviewStatus status); cbn.
  - destruct fields as [|f fields]; cbn; repeat case_bool_decide; naive_solver.
  - naive_solver.
Qed.

Lemma assertDecisionReason_pass what reason :
  pass (assertDecisionReason what reason) ↔ trim (default "" reason) ≠ "".
Proof. unfold assertDecisionReason. case_bool_decide; naive_solver. Qed.

Lemma assertFindingTakesVerification_pass status :
  pass (assertFindingTakesVerification status) ↔ isFinalDisposition status = false.
Proof.
  unfold assertFindingTakesVerification. destruct (isFinalDisposition status); naive_solver.
Qed.

(** The three checks a requested change of a finding's status passes through, in
    the order [updateFinding] makes them. *)
Definition finding_move_checks (a : ActorType) (src : FindingSource)
    (f t : FindingStatus) : check :=
  assertActorMayDispose a src t ;;
  assertFindingTransition f t ;;
  assertActorMayMoveFinding a src f t.

Definition review_move_checks (a : ActorType) (f t : ReviewStatus) : check :=
  assertActorMayCloseReview a t ;;
  assertReviewTransition f t ;;
  assertActorMayMoveReview a f t.

(** The code each check refuses with. *)
Lemma assertActorMayDispose_code a src t :
  refuse_code (assertActorMayDispose a src t) =
    if isFinalDisposition t && negb (isHumanActor a) then Some AUTHORISATION_DENIED
    else None.
Proof.
  unfold assertActorMayDispose. destruct (isFinalDisposition t), (isHumanActor a); try done.
  by destruct (bool_decide (a = agent_session) && bool_decide (src = human)).
Qed.

Lemma assertFindingTransition_code f t :
  f ≠ t → refuse_code (assertFindingTransition f t) =
    if negb (isFindingTransitionLegal f t) then Some POLICY_DENIED else None.
Proof.
  intros Hne. unfold assertFindingTransition. rewrite bool_decide_false by done.
  by destruct (isFindingTransitionLegal f t).
Qed.

Lemma assertActorMayMoveFinding_code a src f t :
  f ≠ t → refuse_code (assertActorMayMoveFinding a src f t) =
    if mayActorMoveFinding a f t then None
    else if isHumanActor a then Some POLICY_DENIED
    else if bool_decide (a ≠ agent_session) || isFinalDisposition t
    then Some AUTHORISATION_DENIED else Some POLICY_DENIED.
Proof.
  intros Hne. unfold assertActorMayMoveFinding. rewrite bool_decide_false by done.
  destruct (mayActorMoveFinding a f t), (isHumanActor a); try done.
  destruct (bool_decide (a ≠ agent_session)); try done.
  by destruct (bool_decide (src = human)), (isFinalDisposition t).
Qed.

Lemma assertActorMayCloseReview_code a t :
  refuse_code (assertActorMayCloseReview a t) =
    if isImmutableReviewStatus t && negb (isHumanActor a) then Some AUTHORISATION_DENIED
    else None.
Proof.
  unfold assertActorMayCloseReview.
  change (includes CLOSING_REVIEW_STATUSES t) with (isImmutableReviewStatus t).
  destruct (isImmutableReviewStatus t), (isHumanActor a); try done.
  by destruct (bool_decide (t = ACCEPTED)).
Qed.

Lemma assertReviewTransition_code f t :
  f ≠ t → refuse_code (assertReviewTransition f t) =
    if negb (isReviewTransitionLegal f t) then Some POLICY_DENIED else None.
Proof.
  intros Hne. unfold assertReviewTransition. rewrite bool_decide_false by done.
  by destruct (isReviewTransitionLegal f t).
Qed.

Lemma assertActorMayMoveReview_code a f t :
  f ≠ t → refuse_code (assertActorMayMoveReview a f t) =
    if mayActorMoveReview a f t then None else Some AUTHORISATION_DENIED.
Proof.
  intros Hne. unfold assertActorMayMoveReview. rewrite bool_decide_false by done.
  destruct (mayActorMoveReview a f t); [done|]. by destruct (bool_decide (t = ACCEPTED)).
Qed.

(** When each check passes. *)
Lemma assertReviewTransition_pass f t :
  pass (assertReviewTransition f t) ↔ f = t ∨ isReviewTransitionLegal f t = true.
Proof.
  destruct (decide (f = t)) as [->|Hne].
  - unfold assertReviewTransition. rewrite bool_decide_true by done. tauto.
  - rewrite pass_code, assertReviewTransition_code by done.
    destruct (isReviewTransitionLegal f t); naive_solver.
Qed.

Lemma assertActorMayMoveReview_pass a f t :
  pass (assertActorMayMoveReview a f t) ↔ f = t ∨ mayActorMoveReview a f t = true.
Proof.
  destruct (decide (f = t)) as [->|Hne].
  - unfold assertActorMayMoveReview. rewrite bool_decide_true by done. tauto.
  - rewrite pass_code, assertActorMayMoveReview_code by done.
    destruct (mayActorMoveReview a f t); naive_solver.
Qed.

Lemma assertFindingTransition_pass f t :
  pass (assertFindingTransition f t) ↔ f = t ∨ isFindingTransitionLegal f t = true.
Proof.
  destruct (decide (f = t)) as [->|Hne].
  - unfold assertFindingTransition. rewrite bool_decide_true by done. tauto.
  - rewrite pass_code, assertFindingTransition_code by done.
    destruct (isFindingTransitionLegal f t); naive_solver.
Qed.

Lemma assertActorMayMoveFinding_pass a src f t :
  pass (assertActorMayMoveFinding a src f t) ↔ f = t ∨ mayActorMoveFinding a f t = true.
Proof.
  destruct (decide (f = t)) as [->|Hne].
  - unfold assertActorMayMoveFinding. rewrite bool_decide_true by done. tauto.
  - rewrite pass_code, assertActorMayMoveFinding_code by done.
    destruct (mayActorMoveFinding a f t); [naive_solver|].
    destruct_tests; naive_solver.
Qed.

Lemma assertActorMayDispose_pass a src t :
  pass (assertActorMayDispose a src t) ↔ isFinalDisposition t = false ∨ a = human_user.
Proof.
  rewrite pass_code, assertActorMayDispose_code. unfold isHumanActor.
  destruct (isFinalDisposition t); case_bool_decide; naive_solver.
Qed.

Lemma assertActorMayCloseReview_pass a t :
  pass (assertActorMayCloseReview a t) ↔ isImmutableReviewStatus t = false ∨ a = human_user.
Proof.
  rewrite pass_code, assertActorMayCloseReview_code. unfold isHumanActor.
  destruct (isImmutableReviewStatus t); case_bool_decide; naive_solver.
Qed.

(** which refusal a requested finding transition meets, on every branch.
    The decision is a function of the request: a final disposition asked for by
    anyone but a human is [AUTHORISATION_DENIED] from any status, legal or not
    and whoever authored the finding; otherwise a pair outside the table is
    [POLICY_DENIED]; otherwise the authority column decides, answering an agent
    with [POLICY_DENIED] and any other non-human principal with
    [AUTHORISATION_DENIED].  Everything else is admitted. *)
Theorem finding_move_decision a src f t (Hmove : f ≠ t) :
  refuse_code (finding_move_checks a src f t) =
    if isFinalDisposition t && negb (isHumanActor a) then Some AUTHORISATION_DENIED
    else if negb (isFindingTransitionLegal f t) then Some POLICY_DENIED
    else if mayActorMoveFinding a f t then None
    else if bool_decide (a = agent_session) then Some POLICY_DENIED
    else Some AUTHORISATION_DENIED.
Proof.
  unfold finding_move_checks.
  rewrite !refuse_code_then, assertActorMayDispose_code, assertFindingTransition_code,
    assertActorMayMoveFinding_code by done.
  pose proof (human_moves_finding f t) as Hh.
  unfold isHumanActor. case_bool_decide as Ha; [subst a; rewrite Hh|];
    destruct (isFinalDisposition t), (isFindingTransitionLegal f t); try done; cbn.
  destruct (mayActorMoveFinding a f t); [done|]. cbn. case_bool_decide as Hn; cbn.
  - by rewrite bool_decide_false.
  - rewrite bool_decide_true; [done|]. by destruct (decide (a = agent_session)).
Qed.

Example finding_move_decision_witness :
  refuse_code (finding_move_checks agent_session human CLAIMED RESOLVED)
  = Some AUTHORISATION_DENIED.
Proof. rewrite (finding_move_decision agent_session human CLAIMED RESOLVED); [reflexivity|discriminate]. Defined.

(** The same for reviews.  Closing a review (accepting, cancelling or
    archiving it) is refused to everyone but a human before the lifecycle is
    consulted; then the table's pair decides between admission and
    [POLICY_DENIED]; then the authority column. *)
Theorem review_move_decision a f t (Hmove : f ≠ t) :
  refuse_code (review_move_checks a f t) =
    if isImmutableReviewStatus t && negb (isHumanActor a) then Some AUTHORISATION_DENIED
    else if negb (isReviewTransitionLegal f t) then Some POLICY_DENIED
    else if mayActorMoveReview a f t then None
    else Some AUTHORISATION_DENIED.
Proof.
  unfold review_move_checks.
  rewrite !refuse_code_then, assertActorMayCloseReview_code, assertReviewTransition_code,
    assertActorMayMoveReview_code by done.
  by destruct (isImmutableReviewStatus t && negb (isHumanActor a)),
    (isReviewTransitionLegal f t).
Qed.

Example review_move_decision_witness :
  refuse_code (review_move_checks agent_session R_IN_PROGRESS ACCEPTED)
  = Some AUTHORISATION_DENIED.
Proof. rewrite (review_move_decision agent_session R_IN_PROGRESS ACCEPTED); [reflexivity|discriminate]. Defined.

Lemma finding_move_checks_pass a src f t :
  pass (finding_move_checks a src f t) →
  f = t ∨ (mayActorMoveFinding a f t = true
           ∧ (isFinalDisposition t = true → a = human_user)).
Proof.
  unfold finding_move_checks. rewrite !then_ok, assertActorMayDispose_pass,
    assertFindingTransition_pass, assertActorMayMoveFinding_pass.
  intros (Hd & _ & [->|Hm]); [by left|]. right. split; [done|].
  intros Hf. destruct Hd as [Hd|Hd]; congruence.
Qed.

Lemma review_move_checks_pass a f t :
  pass (review_move_checks a f t) →
  f = t ∨ (mayActorMoveReview a f t = true
           ∧ (isImmutableReviewStatus t = true → a = human_user)).
Proof.
  unfold review_move_checks. rewrite !then_ok, assertActorMayCloseReview_pass,
    assertReviewTransition_pass, assertActorMayMoveReview_pass.
  intros (Hd & _ & [->|Hm]); [by left|]. right. split; [done|].
  intros Hf. destruct Hd as [Hd|Hd]; congruence.
Qed.

(** The statuses a request may not name without human authority, as one
    predicate over both vocabularies. *)
Definition finding_reserved (t : FindingStatus) : Prop :=
  ∀ src f, f ≠ t →
    refuse_code (finding_move_checks agent_session src f t) = Some AUTHORISATION_DENIED.
Definition review_reserved (t : ReviewStatus) : Prop :=
  ∀ f, f ≠ t →
    refuse_code (review_move_checks agent_session f t) = Some AUTHORISATION_DENIED.

Lemma archived_is_terminal t : isReviewTransitionLegal ARCHIVED t = false.
Proof. by destruct t. Qed.

Lemma finding_reserved_final t :
  finding_reserved t → isFinalDisposition t = true.
Proof.
  intros Ht. destruct (isFinalDisposition t) eqn:Hfin; [done|].
  assert (∃ f, f ≠ t) as [f Hne].
  { destruct (decide (t = OPEN)) as [->|]; [by exists CLAIMED | by exists OPEN]. }
  specialize (Ht human f Hne). rewrite finding_move_decision, Hfin in Ht by done.
  destruct (isFindingTransitionLegal f t); [|discriminate].
  by destruct (mayActorMoveFinding agent_session f t).
Qed.

Lemma review_reserved_closing t :
  review_reserved t → isImmutableReviewStatus t = true.
Proof.
  intros Ht. destruct (isImmutableReviewStatus t) eqn:Hfin; [done|].
  assert (ARCHIVED ≠ t) as Hne by (intros <-; discriminate).
  specialize (Ht ARCHIVED Hne).
  rewrite review_move_decision, Hfin, archived_is_terminal in Ht by done. discriminate.
Qed.

(** The predicate the MCP layer asks, [isHumanReservedStatus], agrees with
    what the domain enforces: a requested string is reserved exactly when it is
    the name of a finding status, or of a review status, whose every move an
    agent asks for is refused with [AUTHORISATION_DENIED]. *)
Theorem isHumanReservedStatus_spec (requested : string) :
  isHumanReservedStatus requested = true ↔
    (∃ t : FindingStatus, name t = requested ∧ finding_reserved t)
    ∨ (∃ t : ReviewStatus, name t = requested ∧ review_reserved t).
Proof.
  unfold isHumanReservedStatus, includes.
  rewrite orb_true_iff, !bool_decide_eq_true, !list_elem_of_fmap. split.
  - intros [(t & -> & Ht)|(t & -> & Ht)]; [left|right]; exists t; (split; [done|]);
      intros ?; [intros f|]; intros Hne.
    + rewrite finding_move_decision by done.
      assert (isFinalDisposition t = true) as ->; [by apply bool_decide_true|done].
    + rewrite review_move_decision by done.
      assert (isImmutableReviewStatus t = true) as ->; [by apply bool_decide_true|done].
  - intros [(t & <- & Ht)|(t & <- & Ht)]; [left|right]; exists t; (split; [done|]).
    + apply finding_reserved_final in Ht. by apply bool_decide_eq_true_1 in Ht.
    + apply review_reserved_closing in Ht. by apply bool_decide_eq_true_1 in Ht.
Qed.

Lemma outstanding_elem (findings : list AcceptanceFinding) (f : AcceptanceFinding) :
  f ∈ filter (λ f, is_outstanding f = true) findings ↔
    f ∈ findings ∧ af_source f = human ∧ isFinalDisposition (af_status f) = false.
Proof.
  rewrite list_elem_of_filter. unfold is_outstanding.
  rewrite andb_true_iff, bool_decide_eq_true, negb_true_iff. tauto.
Qed.

Lemma assertReviewAcceptable_pass (findings : list AcceptanceFinding) :
  pass (assertReviewAcceptable findings) ↔
    ∀ f, f ∈ findings → af_source f = human → isFinalDisposition (af_status f) = true.
Proof.
  unfold assertReviewAcceptable.
  pose proof (outstanding_elem findings) as Hout. destruct (filter _ findings) as [|f l].
  - split; [|done]. intros _ f Hin Hsrc.
    destruct (isFinalDisposition (af_status f)) eqn:Hfin; [done|].
    assert (f ∈ []) as Hnil by (by apply Hout). by apply elem_of_nil in Hnil.
  - split; [done|]. intros Hall.
    assert (f ∈ f :: l) as (Hin & Hsrc & Hfin)%Hout by left. by rewrite (Hall f) in Hfin.
Qed.

(** A review may be accepted exactly when every human-authored finding has
    reached a final disposition.  A refusal is [POLICY_DENIED] and its [reason]
    names a finding that is still outstanding; agent-authored findings never
    stand in the way. *)
Theorem assertReviewAcceptable_spec (findings : list AcceptanceFinding) :
  (pass (assertReviewAcceptable findings) ↔
     ∀ f, f ∈ findings → af_source f = human → isFinalDisposition (af_status f) = true)
  ∧ (∀ e, assertReviewAcceptable findings = Err e →
      code e = POLICY_DENIED ∧
      ∃ f, f ∈ findings ∧ af_source f = human ∧ isFinalDisposition (af_status f) = false
           ∧ details e ≫= get_member "reason" =
             Some (JStr ("finding " +:+ af_id f +:+ " is " +:+ name (af_status f)))).
Proof.
  split; [apply assertReviewAcceptable_pass|].
  unfold assertReviewAcceptable.
  pose proof (outstanding_elem findings) as Hout. destruct (filter _ findings) as [|f l]; [done|].
  assert (f ∈ f :: l) as (Hin & Hsrc & Hfin)%Hout by left.
  intros e [= <-]. cbn. split; [done|]. exists f. done.
Qed.

Lemma assertCompletionEvidence_agent t note missing :
  pass (assertCompletionEvidence t note (Some missing) (Some agent_session)) →
  (t = FIXED_UNVERIFIED → ∃ n, note = Some n ∧ trim n ≠ "")
  ∧ (t = AWAITING_HUMAN_REVIEW → missing = []).
Proof.
  unfold assertCompletionEvidence. intros Hp. split; intros ->.
  - rewrite bool_decide_true in Hp by done. destruct note as [n|]; [|done].
    exists n. split; [done|]. by case_bool_decide.
  - by destruct missing.
Qed.
