(* ===== verification/Events.v ===== *)
(** * The append-only event log
    ([src/apps/server/src/events/append.ts])

    The actor of an event, the screen that keeps credential-shaped members out
    of a payload, and [appendEvent]: the next sequence of the stream, the event
    row and the outbox row that carries the obligation to deliver it. *)

From S2P Require Import Prelude Errors ReviewProtocol.

(** ** Actors *)

Record EventActor := {
  actor_type : ActorType;
  actor_id : option string;
  actor_display : option string
}.
#[export] Instance EventActor_eq_dec : EqDecision EventActor.
Proof. solve_decision. Defined.

(** [eventActor] of [reviews/service.ts], and the shape an [EventActor] has
    wherever it is serialised. *)
Definition eventActor (a : EventActor) : json :=
  JObj ([("type", JStr (name (actor_type a)))]
        ++ opt_member "id" JStr (actor_id a)
        ++ opt_member "display" JStr (actor_display a)).

(** ** Credential-shaped names *)

Definition ascii_lower (c : ascii) : ascii :=
  let n := N_of_ascii c in
  if bool_decide (65 ≤ n ≤ 90)%N then ascii_of_N (n + 32) else c.

Fixpoint lower (s : string) : string :=
  match s with
  | EmptyString => ""
  | String c s' => String (ascii_lower c) (lower s')
  end.

(** The regular expression's [.] stops at a line terminator. *)
Fixpoint one_line (s : string) : bool :=
  match s with
  | EmptyString => true
  | String c s' =>
      negb (bool_decide (N_of_ascii c = 10 ∨ N_of_ascii c = 13)%N) && one_line s'
  end.

(** [s.endsWith(p)] and [s.includes(p)]. *)
Definition ends_with (p s : string) : bool :=
  String.prefix (String.rev p) (String.rev s).
Fixpoint contains (p s : string) : bool :=
  String.prefix p s ||
  match s with EmptyString => false | String _ s' => contains p s' end.

(** [p[_-]?q] *)
Definition spaced (p q : string) : list string :=
  [p +:+ q; p +:+ "_" +:+ q; p +:+ "-" +:+ q].

Definition forbidden_names : list string :=
  ["authorization"; "authorisation"; "cookie"; "passphrase"; "credential";
   "credentials"; "capability"; "bearer"]
  ++ spaced "set" "cookie" ++ spaced "proxy" "authorization"
  ++ spaced "private" "key" ++ spaced "api" "key" ++ spaced "session" "key"
  ++ spaced "signing" "key".

(** [FORBIDDEN_PAYLOAD_KEYS.test(key)]: the whole name, case-insensitively. *)
Definition FORBIDDEN_PAYLOAD_KEYS (key : string) : bool :=
  let k := lower key in
  bool_decide (k ∈ forbidden_names)
  || (one_line k && ends_with "token" k && negb (ends_with "id_token" k))
  || (one_line k && contains "secret" k)
  || (one_line k && contains "password" k).

Definition PERMITTED_PAYLOAD_KEYS : list string :=
  ["credential_id"; "capability_id"; "token_id"; "secret_reference_id";
   "api_key_id"; "signing_key_id"; "key_id"].

Definition credential_shaped (key : string) : bool :=
  negb (includes PERMITTED_PAYLOAD_KEYS key) && FORBIDDEN_PAYLOAD_KEYS key.

Definition secret_message (path key : string) : string :=
  path +:+ "." +:+ key +:+ " is a credential-shaped member; docs/EVENTS.md section 8 forbids raw secrets, cookies and authorisation headers in an event payload. Record an identifier instead of a value.".

(** [assertPayloadCarriesNoSecret]: [Err m] throws [EventPayloadError(m)]. *)
Fixpoint assertPayloadCarriesNoSecret (value : json) (path : string) (depth : nat) :
    result string unit :=
  if bool_decide (12 < depth) then Ok ()
  else match value with
  | JArr items =>
      (fix each (index : nat) (items : list json) : result string unit :=
         match items with
         | [] => Ok ()
         | item :: rest =>
             assertPayloadCarriesNoSecret item
               (path +:+ "[" +:+ pretty index +:+ "]") (S depth) ;;
             each (S index) rest
         end) 0 items
  | JObj entries =>
      (fix each (entries : members) : result string unit :=
         match entries with
         | [] => Ok ()
         | (key, member) :: rest =>
             if credential_shaped key then Err (secret_message path key)
             else
               assertPayloadCarriesNoSecret member (path +:+ "." +:+ key) (S depth) ;;
               each rest
         end) entries
  | _ => Ok ()
  end.

(** ** Appending *)

Record AppendEventInput := {
  ev_in_type : string;
  ev_in_organisationId : string;
  ev_in_projectId : option string;
  ev_in_actor : EventActor;
  ev_in_correlation : members;
  ev_in_payload : members;
  ev_in_occurredAt : option Z;
  ev_in_enqueueOutbox : bool
}.

(** The input every caller of the review, finding and inbox modules builds: a
    project's event, stamped now, with its delivery enqueued. *)
Definition event_input (type org project : string) (actor : EventActor)
    (correlation payload : members) : AppendEventInput :=
  {| ev_in_type := type; ev_in_organisationId := org;
     ev_in_projectId := Some project; ev_in_actor := actor;
     ev_in_correlation := correlation; ev_in_payload := payload;
     ev_in_occurredAt := None; ev_in_enqueueOutbox := true |}.

Record EventRow := {
  ev_id : string;
  ev_schema_version : Z;
  ev_stream_key : string;
  ev_sequence : Z;
  ev_type : string;
  ev_occurred_at : Z;
  ev_organisation_id : string;
  ev_project_id : option string;
  ev_actor : EventActor;
  ev_correlation : members;
  ev_payload : members
}.

Record OutboxRow := {
  ob_event_id : string;
  ob_stream_key : string;
  ob_sequence : Z
}.

(** [event_streams], [events] in the order they were written, [event_outbox]. *)
Record EventLog := {
  event_streams : gmap string Z;
  events : list EventRow;
  event_outbox : list OutboxRow
}.

Definition EVENT_SCHEMA_VERSION : Z := 1.

Inductive AppendFailure :=
| EventPayloadError (m : string)
| DuplicateEventId.

Definition stream_key_of (input : AppendEventInput) : string :=
  default (ev_in_organisationId input) (ev_in_projectId input).

(** [insert ... on conflict do update set last_sequence = last_sequence + 1]. *)
Definition next_sequence (streams : gmap string Z) (key : string) : Z :=
  match streams !! key with Some last => last + 1 | None => 1 end.

(** [appendEvent] at the time [now], with the identifier [id] minted for the
    row.  The identifier is the table's primary key. *)
Definition appendEvent (now : Z) (id : string) (input : AppendEventInput)
    (log : EventLog) : result AppendFailure EventLog :=
  match assertPayloadCarriesNoSecret (JObj (ev_in_payload input)) "payload" 0 ;;
        assertPayloadCarriesNoSecret (JObj (ev_in_correlation input)) "correlation" 0
  with
  | Err m => Err (EventPayloadError m)
  | Ok _ =>
      let key := stream_key_of input in
      let sequence := next_sequence (event_streams log) key in
      if bool_decide (id ∈ ev_id <$> events log) then Err DuplicateEventId
      else Ok {|
        event_streams := <[key := sequence]> (event_streams log);
        events := events log ++
          [{| ev_id := id; ev_schema_version := EVENT_SCHEMA_VERSION;
              ev_stream_key := key; ev_sequence := sequence;
              ev_type := ev_in_type input;
              ev_occurred_at := default now (ev_in_occurredAt input);
              ev_organisation_id := ev_in_organisationId input;
              ev_project_id := ev_in_projectId input;
              ev_actor := ev_in_actor input;
              ev_correlation := ev_in_correlation input;
              ev_payload := ev_in_payload input |}];
        event_outbox :=
          if ev_in_enqueueOutbox input
             && negb (bool_decide (id ∈ ob_event_id <$> event_outbox log))
          then event_outbox log ++
            [{| ob_event_id := id; ob_stream_key := key; ob_sequence := sequence |}]
          else event_outbox log
      |}
  end.

(** ** Theorems *)

Section json_induction.
Context (P : json → Prop)
  (Harr : ∀ items, Forall P items → P (JArr items))
  (Hobj : ∀ ms, Forall (λ kv, P kv.2) ms → P (JObj ms))
  (Hatom : ∀ v, (∀ l, v ≠ JArr l) → (∀ o, v ≠ JObj o) → P v).

(** Induction over nested values. *)
Fixpoint json_nested_ind (v : json) : P v :=
  match v with
  | JArr items =>
      Harr items ((fix go l : Forall P l :=
        match l with
        | [] => Forall_nil_2 P
        | x :: xs => Forall_cons_2 P x xs (json_nested_ind x) (go xs)
        end) items)
  | JObj ms =>
      Hobj ms ((fix go l : Forall (λ kv : string * json, P kv.2) l :=
        match l with
        | [] => Forall_nil_2 _
        | kv :: kvs => Forall_cons_2 _ kv kvs (json_nested_ind kv.2) (go kvs)
        end) ms)
  | v => Hatom v ltac:(discriminate) ltac:(discriminate)
  end.
End json_induction.

(** [member_at v n k]: the object [n] levels below [v] has a member named [k]. *)
Inductive member_at : json → nat → string → Prop :=
| member_here k v o : (k, v) ∈ o → member_at (JObj o) 0 k
| member_in_object k v o n k' :
    (k, v) ∈ o → member_at v n k' → member_at (JObj o) (S n) k'
| member_in_array v l n k' :
    v ∈ l → member_at v n k' → member_at (JArr l) (S n) k'.

(** A value carries no credential-shaped name down to the depth that is looked
    at. *)
Definition clean_from (depth : nat) (v : json) : Prop :=
  ∀ n k, member_at v n k → depth + n ≤ 12 → credential_shaped k = false.

Lemma member_at_obj_cons k v o n k' :
  member_at (JObj ((k, v) :: o)) n k' ↔
    (n = 0 ∧ k' = k) ∨ (∃ m, n = S m ∧ member_at v m k') ∨ member_at (JObj o) n k'.
Proof.
  split.
  - inversion 1 as [? ? ? Hin|? ? ? ? ? Hin Hm|]; subst;
      apply elem_of_cons in Hin as [?|?]; simplify_eq; eauto 10 using member_at.
  - intros [[-> ->]|[(m & -> & Hm)|Hm]].
    + econstructor. by left.
    + econstructor; [by left|done].
    + inversion Hm; subst; econstructor; try done; by right.
Qed.

Lemma member_at_arr_cons v l n k' :
  member_at (JArr (v :: l)) n k' ↔
    (∃ m, n = S m ∧ member_at v m k') ∨ member_at (JArr l) n k'.
Proof.
  split.
  - inversion 1 as [| |? ? ? ? Hin Hm]; subst.
    apply elem_of_cons in Hin as [->|?]; eauto 10 using member_at.
  - intros [(m & -> & Hm)|Hm].
    + econstructor; [by left|done].
    + inversion Hm; subst; econstructor; try done; by right.
Qed.

Lemma clean_from_obj_cons d k v o :
  d ≤ 12 →
  clean_from d (JObj ((k, v) :: o)) ↔
    credential_shaped k = false ∧ clean_from (S d) v ∧ clean_from d (JObj o).
Proof.
  intros Hd. unfold clean_from. setoid_rewrite member_at_obj_cons. split.
  - intros H. repeat split.
    + apply (H 0 k); [eauto|lia].
    + intros n k' Hm Hn. apply (H (S n) k'); [eauto|lia].
    + intros n k' Hm. apply H. eauto.
  - intros (Hk & Hv & Ho) n k' [[-> ->]|[(m & -> & Hm)|Hm]] Hn; [done| |eauto].
    apply (Hv m); [done|lia].
Qed.

Lemma clean_from_arr_cons d v l :
  clean_from d (JArr (v :: l)) ↔ clean_from (S d) v ∧ clean_from d (JArr l).
Proof.
  unfold clean_from. setoid_rewrite member_at_arr_cons. split.
  - intros H. split.
    + intros n k' Hm Hn. apply (H (S n) k'); [eauto|lia].
    + intros n k' Hm. apply H. eauto.
  - intros (Hv & Hl) n k' [(m & -> & Hm)|Hm] Hn; [|eauto].
    apply (Hv m); [done|lia].
Qed.

Lemma clean_from_deep d v : 12 < d → clean_from d v.
Proof. intros Hd n k _ Hn. lia. Qed.

Lemma assertPayloadCarriesNoSecret_ok (value : json) (path : string) (depth : nat) :
  pass (assertPayloadCarriesNoSecret value path depth) ↔ clean_from depth value.
Proof.
  revert path depth. induction value as [items IH|ms IH|v Ha Ho] using json_nested_ind;
    intros path depth.
  - destruct (decide (12 < depth)) as [Hd|Hd].
    { cbn. rewrite bool_decide_true by done. split; [|done].
      intros _. by apply clean_from_deep. }
    cbn [assertPayloadCarriesNoSecret]. rewrite bool_decide_false by done.
    generalize 0. induction IH as [|v l IHv _ IHl]; intros i.
    + split; [|done]. intros _ n k Hm. inversion Hm as [| |? ? ? ? Hin]; subst.
      by apply elem_of_nil in Hin.
    + rewrite then_ok, IHv, clean_from_arr_cons, IHl. done.
  - destruct (decide (12 < depth)) as [Hd|Hd].
    { cbn. rewrite bool_decide_true by done. split; [|done].
      intros _. by apply clean_from_deep. }
    cbn [assertPayloadCarriesNoSecret]. rewrite bool_decide_false by done.
    induction IH as [|[k v] l IHv _ IHl].
    + split; [|done]. intros _ n k Hm.
      inversion Hm as [? ? ? Hin|? ? ? ? ? Hin|]; subst; by apply elem_of_nil in Hin.
    + rewrite clean_from_obj_cons by lia. destruct (credential_shaped k).
      * split; [done|]. by intros [? _].
      * rewrite then_ok, IHv, IHl. naive_solver.
  - split.
    + intros _ n k Hm. exfalso. inversion Hm; subst; [by eapply Ho..|by eapply Ha].
    + intros _. destruct v as [| b | z | d | f | s | t | l | o];
        try (cbn; by case_bool_decide).
      * by destruct (Ha l).
      * by destruct (Ho o).
Qed.

(** the payload screen is exact.  [assertPayloadCarriesNoSecret] accepts a
    value precisely when no object at most twelve levels down, through any
    nesting of objects and arrays, has a credential-shaped member name; the
    path it reports never affects the answer. *)
Theorem assertPayloadCarriesNoSecret_spec (value : json) (path : string) (depth : nat) :
  pass (assertPayloadCarriesNoSecret value path depth) ↔
    (∀ n k, member_at value n k → depth + n ≤ 12 → credential_shaped k = false).
Proof. apply assertPayloadCarriesNoSecret_ok. Qed.

(** *** The streams *)

Definition stream_of (key : string) (l : list EventRow) : list EventRow :=
  filter (λ e, ev_stream_key e = key) l.

Definition outbox_row (e : EventRow) : OutboxRow :=
  {| ob_event_id := ev_id e; ob_stream_key := ev_stream_key e;
     ob_sequence := ev_sequence e |}.

(** Every stream is numbered [1, 2, ..., n] in the order its events were
    written and [event_streams] holds [n]; identifiers are unique; every outbox
    row is the obligation of one event of the log. *)
Record log_ok (log : EventLog) : Prop := {
  log_numbered : ∀ key,
    ev_sequence <$> stream_of key (events log)
    = seqZ 1 (default 0%Z (event_streams log !! key));
  log_counts : map_Forall (λ _ n, 1 ≤ n)%Z (event_streams log);
  log_ids : NoDup (ev_id <$> events log);
  log_outbox : ∀ r, r ∈ event_outbox log → ∃ e, e ∈ events log ∧ r = outbox_row e;
  log_outbox_ids : NoDup (ob_event_id <$> event_outbox log)
}.

Definition empty_log : EventLog :=
  {| event_streams := ∅; events := []; event_outbox := [] |}.

Lemma empty_log_ok : log_ok empty_log.
Proof.
  split; cbn.
  - done.
  - apply map_Forall_empty.
  - constructor.
  - intros r Hr. by apply elem_of_nil in Hr.
  - constructor.
Qed.

Lemma next_sequence_length log key :
  log_ok log →
  next_sequence (event_streams log) key = (Z.of_nat (length (stream_of key (events log))) + 1)%Z.
Proof.
  intros Hok. pose proof (f_equal length (log_numbered _ Hok key)) as Hl.
  rewrite length_fmap, length_seqZ in Hl. unfold next_sequence.
  destruct (event_streams log !! key) as [z|] eqn:Hz; cbn in Hl; [|lia].
  apply (log_counts _ Hok) in Hz. lia.
Qed.

Lemma stream_of_snoc key l e :
  stream_of key (l ++ [e]) =
    stream_of key l ++ (if decide (ev_stream_key e = key) then [e] else []).
Proof.
  unfold stream_of. rewrite filter_app. done.
Qed.

Lemma log_outbox_subset log :
  log_ok log → ob_event_id <$> event_outbox log ⊆ ev_id <$> events log.
Proof.
  intros Hok i (r & -> & Hr)%list_elem_of_fmap.
  apply (log_outbox _ Hok) in Hr as (e & He & ->).
  apply list_elem_of_fmap. by exists e.
Qed.

(** What a successful append did. *)
Lemma appendEvent_ok now id input log log' :
  appendEvent now id input log = Ok log' →
  clean_from 0 (JObj (ev_in_payload input))
  ∧ clean_from 0 (JObj (ev_in_correlation input))
  ∧ id ∉ ev_id <$> events log
  ∧ ∃ e, ev_id e = id ∧ ev_type e = ev_in_type input
     ∧ ev_actor e = ev_in_actor input ∧ ev_payload e = ev_in_payload input
     ∧ ev_correlation e = ev_in_correlation input
     ∧ ev_project_id e = ev_in_projectId input
     ∧ ev_organisation_id e = ev_in_organisationId input
     ∧ ev_stream_key e = stream_key_of input
     ∧ ev_sequence e = next_sequence (event_streams log) (stream_key_of input)
     ∧ event_streams log' = <[stream_key_of input := ev_sequence e]> (event_streams log)
     ∧ events log' = events log ++ [e]
     ∧ event_outbox log' =
         (if ev_in_enqueueOutbox input
             && negb (bool_decide (id ∈ ob_event_id <$> event_outbox log))
          then event_outbox log ++ [outbox_row e] else event_outbox log).
Proof.
  unfold appendEvent.
  destruct (assertPayloadCarriesNoSecret (JObj (ev_in_payload input)) "payload" 0)
    as [[]|] eqn:Hp; [|done].
  destruct (assertPayloadCarriesNoSecret (JObj (ev_in_correlation input)) "correlation" 0)
    as [[]|] eqn:Hc; [|done].
  cbn [mbind result_bind]. case_bool_decide as Hid; [done|]. intros [= <-].
  split; [by eapply (proj1 (assertPayloadCarriesNoSecret_ok _ _ _))|].
  split; [by eapply (proj1 (assertPayloadCarriesNoSecret_ok _ _ _))|].
  split; [done|]. cbn [events event_streams event_outbox].
  eexists; repeat split; try done; cbn; by destruct (ev_in_enqueueOutbox input).
Qed.

Lemma appendEvent_preserves (now : Z) (id : string) (input : AppendEventInput)
    (log log' : EventLog)
    (Hok : log_ok log) (Happend : appendEvent now id input log = Ok log') :
  log_ok log'
  ∧ ∃ e, events log' = events log ++ [e]
    ∧ ev_sequence e = (Z.of_nat (length (stream_of (stream_key_of input) (events log))) + 1)%Z
    ∧ (∀ key, key ≠ stream_key_of input →
         stream_of key (events log') = stream_of key (events log))
    ∧ (ev_in_enqueueOutbox input = true →
         event_outbox log' = event_outbox log ++ [outbox_row e]).
Proof.
  apply appendEvent_ok in Happend
    as (_ & _ & Hid & e & Hide & _ & _ & _ & _ & _ & _ & Hkey & Hseq & Hs & He & Ho).
  assert (id ∉ ob_event_id <$> event_outbox log) as Hob.
  { intros Hin. by apply Hid, log_outbox_subset. }
  rewrite bool_decide_false, andb_true_r in Ho by done.
  pose proof (next_sequence_length log (stream_key_of input) Hok) as Hnext.
  split; [split|exists e; split; [done|]; split; [by rewrite Hseq|]; split].
  - intros key. rewrite He, Hs, stream_of_snoc, Hkey, fmap_app, (log_numbered _ Hok).
    case_decide as Hk; [subst key|by rewrite app_nil_r, lookup_insert_ne].
    rewrite lookup_insert_eq. cbn. rewrite Hseq. unfold next_sequence.
    destruct (event_streams log !! _) as [z|] eqn:Hz; cbn; [|done].
    apply (log_counts _ Hok) in Hz.
    replace (z + 1)%Z with (Z.of_nat (S (Z.to_nat z))) by lia.
    rewrite seqZ_S, Z2Nat.id by lia. do 2 f_equal. lia.
  - rewrite Hs. apply map_Forall_insert_2; [|apply (log_counts _ Hok)].
    rewrite Hseq, Hnext. lia.
  - rewrite He, fmap_app. apply NoDup_app. repeat split.
    + apply (log_ids _ Hok).
    + intros i Hi ->%list_elem_of_singleton. rewrite Hide in Hi. done.
    + apply NoDup_singleton.
  - intros r. rewrite Ho, He. setoid_rewrite elem_of_app.
    destruct (ev_in_enqueueOutbox input).
    + intros [Hr|Hr]%elem_of_app.
      * apply (log_outbox _ Hok) in Hr as (e' & He' & ->). eauto.
      * exists e. set_solver.
    + intros Hr. apply (log_outbox _ Hok) in Hr as (e' & He' & ->). eauto.
  - rewrite Ho. destruct (ev_in_enqueueOutbox input); [|apply (log_outbox_ids _ Hok)].
    rewrite fmap_app. apply NoDup_app. repeat split.
    + apply (log_outbox_ids _ Hok).
    + intros i Hi ->%list_elem_of_singleton. cbn in Hi. rewrite Hide in Hi. done.
    + apply NoDup_singleton.
  - intros key Hne. rewrite He, stream_of_snoc, Hkey, decide_False by done.
    by rewrite app_nil_r.
  - intros Hq. by rewrite Ho, Hq.
Qed.

(** appending keeps the log in order.  From a well-formed log a successful
    [appendEvent] gives a well-formed log that extends it by exactly one event:
    the event carries the next number of its own stream, one more than the
    stream held; no other stream changes; nothing already written is altered;
    and, when delivery is to be enqueued, exactly one outbox row for that event
    is added. *)
Theorem appendEvent_preserves_log (now : Z) (id : string) (input : AppendEventInput)
    (log log' : EventLog)
    (Hok : log_ok log) (Happend : appendEvent now id input log = Ok log') :
  log_ok log'
  ∧ ∃ e, events log' = events log ++ [e]
    ∧ ev_sequence e = (Z.of_nat (length (stream_of (stream_key_of input) (events log))) + 1)%Z
    ∧ (∀ key, key ≠ stream_key_of input →
         stream_of key (events log') = stream_of key (events log))
    ∧ (ev_in_enqueueOutbox input = true →
         event_outbox log' = event_outbox log ++ [outbox_row e]).
Proof. by apply (appendEvent_preserves now id). Qed.

Definition sample_input : AppendEventInput :=
  event_input "review.created" "org_1" "prj_1"
    {| actor_type := human_user; actor_id := Some "usr_1"; actor_display := None |}
    [("review_id", JStr "rev_1")]
    [("review", JObj [("id", JStr "rev_1"); ("version", JNum 1)])].

Example appendEvent_preserves_log_witness :
  ∃ log', appendEvent 1000 "evt_1" sample_input empty_log = Ok log' ∧ log_ok log'.
Proof.
  eexists. split; [vm_compute; reflexivity|].
  refine (proj1 (appendEvent_preserves_log 1000 "evt_1" sample_input empty_log _ _ _)).
  - apply empty_log_ok.
  - vm_compute; reflexivity.
Defined.
