(* ===== verification/Regex.v ===== *)
(** * The regular expressions of the source

    The fragment of JavaScript's regular expressions that the screens use:
    character classes, sequence, alternation, repetition and the word boundary
    [\b].  [test] decides whether an expression matches somewhere in a string;
    [matches] says what that means. *)

From S2P Require Import Prelude Events.

Inductive regex : Type :=
| Eps
| Class (p : ascii → bool)
| Seq (r r' : regex)
| Or (r r' : regex)
| Star (r : regex)
| Boundary.

(** A place in a string: the character before it, and the rest. *)
Definition place : Type := option ascii * string.

Definition word_char (c : ascii) : bool :=
  let n := N_of_ascii c in
  bool_decide (48 ≤ n ≤ 57)%N || bool_decide (65 ≤ n ≤ 90)%N
  || bool_decide (97 ≤ n ≤ 122)%N || bool_decide (n = 95)%N.
Definition word_at (c : option ascii) : bool :=
  match c with Some c => word_char c | None => false end.
Definition at_boundary (x : place) : bool :=
  negb (eqb (word_at x.1) (word_at (String.get 0 x.2))).

(** The places at which a match that starts at [x] can end; [Star] repeats as
    long as each turn consumes something. *)
Fixpoint repeat_ends (step : place → list place) (fuel : nat) (x : place) : list place :=
  match fuel with
  | O => [x]
  | S fuel' =>
      x :: (filter (λ y, (String.length y.2 < String.length x.2)%nat) (step x)
              ≫= repeat_ends step fuel')
  end.

Fixpoint ends (r : regex) (x : place) : list place :=
  match r with
  | Eps => [x]
  | Class p =>
      match x.2 with
      | String c s => if p c then [(Some c, s)] else []
      | EmptyString => []
      end
  | Seq r r' => ends r x ≫= ends r'
  | Or r r' => ends r x ++ ends r' x
  | Star r => repeat_ends (ends r) (String.length x.2) x
  | Boundary => if at_boundary x then [x] else []
  end.

(** [pattern.test(s)] *)
Fixpoint test_from (r : regex) (before : option ascii) (s : string) : bool :=
  negb (bool_decide (ends r (before, s) = []))
  || match s with EmptyString => false | String c s' => test_from r (Some c) s' end.
Definition test (r : regex) (s : string) : bool := test_from r None s.

(** ** Building expressions *)

Definition lit_char (c : ascii) : regex := Class (λ d, bool_decide (d = c)).
(** Under the flag [i]. *)
Definition lit_char_i (c : ascii) : regex := Class (λ d, bool_decide (ascii_lower d = ascii_lower c)).
Fixpoint lit_with (f : ascii → regex) (s : string) : regex :=
  match s with EmptyString => Eps | String c s' => Seq (f c) (lit_with f s') end.
Definition lit : string → regex := lit_with lit_char.
Definition lit_i : string → regex := lit_with lit_char_i.

Definition between (lo hi : N) (c : ascii) : bool :=
  let n := N_of_ascii c in bool_decide (lo ≤ n ≤ hi)%N.
Definition one_of (s : string) (c : ascii) : bool := bool_decide (c ∈ String.list_ascii_of_string s).
Definition upper_c : ascii → bool := between 65 90.
Definition lower_c : ascii → bool := between 97 122.
Definition digit_c : ascii → bool := between 48 57.
Definition alnum_c (c : ascii) : bool := upper_c c || lower_c c || digit_c c.

Definition opt (r : regex) : regex := Or r Eps.
Definition plus (r : regex) : regex := Seq r (Star r).
Fixpoint times (n : nat) (r : regex) : regex :=
  match n with O => Eps | S n' => Seq r (times n' r) end.
(** [r{n,}] *)
Definition at_least (n : nat) (r : regex) : regex := Seq (times n r) (Star r).
Fixpoint seq_of (rs : list regex) : regex :=
  match rs with [] => Eps | r :: rs' => Seq r (seq_of rs') end.
Fixpoint or_of (r : regex) (rs : list regex) : regex :=
  match rs with [] => r | r' :: rs' => Or r (or_of r' rs') end.

(** ** What a match is *)

Inductive matches : regex → place → place → Prop :=
| m_eps x : matches Eps x x
| m_class p b c s : p c = true → matches (Class p) (b, String c s) (Some c, s)
| m_seq r r' x y z : matches r x y → matches r' y z → matches (Seq r r') x z
| m_or_l r r' x y : matches r x y → matches (Or r r') x y
| m_or_r r r' x y : matches r' x y → matches (Or r r') x y
| m_star_end r x : matches (Star r) x x
| m_star_more r x y z : matches r x y → matches (Star r) y z → matches (Star r) x z
| m_boundary x : at_boundary x = true → matches Boundary x x.

Lemma matches_shorter r x y : matches r x y → (String.length y.2 ≤ String.length x.2)%nat.
Proof. induction 1; cbn in *; lia. Qed.

(** A match that consumes nothing stays where it is. *)
Lemma matches_still r x y :
  matches r x y → String.length y.2 = String.length x.2 → y = x.
Proof.
  induction 1; cbn in *; intros Hl; try done; try (by auto).
  - exfalso. lia.
  - pose proof (matches_shorter _ _ _ H). pose proof (matches_shorter _ _ _ H0).
    assert (y = x) as -> by (apply IHmatches1; lia). apply IHmatches2. lia.
  - pose proof (matches_shorter _ _ _ H). pose proof (matches_shorter _ _ _ H0).
    assert (y = x) as -> by (apply IHmatches1; lia). apply IHmatches2. lia.
Qed.

Lemma repeat_ends_spec r step n x z :
  (∀ x y, y ∈ step x ↔ matches r x y) → (String.length x.2 ≤ n)%nat →
  z ∈ repeat_ends step n x ↔ matches (Star r) x z.
Proof.
  intros Hstep. revert x. induction n as [|n IH]; intros x Hn; cbn [repeat_ends].
  - rewrite list_elem_of_singleton. split; [intros ->; constructor|].
    intros Hm. apply (matches_still (Star r)); [done|]. apply matches_shorter in Hm. lia.
  - rewrite elem_of_cons, list_elem_of_bind. split.
    + intros [->|(y & Hz & Hy)]; [constructor|].
      apply list_elem_of_filter in Hy as [Hlt Hy]. apply Hstep in Hy.
      eapply m_star_more; [exact Hy|]. apply IH; [cbn in *; lia|done].
    + intros Hm. remember (Star r) as q eqn:Hq. induction Hm as [| | | | |r' x|r' x y z Hr _ Hs IHs|];
        try discriminate Hq.
      * by left.
      * injection Hq as ->.
        destruct (decide (String.length y.2 < String.length x.2)%nat) as [Hlt|Hge].
        -- right. exists y. split; [apply IH; [lia|exact Hs]|].
           apply list_elem_of_filter. split; [done|]. by apply Hstep.
        -- pose proof (matches_shorter _ _ _ Hr).
           assert (y = x) as -> by (apply (matches_still r); [done|lia]). by apply IHs.
Qed.

Lemma ends_spec r x y : y ∈ ends r x ↔ matches r x y.
Proof.
  revert x y. induction r as [|p|r IHr r' IHr'|r IHr r' IHr'|r IHr|]; intros x y; cbn [ends].
  - rewrite list_elem_of_singleton. split; [intros ->; constructor|by inversion 1].
  - destruct x as [b [|c s]]; cbn.
    + split; [by intros ?%not_elem_of_nil|by inversion 1].
    + destruct (p c) eqn:Hp.
      * rewrite list_elem_of_singleton. split; [intros ->; by constructor|by inversion 1].
      * split; [by intros ?%not_elem_of_nil|]. inversion 1. congruence.
  - rewrite list_elem_of_bind. split.
    + intros (z & Hy & Hz). econstructor; [by apply IHr|by apply IHr'].
    + inversion 1 as [| |? ? ? z ? H1 H2| | | | |]; subst. exists z. split; [by apply IHr'|by apply IHr].
  - rewrite elem_of_app, IHr, IHr'. split; [intros [?|?]; by constructor|].
    inversion 1; subst; [by left|by right].
  - by apply repeat_ends_spec.
  - destruct (at_boundary x) eqn:Hb.
    + rewrite list_elem_of_singleton. split; [intros ->; by constructor|by inversion 1].
    + split; [by intros ?%not_elem_of_nil|]. inversion 1. congruence.
Qed.

(** The places of a string, from its start. *)
Inductive within : place → place → Prop :=
| w_here x : within x x
| w_next b c s y : within (Some c, s) y → within (b, String c s) y.

Lemma test_from_spec r b s :
  test_from r b s = true ↔ ∃ x y, within (b, s) x ∧ matches r x y.
Proof.
  revert b. induction s as [|c s IH]; intros b; cbn [test_from].
  all: rewrite orb_true_iff, negb_true_iff, bool_decide_eq_false.
  - split.
    + intros [Hne|]; [|done]. destruct (ends r (b, "")) as [|y l] eqn:He; [done|].
      exists (b, ""), y. split; [constructor|]. apply ends_spec. rewrite He. by left.
    + intros (x & y & Hw & Hm). left. inversion Hw; subst.
      apply ends_spec in Hm. intros He. rewrite He in Hm. by apply not_elem_of_nil in Hm.
  - rewrite IH. split.
    + intros [Hne|(x & y & Hw & Hm)].
      * destruct (ends r (b, String c s)) as [|y l] eqn:He; [done|].
        exists (b, String c s), y. split; [constructor|]. apply ends_spec. rewrite He. by left.
      * exists x, y. split; [by constructor|done].
    + intros (x & y & Hw & Hm). inversion Hw as [|? ? ? ? Hw']; subst.
      * left. apply ends_spec in Hm. intros He. rewrite He in Hm. by apply not_elem_of_nil in Hm.
      * right. by exists x, y.
Qed.

(** [test] finds exactly the strings in which some place starts a match. *)
Lemma test_spec r s : test r s = true ↔ ∃ x y, within (None, s) x ∧ matches r x y.
Proof. apply test_from_spec. Qed.
