(* ===== verification/ControlAuthorisation.v ===== *)
(** * Authorising a browser command

    The control plane's matrix
    ([src/apps/server/src/modules/browser-sessions/authorisation.ts]) and the
    worker's own check
    ([src/apps/browser-worker/src/session/control.ts]). *)

From S2P Require Import Prelude Errors BrowserProtocol Events Regex.

(** ** Text that looks like secret material *)

Definition word_token (c : ascii) : bool := alnum_c c || one_of "_-" c.
Definition bearer_token (c : ascii) : bool := alnum_c c || one_of "._~+/=-" c.

(** [a[_-]?b], whatever the case of the letters. *)
Definition dashed (a b : string) : regex :=
  seq_of [lit_i a; opt (Class (one_of "_-")); lit_i b].

Definition SECRET_SHAPES : list (string * regex) :=
  [("reviewplane_agent_token",
     seq_of [Boundary; lit "rpa_"; at_least 16 (Class word_token)]);
   ("authorization_header",
     seq_of [Boundary; lit_i "bearer"; plus (Class js_space); at_least 16 (Class bearer_token)]);
   ("private_key_block",
     seq_of [lit "-----BEGIN "; Star (Class (λ c, upper_c c || one_of " " c));
             lit "PRIVATE KEY-----"]);
   ("named_secret_assignment",
     seq_of [Boundary;
             or_of (lit_i "password")
               [lit_i "passwd"; lit_i "secret"; dashed "api" "key"; dashed "access" "token";
                dashed "refresh" "token"; dashed "client" "secret"; dashed "private" "key";
                lit_i "credential"];
             Boundary; Star (Class js_space); Class (one_of ":="); Star (Class js_space);
             at_least 6 (Class (λ c, negb (js_space c)))]);
   ("aws_access_key_id",
     seq_of [Boundary; lit "AKIA"; times 16 (Class (λ c, digit_c c || upper_c c)); Boundary]);
   ("github_token",
     seq_of [Boundary; lit "gh"; Class (one_of "pousr"); lit "_"; at_least 20 (Class alnum_c)])].

Fixpoint first_shape (shapes : list (string * regex)) (value : string) : option string :=
  match shapes with
  | [] => None
  | (shape, pattern) :: rest => if test pattern value then Some shape else first_shape rest value
  end.
Definition secretMaterialShape (value : string) : option string := first_shape SECRET_SHAPES value.

(** ** The control plane's matrix *)

Record CommandDenial := {
  cd_code : ApiErrorCode;
  cd_message : string;
  cd_details : option members;
  cd_reason : string
}.

Record CommandContext := {
  sessionProjectId : string;
  actorProjectId : string;
  cx_status : SessionStatus;
  currentEpoch : Z;
  currentController : option ControllerIdentity;
  presentedEpoch : Z;
  presentedController : ControllerIdentity;
  cx_publishedServiceId : option string;
  routeAssociated : option bool
}.

Definition reachesTheNetwork (c : CommandName) : bool := bool_decide (c = navigate).

Definition holds (c : ControllerIdentity) (current : option ControllerIdentity) : bool :=
  match current with Some c' => sameController c c' | None => false end.

Definition policyDenial (command : BrowserCommand) : option CommandDenial :=
  if bool_decide (bc_command command = type_text) then
    match secretMaterialShape (default "" (bc_type_text command)) with
    | Some shape =>
        Some {| cd_code := POLICY_DENIED;
                cd_message := "This value looks like secret material. Secrets MUST NOT be typed into a page through browser_type (docs/MCP_SPEC.md section 7.4).";
                cd_details := Some [("reason", JStr "secret_material"); ("detected", JStr shape)];
                cd_reason := "secret_material_refused" |}
    | None => None
    end
  else None.

Definition authoriseBrowserCommand (context : CommandContext) (command : BrowserCommand) :
    option CommandDenial :=
  let name := bc_command command in
  let status := cx_status context in
  if negb (bool_decide (sessionProjectId context = actorProjectId context)) then
    Some {| cd_code := RESOURCE_NOT_FOUND; cd_message := "The browser session was not found.";
            cd_details := None; cd_reason := "project_mismatch" |}
  else if bool_decide (status = PAUSED) && isInteractive name then
    Some {| cd_code := BROWSER_SESSION_NOT_ACTIVE;
            cd_message := "The browser session is paused. Resume it before issuing interactive commands; capture continues while paused.";
            cd_details := Some [("browser_session_status", JStr (status_name status))];
            cd_reason := "session_paused" |}
  else if negb (bool_decide (status ∈ [PAUSED; BS_READY; ACTIVE])) then
    Some {| cd_code := BROWSER_SESSION_NOT_ACTIVE;
            cd_message := "The browser session is " +:+ status_name status +:+ ".";
            cd_details := Some [("browser_session_status", JStr (status_name status))];
            cd_reason := "session_not_active" |}
  else if negb (bool_decide (presentedEpoch context = currentEpoch context)) then
    Some {| cd_code := CONTROL_EPOCH_STALE;
            cd_message := "Browser control changed. Refresh session state before retrying.";
            cd_details := Some [("current_epoch", JNum (currentEpoch context))];
            cd_reason := "control_epoch_stale" |}
  else if negb (holds (presentedController context) (currentController context))
          && negb (isSystemCapture name
                   && bool_decide (ct_type (presentedController context) = by_system)) then
    Some {| cd_code := CONTROL_NOT_OWNED;
            cd_message := "Another controller holds the interactive lease for this browser session.";
            cd_details := Some [("current_epoch", JNum (currentEpoch context))];
            cd_reason := "control_not_owned" |}
  else match policyDenial command with
  | Some denial => Some denial
  | None =>
      if reachesTheNetwork name && bool_decide (routeAssociated context = Some false) then
        Some {| cd_code := AUTHORISATION_DENIED;
                cd_message := "The published service this browser session was allocated against no longer authorises it.";
                cd_details := Some [("published_service_id",
                                      or_null JStr (cx_publishedServiceId context))];
                cd_reason := "route_not_associated" |}
      else None
  end.

(** ** The worker's check *)

Record ControlState := {
  cs_epoch : Z;
  cs_controller : ControllerIdentity;
  cs_lastSequence : Z
}.

Record CommandAuthorisation := {
  ca_command : CommandName;
  ca_controller : ControllerIdentity;
  ca_epoch : Z;
  ca_sequence : Z
}.

Record ControlRefusal := {
  rf_code : ApiErrorCode;
  rf_message : string;
  rf_retryable : bool;
  rf_currentEpoch : Z
}.

Definition authoriseCommand (state : ControlState) (request : CommandAuthorisation) :
    option ControlRefusal :=
  if negb (bool_decide (ca_epoch request = cs_epoch state)) then
    Some {| rf_code := CONTROL_EPOCH_STALE;
            rf_message := "Browser control changed. Refresh session state before retrying.";
            rf_retryable := true; rf_currentEpoch := cs_epoch state |}
  else if bool_decide (ca_sequence request ≤ cs_lastSequence state)%Z then
    Some {| rf_code := RESOURCE_STALE;
            rf_message := "Command sequence " +:+ pretty (ca_sequence request)
              +:+ " is not newer than the last accepted command.";
            rf_retryable := false; rf_currentEpoch := cs_epoch state |}
  else if sameController (ca_controller request) (cs_controller state) then None
  else if isSystemCapture (ca_command request)
          && bool_decide (ct_type (ca_controller request) = by_system) then None
  else Some {| rf_code := CONTROL_NOT_OWNED;
               rf_message := "Another controller holds the interactive lease for this browser session.";
               rf_retryable := false; rf_currentEpoch := cs_epoch state |}.

(** ** Who may issue a command *)

(** The presented identity speaks for the session: it is the controller, or a
    system capture, which needs no lease. *)
Definition speaks (c : ControllerIdentity) (current : option ControllerIdentity)
    (command : CommandName) : Prop :=
  current = Some c ∨ (command ∈ SYSTEM_CAPTURE_COMMANDS ∧ ct_type c = by_system).

Lemma holds_true c current : holds c current = true ↔ current = Some c.
Proof. destruct current as [c'|]; cbn; [rewrite sameController_true|]; naive_solver. Qed.

Lemma speaks_spec c current command :
  speaks c current command ↔
    holds c current || (isSystemCapture command && bool_decide (ct_type c = by_system)) = true.
Proof.
  unfold speaks, isSystemCapture, includes.
  by rewrite orb_true_iff, andb_true_iff, holds_true, !bool_decide_eq_true.
Qed.

Lemma first_shape_None shapes value :
  first_shape shapes value = None ↔ Forall (λ s, test s.2 value = false) shapes.
Proof.
  induction shapes as [|[n r] l IH]; cbn; [done|]. rewrite Forall_cons. cbn.
  destruct (test r value); naive_solver.
Qed.

(** What [secretMaterialShape] lets through: no shape matches anywhere. *)
Definition carries_no_secret (text : string) : Prop :=
  ∀ shape pattern x y, (shape, pattern) ∈ SECRET_SHAPES → within (None, text) x →
    ¬ matches pattern x y.

Lemma secretMaterialShape_None text :
  secretMaterialShape text = None ↔ carries_no_secret text.
Proof.
  unfold secretMaterialShape, carries_no_secret. rewrite first_shape_None, Forall_forall. split.
  - intros Hall shape pattern x y Hin Hw Hm. specialize (Hall _ Hin). cbn in Hall.
    assert (test pattern text = true) by (apply test_spec; eauto). congruence.
  - intros Hnone [shape pattern] Hin. cbn. destruct (test pattern text) eqn:Ht; [|done].
    apply test_spec in Ht as (x & y & Hw & Hm). exfalso. by eapply Hnone.
Qed.

Lemma policyDenial_None command :
  policyDenial command = None ↔
    (bc_command command = type_text → carries_no_secret (default "" (bc_type_text command))).
Proof.
  unfold policyDenial. case_bool_decide as Hc.
  - rewrite <- secretMaterialShape_None. destruct (secretMaterialShape _); naive_solver.
  - naive_solver.
Qed.

(** A check that passes, and one that is itself a denial. *)
Lemma guard_None {A} (c : bool) (d : A) (k : option A) :
  (if c then Some d else k) = None ↔ c = false ∧ k = None.
Proof. destruct c; naive_solver. Qed.
Lemma otherwise_None {A} (m k : option A) :
  (match m with Some d => Some d | None => k end) = None ↔ m = None ∧ k = None.
Proof. destruct m; naive_solver. Qed.

Lemma authorise_iff cx command :
  authoriseBrowserCommand cx command = None ↔
    sessionProjectId cx = actorProjectId cx ∧
    (cx_status cx = BS_READY ∨ cx_status cx = ACTIVE ∨
     (cx_status cx = PAUSED ∧ bc_command command ∈ SYSTEM_CAPTURE_COMMANDS)) ∧
    presentedEpoch cx = currentEpoch cx ∧
    speaks (presentedController cx) (currentController cx) (bc_command command) ∧
    (bc_command command = type_text → carries_no_secret (default "" (bc_type_text command))) ∧
    (bc_command command = navigate → routeAssociated cx ≠ Some false).
Proof.
  rewrite speaks_spec, <- policyDenial_None. unfold authoriseBrowserCommand, reachesTheNetwork.
  cbv zeta. rewrite !guard_None, otherwise_None, guard_None, command_kinds.
  rewrite <- negb_orb, !negb_false_iff, !bool_decide_eq_true, !andb_false_iff, !bool_decide_eq_false,
    negb_false_iff.
  unfold isSystemCapture, includes. rewrite bool_decide_eq_true, !elem_of_cons, elem_of_nil.
  destruct (decide (bc_command command = navigate)); intuition (congruence || eauto).
Qed.

Lemma worker_authorise_iff state request :
  authoriseCommand state request = None ↔
    ca_epoch request = cs_epoch state ∧ (cs_lastSequence state < ca_sequence request)%Z ∧
    speaks (ca_controller request) (Some (cs_controller state)) (ca_command request).
Proof.
  rewrite speaks_spec. cbn [holds]. unfold authoriseCommand.
  rewrite !guard_None, negb_false_iff, bool_decide_eq_true, bool_decide_eq_false.
  rewrite (Z.nle_gt (ca_sequence request)).
  destruct (sameController _ _), (isSystemCapture _ && _); cbn [orb]; intuition congruence.
Qed.

(** ** Properties *)

(** C30: the control plane's matrix.  A command passes exactly when the session is
    in the actor's project, it is READY or ACTIVE (or PAUSED and the command is a
    capture), the presented epoch is the session's, the presented identity is
    the session's controller (or a system identity issuing a capture), a typed
    text matches none of the secret shapes at any place, and a navigation is not
    against a route that stopped authorising the session.  A session of another
    project is answered the same way whatever its state, and a stale epoch is
    named before the lease is looked at. *)
Theorem authoriseBrowserCommand_decision cx command :
  (authoriseBrowserCommand cx command = None ↔
     sessionProjectId cx = actorProjectId cx ∧
     (cx_status cx = BS_READY ∨ cx_status cx = ACTIVE ∨
      (cx_status cx = PAUSED ∧ bc_command command ∈ SYSTEM_CAPTURE_COMMANDS)) ∧
     presentedEpoch cx = currentEpoch cx ∧
     speaks (presentedController cx) (currentController cx) (bc_command command) ∧
     (bc_command command = type_text → carries_no_secret (default "" (bc_type_text command))) ∧
     (bc_command command = navigate → routeAssociated cx ≠ Some false)) ∧
  (sessionProjectId cx ≠ actorProjectId cx →
     authoriseBrowserCommand cx command =
       Some {| cd_code := RESOURCE_NOT_FOUND; cd_message := "The browser session was not found.";
               cd_details := None; cd_reason := "project_mismatch" |}) ∧
  (sessionProjectId cx = actorProjectId cx → cx_status cx ∈ [BS_READY; ACTIVE] →
     presentedEpoch cx ≠ currentEpoch cx →
     cd_code <$> authoriseBrowserCommand cx command = Some CONTROL_EPOCH_STALE).
Proof.
  split; [apply authorise_iff|]. unfold authoriseBrowserCommand. cbv zeta. split.
  - intros Hp. by rewrite bool_decide_false.
  - intros Hp Hs He. rewrite (bool_decide_true _ Hp), (bool_decide_false _ He). cbn [negb].
    rewrite !elem_of_cons in Hs. destruct Hs as [->|[->|[]%elem_of_nil]]; done.
Qed.

(** The two layers agree: a command the control plane lets through is let
    through by a worker whose session carries the same epoch and controller and
    has seen no such sequence number yet; and the worker refuses every command
    under an epoch other than its own, with that epoch. *)
Theorem layers_agree cx command state sequence :
  let request := {| ca_command := bc_command command; ca_controller := presentedController cx;
                    ca_epoch := presentedEpoch cx; ca_sequence := sequence |} in
  (authoriseBrowserCommand cx command = None → cs_epoch state = currentEpoch cx →
   currentController cx = Some (cs_controller state) → (cs_lastSequence state < sequence)%Z →
   authoriseCommand state request = None) ∧
  (presentedEpoch cx ≠ cs_epoch state →
   ∃ refusal, authoriseCommand state request = Some refusal ∧ rf_code refusal = CONTROL_EPOCH_STALE
     ∧ rf_currentEpoch refusal = cs_epoch state).
Proof.
  cbv zeta. split.
  - intros (_ & _ & He & Hs & _)%authorise_iff Hse Hc Hq. apply worker_authorise_iff. cbn.
    split_and!; [congruence|done|]. by rewrite <- Hc.
  - intros He. unfold authoriseCommand. cbn [ca_epoch]. rewrite bool_decide_false by done. by eexists.
Qed.
