(* ===== verification/DestinationPolicy.v ===== *)
(** * Which local destinations may be published
    ([src/apps/server/src/modules/published-services/destination-policy.ts])

    [isIPv4] and [isIPv6] are those of Node's [net] module: four decimal octets
    without leading zeros; and up to eight groups of hexadecimal digits, the last
    two of which may be written as an IPv4 address, with at most one [::] for at
    least one group and optionally a zone after a percent sign.  Reading the
    allow-list of ports from configuration ([parsePortRange]) is not modelled. *)

From S2P Require Import Prelude Events Regex.

(** ** The addresses Node recognises *)

Definition decimal_value (s : string) : N :=
  foldl (λ v c, v * 10 + (N_of_ascii c - 48))%N 0%N (String.list_ascii_of_string s).
Definition all_of (p : ascii → bool) (s : string) : bool :=
  forallb p (String.list_ascii_of_string s).

(** [25[0-5]|2[0-4]\d|1\d\d|[1-9]\d|\d]. *)
Definition octet (s : string) : bool :=
  bool_decide (1 ≤ String.length s ≤ 3) && all_of digit_c s
  && bool_decide (decimal_value s ≤ 255)%N
  && (bool_decide (String.length s = 1) || negb (String.prefix "0" s)).
Definition isIPv4 (s : string) : bool :=
  let parts := split "." s in bool_decide (length parts = 4) && forallb octet parts.

Definition hex_c (c : ascii) : bool := digit_c c || between 97 102 c || between 65 70 c.
Definition hextet (s : string) : bool :=
  bool_decide (1 ≤ String.length s ≤ 4) && all_of hex_c s.

(** [s.split("::")]. *)
Fixpoint split_groups (s : string) : list string :=
  match s with
  | String ":" (String ":" rest) => "" :: split_groups rest
  | String c rest =>
      match split_groups rest with
      | w :: ws => String c w :: ws
      | [] => [String c ""]
      end
  | EmptyString => [""]
  end.
Definition pieces (s : string) : list string := if bool_decide (s = "") then [] else split ":" s.

(** How many of the eight groups a run of pieces stands for. *)
Fixpoint groups (embedded : bool) (l : list string) : option nat :=
  match l with
  | [] => Some 0
  | [w] => if hextet w then Some 1 else if embedded && isIPv4 w then Some 2 else None
  | w :: l' => if hextet w then S <$> groups embedded l' else None
  end.
Definition zone_char (c : ascii) : bool := alnum_c c || one_of "-.:" c.
(** The part before the zone, when the zone is well formed. *)
Definition without_zone (s : string) : option string :=
  match split "%" s with
  | [a] => Some a
  | [a; zone] => if bool_decide (zone ≠ "") && all_of zone_char zone then Some a else None
  | _ => None
  end.
Definition isIPv6 (s : string) : bool :=
  match without_zone s with
  | None => false
  | Some a =>
      match split_groups a with
      | [only] =>
          match groups true (pieces only) with Some n => bool_decide (n = 8) | None => false end
      | [head; tail] =>
          match groups false (pieces head), groups true (pieces tail) with
          | Some n, Some m => bool_decide (n + m ≤ 7)
          | _, _ => false
          end
      | _ => false
      end
  end.

(** ** One text per address *)

(** [part.replace(/^0+(?=.)/u, "").padStart(4, "0")]. *)
Fixpoint strip_leading (s : string) : string :=
  match s with
  | String "0" (String _ _ as rest) => strip_leading rest
  | _ => s
  end.
Definition padHextet (part : string) : string :=
  let bare := strip_leading part in zeros (4 - String.length bare) +:+ bare.

Definition expandIPv6 (address : string) : option string :=
  match split_groups (lower address) with
  | [head] =>
      let parts := pieces head in
      if negb (bool_decide (length parts = 8)) then None
      else Some (join ":" (padHextet <$> parts))
  | head :: tail :: _ =>
      let headParts := pieces head in
      let tailParts := pieces tail in
      if bool_decide (8 < length headParts + length tailParts) then None
      else
        let missing := 8 - length headParts - length tailParts in
        Some (join ":" (padHextet <$> headParts ++ replicate missing "0" ++ tailParts))
  | [] => None
  end.

Definition number_text (part : string) : string := pretty (decimal_value part).
Definition normaliseAddress (host : string) : option string :=
  let trimmed := trim host in
  if isIPv4 trimmed then Some (join "." (number_text <$> split "." trimmed))
  else if negb (isIPv6 trimmed) then None
  else
    let rest := String.substring 7 (String.length trimmed - 7) trimmed in
    if String.prefix "::ffff:" (lower trimmed) && isIPv4 rest
    then Some (join "." (number_text <$> split "." rest))
    else expandIPv6 trimmed.

(** ** The policy *)

Inductive DestinationRejection :=
| host_is_not_a_literal_address | host_not_in_allow_list | host_is_not_loopback
| host_is_link_local | host_is_a_cloud_metadata_endpoint | host_is_the_unspecified_address
| host_is_multicast_or_broadcast | port_is_outside_the_valid_range | port_not_in_allow_list
| protocol_not_allowed.
#[export] Instance DestinationRejection_eq_dec : EqDecision DestinationRejection.
Proof. solve_decision. Defined.
Definition rejection_name (r : DestinationRejection) : string :=
  match r with
  | host_is_not_a_literal_address => "host_is_not_a_literal_address"
  | host_not_in_allow_list => "host_not_in_allow_list"
  | host_is_not_loopback => "host_is_not_loopback"
  | host_is_link_local => "host_is_link_local"
  | host_is_a_cloud_metadata_endpoint => "host_is_a_cloud_metadata_endpoint"
  | host_is_the_unspecified_address => "host_is_the_unspecified_address"
  | host_is_multicast_or_broadcast => "host_is_multicast_or_broadcast"
  | port_is_outside_the_valid_range => "port_is_outside_the_valid_range"
  | port_not_in_allow_list => "port_not_in_allow_list"
  | protocol_not_allowed => "protocol_not_allowed"
  end.

Record PortRange := { low : Z; high : Z }.
Record DestinationPolicy := {
  allowedHosts : list string;
  allowedPorts : list PortRange;
  allowedProtocols : list string;
  allowNonLoopback : bool;
  allowLinkLocal : bool
}.
Record Destination := { host : string; port : Dec; protocol : string }.

Definition STAGE_0_DESTINATION_POLICY : DestinationPolicy :=
  {| allowedHosts := ["127.0.0.1"; "::1"];
     allowedPorts := [{| low := 3000; high := 3999 |}; {| low := 4321; high := 4321 |};
                      {| low := 5173; high := 5173 |}];
     allowedProtocols := ["http"]; allowNonLoopback := false; allowLinkLocal := false |}.

Definition METADATA_ADDRESSES : list string :=
  ["169.254.169.254"; "169.254.170.2"; "fd00:ec2::254"].

Definition isLoopback (address : string) : bool :=
  String.prefix "127." address
  || bool_decide (address = "0000:0000:0000:0000:0000:0000:0000:0001").
Definition isUnspecified (address : string) : bool :=
  bool_decide (address = "0.0.0.0")
  || bool_decide (address = "0000:0000:0000:0000:0000:0000:0000:0000").

(** [Number.parseInt(s, 16)] of a text without sign or prefix; [None] is NaN. *)
Definition hex_value (c : ascii) : N :=
  let n := N_of_ascii c in
  if digit_c c then n - 48 else if between 97 102 c then n - 87 else n - 55.
Fixpoint parse_hex (value : option N) (l : list ascii) : option N :=
  match l with
  | c :: l' =>
      if hex_c c then parse_hex (Some (default 0 value * 16 + hex_value c)%N) l' else value
  | [] => value
  end.
Definition isLinkLocal (address : string) : bool :=
  String.prefix "169.254." address
  || (contains ":" address
      && match parse_hex None (String.list_ascii_of_string (slice_to 4 address)) with
         | Some n => bool_decide (65152 ≤ n ≤ 65215)%N
         | None => false
         end).
Definition isMulticast (address : string) : bool :=
  if isIPv4 address
  then bool_decide (224 ≤ decimal_value (hd "" (split "." address)) ≤ 239)%N
  else String.prefix "ff" address.

(** [Number.isInteger(x)], and the integer [x] is then. *)
Definition isInteger (d : Dec) : bool := bool_decide (decimals (dec_norm d) = 0).
Definition integer_of (d : Dec) : Z := mantissa (dec_norm d).

Definition is_metadata (destination_host address : string) : bool :=
  includes METADATA_ADDRESSES (lower (trim destination_host))
  || existsb (λ m, bool_decide (normaliseAddress m = Some address)) METADATA_ADDRESSES.
Definition in_range (p : Z) (r : PortRange) : bool := bool_decide (low r ≤ p ≤ high r)%Z.

Definition evaluateDestination (policy : DestinationPolicy) (d : Destination) :
    option DestinationRejection :=
  match normaliseAddress (host d) with
  | None => Some host_is_not_a_literal_address
  | Some address =>
      if isUnspecified address then Some host_is_the_unspecified_address
      else if isMulticast address then Some host_is_multicast_or_broadcast
      else if is_metadata (host d) address then Some host_is_a_cloud_metadata_endpoint
      else if isLinkLocal address && negb (allowLinkLocal policy) then Some host_is_link_local
      else if negb (isLoopback address) && negb (allowNonLoopback policy)
      then Some host_is_not_loopback
      else if negb (isInteger (port d)) || bool_decide (integer_of (port d) < 1)%Z
              || bool_decide (65535 < integer_of (port d))%Z
      then Some port_is_outside_the_valid_range
      else if negb (existsb (λ allowed, bool_decide (normaliseAddress allowed = Some address))
                      (allowedHosts policy))
      then Some host_not_in_allow_list
      else if negb (existsb (in_range (integer_of (port d))) (allowedPorts policy))
      then Some port_not_in_allow_list
      else if negb (includes (allowedProtocols policy) (protocol d)) then Some protocol_not_allowed
      else None
  end.

(** ** Theorems *)

(** The addresses no setting of a policy opens up. *)
Definition never_published (destination_host address : string) : bool :=
  isUnspecified address || isMulticast address || is_metadata destination_host address.
Definition permitted_address (policy : DestinationPolicy) (address : string) : Prop :=
  (isLinkLocal address = true → allowLinkLocal policy = true) ∧
  (isLoopback address = true ∨ allowNonLoopback policy = true) ∧
  ∃ allowed, allowed ∈ allowedHosts policy ∧ normaliseAddress allowed = Some address.
Definition permitted_port (policy : DestinationPolicy) (d : Dec) : Prop :=
  isInteger d = true ∧ (1 ≤ integer_of d ≤ 65535)%Z ∧
  ∃ r, r ∈ allowedPorts policy ∧ (low r ≤ integer_of d ≤ high r)%Z.

Lemma existsb_elem {A} (p : A → bool) l : existsb p l = true ↔ ∃ a, a ∈ l ∧ p a = true.
Proof. rewrite existsb_exists. by setoid_rewrite <- list_elem_of_In. Qed.

Lemma allowed_host_refusal policy address :
  negb (existsb (λ allowed, bool_decide (normaliseAddress allowed = Some address))
          (allowedHosts policy)) = false
  ↔ ∃ allowed, allowed ∈ allowedHosts policy ∧ normaliseAddress allowed = Some address.
Proof. rewrite negb_false_iff, existsb_elem. by setoid_rewrite bool_decide_eq_true. Qed.
Lemma allowed_port_refusal policy p :
  negb (existsb (in_range p) (allowedPorts policy)) = false
  ↔ ∃ r, r ∈ allowedPorts policy ∧ (low r ≤ p ≤ high r)%Z.
Proof. rewrite negb_false_iff, existsb_elem. unfold in_range. by setoid_rewrite bool_decide_eq_true. Qed.

(** One refusal after the other. *)
Lemma refuse_if {A} (b : bool) (r : A) (k : option A) :
  (if b then Some r else k) = None ↔ b = false ∧ k = None.
Proof. destruct b; [split; [done|by intros [? _]]|tauto]. Qed.

Lemma never_published_false destination_host address :
  never_published destination_host address = false ↔
  isUnspecified address = false ∧ isMulticast address = false ∧
  is_metadata destination_host address = false.
Proof.
  unfold never_published. generalize (is_metadata destination_host address). intros e.
  by destruct (isUnspecified address), (isMulticast address), e; split; try done; intros (? & ? & ?).
Qed.

Lemma evaluate_None policy d :
  evaluateDestination policy d = None ↔ ∃ address, normaliseAddress (host d) = Some address ∧
    never_published (host d) address = false ∧ permitted_address policy address ∧
    permitted_port policy (port d) ∧ protocol d ∈ allowedProtocols policy.
Proof.
  unfold evaluateDestination. destruct (normaliseAddress (host d)) as [address|].
  2:{ split; [done|]. by intros (? & ? & _). }
  transitivity (isUnspecified address = false ∧ isMulticast address = false ∧
    is_metadata (host d) address = false ∧ permitted_address policy address ∧
    permitted_port policy (port d) ∧ protocol d ∈ allowedProtocols policy).
  - rewrite !refuse_if, allowed_host_refusal, allowed_port_refusal.
    unfold permitted_address, permitted_port, includes.
    generalize (isUnspecified address) (isMulticast address) (is_metadata (host d) address)
      (isLinkLocal address) (isLoopback address) (isInteger (port d)) (integer_of (port d)).
    intros u m e l o i p. rewrite !andb_false_iff, !orb_false_iff, !negb_false_iff, bool_decide_eq_true,
      !bool_decide_eq_false.
    split; [|intros (-> & -> & -> & (Hl & Hn & Hh) & (-> & Hr & Hp) & Hpr)].
    + intros (-> & -> & -> & Hl & Hn & [[-> Hlo] Hhi] & Hh & Hp & Hpr & _).
      split_and!; try done; try lia. intros ->. by destruct Hl.
    + split_and!; try done; try lia. destruct l; [right; by apply Hl|by left].
  - split.
    + intros (Hu & Hm & He & Hrest). exists address. rewrite never_published_false. by split_and!; try apply Hrest.
    + intros (a & [= <-] & (Hu & Hm & He)%never_published_false & Hrest). by split_and!; try apply Hrest.
Qed.


(** The policy of a deployment that publishes other hosts than its own loopback
    and names one of them by its hexadecimal IPv4-mapped form. *)
Definition mapped_policy : DestinationPolicy :=
  {| allowedHosts := ["::ffff:a9fe:a9fe"]; allowedPorts := [{| low := 80; high := 80 |}];
     allowedProtocols := ["http"]; allowNonLoopback := true; allowLinkLocal := false |}.

(** Naming a metadata endpoint re-enables it after all.  169.254.169.254 and
    its dotted IPv4-mapped spelling are refused; the hexadecimal spelling of the
    same mapped address has another normal form, is taken for neither the
    endpoint nor link-local, and is accepted under a policy that lists it. *)
Theorem mapped_metadata_endpoint_accepted :
  let at_host h := {| host := h; port := dec_of_Z 80; protocol := "http" |} in
  (∀ policy, allowLinkLocal policy = false →
     evaluateDestination policy (at_host "169.254.169.254") = Some host_is_a_cloud_metadata_endpoint ∧
     evaluateDestination policy (at_host "::ffff:169.254.169.254")
       = Some host_is_a_cloud_metadata_endpoint) ∧
  normaliseAddress "::ffff:a9fe:a9fe" = Some "0000:0000:0000:0000:0000:ffff:a9fe:a9fe" ∧
  evaluateDestination mapped_policy (at_host "::ffff:a9fe:a9fe") = None.
Proof.
  cbv zeta. split; [|by split; vm_compute].
  intros policy _. by split; vm_compute.
Qed.
