(* ===== verification/Completion.v ===== *)
(** * The completion gate
    ([src/apps/server/src/modules/reviews/completion.ts], with the viewport
    label of [src/packages/protocol/src/project-settings.ts]) *)

From S2P Require Import Prelude ReviewProtocol Events.

(** ** Data *)

Record ValidationViewport := {
  vv_width : Z;
  vv_height : Z;
  vv_device_scale_factor : option Dec
}.

Record Viewport := {
  vp_width : Z;
  vp_height : Z;
  vp_device_scale_factor : option Dec
}.

Record ProjectSettings := { default_validation_viewports : list ValidationViewport }.

Record VerificationChecks := {
  reproduced_before : bool;
  console_errors_reviewed : bool;
  network_failures_reviewed : bool;
  accessibility_checked : option bool
}.

Record CompletionRequirements := {
  required_viewports : list string;
  console_review : bool;
  network_review : bool;
  final_screenshot : bool;
  accessibility_check : bool
}.

Record EvidenceUnderReview := {
  eu_verification_id : string;
  eu_tested_viewports : list Viewport;
  eu_checks : VerificationChecks;
  eu_after_artefact_id : option string;
  eu_branch_corroborated : bool;
  eu_submitted_by : EventActor
}.

Inductive CompletionResult :=
| completed | completed_with_warnings | blocked_missing_evidence
| blocked_pending_review.
#[export] Instance CompletionResult_eq_dec : EqDecision CompletionResult.
Proof. solve_decision. Defined.

Record FindingCompletionState := {
  fc_finding_id : string;
  fc_status : FindingStatus;
  fc_result : CompletionResult;
  fc_missing : list string;
  fc_warnings : list string;
  fc_verification_id : option string;
  fc_verification_count : Z
}.

Record EvidenceAssurance := {
  verified_by_control_plane : list string;
  asserted_by_agent : list string;
  asserted_by : option EventActor
}.

(** ** The gate *)

Definition one : Dec := dec_of_Z 1.

Definition formatViewport (v : ValidationViewport) : string :=
  let scale := default one (vv_device_scale_factor v) in
  let base := pretty (vv_width v) +:+ "x" +:+ pretty (vv_height v) in
  if bool_decide (scale = one) then base
  else base +:+ "@" +:+ dec_to_string scale +:+ "x".

Definition completionRequirementsFor (settings : ProjectSettings) :
    CompletionRequirements :=
  {| required_viewports := formatViewport <$> default_validation_viewports settings;
     console_review := true;
     network_review := true;
     final_screenshot := true;
     accessibility_check := false |}.

Definition viewportSatisfies (required : ValidationViewport) (tested : Viewport) : bool :=
  if bool_decide (vv_width required ≠ vp_width tested)
     || bool_decide (vv_height required ≠ vp_height tested)
  then false
  else
    let requiredScale := default one (vv_device_scale_factor required) in
    if bool_decide (requiredScale = one) then true
    else bool_decide (default one (vp_device_scale_factor tested) = requiredScale).

Definition viewportRequirementLabel (v : ValidationViewport) : string :=
  formatViewport v +:+ " verification".

(** [if (c) list.push(x)] *)
Definition push_if (c : bool) (x : string) : list string := if c then [x] else [].

Definition missingEvidence (settings : ProjectSettings)
    (requirements : CompletionRequirements) (evidence : option EvidenceUnderReview) :
    list string :=
  match evidence with
  | None =>
      push_if (final_screenshot requirements) "after screenshot"
      ++ (viewportRequirementLabel <$> default_validation_viewports settings)
      ++ push_if (console_review requirements) "console review"
      ++ push_if (network_review requirements) "network review"
  | Some e =>
      push_if (final_screenshot requirements
               && bool_decide (eu_after_artefact_id e = None)) "after screenshot"
      ++ mjoin ((λ v,
           push_if (negb (existsb (viewportSatisfies v) (eu_tested_viewports e)))
             (viewportRequirementLabel v)) <$> default_validation_viewports settings)
      ++ push_if (console_review requirements
                  && negb (console_errors_reviewed (eu_checks e))) "console review"
      ++ push_if (network_review requirements
                  && negb (network_failures_reviewed (eu_checks e))) "network review"
  end.

Definition evidenceWarnings (evidence : option EvidenceUnderReview) : list string :=
  match evidence with
  | None => []
  | Some e =>
      push_if (bool_decide (accessibility_checked (eu_checks e) ≠ Some true))
        "accessibility not checked"
      ++ push_if (negb (reproduced_before (eu_checks e))) "defect not reproduced first"
      ++ push_if (negb (eu_branch_corroborated e))
           "branch not corroborated by a workspace"
  end.

Definition assuranceFor (evidence : option EvidenceUnderReview) : EvidenceAssurance :=
  match evidence with
  | None =>
      {| verified_by_control_plane := []; asserted_by_agent := []; asserted_by := None |}
  | Some e =>
      {| verified_by_control_plane :=
           ["artefact project ownership"; "artefact browser session lineage";
            "artefact upload completed"; "artefact integrity digest";
            "commit differs from capture"]
           ++ push_if (bool_decide (eu_after_artefact_id e ≠ None))
                "after screenshot present"
           ++ push_if (eu_branch_corroborated e) "branch matches workspace";
         asserted_by_agent :=
           push_if (reproduced_before (eu_checks e)) "reproduced before"
           ++ push_if (console_errors_reviewed (eu_checks e)) "console errors reviewed"
           ++ push_if (network_failures_reviewed (eu_checks e)) "network failures reviewed"
           ++ push_if (default false (accessibility_checked (eu_checks e)))
                "accessibility checked";
         asserted_by := Some (eu_submitted_by e) |}
  end.

Definition HUMAN_REVIEW_NOT_REQUESTED : string := "human review not yet requested".

Definition findingCompletionState (findingId : string) (status : FindingStatus)
    (settings : ProjectSettings) (requirements : CompletionRequirements)
    (evidence : option EvidenceUnderReview) (verificationCount : Z) :
    FindingCompletionState :=
  let missing := missingEvidence settings requirements evidence in
  let warnings := evidenceWarnings evidence in
  let state result missing warnings :=
    {| fc_finding_id := findingId; fc_status := status; fc_result := result;
       fc_missing := missing; fc_warnings := warnings;
       fc_verification_id := eu_verification_id <$> evidence;
       fc_verification_count := verificationCount |} in
  match status with
  | RESOLVED =>
      let resolvedWarnings :=
        match evidence with
        | None => warnings ++ ["resolved with no verification on record"]
        | Some _ => warnings
        end in
      state (if bool_decide (length resolvedWarnings = 0) then completed
             else completed_with_warnings) [] resolvedWarnings
  | WONT_FIX | DUPLICATE =>
      state completed_with_warnings []
        (warnings ++ ["disposed as " +:+ name status +:+ " without a fix"])
  | AWAITING_HUMAN_REVIEW | BLOCKED => state blocked_pending_review [] warnings
  | _ =>
      state blocked_missing_evidence
        (match missing with [] => [HUMAN_REVIEW_NOT_REQUESTED] | _ => missing end)
        warnings
  end.

Definition has_result (r : CompletionResult) (s : FindingCompletionState) : bool :=
  bool_decide (fc_result s = r).

Definition aggregateCompletionResult (states : list FindingCompletionState) :
    CompletionResult :=
  if existsb (has_result blocked_missing_evidence) states then blocked_missing_evidence
  else if existsb (has_result blocked_pending_review) states then blocked_pending_review
  else if existsb (has_result completed_with_warnings) states
  then completed_with_warnings
  else completed.

(** The two loops: over the states, and over what each is missing.  [seen] and
    [missing] hold the same elements. *)
Definition aggregateMissing (states : list FindingCompletionState) : list string :=
  foldl (λ missing state, foldl set_add missing (fc_missing state)) [] states.

Definition nextActions (result : CompletionResult)
    (states : list FindingCompletionState) : list string :=
  let asks s := includes (fc_missing s) HUMAN_REVIEW_NOT_REQUESTED in
  match result with
  | blocked_missing_evidence =>
      push_if (existsb asks states) "Move each verified finding to AWAITING_HUMAN_REVIEW"
      ++ push_if (existsb (λ s, has_result blocked_missing_evidence s && negb (asks s)) states)
           "Capture the missing evidence and call finding_submit_verification"
  | blocked_pending_review =>
      ["Wait for a human decision"; "Do not retry this call as though it had failed"]
  | completed | completed_with_warnings =>
      ["No further agent action is available on this review"]
  end.

(** ** Theorems *)

Lemma push_if_nil c x : push_if c x = [] ↔ c = false.
Proof. by destruct c. Qed.

Lemma existsb_spec {A} (p : A → bool) l : existsb p l = true ↔ ∃ x, x ∈ l ∧ p x = true.
Proof. rewrite existsb_exists. by setoid_rewrite list_elem_of_In. Qed.

Lemma mjoin_nil {A} (l : list (list A)) : mjoin l = [] ↔ Forall (λ x, x = []) l.
Proof.
  induction l as [|x l IH]; [by split; constructor|].
  rewrite Forall_cons, <-IH. apply app_nil.
Qed.

(** What the gate asks for.  Under a project's own requirements a
    submission leaves nothing outstanding exactly when it carries an after
    screenshot, every validation viewport of the project is covered by a tested
    one of the same CSS size (and the same device scale where the project names
    one other than 1), and both reviews were attested; with no submission
    something is always outstanding. *)
Theorem missingEvidence_complete (settings : ProjectSettings)
    (evidence : option EvidenceUnderReview) :
  missingEvidence settings (completionRequirementsFor settings) evidence = [] ↔
    ∃ e, evidence = Some e
      ∧ is_Some (eu_after_artefact_id e)
      ∧ (∀ v, v ∈ default_validation_viewports settings →
           ∃ t, t ∈ eu_tested_viewports e
             ∧ vp_width t = vv_width v ∧ vp_height t = vv_height v
             ∧ (default one (vv_device_scale_factor v) = one
                ∨ default one (vp_device_scale_factor t)
                  = default one (vv_device_scale_factor v)))
      ∧ console_errors_reviewed (eu_checks e) = true
      ∧ network_failures_reviewed (eu_checks e) = true.
Proof.
  assert (∀ v t, viewportSatisfies v t = true ↔
    vp_width t = vv_width v ∧ vp_height t = vv_height v
    ∧ (default one (vv_device_scale_factor v) = one
       ∨ default one (vp_device_scale_factor t) = default one (vv_device_scale_factor v)))
    as Hsat.
  { intros v t. unfold viewportSatisfies. repeat case_bool_decide; naive_solver. }
  destruct evidence as [e|]; cbn [missingEvidence]; last first.
  { split; [discriminate|]. intros (? & [=] & _). }
  rewrite !app_nil, !push_if_nil, mjoin_nil, Forall_fmap, Forall_forall. cbn.
  rewrite !negb_false_iff, bool_decide_eq_false, not_eq_None_Some.
  setoid_rewrite push_if_nil. setoid_rewrite negb_false_iff.
  setoid_rewrite existsb_spec. setoid_rewrite Hsat. split.
  - intros (Ha & Hv & Hc & Hn). exists e. done.
  - intros (? & [= <-] & Ha & Hv & Hc & Hn). done.
Qed.

(** The gate never reports a finding complete on an agent's word.  Whatever
    the evidence, a finding's result is [completed] or
    [completed_with_warnings] exactly when its status is a final disposition,
    which only a human gives; it is [blocked_pending_review] exactly when a
    human must act next; and it lists outstanding requirements exactly when the
    agent still has work. *)
Theorem findingCompletionState_result findingId status settings requirements evidence n :
  let s := findingCompletionState findingId status settings requirements evidence n in
  (fc_result s = completed ∨ fc_result s = completed_with_warnings ↔
     isFinalDisposition status = true)
  ∧ (fc_result s = blocked_pending_review ↔
     status = AWAITING_HUMAN_REVIEW ∨ status = BLOCKED)
  ∧ (fc_missing s ≠ [] ↔ fc_result s = blocked_missing_evidence)
  ∧ (fc_result s = completed → fc_warnings s = [] ∧ is_Some evidence).
Proof.
  cbn. rewrite final_disposition_cases.
  destruct status; cbn; try (repeat split; intros; naive_solver).
  all: try (by destruct (missingEvidence settings requirements evidence);
            repeat split; intros; naive_solver).
  case_bool_decide as Hw.
  - apply nil_length_inv in Hw. rewrite Hw. destruct evidence; [|by destruct evidenceWarnings].
    repeat split; intros; naive_solver.
  - repeat split; intros; naive_solver.
Qed.

(** How bad a result is: the order the aggregate takes the worst of. *)
Definition severity (r : CompletionResult) : nat :=
  match r with
  | completed => 0
  | completed_with_warnings => 1
  | blocked_pending_review => 2
  | blocked_missing_evidence => 3
  end.

(** The result of a review is the worst of its findings' results, and of
    none is [completed]: no finding is worse than the aggregate, and unless the
    aggregate is [completed] some finding has it. *)
Theorem aggregateCompletionResult_worst (states : list FindingCompletionState) :
  (∀ s, s ∈ states → severity (fc_result s) ≤ severity (aggregateCompletionResult states))
  ∧ (aggregateCompletionResult states = completed
     ∨ ∃ s, s ∈ states ∧ fc_result s = aggregateCompletionResult states).
Proof.
  assert (∀ r, existsb (has_result r) states = true ↔ ∃ s, s ∈ states ∧ fc_result s = r)
    as He.
  { intros r. rewrite existsb_spec. unfold has_result.
    by setoid_rewrite bool_decide_eq_true. }
  assert (∀ r, existsb (has_result r) states = false → ∀ s, s ∈ states → fc_result s ≠ r)
    as Hn.
  { intros r Hf s Hs Hr. assert (existsb (has_result r) states = true) by (apply He; eauto).
    congruence. }
  unfold aggregateCompletionResult.
  destruct (existsb (has_result blocked_missing_evidence) states) eqn:H1;
    [apply He in H1; split; [|by right]; intros s _; destruct (fc_result s); cbn; lia|].
  destruct (existsb (has_result blocked_pending_review) states) eqn:H2;
    [apply He in H2; split; [|by right]|
     destruct (existsb (has_result completed_with_warnings) states) eqn:H3;
       [apply He in H3; split; [|by right]|split; [|by left]]];
  intros s Hs;
  repeat match goal with
  | H : existsb (has_result ?r) states = false |- _ => apply Hn with (s := s) in H; [|done]
  end;
  destruct (fc_result s); cbn; try lia; done.
Qed.

Lemma foldl_set_add_elem (l acc : list string) x :
  x ∈ foldl set_add acc l ↔ x ∈ acc ∨ x ∈ l.
Proof.
  revert acc. induction l as [|y l IH]; intros acc; cbn; [set_solver|].
  rewrite IH. unfold set_add. case_bool_decide; set_solver.
Qed.

Lemma foldl_set_add_NoDup (l acc : list string) :
  NoDup acc → NoDup (foldl set_add acc l).
Proof.
  revert acc. induction l as [|y l IH]; intros acc Hacc; cbn; [done|].
  apply IH. unfold set_add. case_bool_decide; [done|].
  apply NoDup_app. split; [done|]. split; [set_solver|apply NoDup_singleton].
Qed.

(** What a review is missing is the union of what its findings are missing,
    each requirement once. *)
Theorem aggregateMissing_union (states : list FindingCompletionState) :
  NoDup (aggregateMissing states)
  ∧ ∀ x, x ∈ aggregateMissing states ↔ ∃ s, s ∈ states ∧ x ∈ fc_missing s.
Proof.
  unfold aggregateMissing.
  assert (∀ acc, NoDup acc →
    NoDup (foldl (λ missing s, foldl set_add missing (fc_missing s)) acc states)
    ∧ ∀ x, x ∈ foldl (λ missing s, foldl set_add missing (fc_missing s)) acc states ↔
        x ∈ acc ∨ ∃ s, s ∈ states ∧ x ∈ fc_missing s) as Hgen.
  { induction states as [|s states IH]; intros acc Hacc; cbn; [set_solver|].
    destruct (IH (foldl set_add acc (fc_missing s))) as [Hnd Hin];
      [by apply foldl_set_add_NoDup|].
    split; [done|]. intros x. rewrite Hin, foldl_set_add_elem. set_solver. }
  destruct (Hgen [] (NoDup_nil_2)) as [Hnd Hin]. split; [done|].
  intros x. rewrite Hin. set_solver.
Qed.
