(* ===== verification/EntityId.v ===== *)
(** * Entity identifiers ([src/packages/protocol/src/entity-id.ts])

    A prefix and sixteen random bytes in lower-case hexadecimal.  The random
    source is the platform's: its sixteen bytes are an argument. *)

From S2P Require Import Prelude.

Definition RANDOM_BYTES : nat := 16.

Definition hex_digit (n : N) : ascii :=
  if bool_decide (n < 10)%N then ascii_of_N (48 + n) else ascii_of_N (87 + n).

(** [byte.toString(16).padStart(2, "0")] *)
Definition byte_hex (b : N) : string :=
  String (hex_digit (b / 16)) (String (hex_digit (b mod 16)) "").

(** The loop [hex += ...] over the bytes. *)
Fixpoint randomSuffix (bytes : list N) : string :=
  match bytes with
  | [] => ""
  | b :: bs => byte_hex b +:+ randomSuffix bs
  end.

(** The character class [[A-Za-z0-9_-]]. *)
Definition id_char (c : ascii) : bool :=
  let n := N_of_ascii c in
  bool_decide (65 ≤ n ≤ 90)%N || bool_decide (97 ≤ n ≤ 122)%N
  || bool_decide (48 ≤ n ≤ 57)%N || bool_decide (n = 95)%N || bool_decide (n = 45)%N.

Fixpoint all_chars (p : ascii → bool) (s : string) : bool :=
  match s with EmptyString => true | String c s' => p c && all_chars p s' end.

(** [IDENTIFIER_PATTERN.test(value)] *)
Definition isEntityId (value : string) : bool :=
  bool_decide (1 ≤ String.length value ≤ 64) && all_chars id_char value.

(** [IDENTIFIER_PREFIXES]: the kinds the platform schema names. *)
Definition IDENTIFIER_PREFIXES : list (string * string) :=
  [("organisation", "org_"); ("user", "usr_"); ("install_token", "ins_");
   ("human_session", "vwr_"); ("project", "prj_"); ("environment", "env_");
   ("connector", "con_"); ("workspace", "wsp_"); ("published_service", "svc_");
   ("agent_credential", "agc_"); ("agent_session", "ags_");
   ("browser_worker", "wkr_"); ("browser_session", "brs_");
   ("control_lease", "lse_"); ("review", "rev_"); ("finding", "fin_");
   ("comment", "cmt_"); ("annotation", "ann_"); ("artefact", "art_");
   ("artefact_grant", "agr_"); ("inbox_item", "inb_"); ("verification", "ver_");
   ("event", "evt_"); ("job", "job_"); ("request", "req_")].

Inductive EntityIdError :=
| NoPrefix (kind : string)
| OutsideCharacterClass (prefix : string).

Definition entityPrefix (kind : string) : result EntityIdError string :=
  match list_find (λ kv, kv.1 = kind) IDENTIFIER_PREFIXES with
  | Some (_, (_, prefix)) => Ok prefix
  | None => Err (NoPrefix kind)
  end.

Definition newEntityId (kind : string) (bytes : list N) : result EntityIdError string :=
  prefix ← entityPrefix kind; Ok (prefix +:+ randomSuffix bytes).

Definition newPrefixedId (prefix : string) (bytes : list N) :
    result EntityIdError string :=
  let candidate := prefix +:+ randomSuffix bytes in
  if negb (isEntityId candidate) then Err (OutsideCharacterClass prefix)
  else Ok candidate.

(** ** Theorems *)

Lemma all_chars_app p s s' : all_chars p (s +:+ s') = all_chars p s && all_chars p s'.
Proof.
  induction s as [|c s IH]; [done|]. rewrite append_cons. cbn [all_chars].
  by rewrite IH, andb_assoc.
Qed.

(** A byte's hexadecimal digits, by trying all 256. *)
Definition nibbles_ok (b : N) : bool :=
  all_chars id_char (byte_hex b).

Lemma byte_hex_ok b : (b < 256)%N → all_chars id_char (byte_hex b) = true.
Proof.
  intros Hb.
  assert (Forall (λ n, nibbles_ok (N.of_nat n) = true) (seq 0 256)) as Hall.
  { apply (bool_decide_unpack _). vm_compute. exact I. }
  rewrite Forall_forall in Hall. specialize (Hall (N.to_nat b)).
  rewrite N2Nat.id in Hall. apply Hall. apply elem_of_seq. lia.
Qed.

Lemma randomSuffix_ok bytes :
  Forall (λ b, b < 256)%N bytes →
  all_chars id_char (randomSuffix bytes) = true
  ∧ String.length (randomSuffix bytes) = 2 * length bytes.
Proof.
  induction 1 as [|b bs Hb _ [IHc IHl]]; [done|]. cbn [randomSuffix length].
  rewrite all_chars_app, length_append, byte_hex_ok, IHc, IHl by done.
  split; [done|]. cbn. lia.
Qed.

(** Two identifiers with one prefix coincide only when their bytes do. *)
Lemma byte_hex_inj a b :
  (a < 256)%N → (b < 256)%N → byte_hex a = byte_hex b → a = b.
Proof.
  intros Ha Hb Heq.
  assert (∀ n m, (n < 16)%N → (m < 16)%N → hex_digit n = hex_digit m → n = m) as Hd.
  { intros n m Hn Hm Hh.
    assert (Forall (λ x, Forall (λ y, hex_digit (N.of_nat x) = hex_digit (N.of_nat y) → x = y)
      (seq 0 16)) (seq 0 16)) as Hall by (apply (bool_decide_unpack _); vm_compute; exact I).
    rewrite Forall_forall in Hall. specialize (Hall (N.to_nat n)).
    rewrite Forall_forall in Hall. specialize (Hall ltac:(apply elem_of_seq; lia) (N.to_nat m)).
    rewrite !N2Nat.id in Hall. specialize (Hall ltac:(apply elem_of_seq; lia) Hh). lia. }
  unfold byte_hex in Heq. injection Heq as Hhi Hlo.
  apply Hd in Hhi; [|apply N.Div0.div_lt_upper_bound; lia..].
  apply Hd in Hlo; [|apply N.mod_lt; lia..].
  rewrite (N.div_mod a 16), (N.div_mod b 16) by lia. congruence.
Qed.

Lemma randomSuffix_inj xs ys :
  Forall (λ b, b < 256)%N xs → Forall (λ b, b < 256)%N ys →
  length xs = length ys → randomSuffix xs = randomSuffix ys → xs = ys.
Proof.
  intros Hx. revert ys. induction Hx as [|x xs Hx _ IH]; intros [|y ys] Hys Hl Heq;
    try done.
  apply Forall_cons in Hys as [Hy Hys]. cbn [randomSuffix] in Heq.
  unfold byte_hex in Heq. rewrite !append_cons, !append_nil in Heq.
  injection Heq as H1 H2 H3.
  cbn in Hl. f_equal; [|apply IH; [done|lia|done]].
  apply byte_hex_inj; [done..|]. unfold byte_hex. by rewrite H1, H2.
Qed.

Lemma append_inj p s s' : p +:+ s = p +:+ s' → s = s'.
Proof. induction p as [|c p IH]; [done|]. rewrite !append_cons. by intros [= ?%IH]. Qed.

(** Minting never fails for a prefix of up to 32 identifier characters,
    the result satisfies the schema's identifier pattern, and two identifiers
    minted under one prefix are equal only if the random bytes were: the whole
    of the 128 bits reaches the identifier. *)
Theorem newPrefixedId_total (prefix : string) (bytes : list N)
    (Hprefix : all_chars id_char prefix = true) (Hlength : String.length prefix ≤ 32)
    (Hbytes : Forall (λ b, b < 256)%N bytes) (Hcount : length bytes = RANDOM_BYTES) :
  (∃ id, newPrefixedId prefix bytes = Ok id ∧ isEntityId id = true)
  ∧ ∀ bytes', Forall (λ b, b < 256)%N bytes' → length bytes' = RANDOM_BYTES →
      newPrefixedId prefix bytes' = newPrefixedId prefix bytes → bytes' = bytes.
Proof.
  assert (∀ bs, Forall (λ b, b < 256)%N bs → length bs = RANDOM_BYTES →
    isEntityId (prefix +:+ randomSuffix bs) = true) as Hok.
  { intros bs Hbs Hn. destruct (randomSuffix_ok bs Hbs) as [Hc Hl].
    unfold isEntityId. rewrite all_chars_app, Hprefix, Hc, length_append, Hl, Hn.
    unfold RANDOM_BYTES. rewrite bool_decide_true by lia. done. }
  unfold newPrefixedId. split.
  - exists (prefix +:+ randomSuffix bytes). rewrite Hok by done. done.
  - intros bytes' Hb' Hc'. rewrite !Hok by done. cbn.
    intros [= ?%append_inj]. apply randomSuffix_inj; [done..|congruence|done].
Qed.

Example newPrefixedId_total_witness :
  ∃ id, newPrefixedId "rev_" (replicate 16 171%N) = Ok id ∧ isEntityId id = true.
Proof.
  refine (proj1 (newPrefixedId_total "rev_" (replicate 16 171%N) _ _ _ _)).
  - reflexivity.
  - cbn; lia.
  - by apply (bool_decide_unpack _).
  - reflexivity.
Defined.
