(* ===== verification/Text.v ===== *)
(** * Text

    What the source uses of JavaScript's strings beyond [Prelude]: finding and
    cutting, and the lemmas about appending, splitting, trimming and runs of
    characters that its parsers share. *)

From S2P Require Import Prelude Events EntityId Regex.

(** ** Cutting strings *)

(** The longest prefix of characters that satisfy [p], and the rest. *)
Fixpoint span (p : ascii → bool) (s : string) : string * string :=
  match s with
  | EmptyString => ("", "")
  | String c s' => if p c then let '(a, b) := span p s' in (String c a, b) else ("", s)
  end.
Definition is_not (s : string) (c : ascii) : bool := negb (one_of s c).
Definition starts (c : ascii) (s : string) : bool :=
  match s with String d _ => bool_decide (d = c) | EmptyString => false end.
(** The parts before and after [s.indexOf(c)]. *)
Definition cut_first (c : ascii) (s : string) : option (string * string) :=
  let '(a, b) := span (λ d, negb (bool_decide (d = c))) s in
  match b with String _ r => Some (a, r) | EmptyString => None end.
(** The parts before and after [s.lastIndexOf(c)]. *)
Fixpoint cut_last (c : ascii) (s : string) : option (string * string) :=
  match s with
  | EmptyString => None
  | String d s' =>
      match cut_last c s' with
      | Some (a, b) => Some (String d a, b)
      | None => if bool_decide (d = c) then Some ("", s') else None
      end
  end.

(** [s.toLowerCase()]: one code unit for each, the letters of Latin-1 included. *)
Definition latin_lower (c : ascii) : ascii :=
  if between 65 90 c || between 192 214 c || between 216 222 c
  then ascii_of_N (N_of_ascii c + 32) else c.
Fixpoint toLowerCase (s : string) : string :=
  match s with EmptyString => "" | String c s' => String (latin_lower c) (toLowerCase s') end.

(** ** Appending and reversing *)

Lemma append_nil_r s : s +:+ "" = s.
Proof. induction s as [|c s IH]; [done|]. by rewrite append_cons, IH. Qed.

Lemma rev_app_append a b : String.rev_app a b = String.rev a +:+ b.
Proof.
  unfold String.rev. revert b. induction a as [|c a IH]; intros b; cbn [String.rev_app]; [done|].
  by rewrite (IH (String c b)), (IH (String c "")), append_assoc.
Qed.
Lemma rev_append a b : String.rev (a +:+ b) = String.rev b +:+ String.rev a.
Proof.
  unfold String.rev at 1. rewrite rev_app_append, append_nil_r.
  induction a as [|c a IH].
  - rewrite append_nil. unfold String.rev at 2. cbn. by rewrite append_nil_r.
  - rewrite append_cons. unfold String.rev at 1 3. cbn [String.rev_app].
    by rewrite !rev_app_append, IH, append_assoc.
Qed.
Lemma rev_involutive s : String.rev (String.rev s) = s.
Proof.
  induction s as [|c s IH]; [done|]. change (String c s) with (String c "" +:+ s).
  by rewrite !rev_append, IH.
Qed.
Lemma all_chars_rev p s : all_chars p (String.rev s) = all_chars p s.
Proof.
  induction s as [|c s IH]; [done|]. change (String c s) with (String c "" +:+ s) at 1.
  rewrite rev_append, all_chars_app, IH. cbn. by rewrite andb_true_r, andb_comm.
Qed.

(** ** Facts of cutting *)

Definition stops (p : ascii → bool) (s : string) : Prop :=
  match s with String c _ => p c = false | EmptyString => True end.

Lemma span_spec p s : let '(a, b) := span p s in
  s = a +:+ b ∧ all_chars p a = true ∧ stops p b.
Proof.
  induction s as [|c s IH]; cbn; [done|]. destruct (p c) eqn:Hc; [|done].
  destruct (span p s) as [a b]. destruct IH as (-> & Ha & Hb). cbn. by rewrite Hc.
Qed.
Lemma span_app p a b : all_chars p a = true → stops p b → span p (a +:+ b) = (a, b).
Proof.
  intros Ha Hb. induction a as [|c a IH]; cbn in Ha.
  - rewrite append_nil. destruct b as [|c b]; cbn in *; [done|]. by rewrite Hb.
  - apply andb_prop in Ha as [Hc Ha]. rewrite append_cons. cbn. by rewrite Hc, (IH Ha).
Qed.
Lemma span_all p a : all_chars p a = true → span p a = (a, "").
Proof.
  intros Ha. rewrite <- (append_nil_r a) at 1. by apply span_app.
Qed.

Lemma all_chars_impl (p q : ascii → bool) s :
  (∀ c, p c = true → q c = true) → all_chars p s = true → all_chars q s = true.
Proof.
  intros Hpq. induction s as [|c s IH]; [done|]. cbn. intros [Hc Hs]%andb_prop.
  by rewrite Hpq, IH.
Qed.
Lemma all_chars_and p q s :
  all_chars (λ c, p c && q c) s = all_chars p s && all_chars q s.
Proof. induction s as [|c s IH]; [done|]. cbn. rewrite IH. by destruct (p c), (q c), (all_chars p s). Qed.
Lemma free_of_chars c s : free_of c s = all_chars (λ d, negb (bool_decide (d = c))) s.
Proof. by induction s as [|d s IH]; cbn; [|rewrite IH]. Qed.

Lemma cut_first_app c a b : free_of c a = true → cut_first c (a +:+ String c b) = Some (a, b).
Proof.
  intros Ha. unfold cut_first. rewrite free_of_chars in Ha. rewrite span_app; [done|done|].
  cbn. by rewrite bool_decide_true.
Qed.
Lemma cut_first_None c s : free_of c s = true → cut_first c s = None.
Proof. intros Hs. unfold cut_first. rewrite free_of_chars in Hs. by rewrite span_all. Qed.
Lemma cut_first_inv c s a b :
  cut_first c s = Some (a, b) → s = a +:+ String c b ∧ free_of c a = true.
Proof.
  unfold cut_first. pose proof (span_spec (λ d, negb (bool_decide (d = c))) s) as Hs.
  destruct (span _ s) as [x [|d y]]; [done|]. destruct Hs as (-> & Hx & Hd). intros [= -> ->].
  cbn in Hd. apply negb_false_iff, bool_decide_eq_true in Hd as ->. by rewrite free_of_chars.
Qed.
Lemma cut_first_None_inv c s : cut_first c s = None → free_of c s = true.
Proof.
  unfold cut_first. pose proof (span_spec (λ d, negb (bool_decide (d = c))) s) as Hs.
  destruct (span _ s) as [x [|d y]]; [|done]. destruct Hs as (-> & Hx & _). intros _.
  by rewrite append_nil_r, free_of_chars.
Qed.

Lemma cut_last_free c s : free_of c s = true ↔ cut_last c s = None.
Proof.
  induction s as [|d s IH]; [done|]. cbn. rewrite andb_true_iff, negb_true_iff, bool_decide_eq_false, IH.
  destruct (cut_last c s) as [[]|]; [naive_solver|]. case_bool_decide; naive_solver.
Qed.
Lemma cut_last_app c a b : free_of c b = true → cut_last c (a +:+ String c b) = Some (a, b).
Proof.
  intros Hb. induction a as [|d a IH].
  - rewrite append_nil. cbn. apply cut_last_free in Hb. rewrite Hb. by rewrite bool_decide_true.
  - rewrite append_cons. cbn. by rewrite IH.
Qed.
(** Only what follows the last [c] matters. *)
Lemma cut_last_suffix c a b b' : cut_last c b = Some b' → ∃ a', cut_last c (a +:+ b) = Some (a', b'.2).
Proof.
  intros Hb. induction a as [|d a [a' IH]].
  - rewrite append_nil, Hb. destruct b' as [x y]. by exists x.
  - rewrite append_cons. cbn. rewrite IH. eauto.
Qed.

Lemma split_any sep s s' : split sep (s +:+ String sep s') = split sep s ++ split sep s'.
Proof.
  induction s as [|c s IH].
  - rewrite append_nil. cbn. by rewrite decide_True.
  - rewrite append_cons. cbn [split]. rewrite IH. case_decide; [done|].
    assert (split sep s ≠ []) as Hne by (destruct s; cbn; repeat case_match; done).
    by destruct (split sep s).
Qed.
Lemma split_parts sep s : Forall (λ w, free_of sep w = true) (split sep s).
Proof.
  induction s as [|c s IH]; cbn [split]; [by repeat constructor|]. case_decide as Hc; [by constructor|].
  assert (split sep s ≠ []) as Hne by (destruct s; cbn; repeat case_match; done).
  destruct (split sep s) as [|w ws]; [done|]. apply Forall_cons in IH as [Hw Hws].
  constructor; [|done]. cbn. by rewrite bool_decide_false.
Qed.

Lemma trim_start_clean s : all_chars (λ c, negb (js_space c)) s = true → trim_start s = s.
Proof. destruct s as [|c s]; [done|]. cbn. intros [Hc%negb_true_iff _]%andb_prop. by rewrite Hc. Qed.
Lemma trim_clean s : all_chars (λ c, negb (js_space c)) s = true → trim s = s.
Proof.
  intros Hs. unfold trim. rewrite (trim_start_clean s Hs), trim_start_clean; [apply rev_involutive|].
  by rewrite all_chars_rev.
Qed.

Lemma cut_first_skip c a b : free_of c a = true →
  cut_first c (a +:+ b) = (λ x, (a +:+ x.1, x.2)) <$> cut_first c b.
Proof.
  intros Ha. destruct (cut_first c b) as [[x y]|] eqn:Hb.
  - apply cut_first_inv in Hb as [-> Hx]. cbn. rewrite <- append_assoc. apply cut_first_app.
    by rewrite free_of_app, Ha, Hx.
  - apply cut_first_None_inv in Hb. apply cut_first_None. by rewrite free_of_app, Ha, Hb.
Qed.

(** ** Trimming *)

Lemma trim_start_cases s :
  ∃ sp, all_chars js_space sp = true ∧ s = sp +:+ trim_start s
    ∧ stops js_space (trim_start s).
Proof.
  induction s as [|c s (sp & Hsp & Hs & Hc)]; [by exists ""|]. cbn. destruct (js_space c) eqn:Hj.
  - exists (String c sp). cbn. rewrite Hj. split_and!; [done| |done]. rewrite append_cons. by f_equal.
  - by exists "".
Qed.
Lemma trim_start_stops s : stops js_space s → trim_start s = s.
Proof. destruct s as [|c s]; [done|]. cbn. by intros ->. Qed.
Lemma trim_trim s : trim (trim s) = trim s.
Proof.
  unfold trim at 2 3. destruct (trim_start_cases s) as (_ & _ & _ & Ht).
  remember (trim_start s) as t eqn:E. clear E s.
  destruct (trim_start_cases (String.rev t)) as (sp & _ & Hr & Hs).
  remember (trim_start (String.rev t)) as r eqn:E. clear E.
  assert (t = String.rev r +:+ String.rev sp) as ->.
  { rewrite <- rev_append, <- Hr. symmetry. apply rev_involutive. }
  unfold trim. rewrite (trim_start_stops (String.rev r)).
  - by rewrite rev_involutive, trim_start_stops.
  - by destruct (String.rev r).
Qed.

(** ** Runs of characters *)

Ltac every_char := intros [[] [] [] [] [] [] [] []]; vm_compute; congruence.

Lemma is_not_weaken s s' c : (∀ d, d ∈ String.list_ascii_of_string s' → d ∈ String.list_ascii_of_string s) →
  is_not s c = true → is_not s' c = true.
Proof.
  unfold is_not, one_of. rewrite !negb_true_iff, !bool_decide_eq_false. naive_solver.
Qed.
(** A run free of more characters is free of fewer. *)
Lemma free_of_fewer s s' w : all_chars (is_not s) w = true →
  Forall (λ d, d ∈ String.list_ascii_of_string s) (String.list_ascii_of_string s') →
  all_chars (is_not s') w = true.
Proof.
  intros Hw Hs. rewrite Forall_forall in Hs. revert Hw. apply all_chars_impl. intros c.
  by apply is_not_weaken.
Qed.
(** The characters of a run, by a run that excludes more. *)
Ltac free_of_fewer :=
  match goal with
  | H : all_chars (is_not ?s) ?w = true |- all_chars (is_not ?s') ?w = true =>
      apply (free_of_fewer s s' w H); repeat constructor; set_solver
  end.
Lemma clean_free s d w : all_chars (is_not s) w = true → d ∈ String.list_ascii_of_string s → free_of d w = true.
Proof.
  intros Hw Hd. rewrite free_of_chars. revert Hw. apply all_chars_impl. intros e.
  unfold is_not, one_of. rewrite !negb_true_iff, !bool_decide_eq_false. naive_solver.
Qed.

Lemma all_chars_join p sep ws :
  all_chars p sep = true → Forall (λ w, all_chars p w = true) ws → all_chars p (join sep ws) = true.
Proof.
  intros Hsep. induction ws as [|w [|w' ws] IH]; intros Hw; [done|by rewrite Forall_singleton in Hw|].
  apply Forall_cons in Hw as [Hw Hws]. cbn [join]. rewrite !all_chars_app, Hw, Hsep. by apply IH.
Qed.

Lemma free_of_join_inv c sep ws : free_of c (join sep ws) = true → Forall (λ w, free_of c w = true) ws.
Proof.
  induction ws as [|w [|w' ws] IH]; intros Hf; [done|by constructor|].
  cbn [join] in Hf. rewrite !free_of_app in Hf. apply andb_prop in Hf as [Hw Hf].
  apply andb_prop in Hf as [_ Hf]. constructor; [done|by apply IH].
Qed.

(** ** Substrings and joins *)

Lemma substring_prefix a b : String.substring 0 (String.length a) (a +:+ b) = a.
Proof.
  induction a as [|c a IH]; [by destruct b|]. rewrite append_cons. cbn. by rewrite IH.
Qed.
Lemma substring_suffix a b : String.substring (String.length a) (String.length b) (a +:+ b) = b.
Proof.
  induction a as [|c a IH]; [|by rewrite append_cons].
  rewrite append_nil. cbn. rewrite <- (append_nil_r b) at 2. apply substring_prefix.
Qed.
Lemma substring_split n s : n ≤ String.length s →
  s = String.substring 0 n s +:+ String.substring n (String.length s - n) s.
Proof.
  revert s. induction n as [|n IH]; intros s Hn.
  - assert (String.substring 0 0 s = "") as -> by by destruct s.
    rewrite append_nil, Nat.sub_0_r. symmetry.
    rewrite <- (append_nil_r s) at 2. apply substring_prefix.
  - destruct s as [|c s]; cbn in Hn; [lia|]. cbn. rewrite append_cons. f_equal. apply IH. lia.
Qed.
Lemma join_snoc sep l w z : join sep (l ++ [w]) +:+ z = join sep (l ++ [w +:+ z]).
Proof.
  induction l as [|x l IH]; [done|]. destruct l as [|y l].
  - cbn. by rewrite append_assoc, append_assoc.
  - change (join sep ((x :: y :: l) ++ [w])) with (x +:+ sep +:+ join sep ((y :: l) ++ [w])).
    change (join sep ((x :: y :: l) ++ [w +:+ z])) with (x +:+ sep +:+ join sep ((y :: l) ++ [w +:+ z])).
    by rewrite <- IH, !append_assoc.
Qed.

Lemma join_last sep l w : ∃ a, join sep (l ++ [w]) = a +:+ w.
Proof.
  induction l as [|x l [a IH]]; [by exists ""|]. destruct l as [|y l].
  - exists (x +:+ sep). cbn. by rewrite append_assoc.
  - exists (x +:+ sep +:+ a). change (join sep ((x :: y :: l) ++ [w])) with (x +:+ sep +:+ join sep ((y :: l) ++ [w])).
    by rewrite IH, !append_assoc.
Qed.

