(* ===== verification/Numbers.v ===== *)
(** * JavaScript numbers: IEEE binary64 values, their arithmetic, the decimal
    text of [String(x)] and the rounding of [x.toFixed(d)] *)

From S2P Require Import Prelude.

#[local] Open Scope Z_scope.

Definition prec : Z := 53.
Definition emax : Z := 1024.

Abbreviation float := spec_float.

Definition F_zero : float := S754_zero false.
Definition F_of_Z (z : Z) : float := binary_normalize prec emax z 0 false.
Definition F_one : float := F_of_Z 1.

Definition F_add (x y : float) : float := SFadd prec emax x y.
Definition F_sub (x y : float) : float := SFsub prec emax x y.
Definition F_mul (x y : float) : float := SFmul prec emax x y.
Definition F_div (x y : float) : float := SFdiv prec emax x y.

(** [x < y] and [x <= y]: [false] when an operand is NaN. *)
Definition F_ltb (x y : float) : bool := SFltb x y.
Definition F_leb (x y : float) : bool := SFleb x y.

(** [Number.isFinite]. *)
Definition F_finite (x : float) : bool :=
  match x with S754_zero _ | S754_finite _ _ _ => true | _ => false end.

(** [Math.min] and [Math.max]: NaN wins, and [-0] lies below [+0]. *)
Definition F_min (x y : float) : float :=
  match x, y with
  | S754_nan, _ | _, S754_nan => S754_nan
  | S754_zero s, S754_zero s' => S754_zero (s || s')
  | _, _ => if F_leb x y then x else y
  end.

Definition F_max (x y : float) : float :=
  match x, y with
  | S754_nan, _ | _, S754_nan => S754_nan
  | S754_zero s, S754_zero s' => S754_zero (s && s')
  | _, _ => if F_leb y x then x else y
  end.

(** The binary64 value nearest to [s * 10^q], [0 <= s]: a decimal literal. *)
Definition of_decimal (s q : Z) : float :=
  match s with
  | Z0 => F_zero
  | Zneg _ => S754_nan
  | Zpos p =>
      if bool_decide (0 <= q) then F_of_Z (s * 10 ^ q)
      else F_div (S754_finite false p 0) (S754_finite false (Z.to_pos (10 ^ (- q))) 0)
  end.

(** A positive finite value as a fraction. *)
Definition fraction (m : positive) (e : Z) : Z * Z :=
  if bool_decide (0 <= e) then (Zpos m * 2 ^ e, 1) else (Zpos m, 2 ^ (- e)).

(** [num / den * 10^k], rounded to the nearest integer, halves up. *)
Definition scaled (num den k : Z) : Z :=
  let (n, d) := if bool_decide (0 <= k) then (num * 10 ^ k, den)
                else (num, den * 10 ^ (- k)) in
  (2 * n + d) `div` (2 * d).

(** The decimal exponent [n] of [num / den]: [10^(n-1) <= num / den < 10^n]. *)
Definition below_power (num den n : Z) : bool :=
  if bool_decide (0 <= n) then bool_decide (num < den * 10 ^ n)
  else bool_decide (num * 10 ^ (- n) < den).

Fixpoint exponent_from (num den n : Z) (fuel : nat) : Z :=
  match fuel with
  | O => n
  | S fuel' => if below_power num den n then n else exponent_from num den (n + 1) fuel'
  end.

Definition exponent_of (num den : Z) : Z :=
  let estimate := ((Z.log2 num - Z.log2 den) * 30103) `div` 100000 in
  exponent_from num den (estimate - 2) 6.

(** The shortest digits [s] with [s * 10^(n-k)] read back as [x]; [digits] is
    the [k] tried first.  Seventeen digits always read back. *)
Fixpoint shortest (x : float) (num den n : Z) (digits fuel : nat) : Z * Z * Z :=
  let k := Z.of_nat digits in
  let s := scaled num den (k - n) in
  let candidates := [s; s - 1; s + 1] in
  let reads c := SFeqb (of_decimal c (n - k)) x in
  match filter (λ c, reads c = true) candidates, fuel with
  | c :: _, _ =>
      if bool_decide (c = 10 ^ k) then (10 ^ (k - 1), k, n + 1) else (c, k, n)
  | [], O => (s, k, n)
  | [], S fuel' => shortest x num den n (S digits) fuel'
  end.

(** [Number::toString] for the digits [s] ([k] of them) and the exponent [n]. *)
Definition layout (s k n : Z) : string :=
  let ds := pretty s in
  let count z := Z.to_nat z in
  if bool_decide (k <= n <= 21) then ds +:+ zeros (count (n - k))
  else if bool_decide (0 < n <= 21) then
    String.substring 0 (count n) ds +:+ "." +:+ String.substring (count n) (count k) ds
  else if bool_decide (-6 < n <= 0) then "0." +:+ zeros (count (- n)) +:+ ds
  else
    let e := n - 1 in
    let sign := if bool_decide (e < 0) then "-" else "+" in
    let tail := "e" +:+ sign +:+ pretty (Z.abs e) in
    if bool_decide (k = 1) then ds +:+ tail
    else String.substring 0 1 ds +:+ "." +:+ String.substring 1 (count k) ds +:+ tail.

(** [String(x)]. *)
Definition number_text (x : float) : string :=
  match x with
  | S754_nan => "NaN"
  | S754_zero _ => "0"
  | S754_infinity s => (if s then "-" else "") +:+ "Infinity"
  | S754_finite sign m e =>
      let (num, den) := fraction m e in
      let '(s, k, n) :=
        shortest (S754_finite false m e) num den (exponent_of num den) 1 16 in
      (if sign then "-" else "") +:+ layout s k n
  end.

(** [Number(x.toFixed(d))] for [|x| < 10^21]. *)
Definition to_fixed_number (d : Z) (x : float) : float :=
  match x with
  | S754_finite sign m e =>
      let (num, den) := fraction m e in
      let r := of_decimal (scaled num den d) (- d) in
      if sign then SFopp r else r
  | S754_zero _ => F_zero
  | _ => x
  end.

(** A JSON value that is a number, as the binary64 value it stands for. *)
Definition as_number (v : json) : option float :=
  match v with
  | JNum n => Some (F_of_Z n)
  | JDec d =>
      let x := of_decimal (Z.abs (mantissa d)) (- Z.of_nat (decimals d)) in
      Some (if bool_decide (mantissa d < 0) then SFopp x else x)
  | JFloat f => Some f
  | _ => None
  end.

(** ** Facts *)

Definition F_lit (s q : Z) : float := of_decimal s q.

Example texts :
  number_text <$> [F_lit 1 (-1); F_lit 15 (-1); F_lit 1 21; F_lit 123456789 0;
                   F_lit 5 (-324); F_lit 1 (-6); F_lit 1 (-7); F_lit 1 23;
                   F_lit 17976931348623157 292; F_add (F_lit 1 (-1)) (F_lit 2 (-1));
                   SFopp (F_lit 100 0); F_div F_one (F_of_Z 3)]
  = ["0.1"; "1.5"; "1e+21"; "123456789"; "5e-324"; "0.000001"; "1e-7"; "1e+23";
     "1.7976931348623157e+308"; "0.30000000000000004"; "-100"; "0.3333333333333333"].
Proof. vm_compute. reflexivity. Qed.

Lemma SFcompare_antisym x y :
  SFcompare y x = option_map CompOpp (SFcompare x y).
Proof.
  destruct x as [[]|[]| |[] m e], y as [[]|[]| |[] m' e']; try reflexivity; cbn;
    rewrite (Z.compare_antisym e e'); destruct (e ?= e') eqn:He; cbn; try reflexivity;
    fold (Pos.compare m' m); fold (Pos.compare m m');
    rewrite (Pos.compare_antisym m m'); by destruct (m ?= m')%positive.
Qed.

(** Finite values are totally ordered. *)
Lemma F_finite_ltb x y : F_finite x = true → F_finite y = true → F_ltb x y = negb (F_leb y x).
Proof.
  unfold F_ltb, F_leb, SFltb, SFleb. intros Hx Hy.
  rewrite (SFcompare_antisym x y).
  destruct x as [[]|[]| |[] m e], y as [[]|[]| |[] m' e']; try discriminate; try reflexivity; cbn;
    destruct (e ?= e'); cbn; try reflexivity; by destruct (Pos.compare_cont _ _ _).
Qed.
