(* ===== verification/StableJson.v ===== *)
(** * The stable text of a JSON value

    [stableJson] of [src/apps/server/src/modules/agents/idempotency.ts], which
    [src/apps/server/src/modules/projects/service.ts] repeats: the text of a value
    with the members of every object in the order of their names.  Two texts are
    compared, or digested, in place of two values; the theorem is that this
    compares the values. *)

From S2P Require Import Prelude Events EntityId Regex Text Numbers.

(** ** The text *)

Definition quotation : ascii := "034".
(** The escapes of [JSON.stringify] on a string. *)
Definition escape_char (c : ascii) : string :=
  let n := N_of_ascii c in
  if bool_decide (n = 8)%N then "\b" else
  if bool_decide (n = 9)%N then "\t" else
  if bool_decide (n = 10)%N then "\n" else
  if bool_decide (n = 12)%N then "\f" else
  if bool_decide (n = 13)%N then "\r" else
  if bool_decide (c = quotation) || bool_decide (c = "\"%char) then String "\" (String c "") else
  if bool_decide (n < 32)%N then "\u00" +:+ byte_hex n else String c "".
Fixpoint escape (s : string) : string :=
  match s with EmptyString => "" | String c s' => escape_char c +:+ escape s' end.
Definition quote (s : string) : string := String quotation (escape s +:+ String quotation "").

(** [JSON.stringify] of a number. *)
Definition number_json (v : json) : string :=
  match as_number v with
  | Some x => if F_finite x then number_text x else "null"
  | None => "null"
  end.

(** Entries in the order of [left < right ? -1 : left > right ? 1 : 0]. *)
Definition by_name {A} (a b : string * A) : Prop := String.leb a.1 b.1 = true.
#[export] Instance by_name_dec {A} (a b : string * A) : Decision (by_name a b).
Proof. unfold by_name. apply _. Defined.
#[export] Instance by_name_trans {A} : Transitive (by_name (A := A)).
Proof. intros a b c. apply leb_trans. Qed.
#[export] Instance by_name_total {A} : Total (by_name (A := A)).
Proof. intros a b. apply String.leb_total. Qed.

Definition member_text (e : string * string) : string := quote e.1 +:+ ":" +:+ e.2.

(** A [Date] has no entries. *)
Fixpoint stableJson (v : json) : string :=
  match v with
  | JNull => "null"
  | JBool b => if b then "true" else "false"
  | JNum _ | JDec _ | JFloat _ => number_json v
  | JStr s => quote s
  | JDate _ => "{}"
  | JArr items => "[" +:+ join "," (map stableJson items) +:+ "]"
  | JObj ms =>
      "{" +:+ join "," (map member_text
        (merge_sort by_name (map (λ kv, (kv.1, stableJson kv.2)) ms))) +:+ "}"
  end.

Definition sample_arguments : json :=
  JObj [("b", JArr [JNum 1; JDec (mk_dec 25 1)]); ("a", JStr "xy")].

(** ** The value *)

(** The values that are read from JSON: no member is there twice, no number is
    too large to be one, and there is no [Date]. *)
Fixpoint plain_json (v : json) : Prop :=
  match v with
  | JDate _ => False
  | JNum _ | JDec _ | JFloat _ => ∃ x, as_number v = Some x ∧ F_finite x = true
  | JArr items => foldr (λ a P, plain_json a ∧ P) True items
  | JObj ms => NoDup ms.*1 ∧ foldr (λ kv P, plain_json kv.2 ∧ P) True ms
  | _ => True
  end.

(** The same value: the same members under the same names, in any order.  Numbers
    are the same when they are written alike. *)
Fixpoint same_json (v w : json) : Prop :=
  match v, w with
  | JNull, JNull => True
  | JBool b, JBool b' => b = b'
  | (JNum _ | JDec _ | JFloat _), (JNum _ | JDec _ | JFloat _) => number_json v = number_json w
  | JStr s, JStr s' => s = s'
  | JArr l, JArr l' =>
      (fix pointwise (l l' : list json) : Prop :=
         match l, l' with
         | [], [] => True
         | a :: l, b :: l' => same_json a b ∧ pointwise l l'
         | _, _ => False
         end) l l'
  | JObj ms, JObj ms' =>
      length ms = length ms'
      ∧ foldr (λ kv P, (∃ b, (kv.1, b) ∈ ms' ∧ same_json kv.2 b) ∧ P) True ms
  | _, _ => False
  end.

(** ** Unambiguous text *)

Lemma pretty_N_go_chars x s : all_chars digit_c s = true → all_chars digit_c (pretty_N_go x s) = true.
Proof.
  revert s. induction (N.lt_wf_0 x) as [x _ IH]. intros s Hs.
  destruct (decide (x = 0%N)) as [->|Hx]; [by rewrite pretty_N_go_0|].
  rewrite pretty_N_go_step by lia. apply IH; [apply N.div_lt; lia|]. cbn. rewrite Hs, andb_true_r.
  pose proof (N.mod_lt x 10). unfold pretty_N_char.
  destruct (x `mod` 10)%N as [|p]; [done|]. do 4 (destruct p as [p|p|]; try done); lia.
Qed.
Lemma pretty_N_go_length x s : x ≠ 0%N → pretty_N_go x s ≠ "".
Proof.
  intros Hx. assert (∀ y t, t ≠ "" → pretty_N_go y t ≠ "") as Hgo.
  { intros y. induction (N.lt_wf_0 y) as [y _ IH]. intros t Ht.
    destruct (decide (y = 0%N)) as [->|Hy]; [by rewrite pretty_N_go_0|].
    rewrite pretty_N_go_step by lia. apply IH; [apply N.div_lt; lia|done]. }
  rewrite pretty_N_go_step by lia. by apply Hgo.
Qed.

Definition num_char (c : ascii) : bool := digit_c c || one_of ".e+-" c.

Lemma pretty_Z_chars (z : Z) : all_chars num_char (pretty z) = true ∧ pretty z ≠ "".
Proof.
  assert (∀ x : N, all_chars num_char (pretty x) = true ∧ pretty x ≠ "") as HN.
  { intros x. unfold pretty, pretty_N. case_decide; [done|]. split; [|by apply pretty_N_go_length].
    apply (all_chars_impl digit_c); [by every_char|]. by apply pretty_N_go_chars. }
  destruct z as [|p|p]; [done|apply (HN (N.pos p))|]. split; [|done].
  change (pretty (Z.neg p)) with ("-" +:+ pretty (N.pos p)). rewrite all_chars_app. cbn. apply HN.
Qed.
Lemma all_chars_substring p n m s : all_chars p s = true → all_chars p (String.substring n m s) = true.
Proof.
  revert n m. induction s as [|c s IH]; intros [|n] [|m]; cbn; try done.
  - intros [Hc Hs]%andb_prop. by rewrite Hc, IH.
  - intros [_ Hs]%andb_prop. by apply IH.
  - intros [_ Hs]%andb_prop. by apply IH.
Qed.
Lemma zeros_chars n : all_chars num_char (zeros n) = true.
Proof. by induction n. Qed.

Lemma layout_chars s k n : all_chars num_char (layout s k n) = true ∧ layout s k n ≠ "".
Proof.
  destruct (pretty_Z_chars s) as [Hs Hne]. destruct (pretty_Z_chars (Z.abs (n - 1))) as [He _].
  unfold layout. repeat case_bool_decide; rewrite ?all_chars_app, ?zeros_chars, ?He, ?Hs,
    ?all_chars_substring by done; (split; [done|]); try (by destruct (pretty s));
    by intros Hl%(f_equal String.length); rewrite !length_append in Hl; cbn in Hl; lia.
Qed.
Lemma number_text_chars x : F_finite x = true → all_chars num_char (number_text x) = true ∧ number_text x ≠ "".
Proof.
  destruct x as [?|?| |sign m e]; try done. intros _. unfold number_text.
  destruct (fraction m e) as [num den]. destruct (shortest _ _ _ _ _ _) as [[s k] n].
  destruct (layout_chars s k n) as [Hc Hne]. rewrite all_chars_app, Hc. split; [by destruct sign|].
  by destruct sign, (layout s k n).
Qed.

(** What may follow a value. *)
Definition delimited (r : string) : Prop :=
  match r with String c _ => one_of ",]}" c = true | EmptyString => True end.
Lemma delimited_num r : delimited r → stops num_char r.
Proof. destruct r as [|c r]; [done|]. cbn. revert c. every_char. Qed.

(** A number ends where its characters end. *)
Lemma run_unambiguous p a b r r' : all_chars p a = true → all_chars p b = true →
  stops p r → stops p r' → a +:+ r = b +:+ r' → a = b ∧ r = r'.
Proof.
  intros Ha Hb Hr Hr' He. pose proof (span_app p a r Ha Hr) as H1. rewrite He, span_app in H1 by done.
  by injection H1.
Qed.

(** Reading an escape back. *)
Definition hex_digit (c : ascii) : N :=
  let n := N_of_ascii c in if bool_decide (n < 58)%N then n - 48 else n - 87.
Definition unescape (s : string) : option (ascii * string) :=
  match s with
  | EmptyString => None
  | String c r =>
      if bool_decide (c = quotation) then None else
      if bool_decide (c = "\"%char) then
        match r with
        | String "u" (String _ (String _ (String h (String l r')))) =>
            Some (ascii_of_N (16 * hex_digit h + hex_digit l), r')
        | String e r' =>
            Some (if bool_decide (e = "b"%char) then ascii_of_N 8
                  else if bool_decide (e = "t"%char) then ascii_of_N 9
                  else if bool_decide (e = "n"%char) then ascii_of_N 10
                  else if bool_decide (e = "f"%char) then ascii_of_N 12
                  else if bool_decide (e = "r"%char) then ascii_of_N 13
                  else e, r')
        | EmptyString => None
        end
      else Some (c, r)
  end.
Lemma unescape_escape c r : unescape (escape_char c +:+ r) = Some (c, r).
Proof. destruct c as [[] [] [] [] [] [] [] []]; vm_compute; reflexivity. Qed.

Lemma escape_unambiguous s s' r r' :
  escape s +:+ String quotation r = escape s' +:+ String quotation r' → s = s' ∧ r = r'.
Proof.
  revert s'. induction s as [|c s IH]; intros [|c' s']; cbn [escape]; rewrite ?append_nil, ?append_assoc.
  - by intros [= ->].
  - intros He%(f_equal unescape). by rewrite unescape_escape in He.
  - intros He%(f_equal unescape). by rewrite unescape_escape in He.
  - intros He%(f_equal unescape). rewrite !unescape_escape in He. injection He as -> He.
    apply IH in He as [-> ->]. done.
Qed.
Lemma quote_unambiguous s s' r r' : quote s +:+ r = quote s' +:+ r' → s = s' ∧ r = r'.
Proof.
  unfold quote. rewrite !append_cons, !append_assoc. intros [= He]. by apply escape_unambiguous in He.
Qed.

(** ** Sequences *)

Section sequences.
Context {A B : Type} (f : A → string) (g : B → string) (R : A → B → Prop) (close : ascii).
Context (Hclose : one_of "]}" close = true).

Definition not_closing (t : string) : Prop := ∃ c t', t = String c t' ∧ one_of ",]}" c = false.

Lemma join_cons_text (h : A → string) a l r :
  ∃ rest, join "," (map h (a :: l)) +:+ String close r = h a +:+ rest ∧ delimited rest
    ∧ (rest = match l with [] => String close r | _ => String "," (join "," (map h l) +:+ String close r) end).
Proof using Hclose.
  destruct l as [|b l]; cbn [map join].
  - eexists. split_and!; [done| |done]. cbn. revert Hclose. clear. revert close. every_char.
  - eexists. rewrite !append_assoc. split_and!; [done|done|done].
Qed.
End sequences.

Section sequences_unambiguous.
Context {A : Type} (f : A → string) (R : A → A → Prop) (close : ascii).
Context (Hclose : one_of "]}" close = true).

Lemma join_unambiguous l l' r r' :
  (∀ a, a ∈ l ++ l' → not_closing (f a)) →
  (∀ a b x y, a ∈ l → b ∈ l' → delimited x → delimited y → f a +:+ x = f b +:+ y → R a b ∧ x = y) →
  join "," (map f l) +:+ String close r = join "," (map f l') +:+ String close r' →
  Forall2 R l l' ∧ r = r'.
Proof using Hclose.
  assert (one_of ",]}" close = true ∧ close ≠ ","%char) as [Hdel Hcomma].
  { clear -Hclose. split; [|by intros ->]. revert close Hclose. every_char. }
  revert l'. induction l as [|a l IH]; intros [|b l'] Hhead Hf.
  - cbn [map join]. rewrite !append_nil. intros [= ->]. by split; [constructor|].
  - change (join "," (map f []) +:+ String close r) with (String close r).
    destruct (join_cons_text close Hclose f b l' r') as (rest & -> & _).
    destruct (Hhead b) as (c & t & -> & Hc); [left|]. rewrite append_cons. intros [= He _]. congruence.
  - change (join "," (map f []) +:+ String close r') with (String close r').
    destruct (join_cons_text close Hclose f a l r) as (rest & -> & _).
    destruct (Hhead a) as (c & t & -> & Hc); [left|]. rewrite append_cons. intros [= He _]. congruence.
  - destruct (join_cons_text close Hclose f a l r) as (rest & -> & Hd & Hrest).
    destruct (join_cons_text close Hclose f b l' r') as (rest' & -> & Hd' & Hrest').
    intros He. apply Hf in He as [Hab Heq]; [|left|left|done|done]. subst rest rest'.
    assert (Forall2 R l l' ∧ r = r') as [Hl ->]; [|by split; [constructor|]].
    destruct l as [|a2 l], l' as [|b2 l'].
    + injection Heq as ->. by split; [constructor|].
    + injection Heq as Heq _. congruence.
    + injection Heq as Heq _. congruence.
    + injection Heq as Heq. apply IH; [| |done].
      * intros x Hx. apply Hhead. rewrite <- app_comm_cons, elem_of_cons. right.
        apply elem_of_app in Hx. apply elem_of_app. destruct Hx as [Hx|Hx]; [by left|right; by right].
      * intros. eapply Hf; by try right.
Qed.
End sequences_unambiguous.

(** ** Members in order *)

Definition in_order {A} (ms : list (string * A)) : list (string * A) := merge_sort by_name ms.

Lemma in_order_perm {A} (ms : list (string * A)) : in_order ms ≡ₚ ms.
Proof. apply merge_sort_Permutation. Qed.
Lemma in_order_unique {A} (ms ms' : list (string * A)) :
  NoDup ms.*1 → StronglySorted by_name ms → StronglySorted by_name ms' → ms ≡ₚ ms' → ms = ms'.
Proof.
  intros Hnd Hs Hs' Hp. apply (StronglySorted_unique_strong by_name); [|done..].
  intros x y Hx Hy Hxy Hyx. apply (NoDup_fmap_elem fst ms); [done|done|by rewrite Hp|].
  unfold by_name in *. rewrite leb_lt in Hxy, Hyx. destruct Hxy as [Hxy|]; [|done].
  destruct Hyx as [Hyx|]; [|done]. rewrite String.compare_antisym, Hxy in Hyx. done.
Qed.
Lemma in_order_fmap {A B} (f : A → B) (ms : list (string * A)) : NoDup ms.*1 →
  in_order (map (λ kv, (kv.1, f kv.2)) ms) = map (λ kv, (kv.1, f kv.2)) (in_order ms).
Proof.
  intros Hnd. apply in_order_unique.
  - unfold in_order. rewrite merge_sort_Permutation. by rewrite <- list_fmap_compose.
  - apply StronglySorted_merge_sort; apply _.
  - apply (StronglySorted_fmap _ by_name by_name); [done|]. apply StronglySorted_merge_sort; apply _.
  - unfold in_order. by rewrite !merge_sort_Permutation.
Qed.

(** ** Values *)

Lemma plain_arr l : plain_json (JArr l) ↔ Forall plain_json l.
Proof.
  cbn. induction l as [|a l IH]; cbn; [by split; [constructor|]|]. rewrite IH, Forall_cons. done.
Qed.
Lemma plain_obj ms : plain_json (JObj ms) ↔ NoDup ms.*1 ∧ Forall (λ kv, plain_json kv.2) ms.
Proof.
  cbn. f_equiv. induction ms as [|a ms IH]; cbn; [by split; [constructor|]|]. rewrite IH, Forall_cons. done.
Qed.
Lemma same_arr l l' : same_json (JArr l) (JArr l') ↔ Forall2 same_json l l'.
Proof.
  revert l'. induction l as [|a l IH]; intros [|b l'].
  - by split; [constructor|].
  - by split; [|inversion 1].
  - by split; [|inversion 1].
  - rewrite Forall2_cons, <- IH. done.
Qed.
Lemma same_obj ms ms' : same_json (JObj ms) (JObj ms') ↔
  length ms = length ms' ∧ Forall (λ kv, ∃ b, (kv.1, b) ∈ ms' ∧ same_json kv.2 b) ms.
Proof.
  cbn. f_equiv. induction ms as [|a ms IH]; cbn; [by split; [constructor|]|].
  rewrite IH, Forall_cons. done.
Qed.

Definition numeric (v : json) : bool := match v with JNum _ | JDec _ | JFloat _ => true | _ => false end.
Lemma number_json_chars v : numeric v = true → plain_json v →
  all_chars num_char (number_json v) = true ∧ number_json v ≠ "".
Proof.
  intros Hn Hp. assert (∃ x, as_number v = Some x ∧ F_finite x = true) as (x & Hx & Hf) by by destruct v.
  unfold number_json. rewrite Hx, Hf. by apply number_text_chars.
Qed.

(** The first character tells the kind of a value. *)
Definition kind_of_value (v : json) : nat :=
  match v with
  | JNull => 0 | JBool true => 1 | JBool false => 2 | JNum _ | JDec _ | JFloat _ => 3
  | JStr _ => 4 | JArr _ => 5 | JObj _ | JDate _ => 6
  end.
Definition kind_of_char (c : ascii) : option nat :=
  if bool_decide (c = "n"%char) then Some 0 else if bool_decide (c = "t"%char) then Some 1 else
  if bool_decide (c = "f"%char) then Some 2 else if num_char c then Some 3 else
  if bool_decide (c = quotation) then Some 4 else if bool_decide (c = "["%char) then Some 5 else
  if bool_decide (c = "{"%char) then Some 6 else None.
Lemma num_char_kind c : num_char c = true → kind_of_char c = Some 3 ∧ one_of ",]}" c = false.
Proof. intros Hc. split; revert c Hc; every_char. Qed.

Lemma stableJson_head v : plain_json v →
  ∃ c t, stableJson v = String c t ∧ kind_of_char c = Some (kind_of_value v) ∧ one_of ",]}" c = false.
Proof.
  intros Hp. destruct (numeric v) eqn:Hn.
  - destruct (number_json_chars v Hn Hp) as [Hc Hne].
    assert (stableJson v = number_json v ∧ kind_of_value v = 3) as [-> ->] by by destruct v.
    destruct (number_json v) as [|c t]; [done|]. cbn in Hc. apply andb_prop in Hc as [Hc%num_char_kind _].
    exists c, t. naive_solver.
  - destruct v as [|[]| | | |s| |l|ms]; try done; cbn [stableJson kind_of_value];
      unfold quote; rewrite ?append_cons; by eexists _, _.
Qed.
Lemma stableJson_kind v w r r' : plain_json v → plain_json w →
  stableJson v +:+ r = stableJson w +:+ r' → kind_of_value v = kind_of_value w.
Proof.
  intros (c & t & -> & Hc & _)%stableJson_head (c' & t' & -> & Hc' & _)%stableJson_head.
  rewrite !append_cons. intros [= He _]. congruence.
Qed.

Definition entry_text (kv : string * json) : string := member_text (kv.1, stableJson kv.2).
Lemma stable_obj ms : NoDup ms.*1 →
  stableJson (JObj ms) = "{" +:+ join "," (map entry_text (in_order ms)) +:+ "}".
Proof. intros Hnd. cbn [stableJson]. fold (in_order (map (λ kv, (kv.1, stableJson kv.2)) ms)).
  rewrite in_order_fmap by done. by rewrite map_map.
Qed.

Lemma texts_unambiguous v : ∀ w r r', plain_json v → plain_json w → delimited r → delimited r' →
  stableJson v +:+ r = stableJson w +:+ r' → same_json v w ∧ r = r'.
Proof.
  induction v as [l IH|ms IH|v Hna Hno] using json_nested_ind; intros w r r' Hv Hw Hr Hr' He;
    pose proof (stableJson_kind _ _ _ _ Hv Hw He) as Hk.
  - destruct w as [|[]| | | | | |l'|]; try done. rewrite same_arr. rewrite plain_arr in Hv, Hw.
    cbn [stableJson] in He. rewrite !append_cons, !append_nil, !append_assoc in He. injection He as He.
    rewrite Forall_forall in IH, Hv, Hw.
    apply (join_unambiguous stableJson same_json) in He; [done|done| |].
    + intros a [Ha|Ha]%elem_of_app; (destruct (stableJson_head a) as (c & t & ? & _ & ?); [by auto|by exists c, t]).
    + intros a b x y Ha Hb. by apply IH; auto.
  - destruct w as [|[]| | | | |t| |ms']; try done. rewrite same_obj. rewrite plain_obj in Hv, Hw.
    destruct Hv as [Hnd Hv], Hw as [Hnd' Hw]. rewrite !stable_obj in He by done.
    rewrite !append_cons, !append_nil, !append_assoc in He. injection He as He.
    rewrite Forall_forall in IH, Hv, Hw.
    assert (∀ kv, kv ∈ in_order ms → kv ∈ ms) as Hin by (intros kv; by rewrite in_order_perm).
    assert (∀ kv, kv ∈ in_order ms' → kv ∈ ms') as Hin' by (intros kv; by rewrite in_order_perm).
    apply (join_unambiguous entry_text (λ a b, a.1 = b.1 ∧ same_json a.2 b.2)) in He; [|done| |].
    + destruct He as [He ->]. split; [|done]. split.
      * apply Forall2_length in He. by rewrite !in_order_perm in He.
      * apply Forall_forall. intros kv Hkv. rewrite <- (in_order_perm ms) in Hkv.
        apply list_elem_of_lookup in Hkv as [i Hi].
        destruct (Forall2_lookup_l _ _ _ _ _ He Hi) as ([k b] & Hb & Hkey & Hsame). cbn in *. subst k.
        exists b. split; [|done]. apply Hin'. by eapply list_elem_of_lookup_2.
    + intros a _. unfold entry_text, member_text, quote. rewrite append_cons. by eexists _, _.
    + intros a b x y Ha%Hin Hb%Hin' Hx Hy. unfold entry_text, member_text. rewrite !append_assoc.
      intros [Hkey He']%quote_unambiguous. injection He' as He'. apply IH in He' as [Hs ->]; auto.
  - destruct (numeric v) eqn:Hn.
    + assert (numeric w = true) as Hn' by by destruct v; try done; destruct w as [|[]| | | | | | |].
      destruct (number_json_chars v Hn Hv) as [Hc _], (number_json_chars w Hn' Hw) as [Hc' _].
      assert (stableJson v = number_json v ∧ stableJson w = number_json w) as [Ev Ew] by by destruct v; destruct w.
      rewrite Ev, Ew in He. apply (run_unambiguous num_char) in He as [He ->]; auto using delimited_num.
      split; [|done]. by destruct v; destruct w.
    + destruct v as [|[]| | | |s| | |]; try done; destruct w as [|[]| | | |s'| | |]; try done;
        try (by specialize (Hna _ eq_refl)); try (by specialize (Hno _ eq_refl)).
      * by injection He.
      * by injection He.
      * by injection He.
      * by apply quote_unambiguous in He.
Qed.

Lemma same_texts v : ∀ w, plain_json v → plain_json w → same_json v w → stableJson v = stableJson w.
Proof.
  induction v as [l IH|ms IH|v Hna Hno] using json_nested_ind; intros w Hv Hw Hs.
  - destruct w as [| | | | | | |l'|]; try done. rewrite same_arr in Hs. rewrite plain_arr in Hv, Hw.
    cbn [stableJson]. do 3 f_equal. clear -IH Hv Hw Hs. induction Hs as [|a b l l' Hab _ IHl]; [done|].
    apply Forall_cons in IH as [IHa IH], Hv as [Hva Hv], Hw as [Hwb Hw].
    cbn [map]. f_equal; [by apply IHa|by apply IHl].
  - destruct w as [| | | | | | | |ms']; try done. rewrite same_obj in Hs. rewrite plain_obj in Hv, Hw.
    destruct Hv as [Hnd Hv], Hw as [Hnd' Hw], Hs as [Hlen Hs].
    cbn [stableJson]. do 4 f_equal. apply in_order_unique.
    + unfold in_order. rewrite merge_sort_Permutation. by rewrite <- list_fmap_compose.
    + apply StronglySorted_merge_sort; apply _.
    + apply StronglySorted_merge_sort; apply _.
    + rewrite !merge_sort_Permutation. apply submseteq_length_Permutation; [|by rewrite !length_map, Hlen].
      apply NoDup_submseteq; [by apply (NoDup_fmap_1 fst); rewrite <- list_fmap_compose|].
      intros x Hx. apply list_elem_of_fmap in Hx as ([k a] & -> & Ha). cbn.
      rewrite Forall_forall in IH, Hv, Hw, Hs. destruct (Hs _ Ha) as (b & Hb & Hab). cbn in *.
      apply list_elem_of_fmap. exists (k, b). split; [|done]. cbn. f_equal.
      by apply (IH _ Ha); [apply (Hv _ Ha)|apply (Hw _ Hb)|].
  - destruct v; try done; try (by specialize (Hna _ eq_refl)); try (by specialize (Hno _ eq_refl));
      destruct w; try done; cbn in Hs; by subst.
Qed.

(** C23: Comparing the stable texts of two values that were read from JSON compares
    the values: the texts are equal exactly when the values have the same members
    under the same names at every depth, in whatever order they were written. *)
Theorem stableJson_compares_values (v w : json) (Hv : plain_json v) (Hw : plain_json w) :
  stableJson v = stableJson w ↔ same_json v w.
Proof.
  split; [|by apply same_texts]. intros He.
  apply (texts_unambiguous v w "" ""); [done|done|done|done|by rewrite !append_nil_r].
Qed.

Lemma stableJson_compares_values_witness :
  same_json (JObj [("a", JNum 1); ("b", JArr [JStr "x"])]) (JObj [("b", JArr [JStr "x"]); ("a", JNum 1)]).
Proof.
  refine (proj1 (stableJson_compares_values _ _ _ _) _).
  - apply plain_obj. split; [refine (bool_decide_unpack _ _); vm_compute; exact I|].
    repeat constructor. by eexists.
  - apply plain_obj. split; [refine (bool_decide_unpack _ _); vm_compute; exact I|].
    repeat constructor. by eexists.
  - vm_compute. reflexivity.
Defined.
