(* ===== verification/Validation.v ===== *)
(** * Validation

    The primitives of the generated validators
    ([src/packages/protocol/src/validate-runtime.ts]), the validators of a
    project's settings ([generated/platform/v1/validate.ts]) and the settings
    themselves ([src/packages/protocol/src/project-settings.ts]).  A string of
    [Prelude] has no surrogates, and as many code points as code units.  A validator
    adds what it finds to a list; here it returns what it adds, with the boolean
    the code returns where a caller looks at it. *)

From S2P Require Import Prelude ReviewDomain Completion EntityId Regex Numbers StableJson.

Inductive SchemaViolationCode :=
| x_type | x_required | x_forbidden | x_unknown_property | x_enum | x_const | x_pattern
| x_too_short | x_too_long | x_too_small | x_too_large | x_too_few_items | x_too_many_items
| x_duplicate_items | x_not_integer.
#[export] Instance SchemaViolationCode_eq_dec : EqDecision SchemaViolationCode.
Proof. solve_decision. Defined.
Definition violation_name (c : SchemaViolationCode) : string :=
  match c with
  | x_type => "type" | x_required => "required" | x_unknown_property => "unknown_property"
  | x_too_long => "too_long" | x_too_short => "too_short" | x_pattern => "pattern" | x_enum => "enum"
  | x_not_integer => "not_integer" | x_too_small => "too_small" | x_too_large => "too_large"
  | x_too_many_items => "too_many_items" | x_too_few_items => "too_few_items"
  | x_duplicate_items => "duplicate_items" | x_forbidden => "forbidden"
  | x_const => "const"
  end.
Record SchemaViolation := { at_path : string; violation_code : SchemaViolationCode; violation_message : string }.

Definition report (path : string) (code : SchemaViolationCode) (message : string) : list SchemaViolation :=
  [{| at_path := path; violation_code := code; violation_message := message |}].

(** ** Primitives *)

Record StringOptions := {
  minLength : option Z;
  maxLength : option Z;
  pattern : option (string → bool);
  values : option (list string)
}.
Definition of_lengths (lo hi : Z) (p : option (string → bool)) : StringOptions :=
  {| minLength := Some lo; maxLength := Some hi; pattern := p; values := None |}.
Definition of_values (l : list string) : StringOptions :=
  {| minLength := None; maxLength := None; pattern := None; values := Some l |}.
(** [bound !== undefined && test(bound)] *)
Definition if_given {A} (o : option A) (p : A → bool) : bool := match o with Some a => p a | None => false end.

Definition checkString (options : StringOptions) (value : json) (path : string) : list SchemaViolation :=
  match value with
  | JStr s =>
      match values options with
      | Some l => if includes l s then [] else report path x_enum ("expected one of " +:+ join ", " l)
      | None =>
          let length := Z.of_nat (String.length s) in
          if if_given (maxLength options) (λ m, bool_decide (m < length)%Z)
          then report path x_too_long ("longer than " +:+ pretty (default 0%Z (maxLength options)) +:+ " characters")
          else if if_given (minLength options) (λ m, bool_decide (length < m)%Z)
          then report path x_too_short ("shorter than " +:+ pretty (default 0%Z (minLength options)) +:+ " characters")
          else if if_given (pattern options) (λ p, negb (p s))
          then report path x_pattern "does not match the permitted character class"
          else []
      end
  | _ => report path x_type "expected a string"
  end.

Definition checkBoolean (value : json) (path : string) : list SchemaViolation :=
  match value with JBool _ => [] | _ => report path x_type "expected a boolean" end.

(** [Number.isInteger], with the integer. *)
Definition integer_of (x : float) : option Z :=
  match x with
  | S754_zero _ => Some 0%Z
  | S754_finite s m e =>
      let z := if bool_decide (0 ≤ e)%Z then Some (Z.pos m * 2 ^ e)%Z
               else if bool_decide (Z.pos m `mod` 2 ^ (- e) = 0)%Z then Some (Z.pos m `div` 2 ^ (- e))%Z
               else None in
      (λ z, if s then (- z)%Z else z) <$> z
  | _ => None
  end.

Definition checkInteger (minimum maximum : Z) (value : json) (path : string) : list SchemaViolation :=
  match as_number value with
  | None => report path x_type "expected an integer"
  | Some x =>
      match integer_of x with
      | None => report path x_not_integer "expected an integer, not a fractional number"
      | Some z =>
          if bool_decide (z < minimum)%Z
          then report path x_too_small ("below the minimum of " +:+ pretty minimum)
          else if bool_decide (maximum < z)%Z
          then report path x_too_large ("above the maximum of " +:+ pretty maximum)
          else []
      end
  end.

Definition checkNumber (minimum maximum : Z) (value : json) (path : string) : list SchemaViolation :=
  match as_number value with
  | Some x =>
      if F_finite x then
        if F_ltb x (F_of_Z minimum)
        then report path x_too_small ("below the minimum of " +:+ pretty minimum)
        else if F_ltb (F_of_Z maximum) x
        then report path x_too_large ("above the maximum of " +:+ pretty maximum)
        else []
      else report path x_type "expected a finite number"
  | None => report path x_type "expected a finite number"
  end.

(** [JSON.stringify]: the members in their own order. *)
Fixpoint stringify (v : json) : string :=
  match v with
  | JArr items => "[" +:+ join "," (map stringify items) +:+ "]"
  | JObj ms => "{" +:+ join "," (map (λ kv, member_text (kv.1, stringify kv.2)) ms) +:+ "}"
  | _ => stableJson v
  end.

(** What two items must not share. *)
Definition item_key (item : json) : string := match item with JStr s => s | _ => stringify item end.
Fixpoint has_duplicates (seen : list string) (items : list json) : bool :=
  match items with
  | [] => false
  | item :: items' => includes seen (item_key item) || has_duplicates (item_key item :: seen) items'
  end.

(** [Some items] is [true]. *)
Definition checkArray (minItems maxItems : Z) (uniqueItems : bool) (value : json) (path : string) :
    list SchemaViolation * option (list json) :=
  match value with
  | JArr items =>
      if bool_decide (maxItems < Z.of_nat (length items))%Z
      then (report path x_too_many_items ("more than " +:+ pretty maxItems +:+ " items"), None)
      else if bool_decide (Z.of_nat (length items) < minItems)%Z
      then (report path x_too_few_items ("fewer than " +:+ pretty minItems +:+ " items"), None)
      else if uniqueItems && has_duplicates [] items
      then (report path x_duplicate_items "items must be unique", None)
      else ([], Some items)
  | _ => (report path x_type "expected an array", None)
  end.

(** [null] stands for a value that is no object. *)
Definition checkObject (allowed required : list string) (value : json) (path : string) :
    list SchemaViolation * option members :=
  match value with
  | JObj ms =>
      let unknown := (in_order (filter (λ kv, kv.1 ∉ allowed) ms)).*1 in
      let missing := filter (λ k, get_member k ms = None) required in
      ((unknown ≫= λ k, report (path +:+ "." +:+ k) x_unknown_property "unknown property")
       ++ (missing ≫= λ k, report (path +:+ "." +:+ k) x_required "required property is missing"), Some ms)
  | JDate _ =>
      (required ≫= λ k, report (path +:+ "." +:+ k) x_required "required property is missing", Some [])
  | _ => (report path x_type "expected an object", None)
  end.

Definition checkPlainObject (value : json) (path : string) : list SchemaViolation :=
  match value with JObj _ | JDate _ => [] | _ => report path x_type "expected an object" end.

Definition matchesCondition (value : option json) (values : list string) : bool :=
  match value with Some (JStr s) => includes values s | _ => false end.
Definition requireProperty (source : members) (path name detail : string) : list SchemaViolation :=
  match get_member name source with
  | None => report (path +:+ "." +:+ name) x_required ("required here because " +:+ detail)
  | Some _ => []
  end.
Definition forbidProperty (source : members) (path name detail : string) : list SchemaViolation :=
  match get_member name source with
  | None => []
  | Some _ => report (path +:+ "." +:+ name) x_forbidden ("not permitted here because " +:+ detail)
  end.

(** A validator on a member that is there, and on the items in turn. *)
Definition on_member (check : json → string → list SchemaViolation) (k : string) (source : members)
    (path : string) : list SchemaViolation :=
  match get_member k source with Some v => check v (path +:+ "." +:+ k) | None => [] end.
Definition on_items (check : json → string → list SchemaViolation) (items : list json) (path : string) :
    list SchemaViolation :=
  concat (imap (λ index item, check item (path +:+ "[" +:+ pretty index +:+ "]")) items).

(** ** Project settings *)

Definition validateValidationViewportWidth : json → string → list SchemaViolation := checkInteger 240 3840.
Definition validateValidationViewportHeight : json → string → list SchemaViolation := checkInteger 240 2160.
Definition validateValidationViewportDeviceScaleFactor : json → string → list SchemaViolation := checkNumber 1 4.

Definition validateValidationViewport (value : json) (path : string) : list SchemaViolation :=
  let '(found, source) := checkObject ["width"; "height"; "device_scale_factor"] ["width"; "height"] value path in
  match source with
  | None => found
  | Some source =>
      found ++ concat [on_member validateValidationViewportWidth "width" source path;
        on_member validateValidationViewportHeight "height" source path;
        on_member validateValidationViewportDeviceScaleFactor "device_scale_factor" source path]
  end.

Definition validateProjectSettingsDefaultValidationViewports (value : json) (path : string) :
    list SchemaViolation :=
  let '(found, items) := checkArray 1 8 true value path in
  match items with
  | None => found
  | Some items =>
      on_items validateValidationViewport items path
  end.

Definition validateProjectSettings (value : json) (path : string) : list SchemaViolation :=
  let '(found, source) := checkObject ["default_validation_viewports"] ["default_validation_viewports"] value path in
  match source with
  | None => found
  | Some source =>
      found ++ concat [on_member validateProjectSettingsDefaultValidationViewports
                         "default_validation_viewports" source path]
  end.

Definition number_json_of (d : Dec) : json :=
  match decimals d with O => JNum (mantissa d) | _ => JDec d end.
Definition viewport_json (v : ValidationViewport) : json :=
  JObj ([("width", JNum (vv_width v)); ("height", JNum (vv_height v))]
        ++ opt_member "device_scale_factor" number_json_of (vv_device_scale_factor v)).
Definition settings_json (s : ProjectSettings) : json :=
  JObj [("default_validation_viewports", JArr (viewport_json <$> default_validation_viewports s))].

Definition DEFAULT_VALIDATION_VIEWPORTS : list ValidationViewport :=
  [{| vv_width := 390; vv_height := 844; vv_device_scale_factor := None |};
   {| vv_width := 1440; vv_height := 900; vv_device_scale_factor := None |}].
Definition defaultProjectSettings : ProjectSettings :=
  {| default_validation_viewports := DEFAULT_VALIDATION_VIEWPORTS |}.

(** A device pixel ratio of one is dropped. *)
Definition normaliseViewport (value : json) : json :=
  match value with
  | JObj ms =>
      match get_member "device_scale_factor" ms ≫= as_number with
      | Some x => if SFeqb x F_one then JObj (filter (λ kv, kv.1 ≠ "device_scale_factor") ms) else value
      | None => value
      end
  | _ => value
  end.

(** [{ ...source, k: v }] *)
Definition set_member (k : string) (v : json) (ms : members) : members :=
  if bool_decide (k ∈ ms.*1)
  then (λ kv, if bool_decide (kv.1 = k) then (k, v) else kv) <$> ms
  else ms ++ [(k, v)].

(** [candidate]: the source with its viewports, or the default ones, in
    normal form. *)
Definition settings_viewports (source : members) : json :=
  match default (JArr (viewport_json <$> DEFAULT_VALIDATION_VIEWPORTS))
          (get_member "default_validation_viewports" source) with
  | JArr items => JArr (normaliseViewport <$> items)
  | v => v
  end.
Definition settings_candidate (source : members) : members :=
  set_member "default_validation_viewports" (settings_viewports source) source.
Definition normalise_object (source : members) : result (list SchemaViolation) json :=
  match validateProjectSettings (JObj (settings_candidate source)) "settings" with
  | [] => Ok (JObj (settings_candidate source))
  | violations => Err violations
  end.
(** [undefined] is [None]. *)
Definition normaliseProjectSettings (input : option json) : result (list SchemaViolation) json :=
  match input with
  | None | Some JNull => Ok (settings_json defaultProjectSettings)
  | Some (JObj source) => normalise_object source
  | Some (JDate _) => normalise_object []
  | Some _ => Err (report "settings" x_type "settings must be an object.")
  end.

(** The value of settings that were validated, read member by member; a number
    that is no integer has decimals. *)
Definition integer_member (k : string) (ms : members) : option Z :=
  match get_member k ms with
  | Some v => match as_number v with Some x => integer_of x | None => None end
  | None => None
  end.
Definition viewport_of_json (v : json) : option ValidationViewport :=
  match v with
  | JObj ms =>
      match integer_member "width" ms, integer_member "height" ms with
      | Some width, Some height =>
          let viewport scale := {| vv_width := width; vv_height := height; vv_device_scale_factor := scale |} in
          match get_member "device_scale_factor" ms with
          | None => Some (viewport None)
          | Some (JNum n) => Some (viewport (Some (dec_of_Z n)))
          | Some (JDec d) => if bool_decide (decimals d = 0) then None else Some (viewport (Some d))
          | _ => None
          end
      | _, _ => None
      end
  | _ => None
  end.
Definition settings_of_json (v : json) : option ProjectSettings :=
  match v with
  | JObj ms =>
      match get_member "default_validation_viewports" ms with
      | Some (JArr items) => Build_ProjectSettings <$> mapM viewport_of_json items
      | _ => None
      end
  | _ => None
  end.

Example settings_examples :
  is_ok (normaliseProjectSettings (Some (JObj [("default_validation_viewports",
    JArr [JObj [("width", JNum 390); ("height", JNum 844); ("device_scale_factor", JNum 1)];
          JObj [("height", JNum 900); ("width", JNum 1440); ("device_scale_factor", JDec (mk_dec 15 1))]])]))) = true
  ∧ (match normaliseProjectSettings (Some (JObj [("default_validation_viewports",
      JArr [JObj [("width", JNum 390); ("height", JNum 84)]; JNum 1]); ("x", JNull)])) with
     | Err l => (λ v, (at_path v, violation_name (violation_code v))) <$> l | Ok _ => [] end)
    = [("settings.x", "unknown_property");
       ("settings.default_validation_viewports[0].height", "too_small");
       ("settings.default_validation_viewports[1]", "type")].
Proof. split; vm_compute; reflexivity. Qed.
