(* ===== verification/Schema.v ===== *)
(** * What the generated validators say

    A schema of [src/packages/protocol/schemas], in the subset of JSON Schema that
    the generator takes ([src/packages/protocol/tools/schema-model.ts]); the
    violations that a value has by it, in the order in which the generated code
    finds them; and the documents that conform to it.  A schema has no violations
    on exactly the documents that conform. *)

From S2P Require Import Prelude ReviewDomain EntityId Regex Text Numbers StableJson Validation.

(** ** Patterns *)

(** [r{n,m}] is [bounded n m r]. *)
Fixpoint up_to (n : nat) (r : regex) : regex :=
  match n with O => Eps | S n' => Or (Seq r (up_to n' r)) Eps end.
Definition bounded (n m : nat) (r : regex) : regex := Seq (times n r) (up_to (m - n) r).
(** A class by the ranges of its code units. *)
Definition in_ranges (rs : list (N * N)) (c : ascii) : bool := existsb (λ b, between b.1 b.2 c) rs.
Definition class (rs : list (N * N)) : regex := Class (in_ranges rs).
Definition none_of (rs : list (N * N)) : regex := Class (λ c, negb (in_ranges rs c)).
(** The test of [^r$]. *)
Definition whole (r : regex) (s : string) : bool :=
  existsb (λ y : place, bool_decide (y.2 = "")) (ends r (None, s)).

Lemma whole_spec r s : whole r s = true ↔ ∃ c, matches r (None, s) (c, "").
Proof.
  unfold whole. rewrite existsb_exists. split.
  - intros ([c t] & Hin & Ht%bool_decide_eq_true). cbn in Ht. subst t. exists c.
    by apply ends_spec, list_elem_of_In.
  - intros (c & Hm). exists (c, ""). split; [by apply list_elem_of_In, ends_spec|]. by apply bool_decide_eq_true.
Qed.

(** ** Schemas *)

(** An [x-requires] rule. *)
Record Rule := {
  when_property : string;
  when_values : list string;
  then_required : list string;
  then_forbidden : list string;
  rule_detail : string
}.
(** A [const] of a boolean is [S_false]; one of an integer is a range; a string
    that is [x-sensitive] is [S_sensitive]; an object that is [x-dynamic] is
    [S_dynamic]. *)
Inductive Schema :=
| S_string (minLength maxLength : Z) (pattern : option regex)
| S_sensitive (minLength maxLength : Z) (pattern : option regex)
| S_values (values : list string)
| S_integer (minimum maximum : Z)
| S_number (minimum maximum : Z)
| S_boolean
| S_false
| S_dynamic
| S_array (minItems maxItems : Z) (uniqueItems : bool) (item : Schema)
| S_object (properties : list (string * Schema)) (required : list string) (rules : list Rule).

Section Schema_nested_ind.
Context (P : Schema → Prop).
Context (Hstring : ∀ lo hi p, P (S_string lo hi p)) (Hsensitive : ∀ lo hi p, P (S_sensitive lo hi p))
  (Hvalues : ∀ l, P (S_values l))
  (Hinteger : ∀ lo hi, P (S_integer lo hi)) (Hnumber : ∀ lo hi, P (S_number lo hi))
  (Hboolean : P S_boolean) (Hfalse : P S_false) (Hdynamic : P S_dynamic)
  (Harray : ∀ lo hi u item, P item → P (S_array lo hi u item))
  (Hobject : ∀ props req rules, Forall (λ kv, P kv.2) props → P (S_object props req rules)).
Fixpoint Schema_nested_ind (s : Schema) : P s :=
  match s with
  | S_string lo hi p => Hstring lo hi p
  | S_sensitive lo hi p => Hsensitive lo hi p
  | S_values l => Hvalues l
  | S_integer lo hi => Hinteger lo hi
  | S_number lo hi => Hnumber lo hi
  | S_boolean => Hboolean
  | S_false => Hfalse
  | S_dynamic => Hdynamic
  | S_array lo hi u item => Harray lo hi u item (Schema_nested_ind item)
  | S_object props req rules =>
      Hobject props req rules
        ((fix go (props : list (string * Schema)) : Forall (λ kv, P kv.2) props :=
            match props with
            | [] => Forall_nil_2 _
            | kv :: props' => Forall_cons_2 _ _ _ (Schema_nested_ind kv.2) (go props')
            end) props)
  end.
End Schema_nested_ind.

(** *** The violations of a value *)

Definition rule_violations (source : members) (path : string) (r : Rule) : list SchemaViolation :=
  if matchesCondition (get_member (when_property r) source) (when_values r)
  then concat (map (λ k, requireProperty source path k (rule_detail r)) (then_required r))
       ++ concat (map (λ k, forbidProperty source path k (rule_detail r)) (then_forbidden r))
  else [].

(** A constant of a boolean is not checked: the generator knows it of integers
    alone. *)
Fixpoint violations (s : Schema) : json → string → list SchemaViolation :=
  match s with
  | S_string lo hi p | S_sensitive lo hi p => checkString (of_lengths lo hi (whole <$> p))
  | S_values l => checkString (of_values l)
  | S_integer lo hi => checkInteger lo hi
  | S_number lo hi => checkNumber lo hi
  | S_boolean | S_false => checkBoolean
  | S_dynamic => checkPlainObject
  | S_array lo hi u item => λ value path,
      let '(found, items) := checkArray lo hi u value path in
      match items with
      | None => found
      | Some items => on_items (violations item) items path
      end
  | S_object props required rules => λ value path,
      let '(found, source) := checkObject (map fst props) required value path in
      match source with
      | None => found
      | Some source =>
          match rules with
          | [] => found ++ concat (map (λ kv, on_member (violations kv.2) kv.1 source path) props)
          | _ => found ++ concat (map (λ kv, on_member (violations kv.2) kv.1 source path) props)
                 ++ concat (map (rule_violations source path) rules)
          end
      end
  end.

(** *** The documents of a schema *)

Definition integer_within (lo hi : Z) (v : json) : Prop :=
  ∃ x z, as_number v = Some x ∧ integer_of x = Some z ∧ (lo ≤ z ≤ hi)%Z.
Definition number_within (lo hi : Z) (v : json) : Prop :=
  ∃ x, as_number v = Some x ∧ F_finite x = true ∧ F_ltb x (F_of_Z lo) = false ∧ F_ltb (F_of_Z hi) x = false.
(** The members of an object; a [Date] has none. *)
Definition object_members (v : json) : option members :=
  match v with JObj ms => Some ms | JDate _ => Some [] | _ => None end.
Definition obeys (ms : members) (r : Rule) : Prop :=
  (∃ t, get_member (when_property r) ms = Some (JStr t) ∧ t ∈ when_values r) →
  (∀ k, k ∈ then_required r → get_member k ms ≠ None)
  ∧ (∀ k, k ∈ then_forbidden r → get_member k ms = None).

Fixpoint conforms (s : Schema) (v : json) : Prop :=
  match s with
  | S_string lo hi p | S_sensitive lo hi p => ∃ t, v = JStr t ∧ (lo ≤ Z.of_nat (String.length t) ≤ hi)%Z
      ∧ ∀ r, p = Some r → ∃ c, matches r (None, t) (c, "")
  | S_values l => ∃ t, v = JStr t ∧ t ∈ l
  | S_integer lo hi => integer_within lo hi v
  | S_number lo hi => number_within lo hi v
  | S_boolean => ∃ b, v = JBool b
  | S_false => v = JBool false
  | S_dynamic => object_members v ≠ None
  | S_array lo hi u item => ∃ items, v = JArr items ∧ (lo ≤ Z.of_nat (length items) ≤ hi)%Z
      ∧ (u = true → NoDup (item_key <$> items)) ∧ Forall (conforms item) items
  | S_object props required rules => ∃ ms, object_members v = Some ms
      ∧ (∀ k, k ∈ ms.*1 → k ∈ map fst props)
      ∧ (∀ k, k ∈ required → get_member k ms ≠ None)
      ∧ foldr (λ kv P, (∀ w, get_member kv.1 ms = Some w → conforms kv.2 w) ∧ P) True props
      ∧ Forall (obeys ms) rules
  end.

(** The schema that the generator reads: without the constants of booleans. *)
Fixpoint as_read (s : Schema) : Schema :=
  match s with
  | S_false => S_boolean
  | S_array lo hi u item => S_array lo hi u (as_read item)
  | S_object props required rules => S_object (map (λ kv, (kv.1, as_read kv.2)) props) required rules
  | _ => s
  end.
Fixpoint has_false (s : Schema) : bool :=
  match s with
  | S_false => true
  | S_array _ _ _ item => has_false item
  | S_object props _ _ => existsb (λ kv, has_false kv.2) props
  | _ => false
  end.

(** ** A schema finds nothing in exactly the documents that conform *)

Lemma app_nil_iff {A} (l l' : list A) : l ++ l' = [] ↔ l = [] ∧ l' = [].
Proof. split; [apply app_eq_nil|by intros [-> ->]]. Qed.
Lemma concat_nil_iff {A} (ls : list (list A)) : concat ls = [] ↔ Forall (λ l, l = []) ls.
Proof.
  induction ls as [|l ls IH]; cbn; [by split; [constructor|]|]. by rewrite app_nil_iff, Forall_cons, IH.
Qed.
Lemma concat_map_nil {A B} (f : A → list B) l : concat (map f l) = [] ↔ Forall (λ a, f a = []) l.
Proof. by rewrite concat_nil_iff, Forall_fmap. Qed.
Lemma bind_nil_iff {A B} (f : A → list B) l : (∀ a, f a ≠ []) → l ≫= f = [] ↔ l = [].
Proof.
  intros Hf. destruct l as [|a l]; [done|]. rewrite bind_cons, app_nil_iff. split; [|done].
  by intros [Ha _]; destruct (Hf a).
Qed.
Lemma imap_nil_iff {A B} (f : nat → A → list B) l :
  concat (imap f l) = [] ↔ ∀ i a, l !! i = Some a → f i a = [].
Proof.
  revert f. induction l as [|a l IH]; intros f; [done|]. cbn. rewrite app_nil_iff, IH. split.
  - intros [Ha Hl] [|i] b; cbn; [by intros [= <-]|]. apply (Hl i).
  - intros Hf. split; [by apply (Hf 0)|]. intros i b Hb. by apply (Hf (S i)).
Qed.
Lemma filter_nil_iff {A} (P : A → Prop) `{∀ a, Decision (P a)} l : filter P l = [] ↔ ∀ a, a ∈ l → ¬ P a.
Proof.
  split.
  - intros Hf a Ha HP. assert (a ∈ filter P l) as Hin by by apply list_elem_of_filter.
    rewrite Hf in Hin. by apply elem_of_nil in Hin.
  - apply filter_none.
Qed.

Lemma string_exact lo hi p v path :
  checkString (of_lengths lo hi (whole <$> p)) v path = [] ↔ conforms (S_string lo hi p) v.
Proof.
  cbn [conforms]. destruct v as [| | | | |s| | |]; cbn; try (split; [done|by intros (? & [=] & _)]).
  case_bool_decide; [split; [done|]; intros (t & [= ->] & ? & _); lia|].
  case_bool_decide; [split; [done|]; intros (t & [= ->] & ? & _); lia|].
  destruct p as [r|]; cbn.
  - destruct (whole r s) eqn:Hw; cbn.
    + split; [|done]. intros _. exists s. split; [done|]. split; [lia|]. intros r' [= <-]. by apply whole_spec.
    + split; [done|]. intros (t & [= ->] & _ & Hp). destruct (Hp r eq_refl) as (c & Hm).
      assert (whole r t = true) as Ht by (apply whole_spec; by exists c). congruence.
  - split; [|done]. intros _. exists s. split; [done|]. split; [lia|done].
Qed.
Lemma values_exact l v path : checkString (of_values l) v path = [] ↔ conforms (S_values l) v.
Proof.
  cbn [conforms]. destruct v as [| | | | |s| | |]; cbn; try (split; [done|by intros (? & [=] & _)]).
  unfold includes. case_bool_decide as Hin; split; try done; [by exists s|]. by intros (t & [= ->] & ?).
Qed.
Lemma integer_exact lo hi v path : checkInteger lo hi v path = [] ↔ integer_within lo hi v.
Proof.
  unfold checkInteger, integer_within. destruct (as_number v) as [x|]; [|split; [done|by intros (? & ? & ? & _)]].
  destruct (integer_of x) as [z|] eqn:Hz; [|split; [done|]; intros (? & ? & [= <-] & Hz' & _); congruence].
  case_bool_decide; [split; [done|]; intros (? & ? & [= <-] & Hz' & ?); simplify_eq; lia|].
  case_bool_decide; [split; [done|]; intros (? & ? & [= <-] & Hz' & ?); simplify_eq; lia|].
  split; [|done]. intros _. exists x, z. split_and!; [done|done|lia|lia].
Qed.
Lemma number_exact lo hi v path : checkNumber lo hi v path = [] ↔ number_within lo hi v.
Proof.
  unfold checkNumber, number_within. split.
  - destruct (as_number v) as [x|]; [|done]. destruct (F_finite x) eqn:?; [|done].
    destruct (F_ltb x (F_of_Z lo)) eqn:?; [done|]. destruct (F_ltb (F_of_Z hi) x) eqn:?; [done|].
    intros _. by exists x.
  - intros (x & -> & -> & -> & ->). done.
Qed.

Lemma has_duplicates_false seen items : has_duplicates seen items = false ↔
  NoDup (item_key <$> items) ∧ ∀ a, a ∈ items → item_key a ∉ seen.
Proof.
  revert seen. induction items as [|a items IH]; intros seen; cbn.
  - split; [|done]. intros _. split; [constructor|]. by intros a ?%elem_of_nil.
  - rewrite orb_false_iff, IH. unfold includes. rewrite bool_decide_eq_false, NoDup_cons. split.
    + intros (Ha & Hnd & Hall). split.
      * split; [|done]. intros (b & Hb & Hin)%list_elem_of_fmap. apply (Hall b Hin). rewrite <- Hb. left.
      * intros b [->|Hb]%elem_of_cons; [done|]. specialize (Hall b Hb). by apply not_elem_of_cons in Hall as [_ ?].
    + intros ((Ha & Hnd) & Hall). split; [by apply Hall; left|]. split; [done|]. intros b Hb.
      apply not_elem_of_cons. split; [|by apply Hall; right]. intros Hk. apply Ha. rewrite <- Hk. by apply list_elem_of_fmap_2.
Qed.
Lemma array_exact lo hi u (check : json → string → list SchemaViolation) (ok : json → Prop) v path :
  (∀ w p, check w p = [] ↔ ok w) →
  (let '(found, items) := checkArray lo hi u v path in
   match items with None => found | Some items => on_items check items path end) = [] ↔
  ∃ items, v = JArr items ∧ (lo ≤ Z.of_nat (length items) ≤ hi)%Z
    ∧ (u = true → NoDup (item_key <$> items)) ∧ Forall ok items.
Proof.
  intros Hcheck. destruct v as [| | | | | | |items|]; cbn; try (split; [done|by intros (? & [=] & _)]).
  case_bool_decide; [split; [done|]; intros (? & [= <-] & ? & _); lia|].
  case_bool_decide; [split; [done|]; intros (? & [= <-] & ? & _); lia|].
  assert (∀ l, on_items check l path = [] ↔ Forall ok l) as Hitems.
  { intros l. unfold on_items. rewrite imap_nil_iff, Forall_lookup.
    split; intros Hl i a Ha; by eapply Hcheck, Hl. }
  destruct (u && has_duplicates [] items) eqn:Hd.
  - split; [done|]. intros (? & [= <-] & _ & Hnd & _). apply andb_prop in Hd as [-> Hd].
    assert (has_duplicates [] items = false) as Hf; [|congruence].
    apply has_duplicates_false. split; [by apply Hnd|]. intros. apply not_elem_of_nil.
  - rewrite Hitems. split.
    + intros Hl. exists items. split_and!; [done|lia|lia| |done]. intros ->. cbn in Hd.
      by apply has_duplicates_false in Hd as [? _].
    + by intros (? & [= <-] & _ & _ & ?).
Qed.

Lemma in_order_nil {A} (l : list (string * A)) : (in_order l).*1 = [] ↔ l = [].
Proof.
  split; [|by intros ->]. intros Hl%(f_equal length). rewrite length_fmap, in_order_perm in Hl.
  by destruct l.
Qed.
Lemma checkObject_spec allowed required v path :
  match object_members v with
  | None => (checkObject allowed required v path).2 = None ∧ (checkObject allowed required v path).1 ≠ []
  | Some ms => (checkObject allowed required v path).2 = Some ms
      ∧ ((checkObject allowed required v path).1 = [] ↔
         (∀ k, k ∈ ms.*1 → k ∈ allowed) ∧ (∀ k, k ∈ required → get_member k ms ≠ None))
  end.
Proof.
  destruct v as [| | | | | |t| |ms]; try done; cbn [object_members checkObject fst snd]; (split; [done|]).
  - rewrite bind_nil_iff by done. split.
    + intros ->. split; [by intros k ?%elem_of_nil|by intros k ?%elem_of_nil].
    + intros [_ Hr]. destruct required as [|k required]; [done|]. by destruct (Hr k ltac:(left)).
  - rewrite app_nil_iff, !bind_nil_iff by done. f_equiv.
    + rewrite in_order_nil, filter_nil_iff. split.
      * intros Hu k ([k' w] & -> & Hin)%list_elem_of_fmap. apply Hu in Hin. cbn in *. by apply dec_stable.
      * intros Hu [k w] Hin Hn. apply Hn, Hu. by apply (list_elem_of_fmap_2 fst) in Hin.
    + by rewrite filter_nil_iff.
Qed.

Lemma on_member_nil check k ms path :
  on_member check k ms path = [] ↔ ∀ w, get_member k ms = Some w → check w (path +:+ "." +:+ k) = [].
Proof.
  unfold on_member. destruct (get_member k ms) as [w|]; [|by split]. split; [by intros Hc ? [= <-]|]. intros Hc. by apply Hc.
Qed.
Lemma rule_exact ms path r : rule_violations ms path r = [] ↔ obeys ms r.
Proof.
  unfold rule_violations, obeys, matchesCondition, includes.
  assert (concat (map (λ k, requireProperty ms path k (rule_detail r)) (then_required r))
          ++ concat (map (λ k, forbidProperty ms path k (rule_detail r)) (then_forbidden r)) = [] ↔
          (∀ k, k ∈ then_required r → get_member k ms ≠ None)
          ∧ (∀ k, k ∈ then_forbidden r → get_member k ms = None)) as Hthen.
  { rewrite app_nil_iff, !concat_map_nil, !Forall_forall. unfold requireProperty, forbidProperty.
    split; intros [H1 H2]; split; intros k Hk;
      [specialize (H1 k Hk)|specialize (H2 k Hk)|specialize (H1 k Hk)|specialize (H2 k Hk)];
      by destruct (get_member k ms). }
  destruct (get_member (when_property r) ms) as [[| | | | |t| | |]|];
    try (split; [|done]; intros _ (u & [=] & _)).
  case_bool_decide as Hin.
  - rewrite Hthen. split; [done|]. intros Hr. apply Hr. by exists t.
  - split; [|done]. intros _ (u & [= <-] & ?). done.
Qed.
Lemma object_exact (props : list (string * Schema)) required rules (check : Schema → json → string → list SchemaViolation)
    (ok : Schema → json → Prop) v path :
  Forall (λ kv, ∀ w p, check kv.2 w p = [] ↔ ok kv.2 w) props →
  (let '(found, source) := checkObject (map fst props) required v path in
   match source with
   | None => found
   | Some source =>
       found ++ concat (map (λ kv, on_member (check kv.2) kv.1 source path) props)
       ++ concat (map (rule_violations source path) rules)
   end) = [] ↔
  ∃ ms, object_members v = Some ms ∧ (∀ k, k ∈ ms.*1 → k ∈ map fst props)
    ∧ (∀ k, k ∈ required → get_member k ms ≠ None)
    ∧ foldr (λ kv P, (∀ w, get_member kv.1 ms = Some w → ok kv.2 w) ∧ P) True props
    ∧ Forall (obeys ms) rules.
Proof.
  intros Hcheck. pose proof (checkObject_spec (map fst props) required v path) as Hspec.
  destruct (checkObject _ _ _ _) as [found source]. cbn in Hspec.
  destruct (object_members v) as [ms|].
  - destruct Hspec as [-> Hfound]. rewrite !app_nil_iff, Hfound, concat_map_nil, concat_map_nil.
    assert (Forall (λ kv, on_member (check kv.2) kv.1 ms path = []) props ↔
            foldr (λ kv P, (∀ w, get_member kv.1 ms = Some w → ok kv.2 w) ∧ P) True props) as ->.
    { clear Hfound. induction Hcheck as [|kv props Hkv _ IH]; [done|].
      rewrite Forall_cons, IH, on_member_nil. cbn. f_equiv. split; intros Hw w Hg; by eapply Hkv, Hw. }
    assert (Forall (λ r, rule_violations ms path r = []) rules ↔ Forall (obeys ms) rules) as ->
      by (apply Forall_iff; intros; apply rule_exact).
    split; [intros ((? & ?) & ? & ?); by exists ms|]. intros (? & [= <-] & ? & ? & ? & ?). done.
  - destruct Hspec as [-> Hne]. split; [done|]. by intros (? & [=] & _).
Qed.

Lemma violations_exact s v path : violations s v path = [] ↔ conforms (as_read s) v.
Proof.
  revert v path. induction s as [lo hi p|lo hi p|l|lo hi|lo hi| | | |lo hi u item IH|props required rules IH]
    using Schema_nested_ind; intros v path; cbn [violations as_read].
  - apply string_exact.
  - apply string_exact.
  - apply values_exact.
  - apply integer_exact.
  - apply number_exact.
  - destruct v; cbn; split; try done; try (by intros (? & [=])). by eexists.
  - destruct v; cbn; split; try done; try (by intros (? & [=])). by eexists.
  - destruct v; cbn; split; done.
  - apply (array_exact lo hi u (violations item)). intros. apply IH.
  - transitivity ((let '(found, source) := checkObject (map fst props) required v path in
      match source with
      | None => found
      | Some source =>
          found ++ concat (map (λ kv, on_member (violations kv.2) kv.1 source path) props)
          ++ concat (map (rule_violations source path) rules)
      end) = []).
    { destruct (checkObject _ _ _ _) as [found [source|]]; [|done].
      destruct rules as [|r rules]; [|done]. cbn [map concat]. by rewrite app_nil_r. }
    rewrite (object_exact props required rules violations (λ s, conforms (as_read s)))
      by exact IH.
    assert (∀ ms, foldr (λ kv P, (∀ w, get_member kv.1 ms = Some w → conforms kv.2 w) ∧ P) True
                   (map (λ kv, (kv.1, as_read kv.2)) props)
                 = foldr (λ kv P, (∀ w, get_member kv.1 ms = Some w → conforms (as_read kv.2) w) ∧ P) True props)
      as Hfold by (intros ms; clear; induction props as [|kv props IHp]; cbn; [done|by rewrite IHp]).
    cbn [conforms]. rewrite map_map. cbn [fst].
    split; intros (ms & Hms & Hk & Hr & Hf & Hrules); exists ms; rewrite ?Hfold in *; done.
Qed.
Lemma as_read_same s : has_false s = false → as_read s = s.
Proof.
  induction s as [lo hi p|lo hi p|l|lo hi|lo hi| | | |lo hi u item IH|props required rules IH]
    using Schema_nested_ind; cbn; try done.
  - intros Hf. by rewrite IH.
  - intros Hf. f_equal. induction IH as [|[k s] props Hs _ IHp]; [done|]. cbn in *.
    apply orb_false_elim in Hf as [Hf1 Hf2]. by rewrite Hs, IHp.
Qed.
