(* ===== verification/Patterns.v ===== *)
(** * The patterns of the schemas

    The regular expressions that the schemas name, each once: what stands between
    [^] and [$]. *)

From S2P Require Import Prelude Regex Schema.
#[local] Open Scope N_scope.

(** [^[A-Za-z0-9_-]+$] *)
Definition expression_0 : regex :=
  (plus (class [(65, 90); (97, 122); (48, 57); (95, 95); (45, 45)])).
(** [^[0-9]{4}-(0[1-9]|1[0-2])-(0[1-9]|[12][0-9]|3[01])T([01][0-9]|2[0-3]):[0-5][0-9]:[0-5][0-9](\.[0-9]{1,9})?Z$] *)
Definition expression_1 : regex :=
  (seq_of [(times 4 (class [(48, 57)])); (lit "-"); (or_of (seq_of [(lit "0"); (class [(49,
    57)])]) [(seq_of [(lit "1"); (class [(48, 50)])])]); (lit "-"); (or_of (seq_of [(lit
    "0"); (class [(49, 57)])]) [(seq_of [(class [(49, 49); (50, 50)]); (class [(48, 57)])]);
    (seq_of [(lit "3"); (class [(48, 48); (49, 49)])])]); (lit "T"); (or_of (seq_of [(class
    [(48, 48); (49, 49)]); (class [(48, 57)])]) [(seq_of [(lit "2"); (class [(48, 51)])])]);
    (lit ":"); (class [(48, 53)]); (class [(48, 57)]); (lit ":"); (class [(48, 53)]); (class
    [(48, 57)]); (opt (seq_of [(lit "."); (bounded 1 9 (class [(48, 57)]))])); (lit "Z")]).
(** [^[a-z0-9][a-z0-9-]*$] *)
Definition expression_2 : regex :=
  (seq_of [(class [(97, 122); (48, 57)]); (Star (class [(97, 122); (48, 57); (45, 45)]))]).
(** [^[^\x00-\x1f]+$] *)
Definition expression_3 : regex :=
  (plus (none_of [(0, 31)])).
(** [^[^\s@\x00-\x1f]+@[^\s@\x00-\x1f]+$] *)
Definition expression_4 : regex :=
  (seq_of [(plus (none_of [(9, 13); (32, 32); (160, 160); (64, 64); (0, 31)])); (lit "@");
    (plus (none_of [(9, 13); (32, 32); (160, 160); (64, 64); (0, 31)]))]).
(** [^[A-Za-z0-9][A-Za-z0-9._/-]*$] *)
Definition expression_5 : regex :=
  (seq_of [(class [(65, 90); (97, 122); (48, 57)]); (Star (class [(65, 90); (97, 122); (48,
    57); (46, 46); (95, 95); (47, 47); (45, 45)]))]).
(** [^[a-z0-9][a-z0-9.-]*(:[0-9]{1,5})?(/[A-Za-z0-9._~-]+)+$] *)
Definition expression_6 : regex :=
  (seq_of [(class [(97, 122); (48, 57)]); (Star (class [(97, 122); (48, 57); (46, 46); (45,
    45)])); (opt (seq_of [(lit ":"); (bounded 1 5 (class [(48, 57)]))])); (plus (seq_of [(lit
    "/"); (plus (class [(65, 90); (97, 122); (48, 57); (46, 46); (95, 95); (126, 126); (45,
    45)]))]))]).
(** [^[a-z0-9][a-z0-9._-]*$] *)
Definition expression_7 : regex :=
  (seq_of [(class [(97, 122); (48, 57)]); (Star (class [(97, 122); (48, 57); (46, 46); (95, 95); (45, 45)]))]).
(** [^[a-z0-9]+$] *)
Definition expression_8 : regex :=
  (plus (class [(97, 122); (48, 57)])).
(** [^[a-z0-9_]+$] *)
Definition expression_9 : regex :=
  (plus (class [(97, 122); (48, 57); (95, 95)])).
(** [^[a-z][a-z0-9-]*$] *)
Definition expression_10 : regex :=
  (seq_of [(class [(97, 122)]); (Star (class [(97, 122); (48, 57); (45, 45)]))]).
(** [^[0-9A-Za-z][0-9A-Za-z.+-]*$] *)
Definition expression_11 : regex :=
  (seq_of [(class [(48, 57); (65, 90); (97, 122)]); (Star (class [(48, 57); (65, 90); (97,
    122); (46, 46); (43, 43); (45, 45)]))]).
(** [^[A-Za-z0-9:._-]+$] *)
Definition expression_12 : regex :=
  (plus (class [(65, 90); (97, 122); (48, 57); (58, 58); (46, 46); (95, 95); (45, 45)])).
(** [^sha256:[0-9a-f]{64}$] *)
Definition expression_13 : regex :=
  (seq_of [(lit "sha256:"); (times 64 (class [(48, 57); (97, 102)]))]).
(** [^[^\x00-\x1f\x7f/\\]+$] *)
Definition expression_14 : regex :=
  (plus (none_of [(0, 31); (127, 127); (47, 47); (92, 92)])).
(** [^[0-9a-f]+$] *)
Definition expression_15 : regex :=
  (plus (class [(48, 57); (97, 102)])).
(** [^[0-9a-f]{64}$] *)
Definition expression_16 : regex :=
  (times 64 (class [(48, 57); (97, 102)])).
(** [^[A-Za-z0-9][A-Za-z0-9._/-]{0,255}$] *)
Definition expression_17 : regex :=
  (seq_of [(class [(65, 90); (97, 122); (48, 57)]); (bounded 0 255 (class [(65, 90); (97, 122);
    (48, 57); (46, 46); (95, 95); (47, 47); (45, 45)]))]).
(** [^[a-z0-9]([a-z0-9-]{0,61}[a-z0-9])?$] *)
Definition expression_18 : regex :=
  (seq_of [(class [(97, 122); (48, 57)]); (opt (seq_of [(bounded 0 61 (class [(97, 122); (48,
    57); (45, 45)])); (class [(97, 122); (48, 57)])]))]).
(** [^https://[a-z0-9]([a-z0-9-]{0,61}[a-z0-9])?\.[a-z0-9.-]{1,180}/$] *)
Definition expression_19 : regex :=
  (seq_of [(lit "https://"); (class [(97, 122); (48, 57)]); (opt (seq_of [(bounded 0 61 (class
    [(97, 122); (48, 57); (45, 45)])); (class [(97, 122); (48, 57)])])); (lit "."); (bounded
    1 180 (class [(97, 122); (48, 57); (46, 46); (45, 45)])); (lit "/")]).
(** [^[0-9A-Fa-f:.]{1,45}$] *)
Definition expression_20 : regex :=
  (bounded 1 45 (class [(48, 57); (65, 70); (97, 102); (58, 58); (46, 46)])).
(** [^(\[[0-9A-Fa-f:.]{1,45}\]|[0-9A-Fa-f:.]{1,45}):[0-9]{1,5}$] *)
Definition expression_21 : regex :=
  (seq_of [(or_of (seq_of [(lit "["); (bounded 1 45 (class [(48, 57); (65, 70); (97, 102);
    (58, 58); (46, 46)])); (lit "]")]) [(bounded 1 45 (class [(48, 57); (65, 70); (97, 102);
    (58, 58); (46, 46)]))]); (lit ":"); (bounded 1 5 (class [(48, 57)]))]).
(** [^[^\s\x00-\x1f]+$] *)
Definition expression_22 : regex :=
  (plus (none_of [(9, 13); (32, 32); (160, 160); (0, 31)])).
(** [^[a-z][a-z0-9_]*$] *)
Definition expression_23 : regex :=
  (seq_of [(class [(97, 122)]); (Star (class [(97, 122); (48, 57); (95, 95)]))]).
(** [^[A-Za-z0-9][A-Za-z0-9.-]*$] *)
Definition expression_24 : regex :=
  (seq_of [(class [(65, 90); (97, 122); (48, 57)]); (Star (class [(65, 90); (97, 122); (48,
    57); (46, 46); (45, 45)]))]).
(** [^[a-z][a-z0-9_]{0,62}$] *)
Definition expression_25 : regex :=
  (seq_of [(class [(97, 122)]); (bounded 0 62 (class [(97, 122); (48, 57); (95, 95)]))]).
(** [^[0-9]{4}_[a-z0-9_]+\.sql$] *)
Definition expression_26 : regex :=
  (seq_of [(times 4 (class [(48, 57)])); (lit "_"); (plus (class [(97, 122); (48, 57); (95,
    95)])); (lit ".sql")]).
(** [^[A-Za-z0-9:._/-]+$] *)
Definition expression_27 : regex :=
  (plus (class [(65, 90); (97, 122); (48, 57); (58, 58); (46, 46); (95, 95); (47, 47); (45, 45)])).
(** [^[^\x00]+$] *)
Definition expression_28 : regex :=
  (plus (none_of [(0, 0)])).
(** [^[A-Za-z0-9_.-]+$] *)
Definition expression_29 : regex :=
  (plus (class [(65, 90); (97, 122); (48, 57); (95, 95); (46, 46); (45, 45)])).
(** [^[a-z][a-z0-9_.]*$] *)
Definition expression_30 : regex :=
  (seq_of [(class [(97, 122)]); (Star (class [(97, 122); (48, 57); (95, 95); (46, 46)]))]).
(** [^[a-z][a-z0-9_.\[\]]*$] *)
Definition expression_31 : regex :=
  (seq_of [(class [(97, 122)]); (Star (class [(97, 122); (48, 57); (95, 95); (46, 46); (91, 91); (93, 93)]))]).
(** [^[A-Za-z0-9_-]{1,64}$] *)
Definition expression_32 : regex :=
  (bounded 1 64 (class [(65, 90); (97, 122); (48, 57); (95, 95); (45, 45)])).
(** [^[a-z0-9][a-z0-9-]{0,62}[a-z0-9]$|^[a-z0-9]$] *)
Definition expression_33 : regex :=
  (or_of (seq_of [(class [(97, 122); (48, 57)]); (bounded 0 62 (class [(97, 122); (48, 57);
    (45, 45)])); (class [(97, 122); (48, 57)])]) [(class [(97, 122); (48, 57)])]).
(** [^[^\u0000-\u001f\u007f]+$] *)
Definition expression_34 : regex :=
  (plus (none_of [(0, 31); (127, 127)])).
(** [^[^\u0000-\u0008\u000b\u000c\u000e-\u001f\u007f]+$] *)
Definition expression_35 : regex :=
  (plus (none_of [(0, 8); (11, 11); (12, 12); (14, 31); (127, 127)])).
(** [^[!-~]+$] *)
Definition expression_36 : regex :=
  (plus (class [(33, 126)])).
(** [^[0-9a-f]{7,64}$] *)
Definition expression_37 : regex :=
  (bounded 7 64 (class [(48, 57); (97, 102)])).
(** [^sha256/[0-9a-f]{2}/[0-9a-f]{62}$] *)
Definition expression_38 : regex :=
  (seq_of [(lit "sha256/"); (times 2 (class [(48, 57); (97, 102)])); (lit "/"); (times 62 (class
    [(48, 57); (97, 102)]))]).
(** [^[A-Za-z0-9][A-Za-z0-9._-]*$] *)
Definition expression_39 : regex :=
  (seq_of [(class [(65, 90); (97, 122); (48, 57)]); (Star (class [(65, 90); (97, 122); (48,
    57); (46, 46); (95, 95); (45, 45)]))]).
(** [^[a-zA-Z0-9][a-zA-Z0-9 ()@x.,:_-]{0,119}$] *)
Definition expression_40 : regex :=
  (seq_of [(class [(97, 122); (65, 90); (48, 57)]); (bounded 0 119 (class [(97, 122); (65,
    90); (48, 57); (32, 32); (40, 40); (41, 41); (64, 64); (120, 120); (46, 46); (44, 44);
    (58, 58); (95, 95); (45, 45)]))]).
(** [^/[!-~]*$] *)
Definition expression_41 : regex :=
  (seq_of [(lit "/"); (Star (class [(33, 126)]))]).
(** [^https?://[!-~]+$] *)
Definition expression_42 : regex :=
  (seq_of [(lit "http"); (opt (lit "s")); (lit "://"); (plus (class [(33, 126)]))]).
(** [^wss://[!-~]+$] *)
Definition expression_43 : regex :=
  (seq_of [(lit "wss://"); (plus (class [(33, 126)]))]).
(** [^[A-Za-z0-9._~+/=-]+$] *)
Definition expression_44 : regex :=
  (plus (class [(65, 90); (97, 122); (48, 57); (46, 46); (95, 95); (126, 126); (43, 43); (47,
    47); (61, 61); (45, 45)])).
(** [^[A-Za-z0-9+/]+={0,2}$] *)
Definition expression_45 : regex :=
  (seq_of [(plus (class [(65, 90); (97, 122); (48, 57); (43, 43); (47, 47)])); (bounded 0 2 (lit "="))]).
(** [^[^\x00-\x1f\x7f]+$] *)
Definition expression_46 : regex :=
  (plus (none_of [(0, 31); (127, 127)])).
(** [^[A-Za-z0-9.:_-]+$] *)
Definition expression_47 : regex :=
  (plus (class [(65, 90); (97, 122); (48, 57); (46, 46); (58, 58); (95, 95); (45, 45)])).
(** [^[A-Za-z0-9.:_\[\]-]+:[0-9]{1,5}$] *)
Definition expression_48 : regex :=
  (seq_of [(plus (class [(65, 90); (97, 122); (48, 57); (46, 46); (58, 58); (95, 95); (91,
    91); (93, 93); (45, 45)])); (lit ":"); (bounded 1 5 (class [(48, 57)]))]).
(** [^[0-9A-Za-z][0-9A-Za-z._+-]*$] *)
Definition expression_49 : regex :=
  (seq_of [(class [(48, 57); (65, 90); (97, 122)]); (Star (class [(48, 57); (65, 90); (97,
    122); (46, 46); (95, 95); (43, 43); (45, 45)]))]).
Definition expression_50 : regex :=
  (or_of (seq_of [(lit "http"); (opt (lit "s")); (lit "://"); (plus (class [(33, 126)]))])
    [(seq_of [(lit "/"); (Star (class [(33, 126)]))])]).
(** [^[^\u0000-\u001f\u007f]*$] *)
Definition expression_51 : regex :=
  (Star (none_of [(0, 31); (127, 127)])).
(** [^[^\u0000-\u0009\u000b-\u001f\u007f]*$] *)
Definition expression_52 : regex :=
  (Star (none_of [(0, 9); (11, 31); (127, 127)])).
(** [^e[0-9]{1,6}$] *)
Definition expression_53 : regex :=
  (seq_of [(lit "e"); (bounded 1 6 (class [(48, 57)]))]).
(** [^[A-Za-z][A-Za-z0-9 _-]*$] *)
Definition expression_54 : regex :=
  (seq_of [(class [(65, 90); (97, 122)]); (Star (class [(65, 90); (97, 122); (48, 57); (32,
    32); (95, 95); (45, 45)]))]).
Definition expression_55 : regex :=
  (Star (none_of [(0, 31); (127, 127); (60, 60); (62, 62); (34, 34)])).
(** [^[A-Za-z0-9._:-]+$] *)
Definition expression_56 : regex :=
  (plus (class [(65, 90); (97, 122); (48, 57); (46, 46); (95, 95); (58, 58); (45, 45)])).
(** [^[A-Za-z0-9._-]+$] *)
Definition expression_57 : regex :=
  (plus (class [(65, 90); (97, 122); (48, 57); (46, 46); (95, 95); (45, 45)])).
(** [^[A-Za-z0-9 ._-]+$] *)
Definition expression_58 : regex :=
  (plus (class [(65, 90); (97, 122); (48, 57); (32, 32); (46, 46); (95, 95); (45, 45)])).
(** [^[A-Za-z0-9 ._+-]+$] *)
Definition expression_59 : regex :=
  (plus (class [(65, 90); (97, 122); (48, 57); (32, 32); (46, 46); (95, 95); (43, 43); (45, 45)])).
(** [^(review|finding|artefact|screenshot)://[A-Za-z0-9._~/-]{1,300}$] *)
Definition expression_60 : regex :=
  (seq_of [(or_of (lit "review") [(lit "finding"); (lit "artefact"); (lit "screenshot")]);
    (lit "://"); (bounded 1 300 (class [(65, 90); (97, 122); (48, 57); (46, 46); (95, 95);
    (126, 126); (47, 47); (45, 45)]))]).
(** [^[A-Za-z0-9_.\[\]-]+$] *)
Definition expression_61 : regex :=
  (plus (class [(65, 90); (97, 122); (48, 57); (95, 95); (46, 46); (91, 91); (93, 93); (45, 45)])).
