(* ===== verification/Codec.v ===== *)
(** * Encoding and decoding

    The primitives of the canonical encoders ([src/packages/protocol/src/canonical.ts])
    and of the decoders, the codec that a schema stands for, and what it does to a
    document that conforms: nothing is lost, and what is written is the text of the
    document with its members in the order of the schema.  A [SensitiveString]
    ([src/packages/protocol/src/sensitive.ts]) is an object with the one private
    member [#value]. *)

From S2P Require Import Prelude ReviewDomain EntityId Regex Text Numbers StableJson Validation Schema.

(** ** Encoding *)

Definition TypeError : string := "TypeError".
(** [value.k], where [value] may be [undefined]. *)
Definition property (k : string) (value : option json) : result string (option json) :=
  match value with
  | None | Some JNull => Err TypeError
  | Some (JObj ms) => Ok (get_member k ms)
  | Some _ => Ok None
  end.

(** The line separators that it writes as escapes are beyond the code units of the
    strings here. *)
Definition jsonString (value : option json) : result string string :=
  match value with Some v => Ok (stringify v) | None => Err TypeError end.
Definition MAX_SAFE_INTEGER : Z := 9007199254740991.
Definition jsonInteger (value : option json) : result string string :=
  match value ≫= as_number with
  | Some x =>
      if if_given (integer_of x) (λ z, bool_decide (Z.abs z ≤ MAX_SAFE_INTEGER)%Z)
      then Ok (number_text x) else Err "CanonicalEncodeError"
  | None => Err "CanonicalEncodeError"
  end.
Definition jsonNumber (value : option json) : result string string :=
  match value ≫= as_number with
  | Some x => if F_finite x then Ok (number_text x) else Err "CanonicalEncodeError"
  | None => Err "CanonicalEncodeError"
  end.
Definition truthy (value : option json) : bool :=
  match value with
  | None | Some JNull => false
  | Some (JBool b) => b
  | Some (JStr s) => negb (bool_decide (s = ""))
  | Some (JNum _ as v) | Some (JDec _ as v) | Some (JFloat _ as v) =>
      if_given (as_number v) (λ x, match x with S754_zero _ | S754_nan => false | _ => true end)
  | Some _ => true
  end.
Definition jsonBoolean (value : option json) : result string string :=
  Ok (if truthy value then "true" else "false").
(** [new SensitiveString(s)] and [reveal()]. *)
Definition sensitive (s : json) : json := JObj [("#value", s)].
Definition jsonSensitive (value : option json) : result string string :=
  secret ← property "#value" value; jsonString secret.

(** [`[${value.map((item) => encode(item)).join(",")}]`] *)
Fixpoint each_text (encode : option json → result string string) (items : list json) :
    result string (list string) :=
  match items with
  | [] => Ok []
  | item :: items' => t ← encode (Some item); ts ← each_text encode items'; Ok (t :: ts)
  end.
Definition jsonItems (encode : option json → result string string) (value : option json) :
    result string string :=
  match value with
  | Some (JArr items) => ts ← each_text encode items; Ok ("[" +:+ join "," ts +:+ "]")
  | _ => Err TypeError
  end.

(** The statements [fields.push(...)]. *)
Definition member_start (k : string) : string := String quotation (k +:+ String quotation ":").
Definition push_field (k : string) (encode : option json → result string string) (value : option json) :
    result string (list string) :=
  member ← property k value; t ← encode member; Ok [member_start k +:+ t].
Definition push_optional (k : string) (encode : option json → result string string) (value : option json) :
    result string (list string) :=
  member ← property k value;
  match member with
  | Some _ => t ← encode member; Ok [member_start k +:+ t]
  | None => Ok []
  end.
(** The text of a dynamic member is given. *)
Definition push_text (k text : string) : result string (list string) := Ok [member_start k +:+ text].
Fixpoint all_fields {A} (fields : list (result string (list A))) : result string (list A) :=
  match fields with
  | [] => Ok []
  | f :: fields' => a ← f; b ← all_fields fields'; Ok (a ++ b)
  end.
Definition object_text (fields : list (result string (list string))) : result string string :=
  l ← all_fields fields; Ok ("{" +:+ join "," l +:+ "}").

(** ** Decoding *)

Definition as_is (value : json) : result string json := Ok value.
Definition read_sensitive (value : json) : result string json := Ok (sensitive value).
Fixpoint each_read (decode : json → result string json) (items : list json) : result string (list json) :=
  match items with
  | [] => Ok []
  | item :: items' => v ← decode item; vs ← each_read decode items'; Ok (v :: vs)
  end.
Definition read_items (decode : json → result string json) (value : json) : result string json :=
  match value with JArr items => vs ← each_read decode items; Ok (JArr vs) | _ => Err TypeError end.

(** [source["k"] as T]: a member that is [undefined] is one that is not there;
    [decode(source["k"])] reads a member of it; and the spread of an optional
    member. *)
Definition cast_field (k : string) (decode : json → result string json) (source : members) :
    result string members :=
  match get_member k source with Some v => w ← decode v; Ok [(k, w)] | None => Ok [] end.
Definition read_field (k : string) (decode : json → result string json) (source : members) :
    result string members :=
  match get_member k source with Some v => w ← decode v; Ok [(k, w)] | None => Err TypeError end.
Definition optional_field (k : string) (decode : json → result string json) (source : members) :
    result string members :=
  match get_member k source with Some v => w ← decode v; Ok [(k, w)] | None => Ok [] end.
Definition read_object (fields : members → list (result string members)) (value : json) : result string json :=
  match value with
  | JNull => Err TypeError
  | JObj source => ms ← all_fields (fields source); Ok (JObj ms)
  | _ => ms ← all_fields (fields []); Ok (JObj ms)
  end.

(** ** The codec of a schema *)

Fixpoint named_in (k : string) (l : list string) : bool :=
  match l with [] => false | k' :: l' => String.eqb k k' || named_in k l' end.
Definition scalar (s : Schema) : bool := match s with S_array _ _ _ _ | S_object _ _ _ => false | _ => true end.

Fixpoint encoding (dynamic : string) (s : Schema) : option json → result string string :=
  match s with
  | S_string _ _ _ | S_values _ => jsonString
  | S_sensitive _ _ _ => jsonSensitive
  | S_integer _ _ => jsonInteger
  | S_number _ _ => jsonNumber
  | S_boolean | S_false => jsonBoolean
  | S_dynamic => λ _, Ok dynamic
  | S_array _ _ _ item => jsonItems (encoding dynamic item)
  | S_object props required _ => λ value,
      object_text (map (λ kv : string * Schema,
        match kv.2 with
        | S_dynamic => push_text kv.1 dynamic
        | _ => if named_in kv.1 required then push_field kv.1 (encoding dynamic kv.2) value
               else push_optional kv.1 (encoding dynamic kv.2) value
        end) props)
  end.

Definition is_dynamic (s : Schema) : bool := match s with S_dynamic => true | _ => false end.
Fixpoint decoding (s : Schema) : json → result string json :=
  match s with
  | S_sensitive _ _ _ => read_sensitive
  | S_array _ _ _ item => read_items (decoding item)
  | S_object props required _ => read_object (λ source,
      concat (map (λ kv : string * Schema,
        if is_dynamic kv.2 then [] else
        [if named_in kv.1 required
         then (if scalar kv.2 then cast_field else read_field) kv.1 (decoding kv.2) source
         else optional_field kv.1 (decoding kv.2) source]) props))
  | _ => as_is
  end.

(** ** Types

    A type of the generated [types.ts] is the predicate of its values. *)

Definition string_type (w : json) : Prop := ∃ s, w = JStr s.
Definition SensitiveString (w : json) : Prop := ∃ s, w = sensitive (JStr s).
Definition number_type (w : json) : Prop := as_number w ≠ None.
Definition boolean_type (w : json) : Prop := ∃ b, w = JBool b.
Definition union_type (l : list string) (w : json) : Prop := ∃ s, w = JStr s ∧ s ∈ l.
Definition array_type (T : json → Prop) (w : json) : Prop := ∃ l, w = JArr l ∧ Forall T l.
(** [readonly k: T] and [readonly k?: T] *)
Definition has (k : string) (T : json → Prop) (ms : members) : Prop := ∃ w, get_member k ms = Some w ∧ T w.
Definition may_have (k : string) (T : json → Prop) (ms : members) : Prop :=
  ∀ w, get_member k ms = Some w → T w.
Definition interface_type (fields : list (members → Prop)) (w : json) : Prop :=
  ∃ ms, w = JObj ms ∧ foldr (λ field P, field ms ∧ P) True fields.

Fixpoint typing (s : Schema) : json → Prop :=
  match s with
  | S_string _ _ _ => string_type
  | S_sensitive _ _ _ => SensitiveString
  | S_values l => union_type l
  | S_integer _ _ | S_number _ _ => number_type
  | S_boolean | S_false => boolean_type
  | S_dynamic => λ _, True
  | S_array _ _ _ item => array_type (typing item)
  | S_object props required _ =>
      interface_type (concat (map (λ kv : string * Schema,
        if is_dynamic kv.2 then [] else
        [if named_in kv.1 required then has kv.1 (typing kv.2) else may_have kv.1 (typing kv.2)]) props))
  end.

(** An object of a schema with its generated type and functions: they are those
    the schema stands for. *)
Record Coded := coded {
  of_schema : Schema;
  declared : json → Prop;
  validator : json → string → list SchemaViolation;
  encoder : option json → result string string;
  decoder : json → result string json
}.
Record codes (c : Coded) : Prop := {
  declares : ∀ value, declared c value = typing (of_schema c) value;
  validates : ∀ value path, validator c value path = violations (of_schema c) value path;
  encodes : ∀ value, encoder c value = encoding "" (of_schema c) value;
  decodes : ∀ value, decoder c value = decoding (of_schema c) value
}.

(** The dispatch on the type of a message: each message of the schema is handled
    by the functions of its payload. *)
Record Dispatch := {
  payloads : list (string * Schema);
  message_types : list string;
  validate_payload : string → json → string → list SchemaViolation;
  decode_payload : string → json → option (result string json);
  encode_payload : string → option json → option (result string string)
}.
Record dispatches (d : Dispatch) : Prop := {
  dispatches_all : map fst (payloads d) = message_types d;
  dispatches_each : Forall (λ m, ∀ value path,
    validate_payload d m.1 value path = violations m.2 value path
    ∧ decode_payload d m.1 value = Some (decoding m.2 value)
    ∧ encode_payload d m.1 (Some value) = Some (encoding "" m.2 (Some value))) (payloads d)
}.
