(* ===== verification/CodecTheorems.v ===== *)
(** * What a codec does to a document that conforms

    Decoding a document that a validator passed keeps every member, and encoding
    what was decoded writes the text of the document with the members in the order
    of its schema. *)

From S2P Require Import Prelude Events ReviewDomain EntityId Regex Text Numbers StableJson Validation Schema Codec.

#[local] Arguments get_member : simpl never.

(** ** The document in the order of a schema *)

Fixpoint projected (s : Schema) (v : json) : json :=
  match s with
  | S_array _ _ _ item => match v with JArr items => JArr (map (projected item) items) | _ => v end
  | S_object props _ _ =>
      match v with
      | JObj ms => JObj (concat (map (λ kv : string * Schema,
          match get_member kv.1 ms with Some x => [(kv.1, projected kv.2 x)] | None => [] end) props))
      | _ => v
      end
  | _ => v
  end.

(** What the codec relies on of a schema: no property is there twice, names are
    written as they are, integers are safe, and nothing is dynamic. *)
Fixpoint encodable (s : Schema) : bool :=
  match s with
  | S_integer lo hi => bool_decide (- MAX_SAFE_INTEGER ≤ lo)%Z && bool_decide (hi ≤ MAX_SAFE_INTEGER)%Z
  | S_dynamic => false
  | S_array _ _ _ item => encodable item
  | S_object props _ _ =>
      bool_decide (NoDup (map fst props))
      && forallb (λ kv, bool_decide (escape kv.1 = kv.1) && encodable kv.2) props
  | _ => true
  end.

(** ** Members *)

Lemma get_member_elem k ms v : get_member k ms = Some v → (k, v) ∈ ms.
Proof.
  induction ms as [|[k' w] ms IH]; [done|]. rewrite get_member_cons. case_decide as Hk.
  - intros [= ->]. subst. left.
  - intros Hg. right. by apply IH.
Qed.
Lemma get_member_None k ms : get_member k ms = None ↔ k ∉ ms.*1.
Proof.
  induction ms as [|[k' w] ms IH]; [by split; [intros _; apply not_elem_of_nil|]|].
  rewrite get_member_cons, fmap_cons. cbn [fst]. rewrite not_elem_of_cons, <- IH. case_decide; naive_solver.
Qed.
Lemma named_in_spec k l : named_in k l = true ↔ k ∈ l.
Proof.
  induction l as [|k' l IH]; cbn; [by split; [|intros ?%elem_of_nil]|].
  rewrite orb_true_iff, IH, elem_of_cons, String.eqb_eq. done.
Qed.

Lemma conforms_object props required rules v :
  conforms (as_read (S_object props required rules)) v ↔
  ∃ ms, object_members v = Some ms ∧ (∀ k, k ∈ ms.*1 → k ∈ map fst props)
    ∧ (∀ k, k ∈ required → get_member k ms ≠ None)
    ∧ Forall (λ kv, ∀ w, get_member kv.1 ms = Some w → conforms (as_read kv.2) w) props
    ∧ Forall (obeys ms) rules.
Proof.
  assert (∀ ms, foldr (λ kv P, (∀ w, get_member kv.1 ms = Some w → conforms kv.2 w) ∧ P) True
                  (map (λ kv, (kv.1, as_read kv.2)) props)
          ↔ Forall (λ kv, ∀ w, get_member kv.1 ms = Some w → conforms (as_read kv.2) w) props) as Hfold.
  { intros ms. induction props as [|kv props IH]; cbn; [by split; [constructor|]|]. by rewrite Forall_cons, IH. }
  cbn [as_read conforms]. rewrite map_map. cbn [fst].
  split; intros (ms & Hms & Hk & Hr & Hf & Hrules); exists ms; by rewrite Hfold in *.
Qed.

(** ** Numbers and scalars *)

Lemma integer_of_finite x z : integer_of x = Some z → F_finite x = true.
Proof. by destruct x. Qed.
Lemma number_stringify v x : as_number v = Some x → F_finite x = true → stringify v = number_text x.
Proof.
  intros Hx Hf. assert (number_json v = number_text x) as Hn by (unfold number_json; by rewrite Hx, Hf).
  by destruct v.
Qed.
Lemma number_same v x : as_number v = Some x → same_json v v.
Proof. intros Hx. destruct v; try discriminate Hx; reflexivity. Qed.
Lemma jsonInteger_ok lo hi v : (- MAX_SAFE_INTEGER ≤ lo)%Z → (hi ≤ MAX_SAFE_INTEGER)%Z →
  integer_within lo hi v → jsonInteger (Some v) = Ok (stringify v) ∧ same_json v v.
Proof.
  intros Hlo Hhi (x & z & Hx & Hz & Hr). split; [|by eapply number_same]. unfold jsonInteger.
  cbn [mbind option_bind]. rewrite Hx, Hz. cbn [if_given]. rewrite bool_decide_true by (unfold MAX_SAFE_INTEGER in *; lia).
  by rewrite (number_stringify _ x Hx (integer_of_finite _ _ Hz)).
Qed.
Lemma jsonNumber_ok lo hi v : number_within lo hi v → jsonNumber (Some v) = Ok (stringify v) ∧ same_json v v.
Proof.
  intros (x & Hx & Hf & _). split; [|by eapply number_same]. unfold jsonNumber. cbn [mbind option_bind].
  by rewrite Hx, Hf, (number_stringify _ x Hx Hf).
Qed.

(** ** The codec *)

(** What a codec is to do with a value of a schema. *)
Definition carries (s : Schema) (v : json) : Prop :=
  ∃ w, decoding s v = Ok w ∧ typing s w
       ∧ encoding "" s (Some w) = Ok (stringify (projected s v))
       ∧ same_json (projected s v) v.

Lemma items_carried item items : Forall (carries item) items →
  ∃ ws, each_read (decoding item) items = Ok ws
    ∧ Forall (typing item) ws
    ∧ each_text (encoding "" item) ws = Ok (map stringify (map (projected item) items))
    ∧ Forall2 same_json (map (projected item) items) items.
Proof.
  induction 1 as [|v items (w & Hd & Ht & He & Hs) _ (ws & Hds & Hts & Hes & Hss)].
  { exists []. split_and!; [done|constructor|done|constructor]. }
  exists (w :: ws). cbn. rewrite Hd. cbn. rewrite Hds. cbn. rewrite He. cbn. rewrite Hes. cbn.
  split_and!; [done|by constructor|done|by constructor].
Qed.

Section object.
Context (ms : members) (required : list string).
Context (Hrequired : ∀ k, k ∈ required → get_member k ms ≠ None).

Definition entry (kv : string * Schema) : members :=
  match get_member kv.1 ms with Some x => [(kv.1, projected kv.2 x)] | None => [] end.
(** What was decoded has a property as the document has it. *)
Definition kept (ms' : members) (kv : string * Schema) : Prop :=
  match get_member kv.1 ms with
  | Some x => ∃ w, get_member kv.1 ms' = Some w ∧ typing kv.2 w
      ∧ encoding "" kv.2 (Some w) = Ok (stringify (projected kv.2 x))
  | None => get_member kv.1 ms' = None
  end.

Lemma fields_decoded props : NoDup (map fst props) →
  Forall (λ kv, is_dynamic kv.2 = false ∧ ∀ x, get_member kv.1 ms = Some x → carries kv.2 x) props →
  ∃ ms', all_fields (concat (map (λ kv : string * Schema,
        if is_dynamic kv.2 then [] else
        [if named_in kv.1 required
         then (if scalar kv.2 then cast_field else read_field) kv.1 (decoding kv.2) ms
         else optional_field kv.1 (decoding kv.2) ms]) props)) = Ok ms'
    ∧ (∀ k, k ∈ ms'.*1 → k ∈ map fst props) ∧ Forall (kept ms') props.
Proof using Hrequired.
  intros Hnd Hprops. induction props as [|[k s] props IH]; [by exists []|].
  apply Forall_cons in Hprops as [[Hdyn Hc] Hprops]. cbn [map fst] in Hnd. apply NoDup_cons in Hnd as [Hk Hnd].
  destruct (IH Hnd Hprops) as (ms' & Hall & Hkeys & Hkept). cbn [map concat fst snd]. cbn in Hdyn. rewrite Hdyn.
  cbn [app all_fields]. destruct (get_member k ms) as [x|] eqn:Hx.
  - destruct (Hc x Hx) as (w & Hd & Ht & He & _). exists ((k, w) :: ms').
    assert ((if named_in k required then (if scalar s then cast_field else read_field) k (decoding s) ms
             else optional_field k (decoding s) ms) = Ok [(k, w)]) as ->.
    { unfold cast_field, read_field, optional_field. destruct (named_in k required), (scalar s);
        cbn in Hd; by rewrite Hx, Hd. }
    cbn [mbind result_bind]. rewrite Hall. cbn. split; [done|]. split.
    { intros k' [->|Hin]%elem_of_cons; [left|right; by apply Hkeys]. }
    constructor.
    + unfold kept. cbn. rewrite Hx. exists w. rewrite get_member_cons, decide_True by done. done.
    + rewrite Forall_forall in Hkept |- *. intros kv Hin. specialize (Hkept kv Hin). unfold kept in *.
      assert (k ≠ kv.1) as Hne.
      { intros ->. apply Hk. apply list_elem_of_In, (in_map fst). by apply list_elem_of_In. }
      by rewrite get_member_cons, decide_False.
  - exists ms'.
    assert ((if named_in k required then (if scalar s then cast_field else read_field) k (decoding s) ms
             else optional_field k (decoding s) ms) = Ok []) as ->.
    { destruct (named_in k required) eqn:Hr; [|by unfold optional_field; rewrite Hx].
      apply named_in_spec, Hrequired in Hr. congruence. }
    cbn [mbind result_bind]. rewrite Hall. cbn. split; [done|]. split; [intros; right; by apply Hkeys|].
    constructor; [|done]. unfold kept. cbn. rewrite Hx. apply get_member_None. intros Hin. by apply Hk, Hkeys.
Qed.

Lemma member_start_text k t : escape k = k → member_start k +:+ t = member_text (k, t).
Proof.
  intros Hk. unfold member_start, member_text, quote. cbn [fst snd]. rewrite Hk, !append_cons, !append_assoc. done.
Qed.
Lemma fields_encoded ms' props :
  Forall (λ kv : string * Schema, is_dynamic kv.2 = false ∧ escape kv.1 = kv.1) props → Forall (kept ms') props →
  all_fields (map (λ kv : string * Schema,
        match kv.2 with
        | S_dynamic => push_text kv.1 ""
        | _ => if named_in kv.1 required then push_field kv.1 (encoding "" kv.2) (Some (JObj ms'))
               else push_optional kv.1 (encoding "" kv.2) (Some (JObj ms'))
        end) props)
  = Ok (map (λ kv, member_text (kv.1, stringify kv.2)) (concat (map entry props))).
Proof using Hrequired.
  intros Hp Hkept. induction props as [|[k s] props IH]; [done|].
  apply Forall_cons in Hp as [[Hdyn Hesc] Hp], Hkept as [Hk Hkept]. cbn [map concat all_fields fst snd] in *.
  assert (match s with
          | S_dynamic => push_text k ""
          | _ => if named_in k required then push_field k (encoding "" s) (Some (JObj ms'))
                 else push_optional k (encoding "" s) (Some (JObj ms'))
          end = Ok (map (λ kv, member_text (kv.1, stringify kv.2)) (entry (k, s)))) as ->.
  { assert (∀ b : bool, (if b then push_field k (encoding "" s) (Some (JObj ms'))
       else push_optional k (encoding "" s) (Some (JObj ms'))) =
       Ok (map (λ kv, member_text (kv.1, stringify kv.2)) (entry (k, s))) ∨ b ≠ named_in k required) as Hb.
    { unfold kept in Hk. unfold entry. cbn [fst snd] in *. intros b. destruct (get_member k ms) as [x|] eqn:Hx.
      - left. destruct Hk as (w & Hw & _ & He). unfold push_field, push_optional, property.
        rewrite Hw. cbn [mbind result_bind]. rewrite He. cbn. rewrite member_start_text by done. by destruct b.
      - destruct b.
        + right. intros Hr. symmetry in Hr. apply named_in_spec, Hrequired in Hr. congruence.
        + left. unfold push_optional, property. by rewrite Hk. }
    destruct (Hb (named_in k required)) as [He|]; [|done]. by destruct s. }
  rewrite (IH Hp Hkept). cbn [mbind result_bind]. by rewrite map_app.
Qed.

Lemma fields_typed ms' props :
  Forall (λ kv : string * Schema, is_dynamic kv.2 = false) props → Forall (kept ms') props →
  foldr (λ field P, field ms' ∧ P) True (concat (map (λ kv : string * Schema,
    if is_dynamic kv.2 then [] else
    [if named_in kv.1 required then has kv.1 (typing kv.2) else may_have kv.1 (typing kv.2)]) props)).
Proof using Hrequired.
  intros Hp Hkept. induction props as [|[k s] props IH]; [done|].
  apply Forall_cons in Hp as [Hdyn Hp], Hkept as [Hk Hkept]. cbn [map concat fst snd] in *. rewrite Hdyn.
  cbn [app foldr]. split; [|by apply IH]. unfold kept in Hk. cbn [fst snd] in Hk.
  destruct (get_member k ms) as [x|] eqn:Hx.
  - destruct Hk as (w & Hw & Ht & _). destruct (named_in k required); [by exists w|].
    intros w' Hw'. congruence.
  - destruct (named_in k required) eqn:Hr; [apply named_in_spec, Hrequired in Hr; congruence|].
    intros w' Hw'. congruence.
Qed.

Lemma entries_NoDup props : NoDup (map fst props) → NoDup (concat (map entry props)).*1.
Proof using.
  intros Hnd. induction props as [|[k s] props IH]; cbn; [constructor|]. cbn in Hnd.
  apply NoDup_cons in Hnd as [Hk Hnd]. rewrite fmap_app. apply NoDup_app. split; [|split; [|by apply IH]].
  - unfold entry. destruct (get_member _ ms); [apply NoDup_singleton|constructor].
  - intros k' Hk' Hin. apply Hk. unfold entry in Hk'. cbn in Hk'.
    destruct (get_member k ms); [|by apply elem_of_nil in Hk']. apply list_elem_of_singleton in Hk' as ->. clear -Hin.
    induction props as [|[k2 s2] props IH]; cbn in *; [done|]. rewrite fmap_app, elem_of_app in Hin.
    apply elem_of_cons. destruct Hin as [Hin|Hin]; [left|right; by apply IH]. unfold entry in Hin. cbn in Hin.
    destruct (get_member k2 ms); [by apply list_elem_of_singleton in Hin|by apply elem_of_nil in Hin].
Qed.
Lemma entries_same props : NoDup (map fst props) → NoDup ms.*1 → (∀ k, k ∈ ms.*1 → k ∈ map fst props) →
  Forall (λ kv : string * Schema, ∀ x, get_member kv.1 ms = Some x → same_json (projected kv.2 x) x) props →
  same_json (JObj (concat (map entry props))) (JObj ms).
Proof using.
  intros Hnd Hms Hin Hsame. apply same_obj. split.
  - assert (∀ k, k ∈ (concat (map entry props)).*1 ↔ k ∈ map fst props ∧ get_member k ms ≠ None) as Hkeys.
    { intros k. clear. induction props as [|[k' s] props IH]; cbn.
      - split; [by intros ?%elem_of_nil|by intros [?%elem_of_nil _]].
      - rewrite fmap_app, elem_of_app, IH, elem_of_cons. unfold entry. cbn [fst snd].
        destruct (get_member k' ms) as [x|] eqn:Hx; cbn.
        + rewrite list_elem_of_singleton. split; [|by naive_solver]. intros [->|[? ?]]; [|by auto].
          split; [by left|]. congruence.
        + split; [intros [?%elem_of_nil|[? ?]]; [done|by auto]|]. intros [[->|?] ?]; [congruence|by right]. }
    pose proof (entries_NoDup props Hnd) as Hnd'.
    rewrite <- (length_fmap fst), <- (length_fmap fst ms). apply Permutation_length, NoDup_Permutation; [done|done|].
    intros k. rewrite Hkeys. split.
    + intros [_ Hk]. apply dec_stable. intros Hk'. by apply Hk, get_member_None.
    + intros Hk. split; [by apply Hin|]. intros Hk'. by apply get_member_None in Hk'.
  - clear -Hsame. induction Hsame as [|[k s] props Hs _ IH]; cbn; [constructor|]. apply Forall_app. split; [|done].
    unfold entry. cbn in *. destruct (get_member k ms) as [x|] eqn:Hx; [|constructor]. constructor; [|constructor].
    exists x. split; [by apply get_member_elem|by apply Hs].
Qed.
End object.

Lemma encodable_props props required rules : encodable (S_object props required rules) = true →
  NoDup (map fst props)
  ∧ Forall (λ kv, escape kv.1 = kv.1 ∧ encodable kv.2 = true) props.
Proof.
  cbn [encodable]. intros [Hnd%bool_decide_eq_true Hall]%andb_prop. split; [done|].
  apply Forall_forall. intros kv Hkv. rewrite forallb_forall in Hall. apply list_elem_of_In, Hall, andb_prop in Hkv
    as [?%bool_decide_eq_true ?]. done.
Qed.
Lemma encodable_not_dynamic s : encodable s = true → is_dynamic s = false.
Proof. by destruct s. Qed.

Lemma object_carried props required rules ms :
  encodable (S_object props required rules) = true → NoDup ms.*1 →
  (∀ k, k ∈ ms.*1 → k ∈ map fst props) → (∀ k, k ∈ required → get_member k ms ≠ None) →
  Forall (λ kv : string * Schema, ∀ x, get_member kv.1 ms = Some x → carries kv.2 x) props →
  carries (S_object props required rules) (JObj ms).
Proof.
  intros Henc Hms Hin Hreq Hc. apply encodable_props in Henc as [Hnd Hprops].
  destruct (fields_decoded ms required Hreq props Hnd) as (ms' & Hd & _ & Hkept).
  { rewrite Forall_forall in Hprops, Hc |- *. intros kv Hkv. split; [|by apply Hc].
    by apply encodable_not_dynamic, Hprops. }
  exists (JObj ms'). split; [|split; [|split]].
  - cbn [decoding read_object]. by rewrite Hd.
  - exists ms'. split; [done|]. apply (fields_typed ms required Hreq); [|done].
    eapply Forall_impl; [exact Hprops|]. cbn. intros kv [_ ?]. by apply encodable_not_dynamic.
  - assert (Forall (λ kv : string * Schema, is_dynamic kv.2 = false ∧ escape kv.1 = kv.1) props) as Hnames.
    { eapply Forall_impl; [exact Hprops|]. cbn. intros kv [? ?]. split; [by apply encodable_not_dynamic|done]. }
    cbn [encoding]. unfold object_text. rewrite (fields_encoded ms required Hreq ms' props Hnames Hkept). done.
  - cbn [projected]. apply entries_same; [done|done|done|]. eapply Forall_impl; [exact Hc|]. cbn. intros kv Hkv x Hx.
    by destruct (Hkv x Hx) as (_ & _ & _ & _ & ?).
Qed.

Lemma conforming_carried s : encodable s = true → ∀ v, plain_json v → conforms (as_read s) v → carries s v.
Proof.
  induction s as [lo hi p|lo hi p|l|lo hi|lo hi| | | |lo hi u item IH|props required rules IH]
    using Schema_nested_ind; intros Henc v Hp Hv.
  - destruct Hv as (t & -> & _). exists (JStr t). split_and!; [done|by exists t|done|done].
  - destruct Hv as (t & -> & _). exists (sensitive (JStr t)). split_and!; [done|by exists t|done|done].
  - destruct Hv as (t & -> & Ht). exists (JStr t). split_and!; [done|by exists t|done|done].
  - cbn in Henc. apply andb_prop in Henc as [Hlo%bool_decide_eq_true Hhi%bool_decide_eq_true].
    exists v. split; [done|]. split; [|by apply (jsonInteger_ok lo hi)].
    destruct Hv as (x & z & Hx & _). cbn. unfold number_type. by rewrite Hx.
  - exists v. split; [done|]. split; [|by apply (jsonNumber_ok lo hi)].
    destruct Hv as (x & Hx & _). cbn. unfold number_type. by rewrite Hx.
  - destruct Hv as (b & ->). exists (JBool b). split_and!; [done|by exists b|by destruct b|done].
  - destruct Hv as (b & ->). exists (JBool b). split_and!; [done|by exists b|by destruct b|done].
  - done.
  - cbn [as_read conforms] in Hv. destruct Hv as (items & -> & _ & _ & Hall). cbn [encodable] in Henc.
    rewrite plain_arr in Hp. destruct (items_carried item items) as (ws & Hd & Ht & He & Hs).
    { rewrite Forall_forall in Hall, Hp |- *. intros v Hv. apply IH; auto. }
    exists (JArr ws). cbn [decoding encoding read_items jsonItems projected]. rewrite Hd. cbn [mbind result_bind].
    rewrite He. split_and!; [done|by exists ws|done|by apply same_arr].
  - apply conforms_object in Hv as (ms & Hms & Hin & Hreq & Hall & _).
    destruct v as [| | | | | | | |ms0]; try done. injection Hms as ->. rewrite plain_obj in Hp. destruct Hp as [Hnd Hpl].
    apply object_carried; [done|done|done|done|]. apply encodable_props in Henc as [_ Hprops].
    apply Forall_forall. intros kv Hkv x Hx.
    apply (proj1 (Forall_forall _ _) IH kv Hkv); [by apply (proj1 (Forall_forall _ _) Hprops kv Hkv)| |
      by apply (proj1 (Forall_forall _ _) Hall kv Hkv)].
    apply (proj1 (Forall_forall _ _) Hpl (kv.1, x)). by apply get_member_elem.
Qed.

(** ** One text per document *)

Lemma elem_get_member k ms v : NoDup ms.*1 → (k, v) ∈ ms → get_member k ms = Some v.
Proof.
  induction ms as [|[k' w] ms IH]; [by intros _ ?%elem_of_nil|]. rewrite fmap_cons, NoDup_cons, elem_of_cons. cbn [fst].
  rewrite get_member_cons. intros [Hk Hnd] [[= -> ->]|Hin]; [by rewrite decide_True|].
  rewrite decide_False; [by apply IH|]. intros ?. subst k. apply Hk. apply list_elem_of_fmap. by eexists (_, v).
Qed.
(** The same members, whichever way round. *)
Lemma same_members ms ms' k : NoDup ms.*1 → NoDup ms'.*1 → same_json (JObj ms) (JObj ms') →
  match get_member k ms with
  | Some x => ∃ y, get_member k ms' = Some y ∧ same_json x y
  | None => get_member k ms' = None
  end.
Proof.
  intros Hnd Hnd' [Hlen Hs]%same_obj. rewrite Forall_forall in Hs. destruct (get_member k ms) as [x|] eqn:Hx.
  - apply get_member_elem in Hx. destruct (Hs _ Hx) as (y & Hy & Hxy). exists y. split; [by apply elem_get_member|done].
  - apply get_member_None in Hx. apply get_member_None. intros Hk. apply Hx.
    assert (ms.*1 ≡ₚ ms'.*1) as ->; [|done]. apply submseteq_length_Permutation; [|by rewrite !length_fmap, Hlen].
    apply NoDup_submseteq; [done|]. intros ? ([k2 x] & -> & Hin)%list_elem_of_fmap.
    destruct (Hs _ Hin) as (y & Hy & _). apply list_elem_of_fmap. by exists (k2, y).
Qed.

Lemma one_text s : encodable s = true → ∀ v w, plain_json v → plain_json w → conforms (as_read s) v →
  same_json v w → stringify (projected s v) = stringify (projected s w).
Proof.
  induction s as [lo hi p|lo hi p|l|lo hi|lo hi| | | |lo hi u item IH|props required rules IH]
    using Schema_nested_ind; intros Henc v w Hv Hw Hc Hs; try done.
  - destruct Hc as (t & -> & _). by destruct w; cbn in Hs; subst.
  - destruct Hc as (t & -> & _). by destruct w; cbn in Hs; subst.
  - destruct Hc as (t & -> & _). by destruct w; cbn in Hs; subst.
  - destruct Hc as (x & z & Hx & _). by destruct v; try done; destruct w.
  - destruct Hc as (x & Hx & _). by destruct v; try done; destruct w.
  - destruct Hc as (b & ->). by destruct w; cbn in Hs; subst.
  - destruct Hc as (b & ->). by destruct w; cbn in Hs; subst.
  - destruct Hc as (items & -> & _ & _ & Hall). destruct w as [| | | | | | |items'|]; try done.
    rewrite same_arr in Hs. rewrite plain_arr in Hv, Hw. cbn [encodable projected stringify] in *. do 3 f_equal.
    induction Hs as [|a b items items' Hab _ IHs]; [done|]. apply Forall_cons in Hv as [? ?], Hw as [? ?], Hall as [? ?].
    cbn [map]. f_equal; [by apply IH|by apply IHs].
  - apply conforms_object in Hc as (ms & Hms & _ & _ & Hall & _).
    destruct v as [| | | | | | | |ms0]; try done. injection Hms as ->. destruct w as [| | | | | | | |ms']; try done.
    rewrite plain_obj in Hv, Hw. destruct Hv as [Hnd Hv], Hw as [Hnd' Hw]. apply encodable_props in Henc as [_ Hprops].
    cbn [projected stringify]. do 3 f_equal. induction props as [|[k s] props IHp]; [done|].
    apply Forall_cons in IH as [IHk IH], Hall as [Hk Hall], Hprops as [[_ Hek] Hprops]. cbn [map concat fst snd] in *.
    rewrite !map_app, IHp by done. f_equal. pose proof (same_members ms ms' k Hnd Hnd' Hs) as Hm.
    rewrite Forall_forall in Hv, Hw. destruct (get_member k ms) as [x|] eqn:Hx; [|by rewrite Hm].
    destruct Hm as (y & Hy & Hxy). rewrite Hy. cbn. rewrite (IHk Hek x y); [done| | |by apply Hk|done];
      [by apply (Hv (k, x)), get_member_elem|by apply (Hw (k, y)), get_member_elem].
Qed.

(** ** One document per text *)

Lemma stringify_head v : plain_json v →
  ∃ c t, stringify v = String c t ∧ kind_of_char c = Some (kind_of_value v) ∧ one_of ",]}" c = false.
Proof.
  intros Hv. destruct v as [| | | | | | |l|ms]; try exact (stableJson_head _ Hv); cbn [stringify]; rewrite append_cons;
    by eexists _, _.
Qed.
Lemma stringify_kind v w r r' : plain_json v → plain_json w →
  stringify v +:+ r = stringify w +:+ r' → kind_of_value v = kind_of_value w.
Proof.
  intros (c & t & -> & Hc & _)%stringify_head (c' & t' & -> & Hc' & _)%stringify_head.
  rewrite !append_cons. intros [= He _]. congruence.
Qed.

Lemma stringify_unambiguous v : ∀ w r r', plain_json v → plain_json w → delimited r → delimited r' →
  stringify v +:+ r = stringify w +:+ r' → same_json v w ∧ r = r'.
Proof.
  induction v as [l IH|ms IH|v Hna Hno] using json_nested_ind; intros w r r' Hv Hw Hr Hr' He;
    pose proof (stringify_kind _ _ _ _ Hv Hw He) as Hk.
  - destruct w as [|[]| | | | | |l'|]; try done. rewrite same_arr. rewrite plain_arr in Hv, Hw.
    cbn [stringify] in He. rewrite !append_cons, !append_nil, !append_assoc in He. injection He as He.
    rewrite Forall_forall in IH, Hv, Hw.
    apply (join_unambiguous stringify same_json) in He; [done|done| |].
    + intros a [Ha|Ha]%elem_of_app; (destruct (stringify_head a) as (c & t & ? & _ & ?); [by auto|by exists c, t]).
    + intros a b x y Ha Hb. by apply IH; auto.
  - destruct w as [|[]| | | | |t| |ms']; try done. rewrite same_obj. rewrite plain_obj in Hv, Hw.
    destruct Hv as [Hnd Hv], Hw as [Hnd' Hw]. cbn [stringify] in He.
    rewrite !append_cons, !append_nil, !append_assoc in He. injection He as He. rewrite Forall_forall in IH, Hv, Hw.
    apply (join_unambiguous (λ kv : string * json, member_text (kv.1, stringify kv.2))
             (λ a b, a.1 = b.1 ∧ same_json a.2 b.2)) in He; [|done| |].
    + destruct He as [He ->]. split; [|done]. split; [by eapply Forall2_length|].
      apply Forall_forall. intros kv Hkv. apply list_elem_of_lookup in Hkv as [i Hi].
      destruct (Forall2_lookup_l _ _ _ _ _ He Hi) as ([k b] & Hb & Hkey & Hsame). cbn in *. subst k.
      exists b. split; [|done]. by eapply list_elem_of_lookup_2.
    + intros a _. unfold member_text, quote. rewrite append_cons. by eexists _, _.
    + intros a b x y Ha Hb Hx Hy. unfold member_text. rewrite !append_assoc.
      intros [Hkey He']%quote_unambiguous. injection He' as He'. apply IH in He' as [Hs ->]; auto.
  - apply texts_unambiguous; [done..|].
    destruct v as [|[]| | | | | | |]; try (by specialize (Hna _ eq_refl)); try (by specialize (Hno _ eq_refl));
      destruct w as [|[]| | | | | | |]; done.
Qed.

Lemma projected_plain s : encodable s = true → ∀ v, plain_json v → plain_json (projected s v).
Proof.
  induction s as [lo hi p|lo hi p|l|lo hi|lo hi| | | |lo hi u item IH|props required rules IH]
    using Schema_nested_ind; intros Henc v Hv; try done.
  - destruct v as [| | | | | | |l|]; try done. cbn [projected encodable] in *. rewrite plain_arr in *.
    induction Hv; constructor; auto.
  - destruct v as [| | | | | | | |ms]; try done. cbn [projected]. rewrite plain_obj in *. destruct Hv as [Hnd Hv].
    apply encodable_props in Henc as [Hnames Hprops]. split; [by apply entries_NoDup|].
    rewrite Forall_forall in Hv. clear Hnames. induction props as [|[k s] props IHp]; [constructor|].
    apply Forall_cons in IH as [IHk IH], Hprops as [[_ Hek] Hprops]. cbn [map concat fst snd] in *. apply Forall_app.
    split; [|by apply IHp]. destruct (get_member k ms) as [x|] eqn:Hx; [|constructor].
    constructor; [|constructor]. apply IHk; [done|]. by apply (Hv (k, x)), get_member_elem.
Qed.

(** The texts of two documents that conform are those of the same document. *)
Lemma same_text_iff s v w : encodable s = true → plain_json v → plain_json w →
  conforms (as_read s) v → conforms (as_read s) w →
  stringify (projected s v) = stringify (projected s w) ↔ same_json v w.
Proof.
  intros Henc Hv Hw Hcv Hcw. split; [|by apply one_text]. intros He.
  destruct (conforming_carried s Henc v Hv Hcv) as (_ & _ & _ & _ & Hsv).
  destruct (conforming_carried s Henc w Hw Hcw) as (_ & _ & _ & _ & Hsw).
  pose proof (projected_plain s Henc v Hv) as Hpv. pose proof (projected_plain s Henc w Hw) as Hpw.
  assert (same_json (projected s v) (projected s w)) as Hs.
  { apply (stringify_unambiguous _ _ "" ""); [done..|]. by rewrite He. }
  apply (texts_unambiguous _ _ "" ""); [done..|].
  by rewrite <- (same_texts _ _ Hpv Hv Hsv), <- (same_texts _ _ Hpw Hw Hsw), (same_texts _ _ Hpv Hpw Hs).
Qed.
