(* ===== verification/PlatformSchema.v ===== *)
(** * The schemas of the platform protocol
    ([src/packages/protocol/schemas/platform/v1.schema.json])

    The definitions of the document, each after those it refers to. *)

From S2P Require Import Prelude Regex Schema Patterns.
#[local] Open Scope Z_scope.

Definition schema_identifier : Schema :=
  S_string 1 64 (Some expression_0).
Definition schema_timestamp : Schema :=
  S_string 20 30 (Some expression_1).
Definition schema_sequence_number : Schema :=
  S_integer 1 9007199254740991.
Definition schema_cursor : Schema :=
  S_string 1 512 (Some expression_0).
Definition schema_message_type : Schema :=
  S_values ["organisation.created"; "project.created"; "project.updated"; "project.repository_changed";
    "project.archived"; "user.invited"; "user.credentials_set"; "authentication.login_succeeded";
    "authentication.login_failed"; "session.revoked"; "connector.enrolled"; "connector.connected";
    "connector.degraded"; "connector.disconnected"; "connector.revoked"; "workspace.observed";
    "workspace.head_changed"; "job.enqueued"; "job.succeeded"; "job.failed"; "published_service.requested";
    "published_service.ready"; "published_service.failed"; "published_service.expired"; "published_service.revoked"].
Definition schema_error_class : Schema :=
  S_values ["AUTHENTICATION_REQUIRED"; "AUTHORISATION_DENIED"; "PROJECT_CONTEXT_AMBIGUOUS"; "PROJECT_CONTEXT_MISMATCH";
    "RESOURCE_NOT_FOUND"; "RESOURCE_STALE"; "VERSION_CONFLICT"; "IDEMPOTENCY_CONFLICT"; "VALIDATION_FAILED";
    "CONNECTOR_OFFLINE"; "PUBLISHED_SERVICE_UNAVAILABLE"; "BROWSER_CAPACITY_EXHAUSTED"; "BROWSER_SESSION_NOT_ACTIVE";
    "BROWSER_COMMAND_TIMEOUT"; "CONTROL_NOT_OWNED"; "CONTROL_EPOCH_STALE"; "POLICY_DENIED";
    "APPROVAL_REQUIRED"; "EVIDENCE_REQUIRED"; "ARTEFACT_UPLOAD_INCOMPLETE"; "ARTEFACT_STORE_UNAVAILABLE";
    "UNSUPPORTED_CAPABILITY"; "RATE_LIMITED"; "INTERNAL_ERROR"].
Definition schema_actor_type : Schema :=
  S_values ["human_user"; "agent_session"; "connector"; "browser_worker"; "system"; "integration"].
Definition schema_job_kind : Schema :=
  S_values ["event_outbox_dispatch"; "idempotency_key_expiry"; "published_service_expiry"; "artefact_thumbnail";
    "review_export"].
Definition schema_job_failure_reason : Schema :=
  S_values ["handler_error"; "attempt_timeout"; "attempts_exhausted"; "handler_unknown"].
Definition schema_project_status : Schema :=
  S_values ["active"; "archived"].
Definition schema_organisation_status : Schema :=
  S_values ["active"; "suspended"].
Definition schema_user_status : Schema :=
  S_values ["active"; "suspended"].
Definition schema_slug : Schema :=
  S_string 1 63 (Some expression_2).
Definition schema_display_name : Schema :=
  S_string 1 200 (Some expression_3).
Definition schema_email_address : Schema :=
  S_string 3 254 (Some expression_4).
Definition schema_git_ref_name : Schema :=
  S_string 1 255 (Some expression_5).
Definition schema_repository_canonical : Schema :=
  S_string 3 255 (Some expression_6).
Definition schema_environment_status : Schema :=
  S_values ["ACTIVE"].
Definition schema_environment_trust_level : Schema :=
  S_values ["standard"].
Definition schema_environment_label : Schema :=
  S_string 1 64 (Some expression_7).
Definition schema_platform_name : Schema :=
  S_string 1 32 (Some expression_8).
Definition schema_architecture_name : Schema :=
  S_string 1 32 (Some expression_9).
Definition schema_connector_status : Schema :=
  S_values ["PENDING_ENROLMENT"; "ACTIVE"; "DEGRADED"; "DISCONNECTED"; "REVOKED"].
Definition schema_connector_capability : Schema :=
  S_string 1 64 (Some expression_10).
Definition schema_connector_version : Schema :=
  S_string 1 32 (Some expression_11).
Definition schema_certificate_fingerprint : Schema :=
  S_string 8 128 (Some expression_12).
Definition schema_connector_connected_trigger : Schema :=
  S_values ["channel_opened"; "heartbeat"].
Definition schema_connector_degraded_trigger : Schema :=
  S_values ["heartbeat_delay"].
Definition schema_connector_disconnected_trigger : Schema :=
  S_values ["channel_closed"; "heartbeat_timeout"].
Definition schema_silence_seconds : Schema :=
  S_integer 0 86400.
Definition schema_path_hash : Schema :=
  S_string 71 71 (Some expression_13).
Definition schema_workspace_display_label : Schema :=
  S_string 1 128 (Some expression_14).
Definition schema_git_commit : Schema :=
  S_string 7 64 (Some expression_15).
Definition schema_workspace_observation_source : Schema :=
  S_values ["connector_report"; "administrative_registration"].
Definition schema_repository_identity : Schema :=
  S_object
    [("canonical", (S_string 3 255 (Some expression_6)));
     ("clone_urls", (S_array 0 8 true (S_string 3 512 (Some expression_22))))]
    ["canonical"]
    [].
Definition schema_validation_viewport : Schema :=
  S_object
    [("width", (S_integer 240 3840));
     ("height", (S_integer 240 2160));
     ("device_scale_factor", (S_number 1 4))]
    ["width"; "height"]
    [].
Definition schema_project_settings : Schema :=
  S_object
    [("default_validation_viewports", (S_array 1 8 true schema_validation_viewport))]
    ["default_validation_viewports"]
    [].
Definition schema_organisation : Schema :=
  S_object
    [("id", schema_identifier);
     ("name", schema_display_name);
     ("slug", schema_slug);
     ("status", schema_organisation_status);
     ("created_at", schema_timestamp);
     ("updated_at", schema_timestamp)]
    ["id"; "name"; "slug"; "status"; "created_at"; "updated_at"]
    [].
Definition schema_user : Schema :=
  S_object
    [("id", schema_identifier);
     ("organisation_id", schema_identifier);
     ("email", schema_email_address);
     ("display_name", schema_display_name);
     ("status", schema_user_status);
     ("local_credential_set", S_boolean);
     ("created_at", schema_timestamp);
     ("updated_at", schema_timestamp)]
    ["id"; "organisation_id"; "email"; "display_name"; "status"; "created_at"; "updated_at"]
    [].
Definition schema_project : Schema :=
  S_object
    [("id", schema_identifier);
     ("organisation_id", schema_identifier);
     ("name", schema_display_name);
     ("slug", schema_slug);
     ("repository_identity", schema_repository_identity);
     ("default_branch", schema_git_ref_name);
     ("status", schema_project_status);
     ("settings", schema_project_settings);
     ("version", (S_integer 1 9007199254740991));
     ("created_at", schema_timestamp);
     ("updated_at", schema_timestamp)]
    ["id"; "organisation_id"; "name"; "slug"; "default_branch"; "status"; "settings"; "version";
     "created_at"; "updated_at"]
    [].
Definition schema_human_session : Schema :=
  S_object
    [("session_id", schema_identifier);
     ("user_id", schema_identifier);
     ("organisation_id", schema_identifier);
     ("email", schema_email_address);
     ("display", schema_display_name);
     ("project_ids", (S_array 0 200 true schema_identifier));
     ("expires_at", schema_timestamp)]
    ["session_id"; "display"; "expires_at"]
    [].
Definition schema_agent_session_status : Schema :=
  S_values ["STARTING"; "ACTIVE"; "WAITING"; "BLOCKED"; "DISCONNECTED"; "COMPLETED"; "FAILED"; "CANCELLED"].
Definition schema_agent_capability : Schema :=
  S_values ["project:read"; "review:read"; "review:write"; "finding:read"; "finding:write"; "verification:submit";
    "browser:capture"; "browser:control"].
Definition schema_agent_session : Schema :=
  S_object
    [("id", schema_identifier);
     ("organisation_id", schema_identifier);
     ("project_id", schema_identifier);
     ("connector_id", schema_identifier);
     ("workspace_id", schema_identifier);
     ("agent_type", schema_display_name);
     ("agent_version", schema_display_name);
     ("capabilities", (S_array 1 16 true schema_agent_capability));
     ("branch", schema_git_ref_name);
     ("head_commit", schema_git_commit);
     ("status", schema_agent_session_status);
     ("started_at", schema_timestamp);
     ("last_seen_at", schema_timestamp);
     ("ended_at", schema_timestamp)]
    ["id"; "project_id"; "agent_type"; "capabilities"; "status"; "started_at"]
    [].
Definition schema_environment : Schema :=
  S_object
    [("id", schema_identifier);
     ("organisation_id", schema_identifier);
     ("project_id", schema_identifier);
     ("name", schema_display_name);
     ("platform", schema_platform_name);
     ("architecture", schema_architecture_name);
     ("labels", (S_array 0 16 true schema_environment_label));
     ("trust_level", schema_environment_trust_level);
     ("status", schema_environment_status);
     ("last_seen_at", schema_timestamp);
     ("created_at", schema_timestamp)]
    ["id"; "organisation_id"; "name"; "platform"; "architecture"; "labels"; "trust_level"; "status";
     "created_at"]
    [].
Definition schema_connector : Schema :=
  S_object
    [("id", schema_identifier);
     ("organisation_id", schema_identifier);
     ("environment_id", schema_identifier);
     ("project_id", schema_identifier);
     ("certificate_fingerprint", schema_certificate_fingerprint);
     ("certificate_not_after", schema_timestamp);
     ("version", schema_connector_version);
     ("capabilities", (S_array 0 32 true schema_connector_capability));
     ("status", schema_connector_status);
     ("connected_at", schema_timestamp);
     ("last_heartbeat_at", schema_timestamp);
     ("revoked_at", schema_timestamp);
     ("created_at", schema_timestamp)]
    ["id"; "organisation_id"; "environment_id"; "certificate_fingerprint"; "certificate_not_after";
     "version"; "capabilities"; "status"; "created_at"]
    [].
Definition schema_workspace : Schema :=
  S_object
    [("id", schema_identifier);
     ("organisation_id", schema_identifier);
     ("project_id", schema_identifier);
     ("environment_id", schema_identifier);
     ("connector_id", schema_identifier);
     ("path_hash", schema_path_hash);
     ("display_path", schema_workspace_display_label);
     ("repository_identity", schema_repository_canonical);
     ("branch", schema_git_ref_name);
     ("head_commit", schema_git_commit);
     ("dirty", S_boolean);
     ("source", schema_workspace_observation_source);
     ("last_observed_at", schema_timestamp);
     ("created_at", schema_timestamp)]
    ["id"; "organisation_id"; "project_id"; "path_hash"; "display_path"; "branch"; "head_commit";
     "dirty"; "source"; "created_at"]
    [].
Definition schema_login_method : Schema :=
  S_values ["password"; "bootstrap_token"; "install_token"].
Definition schema_login_failure_reason : Schema :=
  S_values ["unknown_user"; "invalid_password"; "password_not_set"; "user_suspended"; "rate_limited";
    "install_token_invalid"; "install_token_expired"; "install_token_consumed"].
Definition schema_session_revocation_reason : Schema :=
  S_values ["sign_out"; "rotated"; "revoked_by_user"; "revoked_by_administrator"].
Definition schema_actor : Schema :=
  S_object
    [("type", schema_actor_type);
     ("id", schema_identifier);
     ("display", (S_string 1 200 (Some expression_3)))]
    ["type"]
    [].
Definition schema_correlation : Schema :=
  S_object
    [("request_id", schema_identifier);
     ("causation_event_id", schema_identifier);
     ("connector_id", schema_identifier);
     ("environment_id", schema_identifier);
     ("workspace_id", schema_identifier);
     ("published_service_id", schema_identifier);
     ("agent_session_id", schema_identifier);
     ("browser_session_id", schema_identifier);
     ("worker_id", schema_identifier);
     ("artefact_id", schema_identifier);
     ("review_id", schema_identifier);
     ("finding_id", schema_identifier);
     ("annotation_id", schema_identifier);
     ("job_id", schema_identifier)]
    []
    [].
Definition schema_envelope : Schema :=
  S_object
    [("id", schema_identifier);
     ("schema_version", (S_integer 1 1));
     ("sequence", schema_sequence_number);
     ("type", schema_message_type);
     ("occurred_at", schema_timestamp);
     ("recorded_at", schema_timestamp);
     ("organisation_id", schema_identifier);
     ("project_id", schema_identifier);
     ("actor", schema_actor);
     ("correlation", schema_correlation);
     ("payload", S_dynamic)]
    ["id"; "schema_version"; "sequence"; "type"; "occurred_at"; "recorded_at"; "organisation_id";
     "actor"; "payload"]
    [].
Definition schema_organisation_created_payload : Schema :=
  S_object
    [("slug", (S_string 1 63 (Some expression_2)));
     ("name", (S_string 1 200 (Some expression_3)))]
    ["slug"; "name"]
    [].
Definition schema_project_created_payload : Schema :=
  S_object
    [("slug", (S_string 1 63 (Some expression_2)));
     ("name", (S_string 1 200 (Some expression_3)));
     ("default_branch", schema_git_ref_name);
     ("repository_canonical", (S_string 3 255 (Some expression_6)))]
    ["slug"; "name"]
    [].
Definition schema_project_repository_changed_payload : Schema :=
  S_object
    [("previous_canonical", (S_string 3 255 (Some expression_6)));
     ("new_canonical", (S_string 3 255 (Some expression_6)))]
    ["new_canonical"]
    [].
Definition schema_user_invited_payload : Schema :=
  S_object
    [("user_id", schema_identifier);
     ("method", schema_login_method);
     ("expires_at", schema_timestamp)]
    ["user_id"; "method"; "expires_at"]
    [].
Definition schema_user_credentials_set_payload : Schema :=
  S_object
    [("user_id", schema_identifier);
     ("method", schema_login_method)]
    ["user_id"; "method"]
    [].
Definition schema_authentication_login_succeeded_payload : Schema :=
  S_object
    [("session_id", schema_identifier);
     ("user_id", schema_identifier);
     ("method", schema_login_method)]
    ["session_id"; "method"]
    [].
Definition schema_authentication_login_failed_payload : Schema :=
  S_object
    [("reason", schema_login_failure_reason);
     ("method", schema_login_method);
     ("user_id", schema_identifier)]
    ["reason"; "method"]
    [].
Definition schema_session_revoked_payload : Schema :=
  S_object
    [("session_id", schema_identifier);
     ("user_id", schema_identifier);
     ("reason", schema_session_revocation_reason)]
    ["session_id"; "reason"]
    [].
Definition schema_project_updated_payload : Schema :=
  S_object
    [("changed_fields", (S_array 1 16 true (S_string 1 64 (Some expression_23))))]
    ["changed_fields"]
    [].
Definition schema_project_archived_payload : Schema :=
  S_object
    [("previous_status", schema_project_status);
     ("new_status", schema_project_status)]
    ["previous_status"; "new_status"]
    [].
Definition schema_connector_enrolled_payload : Schema :=
  S_object
    [("environment_id", schema_identifier);
     ("environment_name", schema_display_name);
     ("platform", schema_platform_name);
     ("architecture", schema_architecture_name);
     ("connector_version", schema_connector_version);
     ("capabilities", (S_array 0 32 true schema_connector_capability));
     ("certificate_fingerprint", schema_certificate_fingerprint);
     ("identity_expires_at", schema_timestamp);
     ("enrolment_token_id", schema_identifier);
     ("new_status", schema_connector_status)]
    ["environment_id"; "environment_name"; "platform"; "architecture"; "connector_version"; "capabilities";
     "certificate_fingerprint"; "identity_expires_at"; "new_status"]
    [].
Definition schema_connector_connected_payload : Schema :=
  S_object
    [("previous_status", schema_connector_status);
     ("new_status", schema_connector_status);
     ("trigger", schema_connector_connected_trigger)]
    ["previous_status"; "new_status"; "trigger"]
    [].
Definition schema_connector_degraded_payload : Schema :=
  S_object
    [("previous_status", schema_connector_status);
     ("new_status", schema_connector_status);
     ("trigger", schema_connector_degraded_trigger);
     ("silent_for_seconds_at_least", schema_silence_seconds)]
    ["previous_status"; "new_status"; "trigger"; "silent_for_seconds_at_least"]
    [].
Definition schema_connector_disconnected_payload : Schema :=
  S_object
    [("previous_status", schema_connector_status);
     ("new_status", schema_connector_status);
     ("trigger", schema_connector_disconnected_trigger);
     ("silent_for_seconds_at_least", schema_silence_seconds)]
    ["previous_status"; "new_status"; "trigger"]
    [].
Definition schema_connector_revoked_payload : Schema :=
  S_object
    [("previous_status", schema_connector_status);
     ("new_status", schema_connector_status);
     ("routes_revoked", (S_integer 0 1024));
     ("sessions_disconnected", (S_integer 0 1024));
     ("channels_closed", (S_integer 0 1024));
     ("agent_credentials_revoked", (S_integer 0 1024))]
    ["previous_status"; "new_status"; "routes_revoked"; "sessions_disconnected"]
    [].
Definition schema_workspace_observed_payload : Schema :=
  S_object
    [("workspace_id", schema_identifier);
     ("environment_id", schema_identifier);
     ("path_hash", schema_path_hash);
     ("display_path", schema_workspace_display_label);
     ("repository_identity", schema_repository_canonical);
     ("branch", schema_git_ref_name);
     ("head_commit", schema_git_commit);
     ("dirty", S_boolean);
     ("source", schema_workspace_observation_source)]
    ["workspace_id"; "path_hash"; "display_path"; "branch"; "head_commit"; "dirty"; "source"]
    [].
Definition schema_workspace_head_changed_payload : Schema :=
  S_object
    [("workspace_id", schema_identifier);
     ("environment_id", schema_identifier);
     ("previous_branch", schema_git_ref_name);
     ("previous_head_commit", schema_git_commit);
     ("previous_dirty", S_boolean);
     ("branch", schema_git_ref_name);
     ("head_commit", schema_git_commit);
     ("dirty", S_boolean)]
    ["workspace_id"; "previous_branch"; "previous_head_commit"; "previous_dirty"; "branch"; "head_commit";
     "dirty"]
    [].
Definition schema_job_enqueued_payload : Schema :=
  S_object
    [("job_id", schema_identifier);
     ("kind", schema_job_kind);
     ("run_after", schema_timestamp)]
    ["job_id"; "kind"; "run_after"]
    [].
Definition schema_job_succeeded_payload : Schema :=
  S_object
    [("job_id", schema_identifier);
     ("kind", schema_job_kind);
     ("attempts", (S_integer 1 1000));
     ("duration_ms", (S_integer 0 86400000))]
    ["job_id"; "kind"; "attempts"; "duration_ms"]
    [].
Definition schema_job_failed_payload : Schema :=
  S_object
    [("job_id", schema_identifier);
     ("kind", schema_job_kind);
     ("attempts", (S_integer 1 1000));
     ("reason", schema_job_failure_reason);
     ("retrying", S_boolean);
     ("next_attempt_at", schema_timestamp)]
    ["job_id"; "kind"; "attempts"; "reason"; "retrying"]
    [].
Definition schema_sha256_digest : Schema :=
  S_string 64 64 (Some expression_16).
Definition schema_archive_member_path : Schema :=
  S_string 1 256 (Some expression_17).
Definition schema_backup_mode : Schema :=
  S_values ["full"; "database"].
Definition schema_backup_artefact_driver : Schema :=
  S_values ["filesystem"; "s3"].
Definition schema_backup_product : Schema :=
  S_object
    [("version", (S_string 1 128 (Some expression_3)));
     ("revision", (S_string 1 128 (Some expression_3)));
     ("built_at", (S_string 1 64 (Some expression_3)))]
    ["version"; "revision"; "built_at"]
    [].
Definition schema_backup_source : Schema :=
  S_object
    [("hostname", (S_string 1 253 (Some expression_24)));
     ("artefact_driver", schema_backup_artefact_driver)]
    ["artefact_driver"]
    [].
Definition schema_backup_table : Schema :=
  S_object
    [("name", (S_string 1 63 (Some expression_25)));
     ("rows", (S_integer 0 1000000000000))]
    ["name"; "rows"]
    [].
Definition schema_backup_entry : Schema :=
  S_object
    [("path", schema_archive_member_path);
     ("bytes", (S_integer 0 1099511627776));
     ("sha256", schema_sha256_digest)]
    ["path"; "bytes"; "sha256"]
    [].
Definition schema_backup_key_material : Schema :=
  S_object
    [("included", S_boolean);
     ("excluded_tables", (S_array 0 64 true (S_string 1 63 (Some expression_25))))]
    ["included"; "excluded_tables"]
    [].
Definition schema_backup_manifest : Schema :=
  S_object
    [("manifest_version", (S_integer 1 1));
     ("created_at", schema_timestamp);
     ("mode", schema_backup_mode);
     ("product", schema_backup_product);
     ("schema_version", (S_string 5 128 (Some expression_26)));
     ("source", schema_backup_source);
     ("tables", (S_array 0 512 false schema_backup_table));
     ("artefact_objects", (S_integer 0 1000000000));
     ("artefact_bytes", (S_integer 0 1099511627776));
     ("artefacts_missing", (S_array 0 1024 true schema_archive_member_path));
     ("key_material", schema_backup_key_material);
     ("key_references", (S_array 0 256 true (S_string 1 256 (Some expression_27))));
     ("configuration_included", S_boolean);
     ("checksum_algorithm", (S_values ["sha256"]));
     ("entries", (S_array 0 1000000 false schema_backup_entry))]
    ["manifest_version"; "created_at"; "mode"; "product"; "schema_version"; "source"; "tables";
     "artefact_objects"; "artefact_bytes"; "key_material"; "key_references"; "checksum_algorithm";
     "entries"]
    [].
Definition schema_migration_downgrade : Schema :=
  S_values ["supported"; "not_supported"].
Definition schema_migration_record : Schema :=
  S_object
    [("filename", (S_string 5 128 (Some expression_26)));
     ("downgrade", schema_migration_downgrade);
     ("note", (S_string 1 512 (Some expression_3)))]
    ["filename"; "downgrade"]
    [].
Definition schema_migration_state : Schema :=
  S_object
    [("schema_version", (S_string 5 128 (Some expression_26)));
     ("applied", (S_array 0 4096 false schema_migration_record));
     ("pending", (S_array 0 4096 false schema_migration_record))]
    ["applied"; "pending"]
    [].
Definition schema_compatibility_status : Schema :=
  S_values ["pass"; "warn"; "fail"].
Definition schema_compatibility_check_name : Schema :=
  S_values ["source_version"; "backup_freshness"; "disk_space"; "connector_compatibility"; "worker_compatibility";
    "migration_lock"].
Definition schema_compatibility_check : Schema :=
  S_object
    [("name", schema_compatibility_check_name);
     ("status", schema_compatibility_status);
     ("detail", (S_string 1 512 (Some expression_3)))]
    ["name"; "status"; "detail"]
    [].
Definition schema_compatibility_report : Schema :=
  S_object
    [("ok", S_boolean);
     ("checked_at", schema_timestamp);
     ("checks", (S_array 1 32 false schema_compatibility_check))]
    ["ok"; "checked_at"; "checks"]
    [].
Definition schema_stream_subscribe : Schema :=
  S_object
    [("type", (S_values ["stream.subscribe"]));
     ("last_sequence", (S_integer 0 9007199254740991));
     ("max_replay", (S_integer 1 10000))]
    ["type"; "last_sequence"]
    [].
Definition schema_stream_subscribed : Schema :=
  S_object
    [("type", (S_values ["stream.subscribed"]));
     ("project_id", schema_identifier);
     ("current_sequence", (S_integer 0 9007199254740991));
     ("earliest_available_sequence", (S_integer 0 9007199254740991));
     ("replaying", S_boolean)]
    ["type"; "project_id"; "current_sequence"; "earliest_available_sequence"; "replaying"]
    [].
Definition schema_stream_refresh_required : Schema :=
  S_object
    [("type", (S_values ["stream.refresh_required"]));
     ("reason", (S_values ["replay_window_exceeded"; "sequence_ahead_of_stream"; "replay_limit_exceeded"]));
     ("current_sequence", (S_integer 0 9007199254740991));
     ("earliest_available_sequence", (S_integer 0 9007199254740991))]
    ["type"; "reason"; "current_sequence"; "earliest_available_sequence"]
    [].
Definition schema_stream_heartbeat : Schema :=
  S_object
    [("type", (S_values ["stream.heartbeat"]));
     ("current_sequence", (S_integer 0 9007199254740991));
     ("sent_at", schema_timestamp)]
    ["type"; "current_sequence"; "sent_at"]
    [].
Definition schema_stream_error : Schema :=
  S_object
    [("type", (S_values ["stream.error"]));
     ("code", schema_error_class);
     ("message", (S_string 1 1024 (Some expression_28)));
     ("retryable", S_boolean)]
    ["type"; "code"; "message"; "retryable"]
    [].
Definition schema_api_error_details : Schema :=
  S_object
    [("current_version", (S_integer 0 9007199254740991));
     ("expected_version", (S_integer 0 9007199254740991));
     ("current_epoch", (S_integer 0 9007199254740991));
     ("candidates", (S_array 1 50 true schema_identifier));
     ("allowed_transitions", (S_array 0 50 true (S_string 1 64 (Some expression_29))));
     ("required_evidence", (S_array 1 50 true (S_string 1 64 (Some expression_23))));
     ("missing_context", (S_array 1 50 true (S_string 1 64 (Some expression_30))));
     ("retry_after_ms", (S_integer 0 86400000));
     ("field", (S_string 1 128 (Some expression_31)));
     ("reason", (S_string 1 64 (Some expression_23)))]
    []
    [].
Definition schema_api_error : Schema :=
  S_object
    [("code", schema_error_class);
     ("message", (S_string 1 1024 (Some expression_28)));
     ("details", schema_api_error_details)]
    ["code"; "message"]
    [].
Definition schema_api_meta : Schema :=
  S_object
    [("request_id", schema_identifier);
     ("next_cursor", schema_cursor)]
    ["request_id"]
    [].
Definition schema_api_error_response : Schema :=
  S_object
    [("error", schema_api_error);
     ("meta", schema_api_meta)]
    ["error"; "meta"]
    [].
Definition schema_cursor_claims : Schema :=
  S_object
    [("version", (S_integer 1 1));
     ("sort_key", (S_string 1 128 (Some expression_28)));
     ("id", schema_identifier)]
    ["version"; "sort_key"; "id"]
    [].
Definition schema_published_service_status : Schema :=
  S_values ["requested"; "ready"; "failed"; "expired"; "revoked"].
Definition schema_published_service_scope : Schema :=
  S_values ["browser_session"].
Definition schema_published_service_failure_class : Schema :=
  S_values ["CONNECTOR_OFFLINE"; "CONTROL_PLANE_UNAVAILABLE"; "DESTINATION_NOT_ALLOWED"; "IDENTITY_REVOKED";
    "INTERNAL_ERROR"; "PORT_NOT_LISTENING"; "PROJECT_NOT_AUTHORISED"; "PROTOCOL_UNSUPPORTED";
    "PUBLISHED_SERVICE_UNAVAILABLE"; "ROUTE_EXPIRED"; "ROUTE_LIMIT_EXCEEDED"; "WORKSPACE_NOT_FOUND"].
Definition schema_destination_protocol : Schema :=
  S_values ["http"; "https"].
Definition schema_public_alias : Schema :=
  S_string 1 63 (Some expression_18).
Definition schema_internal_origin : Schema :=
  S_string 1 256 (Some expression_19).
Definition schema_local_host : Schema :=
  S_string 1 45 (Some expression_20).
Definition schema_local_port : Schema :=
  S_integer 1 65535.
Definition schema_observed_destination : Schema :=
  S_string 3 64 (Some expression_21).
Definition schema_published_service : Schema :=
  S_object
    [("id", schema_identifier);
     ("organisation_id", schema_identifier);
     ("project_id", schema_identifier);
     ("connector_id", schema_identifier);
     ("workspace_id", schema_identifier);
     ("public_alias", schema_public_alias);
     ("internal_origin", schema_internal_origin);
     ("local_host", schema_local_host);
     ("local_port", schema_local_port);
     ("protocol", schema_destination_protocol);
     ("scope", schema_published_service_scope);
     ("allowed_browser_session_ids", (S_array 1 32 true schema_identifier));
     ("expires_at", schema_timestamp);
     ("status", schema_published_service_status);
     ("failure_class", schema_published_service_failure_class);
     ("observed_destination", schema_observed_destination);
     ("requested_at", schema_timestamp);
     ("ready_at", schema_timestamp);
     ("ended_at", schema_timestamp)]
    ["id"; "organisation_id"; "project_id"; "connector_id"; "workspace_id"; "public_alias"; "internal_origin";
     "local_host"; "local_port"; "protocol"; "scope"; "allowed_browser_session_ids"; "expires_at";
     "status"; "requested_at"]
    [].
Definition schema_published_service_requested_payload : Schema :=
  S_object
    [("published_service_id", schema_identifier);
     ("connector_id", schema_identifier);
     ("workspace_id", schema_identifier);
     ("local_host", schema_local_host);
     ("local_port", schema_local_port);
     ("protocol", schema_destination_protocol);
     ("public_alias", schema_public_alias);
     ("expires_at", schema_timestamp);
     ("allowed_browser_session_ids", (S_array 1 32 true schema_identifier));
     ("new_status", schema_published_service_status)]
    ["published_service_id"; "connector_id"; "workspace_id"; "local_host"; "local_port"; "protocol";
     "public_alias"; "expires_at"; "allowed_browser_session_ids"; "new_status"]
    [].
Definition schema_published_service_ready_payload : Schema :=
  S_object
    [("published_service_id", schema_identifier);
     ("previous_status", schema_published_service_status);
     ("new_status", schema_published_service_status);
     ("observed_destination", schema_observed_destination);
     ("internal_origin", schema_internal_origin);
     ("connector_connected", S_boolean);
     ("capability_id", schema_identifier);
     ("browser_session_id", schema_identifier);
     ("key_id", (S_string 1 64 (Some expression_32)));
     ("expires_at", schema_timestamp)]
    ["published_service_id"]
    [].
Definition schema_published_service_failed_payload : Schema :=
  S_object
    [("published_service_id", schema_identifier);
     ("previous_status", schema_published_service_status);
     ("new_status", schema_published_service_status);
     ("error_class", schema_published_service_failure_class)]
    ["published_service_id"; "previous_status"; "new_status"; "error_class"]
    [].
Definition schema_published_service_expired_payload : Schema :=
  S_object
    [("published_service_id", schema_identifier);
     ("previous_status", schema_published_service_status);
     ("new_status", schema_published_service_status);
     ("expires_at", schema_timestamp)]
    ["published_service_id"; "previous_status"; "new_status"; "expires_at"]
    [].
Definition schema_published_service_revoked_payload : Schema :=
  S_object
    [("published_service_id", schema_identifier);
     ("previous_status", schema_published_service_status);
     ("new_status", schema_published_service_status);
     ("revoked_capability_ids", (S_array 0 64 true schema_identifier))]
    ["published_service_id"; "previous_status"; "new_status"]
    [].
