(* ===== verification/PlatformValidate.v ===== *)
(** * The validators of the platform protocol
    ([src/packages/protocol/src/generated/platform/v1/validate.ts])

    The generated functions as they stand, each after those it calls, and the table
    of those that the schema's definitions have; each finds the violations of its
    definition, in the same order. *)

From S2P Require Import Prelude ReviewDomain StableJson Validation Schema Patterns PlatformSchema.
#[local] Open Scope Z_scope.

Definition PATTERN_0 : string → bool := whole expression_0.
Definition PATTERN_1 : string → bool := whole expression_1.
Definition PATTERN_2 : string → bool := whole expression_2.
Definition PATTERN_3 : string → bool := whole expression_3.
Definition PATTERN_4 : string → bool := whole expression_4.
Definition PATTERN_5 : string → bool := whole expression_5.
Definition PATTERN_6 : string → bool := whole expression_6.
Definition PATTERN_7 : string → bool := whole expression_7.
Definition PATTERN_8 : string → bool := whole expression_8.
Definition PATTERN_9 : string → bool := whole expression_9.
Definition PATTERN_10 : string → bool := whole expression_10.
Definition PATTERN_11 : string → bool := whole expression_11.
Definition PATTERN_12 : string → bool := whole expression_12.
Definition PATTERN_13 : string → bool := whole expression_13.
Definition PATTERN_14 : string → bool := whole expression_14.
Definition PATTERN_15 : string → bool := whole expression_15.
Definition PATTERN_16 : string → bool := whole expression_16.
Definition PATTERN_17 : string → bool := whole expression_17.
Definition PATTERN_18 : string → bool := whole expression_18.
Definition PATTERN_19 : string → bool := whole expression_19.
Definition PATTERN_20 : string → bool := whole expression_20.
Definition PATTERN_21 : string → bool := whole expression_21.
Definition PATTERN_22 : string → bool := whole expression_22.
Definition PATTERN_23 : string → bool := whole expression_23.
Definition PATTERN_24 : string → bool := whole expression_24.
Definition PATTERN_25 : string → bool := whole expression_25.
Definition PATTERN_26 : string → bool := whole expression_26.
Definition PATTERN_27 : string → bool := whole expression_27.
Definition PATTERN_28 : string → bool := whole expression_28.
Definition PATTERN_29 : string → bool := whole expression_29.
Definition PATTERN_30 : string → bool := whole expression_30.
Definition PATTERN_31 : string → bool := whole expression_31.
Definition PATTERN_32 : string → bool := whole expression_32.

Definition validateIdentifier : json → string → list SchemaViolation :=
  checkString (of_lengths 1 64 (Some PATTERN_0)).
Definition validateTimestamp : json → string → list SchemaViolation :=
  checkString (of_lengths 20 30 (Some PATTERN_1)).
Definition validateSequenceNumber : json → string → list SchemaViolation := checkInteger 1 9007199254740991.
Definition validateCursor : json → string → list SchemaViolation :=
  checkString (of_lengths 1 512 (Some PATTERN_0)).
Definition validateMessageType : json → string → list SchemaViolation := checkString (of_values
     ["organisation.created"; "project.created"; "project.updated"; "project.repository_changed";
     "project.archived"; "user.invited"; "user.credentials_set"; "authentication.login_succeeded";
     "authentication.login_failed"; "session.revoked"; "connector.enrolled"; "connector.connected";
     "connector.degraded"; "connector.disconnected"; "connector.revoked"; "workspace.observed";
     "workspace.head_changed"; "job.enqueued"; "job.succeeded"; "job.failed"; "published_service.requested";
     "published_service.ready"; "published_service.failed"; "published_service.expired";
     "published_service.revoked"]).
Definition validateErrorClass : json → string → list SchemaViolation := checkString (of_values
     ["AUTHENTICATION_REQUIRED"; "AUTHORISATION_DENIED"; "PROJECT_CONTEXT_AMBIGUOUS"; "PROJECT_CONTEXT_MISMATCH";
     "RESOURCE_NOT_FOUND"; "RESOURCE_STALE"; "VERSION_CONFLICT"; "IDEMPOTENCY_CONFLICT";
     "VALIDATION_FAILED"; "CONNECTOR_OFFLINE"; "PUBLISHED_SERVICE_UNAVAILABLE"; "BROWSER_CAPACITY_EXHAUSTED";
     "BROWSER_SESSION_NOT_ACTIVE"; "BROWSER_COMMAND_TIMEOUT"; "CONTROL_NOT_OWNED"; "CONTROL_EPOCH_STALE";
     "POLICY_DENIED"; "APPROVAL_REQUIRED"; "EVIDENCE_REQUIRED"; "ARTEFACT_UPLOAD_INCOMPLETE";
     "ARTEFACT_STORE_UNAVAILABLE"; "UNSUPPORTED_CAPABILITY"; "RATE_LIMITED"; "INTERNAL_ERROR"]).
Definition validateActorType : json → string → list SchemaViolation := checkString (of_values
     ["human_user"; "agent_session"; "connector"; "browser_worker"; "system"; "integration"]).
Definition validateJobKind : json → string → list SchemaViolation := checkString (of_values
     ["event_outbox_dispatch"; "idempotency_key_expiry"; "published_service_expiry"; "artefact_thumbnail";
     "review_export"]).
Definition validateJobFailureReason : json → string → list SchemaViolation := checkString
     (of_values ["handler_error"; "attempt_timeout"; "attempts_exhausted"; "handler_unknown"]).
Definition validateProjectStatus : json → string → list SchemaViolation := checkString (of_values
     ["active"; "archived"]).
Definition validateOrganisationStatus : json → string → list SchemaViolation := checkString
     (of_values ["active"; "suspended"]).
Definition validateUserStatus : json → string → list SchemaViolation := checkString (of_values
     ["active"; "suspended"]).
Definition validateSlug : json → string → list SchemaViolation :=
  checkString (of_lengths 1 63 (Some PATTERN_2)).
Definition validateDisplayName : json → string → list SchemaViolation :=
  checkString (of_lengths 1 200 (Some PATTERN_3)).
Definition validateEmailAddress : json → string → list SchemaViolation :=
  checkString (of_lengths 3 254 (Some PATTERN_4)).
Definition validateGitRefName : json → string → list SchemaViolation :=
  checkString (of_lengths 1 255 (Some PATTERN_5)).
Definition validateRepositoryCanonical : json → string → list SchemaViolation :=
  checkString (of_lengths 3 255 (Some PATTERN_6)).
Definition validateEnvironmentStatus : json → string → list SchemaViolation := checkString
     (of_values ["ACTIVE"]).
Definition validateEnvironmentTrustLevel : json → string → list SchemaViolation := checkString
     (of_values ["standard"]).
Definition validateEnvironmentLabel : json → string → list SchemaViolation :=
  checkString (of_lengths 1 64 (Some PATTERN_7)).
Definition validatePlatformName : json → string → list SchemaViolation :=
  checkString (of_lengths 1 32 (Some PATTERN_8)).
Definition validateArchitectureName : json → string → list SchemaViolation :=
  checkString (of_lengths 1 32 (Some PATTERN_9)).
Definition validateConnectorStatus : json → string → list SchemaViolation := checkString
     (of_values ["PENDING_ENROLMENT"; "ACTIVE"; "DEGRADED"; "DISCONNECTED"; "REVOKED"]).
Definition validateConnectorCapability : json → string → list SchemaViolation :=
  checkString (of_lengths 1 64 (Some PATTERN_10)).
Definition validateConnectorVersion : json → string → list SchemaViolation :=
  checkString (of_lengths 1 32 (Some PATTERN_11)).
Definition validateCertificateFingerprint : json → string → list SchemaViolation :=
  checkString (of_lengths 8 128 (Some PATTERN_12)).
Definition validateConnectorConnectedTrigger : json → string → list SchemaViolation := checkString
     (of_values ["channel_opened"; "heartbeat"]).
Definition validateConnectorDegradedTrigger : json → string → list SchemaViolation := checkString
     (of_values ["heartbeat_delay"]).
Definition validateConnectorDisconnectedTrigger : json → string → list SchemaViolation :=
     checkString (of_values ["channel_closed"; "heartbeat_timeout"]).
Definition validateSilenceSeconds : json → string → list SchemaViolation := checkInteger 0 86400.
Definition validatePathHash : json → string → list SchemaViolation :=
  checkString (of_lengths 71 71 (Some PATTERN_13)).
Definition validateWorkspaceDisplayLabel : json → string → list SchemaViolation :=
  checkString (of_lengths 1 128 (Some PATTERN_14)).
Definition validateGitCommit : json → string → list SchemaViolation :=
  checkString (of_lengths 7 64 (Some PATTERN_15)).
Definition validateWorkspaceObservationSource : json → string → list SchemaViolation := checkString
     (of_values ["connector_report"; "administrative_registration"]).
Definition validateAgentSessionStatus : json → string → list SchemaViolation := checkString
     (of_values ["STARTING"; "ACTIVE"; "WAITING"; "BLOCKED"; "DISCONNECTED"; "COMPLETED";
     "FAILED"; "CANCELLED"]).
Definition validateAgentCapability : json → string → list SchemaViolation := checkString
     (of_values ["project:read"; "review:read"; "review:write"; "finding:read"; "finding:write";
     "verification:submit"; "browser:capture"; "browser:control"]).
Definition validateLoginMethod : json → string → list SchemaViolation := checkString (of_values
     ["password"; "bootstrap_token"; "install_token"]).
Definition validateLoginFailureReason : json → string → list SchemaViolation := checkString
     (of_values ["unknown_user"; "invalid_password"; "password_not_set"; "user_suspended";
     "rate_limited"; "install_token_invalid"; "install_token_expired"; "install_token_consumed"]).
Definition validateSessionRevocationReason : json → string → list SchemaViolation := checkString
     (of_values ["sign_out"; "rotated"; "revoked_by_user"; "revoked_by_administrator"]).
Definition validateSha256Digest : json → string → list SchemaViolation :=
  checkString (of_lengths 64 64 (Some PATTERN_16)).
Definition validateArchiveMemberPath : json → string → list SchemaViolation :=
  checkString (of_lengths 1 256 (Some PATTERN_17)).
Definition validateBackupMode : json → string → list SchemaViolation := checkString (of_values
     ["full"; "database"]).
Definition validateBackupArtefactDriver : json → string → list SchemaViolation := checkString
     (of_values ["filesystem"; "s3"]).
Definition validateMigrationDowngrade : json → string → list SchemaViolation := checkString
     (of_values ["supported"; "not_supported"]).
Definition validateCompatibilityStatus : json → string → list SchemaViolation := checkString
     (of_values ["pass"; "warn"; "fail"]).
Definition validateCompatibilityCheckName : json → string → list SchemaViolation := checkString
     (of_values ["source_version"; "backup_freshness"; "disk_space"; "connector_compatibility";
     "worker_compatibility"; "migration_lock"]).
Definition validatePublishedServiceStatus : json → string → list SchemaViolation := checkString
     (of_values ["requested"; "ready"; "failed"; "expired"; "revoked"]).
Definition validatePublishedServiceScope : json → string → list SchemaViolation := checkString
     (of_values ["browser_session"]).
Definition validatePublishedServiceFailureClass : json → string → list SchemaViolation :=
     checkString (of_values ["CONNECTOR_OFFLINE"; "CONTROL_PLANE_UNAVAILABLE"; "DESTINATION_NOT_ALLOWED";
     "IDENTITY_REVOKED"; "INTERNAL_ERROR"; "PORT_NOT_LISTENING"; "PROJECT_NOT_AUTHORISED";
     "PROTOCOL_UNSUPPORTED"; "PUBLISHED_SERVICE_UNAVAILABLE"; "ROUTE_EXPIRED"; "ROUTE_LIMIT_EXCEEDED";
     "WORKSPACE_NOT_FOUND"]).
Definition validateDestinationProtocol : json → string → list SchemaViolation := checkString
     (of_values ["http"; "https"]).
Definition validatePublicAlias : json → string → list SchemaViolation :=
  checkString (of_lengths 1 63 (Some PATTERN_18)).
Definition validateInternalOrigin : json → string → list SchemaViolation :=
  checkString (of_lengths 1 256 (Some PATTERN_19)).
Definition validateLocalHost : json → string → list SchemaViolation :=
  checkString (of_lengths 1 45 (Some PATTERN_20)).
Definition validateLocalPort : json → string → list SchemaViolation := checkInteger 1 65535.
Definition validateObservedDestination : json → string → list SchemaViolation :=
  checkString (of_lengths 3 64 (Some PATTERN_21)).
Definition validateRepositoryIdentityCanonical : json → string → list SchemaViolation :=
  checkString (of_lengths 3 255 (Some PATTERN_6)).
Definition validateRepositoryIdentityCloneUrlsItem : json → string → list SchemaViolation :=
  checkString (of_lengths 3 512 (Some PATTERN_22)).
Definition validateRepositoryIdentityCloneUrls (value : json) (path : string) : list SchemaViolation :=
  let '(found, items) := checkArray 0 8 true value path in
  match items with None => found | Some items => on_items validateRepositoryIdentityCloneUrlsItem items path end.
Definition validateRepositoryIdentity (value : json) (path : string) : list SchemaViolation :=
  let '(found, source) := checkObject
    ["canonical"; "clone_urls"]
    ["canonical"] value path in
  match source with
  | None => found
  | Some source => found ++ concat [
      on_member validateRepositoryIdentityCanonical "canonical" source path;
      on_member validateRepositoryIdentityCloneUrls "clone_urls" source path]
  end.
Definition validateOrganisation (value : json) (path : string) : list SchemaViolation :=
  let '(found, source) := checkObject
    ["id"; "name"; "slug"; "status"; "created_at"; "updated_at"]
    ["id"; "name"; "slug"; "status"; "created_at"; "updated_at"] value path in
  match source with
  | None => found
  | Some source => found ++ concat [
      on_member validateIdentifier "id" source path;
      on_member validateDisplayName "name" source path;
      on_member validateSlug "slug" source path;
      on_member validateOrganisationStatus "status" source path;
      on_member validateTimestamp "created_at" source path;
      on_member validateTimestamp "updated_at" source path]
  end.
Definition validateUserLocalCredentialSet : json → string → list SchemaViolation := checkBoolean.
Definition validateUser (value : json) (path : string) : list SchemaViolation :=
  let '(found, source) := checkObject
    ["id"; "organisation_id"; "email"; "display_name"; "status"; "local_credential_set"; "created_at";
      "updated_at"]
    ["id"; "organisation_id"; "email"; "display_name"; "status"; "created_at"; "updated_at"] value path in
  match source with
  | None => found
  | Some source => found ++ concat [
      on_member validateIdentifier "id" source path;
      on_member validateIdentifier "organisation_id" source path;
      on_member validateEmailAddress "email" source path;
      on_member validateDisplayName "display_name" source path;
      on_member validateUserStatus "status" source path;
      on_member validateUserLocalCredentialSet "local_credential_set" source path;
      on_member validateTimestamp "created_at" source path;
      on_member validateTimestamp "updated_at" source path]
  end.
Definition validateProjectVersion : json → string → list SchemaViolation := checkInteger 1 9007199254740991.
Definition validateProject (value : json) (path : string) : list SchemaViolation :=
  let '(found, source) := checkObject
    ["id"; "organisation_id"; "name"; "slug"; "repository_identity"; "default_branch"; "status";
      "settings"; "version"; "created_at"; "updated_at"]
    ["id"; "organisation_id"; "name"; "slug"; "default_branch"; "status"; "settings"; "version";
      "created_at"; "updated_at"] value path in
  match source with
  | None => found
  | Some source => found ++ concat [
      on_member validateIdentifier "id" source path;
      on_member validateIdentifier "organisation_id" source path;
      on_member validateDisplayName "name" source path;
      on_member validateSlug "slug" source path;
      on_member validateRepositoryIdentity "repository_identity" source path;
      on_member validateGitRefName "default_branch" source path;
      on_member validateProjectStatus "status" source path;
      on_member validateProjectSettings "settings" source path;
      on_member validateProjectVersion "version" source path;
      on_member validateTimestamp "created_at" source path;
      on_member validateTimestamp "updated_at" source path]
  end.
Definition validateHumanSessionProjectIds (value : json) (path : string) : list SchemaViolation :=
  let '(found, items) := checkArray 0 200 true value path in
  match items with None => found | Some items => on_items validateIdentifier items path end.
Definition validateHumanSession (value : json) (path : string) : list SchemaViolation :=
  let '(found, source) := checkObject
    ["session_id"; "user_id"; "organisation_id"; "email"; "display"; "project_ids"; "expires_at"]
    ["session_id"; "display"; "expires_at"] value path in
  match source with
  | None => found
  | Some source => found ++ concat [
      on_member validateIdentifier "session_id" source path;
      on_member validateIdentifier "user_id" source path;
      on_member validateIdentifier "organisation_id" source path;
      on_member validateEmailAddress "email" source path;
      on_member validateDisplayName "display" source path;
      on_member validateHumanSessionProjectIds "project_ids" source path;
      on_member validateTimestamp "expires_at" source path]
  end.
Definition validateAgentSessionCapabilities (value : json) (path : string) : list SchemaViolation :=
  let '(found, items) := checkArray 1 16 true value path in
  match items with None => found | Some items => on_items validateAgentCapability items path end.
Definition validateAgentSession (value : json) (path : string) : list SchemaViolation :=
  let '(found, source) := checkObject
    ["id"; "organisation_id"; "project_id"; "connector_id"; "workspace_id"; "agent_type"; "agent_version";
      "capabilities"; "branch"; "head_commit"; "status"; "started_at"; "last_seen_at"; "ended_at"]
    ["id"; "project_id"; "agent_type"; "capabilities"; "status"; "started_at"] value path in
  match source with
  | None => found
  | Some source => found ++ concat [
      on_member validateIdentifier "id" source path;
      on_member validateIdentifier "organisation_id" source path;
      on_member validateIdentifier "project_id" source path;
      on_member validateIdentifier "connector_id" source path;
      on_member validateIdentifier "workspace_id" source path;
      on_member validateDisplayName "agent_type" source path;
      on_member validateDisplayName "agent_version" source path;
      on_member validateAgentSessionCapabilities "capabilities" source path;
      on_member validateGitRefName "branch" source path;
      on_member validateGitCommit "head_commit" source path;
      on_member validateAgentSessionStatus "status" source path;
      on_member validateTimestamp "started_at" source path;
      on_member validateTimestamp "last_seen_at" source path;
      on_member validateTimestamp "ended_at" source path]
  end.
Definition validateEnvironmentLabels (value : json) (path : string) : list SchemaViolation :=
  let '(found, items) := checkArray 0 16 true value path in
  match items with None => found | Some items => on_items validateEnvironmentLabel items path end.
Definition validateEnvironment (value : json) (path : string) : list SchemaViolation :=
  let '(found, source) := checkObject
    ["id"; "organisation_id"; "project_id"; "name"; "platform"; "architecture"; "labels"; "trust_level";
      "status"; "last_seen_at"; "created_at"]
    ["id"; "organisation_id"; "name"; "platform"; "architecture"; "labels"; "trust_level"; "status";
      "created_at"] value path in
  match source with
  | None => found
  | Some source => found ++ concat [
      on_member validateIdentifier "id" source path;
      on_member validateIdentifier "organisation_id" source path;
      on_member validateIdentifier "project_id" source path;
      on_member validateDisplayName "name" source path;
      on_member validatePlatformName "platform" source path;
      on_member validateArchitectureName "architecture" source path;
      on_member validateEnvironmentLabels "labels" source path;
      on_member validateEnvironmentTrustLevel "trust_level" source path;
      on_member validateEnvironmentStatus "status" source path;
      on_member validateTimestamp "last_seen_at" source path;
      on_member validateTimestamp "created_at" source path]
  end.
Definition validateConnectorCapabilities (value : json) (path : string) : list SchemaViolation :=
  let '(found, items) := checkArray 0 32 true value path in
  match items with None => found | Some items => on_items validateConnectorCapability items path end.
Definition validateConnector (value : json) (path : string) : list SchemaViolation :=
  let '(found, source) := checkObject
    ["id"; "organisation_id"; "environment_id"; "project_id"; "certificate_fingerprint"; "certificate_not_after";
      "version"; "capabilities"; "status"; "connected_at"; "last_heartbeat_at"; "revoked_at";
      "created_at"]
    ["id"; "organisation_id"; "environment_id"; "certificate_fingerprint"; "certificate_not_after";
      "version"; "capabilities"; "status"; "created_at"] value path in
  match source with
  | None => found
  | Some source => found ++ concat [
      on_member validateIdentifier "id" source path;
      on_member validateIdentifier "organisation_id" source path;
      on_member validateIdentifier "environment_id" source path;
      on_member validateIdentifier "project_id" source path;
      on_member validateCertificateFingerprint "certificate_fingerprint" source path;
      on_member validateTimestamp "certificate_not_after" source path;
      on_member validateConnectorVersion "version" source path;
      on_member validateConnectorCapabilities "capabilities" source path;
      on_member validateConnectorStatus "status" source path;
      on_member validateTimestamp "connected_at" source path;
      on_member validateTimestamp "last_heartbeat_at" source path;
      on_member validateTimestamp "revoked_at" source path;
      on_member validateTimestamp "created_at" source path]
  end.
Definition validateWorkspaceDirty : json → string → list SchemaViolation := checkBoolean.
Definition validateWorkspace (value : json) (path : string) : list SchemaViolation :=
  let '(found, source) := checkObject
    ["id"; "organisation_id"; "project_id"; "environment_id"; "connector_id"; "path_hash"; "display_path";
      "repository_identity"; "branch"; "head_commit"; "dirty"; "source"; "last_observed_at";
      "created_at"]
    ["id"; "organisation_id"; "project_id"; "path_hash"; "display_path"; "branch"; "head_commit";
      "dirty"; "source"; "created_at"] value path in
  match source with
  | None => found
  | Some source => found ++ concat [
      on_member validateIdentifier "id" source path;
      on_member validateIdentifier "organisation_id" source path;
      on_member validateIdentifier "project_id" source path;
      on_member validateIdentifier "environment_id" source path;
      on_member validateIdentifier "connector_id" source path;
      on_member validatePathHash "path_hash" source path;
      on_member validateWorkspaceDisplayLabel "display_path" source path;
      on_member validateRepositoryCanonical "repository_identity" source path;
      on_member validateGitRefName "branch" source path;
      on_member validateGitCommit "head_commit" source path;
      on_member validateWorkspaceDirty "dirty" source path;
      on_member validateWorkspaceObservationSource "source" source path;
      on_member validateTimestamp "last_observed_at" source path;
      on_member validateTimestamp "created_at" source path]
  end.
Definition validateActorDisplay : json → string → list SchemaViolation :=
  checkString (of_lengths 1 200 (Some PATTERN_3)).
Definition validateActor (value : json) (path : string) : list SchemaViolation :=
  let '(found, source) := checkObject
    ["type"; "id"; "display"]
    ["type"] value path in
  match source with
  | None => found
  | Some source => found ++ concat [
      on_member validateActorType "type" source path;
      on_member validateIdentifier "id" source path;
      on_member validateActorDisplay "display" source path]
  end.
Definition validateCorrelation (value : json) (path : string) : list SchemaViolation :=
  let '(found, source) := checkObject
    ["request_id"; "causation_event_id"; "connector_id"; "environment_id"; "workspace_id"; "published_service_id";
      "agent_session_id"; "browser_session_id"; "worker_id"; "artefact_id"; "review_id";
      "finding_id"; "annotation_id"; "job_id"]
    [] value path in
  match source with
  | None => found
  | Some source => found ++ concat [
      on_member validateIdentifier "request_id" source path;
      on_member validateIdentifier "causation_event_id" source path;
      on_member validateIdentifier "connector_id" source path;
      on_member validateIdentifier "environment_id" source path;
      on_member validateIdentifier "workspace_id" source path;
      on_member validateIdentifier "published_service_id" source path;
      on_member validateIdentifier "agent_session_id" source path;
      on_member validateIdentifier "browser_session_id" source path;
      on_member validateIdentifier "worker_id" source path;
      on_member validateIdentifier "artefact_id" source path;
      on_member validateIdentifier "review_id" source path;
      on_member validateIdentifier "finding_id" source path;
      on_member validateIdentifier "annotation_id" source path;
      on_member validateIdentifier "job_id" source path]
  end.
Definition validateEnvelopeSchemaVersion : json → string → list SchemaViolation := checkInteger 1 1.
Definition validateEnvelopePayload : json → string → list SchemaViolation := checkPlainObject.
Definition validateEnvelope (value : json) (path : string) : list SchemaViolation :=
  let '(found, source) := checkObject
    ["id"; "schema_version"; "sequence"; "type"; "occurred_at"; "recorded_at"; "organisation_id";
      "project_id"; "actor"; "correlation"; "payload"]
    ["id"; "schema_version"; "sequence"; "type"; "occurred_at"; "recorded_at"; "organisation_id";
      "actor"; "payload"] value path in
  match source with
  | None => found
  | Some source => found ++ concat [
      on_member validateIdentifier "id" source path;
      on_member validateEnvelopeSchemaVersion "schema_version" source path;
      on_member validateSequenceNumber "sequence" source path;
      on_member validateMessageType "type" source path;
      on_member validateTimestamp "occurred_at" source path;
      on_member validateTimestamp "recorded_at" source path;
      on_member validateIdentifier "organisation_id" source path;
      on_member validateIdentifier "project_id" source path;
      on_member validateActor "actor" source path;
      on_member validateCorrelation "correlation" source path;
      on_member validateEnvelopePayload "payload" source path]
  end.
Definition validateOrganisationCreatedPayloadSlug : json → string → list SchemaViolation :=
  checkString (of_lengths 1 63 (Some PATTERN_2)).
Definition validateOrganisationCreatedPayloadName : json → string → list SchemaViolation :=
  checkString (of_lengths 1 200 (Some PATTERN_3)).
Definition validateOrganisationCreatedPayload (value : json) (path : string) : list SchemaViolation :=
  let '(found, source) := checkObject
    ["slug"; "name"]
    ["slug"; "name"] value path in
  match source with
  | None => found
  | Some source => found ++ concat [
      on_member validateOrganisationCreatedPayloadSlug "slug" source path;
      on_member validateOrganisationCreatedPayloadName "name" source path]
  end.
Definition validateProjectCreatedPayloadSlug : json → string → list SchemaViolation :=
  checkString (of_lengths 1 63 (Some PATTERN_2)).
Definition validateProjectCreatedPayloadName : json → string → list SchemaViolation :=
  checkString (of_lengths 1 200 (Some PATTERN_3)).
Definition validateProjectCreatedPayloadRepositoryCanonical : json → string → list SchemaViolation :=
  checkString (of_lengths 3 255 (Some PATTERN_6)).
Definition validateProjectCreatedPayload (value : json) (path : string) : list SchemaViolation :=
  let '(found, source) := checkObject
    ["slug"; "name"; "default_branch"; "repository_canonical"]
    ["slug"; "name"] value path in
  match source with
  | None => found
  | Some source => found ++ concat [
      on_member validateProjectCreatedPayloadSlug "slug" source path;
      on_member validateProjectCreatedPayloadName "name" source path;
      on_member validateGitRefName "default_branch" source path;
      on_member validateProjectCreatedPayloadRepositoryCanonical "repository_canonical" source path]
  end.
Definition validateProjectRepositoryChangedPayloadPreviousCanonical : json → string → list SchemaViolation :=
  checkString (of_lengths 3 255 (Some PATTERN_6)).
Definition validateProjectRepositoryChangedPayloadNewCanonical : json → string → list SchemaViolation :=
  checkString (of_lengths 3 255 (Some PATTERN_6)).
Definition validateProjectRepositoryChangedPayload (value : json) (path : string) : list SchemaViolation :=
  let '(found, source) := checkObject
    ["previous_canonical"; "new_canonical"]
    ["new_canonical"] value path in
  match source with
  | None => found
  | Some source => found ++ concat [
      on_member validateProjectRepositoryChangedPayloadPreviousCanonical "previous_canonical" source path;
      on_member validateProjectRepositoryChangedPayloadNewCanonical "new_canonical" source path]
  end.
Definition validateUserInvitedPayload (value : json) (path : string) : list SchemaViolation :=
  let '(found, source) := checkObject
    ["user_id"; "method"; "expires_at"]
    ["user_id"; "method"; "expires_at"] value path in
  match source with
  | None => found
  | Some source => found ++ concat [
      on_member validateIdentifier "user_id" source path;
      on_member validateLoginMethod "method" source path;
      on_member validateTimestamp "expires_at" source path]
  end.
Definition validateUserCredentialsSetPayload (value : json) (path : string) : list SchemaViolation :=
  let '(found, source) := checkObject
    ["user_id"; "method"]
    ["user_id"; "method"] value path in
  match source with
  | None => found
  | Some source => found ++ concat [
      on_member validateIdentifier "user_id" source path;
      on_member validateLoginMethod "method" source path]
  end.
Definition validateAuthenticationLoginSucceededPayload (value : json) (path : string) : list SchemaViolation :=
  let '(found, source) := checkObject
    ["session_id"; "user_id"; "method"]
    ["session_id"; "method"] value path in
  match source with
  | None => found
  | Some source => found ++ concat [
      on_member validateIdentifier "session_id" source path;
      on_member validateIdentifier "user_id" source path;
      on_member validateLoginMethod "method" source path]
  end.
Definition validateAuthenticationLoginFailedPayload (value : json) (path : string) : list SchemaViolation :=
  let '(found, source) := checkObject
    ["reason"; "method"; "user_id"]
    ["reason"; "method"] value path in
  match source with
  | None => found
  | Some source => found ++ concat [
      on_member validateLoginFailureReason "reason" source path;
      on_member validateLoginMethod "method" source path;
      on_member validateIdentifier "user_id" source path]
  end.
Definition validateSessionRevokedPayload (value : json) (path : string) : list SchemaViolation :=
  let '(found, source) := checkObject
    ["session_id"; "user_id"; "reason"]
    ["session_id"; "reason"] value path in
  match source with
  | None => found
  | Some source => found ++ concat [
      on_member validateIdentifier "session_id" source path;
      on_member validateIdentifier "user_id" source path;
      on_member validateSessionRevocationReason "reason" source path]
  end.
Definition validateProjectUpdatedPayloadChangedFieldsItem : json → string → list SchemaViolation :=
  checkString (of_lengths 1 64 (Some PATTERN_23)).
Definition validateProjectUpdatedPayloadChangedFields (value : json) (path : string) : list SchemaViolation :=
  let '(found, items) := checkArray 1 16 true value path in
  match items with None => found | Some items => on_items validateProjectUpdatedPayloadChangedFieldsItem items path end.
Definition validateProjectUpdatedPayload (value : json) (path : string) : list SchemaViolation :=
  let '(found, source) := checkObject
    ["changed_fields"]
    ["changed_fields"] value path in
  match source with
  | None => found
  | Some source => found ++ concat [
      on_member validateProjectUpdatedPayloadChangedFields "changed_fields" source path]
  end.
Definition validateProjectArchivedPayload (value : json) (path : string) : list SchemaViolation :=
  let '(found, source) := checkObject
    ["previous_status"; "new_status"]
    ["previous_status"; "new_status"] value path in
  match source with
  | None => found
  | Some source => found ++ concat [
      on_member validateProjectStatus "previous_status" source path;
      on_member validateProjectStatus "new_status" source path]
  end.
Definition validateConnectorEnrolledPayloadCapabilities (value : json) (path : string) : list SchemaViolation :=
  let '(found, items) := checkArray 0 32 true value path in
  match items with None => found | Some items => on_items validateConnectorCapability items path end.
Definition validateConnectorEnrolledPayload (value : json) (path : string) : list SchemaViolation :=
  let '(found, source) := checkObject
    ["environment_id"; "environment_name"; "platform"; "architecture"; "connector_version"; "capabilities";
      "certificate_fingerprint"; "identity_expires_at"; "enrolment_token_id"; "new_status"]
    ["environment_id"; "environment_name"; "platform"; "architecture"; "connector_version"; "capabilities";
      "certificate_fingerprint"; "identity_expires_at"; "new_status"] value path in
  match source with
  | None => found
  | Some source => found ++ concat [
      on_member validateIdentifier "environment_id" source path;
      on_member validateDisplayName "environment_name" source path;
      on_member validatePlatformName "platform" source path;
      on_member validateArchitectureName "architecture" source path;
      on_member validateConnectorVersion "connector_version" source path;
      on_member validateConnectorEnrolledPayloadCapabilities "capabilities" source path;
      on_member validateCertificateFingerprint "certificate_fingerprint" source path;
      on_member validateTimestamp "identity_expires_at" source path;
      on_member validateIdentifier "enrolment_token_id" source path;
      on_member validateConnectorStatus "new_status" source path]
  end.
Definition validateConnectorConnectedPayload (value : json) (path : string) : list SchemaViolation :=
  let '(found, source) := checkObject
    ["previous_status"; "new_status"; "trigger"]
    ["previous_status"; "new_status"; "trigger"] value path in
  match source with
  | None => found
  | Some source => found ++ concat [
      on_member validateConnectorStatus "previous_status" source path;
      on_member validateConnectorStatus "new_status" source path;
      on_member validateConnectorConnectedTrigger "trigger" source path]
  end.
Definition validateConnectorDegradedPayload (value : json) (path : string) : list SchemaViolation :=
  let '(found, source) := checkObject
    ["previous_status"; "new_status"; "trigger"; "silent_for_seconds_at_least"]
    ["previous_status"; "new_status"; "trigger"; "silent_for_seconds_at_least"] value path in
  match source with
  | None => found
  | Some source => found ++ concat [
      on_member validateConnectorStatus "previous_status" source path;
      on_member validateConnectorStatus "new_status" source path;
      on_member validateConnectorDegradedTrigger "trigger" source path;
      on_member validateSilenceSeconds "silent_for_seconds_at_least" source path]
  end.
Definition validateConnectorDisconnectedPayload (value : json) (path : string) : list SchemaViolation :=
  let '(found, source) := checkObject
    ["previous_status"; "new_status"; "trigger"; "silent_for_seconds_at_least"]
    ["previous_status"; "new_status"; "trigger"] value path in
  match source with
  | None => found
  | Some source => found ++ concat [
      on_member validateConnectorStatus "previous_status" source path;
      on_member validateConnectorStatus "new_status" source path;
      on_member validateConnectorDisconnectedTrigger "trigger" source path;
      on_member validateSilenceSeconds "silent_for_seconds_at_least" source path]
  end.
Definition validateConnectorRevokedPayloadRoutesRevoked : json → string → list SchemaViolation := checkInteger 0 1024.
Definition validateConnectorRevokedPayloadSessionsDisconnected : json → string → list SchemaViolation := checkInteger 0 1024.
Definition validateConnectorRevokedPayloadChannelsClosed : json → string → list SchemaViolation := checkInteger 0 1024.
Definition validateConnectorRevokedPayloadAgentCredentialsRevoked : json → string → list SchemaViolation := checkInteger 0 1024.
Definition validateConnectorRevokedPayload (value : json) (path : string) : list SchemaViolation :=
  let '(found, source) := checkObject
    ["previous_status"; "new_status"; "routes_revoked"; "sessions_disconnected"; "channels_closed";
      "agent_credentials_revoked"]
    ["previous_status"; "new_status"; "routes_revoked"; "sessions_disconnected"] value path in
  match source with
  | None => found
  | Some source => found ++ concat [
      on_member validateConnectorStatus "previous_status" source path;
      on_member validateConnectorStatus "new_status" source path;
      on_member validateConnectorRevokedPayloadRoutesRevoked "routes_revoked" source path;
      on_member validateConnectorRevokedPayloadSessionsDisconnected "sessions_disconnected" source path;
      on_member validateConnectorRevokedPayloadChannelsClosed "channels_closed" source path;
      on_member validateConnectorRevokedPayloadAgentCredentialsRevoked "agent_credentials_revoked" source path]
  end.
Definition validateWorkspaceObservedPayloadDirty : json → string → list SchemaViolation := checkBoolean.
Definition validateWorkspaceObservedPayload (value : json) (path : string) : list SchemaViolation :=
  let '(found, source) := checkObject
    ["workspace_id"; "environment_id"; "path_hash"; "display_path"; "repository_identity"; "branch";
      "head_commit"; "dirty"; "source"]
    ["workspace_id"; "path_hash"; "display_path"; "branch"; "head_commit"; "dirty"; "source"] value path in
  match source with
  | None => found
  | Some source => found ++ concat [
      on_member validateIdentifier "workspace_id" source path;
      on_member validateIdentifier "environment_id" source path;
      on_member validatePathHash "path_hash" source path;
      on_member validateWorkspaceDisplayLabel "display_path" source path;
      on_member validateRepositoryCanonical "repository_identity" source path;
      on_member validateGitRefName "branch" source path;
      on_member validateGitCommit "head_commit" source path;
      on_member validateWorkspaceObservedPayloadDirty "dirty" source path;
      on_member validateWorkspaceObservationSource "source" source path]
  end.
Definition validateWorkspaceHeadChangedPayloadPreviousDirty : json → string → list SchemaViolation := checkBoolean.
Definition validateWorkspaceHeadChangedPayloadDirty : json → string → list SchemaViolation := checkBoolean.
Definition validateWorkspaceHeadChangedPayload (value : json) (path : string) : list SchemaViolation :=
  let '(found, source) := checkObject
    ["workspace_id"; "environment_id"; "previous_branch"; "previous_head_commit"; "previous_dirty";
      "branch"; "head_commit"; "dirty"]
    ["workspace_id"; "previous_branch"; "previous_head_commit"; "previous_dirty"; "branch"; "head_commit";
      "dirty"] value path in
  match source with
  | None => found
  | Some source => found ++ concat [
      on_member validateIdentifier "workspace_id" source path;
      on_member validateIdentifier "environment_id" source path;
      on_member validateGitRefName "previous_branch" source path;
      on_member validateGitCommit "previous_head_commit" source path;
      on_member validateWorkspaceHeadChangedPayloadPreviousDirty "previous_dirty" source path;
      on_member validateGitRefName "branch" source path;
      on_member validateGitCommit "head_commit" source path;
      on_member validateWorkspaceHeadChangedPayloadDirty "dirty" source path]
  end.
Definition validateJobEnqueuedPayload (value : json) (path : string) : list SchemaViolation :=
  let '(found, source) := checkObject
    ["job_id"; "kind"; "run_after"]
    ["job_id"; "kind"; "run_after"] value path in
  match source with
  | None => found
  | Some source => found ++ concat [
      on_member validateIdentifier "job_id" source path;
      on_member validateJobKind "kind" source path;
      on_member validateTimestamp "run_after" source path]
  end.
Definition validateJobSucceededPayloadAttempts : json → string → list SchemaViolation := checkInteger 1 1000.
Definition validateJobSucceededPayloadDurationMs : json → string → list SchemaViolation := checkInteger 0 86400000.
Definition validateJobSucceededPayload (value : json) (path : string) : list SchemaViolation :=
  let '(found, source) := checkObject
    ["job_id"; "kind"; "attempts"; "duration_ms"]
    ["job_id"; "kind"; "attempts"; "duration_ms"] value path in
  match source with
  | None => found
  | Some source => found ++ concat [
      on_member validateIdentifier "job_id" source path;
      on_member validateJobKind "kind" source path;
      on_member validateJobSucceededPayloadAttempts "attempts" source path;
      on_member validateJobSucceededPayloadDurationMs "duration_ms" source path]
  end.
Definition validateJobFailedPayloadAttempts : json → string → list SchemaViolation := checkInteger 1 1000.
Definition validateJobFailedPayloadRetrying : json → string → list SchemaViolation := checkBoolean.
Definition validateJobFailedPayload (value : json) (path : string) : list SchemaViolation :=
  let '(found, source) := checkObject
    ["job_id"; "kind"; "attempts"; "reason"; "retrying"; "next_attempt_at"]
    ["job_id"; "kind"; "attempts"; "reason"; "retrying"] value path in
  match source with
  | None => found
  | Some source => found ++ concat [
      on_member validateIdentifier "job_id" source path;
      on_member validateJobKind "kind" source path;
      on_member validateJobFailedPayloadAttempts "attempts" source path;
      on_member validateJobFailureReason "reason" source path;
      on_member validateJobFailedPayloadRetrying "retrying" source path;
      on_member validateTimestamp "next_attempt_at" source path]
  end.
Definition validateBackupProductVersion : json → string → list SchemaViolation :=
  checkString (of_lengths 1 128 (Some PATTERN_3)).
Definition validateBackupProductRevision : json → string → list SchemaViolation :=
  checkString (of_lengths 1 128 (Some PATTERN_3)).
Definition validateBackupProductBuiltAt : json → string → list SchemaViolation :=
  checkString (of_lengths 1 64 (Some PATTERN_3)).
Definition validateBackupProduct (value : json) (path : string) : list SchemaViolation :=
  let '(found, source) := checkObject
    ["version"; "revision"; "built_at"]
    ["version"; "revision"; "built_at"] value path in
  match source with
  | None => found
  | Some source => found ++ concat [
      on_member validateBackupProductVersion "version" source path;
      on_member validateBackupProductRevision "revision" source path;
      on_member validateBackupProductBuiltAt "built_at" source path]
  end.
Definition validateBackupSourceHostname : json → string → list SchemaViolation :=
  checkString (of_lengths 1 253 (Some PATTERN_24)).
Definition validateBackupSource (value : json) (path : string) : list SchemaViolation :=
  let '(found, source) := checkObject
    ["hostname"; "artefact_driver"]
    ["artefact_driver"] value path in
  match source with
  | None => found
  | Some source => found ++ concat [
      on_member validateBackupSourceHostname "hostname" source path;
      on_member validateBackupArtefactDriver "artefact_driver" source path]
  end.
Definition validateBackupTableName : json → string → list SchemaViolation :=
  checkString (of_lengths 1 63 (Some PATTERN_25)).
Definition validateBackupTableRows : json → string → list SchemaViolation := checkInteger 0 1000000000000.
Definition validateBackupTable (value : json) (path : string) : list SchemaViolation :=
  let '(found, source) := checkObject
    ["name"; "rows"]
    ["name"; "rows"] value path in
  match source with
  | None => found
  | Some source => found ++ concat [
      on_member validateBackupTableName "name" source path;
      on_member validateBackupTableRows "rows" source path]
  end.
Definition validateBackupEntryBytes : json → string → list SchemaViolation := checkInteger 0 1099511627776.
Definition validateBackupEntry (value : json) (path : string) : list SchemaViolation :=
  let '(found, source) := checkObject
    ["path"; "bytes"; "sha256"]
    ["path"; "bytes"; "sha256"] value path in
  match source with
  | None => found
  | Some source => found ++ concat [
      on_member validateArchiveMemberPath "path" source path;
      on_member validateBackupEntryBytes "bytes" source path;
      on_member validateSha256Digest "sha256" source path]
  end.
Definition validateBackupKeyMaterialIncluded : json → string → list SchemaViolation := checkBoolean.
Definition validateBackupKeyMaterialExcludedTablesItem : json → string → list SchemaViolation :=
  checkString (of_lengths 1 63 (Some PATTERN_25)).
Definition validateBackupKeyMaterialExcludedTables (value : json) (path : string) : list SchemaViolation :=
  let '(found, items) := checkArray 0 64 true value path in
  match items with None => found | Some items => on_items validateBackupKeyMaterialExcludedTablesItem items path end.
Definition validateBackupKeyMaterial (value : json) (path : string) : list SchemaViolation :=
  let '(found, source) := checkObject
    ["included"; "excluded_tables"]
    ["included"; "excluded_tables"] value path in
  match source with
  | None => found
  | Some source => found ++ concat [
      on_member validateBackupKeyMaterialIncluded "included" source path;
      on_member validateBackupKeyMaterialExcludedTables "excluded_tables" source path]
  end.
Definition validateBackupManifestManifestVersion : json → string → list SchemaViolation := checkInteger 1 1.
Definition validateBackupManifestSchemaVersion : json → string → list SchemaViolation :=
  checkString (of_lengths 5 128 (Some PATTERN_26)).
Definition validateBackupManifestTables (value : json) (path : string) : list SchemaViolation :=
  let '(found, items) := checkArray 0 512 false value path in
  match items with None => found | Some items => on_items validateBackupTable items path end.
Definition validateBackupManifestArtefactObjects : json → string → list SchemaViolation := checkInteger 0 1000000000.
Definition validateBackupManifestArtefactBytes : json → string → list SchemaViolation := checkInteger 0 1099511627776.
Definition validateBackupManifestArtefactsMissing (value : json) (path : string) : list SchemaViolation :=
  let '(found, items) := checkArray 0 1024 true value path in
  match items with None => found | Some items => on_items validateArchiveMemberPath items path end.
Definition validateBackupManifestKeyReferencesItem : json → string → list SchemaViolation :=
  checkString (of_lengths 1 256 (Some PATTERN_27)).
Definition validateBackupManifestKeyReferences (value : json) (path : string) : list SchemaViolation :=
  let '(found, items) := checkArray 0 256 true value path in
  match items with None => found | Some items => on_items validateBackupManifestKeyReferencesItem items path end.
Definition validateBackupManifestConfigurationIncluded : json → string → list SchemaViolation := checkBoolean.
Definition validateBackupManifestChecksumAlgorithm : json → string → list SchemaViolation
     := checkString (of_values ["sha256"]).
Definition validateBackupManifestEntries (value : json) (path : string) : list SchemaViolation :=
  let '(found, items) := checkArray 0 1000000 false value path in
  match items with None => found | Some items => on_items validateBackupEntry items path end.
Definition validateBackupManifest (value : json) (path : string) : list SchemaViolation :=
  let '(found, source) := checkObject
    ["manifest_version"; "created_at"; "mode"; "product"; "schema_version"; "source"; "tables";
      "artefact_objects"; "artefact_bytes"; "artefacts_missing"; "key_material"; "key_references";
      "configuration_included"; "checksum_algorithm"; "entries"]
    ["manifest_version"; "created_at"; "mode"; "product"; "schema_version"; "source"; "tables";
      "artefact_objects"; "artefact_bytes"; "key_material"; "key_references"; "checksum_algorithm";
      "entries"] value path in
  match source with
  | None => found
  | Some source => found ++ concat [
      on_member validateBackupManifestManifestVersion "manifest_version" source path;
      on_member validateTimestamp "created_at" source path;
      on_member validateBackupMode "mode" source path;
      on_member validateBackupProduct "product" source path;
      on_member validateBackupManifestSchemaVersion "schema_version" source path;
      on_member validateBackupSource "source" source path;
      on_member validateBackupManifestTables "tables" source path;
      on_member validateBackupManifestArtefactObjects "artefact_objects" source path;
      on_member validateBackupManifestArtefactBytes "artefact_bytes" source path;
      on_member validateBackupManifestArtefactsMissing "artefacts_missing" source path;
      on_member validateBackupKeyMaterial "key_material" source path;
      on_member validateBackupManifestKeyReferences "key_references" source path;
      on_member validateBackupManifestConfigurationIncluded "configuration_included" source path;
      on_member validateBackupManifestChecksumAlgorithm "checksum_algorithm" source path;
      on_member validateBackupManifestEntries "entries" source path]
  end.
Definition validateMigrationRecordFilename : json → string → list SchemaViolation :=
  checkString (of_lengths 5 128 (Some PATTERN_26)).
Definition validateMigrationRecordNote : json → string → list SchemaViolation :=
  checkString (of_lengths 1 512 (Some PATTERN_3)).
Definition validateMigrationRecord (value : json) (path : string) : list SchemaViolation :=
  let '(found, source) := checkObject
    ["filename"; "downgrade"; "note"]
    ["filename"; "downgrade"] value path in
  match source with
  | None => found
  | Some source => found ++ concat [
      on_member validateMigrationRecordFilename "filename" source path;
      on_member validateMigrationDowngrade "downgrade" source path;
      on_member validateMigrationRecordNote "note" source path]
  end.
Definition validateMigrationStateSchemaVersion : json → string → list SchemaViolation :=
  checkString (of_lengths 5 128 (Some PATTERN_26)).
Definition validateMigrationStateApplied (value : json) (path : string) : list SchemaViolation :=
  let '(found, items) := checkArray 0 4096 false value path in
  match items with None => found | Some items => on_items validateMigrationRecord items path end.
Definition validateMigrationStatePending (value : json) (path : string) : list SchemaViolation :=
  let '(found, items) := checkArray 0 4096 false value path in
  match items with None => found | Some items => on_items validateMigrationRecord items path end.
Definition validateMigrationState (value : json) (path : string) : list SchemaViolation :=
  let '(found, source) := checkObject
    ["schema_version"; "applied"; "pending"]
    ["applied"; "pending"] value path in
  match source with
  | None => found
  | Some source => found ++ concat [
      on_member validateMigrationStateSchemaVersion "schema_version" source path;
      on_member validateMigrationStateApplied "applied" source path;
      on_member validateMigrationStatePending "pending" source path]
  end.
Definition validateCompatibilityCheckDetail : json → string → list SchemaViolation :=
  checkString (of_lengths 1 512 (Some PATTERN_3)).
Definition validateCompatibilityCheck (value : json) (path : string) : list SchemaViolation :=
  let '(found, source) := checkObject
    ["name"; "status"; "detail"]
    ["name"; "status"; "detail"] value path in
  match source with
  | None => found
  | Some source => found ++ concat [
      on_member validateCompatibilityCheckName "name" source path;
      on_member validateCompatibilityStatus "status" source path;
      on_member validateCompatibilityCheckDetail "detail" source path]
  end.
Definition validateCompatibilityReportOk : json → string → list SchemaViolation := checkBoolean.
Definition validateCompatibilityReportChecks (value : json) (path : string) : list SchemaViolation :=
  let '(found, items) := checkArray 1 32 false value path in
  match items with None => found | Some items => on_items validateCompatibilityCheck items path end.
Definition validateCompatibilityReport (value : json) (path : string) : list SchemaViolation :=
  let '(found, source) := checkObject
    ["ok"; "checked_at"; "checks"]
    ["ok"; "checked_at"; "checks"] value path in
  match source with
  | None => found
  | Some source => found ++ concat [
      on_member validateCompatibilityReportOk "ok" source path;
      on_member validateTimestamp "checked_at" source path;
      on_member validateCompatibilityReportChecks "checks" source path]
  end.
Definition validateStreamSubscribeType : json → string → list SchemaViolation := checkString
     (of_values ["stream.subscribe"]).
Definition validateStreamSubscribeLastSequence : json → string → list SchemaViolation := checkInteger 0 9007199254740991.
Definition validateStreamSubscribeMaxReplay : json → string → list SchemaViolation := checkInteger 1 10000.
Definition validateStreamSubscribe (value : json) (path : string) : list SchemaViolation :=
  let '(found, source) := checkObject
    ["type"; "last_sequence"; "max_replay"]
    ["type"; "last_sequence"] value path in
  match source with
  | None => found
  | Some source => found ++ concat [
      on_member validateStreamSubscribeType "type" source path;
      on_member validateStreamSubscribeLastSequence "last_sequence" source path;
      on_member validateStreamSubscribeMaxReplay "max_replay" source path]
  end.
Definition validateStreamSubscribedType : json → string → list SchemaViolation := checkString
     (of_values ["stream.subscribed"]).
Definition validateStreamSubscribedCurrentSequence : json → string → list SchemaViolation := checkInteger 0 9007199254740991.
Definition validateStreamSubscribedEarliestAvailableSequence : json → string → list SchemaViolation := checkInteger 0 9007199254740991.
Definition validateStreamSubscribedReplaying : json → string → list SchemaViolation := checkBoolean.
Definition validateStreamSubscribed (value : json) (path : string) : list SchemaViolation :=
  let '(found, source) := checkObject
    ["type"; "project_id"; "current_sequence"; "earliest_available_sequence"; "replaying"]
    ["type"; "project_id"; "current_sequence"; "earliest_available_sequence"; "replaying"] value path in
  match source with
  | None => found
  | Some source => found ++ concat [
      on_member validateStreamSubscribedType "type" source path;
      on_member validateIdentifier "project_id" source path;
      on_member validateStreamSubscribedCurrentSequence "current_sequence" source path;
      on_member validateStreamSubscribedEarliestAvailableSequence "earliest_available_sequence" source path;
      on_member validateStreamSubscribedReplaying "replaying" source path]
  end.
Definition validateStreamRefreshRequiredType : json → string → list SchemaViolation := checkString
     (of_values ["stream.refresh_required"]).
Definition validateStreamRefreshRequiredReason : json → string → list SchemaViolation :=
     checkString (of_values ["replay_window_exceeded"; "sequence_ahead_of_stream"; "replay_limit_exceeded"]).
Definition validateStreamRefreshRequiredCurrentSequence : json → string → list SchemaViolation := checkInteger 0 9007199254740991.
Definition validateStreamRefreshRequiredEarliestAvailableSequence : json → string → list SchemaViolation := checkInteger 0 9007199254740991.
Definition validateStreamRefreshRequired (value : json) (path : string) : list SchemaViolation :=
  let '(found, source) := checkObject
    ["type"; "reason"; "current_sequence"; "earliest_available_sequence"]
    ["type"; "reason"; "current_sequence"; "earliest_available_sequence"] value path in
  match source with
  | None => found
  | Some source => found ++ concat [
      on_member validateStreamRefreshRequiredType "type" source path;
      on_member validateStreamRefreshRequiredReason "reason" source path;
      on_member validateStreamRefreshRequiredCurrentSequence "current_sequence" source path;
      on_member validateStreamRefreshRequiredEarliestAvailableSequence "earliest_available_sequence" source path]
  end.
Definition validateStreamHeartbeatType : json → string → list SchemaViolation := checkString
     (of_values ["stream.heartbeat"]).
Definition validateStreamHeartbeatCurrentSequence : json → string → list SchemaViolation := checkInteger 0 9007199254740991.
Definition validateStreamHeartbeat (value : json) (path : string) : list SchemaViolation :=
  let '(found, source) := checkObject
    ["type"; "current_sequence"; "sent_at"]
    ["type"; "current_sequence"; "sent_at"] value path in
  match source with
  | None => found
  | Some source => found ++ concat [
      on_member validateStreamHeartbeatType "type" source path;
      on_member validateStreamHeartbeatCurrentSequence "current_sequence" source path;
      on_member validateTimestamp "sent_at" source path]
  end.
Definition validateStreamErrorType : json → string → list SchemaViolation := checkString
     (of_values ["stream.error"]).
Definition validateStreamErrorMessage : json → string → list SchemaViolation :=
  checkString (of_lengths 1 1024 (Some PATTERN_28)).
Definition validateStreamErrorRetryable : json → string → list SchemaViolation := checkBoolean.
Definition validateStreamError (value : json) (path : string) : list SchemaViolation :=
  let '(found, source) := checkObject
    ["type"; "code"; "message"; "retryable"]
    ["type"; "code"; "message"; "retryable"] value path in
  match source with
  | None => found
  | Some source => found ++ concat [
      on_member validateStreamErrorType "type" source path;
      on_member validateErrorClass "code" source path;
      on_member validateStreamErrorMessage "message" source path;
      on_member validateStreamErrorRetryable "retryable" source path]
  end.
Definition validateApiErrorDetailsCurrentVersion : json → string → list SchemaViolation := checkInteger 0 9007199254740991.
Definition validateApiErrorDetailsExpectedVersion : json → string → list SchemaViolation := checkInteger 0 9007199254740991.
Definition validateApiErrorDetailsCurrentEpoch : json → string → list SchemaViolation := checkInteger 0 9007199254740991.
Definition validateApiErrorDetailsCandidates (value : json) (path : string) : list SchemaViolation :=
  let '(found, items) := checkArray 1 50 true value path in
  match items with None => found | Some items => on_items validateIdentifier items path end.
Definition validateApiErrorDetailsAllowedTransitionsItem : json → string → list SchemaViolation :=
  checkString (of_lengths 1 64 (Some PATTERN_29)).
Definition validateApiErrorDetailsAllowedTransitions (value : json) (path : string) : list SchemaViolation :=
  let '(found, items) := checkArray 0 50 true value path in
  match items with None => found | Some items => on_items validateApiErrorDetailsAllowedTransitionsItem items path end.
Definition validateApiErrorDetailsRequiredEvidenceItem : json → string → list SchemaViolation :=
  checkString (of_lengths 1 64 (Some PATTERN_23)).
Definition validateApiErrorDetailsRequiredEvidence (value : json) (path : string) : list SchemaViolation :=
  let '(found, items) := checkArray 1 50 true value path in
  match items with None => found | Some items => on_items validateApiErrorDetailsRequiredEvidenceItem items path end.
Definition validateApiErrorDetailsMissingContextItem : json → string → list SchemaViolation :=
  checkString (of_lengths 1 64 (Some PATTERN_30)).
Definition validateApiErrorDetailsMissingContext (value : json) (path : string) : list SchemaViolation :=
  let '(found, items) := checkArray 1 50 true value path in
  match items with None => found | Some items => on_items validateApiErrorDetailsMissingContextItem items path end.
Definition validateApiErrorDetailsRetryAfterMs : json → string → list SchemaViolation := checkInteger 0 86400000.
Definition validateApiErrorDetailsField : json → string → list SchemaViolation :=
  checkString (of_lengths 1 128 (Some PATTERN_31)).
Definition validateApiErrorDetailsReason : json → string → list SchemaViolation :=
  checkString (of_lengths 1 64 (Some PATTERN_23)).
Definition validateApiErrorDetails (value : json) (path : string) : list SchemaViolation :=
  let '(found, source) := checkObject
    ["current_version"; "expected_version"; "current_epoch"; "candidates"; "allowed_transitions";
      "required_evidence"; "missing_context"; "retry_after_ms"; "field"; "reason"]
    [] value path in
  match source with
  | None => found
  | Some source => found ++ concat [
      on_member validateApiErrorDetailsCurrentVersion "current_version" source path;
      on_member validateApiErrorDetailsExpectedVersion "expected_version" source path;
      on_member validateApiErrorDetailsCurrentEpoch "current_epoch" source path;
      on_member validateApiErrorDetailsCandidates "candidates" source path;
      on_member validateApiErrorDetailsAllowedTransitions "allowed_transitions" source path;
      on_member validateApiErrorDetailsRequiredEvidence "required_evidence" source path;
      on_member validateApiErrorDetailsMissingContext "missing_context" source path;
      on_member validateApiErrorDetailsRetryAfterMs "retry_after_ms" source path;
      on_member validateApiErrorDetailsField "field" source path;
      on_member validateApiErrorDetailsReason "reason" source path]
  end.
Definition validateApiErrorMessage : json → string → list SchemaViolation :=
  checkString (of_lengths 1 1024 (Some PATTERN_28)).
Definition validateApiError (value : json) (path : string) : list SchemaViolation :=
  let '(found, source) := checkObject
    ["code"; "message"; "details"]
    ["code"; "message"] value path in
  match source with
  | None => found
  | Some source => found ++ concat [
      on_member validateErrorClass "code" source path;
      on_member validateApiErrorMessage "message" source path;
      on_member validateApiErrorDetails "details" source path]
  end.
Definition validateApiMeta (value : json) (path : string) : list SchemaViolation :=
  let '(found, source) := checkObject
    ["request_id"; "next_cursor"]
    ["request_id"] value path in
  match source with
  | None => found
  | Some source => found ++ concat [
      on_member validateIdentifier "request_id" source path;
      on_member validateCursor "next_cursor" source path]
  end.
Definition validateApiErrorResponse (value : json) (path : string) : list SchemaViolation :=
  let '(found, source) := checkObject
    ["error"; "meta"]
    ["error"; "meta"] value path in
  match source with
  | None => found
  | Some source => found ++ concat [
      on_member validateApiError "error" source path;
      on_member validateApiMeta "meta" source path]
  end.
Definition validateCursorClaimsVersion : json → string → list SchemaViolation := checkInteger 1 1.
Definition validateCursorClaimsSortKey : json → string → list SchemaViolation :=
  checkString (of_lengths 1 128 (Some PATTERN_28)).
Definition validateCursorClaims (value : json) (path : string) : list SchemaViolation :=
  let '(found, source) := checkObject
    ["version"; "sort_key"; "id"]
    ["version"; "sort_key"; "id"] value path in
  match source with
  | None => found
  | Some source => found ++ concat [
      on_member validateCursorClaimsVersion "version" source path;
      on_member validateCursorClaimsSortKey "sort_key" source path;
      on_member validateIdentifier "id" source path]
  end.
Definition validatePublishedServiceAllowedBrowserSessionIds (value : json) (path : string) : list SchemaViolation :=
  let '(found, items) := checkArray 1 32 true value path in
  match items with None => found | Some items => on_items validateIdentifier items path end.
Definition validatePublishedService (value : json) (path : string) : list SchemaViolation :=
  let '(found, source) := checkObject
    ["id"; "organisation_id"; "project_id"; "connector_id"; "workspace_id"; "public_alias"; "internal_origin";
      "local_host"; "local_port"; "protocol"; "scope"; "allowed_browser_session_ids"; "expires_at";
      "status"; "failure_class"; "observed_destination"; "requested_at"; "ready_at"; "ended_at"]
    ["id"; "organisation_id"; "project_id"; "connector_id"; "workspace_id"; "public_alias"; "internal_origin";
      "local_host"; "local_port"; "protocol"; "scope"; "allowed_browser_session_ids"; "expires_at";
      "status"; "requested_at"] value path in
  match source with
  | None => found
  | Some source => found ++ concat [
      on_member validateIdentifier "id" source path;
      on_member validateIdentifier "organisation_id" source path;
      on_member validateIdentifier "project_id" source path;
      on_member validateIdentifier "connector_id" source path;
      on_member validateIdentifier "workspace_id" source path;
      on_member validatePublicAlias "public_alias" source path;
      on_member validateInternalOrigin "internal_origin" source path;
      on_member validateLocalHost "local_host" source path;
      on_member validateLocalPort "local_port" source path;
      on_member validateDestinationProtocol "protocol" source path;
      on_member validatePublishedServiceScope "scope" source path;
      on_member validatePublishedServiceAllowedBrowserSessionIds "allowed_browser_session_ids" source path;
      on_member validateTimestamp "expires_at" source path;
      on_member validatePublishedServiceStatus "status" source path;
      on_member validatePublishedServiceFailureClass "failure_class" source path;
      on_member validateObservedDestination "observed_destination" source path;
      on_member validateTimestamp "requested_at" source path;
      on_member validateTimestamp "ready_at" source path;
      on_member validateTimestamp "ended_at" source path]
  end.
Definition validatePublishedServiceRequestedPayloadAllowedBrowserSessionIds (value : json) (path : string) : list SchemaViolation :=
  let '(found, items) := checkArray 1 32 true value path in
  match items with None => found | Some items => on_items validateIdentifier items path end.
Definition validatePublishedServiceRequestedPayload (value : json) (path : string) : list SchemaViolation :=
  let '(found, source) := checkObject
    ["published_service_id"; "connector_id"; "workspace_id"; "local_host"; "local_port"; "protocol";
      "public_alias"; "expires_at"; "allowed_browser_session_ids"; "new_status"]
    ["published_service_id"; "connector_id"; "workspace_id"; "local_host"; "local_port"; "protocol";
      "public_alias"; "expires_at"; "allowed_browser_session_ids"; "new_status"] value path in
  match source with
  | None => found
  | Some source => found ++ concat [
      on_member validateIdentifier "published_service_id" source path;
      on_member validateIdentifier "connector_id" source path;
      on_member validateIdentifier "workspace_id" source path;
      on_member validateLocalHost "local_host" source path;
      on_member validateLocalPort "local_port" source path;
      on_member validateDestinationProtocol "protocol" source path;
      on_member validatePublicAlias "public_alias" source path;
      on_member validateTimestamp "expires_at" source path;
      on_member validatePublishedServiceRequestedPayloadAllowedBrowserSessionIds "allowed_browser_session_ids" source path;
      on_member validatePublishedServiceStatus "new_status" source path]
  end.
Definition validatePublishedServiceReadyPayloadConnectorConnected : json → string → list SchemaViolation := checkBoolean.
Definition validatePublishedServiceReadyPayloadKeyId : json → string → list SchemaViolation :=
  checkString (of_lengths 1 64 (Some PATTERN_32)).
Definition validatePublishedServiceReadyPayload (value : json) (path : string) : list SchemaViolation :=
  let '(found, source) := checkObject
    ["published_service_id"; "previous_status"; "new_status"; "observed_destination"; "internal_origin";
      "connector_connected"; "capability_id"; "browser_session_id"; "key_id"; "expires_at"]
    ["published_service_id"] value path in
  match source with
  | None => found
  | Some source => found ++ concat [
      on_member validateIdentifier "published_service_id" source path;
      on_member validatePublishedServiceStatus "previous_status" source path;
      on_member validatePublishedServiceStatus "new_status" source path;
      on_member validateObservedDestination "observed_destination" source path;
      on_member validateInternalOrigin "internal_origin" source path;
      on_member validatePublishedServiceReadyPayloadConnectorConnected "connector_connected" source path;
      on_member validateIdentifier "capability_id" source path;
      on_member validateIdentifier "browser_session_id" source path;
      on_member validatePublishedServiceReadyPayloadKeyId "key_id" source path;
      on_member validateTimestamp "expires_at" source path]
  end.
Definition validatePublishedServiceFailedPayload (value : json) (path : string) : list SchemaViolation :=
  let '(found, source) := checkObject
    ["published_service_id"; "previous_status"; "new_status"; "error_class"]
    ["published_service_id"; "previous_status"; "new_status"; "error_class"] value path in
  match source with
  | None => found
  | Some source => found ++ concat [
      on_member validateIdentifier "published_service_id" source path;
      on_member validatePublishedServiceStatus "previous_status" source path;
      on_member validatePublishedServiceStatus "new_status" source path;
      on_member validatePublishedServiceFailureClass "error_class" source path]
  end.
Definition validatePublishedServiceExpiredPayload (value : json) (path : string) : list SchemaViolation :=
  let '(found, source) := checkObject
    ["published_service_id"; "previous_status"; "new_status"; "expires_at"]
    ["published_service_id"; "previous_status"; "new_status"; "expires_at"] value path in
  match source with
  | None => found
  | Some source => found ++ concat [
      on_member validateIdentifier "published_service_id" source path;
      on_member validatePublishedServiceStatus "previous_status" source path;
      on_member validatePublishedServiceStatus "new_status" source path;
      on_member validateTimestamp "expires_at" source path]
  end.
Definition validatePublishedServiceRevokedPayloadRevokedCapabilityIds (value : json) (path : string) : list SchemaViolation :=
  let '(found, items) := checkArray 0 64 true value path in
  match items with None => found | Some items => on_items validateIdentifier items path end.
Definition validatePublishedServiceRevokedPayload (value : json) (path : string) : list SchemaViolation :=
  let '(found, source) := checkObject
    ["published_service_id"; "previous_status"; "new_status"; "revoked_capability_ids"]
    ["published_service_id"; "previous_status"; "new_status"] value path in
  match source with
  | None => found
  | Some source => found ++ concat [
      on_member validateIdentifier "published_service_id" source path;
      on_member validatePublishedServiceStatus "previous_status" source path;
      on_member validatePublishedServiceStatus "new_status" source path;
      on_member validatePublishedServiceRevokedPayloadRevokedCapabilityIds "revoked_capability_ids" source path]
  end.

(** The definitions of the schema, with the functions generated for them. *)
Definition platform_validators : list (Schema * (json → string → list SchemaViolation)) :=
  [(schema_identifier, validateIdentifier);
   (schema_timestamp, validateTimestamp);
   (schema_sequence_number, validateSequenceNumber);
   (schema_cursor, validateCursor);
   (schema_message_type, validateMessageType);
   (schema_error_class, validateErrorClass);
   (schema_actor_type, validateActorType);
   (schema_job_kind, validateJobKind);
   (schema_job_failure_reason, validateJobFailureReason);
   (schema_project_status, validateProjectStatus);
   (schema_organisation_status, validateOrganisationStatus);
   (schema_user_status, validateUserStatus);
   (schema_slug, validateSlug);
   (schema_display_name, validateDisplayName);
   (schema_email_address, validateEmailAddress);
   (schema_git_ref_name, validateGitRefName);
   (schema_repository_canonical, validateRepositoryCanonical);
   (schema_environment_status, validateEnvironmentStatus);
   (schema_environment_trust_level, validateEnvironmentTrustLevel);
   (schema_environment_label, validateEnvironmentLabel);
   (schema_platform_name, validatePlatformName);
   (schema_architecture_name, validateArchitectureName);
   (schema_connector_status, validateConnectorStatus);
   (schema_connector_capability, validateConnectorCapability);
   (schema_connector_version, validateConnectorVersion);
   (schema_certificate_fingerprint, validateCertificateFingerprint);
   (schema_connector_connected_trigger, validateConnectorConnectedTrigger);
   (schema_connector_degraded_trigger, validateConnectorDegradedTrigger);
   (schema_connector_disconnected_trigger, validateConnectorDisconnectedTrigger);
   (schema_silence_seconds, validateSilenceSeconds);
   (schema_path_hash, validatePathHash);
   (schema_workspace_display_label, validateWorkspaceDisplayLabel);
   (schema_git_commit, validateGitCommit);
   (schema_workspace_observation_source, validateWorkspaceObservationSource);
   (schema_repository_identity, validateRepositoryIdentity);
   (schema_validation_viewport, validateValidationViewport);
   (schema_project_settings, validateProjectSettings);
   (schema_organisation, validateOrganisation);
   (schema_user, validateUser);
   (schema_project, validateProject);
   (schema_human_session, validateHumanSession);
   (schema_agent_session_status, validateAgentSessionStatus);
   (schema_agent_capability, validateAgentCapability);
   (schema_agent_session, validateAgentSession);
   (schema_environment, validateEnvironment);
   (schema_connector, validateConnector);
   (schema_workspace, validateWorkspace);
   (schema_login_method, validateLoginMethod);
   (schema_login_failure_reason, validateLoginFailureReason);
   (schema_session_revocation_reason, validateSessionRevocationReason);
   (schema_actor, validateActor);
   (schema_correlation, validateCorrelation);
   (schema_envelope, validateEnvelope);
   (schema_organisation_created_payload, validateOrganisationCreatedPayload);
   (schema_project_created_payload, validateProjectCreatedPayload);
   (schema_project_repository_changed_payload, validateProjectRepositoryChangedPayload);
   (schema_user_invited_payload, validateUserInvitedPayload);
   (schema_user_credentials_set_payload, validateUserCredentialsSetPayload);
   (schema_authentication_login_succeeded_payload, validateAuthenticationLoginSucceededPayload);
   (schema_authentication_login_failed_payload, validateAuthenticationLoginFailedPayload);
   (schema_session_revoked_payload, validateSessionRevokedPayload);
   (schema_project_updated_payload, validateProjectUpdatedPayload);
   (schema_project_archived_payload, validateProjectArchivedPayload);
   (schema_connector_enrolled_payload, validateConnectorEnrolledPayload);
   (schema_connector_connected_payload, validateConnectorConnectedPayload);
   (schema_connector_degraded_payload, validateConnectorDegradedPayload);
   (schema_connector_disconnected_payload, validateConnectorDisconnectedPayload);
   (schema_connector_revoked_payload, validateConnectorRevokedPayload);
   (schema_workspace_observed_payload, validateWorkspaceObservedPayload);
   (schema_workspace_head_changed_payload, validateWorkspaceHeadChangedPayload);
   (schema_job_enqueued_payload, validateJobEnqueuedPayload);
   (schema_job_succeeded_payload, validateJobSucceededPayload);
   (schema_job_failed_payload, validateJobFailedPayload);
   (schema_sha256_digest, validateSha256Digest);
   (schema_archive_member_path, validateArchiveMemberPath);
   (schema_backup_mode, validateBackupMode);
   (schema_backup_artefact_driver, validateBackupArtefactDriver);
   (schema_backup_product, validateBackupProduct);
   (schema_backup_source, validateBackupSource);
   (schema_backup_table, validateBackupTable);
   (schema_backup_entry, validateBackupEntry);
   (schema_backup_key_material, validateBackupKeyMaterial);
   (schema_backup_manifest, validateBackupManifest);
   (schema_migration_downgrade, validateMigrationDowngrade);
   (schema_migration_record, validateMigrationRecord);
   (schema_migration_state, validateMigrationState);
   (schema_compatibility_status, validateCompatibilityStatus);
   (schema_compatibility_check_name, validateCompatibilityCheckName);
   (schema_compatibility_check, validateCompatibilityCheck);
   (schema_compatibility_report, validateCompatibilityReport);
   (schema_stream_subscribe, validateStreamSubscribe);
   (schema_stream_subscribed, validateStreamSubscribed);
   (schema_stream_refresh_required, validateStreamRefreshRequired);
   (schema_stream_heartbeat, validateStreamHeartbeat);
   (schema_stream_error, validateStreamError);
   (schema_api_error_details, validateApiErrorDetails);
   (schema_api_error, validateApiError);
   (schema_api_meta, validateApiMeta);
   (schema_api_error_response, validateApiErrorResponse);
   (schema_cursor_claims, validateCursorClaims);
   (schema_published_service_status, validatePublishedServiceStatus);
   (schema_published_service_scope, validatePublishedServiceScope);
   (schema_published_service_failure_class, validatePublishedServiceFailureClass);
   (schema_destination_protocol, validateDestinationProtocol);
   (schema_public_alias, validatePublicAlias);
   (schema_internal_origin, validateInternalOrigin);
   (schema_local_host, validateLocalHost);
   (schema_local_port, validateLocalPort);
   (schema_observed_destination, validateObservedDestination);
   (schema_published_service, validatePublishedService);
   (schema_published_service_requested_payload, validatePublishedServiceRequestedPayload);
   (schema_published_service_ready_payload, validatePublishedServiceReadyPayload);
   (schema_published_service_failed_payload, validatePublishedServiceFailedPayload);
   (schema_published_service_expired_payload, validatePublishedServiceExpiredPayload);
   (schema_published_service_revoked_payload, validatePublishedServiceRevokedPayload)].

Lemma platform_generated :
  Forall (λ e, ∀ value path, e.2 value path = violations e.1 value path) platform_validators.
Proof. repeat (apply Forall_cons_2; [intros value path; reflexivity|]). apply Forall_nil_2. Qed.
