(* ===== verification/PlatformCodec.v ===== *)
(** * The types and the codec of the platform protocol
    ([src/packages/protocol/src/generated/platform/v1/types.ts], [encode.ts], [decode.ts]
    and [dispatch.ts])

    The vocabularies, the bounds of the payloads and the types of the generated
    code, and the messages of the schema; the generated encoders and decoders as
    they stand, each after those it calls, with the table of those that the schema's
    objects have; and the dispatch on the type of a message. *)

From S2P Require Import Prelude StableJson Validation Schema PlatformSchema PlatformValidate Codec.

(** ** Types *)

Definition MESSAGE_TYPE_VALUES : list string :=
  ["organisation.created"; "project.created"; "project.updated"; "project.repository_changed";
   "project.archived"; "user.invited"; "user.credentials_set"; "authentication.login_succeeded";
   "authentication.login_failed"; "session.revoked"; "connector.enrolled"; "connector.connected";
   "connector.degraded"; "connector.disconnected"; "connector.revoked"; "workspace.observed";
   "workspace.head_changed"; "job.enqueued"; "job.succeeded"; "job.failed"; "published_service.requested";
   "published_service.ready"; "published_service.failed"; "published_service.expired"; "published_service.revoked"].
Definition ERROR_CLASS_VALUES : list string :=
  ["AUTHENTICATION_REQUIRED"; "AUTHORISATION_DENIED"; "PROJECT_CONTEXT_AMBIGUOUS"; "PROJECT_CONTEXT_MISMATCH";
   "RESOURCE_NOT_FOUND"; "RESOURCE_STALE"; "VERSION_CONFLICT"; "IDEMPOTENCY_CONFLICT"; "VALIDATION_FAILED";
   "CONNECTOR_OFFLINE"; "PUBLISHED_SERVICE_UNAVAILABLE"; "BROWSER_CAPACITY_EXHAUSTED"; "BROWSER_SESSION_NOT_ACTIVE";
   "BROWSER_COMMAND_TIMEOUT"; "CONTROL_NOT_OWNED"; "CONTROL_EPOCH_STALE"; "POLICY_DENIED";
   "APPROVAL_REQUIRED"; "EVIDENCE_REQUIRED"; "ARTEFACT_UPLOAD_INCOMPLETE"; "ARTEFACT_STORE_UNAVAILABLE";
   "UNSUPPORTED_CAPABILITY"; "RATE_LIMITED"; "INTERNAL_ERROR"].
Definition ACTOR_TYPE_VALUES : list string :=
  ["human_user"; "agent_session"; "connector"; "browser_worker"; "system"; "integration"].
Definition JOB_KIND_VALUES : list string :=
  ["event_outbox_dispatch"; "idempotency_key_expiry"; "published_service_expiry"; "artefact_thumbnail";
   "review_export"].
Definition JOB_FAILURE_REASON_VALUES : list string :=
  ["handler_error"; "attempt_timeout"; "attempts_exhausted"; "handler_unknown"].
Definition PROJECT_STATUS_VALUES : list string :=
  ["active"; "archived"].
Definition ORGANISATION_STATUS_VALUES : list string :=
  ["active"; "suspended"].
Definition USER_STATUS_VALUES : list string :=
  ["active"; "suspended"].
Definition ENVIRONMENT_STATUS_VALUES : list string :=
  ["ACTIVE"].
Definition ENVIRONMENT_TRUST_LEVEL_VALUES : list string :=
  ["standard"].
Definition CONNECTOR_STATUS_VALUES : list string :=
  ["PENDING_ENROLMENT"; "ACTIVE"; "DEGRADED"; "DISCONNECTED"; "REVOKED"].
Definition CONNECTOR_CONNECTED_TRIGGER_VALUES : list string :=
  ["channel_opened"; "heartbeat"].
Definition CONNECTOR_DEGRADED_TRIGGER_VALUES : list string :=
  ["heartbeat_delay"].
Definition CONNECTOR_DISCONNECTED_TRIGGER_VALUES : list string :=
  ["channel_closed"; "heartbeat_timeout"].
Definition WORKSPACE_OBSERVATION_SOURCE_VALUES : list string :=
  ["connector_report"; "administrative_registration"].
Definition AGENT_SESSION_STATUS_VALUES : list string :=
  ["STARTING"; "ACTIVE"; "WAITING"; "BLOCKED"; "DISCONNECTED"; "COMPLETED"; "FAILED"; "CANCELLED"].
Definition AGENT_CAPABILITY_VALUES : list string :=
  ["project:read"; "review:read"; "review:write"; "finding:read"; "finding:write"; "verification:submit";
   "browser:capture"; "browser:control"].
Definition LOGIN_METHOD_VALUES : list string :=
  ["password"; "bootstrap_token"; "install_token"].
Definition LOGIN_FAILURE_REASON_VALUES : list string :=
  ["unknown_user"; "invalid_password"; "password_not_set"; "user_suspended"; "rate_limited";
   "install_token_invalid"; "install_token_expired"; "install_token_consumed"].
Definition SESSION_REVOCATION_REASON_VALUES : list string :=
  ["sign_out"; "rotated"; "revoked_by_user"; "revoked_by_administrator"].
Definition BACKUP_MODE_VALUES : list string :=
  ["full"; "database"].
Definition BACKUP_ARTEFACT_DRIVER_VALUES : list string :=
  ["filesystem"; "s3"].
Definition BACKUP_MANIFEST_CHECKSUM_ALGORITHM_VALUES : list string :=
  ["sha256"].
Definition MIGRATION_DOWNGRADE_VALUES : list string :=
  ["supported"; "not_supported"].
Definition COMPATIBILITY_STATUS_VALUES : list string :=
  ["pass"; "warn"; "fail"].
Definition COMPATIBILITY_CHECK_NAME_VALUES : list string :=
  ["source_version"; "backup_freshness"; "disk_space"; "connector_compatibility"; "worker_compatibility";
   "migration_lock"].
Definition STREAM_SUBSCRIBE_TYPE_VALUES : list string :=
  ["stream.subscribe"].
Definition STREAM_SUBSCRIBED_TYPE_VALUES : list string :=
  ["stream.subscribed"].
Definition STREAM_REFRESH_REQUIRED_TYPE_VALUES : list string :=
  ["stream.refresh_required"].
Definition STREAM_REFRESH_REQUIRED_REASON_VALUES : list string :=
  ["replay_window_exceeded"; "sequence_ahead_of_stream"; "replay_limit_exceeded"].
Definition STREAM_HEARTBEAT_TYPE_VALUES : list string :=
  ["stream.heartbeat"].
Definition STREAM_ERROR_TYPE_VALUES : list string :=
  ["stream.error"].
Definition PUBLISHED_SERVICE_STATUS_VALUES : list string :=
  ["requested"; "ready"; "failed"; "expired"; "revoked"].
Definition PUBLISHED_SERVICE_SCOPE_VALUES : list string :=
  ["browser_session"].
Definition PUBLISHED_SERVICE_FAILURE_CLASS_VALUES : list string :=
  ["CONNECTOR_OFFLINE"; "CONTROL_PLANE_UNAVAILABLE"; "DESTINATION_NOT_ALLOWED"; "IDENTITY_REVOKED";
   "INTERNAL_ERROR"; "PORT_NOT_LISTENING"; "PROJECT_NOT_AUTHORISED"; "PROTOCOL_UNSUPPORTED";
   "PUBLISHED_SERVICE_UNAVAILABLE"; "ROUTE_EXPIRED"; "ROUTE_LIMIT_EXCEEDED"; "WORKSPACE_NOT_FOUND"].
Definition DESTINATION_PROTOCOL_VALUES : list string :=
  ["http"; "https"].
Definition PAYLOAD_MAX_BYTES : list (string * Z) :=
  [("organisation.created", 1024%Z);
   ("project.created", 1024%Z);
   ("project.updated", 1024%Z);
   ("project.repository_changed", 1024%Z);
   ("project.archived", 512%Z);
   ("user.invited", 512%Z);
   ("user.credentials_set", 512%Z);
   ("authentication.login_succeeded", 512%Z);
   ("authentication.login_failed", 512%Z);
   ("session.revoked", 512%Z);
   ("connector.enrolled", 1024%Z);
   ("connector.connected", 512%Z);
   ("connector.degraded", 512%Z);
   ("connector.disconnected", 512%Z);
   ("connector.revoked", 512%Z);
   ("workspace.observed", 1024%Z);
   ("workspace.head_changed", 1024%Z);
   ("job.enqueued", 1024%Z);
   ("job.succeeded", 1024%Z);
   ("job.failed", 1024%Z);
   ("published_service.requested", 2048%Z);
   ("published_service.ready", 1024%Z);
   ("published_service.failed", 512%Z);
   ("published_service.expired", 512%Z);
   ("published_service.revoked", 2048%Z)].
Definition Identifier : json → Prop := string_type.
Definition Timestamp : json → Prop := string_type.
Definition SequenceNumber : json → Prop := number_type.
Definition Cursor : json → Prop := string_type.
Definition Slug : json → Prop := string_type.
Definition DisplayName : json → Prop := string_type.
Definition EmailAddress : json → Prop := string_type.
Definition GitRefName : json → Prop := string_type.
Definition RepositoryCanonical : json → Prop := string_type.
Definition EnvironmentLabel : json → Prop := string_type.
Definition PlatformName : json → Prop := string_type.
Definition ArchitectureName : json → Prop := string_type.
Definition ConnectorCapability : json → Prop := string_type.
Definition ConnectorVersion : json → Prop := string_type.
Definition CertificateFingerprint : json → Prop := string_type.
Definition SilenceSeconds : json → Prop := number_type.
Definition PathHash : json → Prop := string_type.
Definition WorkspaceDisplayLabel : json → Prop := string_type.
Definition GitCommit : json → Prop := string_type.
Definition Sha256Digest : json → Prop := string_type.
Definition ArchiveMemberPath : json → Prop := string_type.
Definition PublicAlias : json → Prop := string_type.
Definition InternalOrigin : json → Prop := string_type.
Definition LocalHost : json → Prop := string_type.
Definition LocalPort : json → Prop := number_type.
Definition ObservedDestination : json → Prop := string_type.
Definition MessageType : json → Prop := union_type
  ["organisation.created"; "project.created"; "project.updated"; "project.repository_changed";
   "project.archived"; "user.invited"; "user.credentials_set"; "authentication.login_succeeded";
   "authentication.login_failed"; "session.revoked"; "connector.enrolled"; "connector.connected";
   "connector.degraded"; "connector.disconnected"; "connector.revoked"; "workspace.observed";
   "workspace.head_changed"; "job.enqueued"; "job.succeeded"; "job.failed"; "published_service.requested";
   "published_service.ready"; "published_service.failed"; "published_service.expired"; "published_service.revoked"].
Definition ErrorClass : json → Prop := union_type
  ["AUTHENTICATION_REQUIRED"; "AUTHORISATION_DENIED"; "PROJECT_CONTEXT_AMBIGUOUS"; "PROJECT_CONTEXT_MISMATCH";
   "RESOURCE_NOT_FOUND"; "RESOURCE_STALE"; "VERSION_CONFLICT"; "IDEMPOTENCY_CONFLICT"; "VALIDATION_FAILED";
   "CONNECTOR_OFFLINE"; "PUBLISHED_SERVICE_UNAVAILABLE"; "BROWSER_CAPACITY_EXHAUSTED"; "BROWSER_SESSION_NOT_ACTIVE";
   "BROWSER_COMMAND_TIMEOUT"; "CONTROL_NOT_OWNED"; "CONTROL_EPOCH_STALE"; "POLICY_DENIED";
   "APPROVAL_REQUIRED"; "EVIDENCE_REQUIRED"; "ARTEFACT_UPLOAD_INCOMPLETE"; "ARTEFACT_STORE_UNAVAILABLE";
   "UNSUPPORTED_CAPABILITY"; "RATE_LIMITED"; "INTERNAL_ERROR"].
Definition ActorType : json → Prop := union_type
  ["human_user"; "agent_session"; "connector"; "browser_worker"; "system"; "integration"].
Definition JobKind : json → Prop := union_type
  ["event_outbox_dispatch"; "idempotency_key_expiry"; "published_service_expiry"; "artefact_thumbnail";
   "review_export"].
Definition JobFailureReason : json → Prop := union_type
  ["handler_error"; "attempt_timeout"; "attempts_exhausted"; "handler_unknown"].
Definition ProjectStatus : json → Prop := union_type
  ["active"; "archived"].
Definition OrganisationStatus : json → Prop := union_type
  ["active"; "suspended"].
Definition UserStatus : json → Prop := union_type
  ["active"; "suspended"].
Definition EnvironmentStatus : json → Prop := union_type
  ["ACTIVE"].
Definition EnvironmentTrustLevel : json → Prop := union_type
  ["standard"].
Definition ConnectorStatus : json → Prop := union_type
  ["PENDING_ENROLMENT"; "ACTIVE"; "DEGRADED"; "DISCONNECTED"; "REVOKED"].
Definition ConnectorConnectedTrigger : json → Prop := union_type
  ["channel_opened"; "heartbeat"].
Definition ConnectorDegradedTrigger : json → Prop := union_type
  ["heartbeat_delay"].
Definition ConnectorDisconnectedTrigger : json → Prop := union_type
  ["channel_closed"; "heartbeat_timeout"].
Definition WorkspaceObservationSource : json → Prop := union_type
  ["connector_report"; "administrative_registration"].
Definition AgentSessionStatus : json → Prop := union_type
  ["STARTING"; "ACTIVE"; "WAITING"; "BLOCKED"; "DISCONNECTED"; "COMPLETED"; "FAILED"; "CANCELLED"].
Definition AgentCapability : json → Prop := union_type
  ["project:read"; "review:read"; "review:write"; "finding:read"; "finding:write"; "verification:submit";
   "browser:capture"; "browser:control"].
Definition LoginMethod : json → Prop := union_type
  ["password"; "bootstrap_token"; "install_token"].
Definition LoginFailureReason : json → Prop := union_type
  ["unknown_user"; "invalid_password"; "password_not_set"; "user_suspended"; "rate_limited";
   "install_token_invalid"; "install_token_expired"; "install_token_consumed"].
Definition SessionRevocationReason : json → Prop := union_type
  ["sign_out"; "rotated"; "revoked_by_user"; "revoked_by_administrator"].
Definition BackupMode : json → Prop := union_type
  ["full"; "database"].
Definition BackupArtefactDriver : json → Prop := union_type
  ["filesystem"; "s3"].
Definition BackupManifestChecksumAlgorithm : json → Prop := union_type
  ["sha256"].
Definition MigrationDowngrade : json → Prop := union_type
  ["supported"; "not_supported"].
Definition CompatibilityStatus : json → Prop := union_type
  ["pass"; "warn"; "fail"].
Definition CompatibilityCheckName : json → Prop := union_type
  ["source_version"; "backup_freshness"; "disk_space"; "connector_compatibility"; "worker_compatibility";
   "migration_lock"].
Definition StreamSubscribeType : json → Prop := union_type
  ["stream.subscribe"].
Definition StreamSubscribedType : json → Prop := union_type
  ["stream.subscribed"].
Definition StreamRefreshRequiredType : json → Prop := union_type
  ["stream.refresh_required"].
Definition StreamRefreshRequiredReason : json → Prop := union_type
  ["replay_window_exceeded"; "sequence_ahead_of_stream"; "replay_limit_exceeded"].
Definition StreamHeartbeatType : json → Prop := union_type
  ["stream.heartbeat"].
Definition StreamErrorType : json → Prop := union_type
  ["stream.error"].
Definition PublishedServiceStatus : json → Prop := union_type
  ["requested"; "ready"; "failed"; "expired"; "revoked"].
Definition PublishedServiceScope : json → Prop := union_type
  ["browser_session"].
Definition PublishedServiceFailureClass : json → Prop := union_type
  ["CONNECTOR_OFFLINE"; "CONTROL_PLANE_UNAVAILABLE"; "DESTINATION_NOT_ALLOWED"; "IDENTITY_REVOKED";
   "INTERNAL_ERROR"; "PORT_NOT_LISTENING"; "PROJECT_NOT_AUTHORISED"; "PROTOCOL_UNSUPPORTED";
   "PUBLISHED_SERVICE_UNAVAILABLE"; "ROUTE_EXPIRED"; "ROUTE_LIMIT_EXCEEDED"; "WORKSPACE_NOT_FOUND"].
Definition DestinationProtocol : json → Prop := union_type
  ["http"; "https"].
Definition RepositoryIdentity : json → Prop := interface_type [
    has "canonical" string_type;
    may_have "clone_urls" (array_type string_type)].
Definition ValidationViewport : json → Prop := interface_type [
    has "width" number_type;
    has "height" number_type;
    may_have "device_scale_factor" number_type].
Definition ProjectSettings : json → Prop := interface_type [
    has "default_validation_viewports" (array_type ValidationViewport)].
Definition Organisation : json → Prop := interface_type [
    has "id" Identifier;
    has "name" DisplayName;
    has "slug" Slug;
    has "status" OrganisationStatus;
    has "created_at" Timestamp;
    has "updated_at" Timestamp].
Definition User : json → Prop := interface_type [
    has "id" Identifier;
    has "organisation_id" Identifier;
    has "email" EmailAddress;
    has "display_name" DisplayName;
    has "status" UserStatus;
    may_have "local_credential_set" boolean_type;
    has "created_at" Timestamp;
    has "updated_at" Timestamp].
Definition Project : json → Prop := interface_type [
    has "id" Identifier;
    has "organisation_id" Identifier;
    has "name" DisplayName;
    has "slug" Slug;
    may_have "repository_identity" RepositoryIdentity;
    has "default_branch" GitRefName;
    has "status" ProjectStatus;
    has "settings" ProjectSettings;
    has "version" number_type;
    has "created_at" Timestamp;
    has "updated_at" Timestamp].
Definition HumanSession : json → Prop := interface_type [
    has "session_id" Identifier;
    may_have "user_id" Identifier;
    may_have "organisation_id" Identifier;
    may_have "email" EmailAddress;
    has "display" DisplayName;
    may_have "project_ids" (array_type Identifier);
    has "expires_at" Timestamp].
Definition AgentSession : json → Prop := interface_type [
    has "id" Identifier;
    may_have "organisation_id" Identifier;
    has "project_id" Identifier;
    may_have "connector_id" Identifier;
    may_have "workspace_id" Identifier;
    has "agent_type" DisplayName;
    may_have "agent_version" DisplayName;
    has "capabilities" (array_type AgentCapability);
    may_have "branch" GitRefName;
    may_have "head_commit" GitCommit;
    has "status" AgentSessionStatus;
    has "started_at" Timestamp;
    may_have "last_seen_at" Timestamp;
    may_have "ended_at" Timestamp].
Definition Environment : json → Prop := interface_type [
    has "id" Identifier;
    has "organisation_id" Identifier;
    may_have "project_id" Identifier;
    has "name" DisplayName;
    has "platform" PlatformName;
    has "architecture" ArchitectureName;
    has "labels" (array_type EnvironmentLabel);
    has "trust_level" EnvironmentTrustLevel;
    has "status" EnvironmentStatus;
    may_have "last_seen_at" Timestamp;
    has "created_at" Timestamp].
Definition Connector : json → Prop := interface_type [
    has "id" Identifier;
    has "organisation_id" Identifier;
    has "environment_id" Identifier;
    may_have "project_id" Identifier;
    has "certificate_fingerprint" CertificateFingerprint;
    has "certificate_not_after" Timestamp;
    has "version" ConnectorVersion;
    has "capabilities" (array_type ConnectorCapability);
    has "status" ConnectorStatus;
    may_have "connected_at" Timestamp;
    may_have "last_heartbeat_at" Timestamp;
    may_have "revoked_at" Timestamp;
    has "created_at" Timestamp].
Definition Workspace : json → Prop := interface_type [
    has "id" Identifier;
    has "organisation_id" Identifier;
    has "project_id" Identifier;
    may_have "environment_id" Identifier;
    may_have "connector_id" Identifier;
    has "path_hash" PathHash;
    has "display_path" WorkspaceDisplayLabel;
    may_have "repository_identity" RepositoryCanonical;
    has "branch" GitRefName;
    has "head_commit" GitCommit;
    has "dirty" boolean_type;
    has "source" WorkspaceObservationSource;
    may_have "last_observed_at" Timestamp;
    has "created_at" Timestamp].
Definition Actor : json → Prop := interface_type [
    has "type" ActorType;
    may_have "id" Identifier;
    may_have "display" string_type].
Definition Correlation : json → Prop := interface_type [
    may_have "request_id" Identifier;
    may_have "causation_event_id" Identifier;
    may_have "connector_id" Identifier;
    may_have "environment_id" Identifier;
    may_have "workspace_id" Identifier;
    may_have "published_service_id" Identifier;
    may_have "agent_session_id" Identifier;
    may_have "browser_session_id" Identifier;
    may_have "worker_id" Identifier;
    may_have "artefact_id" Identifier;
    may_have "review_id" Identifier;
    may_have "finding_id" Identifier;
    may_have "annotation_id" Identifier;
    may_have "job_id" Identifier].
Definition Envelope : json → Prop := interface_type [
    has "id" Identifier;
    has "schema_version" number_type;
    has "sequence" SequenceNumber;
    has "type" MessageType;
    has "occurred_at" Timestamp;
    has "recorded_at" Timestamp;
    has "organisation_id" Identifier;
    may_have "project_id" Identifier;
    has "actor" Actor;
    may_have "correlation" Correlation].
Definition OrganisationCreatedPayload : json → Prop := interface_type [
    has "slug" string_type;
    has "name" string_type].
Definition ProjectCreatedPayload : json → Prop := interface_type [
    has "slug" string_type;
    has "name" string_type;
    may_have "default_branch" GitRefName;
    may_have "repository_canonical" string_type].
Definition ProjectRepositoryChangedPayload : json → Prop := interface_type [
    may_have "previous_canonical" string_type;
    has "new_canonical" string_type].
Definition UserInvitedPayload : json → Prop := interface_type [
    has "user_id" Identifier;
    has "method" LoginMethod;
    has "expires_at" Timestamp].
Definition UserCredentialsSetPayload : json → Prop := interface_type [
    has "user_id" Identifier;
    has "method" LoginMethod].
Definition AuthenticationLoginSucceededPayload : json → Prop := interface_type [
    has "session_id" Identifier;
    may_have "user_id" Identifier;
    has "method" LoginMethod].
Definition AuthenticationLoginFailedPayload : json → Prop := interface_type [
    has "reason" LoginFailureReason;
    has "method" LoginMethod;
    may_have "user_id" Identifier].
Definition SessionRevokedPayload : json → Prop := interface_type [
    has "session_id" Identifier;
    may_have "user_id" Identifier;
    has "reason" SessionRevocationReason].
Definition ProjectUpdatedPayload : json → Prop := interface_type [
    has "changed_fields" (array_type string_type)].
Definition ProjectArchivedPayload : json → Prop := interface_type [
    has "previous_status" ProjectStatus;
    has "new_status" ProjectStatus].
Definition ConnectorEnrolledPayload : json → Prop := interface_type [
    has "environment_id" Identifier;
    has "environment_name" DisplayName;
    has "platform" PlatformName;
    has "architecture" ArchitectureName;
    has "connector_version" ConnectorVersion;
    has "capabilities" (array_type ConnectorCapability);
    has "certificate_fingerprint" CertificateFingerprint;
    has "identity_expires_at" Timestamp;
    may_have "enrolment_token_id" Identifier;
    has "new_status" ConnectorStatus].
Definition ConnectorConnectedPayload : json → Prop := interface_type [
    has "previous_status" ConnectorStatus;
    has "new_status" ConnectorStatus;
    has "trigger" ConnectorConnectedTrigger].
Definition ConnectorDegradedPayload : json → Prop := interface_type [
    has "previous_status" ConnectorStatus;
    has "new_status" ConnectorStatus;
    has "trigger" ConnectorDegradedTrigger;
    has "silent_for_seconds_at_least" SilenceSeconds].
Definition ConnectorDisconnectedPayload : json → Prop := interface_type [
    has "previous_status" ConnectorStatus;
    has "new_status" ConnectorStatus;
    has "trigger" ConnectorDisconnectedTrigger;
    may_have "silent_for_seconds_at_least" SilenceSeconds].
Definition ConnectorRevokedPayload : json → Prop := interface_type [
    has "previous_status" ConnectorStatus;
    has "new_status" ConnectorStatus;
    has "routes_revoked" number_type;
    has "sessions_disconnected" number_type;
    may_have "channels_closed" number_type;
    may_have "agent_credentials_revoked" number_type].
Definition WorkspaceObservedPayload : json → Prop := interface_type [
    has "workspace_id" Identifier;
    may_have "environment_id" Identifier;
    has "path_hash" PathHash;
    has "display_path" WorkspaceDisplayLabel;
    may_have "repository_identity" RepositoryCanonical;
    has "branch" GitRefName;
    has "head_commit" GitCommit;
    has "dirty" boolean_type;
    has "source" WorkspaceObservationSource].
Definition WorkspaceHeadChangedPayload : json → Prop := interface_type [
    has "workspace_id" Identifier;
    may_have "environment_id" Identifier;
    has "previous_branch" GitRefName;
    has "previous_head_commit" GitCommit;
    has "previous_dirty" boolean_type;
    has "branch" GitRefName;
    has "head_commit" GitCommit;
    has "dirty" boolean_type].
Definition JobEnqueuedPayload : json → Prop := interface_type [
    has "job_id" Identifier;
    has "kind" JobKind;
    has "run_after" Timestamp].
Definition JobSucceededPayload : json → Prop := interface_type [
    has "job_id" Identifier;
    has "kind" JobKind;
    has "attempts" number_type;
    has "duration_ms" number_type].
Definition JobFailedPayload : json → Prop := interface_type [
    has "job_id" Identifier;
    has "kind" JobKind;
    has "attempts" number_type;
    has "reason" JobFailureReason;
    has "retrying" boolean_type;
    may_have "next_attempt_at" Timestamp].
Definition BackupProduct : json → Prop := interface_type [
    has "version" string_type;
    has "revision" string_type;
    has "built_at" string_type].
Definition BackupSource : json → Prop := interface_type [
    may_have "hostname" string_type;
    has "artefact_driver" BackupArtefactDriver].
Definition BackupTable : json → Prop := interface_type [
    has "name" string_type;
    has "rows" number_type].
Definition BackupEntry : json → Prop := interface_type [
    has "path" ArchiveMemberPath;
    has "bytes" number_type;
    has "sha256" Sha256Digest].
Definition BackupKeyMaterial : json → Prop := interface_type [
    has "included" boolean_type;
    has "excluded_tables" (array_type string_type)].
Definition BackupManifest : json → Prop := interface_type [
    has "manifest_version" number_type;
    has "created_at" Timestamp;
    has "mode" BackupMode;
    has "product" BackupProduct;
    has "schema_version" string_type;
    has "source" BackupSource;
    has "tables" (array_type BackupTable);
    has "artefact_objects" number_type;
    has "artefact_bytes" number_type;
    may_have "artefacts_missing" (array_type ArchiveMemberPath);
    has "key_material" BackupKeyMaterial;
    has "key_references" (array_type string_type);
    may_have "configuration_included" boolean_type;
    has "checksum_algorithm" BackupManifestChecksumAlgorithm;
    has "entries" (array_type BackupEntry)].
Definition MigrationRecord : json → Prop := interface_type [
    has "filename" string_type;
    has "downgrade" MigrationDowngrade;
    may_have "note" string_type].
Definition MigrationState : json → Prop := interface_type [
    may_have "schema_version" string_type;
    has "applied" (array_type MigrationRecord);
    has "pending" (array_type MigrationRecord)].
Definition CompatibilityCheck : json → Prop := interface_type [
    has "name" CompatibilityCheckName;
    has "status" CompatibilityStatus;
    has "detail" string_type].
Definition CompatibilityReport : json → Prop := interface_type [
    has "ok" boolean_type;
    has "checked_at" Timestamp;
    has "checks" (array_type CompatibilityCheck)].
Definition StreamSubscribe : json → Prop := interface_type [
    has "type" StreamSubscribeType;
    has "last_sequence" number_type;
    may_have "max_replay" number_type].
Definition StreamSubscribed : json → Prop := interface_type [
    has "type" StreamSubscribedType;
    has "project_id" Identifier;
    has "current_sequence" number_type;
    has "earliest_available_sequence" number_type;
    has "replaying" boolean_type].
Definition StreamRefreshRequired : json → Prop := interface_type [
    has "type" StreamRefreshRequiredType;
    has "reason" StreamRefreshRequiredReason;
    has "current_sequence" number_type;
    has "earliest_available_sequence" number_type].
Definition StreamHeartbeat : json → Prop := interface_type [
    has "type" StreamHeartbeatType;
    has "current_sequence" number_type;
    has "sent_at" Timestamp].
Definition StreamError : json → Prop := interface_type [
    has "type" StreamErrorType;
    has "code" ErrorClass;
    has "message" string_type;
    has "retryable" boolean_type].
Definition ApiErrorDetails : json → Prop := interface_type [
    may_have "current_version" number_type;
    may_have "expected_version" number_type;
    may_have "current_epoch" number_type;
    may_have "candidates" (array_type Identifier);
    may_have "allowed_transitions" (array_type string_type);
    may_have "required_evidence" (array_type string_type);
    may_have "missing_context" (array_type string_type);
    may_have "retry_after_ms" number_type;
    may_have "field" string_type;
    may_have "reason" string_type].
Definition ApiError : json → Prop := interface_type [
    has "code" ErrorClass;
    has "message" string_type;
    may_have "details" ApiErrorDetails].
Definition ApiMeta : json → Prop := interface_type [
    has "request_id" Identifier;
    may_have "next_cursor" Cursor].
Definition ApiErrorResponse : json → Prop := interface_type [
    has "error" ApiError;
    has "meta" ApiMeta].
Definition CursorClaims : json → Prop := interface_type [
    has "version" number_type;
    has "sort_key" string_type;
    has "id" Identifier].
Definition PublishedService : json → Prop := interface_type [
    has "id" Identifier;
    has "organisation_id" Identifier;
    has "project_id" Identifier;
    has "connector_id" Identifier;
    has "workspace_id" Identifier;
    has "public_alias" PublicAlias;
    has "internal_origin" InternalOrigin;
    has "local_host" LocalHost;
    has "local_port" LocalPort;
    has "protocol" DestinationProtocol;
    has "scope" PublishedServiceScope;
    has "allowed_browser_session_ids" (array_type Identifier);
    has "expires_at" Timestamp;
    has "status" PublishedServiceStatus;
    may_have "failure_class" PublishedServiceFailureClass;
    may_have "observed_destination" ObservedDestination;
    has "requested_at" Timestamp;
    may_have "ready_at" Timestamp;
    may_have "ended_at" Timestamp].
Definition PublishedServiceRequestedPayload : json → Prop := interface_type [
    has "published_service_id" Identifier;
    has "connector_id" Identifier;
    has "workspace_id" Identifier;
    has "local_host" LocalHost;
    has "local_port" LocalPort;
    has "protocol" DestinationProtocol;
    has "public_alias" PublicAlias;
    has "expires_at" Timestamp;
    has "allowed_browser_session_ids" (array_type Identifier);
    has "new_status" PublishedServiceStatus].
Definition PublishedServiceReadyPayload : json → Prop := interface_type [
    has "published_service_id" Identifier;
    may_have "previous_status" PublishedServiceStatus;
    may_have "new_status" PublishedServiceStatus;
    may_have "observed_destination" ObservedDestination;
    may_have "internal_origin" InternalOrigin;
    may_have "connector_connected" boolean_type;
    may_have "capability_id" Identifier;
    may_have "browser_session_id" Identifier;
    may_have "key_id" string_type;
    may_have "expires_at" Timestamp].
Definition PublishedServiceFailedPayload : json → Prop := interface_type [
    has "published_service_id" Identifier;
    has "previous_status" PublishedServiceStatus;
    has "new_status" PublishedServiceStatus;
    has "error_class" PublishedServiceFailureClass].
Definition PublishedServiceExpiredPayload : json → Prop := interface_type [
    has "published_service_id" Identifier;
    has "previous_status" PublishedServiceStatus;
    has "new_status" PublishedServiceStatus;
    has "expires_at" Timestamp].
Definition PublishedServiceRevokedPayload : json → Prop := interface_type [
    has "published_service_id" Identifier;
    has "previous_status" PublishedServiceStatus;
    has "new_status" PublishedServiceStatus;
    may_have "revoked_capability_ids" (array_type Identifier)].

(** [x-protocol.messages] *)
Definition platform_messages : list (string * Schema) :=
  [("organisation.created", schema_organisation_created_payload);
   ("project.created", schema_project_created_payload);
   ("project.updated", schema_project_updated_payload);
   ("project.repository_changed", schema_project_repository_changed_payload);
   ("project.archived", schema_project_archived_payload);
   ("user.invited", schema_user_invited_payload);
   ("user.credentials_set", schema_user_credentials_set_payload);
   ("authentication.login_succeeded", schema_authentication_login_succeeded_payload);
   ("authentication.login_failed", schema_authentication_login_failed_payload);
   ("session.revoked", schema_session_revoked_payload);
   ("connector.enrolled", schema_connector_enrolled_payload);
   ("connector.connected", schema_connector_connected_payload);
   ("connector.degraded", schema_connector_degraded_payload);
   ("connector.disconnected", schema_connector_disconnected_payload);
   ("connector.revoked", schema_connector_revoked_payload);
   ("workspace.observed", schema_workspace_observed_payload);
   ("workspace.head_changed", schema_workspace_head_changed_payload);
   ("job.enqueued", schema_job_enqueued_payload);
   ("job.succeeded", schema_job_succeeded_payload);
   ("job.failed", schema_job_failed_payload);
   ("published_service.requested", schema_published_service_requested_payload);
   ("published_service.ready", schema_published_service_ready_payload);
   ("published_service.failed", schema_published_service_failed_payload);
   ("published_service.expired", schema_published_service_expired_payload);
   ("published_service.revoked", schema_published_service_revoked_payload)].

(** ** Encoders, decoders and dispatch *)

Definition encodeRepositoryIdentity (value : option json) : result string string := object_text [
    push_field "canonical" jsonString value;
    push_optional "clone_urls" (jsonItems jsonString) value].
Definition encodeValidationViewport (value : option json) : result string string := object_text [
    push_field "width" jsonInteger value;
    push_field "height" jsonInteger value;
    push_optional "device_scale_factor" jsonNumber value].
Definition encodeProjectSettings (value : option json) : result string string := object_text [
    push_field "default_validation_viewports" (jsonItems encodeValidationViewport) value].
Definition encodeOrganisation (value : option json) : result string string := object_text [
    push_field "id" jsonString value;
    push_field "name" jsonString value;
    push_field "slug" jsonString value;
    push_field "status" jsonString value;
    push_field "created_at" jsonString value;
    push_field "updated_at" jsonString value].
Definition encodeUser (value : option json) : result string string := object_text [
    push_field "id" jsonString value;
    push_field "organisation_id" jsonString value;
    push_field "email" jsonString value;
    push_field "display_name" jsonString value;
    push_field "status" jsonString value;
    push_optional "local_credential_set" jsonBoolean value;
    push_field "created_at" jsonString value;
    push_field "updated_at" jsonString value].
Definition encodeProject (value : option json) : result string string := object_text [
    push_field "id" jsonString value;
    push_field "organisation_id" jsonString value;
    push_field "name" jsonString value;
    push_field "slug" jsonString value;
    push_optional "repository_identity" encodeRepositoryIdentity value;
    push_field "default_branch" jsonString value;
    push_field "status" jsonString value;
    push_field "settings" encodeProjectSettings value;
    push_field "version" jsonInteger value;
    push_field "created_at" jsonString value;
    push_field "updated_at" jsonString value].
Definition encodeHumanSession (value : option json) : result string string := object_text [
    push_field "session_id" jsonString value;
    push_optional "user_id" jsonString value;
    push_optional "organisation_id" jsonString value;
    push_optional "email" jsonString value;
    push_field "display" jsonString value;
    push_optional "project_ids" (jsonItems jsonString) value;
    push_field "expires_at" jsonString value].
Definition encodeAgentSession (value : option json) : result string string := object_text [
    push_field "id" jsonString value;
    push_optional "organisation_id" jsonString value;
    push_field "project_id" jsonString value;
    push_optional "connector_id" jsonString value;
    push_optional "workspace_id" jsonString value;
    push_field "agent_type" jsonString value;
    push_optional "agent_version" jsonString value;
    push_field "capabilities" (jsonItems jsonString) value;
    push_optional "branch" jsonString value;
    push_optional "head_commit" jsonString value;
    push_field "status" jsonString value;
    push_field "started_at" jsonString value;
    push_optional "last_seen_at" jsonString value;
    push_optional "ended_at" jsonString value].
Definition encodeEnvironment (value : option json) : result string string := object_text [
    push_field "id" jsonString value;
    push_field "organisation_id" jsonString value;
    push_optional "project_id" jsonString value;
    push_field "name" jsonString value;
    push_field "platform" jsonString value;
    push_field "architecture" jsonString value;
    push_field "labels" (jsonItems jsonString) value;
    push_field "trust_level" jsonString value;
    push_field "status" jsonString value;
    push_optional "last_seen_at" jsonString value;
    push_field "created_at" jsonString value].
Definition encodeConnector (value : option json) : result string string := object_text [
    push_field "id" jsonString value;
    push_field "organisation_id" jsonString value;
    push_field "environment_id" jsonString value;
    push_optional "project_id" jsonString value;
    push_field "certificate_fingerprint" jsonString value;
    push_field "certificate_not_after" jsonString value;
    push_field "version" jsonString value;
    push_field "capabilities" (jsonItems jsonString) value;
    push_field "status" jsonString value;
    push_optional "connected_at" jsonString value;
    push_optional "last_heartbeat_at" jsonString value;
    push_optional "revoked_at" jsonString value;
    push_field "created_at" jsonString value].
Definition encodeWorkspace (value : option json) : result string string := object_text [
    push_field "id" jsonString value;
    push_field "organisation_id" jsonString value;
    push_field "project_id" jsonString value;
    push_optional "environment_id" jsonString value;
    push_optional "connector_id" jsonString value;
    push_field "path_hash" jsonString value;
    push_field "display_path" jsonString value;
    push_optional "repository_identity" jsonString value;
    push_field "branch" jsonString value;
    push_field "head_commit" jsonString value;
    push_field "dirty" jsonBoolean value;
    push_field "source" jsonString value;
    push_optional "last_observed_at" jsonString value;
    push_field "created_at" jsonString value].
Definition encodeActor (value : option json) : result string string := object_text [
    push_field "type" jsonString value;
    push_optional "id" jsonString value;
    push_optional "display" jsonString value].
Definition encodeCorrelation (value : option json) : result string string := object_text [
    push_optional "request_id" jsonString value;
    push_optional "causation_event_id" jsonString value;
    push_optional "connector_id" jsonString value;
    push_optional "environment_id" jsonString value;
    push_optional "workspace_id" jsonString value;
    push_optional "published_service_id" jsonString value;
    push_optional "agent_session_id" jsonString value;
    push_optional "browser_session_id" jsonString value;
    push_optional "worker_id" jsonString value;
    push_optional "artefact_id" jsonString value;
    push_optional "review_id" jsonString value;
    push_optional "finding_id" jsonString value;
    push_optional "annotation_id" jsonString value;
    push_optional "job_id" jsonString value].
Definition encodeEnvelope (value : option json) (payloadJson : string) : result string string := object_text [
    push_field "id" jsonString value;
    push_field "schema_version" jsonInteger value;
    push_field "sequence" jsonInteger value;
    push_field "type" jsonString value;
    push_field "occurred_at" jsonString value;
    push_field "recorded_at" jsonString value;
    push_field "organisation_id" jsonString value;
    push_optional "project_id" jsonString value;
    push_field "actor" encodeActor value;
    push_optional "correlation" encodeCorrelation value;
    push_text "payload" payloadJson].
Definition encodeOrganisationCreatedPayload (value : option json) : result string string := object_text [
    push_field "slug" jsonString value;
    push_field "name" jsonString value].
Definition encodeProjectCreatedPayload (value : option json) : result string string := object_text [
    push_field "slug" jsonString value;
    push_field "name" jsonString value;
    push_optional "default_branch" jsonString value;
    push_optional "repository_canonical" jsonString value].
Definition encodeProjectRepositoryChangedPayload (value : option json) : result string string := object_text [
    push_optional "previous_canonical" jsonString value;
    push_field "new_canonical" jsonString value].
Definition encodeUserInvitedPayload (value : option json) : result string string := object_text [
    push_field "user_id" jsonString value;
    push_field "method" jsonString value;
    push_field "expires_at" jsonString value].
Definition encodeUserCredentialsSetPayload (value : option json) : result string string := object_text [
    push_field "user_id" jsonString value;
    push_field "method" jsonString value].
Definition encodeAuthenticationLoginSucceededPayload (value : option json) : result string string := object_text [
    push_field "session_id" jsonString value;
    push_optional "user_id" jsonString value;
    push_field "method" jsonString value].
Definition encodeAuthenticationLoginFailedPayload (value : option json) : result string string := object_text [
    push_field "reason" jsonString value;
    push_field "method" jsonString value;
    push_optional "user_id" jsonString value].
Definition encodeSessionRevokedPayload (value : option json) : result string string := object_text [
    push_field "session_id" jsonString value;
    push_optional "user_id" jsonString value;
    push_field "reason" jsonString value].
Definition encodeProjectUpdatedPayload (value : option json) : result string string := object_text [
    push_field "changed_fields" (jsonItems jsonString) value].
Definition encodeProjectArchivedPayload (value : option json) : result string string := object_text [
    push_field "previous_status" jsonString value;
    push_field "new_status" jsonString value].
Definition encodeConnectorEnrolledPayload (value : option json) : result string string := object_text [
    push_field "environment_id" jsonString value;
    push_field "environment_name" jsonString value;
    push_field "platform" jsonString value;
    push_field "architecture" jsonString value;
    push_field "connector_version" jsonString value;
    push_field "capabilities" (jsonItems jsonString) value;
    push_field "certificate_fingerprint" jsonString value;
    push_field "identity_expires_at" jsonString value;
    push_optional "enrolment_token_id" jsonString value;
    push_field "new_status" jsonString value].
Definition encodeConnectorConnectedPayload (value : option json) : result string string := object_text [
    push_field "previous_status" jsonString value;
    push_field "new_status" jsonString value;
    push_field "trigger" jsonString value].
Definition encodeConnectorDegradedPayload (value : option json) : result string string := object_text [
    push_field "previous_status" jsonString value;
    push_field "new_status" jsonString value;
    push_field "trigger" jsonString value;
    push_field "silent_for_seconds_at_least" jsonInteger value].
Definition encodeConnectorDisconnectedPayload (value : option json) : result string string := object_text [
    push_field "previous_status" jsonString value;
    push_field "new_status" jsonString value;
    push_field "trigger" jsonString value;
    push_optional "silent_for_seconds_at_least" jsonInteger value].
Definition encodeConnectorRevokedPayload (value : option json) : result string string := object_text [
    push_field "previous_status" jsonString value;
    push_field "new_status" jsonString value;
    push_field "routes_revoked" jsonInteger value;
    push_field "sessions_disconnected" jsonInteger value;
    push_optional "channels_closed" jsonInteger value;
    push_optional "agent_credentials_revoked" jsonInteger value].
Definition encodeWorkspaceObservedPayload (value : option json) : result string string := object_text [
    push_field "workspace_id" jsonString value;
    push_optional "environment_id" jsonString value;
    push_field "path_hash" jsonString value;
    push_field "display_path" jsonString value;
    push_optional "repository_identity" jsonString value;
    push_field "branch" jsonString value;
    push_field "head_commit" jsonString value;
    push_field "dirty" jsonBoolean value;
    push_field "source" jsonString value].
Definition encodeWorkspaceHeadChangedPayload (value : option json) : result string string := object_text [
    push_field "workspace_id" jsonString value;
    push_optional "environment_id" jsonString value;
    push_field "previous_branch" jsonString value;
    push_field "previous_head_commit" jsonString value;
    push_field "previous_dirty" jsonBoolean value;
    push_field "branch" jsonString value;
    push_field "head_commit" jsonString value;
    push_field "dirty" jsonBoolean value].
Definition encodeJobEnqueuedPayload (value : option json) : result string string := object_text [
    push_field "job_id" jsonString value;
    push_field "kind" jsonString value;
    push_field "run_after" jsonString value].
Definition encodeJobSucceededPayload (value : option json) : result string string := object_text [
    push_field "job_id" jsonString value;
    push_field "kind" jsonString value;
    push_field "attempts" jsonInteger value;
    push_field "duration_ms" jsonInteger value].
Definition encodeJobFailedPayload (value : option json) : result string string := object_text [
    push_field "job_id" jsonString value;
    push_field "kind" jsonString value;
    push_field "attempts" jsonInteger value;
    push_field "reason" jsonString value;
    push_field "retrying" jsonBoolean value;
    push_optional "next_attempt_at" jsonString value].
Definition encodeBackupProduct (value : option json) : result string string := object_text [
    push_field "version" jsonString value;
    push_field "revision" jsonString value;
    push_field "built_at" jsonString value].
Definition encodeBackupSource (value : option json) : result string string := object_text [
    push_optional "hostname" jsonString value;
    push_field "artefact_driver" jsonString value].
Definition encodeBackupTable (value : option json) : result string string := object_text [
    push_field "name" jsonString value;
    push_field "rows" jsonInteger value].
Definition encodeBackupEntry (value : option json) : result string string := object_text [
    push_field "path" jsonString value;
    push_field "bytes" jsonInteger value;
    push_field "sha256" jsonString value].
Definition encodeBackupKeyMaterial (value : option json) : result string string := object_text [
    push_field "included" jsonBoolean value;
    push_field "excluded_tables" (jsonItems jsonString) value].
Definition encodeBackupManifest (value : option json) : result string string := object_text [
    push_field "manifest_version" jsonInteger value;
    push_field "created_at" jsonString value;
    push_field "mode" jsonString value;
    push_field "product" encodeBackupProduct value;
    push_field "schema_version" jsonString value;
    push_field "source" encodeBackupSource value;
    push_field "tables" (jsonItems encodeBackupTable) value;
    push_field "artefact_objects" jsonInteger value;
    push_field "artefact_bytes" jsonInteger value;
    push_optional "artefacts_missing" (jsonItems jsonString) value;
    push_field "key_material" encodeBackupKeyMaterial value;
    push_field "key_references" (jsonItems jsonString) value;
    push_optional "configuration_included" jsonBoolean value;
    push_field "checksum_algorithm" jsonString value;
    push_field "entries" (jsonItems encodeBackupEntry) value].
Definition encodeMigrationRecord (value : option json) : result string string := object_text [
    push_field "filename" jsonString value;
    push_field "downgrade" jsonString value;
    push_optional "note" jsonString value].
Definition encodeMigrationState (value : option json) : result string string := object_text [
    push_optional "schema_version" jsonString value;
    push_field "applied" (jsonItems encodeMigrationRecord) value;
    push_field "pending" (jsonItems encodeMigrationRecord) value].
Definition encodeCompatibilityCheck (value : option json) : result string string := object_text [
    push_field "name" jsonString value;
    push_field "status" jsonString value;
    push_field "detail" jsonString value].
Definition encodeCompatibilityReport (value : option json) : result string string := object_text [
    push_field "ok" jsonBoolean value;
    push_field "checked_at" jsonString value;
    push_field "checks" (jsonItems encodeCompatibilityCheck) value].
Definition encodeStreamSubscribe (value : option json) : result string string := object_text [
    push_field "type" jsonString value;
    push_field "last_sequence" jsonInteger value;
    push_optional "max_replay" jsonInteger value].
Definition encodeStreamSubscribed (value : option json) : result string string := object_text [
    push_field "type" jsonString value;
    push_field "project_id" jsonString value;
    push_field "current_sequence" jsonInteger value;
    push_field "earliest_available_sequence" jsonInteger value;
    push_field "replaying" jsonBoolean value].
Definition encodeStreamRefreshRequired (value : option json) : result string string := object_text [
    push_field "type" jsonString value;
    push_field "reason" jsonString value;
    push_field "current_sequence" jsonInteger value;
    push_field "earliest_available_sequence" jsonInteger value].
Definition encodeStreamHeartbeat (value : option json) : result string string := object_text [
    push_field "type" jsonString value;
    push_field "current_sequence" jsonInteger value;
    push_field "sent_at" jsonString value].
Definition encodeStreamError (value : option json) : result string string := object_text [
    push_field "type" jsonString value;
    push_field "code" jsonString value;
    push_field "message" jsonString value;
    push_field "retryable" jsonBoolean value].
Definition encodeApiErrorDetails (value : option json) : result string string := object_text [
    push_optional "current_version" jsonInteger value;
    push_optional "expected_version" jsonInteger value;
    push_optional "current_epoch" jsonInteger value;
    push_optional "candidates" (jsonItems jsonString) value;
    push_optional "allowed_transitions" (jsonItems jsonString) value;
    push_optional "required_evidence" (jsonItems jsonString) value;
    push_optional "missing_context" (jsonItems jsonString) value;
    push_optional "retry_after_ms" jsonInteger value;
    push_optional "field" jsonString value;
    push_optional "reason" jsonString value].
Definition encodeApiError (value : option json) : result string string := object_text [
    push_field "code" jsonString value;
    push_field "message" jsonString value;
    push_optional "details" encodeApiErrorDetails value].
Definition encodeApiMeta (value : option json) : result string string := object_text [
    push_field "request_id" jsonString value;
    push_optional "next_cursor" jsonString value].
Definition encodeApiErrorResponse (value : option json) : result string string := object_text [
    push_field "error" encodeApiError value;
    push_field "meta" encodeApiMeta value].
Definition encodeCursorClaims (value : option json) : result string string := object_text [
    push_field "version" jsonInteger value;
    push_field "sort_key" jsonString value;
    push_field "id" jsonString value].
Definition encodePublishedService (value : option json) : result string string := object_text [
    push_field "id" jsonString value;
    push_field "organisation_id" jsonString value;
    push_field "project_id" jsonString value;
    push_field "connector_id" jsonString value;
    push_field "workspace_id" jsonString value;
    push_field "public_alias" jsonString value;
    push_field "internal_origin" jsonString value;
    push_field "local_host" jsonString value;
    push_field "local_port" jsonInteger value;
    push_field "protocol" jsonString value;
    push_field "scope" jsonString value;
    push_field "allowed_browser_session_ids" (jsonItems jsonString) value;
    push_field "expires_at" jsonString value;
    push_field "status" jsonString value;
    push_optional "failure_class" jsonString value;
    push_optional "observed_destination" jsonString value;
    push_field "requested_at" jsonString value;
    push_optional "ready_at" jsonString value;
    push_optional "ended_at" jsonString value].
Definition encodePublishedServiceRequestedPayload (value : option json) : result string string := object_text [
    push_field "published_service_id" jsonString value;
    push_field "connector_id" jsonString value;
    push_field "workspace_id" jsonString value;
    push_field "local_host" jsonString value;
    push_field "local_port" jsonInteger value;
    push_field "protocol" jsonString value;
    push_field "public_alias" jsonString value;
    push_field "expires_at" jsonString value;
    push_field "allowed_browser_session_ids" (jsonItems jsonString) value;
    push_field "new_status" jsonString value].
Definition encodePublishedServiceReadyPayload (value : option json) : result string string := object_text [
    push_field "published_service_id" jsonString value;
    push_optional "previous_status" jsonString value;
    push_optional "new_status" jsonString value;
    push_optional "observed_destination" jsonString value;
    push_optional "internal_origin" jsonString value;
    push_optional "connector_connected" jsonBoolean value;
    push_optional "capability_id" jsonString value;
    push_optional "browser_session_id" jsonString value;
    push_optional "key_id" jsonString value;
    push_optional "expires_at" jsonString value].
Definition encodePublishedServiceFailedPayload (value : option json) : result string string := object_text [
    push_field "published_service_id" jsonString value;
    push_field "previous_status" jsonString value;
    push_field "new_status" jsonString value;
    push_field "error_class" jsonString value].
Definition encodePublishedServiceExpiredPayload (value : option json) : result string string := object_text [
    push_field "published_service_id" jsonString value;
    push_field "previous_status" jsonString value;
    push_field "new_status" jsonString value;
    push_field "expires_at" jsonString value].
Definition encodePublishedServiceRevokedPayload (value : option json) : result string string := object_text [
    push_field "published_service_id" jsonString value;
    push_field "previous_status" jsonString value;
    push_field "new_status" jsonString value;
    push_optional "revoked_capability_ids" (jsonItems jsonString) value].

Definition decodeRepositoryIdentity : json → result string json := read_object (λ source, [
    cast_field "canonical" as_is source;
    optional_field "clone_urls" (read_items as_is) source]).
Definition decodeValidationViewport : json → result string json := read_object (λ source, [
    cast_field "width" as_is source;
    cast_field "height" as_is source;
    optional_field "device_scale_factor" as_is source]).
Definition decodeProjectSettings : json → result string json := read_object (λ source, [
    read_field "default_validation_viewports" (read_items decodeValidationViewport) source]).
Definition decodeOrganisation : json → result string json := read_object (λ source, [
    cast_field "id" as_is source;
    cast_field "name" as_is source;
    cast_field "slug" as_is source;
    cast_field "status" as_is source;
    cast_field "created_at" as_is source;
    cast_field "updated_at" as_is source]).
Definition decodeUser : json → result string json := read_object (λ source, [
    cast_field "id" as_is source;
    cast_field "organisation_id" as_is source;
    cast_field "email" as_is source;
    cast_field "display_name" as_is source;
    cast_field "status" as_is source;
    optional_field "local_credential_set" as_is source;
    cast_field "created_at" as_is source;
    cast_field "updated_at" as_is source]).
Definition decodeProject : json → result string json := read_object (λ source, [
    cast_field "id" as_is source;
    cast_field "organisation_id" as_is source;
    cast_field "name" as_is source;
    cast_field "slug" as_is source;
    optional_field "repository_identity" decodeRepositoryIdentity source;
    cast_field "default_branch" as_is source;
    cast_field "status" as_is source;
    read_field "settings" decodeProjectSettings source;
    cast_field "version" as_is source;
    cast_field "created_at" as_is source;
    cast_field "updated_at" as_is source]).
Definition decodeHumanSession : json → result string json := read_object (λ source, [
    cast_field "session_id" as_is source;
    optional_field "user_id" as_is source;
    optional_field "organisation_id" as_is source;
    optional_field "email" as_is source;
    cast_field "display" as_is source;
    optional_field "project_ids" (read_items as_is) source;
    cast_field "expires_at" as_is source]).
Definition decodeAgentSession : json → result string json := read_object (λ source, [
    cast_field "id" as_is source;
    optional_field "organisation_id" as_is source;
    cast_field "project_id" as_is source;
    optional_field "connector_id" as_is source;
    optional_field "workspace_id" as_is source;
    cast_field "agent_type" as_is source;
    optional_field "agent_version" as_is source;
    read_field "capabilities" (read_items as_is) source;
    optional_field "branch" as_is source;
    optional_field "head_commit" as_is source;
    cast_field "status" as_is source;
    cast_field "started_at" as_is source;
    optional_field "last_seen_at" as_is source;
    optional_field "ended_at" as_is source]).
Definition decodeEnvironment : json → result string json := read_object (λ source, [
    cast_field "id" as_is source;
    cast_field "organisation_id" as_is source;
    optional_field "project_id" as_is source;
    cast_field "name" as_is source;
    cast_field "platform" as_is source;
    cast_field "architecture" as_is source;
    read_field "labels" (read_items as_is) source;
    cast_field "trust_level" as_is source;
    cast_field "status" as_is source;
    optional_field "last_seen_at" as_is source;
    cast_field "created_at" as_is source]).
Definition decodeConnector : json → result string json := read_object (λ source, [
    cast_field "id" as_is source;
    cast_field "organisation_id" as_is source;
    cast_field "environment_id" as_is source;
    optional_field "project_id" as_is source;
    cast_field "certificate_fingerprint" as_is source;
    cast_field "certificate_not_after" as_is source;
    cast_field "version" as_is source;
    read_field "capabilities" (read_items as_is) source;
    cast_field "status" as_is source;
    optional_field "connected_at" as_is source;
    optional_field "last_heartbeat_at" as_is source;
    optional_field "revoked_at" as_is source;
    cast_field "created_at" as_is source]).
Definition decodeWorkspace : json → result string json := read_object (λ source, [
    cast_field "id" as_is source;
    cast_field "organisation_id" as_is source;
    cast_field "project_id" as_is source;
    optional_field "environment_id" as_is source;
    optional_field "connector_id" as_is source;
    cast_field "path_hash" as_is source;
    cast_field "display_path" as_is source;
    optional_field "repository_identity" as_is source;
    cast_field "branch" as_is source;
    cast_field "head_commit" as_is source;
    cast_field "dirty" as_is source;
    cast_field "source" as_is source;
    optional_field "last_observed_at" as_is source;
    cast_field "created_at" as_is source]).
Definition decodeActor : json → result string json := read_object (λ source, [
    cast_field "type" as_is source;
    optional_field "id" as_is source;
    optional_field "display" as_is source]).
Definition decodeCorrelation : json → result string json := read_object (λ source, [
    optional_field "request_id" as_is source;
    optional_field "causation_event_id" as_is source;
    optional_field "connector_id" as_is source;
    optional_field "environment_id" as_is source;
    optional_field "workspace_id" as_is source;
    optional_field "published_service_id" as_is source;
    optional_field "agent_session_id" as_is source;
    optional_field "browser_session_id" as_is source;
    optional_field "worker_id" as_is source;
    optional_field "artefact_id" as_is source;
    optional_field "review_id" as_is source;
    optional_field "finding_id" as_is source;
    optional_field "annotation_id" as_is source;
    optional_field "job_id" as_is source]).
Definition decodeEnvelope : json → result string json := read_object (λ source, [
    cast_field "id" as_is source;
    cast_field "schema_version" as_is source;
    cast_field "sequence" as_is source;
    cast_field "type" as_is source;
    cast_field "occurred_at" as_is source;
    cast_field "recorded_at" as_is source;
    cast_field "organisation_id" as_is source;
    optional_field "project_id" as_is source;
    read_field "actor" decodeActor source;
    optional_field "correlation" decodeCorrelation source]).
Definition decodeOrganisationCreatedPayload : json → result string json := read_object (λ source, [
    cast_field "slug" as_is source;
    cast_field "name" as_is source]).
Definition decodeProjectCreatedPayload : json → result string json := read_object (λ source, [
    cast_field "slug" as_is source;
    cast_field "name" as_is source;
    optional_field "default_branch" as_is source;
    optional_field "repository_canonical" as_is source]).
Definition decodeProjectRepositoryChangedPayload : json → result string json := read_object (λ source, [
    optional_field "previous_canonical" as_is source;
    cast_field "new_canonical" as_is source]).
Definition decodeUserInvitedPayload : json → result string json := read_object (λ source, [
    cast_field "user_id" as_is source;
    cast_field "method" as_is source;
    cast_field "expires_at" as_is source]).
Definition decodeUserCredentialsSetPayload : json → result string json := read_object (λ source, [
    cast_field "user_id" as_is source;
    cast_field "method" as_is source]).
Definition decodeAuthenticationLoginSucceededPayload : json → result string json := read_object (λ source, [
    cast_field "session_id" as_is source;
    optional_field "user_id" as_is source;
    cast_field "method" as_is source]).
Definition decodeAuthenticationLoginFailedPayload : json → result string json := read_object (λ source, [
    cast_field "reason" as_is source;
    cast_field "method" as_is source;
    optional_field "user_id" as_is source]).
Definition decodeSessionRevokedPayload : json → result string json := read_object (λ source, [
    cast_field "session_id" as_is source;
    optional_field "user_id" as_is source;
    cast_field "reason" as_is source]).
Definition decodeProjectUpdatedPayload : json → result string json := read_object (λ source, [
    read_field "changed_fields" (read_items as_is) source]).
Definition decodeProjectArchivedPayload : json → result string json := read_object (λ source, [
    cast_field "previous_status" as_is source;
    cast_field "new_status" as_is source]).
Definition decodeConnectorEnrolledPayload : json → result string json := read_object (λ source, [
    cast_field "environment_id" as_is source;
    cast_field "environment_name" as_is source;
    cast_field "platform" as_is source;
    cast_field "architecture" as_is source;
    cast_field "connector_version" as_is source;
    read_field "capabilities" (read_items as_is) source;
    cast_field "certificate_fingerprint" as_is source;
    cast_field "identity_expires_at" as_is source;
    optional_field "enrolment_token_id" as_is source;
    cast_field "new_status" as_is source]).
Definition decodeConnectorConnectedPayload : json → result string json := read_object (λ source, [
    cast_field "previous_status" as_is source;
    cast_field "new_status" as_is source;
    cast_field "trigger" as_is source]).
Definition decodeConnectorDegradedPayload : json → result string json := read_object (λ source, [
    cast_field "previous_status" as_is source;
    cast_field "new_status" as_is source;
    cast_field "trigger" as_is source;
    cast_field "silent_for_seconds_at_least" as_is source]).
Definition decodeConnectorDisconnectedPayload : json → result string json := read_object (λ source, [
    cast_field "previous_status" as_is source;
    cast_field "new_status" as_is source;
    cast_field "trigger" as_is source;
    optional_field "silent_for_seconds_at_least" as_is source]).
Definition decodeConnectorRevokedPayload : json → result string json := read_object (λ source, [
    cast_field "previous_status" as_is source;
    cast_field "new_status" as_is source;
    cast_field "routes_revoked" as_is source;
    cast_field "sessions_disconnected" as_is source;
    optional_field "channels_closed" as_is source;
    optional_field "agent_credentials_revoked" as_is source]).
Definition decodeWorkspaceObservedPayload : json → result string json := read_object (λ source, [
    cast_field "workspace_id" as_is source;
    optional_field "environment_id" as_is source;
    cast_field "path_hash" as_is source;
    cast_field "display_path" as_is source;
    optional_field "repository_identity" as_is source;
    cast_field "branch" as_is source;
    cast_field "head_commit" as_is source;
    cast_field "dirty" as_is source;
    cast_field "source" as_is source]).
Definition decodeWorkspaceHeadChangedPayload : json → result string json := read_object (λ source, [
    cast_field "workspace_id" as_is source;
    optional_field "environment_id" as_is source;
    cast_field "previous_branch" as_is source;
    cast_field "previous_head_commit" as_is source;
    cast_field "previous_dirty" as_is source;
    cast_field "branch" as_is source;
    cast_field "head_commit" as_is source;
    cast_field "dirty" as_is source]).
Definition decodeJobEnqueuedPayload : json → result string json := read_object (λ source, [
    cast_field "job_id" as_is source;
    cast_field "kind" as_is source;
    cast_field "run_after" as_is source]).
Definition decodeJobSucceededPayload : json → result string json := read_object (λ source, [
    cast_field "job_id" as_is source;
    cast_field "kind" as_is source;
    cast_field "attempts" as_is source;
    cast_field "duration_ms" as_is source]).
Definition decodeJobFailedPayload : json → result string json := read_object (λ source, [
    cast_field "job_id" as_is source;
    cast_field "kind" as_is source;
    cast_field "attempts" as_is source;
    cast_field "reason" as_is source;
    cast_field "retrying" as_is source;
    optional_field "next_attempt_at" as_is source]).
Definition decodeBackupProduct : json → result string json := read_object (λ source, [
    cast_field "version" as_is source;
    cast_field "revision" as_is source;
    cast_field "built_at" as_is source]).
Definition decodeBackupSource : json → result string json := read_object (λ source, [
    optional_field "hostname" as_is source;
    cast_field "artefact_driver" as_is source]).
Definition decodeBackupTable : json → result string json := read_object (λ source, [
    cast_field "name" as_is source;
    cast_field "rows" as_is source]).
Definition decodeBackupEntry : json → result string json := read_object (λ source, [
    cast_field "path" as_is source;
    cast_field "bytes" as_is source;
    cast_field "sha256" as_is source]).
Definition decodeBackupKeyMaterial : json → result string json := read_object (λ source, [
    cast_field "included" as_is source;
    read_field "excluded_tables" (read_items as_is) source]).
Definition decodeBackupManifest : json → result string json := read_object (λ source, [
    cast_field "manifest_version" as_is source;
    cast_field "created_at" as_is source;
    cast_field "mode" as_is source;
    read_field "product" decodeBackupProduct source;
    cast_field "schema_version" as_is source;
    read_field "source" decodeBackupSource source;
    read_field "tables" (read_items decodeBackupTable) source;
    cast_field "artefact_objects" as_is source;
    cast_field "artefact_bytes" as_is source;
    optional_field "artefacts_missing" (read_items as_is) source;
    read_field "key_material" decodeBackupKeyMaterial source;
    read_field "key_references" (read_items as_is) source;
    optional_field "configuration_included" as_is source;
    cast_field "checksum_algorithm" as_is source;
    read_field "entries" (read_items decodeBackupEntry) source]).
Definition decodeMigrationRecord : json → result string json := read_object (λ source, [
    cast_field "filename" as_is source;
    cast_field "downgrade" as_is source;
    optional_field "note" as_is source]).
Definition decodeMigrationState : json → result string json := read_object (λ source, [
    optional_field "schema_version" as_is source;
    read_field "applied" (read_items decodeMigrationRecord) source;
    read_field "pending" (read_items decodeMigrationRecord) source]).
Definition decodeCompatibilityCheck : json → result string json := read_object (λ source, [
    cast_field "name" as_is source;
    cast_field "status" as_is source;
    cast_field "detail" as_is source]).
Definition decodeCompatibilityReport : json → result string json := read_object (λ source, [
    cast_field "ok" as_is source;
    cast_field "checked_at" as_is source;
    read_field "checks" (read_items decodeCompatibilityCheck) source]).
Definition decodeStreamSubscribe : json → result string json := read_object (λ source, [
    cast_field "type" as_is source;
    cast_field "last_sequence" as_is source;
    optional_field "max_replay" as_is source]).
Definition decodeStreamSubscribed : json → result string json := read_object (λ source, [
    cast_field "type" as_is source;
    cast_field "project_id" as_is source;
    cast_field "current_sequence" as_is source;
    cast_field "earliest_available_sequence" as_is source;
    cast_field "replaying" as_is source]).
Definition decodeStreamRefreshRequired : json → result string json := read_object (λ source, [
    cast_field "type" as_is source;
    cast_field "reason" as_is source;
    cast_field "current_sequence" as_is source;
    cast_field "earliest_available_sequence" as_is source]).
Definition decodeStreamHeartbeat : json → result string json := read_object (λ source, [
    cast_field "type" as_is source;
    cast_field "current_sequence" as_is source;
    cast_field "sent_at" as_is source]).
Definition decodeStreamError : json → result string json := read_object (λ source, [
    cast_field "type" as_is source;
    cast_field "code" as_is source;
    cast_field "message" as_is source;
    cast_field "retryable" as_is source]).
Definition decodeApiErrorDetails : json → result string json := read_object (λ source, [
    optional_field "current_version" as_is source;
    optional_field "expected_version" as_is source;
    optional_field "current_epoch" as_is source;
    optional_field "candidates" (read_items as_is) source;
    optional_field "allowed_transitions" (read_items as_is) source;
    optional_field "required_evidence" (read_items as_is) source;
    optional_field "missing_context" (read_items as_is) source;
    optional_field "retry_after_ms" as_is source;
    optional_field "field" as_is source;
    optional_field "reason" as_is source]).
Definition decodeApiError : json → result string json := read_object (λ source, [
    cast_field "code" as_is source;
    cast_field "message" as_is source;
    optional_field "details" decodeApiErrorDetails source]).
Definition decodeApiMeta : json → result string json := read_object (λ source, [
    cast_field "request_id" as_is source;
    optional_field "next_cursor" as_is source]).
Definition decodeApiErrorResponse : json → result string json := read_object (λ source, [
    read_field "error" decodeApiError source;
    read_field "meta" decodeApiMeta source]).
Definition decodeCursorClaims : json → result string json := read_object (λ source, [
    cast_field "version" as_is source;
    cast_field "sort_key" as_is source;
    cast_field "id" as_is source]).
Definition decodePublishedService : json → result string json := read_object (λ source, [
    cast_field "id" as_is source;
    cast_field "organisation_id" as_is source;
    cast_field "project_id" as_is source;
    cast_field "connector_id" as_is source;
    cast_field "workspace_id" as_is source;
    cast_field "public_alias" as_is source;
    cast_field "internal_origin" as_is source;
    cast_field "local_host" as_is source;
    cast_field "local_port" as_is source;
    cast_field "protocol" as_is source;
    cast_field "scope" as_is source;
    read_field "allowed_browser_session_ids" (read_items as_is) source;
    cast_field "expires_at" as_is source;
    cast_field "status" as_is source;
    optional_field "failure_class" as_is source;
    optional_field "observed_destination" as_is source;
    cast_field "requested_at" as_is source;
    optional_field "ready_at" as_is source;
    optional_field "ended_at" as_is source]).
Definition decodePublishedServiceRequestedPayload : json → result string json := read_object (λ source, [
    cast_field "published_service_id" as_is source;
    cast_field "connector_id" as_is source;
    cast_field "workspace_id" as_is source;
    cast_field "local_host" as_is source;
    cast_field "local_port" as_is source;
    cast_field "protocol" as_is source;
    cast_field "public_alias" as_is source;
    cast_field "expires_at" as_is source;
    read_field "allowed_browser_session_ids" (read_items as_is) source;
    cast_field "new_status" as_is source]).
Definition decodePublishedServiceReadyPayload : json → result string json := read_object (λ source, [
    cast_field "published_service_id" as_is source;
    optional_field "previous_status" as_is source;
    optional_field "new_status" as_is source;
    optional_field "observed_destination" as_is source;
    optional_field "internal_origin" as_is source;
    optional_field "connector_connected" as_is source;
    optional_field "capability_id" as_is source;
    optional_field "browser_session_id" as_is source;
    optional_field "key_id" as_is source;
    optional_field "expires_at" as_is source]).
Definition decodePublishedServiceFailedPayload : json → result string json := read_object (λ source, [
    cast_field "published_service_id" as_is source;
    cast_field "previous_status" as_is source;
    cast_field "new_status" as_is source;
    cast_field "error_class" as_is source]).
Definition decodePublishedServiceExpiredPayload : json → result string json := read_object (λ source, [
    cast_field "published_service_id" as_is source;
    cast_field "previous_status" as_is source;
    cast_field "new_status" as_is source;
    cast_field "expires_at" as_is source]).
Definition decodePublishedServiceRevokedPayload : json → result string json := read_object (λ source, [
    cast_field "published_service_id" as_is source;
    cast_field "previous_status" as_is source;
    cast_field "new_status" as_is source;
    optional_field "revoked_capability_ids" (read_items as_is) source]).

Definition validatePayload (type : string) (value : json) (path : string) : list SchemaViolation :=
  if String.eqb type "organisation.created" then validateOrganisationCreatedPayload value path else
  if String.eqb type "project.created" then validateProjectCreatedPayload value path else
  if String.eqb type "project.updated" then validateProjectUpdatedPayload value path else
  if String.eqb type "project.repository_changed" then validateProjectRepositoryChangedPayload value path else
  if String.eqb type "project.archived" then validateProjectArchivedPayload value path else
  if String.eqb type "user.invited" then validateUserInvitedPayload value path else
  if String.eqb type "user.credentials_set" then validateUserCredentialsSetPayload value path else
  if String.eqb type "authentication.login_succeeded" then validateAuthenticationLoginSucceededPayload value path else
  if String.eqb type "authentication.login_failed" then validateAuthenticationLoginFailedPayload value path else
  if String.eqb type "session.revoked" then validateSessionRevokedPayload value path else
  if String.eqb type "connector.enrolled" then validateConnectorEnrolledPayload value path else
  if String.eqb type "connector.connected" then validateConnectorConnectedPayload value path else
  if String.eqb type "connector.degraded" then validateConnectorDegradedPayload value path else
  if String.eqb type "connector.disconnected" then validateConnectorDisconnectedPayload value path else
  if String.eqb type "connector.revoked" then validateConnectorRevokedPayload value path else
  if String.eqb type "workspace.observed" then validateWorkspaceObservedPayload value path else
  if String.eqb type "workspace.head_changed" then validateWorkspaceHeadChangedPayload value path else
  if String.eqb type "job.enqueued" then validateJobEnqueuedPayload value path else
  if String.eqb type "job.succeeded" then validateJobSucceededPayload value path else
  if String.eqb type "job.failed" then validateJobFailedPayload value path else
  if String.eqb type "published_service.requested" then validatePublishedServiceRequestedPayload value path else
  if String.eqb type "published_service.ready" then validatePublishedServiceReadyPayload value path else
  if String.eqb type "published_service.failed" then validatePublishedServiceFailedPayload value path else
  if String.eqb type "published_service.expired" then validatePublishedServiceExpiredPayload value path else
  if String.eqb type "published_service.revoked" then validatePublishedServiceRevokedPayload value path else
  [].
(** The payload of the frame; a type of no message gives no frame. *)
Definition decodeFrame (type : string) (value : json) : option (result string json) :=
  if String.eqb type "organisation.created" then Some (decodeOrganisationCreatedPayload value) else
  if String.eqb type "project.created" then Some (decodeProjectCreatedPayload value) else
  if String.eqb type "project.updated" then Some (decodeProjectUpdatedPayload value) else
  if String.eqb type "project.repository_changed" then Some (decodeProjectRepositoryChangedPayload value) else
  if String.eqb type "project.archived" then Some (decodeProjectArchivedPayload value) else
  if String.eqb type "user.invited" then Some (decodeUserInvitedPayload value) else
  if String.eqb type "user.credentials_set" then Some (decodeUserCredentialsSetPayload value) else
  if String.eqb type "authentication.login_succeeded" then Some (decodeAuthenticationLoginSucceededPayload value) else
  if String.eqb type "authentication.login_failed" then Some (decodeAuthenticationLoginFailedPayload value) else
  if String.eqb type "session.revoked" then Some (decodeSessionRevokedPayload value) else
  if String.eqb type "connector.enrolled" then Some (decodeConnectorEnrolledPayload value) else
  if String.eqb type "connector.connected" then Some (decodeConnectorConnectedPayload value) else
  if String.eqb type "connector.degraded" then Some (decodeConnectorDegradedPayload value) else
  if String.eqb type "connector.disconnected" then Some (decodeConnectorDisconnectedPayload value) else
  if String.eqb type "connector.revoked" then Some (decodeConnectorRevokedPayload value) else
  if String.eqb type "workspace.observed" then Some (decodeWorkspaceObservedPayload value) else
  if String.eqb type "workspace.head_changed" then Some (decodeWorkspaceHeadChangedPayload value) else
  if String.eqb type "job.enqueued" then Some (decodeJobEnqueuedPayload value) else
  if String.eqb type "job.succeeded" then Some (decodeJobSucceededPayload value) else
  if String.eqb type "job.failed" then Some (decodeJobFailedPayload value) else
  if String.eqb type "published_service.requested" then Some (decodePublishedServiceRequestedPayload value) else
  if String.eqb type "published_service.ready" then Some (decodePublishedServiceReadyPayload value) else
  if String.eqb type "published_service.failed" then Some (decodePublishedServiceFailedPayload value) else
  if String.eqb type "published_service.expired" then Some (decodePublishedServiceExpiredPayload value) else
  if String.eqb type "published_service.revoked" then Some (decodePublishedServiceRevokedPayload value) else
  None.
Definition encodeFramePayload (type : string) (payload : option json) : option (result string string) :=
  if String.eqb type "organisation.created" then Some (encodeOrganisationCreatedPayload payload) else
  if String.eqb type "project.created" then Some (encodeProjectCreatedPayload payload) else
  if String.eqb type "project.updated" then Some (encodeProjectUpdatedPayload payload) else
  if String.eqb type "project.repository_changed" then Some (encodeProjectRepositoryChangedPayload payload) else
  if String.eqb type "project.archived" then Some (encodeProjectArchivedPayload payload) else
  if String.eqb type "user.invited" then Some (encodeUserInvitedPayload payload) else
  if String.eqb type "user.credentials_set" then Some (encodeUserCredentialsSetPayload payload) else
  if String.eqb type "authentication.login_succeeded" then Some (encodeAuthenticationLoginSucceededPayload payload) else
  if String.eqb type "authentication.login_failed" then Some (encodeAuthenticationLoginFailedPayload payload) else
  if String.eqb type "session.revoked" then Some (encodeSessionRevokedPayload payload) else
  if String.eqb type "connector.enrolled" then Some (encodeConnectorEnrolledPayload payload) else
  if String.eqb type "connector.connected" then Some (encodeConnectorConnectedPayload payload) else
  if String.eqb type "connector.degraded" then Some (encodeConnectorDegradedPayload payload) else
  if String.eqb type "connector.disconnected" then Some (encodeConnectorDisconnectedPayload payload) else
  if String.eqb type "connector.revoked" then Some (encodeConnectorRevokedPayload payload) else
  if String.eqb type "workspace.observed" then Some (encodeWorkspaceObservedPayload payload) else
  if String.eqb type "workspace.head_changed" then Some (encodeWorkspaceHeadChangedPayload payload) else
  if String.eqb type "job.enqueued" then Some (encodeJobEnqueuedPayload payload) else
  if String.eqb type "job.succeeded" then Some (encodeJobSucceededPayload payload) else
  if String.eqb type "job.failed" then Some (encodeJobFailedPayload payload) else
  if String.eqb type "published_service.requested" then Some (encodePublishedServiceRequestedPayload payload) else
  if String.eqb type "published_service.ready" then Some (encodePublishedServiceReadyPayload payload) else
  if String.eqb type "published_service.failed" then Some (encodePublishedServiceFailedPayload payload) else
  if String.eqb type "published_service.expired" then Some (encodePublishedServiceExpiredPayload payload) else
  if String.eqb type "published_service.revoked" then Some (encodePublishedServiceRevokedPayload payload) else
  None.

(** The objects of the schema, with the type and the functions generated for
    them. *)
Definition platform_codec : list Coded :=
  [coded schema_repository_identity RepositoryIdentity validateRepositoryIdentity encodeRepositoryIdentity decodeRepositoryIdentity;
   coded schema_validation_viewport ValidationViewport validateValidationViewport encodeValidationViewport decodeValidationViewport;
   coded schema_project_settings ProjectSettings validateProjectSettings encodeProjectSettings decodeProjectSettings;
   coded schema_organisation Organisation validateOrganisation encodeOrganisation decodeOrganisation;
   coded schema_user User validateUser encodeUser decodeUser;
   coded schema_project Project validateProject encodeProject decodeProject;
   coded schema_human_session HumanSession validateHumanSession encodeHumanSession decodeHumanSession;
   coded schema_agent_session AgentSession validateAgentSession encodeAgentSession decodeAgentSession;
   coded schema_environment Environment validateEnvironment encodeEnvironment decodeEnvironment;
   coded schema_connector Connector validateConnector encodeConnector decodeConnector;
   coded schema_workspace Workspace validateWorkspace encodeWorkspace decodeWorkspace;
   coded schema_actor Actor validateActor encodeActor decodeActor;
   coded schema_correlation Correlation validateCorrelation encodeCorrelation decodeCorrelation;
   coded schema_organisation_created_payload OrganisationCreatedPayload validateOrganisationCreatedPayload encodeOrganisationCreatedPayload decodeOrganisationCreatedPayload;
   coded schema_project_created_payload ProjectCreatedPayload validateProjectCreatedPayload encodeProjectCreatedPayload decodeProjectCreatedPayload;
   coded schema_project_repository_changed_payload ProjectRepositoryChangedPayload validateProjectRepositoryChangedPayload encodeProjectRepositoryChangedPayload decodeProjectRepositoryChangedPayload;
   coded schema_user_invited_payload UserInvitedPayload validateUserInvitedPayload encodeUserInvitedPayload decodeUserInvitedPayload;
   coded schema_user_credentials_set_payload UserCredentialsSetPayload validateUserCredentialsSetPayload encodeUserCredentialsSetPayload decodeUserCredentialsSetPayload;
   coded schema_authentication_login_succeeded_payload AuthenticationLoginSucceededPayload validateAuthenticationLoginSucceededPayload encodeAuthenticationLoginSucceededPayload decodeAuthenticationLoginSucceededPayload;
   coded schema_authentication_login_failed_payload AuthenticationLoginFailedPayload validateAuthenticationLoginFailedPayload encodeAuthenticationLoginFailedPayload decodeAuthenticationLoginFailedPayload;
   coded schema_session_revoked_payload SessionRevokedPayload validateSessionRevokedPayload encodeSessionRevokedPayload decodeSessionRevokedPayload;
   coded schema_project_updated_payload ProjectUpdatedPayload validateProjectUpdatedPayload encodeProjectUpdatedPayload decodeProjectUpdatedPayload;
   coded schema_project_archived_payload ProjectArchivedPayload validateProjectArchivedPayload encodeProjectArchivedPayload decodeProjectArchivedPayload;
   coded schema_connector_enrolled_payload ConnectorEnrolledPayload validateConnectorEnrolledPayload encodeConnectorEnrolledPayload decodeConnectorEnrolledPayload;
   coded schema_connector_connected_payload ConnectorConnectedPayload validateConnectorConnectedPayload encodeConnectorConnectedPayload decodeConnectorConnectedPayload;
   coded schema_connector_degraded_payload ConnectorDegradedPayload validateConnectorDegradedPayload encodeConnectorDegradedPayload decodeConnectorDegradedPayload;
   coded schema_connector_disconnected_payload ConnectorDisconnectedPayload validateConnectorDisconnectedPayload encodeConnectorDisconnectedPayload decodeConnectorDisconnectedPayload;
   coded schema_connector_revoked_payload ConnectorRevokedPayload validateConnectorRevokedPayload encodeConnectorRevokedPayload decodeConnectorRevokedPayload;
   coded schema_workspace_observed_payload WorkspaceObservedPayload validateWorkspaceObservedPayload encodeWorkspaceObservedPayload decodeWorkspaceObservedPayload;
   coded schema_workspace_head_changed_payload WorkspaceHeadChangedPayload validateWorkspaceHeadChangedPayload encodeWorkspaceHeadChangedPayload decodeWorkspaceHeadChangedPayload;
   coded schema_job_enqueued_payload JobEnqueuedPayload validateJobEnqueuedPayload encodeJobEnqueuedPayload decodeJobEnqueuedPayload;
   coded schema_job_succeeded_payload JobSucceededPayload validateJobSucceededPayload encodeJobSucceededPayload decodeJobSucceededPayload;
   coded schema_job_failed_payload JobFailedPayload validateJobFailedPayload encodeJobFailedPayload decodeJobFailedPayload;
   coded schema_backup_product BackupProduct validateBackupProduct encodeBackupProduct decodeBackupProduct;
   coded schema_backup_source BackupSource validateBackupSource encodeBackupSource decodeBackupSource;
   coded schema_backup_table BackupTable validateBackupTable encodeBackupTable decodeBackupTable;
   coded schema_backup_entry BackupEntry validateBackupEntry encodeBackupEntry decodeBackupEntry;
   coded schema_backup_key_material BackupKeyMaterial validateBackupKeyMaterial encodeBackupKeyMaterial decodeBackupKeyMaterial;
   coded schema_backup_manifest BackupManifest validateBackupManifest encodeBackupManifest decodeBackupManifest;
   coded schema_migration_record MigrationRecord validateMigrationRecord encodeMigrationRecord decodeMigrationRecord;
   coded schema_migration_state MigrationState validateMigrationState encodeMigrationState decodeMigrationState;
   coded schema_compatibility_check CompatibilityCheck validateCompatibilityCheck encodeCompatibilityCheck decodeCompatibilityCheck;
   coded schema_compatibility_report CompatibilityReport validateCompatibilityReport encodeCompatibilityReport decodeCompatibilityReport;
   coded schema_stream_subscribe StreamSubscribe validateStreamSubscribe encodeStreamSubscribe decodeStreamSubscribe;
   coded schema_stream_subscribed StreamSubscribed validateStreamSubscribed encodeStreamSubscribed decodeStreamSubscribed;
   coded schema_stream_refresh_required StreamRefreshRequired validateStreamRefreshRequired encodeStreamRefreshRequired decodeStreamRefreshRequired;
   coded schema_stream_heartbeat StreamHeartbeat validateStreamHeartbeat encodeStreamHeartbeat decodeStreamHeartbeat;
   coded schema_stream_error StreamError validateStreamError encodeStreamError decodeStreamError;
   coded schema_api_error_details ApiErrorDetails validateApiErrorDetails encodeApiErrorDetails decodeApiErrorDetails;
   coded schema_api_error ApiError validateApiError encodeApiError decodeApiError;
   coded schema_api_meta ApiMeta validateApiMeta encodeApiMeta decodeApiMeta;
   coded schema_api_error_response ApiErrorResponse validateApiErrorResponse encodeApiErrorResponse decodeApiErrorResponse;
   coded schema_cursor_claims CursorClaims validateCursorClaims encodeCursorClaims decodeCursorClaims;
   coded schema_published_service PublishedService validatePublishedService encodePublishedService decodePublishedService;
   coded schema_published_service_requested_payload PublishedServiceRequestedPayload validatePublishedServiceRequestedPayload encodePublishedServiceRequestedPayload decodePublishedServiceRequestedPayload;
   coded schema_published_service_ready_payload PublishedServiceReadyPayload validatePublishedServiceReadyPayload encodePublishedServiceReadyPayload decodePublishedServiceReadyPayload;
   coded schema_published_service_failed_payload PublishedServiceFailedPayload validatePublishedServiceFailedPayload encodePublishedServiceFailedPayload decodePublishedServiceFailedPayload;
   coded schema_published_service_expired_payload PublishedServiceExpiredPayload validatePublishedServiceExpiredPayload encodePublishedServiceExpiredPayload decodePublishedServiceExpiredPayload;
   coded schema_published_service_revoked_payload PublishedServiceRevokedPayload validatePublishedServiceRevokedPayload encodePublishedServiceRevokedPayload decodePublishedServiceRevokedPayload].

Lemma platform_codec_generated : Forall codes platform_codec.
Proof. repeat (apply Forall_cons_2; [by repeat split|]). apply Forall_nil_2. Qed.
(** The envelope, whose payload is text that was encoded before. *)
Lemma platform_envelope_generated value text value' :
  encodeEnvelope value text = encoding text schema_envelope value
  ∧ (∀ source, decodeEnvelope source = decoding schema_envelope source)
  ∧ Envelope value' = typing schema_envelope value'.
Proof. by split. Qed.

(** The functions of the dispatch. *)
Definition platform_dispatch : Dispatch :=
  {| payloads := platform_messages; message_types := MESSAGE_TYPE_VALUES; validate_payload := validatePayload;
     decode_payload := decodeFrame; encode_payload := encodeFramePayload |}.
Lemma platform_dispatch_generated : dispatches platform_dispatch.
Proof.
  split; [reflexivity|]. repeat (apply Forall_cons_2; [by repeat split|]). apply Forall_nil_2.
Qed.
