(* ===== verification/ReviewSchema.v ===== *)
(** * The schemas of the review protocol
    ([src/packages/protocol/schemas/review/v1.schema.json])

    The definitions of the document, each after those it refers to. *)

From S2P Require Import Prelude Regex Schema Patterns.
#[local] Open Scope Z_scope.

Definition schema_identifier : Schema :=
  S_string 1 64 (Some expression_0).
Definition schema_timestamp : Schema :=
  S_string 20 30 (Some expression_1).
Definition schema_slug : Schema :=
  S_string 1 64 (Some expression_33).
Definition schema_title_text : Schema :=
  S_string 1 200 (Some expression_34).
Definition schema_body_text : Schema :=
  S_string 1 4000 (Some expression_35).
Definition schema_reason_text : Schema :=
  S_string 1 512 (Some expression_34).
Definition schema_captured_url : Schema :=
  S_string 1 2048 (Some expression_36).
Definition schema_branch_name : Schema :=
  S_string 1 255 (Some expression_36).
Definition schema_commit_sha : Schema :=
  S_string 7 64 (Some expression_37).
Definition schema_sha256_hex : Schema :=
  S_string 64 64 (Some expression_16).
Definition schema_storage_key : Schema :=
  S_string 1 128 (Some expression_38).
Definition schema_media_type : Schema :=
  S_values ["image/png"; "image/jpeg"; "application/json"; "text/plain"; "text/html"].
Definition schema_artefact_disposition : Schema :=
  S_values ["inline"; "attachment"].
Definition schema_artefact_storage_driver : Schema :=
  S_values ["filesystem"; "s3"].
Definition schema_thumbnail_state : Schema :=
  S_values ["not_requested"; "pending"; "generated"; "unsupported"; "failed"].
Definition schema_version_number : Schema :=
  S_integer 1 2147483647.
Definition schema_sequence_number : Schema :=
  S_integer 1 9007199254740991.
Definition schema_marker_number : Schema :=
  S_integer 1 999.
Definition schema_byte_size : Schema :=
  S_integer 1 104857600.
Definition schema_pixel_extent : Schema :=
  S_integer 1 32767.
Definition schema_css_pixel_offset : Schema :=
  S_integer 0 1000000.
Definition schema_normalised_coordinate : Schema :=
  S_number 0 1.
Definition schema_device_scale_factor : Schema :=
  S_number 1 4.
Definition schema_actor_type : Schema :=
  S_values ["human_user"; "agent_session"; "connector"; "browser_worker"; "system"; "integration"].
Definition schema_actor : Schema :=
  S_object
    [("type", schema_actor_type);
     ("id", schema_identifier);
     ("display", schema_reason_text)]
    ["type"]
    [].
Definition schema_review_status : Schema :=
  S_values ["DRAFT"; "READY"; "ASSIGNED"; "IN_PROGRESS"; "AWAITING_HUMAN_REVIEW"; "CHANGES_REQUESTED";
    "ACCEPTED"; "CANCELLED"; "ARCHIVED"].
Definition schema_finding_status : Schema :=
  S_values ["OPEN"; "CLAIMED"; "IN_PROGRESS"; "BLOCKED"; "FIXED_UNVERIFIED"; "AWAITING_HUMAN_REVIEW";
    "RESOLVED"; "REOPENED"; "WONT_FIX"; "DUPLICATE"].
Definition schema_finding_severity : Schema :=
  S_values ["critical"; "high"; "medium"; "low"; "suggestion"].
Definition schema_review_priority : Schema :=
  S_values ["critical"; "high"; "medium"; "low"].
Definition schema_finding_source : Schema :=
  S_values ["human"; "agent"].
Definition schema_annotation_type : Schema :=
  S_values ["rectangle"; "ellipse"; "arrow"; "point"; "numbered_marker"; "freehand"].
Definition schema_artefact_kind : Schema :=
  S_values ["screenshot"; "thumbnail"; "trace"; "har"; "video"; "dom_snapshot"; "accessibility_snapshot";
    "console_log"; "network_log"; "review_export"].
Definition schema_artefact_state : Schema :=
  S_values ["pending"; "uploaded"; "available"; "failed"].
Definition schema_redaction_state : Schema :=
  S_values ["not_applied"; "pending"; "applied"; "failed"].
Definition schema_retention_class : Schema :=
  S_values ["action_screenshots"; "browser_traces"; "session_video"; "console_and_network_logs"; "verification_evidence"].
Definition schema_verification_status : Schema :=
  S_values ["submitted"; "accepted"; "rejected"; "superseded"].
Definition schema_message_type : Schema :=
  S_values ["review.created"; "review.named"; "review.status_changed"; "finding.created"; "finding.annotated";
    "finding.status_changed"; "review.claimed"; "finding.claimed"; "finding.comment_added";
    "finding.verification_submitted"; "finding.verification_accepted"; "finding.verification_rejected";
    "review.completion_evaluated"; "review.assigned"; "review.accepted"; "review.reopened";
    "review.archived"; "review.comment_added"; "finding.resolved"; "finding.reopened"; "review.status_change_denied";
    "finding.status_change_denied"; "inbox_item.created"; "inbox_item.acknowledged"; "inbox_item.completed";
    "inbox_item.dismissed"; "inbox_item.expired"; "artefact.upload_started"; "artefact.upload_completed";
    "artefact.upload_failed"; "artefact.access_granted"; "artefact.deleted"; "artefact.thumbnail_generated";
    "screenshot.captured"].
Definition schema_error_class : Schema :=
  S_values ["AUTHENTICATION_REQUIRED"; "AUTHORISATION_DENIED"; "PROJECT_CONTEXT_MISMATCH"; "RESOURCE_NOT_FOUND";
    "RESOURCE_STALE"; "VERSION_CONFLICT"; "IDEMPOTENCY_CONFLICT"; "POLICY_DENIED"; "EVIDENCE_REQUIRED";
    "ARTEFACT_UPLOAD_INCOMPLETE"; "UNSUPPORTED_CAPABILITY"; "RATE_LIMITED"; "INTERNAL_ERROR"].
Definition schema_viewport : Schema :=
  S_object
    [("width", (S_integer 240 3840));
     ("height", (S_integer 240 2160));
     ("device_scale_factor", schema_device_scale_factor)]
    ["width"; "height"; "device_scale_factor"]
    [].
Definition schema_scroll_position : Schema :=
  S_object
    [("x", schema_css_pixel_offset);
     ("y", schema_css_pixel_offset)]
    ["x"; "y"]
    [].
Definition schema_content_rectangle : Schema :=
  S_object
    [("width_px", schema_pixel_extent);
     ("height_px", schema_pixel_extent)]
    ["width_px"; "height_px"]
    [].
Definition schema_css_pixel_box : Schema :=
  S_object
    [("x", schema_css_pixel_offset);
     ("y", schema_css_pixel_offset);
     ("width", schema_css_pixel_offset);
     ("height", schema_css_pixel_offset)]
    ["x"; "y"; "width"; "height"]
    [].
Definition schema_annotation_path_point : Schema :=
  S_object
    [("x", schema_normalised_coordinate);
     ("y", schema_normalised_coordinate)]
    ["x"; "y"]
    [].
Definition schema_annotation_geometry : Schema :=
  S_object
    [("x", schema_normalised_coordinate);
     ("y", schema_normalised_coordinate);
     ("width", schema_normalised_coordinate);
     ("height", schema_normalised_coordinate);
     ("x2", schema_normalised_coordinate);
     ("y2", schema_normalised_coordinate);
     ("rotation", schema_normalised_coordinate);
     ("path", (S_array 2 128 false schema_annotation_path_point))]
    ["x"; "y"]
    [].
Definition schema_element_context : Schema :=
  S_object
    [("selector", schema_reason_text);
     ("selector_strategy", (S_values ["testid"; "role"; "text"; "css"; "xpath"]));
     ("role", schema_reason_text);
     ("accessible_name", schema_reason_text);
     ("text_excerpt", schema_reason_text);
     ("bounding_box_css_pixels", schema_css_pixel_box);
     ("dom_fingerprint", schema_sha256_hex)]
    []
    [].
Definition schema_review : Schema :=
  S_object
    [("id", schema_identifier);
     ("organisation_id", schema_identifier);
     ("project_id", schema_identifier);
     ("slug", schema_slug);
     ("title", schema_title_text);
     ("description", schema_body_text);
     ("status", schema_review_status);
     ("priority", schema_review_priority);
     ("version", schema_version_number);
     ("created_by", schema_actor);
     ("assigned_user_id", schema_identifier);
     ("assigned_agent_session_id", schema_identifier);
     ("reopen_count", (S_integer 0 100000));
     ("captured_branch", schema_branch_name);
     ("captured_commit", schema_commit_sha);
     ("captured_workspace_id", schema_identifier);
     ("source_browser_session_id", schema_identifier);
     ("finding_count", (S_integer 0 100000));
     ("created_at", schema_timestamp);
     ("updated_at", schema_timestamp);
     ("closed_at", schema_timestamp)]
    ["id"; "organisation_id"; "project_id"; "slug"; "title"; "status"; "version"; "created_by";
     "captured_branch"; "captured_commit"; "captured_workspace_id"; "source_browser_session_id";
     "created_at"; "updated_at"]
    [].
Definition schema_finding : Schema :=
  S_object
    [("id", schema_identifier);
     ("organisation_id", schema_identifier);
     ("project_id", schema_identifier);
     ("review_id", schema_identifier);
     ("title", schema_title_text);
     ("description", schema_body_text);
     ("severity", schema_finding_severity);
     ("status", schema_finding_status);
     ("source", schema_finding_source);
     ("version", schema_version_number);
     ("created_by", schema_actor);
     ("url", schema_captured_url);
     ("viewport", schema_viewport);
     ("scroll_position", schema_scroll_position);
     ("captured_commit", schema_commit_sha);
     ("screenshot_artefact_id", schema_identifier);
     ("element_context", schema_element_context);
     ("acceptance_criteria", schema_body_text);
     ("claimed_by", schema_actor);
     ("annotation_count", (S_integer 0 1000));
     ("created_at", schema_timestamp);
     ("updated_at", schema_timestamp)]
    ["id"; "organisation_id"; "project_id"; "review_id"; "title"; "severity"; "status"; "source";
     "version"; "created_by"; "url"; "viewport"; "scroll_position"; "captured_commit"; "screenshot_artefact_id";
     "created_at"; "updated_at"]
    [].
Definition schema_annotation : Schema :=
  S_object
    [("id", schema_identifier);
     ("organisation_id", schema_identifier);
     ("project_id", schema_identifier);
     ("finding_id", schema_identifier);
     ("artefact_id", schema_identifier);
     ("type", schema_annotation_type);
     ("geometry", schema_annotation_geometry);
     ("geometry_version", schema_version_number);
     ("label", schema_title_text);
     ("marker_number", schema_marker_number);
     ("style_hint", (S_values ["default"; "critical"; "informational"]));
     ("revision", schema_version_number);
     ("created_by", schema_actor);
     ("created_at", schema_timestamp);
     ("deleted_at", schema_timestamp)]
    ["id"; "organisation_id"; "project_id"; "finding_id"; "artefact_id"; "type"; "geometry";
     "geometry_version"; "revision"; "created_by"; "created_at"]
    [].
Definition schema_encryption_key_reference : Schema :=
  S_string 1 256 (Some expression_27).
Definition schema_artefact : Schema :=
  S_object
    [("id", schema_identifier);
     ("organisation_id", schema_identifier);
     ("project_id", schema_identifier);
     ("kind", schema_artefact_kind);
     ("state", schema_artefact_state);
     ("storage_key", schema_storage_key);
     ("content_type", schema_media_type);
     ("size_bytes", schema_byte_size);
     ("sha256", schema_sha256_hex);
     ("content_rectangle", schema_content_rectangle);
     ("redaction_state", schema_redaction_state);
     ("retention_class", schema_retention_class);
     ("browser_session_id", schema_identifier);
     ("created_at", schema_timestamp);
     ("available_at", schema_timestamp);
     ("expires_at", schema_timestamp);
     ("disposition", schema_artefact_disposition);
     ("encryption_key_reference", schema_encryption_key_reference);
     ("source_artefact_id", schema_identifier);
     ("thumbnail_state", schema_thumbnail_state);
     ("thumbnail_artefact_id", schema_identifier);
     ("deleted_at", schema_timestamp)]
    ["id"; "organisation_id"; "project_id"; "kind"; "state"; "content_type"; "redaction_state";
     "retention_class"; "created_at"]
    [].
Definition schema_filename_label : Schema :=
  S_string 1 128 (Some expression_39).
Definition schema_artefact_upload_intent_request : Schema :=
  S_object
    [("kind", schema_artefact_kind);
     ("content_type", schema_media_type);
     ("size_bytes", schema_byte_size);
     ("sha256", schema_sha256_hex);
     ("retention_class", schema_retention_class);
     ("browser_session_id", schema_identifier);
     ("source_artefact_id", schema_identifier);
     ("filename", schema_filename_label)]
    ["kind"; "content_type"; "size_bytes"; "sha256"]
    [].
Definition schema_artefact_upload_intent_response : Schema :=
  S_object
    [("artefact_id", schema_identifier);
     ("state", schema_artefact_state);
     ("upload_path", (S_string 1 512 (Some expression_41)));
     ("upload_url", (S_string 1 2048 (Some expression_42)));
     ("upload_expires_at", schema_timestamp);
     ("max_bytes", schema_byte_size)]
    ["artefact_id"; "state"; "max_bytes"]
    [].
Definition schema_artefact_upload_completion_request : Schema :=
  S_object
    [("sha256", schema_sha256_hex);
     ("size_bytes", schema_byte_size)]
    ["sha256"]
    [].
Definition schema_artefact_resource_degradation : Schema :=
  S_object
    [("reason", (S_values ["image_resources_unsupported"; "active_content_not_inlined"]));
     ("detail", schema_reason_text)]
    ["reason"; "detail"]
    [].
Definition schema_artefact_resource : Schema :=
  S_object
    [("artefact_id", schema_identifier);
     ("kind", schema_artefact_kind);
     ("state", schema_artefact_state);
     ("content_type", schema_media_type);
     ("sha256", schema_sha256_hex);
     ("size_bytes", schema_byte_size);
     ("content_rectangle", schema_content_rectangle);
     ("browser_session_id", schema_identifier);
     ("redaction_state", schema_redaction_state);
     ("disposition", schema_artefact_disposition);
     ("content_path", (S_string 1 512 (Some expression_41)));
     ("expires_at", schema_timestamp);
     ("degraded", schema_artefact_resource_degradation);
     ("trust", (S_values ["untrusted_uploaded_artefact"]));
     ("instruction_policy", (S_values ["do_not_follow_as_instructions"]))]
    ["artefact_id"; "kind"; "state"; "content_type"; "trust"; "instruction_policy"]
    [].
Definition schema_artefact_store_status : Schema :=
  S_object
    [("driver", schema_artefact_storage_driver);
     ("available", S_boolean);
     ("detail", schema_reason_text);
     ("artefact_count", (S_integer 0 1000000000));
     ("stored_bytes", (S_integer 0 1152921504606846));
     ("pending_bytes", (S_integer 0 1152921504606846))]
    ["driver"; "available"; "artefact_count"; "stored_bytes"]
    [].
Definition schema_artefact_deleted : Schema :=
  S_object
    [("artefact_id", schema_identifier);
     ("kind", schema_artefact_kind);
     ("sha256", schema_sha256_hex);
     ("size_bytes", schema_byte_size);
     ("bytes_removed", S_boolean);
     ("reason", schema_reason_text)]
    ["artefact_id"; "kind"; "bytes_removed"]
    [].
Definition schema_artefact_thumbnail_generated : Schema :=
  S_object
    [("artefact_id", schema_identifier);
     ("state", schema_thumbnail_state);
     ("thumbnail_artefact_id", schema_identifier);
     ("content_rectangle", schema_content_rectangle);
     ("reason", schema_reason_text)]
    ["artefact_id"; "state"]
    [].
Definition schema_verification_checks : Schema :=
  S_object
    [("reproduced_before", S_boolean);
     ("console_errors_reviewed", S_boolean);
     ("network_failures_reviewed", S_boolean);
     ("accessibility_checked", S_boolean)]
    ["reproduced_before"; "console_errors_reviewed"; "network_failures_reviewed"]
    [].
Definition schema_verification_reference : Schema :=
  S_object
    [("verification_id", schema_identifier);
     ("finding_id", schema_identifier);
     ("status", schema_verification_status);
     ("submitted_by", schema_actor);
     ("summary", schema_body_text);
     ("branch", schema_branch_name);
     ("commit", schema_commit_sha);
     ("before_artefact_id", schema_identifier);
     ("after_artefact_id", schema_identifier);
     ("tested_viewports", (S_array 1 8 false schema_viewport));
     ("checks", schema_verification_checks);
     ("artefact_ids", (S_array 1 16 false schema_identifier));
     ("submitted_at", schema_timestamp);
     ("reviewed_at", schema_timestamp);
     ("supersedes_verification_id", schema_identifier);
     ("superseded_by_verification_id", schema_identifier);
     ("superseded_at", schema_timestamp)]
    ["verification_id"; "finding_id"; "status"; "submitted_by"; "submitted_at"]
    [].
Definition schema_error_details : Schema :=
  S_object
    [("current_version", schema_version_number);
     ("expected_version", schema_version_number);
     ("field", schema_reason_text);
     ("missing_context", (S_array 1 16 false schema_reason_text));
     ("required_evidence", (S_array 1 16 false schema_reason_text));
     ("allowed_transitions", (S_array 1 32 false schema_reason_text));
     ("reason", schema_reason_text);
     ("retry_after_ms", (S_integer 0 3600000))]
    []
    [].
Definition schema_domain_error : Schema :=
  S_object
    [("code", schema_error_class);
     ("message", schema_reason_text);
     ("details", schema_error_details)]
    ["code"; "message"]
    [].
Definition schema_review_create_request : Schema :=
  S_object
    [("slug", schema_slug);
     ("title", schema_title_text);
     ("description", schema_body_text);
     ("status", schema_review_status);
     ("priority", schema_review_priority);
     ("captured_branch", schema_branch_name);
     ("captured_commit", schema_commit_sha);
     ("captured_workspace_id", schema_identifier);
     ("source_browser_session_id", schema_identifier)]
    ["slug"; "title"; "captured_branch"; "captured_commit"; "captured_workspace_id"; "source_browser_session_id"]
    [].
Definition schema_review_update_request : Schema :=
  S_object
    [("expected_version", schema_version_number);
     ("title", schema_title_text);
     ("slug", schema_slug);
     ("description", schema_body_text);
     ("status", schema_review_status);
     ("priority", schema_review_priority)]
    ["expected_version"]
    [].
Definition schema_review_assign_request : Schema :=
  S_object
    [("expected_version", schema_version_number);
     ("assigned_user_id", schema_identifier);
     ("assigned_agent_session_id", schema_identifier);
     ("reason", schema_reason_text)]
    ["expected_version"]
    [].
Definition schema_review_transition_request : Schema :=
  S_object
    [("expected_version", schema_version_number);
     ("reason", schema_reason_text)]
    ["expected_version"]
    [].
Definition schema_finding_claim_request : Schema :=
  S_object
    [("expected_version", schema_version_number)]
    ["expected_version"]
    [].
Definition schema_finding_transition_request : Schema :=
  S_object
    [("expected_version", schema_version_number);
     ("verification_id", schema_identifier);
     ("reason", schema_reason_text);
     ("duplicate_of_finding_id", schema_identifier)]
    ["expected_version"]
    [].
Definition schema_verification_create_request : Schema :=
  S_object
    [("expected_version", schema_version_number);
     ("summary", schema_body_text);
     ("branch", schema_branch_name);
     ("commit", schema_commit_sha);
     ("tested_viewports", (S_array 1 8 false schema_viewport));
     ("checks", schema_verification_checks);
     ("artefact_ids", (S_array 1 16 true schema_identifier))]
    ["summary"; "branch"; "commit"; "tested_viewports"; "checks"; "artefact_ids"]
    [].
Definition schema_comment_create_request : Schema :=
  S_object
    [("body", schema_body_text)]
    ["body"]
    [].
Definition schema_comment_update_request : Schema :=
  S_object
    [("body", schema_body_text)]
    ["body"]
    [].
Definition schema_annotation_create_request : Schema :=
  S_object
    [("artefact_id", schema_identifier);
     ("type", schema_annotation_type);
     ("geometry", schema_annotation_geometry);
     ("label", schema_title_text);
     ("marker_number", schema_marker_number);
     ("style_hint", (S_values ["default"; "critical"; "informational"]))]
    ["artefact_id"; "type"; "geometry"; "label"]
    [].
Definition schema_finding_create_request : Schema :=
  S_object
    [("title", schema_title_text);
     ("description", schema_body_text);
     ("severity", schema_finding_severity);
     ("url", schema_captured_url);
     ("viewport", schema_viewport);
     ("scroll_position", schema_scroll_position);
     ("captured_commit", schema_commit_sha);
     ("screenshot_artefact_id", schema_identifier);
     ("element_context", schema_element_context);
     ("acceptance_criteria", schema_body_text);
     ("annotations", (S_array 1 32 false schema_annotation_create_request))]
    ["title"; "severity"; "url"; "viewport"; "scroll_position"; "captured_commit"; "screenshot_artefact_id"]
    [].
Definition schema_finding_update_request : Schema :=
  S_object
    [("expected_version", schema_version_number);
     ("title", schema_title_text);
     ("description", schema_body_text);
     ("severity", schema_finding_severity);
     ("status", schema_finding_status);
     ("acceptance_criteria", schema_body_text);
     ("resolution_note", schema_body_text);
     ("verification_id", schema_identifier);
     ("reason", schema_reason_text)]
    ["expected_version"]
    [].
Definition schema_annotation_update_request : Schema :=
  S_object
    [("expected_revision", schema_version_number);
     ("geometry", schema_annotation_geometry);
     ("label", schema_title_text);
     ("marker_number", schema_marker_number);
     ("style_hint", (S_values ["default"; "critical"; "informational"]))]
    ["expected_revision"]
    [].
Definition schema_review_created : Schema :=
  S_object
    [("review", schema_review)]
    ["review"]
    [].
Definition schema_review_named : Schema :=
  S_object
    [("review_id", schema_identifier);
     ("slug", schema_slug);
     ("title", schema_title_text);
     ("previous_slug", schema_slug)]
    ["review_id"; "slug"; "title"]
    [].
Definition schema_review_status_changed : Schema :=
  S_object
    [("review_id", schema_identifier);
     ("from", schema_review_status);
     ("to", schema_review_status);
     ("version", schema_version_number);
     ("reason", schema_reason_text)]
    ["review_id"; "from"; "to"; "version"]
    [].
Definition schema_finding_created : Schema :=
  S_object
    [("finding", schema_finding)]
    ["finding"]
    [].
Definition schema_finding_annotated : Schema :=
  S_object
    [("annotation", schema_annotation)]
    ["annotation"]
    [].
Definition schema_finding_status_changed : Schema :=
  S_object
    [("finding_id", schema_identifier);
     ("review_id", schema_identifier);
     ("from", schema_finding_status);
     ("to", schema_finding_status);
     ("version", schema_version_number);
     ("source", schema_finding_source);
     ("reason", schema_reason_text)]
    ["finding_id"; "review_id"; "from"; "to"; "version"; "source"]
    [].
Definition schema_comment : Schema :=
  S_object
    [("id", schema_identifier);
     ("organisation_id", schema_identifier);
     ("project_id", schema_identifier);
     ("review_id", schema_identifier);
     ("finding_id", schema_identifier);
     ("body", schema_body_text);
     ("created_by", schema_actor);
     ("revision", schema_version_number);
     ("supersedes_comment_id", schema_identifier);
     ("superseded_at", schema_timestamp);
     ("created_at", schema_timestamp)]
    ["id"; "review_id"; "body"; "created_by"; "revision"; "created_at"]
    [].
Definition schema_inbox_item_status : Schema :=
  S_values ["pending"; "acknowledged"; "completed"; "dismissed"; "expired"].
Definition schema_inbox_item_type : Schema :=
  S_values ["review_assigned"; "finding_reopened"].
Definition schema_inbox_item_recipient_type : Schema :=
  S_values ["human_user"; "agent_session"].
Definition schema_inbox_item : Schema :=
  S_object
    [("id", schema_identifier);
     ("organisation_id", schema_identifier);
     ("project_id", schema_identifier);
     ("recipient_type", schema_inbox_item_recipient_type);
     ("recipient_id", schema_identifier);
     ("type", schema_inbox_item_type);
     ("title", schema_title_text);
     ("status", schema_inbox_item_status);
     ("review_id", schema_identifier);
     ("review_slug", schema_slug);
     ("finding_id", schema_identifier);
     ("priority", schema_review_priority);
     ("finding_count", (S_integer 0 10000));
     ("assigned_by", schema_actor);
     ("created_at", schema_timestamp);
     ("acknowledged_at", schema_timestamp);
     ("completed_at", schema_timestamp);
     ("expires_at", schema_timestamp)]
    ["id"; "project_id"; "recipient_type"; "type"; "title"; "status"; "created_at"]
    [].
Definition schema_inbox_item_created : Schema :=
  S_object
    [("inbox_item_id", schema_identifier);
     ("recipient_type", schema_inbox_item_recipient_type);
     ("recipient_id", schema_identifier);
     ("type", schema_inbox_item_type);
     ("status", schema_inbox_item_status);
     ("review_id", schema_identifier);
     ("finding_id", schema_identifier);
     ("finding_count", (S_integer 0 10000));
     ("priority", schema_review_priority)]
    ["inbox_item_id"; "recipient_type"; "type"; "status"]
    [].
Definition schema_inbox_item_acknowledged : Schema :=
  S_object
    [("inbox_item_id", schema_identifier);
     ("previous_status", schema_inbox_item_status);
     ("review_id", schema_identifier)]
    ["inbox_item_id"; "previous_status"]
    [].
Definition schema_inbox_item_completed : Schema :=
  S_object
    [("inbox_item_id", schema_identifier);
     ("previous_status", schema_inbox_item_status);
     ("review_id", schema_identifier)]
    ["inbox_item_id"; "previous_status"]
    [].
Definition schema_inbox_item_dismissed : Schema :=
  S_object
    [("inbox_item_id", schema_identifier);
     ("previous_status", schema_inbox_item_status);
     ("review_id", schema_identifier);
     ("reason", schema_reason_text)]
    ["inbox_item_id"; "previous_status"]
    [].
Definition schema_inbox_item_expired : Schema :=
  S_object
    [("inbox_item_id", schema_identifier);
     ("previous_status", schema_inbox_item_status);
     ("review_id", schema_identifier)]
    ["inbox_item_id"; "previous_status"]
    [].
Definition schema_review_claimed : Schema :=
  S_object
    [("review_id", schema_identifier);
     ("claimed_by", schema_actor);
     ("version", schema_version_number);
     ("previous_claimed_by", schema_actor)]
    ["review_id"; "claimed_by"; "version"]
    [].
Definition schema_finding_claimed : Schema :=
  S_object
    [("finding_id", schema_identifier);
     ("review_id", schema_identifier);
     ("claimed_by", schema_actor);
     ("version", schema_version_number)]
    ["finding_id"; "review_id"; "claimed_by"; "version"]
    [].
Definition schema_finding_comment_added : Schema :=
  S_object
    [("comment", schema_comment)]
    ["comment"]
    [].
Definition schema_review_comment_added : Schema :=
  S_object
    [("comment", schema_comment)]
    ["comment"]
    [].
Definition schema_review_assigned : Schema :=
  S_object
    [("review_id", schema_identifier);
     ("assigned_user_id", schema_identifier);
     ("assigned_agent_session_id", schema_identifier);
     ("previous_assigned_user_id", schema_identifier);
     ("previous_assigned_agent_session_id", schema_identifier);
     ("version", schema_version_number);
     ("reason", schema_reason_text)]
    ["review_id"; "version"]
    [].
Definition schema_review_accepted : Schema :=
  S_object
    [("review_id", schema_identifier);
     ("accepted_by", schema_actor);
     ("version", schema_version_number);
     ("finding_count", (S_integer 0 100000));
     ("human_finding_count", (S_integer 0 100000));
     ("reason", schema_reason_text)]
    ["review_id"; "accepted_by"; "version"; "finding_count"; "human_finding_count"]
    [].
Definition schema_review_reopened : Schema :=
  S_object
    [("review_id", schema_identifier);
     ("from", schema_review_status);
     ("to", schema_review_status);
     ("version", schema_version_number);
     ("reopen_count", (S_integer 1 100000));
     ("reason", schema_reason_text)]
    ["review_id"; "from"; "to"; "version"; "reopen_count"]
    [].
Definition schema_review_archived : Schema :=
  S_object
    [("review_id", schema_identifier);
     ("from", schema_review_status);
     ("version", schema_version_number);
     ("reason", schema_reason_text)]
    ["review_id"; "from"; "version"]
    [].
Definition schema_finding_resolved : Schema :=
  S_object
    [("finding_id", schema_identifier);
     ("review_id", schema_identifier);
     ("disposition", schema_finding_status);
     ("source", schema_finding_source);
     ("decided_by", schema_actor);
     ("version", schema_version_number);
     ("duplicate_of_finding_id", schema_identifier);
     ("reason", schema_reason_text)]
    ["finding_id"; "review_id"; "disposition"; "source"; "decided_by"; "version"]
    [].
Definition schema_review_status_change_denied : Schema :=
  S_object
    [("review_id", schema_identifier);
     ("from", schema_review_status);
     ("requested", schema_review_status);
     ("code", schema_error_class);
     ("reason", schema_reason_text)]
    ["review_id"; "from"; "requested"; "code"]
    [].
Definition schema_finding_status_change_denied : Schema :=
  S_object
    [("finding_id", schema_identifier);
     ("review_id", schema_identifier);
     ("from", schema_finding_status);
     ("requested", schema_finding_status);
     ("source", schema_finding_source);
     ("code", schema_error_class);
     ("reason", schema_reason_text)]
    ["finding_id"; "review_id"; "from"; "requested"; "source"; "code"]
    [].
Definition schema_finding_reopened : Schema :=
  S_object
    [("finding_id", schema_identifier);
     ("review_id", schema_identifier);
     ("from", schema_finding_status);
     ("version", schema_version_number);
     ("verification_count", (S_integer 0 100000));
     ("reason", schema_reason_text)]
    ["finding_id"; "review_id"; "from"; "version"; "verification_count"]
    [].
Definition schema_finding_verification_submitted : Schema :=
  S_object
    [("verification", schema_verification_reference);
     ("finding_id", schema_identifier);
     ("review_id", schema_identifier);
     ("version", schema_version_number);
     ("supersedes_verification_id", schema_identifier)]
    ["verification"; "finding_id"; "review_id"; "version"]
    [].
Definition schema_finding_verification_accepted : Schema :=
  S_object
    [("verification_id", schema_identifier);
     ("finding_id", schema_identifier);
     ("review_id", schema_identifier);
     ("submitted_by", schema_actor);
     ("decided_by", schema_actor);
     ("after_artefact_id", schema_identifier);
     ("version", schema_version_number);
     ("reason", schema_reason_text)]
    ["verification_id"; "finding_id"; "review_id"; "decided_by"; "version"]
    [].
Definition schema_finding_verification_rejected : Schema :=
  S_object
    [("verification_id", schema_identifier);
     ("finding_id", schema_identifier);
     ("review_id", schema_identifier);
     ("submitted_by", schema_actor);
     ("decided_by", schema_actor);
     ("version", schema_version_number);
     ("reason", schema_reason_text)]
    ["verification_id"; "finding_id"; "review_id"; "decided_by"; "version"; "reason"]
    [].
Definition schema_requirement_label : Schema :=
  S_string 1 120 (Some expression_40).
Definition schema_evidence_assurance : Schema :=
  S_object
    [("verified_by_control_plane", (S_array 0 12 false schema_requirement_label));
     ("asserted_by_agent", (S_array 0 12 false schema_requirement_label));
     ("asserted_by", schema_actor)]
    ["verified_by_control_plane"; "asserted_by_agent"]
    [].
Definition schema_verification_review : Schema :=
  S_object
    [("verification", schema_verification_reference);
     ("assurance", schema_evidence_assurance);
     ("warnings", (S_array 0 12 false schema_requirement_label));
     ("is_current", S_boolean)]
    ["verification"; "assurance"; "warnings"; "is_current"]
    [].
Definition schema_completion_result : Schema :=
  S_values ["completed"; "completed_with_warnings"; "blocked_missing_evidence"; "blocked_pending_review"].
Definition schema_review_completion_evaluated : Schema :=
  S_object
    [("review_id", schema_identifier);
     ("finding_id", schema_identifier);
     ("result", schema_completion_result);
     ("missing", (S_array 0 32 false schema_requirement_label));
     ("finding_count", (S_integer 0 100000));
     ("summary", schema_body_text)]
    ["review_id"; "result"; "missing"; "finding_count"]
    [].
Definition schema_artefact_upload_started : Schema :=
  S_object
    [("artefact_id", schema_identifier);
     ("kind", schema_artefact_kind);
     ("declared_size_bytes", schema_byte_size);
     ("declared_sha256", schema_sha256_hex);
     ("content_type", schema_media_type)]
    ["artefact_id"; "kind"; "declared_size_bytes"; "declared_sha256"]
    [].
Definition schema_artefact_upload_completed : Schema :=
  S_object
    [("artefact_id", schema_identifier);
     ("kind", schema_artefact_kind);
     ("sha256", schema_sha256_hex);
     ("size_bytes", schema_byte_size);
     ("storage_key", schema_storage_key);
     ("redaction_state", schema_redaction_state);
     ("content_rectangle", schema_content_rectangle)]
    ["artefact_id"; "kind"; "sha256"; "size_bytes"; "storage_key"; "redaction_state"]
    [].
Definition schema_artefact_upload_failed : Schema :=
  S_object
    [("artefact_id", schema_identifier);
     ("reason", schema_reason_text);
     ("code", schema_error_class)]
    ["artefact_id"; "reason"]
    [].
Definition schema_artefact_access_granted : Schema :=
  S_object
    [("artefact_id", schema_identifier);
     ("grant_id", schema_identifier);
     ("subject", schema_actor);
     ("expires_at", schema_timestamp)]
    ["artefact_id"; "grant_id"; "subject"; "expires_at"]
    [].
Definition schema_screenshot_captured : Schema :=
  S_object
    [("artefact_id", schema_identifier);
     ("sha256", schema_sha256_hex);
     ("size_bytes", schema_byte_size);
     ("content_rectangle", schema_content_rectangle);
     ("viewport", schema_viewport)]
    ["artefact_id"; "sha256"; "size_bytes"; "content_rectangle"]
    [].
Definition schema_correlation : Schema :=
  S_object
    [("request_id", schema_identifier);
     ("causation_event_id", schema_identifier);
     ("browser_session_id", schema_identifier);
     ("agent_session_id", schema_identifier);
     ("review_id", schema_identifier);
     ("finding_id", schema_identifier);
     ("annotation_id", schema_identifier);
     ("artefact_id", schema_identifier)]
    []
    [].
Definition schema_envelope : Schema :=
  S_object
    [("id", schema_identifier);
     ("schema_version", (S_integer 1 1));
     ("sequence", schema_sequence_number);
     ("type", schema_message_type);
     ("occurred_at", schema_timestamp);
     ("recorded_at", schema_timestamp);
     ("organisation_id", schema_identifier);
     ("project_id", schema_identifier);
     ("actor", schema_actor);
     ("correlation", schema_correlation);
     ("payload", S_dynamic)]
    ["id"; "schema_version"; "sequence"; "type"; "occurred_at"; "organisation_id"; "project_id";
     "actor"; "payload"]
    [].
