(* ===== verification/ReviewValidate.v ===== *)
(** * The validators of the review protocol
    ([src/packages/protocol/src/generated/review/v1/validate.ts])

    The generated functions as they stand, each after those it calls, and the table
    of those that the schema's definitions have; each finds the violations of its
    definition, in the same order. *)

From S2P Require Import Prelude ReviewDomain StableJson Validation Schema Patterns ReviewSchema.
#[local] Open Scope Z_scope.

Definition PATTERN_0 : string → bool := whole expression_0.
Definition PATTERN_1 : string → bool := whole expression_1.
Definition PATTERN_2 : string → bool := whole expression_33.
Definition PATTERN_3 : string → bool := whole expression_34.
Definition PATTERN_4 : string → bool := whole expression_35.
Definition PATTERN_5 : string → bool := whole expression_36.
Definition PATTERN_6 : string → bool := whole expression_37.
Definition PATTERN_7 : string → bool := whole expression_16.
Definition PATTERN_8 : string → bool := whole expression_38.
Definition PATTERN_9 : string → bool := whole expression_27.
Definition PATTERN_10 : string → bool := whole expression_39.
Definition PATTERN_11 : string → bool := whole expression_40.
Definition PATTERN_12 : string → bool := whole expression_41.
Definition PATTERN_13 : string → bool := whole expression_42.

Definition validateIdentifier : json → string → list SchemaViolation :=
  checkString (of_lengths 1 64 (Some PATTERN_0)).
Definition validateTimestamp : json → string → list SchemaViolation :=
  checkString (of_lengths 20 30 (Some PATTERN_1)).
Definition validateSlug : json → string → list SchemaViolation :=
  checkString (of_lengths 1 64 (Some PATTERN_2)).
Definition validateTitleText : json → string → list SchemaViolation :=
  checkString (of_lengths 1 200 (Some PATTERN_3)).
Definition validateBodyText : json → string → list SchemaViolation :=
  checkString (of_lengths 1 4000 (Some PATTERN_4)).
Definition validateReasonText : json → string → list SchemaViolation :=
  checkString (of_lengths 1 512 (Some PATTERN_3)).
Definition validateCapturedUrl : json → string → list SchemaViolation :=
  checkString (of_lengths 1 2048 (Some PATTERN_5)).
Definition validateBranchName : json → string → list SchemaViolation :=
  checkString (of_lengths 1 255 (Some PATTERN_5)).
Definition validateCommitSha : json → string → list SchemaViolation :=
  checkString (of_lengths 7 64 (Some PATTERN_6)).
Definition validateSha256Hex : json → string → list SchemaViolation :=
  checkString (of_lengths 64 64 (Some PATTERN_7)).
Definition validateStorageKey : json → string → list SchemaViolation :=
  checkString (of_lengths 1 128 (Some PATTERN_8)).
Definition validateMediaType : json → string → list SchemaViolation := checkString (of_values
     ["image/png"; "image/jpeg"; "application/json"; "text/plain"; "text/html"]).
Definition validateArtefactDisposition : json → string → list SchemaViolation := checkString
     (of_values ["inline"; "attachment"]).
Definition validateArtefactStorageDriver : json → string → list SchemaViolation := checkString
     (of_values ["filesystem"; "s3"]).
Definition validateThumbnailState : json → string → list SchemaViolation := checkString (of_values
     ["not_requested"; "pending"; "generated"; "unsupported"; "failed"]).
Definition validateVersionNumber : json → string → list SchemaViolation := checkInteger 1 2147483647.
Definition validateSequenceNumber : json → string → list SchemaViolation := checkInteger 1 9007199254740991.
Definition validateMarkerNumber : json → string → list SchemaViolation := checkInteger 1 999.
Definition validateByteSize : json → string → list SchemaViolation := checkInteger 1 104857600.
Definition validatePixelExtent : json → string → list SchemaViolation := checkInteger 1 32767.
Definition validateCssPixelOffset : json → string → list SchemaViolation := checkInteger 0 1000000.
Definition validateNormalisedCoordinate : json → string → list SchemaViolation := checkNumber 0 1.
Definition validateDeviceScaleFactor : json → string → list SchemaViolation := checkNumber 1 4.
Definition validateActorType : json → string → list SchemaViolation := checkString (of_values
     ["human_user"; "agent_session"; "connector"; "browser_worker"; "system"; "integration"]).
Definition validateReviewStatus : json → string → list SchemaViolation := checkString (of_values
     ["DRAFT"; "READY"; "ASSIGNED"; "IN_PROGRESS"; "AWAITING_HUMAN_REVIEW"; "CHANGES_REQUESTED";
     "ACCEPTED"; "CANCELLED"; "ARCHIVED"]).
Definition validateFindingStatus : json → string → list SchemaViolation := checkString (of_values
     ["OPEN"; "CLAIMED"; "IN_PROGRESS"; "BLOCKED"; "FIXED_UNVERIFIED"; "AWAITING_HUMAN_REVIEW";
     "RESOLVED"; "REOPENED"; "WONT_FIX"; "DUPLICATE"]).
Definition validateFindingSeverity : json → string → list SchemaViolation := checkString
     (of_values ["critical"; "high"; "medium"; "low"; "suggestion"]).
Definition validateReviewPriority : json → string → list SchemaViolation := checkString (of_values
     ["critical"; "high"; "medium"; "low"]).
Definition validateFindingSource : json → string → list SchemaViolation := checkString (of_values
     ["human"; "agent"]).
Definition validateAnnotationType : json → string → list SchemaViolation := checkString (of_values
     ["rectangle"; "ellipse"; "arrow"; "point"; "numbered_marker"; "freehand"]).
Definition validateArtefactKind : json → string → list SchemaViolation := checkString (of_values
     ["screenshot"; "thumbnail"; "trace"; "har"; "video"; "dom_snapshot"; "accessibility_snapshot";
     "console_log"; "network_log"; "review_export"]).
Definition validateArtefactState : json → string → list SchemaViolation := checkString (of_values
     ["pending"; "uploaded"; "available"; "failed"]).
Definition validateRedactionState : json → string → list SchemaViolation := checkString (of_values
     ["not_applied"; "pending"; "applied"; "failed"]).
Definition validateRetentionClass : json → string → list SchemaViolation := checkString (of_values
     ["action_screenshots"; "browser_traces"; "session_video"; "console_and_network_logs";
     "verification_evidence"]).
Definition validateVerificationStatus : json → string → list SchemaViolation := checkString
     (of_values ["submitted"; "accepted"; "rejected"; "superseded"]).
Definition validateMessageType : json → string → list SchemaViolation := checkString (of_values
     ["review.created"; "review.named"; "review.status_changed"; "finding.created"; "finding.annotated";
     "finding.status_changed"; "review.claimed"; "finding.claimed"; "finding.comment_added";
     "finding.verification_submitted"; "finding.verification_accepted"; "finding.verification_rejected";
     "review.completion_evaluated"; "review.assigned"; "review.accepted"; "review.reopened";
     "review.archived"; "review.comment_added"; "finding.resolved"; "finding.reopened"; "review.status_change_denied";
     "finding.status_change_denied"; "inbox_item.created"; "inbox_item.acknowledged"; "inbox_item.completed";
     "inbox_item.dismissed"; "inbox_item.expired"; "artefact.upload_started"; "artefact.upload_completed";
     "artefact.upload_failed"; "artefact.access_granted"; "artefact.deleted"; "artefact.thumbnail_generated";
     "screenshot.captured"]).
Definition validateErrorClass : json → string → list SchemaViolation := checkString (of_values
     ["AUTHENTICATION_REQUIRED"; "AUTHORISATION_DENIED"; "PROJECT_CONTEXT_MISMATCH"; "RESOURCE_NOT_FOUND";
     "RESOURCE_STALE"; "VERSION_CONFLICT"; "IDEMPOTENCY_CONFLICT"; "POLICY_DENIED"; "EVIDENCE_REQUIRED";
     "ARTEFACT_UPLOAD_INCOMPLETE"; "UNSUPPORTED_CAPABILITY"; "RATE_LIMITED"; "INTERNAL_ERROR"]).
Definition validateEncryptionKeyReference : json → string → list SchemaViolation :=
  checkString (of_lengths 1 256 (Some PATTERN_9)).
Definition validateFilenameLabel : json → string → list SchemaViolation :=
  checkString (of_lengths 1 128 (Some PATTERN_10)).
Definition validateInboxItemStatus : json → string → list SchemaViolation := checkString
     (of_values ["pending"; "acknowledged"; "completed"; "dismissed"; "expired"]).
Definition validateInboxItemType : json → string → list SchemaViolation := checkString (of_values
     ["review_assigned"; "finding_reopened"]).
Definition validateInboxItemRecipientType : json → string → list SchemaViolation := checkString
     (of_values ["human_user"; "agent_session"]).
Definition validateCompletionResult : json → string → list SchemaViolation := checkString
     (of_values ["completed"; "completed_with_warnings"; "blocked_missing_evidence"; "blocked_pending_review"]).
Definition validateRequirementLabel : json → string → list SchemaViolation :=
  checkString (of_lengths 1 120 (Some PATTERN_11)).
Definition validateActor (value : json) (path : string) : list SchemaViolation :=
  let '(found, source) := checkObject
    ["type"; "id"; "display"]
    ["type"] value path in
  match source with
  | None => found
  | Some source => found ++ concat [
      on_member validateActorType "type" source path;
      on_member validateIdentifier "id" source path;
      on_member validateReasonText "display" source path]
  end.
Definition validateViewportWidth : json → string → list SchemaViolation := checkInteger 240 3840.
Definition validateViewportHeight : json → string → list SchemaViolation := checkInteger 240 2160.
Definition validateViewport (value : json) (path : string) : list SchemaViolation :=
  let '(found, source) := checkObject
    ["width"; "height"; "device_scale_factor"]
    ["width"; "height"; "device_scale_factor"] value path in
  match source with
  | None => found
  | Some source => found ++ concat [
      on_member validateViewportWidth "width" source path;
      on_member validateViewportHeight "height" source path;
      on_member validateDeviceScaleFactor "device_scale_factor" source path]
  end.
Definition validateScrollPosition (value : json) (path : string) : list SchemaViolation :=
  let '(found, source) := checkObject
    ["x"; "y"]
    ["x"; "y"] value path in
  match source with
  | None => found
  | Some source => found ++ concat [
      on_member validateCssPixelOffset "x" source path;
      on_member validateCssPixelOffset "y" source path]
  end.
Definition validateContentRectangle (value : json) (path : string) : list SchemaViolation :=
  let '(found, source) := checkObject
    ["width_px"; "height_px"]
    ["width_px"; "height_px"] value path in
  match source with
  | None => found
  | Some source => found ++ concat [
      on_member validatePixelExtent "width_px" source path;
      on_member validatePixelExtent "height_px" source path]
  end.
Definition validateCssPixelBox (value : json) (path : string) : list SchemaViolation :=
  let '(found, source) := checkObject
    ["x"; "y"; "width"; "height"]
    ["x"; "y"; "width"; "height"] value path in
  match source with
  | None => found
  | Some source => found ++ concat [
      on_member validateCssPixelOffset "x" source path;
      on_member validateCssPixelOffset "y" source path;
      on_member validateCssPixelOffset "width" source path;
      on_member validateCssPixelOffset "height" source path]
  end.
Definition validateAnnotationPathPoint (value : json) (path : string) : list SchemaViolation :=
  let '(found, source) := checkObject
    ["x"; "y"]
    ["x"; "y"] value path in
  match source with
  | None => found
  | Some source => found ++ concat [
      on_member validateNormalisedCoordinate "x" source path;
      on_member validateNormalisedCoordinate "y" source path]
  end.
Definition validateAnnotationGeometryPath (value : json) (path : string) : list SchemaViolation :=
  let '(found, items) := checkArray 2 128 false value path in
  match items with None => found | Some items => on_items validateAnnotationPathPoint items path end.
Definition validateAnnotationGeometry (value : json) (path : string) : list SchemaViolation :=
  let '(found, source) := checkObject
    ["x"; "y"; "width"; "height"; "x2"; "y2"; "rotation"; "path"]
    ["x"; "y"] value path in
  match source with
  | None => found
  | Some source => found ++ concat [
      on_member validateNormalisedCoordinate "x" source path;
      on_member validateNormalisedCoordinate "y" source path;
      on_member validateNormalisedCoordinate "width" source path;
      on_member validateNormalisedCoordinate "height" source path;
      on_member validateNormalisedCoordinate "x2" source path;
      on_member validateNormalisedCoordinate "y2" source path;
      on_member validateNormalisedCoordinate "rotation" source path;
      on_member validateAnnotationGeometryPath "path" source path]
  end.
Definition validateElementContextSelectorStrategy : json → string → list SchemaViolation
     := checkString (of_values ["testid"; "role"; "text"; "css"; "xpath"]).
Definition validateElementContext (value : json) (path : string) : list SchemaViolation :=
  let '(found, source) := checkObject
    ["selector"; "selector_strategy"; "role"; "accessible_name"; "text_excerpt"; "bounding_box_css_pixels";
      "dom_fingerprint"]
    [] value path in
  match source with
  | None => found
  | Some source => found ++ concat [
      on_member validateReasonText "selector" source path;
      on_member validateElementContextSelectorStrategy "selector_strategy" source path;
      on_member validateReasonText "role" source path;
      on_member validateReasonText "accessible_name" source path;
      on_member validateReasonText "text_excerpt" source path;
      on_member validateCssPixelBox "bounding_box_css_pixels" source path;
      on_member validateSha256Hex "dom_fingerprint" source path]
  end.
Definition validateReviewReopenCount : json → string → list SchemaViolation := checkInteger 0 100000.
Definition validateReviewFindingCount : json → string → list SchemaViolation := checkInteger 0 100000.
Definition validateReview (value : json) (path : string) : list SchemaViolation :=
  let '(found, source) := checkObject
    ["id"; "organisation_id"; "project_id"; "slug"; "title"; "description"; "status"; "priority";
      "version"; "created_by"; "assigned_user_id"; "assigned_agent_session_id"; "reopen_count";
      "captured_branch"; "captured_commit"; "captured_workspace_id"; "source_browser_session_id";
      "finding_count"; "created_at"; "updated_at"; "closed_at"]
    ["id"; "organisation_id"; "project_id"; "slug"; "title"; "status"; "version"; "created_by";
      "captured_branch"; "captured_commit"; "captured_workspace_id"; "source_browser_session_id";
      "created_at"; "updated_at"] value path in
  match source with
  | None => found
  | Some source => found ++ concat [
      on_member validateIdentifier "id" source path;
      on_member validateIdentifier "organisation_id" source path;
      on_member validateIdentifier "project_id" source path;
      on_member validateSlug "slug" source path;
      on_member validateTitleText "title" source path;
      on_member validateBodyText "description" source path;
      on_member validateReviewStatus "status" source path;
      on_member validateReviewPriority "priority" source path;
      on_member validateVersionNumber "version" source path;
      on_member validateActor "created_by" source path;
      on_member validateIdentifier "assigned_user_id" source path;
      on_member validateIdentifier "assigned_agent_session_id" source path;
      on_member validateReviewReopenCount "reopen_count" source path;
      on_member validateBranchName "captured_branch" source path;
      on_member validateCommitSha "captured_commit" source path;
      on_member validateIdentifier "captured_workspace_id" source path;
      on_member validateIdentifier "source_browser_session_id" source path;
      on_member validateReviewFindingCount "finding_count" source path;
      on_member validateTimestamp "created_at" source path;
      on_member validateTimestamp "updated_at" source path;
      on_member validateTimestamp "closed_at" source path]
  end.
Definition validateFindingAnnotationCount : json → string → list SchemaViolation := checkInteger 0 1000.
Definition validateFinding (value : json) (path : string) : list SchemaViolation :=
  let '(found, source) := checkObject
    ["id"; "organisation_id"; "project_id"; "review_id"; "title"; "description"; "severity";
      "status"; "source"; "version"; "created_by"; "url"; "viewport"; "scroll_position";
      "captured_commit"; "screenshot_artefact_id"; "element_context"; "acceptance_criteria";
      "claimed_by"; "annotation_count"; "created_at"; "updated_at"]
    ["id"; "organisation_id"; "project_id"; "review_id"; "title"; "severity"; "status"; "source";
      "version"; "created_by"; "url"; "viewport"; "scroll_position"; "captured_commit"; "screenshot_artefact_id";
      "created_at"; "updated_at"] value path in
  match source with
  | None => found
  | Some source => found ++ concat [
      on_member validateIdentifier "id" source path;
      on_member validateIdentifier "organisation_id" source path;
      on_member validateIdentifier "project_id" source path;
      on_member validateIdentifier "review_id" source path;
      on_member validateTitleText "title" source path;
      on_member validateBodyText "description" source path;
      on_member validateFindingSeverity "severity" source path;
      on_member validateFindingStatus "status" source path;
      on_member validateFindingSource "source" source path;
      on_member validateVersionNumber "version" source path;
      on_member validateActor "created_by" source path;
      on_member validateCapturedUrl "url" source path;
      on_member validateViewport "viewport" source path;
      on_member validateScrollPosition "scroll_position" source path;
      on_member validateCommitSha "captured_commit" source path;
      on_member validateIdentifier "screenshot_artefact_id" source path;
      on_member validateElementContext "element_context" source path;
      on_member validateBodyText "acceptance_criteria" source path;
      on_member validateActor "claimed_by" source path;
      on_member validateFindingAnnotationCount "annotation_count" source path;
      on_member validateTimestamp "created_at" source path;
      on_member validateTimestamp "updated_at" source path]
  end.
Definition validateAnnotationStyleHint : json → string → list SchemaViolation := checkString
     (of_values ["default"; "critical"; "informational"]).
Definition validateAnnotation (value : json) (path : string) : list SchemaViolation :=
  let '(found, source) := checkObject
    ["id"; "organisation_id"; "project_id"; "finding_id"; "artefact_id"; "type"; "geometry";
      "geometry_version"; "label"; "marker_number"; "style_hint"; "revision"; "created_by";
      "created_at"; "deleted_at"]
    ["id"; "organisation_id"; "project_id"; "finding_id"; "artefact_id"; "type"; "geometry";
      "geometry_version"; "revision"; "created_by"; "created_at"] value path in
  match source with
  | None => found
  | Some source => found ++ concat [
      on_member validateIdentifier "id" source path;
      on_member validateIdentifier "organisation_id" source path;
      on_member validateIdentifier "project_id" source path;
      on_member validateIdentifier "finding_id" source path;
      on_member validateIdentifier "artefact_id" source path;
      on_member validateAnnotationType "type" source path;
      on_member validateAnnotationGeometry "geometry" source path;
      on_member validateVersionNumber "geometry_version" source path;
      on_member validateTitleText "label" source path;
      on_member validateMarkerNumber "marker_number" source path;
      on_member validateAnnotationStyleHint "style_hint" source path;
      on_member validateVersionNumber "revision" source path;
      on_member validateActor "created_by" source path;
      on_member validateTimestamp "created_at" source path;
      on_member validateTimestamp "deleted_at" source path]
  end.
Definition validateArtefact (value : json) (path : string) : list SchemaViolation :=
  let '(found, source) := checkObject
    ["id"; "organisation_id"; "project_id"; "kind"; "state"; "storage_key"; "content_type"; "size_bytes";
      "sha256"; "content_rectangle"; "redaction_state"; "retention_class"; "browser_session_id";
      "created_at"; "available_at"; "expires_at"; "disposition"; "encryption_key_reference";
      "source_artefact_id"; "thumbnail_state"; "thumbnail_artefact_id"; "deleted_at"]
    ["id"; "organisation_id"; "project_id"; "kind"; "state"; "content_type"; "redaction_state";
      "retention_class"; "created_at"] value path in
  match source with
  | None => found
  | Some source => found ++ concat [
      on_member validateIdentifier "id" source path;
      on_member validateIdentifier "organisation_id" source path;
      on_member validateIdentifier "project_id" source path;
      on_member validateArtefactKind "kind" source path;
      on_member validateArtefactState "state" source path;
      on_member validateStorageKey "storage_key" source path;
      on_member validateMediaType "content_type" source path;
      on_member validateByteSize "size_bytes" source path;
      on_member validateSha256Hex "sha256" source path;
      on_member validateContentRectangle "content_rectangle" source path;
      on_member validateRedactionState "redaction_state" source path;
      on_member validateRetentionClass "retention_class" source path;
      on_member validateIdentifier "browser_session_id" source path;
      on_member validateTimestamp "created_at" source path;
      on_member validateTimestamp "available_at" source path;
      on_member validateTimestamp "expires_at" source path;
      on_member validateArtefactDisposition "disposition" source path;
      on_member validateEncryptionKeyReference "encryption_key_reference" source path;
      on_member validateIdentifier "source_artefact_id" source path;
      on_member validateThumbnailState "thumbnail_state" source path;
      on_member validateIdentifier "thumbnail_artefact_id" source path;
      on_member validateTimestamp "deleted_at" source path]
  end.
Definition validateArtefactUploadIntentRequest (value : json) (path : string) : list SchemaViolation :=
  let '(found, source) := checkObject
    ["kind"; "content_type"; "size_bytes"; "sha256"; "retention_class"; "browser_session_id";
      "source_artefact_id"; "filename"]
    ["kind"; "content_type"; "size_bytes"; "sha256"] value path in
  match source with
  | None => found
  | Some source => found ++ concat [
      on_member validateArtefactKind "kind" source path;
      on_member validateMediaType "content_type" source path;
      on_member validateByteSize "size_bytes" source path;
      on_member validateSha256Hex "sha256" source path;
      on_member validateRetentionClass "retention_class" source path;
      on_member validateIdentifier "browser_session_id" source path;
      on_member validateIdentifier "source_artefact_id" source path;
      on_member validateFilenameLabel "filename" source path]
  end.
Definition validateArtefactUploadIntentResponseUploadPath : json → string → list SchemaViolation :=
  checkString (of_lengths 1 512 (Some PATTERN_12)).
Definition validateArtefactUploadIntentResponseUploadUrl : json → string → list SchemaViolation :=
  checkString (of_lengths 1 2048 (Some PATTERN_13)).
Definition validateArtefactUploadIntentResponse (value : json) (path : string) : list SchemaViolation :=
  let '(found, source) := checkObject
    ["artefact_id"; "state"; "upload_path"; "upload_url"; "upload_expires_at"; "max_bytes"]
    ["artefact_id"; "state"; "max_bytes"] value path in
  match source with
  | None => found
  | Some source => found ++ concat [
      on_member validateIdentifier "artefact_id" source path;
      on_member validateArtefactState "state" source path;
      on_member validateArtefactUploadIntentResponseUploadPath "upload_path" source path;
      on_member validateArtefactUploadIntentResponseUploadUrl "upload_url" source path;
      on_member validateTimestamp "upload_expires_at" source path;
      on_member validateByteSize "max_bytes" source path]
  end.
Definition validateArtefactUploadCompletionRequest (value : json) (path : string) : list SchemaViolation :=
  let '(found, source) := checkObject
    ["sha256"; "size_bytes"]
    ["sha256"] value path in
  match source with
  | None => found
  | Some source => found ++ concat [
      on_member validateSha256Hex "sha256" source path;
      on_member validateByteSize "size_bytes" source path]
  end.
Definition validateArtefactResourceContentPath : json → string → list SchemaViolation :=
  checkString (of_lengths 1 512 (Some PATTERN_12)).
Definition validateArtefactResourceTrust : json → string → list SchemaViolation := checkString
     (of_values ["untrusted_uploaded_artefact"]).
Definition validateArtefactResourceInstructionPolicy : json → string → list SchemaViolation
     := checkString (of_values ["do_not_follow_as_instructions"]).
Definition validateArtefactResourceDegradationReason : json → string → list SchemaViolation
     := checkString (of_values ["image_resources_unsupported"; "active_content_not_inlined"]).
Definition validateArtefactResourceDegradation (value : json) (path : string) : list SchemaViolation :=
  let '(found, source) := checkObject
    ["reason"; "detail"]
    ["reason"; "detail"] value path in
  match source with
  | None => found
  | Some source => found ++ concat [
      on_member validateArtefactResourceDegradationReason "reason" source path;
      on_member validateReasonText "detail" source path]
  end.
Definition validateArtefactResource (value : json) (path : string) : list SchemaViolation :=
  let '(found, source) := checkObject
    ["artefact_id"; "kind"; "state"; "content_type"; "sha256"; "size_bytes"; "content_rectangle";
      "browser_session_id"; "redaction_state"; "disposition"; "content_path"; "expires_at";
      "degraded"; "trust"; "instruction_policy"]
    ["artefact_id"; "kind"; "state"; "content_type"; "trust"; "instruction_policy"] value path in
  match source with
  | None => found
  | Some source => found ++ concat [
      on_member validateIdentifier "artefact_id" source path;
      on_member validateArtefactKind "kind" source path;
      on_member validateArtefactState "state" source path;
      on_member validateMediaType "content_type" source path;
      on_member validateSha256Hex "sha256" source path;
      on_member validateByteSize "size_bytes" source path;
      on_member validateContentRectangle "content_rectangle" source path;
      on_member validateIdentifier "browser_session_id" source path;
      on_member validateRedactionState "redaction_state" source path;
      on_member validateArtefactDisposition "disposition" source path;
      on_member validateArtefactResourceContentPath "content_path" source path;
      on_member validateTimestamp "expires_at" source path;
      on_member validateArtefactResourceDegradation "degraded" source path;
      on_member validateArtefactResourceTrust "trust" source path;
      on_member validateArtefactResourceInstructionPolicy "instruction_policy" source path]
  end.
Definition validateArtefactStoreStatusAvailable : json → string → list SchemaViolation := checkBoolean.
Definition validateArtefactStoreStatusArtefactCount : json → string → list SchemaViolation := checkInteger 0 1000000000.
Definition validateArtefactStoreStatusStoredBytes : json → string → list SchemaViolation := checkInteger 0 1152921504606846.
Definition validateArtefactStoreStatusPendingBytes : json → string → list SchemaViolation := checkInteger 0 1152921504606846.
Definition validateArtefactStoreStatus (value : json) (path : string) : list SchemaViolation :=
  let '(found, source) := checkObject
    ["driver"; "available"; "detail"; "artefact_count"; "stored_bytes"; "pending_bytes"]
    ["driver"; "available"; "artefact_count"; "stored_bytes"] value path in
  match source with
  | None => found
  | Some source => found ++ concat [
      on_member validateArtefactStorageDriver "driver" source path;
      on_member validateArtefactStoreStatusAvailable "available" source path;
      on_member validateReasonText "detail" source path;
      on_member validateArtefactStoreStatusArtefactCount "artefact_count" source path;
      on_member validateArtefactStoreStatusStoredBytes "stored_bytes" source path;
      on_member validateArtefactStoreStatusPendingBytes "pending_bytes" source path]
  end.
Definition validateArtefactDeletedBytesRemoved : json → string → list SchemaViolation := checkBoolean.
Definition validateArtefactDeleted (value : json) (path : string) : list SchemaViolation :=
  let '(found, source) := checkObject
    ["artefact_id"; "kind"; "sha256"; "size_bytes"; "bytes_removed"; "reason"]
    ["artefact_id"; "kind"; "bytes_removed"] value path in
  match source with
  | None => found
  | Some source => found ++ concat [
      on_member validateIdentifier "artefact_id" source path;
      on_member validateArtefactKind "kind" source path;
      on_member validateSha256Hex "sha256" source path;
      on_member validateByteSize "size_bytes" source path;
      on_member validateArtefactDeletedBytesRemoved "bytes_removed" source path;
      on_member validateReasonText "reason" source path]
  end.
Definition validateArtefactThumbnailGenerated (value : json) (path : string) : list SchemaViolation :=
  let '(found, source) := checkObject
    ["artefact_id"; "state"; "thumbnail_artefact_id"; "content_rectangle"; "reason"]
    ["artefact_id"; "state"] value path in
  match source with
  | None => found
  | Some source => found ++ concat [
      on_member validateIdentifier "artefact_id" source path;
      on_member validateThumbnailState "state" source path;
      on_member validateIdentifier "thumbnail_artefact_id" source path;
      on_member validateContentRectangle "content_rectangle" source path;
      on_member validateReasonText "reason" source path]
  end.
Definition validateVerificationReferenceTestedViewports (value : json) (path : string) : list SchemaViolation :=
  let '(found, items) := checkArray 1 8 false value path in
  match items with None => found | Some items => on_items validateViewport items path end.
Definition validateVerificationReferenceArtefactIds (value : json) (path : string) : list SchemaViolation :=
  let '(found, items) := checkArray 1 16 false value path in
  match items with None => found | Some items => on_items validateIdentifier items path end.
Definition validateVerificationChecksReproducedBefore : json → string → list SchemaViolation := checkBoolean.
Definition validateVerificationChecksConsoleErrorsReviewed : json → string → list SchemaViolation := checkBoolean.
Definition validateVerificationChecksNetworkFailuresReviewed : json → string → list SchemaViolation := checkBoolean.
Definition validateVerificationChecksAccessibilityChecked : json → string → list SchemaViolation := checkBoolean.
Definition validateVerificationChecks (value : json) (path : string) : list SchemaViolation :=
  let '(found, source) := checkObject
    ["reproduced_before"; "console_errors_reviewed"; "network_failures_reviewed"; "accessibility_checked"]
    ["reproduced_before"; "console_errors_reviewed"; "network_failures_reviewed"] value path in
  match source with
  | None => found
  | Some source => found ++ concat [
      on_member validateVerificationChecksReproducedBefore "reproduced_before" source path;
      on_member validateVerificationChecksConsoleErrorsReviewed "console_errors_reviewed" source path;
      on_member validateVerificationChecksNetworkFailuresReviewed "network_failures_reviewed" source path;
      on_member validateVerificationChecksAccessibilityChecked "accessibility_checked" source path]
  end.
Definition validateVerificationReference (value : json) (path : string) : list SchemaViolation :=
  let '(found, source) := checkObject
    ["verification_id"; "finding_id"; "status"; "submitted_by"; "summary"; "branch"; "commit";
      "before_artefact_id"; "after_artefact_id"; "tested_viewports"; "checks"; "artefact_ids";
      "submitted_at"; "reviewed_at"; "supersedes_verification_id"; "superseded_by_verification_id";
      "superseded_at"]
    ["verification_id"; "finding_id"; "status"; "submitted_by"; "submitted_at"] value path in
  match source with
  | None => found
  | Some source => found ++ concat [
      on_member validateIdentifier "verification_id" source path;
      on_member validateIdentifier "finding_id" source path;
      on_member validateVerificationStatus "status" source path;
      on_member validateActor "submitted_by" source path;
      on_member validateBodyText "summary" source path;
      on_member validateBranchName "branch" source path;
      on_member validateCommitSha "commit" source path;
      on_member validateIdentifier "before_artefact_id" source path;
      on_member validateIdentifier "after_artefact_id" source path;
      on_member validateVerificationReferenceTestedViewports "tested_viewports" source path;
      on_member validateVerificationChecks "checks" source path;
      on_member validateVerificationReferenceArtefactIds "artefact_ids" source path;
      on_member validateTimestamp "submitted_at" source path;
      on_member validateTimestamp "reviewed_at" source path;
      on_member validateIdentifier "supersedes_verification_id" source path;
      on_member validateIdentifier "superseded_by_verification_id" source path;
      on_member validateTimestamp "superseded_at" source path]
  end.
Definition validateErrorDetailsMissingContext (value : json) (path : string) : list SchemaViolation :=
  let '(found, items) := checkArray 1 16 false value path in
  match items with None => found | Some items => on_items validateReasonText items path end.
Definition validateErrorDetailsRequiredEvidence (value : json) (path : string) : list SchemaViolation :=
  let '(found, items) := checkArray 1 16 false value path in
  match items with None => found | Some items => on_items validateReasonText items path end.
Definition validateErrorDetailsAllowedTransitions (value : json) (path : string) : list SchemaViolation :=
  let '(found, items) := checkArray 1 32 false value path in
  match items with None => found | Some items => on_items validateReasonText items path end.
Definition validateErrorDetailsRetryAfterMs : json → string → list SchemaViolation := checkInteger 0 3600000.
Definition validateErrorDetails (value : json) (path : string) : list SchemaViolation :=
  let '(found, source) := checkObject
    ["current_version"; "expected_version"; "field"; "missing_context"; "required_evidence";
      "allowed_transitions"; "reason"; "retry_after_ms"]
    [] value path in
  match source with
  | None => found
  | Some source => found ++ concat [
      on_member validateVersionNumber "current_version" source path;
      on_member validateVersionNumber "expected_version" source path;
      on_member validateReasonText "field" source path;
      on_member validateErrorDetailsMissingContext "missing_context" source path;
      on_member validateErrorDetailsRequiredEvidence "required_evidence" source path;
      on_member validateErrorDetailsAllowedTransitions "allowed_transitions" source path;
      on_member validateReasonText "reason" source path;
      on_member validateErrorDetailsRetryAfterMs "retry_after_ms" source path]
  end.
Definition validateDomainError (value : json) (path : string) : list SchemaViolation :=
  let '(found, source) := checkObject
    ["code"; "message"; "details"]
    ["code"; "message"] value path in
  match source with
  | None => found
  | Some source => found ++ concat [
      on_member validateErrorClass "code" source path;
      on_member validateReasonText "message" source path;
      on_member validateErrorDetails "details" source path]
  end.
Definition validateReviewCreateRequest (value : json) (path : string) : list SchemaViolation :=
  let '(found, source) := checkObject
    ["slug"; "title"; "description"; "status"; "priority"; "captured_branch"; "captured_commit";
      "captured_workspace_id"; "source_browser_session_id"]
    ["slug"; "title"; "captured_branch"; "captured_commit"; "captured_workspace_id"; "source_browser_session_id"] value path in
  match source with
  | None => found
  | Some source => found ++ concat [
      on_member validateSlug "slug" source path;
      on_member validateTitleText "title" source path;
      on_member validateBodyText "description" source path;
      on_member validateReviewStatus "status" source path;
      on_member validateReviewPriority "priority" source path;
      on_member validateBranchName "captured_branch" source path;
      on_member validateCommitSha "captured_commit" source path;
      on_member validateIdentifier "captured_workspace_id" source path;
      on_member validateIdentifier "source_browser_session_id" source path]
  end.
Definition validateReviewUpdateRequest (value : json) (path : string) : list SchemaViolation :=
  let '(found, source) := checkObject
    ["expected_version"; "title"; "slug"; "description"; "status"; "priority"]
    ["expected_version"] value path in
  match source with
  | None => found
  | Some source => found ++ concat [
      on_member validateVersionNumber "expected_version" source path;
      on_member validateTitleText "title" source path;
      on_member validateSlug "slug" source path;
      on_member validateBodyText "description" source path;
      on_member validateReviewStatus "status" source path;
      on_member validateReviewPriority "priority" source path]
  end.
Definition validateReviewAssignRequest (value : json) (path : string) : list SchemaViolation :=
  let '(found, source) := checkObject
    ["expected_version"; "assigned_user_id"; "assigned_agent_session_id"; "reason"]
    ["expected_version"] value path in
  match source with
  | None => found
  | Some source => found ++ concat [
      on_member validateVersionNumber "expected_version" source path;
      on_member validateIdentifier "assigned_user_id" source path;
      on_member validateIdentifier "assigned_agent_session_id" source path;
      on_member validateReasonText "reason" source path]
  end.
Definition validateReviewTransitionRequest (value : json) (path : string) : list SchemaViolation :=
  let '(found, source) := checkObject
    ["expected_version"; "reason"]
    ["expected_version"] value path in
  match source with
  | None => found
  | Some source => found ++ concat [
      on_member validateVersionNumber "expected_version" source path;
      on_member validateReasonText "reason" source path]
  end.
Definition validateFindingClaimRequest (value : json) (path : string) : list SchemaViolation :=
  let '(found, source) := checkObject
    ["expected_version"]
    ["expected_version"] value path in
  match source with
  | None => found
  | Some source => found ++ concat [
      on_member validateVersionNumber "expected_version" source path]
  end.
Definition validateFindingTransitionRequest (value : json) (path : string) : list SchemaViolation :=
  let '(found, source) := checkObject
    ["expected_version"; "verification_id"; "reason"; "duplicate_of_finding_id"]
    ["expected_version"] value path in
  match source with
  | None => found
  | Some source => found ++ concat [
      on_member validateVersionNumber "expected_version" source path;
      on_member validateIdentifier "verification_id" source path;
      on_member validateReasonText "reason" source path;
      on_member validateIdentifier "duplicate_of_finding_id" source path]
  end.
Definition validateVerificationCreateRequestTestedViewports (value : json) (path : string) : list SchemaViolation :=
  let '(found, items) := checkArray 1 8 false value path in
  match items with None => found | Some items => on_items validateViewport items path end.
Definition validateVerificationCreateRequestArtefactIds (value : json) (path : string) : list SchemaViolation :=
  let '(found, items) := checkArray 1 16 true value path in
  match items with None => found | Some items => on_items validateIdentifier items path end.
Definition validateVerificationCreateRequest (value : json) (path : string) : list SchemaViolation :=
  let '(found, source) := checkObject
    ["expected_version"; "summary"; "branch"; "commit"; "tested_viewports"; "checks"; "artefact_ids"]
    ["summary"; "branch"; "commit"; "tested_viewports"; "checks"; "artefact_ids"] value path in
  match source with
  | None => found
  | Some source => found ++ concat [
      on_member validateVersionNumber "expected_version" source path;
      on_member validateBodyText "summary" source path;
      on_member validateBranchName "branch" source path;
      on_member validateCommitSha "commit" source path;
      on_member validateVerificationCreateRequestTestedViewports "tested_viewports" source path;
      on_member validateVerificationChecks "checks" source path;
      on_member validateVerificationCreateRequestArtefactIds "artefact_ids" source path]
  end.
Definition validateCommentCreateRequest (value : json) (path : string) : list SchemaViolation :=
  let '(found, source) := checkObject
    ["body"]
    ["body"] value path in
  match source with
  | None => found
  | Some source => found ++ concat [
      on_member validateBodyText "body" source path]
  end.
Definition validateCommentUpdateRequest (value : json) (path : string) : list SchemaViolation :=
  let '(found, source) := checkObject
    ["body"]
    ["body"] value path in
  match source with
  | None => found
  | Some source => found ++ concat [
      on_member validateBodyText "body" source path]
  end.
Definition validateAnnotationCreateRequestStyleHint : json → string → list SchemaViolation
     := checkString (of_values ["default"; "critical"; "informational"]).
Definition validateAnnotationCreateRequest (value : json) (path : string) : list SchemaViolation :=
  let '(found, source) := checkObject
    ["artefact_id"; "type"; "geometry"; "label"; "marker_number"; "style_hint"]
    ["artefact_id"; "type"; "geometry"; "label"] value path in
  match source with
  | None => found
  | Some source => found ++ concat [
      on_member validateIdentifier "artefact_id" source path;
      on_member validateAnnotationType "type" source path;
      on_member validateAnnotationGeometry "geometry" source path;
      on_member validateTitleText "label" source path;
      on_member validateMarkerNumber "marker_number" source path;
      on_member validateAnnotationCreateRequestStyleHint "style_hint" source path]
  end.
Definition validateFindingCreateRequestAnnotations (value : json) (path : string) : list SchemaViolation :=
  let '(found, items) := checkArray 1 32 false value path in
  match items with None => found | Some items => on_items validateAnnotationCreateRequest items path end.
Definition validateFindingCreateRequest (value : json) (path : string) : list SchemaViolation :=
  let '(found, source) := checkObject
    ["title"; "description"; "severity"; "url"; "viewport"; "scroll_position"; "captured_commit";
      "screenshot_artefact_id"; "element_context"; "acceptance_criteria"; "annotations"]
    ["title"; "severity"; "url"; "viewport"; "scroll_position"; "captured_commit"; "screenshot_artefact_id"] value path in
  match source with
  | None => found
  | Some source => found ++ concat [
      on_member validateTitleText "title" source path;
      on_member validateBodyText "description" source path;
      on_member validateFindingSeverity "severity" source path;
      on_member validateCapturedUrl "url" source path;
      on_member validateViewport "viewport" source path;
      on_member validateScrollPosition "scroll_position" source path;
      on_member validateCommitSha "captured_commit" source path;
      on_member validateIdentifier "screenshot_artefact_id" source path;
      on_member validateElementContext "element_context" source path;
      on_member validateBodyText "acceptance_criteria" source path;
      on_member validateFindingCreateRequestAnnotations "annotations" source path]
  end.
Definition validateFindingUpdateRequest (value : json) (path : string) : list SchemaViolation :=
  let '(found, source) := checkObject
    ["expected_version"; "title"; "description"; "severity"; "status"; "acceptance_criteria";
      "resolution_note"; "verification_id"; "reason"]
    ["expected_version"] value path in
  match source with
  | None => found
  | Some source => found ++ concat [
      on_member validateVersionNumber "expected_version" source path;
      on_member validateTitleText "title" source path;
      on_member validateBodyText "description" source path;
      on_member validateFindingSeverity "severity" source path;
      on_member validateFindingStatus "status" source path;
      on_member validateBodyText "acceptance_criteria" source path;
      on_member validateBodyText "resolution_note" source path;
      on_member validateIdentifier "verification_id" source path;
      on_member validateReasonText "reason" source path]
  end.
Definition validateAnnotationUpdateRequestStyleHint : json → string → list SchemaViolation
     := checkString (of_values ["default"; "critical"; "informational"]).
Definition validateAnnotationUpdateRequest (value : json) (path : string) : list SchemaViolation :=
  let '(found, source) := checkObject
    ["expected_revision"; "geometry"; "label"; "marker_number"; "style_hint"]
    ["expected_revision"] value path in
  match source with
  | None => found
  | Some source => found ++ concat [
      on_member validateVersionNumber "expected_revision" source path;
      on_member validateAnnotationGeometry "geometry" source path;
      on_member validateTitleText "label" source path;
      on_member validateMarkerNumber "marker_number" source path;
      on_member validateAnnotationUpdateRequestStyleHint "style_hint" source path]
  end.
Definition validateReviewCreated (value : json) (path : string) : list SchemaViolation :=
  let '(found, source) := checkObject
    ["review"]
    ["review"] value path in
  match source with
  | None => found
  | Some source => found ++ concat [
      on_member validateReview "review" source path]
  end.
Definition validateReviewNamed (value : json) (path : string) : list SchemaViolation :=
  let '(found, source) := checkObject
    ["review_id"; "slug"; "title"; "previous_slug"]
    ["review_id"; "slug"; "title"] value path in
  match source with
  | None => found
  | Some source => found ++ concat [
      on_member validateIdentifier "review_id" source path;
      on_member validateSlug "slug" source path;
      on_member validateTitleText "title" source path;
      on_member validateSlug "previous_slug" source path]
  end.
Definition validateReviewStatusChanged (value : json) (path : string) : list SchemaViolation :=
  let '(found, source) := checkObject
    ["review_id"; "from"; "to"; "version"; "reason"]
    ["review_id"; "from"; "to"; "version"] value path in
  match source with
  | None => found
  | Some source => found ++ concat [
      on_member validateIdentifier "review_id" source path;
      on_member validateReviewStatus "from" source path;
      on_member validateReviewStatus "to" source path;
      on_member validateVersionNumber "version" source path;
      on_member validateReasonText "reason" source path]
  end.
Definition validateFindingCreated (value : json) (path : string) : list SchemaViolation :=
  let '(found, source) := checkObject
    ["finding"]
    ["finding"] value path in
  match source with
  | None => found
  | Some source => found ++ concat [
      on_member validateFinding "finding" source path]
  end.
Definition validateFindingAnnotated (value : json) (path : string) : list SchemaViolation :=
  let '(found, source) := checkObject
    ["annotation"]
    ["annotation"] value path in
  match source with
  | None => found
  | Some source => found ++ concat [
      on_member validateAnnotation "annotation" source path]
  end.
Definition validateFindingStatusChanged (value : json) (path : string) : list SchemaViolation :=
  let '(found, source) := checkObject
    ["finding_id"; "review_id"; "from"; "to"; "version"; "source"; "reason"]
    ["finding_id"; "review_id"; "from"; "to"; "version"; "source"] value path in
  match source with
  | None => found
  | Some source => found ++ concat [
      on_member validateIdentifier "finding_id" source path;
      on_member validateIdentifier "review_id" source path;
      on_member validateFindingStatus "from" source path;
      on_member validateFindingStatus "to" source path;
      on_member validateVersionNumber "version" source path;
      on_member validateFindingSource "source" source path;
      on_member validateReasonText "reason" source path]
  end.
Definition validateComment (value : json) (path : string) : list SchemaViolation :=
  let '(found, source) := checkObject
    ["id"; "organisation_id"; "project_id"; "review_id"; "finding_id"; "body"; "created_by";
      "revision"; "supersedes_comment_id"; "superseded_at"; "created_at"]
    ["id"; "review_id"; "body"; "created_by"; "revision"; "created_at"] value path in
  match source with
  | None => found
  | Some source => found ++ concat [
      on_member validateIdentifier "id" source path;
      on_member validateIdentifier "organisation_id" source path;
      on_member validateIdentifier "project_id" source path;
      on_member validateIdentifier "review_id" source path;
      on_member validateIdentifier "finding_id" source path;
      on_member validateBodyText "body" source path;
      on_member validateActor "created_by" source path;
      on_member validateVersionNumber "revision" source path;
      on_member validateIdentifier "supersedes_comment_id" source path;
      on_member validateTimestamp "superseded_at" source path;
      on_member validateTimestamp "created_at" source path]
  end.
Definition validateInboxItemFindingCount : json → string → list SchemaViolation := checkInteger 0 10000.
Definition validateInboxItem (value : json) (path : string) : list SchemaViolation :=
  let '(found, source) := checkObject
    ["id"; "organisation_id"; "project_id"; "recipient_type"; "recipient_id"; "type"; "title";
      "status"; "review_id"; "review_slug"; "finding_id"; "priority"; "finding_count"; "assigned_by";
      "created_at"; "acknowledged_at"; "completed_at"; "expires_at"]
    ["id"; "project_id"; "recipient_type"; "type"; "title"; "status"; "created_at"] value path in
  match source with
  | None => found
  | Some source => found ++ concat [
      on_member validateIdentifier "id" source path;
      on_member validateIdentifier "organisation_id" source path;
      on_member validateIdentifier "project_id" source path;
      on_member validateInboxItemRecipientType "recipient_type" source path;
      on_member validateIdentifier "recipient_id" source path;
      on_member validateInboxItemType "type" source path;
      on_member validateTitleText "title" source path;
      on_member validateInboxItemStatus "status" source path;
      on_member validateIdentifier "review_id" source path;
      on_member validateSlug "review_slug" source path;
      on_member validateIdentifier "finding_id" source path;
      on_member validateReviewPriority "priority" source path;
      on_member validateInboxItemFindingCount "finding_count" source path;
      on_member validateActor "assigned_by" source path;
      on_member validateTimestamp "created_at" source path;
      on_member validateTimestamp "acknowledged_at" source path;
      on_member validateTimestamp "completed_at" source path;
      on_member validateTimestamp "expires_at" source path]
  end.
Definition validateInboxItemCreatedFindingCount : json → string → list SchemaViolation := checkInteger 0 10000.
Definition validateInboxItemCreated (value : json) (path : string) : list SchemaViolation :=
  let '(found, source) := checkObject
    ["inbox_item_id"; "recipient_type"; "recipient_id"; "type"; "status"; "review_id"; "finding_id";
      "finding_count"; "priority"]
    ["inbox_item_id"; "recipient_type"; "type"; "status"] value path in
  match source with
  | None => found
  | Some source => found ++ concat [
      on_member validateIdentifier "inbox_item_id" source path;
      on_member validateInboxItemRecipientType "recipient_type" source path;
      on_member validateIdentifier "recipient_id" source path;
      on_member validateInboxItemType "type" source path;
      on_member validateInboxItemStatus "status" source path;
      on_member validateIdentifier "review_id" source path;
      on_member validateIdentifier "finding_id" source path;
      on_member validateInboxItemCreatedFindingCount "finding_count" source path;
      on_member validateReviewPriority "priority" source path]
  end.
Definition validateInboxItemAcknowledged (value : json) (path : string) : list SchemaViolation :=
  let '(found, source) := checkObject
    ["inbox_item_id"; "previous_status"; "review_id"]
    ["inbox_item_id"; "previous_status"] value path in
  match source with
  | None => found
  | Some source => found ++ concat [
      on_member validateIdentifier "inbox_item_id" source path;
      on_member validateInboxItemStatus "previous_status" source path;
      on_member validateIdentifier "review_id" source path]
  end.
Definition validateInboxItemCompleted (value : json) (path : string) : list SchemaViolation :=
  let '(found, source) := checkObject
    ["inbox_item_id"; "previous_status"; "review_id"]
    ["inbox_item_id"; "previous_status"] value path in
  match source with
  | None => found
  | Some source => found ++ concat [
      on_member validateIdentifier "inbox_item_id" source path;
      on_member validateInboxItemStatus "previous_status" source path;
      on_member validateIdentifier "review_id" source path]
  end.
Definition validateInboxItemDismissed (value : json) (path : string) : list SchemaViolation :=
  let '(found, source) := checkObject
    ["inbox_item_id"; "previous_status"; "review_id"; "reason"]
    ["inbox_item_id"; "previous_status"] value path in
  match source with
  | None => found
  | Some source => found ++ concat [
      on_member validateIdentifier "inbox_item_id" source path;
      on_member validateInboxItemStatus "previous_status" source path;
      on_member validateIdentifier "review_id" source path;
      on_member validateReasonText "reason" source path]
  end.
Definition validateInboxItemExpired (value : json) (path : string) : list SchemaViolation :=
  let '(found, source) := checkObject
    ["inbox_item_id"; "previous_status"; "review_id"]
    ["inbox_item_id"; "previous_status"] value path in
  match source with
  | None => found
  | Some source => found ++ concat [
      on_member validateIdentifier "inbox_item_id" source path;
      on_member validateInboxItemStatus "previous_status" source path;
      on_member validateIdentifier "review_id" source path]
  end.
Definition validateReviewClaimed (value : json) (path : string) : list SchemaViolation :=
  let '(found, source) := checkObject
    ["review_id"; "claimed_by"; "version"; "previous_claimed_by"]
    ["review_id"; "claimed_by"; "version"] value path in
  match source with
  | None => found
  | Some source => found ++ concat [
      on_member validateIdentifier "review_id" source path;
      on_member validateActor "claimed_by" source path;
      on_member validateVersionNumber "version" source path;
      on_member validateActor "previous_claimed_by" source path]
  end.
Definition validateFindingClaimed (value : json) (path : string) : list SchemaViolation :=
  let '(found, source) := checkObject
    ["finding_id"; "review_id"; "claimed_by"; "version"]
    ["finding_id"; "review_id"; "claimed_by"; "version"] value path in
  match source with
  | None => found
  | Some source => found ++ concat [
      on_member validateIdentifier "finding_id" source path;
      on_member validateIdentifier "review_id" source path;
      on_member validateActor "claimed_by" source path;
      on_member validateVersionNumber "version" source path]
  end.
Definition validateFindingCommentAdded (value : json) (path : string) : list SchemaViolation :=
  let '(found, source) := checkObject
    ["comment"]
    ["comment"] value path in
  match source with
  | None => found
  | Some source => found ++ concat [
      on_member validateComment "comment" source path]
  end.
Definition validateReviewCommentAdded (value : json) (path : string) : list SchemaViolation :=
  let '(found, source) := checkObject
    ["comment"]
    ["comment"] value path in
  match source with
  | None => found
  | Some source => found ++ concat [
      on_member validateComment "comment" source path]
  end.
Definition validateReviewAssigned (value : json) (path : string) : list SchemaViolation :=
  let '(found, source) := checkObject
    ["review_id"; "assigned_user_id"; "assigned_agent_session_id"; "previous_assigned_user_id";
      "previous_assigned_agent_session_id"; "version"; "reason"]
    ["review_id"; "version"] value path in
  match source with
  | None => found
  | Some source => found ++ concat [
      on_member validateIdentifier "review_id" source path;
      on_member validateIdentifier "assigned_user_id" source path;
      on_member validateIdentifier "assigned_agent_session_id" source path;
      on_member validateIdentifier "previous_assigned_user_id" source path;
      on_member validateIdentifier "previous_assigned_agent_session_id" source path;
      on_member validateVersionNumber "version" source path;
      on_member validateReasonText "reason" source path]
  end.
Definition validateReviewAcceptedFindingCount : json → string → list SchemaViolation := checkInteger 0 100000.
Definition validateReviewAcceptedHumanFindingCount : json → string → list SchemaViolation := checkInteger 0 100000.
Definition validateReviewAccepted (value : json) (path : string) : list SchemaViolation :=
  let '(found, source) := checkObject
    ["review_id"; "accepted_by"; "version"; "finding_count"; "human_finding_count"; "reason"]
    ["review_id"; "accepted_by"; "version"; "finding_count"; "human_finding_count"] value path in
  match source with
  | None => found
  | Some source => found ++ concat [
      on_member validateIdentifier "review_id" source path;
      on_member validateActor "accepted_by" source path;
      on_member validateVersionNumber "version" source path;
      on_member validateReviewAcceptedFindingCount "finding_count" source path;
      on_member validateReviewAcceptedHumanFindingCount "human_finding_count" source path;
      on_member validateReasonText "reason" source path]
  end.
Definition validateReviewReopenedReopenCount : json → string → list SchemaViolation := checkInteger 1 100000.
Definition validateReviewReopened (value : json) (path : string) : list SchemaViolation :=
  let '(found, source) := checkObject
    ["review_id"; "from"; "to"; "version"; "reopen_count"; "reason"]
    ["review_id"; "from"; "to"; "version"; "reopen_count"] value path in
  match source with
  | None => found
  | Some source => found ++ concat [
      on_member validateIdentifier "review_id" source path;
      on_member validateReviewStatus "from" source path;
      on_member validateReviewStatus "to" source path;
      on_member validateVersionNumber "version" source path;
      on_member validateReviewReopenedReopenCount "reopen_count" source path;
      on_member validateReasonText "reason" source path]
  end.
Definition validateReviewArchived (value : json) (path : string) : list SchemaViolation :=
  let '(found, source) := checkObject
    ["review_id"; "from"; "version"; "reason"]
    ["review_id"; "from"; "version"] value path in
  match source with
  | None => found
  | Some source => found ++ concat [
      on_member validateIdentifier "review_id" source path;
      on_member validateReviewStatus "from" source path;
      on_member validateVersionNumber "version" source path;
      on_member validateReasonText "reason" source path]
  end.
Definition validateFindingResolved (value : json) (path : string) : list SchemaViolation :=
  let '(found, source) := checkObject
    ["finding_id"; "review_id"; "disposition"; "source"; "decided_by"; "version"; "duplicate_of_finding_id";
      "reason"]
    ["finding_id"; "review_id"; "disposition"; "source"; "decided_by"; "version"] value path in
  match source with
  | None => found
  | Some source => found ++ concat [
      on_member validateIdentifier "finding_id" source path;
      on_member validateIdentifier "review_id" source path;
      on_member validateFindingStatus "disposition" source path;
      on_member validateFindingSource "source" source path;
      on_member validateActor "decided_by" source path;
      on_member validateVersionNumber "version" source path;
      on_member validateIdentifier "duplicate_of_finding_id" source path;
      on_member validateReasonText "reason" source path]
  end.
Definition validateReviewStatusChangeDenied (value : json) (path : string) : list SchemaViolation :=
  let '(found, source) := checkObject
    ["review_id"; "from"; "requested"; "code"; "reason"]
    ["review_id"; "from"; "requested"; "code"] value path in
  match source with
  | None => found
  | Some source => found ++ concat [
      on_member validateIdentifier "review_id" source path;
      on_member validateReviewStatus "from" source path;
      on_member validateReviewStatus "requested" source path;
      on_member validateErrorClass "code" source path;
      on_member validateReasonText "reason" source path]
  end.
Definition validateFindingStatusChangeDenied (value : json) (path : string) : list SchemaViolation :=
  let '(found, source) := checkObject
    ["finding_id"; "review_id"; "from"; "requested"; "source"; "code"; "reason"]
    ["finding_id"; "review_id"; "from"; "requested"; "source"; "code"] value path in
  match source with
  | None => found
  | Some source => found ++ concat [
      on_member validateIdentifier "finding_id" source path;
      on_member validateIdentifier "review_id" source path;
      on_member validateFindingStatus "from" source path;
      on_member validateFindingStatus "requested" source path;
      on_member validateFindingSource "source" source path;
      on_member validateErrorClass "code" source path;
      on_member validateReasonText "reason" source path]
  end.
Definition validateFindingReopenedVerificationCount : json → string → list SchemaViolation := checkInteger 0 100000.
Definition validateFindingReopened (value : json) (path : string) : list SchemaViolation :=
  let '(found, source) := checkObject
    ["finding_id"; "review_id"; "from"; "version"; "verification_count"; "reason"]
    ["finding_id"; "review_id"; "from"; "version"; "verification_count"] value path in
  match source with
  | None => found
  | Some source => found ++ concat [
      on_member validateIdentifier "finding_id" source path;
      on_member validateIdentifier "review_id" source path;
      on_member validateFindingStatus "from" source path;
      on_member validateVersionNumber "version" source path;
      on_member validateFindingReopenedVerificationCount "verification_count" source path;
      on_member validateReasonText "reason" source path]
  end.
Definition validateFindingVerificationSubmitted (value : json) (path : string) : list SchemaViolation :=
  let '(found, source) := checkObject
    ["verification"; "finding_id"; "review_id"; "version"; "supersedes_verification_id"]
    ["verification"; "finding_id"; "review_id"; "version"] value path in
  match source with
  | None => found
  | Some source => found ++ concat [
      on_member validateVerificationReference "verification" source path;
      on_member validateIdentifier "finding_id" source path;
      on_member validateIdentifier "review_id" source path;
      on_member validateVersionNumber "version" source path;
      on_member validateIdentifier "supersedes_verification_id" source path]
  end.
Definition validateFindingVerificationAccepted (value : json) (path : string) : list SchemaViolation :=
  let '(found, source) := checkObject
    ["verification_id"; "finding_id"; "review_id"; "submitted_by"; "decided_by"; "after_artefact_id";
      "version"; "reason"]
    ["verification_id"; "finding_id"; "review_id"; "decided_by"; "version"] value path in
  match source with
  | None => found
  | Some source => found ++ concat [
      on_member validateIdentifier "verification_id" source path;
      on_member validateIdentifier "finding_id" source path;
      on_member validateIdentifier "review_id" source path;
      on_member validateActor "submitted_by" source path;
      on_member validateActor "decided_by" source path;
      on_member validateIdentifier "after_artefact_id" source path;
      on_member validateVersionNumber "version" source path;
      on_member validateReasonText "reason" source path]
  end.
Definition validateFindingVerificationRejected (value : json) (path : string) : list SchemaViolation :=
  let '(found, source) := checkObject
    ["verification_id"; "finding_id"; "review_id"; "submitted_by"; "decided_by"; "version"; "reason"]
    ["verification_id"; "finding_id"; "review_id"; "decided_by"; "version"; "reason"] value path in
  match source with
  | None => found
  | Some source => found ++ concat [
      on_member validateIdentifier "verification_id" source path;
      on_member validateIdentifier "finding_id" source path;
      on_member validateIdentifier "review_id" source path;
      on_member validateActor "submitted_by" source path;
      on_member validateActor "decided_by" source path;
      on_member validateVersionNumber "version" source path;
      on_member validateReasonText "reason" source path]
  end.
Definition validateEvidenceAssuranceVerifiedByControlPlane (value : json) (path : string) : list SchemaViolation :=
  let '(found, items) := checkArray 0 12 false value path in
  match items with None => found | Some items => on_items validateRequirementLabel items path end.
Definition validateEvidenceAssuranceAssertedByAgent (value : json) (path : string) : list SchemaViolation :=
  let '(found, items) := checkArray 0 12 false value path in
  match items with None => found | Some items => on_items validateRequirementLabel items path end.
Definition validateEvidenceAssurance (value : json) (path : string) : list SchemaViolation :=
  let '(found, source) := checkObject
    ["verified_by_control_plane"; "asserted_by_agent"; "asserted_by"]
    ["verified_by_control_plane"; "asserted_by_agent"] value path in
  match source with
  | None => found
  | Some source => found ++ concat [
      on_member validateEvidenceAssuranceVerifiedByControlPlane "verified_by_control_plane" source path;
      on_member validateEvidenceAssuranceAssertedByAgent "asserted_by_agent" source path;
      on_member validateActor "asserted_by" source path]
  end.
Definition validateVerificationReviewWarnings (value : json) (path : string) : list SchemaViolation :=
  let '(found, items) := checkArray 0 12 false value path in
  match items with None => found | Some items => on_items validateRequirementLabel items path end.
Definition validateVerificationReviewIsCurrent : json → string → list SchemaViolation := checkBoolean.
Definition validateVerificationReview (value : json) (path : string) : list SchemaViolation :=
  let '(found, source) := checkObject
    ["verification"; "assurance"; "warnings"; "is_current"]
    ["verification"; "assurance"; "warnings"; "is_current"] value path in
  match source with
  | None => found
  | Some source => found ++ concat [
      on_member validateVerificationReference "verification" source path;
      on_member validateEvidenceAssurance "assurance" source path;
      on_member validateVerificationReviewWarnings "warnings" source path;
      on_member validateVerificationReviewIsCurrent "is_current" source path]
  end.
Definition validateReviewCompletionEvaluatedMissing (value : json) (path : string) : list SchemaViolation :=
  let '(found, items) := checkArray 0 32 false value path in
  match items with None => found | Some items => on_items validateRequirementLabel items path end.
Definition validateReviewCompletionEvaluatedFindingCount : json → string → list SchemaViolation := checkInteger 0 100000.
Definition validateReviewCompletionEvaluated (value : json) (path : string) : list SchemaViolation :=
  let '(found, source) := checkObject
    ["review_id"; "finding_id"; "result"; "missing"; "finding_count"; "summary"]
    ["review_id"; "result"; "missing"; "finding_count"] value path in
  match source with
  | None => found
  | Some source => found ++ concat [
      on_member validateIdentifier "review_id" source path;
      on_member validateIdentifier "finding_id" source path;
      on_member validateCompletionResult "result" source path;
      on_member validateReviewCompletionEvaluatedMissing "missing" source path;
      on_member validateReviewCompletionEvaluatedFindingCount "finding_count" source path;
      on_member validateBodyText "summary" source path]
  end.
Definition validateArtefactUploadStarted (value : json) (path : string) : list SchemaViolation :=
  let '(found, source) := checkObject
    ["artefact_id"; "kind"; "declared_size_bytes"; "declared_sha256"; "content_type"]
    ["artefact_id"; "kind"; "declared_size_bytes"; "declared_sha256"] value path in
  match source with
  | None => found
  | Some source => found ++ concat [
      on_member validateIdentifier "artefact_id" source path;
      on_member validateArtefactKind "kind" source path;
      on_member validateByteSize "declared_size_bytes" source path;
      on_member validateSha256Hex "declared_sha256" source path;
      on_member validateMediaType "content_type" source path]
  end.
Definition validateArtefactUploadCompleted (value : json) (path : string) : list SchemaViolation :=
  let '(found, source) := checkObject
    ["artefact_id"; "kind"; "sha256"; "size_bytes"; "storage_key"; "redaction_state"; "content_rectangle"]
    ["artefact_id"; "kind"; "sha256"; "size_bytes"; "storage_key"; "redaction_state"] value path in
  match source with
  | None => found
  | Some source => found ++ concat [
      on_member validateIdentifier "artefact_id" source path;
      on_member validateArtefactKind "kind" source path;
      on_member validateSha256Hex "sha256" source path;
      on_member validateByteSize "size_bytes" source path;
      on_member validateStorageKey "storage_key" source path;
      on_member validateRedactionState "redaction_state" source path;
      on_member validateContentRectangle "content_rectangle" source path]
  end.
Definition validateArtefactUploadFailed (value : json) (path : string) : list SchemaViolation :=
  let '(found, source) := checkObject
    ["artefact_id"; "reason"; "code"]
    ["artefact_id"; "reason"] value path in
  match source with
  | None => found
  | Some source => found ++ concat [
      on_member validateIdentifier "artefact_id" source path;
      on_member validateReasonText "reason" source path;
      on_member validateErrorClass "code" source path]
  end.
Definition validateArtefactAccessGranted (value : json) (path : string) : list SchemaViolation :=
  let '(found, source) := checkObject
    ["artefact_id"; "grant_id"; "subject"; "expires_at"]
    ["artefact_id"; "grant_id"; "subject"; "expires_at"] value path in
  match source with
  | None => found
  | Some source => found ++ concat [
      on_member validateIdentifier "artefact_id" source path;
      on_member validateIdentifier "grant_id" source path;
      on_member validateActor "subject" source path;
      on_member validateTimestamp "expires_at" source path]
  end.
Definition validateScreenshotCaptured (value : json) (path : string) : list SchemaViolation :=
  let '(found, source) := checkObject
    ["artefact_id"; "sha256"; "size_bytes"; "content_rectangle"; "viewport"]
    ["artefact_id"; "sha256"; "size_bytes"; "content_rectangle"] value path in
  match source with
  | None => found
  | Some source => found ++ concat [
      on_member validateIdentifier "artefact_id" source path;
      on_member validateSha256Hex "sha256" source path;
      on_member validateByteSize "size_bytes" source path;
      on_member validateContentRectangle "content_rectangle" source path;
      on_member validateViewport "viewport" source path]
  end.
Definition validateEnvelopeSchemaVersion : json → string → list SchemaViolation := checkInteger 1 1.
Definition validateEnvelopePayload : json → string → list SchemaViolation := checkPlainObject.
Definition validateCorrelation (value : json) (path : string) : list SchemaViolation :=
  let '(found, source) := checkObject
    ["request_id"; "causation_event_id"; "browser_session_id"; "agent_session_id"; "review_id";
      "finding_id"; "annotation_id"; "artefact_id"]
    [] value path in
  match source with
  | None => found
  | Some source => found ++ concat [
      on_member validateIdentifier "request_id" source path;
      on_member validateIdentifier "causation_event_id" source path;
      on_member validateIdentifier "browser_session_id" source path;
      on_member validateIdentifier "agent_session_id" source path;
      on_member validateIdentifier "review_id" source path;
      on_member validateIdentifier "finding_id" source path;
      on_member validateIdentifier "annotation_id" source path;
      on_member validateIdentifier "artefact_id" source path]
  end.
Definition validateEnvelope (value : json) (path : string) : list SchemaViolation :=
  let '(found, source) := checkObject
    ["id"; "schema_version"; "sequence"; "type"; "occurred_at"; "recorded_at"; "organisation_id";
      "project_id"; "actor"; "correlation"; "payload"]
    ["id"; "schema_version"; "sequence"; "type"; "occurred_at"; "organisation_id"; "project_id";
      "actor"; "payload"] value path in
  match source with
  | None => found
  | Some source => found ++ concat [
      on_member validateIdentifier "id" source path;
      on_member validateEnvelopeSchemaVersion "schema_version" source path;
      on_member validateSequenceNumber "sequence" source path;
      on_member validateMessageType "type" source path;
      on_member validateTimestamp "occurred_at" source path;
      on_member validateTimestamp "recorded_at" source path;
      on_member validateIdentifier "organisation_id" source path;
      on_member validateIdentifier "project_id" source path;
      on_member validateActor "actor" source path;
      on_member validateCorrelation "correlation" source path;
      on_member validateEnvelopePayload "payload" source path]
  end.

(** The definitions of the schema, with the functions generated for them. *)
Definition review_validators : list (Schema * (json → string → list SchemaViolation)) :=
  [(schema_identifier, validateIdentifier);
   (schema_timestamp, validateTimestamp);
   (schema_slug, validateSlug);
   (schema_title_text, validateTitleText);
   (schema_body_text, validateBodyText);
   (schema_reason_text, validateReasonText);
   (schema_captured_url, validateCapturedUrl);
   (schema_branch_name, validateBranchName);
   (schema_commit_sha, validateCommitSha);
   (schema_sha256_hex, validateSha256Hex);
   (schema_storage_key, validateStorageKey);
   (schema_media_type, validateMediaType);
   (schema_artefact_disposition, validateArtefactDisposition);
   (schema_artefact_storage_driver, validateArtefactStorageDriver);
   (schema_thumbnail_state, validateThumbnailState);
   (schema_version_number, validateVersionNumber);
   (schema_sequence_number, validateSequenceNumber);
   (schema_marker_number, validateMarkerNumber);
   (schema_byte_size, validateByteSize);
   (schema_pixel_extent, validatePixelExtent);
   (schema_css_pixel_offset, validateCssPixelOffset);
   (schema_normalised_coordinate, validateNormalisedCoordinate);
   (schema_device_scale_factor, validateDeviceScaleFactor);
   (schema_actor_type, validateActorType);
   (schema_actor, validateActor);
   (schema_review_status, validateReviewStatus);
   (schema_finding_status, validateFindingStatus);
   (schema_finding_severity, validateFindingSeverity);
   (schema_review_priority, validateReviewPriority);
   (schema_finding_source, validateFindingSource);
   (schema_annotation_type, validateAnnotationType);
   (schema_artefact_kind, validateArtefactKind);
   (schema_artefact_state, validateArtefactState);
   (schema_redaction_state, validateRedactionState);
   (schema_retention_class, validateRetentionClass);
   (schema_verification_status, validateVerificationStatus);
   (schema_message_type, validateMessageType);
   (schema_error_class, validateErrorClass);
   (schema_viewport, validateViewport);
   (schema_scroll_position, validateScrollPosition);
   (schema_content_rectangle, validateContentRectangle);
   (schema_css_pixel_box, validateCssPixelBox);
   (schema_annotation_path_point, validateAnnotationPathPoint);
   (schema_annotation_geometry, validateAnnotationGeometry);
   (schema_element_context, validateElementContext);
   (schema_review, validateReview);
   (schema_finding, validateFinding);
   (schema_annotation, validateAnnotation);
   (schema_encryption_key_reference, validateEncryptionKeyReference);
   (schema_artefact, validateArtefact);
   (schema_filename_label, validateFilenameLabel);
   (schema_artefact_upload_intent_request, validateArtefactUploadIntentRequest);
   (schema_artefact_upload_intent_response, validateArtefactUploadIntentResponse);
   (schema_artefact_upload_completion_request, validateArtefactUploadCompletionRequest);
   (schema_artefact_resource_degradation, validateArtefactResourceDegradation);
   (schema_artefact_resource, validateArtefactResource);
   (schema_artefact_store_status, validateArtefactStoreStatus);
   (schema_artefact_deleted, validateArtefactDeleted);
   (schema_artefact_thumbnail_generated, validateArtefactThumbnailGenerated);
   (schema_verification_checks, validateVerificationChecks);
   (schema_verification_reference, validateVerificationReference);
   (schema_error_details, validateErrorDetails);
   (schema_domain_error, validateDomainError);
   (schema_review_create_request, validateReviewCreateRequest);
   (schema_review_update_request, validateReviewUpdateRequest);
   (schema_review_assign_request, validateReviewAssignRequest);
   (schema_review_transition_request, validateReviewTransitionRequest);
   (schema_finding_claim_request, validateFindingClaimRequest);
   (schema_finding_transition_request, validateFindingTransitionRequest);
   (schema_verification_create_request, validateVerificationCreateRequest);
   (schema_comment_create_request, validateCommentCreateRequest);
   (schema_comment_update_request, validateCommentUpdateRequest);
   (schema_annotation_create_request, validateAnnotationCreateRequest);
   (schema_finding_create_request, validateFindingCreateRequest);
   (schema_finding_update_request, validateFindingUpdateRequest);
   (schema_annotation_update_request, validateAnnotationUpdateRequest);
   (schema_review_created, validateReviewCreated);
   (schema_review_named, validateReviewNamed);
   (schema_review_status_changed, validateReviewStatusChanged);
   (schema_finding_created, validateFindingCreated);
   (schema_finding_annotated, validateFindingAnnotated);
   (schema_finding_status_changed, validateFindingStatusChanged);
   (schema_comment, validateComment);
   (schema_inbox_item_status, validateInboxItemStatus);
   (schema_inbox_item_type, validateInboxItemType);
   (schema_inbox_item_recipient_type, validateInboxItemRecipientType);
   (schema_inbox_item, validateInboxItem);
   (schema_inbox_item_created, validateInboxItemCreated);
   (schema_inbox_item_acknowledged, validateInboxItemAcknowledged);
   (schema_inbox_item_completed, validateInboxItemCompleted);
   (schema_inbox_item_dismissed, validateInboxItemDismissed);
   (schema_inbox_item_expired, validateInboxItemExpired);
   (schema_review_claimed, validateReviewClaimed);
   (schema_finding_claimed, validateFindingClaimed);
   (schema_finding_comment_added, validateFindingCommentAdded);
   (schema_review_comment_added, validateReviewCommentAdded);
   (schema_review_assigned, validateReviewAssigned);
   (schema_review_accepted, validateReviewAccepted);
   (schema_review_reopened, validateReviewReopened);
   (schema_review_archived, validateReviewArchived);
   (schema_finding_resolved, validateFindingResolved);
   (schema_review_status_change_denied, validateReviewStatusChangeDenied);
   (schema_finding_status_change_denied, validateFindingStatusChangeDenied);
   (schema_finding_reopened, validateFindingReopened);
   (schema_finding_verification_submitted, validateFindingVerificationSubmitted);
   (schema_finding_verification_accepted, validateFindingVerificationAccepted);
   (schema_finding_verification_rejected, validateFindingVerificationRejected);
   (schema_requirement_label, validateRequirementLabel);
   (schema_evidence_assurance, validateEvidenceAssurance);
   (schema_verification_review, validateVerificationReview);
   (schema_completion_result, validateCompletionResult);
   (schema_review_completion_evaluated, validateReviewCompletionEvaluated);
   (schema_artefact_upload_started, validateArtefactUploadStarted);
   (schema_artefact_upload_completed, validateArtefactUploadCompleted);
   (schema_artefact_upload_failed, validateArtefactUploadFailed);
   (schema_artefact_access_granted, validateArtefactAccessGranted);
   (schema_screenshot_captured, validateScreenshotCaptured);
   (schema_correlation, validateCorrelation);
   (schema_envelope, validateEnvelope)].

Lemma review_generated :
  Forall (λ e, ∀ value path, e.2 value path = violations e.1 value path) review_validators.
Proof. repeat (apply Forall_cons_2; [intros value path; reflexivity|]). apply Forall_nil_2. Qed.
