(* ===== verification/ReviewCodec.v ===== *)
(** * The types and the codec of the review protocol
    ([src/packages/protocol/src/generated/review/v1/types.ts], [encode.ts], [decode.ts]
    and [dispatch.ts])

    The vocabularies, the bounds of the payloads and the types of the generated
    code, and the messages of the schema; the generated encoders and decoders as
    they stand, each after those it calls, with the table of those that the schema's
    objects have; and the dispatch on the type of a message. *)

From S2P Require Import Prelude StableJson Validation Schema ReviewSchema ReviewValidate Codec.

(** ** Types *)

Definition MEDIA_TYPE_VALUES : list string :=
  ["image/png"; "image/jpeg"; "application/json"; "text/plain"; "text/html"].
Definition ARTEFACT_DISPOSITION_VALUES : list string :=
  ["inline"; "attachment"].
Definition ARTEFACT_STORAGE_DRIVER_VALUES : list string :=
  ["filesystem"; "s3"].
Definition THUMBNAIL_STATE_VALUES : list string :=
  ["not_requested"; "pending"; "generated"; "unsupported"; "failed"].
Definition ACTOR_TYPE_VALUES : list string :=
  ["human_user"; "agent_session"; "connector"; "browser_worker"; "system"; "integration"].
Definition REVIEW_STATUS_VALUES : list string :=
  ["DRAFT"; "READY"; "ASSIGNED"; "IN_PROGRESS"; "AWAITING_HUMAN_REVIEW"; "CHANGES_REQUESTED";
   "ACCEPTED"; "CANCELLED"; "ARCHIVED"].
Definition FINDING_STATUS_VALUES : list string :=
  ["OPEN"; "CLAIMED"; "IN_PROGRESS"; "BLOCKED"; "FIXED_UNVERIFIED"; "AWAITING_HUMAN_REVIEW";
   "RESOLVED"; "REOPENED"; "WONT_FIX"; "DUPLICATE"].
Definition FINDING_SEVERITY_VALUES : list string :=
  ["critical"; "high"; "medium"; "low"; "suggestion"].
Definition REVIEW_PRIORITY_VALUES : list string :=
  ["critical"; "high"; "medium"; "low"].
Definition FINDING_SOURCE_VALUES : list string :=
  ["human"; "agent"].
Definition ANNOTATION_TYPE_VALUES : list string :=
  ["rectangle"; "ellipse"; "arrow"; "point"; "numbered_marker"; "freehand"].
Definition ARTEFACT_KIND_VALUES : list string :=
  ["screenshot"; "thumbnail"; "trace"; "har"; "video"; "dom_snapshot"; "accessibility_snapshot";
   "console_log"; "network_log"; "review_export"].
Definition ARTEFACT_STATE_VALUES : list string :=
  ["pending"; "uploaded"; "available"; "failed"].
Definition REDACTION_STATE_VALUES : list string :=
  ["not_applied"; "pending"; "applied"; "failed"].
Definition RETENTION_CLASS_VALUES : list string :=
  ["action_screenshots"; "browser_traces"; "session_video"; "console_and_network_logs"; "verification_evidence"].
Definition VERIFICATION_STATUS_VALUES : list string :=
  ["submitted"; "accepted"; "rejected"; "superseded"].
Definition MESSAGE_TYPE_VALUES : list string :=
  ["review.created"; "review.named"; "review.status_changed"; "finding.created"; "finding.annotated";
   "finding.status_changed"; "review.claimed"; "finding.claimed"; "finding.comment_added";
   "finding.verification_submitted"; "finding.verification_accepted"; "finding.verification_rejected";
   "review.completion_evaluated"; "review.assigned"; "review.accepted"; "review.reopened";
   "review.archived"; "review.comment_added"; "finding.resolved"; "finding.reopened"; "review.status_change_denied";
   "finding.status_change_denied"; "inbox_item.created"; "inbox_item.acknowledged"; "inbox_item.completed";
   "inbox_item.dismissed"; "inbox_item.expired"; "artefact.upload_started"; "artefact.upload_completed";
   "artefact.upload_failed"; "artefact.access_granted"; "artefact.deleted"; "artefact.thumbnail_generated";
   "screenshot.captured"].
Definition ERROR_CLASS_VALUES : list string :=
  ["AUTHENTICATION_REQUIRED"; "AUTHORISATION_DENIED"; "PROJECT_CONTEXT_MISMATCH"; "RESOURCE_NOT_FOUND";
   "RESOURCE_STALE"; "VERSION_CONFLICT"; "IDEMPOTENCY_CONFLICT"; "POLICY_DENIED"; "EVIDENCE_REQUIRED";
   "ARTEFACT_UPLOAD_INCOMPLETE"; "UNSUPPORTED_CAPABILITY"; "RATE_LIMITED"; "INTERNAL_ERROR"].
Definition ELEMENT_CONTEXT_SELECTOR_STRATEGY_VALUES : list string :=
  ["testid"; "role"; "text"; "css"; "xpath"].
Definition ANNOTATION_STYLE_HINT_VALUES : list string :=
  ["default"; "critical"; "informational"].
Definition ARTEFACT_RESOURCE_TRUST_VALUES : list string :=
  ["untrusted_uploaded_artefact"].
Definition ARTEFACT_RESOURCE_INSTRUCTION_POLICY_VALUES : list string :=
  ["do_not_follow_as_instructions"].
Definition ARTEFACT_RESOURCE_DEGRADATION_REASON_VALUES : list string :=
  ["image_resources_unsupported"; "active_content_not_inlined"].
Definition ANNOTATION_CREATE_REQUEST_STYLE_HINT_VALUES : list string :=
  ["default"; "critical"; "informational"].
Definition ANNOTATION_UPDATE_REQUEST_STYLE_HINT_VALUES : list string :=
  ["default"; "critical"; "informational"].
Definition INBOX_ITEM_STATUS_VALUES : list string :=
  ["pending"; "acknowledged"; "completed"; "dismissed"; "expired"].
Definition INBOX_ITEM_TYPE_VALUES : list string :=
  ["review_assigned"; "finding_reopened"].
Definition INBOX_ITEM_RECIPIENT_TYPE_VALUES : list string :=
  ["human_user"; "agent_session"].
Definition COMPLETION_RESULT_VALUES : list string :=
  ["completed"; "completed_with_warnings"; "blocked_missing_evidence"; "blocked_pending_review"].
Definition PAYLOAD_MAX_BYTES : list (string * Z) :=
  [("review.created", 8192%Z);
   ("review.named", 2048%Z);
   ("review.status_changed", 2048%Z);
   ("finding.created", 8192%Z);
   ("finding.annotated", 8192%Z);
   ("finding.status_changed", 2048%Z);
   ("review.claimed", 2048%Z);
   ("finding.claimed", 2048%Z);
   ("finding.comment_added", 6144%Z);
   ("finding.verification_submitted", 8192%Z);
   ("finding.verification_accepted", 2048%Z);
   ("finding.verification_rejected", 2048%Z);
   ("review.completion_evaluated", 8192%Z);
   ("review.assigned", 2048%Z);
   ("review.accepted", 2048%Z);
   ("review.reopened", 2048%Z);
   ("review.archived", 2048%Z);
   ("review.comment_added", 6144%Z);
   ("finding.resolved", 2048%Z);
   ("finding.reopened", 2048%Z);
   ("review.status_change_denied", 2048%Z);
   ("finding.status_change_denied", 2048%Z);
   ("inbox_item.created", 2048%Z);
   ("inbox_item.acknowledged", 2048%Z);
   ("inbox_item.completed", 2048%Z);
   ("inbox_item.dismissed", 2048%Z);
   ("inbox_item.expired", 2048%Z);
   ("artefact.upload_started", 2048%Z);
   ("artefact.upload_completed", 2048%Z);
   ("artefact.upload_failed", 2048%Z);
   ("artefact.access_granted", 2048%Z);
   ("artefact.deleted", 2048%Z);
   ("artefact.thumbnail_generated", 2048%Z);
   ("screenshot.captured", 2048%Z)].
Definition Identifier : json → Prop := string_type.
Definition Timestamp : json → Prop := string_type.
Definition Slug : json → Prop := string_type.
Definition TitleText : json → Prop := string_type.
Definition BodyText : json → Prop := string_type.
Definition ReasonText : json → Prop := string_type.
Definition CapturedUrl : json → Prop := string_type.
Definition BranchName : json → Prop := string_type.
Definition CommitSha : json → Prop := string_type.
Definition Sha256Hex : json → Prop := string_type.
Definition StorageKey : json → Prop := string_type.
Definition VersionNumber : json → Prop := number_type.
Definition SequenceNumber : json → Prop := number_type.
Definition MarkerNumber : json → Prop := number_type.
Definition ByteSize : json → Prop := number_type.
Definition PixelExtent : json → Prop := number_type.
Definition CssPixelOffset : json → Prop := number_type.
Definition NormalisedCoordinate : json → Prop := number_type.
Definition DeviceScaleFactor : json → Prop := number_type.
Definition EncryptionKeyReference : json → Prop := string_type.
Definition FilenameLabel : json → Prop := string_type.
Definition RequirementLabel : json → Prop := string_type.
Definition MediaType : json → Prop := union_type
  ["image/png"; "image/jpeg"; "application/json"; "text/plain"; "text/html"].
Definition ArtefactDisposition : json → Prop := union_type
  ["inline"; "attachment"].
Definition ArtefactStorageDriver : json → Prop := union_type
  ["filesystem"; "s3"].
Definition ThumbnailState : json → Prop := union_type
  ["not_requested"; "pending"; "generated"; "unsupported"; "failed"].
Definition ActorType : json → Prop := union_type
  ["human_user"; "agent_session"; "connector"; "browser_worker"; "system"; "integration"].
Definition ReviewStatus : json → Prop := union_type
  ["DRAFT"; "READY"; "ASSIGNED"; "IN_PROGRESS"; "AWAITING_HUMAN_REVIEW"; "CHANGES_REQUESTED";
   "ACCEPTED"; "CANCELLED"; "ARCHIVED"].
Definition FindingStatus : json → Prop := union_type
  ["OPEN"; "CLAIMED"; "IN_PROGRESS"; "BLOCKED"; "FIXED_UNVERIFIED"; "AWAITING_HUMAN_REVIEW";
   "RESOLVED"; "REOPENED"; "WONT_FIX"; "DUPLICATE"].
Definition FindingSeverity : json → Prop := union_type
  ["critical"; "high"; "medium"; "low"; "suggestion"].
Definition ReviewPriority : json → Prop := union_type
  ["critical"; "high"; "medium"; "low"].
Definition FindingSource : json → Prop := union_type
  ["human"; "agent"].
Definition AnnotationType : json → Prop := union_type
  ["rectangle"; "ellipse"; "arrow"; "point"; "numbered_marker"; "freehand"].
Definition ArtefactKind : json → Prop := union_type
  ["screenshot"; "thumbnail"; "trace"; "har"; "video"; "dom_snapshot"; "accessibility_snapshot";
   "console_log"; "network_log"; "review_export"].
Definition ArtefactState : json → Prop := union_type
  ["pending"; "uploaded"; "available"; "failed"].
Definition RedactionState : json → Prop := union_type
  ["not_applied"; "pending"; "applied"; "failed"].
Definition RetentionClass : json → Prop := union_type
  ["action_screenshots"; "browser_traces"; "session_video"; "console_and_network_logs"; "verification_evidence"].
Definition VerificationStatus : json → Prop := union_type
  ["submitted"; "accepted"; "rejected"; "superseded"].
Definition MessageType : json → Prop := union_type
  ["review.created"; "review.named"; "review.status_changed"; "finding.created"; "finding.annotated";
   "finding.status_changed"; "review.claimed"; "finding.claimed"; "finding.comment_added";
   "finding.verification_submitted"; "finding.verification_accepted"; "finding.verification_rejected";
   "review.completion_evaluated"; "review.assigned"; "review.accepted"; "review.reopened";
   "review.archived"; "review.comment_added"; "finding.resolved"; "finding.reopened"; "review.status_change_denied";
   "finding.status_change_denied"; "inbox_item.created"; "inbox_item.acknowledged"; "inbox_item.completed";
   "inbox_item.dismissed"; "inbox_item.expired"; "artefact.upload_started"; "artefact.upload_completed";
   "artefact.upload_failed"; "artefact.access_granted"; "artefact.deleted"; "artefact.thumbnail_generated";
   "screenshot.captured"].
Definition ErrorClass : json → Prop := union_type
  ["AUTHENTICATION_REQUIRED"; "AUTHORISATION_DENIED"; "PROJECT_CONTEXT_MISMATCH"; "RESOURCE_NOT_FOUND";
   "RESOURCE_STALE"; "VERSION_CONFLICT"; "IDEMPOTENCY_CONFLICT"; "POLICY_DENIED"; "EVIDENCE_REQUIRED";
   "ARTEFACT_UPLOAD_INCOMPLETE"; "UNSUPPORTED_CAPABILITY"; "RATE_LIMITED"; "INTERNAL_ERROR"].
Definition ElementContextSelectorStrategy : json → Prop := union_type
  ["testid"; "role"; "text"; "css"; "xpath"].
Definition AnnotationStyleHint : json → Prop := union_type
  ["default"; "critical"; "informational"].
Definition ArtefactResourceTrust : json → Prop := union_type
  ["untrusted_uploaded_artefact"].
Definition ArtefactResourceInstructionPolicy : json → Prop := union_type
  ["do_not_follow_as_instructions"].
Definition ArtefactResourceDegradationReason : json → Prop := union_type
  ["image_resources_unsupported"; "active_content_not_inlined"].
Definition AnnotationCreateRequestStyleHint : json → Prop := union_type
  ["default"; "critical"; "informational"].
Definition AnnotationUpdateRequestStyleHint : json → Prop := union_type
  ["default"; "critical"; "informational"].
Definition InboxItemStatus : json → Prop := union_type
  ["pending"; "acknowledged"; "completed"; "dismissed"; "expired"].
Definition InboxItemType : json → Prop := union_type
  ["review_assigned"; "finding_reopened"].
Definition InboxItemRecipientType : json → Prop := union_type
  ["human_user"; "agent_session"].
Definition CompletionResult : json → Prop := union_type
  ["completed"; "completed_with_warnings"; "blocked_missing_evidence"; "blocked_pending_review"].
Definition Actor : json → Prop := interface_type [
    has "type" ActorType;
    may_have "id" Identifier;
    may_have "display" ReasonText].
Definition Viewport : json → Prop := interface_type [
    has "width" number_type;
    has "height" number_type;
    has "device_scale_factor" DeviceScaleFactor].
Definition ScrollPosition : json → Prop := interface_type [
    has "x" CssPixelOffset;
    has "y" CssPixelOffset].
Definition ContentRectangle : json → Prop := interface_type [
    has "width_px" PixelExtent;
    has "height_px" PixelExtent].
Definition CssPixelBox : json → Prop := interface_type [
    has "x" CssPixelOffset;
    has "y" CssPixelOffset;
    has "width" CssPixelOffset;
    has "height" CssPixelOffset].
Definition AnnotationPathPoint : json → Prop := interface_type [
    has "x" NormalisedCoordinate;
    has "y" NormalisedCoordinate].
Definition AnnotationGeometry : json → Prop := interface_type [
    has "x" NormalisedCoordinate;
    has "y" NormalisedCoordinate;
    may_have "width" NormalisedCoordinate;
    may_have "height" NormalisedCoordinate;
    may_have "x2" NormalisedCoordinate;
    may_have "y2" NormalisedCoordinate;
    may_have "rotation" NormalisedCoordinate;
    may_have "path" (array_type AnnotationPathPoint)].
Definition ElementContext : json → Prop := interface_type [
    may_have "selector" ReasonText;
    may_have "selector_strategy" ElementContextSelectorStrategy;
    may_have "role" ReasonText;
    may_have "accessible_name" ReasonText;
    may_have "text_excerpt" ReasonText;
    may_have "bounding_box_css_pixels" CssPixelBox;
    may_have "dom_fingerprint" Sha256Hex].
Definition Review : json → Prop := interface_type [
    has "id" Identifier;
    has "organisation_id" Identifier;
    has "project_id" Identifier;
    has "slug" Slug;
    has "title" TitleText;
    may_have "description" BodyText;
    has "status" ReviewStatus;
    may_have "priority" ReviewPriority;
    has "version" VersionNumber;
    has "created_by" Actor;
    may_have "assigned_user_id" Identifier;
    may_have "assigned_agent_session_id" Identifier;
    may_have "reopen_count" number_type;
    has "captured_branch" BranchName;
    has "captured_commit" CommitSha;
    has "captured_workspace_id" Identifier;
    has "source_browser_session_id" Identifier;
    may_have "finding_count" number_type;
    has "created_at" Timestamp;
    has "updated_at" Timestamp;
    may_have "closed_at" Timestamp].
Definition Finding : json → Prop := interface_type [
    has "id" Identifier;
    has "organisation_id" Identifier;
    has "project_id" Identifier;
    has "review_id" Identifier;
    has "title" TitleText;
    may_have "description" BodyText;
    has "severity" FindingSeverity;
    has "status" FindingStatus;
    has "source" FindingSource;
    has "version" VersionNumber;
    has "created_by" Actor;
    has "url" CapturedUrl;
    has "viewport" Viewport;
    has "scroll_position" ScrollPosition;
    has "captured_commit" CommitSha;
    has "screenshot_artefact_id" Identifier;
    may_have "element_context" ElementContext;
    may_have "acceptance_criteria" BodyText;
    may_have "claimed_by" Actor;
    may_have "annotation_count" number_type;
    has "created_at" Timestamp;
    has "updated_at" Timestamp].
Definition Annotation : json → Prop := interface_type [
    has "id" Identifier;
    has "organisation_id" Identifier;
    has "project_id" Identifier;
    has "finding_id" Identifier;
    has "artefact_id" Identifier;
    has "type" AnnotationType;
    has "geometry" AnnotationGeometry;
    has "geometry_version" VersionNumber;
    may_have "label" TitleText;
    may_have "marker_number" MarkerNumber;
    may_have "style_hint" AnnotationStyleHint;
    has "revision" VersionNumber;
    has "created_by" Actor;
    has "created_at" Timestamp;
    may_have "deleted_at" Timestamp].
Definition Artefact : json → Prop := interface_type [
    has "id" Identifier;
    has "organisation_id" Identifier;
    has "project_id" Identifier;
    has "kind" ArtefactKind;
    has "state" ArtefactState;
    may_have "storage_key" StorageKey;
    has "content_type" MediaType;
    may_have "size_bytes" ByteSize;
    may_have "sha256" Sha256Hex;
    may_have "content_rectangle" ContentRectangle;
    has "redaction_state" RedactionState;
    has "retention_class" RetentionClass;
    may_have "browser_session_id" Identifier;
    has "created_at" Timestamp;
    may_have "available_at" Timestamp;
    may_have "expires_at" Timestamp;
    may_have "disposition" ArtefactDisposition;
    may_have "encryption_key_reference" EncryptionKeyReference;
    may_have "source_artefact_id" Identifier;
    may_have "thumbnail_state" ThumbnailState;
    may_have "thumbnail_artefact_id" Identifier;
    may_have "deleted_at" Timestamp].
Definition ArtefactUploadIntentRequest : json → Prop := interface_type [
    has "kind" ArtefactKind;
    has "content_type" MediaType;
    has "size_bytes" ByteSize;
    has "sha256" Sha256Hex;
    may_have "retention_class" RetentionClass;
    may_have "browser_session_id" Identifier;
    may_have "source_artefact_id" Identifier;
    may_have "filename" FilenameLabel].
Definition ArtefactUploadIntentResponse : json → Prop := interface_type [
    has "artefact_id" Identifier;
    has "state" ArtefactState;
    may_have "upload_path" string_type;
    may_have "upload_url" string_type;
    may_have "upload_expires_at" Timestamp;
    has "max_bytes" ByteSize].
Definition ArtefactUploadCompletionRequest : json → Prop := interface_type [
    has "sha256" Sha256Hex;
    may_have "size_bytes" ByteSize].
Definition ArtefactResourceDegradation : json → Prop := interface_type [
    has "reason" ArtefactResourceDegradationReason;
    has "detail" ReasonText].
Definition ArtefactResource : json → Prop := interface_type [
    has "artefact_id" Identifier;
    has "kind" ArtefactKind;
    has "state" ArtefactState;
    has "content_type" MediaType;
    may_have "sha256" Sha256Hex;
    may_have "size_bytes" ByteSize;
    may_have "content_rectangle" ContentRectangle;
    may_have "browser_session_id" Identifier;
    may_have "redaction_state" RedactionState;
    may_have "disposition" ArtefactDisposition;
    may_have "content_path" string_type;
    may_have "expires_at" Timestamp;
    may_have "degraded" ArtefactResourceDegradation;
    has "trust" ArtefactResourceTrust;
    has "instruction_policy" ArtefactResourceInstructionPolicy].
Definition ArtefactStoreStatus : json → Prop := interface_type [
    has "driver" ArtefactStorageDriver;
    has "available" boolean_type;
    may_have "detail" ReasonText;
    has "artefact_count" number_type;
    has "stored_bytes" number_type;
    may_have "pending_bytes" number_type].
Definition ArtefactDeleted : json → Prop := interface_type [
    has "artefact_id" Identifier;
    has "kind" ArtefactKind;
    may_have "sha256" Sha256Hex;
    may_have "size_bytes" ByteSize;
    has "bytes_removed" boolean_type;
    may_have "reason" ReasonText].
Definition ArtefactThumbnailGenerated : json → Prop := interface_type [
    has "artefact_id" Identifier;
    has "state" ThumbnailState;
    may_have "thumbnail_artefact_id" Identifier;
    may_have "content_rectangle" ContentRectangle;
    may_have "reason" ReasonText].
Definition VerificationChecks : json → Prop := interface_type [
    has "reproduced_before" boolean_type;
    has "console_errors_reviewed" boolean_type;
    has "network_failures_reviewed" boolean_type;
    may_have "accessibility_checked" boolean_type].
Definition VerificationReference : json → Prop := interface_type [
    has "verification_id" Identifier;
    has "finding_id" Identifier;
    has "status" VerificationStatus;
    has "submitted_by" Actor;
    may_have "summary" BodyText;
    may_have "branch" BranchName;
    may_have "commit" CommitSha;
    may_have "before_artefact_id" Identifier;
    may_have "after_artefact_id" Identifier;
    may_have "tested_viewports" (array_type Viewport);
    may_have "checks" VerificationChecks;
    may_have "artefact_ids" (array_type Identifier);
    has "submitted_at" Timestamp;
    may_have "reviewed_at" Timestamp;
    may_have "supersedes_verification_id" Identifier;
    may_have "superseded_by_verification_id" Identifier;
    may_have "superseded_at" Timestamp].
Definition ErrorDetails : json → Prop := interface_type [
    may_have "current_version" VersionNumber;
    may_have "expected_version" VersionNumber;
    may_have "field" ReasonText;
    may_have "missing_context" (array_type ReasonText);
    may_have "required_evidence" (array_type ReasonText);
    may_have "allowed_transitions" (array_type ReasonText);
    may_have "reason" ReasonText;
    may_have "retry_after_ms" number_type].
Definition DomainError : json → Prop := interface_type [
    has "code" ErrorClass;
    has "message" ReasonText;
    may_have "details" ErrorDetails].
Definition ReviewCreateRequest : json → Prop := interface_type [
    has "slug" Slug;
    has "title" TitleText;
    may_have "description" BodyText;
    may_have "status" ReviewStatus;
    may_have "priority" ReviewPriority;
    has "captured_branch" BranchName;
    has "captured_commit" CommitSha;
    has "captured_workspace_id" Identifier;
    has "source_browser_session_id" Identifier].
Definition ReviewUpdateRequest : json → Prop := interface_type [
    has "expected_version" VersionNumber;
    may_have "title" TitleText;
    may_have "slug" Slug;
    may_have "description" BodyText;
    may_have "status" ReviewStatus;
    may_have "priority" ReviewPriority].
Definition ReviewAssignRequest : json → Prop := interface_type [
    has "expected_version" VersionNumber;
    may_have "assigned_user_id" Identifier;
    may_have "assigned_agent_session_id" Identifier;
    may_have "reason" ReasonText].
Definition ReviewTransitionRequest : json → Prop := interface_type [
    has "expected_version" VersionNumber;
    may_have "reason" ReasonText].
Definition FindingClaimRequest : json → Prop := interface_type [
    has "expected_version" VersionNumber].
Definition FindingTransitionRequest : json → Prop := interface_type [
    has "expected_version" VersionNumber;
    may_have "verification_id" Identifier;
    may_have "reason" ReasonText;
    may_have "duplicate_of_finding_id" Identifier].
Definition VerificationCreateRequest : json → Prop := interface_type [
    may_have "expected_version" VersionNumber;
    has "summary" BodyText;
    has "branch" BranchName;
    has "commit" CommitSha;
    has "tested_viewports" (array_type Viewport);
    has "checks" VerificationChecks;
    has "artefact_ids" (array_type Identifier)].
Definition CommentCreateRequest : json → Prop := interface_type [
    has "body" BodyText].
Definition CommentUpdateRequest : json → Prop := interface_type [
    has "body" BodyText].
Definition AnnotationCreateRequest : json → Prop := interface_type [
    has "artefact_id" Identifier;
    has "type" AnnotationType;
    has "geometry" AnnotationGeometry;
    has "label" TitleText;
    may_have "marker_number" MarkerNumber;
    may_have "style_hint" AnnotationCreateRequestStyleHint].
Definition FindingCreateRequest : json → Prop := interface_type [
    has "title" TitleText;
    may_have "description" BodyText;
    has "severity" FindingSeverity;
    has "url" CapturedUrl;
    has "viewport" Viewport;
    has "scroll_position" ScrollPosition;
    has "captured_commit" CommitSha;
    has "screenshot_artefact_id" Identifier;
    may_have "element_context" ElementContext;
    may_have "acceptance_criteria" BodyText;
    may_have "annotations" (array_type AnnotationCreateRequest)].
Definition FindingUpdateRequest : json → Prop := interface_type [
    has "expected_version" VersionNumber;
    may_have "title" TitleText;
    may_have "description" BodyText;
    may_have "severity" FindingSeverity;
    may_have "status" FindingStatus;
    may_have "acceptance_criteria" BodyText;
    may_have "resolution_note" BodyText;
    may_have "verification_id" Identifier;
    may_have "reason" ReasonText].
Definition AnnotationUpdateRequest : json → Prop := interface_type [
    has "expected_revision" VersionNumber;
    may_have "geometry" AnnotationGeometry;
    may_have "label" TitleText;
    may_have "marker_number" MarkerNumber;
    may_have "style_hint" AnnotationUpdateRequestStyleHint].
Definition ReviewCreated : json → Prop := interface_type [
    has "review" Review].
Definition ReviewNamed : json → Prop := interface_type [
    has "review_id" Identifier;
    has "slug" Slug;
    has "title" TitleText;
    may_have "previous_slug" Slug].
Definition ReviewStatusChanged : json → Prop := interface_type [
    has "review_id" Identifier;
    has "from" ReviewStatus;
    has "to" ReviewStatus;
    has "version" VersionNumber;
    may_have "reason" ReasonText].
Definition FindingCreated : json → Prop := interface_type [
    has "finding" Finding].
Definition FindingAnnotated : json → Prop := interface_type [
    has "annotation" Annotation].
Definition FindingStatusChanged : json → Prop := interface_type [
    has "finding_id" Identifier;
    has "review_id" Identifier;
    has "from" FindingStatus;
    has "to" FindingStatus;
    has "version" VersionNumber;
    has "source" FindingSource;
    may_have "reason" ReasonText].
Definition Comment : json → Prop := interface_type [
    has "id" Identifier;
    may_have "organisation_id" Identifier;
    may_have "project_id" Identifier;
    has "review_id" Identifier;
    may_have "finding_id" Identifier;
    has "body" BodyText;
    has "created_by" Actor;
    has "revision" VersionNumber;
    may_have "supersedes_comment_id" Identifier;
    may_have "superseded_at" Timestamp;
    has "created_at" Timestamp].
Definition InboxItem : json → Prop := interface_type [
    has "id" Identifier;
    may_have "organisation_id" Identifier;
    has "project_id" Identifier;
    has "recipient_type" InboxItemRecipientType;
    may_have "recipient_id" Identifier;
    has "type" InboxItemType;
    has "title" TitleText;
    has "status" InboxItemStatus;
    may_have "review_id" Identifier;
    may_have "review_slug" Slug;
    may_have "finding_id" Identifier;
    may_have "priority" ReviewPriority;
    may_have "finding_count" number_type;
    may_have "assigned_by" Actor;
    has "created_at" Timestamp;
    may_have "acknowledged_at" Timestamp;
    may_have "completed_at" Timestamp;
    may_have "expires_at" Timestamp].
Definition InboxItemCreated : json → Prop := interface_type [
    has "inbox_item_id" Identifier;
    has "recipient_type" InboxItemRecipientType;
    may_have "recipient_id" Identifier;
    has "type" InboxItemType;
    has "status" InboxItemStatus;
    may_have "review_id" Identifier;
    may_have "finding_id" Identifier;
    may_have "finding_count" number_type;
    may_have "priority" ReviewPriority].
Definition InboxItemAcknowledged : json → Prop := interface_type [
    has "inbox_item_id" Identifier;
    has "previous_status" InboxItemStatus;
    may_have "review_id" Identifier].
Definition InboxItemCompleted : json → Prop := interface_type [
    has "inbox_item_id" Identifier;
    has "previous_status" InboxItemStatus;
    may_have "review_id" Identifier].
Definition InboxItemDismissed : json → Prop := interface_type [
    has "inbox_item_id" Identifier;
    has "previous_status" InboxItemStatus;
    may_have "review_id" Identifier;
    may_have "reason" ReasonText].
Definition InboxItemExpired : json → Prop := interface_type [
    has "inbox_item_id" Identifier;
    has "previous_status" InboxItemStatus;
    may_have "review_id" Identifier].
Definition ReviewClaimed : json → Prop := interface_type [
    has "review_id" Identifier;
    has "claimed_by" Actor;
    has "version" VersionNumber;
    may_have "previous_claimed_by" Actor].
Definition FindingClaimed : json → Prop := interface_type [
    has "finding_id" Identifier;
    has "review_id" Identifier;
    has "claimed_by" Actor;
    has "version" VersionNumber].
Definition FindingCommentAdded : json → Prop := interface_type [
    has "comment" Comment].
Definition ReviewCommentAdded : json → Prop := interface_type [
    has "comment" Comment].
Definition ReviewAssigned : json → Prop := interface_type [
    has "review_id" Identifier;
    may_have "assigned_user_id" Identifier;
    may_have "assigned_agent_session_id" Identifier;
    may_have "previous_assigned_user_id" Identifier;
    may_have "previous_assigned_agent_session_id" Identifier;
    has "version" VersionNumber;
    may_have "reason" ReasonText].
Definition ReviewAccepted : json → Prop := interface_type [
    has "review_id" Identifier;
    has "accepted_by" Actor;
    has "version" VersionNumber;
    has "finding_count" number_type;
    has "human_finding_count" number_type;
    may_have "reason" ReasonText].
Definition ReviewReopened : json → Prop := interface_type [
    has "review_id" Identifier;
    has "from" ReviewStatus;
    has "to" ReviewStatus;
    has "version" VersionNumber;
    has "reopen_count" number_type;
    may_have "reason" ReasonText].
Definition ReviewArchived : json → Prop := interface_type [
    has "review_id" Identifier;
    has "from" ReviewStatus;
    has "version" VersionNumber;
    may_have "reason" ReasonText].
Definition FindingResolved : json → Prop := interface_type [
    has "finding_id" Identifier;
    has "review_id" Identifier;
    has "disposition" FindingStatus;
    has "source" FindingSource;
    has "decided_by" Actor;
    has "version" VersionNumber;
    may_have "duplicate_of_finding_id" Identifier;
    may_have "reason" ReasonText].
Definition ReviewStatusChangeDenied : json → Prop := interface_type [
    has "review_id" Identifier;
    has "from" ReviewStatus;
    has "requested" ReviewStatus;
    has "code" ErrorClass;
    may_have "reason" ReasonText].
Definition FindingStatusChangeDenied : json → Prop := interface_type [
    has "finding_id" Identifier;
    has "review_id" Identifier;
    has "from" FindingStatus;
    has "requested" FindingStatus;
    has "source" FindingSource;
    has "code" ErrorClass;
    may_have "reason" ReasonText].
Definition FindingReopened : json → Prop := interface_type [
    has "finding_id" Identifier;
    has "review_id" Identifier;
    has "from" FindingStatus;
    has "version" VersionNumber;
    has "verification_count" number_type;
    may_have "reason" ReasonText].
Definition FindingVerificationSubmitted : json → Prop := interface_type [
    has "verification" VerificationReference;
    has "finding_id" Identifier;
    has "review_id" Identifier;
    has "version" VersionNumber;
    may_have "supersedes_verification_id" Identifier].
Definition FindingVerificationAccepted : json → Prop := interface_type [
    has "verification_id" Identifier;
    has "finding_id" Identifier;
    has "review_id" Identifier;
    may_have "submitted_by" Actor;
    has "decided_by" Actor;
    may_have "after_artefact_id" Identifier;
    has "version" VersionNumber;
    may_have "reason" ReasonText].
Definition FindingVerificationRejected : json → Prop := interface_type [
    has "verification_id" Identifier;
    has "finding_id" Identifier;
    has "review_id" Identifier;
    may_have "submitted_by" Actor;
    has "decided_by" Actor;
    has "version" VersionNumber;
    has "reason" ReasonText].
Definition EvidenceAssurance : json → Prop := interface_type [
    has "verified_by_control_plane" (array_type RequirementLabel);
    has "asserted_by_agent" (array_type RequirementLabel);
    may_have "asserted_by" Actor].
Definition VerificationReview : json → Prop := interface_type [
    has "verification" VerificationReference;
    has "assurance" EvidenceAssurance;
    has "warnings" (array_type RequirementLabel);
    has "is_current" boolean_type].
Definition ReviewCompletionEvaluated : json → Prop := interface_type [
    has "review_id" Identifier;
    may_have "finding_id" Identifier;
    has "result" CompletionResult;
    has "missing" (array_type RequirementLabel);
    has "finding_count" number_type;
    may_have "summary" BodyText].
Definition ArtefactUploadStarted : json → Prop := interface_type [
    has "artefact_id" Identifier;
    has "kind" ArtefactKind;
    has "declared_size_bytes" ByteSize;
    has "declared_sha256" Sha256Hex;
    may_have "content_type" MediaType].
Definition ArtefactUploadCompleted : json → Prop := interface_type [
    has "artefact_id" Identifier;
    has "kind" ArtefactKind;
    has "sha256" Sha256Hex;
    has "size_bytes" ByteSize;
    has "storage_key" StorageKey;
    has "redaction_state" RedactionState;
    may_have "content_rectangle" ContentRectangle].
Definition ArtefactUploadFailed : json → Prop := interface_type [
    has "artefact_id" Identifier;
    has "reason" ReasonText;
    may_have "code" ErrorClass].
Definition ArtefactAccessGranted : json → Prop := interface_type [
    has "artefact_id" Identifier;
    has "grant_id" Identifier;
    has "subject" Actor;
    has "expires_at" Timestamp].
Definition ScreenshotCaptured : json → Prop := interface_type [
    has "artefact_id" Identifier;
    has "sha256" Sha256Hex;
    has "size_bytes" ByteSize;
    has "content_rectangle" ContentRectangle;
    may_have "viewport" Viewport].
Definition Correlation : json → Prop := interface_type [
    may_have "request_id" Identifier;
    may_have "causation_event_id" Identifier;
    may_have "browser_session_id" Identifier;
    may_have "agent_session_id" Identifier;
    may_have "review_id" Identifier;
    may_have "finding_id" Identifier;
    may_have "annotation_id" Identifier;
    may_have "artefact_id" Identifier].
Definition Envelope : json → Prop := interface_type [
    has "id" Identifier;
    has "schema_version" number_type;
    has "sequence" SequenceNumber;
    has "type" MessageType;
    has "occurred_at" Timestamp;
    may_have "recorded_at" Timestamp;
    has "organisation_id" Identifier;
    has "project_id" Identifier;
    has "actor" Actor;
    may_have "correlation" Correlation].

(** [x-protocol.messages] *)
Definition review_messages : list (string * Schema) :=
  [("review.created", schema_review_created);
   ("review.named", schema_review_named);
   ("review.status_changed", schema_review_status_changed);
   ("finding.created", schema_finding_created);
   ("finding.annotated", schema_finding_annotated);
   ("finding.status_changed", schema_finding_status_changed);
   ("review.claimed", schema_review_claimed);
   ("finding.claimed", schema_finding_claimed);
   ("finding.comment_added", schema_finding_comment_added);
   ("finding.verification_submitted", schema_finding_verification_submitted);
   ("finding.verification_accepted", schema_finding_verification_accepted);
   ("finding.verification_rejected", schema_finding_verification_rejected);
   ("review.completion_evaluated", schema_review_completion_evaluated);
   ("review.assigned", schema_review_assigned);
   ("review.accepted", schema_review_accepted);
   ("review.reopened", schema_review_reopened);
   ("review.archived", schema_review_archived);
   ("review.comment_added", schema_review_comment_added);
   ("finding.resolved", schema_finding_resolved);
   ("finding.reopened", schema_finding_reopened);
   ("review.status_change_denied", schema_review_status_change_denied);
   ("finding.status_change_denied", schema_finding_status_change_denied);
   ("inbox_item.created", schema_inbox_item_created);
   ("inbox_item.acknowledged", schema_inbox_item_acknowledged);
   ("inbox_item.completed", schema_inbox_item_completed);
   ("inbox_item.dismissed", schema_inbox_item_dismissed);
   ("inbox_item.expired", schema_inbox_item_expired);
   ("artefact.upload_started", schema_artefact_upload_started);
   ("artefact.upload_completed", schema_artefact_upload_completed);
   ("artefact.upload_failed", schema_artefact_upload_failed);
   ("artefact.access_granted", schema_artefact_access_granted);
   ("artefact.deleted", schema_artefact_deleted);
   ("artefact.thumbnail_generated", schema_artefact_thumbnail_generated);
   ("screenshot.captured", schema_screenshot_captured)].

(** ** Encoders, decoders and dispatch *)

Definition encodeActor (value : option json) : result string string := object_text [
    push_field "type" jsonString value;
    push_optional "id" jsonString value;
    push_optional "display" jsonString value].
Definition encodeViewport (value : option json) : result string string := object_text [
    push_field "width" jsonInteger value;
    push_field "height" jsonInteger value;
    push_field "device_scale_factor" jsonNumber value].
Definition encodeScrollPosition (value : option json) : result string string := object_text [
    push_field "x" jsonInteger value;
    push_field "y" jsonInteger value].
Definition encodeContentRectangle (value : option json) : result string string := object_text [
    push_field "width_px" jsonInteger value;
    push_field "height_px" jsonInteger value].
Definition encodeCssPixelBox (value : option json) : result string string := object_text [
    push_field "x" jsonInteger value;
    push_field "y" jsonInteger value;
    push_field "width" jsonInteger value;
    push_field "height" jsonInteger value].
Definition encodeAnnotationPathPoint (value : option json) : result string string := object_text [
    push_field "x" jsonNumber value;
    push_field "y" jsonNumber value].
Definition encodeAnnotationGeometry (value : option json) : result string string := object_text [
    push_field "x" jsonNumber value;
    push_field "y" jsonNumber value;
    push_optional "width" jsonNumber value;
    push_optional "height" jsonNumber value;
    push_optional "x2" jsonNumber value;
    push_optional "y2" jsonNumber value;
    push_optional "rotation" jsonNumber value;
    push_optional "path" (jsonItems encodeAnnotationPathPoint) value].
Definition encodeElementContext (value : option json) : result string string := object_text [
    push_optional "selector" jsonString value;
    push_optional "selector_strategy" jsonString value;
    push_optional "role" jsonString value;
    push_optional "accessible_name" jsonString value;
    push_optional "text_excerpt" jsonString value;
    push_optional "bounding_box_css_pixels" encodeCssPixelBox value;
    push_optional "dom_fingerprint" jsonString value].
Definition encodeReview (value : option json) : result string string := object_text [
    push_field "id" jsonString value;
    push_field "organisation_id" jsonString value;
    push_field "project_id" jsonString value;
    push_field "slug" jsonString value;
    push_field "title" jsonString value;
    push_optional "description" jsonString value;
    push_field "status" jsonString value;
    push_optional "priority" jsonString value;
    push_field "version" jsonInteger value;
    push_field "created_by" encodeActor value;
    push_optional "assigned_user_id" jsonString value;
    push_optional "assigned_agent_session_id" jsonString value;
    push_optional "reopen_count" jsonInteger value;
    push_field "captured_branch" jsonString value;
    push_field "captured_commit" jsonString value;
    push_field "captured_workspace_id" jsonString value;
    push_field "source_browser_session_id" jsonString value;
    push_optional "finding_count" jsonInteger value;
    push_field "created_at" jsonString value;
    push_field "updated_at" jsonString value;
    push_optional "closed_at" jsonString value].
Definition encodeFinding (value : option json) : result string string := object_text [
    push_field "id" jsonString value;
    push_field "organisation_id" jsonString value;
    push_field "project_id" jsonString value;
    push_field "review_id" jsonString value;
    push_field "title" jsonString value;
    push_optional "description" jsonString value;
    push_field "severity" jsonString value;
    push_field "status" jsonString value;
    push_field "source" jsonString value;
    push_field "version" jsonInteger value;
    push_field "created_by" encodeActor value;
    push_field "url" jsonString value;
    push_field "viewport" encodeViewport value;
    push_field "scroll_position" encodeScrollPosition value;
    push_field "captured_commit" jsonString value;
    push_field "screenshot_artefact_id" jsonString value;
    push_optional "element_context" encodeElementContext value;
    push_optional "acceptance_criteria" jsonString value;
    push_optional "claimed_by" encodeActor value;
    push_optional "annotation_count" jsonInteger value;
    push_field "created_at" jsonString value;
    push_field "updated_at" jsonString value].
Definition encodeAnnotation (value : option json) : result string string := object_text [
    push_field "id" jsonString value;
    push_field "organisation_id" jsonString value;
    push_field "project_id" jsonString value;
    push_field "finding_id" jsonString value;
    push_field "artefact_id" jsonString value;
    push_field "type" jsonString value;
    push_field "geometry" encodeAnnotationGeometry value;
    push_field "geometry_version" jsonInteger value;
    push_optional "label" jsonString value;
    push_optional "marker_number" jsonInteger value;
    push_optional "style_hint" jsonString value;
    push_field "revision" jsonInteger value;
    push_field "created_by" encodeActor value;
    push_field "created_at" jsonString value;
    push_optional "deleted_at" jsonString value].
Definition encodeArtefact (value : option json) : result string string := object_text [
    push_field "id" jsonString value;
    push_field "organisation_id" jsonString value;
    push_field "project_id" jsonString value;
    push_field "kind" jsonString value;
    push_field "state" jsonString value;
    push_optional "storage_key" jsonString value;
    push_field "content_type" jsonString value;
    push_optional "size_bytes" jsonInteger value;
    push_optional "sha256" jsonString value;
    push_optional "content_rectangle" encodeContentRectangle value;
    push_field "redaction_state" jsonString value;
    push_field "retention_class" jsonString value;
    push_optional "browser_session_id" jsonString value;
    push_field "created_at" jsonString value;
    push_optional "available_at" jsonString value;
    push_optional "expires_at" jsonString value;
    push_optional "disposition" jsonString value;
    push_optional "encryption_key_reference" jsonString value;
    push_optional "source_artefact_id" jsonString value;
    push_optional "thumbnail_state" jsonString value;
    push_optional "thumbnail_artefact_id" jsonString value;
    push_optional "deleted_at" jsonString value].
Definition encodeArtefactUploadIntentRequest (value : option json) : result string string := object_text [
    push_field "kind" jsonString value;
    push_field "content_type" jsonString value;
    push_field "size_bytes" jsonInteger value;
    push_field "sha256" jsonString value;
    push_optional "retention_class" jsonString value;
    push_optional "browser_session_id" jsonString value;
    push_optional "source_artefact_id" jsonString value;
    push_optional "filename" jsonString value].
Definition encodeArtefactUploadIntentResponse (value : option json) : result string string := object_text [
    push_field "artefact_id" jsonString value;
    push_field "state" jsonString value;
    push_optional "upload_path" jsonString value;
    push_optional "upload_url" jsonString value;
    push_optional "upload_expires_at" jsonString value;
    push_field "max_bytes" jsonInteger value].
Definition encodeArtefactUploadCompletionRequest (value : option json) : result string string := object_text [
    push_field "sha256" jsonString value;
    push_optional "size_bytes" jsonInteger value].
Definition encodeArtefactResourceDegradation (value : option json) : result string string := object_text [
    push_field "reason" jsonString value;
    push_field "detail" jsonString value].
Definition encodeArtefactResource (value : option json) : result string string := object_text [
    push_field "artefact_id" jsonString value;
    push_field "kind" jsonString value;
    push_field "state" jsonString value;
    push_field "content_type" jsonString value;
    push_optional "sha256" jsonString value;
    push_optional "size_bytes" jsonInteger value;
    push_optional "content_rectangle" encodeContentRectangle value;
    push_optional "browser_session_id" jsonString value;
    push_optional "redaction_state" jsonString value;
    push_optional "disposition" jsonString value;
    push_optional "content_path" jsonString value;
    push_optional "expires_at" jsonString value;
    push_optional "degraded" encodeArtefactResourceDegradation value;
    push_field "trust" jsonString value;
    push_field "instruction_policy" jsonString value].
Definition encodeArtefactStoreStatus (value : option json) : result string string := object_text [
    push_field "driver" jsonString value;
    push_field "available" jsonBoolean value;
    push_optional "detail" jsonString value;
    push_field "artefact_count" jsonInteger value;
    push_field "stored_bytes" jsonInteger value;
    push_optional "pending_bytes" jsonInteger value].
Definition encodeArtefactDeleted (value : option json) : result string string := object_text [
    push_field "artefact_id" jsonString value;
    push_field "kind" jsonString value;
    push_optional "sha256" jsonString value;
    push_optional "size_bytes" jsonInteger value;
    push_field "bytes_removed" jsonBoolean value;
    push_optional "reason" jsonString value].
Definition encodeArtefactThumbnailGenerated (value : option json) : result string string := object_text [
    push_field "artefact_id" jsonString value;
    push_field "state" jsonString value;
    push_optional "thumbnail_artefact_id" jsonString value;
    push_optional "content_rectangle" encodeContentRectangle value;
    push_optional "reason" jsonString value].
Definition encodeVerificationChecks (value : option json) : result string string := object_text [
    push_field "reproduced_before" jsonBoolean value;
    push_field "console_errors_reviewed" jsonBoolean value;
    push_field "network_failures_reviewed" jsonBoolean value;
    push_optional "accessibility_checked" jsonBoolean value].
Definition encodeVerificationReference (value : option json) : result string string := object_text [
    push_field "verification_id" jsonString value;
    push_field "finding_id" jsonString value;
    push_field "status" jsonString value;
    push_field "submitted_by" encodeActor value;
    push_optional "summary" jsonString value;
    push_optional "branch" jsonString value;
    push_optional "commit" jsonString value;
    push_optional "before_artefact_id" jsonString value;
    push_optional "after_artefact_id" jsonString value;
    push_optional "tested_viewports" (jsonItems encodeViewport) value;
    push_optional "checks" encodeVerificationChecks value;
    push_optional "artefact_ids" (jsonItems jsonString) value;
    push_field "submitted_at" jsonString value;
    push_optional "reviewed_at" jsonString value;
    push_optional "supersedes_verification_id" jsonString value;
    push_optional "superseded_by_verification_id" jsonString value;
    push_optional "superseded_at" jsonString value].
Definition encodeErrorDetails (value : option json) : result string string := object_text [
    push_optional "current_version" jsonInteger value;
    push_optional "expected_version" jsonInteger value;
    push_optional "field" jsonString value;
    push_optional "missing_context" (jsonItems jsonString) value;
    push_optional "required_evidence" (jsonItems jsonString) value;
    push_optional "allowed_transitions" (jsonItems jsonString) value;
    push_optional "reason" jsonString value;
    push_optional "retry_after_ms" jsonInteger value].
Definition encodeDomainError (value : option json) : result string string := object_text [
    push_field "code" jsonString value;
    push_field "message" jsonString value;
    push_optional "details" encodeErrorDetails value].
Definition encodeReviewCreateRequest (value : option json) : result string string := object_text [
    push_field "slug" jsonString value;
    push_field "title" jsonString value;
    push_optional "description" jsonString value;
    push_optional "status" jsonString value;
    push_optional "priority" jsonString value;
    push_field "captured_branch" jsonString value;
    push_field "captured_commit" jsonString value;
    push_field "captured_workspace_id" jsonString value;
    push_field "source_browser_session_id" jsonString value].
Definition encodeReviewUpdateRequest (value : option json) : result string string := object_text [
    push_field "expected_version" jsonInteger value;
    push_optional "title" jsonString value;
    push_optional "slug" jsonString value;
    push_optional "description" jsonString value;
    push_optional "status" jsonString value;
    push_optional "priority" jsonString value].
Definition encodeReviewAssignRequest (value : option json) : result string string := object_text [
    push_field "expected_version" jsonInteger value;
    push_optional "assigned_user_id" jsonString value;
    push_optional "assigned_agent_session_id" jsonString value;
    push_optional "reason" jsonString value].
Definition encodeReviewTransitionRequest (value : option json) : result string string := object_text [
    push_field "expected_version" jsonInteger value;
    push_optional "reason" jsonString value].
Definition encodeFindingClaimRequest (value : option json) : result string string := object_text [
    push_field "expected_version" jsonInteger value].
Definition encodeFindingTransitionRequest (value : option json) : result string string := object_text [
    push_field "expected_version" jsonInteger value;
    push_optional "verification_id" jsonString value;
    push_optional "reason" jsonString value;
    push_optional "duplicate_of_finding_id" jsonString value].
Definition encodeVerificationCreateRequest (value : option json) : result string string := object_text [
    push_optional "expected_version" jsonInteger value;
    push_field "summary" jsonString value;
    push_field "branch" jsonString value;
    push_field "commit" jsonString value;
    push_field "tested_viewports" (jsonItems encodeViewport) value;
    push_field "checks" encodeVerificationChecks value;
    push_field "artefact_ids" (jsonItems jsonString) value].
Definition encodeCommentCreateRequest (value : option json) : result string string := object_text [
    push_field "body" jsonString value].
Definition encodeCommentUpdateRequest (value : option json) : result string string := object_text [
    push_field "body" jsonString value].
Definition encodeAnnotationCreateRequest (value : option json) : result string string := object_text [
    push_field "artefact_id" jsonString value;
    push_field "type" jsonString value;
    push_field "geometry" encodeAnnotationGeometry value;
    push_field "label" jsonString value;
    push_optional "marker_number" jsonInteger value;
    push_optional "style_hint" jsonString value].
Definition encodeFindingCreateRequest (value : option json) : result string string := object_text [
    push_field "title" jsonString value;
    push_optional "description" jsonString value;
    push_field "severity" jsonString value;
    push_field "url" jsonString value;
    push_field "viewport" encodeViewport value;
    push_field "scroll_position" encodeScrollPosition value;
    push_field "captured_commit" jsonString value;
    push_field "screenshot_artefact_id" jsonString value;
    push_optional "element_context" encodeElementContext value;
    push_optional "acceptance_criteria" jsonString value;
    push_optional "annotations" (jsonItems encodeAnnotationCreateRequest) value].
Definition encodeFindingUpdateRequest (value : option json) : result string string := object_text [
    push_field "expected_version" jsonInteger value;
    push_optional "title" jsonString value;
    push_optional "description" jsonString value;
    push_optional "severity" jsonString value;
    push_optional "status" jsonString value;
    push_optional "acceptance_criteria" jsonString value;
    push_optional "resolution_note" jsonString value;
    push_optional "verification_id" jsonString value;
    push_optional "reason" jsonString value].
Definition encodeAnnotationUpdateRequest (value : option json) : result string string := object_text [
    push_field "expected_revision" jsonInteger value;
    push_optional "geometry" encodeAnnotationGeometry value;
    push_optional "label" jsonString value;
    push_optional "marker_number" jsonInteger value;
    push_optional "style_hint" jsonString value].
Definition encodeReviewCreated (value : option json) : result string string := object_text [
    push_field "review" encodeReview value].
Definition encodeReviewNamed (value : option json) : result string string := object_text [
    push_field "review_id" jsonString value;
    push_field "slug" jsonString value;
    push_field "title" jsonString value;
    push_optional "previous_slug" jsonString value].
Definition encodeReviewStatusChanged (value : option json) : result string string := object_text [
    push_field "review_id" jsonString value;
    push_field "from" jsonString value;
    push_field "to" jsonString value;
    push_field "version" jsonInteger value;
    push_optional "reason" jsonString value].
Definition encodeFindingCreated (value : option json) : result string string := object_text [
    push_field "finding" encodeFinding value].
Definition encodeFindingAnnotated (value : option json) : result string string := object_text [
    push_field "annotation" encodeAnnotation value].
Definition encodeFindingStatusChanged (value : option json) : result string string := object_text [
    push_field "finding_id" jsonString value;
    push_field "review_id" jsonString value;
    push_field "from" jsonString value;
    push_field "to" jsonString value;
    push_field "version" jsonInteger value;
    push_field "source" jsonString value;
    push_optional "reason" jsonString value].
Definition encodeComment (value : option json) : result string string := object_text [
    push_field "id" jsonString value;
    push_optional "organisation_id" jsonString value;
    push_optional "project_id" jsonString value;
    push_field "review_id" jsonString value;
    push_optional "finding_id" jsonString value;
    push_field "body" jsonString value;
    push_field "created_by" encodeActor value;
    push_field "revision" jsonInteger value;
    push_optional "supersedes_comment_id" jsonString value;
    push_optional "superseded_at" jsonString value;
    push_field "created_at" jsonString value].
Definition encodeInboxItem (value : option json) : result string string := object_text [
    push_field "id" jsonString value;
    push_optional "organisation_id" jsonString value;
    push_field "project_id" jsonString value;
    push_field "recipient_type" jsonString value;
    push_optional "recipient_id" jsonString value;
    push_field "type" jsonString value;
    push_field "title" jsonString value;
    push_field "status" jsonString value;
    push_optional "review_id" jsonString value;
    push_optional "review_slug" jsonString value;
    push_optional "finding_id" jsonString value;
    push_optional "priority" jsonString value;
    push_optional "finding_count" jsonInteger value;
    push_optional "assigned_by" encodeActor value;
    push_field "created_at" jsonString value;
    push_optional "acknowledged_at" jsonString value;
    push_optional "completed_at" jsonString value;
    push_optional "expires_at" jsonString value].
Definition encodeInboxItemCreated (value : option json) : result string string := object_text [
    push_field "inbox_item_id" jsonString value;
    push_field "recipient_type" jsonString value;
    push_optional "recipient_id" jsonString value;
    push_field "type" jsonString value;
    push_field "status" jsonString value;
    push_optional "review_id" jsonString value;
    push_optional "finding_id" jsonString value;
    push_optional "finding_count" jsonInteger value;
    push_optional "priority" jsonString value].
Definition encodeInboxItemAcknowledged (value : option json) : result string string := object_text [
    push_field "inbox_item_id" jsonString value;
    push_field "previous_status" jsonString value;
    push_optional "review_id" jsonString value].
Definition encodeInboxItemCompleted (value : option json) : result string string := object_text [
    push_field "inbox_item_id" jsonString value;
    push_field "previous_status" jsonString value;
    push_optional "review_id" jsonString value].
Definition encodeInboxItemDismissed (value : option json) : result string string := object_text [
    push_field "inbox_item_id" jsonString value;
    push_field "previous_status" jsonString value;
    push_optional "review_id" jsonString value;
    push_optional "reason" jsonString value].
Definition encodeInboxItemExpired (value : option json) : result string string := object_text [
    push_field "inbox_item_id" jsonString value;
    push_field "previous_status" jsonString value;
    push_optional "review_id" jsonString value].
Definition encodeReviewClaimed (value : option json) : result string string := object_text [
    push_field "review_id" jsonString value;
    push_field "claimed_by" encodeActor value;
    push_field "version" jsonInteger value;
    push_optional "previous_claimed_by" encodeActor value].
Definition encodeFindingClaimed (value : option json) : result string string := object_text [
    push_field "finding_id" jsonString value;
    push_field "review_id" jsonString value;
    push_field "claimed_by" encodeActor value;
    push_field "version" jsonInteger value].
Definition encodeFindingCommentAdded (value : option json) : result string string := object_text [
    push_field "comment" encodeComment value].
Definition encodeReviewCommentAdded (value : option json) : result string string := object_text [
    push_field "comment" encodeComment value].
Definition encodeReviewAssigned (value : option json) : result string string := object_text [
    push_field "review_id" jsonString value;
    push_optional "assigned_user_id" jsonString value;
    push_optional "assigned_agent_session_id" jsonString value;
    push_optional "previous_assigned_user_id" jsonString value;
    push_optional "previous_assigned_agent_session_id" jsonString value;
    push_field "version" jsonInteger value;
    push_optional "reason" jsonString value].
Definition encodeReviewAccepted (value : option json) : result string string := object_text [
    push_field "review_id" jsonString value;
    push_field "accepted_by" encodeActor value;
    push_field "version" jsonInteger value;
    push_field "finding_count" jsonInteger value;
    push_field "human_finding_count" jsonInteger value;
    push_optional "reason" jsonString value].
Definition encodeReviewReopened (value : option json) : result string string := object_text [
    push_field "review_id" jsonString value;
    push_field "from" jsonString value;
    push_field "to" jsonString value;
    push_field "version" jsonInteger value;
    push_field "reopen_count" jsonInteger value;
    push_optional "reason" jsonString value].
Definition encodeReviewArchived (value : option json) : result string string := object_text [
    push_field "review_id" jsonString value;
    push_field "from" jsonString value;
    push_field "version" jsonInteger value;
    push_optional "reason" jsonString value].
Definition encodeFindingResolved (value : option json) : result string string := object_text [
    push_field "finding_id" jsonString value;
    push_field "review_id" jsonString value;
    push_field "disposition" jsonString value;
    push_field "source" jsonString value;
    push_field "decided_by" encodeActor value;
    push_field "version" jsonInteger value;
    push_optional "duplicate_of_finding_id" jsonString value;
    push_optional "reason" jsonString value].
Definition encodeReviewStatusChangeDenied (value : option json) : result string string := object_text [
    push_field "review_id" jsonString value;
    push_field "from" jsonString value;
    push_field "requested" jsonString value;
    push_field "code" jsonString value;
    push_optional "reason" jsonString value].
Definition encodeFindingStatusChangeDenied (value : option json) : result string string := object_text [
    push_field "finding_id" jsonString value;
    push_field "review_id" jsonString value;
    push_field "from" jsonString value;
    push_field "requested" jsonString value;
    push_field "source" jsonString value;
    push_field "code" jsonString value;
    push_optional "reason" jsonString value].
Definition encodeFindingReopened (value : option json) : result string string := object_text [
    push_field "finding_id" jsonString value;
    push_field "review_id" jsonString value;
    push_field "from" jsonString value;
    push_field "version" jsonInteger value;
    push_field "verification_count" jsonInteger value;
    push_optional "reason" jsonString value].
Definition encodeFindingVerificationSubmitted (value : option json) : result string string := object_text [
    push_field "verification" encodeVerificationReference value;
    push_field "finding_id" jsonString value;
    push_field "review_id" jsonString value;
    push_field "version" jsonInteger value;
    push_optional "supersedes_verification_id" jsonString value].
Definition encodeFindingVerificationAccepted (value : option json) : result string string := object_text [
    push_field "verification_id" jsonString value;
    push_field "finding_id" jsonString value;
    push_field "review_id" jsonString value;
    push_optional "submitted_by" encodeActor value;
    push_field "decided_by" encodeActor value;
    push_optional "after_artefact_id" jsonString value;
    push_field "version" jsonInteger value;
    push_optional "reason" jsonString value].
Definition encodeFindingVerificationRejected (value : option json) : result string string := object_text [
    push_field "verification_id" jsonString value;
    push_field "finding_id" jsonString value;
    push_field "review_id" jsonString value;
    push_optional "submitted_by" encodeActor value;
    push_field "decided_by" encodeActor value;
    push_field "version" jsonInteger value;
    push_field "reason" jsonString value].
Definition encodeEvidenceAssurance (value : option json) : result string string := object_text [
    push_field "verified_by_control_plane" (jsonItems jsonString) value;
    push_field "asserted_by_agent" (jsonItems jsonString) value;
    push_optional "asserted_by" encodeActor value].
Definition encodeVerificationReview (value : option json) : result string string := object_text [
    push_field "verification" encodeVerificationReference value;
    push_field "assurance" encodeEvidenceAssurance value;
    push_field "warnings" (jsonItems jsonString) value;
    push_field "is_current" jsonBoolean value].
Definition encodeReviewCompletionEvaluated (value : option json) : result string string := object_text [
    push_field "review_id" jsonString value;
    push_optional "finding_id" jsonString value;
    push_field "result" jsonString value;
    push_field "missing" (jsonItems jsonString) value;
    push_field "finding_count" jsonInteger value;
    push_optional "summary" jsonString value].
Definition encodeArtefactUploadStarted (value : option json) : result string string := object_text [
    push_field "artefact_id" jsonString value;
    push_field "kind" jsonString value;
    push_field "declared_size_bytes" jsonInteger value;
    push_field "declared_sha256" jsonString value;
    push_optional "content_type" jsonString value].
Definition encodeArtefactUploadCompleted (value : option json) : result string string := object_text [
    push_field "artefact_id" jsonString value;
    push_field "kind" jsonString value;
    push_field "sha256" jsonString value;
    push_field "size_bytes" jsonInteger value;
    push_field "storage_key" jsonString value;
    push_field "redaction_state" jsonString value;
    push_optional "content_rectangle" encodeContentRectangle value].
Definition encodeArtefactUploadFailed (value : option json) : result string string := object_text [
    push_field "artefact_id" jsonString value;
    push_field "reason" jsonString value;
    push_optional "code" jsonString value].
Definition encodeArtefactAccessGranted (value : option json) : result string string := object_text [
    push_field "artefact_id" jsonString value;
    push_field "grant_id" jsonString value;
    push_field "subject" encodeActor value;
    push_field "expires_at" jsonString value].
Definition encodeScreenshotCaptured (value : option json) : result string string := object_text [
    push_field "artefact_id" jsonString value;
    push_field "sha256" jsonString value;
    push_field "size_bytes" jsonInteger value;
    push_field "content_rectangle" encodeContentRectangle value;
    push_optional "viewport" encodeViewport value].
Definition encodeCorrelation (value : option json) : result string string := object_text [
    push_optional "request_id" jsonString value;
    push_optional "causation_event_id" jsonString value;
    push_optional "browser_session_id" jsonString value;
    push_optional "agent_session_id" jsonString value;
    push_optional "review_id" jsonString value;
    push_optional "finding_id" jsonString value;
    push_optional "annotation_id" jsonString value;
    push_optional "artefact_id" jsonString value].
Definition encodeEnvelope (value : option json) (payloadJson : string) : result string string := object_text [
    push_field "id" jsonString value;
    push_field "schema_version" jsonInteger value;
    push_field "sequence" jsonInteger value;
    push_field "type" jsonString value;
    push_field "occurred_at" jsonString value;
    push_optional "recorded_at" jsonString value;
    push_field "organisation_id" jsonString value;
    push_field "project_id" jsonString value;
    push_field "actor" encodeActor value;
    push_optional "correlation" encodeCorrelation value;
    push_text "payload" payloadJson].

Definition decodeActor : json → result string json := read_object (λ source, [
    cast_field "type" as_is source;
    optional_field "id" as_is source;
    optional_field "display" as_is source]).
Definition decodeViewport : json → result string json := read_object (λ source, [
    cast_field "width" as_is source;
    cast_field "height" as_is source;
    cast_field "device_scale_factor" as_is source]).
Definition decodeScrollPosition : json → result string json := read_object (λ source, [
    cast_field "x" as_is source;
    cast_field "y" as_is source]).
Definition decodeContentRectangle : json → result string json := read_object (λ source, [
    cast_field "width_px" as_is source;
    cast_field "height_px" as_is source]).
Definition decodeCssPixelBox : json → result string json := read_object (λ source, [
    cast_field "x" as_is source;
    cast_field "y" as_is source;
    cast_field "width" as_is source;
    cast_field "height" as_is source]).
Definition decodeAnnotationPathPoint : json → result string json := read_object (λ source, [
    cast_field "x" as_is source;
    cast_field "y" as_is source]).
Definition decodeAnnotationGeometry : json → result string json := read_object (λ source, [
    cast_field "x" as_is source;
    cast_field "y" as_is source;
    optional_field "width" as_is source;
    optional_field "height" as_is source;
    optional_field "x2" as_is source;
    optional_field "y2" as_is source;
    optional_field "rotation" as_is source;
    optional_field "path" (read_items decodeAnnotationPathPoint) source]).
Definition decodeElementContext : json → result string json := read_object (λ source, [
    optional_field "selector" as_is source;
    optional_field "selector_strategy" as_is source;
    optional_field "role" as_is source;
    optional_field "accessible_name" as_is source;
    optional_field "text_excerpt" as_is source;
    optional_field "bounding_box_css_pixels" decodeCssPixelBox source;
    optional_field "dom_fingerprint" as_is source]).
Definition decodeReview : json → result string json := read_object (λ source, [
    cast_field "id" as_is source;
    cast_field "organisation_id" as_is source;
    cast_field "project_id" as_is source;
    cast_field "slug" as_is source;
    cast_field "title" as_is source;
    optional_field "description" as_is source;
    cast_field "status" as_is source;
    optional_field "priority" as_is source;
    cast_field "version" as_is source;
    read_field "created_by" decodeActor source;
    optional_field "assigned_user_id" as_is source;
    optional_field "assigned_agent_session_id" as_is source;
    optional_field "reopen_count" as_is source;
    cast_field "captured_branch" as_is source;
    cast_field "captured_commit" as_is source;
    cast_field "captured_workspace_id" as_is source;
    cast_field "source_browser_session_id" as_is source;
    optional_field "finding_count" as_is source;
    cast_field "created_at" as_is source;
    cast_field "updated_at" as_is source;
    optional_field "closed_at" as_is source]).
Definition decodeFinding : json → result string json := read_object (λ source, [
    cast_field "id" as_is source;
    cast_field "organisation_id" as_is source;
    cast_field "project_id" as_is source;
    cast_field "review_id" as_is source;
    cast_field "title" as_is source;
    optional_field "description" as_is source;
    cast_field "severity" as_is source;
    cast_field "status" as_is source;
    cast_field "source" as_is source;
    cast_field "version" as_is source;
    read_field "created_by" decodeActor source;
    cast_field "url" as_is source;
    read_field "viewport" decodeViewport source;
    read_field "scroll_position" decodeScrollPosition source;
    cast_field "captured_commit" as_is source;
    cast_field "screenshot_artefact_id" as_is source;
    optional_field "element_context" decodeElementContext source;
    optional_field "acceptance_criteria" as_is source;
    optional_field "claimed_by" decodeActor source;
    optional_field "annotation_count" as_is source;
    cast_field "created_at" as_is source;
    cast_field "updated_at" as_is source]).
Definition decodeAnnotation : json → result string json := read_object (λ source, [
    cast_field "id" as_is source;
    cast_field "organisation_id" as_is source;
    cast_field "project_id" as_is source;
    cast_field "finding_id" as_is source;
    cast_field "artefact_id" as_is source;
    cast_field "type" as_is source;
    read_field "geometry" decodeAnnotationGeometry source;
    cast_field "geometry_version" as_is source;
    optional_field "label" as_is source;
    optional_field "marker_number" as_is source;
    optional_field "style_hint" as_is source;
    cast_field "revision" as_is source;
    read_field "created_by" decodeActor source;
    cast_field "created_at" as_is source;
    optional_field "deleted_at" as_is source]).
Definition decodeArtefact : json → result string json := read_object (λ source, [
    cast_field "id" as_is source;
    cast_field "organisation_id" as_is source;
    cast_field "project_id" as_is source;
    cast_field "kind" as_is source;
    cast_field "state" as_is source;
    optional_field "storage_key" as_is source;
    cast_field "content_type" as_is source;
    optional_field "size_bytes" as_is source;
    optional_field "sha256" as_is source;
    optional_field "content_rectangle" decodeContentRectangle source;
    cast_field "redaction_state" as_is source;
    cast_field "retention_class" as_is source;
    optional_field "browser_session_id" as_is source;
    cast_field "created_at" as_is source;
    optional_field "available_at" as_is source;
    optional_field "expires_at" as_is source;
    optional_field "disposition" as_is source;
    optional_field "encryption_key_reference" as_is source;
    optional_field "source_artefact_id" as_is source;
    optional_field "thumbnail_state" as_is source;
    optional_field "thumbnail_artefact_id" as_is source;
    optional_field "deleted_at" as_is source]).
Definition decodeArtefactUploadIntentRequest : json → result string json := read_object (λ source, [
    cast_field "kind" as_is source;
    cast_field "content_type" as_is source;
    cast_field "size_bytes" as_is source;
    cast_field "sha256" as_is source;
    optional_field "retention_class" as_is source;
    optional_field "browser_session_id" as_is source;
    optional_field "source_artefact_id" as_is source;
    optional_field "filename" as_is source]).
Definition decodeArtefactUploadIntentResponse : json → result string json := read_object (λ source, [
    cast_field "artefact_id" as_is source;
    cast_field "state" as_is source;
    optional_field "upload_path" as_is source;
    optional_field "upload_url" as_is source;
    optional_field "upload_expires_at" as_is source;
    cast_field "max_bytes" as_is source]).
Definition decodeArtefactUploadCompletionRequest : json → result string json := read_object (λ source, [
    cast_field "sha256" as_is source;
    optional_field "size_bytes" as_is source]).
Definition decodeArtefactResourceDegradation : json → result string json := read_object (λ source, [
    cast_field "reason" as_is source;
    cast_field "detail" as_is source]).
Definition decodeArtefactResource : json → result string json := read_object (λ source, [
    cast_field "artefact_id" as_is source;
    cast_field "kind" as_is source;
    cast_field "state" as_is source;
    cast_field "content_type" as_is source;
    optional_field "sha256" as_is source;
    optional_field "size_bytes" as_is source;
    optional_field "content_rectangle" decodeContentRectangle source;
    optional_field "browser_session_id" as_is source;
    optional_field "redaction_state" as_is source;
    optional_field "disposition" as_is source;
    optional_field "content_path" as_is source;
    optional_field "expires_at" as_is source;
    optional_field "degraded" decodeArtefactResourceDegradation source;
    cast_field "trust" as_is source;
    cast_field "instruction_policy" as_is source]).
Definition decodeArtefactStoreStatus : json → result string json := read_object (λ source, [
    cast_field "driver" as_is source;
    cast_field "available" as_is source;
    optional_field "detail" as_is source;
    cast_field "artefact_count" as_is source;
    cast_field "stored_bytes" as_is source;
    optional_field "pending_bytes" as_is source]).
Definition decodeArtefactDeleted : json → result string json := read_object (λ source, [
    cast_field "artefact_id" as_is source;
    cast_field "kind" as_is source;
    optional_field "sha256" as_is source;
    optional_field "size_bytes" as_is source;
    cast_field "bytes_removed" as_is source;
    optional_field "reason" as_is source]).
Definition decodeArtefactThumbnailGenerated : json → result string json := read_object (λ source, [
    cast_field "artefact_id" as_is source;
    cast_field "state" as_is source;
    optional_field "thumbnail_artefact_id" as_is source;
    optional_field "content_rectangle" decodeContentRectangle source;
    optional_field "reason" as_is source]).
Definition decodeVerificationChecks : json → result string json := read_object (λ source, [
    cast_field "reproduced_before" as_is source;
    cast_field "console_errors_reviewed" as_is source;
    cast_field "network_failures_reviewed" as_is source;
    optional_field "accessibility_checked" as_is source]).
Definition decodeVerificationReference : json → result string json := read_object (λ source, [
    cast_field "verification_id" as_is source;
    cast_field "finding_id" as_is source;
    cast_field "status" as_is source;
    read_field "submitted_by" decodeActor source;
    optional_field "summary" as_is source;
    optional_field "branch" as_is source;
    optional_field "commit" as_is source;
    optional_field "before_artefact_id" as_is source;
    optional_field "after_artefact_id" as_is source;
    optional_field "tested_viewports" (read_items decodeViewport) source;
    optional_field "checks" decodeVerificationChecks source;
    optional_field "artefact_ids" (read_items as_is) source;
    cast_field "submitted_at" as_is source;
    optional_field "reviewed_at" as_is source;
    optional_field "supersedes_verification_id" as_is source;
    optional_field "superseded_by_verification_id" as_is source;
    optional_field "superseded_at" as_is source]).
Definition decodeErrorDetails : json → result string json := read_object (λ source, [
    optional_field "current_version" as_is source;
    optional_field "expected_version" as_is source;
    optional_field "field" as_is source;
    optional_field "missing_context" (read_items as_is) source;
    optional_field "required_evidence" (read_items as_is) source;
    optional_field "allowed_transitions" (read_items as_is) source;
    optional_field "reason" as_is source;
    optional_field "retry_after_ms" as_is source]).
Definition decodeDomainError : json → result string json := read_object (λ source, [
    cast_field "code" as_is source;
    cast_field "message" as_is source;
    optional_field "details" decodeErrorDetails source]).
Definition decodeReviewCreateRequest : json → result string json := read_object (λ source, [
    cast_field "slug" as_is source;
    cast_field "title" as_is source;
    optional_field "description" as_is source;
    optional_field "status" as_is source;
    optional_field "priority" as_is source;
    cast_field "captured_branch" as_is source;
    cast_field "captured_commit" as_is source;
    cast_field "captured_workspace_id" as_is source;
    cast_field "source_browser_session_id" as_is source]).
Definition decodeReviewUpdateRequest : json → result string json := read_object (λ source, [
    cast_field "expected_version" as_is source;
    optional_field "title" as_is source;
    optional_field "slug" as_is source;
    optional_field "description" as_is source;
    optional_field "status" as_is source;
    optional_field "priority" as_is source]).
Definition decodeReviewAssignRequest : json → result string json := read_object (λ source, [
    cast_field "expected_version" as_is source;
    optional_field "assigned_user_id" as_is source;
    optional_field "assigned_agent_session_id" as_is source;
    optional_field "reason" as_is source]).
Definition decodeReviewTransitionRequest : json → result string json := read_object (λ source, [
    cast_field "expected_version" as_is source;
    optional_field "reason" as_is source]).
Definition decodeFindingClaimRequest : json → result string json := read_object (λ source, [
    cast_field "expected_version" as_is source]).
Definition decodeFindingTransitionRequest : json → result string json := read_object (λ source, [
    cast_field "expected_version" as_is source;
    optional_field "verification_id" as_is source;
    optional_field "reason" as_is source;
    optional_field "duplicate_of_finding_id" as_is source]).
Definition decodeVerificationCreateRequest : json → result string json := read_object (λ source, [
    optional_field "expected_version" as_is source;
    cast_field "summary" as_is source;
    cast_field "branch" as_is source;
    cast_field "commit" as_is source;
    read_field "tested_viewports" (read_items decodeViewport) source;
    read_field "checks" decodeVerificationChecks source;
    read_field "artefact_ids" (read_items as_is) source]).
Definition decodeCommentCreateRequest : json → result string json := read_object (λ source, [
    cast_field "body" as_is source]).
Definition decodeCommentUpdateRequest : json → result string json := read_object (λ source, [
    cast_field "body" as_is source]).
Definition decodeAnnotationCreateRequest : json → result string json := read_object (λ source, [
    cast_field "artefact_id" as_is source;
    cast_field "type" as_is source;
    read_field "geometry" decodeAnnotationGeometry source;
    cast_field "label" as_is source;
    optional_field "marker_number" as_is source;
    optional_field "style_hint" as_is source]).
Definition decodeFindingCreateRequest : json → result string json := read_object (λ source, [
    cast_field "title" as_is source;
    optional_field "description" as_is source;
    cast_field "severity" as_is source;
    cast_field "url" as_is source;
    read_field "viewport" decodeViewport source;
    read_field "scroll_position" decodeScrollPosition source;
    cast_field "captured_commit" as_is source;
    cast_field "screenshot_artefact_id" as_is source;
    optional_field "element_context" decodeElementContext source;
    optional_field "acceptance_criteria" as_is source;
    optional_field "annotations" (read_items decodeAnnotationCreateRequest) source]).
Definition decodeFindingUpdateRequest : json → result string json := read_object (λ source, [
    cast_field "expected_version" as_is source;
    optional_field "title" as_is source;
    optional_field "description" as_is source;
    optional_field "severity" as_is source;
    optional_field "status" as_is source;
    optional_field "acceptance_criteria" as_is source;
    optional_field "resolution_note" as_is source;
    optional_field "verification_id" as_is source;
    optional_field "reason" as_is source]).
Definition decodeAnnotationUpdateRequest : json → result string json := read_object (λ source, [
    cast_field "expected_revision" as_is source;
    optional_field "geometry" decodeAnnotationGeometry source;
    optional_field "label" as_is source;
    optional_field "marker_number" as_is source;
    optional_field "style_hint" as_is source]).
Definition decodeReviewCreated : json → result string json := read_object (λ source, [
    read_field "review" decodeReview source]).
Definition decodeReviewNamed : json → result string json := read_object (λ source, [
    cast_field "review_id" as_is source;
    cast_field "slug" as_is source;
    cast_field "title" as_is source;
    optional_field "previous_slug" as_is source]).
Definition decodeReviewStatusChanged : json → result string json := read_object (λ source, [
    cast_field "review_id" as_is source;
    cast_field "from" as_is source;
    cast_field "to" as_is source;
    cast_field "version" as_is source;
    optional_field "reason" as_is source]).
Definition decodeFindingCreated : json → result string json := read_object (λ source, [
    read_field "finding" decodeFinding source]).
Definition decodeFindingAnnotated : json → result string json := read_object (λ source, [
    read_field "annotation" decodeAnnotation source]).
Definition decodeFindingStatusChanged : json → result string json := read_object (λ source, [
    cast_field "finding_id" as_is source;
    cast_field "review_id" as_is source;
    cast_field "from" as_is source;
    cast_field "to" as_is source;
    cast_field "version" as_is source;
    cast_field "source" as_is source;
    optional_field "reason" as_is source]).
Definition decodeComment : json → result string json := read_object (λ source, [
    cast_field "id" as_is source;
    optional_field "organisation_id" as_is source;
    optional_field "project_id" as_is source;
    cast_field "review_id" as_is source;
    optional_field "finding_id" as_is source;
    cast_field "body" as_is source;
    read_field "created_by" decodeActor source;
    cast_field "revision" as_is source;
    optional_field "supersedes_comment_id" as_is source;
    optional_field "superseded_at" as_is source;
    cast_field "created_at" as_is source]).
Definition decodeInboxItem : json → result string json := read_object (λ source, [
    cast_field "id" as_is source;
    optional_field "organisation_id" as_is source;
    cast_field "project_id" as_is source;
    cast_field "recipient_type" as_is source;
    optional_field "recipient_id" as_is source;
    cast_field "type" as_is source;
    cast_field "title" as_is source;
    cast_field "status" as_is source;
    optional_field "review_id" as_is source;
    optional_field "review_slug" as_is source;
    optional_field "finding_id" as_is source;
    optional_field "priority" as_is source;
    optional_field "finding_count" as_is source;
    optional_field "assigned_by" decodeActor source;
    cast_field "created_at" as_is source;
    optional_field "acknowledged_at" as_is source;
    optional_field "completed_at" as_is source;
    optional_field "expires_at" as_is source]).
Definition decodeInboxItemCreated : json → result string json := read_object (λ source, [
    cast_field "inbox_item_id" as_is source;
    cast_field "recipient_type" as_is source;
    optional_field "recipient_id" as_is source;
    cast_field "type" as_is source;
    cast_field "status" as_is source;
    optional_field "review_id" as_is source;
    optional_field "finding_id" as_is source;
    optional_field "finding_count" as_is source;
    optional_field "priority" as_is source]).
Definition decodeInboxItemAcknowledged : json → result string json := read_object (λ source, [
    cast_field "inbox_item_id" as_is source;
    cast_field "previous_status" as_is source;
    optional_field "review_id" as_is source]).
Definition decodeInboxItemCompleted : json → result string json := read_object (λ source, [
    cast_field "inbox_item_id" as_is source;
    cast_field "previous_status" as_is source;
    optional_field "review_id" as_is source]).
Definition decodeInboxItemDismissed : json → result string json := read_object (λ source, [
    cast_field "inbox_item_id" as_is source;
    cast_field "previous_status" as_is source;
    optional_field "review_id" as_is source;
    optional_field "reason" as_is source]).
Definition decodeInboxItemExpired : json → result string json := read_object (λ source, [
    cast_field "inbox_item_id" as_is source;
    cast_field "previous_status" as_is source;
    optional_field "review_id" as_is source]).
Definition decodeReviewClaimed : json → result string json := read_object (λ source, [
    cast_field "review_id" as_is source;
    read_field "claimed_by" decodeActor source;
    cast_field "version" as_is source;
    optional_field "previous_claimed_by" decodeActor source]).
Definition decodeFindingClaimed : json → result string json := read_object (λ source, [
    cast_field "finding_id" as_is source;
    cast_field "review_id" as_is source;
    read_field "claimed_by" decodeActor source;
    cast_field "version" as_is source]).
Definition decodeFindingCommentAdded : json → result string json := read_object (λ source, [
    read_field "comment" decodeComment source]).
Definition decodeReviewCommentAdded : json → result string json := read_object (λ source, [
    read_field "comment" decodeComment source]).
Definition decodeReviewAssigned : json → result string json := read_object (λ source, [
    cast_field "review_id" as_is source;
    optional_field "assigned_user_id" as_is source;
    optional_field "assigned_agent_session_id" as_is source;
    optional_field "previous_assigned_user_id" as_is source;
    optional_field "previous_assigned_agent_session_id" as_is source;
    cast_field "version" as_is source;
    optional_field "reason" as_is source]).
Definition decodeReviewAccepted : json → result string json := read_object (λ source, [
    cast_field "review_id" as_is source;
    read_field "accepted_by" decodeActor source;
    cast_field "version" as_is source;
    cast_field "finding_count" as_is source;
    cast_field "human_finding_count" as_is source;
    optional_field "reason" as_is source]).
Definition decodeReviewReopened : json → result string json := read_object (λ source, [
    cast_field "review_id" as_is source;
    cast_field "from" as_is source;
    cast_field "to" as_is source;
    cast_field "version" as_is source;
    cast_field "reopen_count" as_is source;
    optional_field "reason" as_is source]).
Definition decodeReviewArchived : json → result string json := read_object (λ source, [
    cast_field "review_id" as_is source;
    cast_field "from" as_is source;
    cast_field "version" as_is source;
    optional_field "reason" as_is source]).
Definition decodeFindingResolved : json → result string json := read_object (λ source, [
    cast_field "finding_id" as_is source;
    cast_field "review_id" as_is source;
    cast_field "disposition" as_is source;
    cast_field "source" as_is source;
    read_field "decided_by" decodeActor source;
    cast_field "version" as_is source;
    optional_field "duplicate_of_finding_id" as_is source;
    optional_field "reason" as_is source]).
Definition decodeReviewStatusChangeDenied : json → result string json := read_object (λ source, [
    cast_field "review_id" as_is source;
    cast_field "from" as_is source;
    cast_field "requested" as_is source;
    cast_field "code" as_is source;
    optional_field "reason" as_is source]).
Definition decodeFindingStatusChangeDenied : json → result string json := read_object (λ source, [
    cast_field "finding_id" as_is source;
    cast_field "review_id" as_is source;
    cast_field "from" as_is source;
    cast_field "requested" as_is source;
    cast_field "source" as_is source;
    cast_field "code" as_is source;
    optional_field "reason" as_is source]).
Definition decodeFindingReopened : json → result string json := read_object (λ source, [
    cast_field "finding_id" as_is source;
    cast_field "review_id" as_is source;
    cast_field "from" as_is source;
    cast_field "version" as_is source;
    cast_field "verification_count" as_is source;
    optional_field "reason" as_is source]).
Definition decodeFindingVerificationSubmitted : json → result string json := read_object (λ source, [
    read_field "verification" decodeVerificationReference source;
    cast_field "finding_id" as_is source;
    cast_field "review_id" as_is source;
    cast_field "version" as_is source;
    optional_field "supersedes_verification_id" as_is source]).
Definition decodeFindingVerificationAccepted : json → result string json := read_object (λ source, [
    cast_field "verification_id" as_is source;
    cast_field "finding_id" as_is source;
    cast_field "review_id" as_is source;
    optional_field "submitted_by" decodeActor source;
    read_field "decided_by" decodeActor source;
    optional_field "after_artefact_id" as_is source;
    cast_field "version" as_is source;
    optional_field "reason" as_is source]).
Definition decodeFindingVerificationRejected : json → result string json := read_object (λ source, [
    cast_field "verification_id" as_is source;
    cast_field "finding_id" as_is source;
    cast_field "review_id" as_is source;
    optional_field "submitted_by" decodeActor source;
    read_field "decided_by" decodeActor source;
    cast_field "version" as_is source;
    cast_field "reason" as_is source]).
Definition decodeEvidenceAssurance : json → result string json := read_object (λ source, [
    read_field "verified_by_control_plane" (read_items as_is) source;
    read_field "asserted_by_agent" (read_items as_is) source;
    optional_field "asserted_by" decodeActor source]).
Definition decodeVerificationReview : json → result string json := read_object (λ source, [
    read_field "verification" decodeVerificationReference source;
    read_field "assurance" decodeEvidenceAssurance source;
    read_field "warnings" (read_items as_is) source;
    cast_field "is_current" as_is source]).
Definition decodeReviewCompletionEvaluated : json → result string json := read_object (λ source, [
    cast_field "review_id" as_is source;
    optional_field "finding_id" as_is source;
    cast_field "result" as_is source;
    read_field "missing" (read_items as_is) source;
    cast_field "finding_count" as_is source;
    optional_field "summary" as_is source]).
Definition decodeArtefactUploadStarted : json → result string json := read_object (λ source, [
    cast_field "artefact_id" as_is source;
    cast_field "kind" as_is source;
    cast_field "declared_size_bytes" as_is source;
    cast_field "declared_sha256" as_is source;
    optional_field "content_type" as_is source]).
Definition decodeArtefactUploadCompleted : json → result string json := read_object (λ source, [
    cast_field "artefact_id" as_is source;
    cast_field "kind" as_is source;
    cast_field "sha256" as_is source;
    cast_field "size_bytes" as_is source;
    cast_field "storage_key" as_is source;
    cast_field "redaction_state" as_is source;
    optional_field "content_rectangle" decodeContentRectangle source]).
Definition decodeArtefactUploadFailed : json → result string json := read_object (λ source, [
    cast_field "artefact_id" as_is source;
    cast_field "reason" as_is source;
    optional_field "code" as_is source]).
Definition decodeArtefactAccessGranted : json → result string json := read_object (λ source, [
    cast_field "artefact_id" as_is source;
    cast_field "grant_id" as_is source;
    read_field "subject" decodeActor source;
    cast_field "expires_at" as_is source]).
Definition decodeScreenshotCaptured : json → result string json := read_object (λ source, [
    cast_field "artefact_id" as_is source;
    cast_field "sha256" as_is source;
    cast_field "size_bytes" as_is source;
    read_field "content_rectangle" decodeContentRectangle source;
    optional_field "viewport" decodeViewport source]).
Definition decodeCorrelation : json → result string json := read_object (λ source, [
    optional_field "request_id" as_is source;
    optional_field "causation_event_id" as_is source;
    optional_field "browser_session_id" as_is source;
    optional_field "agent_session_id" as_is source;
    optional_field "review_id" as_is source;
    optional_field "finding_id" as_is source;
    optional_field "annotation_id" as_is source;
    optional_field "artefact_id" as_is source]).
Definition decodeEnvelope : json → result string json := read_object (λ source, [
    cast_field "id" as_is source;
    cast_field "schema_version" as_is source;
    cast_field "sequence" as_is source;
    cast_field "type" as_is source;
    cast_field "occurred_at" as_is source;
    optional_field "recorded_at" as_is source;
    cast_field "organisation_id" as_is source;
    cast_field "project_id" as_is source;
    read_field "actor" decodeActor source;
    optional_field "correlation" decodeCorrelation source]).

Definition validatePayload (type : string) (value : json) (path : string) : list SchemaViolation :=
  if String.eqb type "review.created" then validateReviewCreated value path else
  if String.eqb type "review.named" then validateReviewNamed value path else
  if String.eqb type "review.status_changed" then validateReviewStatusChanged value path else
  if String.eqb type "finding.created" then validateFindingCreated value path else
  if String.eqb type "finding.annotated" then validateFindingAnnotated value path else
  if String.eqb type "finding.status_changed" then validateFindingStatusChanged value path else
  if String.eqb type "review.claimed" then validateReviewClaimed value path else
  if String.eqb type "finding.claimed" then validateFindingClaimed value path else
  if String.eqb type "finding.comment_added" then validateFindingCommentAdded value path else
  if String.eqb type "finding.verification_submitted" then validateFindingVerificationSubmitted value path else
  if String.eqb type "finding.verification_accepted" then validateFindingVerificationAccepted value path else
  if String.eqb type "finding.verification_rejected" then validateFindingVerificationRejected value path else
  if String.eqb type "review.completion_evaluated" then validateReviewCompletionEvaluated value path else
  if String.eqb type "review.assigned" then validateReviewAssigned value path else
  if String.eqb type "review.accepted" then validateReviewAccepted value path else
  if String.eqb type "review.reopened" then validateReviewReopened value path else
  if String.eqb type "review.archived" then validateReviewArchived value path else
  if String.eqb type "review.comment_added" then validateReviewCommentAdded value path else
  if String.eqb type "finding.resolved" then validateFindingResolved value path else
  if String.eqb type "finding.reopened" then validateFindingReopened value path else
  if String.eqb type "review.status_change_denied" then validateReviewStatusChangeDenied value path else
  if String.eqb type "finding.status_change_denied" then validateFindingStatusChangeDenied value path else
  if String.eqb type "inbox_item.created" then validateInboxItemCreated value path else
  if String.eqb type "inbox_item.acknowledged" then validateInboxItemAcknowledged value path else
  if String.eqb type "inbox_item.completed" then validateInboxItemCompleted value path else
  if String.eqb type "inbox_item.dismissed" then validateInboxItemDismissed value path else
  if String.eqb type "inbox_item.expired" then validateInboxItemExpired value path else
  if String.eqb type "artefact.upload_started" then validateArtefactUploadStarted value path else
  if String.eqb type "artefact.upload_completed" then validateArtefactUploadCompleted value path else
  if String.eqb type "artefact.upload_failed" then validateArtefactUploadFailed value path else
  if String.eqb type "artefact.access_granted" then validateArtefactAccessGranted value path else
  if String.eqb type "artefact.deleted" then validateArtefactDeleted value path else
  if String.eqb type "artefact.thumbnail_generated" then validateArtefactThumbnailGenerated value path else
  if String.eqb type "screenshot.captured" then validateScreenshotCaptured value path else
  [].
(** The payload of the frame; a type of no message gives no frame. *)
Definition decodeFrame (type : string) (value : json) : option (result string json) :=
  if String.eqb type "review.created" then Some (decodeReviewCreated value) else
  if String.eqb type "review.named" then Some (decodeReviewNamed value) else
  if String.eqb type "review.status_changed" then Some (decodeReviewStatusChanged value) else
  if String.eqb type "finding.created" then Some (decodeFindingCreated value) else
  if String.eqb type "finding.annotated" then Some (decodeFindingAnnotated value) else
  if String.eqb type "finding.status_changed" then Some (decodeFindingStatusChanged value) else
  if String.eqb type "review.claimed" then Some (decodeReviewClaimed value) else
  if String.eqb type "finding.claimed" then Some (decodeFindingClaimed value) else
  if String.eqb type "finding.comment_added" then Some (decodeFindingCommentAdded value) else
  if String.eqb type "finding.verification_submitted" then Some (decodeFindingVerificationSubmitted value) else
  if String.eqb type "finding.verification_accepted" then Some (decodeFindingVerificationAccepted value) else
  if String.eqb type "finding.verification_rejected" then Some (decodeFindingVerificationRejected value) else
  if String.eqb type "review.completion_evaluated" then Some (decodeReviewCompletionEvaluated value) else
  if String.eqb type "review.assigned" then Some (decodeReviewAssigned value) else
  if String.eqb type "review.accepted" then Some (decodeReviewAccepted value) else
  if String.eqb type "review.reopened" then Some (decodeReviewReopened value) else
  if String.eqb type "review.archived" then Some (decodeReviewArchived value) else
  if String.eqb type "review.comment_added" then Some (decodeReviewCommentAdded value) else
  if String.eqb type "finding.resolved" then Some (decodeFindingResolved value) else
  if String.eqb type "finding.reopened" then Some (decodeFindingReopened value) else
  if String.eqb type "review.status_change_denied" then Some (decodeReviewStatusChangeDenied value) else
  if String.eqb type "finding.status_change_denied" then Some (decodeFindingStatusChangeDenied value) else
  if String.eqb type "inbox_item.created" then Some (decodeInboxItemCreated value) else
  if String.eqb type "inbox_item.acknowledged" then Some (decodeInboxItemAcknowledged value) else
  if String.eqb type "inbox_item.completed" then Some (decodeInboxItemCompleted value) else
  if String.eqb type "inbox_item.dismissed" then Some (decodeInboxItemDismissed value) else
  if String.eqb type "inbox_item.expired" then Some (decodeInboxItemExpired value) else
  if String.eqb type "artefact.upload_started" then Some (decodeArtefactUploadStarted value) else
  if String.eqb type "artefact.upload_completed" then Some (decodeArtefactUploadCompleted value) else
  if String.eqb type "artefact.upload_failed" then Some (decodeArtefactUploadFailed value) else
  if String.eqb type "artefact.access_granted" then Some (decodeArtefactAccessGranted value) else
  if String.eqb type "artefact.deleted" then Some (decodeArtefactDeleted value) else
  if String.eqb type "artefact.thumbnail_generated" then Some (decodeArtefactThumbnailGenerated value) else
  if String.eqb type "screenshot.captured" then Some (decodeScreenshotCaptured value) else
  None.
Definition encodeFramePayload (type : string) (payload : option json) : option (result string string) :=
  if String.eqb type "review.created" then Some (encodeReviewCreated payload) else
  if String.eqb type "review.named" then Some (encodeReviewNamed payload) else
  if String.eqb type "review.status_changed" then Some (encodeReviewStatusChanged payload) else
  if String.eqb type "finding.created" then Some (encodeFindingCreated payload) else
  if String.eqb type "finding.annotated" then Some (encodeFindingAnnotated payload) else
  if String.eqb type "finding.status_changed" then Some (encodeFindingStatusChanged payload) else
  if String.eqb type "review.claimed" then Some (encodeReviewClaimed payload) else
  if String.eqb type "finding.claimed" then Some (encodeFindingClaimed payload) else
  if String.eqb type "finding.comment_added" then Some (encodeFindingCommentAdded payload) else
  if String.eqb type "finding.verification_submitted" then Some (encodeFindingVerificationSubmitted payload) else
  if String.eqb type "finding.verification_accepted" then Some (encodeFindingVerificationAccepted payload) else
  if String.eqb type "finding.verification_rejected" then Some (encodeFindingVerificationRejected payload) else
  if String.eqb type "review.completion_evaluated" then Some (encodeReviewCompletionEvaluated payload) else
  if String.eqb type "review.assigned" then Some (encodeReviewAssigned payload) else
  if String.eqb type "review.accepted" then Some (encodeReviewAccepted payload) else
  if String.eqb type "review.reopened" then Some (encodeReviewReopened payload) else
  if String.eqb type "review.archived" then Some (encodeReviewArchived payload) else
  if String.eqb type "review.comment_added" then Some (encodeReviewCommentAdded payload) else
  if String.eqb type "finding.resolved" then Some (encodeFindingResolved payload) else
  if String.eqb type "finding.reopened" then Some (encodeFindingReopened payload) else
  if String.eqb type "review.status_change_denied" then Some (encodeReviewStatusChangeDenied payload) else
  if String.eqb type "finding.status_change_denied" then Some (encodeFindingStatusChangeDenied payload) else
  if String.eqb type "inbox_item.created" then Some (encodeInboxItemCreated payload) else
  if String.eqb type "inbox_item.acknowledged" then Some (encodeInboxItemAcknowledged payload) else
  if String.eqb type "inbox_item.completed" then Some (encodeInboxItemCompleted payload) else
  if String.eqb type "inbox_item.dismissed" then Some (encodeInboxItemDismissed payload) else
  if String.eqb type "inbox_item.expired" then Some (encodeInboxItemExpired payload) else
  if String.eqb type "artefact.upload_started" then Some (encodeArtefactUploadStarted payload) else
  if String.eqb type "artefact.upload_completed" then Some (encodeArtefactUploadCompleted payload) else
  if String.eqb type "artefact.upload_failed" then Some (encodeArtefactUploadFailed payload) else
  if String.eqb type "artefact.access_granted" then Some (encodeArtefactAccessGranted payload) else
  if String.eqb type "artefact.deleted" then Some (encodeArtefactDeleted payload) else
  if String.eqb type "artefact.thumbnail_generated" then Some (encodeArtefactThumbnailGenerated payload) else
  if String.eqb type "screenshot.captured" then Some (encodeScreenshotCaptured payload) else
  None.

(** The objects of the schema, with the type and the functions generated for
    them. *)
Definition review_codec : list Coded :=
  [coded schema_actor Actor validateActor encodeActor decodeActor;
   coded schema_viewport Viewport validateViewport encodeViewport decodeViewport;
   coded schema_scroll_position ScrollPosition validateScrollPosition encodeScrollPosition decodeScrollPosition;
   coded schema_content_rectangle ContentRectangle validateContentRectangle encodeContentRectangle decodeContentRectangle;
   coded schema_css_pixel_box CssPixelBox validateCssPixelBox encodeCssPixelBox decodeCssPixelBox;
   coded schema_annotation_path_point AnnotationPathPoint validateAnnotationPathPoint encodeAnnotationPathPoint decodeAnnotationPathPoint;
   coded schema_annotation_geometry AnnotationGeometry validateAnnotationGeometry encodeAnnotationGeometry decodeAnnotationGeometry;
   coded schema_element_context ElementContext validateElementContext encodeElementContext decodeElementContext;
   coded schema_review Review validateReview encodeReview decodeReview;
   coded schema_finding Finding validateFinding encodeFinding decodeFinding;
   coded schema_annotation Annotation validateAnnotation encodeAnnotation decodeAnnotation;
   coded schema_artefact Artefact validateArtefact encodeArtefact decodeArtefact;
   coded schema_artefact_upload_intent_request ArtefactUploadIntentRequest validateArtefactUploadIntentRequest encodeArtefactUploadIntentRequest decodeArtefactUploadIntentRequest;
   coded schema_artefact_upload_intent_response ArtefactUploadIntentResponse validateArtefactUploadIntentResponse encodeArtefactUploadIntentResponse decodeArtefactUploadIntentResponse;
   coded schema_artefact_upload_completion_request ArtefactUploadCompletionRequest validateArtefactUploadCompletionRequest encodeArtefactUploadCompletionRequest decodeArtefactUploadCompletionRequest;
   coded schema_artefact_resource ArtefactResource validateArtefactResource encodeArtefactResource decodeArtefactResource;
   coded schema_artefact_resource_degradation ArtefactResourceDegradation validateArtefactResourceDegradation encodeArtefactResourceDegradation decodeArtefactResourceDegradation;
   coded schema_artefact_store_status ArtefactStoreStatus validateArtefactStoreStatus encodeArtefactStoreStatus decodeArtefactStoreStatus;
   coded schema_artefact_deleted ArtefactDeleted validateArtefactDeleted encodeArtefactDeleted decodeArtefactDeleted;
   coded schema_artefact_thumbnail_generated ArtefactThumbnailGenerated validateArtefactThumbnailGenerated encodeArtefactThumbnailGenerated decodeArtefactThumbnailGenerated;
   coded schema_verification_reference VerificationReference validateVerificationReference encodeVerificationReference decodeVerificationReference;
   coded schema_error_details ErrorDetails validateErrorDetails encodeErrorDetails decodeErrorDetails;
   coded schema_domain_error DomainError validateDomainError encodeDomainError decodeDomainError;
   coded schema_review_create_request ReviewCreateRequest validateReviewCreateRequest encodeReviewCreateRequest decodeReviewCreateRequest;
   coded schema_review_update_request ReviewUpdateRequest validateReviewUpdateRequest encodeReviewUpdateRequest decodeReviewUpdateRequest;
   coded schema_review_assign_request ReviewAssignRequest validateReviewAssignRequest encodeReviewAssignRequest decodeReviewAssignRequest;
   coded schema_review_transition_request ReviewTransitionRequest validateReviewTransitionRequest encodeReviewTransitionRequest decodeReviewTransitionRequest;
   coded schema_finding_claim_request FindingClaimRequest validateFindingClaimRequest encodeFindingClaimRequest decodeFindingClaimRequest;
   coded schema_finding_transition_request FindingTransitionRequest validateFindingTransitionRequest encodeFindingTransitionRequest decodeFindingTransitionRequest;
   coded schema_verification_create_request VerificationCreateRequest validateVerificationCreateRequest encodeVerificationCreateRequest decodeVerificationCreateRequest;
   coded schema_comment_create_request CommentCreateRequest validateCommentCreateRequest encodeCommentCreateRequest decodeCommentCreateRequest;
   coded schema_comment_update_request CommentUpdateRequest validateCommentUpdateRequest encodeCommentUpdateRequest decodeCommentUpdateRequest;
   coded schema_finding_create_request FindingCreateRequest validateFindingCreateRequest encodeFindingCreateRequest decodeFindingCreateRequest;
   coded schema_finding_update_request FindingUpdateRequest validateFindingUpdateRequest encodeFindingUpdateRequest decodeFindingUpdateRequest;
   coded schema_annotation_create_request AnnotationCreateRequest validateAnnotationCreateRequest encodeAnnotationCreateRequest decodeAnnotationCreateRequest;
   coded schema_annotation_update_request AnnotationUpdateRequest validateAnnotationUpdateRequest encodeAnnotationUpdateRequest decodeAnnotationUpdateRequest;
   coded schema_review_created ReviewCreated validateReviewCreated encodeReviewCreated decodeReviewCreated;
   coded schema_review_named ReviewNamed validateReviewNamed encodeReviewNamed decodeReviewNamed;
   coded schema_review_status_changed ReviewStatusChanged validateReviewStatusChanged encodeReviewStatusChanged decodeReviewStatusChanged;
   coded schema_finding_created FindingCreated validateFindingCreated encodeFindingCreated decodeFindingCreated;
   coded schema_finding_annotated FindingAnnotated validateFindingAnnotated encodeFindingAnnotated decodeFindingAnnotated;
   coded schema_finding_status_changed FindingStatusChanged validateFindingStatusChanged encodeFindingStatusChanged decodeFindingStatusChanged;
   coded schema_comment Comment validateComment encodeComment decodeComment;
   coded schema_inbox_item InboxItem validateInboxItem encodeInboxItem decodeInboxItem;
   coded schema_inbox_item_created InboxItemCreated validateInboxItemCreated encodeInboxItemCreated decodeInboxItemCreated;
   coded schema_inbox_item_acknowledged InboxItemAcknowledged validateInboxItemAcknowledged encodeInboxItemAcknowledged decodeInboxItemAcknowledged;
   coded schema_inbox_item_completed InboxItemCompleted validateInboxItemCompleted encodeInboxItemCompleted decodeInboxItemCompleted;
   coded schema_inbox_item_dismissed InboxItemDismissed validateInboxItemDismissed encodeInboxItemDismissed decodeInboxItemDismissed;
   coded schema_inbox_item_expired InboxItemExpired validateInboxItemExpired encodeInboxItemExpired decodeInboxItemExpired;
   coded schema_verification_checks VerificationChecks validateVerificationChecks encodeVerificationChecks decodeVerificationChecks;
   coded schema_review_claimed ReviewClaimed validateReviewClaimed encodeReviewClaimed decodeReviewClaimed;
   coded schema_finding_claimed FindingClaimed validateFindingClaimed encodeFindingClaimed decodeFindingClaimed;
   coded schema_finding_comment_added FindingCommentAdded validateFindingCommentAdded encodeFindingCommentAdded decodeFindingCommentAdded;
   coded schema_review_comment_added ReviewCommentAdded validateReviewCommentAdded encodeReviewCommentAdded decodeReviewCommentAdded;
   coded schema_review_assigned ReviewAssigned validateReviewAssigned encodeReviewAssigned decodeReviewAssigned;
   coded schema_review_accepted ReviewAccepted validateReviewAccepted encodeReviewAccepted decodeReviewAccepted;
   coded schema_review_reopened ReviewReopened validateReviewReopened encodeReviewReopened decodeReviewReopened;
   coded schema_review_archived ReviewArchived validateReviewArchived encodeReviewArchived decodeReviewArchived;
   coded schema_finding_resolved FindingResolved validateFindingResolved encodeFindingResolved decodeFindingResolved;
   coded schema_review_status_change_denied ReviewStatusChangeDenied validateReviewStatusChangeDenied encodeReviewStatusChangeDenied decodeReviewStatusChangeDenied;
   coded schema_finding_status_change_denied FindingStatusChangeDenied validateFindingStatusChangeDenied encodeFindingStatusChangeDenied decodeFindingStatusChangeDenied;
   coded schema_finding_reopened FindingReopened validateFindingReopened encodeFindingReopened decodeFindingReopened;
   coded schema_finding_verification_submitted FindingVerificationSubmitted validateFindingVerificationSubmitted encodeFindingVerificationSubmitted decodeFindingVerificationSubmitted;
   coded schema_finding_verification_accepted FindingVerificationAccepted validateFindingVerificationAccepted encodeFindingVerificationAccepted decodeFindingVerificationAccepted;
   coded schema_finding_verification_rejected FindingVerificationRejected validateFindingVerificationRejected encodeFindingVerificationRejected decodeFindingVerificationRejected;
   coded schema_evidence_assurance EvidenceAssurance validateEvidenceAssurance encodeEvidenceAssurance decodeEvidenceAssurance;
   coded schema_verification_review VerificationReview validateVerificationReview encodeVerificationReview decodeVerificationReview;
   coded schema_review_completion_evaluated ReviewCompletionEvaluated validateReviewCompletionEvaluated encodeReviewCompletionEvaluated decodeReviewCompletionEvaluated;
   coded schema_artefact_upload_started ArtefactUploadStarted validateArtefactUploadStarted encodeArtefactUploadStarted decodeArtefactUploadStarted;
   coded schema_artefact_upload_completed ArtefactUploadCompleted validateArtefactUploadCompleted encodeArtefactUploadCompleted decodeArtefactUploadCompleted;
   coded schema_artefact_upload_failed ArtefactUploadFailed validateArtefactUploadFailed encodeArtefactUploadFailed decodeArtefactUploadFailed;
   coded schema_artefact_access_granted ArtefactAccessGranted validateArtefactAccessGranted encodeArtefactAccessGranted decodeArtefactAccessGranted;
   coded schema_screenshot_captured ScreenshotCaptured validateScreenshotCaptured encodeScreenshotCaptured decodeScreenshotCaptured;
   coded schema_correlation Correlation validateCorrelation encodeCorrelation decodeCorrelation].

Lemma review_codec_generated : Forall codes review_codec.
Proof. repeat (apply Forall_cons_2; [by repeat split|]). apply Forall_nil_2. Qed.
(** The envelope, whose payload is text that was encoded before. *)
Lemma review_envelope_generated value text value' :
  encodeEnvelope value text = encoding text schema_envelope value
  ∧ (∀ source, decodeEnvelope source = decoding schema_envelope source)
  ∧ Envelope value' = typing schema_envelope value'.
Proof. by split. Qed.

(** The functions of the dispatch. *)
Definition review_dispatch : Dispatch :=
  {| payloads := review_messages; message_types := MESSAGE_TYPE_VALUES; validate_payload := validatePayload;
     decode_payload := decodeFrame; encode_payload := encodeFramePayload |}.
Lemma review_dispatch_generated : dispatches review_dispatch.
Proof.
  split; [reflexivity|]. repeat (apply Forall_cons_2; [by repeat split|]). apply Forall_nil_2.
Qed.
