(* ===== verification/ConnectorSchema.v ===== *)
(** * The schemas of the connector protocol
    ([src/packages/protocol/schemas/connector/v1.schema.json])

    The definitions of the document, each after those it refers to. *)

From S2P Require Import Prelude Regex Schema Patterns.
#[local] Open Scope Z_scope.

Definition schema_identifier : Schema :=
  S_string 1 64 (Some expression_0).
Definition schema_timestamp : Schema :=
  S_string 20 30 (Some expression_1).
Definition schema_websocket_url : Schema :=
  S_string 8 2048 (Some expression_43).
Definition schema_semantic_version : Schema :=
  S_string 1 32 (Some expression_11).
Definition schema_digest : Schema :=
  S_string 8 128 (Some expression_12).
Definition schema_enrolment_token : Schema :=
  S_sensitive 16 256 (Some expression_44).
Definition schema_session_capability : Schema :=
  S_sensitive 16 512 (Some expression_44).
Definition schema_public_key : Schema :=
  S_string 32 2048 (Some expression_45).
Definition schema_certificate : Schema :=
  S_string 32 8192 (Some expression_45).
Definition schema_environment_label : Schema :=
  S_string 1 64 (Some expression_7).
Definition schema_git_branch : Schema :=
  S_string 1 255 (Some expression_46).
Definition schema_git_commit : Schema :=
  S_string 7 64 (Some expression_15).
Definition schema_path_hash : Schema :=
  S_string 71 71 (Some expression_13).
Definition schema_workspace_display_label : Schema :=
  S_string 1 128 (Some expression_14).
Definition schema_repository_identity : Schema :=
  S_string 3 255 (Some expression_6).
Definition schema_connector_capability : Schema :=
  S_string 1 64 (Some expression_10).
Definition schema_destination_protocol : Schema :=
  S_values ["http"; "https"].
Definition schema_stream_mode : Schema :=
  S_values ["request_response"; "upgrade"].
Definition schema_message_type : Schema :=
  S_values ["connector.registration.request"; "connector.registration.response"; "heartbeat"; "route.publish";
    "route.publish.ack"; "connector.reconnect.request"; "connector.reconnect.response"; "workspace.observed"].
Definition schema_error_class : Schema :=
  S_values ["ENROLMENT_TOKEN_INVALID"; "IDENTITY_REVOKED"; "PROTOCOL_UNSUPPORTED"; "PROJECT_NOT_AUTHORISED";
    "WORKSPACE_NOT_FOUND"; "DESTINATION_NOT_ALLOWED"; "PORT_NOT_LISTENING"; "ROUTE_LIMIT_EXCEEDED";
    "ROUTE_EXPIRED"; "STREAM_LIMIT_EXCEEDED"; "CONTROL_PLANE_UNAVAILABLE"; "UPGRADE_REQUIRED"].
Definition schema_envelope : Schema :=
  S_object
    [("protocol_version", (S_integer 1 1));
     ("message_id", schema_identifier);
     ("type", schema_message_type);
     ("sent_at", schema_timestamp);
     ("connector_id", schema_identifier);
     ("correlation_id", schema_identifier);
     ("payload", S_dynamic)]
    ["protocol_version"; "message_id"; "type"; "sent_at"; "payload"]
    [{| when_property := "type"; when_values := ["connector.registration.request"; "connector.registration.response"];
       then_required := []; then_forbidden := ["connector_id"];
       rule_detail := "the registration exchange precedes connector identity assignment" |};
     {| when_property := "type"; when_values := ["heartbeat"; "route.publish"; "route.publish.ack"; "connector.reconnect.request"; "connector.reconnect.response";
      "workspace.observed"];
       then_required := ["connector_id"]; then_forbidden := [];
       rule_detail := "every post-enrolment message is attributed to a connector identity" |}].
Definition schema_environment_descriptor : Schema :=
  S_object
    [("name", (S_string 1 128 (Some expression_46)));
     ("platform", (S_string 1 32 (Some expression_8)));
     ("architecture", (S_string 1 32 (Some expression_9)));
     ("labels", (S_array 0 16 true schema_environment_label))]
    ["name"; "platform"; "architecture"]
    [].
Definition schema_connector_descriptor : Schema :=
  S_object
    [("version", schema_semantic_version);
     ("capabilities", (S_array 0 32 true schema_connector_capability))]
    ["version"; "capabilities"]
    [].
Definition schema_registration_request : Schema :=
  S_object
    [("enrolment_token", schema_enrolment_token);
     ("public_key", schema_public_key);
     ("environment", schema_environment_descriptor);
     ("connector", schema_connector_descriptor)]
    ["enrolment_token"; "public_key"; "environment"; "connector"]
    [].
Definition schema_signed_identity : Schema :=
  S_object
    [("certificate", schema_certificate);
     ("certificate_fingerprint", schema_digest);
     ("expires_at", schema_timestamp)]
    ["certificate"; "certificate_fingerprint"; "expires_at"]
    [].
Definition schema_control_plane_endpoints : Schema :=
  S_object
    [("control_url", schema_websocket_url);
     ("data_url", schema_websocket_url)]
    ["control_url"; "data_url"]
    [].
Definition schema_registration_response : Schema :=
  S_object
    [("connector_id", schema_identifier);
     ("signed_identity", schema_signed_identity);
     ("control_plane_endpoints", schema_control_plane_endpoints);
     ("policy_digest", schema_digest)]
    ["connector_id"; "signed_identity"; "control_plane_endpoints"; "policy_digest"]
    [].
Definition schema_resource_summary : Schema :=
  S_object
    [("load", (S_number 0 1024));
     ("memory_available_bytes", (S_integer 0 9007199254740991))]
    []
    [].
Definition schema_heartbeat : Schema :=
  S_object
    [("status", (S_values ["healthy"; "degraded"]));
     ("uptime_seconds", (S_integer 0 3153600000));
     ("version", schema_semantic_version);
     ("active_routes", (S_integer 0 1024));
     ("active_streams", (S_integer 0 65535));
     ("resource_summary", schema_resource_summary)]
    ["status"; "uptime_seconds"; "version"; "active_routes"; "active_streams"]
    [].
Definition schema_route_publish : Schema :=
  S_object
    [("route_id", schema_identifier);
     ("project_id", schema_identifier);
     ("workspace_id", schema_identifier);
     ("local_host", (S_string 1 255 (Some expression_47)));
     ("local_port", (S_integer 1 65535));
     ("protocol", schema_destination_protocol);
     ("expires_at", schema_timestamp);
     ("allowed_browser_session_ids", (S_array 1 32 true schema_identifier))]
    ["route_id"; "project_id"; "workspace_id"; "local_host"; "local_port"; "protocol"; "expires_at";
     "allowed_browser_session_ids"]
    [].
Definition schema_route_publish_ack : Schema :=
  S_object
    [("route_id", schema_identifier);
     ("status", (S_values ["ready"; "rejected"]));
     ("observed_destination", (S_string 3 262 (Some expression_48)));
     ("error_class", schema_error_class)]
    ["route_id"; "status"]
    [{| when_property := "status"; when_values := ["ready"];
       then_required := ["observed_destination"]; then_forbidden := ["error_class"];
       rule_detail := "a ready route reports the destination it opened and carries no error class" |};
     {| when_property := "status"; when_values := ["rejected"];
       then_required := ["error_class"]; then_forbidden := ["observed_destination"];
       rule_detail := "a rejected route reports a stable error class and opens no destination" |}].
Definition schema_data_stream_header : Schema :=
  S_object
    [("route_id", schema_identifier);
     ("browser_session_id", schema_identifier);
     ("session_capability", schema_session_capability);
     ("stream_id", schema_identifier);
     ("destination_protocol", schema_destination_protocol);
     ("deadline", schema_timestamp);
     ("stream_mode", schema_stream_mode)]
    ["route_id"; "browser_session_id"; "session_capability"; "stream_id"; "destination_protocol"; "deadline"]
    [].
Definition schema_upgrade_classification : Schema :=
  S_values ["compatible"; "upgrade_recommended"; "upgrade_required"; "unsupported"].
Definition schema_route_reconciliation_decision : Schema :=
  S_values ["continue"; "revoke"].
Definition schema_route_reconciliation_reason : Schema :=
  S_values ["authorised"; "unknown_route"; "expired"; "revoked"; "not_authorised"; "destination_mismatch"].
Definition schema_session_reconciliation_decision : Schema :=
  S_values ["re_establish"; "end"].
Definition schema_session_reconciliation_reason : Schema :=
  S_values ["route_resumed"; "route_revoked"; "session_ended"; "connector_reconnected"].
Definition schema_reconnect_route : Schema :=
  S_object
    [("route_id", schema_identifier);
     ("project_id", schema_identifier);
     ("workspace_id", schema_identifier);
     ("observed_destination", (S_string 3 262 (Some expression_48)));
     ("expires_at", schema_timestamp)]
    ["route_id"; "project_id"; "workspace_id"; "observed_destination"; "expires_at"]
    [].
Definition schema_reconnect_stream : Schema :=
  S_object
    [("stream_id", schema_identifier);
     ("route_id", schema_identifier);
     ("browser_session_id", schema_identifier);
     ("deadline", schema_timestamp)]
    ["stream_id"; "route_id"; "browser_session_id"; "deadline"]
    [].
Definition schema_workspace_head : Schema :=
  S_object
    [("workspace_id", schema_identifier);
     ("branch", schema_git_branch);
     ("head_commit", schema_git_commit);
     ("dirty", S_boolean)]
    ["workspace_id"; "branch"; "head_commit"; "dirty"]
    [].
Definition schema_workspace_observation : Schema :=
  S_object
    [("workspace_id", schema_identifier);
     ("project_id", schema_identifier);
     ("path_hash", schema_path_hash);
     ("display_label", schema_workspace_display_label);
     ("repository_identity", schema_repository_identity);
     ("branch", schema_git_branch);
     ("head_commit", schema_git_commit);
     ("dirty", S_boolean);
     ("observed_at", schema_timestamp)]
    ["workspace_id"; "project_id"; "path_hash"; "display_label"; "branch"; "head_commit"; "dirty";
     "observed_at"]
    [].
Definition schema_reconnect_request : Schema :=
  S_object
    [("connector_version", schema_semantic_version);
     ("capabilities", (S_array 0 32 true schema_connector_capability));
     ("active_routes", (S_array 0 16 false schema_reconnect_route));
     ("active_streams", (S_array 0 32 false schema_reconnect_stream));
     ("known_agent_sessions", (S_array 0 32 true schema_identifier));
     ("workspace_head_state", (S_array 0 8 false schema_workspace_head))]
    ["connector_version"; "capabilities"; "active_routes"; "active_streams"; "known_agent_sessions";
     "workspace_head_state"]
    [].
Definition schema_route_decision : Schema :=
  S_object
    [("route_id", schema_identifier);
     ("decision", schema_route_reconciliation_decision);
     ("reason", schema_route_reconciliation_reason);
     ("route", schema_route_publish)]
    ["route_id"; "decision"; "reason"]
    [{| when_property := "decision"; when_values := ["continue"];
       then_required := ["route"]; then_forbidden := [];
       rule_detail := "a continued route restates its publication so that it can be resumed without re-publication" |};
     {| when_property := "decision"; when_values := ["revoke"];
       then_required := []; then_forbidden := ["route"];
       rule_detail := "a revoked route is closed and carries no publication to resume" |}].
Definition schema_session_decision : Schema :=
  S_object
    [("browser_session_id", schema_identifier);
     ("decision", schema_session_reconciliation_decision);
     ("reason", schema_session_reconciliation_reason)]
    ["browser_session_id"; "decision"; "reason"]
    [].
Definition schema_reconnect_response : Schema :=
  S_object
    [("reconciled_at", schema_timestamp);
     ("upgrade", schema_upgrade_classification);
     ("routes", (S_array 0 16 false schema_route_decision));
     ("sessions", (S_array 0 16 false schema_session_decision))]
    ["reconciled_at"; "upgrade"; "routes"; "sessions"]
    [].
