(* ===== verification/ConnectorValidate.v ===== *)
(** * The validators of the connector protocol
    ([src/packages/protocol/src/generated/connector/v1/validate.ts])

    The generated functions as they stand, each after those it calls, and the table
    of those that the schema's definitions have; each finds the violations of its
    definition, in the same order. *)

From S2P Require Import Prelude ReviewDomain StableJson Validation Schema Patterns ConnectorSchema.
#[local] Open Scope Z_scope.

Definition PATTERN_0 : string → bool := whole expression_0.
Definition PATTERN_1 : string → bool := whole expression_1.
Definition PATTERN_2 : string → bool := whole expression_43.
Definition PATTERN_3 : string → bool := whole expression_11.
Definition PATTERN_4 : string → bool := whole expression_12.
Definition PATTERN_5 : string → bool := whole expression_44.
Definition PATTERN_6 : string → bool := whole expression_45.
Definition PATTERN_7 : string → bool := whole expression_7.
Definition PATTERN_8 : string → bool := whole expression_46.
Definition PATTERN_9 : string → bool := whole expression_15.
Definition PATTERN_10 : string → bool := whole expression_13.
Definition PATTERN_11 : string → bool := whole expression_14.
Definition PATTERN_12 : string → bool := whole expression_6.
Definition PATTERN_13 : string → bool := whole expression_10.
Definition PATTERN_14 : string → bool := whole expression_8.
Definition PATTERN_15 : string → bool := whole expression_9.
Definition PATTERN_16 : string → bool := whole expression_47.
Definition PATTERN_17 : string → bool := whole expression_48.

Definition validateIdentifier : json → string → list SchemaViolation :=
  checkString (of_lengths 1 64 (Some PATTERN_0)).
Definition validateTimestamp : json → string → list SchemaViolation :=
  checkString (of_lengths 20 30 (Some PATTERN_1)).
Definition validateWebsocketUrl : json → string → list SchemaViolation :=
  checkString (of_lengths 8 2048 (Some PATTERN_2)).
Definition validateSemanticVersion : json → string → list SchemaViolation :=
  checkString (of_lengths 1 32 (Some PATTERN_3)).
Definition validateDigest : json → string → list SchemaViolation :=
  checkString (of_lengths 8 128 (Some PATTERN_4)).
Definition validateEnrolmentToken : json → string → list SchemaViolation :=
  checkString (of_lengths 16 256 (Some PATTERN_5)).
Definition validateSessionCapability : json → string → list SchemaViolation :=
  checkString (of_lengths 16 512 (Some PATTERN_5)).
Definition validatePublicKey : json → string → list SchemaViolation :=
  checkString (of_lengths 32 2048 (Some PATTERN_6)).
Definition validateCertificate : json → string → list SchemaViolation :=
  checkString (of_lengths 32 8192 (Some PATTERN_6)).
Definition validateEnvironmentLabel : json → string → list SchemaViolation :=
  checkString (of_lengths 1 64 (Some PATTERN_7)).
Definition validateGitBranch : json → string → list SchemaViolation :=
  checkString (of_lengths 1 255 (Some PATTERN_8)).
Definition validateGitCommit : json → string → list SchemaViolation :=
  checkString (of_lengths 7 64 (Some PATTERN_9)).
Definition validatePathHash : json → string → list SchemaViolation :=
  checkString (of_lengths 71 71 (Some PATTERN_10)).
Definition validateWorkspaceDisplayLabel : json → string → list SchemaViolation :=
  checkString (of_lengths 1 128 (Some PATTERN_11)).
Definition validateRepositoryIdentity : json → string → list SchemaViolation :=
  checkString (of_lengths 3 255 (Some PATTERN_12)).
Definition validateConnectorCapability : json → string → list SchemaViolation :=
  checkString (of_lengths 1 64 (Some PATTERN_13)).
Definition validateDestinationProtocol : json → string → list SchemaViolation := checkString
     (of_values ["http"; "https"]).
Definition validateStreamMode : json → string → list SchemaViolation := checkString (of_values
     ["request_response"; "upgrade"]).
Definition validateMessageType : json → string → list SchemaViolation := checkString (of_values
     ["connector.registration.request"; "connector.registration.response"; "heartbeat"; "route.publish";
     "route.publish.ack"; "connector.reconnect.request"; "connector.reconnect.response";
     "workspace.observed"]).
Definition validateErrorClass : json → string → list SchemaViolation := checkString (of_values
     ["ENROLMENT_TOKEN_INVALID"; "IDENTITY_REVOKED"; "PROTOCOL_UNSUPPORTED"; "PROJECT_NOT_AUTHORISED";
     "WORKSPACE_NOT_FOUND"; "DESTINATION_NOT_ALLOWED"; "PORT_NOT_LISTENING"; "ROUTE_LIMIT_EXCEEDED";
     "ROUTE_EXPIRED"; "STREAM_LIMIT_EXCEEDED"; "CONTROL_PLANE_UNAVAILABLE"; "UPGRADE_REQUIRED"]).
Definition validateUpgradeClassification : json → string → list SchemaViolation := checkString
     (of_values ["compatible"; "upgrade_recommended"; "upgrade_required"; "unsupported"]).
Definition validateRouteReconciliationDecision : json → string → list SchemaViolation :=
     checkString (of_values ["continue"; "revoke"]).
Definition validateRouteReconciliationReason : json → string → list SchemaViolation := checkString
     (of_values ["authorised"; "unknown_route"; "expired"; "revoked"; "not_authorised"; "destination_mismatch"]).
Definition validateSessionReconciliationDecision : json → string → list SchemaViolation :=
     checkString (of_values ["re_establish"; "end"]).
Definition validateSessionReconciliationReason : json → string → list SchemaViolation :=
     checkString (of_values ["route_resumed"; "route_revoked"; "session_ended"; "connector_reconnected"]).
Definition validateEnvelopeProtocolVersion : json → string → list SchemaViolation := checkInteger 1 1.
Definition validateEnvelopePayload : json → string → list SchemaViolation := checkPlainObject.
Definition validateEnvelope (value : json) (path : string) : list SchemaViolation :=
  let '(found, source) := checkObject
    ["protocol_version"; "message_id"; "type"; "sent_at"; "connector_id"; "correlation_id"; "payload"]
    ["protocol_version"; "message_id"; "type"; "sent_at"; "payload"] value path in
  match source with
  | None => found
  | Some source => found ++ concat [
      on_member validateEnvelopeProtocolVersion "protocol_version" source path;
      on_member validateIdentifier "message_id" source path;
      on_member validateMessageType "type" source path;
      on_member validateTimestamp "sent_at" source path;
      on_member validateIdentifier "connector_id" source path;
      on_member validateIdentifier "correlation_id" source path;
      on_member validateEnvelopePayload "payload" source path] ++ concat [
      (if matchesCondition (get_member "type" source) ["connector.registration.request"; "connector.registration.response"]
       then concat []
         ++ concat [forbidProperty source path "connector_id" "the registration exchange precedes connector identity assignment"]
       else []);
      (if matchesCondition (get_member "type" source) ["heartbeat"; "route.publish"; "route.publish.ack"; "connector.reconnect.request"; "connector.reconnect.response";
          "workspace.observed"]
       then concat [requireProperty source path "connector_id" "every post-enrolment message is attributed to a connector identity"]
         ++ concat []
       else [])]
  end.
Definition validateEnvironmentDescriptorName : json → string → list SchemaViolation :=
  checkString (of_lengths 1 128 (Some PATTERN_8)).
Definition validateEnvironmentDescriptorPlatform : json → string → list SchemaViolation :=
  checkString (of_lengths 1 32 (Some PATTERN_14)).
Definition validateEnvironmentDescriptorArchitecture : json → string → list SchemaViolation :=
  checkString (of_lengths 1 32 (Some PATTERN_15)).
Definition validateEnvironmentDescriptorLabels (value : json) (path : string) : list SchemaViolation :=
  let '(found, items) := checkArray 0 16 true value path in
  match items with None => found | Some items => on_items validateEnvironmentLabel items path end.
Definition validateEnvironmentDescriptor (value : json) (path : string) : list SchemaViolation :=
  let '(found, source) := checkObject
    ["name"; "platform"; "architecture"; "labels"]
    ["name"; "platform"; "architecture"] value path in
  match source with
  | None => found
  | Some source => found ++ concat [
      on_member validateEnvironmentDescriptorName "name" source path;
      on_member validateEnvironmentDescriptorPlatform "platform" source path;
      on_member validateEnvironmentDescriptorArchitecture "architecture" source path;
      on_member validateEnvironmentDescriptorLabels "labels" source path]
  end.
Definition validateConnectorDescriptorCapabilities (value : json) (path : string) : list SchemaViolation :=
  let '(found, items) := checkArray 0 32 true value path in
  match items with None => found | Some items => on_items validateConnectorCapability items path end.
Definition validateConnectorDescriptor (value : json) (path : string) : list SchemaViolation :=
  let '(found, source) := checkObject
    ["version"; "capabilities"]
    ["version"; "capabilities"] value path in
  match source with
  | None => found
  | Some source => found ++ concat [
      on_member validateSemanticVersion "version" source path;
      on_member validateConnectorDescriptorCapabilities "capabilities" source path]
  end.
Definition validateRegistrationRequest (value : json) (path : string) : list SchemaViolation :=
  let '(found, source) := checkObject
    ["enrolment_token"; "public_key"; "environment"; "connector"]
    ["enrolment_token"; "public_key"; "environment"; "connector"] value path in
  match source with
  | None => found
  | Some source => found ++ concat [
      on_member validateEnrolmentToken "enrolment_token" source path;
      on_member validatePublicKey "public_key" source path;
      on_member validateEnvironmentDescriptor "environment" source path;
      on_member validateConnectorDescriptor "connector" source path]
  end.
Definition validateSignedIdentity (value : json) (path : string) : list SchemaViolation :=
  let '(found, source) := checkObject
    ["certificate"; "certificate_fingerprint"; "expires_at"]
    ["certificate"; "certificate_fingerprint"; "expires_at"] value path in
  match source with
  | None => found
  | Some source => found ++ concat [
      on_member validateCertificate "certificate" source path;
      on_member validateDigest "certificate_fingerprint" source path;
      on_member validateTimestamp "expires_at" source path]
  end.
Definition validateControlPlaneEndpoints (value : json) (path : string) : list SchemaViolation :=
  let '(found, source) := checkObject
    ["control_url"; "data_url"]
    ["control_url"; "data_url"] value path in
  match source with
  | None => found
  | Some source => found ++ concat [
      on_member validateWebsocketUrl "control_url" source path;
      on_member validateWebsocketUrl "data_url" source path]
  end.
Definition validateRegistrationResponse (value : json) (path : string) : list SchemaViolation :=
  let '(found, source) := checkObject
    ["connector_id"; "signed_identity"; "control_plane_endpoints"; "policy_digest"]
    ["connector_id"; "signed_identity"; "control_plane_endpoints"; "policy_digest"] value path in
  match source with
  | None => found
  | Some source => found ++ concat [
      on_member validateIdentifier "connector_id" source path;
      on_member validateSignedIdentity "signed_identity" source path;
      on_member validateControlPlaneEndpoints "control_plane_endpoints" source path;
      on_member validateDigest "policy_digest" source path]
  end.
Definition validateResourceSummaryLoad : json → string → list SchemaViolation := checkNumber 0 1024.
Definition validateResourceSummaryMemoryAvailableBytes : json → string → list SchemaViolation := checkInteger 0 9007199254740991.
Definition validateResourceSummary (value : json) (path : string) : list SchemaViolation :=
  let '(found, source) := checkObject
    ["load"; "memory_available_bytes"]
    [] value path in
  match source with
  | None => found
  | Some source => found ++ concat [
      on_member validateResourceSummaryLoad "load" source path;
      on_member validateResourceSummaryMemoryAvailableBytes "memory_available_bytes" source path]
  end.
Definition validateHeartbeatStatus : json → string → list SchemaViolation := checkString
     (of_values ["healthy"; "degraded"]).
Definition validateHeartbeatUptimeSeconds : json → string → list SchemaViolation := checkInteger 0 3153600000.
Definition validateHeartbeatActiveRoutes : json → string → list SchemaViolation := checkInteger 0 1024.
Definition validateHeartbeatActiveStreams : json → string → list SchemaViolation := checkInteger 0 65535.
Definition validateHeartbeat (value : json) (path : string) : list SchemaViolation :=
  let '(found, source) := checkObject
    ["status"; "uptime_seconds"; "version"; "active_routes"; "active_streams"; "resource_summary"]
    ["status"; "uptime_seconds"; "version"; "active_routes"; "active_streams"] value path in
  match source with
  | None => found
  | Some source => found ++ concat [
      on_member validateHeartbeatStatus "status" source path;
      on_member validateHeartbeatUptimeSeconds "uptime_seconds" source path;
      on_member validateSemanticVersion "version" source path;
      on_member validateHeartbeatActiveRoutes "active_routes" source path;
      on_member validateHeartbeatActiveStreams "active_streams" source path;
      on_member validateResourceSummary "resource_summary" source path]
  end.
Definition validateRoutePublishLocalHost : json → string → list SchemaViolation :=
  checkString (of_lengths 1 255 (Some PATTERN_16)).
Definition validateRoutePublishLocalPort : json → string → list SchemaViolation := checkInteger 1 65535.
Definition validateRoutePublishAllowedBrowserSessionIds (value : json) (path : string) : list SchemaViolation :=
  let '(found, items) := checkArray 1 32 true value path in
  match items with None => found | Some items => on_items validateIdentifier items path end.
Definition validateRoutePublish (value : json) (path : string) : list SchemaViolation :=
  let '(found, source) := checkObject
    ["route_id"; "project_id"; "workspace_id"; "local_host"; "local_port"; "protocol"; "expires_at";
      "allowed_browser_session_ids"]
    ["route_id"; "project_id"; "workspace_id"; "local_host"; "local_port"; "protocol"; "expires_at";
      "allowed_browser_session_ids"] value path in
  match source with
  | None => found
  | Some source => found ++ concat [
      on_member validateIdentifier "route_id" source path;
      on_member validateIdentifier "project_id" source path;
      on_member validateIdentifier "workspace_id" source path;
      on_member validateRoutePublishLocalHost "local_host" source path;
      on_member validateRoutePublishLocalPort "local_port" source path;
      on_member validateDestinationProtocol "protocol" source path;
      on_member validateTimestamp "expires_at" source path;
      on_member validateRoutePublishAllowedBrowserSessionIds "allowed_browser_session_ids" source path]
  end.
Definition validateRoutePublishAckStatus : json → string → list SchemaViolation := checkString
     (of_values ["ready"; "rejected"]).
Definition validateRoutePublishAckObservedDestination : json → string → list SchemaViolation :=
  checkString (of_lengths 3 262 (Some PATTERN_17)).
Definition validateRoutePublishAck (value : json) (path : string) : list SchemaViolation :=
  let '(found, source) := checkObject
    ["route_id"; "status"; "observed_destination"; "error_class"]
    ["route_id"; "status"] value path in
  match source with
  | None => found
  | Some source => found ++ concat [
      on_member validateIdentifier "route_id" source path;
      on_member validateRoutePublishAckStatus "status" source path;
      on_member validateRoutePublishAckObservedDestination "observed_destination" source path;
      on_member validateErrorClass "error_class" source path] ++ concat [
      (if matchesCondition (get_member "status" source) ["ready"]
       then concat [requireProperty source path "observed_destination" "a ready route reports the destination it opened and carries no error class"]
         ++ concat [forbidProperty source path "error_class" "a ready route reports the destination it opened and carries no error class"]
       else []);
      (if matchesCondition (get_member "status" source) ["rejected"]
       then concat [requireProperty source path "error_class" "a rejected route reports a stable error class and opens no destination"]
         ++ concat [forbidProperty source path "observed_destination" "a rejected route reports a stable error class and opens no destination"]
       else [])]
  end.
Definition validateDataStreamHeader (value : json) (path : string) : list SchemaViolation :=
  let '(found, source) := checkObject
    ["route_id"; "browser_session_id"; "session_capability"; "stream_id"; "destination_protocol";
      "deadline"; "stream_mode"]
    ["route_id"; "browser_session_id"; "session_capability"; "stream_id"; "destination_protocol"; "deadline"] value path in
  match source with
  | None => found
  | Some source => found ++ concat [
      on_member validateIdentifier "route_id" source path;
      on_member validateIdentifier "browser_session_id" source path;
      on_member validateSessionCapability "session_capability" source path;
      on_member validateIdentifier "stream_id" source path;
      on_member validateDestinationProtocol "destination_protocol" source path;
      on_member validateTimestamp "deadline" source path;
      on_member validateStreamMode "stream_mode" source path]
  end.
Definition validateReconnectRouteObservedDestination : json → string → list SchemaViolation :=
  checkString (of_lengths 3 262 (Some PATTERN_17)).
Definition validateReconnectRoute (value : json) (path : string) : list SchemaViolation :=
  let '(found, source) := checkObject
    ["route_id"; "project_id"; "workspace_id"; "observed_destination"; "expires_at"]
    ["route_id"; "project_id"; "workspace_id"; "observed_destination"; "expires_at"] value path in
  match source with
  | None => found
  | Some source => found ++ concat [
      on_member validateIdentifier "route_id" source path;
      on_member validateIdentifier "project_id" source path;
      on_member validateIdentifier "workspace_id" source path;
      on_member validateReconnectRouteObservedDestination "observed_destination" source path;
      on_member validateTimestamp "expires_at" source path]
  end.
Definition validateReconnectStream (value : json) (path : string) : list SchemaViolation :=
  let '(found, source) := checkObject
    ["stream_id"; "route_id"; "browser_session_id"; "deadline"]
    ["stream_id"; "route_id"; "browser_session_id"; "deadline"] value path in
  match source with
  | None => found
  | Some source => found ++ concat [
      on_member validateIdentifier "stream_id" source path;
      on_member validateIdentifier "route_id" source path;
      on_member validateIdentifier "browser_session_id" source path;
      on_member validateTimestamp "deadline" source path]
  end.
Definition validateWorkspaceHeadDirty : json → string → list SchemaViolation := checkBoolean.
Definition validateWorkspaceHead (value : json) (path : string) : list SchemaViolation :=
  let '(found, source) := checkObject
    ["workspace_id"; "branch"; "head_commit"; "dirty"]
    ["workspace_id"; "branch"; "head_commit"; "dirty"] value path in
  match source with
  | None => found
  | Some source => found ++ concat [
      on_member validateIdentifier "workspace_id" source path;
      on_member validateGitBranch "branch" source path;
      on_member validateGitCommit "head_commit" source path;
      on_member validateWorkspaceHeadDirty "dirty" source path]
  end.
Definition validateWorkspaceObservationDirty : json → string → list SchemaViolation := checkBoolean.
Definition validateWorkspaceObservation (value : json) (path : string) : list SchemaViolation :=
  let '(found, source) := checkObject
    ["workspace_id"; "project_id"; "path_hash"; "display_label"; "repository_identity"; "branch";
      "head_commit"; "dirty"; "observed_at"]
    ["workspace_id"; "project_id"; "path_hash"; "display_label"; "branch"; "head_commit"; "dirty";
      "observed_at"] value path in
  match source with
  | None => found
  | Some source => found ++ concat [
      on_member validateIdentifier "workspace_id" source path;
      on_member validateIdentifier "project_id" source path;
      on_member validatePathHash "path_hash" source path;
      on_member validateWorkspaceDisplayLabel "display_label" source path;
      on_member validateRepositoryIdentity "repository_identity" source path;
      on_member validateGitBranch "branch" source path;
      on_member validateGitCommit "head_commit" source path;
      on_member validateWorkspaceObservationDirty "dirty" source path;
      on_member validateTimestamp "observed_at" source path]
  end.
Definition validateReconnectRequestCapabilities (value : json) (path : string) : list SchemaViolation :=
  let '(found, items) := checkArray 0 32 true value path in
  match items with None => found | Some items => on_items validateConnectorCapability items path end.
Definition validateReconnectRequestActiveRoutes (value : json) (path : string) : list SchemaViolation :=
  let '(found, items) := checkArray 0 16 false value path in
  match items with None => found | Some items => on_items validateReconnectRoute items path end.
Definition validateReconnectRequestActiveStreams (value : json) (path : string) : list SchemaViolation :=
  let '(found, items) := checkArray 0 32 false value path in
  match items with None => found | Some items => on_items validateReconnectStream items path end.
Definition validateReconnectRequestKnownAgentSessions (value : json) (path : string) : list SchemaViolation :=
  let '(found, items) := checkArray 0 32 true value path in
  match items with None => found | Some items => on_items validateIdentifier items path end.
Definition validateReconnectRequestWorkspaceHeadState (value : json) (path : string) : list SchemaViolation :=
  let '(found, items) := checkArray 0 8 false value path in
  match items with None => found | Some items => on_items validateWorkspaceHead items path end.
Definition validateReconnectRequest (value : json) (path : string) : list SchemaViolation :=
  let '(found, source) := checkObject
    ["connector_version"; "capabilities"; "active_routes"; "active_streams"; "known_agent_sessions";
      "workspace_head_state"]
    ["connector_version"; "capabilities"; "active_routes"; "active_streams"; "known_agent_sessions";
      "workspace_head_state"] value path in
  match source with
  | None => found
  | Some source => found ++ concat [
      on_member validateSemanticVersion "connector_version" source path;
      on_member validateReconnectRequestCapabilities "capabilities" source path;
      on_member validateReconnectRequestActiveRoutes "active_routes" source path;
      on_member validateReconnectRequestActiveStreams "active_streams" source path;
      on_member validateReconnectRequestKnownAgentSessions "known_agent_sessions" source path;
      on_member validateReconnectRequestWorkspaceHeadState "workspace_head_state" source path]
  end.
Definition validateRouteDecision (value : json) (path : string) : list SchemaViolation :=
  let '(found, source) := checkObject
    ["route_id"; "decision"; "reason"; "route"]
    ["route_id"; "decision"; "reason"] value path in
  match source with
  | None => found
  | Some source => found ++ concat [
      on_member validateIdentifier "route_id" source path;
      on_member validateRouteReconciliationDecision "decision" source path;
      on_member validateRouteReconciliationReason "reason" source path;
      on_member validateRoutePublish "route" source path] ++ concat [
      (if matchesCondition (get_member "decision" source) ["continue"]
       then concat [requireProperty source path "route" "a continued route restates its publication so that it can be resumed without re-publication"]
         ++ concat []
       else []);
      (if matchesCondition (get_member "decision" source) ["revoke"]
       then concat []
         ++ concat [forbidProperty source path "route" "a revoked route is closed and carries no publication to resume"]
       else [])]
  end.
Definition validateSessionDecision (value : json) (path : string) : list SchemaViolation :=
  let '(found, source) := checkObject
    ["browser_session_id"; "decision"; "reason"]
    ["browser_session_id"; "decision"; "reason"] value path in
  match source with
  | None => found
  | Some source => found ++ concat [
      on_member validateIdentifier "browser_session_id" source path;
      on_member validateSessionReconciliationDecision "decision" source path;
      on_member validateSessionReconciliationReason "reason" source path]
  end.
Definition validateReconnectResponseRoutes (value : json) (path : string) : list SchemaViolation :=
  let '(found, items) := checkArray 0 16 false value path in
  match items with None => found | Some items => on_items validateRouteDecision items path end.
Definition validateReconnectResponseSessions (value : json) (path : string) : list SchemaViolation :=
  let '(found, items) := checkArray 0 16 false value path in
  match items with None => found | Some items => on_items validateSessionDecision items path end.
Definition validateReconnectResponse (value : json) (path : string) : list SchemaViolation :=
  let '(found, source) := checkObject
    ["reconciled_at"; "upgrade"; "routes"; "sessions"]
    ["reconciled_at"; "upgrade"; "routes"; "sessions"] value path in
  match source with
  | None => found
  | Some source => found ++ concat [
      on_member validateTimestamp "reconciled_at" source path;
      on_member validateUpgradeClassification "upgrade" source path;
      on_member validateReconnectResponseRoutes "routes" source path;
      on_member validateReconnectResponseSessions "sessions" source path]
  end.

(** The definitions of the schema, with the functions generated for them. *)
Definition connector_validators : list (Schema * (json → string → list SchemaViolation)) :=
  [(schema_identifier, validateIdentifier);
   (schema_timestamp, validateTimestamp);
   (schema_websocket_url, validateWebsocketUrl);
   (schema_semantic_version, validateSemanticVersion);
   (schema_digest, validateDigest);
   (schema_enrolment_token, validateEnrolmentToken);
   (schema_session_capability, validateSessionCapability);
   (schema_public_key, validatePublicKey);
   (schema_certificate, validateCertificate);
   (schema_environment_label, validateEnvironmentLabel);
   (schema_git_branch, validateGitBranch);
   (schema_git_commit, validateGitCommit);
   (schema_path_hash, validatePathHash);
   (schema_workspace_display_label, validateWorkspaceDisplayLabel);
   (schema_repository_identity, validateRepositoryIdentity);
   (schema_connector_capability, validateConnectorCapability);
   (schema_destination_protocol, validateDestinationProtocol);
   (schema_stream_mode, validateStreamMode);
   (schema_message_type, validateMessageType);
   (schema_error_class, validateErrorClass);
   (schema_envelope, validateEnvelope);
   (schema_environment_descriptor, validateEnvironmentDescriptor);
   (schema_connector_descriptor, validateConnectorDescriptor);
   (schema_registration_request, validateRegistrationRequest);
   (schema_signed_identity, validateSignedIdentity);
   (schema_control_plane_endpoints, validateControlPlaneEndpoints);
   (schema_registration_response, validateRegistrationResponse);
   (schema_resource_summary, validateResourceSummary);
   (schema_heartbeat, validateHeartbeat);
   (schema_route_publish, validateRoutePublish);
   (schema_route_publish_ack, validateRoutePublishAck);
   (schema_data_stream_header, validateDataStreamHeader);
   (schema_upgrade_classification, validateUpgradeClassification);
   (schema_route_reconciliation_decision, validateRouteReconciliationDecision);
   (schema_route_reconciliation_reason, validateRouteReconciliationReason);
   (schema_session_reconciliation_decision, validateSessionReconciliationDecision);
   (schema_session_reconciliation_reason, validateSessionReconciliationReason);
   (schema_reconnect_route, validateReconnectRoute);
   (schema_reconnect_stream, validateReconnectStream);
   (schema_workspace_head, validateWorkspaceHead);
   (schema_workspace_observation, validateWorkspaceObservation);
   (schema_reconnect_request, validateReconnectRequest);
   (schema_route_decision, validateRouteDecision);
   (schema_session_decision, validateSessionDecision);
   (schema_reconnect_response, validateReconnectResponse)].

Lemma connector_generated :
  Forall (λ e, ∀ value path, e.2 value path = violations e.1 value path) connector_validators.
Proof. repeat (apply Forall_cons_2; [intros value path; reflexivity|]). apply Forall_nil_2. Qed.
