(* ===== verification/ConnectorCodec.v ===== *)
(** * The types and the codec of the connector protocol
    ([src/packages/protocol/src/generated/connector/v1/types.ts], [encode.ts], [decode.ts]
    and [dispatch.ts])

    The vocabularies, the bounds of the payloads and the types of the generated
    code, and the messages of the schema; the generated encoders and decoders as
    they stand, each after those it calls, with the table of those that the schema's
    objects have; and the dispatch on the type of a message. *)

From S2P Require Import Prelude StableJson Validation Schema ConnectorSchema ConnectorValidate Codec.

(** ** Types *)

Definition DESTINATION_PROTOCOL_VALUES : list string :=
  ["http"; "https"].
Definition STREAM_MODE_VALUES : list string :=
  ["request_response"; "upgrade"].
Definition MESSAGE_TYPE_VALUES : list string :=
  ["connector.registration.request"; "connector.registration.response"; "heartbeat"; "route.publish";
   "route.publish.ack"; "connector.reconnect.request"; "connector.reconnect.response"; "workspace.observed"].
Definition ERROR_CLASS_VALUES : list string :=
  ["ENROLMENT_TOKEN_INVALID"; "IDENTITY_REVOKED"; "PROTOCOL_UNSUPPORTED"; "PROJECT_NOT_AUTHORISED";
   "WORKSPACE_NOT_FOUND"; "DESTINATION_NOT_ALLOWED"; "PORT_NOT_LISTENING"; "ROUTE_LIMIT_EXCEEDED";
   "ROUTE_EXPIRED"; "STREAM_LIMIT_EXCEEDED"; "CONTROL_PLANE_UNAVAILABLE"; "UPGRADE_REQUIRED"].
Definition HEARTBEAT_STATUS_VALUES : list string :=
  ["healthy"; "degraded"].
Definition ROUTE_PUBLISH_ACK_STATUS_VALUES : list string :=
  ["ready"; "rejected"].
Definition UPGRADE_CLASSIFICATION_VALUES : list string :=
  ["compatible"; "upgrade_recommended"; "upgrade_required"; "unsupported"].
Definition ROUTE_RECONCILIATION_DECISION_VALUES : list string :=
  ["continue"; "revoke"].
Definition ROUTE_RECONCILIATION_REASON_VALUES : list string :=
  ["authorised"; "unknown_route"; "expired"; "revoked"; "not_authorised"; "destination_mismatch"].
Definition SESSION_RECONCILIATION_DECISION_VALUES : list string :=
  ["re_establish"; "end"].
Definition SESSION_RECONCILIATION_REASON_VALUES : list string :=
  ["route_resumed"; "route_revoked"; "session_ended"; "connector_reconnected"].
Definition PAYLOAD_MAX_BYTES : list (string * Z) :=
  [("connector.registration.request", 4096%Z);
   ("connector.registration.response", 8192%Z);
   ("heartbeat", 1024%Z);
   ("route.publish", 2048%Z);
   ("route.publish.ack", 1024%Z);
   ("connector.reconnect.request", 32768%Z);
   ("connector.reconnect.response", 57344%Z);
   ("workspace.observed", 2048%Z)].
Definition Identifier : json → Prop := string_type.
Definition Timestamp : json → Prop := string_type.
Definition WebsocketUrl : json → Prop := string_type.
Definition SemanticVersion : json → Prop := string_type.
Definition Digest : json → Prop := string_type.
Definition EnrolmentToken : json → Prop := SensitiveString.
Definition SessionCapability : json → Prop := SensitiveString.
Definition PublicKey : json → Prop := string_type.
Definition Certificate : json → Prop := string_type.
Definition EnvironmentLabel : json → Prop := string_type.
Definition GitBranch : json → Prop := string_type.
Definition GitCommit : json → Prop := string_type.
Definition PathHash : json → Prop := string_type.
Definition WorkspaceDisplayLabel : json → Prop := string_type.
Definition RepositoryIdentity : json → Prop := string_type.
Definition ConnectorCapability : json → Prop := string_type.
Definition DestinationProtocol : json → Prop := union_type
  ["http"; "https"].
Definition StreamMode : json → Prop := union_type
  ["request_response"; "upgrade"].
Definition MessageType : json → Prop := union_type
  ["connector.registration.request"; "connector.registration.response"; "heartbeat"; "route.publish";
   "route.publish.ack"; "connector.reconnect.request"; "connector.reconnect.response"; "workspace.observed"].
Definition ErrorClass : json → Prop := union_type
  ["ENROLMENT_TOKEN_INVALID"; "IDENTITY_REVOKED"; "PROTOCOL_UNSUPPORTED"; "PROJECT_NOT_AUTHORISED";
   "WORKSPACE_NOT_FOUND"; "DESTINATION_NOT_ALLOWED"; "PORT_NOT_LISTENING"; "ROUTE_LIMIT_EXCEEDED";
   "ROUTE_EXPIRED"; "STREAM_LIMIT_EXCEEDED"; "CONTROL_PLANE_UNAVAILABLE"; "UPGRADE_REQUIRED"].
Definition HeartbeatStatus : json → Prop := union_type
  ["healthy"; "degraded"].
Definition RoutePublishAckStatus : json → Prop := union_type
  ["ready"; "rejected"].
Definition UpgradeClassification : json → Prop := union_type
  ["compatible"; "upgrade_recommended"; "upgrade_required"; "unsupported"].
Definition RouteReconciliationDecision : json → Prop := union_type
  ["continue"; "revoke"].
Definition RouteReconciliationReason : json → Prop := union_type
  ["authorised"; "unknown_route"; "expired"; "revoked"; "not_authorised"; "destination_mismatch"].
Definition SessionReconciliationDecision : json → Prop := union_type
  ["re_establish"; "end"].
Definition SessionReconciliationReason : json → Prop := union_type
  ["route_resumed"; "route_revoked"; "session_ended"; "connector_reconnected"].
Definition Envelope : json → Prop := interface_type [
    has "protocol_version" number_type;
    has "message_id" Identifier;
    has "type" MessageType;
    has "sent_at" Timestamp;
    may_have "connector_id" Identifier;
    may_have "correlation_id" Identifier].
Definition EnvironmentDescriptor : json → Prop := interface_type [
    has "name" string_type;
    has "platform" string_type;
    has "architecture" string_type;
    may_have "labels" (array_type EnvironmentLabel)].
Definition ConnectorDescriptor : json → Prop := interface_type [
    has "version" SemanticVersion;
    has "capabilities" (array_type ConnectorCapability)].
Definition RegistrationRequest : json → Prop := interface_type [
    has "enrolment_token" SensitiveString;
    has "public_key" PublicKey;
    has "environment" EnvironmentDescriptor;
    has "connector" ConnectorDescriptor].
Definition SignedIdentity : json → Prop := interface_type [
    has "certificate" Certificate;
    has "certificate_fingerprint" Digest;
    has "expires_at" Timestamp].
Definition ControlPlaneEndpoints : json → Prop := interface_type [
    has "control_url" WebsocketUrl;
    has "data_url" WebsocketUrl].
Definition RegistrationResponse : json → Prop := interface_type [
    has "connector_id" Identifier;
    has "signed_identity" SignedIdentity;
    has "control_plane_endpoints" ControlPlaneEndpoints;
    has "policy_digest" Digest].
Definition ResourceSummary : json → Prop := interface_type [
    may_have "load" number_type;
    may_have "memory_available_bytes" number_type].
Definition Heartbeat : json → Prop := interface_type [
    has "status" HeartbeatStatus;
    has "uptime_seconds" number_type;
    has "version" SemanticVersion;
    has "active_routes" number_type;
    has "active_streams" number_type;
    may_have "resource_summary" ResourceSummary].
Definition RoutePublish : json → Prop := interface_type [
    has "route_id" Identifier;
    has "project_id" Identifier;
    has "workspace_id" Identifier;
    has "local_host" string_type;
    has "local_port" number_type;
    has "protocol" DestinationProtocol;
    has "expires_at" Timestamp;
    has "allowed_browser_session_ids" (array_type Identifier)].
Definition RoutePublishAck : json → Prop := interface_type [
    has "route_id" Identifier;
    has "status" RoutePublishAckStatus;
    may_have "observed_destination" string_type;
    may_have "error_class" ErrorClass].
Definition DataStreamHeader : json → Prop := interface_type [
    has "route_id" Identifier;
    has "browser_session_id" Identifier;
    has "session_capability" SensitiveString;
    has "stream_id" Identifier;
    has "destination_protocol" DestinationProtocol;
    has "deadline" Timestamp;
    may_have "stream_mode" StreamMode].
Definition ReconnectRoute : json → Prop := interface_type [
    has "route_id" Identifier;
    has "project_id" Identifier;
    has "workspace_id" Identifier;
    has "observed_destination" string_type;
    has "expires_at" Timestamp].
Definition ReconnectStream : json → Prop := interface_type [
    has "stream_id" Identifier;
    has "route_id" Identifier;
    has "browser_session_id" Identifier;
    has "deadline" Timestamp].
Definition WorkspaceHead : json → Prop := interface_type [
    has "workspace_id" Identifier;
    has "branch" GitBranch;
    has "head_commit" GitCommit;
    has "dirty" boolean_type].
Definition WorkspaceObservation : json → Prop := interface_type [
    has "workspace_id" Identifier;
    has "project_id" Identifier;
    has "path_hash" PathHash;
    has "display_label" WorkspaceDisplayLabel;
    may_have "repository_identity" RepositoryIdentity;
    has "branch" GitBranch;
    has "head_commit" GitCommit;
    has "dirty" boolean_type;
    has "observed_at" Timestamp].
Definition ReconnectRequest : json → Prop := interface_type [
    has "connector_version" SemanticVersion;
    has "capabilities" (array_type ConnectorCapability);
    has "active_routes" (array_type ReconnectRoute);
    has "active_streams" (array_type ReconnectStream);
    has "known_agent_sessions" (array_type Identifier);
    has "workspace_head_state" (array_type WorkspaceHead)].
Definition RouteDecision : json → Prop := interface_type [
    has "route_id" Identifier;
    has "decision" RouteReconciliationDecision;
    has "reason" RouteReconciliationReason;
    may_have "route" RoutePublish].
Definition SessionDecision : json → Prop := interface_type [
    has "browser_session_id" Identifier;
    has "decision" SessionReconciliationDecision;
    has "reason" SessionReconciliationReason].
Definition ReconnectResponse : json → Prop := interface_type [
    has "reconciled_at" Timestamp;
    has "upgrade" UpgradeClassification;
    has "routes" (array_type RouteDecision);
    has "sessions" (array_type SessionDecision)].

(** [x-protocol.messages] *)
Definition connector_messages : list (string * Schema) :=
  [("connector.registration.request", schema_registration_request);
   ("connector.registration.response", schema_registration_response);
   ("heartbeat", schema_heartbeat);
   ("route.publish", schema_route_publish);
   ("route.publish.ack", schema_route_publish_ack);
   ("connector.reconnect.request", schema_reconnect_request);
   ("connector.reconnect.response", schema_reconnect_response);
   ("workspace.observed", schema_workspace_observation)].

(** ** Encoders, decoders and dispatch *)

Definition encodeEnvelope (value : option json) (payloadJson : string) : result string string := object_text [
    push_field "protocol_version" jsonInteger value;
    push_field "message_id" jsonString value;
    push_field "type" jsonString value;
    push_field "sent_at" jsonString value;
    push_optional "connector_id" jsonString value;
    push_optional "correlation_id" jsonString value;
    push_text "payload" payloadJson].
Definition encodeEnvironmentDescriptor (value : option json) : result string string := object_text [
    push_field "name" jsonString value;
    push_field "platform" jsonString value;
    push_field "architecture" jsonString value;
    push_optional "labels" (jsonItems jsonString) value].
Definition encodeConnectorDescriptor (value : option json) : result string string := object_text [
    push_field "version" jsonString value;
    push_field "capabilities" (jsonItems jsonString) value].
Definition encodeRegistrationRequest (value : option json) : result string string := object_text [
    push_field "enrolment_token" jsonSensitive value;
    push_field "public_key" jsonString value;
    push_field "environment" encodeEnvironmentDescriptor value;
    push_field "connector" encodeConnectorDescriptor value].
Definition encodeSignedIdentity (value : option json) : result string string := object_text [
    push_field "certificate" jsonString value;
    push_field "certificate_fingerprint" jsonString value;
    push_field "expires_at" jsonString value].
Definition encodeControlPlaneEndpoints (value : option json) : result string string := object_text [
    push_field "control_url" jsonString value;
    push_field "data_url" jsonString value].
Definition encodeRegistrationResponse (value : option json) : result string string := object_text [
    push_field "connector_id" jsonString value;
    push_field "signed_identity" encodeSignedIdentity value;
    push_field "control_plane_endpoints" encodeControlPlaneEndpoints value;
    push_field "policy_digest" jsonString value].
Definition encodeResourceSummary (value : option json) : result string string := object_text [
    push_optional "load" jsonNumber value;
    push_optional "memory_available_bytes" jsonInteger value].
Definition encodeHeartbeat (value : option json) : result string string := object_text [
    push_field "status" jsonString value;
    push_field "uptime_seconds" jsonInteger value;
    push_field "version" jsonString value;
    push_field "active_routes" jsonInteger value;
    push_field "active_streams" jsonInteger value;
    push_optional "resource_summary" encodeResourceSummary value].
Definition encodeRoutePublish (value : option json) : result string string := object_text [
    push_field "route_id" jsonString value;
    push_field "project_id" jsonString value;
    push_field "workspace_id" jsonString value;
    push_field "local_host" jsonString value;
    push_field "local_port" jsonInteger value;
    push_field "protocol" jsonString value;
    push_field "expires_at" jsonString value;
    push_field "allowed_browser_session_ids" (jsonItems jsonString) value].
Definition encodeRoutePublishAck (value : option json) : result string string := object_text [
    push_field "route_id" jsonString value;
    push_field "status" jsonString value;
    push_optional "observed_destination" jsonString value;
    push_optional "error_class" jsonString value].
Definition encodeDataStreamHeader (value : option json) : result string string := object_text [
    push_field "route_id" jsonString value;
    push_field "browser_session_id" jsonString value;
    push_field "session_capability" jsonSensitive value;
    push_field "stream_id" jsonString value;
    push_field "destination_protocol" jsonString value;
    push_field "deadline" jsonString value;
    push_optional "stream_mode" jsonString value].
Definition encodeReconnectRoute (value : option json) : result string string := object_text [
    push_field "route_id" jsonString value;
    push_field "project_id" jsonString value;
    push_field "workspace_id" jsonString value;
    push_field "observed_destination" jsonString value;
    push_field "expires_at" jsonString value].
Definition encodeReconnectStream (value : option json) : result string string := object_text [
    push_field "stream_id" jsonString value;
    push_field "route_id" jsonString value;
    push_field "browser_session_id" jsonString value;
    push_field "deadline" jsonString value].
Definition encodeWorkspaceHead (value : option json) : result string string := object_text [
    push_field "workspace_id" jsonString value;
    push_field "branch" jsonString value;
    push_field "head_commit" jsonString value;
    push_field "dirty" jsonBoolean value].
Definition encodeWorkspaceObservation (value : option json) : result string string := object_text [
    push_field "workspace_id" jsonString value;
    push_field "project_id" jsonString value;
    push_field "path_hash" jsonString value;
    push_field "display_label" jsonString value;
    push_optional "repository_identity" jsonString value;
    push_field "branch" jsonString value;
    push_field "head_commit" jsonString value;
    push_field "dirty" jsonBoolean value;
    push_field "observed_at" jsonString value].
Definition encodeReconnectRequest (value : option json) : result string string := object_text [
    push_field "connector_version" jsonString value;
    push_field "capabilities" (jsonItems jsonString) value;
    push_field "active_routes" (jsonItems encodeReconnectRoute) value;
    push_field "active_streams" (jsonItems encodeReconnectStream) value;
    push_field "known_agent_sessions" (jsonItems jsonString) value;
    push_field "workspace_head_state" (jsonItems encodeWorkspaceHead) value].
Definition encodeRouteDecision (value : option json) : result string string := object_text [
    push_field "route_id" jsonString value;
    push_field "decision" jsonString value;
    push_field "reason" jsonString value;
    push_optional "route" encodeRoutePublish value].
Definition encodeSessionDecision (value : option json) : result string string := object_text [
    push_field "browser_session_id" jsonString value;
    push_field "decision" jsonString value;
    push_field "reason" jsonString value].
Definition encodeReconnectResponse (value : option json) : result string string := object_text [
    push_field "reconciled_at" jsonString value;
    push_field "upgrade" jsonString value;
    push_field "routes" (jsonItems encodeRouteDecision) value;
    push_field "sessions" (jsonItems encodeSessionDecision) value].

Definition decodeEnvelope : json → result string json := read_object (λ source, [
    cast_field "protocol_version" as_is source;
    cast_field "message_id" as_is source;
    cast_field "type" as_is source;
    cast_field "sent_at" as_is source;
    optional_field "connector_id" as_is source;
    optional_field "correlation_id" as_is source]).
Definition decodeEnvironmentDescriptor : json → result string json := read_object (λ source, [
    cast_field "name" as_is source;
    cast_field "platform" as_is source;
    cast_field "architecture" as_is source;
    optional_field "labels" (read_items as_is) source]).
Definition decodeConnectorDescriptor : json → result string json := read_object (λ source, [
    cast_field "version" as_is source;
    read_field "capabilities" (read_items as_is) source]).
Definition decodeRegistrationRequest : json → result string json := read_object (λ source, [
    cast_field "enrolment_token" read_sensitive source;
    cast_field "public_key" as_is source;
    read_field "environment" decodeEnvironmentDescriptor source;
    read_field "connector" decodeConnectorDescriptor source]).
Definition decodeSignedIdentity : json → result string json := read_object (λ source, [
    cast_field "certificate" as_is source;
    cast_field "certificate_fingerprint" as_is source;
    cast_field "expires_at" as_is source]).
Definition decodeControlPlaneEndpoints : json → result string json := read_object (λ source, [
    cast_field "control_url" as_is source;
    cast_field "data_url" as_is source]).
Definition decodeRegistrationResponse : json → result string json := read_object (λ source, [
    cast_field "connector_id" as_is source;
    read_field "signed_identity" decodeSignedIdentity source;
    read_field "control_plane_endpoints" decodeControlPlaneEndpoints source;
    cast_field "policy_digest" as_is source]).
Definition decodeResourceSummary : json → result string json := read_object (λ source, [
    optional_field "load" as_is source;
    optional_field "memory_available_bytes" as_is source]).
Definition decodeHeartbeat : json → result string json := read_object (λ source, [
    cast_field "status" as_is source;
    cast_field "uptime_seconds" as_is source;
    cast_field "version" as_is source;
    cast_field "active_routes" as_is source;
    cast_field "active_streams" as_is source;
    optional_field "resource_summary" decodeResourceSummary source]).
Definition decodeRoutePublish : json → result string json := read_object (λ source, [
    cast_field "route_id" as_is source;
    cast_field "project_id" as_is source;
    cast_field "workspace_id" as_is source;
    cast_field "local_host" as_is source;
    cast_field "local_port" as_is source;
    cast_field "protocol" as_is source;
    cast_field "expires_at" as_is source;
    read_field "allowed_browser_session_ids" (read_items as_is) source]).
Definition decodeRoutePublishAck : json → result string json := read_object (λ source, [
    cast_field "route_id" as_is source;
    cast_field "status" as_is source;
    optional_field "observed_destination" as_is source;
    optional_field "error_class" as_is source]).
Definition decodeDataStreamHeader : json → result string json := read_object (λ source, [
    cast_field "route_id" as_is source;
    cast_field "browser_session_id" as_is source;
    cast_field "session_capability" read_sensitive source;
    cast_field "stream_id" as_is source;
    cast_field "destination_protocol" as_is source;
    cast_field "deadline" as_is source;
    optional_field "stream_mode" as_is source]).
Definition decodeReconnectRoute : json → result string json := read_object (λ source, [
    cast_field "route_id" as_is source;
    cast_field "project_id" as_is source;
    cast_field "workspace_id" as_is source;
    cast_field "observed_destination" as_is source;
    cast_field "expires_at" as_is source]).
Definition decodeReconnectStream : json → result string json := read_object (λ source, [
    cast_field "stream_id" as_is source;
    cast_field "route_id" as_is source;
    cast_field "browser_session_id" as_is source;
    cast_field "deadline" as_is source]).
Definition decodeWorkspaceHead : json → result string json := read_object (λ source, [
    cast_field "workspace_id" as_is source;
    cast_field "branch" as_is source;
    cast_field "head_commit" as_is source;
    cast_field "dirty" as_is source]).
Definition decodeWorkspaceObservation : json → result string json := read_object (λ source, [
    cast_field "workspace_id" as_is source;
    cast_field "project_id" as_is source;
    cast_field "path_hash" as_is source;
    cast_field "display_label" as_is source;
    optional_field "repository_identity" as_is source;
    cast_field "branch" as_is source;
    cast_field "head_commit" as_is source;
    cast_field "dirty" as_is source;
    cast_field "observed_at" as_is source]).
Definition decodeReconnectRequest : json → result string json := read_object (λ source, [
    cast_field "connector_version" as_is source;
    read_field "capabilities" (read_items as_is) source;
    read_field "active_routes" (read_items decodeReconnectRoute) source;
    read_field "active_streams" (read_items decodeReconnectStream) source;
    read_field "known_agent_sessions" (read_items as_is) source;
    read_field "workspace_head_state" (read_items decodeWorkspaceHead) source]).
Definition decodeRouteDecision : json → result string json := read_object (λ source, [
    cast_field "route_id" as_is source;
    cast_field "decision" as_is source;
    cast_field "reason" as_is source;
    optional_field "route" decodeRoutePublish source]).
Definition decodeSessionDecision : json → result string json := read_object (λ source, [
    cast_field "browser_session_id" as_is source;
    cast_field "decision" as_is source;
    cast_field "reason" as_is source]).
Definition decodeReconnectResponse : json → result string json := read_object (λ source, [
    cast_field "reconciled_at" as_is source;
    cast_field "upgrade" as_is source;
    read_field "routes" (read_items decodeRouteDecision) source;
    read_field "sessions" (read_items decodeSessionDecision) source]).

Definition validatePayload (type : string) (value : json) (path : string) : list SchemaViolation :=
  if String.eqb type "connector.registration.request" then validateRegistrationRequest value path else
  if String.eqb type "connector.registration.response" then validateRegistrationResponse value path else
  if String.eqb type "heartbeat" then validateHeartbeat value path else
  if String.eqb type "route.publish" then validateRoutePublish value path else
  if String.eqb type "route.publish.ack" then validateRoutePublishAck value path else
  if String.eqb type "connector.reconnect.request" then validateReconnectRequest value path else
  if String.eqb type "connector.reconnect.response" then validateReconnectResponse value path else
  if String.eqb type "workspace.observed" then validateWorkspaceObservation value path else
  [].
(** The payload of the frame; a type of no message gives no frame. *)
Definition decodeFrame (type : string) (value : json) : option (result string json) :=
  if String.eqb type "connector.registration.request" then Some (decodeRegistrationRequest value) else
  if String.eqb type "connector.registration.response" then Some (decodeRegistrationResponse value) else
  if String.eqb type "heartbeat" then Some (decodeHeartbeat value) else
  if String.eqb type "route.publish" then Some (decodeRoutePublish value) else
  if String.eqb type "route.publish.ack" then Some (decodeRoutePublishAck value) else
  if String.eqb type "connector.reconnect.request" then Some (decodeReconnectRequest value) else
  if String.eqb type "connector.reconnect.response" then Some (decodeReconnectResponse value) else
  if String.eqb type "workspace.observed" then Some (decodeWorkspaceObservation value) else
  None.
Definition encodeFramePayload (type : string) (payload : option json) : option (result string string) :=
  if String.eqb type "connector.registration.request" then Some (encodeRegistrationRequest payload) else
  if String.eqb type "connector.registration.response" then Some (encodeRegistrationResponse payload) else
  if String.eqb type "heartbeat" then Some (encodeHeartbeat payload) else
  if String.eqb type "route.publish" then Some (encodeRoutePublish payload) else
  if String.eqb type "route.publish.ack" then Some (encodeRoutePublishAck payload) else
  if String.eqb type "connector.reconnect.request" then Some (encodeReconnectRequest payload) else
  if String.eqb type "connector.reconnect.response" then Some (encodeReconnectResponse payload) else
  if String.eqb type "workspace.observed" then Some (encodeWorkspaceObservation payload) else
  None.

(** The objects of the schema, with the type and the functions generated for
    them. *)
Definition connector_codec : list Coded :=
  [coded schema_environment_descriptor EnvironmentDescriptor validateEnvironmentDescriptor encodeEnvironmentDescriptor decodeEnvironmentDescriptor;
   coded schema_connector_descriptor ConnectorDescriptor validateConnectorDescriptor encodeConnectorDescriptor decodeConnectorDescriptor;
   coded schema_registration_request RegistrationRequest validateRegistrationRequest encodeRegistrationRequest decodeRegistrationRequest;
   coded schema_signed_identity SignedIdentity validateSignedIdentity encodeSignedIdentity decodeSignedIdentity;
   coded schema_control_plane_endpoints ControlPlaneEndpoints validateControlPlaneEndpoints encodeControlPlaneEndpoints decodeControlPlaneEndpoints;
   coded schema_registration_response RegistrationResponse validateRegistrationResponse encodeRegistrationResponse decodeRegistrationResponse;
   coded schema_resource_summary ResourceSummary validateResourceSummary encodeResourceSummary decodeResourceSummary;
   coded schema_heartbeat Heartbeat validateHeartbeat encodeHeartbeat decodeHeartbeat;
   coded schema_route_publish RoutePublish validateRoutePublish encodeRoutePublish decodeRoutePublish;
   coded schema_route_publish_ack RoutePublishAck validateRoutePublishAck encodeRoutePublishAck decodeRoutePublishAck;
   coded schema_data_stream_header DataStreamHeader validateDataStreamHeader encodeDataStreamHeader decodeDataStreamHeader;
   coded schema_reconnect_route ReconnectRoute validateReconnectRoute encodeReconnectRoute decodeReconnectRoute;
   coded schema_reconnect_stream ReconnectStream validateReconnectStream encodeReconnectStream decodeReconnectStream;
   coded schema_workspace_head WorkspaceHead validateWorkspaceHead encodeWorkspaceHead decodeWorkspaceHead;
   coded schema_workspace_observation WorkspaceObservation validateWorkspaceObservation encodeWorkspaceObservation decodeWorkspaceObservation;
   coded schema_reconnect_request ReconnectRequest validateReconnectRequest encodeReconnectRequest decodeReconnectRequest;
   coded schema_route_decision RouteDecision validateRouteDecision encodeRouteDecision decodeRouteDecision;
   coded schema_session_decision SessionDecision validateSessionDecision encodeSessionDecision decodeSessionDecision;
   coded schema_reconnect_response ReconnectResponse validateReconnectResponse encodeReconnectResponse decodeReconnectResponse].

Lemma connector_codec_generated : Forall codes connector_codec.
Proof. repeat (apply Forall_cons_2; [by repeat split|]). apply Forall_nil_2. Qed.
(** The envelope, whose payload is text that was encoded before. *)
Lemma connector_envelope_generated value text value' :
  encodeEnvelope value text = encoding text schema_envelope value
  ∧ (∀ source, decodeEnvelope source = decoding schema_envelope source)
  ∧ Envelope value' = typing schema_envelope value'.
Proof. by split. Qed.

(** The functions of the dispatch. *)
Definition connector_dispatch : Dispatch :=
  {| payloads := connector_messages; message_types := MESSAGE_TYPE_VALUES; validate_payload := validatePayload;
     decode_payload := decodeFrame; encode_payload := encodeFramePayload |}.
Lemma connector_dispatch_generated : dispatches connector_dispatch.
Proof.
  split; [reflexivity|]. repeat (apply Forall_cons_2; [by repeat split|]). apply Forall_nil_2.
Qed.
