(* ===== verification/BrowserSchema.v ===== *)
(** * The schemas of the browser protocol
    ([src/packages/protocol/schemas/browser/v1.schema.json])

    The definitions of the document, each after those it refers to. *)

From S2P Require Import Prelude Regex Schema Patterns.
#[local] Open Scope Z_scope.

Definition schema_identifier : Schema :=
  S_string 1 64 (Some expression_0).
Definition schema_timestamp : Schema :=
  S_string 20 30 (Some expression_1).
Definition schema_build_version : Schema :=
  S_string 1 64 (Some expression_49).
Definition schema_worker_label : Schema :=
  S_string 1 64 (Some expression_10).
Definition schema_origin : Schema :=
  S_string 8 2048 (Some expression_42).
Definition schema_session_capability : Schema :=
  S_sensitive 16 512 (Some expression_44).
Definition schema_navigation_target : Schema :=
  S_string 1 2048 (Some expression_50).
Definition schema_resolved_url : Schema :=
  S_string 1 2048 (Some expression_36).
Definition schema_page_text : Schema :=
  S_string 0 512 (Some expression_51).
Definition schema_snapshot_text : Schema :=
  S_string 0 65536 (Some expression_52).
Definition schema_element_reference : Schema :=
  S_string 2 8 (Some expression_53).
Definition schema_accessible_role : Schema :=
  S_string 1 64 (Some expression_54).
Definition schema_element_selector : Schema :=
  S_string 1 512 (Some expression_55).
Definition schema_input_text : Schema :=
  S_string 0 4096 (Some expression_52).
Definition schema_option_value : Schema :=
  S_string 0 512 (Some expression_51).
Definition schema_selector : Schema :=
  S_string 1 512 (Some expression_34).
Definition schema_url_pattern : Schema :=
  S_string 1 512 (Some expression_36).
Definition schema_reason_text : Schema :=
  S_string 1 512 (Some expression_34).
Definition schema_sha256_hex : Schema :=
  S_string 64 64 (Some expression_16).
Definition schema_message_type : Schema :=
  S_values ["worker.register"; "worker.register.ack"; "worker.heartbeat"; "worker.heartbeat.ack"; "worker.contexts.request";
    "worker.contexts"; "browser_session.allocate"; "browser_session.allocated"; "browser_session.status";
    "browser_session.terminate"; "browser.command"; "browser.command.result"].
Definition schema_error_class : Schema :=
  S_values ["PROTOCOL_UNSUPPORTED"; "AUTHENTICATION_REQUIRED"; "AUTHORISATION_DENIED"; "PROJECT_CONTEXT_MISMATCH";
    "RESOURCE_NOT_FOUND"; "RESOURCE_STALE"; "BROWSER_CAPACITY_EXHAUSTED"; "BROWSER_SESSION_NOT_ACTIVE";
    "CONTROL_NOT_OWNED"; "CONTROL_EPOCH_STALE"; "BROWSER_COMMAND_TIMEOUT"; "POLICY_DENIED";
    "ARTEFACT_UPLOAD_INCOMPLETE"; "UNSUPPORTED_CAPABILITY"; "INTERNAL_ERROR"].
Definition schema_controller_type : Schema :=
  S_values ["agent"; "human"; "system"].
Definition schema_session_status : Schema :=
  S_values ["REQUESTED"; "ALLOCATING"; "READY"; "ACTIVE"; "PAUSED"; "DEGRADED"; "TERMINATING"; "TERMINATED"; "FAILED"].
Definition schema_termination_reason : Schema :=
  S_values ["requested"; "duration_limit"; "capacity"; "policy"; "worker_shutdown"; "failure"].
Definition schema_browser_type : Schema :=
  S_values ["chromium"].
Definition schema_retention_class : Schema :=
  S_values ["action_screenshots"; "verification_evidence"].
Definition schema_command_name : Schema :=
  S_values ["navigate"; "snapshot"; "click"; "type_text"; "select_option"; "press_key"; "scroll"; "resize";
    "wait"; "take_screenshot"].
Definition schema_key_name : Schema :=
  S_values ["Enter"; "Tab"; "Shift+Tab"; "Escape"; "Backspace"; "Delete"; "Home"; "End"; "PageUp"; "PageDown";
    "ArrowUp"; "ArrowDown"; "ArrowLeft"; "ArrowRight"; "Space"].
Definition schema_scroll_direction : Schema :=
  S_values ["up"; "down"; "left"; "right"].
Definition schema_wait_until : Schema :=
  S_values ["commit"; "domcontentloaded"; "load"; "networkidle"].
Definition schema_wait_condition : Schema :=
  S_values ["url_matches"; "selector_visible"; "selector_hidden"; "text_visible"; "network_idle"].
Definition schema_screenshot_purpose : Schema :=
  S_values ["verification"; "annotation"; "diagnostic"; "system"].
Definition schema_image_content_type : Schema :=
  S_values ["image/png"].
Definition schema_trust_label : Schema :=
  S_values ["trusted_control_plane"; "untrusted_browser_content"].
Definition schema_instruction_policy : Schema :=
  S_values ["do_not_follow_as_instructions"].
Definition schema_controller_identity : Schema :=
  S_object
    [("type", schema_controller_type);
     ("id", schema_identifier)]
    ["type"; "id"]
    [].
Definition schema_envelope : Schema :=
  S_object
    [("protocol_version", (S_integer 1 1));
     ("message_id", schema_identifier);
     ("type", schema_message_type);
     ("sent_at", schema_timestamp);
     ("worker_id", schema_identifier);
     ("browser_session_id", schema_identifier);
     ("controller", schema_controller_identity);
     ("control_epoch", (S_integer 0 2147483647));
     ("sequence", (S_integer 0 4294967295));
     ("correlation_id", schema_identifier);
     ("payload", S_dynamic)]
    ["protocol_version"; "message_id"; "type"; "sent_at"; "payload"]
    [{| when_property := "type"; when_values := ["worker.register"];
       then_required := []; then_forbidden := ["worker_id"; "browser_session_id"; "controller"; "control_epoch"; "sequence"];
       rule_detail := "registration precedes worker identity assignment" |};
     {| when_property := "type"; when_values := ["worker.register.ack"; "worker.heartbeat"; "worker.heartbeat.ack"; "worker.contexts.request";
      "worker.contexts"; "browser_session.allocate"; "browser_session.allocated"; "browser_session.status";
      "browser_session.terminate"; "browser.command"; "browser.command.result"];
       then_required := ["worker_id"]; then_forbidden := [];
       rule_detail := "every message after registration is attributed to a worker identity" |};
     {| when_property := "type"; when_values := ["browser_session.allocate"; "browser_session.allocated"; "browser_session.status"; "browser_session.terminate";
      "browser.command"; "browser.command.result"];
       then_required := ["browser_session_id"]; then_forbidden := [];
       rule_detail := "session-scoped messages name their browser session" |};
     {| when_property := "type"; when_values := ["browser.command"; "browser.command.result"];
       then_required := ["controller"; "control_epoch"; "sequence"]; then_forbidden := [];
       rule_detail := "docs/ARCHITECTURE.md section 6.4 requires controller identity, control epoch and sequence on every browser command" |};
     {| when_property := "type"; when_values := ["browser.command.result"];
       then_required := ["correlation_id"]; then_forbidden := [];
       rule_detail := "a result names the command it answers" |}].
Definition schema_viewport : Schema :=
  S_object
    [("width", (S_integer 240 3840));
     ("height", (S_integer 240 2160));
     ("device_scale_factor", (S_number 1 4))]
    ["width"; "height"; "device_scale_factor"]
    [].
Definition schema_session_limits : Schema :=
  S_object
    [("max_duration_seconds", (S_integer 60 28800));
     ("default_timeout_ms", (S_integer 100 120000));
     ("max_command_timeout_ms", (S_integer 100 120000));
     ("screenshot_max_bytes", (S_integer 65536 20971520));
     ("snapshot_max_nodes", (S_integer 1 500));
     ("snapshot_max_bytes", (S_integer 1024 65536))]
    ["max_duration_seconds"; "default_timeout_ms"; "max_command_timeout_ms"; "screenshot_max_bytes";
     "snapshot_max_nodes"; "snapshot_max_bytes"]
    [].
Definition schema_worker_registration : Schema :=
  S_object
    [("worker_name", schema_worker_label);
     ("worker_version", schema_build_version);
     ("browser_type", schema_browser_type);
     ("browser_version", schema_build_version);
     ("capacity", (S_integer 1 64));
     ("labels", (S_array 0 16 true schema_worker_label));
     ("sandbox_enabled", S_boolean);
     ("started_at", schema_timestamp)]
    ["worker_name"; "worker_version"; "browser_type"; "browser_version"; "capacity"; "labels";
     "sandbox_enabled"; "started_at"]
    [].
Definition schema_command_error : Schema :=
  S_object
    [("code", schema_error_class);
     ("message", schema_reason_text);
     ("retryable", S_boolean);
     ("current_epoch", (S_integer 0 2147483647))]
    ["code"; "message"; "retryable"]
    [].
Definition schema_worker_registration_ack : Schema :=
  S_object
    [("accepted", S_boolean);
     ("assigned_projects", (S_array 0 256 true schema_identifier));
     ("session_limits", schema_session_limits);
     ("heartbeat_interval_seconds", (S_integer 5 300));
     ("error", schema_command_error)]
    ["accepted"; "assigned_projects"; "session_limits"; "heartbeat_interval_seconds"]
    [].
Definition schema_worker_heartbeat : Schema :=
  S_object
    [("active_sessions", (S_integer 0 64));
     ("capacity", (S_integer 1 64));
     ("resident_memory_mb", (S_integer 0 1048576));
     ("observed_at", schema_timestamp)]
    ["active_sessions"; "capacity"; "observed_at"]
    [].
Definition schema_worker_heartbeat_ack : Schema :=
  S_object
    [("assigned_projects", (S_array 0 256 true schema_identifier));
     ("heartbeat_interval_seconds", (S_integer 5 300));
     ("observed_at", schema_timestamp)]
    ["assigned_projects"; "heartbeat_interval_seconds"; "observed_at"]
    [].
Definition schema_worker_contexts_request : Schema :=
  S_object
    [("requested_at", schema_timestamp)]
    ["requested_at"]
    [].
Definition schema_worker_context : Schema :=
  S_object
    [("browser_session_id", schema_identifier);
     ("project_id", schema_identifier);
     ("status", schema_session_status);
     ("control_epoch", (S_integer 0 2147483647))]
    ["browser_session_id"; "project_id"; "status"; "control_epoch"]
    [].
Definition schema_worker_contexts : Schema :=
  S_object
    [("contexts", (S_array 0 64 false schema_worker_context));
     ("observed_at", schema_timestamp)]
    ["contexts"; "observed_at"]
    [].
Definition schema_session_allocate : Schema :=
  S_object
    [("organisation_id", schema_identifier);
     ("project_id", schema_identifier);
     ("agent_session_id", schema_identifier);
     ("published_service_id", schema_identifier);
     ("service_origin", schema_origin);
     ("service_capability", schema_session_capability);
     ("viewport", schema_viewport);
     ("control_epoch", (S_integer 0 2147483647));
     ("controller", schema_controller_identity);
     ("limits", schema_session_limits);
     ("retention_class", schema_retention_class)]
    ["organisation_id"; "project_id"; "viewport"; "control_epoch"; "controller"; "limits"; "retention_class"]
    [].
Definition schema_session_allocated : Schema :=
  S_object
    [("status", schema_session_status);
     ("browser_type", schema_browser_type);
     ("browser_version", schema_build_version);
     ("viewport", schema_viewport);
     ("allocated_at", schema_timestamp);
     ("error", schema_command_error)]
    ["status"; "browser_type"; "browser_version"; "viewport"; "allocated_at"]
    [].
Definition schema_session_status_report : Schema :=
  S_object
    [("status", schema_session_status);
     ("previous_status", schema_session_status);
     ("reason", schema_reason_text);
     ("control_epoch", (S_integer 0 2147483647));
     ("current_controller", schema_controller_identity);
     ("occurred_at", schema_timestamp)]
    ["status"; "occurred_at"]
    [].
Definition schema_session_terminate : Schema :=
  S_object
    [("reason", schema_termination_reason);
     ("detail", schema_reason_text)]
    ["reason"]
    [].
Definition schema_navigate_params : Schema :=
  S_object
    [("url", schema_navigation_target);
     ("wait_until", schema_wait_until)]
    ["url"; "wait_until"]
    [].
Definition schema_click_params : Schema :=
  S_object
    [("snapshot_id", schema_identifier);
     ("ref", schema_element_reference)]
    ["snapshot_id"; "ref"]
    [].
Definition schema_type_text_params : Schema :=
  S_object
    [("snapshot_id", schema_identifier);
     ("ref", schema_element_reference);
     ("text", schema_input_text);
     ("submit", S_boolean)]
    ["snapshot_id"; "ref"; "text"]
    [].
Definition schema_select_option_params : Schema :=
  S_object
    [("snapshot_id", schema_identifier);
     ("ref", schema_element_reference);
     ("values", (S_array 1 32 false schema_option_value))]
    ["snapshot_id"; "ref"; "values"]
    [].
Definition schema_press_key_params : Schema :=
  S_object
    [("key", schema_key_name);
     ("snapshot_id", schema_identifier);
     ("ref", schema_element_reference)]
    ["key"]
    [].
Definition schema_scroll_params : Schema :=
  S_object
    [("direction", schema_scroll_direction);
     ("amount_px", (S_integer 1 100000));
     ("snapshot_id", schema_identifier);
     ("ref", schema_element_reference)]
    ["direction"; "amount_px"]
    [].
Definition schema_resize_params : Schema :=
  S_object
    [("viewport", schema_viewport)]
    ["viewport"]
    [].
Definition schema_wait_params : Schema :=
  S_object
    [("condition", schema_wait_condition);
     ("url_pattern", schema_url_pattern);
     ("selector", schema_selector);
     ("text", schema_page_text)]
    ["condition"]
    [{| when_property := "condition"; when_values := ["url_matches"];
       then_required := ["url_pattern"]; then_forbidden := ["selector"; "text"];
       rule_detail := "a url_matches condition is defined by its pattern alone" |};
     {| when_property := "condition"; when_values := ["selector_visible"; "selector_hidden"];
       then_required := ["selector"]; then_forbidden := ["url_pattern"; "text"];
       rule_detail := "a selector condition is defined by its selector alone" |};
     {| when_property := "condition"; when_values := ["text_visible"];
       then_required := ["text"]; then_forbidden := ["url_pattern"; "selector"];
       rule_detail := "a text condition is defined by its text alone" |};
     {| when_property := "condition"; when_values := ["network_idle"];
       then_required := []; then_forbidden := ["url_pattern"; "selector"; "text"];
       rule_detail := "network idleness has no target" |}].
Definition schema_snapshot_params : Schema :=
  S_object
    [("max_nodes", (S_integer 1 500));
     ("max_bytes", (S_integer 1024 65536))]
    []
    [].
Definition schema_screenshot_params : Schema :=
  S_object
    [("full_page", S_boolean);
     ("persist", S_boolean);
     ("purpose", schema_screenshot_purpose)]
    ["full_page"; "persist"; "purpose"]
    [].
Definition schema_browser_command : Schema :=
  S_object
    [("command", schema_command_name);
     ("timeout_ms", (S_integer 100 120000));
     ("navigate", schema_navigate_params);
     ("click", schema_click_params);
     ("type_text", schema_type_text_params);
     ("select_option", schema_select_option_params);
     ("press_key", schema_press_key_params);
     ("scroll", schema_scroll_params);
     ("resize", schema_resize_params);
     ("wait", schema_wait_params);
     ("snapshot", schema_snapshot_params);
     ("take_screenshot", schema_screenshot_params)]
    ["command"; "timeout_ms"]
    [{| when_property := "command"; when_values := ["navigate"];
       then_required := ["navigate"]; then_forbidden := ["click"; "type_text"; "select_option"; "press_key"; "scroll"; "resize"; "wait"; "snapshot";
    "take_screenshot"];
       rule_detail := "a command carries only its own parameters" |};
     {| when_property := "command"; when_values := ["click"];
       then_required := ["click"]; then_forbidden := ["navigate"; "type_text"; "select_option"; "press_key"; "scroll"; "resize"; "wait"; "snapshot";
    "take_screenshot"];
       rule_detail := "a command carries only its own parameters" |};
     {| when_property := "command"; when_values := ["type_text"];
       then_required := ["type_text"]; then_forbidden := ["navigate"; "click"; "select_option"; "press_key"; "scroll"; "resize"; "wait"; "snapshot";
    "take_screenshot"];
       rule_detail := "a command carries only its own parameters" |};
     {| when_property := "command"; when_values := ["select_option"];
       then_required := ["select_option"]; then_forbidden := ["navigate"; "click"; "type_text"; "press_key"; "scroll"; "resize"; "wait"; "snapshot"; "take_screenshot"];
       rule_detail := "a command carries only its own parameters" |};
     {| when_property := "command"; when_values := ["press_key"];
       then_required := ["press_key"]; then_forbidden := ["navigate"; "click"; "type_text"; "select_option"; "scroll"; "resize"; "wait"; "snapshot";
    "take_screenshot"];
       rule_detail := "a command carries only its own parameters" |};
     {| when_property := "command"; when_values := ["scroll"];
       then_required := ["scroll"]; then_forbidden := ["navigate"; "click"; "type_text"; "select_option"; "press_key"; "resize"; "wait"; "snapshot";
    "take_screenshot"];
       rule_detail := "a command carries only its own parameters" |};
     {| when_property := "command"; when_values := ["resize"];
       then_required := ["resize"]; then_forbidden := ["navigate"; "click"; "type_text"; "select_option"; "press_key"; "scroll"; "wait"; "snapshot";
    "take_screenshot"];
       rule_detail := "a command carries only its own parameters" |};
     {| when_property := "command"; when_values := ["wait"];
       then_required := ["wait"]; then_forbidden := ["navigate"; "click"; "type_text"; "select_option"; "press_key"; "scroll"; "resize"; "snapshot";
    "take_screenshot"];
       rule_detail := "a command carries only its own parameters" |};
     {| when_property := "command"; when_values := ["snapshot"];
       then_required := []; then_forbidden := ["navigate"; "click"; "type_text"; "select_option"; "press_key"; "scroll"; "resize"; "wait";
    "take_screenshot"];
       rule_detail := "a command carries only its own parameters" |};
     {| when_property := "command"; when_values := ["take_screenshot"];
       then_required := ["take_screenshot"]; then_forbidden := ["navigate"; "click"; "type_text"; "select_option"; "press_key"; "scroll"; "resize"; "wait"; "snapshot"];
       rule_detail := "a command carries only its own parameters" |}].
Definition schema_navigation_result : Schema :=
  S_object
    [("url", schema_resolved_url);
     ("http_status", (S_integer 100 599));
     ("redirected", S_boolean);
     ("title", schema_page_text)]
    ["url"; "redirected"; "title"]
    [].
Definition schema_element_css_pixel_offset : Schema :=
  S_number (-100000) 100000.
Definition schema_scroll_offset : Schema :=
  S_object
    [("x", schema_element_css_pixel_offset);
     ("y", schema_element_css_pixel_offset)]
    ["x"; "y"]
    [].
Definition schema_element_box : Schema :=
  S_object
    [("x", schema_element_css_pixel_offset);
     ("y", schema_element_css_pixel_offset);
     ("width", schema_element_css_pixel_offset);
     ("height", schema_element_css_pixel_offset)]
    ["x"; "y"; "width"; "height"]
    [].
Definition schema_element_descriptor : Schema :=
  S_object
    [("ref", schema_element_reference);
     ("role", schema_accessible_role);
     ("name", schema_page_text);
     ("box", schema_element_box);
     ("selector", schema_element_selector);
     ("selector_strategy", (S_values ["testid"; "role"; "text"; "css"; "xpath"]));
     ("text_excerpt", schema_page_text);
     ("dom_fingerprint", schema_sha256_hex)]
    ["ref"; "role"]
    [].
Definition schema_snapshot_result : Schema :=
  S_object
    [("snapshot_id", schema_identifier);
     ("viewport", schema_viewport);
     ("scroll_position", schema_scroll_offset);
     ("node_count", (S_integer 0 500));
     ("truncated", S_boolean);
     ("text", schema_snapshot_text);
     ("elements", (S_array 0 500 false schema_element_descriptor))]
    ["snapshot_id"; "viewport"; "scroll_position"; "node_count"; "truncated"; "text"; "elements"]
    [].
Definition schema_screenshot_result : Schema :=
  S_object
    [("artefact_id", schema_identifier);
     ("sha256", schema_sha256_hex);
     ("size_bytes", (S_integer 1 20971520));
     ("content_type", schema_image_content_type);
     ("viewport", schema_viewport);
     ("scroll_position", schema_scroll_offset);
     ("full_page", S_boolean);
     ("captured_at", schema_timestamp)]
    ["artefact_id"; "sha256"; "size_bytes"; "content_type"; "viewport"; "scroll_position"; "full_page";
     "captured_at"]
    [].
Definition schema_browser_command_result : Schema :=
  S_object
    [("ok", S_boolean);
     ("command", schema_command_name);
     ("sequence", (S_integer 0 4294967295));
     ("control_epoch", (S_integer 0 2147483647));
     ("duration_ms", (S_integer 0 600000));
     ("trust", schema_trust_label);
     ("instruction_policy", schema_instruction_policy);
     ("error", schema_command_error);
     ("navigation", schema_navigation_result);
     ("snapshot", schema_snapshot_result);
     ("screenshot", schema_screenshot_result);
     ("viewport", schema_viewport)]
    ["ok"; "command"; "sequence"; "control_epoch"; "duration_ms"; "trust"; "instruction_policy"]
    [{| when_property := "trust"; when_values := ["trusted_control_plane"];
       then_required := []; then_forbidden := ["navigation"; "snapshot"; "screenshot"];
       rule_detail := "page-derived content must be labelled untrusted_browser_content (ADR-0010, docs/SECURITY.md section 11)" |}].
