(* ===== verification/BrowserValidate.v ===== *)
(** * The validators of the browser protocol
    ([src/packages/protocol/src/generated/browser/v1/validate.ts])

    The generated functions as they stand, each after those it calls, and the table
    of those that the schema's definitions have; each finds the violations of its
    definition, in the same order. *)

From S2P Require Import Prelude ReviewDomain StableJson Validation Schema Patterns BrowserSchema.
#[local] Open Scope Z_scope.

Definition PATTERN_0 : string → bool := whole expression_0.
Definition PATTERN_1 : string → bool := whole expression_1.
Definition PATTERN_2 : string → bool := whole expression_49.
Definition PATTERN_3 : string → bool := whole expression_10.
Definition PATTERN_4 : string → bool := whole expression_42.
Definition PATTERN_5 : string → bool := whole expression_44.
Definition PATTERN_6 : string → bool := whole expression_50.
Definition PATTERN_7 : string → bool := whole expression_36.
Definition PATTERN_8 : string → bool := whole expression_51.
Definition PATTERN_9 : string → bool := whole expression_52.
Definition PATTERN_10 : string → bool := whole expression_53.
Definition PATTERN_11 : string → bool := whole expression_54.
Definition PATTERN_12 : string → bool := whole expression_55.
Definition PATTERN_13 : string → bool := whole expression_34.
Definition PATTERN_14 : string → bool := whole expression_16.

Definition validateIdentifier : json → string → list SchemaViolation :=
  checkString (of_lengths 1 64 (Some PATTERN_0)).
Definition validateTimestamp : json → string → list SchemaViolation :=
  checkString (of_lengths 20 30 (Some PATTERN_1)).
Definition validateBuildVersion : json → string → list SchemaViolation :=
  checkString (of_lengths 1 64 (Some PATTERN_2)).
Definition validateWorkerLabel : json → string → list SchemaViolation :=
  checkString (of_lengths 1 64 (Some PATTERN_3)).
Definition validateOrigin : json → string → list SchemaViolation :=
  checkString (of_lengths 8 2048 (Some PATTERN_4)).
Definition validateSessionCapability : json → string → list SchemaViolation :=
  checkString (of_lengths 16 512 (Some PATTERN_5)).
Definition validateNavigationTarget : json → string → list SchemaViolation :=
  checkString (of_lengths 1 2048 (Some PATTERN_6)).
Definition validateResolvedUrl : json → string → list SchemaViolation :=
  checkString (of_lengths 1 2048 (Some PATTERN_7)).
Definition validatePageText : json → string → list SchemaViolation :=
  checkString (of_lengths 0 512 (Some PATTERN_8)).
Definition validateSnapshotText : json → string → list SchemaViolation :=
  checkString (of_lengths 0 65536 (Some PATTERN_9)).
Definition validateElementReference : json → string → list SchemaViolation :=
  checkString (of_lengths 2 8 (Some PATTERN_10)).
Definition validateAccessibleRole : json → string → list SchemaViolation :=
  checkString (of_lengths 1 64 (Some PATTERN_11)).
Definition validateElementSelector : json → string → list SchemaViolation :=
  checkString (of_lengths 1 512 (Some PATTERN_12)).
Definition validateInputText : json → string → list SchemaViolation :=
  checkString (of_lengths 0 4096 (Some PATTERN_9)).
Definition validateOptionValue : json → string → list SchemaViolation :=
  checkString (of_lengths 0 512 (Some PATTERN_8)).
Definition validateSelector : json → string → list SchemaViolation :=
  checkString (of_lengths 1 512 (Some PATTERN_13)).
Definition validateUrlPattern : json → string → list SchemaViolation :=
  checkString (of_lengths 1 512 (Some PATTERN_7)).
Definition validateReasonText : json → string → list SchemaViolation :=
  checkString (of_lengths 1 512 (Some PATTERN_13)).
Definition validateSha256Hex : json → string → list SchemaViolation :=
  checkString (of_lengths 64 64 (Some PATTERN_14)).
Definition validateMessageType : json → string → list SchemaViolation := checkString (of_values
     ["worker.register"; "worker.register.ack"; "worker.heartbeat"; "worker.heartbeat.ack";
     "worker.contexts.request"; "worker.contexts"; "browser_session.allocate"; "browser_session.allocated";
     "browser_session.status"; "browser_session.terminate"; "browser.command"; "browser.command.result"]).
Definition validateErrorClass : json → string → list SchemaViolation := checkString (of_values
     ["PROTOCOL_UNSUPPORTED"; "AUTHENTICATION_REQUIRED"; "AUTHORISATION_DENIED"; "PROJECT_CONTEXT_MISMATCH";
     "RESOURCE_NOT_FOUND"; "RESOURCE_STALE"; "BROWSER_CAPACITY_EXHAUSTED"; "BROWSER_SESSION_NOT_ACTIVE";
     "CONTROL_NOT_OWNED"; "CONTROL_EPOCH_STALE"; "BROWSER_COMMAND_TIMEOUT"; "POLICY_DENIED";
     "ARTEFACT_UPLOAD_INCOMPLETE"; "UNSUPPORTED_CAPABILITY"; "INTERNAL_ERROR"]).
Definition validateControllerType : json → string → list SchemaViolation := checkString (of_values
     ["agent"; "human"; "system"]).
Definition validateSessionStatus : json → string → list SchemaViolation := checkString (of_values
     ["REQUESTED"; "ALLOCATING"; "READY"; "ACTIVE"; "PAUSED"; "DEGRADED"; "TERMINATING";
     "TERMINATED"; "FAILED"]).
Definition validateTerminationReason : json → string → list SchemaViolation := checkString
     (of_values ["requested"; "duration_limit"; "capacity"; "policy"; "worker_shutdown";
     "failure"]).
Definition validateBrowserType : json → string → list SchemaViolation := checkString (of_values
     ["chromium"]).
Definition validateRetentionClass : json → string → list SchemaViolation := checkString (of_values
     ["action_screenshots"; "verification_evidence"]).
Definition validateCommandName : json → string → list SchemaViolation := checkString (of_values
     ["navigate"; "snapshot"; "click"; "type_text"; "select_option"; "press_key"; "scroll";
     "resize"; "wait"; "take_screenshot"]).
Definition validateKeyName : json → string → list SchemaViolation := checkString (of_values
     ["Enter"; "Tab"; "Shift+Tab"; "Escape"; "Backspace"; "Delete"; "Home"; "End"; "PageUp";
     "PageDown"; "ArrowUp"; "ArrowDown"; "ArrowLeft"; "ArrowRight"; "Space"]).
Definition validateScrollDirection : json → string → list SchemaViolation := checkString
     (of_values ["up"; "down"; "left"; "right"]).
Definition validateWaitUntil : json → string → list SchemaViolation := checkString (of_values
     ["commit"; "domcontentloaded"; "load"; "networkidle"]).
Definition validateWaitCondition : json → string → list SchemaViolation := checkString (of_values
     ["url_matches"; "selector_visible"; "selector_hidden"; "text_visible"; "network_idle"]).
Definition validateScreenshotPurpose : json → string → list SchemaViolation := checkString
     (of_values ["verification"; "annotation"; "diagnostic"; "system"]).
Definition validateImageContentType : json → string → list SchemaViolation := checkString
     (of_values ["image/png"]).
Definition validateTrustLabel : json → string → list SchemaViolation := checkString (of_values
     ["trusted_control_plane"; "untrusted_browser_content"]).
Definition validateInstructionPolicy : json → string → list SchemaViolation := checkString
     (of_values ["do_not_follow_as_instructions"]).
Definition validateElementCssPixelOffset : json → string → list SchemaViolation := checkNumber (-100000) 100000.
Definition validateEnvelopeProtocolVersion : json → string → list SchemaViolation := checkInteger 1 1.
Definition validateEnvelopeControlEpoch : json → string → list SchemaViolation := checkInteger 0 2147483647.
Definition validateEnvelopeSequence : json → string → list SchemaViolation := checkInteger 0 4294967295.
Definition validateEnvelopePayload : json → string → list SchemaViolation := checkPlainObject.
Definition validateControllerIdentity (value : json) (path : string) : list SchemaViolation :=
  let '(found, source) := checkObject
    ["type"; "id"]
    ["type"; "id"] value path in
  match source with
  | None => found
  | Some source => found ++ concat [
      on_member validateControllerType "type" source path;
      on_member validateIdentifier "id" source path]
  end.
Definition validateEnvelope (value : json) (path : string) : list SchemaViolation :=
  let '(found, source) := checkObject
    ["protocol_version"; "message_id"; "type"; "sent_at"; "worker_id"; "browser_session_id";
      "controller"; "control_epoch"; "sequence"; "correlation_id"; "payload"]
    ["protocol_version"; "message_id"; "type"; "sent_at"; "payload"] value path in
  match source with
  | None => found
  | Some source => found ++ concat [
      on_member validateEnvelopeProtocolVersion "protocol_version" source path;
      on_member validateIdentifier "message_id" source path;
      on_member validateMessageType "type" source path;
      on_member validateTimestamp "sent_at" source path;
      on_member validateIdentifier "worker_id" source path;
      on_member validateIdentifier "browser_session_id" source path;
      on_member validateControllerIdentity "controller" source path;
      on_member validateEnvelopeControlEpoch "control_epoch" source path;
      on_member validateEnvelopeSequence "sequence" source path;
      on_member validateIdentifier "correlation_id" source path;
      on_member validateEnvelopePayload "payload" source path] ++ concat [
      (if matchesCondition (get_member "type" source) ["worker.register"]
       then concat []
         ++ concat [forbidProperty source path "worker_id" "registration precedes worker identity assignment";
         forbidProperty source path "browser_session_id" "registration precedes worker identity assignment";
         forbidProperty source path "controller" "registration precedes worker identity assignment";
         forbidProperty source path "control_epoch" "registration precedes worker identity assignment";
         forbidProperty source path "sequence" "registration precedes worker identity assignment"]
       else []);
      (if matchesCondition (get_member "type" source) ["worker.register.ack"; "worker.heartbeat"; "worker.heartbeat.ack"; "worker.contexts.request";
          "worker.contexts"; "browser_session.allocate"; "browser_session.allocated"; "browser_session.status";
          "browser_session.terminate"; "browser.command"; "browser.command.result"]
       then concat [requireProperty source path "worker_id" "every message after registration is attributed to a worker identity"]
         ++ concat []
       else []);
      (if matchesCondition (get_member "type" source) ["browser_session.allocate"; "browser_session.allocated"; "browser_session.status"; "browser_session.terminate";
          "browser.command"; "browser.command.result"]
       then concat [requireProperty source path "browser_session_id" "session-scoped messages name their browser session"]
         ++ concat []
       else []);
      (if matchesCondition (get_member "type" source) ["browser.command"; "browser.command.result"]
       then concat [requireProperty source path "controller" "docs/ARCHITECTURE.md section 6.4 requires controller identity, control epoch and sequence on every browser command";
         requireProperty source path "control_epoch" "docs/ARCHITECTURE.md section 6.4 requires controller identity, control epoch and sequence on every browser command";
         requireProperty source path "sequence" "docs/ARCHITECTURE.md section 6.4 requires controller identity, control epoch and sequence on every browser command"]
         ++ concat []
       else []);
      (if matchesCondition (get_member "type" source) ["browser.command.result"]
       then concat [requireProperty source path "correlation_id" "a result names the command it answers"]
         ++ concat []
       else [])]
  end.
Definition validateViewportWidth : json → string → list SchemaViolation := checkInteger 240 3840.
Definition validateViewportHeight : json → string → list SchemaViolation := checkInteger 240 2160.
Definition validateViewportDeviceScaleFactor : json → string → list SchemaViolation := checkNumber 1 4.
Definition validateViewport (value : json) (path : string) : list SchemaViolation :=
  let '(found, source) := checkObject
    ["width"; "height"; "device_scale_factor"]
    ["width"; "height"; "device_scale_factor"] value path in
  match source with
  | None => found
  | Some source => found ++ concat [
      on_member validateViewportWidth "width" source path;
      on_member validateViewportHeight "height" source path;
      on_member validateViewportDeviceScaleFactor "device_scale_factor" source path]
  end.
Definition validateSessionLimitsMaxDurationSeconds : json → string → list SchemaViolation := checkInteger 60 28800.
Definition validateSessionLimitsDefaultTimeoutMs : json → string → list SchemaViolation := checkInteger 100 120000.
Definition validateSessionLimitsMaxCommandTimeoutMs : json → string → list SchemaViolation := checkInteger 100 120000.
Definition validateSessionLimitsScreenshotMaxBytes : json → string → list SchemaViolation := checkInteger 65536 20971520.
Definition validateSessionLimitsSnapshotMaxNodes : json → string → list SchemaViolation := checkInteger 1 500.
Definition validateSessionLimitsSnapshotMaxBytes : json → string → list SchemaViolation := checkInteger 1024 65536.
Definition validateSessionLimits (value : json) (path : string) : list SchemaViolation :=
  let '(found, source) := checkObject
    ["max_duration_seconds"; "default_timeout_ms"; "max_command_timeout_ms"; "screenshot_max_bytes";
      "snapshot_max_nodes"; "snapshot_max_bytes"]
    ["max_duration_seconds"; "default_timeout_ms"; "max_command_timeout_ms"; "screenshot_max_bytes";
      "snapshot_max_nodes"; "snapshot_max_bytes"] value path in
  match source with
  | None => found
  | Some source => found ++ concat [
      on_member validateSessionLimitsMaxDurationSeconds "max_duration_seconds" source path;
      on_member validateSessionLimitsDefaultTimeoutMs "default_timeout_ms" source path;
      on_member validateSessionLimitsMaxCommandTimeoutMs "max_command_timeout_ms" source path;
      on_member validateSessionLimitsScreenshotMaxBytes "screenshot_max_bytes" source path;
      on_member validateSessionLimitsSnapshotMaxNodes "snapshot_max_nodes" source path;
      on_member validateSessionLimitsSnapshotMaxBytes "snapshot_max_bytes" source path]
  end.
Definition validateWorkerRegistrationCapacity : json → string → list SchemaViolation := checkInteger 1 64.
Definition validateWorkerRegistrationLabels (value : json) (path : string) : list SchemaViolation :=
  let '(found, items) := checkArray 0 16 true value path in
  match items with None => found | Some items => on_items validateWorkerLabel items path end.
Definition validateWorkerRegistrationSandboxEnabled : json → string → list SchemaViolation := checkBoolean.
Definition validateWorkerRegistration (value : json) (path : string) : list SchemaViolation :=
  let '(found, source) := checkObject
    ["worker_name"; "worker_version"; "browser_type"; "browser_version"; "capacity"; "labels";
      "sandbox_enabled"; "started_at"]
    ["worker_name"; "worker_version"; "browser_type"; "browser_version"; "capacity"; "labels";
      "sandbox_enabled"; "started_at"] value path in
  match source with
  | None => found
  | Some source => found ++ concat [
      on_member validateWorkerLabel "worker_name" source path;
      on_member validateBuildVersion "worker_version" source path;
      on_member validateBrowserType "browser_type" source path;
      on_member validateBuildVersion "browser_version" source path;
      on_member validateWorkerRegistrationCapacity "capacity" source path;
      on_member validateWorkerRegistrationLabels "labels" source path;
      on_member validateWorkerRegistrationSandboxEnabled "sandbox_enabled" source path;
      on_member validateTimestamp "started_at" source path]
  end.
Definition validateWorkerRegistrationAckAccepted : json → string → list SchemaViolation := checkBoolean.
Definition validateWorkerRegistrationAckAssignedProjects (value : json) (path : string) : list SchemaViolation :=
  let '(found, items) := checkArray 0 256 true value path in
  match items with None => found | Some items => on_items validateIdentifier items path end.
Definition validateWorkerRegistrationAckHeartbeatIntervalSeconds : json → string → list SchemaViolation := checkInteger 5 300.
Definition validateCommandErrorRetryable : json → string → list SchemaViolation := checkBoolean.
Definition validateCommandErrorCurrentEpoch : json → string → list SchemaViolation := checkInteger 0 2147483647.
Definition validateCommandError (value : json) (path : string) : list SchemaViolation :=
  let '(found, source) := checkObject
    ["code"; "message"; "retryable"; "current_epoch"]
    ["code"; "message"; "retryable"] value path in
  match source with
  | None => found
  | Some source => found ++ concat [
      on_member validateErrorClass "code" source path;
      on_member validateReasonText "message" source path;
      on_member validateCommandErrorRetryable "retryable" source path;
      on_member validateCommandErrorCurrentEpoch "current_epoch" source path]
  end.
Definition validateWorkerRegistrationAck (value : json) (path : string) : list SchemaViolation :=
  let '(found, source) := checkObject
    ["accepted"; "assigned_projects"; "session_limits"; "heartbeat_interval_seconds"; "error"]
    ["accepted"; "assigned_projects"; "session_limits"; "heartbeat_interval_seconds"] value path in
  match source with
  | None => found
  | Some source => found ++ concat [
      on_member validateWorkerRegistrationAckAccepted "accepted" source path;
      on_member validateWorkerRegistrationAckAssignedProjects "assigned_projects" source path;
      on_member validateSessionLimits "session_limits" source path;
      on_member validateWorkerRegistrationAckHeartbeatIntervalSeconds "heartbeat_interval_seconds" source path;
      on_member validateCommandError "error" source path]
  end.
Definition validateWorkerHeartbeatActiveSessions : json → string → list SchemaViolation := checkInteger 0 64.
Definition validateWorkerHeartbeatCapacity : json → string → list SchemaViolation := checkInteger 1 64.
Definition validateWorkerHeartbeatResidentMemoryMb : json → string → list SchemaViolation := checkInteger 0 1048576.
Definition validateWorkerHeartbeat (value : json) (path : string) : list SchemaViolation :=
  let '(found, source) := checkObject
    ["active_sessions"; "capacity"; "resident_memory_mb"; "observed_at"]
    ["active_sessions"; "capacity"; "observed_at"] value path in
  match source with
  | None => found
  | Some source => found ++ concat [
      on_member validateWorkerHeartbeatActiveSessions "active_sessions" source path;
      on_member validateWorkerHeartbeatCapacity "capacity" source path;
      on_member validateWorkerHeartbeatResidentMemoryMb "resident_memory_mb" source path;
      on_member validateTimestamp "observed_at" source path]
  end.
Definition validateWorkerHeartbeatAckAssignedProjects (value : json) (path : string) : list SchemaViolation :=
  let '(found, items) := checkArray 0 256 true value path in
  match items with None => found | Some items => on_items validateIdentifier items path end.
Definition validateWorkerHeartbeatAckHeartbeatIntervalSeconds : json → string → list SchemaViolation := checkInteger 5 300.
Definition validateWorkerHeartbeatAck (value : json) (path : string) : list SchemaViolation :=
  let '(found, source) := checkObject
    ["assigned_projects"; "heartbeat_interval_seconds"; "observed_at"]
    ["assigned_projects"; "heartbeat_interval_seconds"; "observed_at"] value path in
  match source with
  | None => found
  | Some source => found ++ concat [
      on_member validateWorkerHeartbeatAckAssignedProjects "assigned_projects" source path;
      on_member validateWorkerHeartbeatAckHeartbeatIntervalSeconds "heartbeat_interval_seconds" source path;
      on_member validateTimestamp "observed_at" source path]
  end.
Definition validateWorkerContextsRequest (value : json) (path : string) : list SchemaViolation :=
  let '(found, source) := checkObject
    ["requested_at"]
    ["requested_at"] value path in
  match source with
  | None => found
  | Some source => found ++ concat [
      on_member validateTimestamp "requested_at" source path]
  end.
Definition validateWorkerContextControlEpoch : json → string → list SchemaViolation := checkInteger 0 2147483647.
Definition validateWorkerContext (value : json) (path : string) : list SchemaViolation :=
  let '(found, source) := checkObject
    ["browser_session_id"; "project_id"; "status"; "control_epoch"]
    ["browser_session_id"; "project_id"; "status"; "control_epoch"] value path in
  match source with
  | None => found
  | Some source => found ++ concat [
      on_member validateIdentifier "browser_session_id" source path;
      on_member validateIdentifier "project_id" source path;
      on_member validateSessionStatus "status" source path;
      on_member validateWorkerContextControlEpoch "control_epoch" source path]
  end.
Definition validateWorkerContextsContexts (value : json) (path : string) : list SchemaViolation :=
  let '(found, items) := checkArray 0 64 false value path in
  match items with None => found | Some items => on_items validateWorkerContext items path end.
Definition validateWorkerContexts (value : json) (path : string) : list SchemaViolation :=
  let '(found, source) := checkObject
    ["contexts"; "observed_at"]
    ["contexts"; "observed_at"] value path in
  match source with
  | None => found
  | Some source => found ++ concat [
      on_member validateWorkerContextsContexts "contexts" source path;
      on_member validateTimestamp "observed_at" source path]
  end.
Definition validateSessionAllocateControlEpoch : json → string → list SchemaViolation := checkInteger 0 2147483647.
Definition validateSessionAllocate (value : json) (path : string) : list SchemaViolation :=
  let '(found, source) := checkObject
    ["organisation_id"; "project_id"; "agent_session_id"; "published_service_id"; "service_origin";
      "service_capability"; "viewport"; "control_epoch"; "controller"; "limits"; "retention_class"]
    ["organisation_id"; "project_id"; "viewport"; "control_epoch"; "controller"; "limits"; "retention_class"] value path in
  match source with
  | None => found
  | Some source => found ++ concat [
      on_member validateIdentifier "organisation_id" source path;
      on_member validateIdentifier "project_id" source path;
      on_member validateIdentifier "agent_session_id" source path;
      on_member validateIdentifier "published_service_id" source path;
      on_member validateOrigin "service_origin" source path;
      on_member validateSessionCapability "service_capability" source path;
      on_member validateViewport "viewport" source path;
      on_member validateSessionAllocateControlEpoch "control_epoch" source path;
      on_member validateControllerIdentity "controller" source path;
      on_member validateSessionLimits "limits" source path;
      on_member validateRetentionClass "retention_class" source path]
  end.
Definition validateSessionAllocated (value : json) (path : string) : list SchemaViolation :=
  let '(found, source) := checkObject
    ["status"; "browser_type"; "browser_version"; "viewport"; "allocated_at"; "error"]
    ["status"; "browser_type"; "browser_version"; "viewport"; "allocated_at"] value path in
  match source with
  | None => found
  | Some source => found ++ concat [
      on_member validateSessionStatus "status" source path;
      on_member validateBrowserType "browser_type" source path;
      on_member validateBuildVersion "browser_version" source path;
      on_member validateViewport "viewport" source path;
      on_member validateTimestamp "allocated_at" source path;
      on_member validateCommandError "error" source path]
  end.
Definition validateSessionStatusReportControlEpoch : json → string → list SchemaViolation := checkInteger 0 2147483647.
Definition validateSessionStatusReport (value : json) (path : string) : list SchemaViolation :=
  let '(found, source) := checkObject
    ["status"; "previous_status"; "reason"; "control_epoch"; "current_controller"; "occurred_at"]
    ["status"; "occurred_at"] value path in
  match source with
  | None => found
  | Some source => found ++ concat [
      on_member validateSessionStatus "status" source path;
      on_member validateSessionStatus "previous_status" source path;
      on_member validateReasonText "reason" source path;
      on_member validateSessionStatusReportControlEpoch "control_epoch" source path;
      on_member validateControllerIdentity "current_controller" source path;
      on_member validateTimestamp "occurred_at" source path]
  end.
Definition validateSessionTerminate (value : json) (path : string) : list SchemaViolation :=
  let '(found, source) := checkObject
    ["reason"; "detail"]
    ["reason"] value path in
  match source with
  | None => found
  | Some source => found ++ concat [
      on_member validateTerminationReason "reason" source path;
      on_member validateReasonText "detail" source path]
  end.
Definition validateNavigateParams (value : json) (path : string) : list SchemaViolation :=
  let '(found, source) := checkObject
    ["url"; "wait_until"]
    ["url"; "wait_until"] value path in
  match source with
  | None => found
  | Some source => found ++ concat [
      on_member validateNavigationTarget "url" source path;
      on_member validateWaitUntil "wait_until" source path]
  end.
Definition validateClickParams (value : json) (path : string) : list SchemaViolation :=
  let '(found, source) := checkObject
    ["snapshot_id"; "ref"]
    ["snapshot_id"; "ref"] value path in
  match source with
  | None => found
  | Some source => found ++ concat [
      on_member validateIdentifier "snapshot_id" source path;
      on_member validateElementReference "ref" source path]
  end.
Definition validateTypeTextParamsSubmit : json → string → list SchemaViolation := checkBoolean.
Definition validateTypeTextParams (value : json) (path : string) : list SchemaViolation :=
  let '(found, source) := checkObject
    ["snapshot_id"; "ref"; "text"; "submit"]
    ["snapshot_id"; "ref"; "text"] value path in
  match source with
  | None => found
  | Some source => found ++ concat [
      on_member validateIdentifier "snapshot_id" source path;
      on_member validateElementReference "ref" source path;
      on_member validateInputText "text" source path;
      on_member validateTypeTextParamsSubmit "submit" source path]
  end.
Definition validateSelectOptionParamsValues (value : json) (path : string) : list SchemaViolation :=
  let '(found, items) := checkArray 1 32 false value path in
  match items with None => found | Some items => on_items validateOptionValue items path end.
Definition validateSelectOptionParams (value : json) (path : string) : list SchemaViolation :=
  let '(found, source) := checkObject
    ["snapshot_id"; "ref"; "values"]
    ["snapshot_id"; "ref"; "values"] value path in
  match source with
  | None => found
  | Some source => found ++ concat [
      on_member validateIdentifier "snapshot_id" source path;
      on_member validateElementReference "ref" source path;
      on_member validateSelectOptionParamsValues "values" source path]
  end.
Definition validatePressKeyParams (value : json) (path : string) : list SchemaViolation :=
  let '(found, source) := checkObject
    ["key"; "snapshot_id"; "ref"]
    ["key"] value path in
  match source with
  | None => found
  | Some source => found ++ concat [
      on_member validateKeyName "key" source path;
      on_member validateIdentifier "snapshot_id" source path;
      on_member validateElementReference "ref" source path]
  end.
Definition validateScrollParamsAmountPx : json → string → list SchemaViolation := checkInteger 1 100000.
Definition validateScrollParams (value : json) (path : string) : list SchemaViolation :=
  let '(found, source) := checkObject
    ["direction"; "amount_px"; "snapshot_id"; "ref"]
    ["direction"; "amount_px"] value path in
  match source with
  | None => found
  | Some source => found ++ concat [
      on_member validateScrollDirection "direction" source path;
      on_member validateScrollParamsAmountPx "amount_px" source path;
      on_member validateIdentifier "snapshot_id" source path;
      on_member validateElementReference "ref" source path]
  end.
Definition validateResizeParams (value : json) (path : string) : list SchemaViolation :=
  let '(found, source) := checkObject
    ["viewport"]
    ["viewport"] value path in
  match source with
  | None => found
  | Some source => found ++ concat [
      on_member validateViewport "viewport" source path]
  end.
Definition validateWaitParams (value : json) (path : string) : list SchemaViolation :=
  let '(found, source) := checkObject
    ["condition"; "url_pattern"; "selector"; "text"]
    ["condition"] value path in
  match source with
  | None => found
  | Some source => found ++ concat [
      on_member validateWaitCondition "condition" source path;
      on_member validateUrlPattern "url_pattern" source path;
      on_member validateSelector "selector" source path;
      on_member validatePageText "text" source path] ++ concat [
      (if matchesCondition (get_member "condition" source) ["url_matches"]
       then concat [requireProperty source path "url_pattern" "a url_matches condition is defined by its pattern alone"]
         ++ concat [forbidProperty source path "selector" "a url_matches condition is defined by its pattern alone";
         forbidProperty source path "text" "a url_matches condition is defined by its pattern alone"]
       else []);
      (if matchesCondition (get_member "condition" source) ["selector_visible"; "selector_hidden"]
       then concat [requireProperty source path "selector" "a selector condition is defined by its selector alone"]
         ++ concat [forbidProperty source path "url_pattern" "a selector condition is defined by its selector alone";
         forbidProperty source path "text" "a selector condition is defined by its selector alone"]
       else []);
      (if matchesCondition (get_member "condition" source) ["text_visible"]
       then concat [requireProperty source path "text" "a text condition is defined by its text alone"]
         ++ concat [forbidProperty source path "url_pattern" "a text condition is defined by its text alone";
         forbidProperty source path "selector" "a text condition is defined by its text alone"]
       else []);
      (if matchesCondition (get_member "condition" source) ["network_idle"]
       then concat []
         ++ concat [forbidProperty source path "url_pattern" "network idleness has no target";
         forbidProperty source path "selector" "network idleness has no target";
         forbidProperty source path "text" "network idleness has no target"]
       else [])]
  end.
Definition validateSnapshotParamsMaxNodes : json → string → list SchemaViolation := checkInteger 1 500.
Definition validateSnapshotParamsMaxBytes : json → string → list SchemaViolation := checkInteger 1024 65536.
Definition validateSnapshotParams (value : json) (path : string) : list SchemaViolation :=
  let '(found, source) := checkObject
    ["max_nodes"; "max_bytes"]
    [] value path in
  match source with
  | None => found
  | Some source => found ++ concat [
      on_member validateSnapshotParamsMaxNodes "max_nodes" source path;
      on_member validateSnapshotParamsMaxBytes "max_bytes" source path]
  end.
Definition validateScreenshotParamsFullPage : json → string → list SchemaViolation := checkBoolean.
Definition validateScreenshotParamsPersist : json → string → list SchemaViolation := checkBoolean.
Definition validateScreenshotParams (value : json) (path : string) : list SchemaViolation :=
  let '(found, source) := checkObject
    ["full_page"; "persist"; "purpose"]
    ["full_page"; "persist"; "purpose"] value path in
  match source with
  | None => found
  | Some source => found ++ concat [
      on_member validateScreenshotParamsFullPage "full_page" source path;
      on_member validateScreenshotParamsPersist "persist" source path;
      on_member validateScreenshotPurpose "purpose" source path]
  end.
Definition validateBrowserCommandTimeoutMs : json → string → list SchemaViolation := checkInteger 100 120000.
Definition validateBrowserCommand (value : json) (path : string) : list SchemaViolation :=
  let '(found, source) := checkObject
    ["command"; "timeout_ms"; "navigate"; "click"; "type_text"; "select_option"; "press_key";
      "scroll"; "resize"; "wait"; "snapshot"; "take_screenshot"]
    ["command"; "timeout_ms"] value path in
  match source with
  | None => found
  | Some source => found ++ concat [
      on_member validateCommandName "command" source path;
      on_member validateBrowserCommandTimeoutMs "timeout_ms" source path;
      on_member validateNavigateParams "navigate" source path;
      on_member validateClickParams "click" source path;
      on_member validateTypeTextParams "type_text" source path;
      on_member validateSelectOptionParams "select_option" source path;
      on_member validatePressKeyParams "press_key" source path;
      on_member validateScrollParams "scroll" source path;
      on_member validateResizeParams "resize" source path;
      on_member validateWaitParams "wait" source path;
      on_member validateSnapshotParams "snapshot" source path;
      on_member validateScreenshotParams "take_screenshot" source path] ++ concat [
      (if matchesCondition (get_member "command" source) ["navigate"]
       then concat [requireProperty source path "navigate" "a command carries only its own parameters"]
         ++ concat [forbidProperty source path "click" "a command carries only its own parameters";
         forbidProperty source path "type_text" "a command carries only its own parameters";
         forbidProperty source path "select_option" "a command carries only its own parameters";
         forbidProperty source path "press_key" "a command carries only its own parameters";
         forbidProperty source path "scroll" "a command carries only its own parameters";
         forbidProperty source path "resize" "a command carries only its own parameters";
         forbidProperty source path "wait" "a command carries only its own parameters";
         forbidProperty source path "snapshot" "a command carries only its own parameters";
         forbidProperty source path "take_screenshot" "a command carries only its own parameters"]
       else []);
      (if matchesCondition (get_member "command" source) ["click"]
       then concat [requireProperty source path "click" "a command carries only its own parameters"]
         ++ concat [forbidProperty source path "navigate" "a command carries only its own parameters";
         forbidProperty source path "type_text" "a command carries only its own parameters";
         forbidProperty source path "select_option" "a command carries only its own parameters";
         forbidProperty source path "press_key" "a command carries only its own parameters";
         forbidProperty source path "scroll" "a command carries only its own parameters";
         forbidProperty source path "resize" "a command carries only its own parameters";
         forbidProperty source path "wait" "a command carries only its own parameters";
         forbidProperty source path "snapshot" "a command carries only its own parameters";
         forbidProperty source path "take_screenshot" "a command carries only its own parameters"]
       else []);
      (if matchesCondition (get_member "command" source) ["type_text"]
       then concat [requireProperty source path "type_text" "a command carries only its own parameters"]
         ++ concat [forbidProperty source path "navigate" "a command carries only its own parameters";
         forbidProperty source path "click" "a command carries only its own parameters";
         forbidProperty source path "select_option" "a command carries only its own parameters";
         forbidProperty source path "press_key" "a command carries only its own parameters";
         forbidProperty source path "scroll" "a command carries only its own parameters";
         forbidProperty source path "resize" "a command carries only its own parameters";
         forbidProperty source path "wait" "a command carries only its own parameters";
         forbidProperty source path "snapshot" "a command carries only its own parameters";
         forbidProperty source path "take_screenshot" "a command carries only its own parameters"]
       else []);
      (if matchesCondition (get_member "command" source) ["select_option"]
       then concat [requireProperty source path "select_option" "a command carries only its own parameters"]
         ++ concat [forbidProperty source path "navigate" "a command carries only its own parameters";
         forbidProperty source path "click" "a command carries only its own parameters";
         forbidProperty source path "type_text" "a command carries only its own parameters";
         forbidProperty source path "press_key" "a command carries only its own parameters";
         forbidProperty source path "scroll" "a command carries only its own parameters";
         forbidProperty source path "resize" "a command carries only its own parameters";
         forbidProperty source path "wait" "a command carries only its own parameters";
         forbidProperty source path "snapshot" "a command carries only its own parameters";
         forbidProperty source path "take_screenshot" "a command carries only its own parameters"]
       else []);
      (if matchesCondition (get_member "command" source) ["press_key"]
       then concat [requireProperty source path "press_key" "a command carries only its own parameters"]
         ++ concat [forbidProperty source path "navigate" "a command carries only its own parameters";
         forbidProperty source path "click" "a command carries only its own parameters";
         forbidProperty source path "type_text" "a command carries only its own parameters";
         forbidProperty source path "select_option" "a command carries only its own parameters";
         forbidProperty source path "scroll" "a command carries only its own parameters";
         forbidProperty source path "resize" "a command carries only its own parameters";
         forbidProperty source path "wait" "a command carries only its own parameters";
         forbidProperty source path "snapshot" "a command carries only its own parameters";
         forbidProperty source path "take_screenshot" "a command carries only its own parameters"]
       else []);
      (if matchesCondition (get_member "command" source) ["scroll"]
       then concat [requireProperty source path "scroll" "a command carries only its own parameters"]
         ++ concat [forbidProperty source path "navigate" "a command carries only its own parameters";
         forbidProperty source path "click" "a command carries only its own parameters";
         forbidProperty source path "type_text" "a command carries only its own parameters";
         forbidProperty source path "select_option" "a command carries only its own parameters";
         forbidProperty source path "press_key" "a command carries only its own parameters";
         forbidProperty source path "resize" "a command carries only its own parameters";
         forbidProperty source path "wait" "a command carries only its own parameters";
         forbidProperty source path "snapshot" "a command carries only its own parameters";
         forbidProperty source path "take_screenshot" "a command carries only its own parameters"]
       else []);
      (if matchesCondition (get_member "command" source) ["resize"]
       then concat [requireProperty source path "resize" "a command carries only its own parameters"]
         ++ concat [forbidProperty source path "navigate" "a command carries only its own parameters";
         forbidProperty source path "click" "a command carries only its own parameters";
         forbidProperty source path "type_text" "a command carries only its own parameters";
         forbidProperty source path "select_option" "a command carries only its own parameters";
         forbidProperty source path "press_key" "a command carries only its own parameters";
         forbidProperty source path "scroll" "a command carries only its own parameters";
         forbidProperty source path "wait" "a command carries only its own parameters";
         forbidProperty source path "snapshot" "a command carries only its own parameters";
         forbidProperty source path "take_screenshot" "a command carries only its own parameters"]
       else []);
      (if matchesCondition (get_member "command" source) ["wait"]
       then concat [requireProperty source path "wait" "a command carries only its own parameters"]
         ++ concat [forbidProperty source path "navigate" "a command carries only its own parameters";
         forbidProperty source path "click" "a command carries only its own parameters";
         forbidProperty source path "type_text" "a command carries only its own parameters";
         forbidProperty source path "select_option" "a command carries only its own parameters";
         forbidProperty source path "press_key" "a command carries only its own parameters";
         forbidProperty source path "scroll" "a command carries only its own parameters";
         forbidProperty source path "resize" "a command carries only its own parameters";
         forbidProperty source path "snapshot" "a command carries only its own parameters";
         forbidProperty source path "take_screenshot" "a command carries only its own parameters"]
       else []);
      (if matchesCondition (get_member "command" source) ["snapshot"]
       then concat []
         ++ concat [forbidProperty source path "navigate" "a command carries only its own parameters";
         forbidProperty source path "click" "a command carries only its own parameters";
         forbidProperty source path "type_text" "a command carries only its own parameters";
         forbidProperty source path "select_option" "a command carries only its own parameters";
         forbidProperty source path "press_key" "a command carries only its own parameters";
         forbidProperty source path "scroll" "a command carries only its own parameters";
         forbidProperty source path "resize" "a command carries only its own parameters";
         forbidProperty source path "wait" "a command carries only its own parameters";
         forbidProperty source path "take_screenshot" "a command carries only its own parameters"]
       else []);
      (if matchesCondition (get_member "command" source) ["take_screenshot"]
       then concat [requireProperty source path "take_screenshot" "a command carries only its own parameters"]
         ++ concat [forbidProperty source path "navigate" "a command carries only its own parameters";
         forbidProperty source path "click" "a command carries only its own parameters";
         forbidProperty source path "type_text" "a command carries only its own parameters";
         forbidProperty source path "select_option" "a command carries only its own parameters";
         forbidProperty source path "press_key" "a command carries only its own parameters";
         forbidProperty source path "scroll" "a command carries only its own parameters";
         forbidProperty source path "resize" "a command carries only its own parameters";
         forbidProperty source path "wait" "a command carries only its own parameters";
         forbidProperty source path "snapshot" "a command carries only its own parameters"]
       else [])]
  end.
Definition validateNavigationResultHttpStatus : json → string → list SchemaViolation := checkInteger 100 599.
Definition validateNavigationResultRedirected : json → string → list SchemaViolation := checkBoolean.
Definition validateNavigationResult (value : json) (path : string) : list SchemaViolation :=
  let '(found, source) := checkObject
    ["url"; "http_status"; "redirected"; "title"]
    ["url"; "redirected"; "title"] value path in
  match source with
  | None => found
  | Some source => found ++ concat [
      on_member validateResolvedUrl "url" source path;
      on_member validateNavigationResultHttpStatus "http_status" source path;
      on_member validateNavigationResultRedirected "redirected" source path;
      on_member validatePageText "title" source path]
  end.
Definition validateScrollOffset (value : json) (path : string) : list SchemaViolation :=
  let '(found, source) := checkObject
    ["x"; "y"]
    ["x"; "y"] value path in
  match source with
  | None => found
  | Some source => found ++ concat [
      on_member validateElementCssPixelOffset "x" source path;
      on_member validateElementCssPixelOffset "y" source path]
  end.
Definition validateElementBox (value : json) (path : string) : list SchemaViolation :=
  let '(found, source) := checkObject
    ["x"; "y"; "width"; "height"]
    ["x"; "y"; "width"; "height"] value path in
  match source with
  | None => found
  | Some source => found ++ concat [
      on_member validateElementCssPixelOffset "x" source path;
      on_member validateElementCssPixelOffset "y" source path;
      on_member validateElementCssPixelOffset "width" source path;
      on_member validateElementCssPixelOffset "height" source path]
  end.
Definition validateElementDescriptorSelectorStrategy : json → string → list SchemaViolation
     := checkString (of_values ["testid"; "role"; "text"; "css"; "xpath"]).
Definition validateElementDescriptor (value : json) (path : string) : list SchemaViolation :=
  let '(found, source) := checkObject
    ["ref"; "role"; "name"; "box"; "selector"; "selector_strategy"; "text_excerpt"; "dom_fingerprint"]
    ["ref"; "role"] value path in
  match source with
  | None => found
  | Some source => found ++ concat [
      on_member validateElementReference "ref" source path;
      on_member validateAccessibleRole "role" source path;
      on_member validatePageText "name" source path;
      on_member validateElementBox "box" source path;
      on_member validateElementSelector "selector" source path;
      on_member validateElementDescriptorSelectorStrategy "selector_strategy" source path;
      on_member validatePageText "text_excerpt" source path;
      on_member validateSha256Hex "dom_fingerprint" source path]
  end.
Definition validateSnapshotResultNodeCount : json → string → list SchemaViolation := checkInteger 0 500.
Definition validateSnapshotResultTruncated : json → string → list SchemaViolation := checkBoolean.
Definition validateSnapshotResultElements (value : json) (path : string) : list SchemaViolation :=
  let '(found, items) := checkArray 0 500 false value path in
  match items with None => found | Some items => on_items validateElementDescriptor items path end.
Definition validateSnapshotResult (value : json) (path : string) : list SchemaViolation :=
  let '(found, source) := checkObject
    ["snapshot_id"; "viewport"; "scroll_position"; "node_count"; "truncated"; "text"; "elements"]
    ["snapshot_id"; "viewport"; "scroll_position"; "node_count"; "truncated"; "text"; "elements"] value path in
  match source with
  | None => found
  | Some source => found ++ concat [
      on_member validateIdentifier "snapshot_id" source path;
      on_member validateViewport "viewport" source path;
      on_member validateScrollOffset "scroll_position" source path;
      on_member validateSnapshotResultNodeCount "node_count" source path;
      on_member validateSnapshotResultTruncated "truncated" source path;
      on_member validateSnapshotText "text" source path;
      on_member validateSnapshotResultElements "elements" source path]
  end.
Definition validateScreenshotResultSizeBytes : json → string → list SchemaViolation := checkInteger 1 20971520.
Definition validateScreenshotResultFullPage : json → string → list SchemaViolation := checkBoolean.
Definition validateScreenshotResult (value : json) (path : string) : list SchemaViolation :=
  let '(found, source) := checkObject
    ["artefact_id"; "sha256"; "size_bytes"; "content_type"; "viewport"; "scroll_position"; "full_page";
      "captured_at"]
    ["artefact_id"; "sha256"; "size_bytes"; "content_type"; "viewport"; "scroll_position"; "full_page";
      "captured_at"] value path in
  match source with
  | None => found
  | Some source => found ++ concat [
      on_member validateIdentifier "artefact_id" source path;
      on_member validateSha256Hex "sha256" source path;
      on_member validateScreenshotResultSizeBytes "size_bytes" source path;
      on_member validateImageContentType "content_type" source path;
      on_member validateViewport "viewport" source path;
      on_member validateScrollOffset "scroll_position" source path;
      on_member validateScreenshotResultFullPage "full_page" source path;
      on_member validateTimestamp "captured_at" source path]
  end.
Definition validateBrowserCommandResultOk : json → string → list SchemaViolation := checkBoolean.
Definition validateBrowserCommandResultSequence : json → string → list SchemaViolation := checkInteger 0 4294967295.
Definition validateBrowserCommandResultControlEpoch : json → string → list SchemaViolation := checkInteger 0 2147483647.
Definition validateBrowserCommandResultDurationMs : json → string → list SchemaViolation := checkInteger 0 600000.
Definition validateBrowserCommandResult (value : json) (path : string) : list SchemaViolation :=
  let '(found, source) := checkObject
    ["ok"; "command"; "sequence"; "control_epoch"; "duration_ms"; "trust"; "instruction_policy";
      "error"; "navigation"; "snapshot"; "screenshot"; "viewport"]
    ["ok"; "command"; "sequence"; "control_epoch"; "duration_ms"; "trust"; "instruction_policy"] value path in
  match source with
  | None => found
  | Some source => found ++ concat [
      on_member validateBrowserCommandResultOk "ok" source path;
      on_member validateCommandName "command" source path;
      on_member validateBrowserCommandResultSequence "sequence" source path;
      on_member validateBrowserCommandResultControlEpoch "control_epoch" source path;
      on_member validateBrowserCommandResultDurationMs "duration_ms" source path;
      on_member validateTrustLabel "trust" source path;
      on_member validateInstructionPolicy "instruction_policy" source path;
      on_member validateCommandError "error" source path;
      on_member validateNavigationResult "navigation" source path;
      on_member validateSnapshotResult "snapshot" source path;
      on_member validateScreenshotResult "screenshot" source path;
      on_member validateViewport "viewport" source path] ++ concat [
      (if matchesCondition (get_member "trust" source) ["trusted_control_plane"]
       then concat []
         ++ concat [forbidProperty source path "navigation" "page-derived content must be labelled untrusted_browser_content (ADR-0010, docs/SECURITY.md section 11)";
         forbidProperty source path "snapshot" "page-derived content must be labelled untrusted_browser_content (ADR-0010, docs/SECURITY.md section 11)";
         forbidProperty source path "screenshot" "page-derived content must be labelled untrusted_browser_content (ADR-0010, docs/SECURITY.md section 11)"]
       else [])]
  end.

(** The definitions of the schema, with the functions generated for them. *)
Definition browser_validators : list (Schema * (json → string → list SchemaViolation)) :=
  [(schema_identifier, validateIdentifier);
   (schema_timestamp, validateTimestamp);
   (schema_build_version, validateBuildVersion);
   (schema_worker_label, validateWorkerLabel);
   (schema_origin, validateOrigin);
   (schema_session_capability, validateSessionCapability);
   (schema_navigation_target, validateNavigationTarget);
   (schema_resolved_url, validateResolvedUrl);
   (schema_page_text, validatePageText);
   (schema_snapshot_text, validateSnapshotText);
   (schema_element_reference, validateElementReference);
   (schema_accessible_role, validateAccessibleRole);
   (schema_element_selector, validateElementSelector);
   (schema_input_text, validateInputText);
   (schema_option_value, validateOptionValue);
   (schema_selector, validateSelector);
   (schema_url_pattern, validateUrlPattern);
   (schema_reason_text, validateReasonText);
   (schema_sha256_hex, validateSha256Hex);
   (schema_message_type, validateMessageType);
   (schema_error_class, validateErrorClass);
   (schema_controller_type, validateControllerType);
   (schema_session_status, validateSessionStatus);
   (schema_termination_reason, validateTerminationReason);
   (schema_browser_type, validateBrowserType);
   (schema_retention_class, validateRetentionClass);
   (schema_command_name, validateCommandName);
   (schema_key_name, validateKeyName);
   (schema_scroll_direction, validateScrollDirection);
   (schema_wait_until, validateWaitUntil);
   (schema_wait_condition, validateWaitCondition);
   (schema_screenshot_purpose, validateScreenshotPurpose);
   (schema_image_content_type, validateImageContentType);
   (schema_trust_label, validateTrustLabel);
   (schema_instruction_policy, validateInstructionPolicy);
   (schema_controller_identity, validateControllerIdentity);
   (schema_envelope, validateEnvelope);
   (schema_viewport, validateViewport);
   (schema_session_limits, validateSessionLimits);
   (schema_worker_registration, validateWorkerRegistration);
   (schema_command_error, validateCommandError);
   (schema_worker_registration_ack, validateWorkerRegistrationAck);
   (schema_worker_heartbeat, validateWorkerHeartbeat);
   (schema_worker_heartbeat_ack, validateWorkerHeartbeatAck);
   (schema_worker_contexts_request, validateWorkerContextsRequest);
   (schema_worker_context, validateWorkerContext);
   (schema_worker_contexts, validateWorkerContexts);
   (schema_session_allocate, validateSessionAllocate);
   (schema_session_allocated, validateSessionAllocated);
   (schema_session_status_report, validateSessionStatusReport);
   (schema_session_terminate, validateSessionTerminate);
   (schema_navigate_params, validateNavigateParams);
   (schema_click_params, validateClickParams);
   (schema_type_text_params, validateTypeTextParams);
   (schema_select_option_params, validateSelectOptionParams);
   (schema_press_key_params, validatePressKeyParams);
   (schema_scroll_params, validateScrollParams);
   (schema_resize_params, validateResizeParams);
   (schema_wait_params, validateWaitParams);
   (schema_snapshot_params, validateSnapshotParams);
   (schema_screenshot_params, validateScreenshotParams);
   (schema_browser_command, validateBrowserCommand);
   (schema_navigation_result, validateNavigationResult);
   (schema_element_css_pixel_offset, validateElementCssPixelOffset);
   (schema_scroll_offset, validateScrollOffset);
   (schema_element_box, validateElementBox);
   (schema_element_descriptor, validateElementDescriptor);
   (schema_snapshot_result, validateSnapshotResult);
   (schema_screenshot_result, validateScreenshotResult);
   (schema_browser_command_result, validateBrowserCommandResult)].

Lemma browser_generated :
  Forall (λ e, ∀ value path, e.2 value path = violations e.1 value path) browser_validators.
Proof. repeat (apply Forall_cons_2; [intros value path; reflexivity|]). apply Forall_nil_2. Qed.
