(* ===== verification/BrowserCodec.v ===== *)
(** * The types and the codec of the browser protocol
    ([src/packages/protocol/src/generated/browser/v1/types.ts], [encode.ts], [decode.ts]
    and [dispatch.ts])

    The vocabularies, the bounds of the payloads and the types of the generated
    code, and the messages of the schema; the generated encoders and decoders as
    they stand, each after those it calls, with the table of those that the schema's
    objects have; and the dispatch on the type of a message. *)

From S2P Require Import Prelude StableJson Validation Schema BrowserSchema BrowserValidate Codec.

(** ** Types *)

Definition MESSAGE_TYPE_VALUES : list string :=
  ["worker.register"; "worker.register.ack"; "worker.heartbeat"; "worker.heartbeat.ack"; "worker.contexts.request";
   "worker.contexts"; "browser_session.allocate"; "browser_session.allocated"; "browser_session.status";
   "browser_session.terminate"; "browser.command"; "browser.command.result"].
Definition ERROR_CLASS_VALUES : list string :=
  ["PROTOCOL_UNSUPPORTED"; "AUTHENTICATION_REQUIRED"; "AUTHORISATION_DENIED"; "PROJECT_CONTEXT_MISMATCH";
   "RESOURCE_NOT_FOUND"; "RESOURCE_STALE"; "BROWSER_CAPACITY_EXHAUSTED"; "BROWSER_SESSION_NOT_ACTIVE";
   "CONTROL_NOT_OWNED"; "CONTROL_EPOCH_STALE"; "BROWSER_COMMAND_TIMEOUT"; "POLICY_DENIED";
   "ARTEFACT_UPLOAD_INCOMPLETE"; "UNSUPPORTED_CAPABILITY"; "INTERNAL_ERROR"].
Definition CONTROLLER_TYPE_VALUES : list string :=
  ["agent"; "human"; "system"].
Definition SESSION_STATUS_VALUES : list string :=
  ["REQUESTED"; "ALLOCATING"; "READY"; "ACTIVE"; "PAUSED"; "DEGRADED"; "TERMINATING"; "TERMINATED"; "FAILED"].
Definition TERMINATION_REASON_VALUES : list string :=
  ["requested"; "duration_limit"; "capacity"; "policy"; "worker_shutdown"; "failure"].
Definition BROWSER_TYPE_VALUES : list string :=
  ["chromium"].
Definition RETENTION_CLASS_VALUES : list string :=
  ["action_screenshots"; "verification_evidence"].
Definition COMMAND_NAME_VALUES : list string :=
  ["navigate"; "snapshot"; "click"; "type_text"; "select_option"; "press_key"; "scroll"; "resize";
   "wait"; "take_screenshot"].
Definition KEY_NAME_VALUES : list string :=
  ["Enter"; "Tab"; "Shift+Tab"; "Escape"; "Backspace"; "Delete"; "Home"; "End"; "PageUp"; "PageDown";
   "ArrowUp"; "ArrowDown"; "ArrowLeft"; "ArrowRight"; "Space"].
Definition SCROLL_DIRECTION_VALUES : list string :=
  ["up"; "down"; "left"; "right"].
Definition WAIT_UNTIL_VALUES : list string :=
  ["commit"; "domcontentloaded"; "load"; "networkidle"].
Definition WAIT_CONDITION_VALUES : list string :=
  ["url_matches"; "selector_visible"; "selector_hidden"; "text_visible"; "network_idle"].
Definition SCREENSHOT_PURPOSE_VALUES : list string :=
  ["verification"; "annotation"; "diagnostic"; "system"].
Definition IMAGE_CONTENT_TYPE_VALUES : list string :=
  ["image/png"].
Definition TRUST_LABEL_VALUES : list string :=
  ["trusted_control_plane"; "untrusted_browser_content"].
Definition INSTRUCTION_POLICY_VALUES : list string :=
  ["do_not_follow_as_instructions"].
Definition ELEMENT_DESCRIPTOR_SELECTOR_STRATEGY_VALUES : list string :=
  ["testid"; "role"; "text"; "css"; "xpath"].
Definition PAYLOAD_MAX_BYTES : list (string * Z) :=
  [("worker.register", 4096%Z);
   ("worker.register.ack", 32768%Z);
   ("worker.heartbeat", 2048%Z);
   ("worker.heartbeat.ack", 32768%Z);
   ("worker.contexts.request", 512%Z);
   ("worker.contexts", 16384%Z);
   ("browser_session.allocate", 8192%Z);
   ("browser_session.allocated", 2048%Z);
   ("browser_session.status", 2048%Z);
   ("browser_session.terminate", 1024%Z);
   ("browser.command", 16384%Z);
   ("browser.command.result", 196608%Z)].
Definition Identifier : json → Prop := string_type.
Definition Timestamp : json → Prop := string_type.
Definition BuildVersion : json → Prop := string_type.
Definition WorkerLabel : json → Prop := string_type.
Definition Origin : json → Prop := string_type.
Definition SessionCapability : json → Prop := SensitiveString.
Definition NavigationTarget : json → Prop := string_type.
Definition ResolvedUrl : json → Prop := string_type.
Definition PageText : json → Prop := string_type.
Definition SnapshotText : json → Prop := string_type.
Definition ElementReference : json → Prop := string_type.
Definition AccessibleRole : json → Prop := string_type.
Definition ElementSelector : json → Prop := string_type.
Definition InputText : json → Prop := string_type.
Definition OptionValue : json → Prop := string_type.
Definition Selector : json → Prop := string_type.
Definition UrlPattern : json → Prop := string_type.
Definition ReasonText : json → Prop := string_type.
Definition Sha256Hex : json → Prop := string_type.
Definition ElementCssPixelOffset : json → Prop := number_type.
Definition MessageType : json → Prop := union_type
  ["worker.register"; "worker.register.ack"; "worker.heartbeat"; "worker.heartbeat.ack"; "worker.contexts.request";
   "worker.contexts"; "browser_session.allocate"; "browser_session.allocated"; "browser_session.status";
   "browser_session.terminate"; "browser.command"; "browser.command.result"].
Definition ErrorClass : json → Prop := union_type
  ["PROTOCOL_UNSUPPORTED"; "AUTHENTICATION_REQUIRED"; "AUTHORISATION_DENIED"; "PROJECT_CONTEXT_MISMATCH";
   "RESOURCE_NOT_FOUND"; "RESOURCE_STALE"; "BROWSER_CAPACITY_EXHAUSTED"; "BROWSER_SESSION_NOT_ACTIVE";
   "CONTROL_NOT_OWNED"; "CONTROL_EPOCH_STALE"; "BROWSER_COMMAND_TIMEOUT"; "POLICY_DENIED";
   "ARTEFACT_UPLOAD_INCOMPLETE"; "UNSUPPORTED_CAPABILITY"; "INTERNAL_ERROR"].
Definition ControllerType : json → Prop := union_type
  ["agent"; "human"; "system"].
Definition SessionStatus : json → Prop := union_type
  ["REQUESTED"; "ALLOCATING"; "READY"; "ACTIVE"; "PAUSED"; "DEGRADED"; "TERMINATING"; "TERMINATED"; "FAILED"].
Definition TerminationReason : json → Prop := union_type
  ["requested"; "duration_limit"; "capacity"; "policy"; "worker_shutdown"; "failure"].
Definition BrowserType : json → Prop := union_type
  ["chromium"].
Definition RetentionClass : json → Prop := union_type
  ["action_screenshots"; "verification_evidence"].
Definition CommandName : json → Prop := union_type
  ["navigate"; "snapshot"; "click"; "type_text"; "select_option"; "press_key"; "scroll"; "resize";
   "wait"; "take_screenshot"].
Definition KeyName : json → Prop := union_type
  ["Enter"; "Tab"; "Shift+Tab"; "Escape"; "Backspace"; "Delete"; "Home"; "End"; "PageUp"; "PageDown";
   "ArrowUp"; "ArrowDown"; "ArrowLeft"; "ArrowRight"; "Space"].
Definition ScrollDirection : json → Prop := union_type
  ["up"; "down"; "left"; "right"].
Definition WaitUntil : json → Prop := union_type
  ["commit"; "domcontentloaded"; "load"; "networkidle"].
Definition WaitCondition : json → Prop := union_type
  ["url_matches"; "selector_visible"; "selector_hidden"; "text_visible"; "network_idle"].
Definition ScreenshotPurpose : json → Prop := union_type
  ["verification"; "annotation"; "diagnostic"; "system"].
Definition ImageContentType : json → Prop := union_type
  ["image/png"].
Definition TrustLabel : json → Prop := union_type
  ["trusted_control_plane"; "untrusted_browser_content"].
Definition InstructionPolicy : json → Prop := union_type
  ["do_not_follow_as_instructions"].
Definition ElementDescriptorSelectorStrategy : json → Prop := union_type
  ["testid"; "role"; "text"; "css"; "xpath"].
Definition ControllerIdentity : json → Prop := interface_type [
    has "type" ControllerType;
    has "id" Identifier].
Definition Envelope : json → Prop := interface_type [
    has "protocol_version" number_type;
    has "message_id" Identifier;
    has "type" MessageType;
    has "sent_at" Timestamp;
    may_have "worker_id" Identifier;
    may_have "browser_session_id" Identifier;
    may_have "controller" ControllerIdentity;
    may_have "control_epoch" number_type;
    may_have "sequence" number_type;
    may_have "correlation_id" Identifier].
Definition Viewport : json → Prop := interface_type [
    has "width" number_type;
    has "height" number_type;
    has "device_scale_factor" number_type].
Definition SessionLimits : json → Prop := interface_type [
    has "max_duration_seconds" number_type;
    has "default_timeout_ms" number_type;
    has "max_command_timeout_ms" number_type;
    has "screenshot_max_bytes" number_type;
    has "snapshot_max_nodes" number_type;
    has "snapshot_max_bytes" number_type].
Definition WorkerRegistration : json → Prop := interface_type [
    has "worker_name" WorkerLabel;
    has "worker_version" BuildVersion;
    has "browser_type" BrowserType;
    has "browser_version" BuildVersion;
    has "capacity" number_type;
    has "labels" (array_type WorkerLabel);
    has "sandbox_enabled" boolean_type;
    has "started_at" Timestamp].
Definition CommandError : json → Prop := interface_type [
    has "code" ErrorClass;
    has "message" ReasonText;
    has "retryable" boolean_type;
    may_have "current_epoch" number_type].
Definition WorkerRegistrationAck : json → Prop := interface_type [
    has "accepted" boolean_type;
    has "assigned_projects" (array_type Identifier);
    has "session_limits" SessionLimits;
    has "heartbeat_interval_seconds" number_type;
    may_have "error" CommandError].
Definition WorkerHeartbeat : json → Prop := interface_type [
    has "active_sessions" number_type;
    has "capacity" number_type;
    may_have "resident_memory_mb" number_type;
    has "observed_at" Timestamp].
Definition WorkerHeartbeatAck : json → Prop := interface_type [
    has "assigned_projects" (array_type Identifier);
    has "heartbeat_interval_seconds" number_type;
    has "observed_at" Timestamp].
Definition WorkerContextsRequest : json → Prop := interface_type [
    has "requested_at" Timestamp].
Definition WorkerContext : json → Prop := interface_type [
    has "browser_session_id" Identifier;
    has "project_id" Identifier;
    has "status" SessionStatus;
    has "control_epoch" number_type].
Definition WorkerContexts : json → Prop := interface_type [
    has "contexts" (array_type WorkerContext);
    has "observed_at" Timestamp].
Definition SessionAllocate : json → Prop := interface_type [
    has "organisation_id" Identifier;
    has "project_id" Identifier;
    may_have "agent_session_id" Identifier;
    may_have "published_service_id" Identifier;
    may_have "service_origin" Origin;
    may_have "service_capability" SensitiveString;
    has "viewport" Viewport;
    has "control_epoch" number_type;
    has "controller" ControllerIdentity;
    has "limits" SessionLimits;
    has "retention_class" RetentionClass].
Definition SessionAllocated : json → Prop := interface_type [
    has "status" SessionStatus;
    has "browser_type" BrowserType;
    has "browser_version" BuildVersion;
    has "viewport" Viewport;
    has "allocated_at" Timestamp;
    may_have "error" CommandError].
Definition SessionStatusReport : json → Prop := interface_type [
    has "status" SessionStatus;
    may_have "previous_status" SessionStatus;
    may_have "reason" ReasonText;
    may_have "control_epoch" number_type;
    may_have "current_controller" ControllerIdentity;
    has "occurred_at" Timestamp].
Definition SessionTerminate : json → Prop := interface_type [
    has "reason" TerminationReason;
    may_have "detail" ReasonText].
Definition NavigateParams : json → Prop := interface_type [
    has "url" NavigationTarget;
    has "wait_until" WaitUntil].
Definition ClickParams : json → Prop := interface_type [
    has "snapshot_id" Identifier;
    has "ref" ElementReference].
Definition TypeTextParams : json → Prop := interface_type [
    has "snapshot_id" Identifier;
    has "ref" ElementReference;
    has "text" InputText;
    may_have "submit" boolean_type].
Definition SelectOptionParams : json → Prop := interface_type [
    has "snapshot_id" Identifier;
    has "ref" ElementReference;
    has "values" (array_type OptionValue)].
Definition PressKeyParams : json → Prop := interface_type [
    has "key" KeyName;
    may_have "snapshot_id" Identifier;
    may_have "ref" ElementReference].
Definition ScrollParams : json → Prop := interface_type [
    has "direction" ScrollDirection;
    has "amount_px" number_type;
    may_have "snapshot_id" Identifier;
    may_have "ref" ElementReference].
Definition ResizeParams : json → Prop := interface_type [
    has "viewport" Viewport].
Definition WaitParams : json → Prop := interface_type [
    has "condition" WaitCondition;
    may_have "url_pattern" UrlPattern;
    may_have "selector" Selector;
    may_have "text" PageText].
Definition SnapshotParams : json → Prop := interface_type [
    may_have "max_nodes" number_type;
    may_have "max_bytes" number_type].
Definition ScreenshotParams : json → Prop := interface_type [
    has "full_page" boolean_type;
    has "persist" boolean_type;
    has "purpose" ScreenshotPurpose].
Definition BrowserCommand : json → Prop := interface_type [
    has "command" CommandName;
    has "timeout_ms" number_type;
    may_have "navigate" NavigateParams;
    may_have "click" ClickParams;
    may_have "type_text" TypeTextParams;
    may_have "select_option" SelectOptionParams;
    may_have "press_key" PressKeyParams;
    may_have "scroll" ScrollParams;
    may_have "resize" ResizeParams;
    may_have "wait" WaitParams;
    may_have "snapshot" SnapshotParams;
    may_have "take_screenshot" ScreenshotParams].
Definition NavigationResult : json → Prop := interface_type [
    has "url" ResolvedUrl;
    may_have "http_status" number_type;
    has "redirected" boolean_type;
    has "title" PageText].
Definition ScrollOffset : json → Prop := interface_type [
    has "x" ElementCssPixelOffset;
    has "y" ElementCssPixelOffset].
Definition ElementBox : json → Prop := interface_type [
    has "x" ElementCssPixelOffset;
    has "y" ElementCssPixelOffset;
    has "width" ElementCssPixelOffset;
    has "height" ElementCssPixelOffset].
Definition ElementDescriptor : json → Prop := interface_type [
    has "ref" ElementReference;
    has "role" AccessibleRole;
    may_have "name" PageText;
    may_have "box" ElementBox;
    may_have "selector" ElementSelector;
    may_have "selector_strategy" ElementDescriptorSelectorStrategy;
    may_have "text_excerpt" PageText;
    may_have "dom_fingerprint" Sha256Hex].
Definition SnapshotResult : json → Prop := interface_type [
    has "snapshot_id" Identifier;
    has "viewport" Viewport;
    has "scroll_position" ScrollOffset;
    has "node_count" number_type;
    has "truncated" boolean_type;
    has "text" SnapshotText;
    has "elements" (array_type ElementDescriptor)].
Definition ScreenshotResult : json → Prop := interface_type [
    has "artefact_id" Identifier;
    has "sha256" Sha256Hex;
    has "size_bytes" number_type;
    has "content_type" ImageContentType;
    has "viewport" Viewport;
    has "scroll_position" ScrollOffset;
    has "full_page" boolean_type;
    has "captured_at" Timestamp].
Definition BrowserCommandResult : json → Prop := interface_type [
    has "ok" boolean_type;
    has "command" CommandName;
    has "sequence" number_type;
    has "control_epoch" number_type;
    has "duration_ms" number_type;
    has "trust" TrustLabel;
    has "instruction_policy" InstructionPolicy;
    may_have "error" CommandError;
    may_have "navigation" NavigationResult;
    may_have "snapshot" SnapshotResult;
    may_have "screenshot" ScreenshotResult;
    may_have "viewport" Viewport].

(** [x-protocol.messages] *)
Definition browser_messages : list (string * Schema) :=
  [("worker.register", schema_worker_registration);
   ("worker.register.ack", schema_worker_registration_ack);
   ("worker.heartbeat", schema_worker_heartbeat);
   ("worker.heartbeat.ack", schema_worker_heartbeat_ack);
   ("worker.contexts.request", schema_worker_contexts_request);
   ("worker.contexts", schema_worker_contexts);
   ("browser_session.allocate", schema_session_allocate);
   ("browser_session.allocated", schema_session_allocated);
   ("browser_session.status", schema_session_status_report);
   ("browser_session.terminate", schema_session_terminate);
   ("browser.command", schema_browser_command);
   ("browser.command.result", schema_browser_command_result)].

(** ** Encoders, decoders and dispatch *)

Definition encodeControllerIdentity (value : option json) : result string string := object_text [
    push_field "type" jsonString value;
    push_field "id" jsonString value].
Definition encodeEnvelope (value : option json) (payloadJson : string) : result string string := object_text [
    push_field "protocol_version" jsonInteger value;
    push_field "message_id" jsonString value;
    push_field "type" jsonString value;
    push_field "sent_at" jsonString value;
    push_optional "worker_id" jsonString value;
    push_optional "browser_session_id" jsonString value;
    push_optional "controller" encodeControllerIdentity value;
    push_optional "control_epoch" jsonInteger value;
    push_optional "sequence" jsonInteger value;
    push_optional "correlation_id" jsonString value;
    push_text "payload" payloadJson].
Definition encodeViewport (value : option json) : result string string := object_text [
    push_field "width" jsonInteger value;
    push_field "height" jsonInteger value;
    push_field "device_scale_factor" jsonNumber value].
Definition encodeSessionLimits (value : option json) : result string string := object_text [
    push_field "max_duration_seconds" jsonInteger value;
    push_field "default_timeout_ms" jsonInteger value;
    push_field "max_command_timeout_ms" jsonInteger value;
    push_field "screenshot_max_bytes" jsonInteger value;
    push_field "snapshot_max_nodes" jsonInteger value;
    push_field "snapshot_max_bytes" jsonInteger value].
Definition encodeWorkerRegistration (value : option json) : result string string := object_text [
    push_field "worker_name" jsonString value;
    push_field "worker_version" jsonString value;
    push_field "browser_type" jsonString value;
    push_field "browser_version" jsonString value;
    push_field "capacity" jsonInteger value;
    push_field "labels" (jsonItems jsonString) value;
    push_field "sandbox_enabled" jsonBoolean value;
    push_field "started_at" jsonString value].
Definition encodeCommandError (value : option json) : result string string := object_text [
    push_field "code" jsonString value;
    push_field "message" jsonString value;
    push_field "retryable" jsonBoolean value;
    push_optional "current_epoch" jsonInteger value].
Definition encodeWorkerRegistrationAck (value : option json) : result string string := object_text [
    push_field "accepted" jsonBoolean value;
    push_field "assigned_projects" (jsonItems jsonString) value;
    push_field "session_limits" encodeSessionLimits value;
    push_field "heartbeat_interval_seconds" jsonInteger value;
    push_optional "error" encodeCommandError value].
Definition encodeWorkerHeartbeat (value : option json) : result string string := object_text [
    push_field "active_sessions" jsonInteger value;
    push_field "capacity" jsonInteger value;
    push_optional "resident_memory_mb" jsonInteger value;
    push_field "observed_at" jsonString value].
Definition encodeWorkerHeartbeatAck (value : option json) : result string string := object_text [
    push_field "assigned_projects" (jsonItems jsonString) value;
    push_field "heartbeat_interval_seconds" jsonInteger value;
    push_field "observed_at" jsonString value].
Definition encodeWorkerContextsRequest (value : option json) : result string string := object_text [
    push_field "requested_at" jsonString value].
Definition encodeWorkerContext (value : option json) : result string string := object_text [
    push_field "browser_session_id" jsonString value;
    push_field "project_id" jsonString value;
    push_field "status" jsonString value;
    push_field "control_epoch" jsonInteger value].
Definition encodeWorkerContexts (value : option json) : result string string := object_text [
    push_field "contexts" (jsonItems encodeWorkerContext) value;
    push_field "observed_at" jsonString value].
Definition encodeSessionAllocate (value : option json) : result string string := object_text [
    push_field "organisation_id" jsonString value;
    push_field "project_id" jsonString value;
    push_optional "agent_session_id" jsonString value;
    push_optional "published_service_id" jsonString value;
    push_optional "service_origin" jsonString value;
    push_optional "service_capability" jsonSensitive value;
    push_field "viewport" encodeViewport value;
    push_field "control_epoch" jsonInteger value;
    push_field "controller" encodeControllerIdentity value;
    push_field "limits" encodeSessionLimits value;
    push_field "retention_class" jsonString value].
Definition encodeSessionAllocated (value : option json) : result string string := object_text [
    push_field "status" jsonString value;
    push_field "browser_type" jsonString value;
    push_field "browser_version" jsonString value;
    push_field "viewport" encodeViewport value;
    push_field "allocated_at" jsonString value;
    push_optional "error" encodeCommandError value].
Definition encodeSessionStatusReport (value : option json) : result string string := object_text [
    push_field "status" jsonString value;
    push_optional "previous_status" jsonString value;
    push_optional "reason" jsonString value;
    push_optional "control_epoch" jsonInteger value;
    push_optional "current_controller" encodeControllerIdentity value;
    push_field "occurred_at" jsonString value].
Definition encodeSessionTerminate (value : option json) : result string string := object_text [
    push_field "reason" jsonString value;
    push_optional "detail" jsonString value].
Definition encodeNavigateParams (value : option json) : result string string := object_text [
    push_field "url" jsonString value;
    push_field "wait_until" jsonString value].
Definition encodeClickParams (value : option json) : result string string := object_text [
    push_field "snapshot_id" jsonString value;
    push_field "ref" jsonString value].
Definition encodeTypeTextParams (value : option json) : result string string := object_text [
    push_field "snapshot_id" jsonString value;
    push_field "ref" jsonString value;
    push_field "text" jsonString value;
    push_optional "submit" jsonBoolean value].
Definition encodeSelectOptionParams (value : option json) : result string string := object_text [
    push_field "snapshot_id" jsonString value;
    push_field "ref" jsonString value;
    push_field "values" (jsonItems jsonString) value].
Definition encodePressKeyParams (value : option json) : result string string := object_text [
    push_field "key" jsonString value;
    push_optional "snapshot_id" jsonString value;
    push_optional "ref" jsonString value].
Definition encodeScrollParams (value : option json) : result string string := object_text [
    push_field "direction" jsonString value;
    push_field "amount_px" jsonInteger value;
    push_optional "snapshot_id" jsonString value;
    push_optional "ref" jsonString value].
Definition encodeResizeParams (value : option json) : result string string := object_text [
    push_field "viewport" encodeViewport value].
Definition encodeWaitParams (value : option json) : result string string := object_text [
    push_field "condition" jsonString value;
    push_optional "url_pattern" jsonString value;
    push_optional "selector" jsonString value;
    push_optional "text" jsonString value].
Definition encodeSnapshotParams (value : option json) : result string string := object_text [
    push_optional "max_nodes" jsonInteger value;
    push_optional "max_bytes" jsonInteger value].
Definition encodeScreenshotParams (value : option json) : result string string := object_text [
    push_field "full_page" jsonBoolean value;
    push_field "persist" jsonBoolean value;
    push_field "purpose" jsonString value].
Definition encodeBrowserCommand (value : option json) : result string string := object_text [
    push_field "command" jsonString value;
    push_field "timeout_ms" jsonInteger value;
    push_optional "navigate" encodeNavigateParams value;
    push_optional "click" encodeClickParams value;
    push_optional "type_text" encodeTypeTextParams value;
    push_optional "select_option" encodeSelectOptionParams value;
    push_optional "press_key" encodePressKeyParams value;
    push_optional "scroll" encodeScrollParams value;
    push_optional "resize" encodeResizeParams value;
    push_optional "wait" encodeWaitParams value;
    push_optional "snapshot" encodeSnapshotParams value;
    push_optional "take_screenshot" encodeScreenshotParams value].
Definition encodeNavigationResult (value : option json) : result string string := object_text [
    push_field "url" jsonString value;
    push_optional "http_status" jsonInteger value;
    push_field "redirected" jsonBoolean value;
    push_field "title" jsonString value].
Definition encodeScrollOffset (value : option json) : result string string := object_text [
    push_field "x" jsonNumber value;
    push_field "y" jsonNumber value].
Definition encodeElementBox (value : option json) : result string string := object_text [
    push_field "x" jsonNumber value;
    push_field "y" jsonNumber value;
    push_field "width" jsonNumber value;
    push_field "height" jsonNumber value].
Definition encodeElementDescriptor (value : option json) : result string string := object_text [
    push_field "ref" jsonString value;
    push_field "role" jsonString value;
    push_optional "name" jsonString value;
    push_optional "box" encodeElementBox value;
    push_optional "selector" jsonString value;
    push_optional "selector_strategy" jsonString value;
    push_optional "text_excerpt" jsonString value;
    push_optional "dom_fingerprint" jsonString value].
Definition encodeSnapshotResult (value : option json) : result string string := object_text [
    push_field "snapshot_id" jsonString value;
    push_field "viewport" encodeViewport value;
    push_field "scroll_position" encodeScrollOffset value;
    push_field "node_count" jsonInteger value;
    push_field "truncated" jsonBoolean value;
    push_field "text" jsonString value;
    push_field "elements" (jsonItems encodeElementDescriptor) value].
Definition encodeScreenshotResult (value : option json) : result string string := object_text [
    push_field "artefact_id" jsonString value;
    push_field "sha256" jsonString value;
    push_field "size_bytes" jsonInteger value;
    push_field "content_type" jsonString value;
    push_field "viewport" encodeViewport value;
    push_field "scroll_position" encodeScrollOffset value;
    push_field "full_page" jsonBoolean value;
    push_field "captured_at" jsonString value].
Definition encodeBrowserCommandResult (value : option json) : result string string := object_text [
    push_field "ok" jsonBoolean value;
    push_field "command" jsonString value;
    push_field "sequence" jsonInteger value;
    push_field "control_epoch" jsonInteger value;
    push_field "duration_ms" jsonInteger value;
    push_field "trust" jsonString value;
    push_field "instruction_policy" jsonString value;
    push_optional "error" encodeCommandError value;
    push_optional "navigation" encodeNavigationResult value;
    push_optional "snapshot" encodeSnapshotResult value;
    push_optional "screenshot" encodeScreenshotResult value;
    push_optional "viewport" encodeViewport value].

Definition decodeControllerIdentity : json → result string json := read_object (λ source, [
    cast_field "type" as_is source;
    cast_field "id" as_is source]).
Definition decodeEnvelope : json → result string json := read_object (λ source, [
    cast_field "protocol_version" as_is source;
    cast_field "message_id" as_is source;
    cast_field "type" as_is source;
    cast_field "sent_at" as_is source;
    optional_field "worker_id" as_is source;
    optional_field "browser_session_id" as_is source;
    optional_field "controller" decodeControllerIdentity source;
    optional_field "control_epoch" as_is source;
    optional_field "sequence" as_is source;
    optional_field "correlation_id" as_is source]).
Definition decodeViewport : json → result string json := read_object (λ source, [
    cast_field "width" as_is source;
    cast_field "height" as_is source;
    cast_field "device_scale_factor" as_is source]).
Definition decodeSessionLimits : json → result string json := read_object (λ source, [
    cast_field "max_duration_seconds" as_is source;
    cast_field "default_timeout_ms" as_is source;
    cast_field "max_command_timeout_ms" as_is source;
    cast_field "screenshot_max_bytes" as_is source;
    cast_field "snapshot_max_nodes" as_is source;
    cast_field "snapshot_max_bytes" as_is source]).
Definition decodeWorkerRegistration : json → result string json := read_object (λ source, [
    cast_field "worker_name" as_is source;
    cast_field "worker_version" as_is source;
    cast_field "browser_type" as_is source;
    cast_field "browser_version" as_is source;
    cast_field "capacity" as_is source;
    read_field "labels" (read_items as_is) source;
    cast_field "sandbox_enabled" as_is source;
    cast_field "started_at" as_is source]).
Definition decodeCommandError : json → result string json := read_object (λ source, [
    cast_field "code" as_is source;
    cast_field "message" as_is source;
    cast_field "retryable" as_is source;
    optional_field "current_epoch" as_is source]).
Definition decodeWorkerRegistrationAck : json → result string json := read_object (λ source, [
    cast_field "accepted" as_is source;
    read_field "assigned_projects" (read_items as_is) source;
    read_field "session_limits" decodeSessionLimits source;
    cast_field "heartbeat_interval_seconds" as_is source;
    optional_field "error" decodeCommandError source]).
Definition decodeWorkerHeartbeat : json → result string json := read_object (λ source, [
    cast_field "active_sessions" as_is source;
    cast_field "capacity" as_is source;
    optional_field "resident_memory_mb" as_is source;
    cast_field "observed_at" as_is source]).
Definition decodeWorkerHeartbeatAck : json → result string json := read_object (λ source, [
    read_field "assigned_projects" (read_items as_is) source;
    cast_field "heartbeat_interval_seconds" as_is source;
    cast_field "observed_at" as_is source]).
Definition decodeWorkerContextsRequest : json → result string json := read_object (λ source, [
    cast_field "requested_at" as_is source]).
Definition decodeWorkerContext : json → result string json := read_object (λ source, [
    cast_field "browser_session_id" as_is source;
    cast_field "project_id" as_is source;
    cast_field "status" as_is source;
    cast_field "control_epoch" as_is source]).
Definition decodeWorkerContexts : json → result string json := read_object (λ source, [
    read_field "contexts" (read_items decodeWorkerContext) source;
    cast_field "observed_at" as_is source]).
Definition decodeSessionAllocate : json → result string json := read_object (λ source, [
    cast_field "organisation_id" as_is source;
    cast_field "project_id" as_is source;
    optional_field "agent_session_id" as_is source;
    optional_field "published_service_id" as_is source;
    optional_field "service_origin" as_is source;
    optional_field "service_capability" read_sensitive source;
    read_field "viewport" decodeViewport source;
    cast_field "control_epoch" as_is source;
    read_field "controller" decodeControllerIdentity source;
    read_field "limits" decodeSessionLimits source;
    cast_field "retention_class" as_is source]).
Definition decodeSessionAllocated : json → result string json := read_object (λ source, [
    cast_field "status" as_is source;
    cast_field "browser_type" as_is source;
    cast_field "browser_version" as_is source;
    read_field "viewport" decodeViewport source;
    cast_field "allocated_at" as_is source;
    optional_field "error" decodeCommandError source]).
Definition decodeSessionStatusReport : json → result string json := read_object (λ source, [
    cast_field "status" as_is source;
    optional_field "previous_status" as_is source;
    optional_field "reason" as_is source;
    optional_field "control_epoch" as_is source;
    optional_field "current_controller" decodeControllerIdentity source;
    cast_field "occurred_at" as_is source]).
Definition decodeSessionTerminate : json → result string json := read_object (λ source, [
    cast_field "reason" as_is source;
    optional_field "detail" as_is source]).
Definition decodeNavigateParams : json → result string json := read_object (λ source, [
    cast_field "url" as_is source;
    cast_field "wait_until" as_is source]).
Definition decodeClickParams : json → result string json := read_object (λ source, [
    cast_field "snapshot_id" as_is source;
    cast_field "ref" as_is source]).
Definition decodeTypeTextParams : json → result string json := read_object (λ source, [
    cast_field "snapshot_id" as_is source;
    cast_field "ref" as_is source;
    cast_field "text" as_is source;
    optional_field "submit" as_is source]).
Definition decodeSelectOptionParams : json → result string json := read_object (λ source, [
    cast_field "snapshot_id" as_is source;
    cast_field "ref" as_is source;
    read_field "values" (read_items as_is) source]).
Definition decodePressKeyParams : json → result string json := read_object (λ source, [
    cast_field "key" as_is source;
    optional_field "snapshot_id" as_is source;
    optional_field "ref" as_is source]).
Definition decodeScrollParams : json → result string json := read_object (λ source, [
    cast_field "direction" as_is source;
    cast_field "amount_px" as_is source;
    optional_field "snapshot_id" as_is source;
    optional_field "ref" as_is source]).
Definition decodeResizeParams : json → result string json := read_object (λ source, [
    read_field "viewport" decodeViewport source]).
Definition decodeWaitParams : json → result string json := read_object (λ source, [
    cast_field "condition" as_is source;
    optional_field "url_pattern" as_is source;
    optional_field "selector" as_is source;
    optional_field "text" as_is source]).
Definition decodeSnapshotParams : json → result string json := read_object (λ source, [
    optional_field "max_nodes" as_is source;
    optional_field "max_bytes" as_is source]).
Definition decodeScreenshotParams : json → result string json := read_object (λ source, [
    cast_field "full_page" as_is source;
    cast_field "persist" as_is source;
    cast_field "purpose" as_is source]).
Definition decodeBrowserCommand : json → result string json := read_object (λ source, [
    cast_field "command" as_is source;
    cast_field "timeout_ms" as_is source;
    optional_field "navigate" decodeNavigateParams source;
    optional_field "click" decodeClickParams source;
    optional_field "type_text" decodeTypeTextParams source;
    optional_field "select_option" decodeSelectOptionParams source;
    optional_field "press_key" decodePressKeyParams source;
    optional_field "scroll" decodeScrollParams source;
    optional_field "resize" decodeResizeParams source;
    optional_field "wait" decodeWaitParams source;
    optional_field "snapshot" decodeSnapshotParams source;
    optional_field "take_screenshot" decodeScreenshotParams source]).
Definition decodeNavigationResult : json → result string json := read_object (λ source, [
    cast_field "url" as_is source;
    optional_field "http_status" as_is source;
    cast_field "redirected" as_is source;
    cast_field "title" as_is source]).
Definition decodeScrollOffset : json → result string json := read_object (λ source, [
    cast_field "x" as_is source;
    cast_field "y" as_is source]).
Definition decodeElementBox : json → result string json := read_object (λ source, [
    cast_field "x" as_is source;
    cast_field "y" as_is source;
    cast_field "width" as_is source;
    cast_field "height" as_is source]).
Definition decodeElementDescriptor : json → result string json := read_object (λ source, [
    cast_field "ref" as_is source;
    cast_field "role" as_is source;
    optional_field "name" as_is source;
    optional_field "box" decodeElementBox source;
    optional_field "selector" as_is source;
    optional_field "selector_strategy" as_is source;
    optional_field "text_excerpt" as_is source;
    optional_field "dom_fingerprint" as_is source]).
Definition decodeSnapshotResult : json → result string json := read_object (λ source, [
    cast_field "snapshot_id" as_is source;
    read_field "viewport" decodeViewport source;
    read_field "scroll_position" decodeScrollOffset source;
    cast_field "node_count" as_is source;
    cast_field "truncated" as_is source;
    cast_field "text" as_is source;
    read_field "elements" (read_items decodeElementDescriptor) source]).
Definition decodeScreenshotResult : json → result string json := read_object (λ source, [
    cast_field "artefact_id" as_is source;
    cast_field "sha256" as_is source;
    cast_field "size_bytes" as_is source;
    cast_field "content_type" as_is source;
    read_field "viewport" decodeViewport source;
    read_field "scroll_position" decodeScrollOffset source;
    cast_field "full_page" as_is source;
    cast_field "captured_at" as_is source]).
Definition decodeBrowserCommandResult : json → result string json := read_object (λ source, [
    cast_field "ok" as_is source;
    cast_field "command" as_is source;
    cast_field "sequence" as_is source;
    cast_field "control_epoch" as_is source;
    cast_field "duration_ms" as_is source;
    cast_field "trust" as_is source;
    cast_field "instruction_policy" as_is source;
    optional_field "error" decodeCommandError source;
    optional_field "navigation" decodeNavigationResult source;
    optional_field "snapshot" decodeSnapshotResult source;
    optional_field "screenshot" decodeScreenshotResult source;
    optional_field "viewport" decodeViewport source]).

Definition validatePayload (type : string) (value : json) (path : string) : list SchemaViolation :=
  if String.eqb type "worker.register" then validateWorkerRegistration value path else
  if String.eqb type "worker.register.ack" then validateWorkerRegistrationAck value path else
  if String.eqb type "worker.heartbeat" then validateWorkerHeartbeat value path else
  if String.eqb type "worker.heartbeat.ack" then validateWorkerHeartbeatAck value path else
  if String.eqb type "worker.contexts.request" then validateWorkerContextsRequest value path else
  if String.eqb type "worker.contexts" then validateWorkerContexts value path else
  if String.eqb type "browser_session.allocate" then validateSessionAllocate value path else
  if String.eqb type "browser_session.allocated" then validateSessionAllocated value path else
  if String.eqb type "browser_session.status" then validateSessionStatusReport value path else
  if String.eqb type "browser_session.terminate" then validateSessionTerminate value path else
  if String.eqb type "browser.command" then validateBrowserCommand value path else
  if String.eqb type "browser.command.result" then validateBrowserCommandResult value path else
  [].
(** The payload of the frame; a type of no message gives no frame. *)
Definition decodeFrame (type : string) (value : json) : option (result string json) :=
  if String.eqb type "worker.register" then Some (decodeWorkerRegistration value) else
  if String.eqb type "worker.register.ack" then Some (decodeWorkerRegistrationAck value) else
  if String.eqb type "worker.heartbeat" then Some (decodeWorkerHeartbeat value) else
  if String.eqb type "worker.heartbeat.ack" then Some (decodeWorkerHeartbeatAck value) else
  if String.eqb type "worker.contexts.request" then Some (decodeWorkerContextsRequest value) else
  if String.eqb type "worker.contexts" then Some (decodeWorkerContexts value) else
  if String.eqb type "browser_session.allocate" then Some (decodeSessionAllocate value) else
  if String.eqb type "browser_session.allocated" then Some (decodeSessionAllocated value) else
  if String.eqb type "browser_session.status" then Some (decodeSessionStatusReport value) else
  if String.eqb type "browser_session.terminate" then Some (decodeSessionTerminate value) else
  if String.eqb type "browser.command" then Some (decodeBrowserCommand value) else
  if String.eqb type "browser.command.result" then Some (decodeBrowserCommandResult value) else
  None.
Definition encodeFramePayload (type : string) (payload : option json) : option (result string string) :=
  if String.eqb type "worker.register" then Some (encodeWorkerRegistration payload) else
  if String.eqb type "worker.register.ack" then Some (encodeWorkerRegistrationAck payload) else
  if String.eqb type "worker.heartbeat" then Some (encodeWorkerHeartbeat payload) else
  if String.eqb type "worker.heartbeat.ack" then Some (encodeWorkerHeartbeatAck payload) else
  if String.eqb type "worker.contexts.request" then Some (encodeWorkerContextsRequest payload) else
  if String.eqb type "worker.contexts" then Some (encodeWorkerContexts payload) else
  if String.eqb type "browser_session.allocate" then Some (encodeSessionAllocate payload) else
  if String.eqb type "browser_session.allocated" then Some (encodeSessionAllocated payload) else
  if String.eqb type "browser_session.status" then Some (encodeSessionStatusReport payload) else
  if String.eqb type "browser_session.terminate" then Some (encodeSessionTerminate payload) else
  if String.eqb type "browser.command" then Some (encodeBrowserCommand payload) else
  if String.eqb type "browser.command.result" then Some (encodeBrowserCommandResult payload) else
  None.

(** The objects of the schema, with the type and the functions generated for
    them. *)
Definition browser_codec : list Coded :=
  [coded schema_controller_identity ControllerIdentity validateControllerIdentity encodeControllerIdentity decodeControllerIdentity;
   coded schema_viewport Viewport validateViewport encodeViewport decodeViewport;
   coded schema_session_limits SessionLimits validateSessionLimits encodeSessionLimits decodeSessionLimits;
   coded schema_worker_registration WorkerRegistration validateWorkerRegistration encodeWorkerRegistration decodeWorkerRegistration;
   coded schema_worker_registration_ack WorkerRegistrationAck validateWorkerRegistrationAck encodeWorkerRegistrationAck decodeWorkerRegistrationAck;
   coded schema_worker_heartbeat WorkerHeartbeat validateWorkerHeartbeat encodeWorkerHeartbeat decodeWorkerHeartbeat;
   coded schema_worker_heartbeat_ack WorkerHeartbeatAck validateWorkerHeartbeatAck encodeWorkerHeartbeatAck decodeWorkerHeartbeatAck;
   coded schema_worker_contexts_request WorkerContextsRequest validateWorkerContextsRequest encodeWorkerContextsRequest decodeWorkerContextsRequest;
   coded schema_worker_context WorkerContext validateWorkerContext encodeWorkerContext decodeWorkerContext;
   coded schema_worker_contexts WorkerContexts validateWorkerContexts encodeWorkerContexts decodeWorkerContexts;
   coded schema_session_allocate SessionAllocate validateSessionAllocate encodeSessionAllocate decodeSessionAllocate;
   coded schema_session_allocated SessionAllocated validateSessionAllocated encodeSessionAllocated decodeSessionAllocated;
   coded schema_session_status_report SessionStatusReport validateSessionStatusReport encodeSessionStatusReport decodeSessionStatusReport;
   coded schema_session_terminate SessionTerminate validateSessionTerminate encodeSessionTerminate decodeSessionTerminate;
   coded schema_navigate_params NavigateParams validateNavigateParams encodeNavigateParams decodeNavigateParams;
   coded schema_click_params ClickParams validateClickParams encodeClickParams decodeClickParams;
   coded schema_type_text_params TypeTextParams validateTypeTextParams encodeTypeTextParams decodeTypeTextParams;
   coded schema_select_option_params SelectOptionParams validateSelectOptionParams encodeSelectOptionParams decodeSelectOptionParams;
   coded schema_press_key_params PressKeyParams validatePressKeyParams encodePressKeyParams decodePressKeyParams;
   coded schema_scroll_params ScrollParams validateScrollParams encodeScrollParams decodeScrollParams;
   coded schema_resize_params ResizeParams validateResizeParams encodeResizeParams decodeResizeParams;
   coded schema_wait_params WaitParams validateWaitParams encodeWaitParams decodeWaitParams;
   coded schema_snapshot_params SnapshotParams validateSnapshotParams encodeSnapshotParams decodeSnapshotParams;
   coded schema_screenshot_params ScreenshotParams validateScreenshotParams encodeScreenshotParams decodeScreenshotParams;
   coded schema_browser_command BrowserCommand validateBrowserCommand encodeBrowserCommand decodeBrowserCommand;
   coded schema_command_error CommandError validateCommandError encodeCommandError decodeCommandError;
   coded schema_navigation_result NavigationResult validateNavigationResult encodeNavigationResult decodeNavigationResult;
   coded schema_scroll_offset ScrollOffset validateScrollOffset encodeScrollOffset decodeScrollOffset;
   coded schema_element_box ElementBox validateElementBox encodeElementBox decodeElementBox;
   coded schema_element_descriptor ElementDescriptor validateElementDescriptor encodeElementDescriptor decodeElementDescriptor;
   coded schema_snapshot_result SnapshotResult validateSnapshotResult encodeSnapshotResult decodeSnapshotResult;
   coded schema_screenshot_result ScreenshotResult validateScreenshotResult encodeScreenshotResult decodeScreenshotResult;
   coded schema_browser_command_result BrowserCommandResult validateBrowserCommandResult encodeBrowserCommandResult decodeBrowserCommandResult].

Lemma browser_codec_generated : Forall codes browser_codec.
Proof. repeat (apply Forall_cons_2; [by repeat split|]). apply Forall_nil_2. Qed.
(** The envelope, whose payload is text that was encoded before. *)
Lemma browser_envelope_generated value text value' :
  encodeEnvelope value text = encoding text schema_envelope value
  ∧ (∀ source, decodeEnvelope source = decoding schema_envelope source)
  ∧ Envelope value' = typing schema_envelope value'.
Proof. by split. Qed.

(** The functions of the dispatch. *)
Definition browser_dispatch : Dispatch :=
  {| payloads := browser_messages; message_types := MESSAGE_TYPE_VALUES; validate_payload := validatePayload;
     decode_payload := decodeFrame; encode_payload := encodeFramePayload |}.
Lemma browser_dispatch_generated : dispatches browser_dispatch.
Proof.
  split; [reflexivity|]. repeat (apply Forall_cons_2; [by repeat split|]). apply Forall_nil_2.
Qed.
