(* ===== verification/LiveViewSchema.v ===== *)
(** * The schemas of the live-view protocol
    ([src/packages/protocol/schemas/live_view/v1.schema.json])

    The definitions of the document, each after those it refers to. *)

From S2P Require Import Prelude Regex Schema Patterns.
#[local] Open Scope Z_scope.

Definition schema_identifier : Schema :=
  S_string 1 64 (Some expression_0).
Definition schema_timestamp : Schema :=
  S_string 20 30 (Some expression_1).
Definition schema_resolved_url : Schema :=
  S_string 1 2048 (Some expression_36).
Definition schema_reason_text : Schema :=
  S_string 1 512 (Some expression_34).
Definition schema_message_type : Schema :=
  S_values ["live.attached"; "live.frame"; "live.quality"; "live.quality_request"; "live.heartbeat";
    "live.viewer_heartbeat"; "live.session_state"; "live.error"].
Definition schema_error_class : Schema :=
  S_values ["PROTOCOL_UNSUPPORTED"; "AUTHENTICATION_REQUIRED"; "AUTHORISATION_DENIED"; "PROJECT_CONTEXT_MISMATCH";
    "RESOURCE_NOT_FOUND"; "BROWSER_CAPACITY_EXHAUSTED"; "BROWSER_SESSION_NOT_ACTIVE"; "POLICY_DENIED";
    "RATE_LIMITED"; "UNSUPPORTED_CAPABILITY"; "INTERNAL_ERROR"].
Definition schema_live_mode : Schema :=
  S_values ["session_room"; "thumbnail"].
Definition schema_frame_format : Schema :=
  S_values ["image/jpeg"].
Definition schema_frame_retention : Schema :=
  S_values ["never"].
Definition schema_session_status : Schema :=
  S_values ["REQUESTED"; "ALLOCATING"; "READY"; "ACTIVE"; "PAUSED"; "DEGRADED"; "TERMINATING"; "TERMINATED"; "FAILED"].
Definition schema_failure_state : Schema :=
  S_values ["not_authenticated"; "not_authorised_for_project"; "browser_session_not_found"; "browser_session_ended";
    "browser_worker_failed"; "live_capture_unavailable"; "viewer_rate_limited"; "control_plane_unavailable"].
Definition schema_quality_reason : Schema :=
  S_values ["initial"; "viewer_requested"; "viewer_falling_behind"; "viewer_keeping_up"; "mode_changed";
    "bounded_by_policy"].
Definition schema_viewport : Schema :=
  S_object
    [("width", (S_integer 240 3840));
     ("height", (S_integer 240 2160));
     ("device_scale_factor", (S_number 1 4))]
    ["width"; "height"; "device_scale_factor"]
    [].
Definition schema_envelope : Schema :=
  S_object
    [("protocol_version", (S_integer 1 1));
     ("message_id", schema_identifier);
     ("type", schema_message_type);
     ("sent_at", schema_timestamp);
     ("browser_session_id", schema_identifier);
     ("stream_id", schema_identifier);
     ("payload", S_dynamic)]
    ["protocol_version"; "message_id"; "type"; "sent_at"; "payload"]
    [{| when_property := "type"; when_values := ["live.attached"; "live.frame"; "live.quality"; "live.heartbeat"; "live.session_state"];
       then_required := ["browser_session_id"; "stream_id"]; then_forbidden := [];
       rule_detail := "every server message that describes a running stream names both the session and the stream instance" |};
     {| when_property := "type"; when_values := ["live.frame"];
       then_required := ["browser_session_id"]; then_forbidden := [];
       rule_detail := "frame metadata is bound to its browser session so a relayed frame cannot be attributed to another" |}].
Definition schema_stream_attached : Schema :=
  S_object
    [("project_id", schema_identifier);
     ("mode", schema_live_mode);
     ("format", schema_frame_format);
     ("retention", schema_frame_retention);
     ("max_frame_bytes", (S_integer 1024 4194304));
     ("attached_at", schema_timestamp)]
    ["project_id"; "mode"; "format"; "retention"; "max_frame_bytes"; "attached_at"]
    [].
Definition schema_frame_metadata : Schema :=
  S_object
    [("sequence", (S_integer 0 4294967295));
     ("captured_at", schema_timestamp);
     ("mode", schema_live_mode);
     ("format", schema_frame_format);
     ("width", (S_integer 1 7680));
     ("height", (S_integer 1 4320));
     ("quality", (S_integer 1 100));
     ("byte_length", (S_integer 1 4194304));
     ("dropped_before", (S_integer 0 4294967295))]
    ["sequence"; "captured_at"; "mode"; "format"; "width"; "height"; "quality"; "byte_length"; "dropped_before"]
    [].
Definition schema_quality_state : Schema :=
  S_object
    [("mode", schema_live_mode);
     ("target_fps", (S_integer 1 30));
     ("quality", (S_integer 1 100));
     ("max_width", (S_integer 1 7680));
     ("max_height", (S_integer 1 4320));
     ("reason", schema_quality_reason);
     ("decided_at", schema_timestamp)]
    ["mode"; "target_fps"; "quality"; "max_width"; "max_height"; "reason"; "decided_at"]
    [].
Definition schema_quality_request : Schema :=
  S_object
    [("mode", schema_live_mode);
     ("max_fps", (S_integer 1 30));
     ("max_width", (S_integer 1 7680));
     ("max_height", (S_integer 1 4320));
     ("requested_at", schema_timestamp)]
    ["requested_at"]
    [].
Definition schema_stream_heartbeat : Schema :=
  S_object
    [("observed_at", schema_timestamp);
     ("frames_sent", (S_integer 0 4294967295));
     ("frames_dropped", (S_integer 0 4294967295));
     ("buffer_depth", (S_integer 0 64));
     ("buffer_capacity", (S_integer 1 64));
     ("measured_fps", (S_number 0 240))]
    ["observed_at"; "frames_sent"; "frames_dropped"; "buffer_depth"; "buffer_capacity"; "measured_fps"]
    [].
Definition schema_viewer_heartbeat : Schema :=
  S_object
    [("observed_at", schema_timestamp);
     ("last_sequence_rendered", (S_integer 0 4294967295))]
    ["observed_at"]
    [].
Definition schema_session_state : Schema :=
  S_object
    [("status", schema_session_status);
     ("url", schema_resolved_url);
     ("viewport", schema_viewport);
     ("control_epoch", (S_integer 0 2147483647));
     ("live_capture", S_boolean);
     ("observed_at", schema_timestamp)]
    ["status"; "viewport"; "control_epoch"; "observed_at"]
    [].
Definition schema_live_error : Schema :=
  S_object
    [("code", schema_error_class);
     ("state", schema_failure_state);
     ("message", schema_reason_text);
     ("retryable", S_boolean);
     ("retry_after_ms", (S_integer 0 3600000))]
    ["code"; "state"; "message"; "retryable"]
    [].
