(* ===== verification/LiveViewValidate.v ===== *)
(** * The validators of the live-view protocol
    ([src/packages/protocol/src/generated/live_view/v1/validate.ts])

    The generated functions as they stand, each after those it calls, and the table
    of those that the schema's definitions have; each finds the violations of its
    definition, in the same order. *)

From S2P Require Import Prelude ReviewDomain StableJson Validation Schema Patterns LiveViewSchema.
#[local] Open Scope Z_scope.

Definition PATTERN_0 : string → bool := whole expression_0.
Definition PATTERN_1 : string → bool := whole expression_1.
Definition PATTERN_2 : string → bool := whole expression_36.
Definition PATTERN_3 : string → bool := whole expression_34.

Definition validateIdentifier : json → string → list SchemaViolation :=
  checkString (of_lengths 1 64 (Some PATTERN_0)).
Definition validateTimestamp : json → string → list SchemaViolation :=
  checkString (of_lengths 20 30 (Some PATTERN_1)).
Definition validateResolvedUrl : json → string → list SchemaViolation :=
  checkString (of_lengths 1 2048 (Some PATTERN_2)).
Definition validateReasonText : json → string → list SchemaViolation :=
  checkString (of_lengths 1 512 (Some PATTERN_3)).
Definition validateMessageType : json → string → list SchemaViolation := checkString (of_values
     ["live.attached"; "live.frame"; "live.quality"; "live.quality_request"; "live.heartbeat";
     "live.viewer_heartbeat"; "live.session_state"; "live.error"]).
Definition validateErrorClass : json → string → list SchemaViolation := checkString (of_values
     ["PROTOCOL_UNSUPPORTED"; "AUTHENTICATION_REQUIRED"; "AUTHORISATION_DENIED"; "PROJECT_CONTEXT_MISMATCH";
     "RESOURCE_NOT_FOUND"; "BROWSER_CAPACITY_EXHAUSTED"; "BROWSER_SESSION_NOT_ACTIVE"; "POLICY_DENIED";
     "RATE_LIMITED"; "UNSUPPORTED_CAPABILITY"; "INTERNAL_ERROR"]).
Definition validateLiveMode : json → string → list SchemaViolation := checkString (of_values
     ["session_room"; "thumbnail"]).
Definition validateFrameFormat : json → string → list SchemaViolation := checkString (of_values
     ["image/jpeg"]).
Definition validateFrameRetention : json → string → list SchemaViolation := checkString (of_values
     ["never"]).
Definition validateSessionStatus : json → string → list SchemaViolation := checkString (of_values
     ["REQUESTED"; "ALLOCATING"; "READY"; "ACTIVE"; "PAUSED"; "DEGRADED"; "TERMINATING";
     "TERMINATED"; "FAILED"]).
Definition validateFailureState : json → string → list SchemaViolation := checkString (of_values
     ["not_authenticated"; "not_authorised_for_project"; "browser_session_not_found"; "browser_session_ended";
     "browser_worker_failed"; "live_capture_unavailable"; "viewer_rate_limited"; "control_plane_unavailable"]).
Definition validateQualityReason : json → string → list SchemaViolation := checkString (of_values
     ["initial"; "viewer_requested"; "viewer_falling_behind"; "viewer_keeping_up"; "mode_changed";
     "bounded_by_policy"]).
Definition validateViewportWidth : json → string → list SchemaViolation := checkInteger 240 3840.
Definition validateViewportHeight : json → string → list SchemaViolation := checkInteger 240 2160.
Definition validateViewportDeviceScaleFactor : json → string → list SchemaViolation := checkNumber 1 4.
Definition validateViewport (value : json) (path : string) : list SchemaViolation :=
  let '(found, source) := checkObject
    ["width"; "height"; "device_scale_factor"]
    ["width"; "height"; "device_scale_factor"] value path in
  match source with
  | None => found
  | Some source => found ++ concat [
      on_member validateViewportWidth "width" source path;
      on_member validateViewportHeight "height" source path;
      on_member validateViewportDeviceScaleFactor "device_scale_factor" source path]
  end.
Definition validateEnvelopeProtocolVersion : json → string → list SchemaViolation := checkInteger 1 1.
Definition validateEnvelopePayload : json → string → list SchemaViolation := checkPlainObject.
Definition validateEnvelope (value : json) (path : string) : list SchemaViolation :=
  let '(found, source) := checkObject
    ["protocol_version"; "message_id"; "type"; "sent_at"; "browser_session_id"; "stream_id"; "payload"]
    ["protocol_version"; "message_id"; "type"; "sent_at"; "payload"] value path in
  match source with
  | None => found
  | Some source => found ++ concat [
      on_member validateEnvelopeProtocolVersion "protocol_version" source path;
      on_member validateIdentifier "message_id" source path;
      on_member validateMessageType "type" source path;
      on_member validateTimestamp "sent_at" source path;
      on_member validateIdentifier "browser_session_id" source path;
      on_member validateIdentifier "stream_id" source path;
      on_member validateEnvelopePayload "payload" source path] ++ concat [
      (if matchesCondition (get_member "type" source) ["live.attached"; "live.frame"; "live.quality"; "live.heartbeat"; "live.session_state"]
       then concat [requireProperty source path "browser_session_id" "every server message that describes a running stream names both the session and the stream instance";
         requireProperty source path "stream_id" "every server message that describes a running stream names both the session and the stream instance"]
         ++ concat []
       else []);
      (if matchesCondition (get_member "type" source) ["live.frame"]
       then concat [requireProperty source path "browser_session_id" "frame metadata is bound to its browser session so a relayed frame cannot be attributed to another"]
         ++ concat []
       else [])]
  end.
Definition validateStreamAttachedMaxFrameBytes : json → string → list SchemaViolation := checkInteger 1024 4194304.
Definition validateStreamAttached (value : json) (path : string) : list SchemaViolation :=
  let '(found, source) := checkObject
    ["project_id"; "mode"; "format"; "retention"; "max_frame_bytes"; "attached_at"]
    ["project_id"; "mode"; "format"; "retention"; "max_frame_bytes"; "attached_at"] value path in
  match source with
  | None => found
  | Some source => found ++ concat [
      on_member validateIdentifier "project_id" source path;
      on_member validateLiveMode "mode" source path;
      on_member validateFrameFormat "format" source path;
      on_member validateFrameRetention "retention" source path;
      on_member validateStreamAttachedMaxFrameBytes "max_frame_bytes" source path;
      on_member validateTimestamp "attached_at" source path]
  end.
Definition validateFrameMetadataSequence : json → string → list SchemaViolation := checkInteger 0 4294967295.
Definition validateFrameMetadataWidth : json → string → list SchemaViolation := checkInteger 1 7680.
Definition validateFrameMetadataHeight : json → string → list SchemaViolation := checkInteger 1 4320.
Definition validateFrameMetadataQuality : json → string → list SchemaViolation := checkInteger 1 100.
Definition validateFrameMetadataByteLength : json → string → list SchemaViolation := checkInteger 1 4194304.
Definition validateFrameMetadataDroppedBefore : json → string → list SchemaViolation := checkInteger 0 4294967295.
Definition validateFrameMetadata (value : json) (path : string) : list SchemaViolation :=
  let '(found, source) := checkObject
    ["sequence"; "captured_at"; "mode"; "format"; "width"; "height"; "quality"; "byte_length"; "dropped_before"]
    ["sequence"; "captured_at"; "mode"; "format"; "width"; "height"; "quality"; "byte_length"; "dropped_before"] value path in
  match source with
  | None => found
  | Some source => found ++ concat [
      on_member validateFrameMetadataSequence "sequence" source path;
      on_member validateTimestamp "captured_at" source path;
      on_member validateLiveMode "mode" source path;
      on_member validateFrameFormat "format" source path;
      on_member validateFrameMetadataWidth "width" source path;
      on_member validateFrameMetadataHeight "height" source path;
      on_member validateFrameMetadataQuality "quality" source path;
      on_member validateFrameMetadataByteLength "byte_length" source path;
      on_member validateFrameMetadataDroppedBefore "dropped_before" source path]
  end.
Definition validateQualityStateTargetFps : json → string → list SchemaViolation := checkInteger 1 30.
Definition validateQualityStateQuality : json → string → list SchemaViolation := checkInteger 1 100.
Definition validateQualityStateMaxWidth : json → string → list SchemaViolation := checkInteger 1 7680.
Definition validateQualityStateMaxHeight : json → string → list SchemaViolation := checkInteger 1 4320.
Definition validateQualityState (value : json) (path : string) : list SchemaViolation :=
  let '(found, source) := checkObject
    ["mode"; "target_fps"; "quality"; "max_width"; "max_height"; "reason"; "decided_at"]
    ["mode"; "target_fps"; "quality"; "max_width"; "max_height"; "reason"; "decided_at"] value path in
  match source with
  | None => found
  | Some source => found ++ concat [
      on_member validateLiveMode "mode" source path;
      on_member validateQualityStateTargetFps "target_fps" source path;
      on_member validateQualityStateQuality "quality" source path;
      on_member validateQualityStateMaxWidth "max_width" source path;
      on_member validateQualityStateMaxHeight "max_height" source path;
      on_member validateQualityReason "reason" source path;
      on_member validateTimestamp "decided_at" source path]
  end.
Definition validateQualityRequestMaxFps : json → string → list SchemaViolation := checkInteger 1 30.
Definition validateQualityRequestMaxWidth : json → string → list SchemaViolation := checkInteger 1 7680.
Definition validateQualityRequestMaxHeight : json → string → list SchemaViolation := checkInteger 1 4320.
Definition validateQualityRequest (value : json) (path : string) : list SchemaViolation :=
  let '(found, source) := checkObject
    ["mode"; "max_fps"; "max_width"; "max_height"; "requested_at"]
    ["requested_at"] value path in
  match source with
  | None => found
  | Some source => found ++ concat [
      on_member validateLiveMode "mode" source path;
      on_member validateQualityRequestMaxFps "max_fps" source path;
      on_member validateQualityRequestMaxWidth "max_width" source path;
      on_member validateQualityRequestMaxHeight "max_height" source path;
      on_member validateTimestamp "requested_at" source path]
  end.
Definition validateStreamHeartbeatFramesSent : json → string → list SchemaViolation := checkInteger 0 4294967295.
Definition validateStreamHeartbeatFramesDropped : json → string → list SchemaViolation := checkInteger 0 4294967295.
Definition validateStreamHeartbeatBufferDepth : json → string → list SchemaViolation := checkInteger 0 64.
Definition validateStreamHeartbeatBufferCapacity : json → string → list SchemaViolation := checkInteger 1 64.
Definition validateStreamHeartbeatMeasuredFps : json → string → list SchemaViolation := checkNumber 0 240.
Definition validateStreamHeartbeat (value : json) (path : string) : list SchemaViolation :=
  let '(found, source) := checkObject
    ["observed_at"; "frames_sent"; "frames_dropped"; "buffer_depth"; "buffer_capacity"; "measured_fps"]
    ["observed_at"; "frames_sent"; "frames_dropped"; "buffer_depth"; "buffer_capacity"; "measured_fps"] value path in
  match source with
  | None => found
  | Some source => found ++ concat [
      on_member validateTimestamp "observed_at" source path;
      on_member validateStreamHeartbeatFramesSent "frames_sent" source path;
      on_member validateStreamHeartbeatFramesDropped "frames_dropped" source path;
      on_member validateStreamHeartbeatBufferDepth "buffer_depth" source path;
      on_member validateStreamHeartbeatBufferCapacity "buffer_capacity" source path;
      on_member validateStreamHeartbeatMeasuredFps "measured_fps" source path]
  end.
Definition validateViewerHeartbeatLastSequenceRendered : json → string → list SchemaViolation := checkInteger 0 4294967295.
Definition validateViewerHeartbeat (value : json) (path : string) : list SchemaViolation :=
  let '(found, source) := checkObject
    ["observed_at"; "last_sequence_rendered"]
    ["observed_at"] value path in
  match source with
  | None => found
  | Some source => found ++ concat [
      on_member validateTimestamp "observed_at" source path;
      on_member validateViewerHeartbeatLastSequenceRendered "last_sequence_rendered" source path]
  end.
Definition validateSessionStateControlEpoch : json → string → list SchemaViolation := checkInteger 0 2147483647.
Definition validateSessionStateLiveCapture : json → string → list SchemaViolation := checkBoolean.
Definition validateSessionState (value : json) (path : string) : list SchemaViolation :=
  let '(found, source) := checkObject
    ["status"; "url"; "viewport"; "control_epoch"; "live_capture"; "observed_at"]
    ["status"; "viewport"; "control_epoch"; "observed_at"] value path in
  match source with
  | None => found
  | Some source => found ++ concat [
      on_member validateSessionStatus "status" source path;
      on_member validateResolvedUrl "url" source path;
      on_member validateViewport "viewport" source path;
      on_member validateSessionStateControlEpoch "control_epoch" source path;
      on_member validateSessionStateLiveCapture "live_capture" source path;
      on_member validateTimestamp "observed_at" source path]
  end.
Definition validateLiveErrorRetryable : json → string → list SchemaViolation := checkBoolean.
Definition validateLiveErrorRetryAfterMs : json → string → list SchemaViolation := checkInteger 0 3600000.
Definition validateLiveError (value : json) (path : string) : list SchemaViolation :=
  let '(found, source) := checkObject
    ["code"; "state"; "message"; "retryable"; "retry_after_ms"]
    ["code"; "state"; "message"; "retryable"] value path in
  match source with
  | None => found
  | Some source => found ++ concat [
      on_member validateErrorClass "code" source path;
      on_member validateFailureState "state" source path;
      on_member validateReasonText "message" source path;
      on_member validateLiveErrorRetryable "retryable" source path;
      on_member validateLiveErrorRetryAfterMs "retry_after_ms" source path]
  end.

(** The definitions of the schema, with the functions generated for them. *)
Definition live_view_validators : list (Schema * (json → string → list SchemaViolation)) :=
  [(schema_identifier, validateIdentifier);
   (schema_timestamp, validateTimestamp);
   (schema_resolved_url, validateResolvedUrl);
   (schema_reason_text, validateReasonText);
   (schema_message_type, validateMessageType);
   (schema_error_class, validateErrorClass);
   (schema_live_mode, validateLiveMode);
   (schema_frame_format, validateFrameFormat);
   (schema_frame_retention, validateFrameRetention);
   (schema_session_status, validateSessionStatus);
   (schema_failure_state, validateFailureState);
   (schema_quality_reason, validateQualityReason);
   (schema_viewport, validateViewport);
   (schema_envelope, validateEnvelope);
   (schema_stream_attached, validateStreamAttached);
   (schema_frame_metadata, validateFrameMetadata);
   (schema_quality_state, validateQualityState);
   (schema_quality_request, validateQualityRequest);
   (schema_stream_heartbeat, validateStreamHeartbeat);
   (schema_viewer_heartbeat, validateViewerHeartbeat);
   (schema_session_state, validateSessionState);
   (schema_live_error, validateLiveError)].

Lemma live_view_generated :
  Forall (λ e, ∀ value path, e.2 value path = violations e.1 value path) live_view_validators.
Proof. repeat (apply Forall_cons_2; [intros value path; reflexivity|]). apply Forall_nil_2. Qed.
