(* ===== verification/LiveViewCodec.v ===== *)
(** * The types and the codec of the live-view protocol
    ([src/packages/protocol/src/generated/live_view/v1/types.ts], [encode.ts], [decode.ts]
    and [dispatch.ts])

    The vocabularies, the bounds of the payloads and the types of the generated
    code, and the messages of the schema; the generated encoders and decoders as
    they stand, each after those it calls, with the table of those that the schema's
    objects have; and the dispatch on the type of a message. *)

From S2P Require Import Prelude StableJson Validation Schema LiveViewSchema LiveViewValidate Codec.

(** ** Types *)

Definition MESSAGE_TYPE_VALUES : list string :=
  ["live.attached"; "live.frame"; "live.quality"; "live.quality_request"; "live.heartbeat";
   "live.viewer_heartbeat"; "live.session_state"; "live.error"].
Definition ERROR_CLASS_VALUES : list string :=
  ["PROTOCOL_UNSUPPORTED"; "AUTHENTICATION_REQUIRED"; "AUTHORISATION_DENIED"; "PROJECT_CONTEXT_MISMATCH";
   "RESOURCE_NOT_FOUND"; "BROWSER_CAPACITY_EXHAUSTED"; "BROWSER_SESSION_NOT_ACTIVE"; "POLICY_DENIED";
   "RATE_LIMITED"; "UNSUPPORTED_CAPABILITY"; "INTERNAL_ERROR"].
Definition LIVE_MODE_VALUES : list string :=
  ["session_room"; "thumbnail"].
Definition FRAME_FORMAT_VALUES : list string :=
  ["image/jpeg"].
Definition FRAME_RETENTION_VALUES : list string :=
  ["never"].
Definition SESSION_STATUS_VALUES : list string :=
  ["REQUESTED"; "ALLOCATING"; "READY"; "ACTIVE"; "PAUSED"; "DEGRADED"; "TERMINATING"; "TERMINATED"; "FAILED"].
Definition FAILURE_STATE_VALUES : list string :=
  ["not_authenticated"; "not_authorised_for_project"; "browser_session_not_found"; "browser_session_ended";
   "browser_worker_failed"; "live_capture_unavailable"; "viewer_rate_limited"; "control_plane_unavailable"].
Definition QUALITY_REASON_VALUES : list string :=
  ["initial"; "viewer_requested"; "viewer_falling_behind"; "viewer_keeping_up"; "mode_changed";
   "bounded_by_policy"].
Definition PAYLOAD_MAX_BYTES : list (string * Z) :=
  [("live.attached", 2048%Z);
   ("live.frame", 1024%Z);
   ("live.quality", 1024%Z);
   ("live.quality_request", 512%Z);
   ("live.heartbeat", 1024%Z);
   ("live.viewer_heartbeat", 512%Z);
   ("live.session_state", 4096%Z);
   ("live.error", 1024%Z)].
Definition Identifier : json → Prop := string_type.
Definition Timestamp : json → Prop := string_type.
Definition ResolvedUrl : json → Prop := string_type.
Definition ReasonText : json → Prop := string_type.
Definition MessageType : json → Prop := union_type
  ["live.attached"; "live.frame"; "live.quality"; "live.quality_request"; "live.heartbeat";
   "live.viewer_heartbeat"; "live.session_state"; "live.error"].
Definition ErrorClass : json → Prop := union_type
  ["PROTOCOL_UNSUPPORTED"; "AUTHENTICATION_REQUIRED"; "AUTHORISATION_DENIED"; "PROJECT_CONTEXT_MISMATCH";
   "RESOURCE_NOT_FOUND"; "BROWSER_CAPACITY_EXHAUSTED"; "BROWSER_SESSION_NOT_ACTIVE"; "POLICY_DENIED";
   "RATE_LIMITED"; "UNSUPPORTED_CAPABILITY"; "INTERNAL_ERROR"].
Definition LiveMode : json → Prop := union_type
  ["session_room"; "thumbnail"].
Definition FrameFormat : json → Prop := union_type
  ["image/jpeg"].
Definition FrameRetention : json → Prop := union_type
  ["never"].
Definition SessionStatus : json → Prop := union_type
  ["REQUESTED"; "ALLOCATING"; "READY"; "ACTIVE"; "PAUSED"; "DEGRADED"; "TERMINATING"; "TERMINATED"; "FAILED"].
Definition FailureState : json → Prop := union_type
  ["not_authenticated"; "not_authorised_for_project"; "browser_session_not_found"; "browser_session_ended";
   "browser_worker_failed"; "live_capture_unavailable"; "viewer_rate_limited"; "control_plane_unavailable"].
Definition QualityReason : json → Prop := union_type
  ["initial"; "viewer_requested"; "viewer_falling_behind"; "viewer_keeping_up"; "mode_changed";
   "bounded_by_policy"].
Definition Viewport : json → Prop := interface_type [
    has "width" number_type;
    has "height" number_type;
    has "device_scale_factor" number_type].
Definition Envelope : json → Prop := interface_type [
    has "protocol_version" number_type;
    has "message_id" Identifier;
    has "type" MessageType;
    has "sent_at" Timestamp;
    may_have "browser_session_id" Identifier;
    may_have "stream_id" Identifier].
Definition StreamAttached : json → Prop := interface_type [
    has "project_id" Identifier;
    has "mode" LiveMode;
    has "format" FrameFormat;
    has "retention" FrameRetention;
    has "max_frame_bytes" number_type;
    has "attached_at" Timestamp].
Definition FrameMetadata : json → Prop := interface_type [
    has "sequence" number_type;
    has "captured_at" Timestamp;
    has "mode" LiveMode;
    has "format" FrameFormat;
    has "width" number_type;
    has "height" number_type;
    has "quality" number_type;
    has "byte_length" number_type;
    has "dropped_before" number_type].
Definition QualityState : json → Prop := interface_type [
    has "mode" LiveMode;
    has "target_fps" number_type;
    has "quality" number_type;
    has "max_width" number_type;
    has "max_height" number_type;
    has "reason" QualityReason;
    has "decided_at" Timestamp].
Definition QualityRequest : json → Prop := interface_type [
    may_have "mode" LiveMode;
    may_have "max_fps" number_type;
    may_have "max_width" number_type;
    may_have "max_height" number_type;
    has "requested_at" Timestamp].
Definition StreamHeartbeat : json → Prop := interface_type [
    has "observed_at" Timestamp;
    has "frames_sent" number_type;
    has "frames_dropped" number_type;
    has "buffer_depth" number_type;
    has "buffer_capacity" number_type;
    has "measured_fps" number_type].
Definition ViewerHeartbeat : json → Prop := interface_type [
    has "observed_at" Timestamp;
    may_have "last_sequence_rendered" number_type].
Definition SessionState : json → Prop := interface_type [
    has "status" SessionStatus;
    may_have "url" ResolvedUrl;
    has "viewport" Viewport;
    has "control_epoch" number_type;
    may_have "live_capture" boolean_type;
    has "observed_at" Timestamp].
Definition LiveError : json → Prop := interface_type [
    has "code" ErrorClass;
    has "state" FailureState;
    has "message" ReasonText;
    has "retryable" boolean_type;
    may_have "retry_after_ms" number_type].

(** [x-protocol.messages] *)
Definition live_view_messages : list (string * Schema) :=
  [("live.attached", schema_stream_attached);
   ("live.frame", schema_frame_metadata);
   ("live.quality", schema_quality_state);
   ("live.quality_request", schema_quality_request);
   ("live.heartbeat", schema_stream_heartbeat);
   ("live.viewer_heartbeat", schema_viewer_heartbeat);
   ("live.session_state", schema_session_state);
   ("live.error", schema_live_error)].

(** ** Encoders, decoders and dispatch *)

Definition encodeViewport (value : option json) : result string string := object_text [
    push_field "width" jsonInteger value;
    push_field "height" jsonInteger value;
    push_field "device_scale_factor" jsonNumber value].
Definition encodeEnvelope (value : option json) (payloadJson : string) : result string string := object_text [
    push_field "protocol_version" jsonInteger value;
    push_field "message_id" jsonString value;
    push_field "type" jsonString value;
    push_field "sent_at" jsonString value;
    push_optional "browser_session_id" jsonString value;
    push_optional "stream_id" jsonString value;
    push_text "payload" payloadJson].
Definition encodeStreamAttached (value : option json) : result string string := object_text [
    push_field "project_id" jsonString value;
    push_field "mode" jsonString value;
    push_field "format" jsonString value;
    push_field "retention" jsonString value;
    push_field "max_frame_bytes" jsonInteger value;
    push_field "attached_at" jsonString value].
Definition encodeFrameMetadata (value : option json) : result string string := object_text [
    push_field "sequence" jsonInteger value;
    push_field "captured_at" jsonString value;
    push_field "mode" jsonString value;
    push_field "format" jsonString value;
    push_field "width" jsonInteger value;
    push_field "height" jsonInteger value;
    push_field "quality" jsonInteger value;
    push_field "byte_length" jsonInteger value;
    push_field "dropped_before" jsonInteger value].
Definition encodeQualityState (value : option json) : result string string := object_text [
    push_field "mode" jsonString value;
    push_field "target_fps" jsonInteger value;
    push_field "quality" jsonInteger value;
    push_field "max_width" jsonInteger value;
    push_field "max_height" jsonInteger value;
    push_field "reason" jsonString value;
    push_field "decided_at" jsonString value].
Definition encodeQualityRequest (value : option json) : result string string := object_text [
    push_optional "mode" jsonString value;
    push_optional "max_fps" jsonInteger value;
    push_optional "max_width" jsonInteger value;
    push_optional "max_height" jsonInteger value;
    push_field "requested_at" jsonString value].
Definition encodeStreamHeartbeat (value : option json) : result string string := object_text [
    push_field "observed_at" jsonString value;
    push_field "frames_sent" jsonInteger value;
    push_field "frames_dropped" jsonInteger value;
    push_field "buffer_depth" jsonInteger value;
    push_field "buffer_capacity" jsonInteger value;
    push_field "measured_fps" jsonNumber value].
Definition encodeViewerHeartbeat (value : option json) : result string string := object_text [
    push_field "observed_at" jsonString value;
    push_optional "last_sequence_rendered" jsonInteger value].
Definition encodeSessionState (value : option json) : result string string := object_text [
    push_field "status" jsonString value;
    push_optional "url" jsonString value;
    push_field "viewport" encodeViewport value;
    push_field "control_epoch" jsonInteger value;
    push_optional "live_capture" jsonBoolean value;
    push_field "observed_at" jsonString value].
Definition encodeLiveError (value : option json) : result string string := object_text [
    push_field "code" jsonString value;
    push_field "state" jsonString value;
    push_field "message" jsonString value;
    push_field "retryable" jsonBoolean value;
    push_optional "retry_after_ms" jsonInteger value].

Definition decodeViewport : json → result string json := read_object (λ source, [
    cast_field "width" as_is source;
    cast_field "height" as_is source;
    cast_field "device_scale_factor" as_is source]).
Definition decodeEnvelope : json → result string json := read_object (λ source, [
    cast_field "protocol_version" as_is source;
    cast_field "message_id" as_is source;
    cast_field "type" as_is source;
    cast_field "sent_at" as_is source;
    optional_field "browser_session_id" as_is source;
    optional_field "stream_id" as_is source]).
Definition decodeStreamAttached : json → result string json := read_object (λ source, [
    cast_field "project_id" as_is source;
    cast_field "mode" as_is source;
    cast_field "format" as_is source;
    cast_field "retention" as_is source;
    cast_field "max_frame_bytes" as_is source;
    cast_field "attached_at" as_is source]).
Definition decodeFrameMetadata : json → result string json := read_object (λ source, [
    cast_field "sequence" as_is source;
    cast_field "captured_at" as_is source;
    cast_field "mode" as_is source;
    cast_field "format" as_is source;
    cast_field "width" as_is source;
    cast_field "height" as_is source;
    cast_field "quality" as_is source;
    cast_field "byte_length" as_is source;
    cast_field "dropped_before" as_is source]).
Definition decodeQualityState : json → result string json := read_object (λ source, [
    cast_field "mode" as_is source;
    cast_field "target_fps" as_is source;
    cast_field "quality" as_is source;
    cast_field "max_width" as_is source;
    cast_field "max_height" as_is source;
    cast_field "reason" as_is source;
    cast_field "decided_at" as_is source]).
Definition decodeQualityRequest : json → result string json := read_object (λ source, [
    optional_field "mode" as_is source;
    optional_field "max_fps" as_is source;
    optional_field "max_width" as_is source;
    optional_field "max_height" as_is source;
    cast_field "requested_at" as_is source]).
Definition decodeStreamHeartbeat : json → result string json := read_object (λ source, [
    cast_field "observed_at" as_is source;
    cast_field "frames_sent" as_is source;
    cast_field "frames_dropped" as_is source;
    cast_field "buffer_depth" as_is source;
    cast_field "buffer_capacity" as_is source;
    cast_field "measured_fps" as_is source]).
Definition decodeViewerHeartbeat : json → result string json := read_object (λ source, [
    cast_field "observed_at" as_is source;
    optional_field "last_sequence_rendered" as_is source]).
Definition decodeSessionState : json → result string json := read_object (λ source, [
    cast_field "status" as_is source;
    optional_field "url" as_is source;
    read_field "viewport" decodeViewport source;
    cast_field "control_epoch" as_is source;
    optional_field "live_capture" as_is source;
    cast_field "observed_at" as_is source]).
Definition decodeLiveError : json → result string json := read_object (λ source, [
    cast_field "code" as_is source;
    cast_field "state" as_is source;
    cast_field "message" as_is source;
    cast_field "retryable" as_is source;
    optional_field "retry_after_ms" as_is source]).

Definition validatePayload (type : string) (value : json) (path : string) : list SchemaViolation :=
  if String.eqb type "live.attached" then validateStreamAttached value path else
  if String.eqb type "live.frame" then validateFrameMetadata value path else
  if String.eqb type "live.quality" then validateQualityState value path else
  if String.eqb type "live.quality_request" then validateQualityRequest value path else
  if String.eqb type "live.heartbeat" then validateStreamHeartbeat value path else
  if String.eqb type "live.viewer_heartbeat" then validateViewerHeartbeat value path else
  if String.eqb type "live.session_state" then validateSessionState value path else
  if String.eqb type "live.error" then validateLiveError value path else
  [].
(** The payload of the frame; a type of no message gives no frame. *)
Definition decodeFrame (type : string) (value : json) : option (result string json) :=
  if String.eqb type "live.attached" then Some (decodeStreamAttached value) else
  if String.eqb type "live.frame" then Some (decodeFrameMetadata value) else
  if String.eqb type "live.quality" then Some (decodeQualityState value) else
  if String.eqb type "live.quality_request" then Some (decodeQualityRequest value) else
  if String.eqb type "live.heartbeat" then Some (decodeStreamHeartbeat value) else
  if String.eqb type "live.viewer_heartbeat" then Some (decodeViewerHeartbeat value) else
  if String.eqb type "live.session_state" then Some (decodeSessionState value) else
  if String.eqb type "live.error" then Some (decodeLiveError value) else
  None.
Definition encodeFramePayload (type : string) (payload : option json) : option (result string string) :=
  if String.eqb type "live.attached" then Some (encodeStreamAttached payload) else
  if String.eqb type "live.frame" then Some (encodeFrameMetadata payload) else
  if String.eqb type "live.quality" then Some (encodeQualityState payload) else
  if String.eqb type "live.quality_request" then Some (encodeQualityRequest payload) else
  if String.eqb type "live.heartbeat" then Some (encodeStreamHeartbeat payload) else
  if String.eqb type "live.viewer_heartbeat" then Some (encodeViewerHeartbeat payload) else
  if String.eqb type "live.session_state" then Some (encodeSessionState payload) else
  if String.eqb type "live.error" then Some (encodeLiveError payload) else
  None.

(** The objects of the schema, with the type and the functions generated for
    them. *)
Definition live_view_codec : list Coded :=
  [coded schema_viewport Viewport validateViewport encodeViewport decodeViewport;
   coded schema_stream_attached StreamAttached validateStreamAttached encodeStreamAttached decodeStreamAttached;
   coded schema_frame_metadata FrameMetadata validateFrameMetadata encodeFrameMetadata decodeFrameMetadata;
   coded schema_quality_state QualityState validateQualityState encodeQualityState decodeQualityState;
   coded schema_quality_request QualityRequest validateQualityRequest encodeQualityRequest decodeQualityRequest;
   coded schema_stream_heartbeat StreamHeartbeat validateStreamHeartbeat encodeStreamHeartbeat decodeStreamHeartbeat;
   coded schema_viewer_heartbeat ViewerHeartbeat validateViewerHeartbeat encodeViewerHeartbeat decodeViewerHeartbeat;
   coded schema_session_state SessionState validateSessionState encodeSessionState decodeSessionState;
   coded schema_live_error LiveError validateLiveError encodeLiveError decodeLiveError].

Lemma live_view_codec_generated : Forall codes live_view_codec.
Proof. repeat (apply Forall_cons_2; [by repeat split|]). apply Forall_nil_2. Qed.
(** The envelope, whose payload is text that was encoded before. *)
Lemma live_view_envelope_generated value text value' :
  encodeEnvelope value text = encoding text schema_envelope value
  ∧ (∀ source, decodeEnvelope source = decoding schema_envelope source)
  ∧ Envelope value' = typing schema_envelope value'.
Proof. by split. Qed.

(** The functions of the dispatch. *)
Definition live_view_dispatch : Dispatch :=
  {| payloads := live_view_messages; message_types := MESSAGE_TYPE_VALUES; validate_payload := validatePayload;
     decode_payload := decodeFrame; encode_payload := encodeFramePayload |}.
Lemma live_view_dispatch_generated : dispatches live_view_dispatch.
Proof.
  split; [reflexivity|]. repeat (apply Forall_cons_2; [by repeat split|]). apply Forall_nil_2.
Qed.
