(* ===== verification/McpSchema.v ===== *)
(** * The schemas of the MCP protocol
    ([src/packages/protocol/schemas/mcp/v1.schema.json])

    The definitions of the document, each after those it refers to. *)

From S2P Require Import Prelude Regex Schema Patterns.
#[local] Open Scope Z_scope.

Definition schema_identifier : Schema :=
  S_string 1 64 (Some expression_0).
Definition schema_request_id : Schema :=
  S_string 1 64 (Some expression_0).
Definition schema_idempotency_key : Schema :=
  S_string 8 128 (Some expression_56).
Definition schema_timestamp : Schema :=
  S_string 20 30 (Some expression_1).
Definition schema_slug : Schema :=
  S_string 1 64 (Some expression_33).
Definition schema_review_selector : Schema :=
  S_string 1 64 (Some expression_57).
Definition schema_project_hint : Schema :=
  S_string 1 64 (Some expression_57).
Definition schema_workspace_hint : Schema :=
  S_string 1 512 (Some expression_34).
Definition schema_client_name : Schema :=
  S_string 1 64 (Some expression_58).
Definition schema_client_version : Schema :=
  S_string 1 64 (Some expression_59).
Definition schema_title_text : Schema :=
  S_string 1 200 (Some expression_34).
Definition schema_body_text : Schema :=
  S_string 1 4000 (Some expression_35).
Definition schema_reason_text : Schema :=
  S_string 1 512 (Some expression_34).
Definition schema_captured_url : Schema :=
  S_string 1 2048 (Some expression_36).
Definition schema_navigation_target : Schema :=
  S_string 1 2048 (Some expression_50).
Definition schema_captured_text : Schema :=
  S_string 0 512 (Some expression_51).
Definition schema_snapshot_text : Schema :=
  S_string 0 32768 (Some expression_52).
Definition schema_element_reference : Schema :=
  S_string 2 8 (Some expression_53).
Definition schema_accessible_role : Schema :=
  S_string 1 64 (Some expression_54).
Definition schema_typed_text : Schema :=
  S_string 0 4096 (Some expression_52).
Definition schema_option_value : Schema :=
  S_string 0 512 (Some expression_51).
Definition schema_selector : Schema :=
  S_string 1 512 (Some expression_34).
Definition schema_url_pattern : Schema :=
  S_string 1 512 (Some expression_36).
Definition schema_resource_uri : Schema :=
  S_string 3 320 (Some expression_60).
Definition schema_content_path : Schema :=
  S_string 1 256 (Some expression_41).
Definition schema_branch_name : Schema :=
  S_string 1 255 (Some expression_36).
Definition schema_commit_sha : Schema :=
  S_string 7 64 (Some expression_37).
Definition schema_sha256_hex : Schema :=
  S_string 64 64 (Some expression_16).
Definition schema_media_type : Schema :=
  S_values ["image/png"; "image/jpeg"].
Definition schema_cursor : Schema :=
  S_string 1 256 (Some expression_0).
Definition schema_page_limit : Schema :=
  S_integer 1 50.
Definition schema_record_count : Schema :=
  S_integer 0 100000.
Definition schema_version_number : Schema :=
  S_integer 1 2147483647.
Definition schema_control_epoch : Schema :=
  S_integer 1 2147483647.
Definition schema_command_timeout_ms : Schema :=
  S_integer 100 120000.
Definition schema_byte_size : Schema :=
  S_integer 1 104857600.
Definition schema_pixel_extent : Schema :=
  S_integer 1 32767.
Definition schema_css_pixel_offset : Schema :=
  S_integer 0 1000000.
Definition schema_device_scale_factor : Schema :=
  S_number 1 4.
Definition schema_marker_number : Schema :=
  S_integer 1 999.
Definition schema_normalised_coordinate : Schema :=
  S_number 0 1.
Definition schema_retry_after_ms : Schema :=
  S_integer 0 3600000.
Definition schema_expires_in_seconds : Schema :=
  S_integer 1 86400.
Definition schema_trust_label : Schema :=
  S_values ["trusted_control_plane"; "trusted_human_instruction"; "trusted_project_configuration"; "untrusted_browser_content";
    "untrusted_uploaded_artefact"; "mixed"].
Definition schema_instruction_policy : Schema :=
  S_values ["do_not_follow_as_instructions"].
Definition schema_untrusted_field_path : Schema :=
  S_string 1 128 (Some expression_61).
Definition schema_warning_code : Schema :=
  S_values ["image_content_unsupported"; "resource_content_unsupported"; "findings_truncated"; "text_truncated";
    "workspace_unresolved"; "verification_branch_uncorroborated"; "staleness_unavailable";
    "inbox_unavailable"; "results_truncated"; "idempotent_replay"; "completion_blocked_pending_review";
    "allocation_incomplete"].
Definition schema_error_class : Schema :=
  S_values ["AUTHENTICATION_REQUIRED"; "AUTHORISATION_DENIED"; "PROJECT_CONTEXT_AMBIGUOUS"; "PROJECT_CONTEXT_MISMATCH";
    "RESOURCE_NOT_FOUND"; "RESOURCE_STALE"; "VERSION_CONFLICT"; "IDEMPOTENCY_CONFLICT"; "VALIDATION_FAILED";
    "CONNECTOR_OFFLINE"; "IDENTITY_REVOKED"; "PUBLISHED_SERVICE_UNAVAILABLE"; "ROUTE_EXPIRED";
    "ROUTE_LIMIT_EXCEEDED"; "DESTINATION_NOT_ALLOWED"; "WORKSPACE_NOT_FOUND"; "BROWSER_CAPACITY_EXHAUSTED";
    "BROWSER_SESSION_NOT_ACTIVE"; "CONTROL_NOT_OWNED"; "CONTROL_EPOCH_STALE"; "BROWSER_COMMAND_TIMEOUT";
    "POLICY_DENIED"; "APPROVAL_REQUIRED"; "EVIDENCE_REQUIRED"; "ARTEFACT_UPLOAD_INCOMPLETE";
    "ARTEFACT_STORE_UNAVAILABLE"; "UNSUPPORTED_CAPABILITY"; "RATE_LIMITED"; "INTERNAL_ERROR"].
Definition schema_message_type : Schema :=
  S_values ["project_current"; "agent_session_status"; "agent_inbox_list"; "agent_inbox_acknowledge";
    "review_list"; "review_search"; "review_get"; "review_claim"; "review_update_status";
    "review_add_comment"; "finding_get"; "finding_claim"; "finding_update_status"; "finding_mark_blocked";
    "finding_add_comment"; "finding_submit_verification"; "browser_take_screenshot"; "browser_session_start";
    "browser_session_allocate"; "browser_session_status"; "browser_session_pause"; "browser_session_resume";
    "browser_session_end"; "browser_navigate"; "browser_snapshot"; "browser_click"; "browser_type";
    "browser_select_option"; "browser_press_key"; "browser_scroll"; "browser_resize"; "browser_wait";
    "development_services_list"; "development_service_publish"; "development_service_unpublish";
    "task_validation_status"; "task_complete"].
Definition schema_agent_capability : Schema :=
  S_values ["project:read"; "review:read"; "review:write"; "finding:read"; "finding:write"; "verification:submit";
    "browser:capture"; "service:publish"; "browser:control"].
Definition schema_browser_lifecycle_status : Schema :=
  S_values ["REQUESTED"; "ALLOCATING"; "READY"; "ACTIVE"; "PAUSED"; "DEGRADED"; "TERMINATING"; "TERMINATED"; "FAILED"].
Definition schema_connector_status : Schema :=
  S_values ["PENDING_ENROLMENT"; "ACTIVE"; "DEGRADED"; "DISCONNECTED"; "REVOKED"].
Definition schema_agent_session_state : Schema :=
  S_values ["STARTING"; "ACTIVE"; "WAITING"; "BLOCKED"; "DISCONNECTED"; "COMPLETED"; "FAILED"; "CANCELLED"].
Definition schema_review_priority : Schema :=
  S_values ["critical"; "high"; "medium"; "low"].
Definition schema_search_query : Schema :=
  S_string 2 128 (Some expression_34).
Definition schema_inbox_item_status : Schema :=
  S_values ["pending"; "acknowledged"; "completed"; "dismissed"; "expired"].
Definition schema_inbox_item_type : Schema :=
  S_values ["review_assigned"; "finding_reopened"].
Definition schema_review_status : Schema :=
  S_values ["DRAFT"; "READY"; "ASSIGNED"; "IN_PROGRESS"; "AWAITING_HUMAN_REVIEW"; "CHANGES_REQUESTED";
    "ACCEPTED"; "CANCELLED"; "ARCHIVED"].
Definition schema_agent_review_status : Schema :=
  S_values ["IN_PROGRESS"; "AWAITING_HUMAN_REVIEW"].
Definition schema_finding_status : Schema :=
  S_values ["OPEN"; "CLAIMED"; "IN_PROGRESS"; "BLOCKED"; "FIXED_UNVERIFIED"; "AWAITING_HUMAN_REVIEW";
    "RESOLVED"; "REOPENED"; "WONT_FIX"; "DUPLICATE"].
Definition schema_agent_finding_status : Schema :=
  S_values ["CLAIMED"; "IN_PROGRESS"; "BLOCKED"; "FIXED_UNVERIFIED"; "AWAITING_HUMAN_REVIEW"].
Definition schema_finding_severity : Schema :=
  S_values ["critical"; "high"; "medium"; "low"; "suggestion"].
Definition schema_finding_source : Schema :=
  S_values ["human"; "agent"].
Definition schema_annotation_type : Schema :=
  S_values ["rectangle"; "ellipse"; "arrow"; "point"; "numbered_marker"; "freehand"].
Definition schema_artefact_kind : Schema :=
  S_values ["screenshot"; "thumbnail"; "trace"; "dom_snapshot"; "console_log"; "network_log"].
Definition schema_verification_status : Schema :=
  S_values ["submitted"; "accepted"; "rejected"; "superseded"].
Definition schema_actor_type : Schema :=
  S_values ["human_user"; "agent_session"; "connector"; "browser_worker"; "system"; "integration"].
Definition schema_key_name : Schema :=
  S_values ["Enter"; "Tab"; "Shift+Tab"; "Escape"; "Backspace"; "Delete"; "Home"; "End"; "PageUp"; "PageDown";
    "ArrowUp"; "ArrowDown"; "ArrowLeft"; "ArrowRight"; "Space"].
Definition schema_scroll_direction : Schema :=
  S_values ["up"; "down"; "left"; "right"].
Definition schema_wait_until : Schema :=
  S_values ["commit"; "domcontentloaded"; "load"; "networkidle"].
Definition schema_wait_condition : Schema :=
  S_values ["url_matches"; "selector_visible"; "selector_hidden"; "text_visible"; "network_idle"].
Definition schema_browser_command_name : Schema :=
  S_values ["navigate"; "snapshot"; "click"; "type_text"; "select_option"; "press_key"; "scroll"; "resize";
    "wait"; "take_screenshot"].
Definition schema_screenshot_purpose : Schema :=
  S_values ["verification"].
Definition schema_review_include : Schema :=
  S_values ["findings"; "comments"; "artefact_links"; "staleness"].
Definition schema_review_search_field : Schema :=
  S_values ["title"; "slug"; "description"; "finding"].
Definition schema_finding_include : Schema :=
  S_values ["annotations"; "comments"; "verification"; "artefact_links"].
Definition schema_session_include : Schema :=
  S_values ["browser_sessions"; "capabilities"].
Definition schema_actor_reference : Schema :=
  S_object
    [("type", schema_actor_type);
     ("id", schema_identifier);
     ("display", schema_reason_text)]
    ["type"]
    [].
Definition schema_viewport : Schema :=
  S_object
    [("width", (S_integer 240 3840));
     ("height", (S_integer 240 2160));
     ("device_scale_factor", schema_device_scale_factor)]
    ["width"; "height"; "device_scale_factor"]
    [].
Definition schema_scroll_position : Schema :=
  S_object
    [("x", schema_css_pixel_offset);
     ("y", schema_css_pixel_offset)]
    ["x"; "y"]
    [].
Definition schema_content_rectangle : Schema :=
  S_object
    [("width_px", schema_pixel_extent);
     ("height_px", schema_pixel_extent)]
    ["width_px"; "height_px"]
    [].
Definition schema_annotation_path_point : Schema :=
  S_object
    [("x", schema_normalised_coordinate);
     ("y", schema_normalised_coordinate)]
    ["x"; "y"]
    [].
Definition schema_annotation_geometry : Schema :=
  S_object
    [("x", schema_normalised_coordinate);
     ("y", schema_normalised_coordinate);
     ("width", schema_normalised_coordinate);
     ("height", schema_normalised_coordinate);
     ("x2", schema_normalised_coordinate);
     ("y2", schema_normalised_coordinate);
     ("rotation", schema_normalised_coordinate);
     ("path", (S_array 2 128 false schema_annotation_path_point))]
    ["x"; "y"]
    [].
Definition schema_element_context_view : Schema :=
  S_object
    [("selector", schema_reason_text);
     ("selector_strategy", (S_values ["testid"; "role"; "text"; "css"; "xpath"]));
     ("role", schema_reason_text);
     ("accessible_name", schema_reason_text);
     ("text_excerpt", schema_reason_text);
     ("dom_fingerprint", schema_sha256_hex)]
    []
    [].
Definition schema_project_reference : Schema :=
  S_object
    [("id", schema_identifier);
     ("slug", schema_slug);
     ("name", schema_title_text)]
    ["id"; "slug"]
    [].
Definition schema_workspace_reference : Schema :=
  S_object
    [("id", schema_identifier);
     ("root_path", schema_workspace_hint);
     ("branch", schema_branch_name);
     ("head_commit", schema_commit_sha);
     ("dirty", S_boolean)]
    ["id"; "branch"; "head_commit"]
    [].
Definition schema_policy_summary : Schema :=
  S_object
    [("agent_may_accept_findings", S_boolean);
     ("verification_required", S_boolean);
     ("secret_tools_available", S_boolean);
     ("required_viewports", (S_array 1 8 false schema_reason_text))]
    ["agent_may_accept_findings"; "verification_required"; "secret_tools_available"; "required_viewports"]
    [].
Definition schema_server_capabilities : Schema :=
  S_object
    [("browser_live", S_boolean);
     ("image_resources", S_boolean);
     ("human_takeover", S_boolean);
     ("review_inbox", S_boolean);
     ("managed_messages", S_boolean);
     ("session_resume", S_boolean)]
    ["browser_live"; "image_resources"; "human_takeover"; "review_inbox"; "managed_messages"; "session_resume"]
    [].
Definition schema_client_capabilities : Schema :=
  S_object
    [("resources", S_boolean);
     ("image_content", S_boolean);
     ("managed_messages", S_boolean);
     ("session_resume", S_boolean)]
    []
    [].
Definition schema_warning : Schema :=
  S_object
    [("code", schema_warning_code);
     ("message", schema_reason_text);
     ("detail", schema_reason_text)]
    ["code"; "message"]
    [].
Definition schema_error_details : Schema :=
  S_object
    [("current_version", schema_version_number);
     ("expected_version", schema_version_number);
     ("current_epoch", schema_control_epoch);
     ("field", schema_reason_text);
     ("candidates", (S_array 1 32 false schema_project_reference));
     ("required_evidence", (S_array 1 16 false schema_reason_text));
     ("allowed_transitions", (S_array 1 16 false schema_reason_text));
     ("retry_after_ms", schema_retry_after_ms);
     ("browser_session_status", schema_browser_lifecycle_status);
     ("detected", schema_reason_text);
     ("published_service_id", schema_identifier);
     ("connector_status", schema_connector_status)]
    []
    [].
Definition schema_tool_error : Schema :=
  S_object
    [("code", schema_error_class);
     ("message", schema_reason_text);
     ("retryable", S_boolean);
     ("details", schema_error_details)]
    ["code"; "message"; "retryable"]
    [].
Definition schema_artefact_link : Schema :=
  S_object
    [("artefact_id", schema_identifier);
     ("kind", schema_artefact_kind);
     ("role", schema_reason_text);
     ("resource_uri", schema_resource_uri);
     ("content_path", schema_content_path);
     ("expires_at", schema_timestamp);
     ("content_type", schema_media_type);
     ("sha256", schema_sha256_hex);
     ("size_bytes", schema_byte_size);
     ("content_rectangle", schema_content_rectangle);
     ("trust", schema_trust_label);
     ("instruction_policy", schema_instruction_policy)]
    ["artefact_id"; "kind"; "resource_uri"; "content_type"; "trust"; "instruction_policy"]
    [].
Definition schema_annotation_view : Schema :=
  S_object
    [("id", schema_identifier);
     ("artefact_id", schema_identifier);
     ("type", schema_annotation_type);
     ("geometry", schema_annotation_geometry);
     ("label", schema_title_text);
     ("marker_number", schema_marker_number)]
    ["id"; "artefact_id"; "type"; "geometry"; "label"]
    [].
Definition schema_comment_view : Schema :=
  S_object
    [("id", schema_identifier);
     ("review_id", schema_identifier);
     ("finding_id", schema_identifier);
     ("body", schema_body_text);
     ("author", schema_actor_reference);
     ("created_at", schema_timestamp)]
    ["id"; "review_id"; "body"; "author"; "created_at"]
    [].
Definition schema_inbox_item_view : Schema :=
  S_object
    [("id", schema_identifier);
     ("project_id", schema_identifier);
     ("type", schema_inbox_item_type);
     ("title", schema_title_text);
     ("status", schema_inbox_item_status);
     ("review_id", schema_identifier);
     ("review_slug", schema_slug);
     ("finding_id", schema_identifier);
     ("priority", schema_review_priority);
     ("finding_count", schema_record_count);
     ("assigned_by", schema_actor_reference);
     ("created_at", schema_timestamp);
     ("acknowledged_at", schema_timestamp);
     ("completed_at", schema_timestamp)]
    ["id"; "project_id"; "type"; "title"; "status"; "created_at"]
    [].
Definition schema_review_staleness : Schema :=
  S_object
    [("computed", S_false);
     ("captured_branch", schema_branch_name);
     ("captured_commit", schema_commit_sha);
     ("workspace_branch", schema_branch_name);
     ("workspace_head_commit", schema_commit_sha)]
    ["computed"; "captured_branch"; "captured_commit"]
    [].
Definition schema_review_view : Schema :=
  S_object
    [("id", schema_identifier);
     ("project_id", schema_identifier);
     ("slug", schema_slug);
     ("title", schema_title_text);
     ("description", schema_body_text);
     ("status", schema_review_status);
     ("version", schema_version_number);
     ("captured_branch", schema_branch_name);
     ("captured_commit", schema_commit_sha);
     ("captured_workspace_id", schema_identifier);
     ("source_browser_session_id", schema_identifier);
     ("claimed_by", schema_actor_reference);
     ("finding_count", schema_record_count);
     ("resource_uri", schema_resource_uri);
     ("created_at", schema_timestamp);
     ("updated_at", schema_timestamp)]
    ["id"; "project_id"; "slug"; "title"; "status"; "version"; "captured_branch"; "captured_commit";
     "captured_workspace_id"; "finding_count"; "resource_uri"; "created_at"; "updated_at"]
    [].
Definition schema_review_search_match : Schema :=
  S_object
    [("review", schema_review_view);
     ("matched", (S_array 1 4 true schema_review_search_field))]
    ["review"; "matched"]
    [].
Definition schema_verification_checks : Schema :=
  S_object
    [("reproduced_before", S_boolean);
     ("console_errors_reviewed", S_boolean);
     ("network_failures_reviewed", S_boolean);
     ("accessibility_checked", S_boolean)]
    ["reproduced_before"; "console_errors_reviewed"; "network_failures_reviewed"]
    [].
Definition schema_requirement_label : Schema :=
  S_string 1 120 (Some expression_40).
Definition schema_evidence_assurance : Schema :=
  S_object
    [("verified_by_control_plane", (S_array 0 12 false schema_requirement_label));
     ("asserted_by_agent", (S_array 0 12 false schema_requirement_label));
     ("asserted_by", schema_actor_reference)]
    ["verified_by_control_plane"; "asserted_by_agent"]
    [].
Definition schema_verification_view : Schema :=
  S_object
    [("verification_id", schema_identifier);
     ("finding_id", schema_identifier);
     ("status", schema_verification_status);
     ("summary", schema_body_text);
     ("branch", schema_branch_name);
     ("commit", schema_commit_sha);
     ("tested_viewports", (S_array 1 8 false schema_viewport));
     ("checks", schema_verification_checks);
     ("assurance", schema_evidence_assurance);
     ("artefacts", (S_array 1 16 false schema_artefact_link));
     ("submitted_by", schema_actor_reference);
     ("submitted_at", schema_timestamp);
     ("supersedes_verification_id", schema_identifier);
     ("superseded_by_verification_id", schema_identifier);
     ("superseded_at", schema_timestamp)]
    ["verification_id"; "finding_id"; "status"; "summary"; "branch"; "commit"; "tested_viewports";
     "checks"; "submitted_by"; "submitted_at"]
    [].
Definition schema_finding_view : Schema :=
  S_object
    [("id", schema_identifier);
     ("review_id", schema_identifier);
     ("title", schema_title_text);
     ("description", schema_body_text);
     ("severity", schema_finding_severity);
     ("status", schema_finding_status);
     ("source", schema_finding_source);
     ("version", schema_version_number);
     ("url", schema_captured_url);
     ("viewport", schema_viewport);
     ("scroll_position", schema_scroll_position);
     ("captured_commit", schema_commit_sha);
     ("screenshot_artefact_id", schema_identifier);
     ("acceptance_criteria", schema_body_text);
     ("claimed_by", schema_actor_reference);
     ("annotation_count", schema_record_count);
     ("element_context", schema_element_context_view);
     ("resource_uri", schema_resource_uri);
     ("untrusted_fields", (S_array 1 16 false schema_untrusted_field_path))]
    ["id"; "review_id"; "title"; "severity"; "status"; "source"; "version"; "url"; "viewport";
     "scroll_position"; "captured_commit"; "screenshot_artefact_id"; "resource_uri"; "untrusted_fields"]
    [].
Definition schema_browser_session_view : Schema :=
  S_object
    [("id", schema_identifier);
     ("status", schema_browser_lifecycle_status);
     ("control_epoch", schema_control_epoch);
     ("controller", schema_actor_reference);
     ("viewport", schema_viewport);
     ("service_origin", schema_captured_url)]
    ["id"; "status"; "control_epoch"; "viewport"]
    [].
Definition schema_client_identity : Schema :=
  S_object
    [("name", schema_client_name);
     ("version", schema_client_version)]
    ["name"; "version"]
    [].
Definition schema_session_initialisation_request : Schema :=
  S_object
    [("client", schema_client_identity);
     ("project_hint", schema_project_hint);
     ("workspace_hint", schema_workspace_hint);
     ("capabilities", schema_client_capabilities)]
    ["client"]
    [].
Definition schema_session_initialisation_result : Schema :=
  S_object
    [("agent_session_id", schema_identifier);
     ("project", schema_project_reference);
     ("workspace", schema_workspace_reference);
     ("capabilities", schema_server_capabilities);
     ("granted_capabilities", (S_array 1 16 false schema_agent_capability));
     ("expires_at", schema_timestamp)]
    ["agent_session_id"; "project"; "capabilities"; "granted_capabilities"]
    [].
Definition schema_project_current_input : Schema :=
  S_object
    [("refresh_source_state", S_boolean)]
    []
    [].
Definition schema_agent_session_status_input : Schema :=
  S_object
    [("include", (S_array 1 4 true schema_session_include))]
    []
    [].
Definition schema_agent_inbox_list_input : Schema :=
  S_object
    [("status", (S_array 1 5 true schema_inbox_item_status));
     ("limit", schema_page_limit);
     ("cursor", schema_cursor)]
    []
    [].
Definition schema_agent_inbox_acknowledge_input : Schema :=
  S_object
    [("inbox_item_id", schema_identifier);
     ("idempotency_key", schema_idempotency_key)]
    ["inbox_item_id"; "idempotency_key"]
    [].
Definition schema_review_list_input : Schema :=
  S_object
    [("status", (S_array 1 9 true schema_review_status));
     ("assigned_to_me", S_boolean);
     ("slug_prefix", schema_slug);
     ("updated_since", schema_timestamp);
     ("limit", schema_page_limit);
     ("cursor", schema_cursor)]
    []
    [].
Definition schema_review_search_input : Schema :=
  S_object
    [("query", schema_search_query);
     ("limit", schema_page_limit)]
    ["query"]
    [].
Definition schema_review_get_input : Schema :=
  S_object
    [("review", schema_review_selector);
     ("include", (S_array 1 4 true schema_review_include));
     ("findings_limit", schema_page_limit);
     ("findings_cursor", schema_cursor);
     ("comments_limit", schema_page_limit);
     ("comments_cursor", schema_cursor)]
    ["review"]
    [].
Definition schema_review_claim_input : Schema :=
  S_object
    [("review_id", schema_identifier);
     ("expected_version", schema_version_number);
     ("idempotency_key", schema_idempotency_key)]
    ["review_id"; "expected_version"; "idempotency_key"]
    [].
Definition schema_review_update_status_input : Schema :=
  S_object
    [("review_id", schema_identifier);
     ("expected_version", schema_version_number);
     ("status", schema_agent_review_status);
     ("reason", schema_reason_text);
     ("idempotency_key", schema_idempotency_key)]
    ["review_id"; "expected_version"; "status"; "idempotency_key"]
    [].
Definition schema_review_add_comment_input : Schema :=
  S_object
    [("review_id", schema_identifier);
     ("body", schema_body_text);
     ("idempotency_key", schema_idempotency_key)]
    ["review_id"; "body"; "idempotency_key"]
    [].
Definition schema_finding_get_input : Schema :=
  S_object
    [("finding_id", schema_identifier);
     ("include", (S_array 1 4 true schema_finding_include));
     ("comments_limit", schema_page_limit);
     ("comments_cursor", schema_cursor)]
    ["finding_id"]
    [].
Definition schema_finding_claim_input : Schema :=
  S_object
    [("finding_id", schema_identifier);
     ("expected_version", schema_version_number);
     ("idempotency_key", schema_idempotency_key)]
    ["finding_id"; "expected_version"; "idempotency_key"]
    [].
Definition schema_finding_update_status_input : Schema :=
  S_object
    [("finding_id", schema_identifier);
     ("expected_version", schema_version_number);
     ("status", schema_agent_finding_status);
     ("resolution_note", schema_body_text);
     ("reason", schema_reason_text);
     ("idempotency_key", schema_idempotency_key)]
    ["finding_id"; "expected_version"; "status"; "idempotency_key"]
    [{| when_property := "status"; when_values := ["BLOCKED"];
       then_required := ["reason"]; then_forbidden := [];
       rule_detail := "A blocked finding must say what is blocking it, because a human has to act on it." |}].
Definition schema_finding_mark_blocked_input : Schema :=
  S_object
    [("finding_id", schema_identifier);
     ("expected_version", schema_version_number);
     ("reason", schema_reason_text);
     ("requested_human_action", schema_reason_text);
     ("idempotency_key", schema_idempotency_key)]
    ["finding_id"; "expected_version"; "reason"; "idempotency_key"]
    [].
Definition schema_finding_add_comment_input : Schema :=
  S_object
    [("finding_id", schema_identifier);
     ("body", schema_body_text);
     ("idempotency_key", schema_idempotency_key)]
    ["finding_id"; "body"; "idempotency_key"]
    [].
Definition schema_finding_submit_verification_input : Schema :=
  S_object
    [("finding_id", schema_identifier);
     ("expected_version", schema_version_number);
     ("summary", schema_body_text);
     ("branch", schema_branch_name);
     ("commit", schema_commit_sha);
     ("tested_viewports", (S_array 1 8 false schema_viewport));
     ("checks", schema_verification_checks);
     ("artefact_ids", (S_array 1 16 true schema_identifier));
     ("idempotency_key", schema_idempotency_key)]
    ["finding_id"; "summary"; "branch"; "commit"; "tested_viewports"; "checks"; "artefact_ids";
     "idempotency_key"]
    [].
Definition schema_browser_take_screenshot_input : Schema :=
  S_object
    [("browser_session_id", schema_identifier);
     ("control_epoch", schema_control_epoch);
     ("full_page", S_boolean);
     ("purpose", schema_screenshot_purpose);
     ("idempotency_key", schema_idempotency_key)]
    ["browser_session_id"; "control_epoch"; "purpose"; "idempotency_key"]
    [].
Definition schema_browser_session_start_input : Schema :=
  S_object
    [("published_service_id", schema_identifier);
     ("allocate", S_boolean);
     ("viewport", schema_viewport);
     ("idempotency_key", schema_idempotency_key)]
    ["idempotency_key"]
    [].
Definition schema_browser_session_allocate_input : Schema :=
  S_object
    [("browser_session_id", schema_identifier);
     ("published_service_id", schema_identifier);
     ("idempotency_key", schema_idempotency_key)]
    ["browser_session_id"; "idempotency_key"]
    [].
Definition schema_browser_session_reference_input : Schema :=
  S_object
    [("browser_session_id", schema_identifier)]
    ["browser_session_id"]
    [].
Definition schema_browser_session_control_input : Schema :=
  S_object
    [("browser_session_id", schema_identifier);
     ("control_epoch", schema_control_epoch);
     ("idempotency_key", schema_idempotency_key)]
    ["browser_session_id"; "control_epoch"; "idempotency_key"]
    [].
Definition schema_browser_navigate_input : Schema :=
  S_object
    [("browser_session_id", schema_identifier);
     ("control_epoch", schema_control_epoch);
     ("url", schema_navigation_target);
     ("wait_until", schema_wait_until);
     ("timeout_ms", schema_command_timeout_ms)]
    ["browser_session_id"; "control_epoch"; "url"]
    [].
Definition schema_browser_snapshot_input : Schema :=
  S_object
    [("browser_session_id", schema_identifier);
     ("control_epoch", schema_control_epoch);
     ("max_nodes", (S_integer 1 500));
     ("max_bytes", (S_integer 1024 65536));
     ("timeout_ms", schema_command_timeout_ms)]
    ["browser_session_id"; "control_epoch"]
    [].
Definition schema_browser_element_input : Schema :=
  S_object
    [("browser_session_id", schema_identifier);
     ("control_epoch", schema_control_epoch);
     ("snapshot_id", schema_identifier);
     ("ref", schema_element_reference);
     ("timeout_ms", schema_command_timeout_ms)]
    ["browser_session_id"; "control_epoch"; "snapshot_id"; "ref"]
    [].
Definition schema_browser_type_input : Schema :=
  S_object
    [("browser_session_id", schema_identifier);
     ("control_epoch", schema_control_epoch);
     ("snapshot_id", schema_identifier);
     ("ref", schema_element_reference);
     ("text", schema_typed_text);
     ("submit", S_boolean);
     ("timeout_ms", schema_command_timeout_ms)]
    ["browser_session_id"; "control_epoch"; "snapshot_id"; "ref"; "text"]
    [].
Definition schema_browser_select_option_input : Schema :=
  S_object
    [("browser_session_id", schema_identifier);
     ("control_epoch", schema_control_epoch);
     ("snapshot_id", schema_identifier);
     ("ref", schema_element_reference);
     ("values", (S_array 1 32 false schema_option_value));
     ("timeout_ms", schema_command_timeout_ms)]
    ["browser_session_id"; "control_epoch"; "snapshot_id"; "ref"; "values"]
    [].
Definition schema_browser_press_key_input : Schema :=
  S_object
    [("browser_session_id", schema_identifier);
     ("control_epoch", schema_control_epoch);
     ("key", schema_key_name);
     ("snapshot_id", schema_identifier);
     ("ref", schema_element_reference);
     ("timeout_ms", schema_command_timeout_ms)]
    ["browser_session_id"; "control_epoch"; "key"]
    [].
Definition schema_browser_scroll_input : Schema :=
  S_object
    [("browser_session_id", schema_identifier);
     ("control_epoch", schema_control_epoch);
     ("direction", schema_scroll_direction);
     ("amount_px", (S_integer 1 100000));
     ("snapshot_id", schema_identifier);
     ("ref", schema_element_reference);
     ("timeout_ms", schema_command_timeout_ms)]
    ["browser_session_id"; "control_epoch"; "direction"; "amount_px"]
    [].
Definition schema_browser_resize_input : Schema :=
  S_object
    [("browser_session_id", schema_identifier);
     ("control_epoch", schema_control_epoch);
     ("viewport", schema_viewport);
     ("timeout_ms", schema_command_timeout_ms)]
    ["browser_session_id"; "control_epoch"; "viewport"]
    [].
Definition schema_browser_wait_input : Schema :=
  S_object
    [("browser_session_id", schema_identifier);
     ("control_epoch", schema_control_epoch);
     ("condition", schema_wait_condition);
     ("url_pattern", schema_url_pattern);
     ("selector", schema_selector);
     ("text", schema_captured_text);
     ("timeout_ms", schema_command_timeout_ms)]
    ["browser_session_id"; "control_epoch"; "condition"]
    [{| when_property := "condition"; when_values := ["url_matches"];
       then_required := ["url_pattern"]; then_forbidden := ["selector"; "text"];
       rule_detail := "a url_matches condition is defined by its pattern alone" |};
     {| when_property := "condition"; when_values := ["selector_visible"; "selector_hidden"];
       then_required := ["selector"]; then_forbidden := ["url_pattern"; "text"];
       rule_detail := "a selector condition is defined by its selector alone" |};
     {| when_property := "condition"; when_values := ["text_visible"];
       then_required := ["text"]; then_forbidden := ["url_pattern"; "selector"];
       rule_detail := "a text condition is defined by its text alone" |};
     {| when_property := "condition"; when_values := ["network_idle"];
       then_required := []; then_forbidden := ["url_pattern"; "selector"; "text"];
       rule_detail := "network idleness has no target" |}].
Definition schema_project_current_result : Schema :=
  S_object
    [("project", schema_project_reference);
     ("workspace", schema_workspace_reference);
     ("policy", schema_policy_summary)]
    ["project"; "policy"]
    [].
Definition schema_agent_session_status_result : Schema :=
  S_object
    [("agent_session_id", schema_identifier);
     ("status", schema_agent_session_state);
     ("client", schema_client_identity);
     ("project", schema_project_reference);
     ("workspace", schema_workspace_reference);
     ("capabilities", schema_server_capabilities);
     ("granted_capabilities", (S_array 1 16 false schema_agent_capability));
     ("browser_sessions", (S_array 1 16 false schema_browser_session_view));
     ("inbox_pending_count", schema_record_count);
     ("expires_at", schema_timestamp)]
    ["agent_session_id"; "status"; "project"; "capabilities"; "granted_capabilities"]
    [].
Definition schema_review_get_result : Schema :=
  S_object
    [("review", schema_review_view);
     ("findings", (S_array 1 50 false schema_finding_view));
     ("findings_next_cursor", schema_cursor);
     ("artefact_links", (S_array 1 50 false schema_artefact_link));
     ("comments", (S_array 1 20 false schema_comment_view));
     ("comments_next_cursor", schema_cursor);
     ("staleness", schema_review_staleness)]
    ["review"]
    [].
Definition schema_review_list_result : Schema :=
  S_object
    [("reviews", (S_array 0 50 false schema_review_view));
     ("next_cursor", schema_cursor)]
    ["reviews"]
    [].
Definition schema_review_search_result : Schema :=
  S_object
    [("matches", (S_array 0 25 false schema_review_search_match))]
    ["matches"]
    [].
Definition schema_review_add_comment_result : Schema :=
  S_object
    [("comment", schema_comment_view)]
    ["comment"]
    [].
Definition schema_agent_inbox_list_result : Schema :=
  S_object
    [("items", (S_array 0 50 false schema_inbox_item_view));
     ("pending_count", schema_record_count);
     ("next_cursor", schema_cursor)]
    ["items"; "pending_count"]
    [].
Definition schema_agent_inbox_acknowledge_result : Schema :=
  S_object
    [("item", schema_inbox_item_view);
     ("previous_status", schema_inbox_item_status)]
    ["item"]
    [].
Definition schema_review_mutation_result : Schema :=
  S_object
    [("review", schema_review_view);
     ("previous_status", schema_review_status)]
    ["review"]
    [].
Definition schema_finding_get_result : Schema :=
  S_object
    [("finding", schema_finding_view);
     ("annotations", (S_array 1 32 false schema_annotation_view));
     ("comments", (S_array 1 20 false schema_comment_view));
     ("comments_next_cursor", schema_cursor);
     ("artefact_links", (S_array 1 16 false schema_artefact_link));
     ("latest_verification", schema_verification_view)]
    ["finding"]
    [].
Definition schema_finding_mutation_result : Schema :=
  S_object
    [("finding", schema_finding_view);
     ("previous_status", schema_finding_status)]
    ["finding"]
    [].
Definition schema_finding_add_comment_result : Schema :=
  S_object
    [("comment", schema_comment_view)]
    ["comment"]
    [].
Definition schema_completion_requirements : Schema :=
  S_object
    [("required_viewports", (S_array 1 8 false schema_requirement_label));
     ("console_review", S_boolean);
     ("network_review", S_boolean);
     ("final_screenshot", S_boolean);
     ("accessibility_check", S_boolean)]
    ["required_viewports"; "console_review"; "network_review"; "final_screenshot"]
    [].
Definition schema_finding_submit_verification_result : Schema :=
  S_object
    [("verification", schema_verification_view);
     ("finding", schema_finding_view);
     ("requirements", schema_completion_requirements);
     ("missing", (S_array 0 16 false schema_requirement_label))]
    ["verification"; "finding"; "requirements"; "missing"]
    [].
Definition schema_browser_controller : Schema :=
  S_object
    [("type", (S_values ["agent"; "human"; "system"]));
     ("id", schema_identifier)]
    ["type"; "id"]
    [].
Definition schema_browser_session_detail : Schema :=
  S_object
    [("browser_session_id", schema_identifier);
     ("status", schema_browser_lifecycle_status);
     ("control_epoch", schema_control_epoch);
     ("current_controller", schema_browser_controller);
     ("viewport", schema_viewport);
     ("browser_type", (S_values ["chromium"]));
     ("browser_version", schema_client_version);
     ("published_service_id", schema_identifier);
     ("service_origin", schema_captured_url);
     ("url", schema_captured_url);
     ("live_view_available", S_boolean);
     ("created_at", schema_timestamp);
     ("ended_at", schema_timestamp)]
    ["browser_session_id"; "status"; "control_epoch"; "viewport"; "live_view_available"]
    [].
Definition schema_browser_session_result : Schema :=
  S_object
    [("session", schema_browser_session_detail)]
    ["session"]
    [].
Definition schema_browser_snapshot_view : Schema :=
  S_object
    [("snapshot_id", schema_identifier);
     ("viewport", schema_viewport);
     ("node_count", (S_integer 0 500));
     ("truncated", S_boolean);
     ("text", schema_snapshot_text)]
    ["snapshot_id"; "viewport"; "node_count"; "truncated"; "text"]
    [].
Definition schema_browser_navigation_view : Schema :=
  S_object
    [("url", schema_captured_url);
     ("http_status", (S_integer 100 599));
     ("redirected", S_boolean);
     ("title", schema_captured_text)]
    ["url"; "redirected"; "title"]
    [].
Definition schema_browser_interaction_result : Schema :=
  S_object
    [("browser_session_id", schema_identifier);
     ("command", schema_browser_command_name);
     ("control_epoch", schema_control_epoch);
     ("duration_ms", (S_integer 0 600000));
     ("viewport", schema_viewport);
     ("navigation", schema_browser_navigation_view);
     ("snapshot", schema_browser_snapshot_view)]
    ["browser_session_id"; "command"; "control_epoch"; "duration_ms"]
    [].
Definition schema_browser_take_screenshot_result : Schema :=
  S_object
    [("artefact", schema_artefact_link);
     ("browser_session_id", schema_identifier);
     ("captured_at", schema_timestamp);
     ("viewport", schema_viewport);
     ("full_page", S_boolean);
     ("url", schema_captured_url)]
    ["artefact"; "browser_session_id"; "captured_at"; "viewport"; "full_page"]
    [].
Definition schema_tool_refusal : Schema :=
  S_object
    [("protocol_version", (S_integer 1 1));
     ("ok", S_boolean);
     ("request_id", schema_request_id);
     ("type", schema_message_type);
     ("error", schema_tool_error);
     ("trust", schema_trust_label);
     ("instruction_policy", schema_instruction_policy);
     ("warnings", (S_array 1 8 false schema_warning))]
    ["protocol_version"; "ok"; "request_id"; "type"; "error"; "trust"; "instruction_policy"]
    [].
Definition schema_envelope : Schema :=
  S_object
    [("protocol_version", (S_integer 1 1));
     ("ok", S_boolean);
     ("request_id", schema_request_id);
     ("type", schema_message_type);
     ("trust", schema_trust_label);
     ("instruction_policy", schema_instruction_policy);
     ("warnings", (S_array 1 8 false schema_warning));
     ("data", S_dynamic)]
    ["protocol_version"; "ok"; "request_id"; "type"; "trust"; "instruction_policy"; "data"]
    [].
Definition schema_local_host : Schema :=
  S_string 1 45 (Some expression_20).
Definition schema_local_port : Schema :=
  S_integer 1 65535.
Definition schema_destination_protocol : Schema :=
  S_values ["http"; "https"].
Definition schema_published_service_status : Schema :=
  S_values ["requested"; "ready"; "failed"; "expired"; "revoked"].
Definition schema_development_service_view : Schema :=
  S_object
    [("id", schema_identifier);
     ("status", schema_published_service_status);
     ("workspace_id", schema_identifier);
     ("local_host", schema_local_host);
     ("local_port", schema_local_port);
     ("protocol", schema_destination_protocol);
     ("internal_origin", (S_string 1 256 (Some expression_19)));
     ("observed_destination", (S_string 3 64 (Some expression_21)));
     ("failure_class", schema_error_class);
     ("expires_at", schema_timestamp)]
    ["id"; "status"; "local_host"; "local_port"; "protocol"; "internal_origin"; "expires_at"]
    [].
Definition schema_development_services_list_input : Schema :=
  S_object
    [("limit", schema_page_limit)]
    []
    [].
Definition schema_development_service_publish_input : Schema :=
  S_object
    [("workspace_id", schema_identifier);
     ("local_host", schema_local_host);
     ("local_port", schema_local_port);
     ("protocol", schema_destination_protocol);
     ("ttl_seconds", (S_integer 1 86400));
     ("idempotency_key", schema_idempotency_key)]
    ["workspace_id"; "local_port"; "idempotency_key"]
    [].
Definition schema_development_service_unpublish_input : Schema :=
  S_object
    [("published_service_id", schema_identifier);
     ("idempotency_key", schema_idempotency_key)]
    ["published_service_id"; "idempotency_key"]
    [].
Definition schema_development_services_list_result : Schema :=
  S_object
    [("services", (S_array 0 100 false schema_development_service_view))]
    ["services"]
    [].
Definition schema_development_service_result : Schema :=
  S_object
    [("service", schema_development_service_view)]
    ["service"]
    [].
Definition schema_completion_result : Schema :=
  S_values ["completed"; "completed_with_warnings"; "blocked_missing_evidence"; "blocked_pending_review"].
Definition schema_finding_completion_state : Schema :=
  S_object
    [("finding_id", schema_identifier);
     ("status", schema_finding_status);
     ("result", schema_completion_result);
     ("missing", (S_array 0 16 false schema_requirement_label));
     ("verification_id", schema_identifier);
     ("verification_count", schema_record_count)]
    ["finding_id"; "status"; "result"; "missing"]
    [].
Definition schema_task_validation_status_input : Schema :=
  S_object
    [("review", schema_review_selector);
     ("finding_id", schema_identifier)]
    ["review"]
    [].
Definition schema_task_validation_status_result : Schema :=
  S_object
    [("browser_required", S_boolean);
     ("requirements", schema_completion_requirements);
     ("missing", (S_array 0 32 false schema_requirement_label));
     ("assurance", schema_evidence_assurance);
     ("finding_states", (S_array 0 50 false schema_finding_completion_state))]
    ["browser_required"; "requirements"; "missing"; "assurance"]
    [].
Definition schema_task_complete_input : Schema :=
  S_object
    [("review", schema_review_selector);
     ("finding_id", schema_identifier);
     ("summary", schema_body_text);
     ("idempotency_key", schema_idempotency_key)]
    ["review"; "idempotency_key"]
    [].
Definition schema_task_complete_result : Schema :=
  S_object
    [("result", schema_completion_result);
     ("terminates_session", S_boolean);
     ("requirements", schema_completion_requirements);
     ("missing", (S_array 0 32 false schema_requirement_label));
     ("assurance", schema_evidence_assurance);
     ("next_actions", (S_array 0 16 false schema_requirement_label));
     ("finding_states", (S_array 0 50 false schema_finding_completion_state))]
    ["result"; "terminates_session"; "requirements"; "missing"; "assurance"; "next_actions"]
    [].
