(* ===== verification/McpValidate.v ===== *)
(** * The validators of the MCP protocol
    ([src/packages/protocol/src/generated/mcp/v1/validate.ts])

    The generated functions as they stand, each after those it calls, and the table
    of those that the schema's definitions have; each finds the violations of its
    definition, in the same order. *)

From S2P Require Import Prelude ReviewDomain StableJson Validation Schema Patterns McpSchema.
#[local] Open Scope Z_scope.

Definition PATTERN_0 : string → bool := whole expression_0.
Definition PATTERN_1 : string → bool := whole expression_56.
Definition PATTERN_2 : string → bool := whole expression_1.
Definition PATTERN_3 : string → bool := whole expression_33.
Definition PATTERN_4 : string → bool := whole expression_57.
Definition PATTERN_5 : string → bool := whole expression_34.
Definition PATTERN_6 : string → bool := whole expression_58.
Definition PATTERN_7 : string → bool := whole expression_59.
Definition PATTERN_8 : string → bool := whole expression_35.
Definition PATTERN_9 : string → bool := whole expression_36.
Definition PATTERN_10 : string → bool := whole expression_50.
Definition PATTERN_11 : string → bool := whole expression_51.
Definition PATTERN_12 : string → bool := whole expression_52.
Definition PATTERN_13 : string → bool := whole expression_53.
Definition PATTERN_14 : string → bool := whole expression_54.
Definition PATTERN_15 : string → bool := whole expression_60.
Definition PATTERN_16 : string → bool := whole expression_41.
Definition PATTERN_17 : string → bool := whole expression_37.
Definition PATTERN_18 : string → bool := whole expression_16.
Definition PATTERN_19 : string → bool := whole expression_61.
Definition PATTERN_20 : string → bool := whole expression_20.
Definition PATTERN_21 : string → bool := whole expression_40.
Definition PATTERN_22 : string → bool := whole expression_19.
Definition PATTERN_23 : string → bool := whole expression_21.

Definition validateIdentifier : json → string → list SchemaViolation :=
  checkString (of_lengths 1 64 (Some PATTERN_0)).
Definition validateRequestId : json → string → list SchemaViolation :=
  checkString (of_lengths 1 64 (Some PATTERN_0)).
Definition validateIdempotencyKey : json → string → list SchemaViolation :=
  checkString (of_lengths 8 128 (Some PATTERN_1)).
Definition validateTimestamp : json → string → list SchemaViolation :=
  checkString (of_lengths 20 30 (Some PATTERN_2)).
Definition validateSlug : json → string → list SchemaViolation :=
  checkString (of_lengths 1 64 (Some PATTERN_3)).
Definition validateReviewSelector : json → string → list SchemaViolation :=
  checkString (of_lengths 1 64 (Some PATTERN_4)).
Definition validateProjectHint : json → string → list SchemaViolation :=
  checkString (of_lengths 1 64 (Some PATTERN_4)).
Definition validateWorkspaceHint : json → string → list SchemaViolation :=
  checkString (of_lengths 1 512 (Some PATTERN_5)).
Definition validateClientName : json → string → list SchemaViolation :=
  checkString (of_lengths 1 64 (Some PATTERN_6)).
Definition validateClientVersion : json → string → list SchemaViolation :=
  checkString (of_lengths 1 64 (Some PATTERN_7)).
Definition validateTitleText : json → string → list SchemaViolation :=
  checkString (of_lengths 1 200 (Some PATTERN_5)).
Definition validateBodyText : json → string → list SchemaViolation :=
  checkString (of_lengths 1 4000 (Some PATTERN_8)).
Definition validateReasonText : json → string → list SchemaViolation :=
  checkString (of_lengths 1 512 (Some PATTERN_5)).
Definition validateCapturedUrl : json → string → list SchemaViolation :=
  checkString (of_lengths 1 2048 (Some PATTERN_9)).
Definition validateNavigationTarget : json → string → list SchemaViolation :=
  checkString (of_lengths 1 2048 (Some PATTERN_10)).
Definition validateCapturedText : json → string → list SchemaViolation :=
  checkString (of_lengths 0 512 (Some PATTERN_11)).
Definition validateSnapshotText : json → string → list SchemaViolation :=
  checkString (of_lengths 0 32768 (Some PATTERN_12)).
Definition validateElementReference : json → string → list SchemaViolation :=
  checkString (of_lengths 2 8 (Some PATTERN_13)).
Definition validateAccessibleRole : json → string → list SchemaViolation :=
  checkString (of_lengths 1 64 (Some PATTERN_14)).
Definition validateTypedText : json → string → list SchemaViolation :=
  checkString (of_lengths 0 4096 (Some PATTERN_12)).
Definition validateOptionValue : json → string → list SchemaViolation :=
  checkString (of_lengths 0 512 (Some PATTERN_11)).
Definition validateSelector : json → string → list SchemaViolation :=
  checkString (of_lengths 1 512 (Some PATTERN_5)).
Definition validateUrlPattern : json → string → list SchemaViolation :=
  checkString (of_lengths 1 512 (Some PATTERN_9)).
Definition validateResourceUri : json → string → list SchemaViolation :=
  checkString (of_lengths 3 320 (Some PATTERN_15)).
Definition validateContentPath : json → string → list SchemaViolation :=
  checkString (of_lengths 1 256 (Some PATTERN_16)).
Definition validateBranchName : json → string → list SchemaViolation :=
  checkString (of_lengths 1 255 (Some PATTERN_9)).
Definition validateCommitSha : json → string → list SchemaViolation :=
  checkString (of_lengths 7 64 (Some PATTERN_17)).
Definition validateSha256Hex : json → string → list SchemaViolation :=
  checkString (of_lengths 64 64 (Some PATTERN_18)).
Definition validateMediaType : json → string → list SchemaViolation := checkString (of_values
     ["image/png"; "image/jpeg"]).
Definition validateCursor : json → string → list SchemaViolation :=
  checkString (of_lengths 1 256 (Some PATTERN_0)).
Definition validatePageLimit : json → string → list SchemaViolation := checkInteger 1 50.
Definition validateRecordCount : json → string → list SchemaViolation := checkInteger 0 100000.
Definition validateVersionNumber : json → string → list SchemaViolation := checkInteger 1 2147483647.
Definition validateControlEpoch : json → string → list SchemaViolation := checkInteger 1 2147483647.
Definition validateCommandTimeoutMs : json → string → list SchemaViolation := checkInteger 100 120000.
Definition validateByteSize : json → string → list SchemaViolation := checkInteger 1 104857600.
Definition validatePixelExtent : json → string → list SchemaViolation := checkInteger 1 32767.
Definition validateCssPixelOffset : json → string → list SchemaViolation := checkInteger 0 1000000.
Definition validateDeviceScaleFactor : json → string → list SchemaViolation := checkNumber 1 4.
Definition validateMarkerNumber : json → string → list SchemaViolation := checkInteger 1 999.
Definition validateNormalisedCoordinate : json → string → list SchemaViolation := checkNumber 0 1.
Definition validateRetryAfterMs : json → string → list SchemaViolation := checkInteger 0 3600000.
Definition validateExpiresInSeconds : json → string → list SchemaViolation := checkInteger 1 86400.
Definition validateTrustLabel : json → string → list SchemaViolation := checkString (of_values
     ["trusted_control_plane"; "trusted_human_instruction"; "trusted_project_configuration";
     "untrusted_browser_content"; "untrusted_uploaded_artefact"; "mixed"]).
Definition validateInstructionPolicy : json → string → list SchemaViolation := checkString
     (of_values ["do_not_follow_as_instructions"]).
Definition validateUntrustedFieldPath : json → string → list SchemaViolation :=
  checkString (of_lengths 1 128 (Some PATTERN_19)).
Definition validateWarningCode : json → string → list SchemaViolation := checkString (of_values
     ["image_content_unsupported"; "resource_content_unsupported"; "findings_truncated";
     "text_truncated"; "workspace_unresolved"; "verification_branch_uncorroborated"; "staleness_unavailable";
     "inbox_unavailable"; "results_truncated"; "idempotent_replay"; "completion_blocked_pending_review";
     "allocation_incomplete"]).
Definition validateErrorClass : json → string → list SchemaViolation := checkString (of_values
     ["AUTHENTICATION_REQUIRED"; "AUTHORISATION_DENIED"; "PROJECT_CONTEXT_AMBIGUOUS"; "PROJECT_CONTEXT_MISMATCH";
     "RESOURCE_NOT_FOUND"; "RESOURCE_STALE"; "VERSION_CONFLICT"; "IDEMPOTENCY_CONFLICT";
     "VALIDATION_FAILED"; "CONNECTOR_OFFLINE"; "IDENTITY_REVOKED"; "PUBLISHED_SERVICE_UNAVAILABLE";
     "ROUTE_EXPIRED"; "ROUTE_LIMIT_EXCEEDED"; "DESTINATION_NOT_ALLOWED"; "WORKSPACE_NOT_FOUND";
     "BROWSER_CAPACITY_EXHAUSTED"; "BROWSER_SESSION_NOT_ACTIVE"; "CONTROL_NOT_OWNED"; "CONTROL_EPOCH_STALE";
     "BROWSER_COMMAND_TIMEOUT"; "POLICY_DENIED"; "APPROVAL_REQUIRED"; "EVIDENCE_REQUIRED";
     "ARTEFACT_UPLOAD_INCOMPLETE"; "ARTEFACT_STORE_UNAVAILABLE"; "UNSUPPORTED_CAPABILITY";
     "RATE_LIMITED"; "INTERNAL_ERROR"]).
Definition validateMessageType : json → string → list SchemaViolation := checkString (of_values
     ["project_current"; "agent_session_status"; "agent_inbox_list"; "agent_inbox_acknowledge";
     "review_list"; "review_search"; "review_get"; "review_claim"; "review_update_status";
     "review_add_comment"; "finding_get"; "finding_claim"; "finding_update_status"; "finding_mark_blocked";
     "finding_add_comment"; "finding_submit_verification"; "browser_take_screenshot"; "browser_session_start";
     "browser_session_allocate"; "browser_session_status"; "browser_session_pause"; "browser_session_resume";
     "browser_session_end"; "browser_navigate"; "browser_snapshot"; "browser_click"; "browser_type";
     "browser_select_option"; "browser_press_key"; "browser_scroll"; "browser_resize"; "browser_wait";
     "development_services_list"; "development_service_publish"; "development_service_unpublish";
     "task_validation_status"; "task_complete"]).
Definition validateAgentCapability : json → string → list SchemaViolation := checkString
     (of_values ["project:read"; "review:read"; "review:write"; "finding:read"; "finding:write";
     "verification:submit"; "browser:capture"; "service:publish"; "browser:control"]).
Definition validateBrowserLifecycleStatus : json → string → list SchemaViolation := checkString
     (of_values ["REQUESTED"; "ALLOCATING"; "READY"; "ACTIVE"; "PAUSED"; "DEGRADED"; "TERMINATING";
     "TERMINATED"; "FAILED"]).
Definition validateConnectorStatus : json → string → list SchemaViolation := checkString
     (of_values ["PENDING_ENROLMENT"; "ACTIVE"; "DEGRADED"; "DISCONNECTED"; "REVOKED"]).
Definition validateAgentSessionState : json → string → list SchemaViolation := checkString
     (of_values ["STARTING"; "ACTIVE"; "WAITING"; "BLOCKED"; "DISCONNECTED"; "COMPLETED";
     "FAILED"; "CANCELLED"]).
Definition validateReviewPriority : json → string → list SchemaViolation := checkString (of_values
     ["critical"; "high"; "medium"; "low"]).
Definition validateSearchQuery : json → string → list SchemaViolation :=
  checkString (of_lengths 2 128 (Some PATTERN_5)).
Definition validateInboxItemStatus : json → string → list SchemaViolation := checkString
     (of_values ["pending"; "acknowledged"; "completed"; "dismissed"; "expired"]).
Definition validateInboxItemType : json → string → list SchemaViolation := checkString (of_values
     ["review_assigned"; "finding_reopened"]).
Definition validateReviewStatus : json → string → list SchemaViolation := checkString (of_values
     ["DRAFT"; "READY"; "ASSIGNED"; "IN_PROGRESS"; "AWAITING_HUMAN_REVIEW"; "CHANGES_REQUESTED";
     "ACCEPTED"; "CANCELLED"; "ARCHIVED"]).
Definition validateAgentReviewStatus : json → string → list SchemaViolation := checkString
     (of_values ["IN_PROGRESS"; "AWAITING_HUMAN_REVIEW"]).
Definition validateFindingStatus : json → string → list SchemaViolation := checkString (of_values
     ["OPEN"; "CLAIMED"; "IN_PROGRESS"; "BLOCKED"; "FIXED_UNVERIFIED"; "AWAITING_HUMAN_REVIEW";
     "RESOLVED"; "REOPENED"; "WONT_FIX"; "DUPLICATE"]).
Definition validateAgentFindingStatus : json → string → list SchemaViolation := checkString
     (of_values ["CLAIMED"; "IN_PROGRESS"; "BLOCKED"; "FIXED_UNVERIFIED"; "AWAITING_HUMAN_REVIEW"]).
Definition validateFindingSeverity : json → string → list SchemaViolation := checkString
     (of_values ["critical"; "high"; "medium"; "low"; "suggestion"]).
Definition validateFindingSource : json → string → list SchemaViolation := checkString (of_values
     ["human"; "agent"]).
Definition validateAnnotationType : json → string → list SchemaViolation := checkString (of_values
     ["rectangle"; "ellipse"; "arrow"; "point"; "numbered_marker"; "freehand"]).
Definition validateArtefactKind : json → string → list SchemaViolation := checkString (of_values
     ["screenshot"; "thumbnail"; "trace"; "dom_snapshot"; "console_log"; "network_log"]).
Definition validateVerificationStatus : json → string → list SchemaViolation := checkString
     (of_values ["submitted"; "accepted"; "rejected"; "superseded"]).
Definition validateActorType : json → string → list SchemaViolation := checkString (of_values
     ["human_user"; "agent_session"; "connector"; "browser_worker"; "system"; "integration"]).
Definition validateKeyName : json → string → list SchemaViolation := checkString (of_values
     ["Enter"; "Tab"; "Shift+Tab"; "Escape"; "Backspace"; "Delete"; "Home"; "End"; "PageUp";
     "PageDown"; "ArrowUp"; "ArrowDown"; "ArrowLeft"; "ArrowRight"; "Space"]).
Definition validateScrollDirection : json → string → list SchemaViolation := checkString
     (of_values ["up"; "down"; "left"; "right"]).
Definition validateWaitUntil : json → string → list SchemaViolation := checkString (of_values
     ["commit"; "domcontentloaded"; "load"; "networkidle"]).
Definition validateWaitCondition : json → string → list SchemaViolation := checkString (of_values
     ["url_matches"; "selector_visible"; "selector_hidden"; "text_visible"; "network_idle"]).
Definition validateBrowserCommandName : json → string → list SchemaViolation := checkString
     (of_values ["navigate"; "snapshot"; "click"; "type_text"; "select_option"; "press_key";
     "scroll"; "resize"; "wait"; "take_screenshot"]).
Definition validateScreenshotPurpose : json → string → list SchemaViolation := checkString
     (of_values ["verification"]).
Definition validateReviewInclude : json → string → list SchemaViolation := checkString (of_values
     ["findings"; "comments"; "artefact_links"; "staleness"]).
Definition validateReviewSearchField : json → string → list SchemaViolation := checkString
     (of_values ["title"; "slug"; "description"; "finding"]).
Definition validateFindingInclude : json → string → list SchemaViolation := checkString (of_values
     ["annotations"; "comments"; "verification"; "artefact_links"]).
Definition validateSessionInclude : json → string → list SchemaViolation := checkString (of_values
     ["browser_sessions"; "capabilities"]).
Definition validateLocalHost : json → string → list SchemaViolation :=
  checkString (of_lengths 1 45 (Some PATTERN_20)).
Definition validateLocalPort : json → string → list SchemaViolation := checkInteger 1 65535.
Definition validateDestinationProtocol : json → string → list SchemaViolation := checkString
     (of_values ["http"; "https"]).
Definition validatePublishedServiceStatus : json → string → list SchemaViolation := checkString
     (of_values ["requested"; "ready"; "failed"; "expired"; "revoked"]).
Definition validateCompletionResult : json → string → list SchemaViolation := checkString
     (of_values ["completed"; "completed_with_warnings"; "blocked_missing_evidence"; "blocked_pending_review"]).
Definition validateRequirementLabel : json → string → list SchemaViolation :=
  checkString (of_lengths 1 120 (Some PATTERN_21)).
Definition validateActorReference (value : json) (path : string) : list SchemaViolation :=
  let '(found, source) := checkObject
    ["type"; "id"; "display"]
    ["type"] value path in
  match source with
  | None => found
  | Some source => found ++ concat [
      on_member validateActorType "type" source path;
      on_member validateIdentifier "id" source path;
      on_member validateReasonText "display" source path]
  end.
Definition validateViewportWidth : json → string → list SchemaViolation := checkInteger 240 3840.
Definition validateViewportHeight : json → string → list SchemaViolation := checkInteger 240 2160.
Definition validateViewport (value : json) (path : string) : list SchemaViolation :=
  let '(found, source) := checkObject
    ["width"; "height"; "device_scale_factor"]
    ["width"; "height"; "device_scale_factor"] value path in
  match source with
  | None => found
  | Some source => found ++ concat [
      on_member validateViewportWidth "width" source path;
      on_member validateViewportHeight "height" source path;
      on_member validateDeviceScaleFactor "device_scale_factor" source path]
  end.
Definition validateScrollPosition (value : json) (path : string) : list SchemaViolation :=
  let '(found, source) := checkObject
    ["x"; "y"]
    ["x"; "y"] value path in
  match source with
  | None => found
  | Some source => found ++ concat [
      on_member validateCssPixelOffset "x" source path;
      on_member validateCssPixelOffset "y" source path]
  end.
Definition validateContentRectangle (value : json) (path : string) : list SchemaViolation :=
  let '(found, source) := checkObject
    ["width_px"; "height_px"]
    ["width_px"; "height_px"] value path in
  match source with
  | None => found
  | Some source => found ++ concat [
      on_member validatePixelExtent "width_px" source path;
      on_member validatePixelExtent "height_px" source path]
  end.
Definition validateAnnotationPathPoint (value : json) (path : string) : list SchemaViolation :=
  let '(found, source) := checkObject
    ["x"; "y"]
    ["x"; "y"] value path in
  match source with
  | None => found
  | Some source => found ++ concat [
      on_member validateNormalisedCoordinate "x" source path;
      on_member validateNormalisedCoordinate "y" source path]
  end.
Definition validateAnnotationGeometryPath (value : json) (path : string) : list SchemaViolation :=
  let '(found, items) := checkArray 2 128 false value path in
  match items with None => found | Some items => on_items validateAnnotationPathPoint items path end.
Definition validateAnnotationGeometry (value : json) (path : string) : list SchemaViolation :=
  let '(found, source) := checkObject
    ["x"; "y"; "width"; "height"; "x2"; "y2"; "rotation"; "path"]
    ["x"; "y"] value path in
  match source with
  | None => found
  | Some source => found ++ concat [
      on_member validateNormalisedCoordinate "x" source path;
      on_member validateNormalisedCoordinate "y" source path;
      on_member validateNormalisedCoordinate "width" source path;
      on_member validateNormalisedCoordinate "height" source path;
      on_member validateNormalisedCoordinate "x2" source path;
      on_member validateNormalisedCoordinate "y2" source path;
      on_member validateNormalisedCoordinate "rotation" source path;
      on_member validateAnnotationGeometryPath "path" source path]
  end.
Definition validateElementContextViewSelectorStrategy : json → string → list SchemaViolation
     := checkString (of_values ["testid"; "role"; "text"; "css"; "xpath"]).
Definition validateElementContextView (value : json) (path : string) : list SchemaViolation :=
  let '(found, source) := checkObject
    ["selector"; "selector_strategy"; "role"; "accessible_name"; "text_excerpt"; "dom_fingerprint"]
    [] value path in
  match source with
  | None => found
  | Some source => found ++ concat [
      on_member validateReasonText "selector" source path;
      on_member validateElementContextViewSelectorStrategy "selector_strategy" source path;
      on_member validateReasonText "role" source path;
      on_member validateReasonText "accessible_name" source path;
      on_member validateReasonText "text_excerpt" source path;
      on_member validateSha256Hex "dom_fingerprint" source path]
  end.
Definition validateProjectReference (value : json) (path : string) : list SchemaViolation :=
  let '(found, source) := checkObject
    ["id"; "slug"; "name"]
    ["id"; "slug"] value path in
  match source with
  | None => found
  | Some source => found ++ concat [
      on_member validateIdentifier "id" source path;
      on_member validateSlug "slug" source path;
      on_member validateTitleText "name" source path]
  end.
Definition validateWorkspaceReferenceDirty : json → string → list SchemaViolation := checkBoolean.
Definition validateWorkspaceReference (value : json) (path : string) : list SchemaViolation :=
  let '(found, source) := checkObject
    ["id"; "root_path"; "branch"; "head_commit"; "dirty"]
    ["id"; "branch"; "head_commit"] value path in
  match source with
  | None => found
  | Some source => found ++ concat [
      on_member validateIdentifier "id" source path;
      on_member validateWorkspaceHint "root_path" source path;
      on_member validateBranchName "branch" source path;
      on_member validateCommitSha "head_commit" source path;
      on_member validateWorkspaceReferenceDirty "dirty" source path]
  end.
Definition validatePolicySummaryAgentMayAcceptFindings : json → string → list SchemaViolation := checkBoolean.
Definition validatePolicySummaryVerificationRequired : json → string → list SchemaViolation := checkBoolean.
Definition validatePolicySummarySecretToolsAvailable : json → string → list SchemaViolation := checkBoolean.
Definition validatePolicySummaryRequiredViewports (value : json) (path : string) : list SchemaViolation :=
  let '(found, items) := checkArray 1 8 false value path in
  match items with None => found | Some items => on_items validateReasonText items path end.
Definition validatePolicySummary (value : json) (path : string) : list SchemaViolation :=
  let '(found, source) := checkObject
    ["agent_may_accept_findings"; "verification_required"; "secret_tools_available"; "required_viewports"]
    ["agent_may_accept_findings"; "verification_required"; "secret_tools_available"; "required_viewports"] value path in
  match source with
  | None => found
  | Some source => found ++ concat [
      on_member validatePolicySummaryAgentMayAcceptFindings "agent_may_accept_findings" source path;
      on_member validatePolicySummaryVerificationRequired "verification_required" source path;
      on_member validatePolicySummarySecretToolsAvailable "secret_tools_available" source path;
      on_member validatePolicySummaryRequiredViewports "required_viewports" source path]
  end.
Definition validateServerCapabilitiesBrowserLive : json → string → list SchemaViolation := checkBoolean.
Definition validateServerCapabilitiesImageResources : json → string → list SchemaViolation := checkBoolean.
Definition validateServerCapabilitiesHumanTakeover : json → string → list SchemaViolation := checkBoolean.
Definition validateServerCapabilitiesReviewInbox : json → string → list SchemaViolation := checkBoolean.
Definition validateServerCapabilitiesManagedMessages : json → string → list SchemaViolation := checkBoolean.
Definition validateServerCapabilitiesSessionResume : json → string → list SchemaViolation := checkBoolean.
Definition validateServerCapabilities (value : json) (path : string) : list SchemaViolation :=
  let '(found, source) := checkObject
    ["browser_live"; "image_resources"; "human_takeover"; "review_inbox"; "managed_messages"; "session_resume"]
    ["browser_live"; "image_resources"; "human_takeover"; "review_inbox"; "managed_messages"; "session_resume"] value path in
  match source with
  | None => found
  | Some source => found ++ concat [
      on_member validateServerCapabilitiesBrowserLive "browser_live" source path;
      on_member validateServerCapabilitiesImageResources "image_resources" source path;
      on_member validateServerCapabilitiesHumanTakeover "human_takeover" source path;
      on_member validateServerCapabilitiesReviewInbox "review_inbox" source path;
      on_member validateServerCapabilitiesManagedMessages "managed_messages" source path;
      on_member validateServerCapabilitiesSessionResume "session_resume" source path]
  end.
Definition validateClientCapabilitiesResources : json → string → list SchemaViolation := checkBoolean.
Definition validateClientCapabilitiesImageContent : json → string → list SchemaViolation := checkBoolean.
Definition validateClientCapabilitiesManagedMessages : json → string → list SchemaViolation := checkBoolean.
Definition validateClientCapabilitiesSessionResume : json → string → list SchemaViolation := checkBoolean.
Definition validateClientCapabilities (value : json) (path : string) : list SchemaViolation :=
  let '(found, source) := checkObject
    ["resources"; "image_content"; "managed_messages"; "session_resume"]
    [] value path in
  match source with
  | None => found
  | Some source => found ++ concat [
      on_member validateClientCapabilitiesResources "resources" source path;
      on_member validateClientCapabilitiesImageContent "image_content" source path;
      on_member validateClientCapabilitiesManagedMessages "managed_messages" source path;
      on_member validateClientCapabilitiesSessionResume "session_resume" source path]
  end.
Definition validateWarning (value : json) (path : string) : list SchemaViolation :=
  let '(found, source) := checkObject
    ["code"; "message"; "detail"]
    ["code"; "message"] value path in
  match source with
  | None => found
  | Some source => found ++ concat [
      on_member validateWarningCode "code" source path;
      on_member validateReasonText "message" source path;
      on_member validateReasonText "detail" source path]
  end.
Definition validateErrorDetailsCandidates (value : json) (path : string) : list SchemaViolation :=
  let '(found, items) := checkArray 1 32 false value path in
  match items with None => found | Some items => on_items validateProjectReference items path end.
Definition validateErrorDetailsRequiredEvidence (value : json) (path : string) : list SchemaViolation :=
  let '(found, items) := checkArray 1 16 false value path in
  match items with None => found | Some items => on_items validateReasonText items path end.
Definition validateErrorDetailsAllowedTransitions (value : json) (path : string) : list SchemaViolation :=
  let '(found, items) := checkArray 1 16 false value path in
  match items with None => found | Some items => on_items validateReasonText items path end.
Definition validateErrorDetails (value : json) (path : string) : list SchemaViolation :=
  let '(found, source) := checkObject
    ["current_version"; "expected_version"; "current_epoch"; "field"; "candidates"; "required_evidence";
      "allowed_transitions"; "retry_after_ms"; "browser_session_status"; "detected"; "published_service_id";
      "connector_status"]
    [] value path in
  match source with
  | None => found
  | Some source => found ++ concat [
      on_member validateVersionNumber "current_version" source path;
      on_member validateVersionNumber "expected_version" source path;
      on_member validateControlEpoch "current_epoch" source path;
      on_member validateReasonText "field" source path;
      on_member validateErrorDetailsCandidates "candidates" source path;
      on_member validateErrorDetailsRequiredEvidence "required_evidence" source path;
      on_member validateErrorDetailsAllowedTransitions "allowed_transitions" source path;
      on_member validateRetryAfterMs "retry_after_ms" source path;
      on_member validateBrowserLifecycleStatus "browser_session_status" source path;
      on_member validateReasonText "detected" source path;
      on_member validateIdentifier "published_service_id" source path;
      on_member validateConnectorStatus "connector_status" source path]
  end.
Definition validateToolErrorRetryable : json → string → list SchemaViolation := checkBoolean.
Definition validateToolError (value : json) (path : string) : list SchemaViolation :=
  let '(found, source) := checkObject
    ["code"; "message"; "retryable"; "details"]
    ["code"; "message"; "retryable"] value path in
  match source with
  | None => found
  | Some source => found ++ concat [
      on_member validateErrorClass "code" source path;
      on_member validateReasonText "message" source path;
      on_member validateToolErrorRetryable "retryable" source path;
      on_member validateErrorDetails "details" source path]
  end.
Definition validateArtefactLink (value : json) (path : string) : list SchemaViolation :=
  let '(found, source) := checkObject
    ["artefact_id"; "kind"; "role"; "resource_uri"; "content_path"; "expires_at"; "content_type";
      "sha256"; "size_bytes"; "content_rectangle"; "trust"; "instruction_policy"]
    ["artefact_id"; "kind"; "resource_uri"; "content_type"; "trust"; "instruction_policy"] value path in
  match source with
  | None => found
  | Some source => found ++ concat [
      on_member validateIdentifier "artefact_id" source path;
      on_member validateArtefactKind "kind" source path;
      on_member validateReasonText "role" source path;
      on_member validateResourceUri "resource_uri" source path;
      on_member validateContentPath "content_path" source path;
      on_member validateTimestamp "expires_at" source path;
      on_member validateMediaType "content_type" source path;
      on_member validateSha256Hex "sha256" source path;
      on_member validateByteSize "size_bytes" source path;
      on_member validateContentRectangle "content_rectangle" source path;
      on_member validateTrustLabel "trust" source path;
      on_member validateInstructionPolicy "instruction_policy" source path]
  end.
Definition validateAnnotationView (value : json) (path : string) : list SchemaViolation :=
  let '(found, source) := checkObject
    ["id"; "artefact_id"; "type"; "geometry"; "label"; "marker_number"]
    ["id"; "artefact_id"; "type"; "geometry"; "label"] value path in
  match source with
  | None => found
  | Some source => found ++ concat [
      on_member validateIdentifier "id" source path;
      on_member validateIdentifier "artefact_id" source path;
      on_member validateAnnotationType "type" source path;
      on_member validateAnnotationGeometry "geometry" source path;
      on_member validateTitleText "label" source path;
      on_member validateMarkerNumber "marker_number" source path]
  end.
Definition validateCommentView (value : json) (path : string) : list SchemaViolation :=
  let '(found, source) := checkObject
    ["id"; "review_id"; "finding_id"; "body"; "author"; "created_at"]
    ["id"; "review_id"; "body"; "author"; "created_at"] value path in
  match source with
  | None => found
  | Some source => found ++ concat [
      on_member validateIdentifier "id" source path;
      on_member validateIdentifier "review_id" source path;
      on_member validateIdentifier "finding_id" source path;
      on_member validateBodyText "body" source path;
      on_member validateActorReference "author" source path;
      on_member validateTimestamp "created_at" source path]
  end.
Definition validateInboxItemView (value : json) (path : string) : list SchemaViolation :=
  let '(found, source) := checkObject
    ["id"; "project_id"; "type"; "title"; "status"; "review_id"; "review_slug"; "finding_id";
      "priority"; "finding_count"; "assigned_by"; "created_at"; "acknowledged_at"; "completed_at"]
    ["id"; "project_id"; "type"; "title"; "status"; "created_at"] value path in
  match source with
  | None => found
  | Some source => found ++ concat [
      on_member validateIdentifier "id" source path;
      on_member validateIdentifier "project_id" source path;
      on_member validateInboxItemType "type" source path;
      on_member validateTitleText "title" source path;
      on_member validateInboxItemStatus "status" source path;
      on_member validateIdentifier "review_id" source path;
      on_member validateSlug "review_slug" source path;
      on_member validateIdentifier "finding_id" source path;
      on_member validateReviewPriority "priority" source path;
      on_member validateRecordCount "finding_count" source path;
      on_member validateActorReference "assigned_by" source path;
      on_member validateTimestamp "created_at" source path;
      on_member validateTimestamp "acknowledged_at" source path;
      on_member validateTimestamp "completed_at" source path]
  end.
Definition validateReviewStalenessComputed : json → string → list SchemaViolation := checkBoolean.
Definition validateReviewStaleness (value : json) (path : string) : list SchemaViolation :=
  let '(found, source) := checkObject
    ["computed"; "captured_branch"; "captured_commit"; "workspace_branch"; "workspace_head_commit"]
    ["computed"; "captured_branch"; "captured_commit"] value path in
  match source with
  | None => found
  | Some source => found ++ concat [
      on_member validateReviewStalenessComputed "computed" source path;
      on_member validateBranchName "captured_branch" source path;
      on_member validateCommitSha "captured_commit" source path;
      on_member validateBranchName "workspace_branch" source path;
      on_member validateCommitSha "workspace_head_commit" source path]
  end.
Definition validateReviewSearchMatchMatched (value : json) (path : string) : list SchemaViolation :=
  let '(found, items) := checkArray 1 4 true value path in
  match items with None => found | Some items => on_items validateReviewSearchField items path end.
Definition validateReviewView (value : json) (path : string) : list SchemaViolation :=
  let '(found, source) := checkObject
    ["id"; "project_id"; "slug"; "title"; "description"; "status"; "version"; "captured_branch";
      "captured_commit"; "captured_workspace_id"; "source_browser_session_id"; "claimed_by";
      "finding_count"; "resource_uri"; "created_at"; "updated_at"]
    ["id"; "project_id"; "slug"; "title"; "status"; "version"; "captured_branch"; "captured_commit";
      "captured_workspace_id"; "finding_count"; "resource_uri"; "created_at"; "updated_at"] value path in
  match source with
  | None => found
  | Some source => found ++ concat [
      on_member validateIdentifier "id" source path;
      on_member validateIdentifier "project_id" source path;
      on_member validateSlug "slug" source path;
      on_member validateTitleText "title" source path;
      on_member validateBodyText "description" source path;
      on_member validateReviewStatus "status" source path;
      on_member validateVersionNumber "version" source path;
      on_member validateBranchName "captured_branch" source path;
      on_member validateCommitSha "captured_commit" source path;
      on_member validateIdentifier "captured_workspace_id" source path;
      on_member validateIdentifier "source_browser_session_id" source path;
      on_member validateActorReference "claimed_by" source path;
      on_member validateRecordCount "finding_count" source path;
      on_member validateResourceUri "resource_uri" source path;
      on_member validateTimestamp "created_at" source path;
      on_member validateTimestamp "updated_at" source path]
  end.
Definition validateReviewSearchMatch (value : json) (path : string) : list SchemaViolation :=
  let '(found, source) := checkObject
    ["review"; "matched"]
    ["review"; "matched"] value path in
  match source with
  | None => found
  | Some source => found ++ concat [
      on_member validateReviewView "review" source path;
      on_member validateReviewSearchMatchMatched "matched" source path]
  end.
Definition validateVerificationChecksReproducedBefore : json → string → list SchemaViolation := checkBoolean.
Definition validateVerificationChecksConsoleErrorsReviewed : json → string → list SchemaViolation := checkBoolean.
Definition validateVerificationChecksNetworkFailuresReviewed : json → string → list SchemaViolation := checkBoolean.
Definition validateVerificationChecksAccessibilityChecked : json → string → list SchemaViolation := checkBoolean.
Definition validateVerificationChecks (value : json) (path : string) : list SchemaViolation :=
  let '(found, source) := checkObject
    ["reproduced_before"; "console_errors_reviewed"; "network_failures_reviewed"; "accessibility_checked"]
    ["reproduced_before"; "console_errors_reviewed"; "network_failures_reviewed"] value path in
  match source with
  | None => found
  | Some source => found ++ concat [
      on_member validateVerificationChecksReproducedBefore "reproduced_before" source path;
      on_member validateVerificationChecksConsoleErrorsReviewed "console_errors_reviewed" source path;
      on_member validateVerificationChecksNetworkFailuresReviewed "network_failures_reviewed" source path;
      on_member validateVerificationChecksAccessibilityChecked "accessibility_checked" source path]
  end.
Definition validateVerificationViewTestedViewports (value : json) (path : string) : list SchemaViolation :=
  let '(found, items) := checkArray 1 8 false value path in
  match items with None => found | Some items => on_items validateViewport items path end.
Definition validateVerificationViewArtefacts (value : json) (path : string) : list SchemaViolation :=
  let '(found, items) := checkArray 1 16 false value path in
  match items with None => found | Some items => on_items validateArtefactLink items path end.
Definition validateEvidenceAssuranceVerifiedByControlPlane (value : json) (path : string) : list SchemaViolation :=
  let '(found, items) := checkArray 0 12 false value path in
  match items with None => found | Some items => on_items validateRequirementLabel items path end.
Definition validateEvidenceAssuranceAssertedByAgent (value : json) (path : string) : list SchemaViolation :=
  let '(found, items) := checkArray 0 12 false value path in
  match items with None => found | Some items => on_items validateRequirementLabel items path end.
Definition validateEvidenceAssurance (value : json) (path : string) : list SchemaViolation :=
  let '(found, source) := checkObject
    ["verified_by_control_plane"; "asserted_by_agent"; "asserted_by"]
    ["verified_by_control_plane"; "asserted_by_agent"] value path in
  match source with
  | None => found
  | Some source => found ++ concat [
      on_member validateEvidenceAssuranceVerifiedByControlPlane "verified_by_control_plane" source path;
      on_member validateEvidenceAssuranceAssertedByAgent "asserted_by_agent" source path;
      on_member validateActorReference "asserted_by" source path]
  end.
Definition validateVerificationView (value : json) (path : string) : list SchemaViolation :=
  let '(found, source) := checkObject
    ["verification_id"; "finding_id"; "status"; "summary"; "branch"; "commit"; "tested_viewports";
      "checks"; "assurance"; "artefacts"; "submitted_by"; "submitted_at"; "supersedes_verification_id";
      "superseded_by_verification_id"; "superseded_at"]
    ["verification_id"; "finding_id"; "status"; "summary"; "branch"; "commit"; "tested_viewports";
      "checks"; "submitted_by"; "submitted_at"] value path in
  match source with
  | None => found
  | Some source => found ++ concat [
      on_member validateIdentifier "verification_id" source path;
      on_member validateIdentifier "finding_id" source path;
      on_member validateVerificationStatus "status" source path;
      on_member validateBodyText "summary" source path;
      on_member validateBranchName "branch" source path;
      on_member validateCommitSha "commit" source path;
      on_member validateVerificationViewTestedViewports "tested_viewports" source path;
      on_member validateVerificationChecks "checks" source path;
      on_member validateEvidenceAssurance "assurance" source path;
      on_member validateVerificationViewArtefacts "artefacts" source path;
      on_member validateActorReference "submitted_by" source path;
      on_member validateTimestamp "submitted_at" source path;
      on_member validateIdentifier "supersedes_verification_id" source path;
      on_member validateIdentifier "superseded_by_verification_id" source path;
      on_member validateTimestamp "superseded_at" source path]
  end.
Definition validateFindingViewUntrustedFields (value : json) (path : string) : list SchemaViolation :=
  let '(found, items) := checkArray 1 16 false value path in
  match items with None => found | Some items => on_items validateUntrustedFieldPath items path end.
Definition validateFindingView (value : json) (path : string) : list SchemaViolation :=
  let '(found, source) := checkObject
    ["id"; "review_id"; "title"; "description"; "severity"; "status"; "source"; "version"; "url";
      "viewport"; "scroll_position"; "captured_commit"; "screenshot_artefact_id"; "acceptance_criteria";
      "claimed_by"; "annotation_count"; "element_context"; "resource_uri"; "untrusted_fields"]
    ["id"; "review_id"; "title"; "severity"; "status"; "source"; "version"; "url"; "viewport";
      "scroll_position"; "captured_commit"; "screenshot_artefact_id"; "resource_uri"; "untrusted_fields"] value path in
  match source with
  | None => found
  | Some source => found ++ concat [
      on_member validateIdentifier "id" source path;
      on_member validateIdentifier "review_id" source path;
      on_member validateTitleText "title" source path;
      on_member validateBodyText "description" source path;
      on_member validateFindingSeverity "severity" source path;
      on_member validateFindingStatus "status" source path;
      on_member validateFindingSource "source" source path;
      on_member validateVersionNumber "version" source path;
      on_member validateCapturedUrl "url" source path;
      on_member validateViewport "viewport" source path;
      on_member validateScrollPosition "scroll_position" source path;
      on_member validateCommitSha "captured_commit" source path;
      on_member validateIdentifier "screenshot_artefact_id" source path;
      on_member validateBodyText "acceptance_criteria" source path;
      on_member validateActorReference "claimed_by" source path;
      on_member validateRecordCount "annotation_count" source path;
      on_member validateElementContextView "element_context" source path;
      on_member validateResourceUri "resource_uri" source path;
      on_member validateFindingViewUntrustedFields "untrusted_fields" source path]
  end.
Definition validateBrowserSessionView (value : json) (path : string) : list SchemaViolation :=
  let '(found, source) := checkObject
    ["id"; "status"; "control_epoch"; "controller"; "viewport"; "service_origin"]
    ["id"; "status"; "control_epoch"; "viewport"] value path in
  match source with
  | None => found
  | Some source => found ++ concat [
      on_member validateIdentifier "id" source path;
      on_member validateBrowserLifecycleStatus "status" source path;
      on_member validateControlEpoch "control_epoch" source path;
      on_member validateActorReference "controller" source path;
      on_member validateViewport "viewport" source path;
      on_member validateCapturedUrl "service_origin" source path]
  end.
Definition validateClientIdentity (value : json) (path : string) : list SchemaViolation :=
  let '(found, source) := checkObject
    ["name"; "version"]
    ["name"; "version"] value path in
  match source with
  | None => found
  | Some source => found ++ concat [
      on_member validateClientName "name" source path;
      on_member validateClientVersion "version" source path]
  end.
Definition validateSessionInitialisationRequest (value : json) (path : string) : list SchemaViolation :=
  let '(found, source) := checkObject
    ["client"; "project_hint"; "workspace_hint"; "capabilities"]
    ["client"] value path in
  match source with
  | None => found
  | Some source => found ++ concat [
      on_member validateClientIdentity "client" source path;
      on_member validateProjectHint "project_hint" source path;
      on_member validateWorkspaceHint "workspace_hint" source path;
      on_member validateClientCapabilities "capabilities" source path]
  end.
Definition validateSessionInitialisationResultGrantedCapabilities (value : json) (path : string) : list SchemaViolation :=
  let '(found, items) := checkArray 1 16 false value path in
  match items with None => found | Some items => on_items validateAgentCapability items path end.
Definition validateSessionInitialisationResult (value : json) (path : string) : list SchemaViolation :=
  let '(found, source) := checkObject
    ["agent_session_id"; "project"; "workspace"; "capabilities"; "granted_capabilities"; "expires_at"]
    ["agent_session_id"; "project"; "capabilities"; "granted_capabilities"] value path in
  match source with
  | None => found
  | Some source => found ++ concat [
      on_member validateIdentifier "agent_session_id" source path;
      on_member validateProjectReference "project" source path;
      on_member validateWorkspaceReference "workspace" source path;
      on_member validateServerCapabilities "capabilities" source path;
      on_member validateSessionInitialisationResultGrantedCapabilities "granted_capabilities" source path;
      on_member validateTimestamp "expires_at" source path]
  end.
Definition validateProjectCurrentInputRefreshSourceState : json → string → list SchemaViolation := checkBoolean.
Definition validateProjectCurrentInput (value : json) (path : string) : list SchemaViolation :=
  let '(found, source) := checkObject
    ["refresh_source_state"]
    [] value path in
  match source with
  | None => found
  | Some source => found ++ concat [
      on_member validateProjectCurrentInputRefreshSourceState "refresh_source_state" source path]
  end.
Definition validateAgentSessionStatusInputInclude (value : json) (path : string) : list SchemaViolation :=
  let '(found, items) := checkArray 1 4 true value path in
  match items with None => found | Some items => on_items validateSessionInclude items path end.
Definition validateAgentSessionStatusInput (value : json) (path : string) : list SchemaViolation :=
  let '(found, source) := checkObject
    ["include"]
    [] value path in
  match source with
  | None => found
  | Some source => found ++ concat [
      on_member validateAgentSessionStatusInputInclude "include" source path]
  end.
Definition validateAgentInboxListInputStatus (value : json) (path : string) : list SchemaViolation :=
  let '(found, items) := checkArray 1 5 true value path in
  match items with None => found | Some items => on_items validateInboxItemStatus items path end.
Definition validateAgentInboxListInput (value : json) (path : string) : list SchemaViolation :=
  let '(found, source) := checkObject
    ["status"; "limit"; "cursor"]
    [] value path in
  match source with
  | None => found
  | Some source => found ++ concat [
      on_member validateAgentInboxListInputStatus "status" source path;
      on_member validatePageLimit "limit" source path;
      on_member validateCursor "cursor" source path]
  end.
Definition validateAgentInboxAcknowledgeInput (value : json) (path : string) : list SchemaViolation :=
  let '(found, source) := checkObject
    ["inbox_item_id"; "idempotency_key"]
    ["inbox_item_id"; "idempotency_key"] value path in
  match source with
  | None => found
  | Some source => found ++ concat [
      on_member validateIdentifier "inbox_item_id" source path;
      on_member validateIdempotencyKey "idempotency_key" source path]
  end.
Definition validateReviewListInputStatus (value : json) (path : string) : list SchemaViolation :=
  let '(found, items) := checkArray 1 9 true value path in
  match items with None => found | Some items => on_items validateReviewStatus items path end.
Definition validateReviewListInputAssignedToMe : json → string → list SchemaViolation := checkBoolean.
Definition validateReviewListInput (value : json) (path : string) : list SchemaViolation :=
  let '(found, source) := checkObject
    ["status"; "assigned_to_me"; "slug_prefix"; "updated_since"; "limit"; "cursor"]
    [] value path in
  match source with
  | None => found
  | Some source => found ++ concat [
      on_member validateReviewListInputStatus "status" source path;
      on_member validateReviewListInputAssignedToMe "assigned_to_me" source path;
      on_member validateSlug "slug_prefix" source path;
      on_member validateTimestamp "updated_since" source path;
      on_member validatePageLimit "limit" source path;
      on_member validateCursor "cursor" source path]
  end.
Definition validateReviewSearchInput (value : json) (path : string) : list SchemaViolation :=
  let '(found, source) := checkObject
    ["query"; "limit"]
    ["query"] value path in
  match source with
  | None => found
  | Some source => found ++ concat [
      on_member validateSearchQuery "query" source path;
      on_member validatePageLimit "limit" source path]
  end.
Definition validateReviewGetInputInclude (value : json) (path : string) : list SchemaViolation :=
  let '(found, items) := checkArray 1 4 true value path in
  match items with None => found | Some items => on_items validateReviewInclude items path end.
Definition validateReviewGetInput (value : json) (path : string) : list SchemaViolation :=
  let '(found, source) := checkObject
    ["review"; "include"; "findings_limit"; "findings_cursor"; "comments_limit"; "comments_cursor"]
    ["review"] value path in
  match source with
  | None => found
  | Some source => found ++ concat [
      on_member validateReviewSelector "review" source path;
      on_member validateReviewGetInputInclude "include" source path;
      on_member validatePageLimit "findings_limit" source path;
      on_member validateCursor "findings_cursor" source path;
      on_member validatePageLimit "comments_limit" source path;
      on_member validateCursor "comments_cursor" source path]
  end.
Definition validateReviewClaimInput (value : json) (path : string) : list SchemaViolation :=
  let '(found, source) := checkObject
    ["review_id"; "expected_version"; "idempotency_key"]
    ["review_id"; "expected_version"; "idempotency_key"] value path in
  match source with
  | None => found
  | Some source => found ++ concat [
      on_member validateIdentifier "review_id" source path;
      on_member validateVersionNumber "expected_version" source path;
      on_member validateIdempotencyKey "idempotency_key" source path]
  end.
Definition validateReviewUpdateStatusInput (value : json) (path : string) : list SchemaViolation :=
  let '(found, source) := checkObject
    ["review_id"; "expected_version"; "status"; "reason"; "idempotency_key"]
    ["review_id"; "expected_version"; "status"; "idempotency_key"] value path in
  match source with
  | None => found
  | Some source => found ++ concat [
      on_member validateIdentifier "review_id" source path;
      on_member validateVersionNumber "expected_version" source path;
      on_member validateAgentReviewStatus "status" source path;
      on_member validateReasonText "reason" source path;
      on_member validateIdempotencyKey "idempotency_key" source path]
  end.
Definition validateReviewAddCommentInput (value : json) (path : string) : list SchemaViolation :=
  let '(found, source) := checkObject
    ["review_id"; "body"; "idempotency_key"]
    ["review_id"; "body"; "idempotency_key"] value path in
  match source with
  | None => found
  | Some source => found ++ concat [
      on_member validateIdentifier "review_id" source path;
      on_member validateBodyText "body" source path;
      on_member validateIdempotencyKey "idempotency_key" source path]
  end.
Definition validateFindingGetInputInclude (value : json) (path : string) : list SchemaViolation :=
  let '(found, items) := checkArray 1 4 true value path in
  match items with None => found | Some items => on_items validateFindingInclude items path end.
Definition validateFindingGetInput (value : json) (path : string) : list SchemaViolation :=
  let '(found, source) := checkObject
    ["finding_id"; "include"; "comments_limit"; "comments_cursor"]
    ["finding_id"] value path in
  match source with
  | None => found
  | Some source => found ++ concat [
      on_member validateIdentifier "finding_id" source path;
      on_member validateFindingGetInputInclude "include" source path;
      on_member validatePageLimit "comments_limit" source path;
      on_member validateCursor "comments_cursor" source path]
  end.
Definition validateFindingClaimInput (value : json) (path : string) : list SchemaViolation :=
  let '(found, source) := checkObject
    ["finding_id"; "expected_version"; "idempotency_key"]
    ["finding_id"; "expected_version"; "idempotency_key"] value path in
  match source with
  | None => found
  | Some source => found ++ concat [
      on_member validateIdentifier "finding_id" source path;
      on_member validateVersionNumber "expected_version" source path;
      on_member validateIdempotencyKey "idempotency_key" source path]
  end.
Definition validateFindingUpdateStatusInput (value : json) (path : string) : list SchemaViolation :=
  let '(found, source) := checkObject
    ["finding_id"; "expected_version"; "status"; "resolution_note"; "reason"; "idempotency_key"]
    ["finding_id"; "expected_version"; "status"; "idempotency_key"] value path in
  match source with
  | None => found
  | Some source => found ++ concat [
      on_member validateIdentifier "finding_id" source path;
      on_member validateVersionNumber "expected_version" source path;
      on_member validateAgentFindingStatus "status" source path;
      on_member validateBodyText "resolution_note" source path;
      on_member validateReasonText "reason" source path;
      on_member validateIdempotencyKey "idempotency_key" source path] ++ concat [
      (if matchesCondition (get_member "status" source) ["BLOCKED"]
       then concat [requireProperty source path "reason" "A blocked finding must say what is blocking it, because a human has to act on it."]
         ++ concat []
       else [])]
  end.
Definition validateFindingMarkBlockedInput (value : json) (path : string) : list SchemaViolation :=
  let '(found, source) := checkObject
    ["finding_id"; "expected_version"; "reason"; "requested_human_action"; "idempotency_key"]
    ["finding_id"; "expected_version"; "reason"; "idempotency_key"] value path in
  match source with
  | None => found
  | Some source => found ++ concat [
      on_member validateIdentifier "finding_id" source path;
      on_member validateVersionNumber "expected_version" source path;
      on_member validateReasonText "reason" source path;
      on_member validateReasonText "requested_human_action" source path;
      on_member validateIdempotencyKey "idempotency_key" source path]
  end.
Definition validateFindingAddCommentInput (value : json) (path : string) : list SchemaViolation :=
  let '(found, source) := checkObject
    ["finding_id"; "body"; "idempotency_key"]
    ["finding_id"; "body"; "idempotency_key"] value path in
  match source with
  | None => found
  | Some source => found ++ concat [
      on_member validateIdentifier "finding_id" source path;
      on_member validateBodyText "body" source path;
      on_member validateIdempotencyKey "idempotency_key" source path]
  end.
Definition validateFindingSubmitVerificationInputTestedViewports (value : json) (path : string) : list SchemaViolation :=
  let '(found, items) := checkArray 1 8 false value path in
  match items with None => found | Some items => on_items validateViewport items path end.
Definition validateFindingSubmitVerificationInputArtefactIds (value : json) (path : string) : list SchemaViolation :=
  let '(found, items) := checkArray 1 16 true value path in
  match items with None => found | Some items => on_items validateIdentifier items path end.
Definition validateFindingSubmitVerificationInput (value : json) (path : string) : list SchemaViolation :=
  let '(found, source) := checkObject
    ["finding_id"; "expected_version"; "summary"; "branch"; "commit"; "tested_viewports"; "checks";
      "artefact_ids"; "idempotency_key"]
    ["finding_id"; "summary"; "branch"; "commit"; "tested_viewports"; "checks"; "artefact_ids";
      "idempotency_key"] value path in
  match source with
  | None => found
  | Some source => found ++ concat [
      on_member validateIdentifier "finding_id" source path;
      on_member validateVersionNumber "expected_version" source path;
      on_member validateBodyText "summary" source path;
      on_member validateBranchName "branch" source path;
      on_member validateCommitSha "commit" source path;
      on_member validateFindingSubmitVerificationInputTestedViewports "tested_viewports" source path;
      on_member validateVerificationChecks "checks" source path;
      on_member validateFindingSubmitVerificationInputArtefactIds "artefact_ids" source path;
      on_member validateIdempotencyKey "idempotency_key" source path]
  end.
Definition validateBrowserTakeScreenshotInputFullPage : json → string → list SchemaViolation := checkBoolean.
Definition validateBrowserTakeScreenshotInput (value : json) (path : string) : list SchemaViolation :=
  let '(found, source) := checkObject
    ["browser_session_id"; "control_epoch"; "full_page"; "purpose"; "idempotency_key"]
    ["browser_session_id"; "control_epoch"; "purpose"; "idempotency_key"] value path in
  match source with
  | None => found
  | Some source => found ++ concat [
      on_member validateIdentifier "browser_session_id" source path;
      on_member validateControlEpoch "control_epoch" source path;
      on_member validateBrowserTakeScreenshotInputFullPage "full_page" source path;
      on_member validateScreenshotPurpose "purpose" source path;
      on_member validateIdempotencyKey "idempotency_key" source path]
  end.
Definition validateBrowserSessionStartInputAllocate : json → string → list SchemaViolation := checkBoolean.
Definition validateBrowserSessionStartInput (value : json) (path : string) : list SchemaViolation :=
  let '(found, source) := checkObject
    ["published_service_id"; "allocate"; "viewport"; "idempotency_key"]
    ["idempotency_key"] value path in
  match source with
  | None => found
  | Some source => found ++ concat [
      on_member validateIdentifier "published_service_id" source path;
      on_member validateBrowserSessionStartInputAllocate "allocate" source path;
      on_member validateViewport "viewport" source path;
      on_member validateIdempotencyKey "idempotency_key" source path]
  end.
Definition validateBrowserSessionAllocateInput (value : json) (path : string) : list SchemaViolation :=
  let '(found, source) := checkObject
    ["browser_session_id"; "published_service_id"; "idempotency_key"]
    ["browser_session_id"; "idempotency_key"] value path in
  match source with
  | None => found
  | Some source => found ++ concat [
      on_member validateIdentifier "browser_session_id" source path;
      on_member validateIdentifier "published_service_id" source path;
      on_member validateIdempotencyKey "idempotency_key" source path]
  end.
Definition validateBrowserSessionReferenceInput (value : json) (path : string) : list SchemaViolation :=
  let '(found, source) := checkObject
    ["browser_session_id"]
    ["browser_session_id"] value path in
  match source with
  | None => found
  | Some source => found ++ concat [
      on_member validateIdentifier "browser_session_id" source path]
  end.
Definition validateBrowserSessionControlInput (value : json) (path : string) : list SchemaViolation :=
  let '(found, source) := checkObject
    ["browser_session_id"; "control_epoch"; "idempotency_key"]
    ["browser_session_id"; "control_epoch"; "idempotency_key"] value path in
  match source with
  | None => found
  | Some source => found ++ concat [
      on_member validateIdentifier "browser_session_id" source path;
      on_member validateControlEpoch "control_epoch" source path;
      on_member validateIdempotencyKey "idempotency_key" source path]
  end.
Definition validateBrowserNavigateInput (value : json) (path : string) : list SchemaViolation :=
  let '(found, source) := checkObject
    ["browser_session_id"; "control_epoch"; "url"; "wait_until"; "timeout_ms"]
    ["browser_session_id"; "control_epoch"; "url"] value path in
  match source with
  | None => found
  | Some source => found ++ concat [
      on_member validateIdentifier "browser_session_id" source path;
      on_member validateControlEpoch "control_epoch" source path;
      on_member validateNavigationTarget "url" source path;
      on_member validateWaitUntil "wait_until" source path;
      on_member validateCommandTimeoutMs "timeout_ms" source path]
  end.
Definition validateBrowserSnapshotInputMaxNodes : json → string → list SchemaViolation := checkInteger 1 500.
Definition validateBrowserSnapshotInputMaxBytes : json → string → list SchemaViolation := checkInteger 1024 65536.
Definition validateBrowserSnapshotInput (value : json) (path : string) : list SchemaViolation :=
  let '(found, source) := checkObject
    ["browser_session_id"; "control_epoch"; "max_nodes"; "max_bytes"; "timeout_ms"]
    ["browser_session_id"; "control_epoch"] value path in
  match source with
  | None => found
  | Some source => found ++ concat [
      on_member validateIdentifier "browser_session_id" source path;
      on_member validateControlEpoch "control_epoch" source path;
      on_member validateBrowserSnapshotInputMaxNodes "max_nodes" source path;
      on_member validateBrowserSnapshotInputMaxBytes "max_bytes" source path;
      on_member validateCommandTimeoutMs "timeout_ms" source path]
  end.
Definition validateBrowserElementInput (value : json) (path : string) : list SchemaViolation :=
  let '(found, source) := checkObject
    ["browser_session_id"; "control_epoch"; "snapshot_id"; "ref"; "timeout_ms"]
    ["browser_session_id"; "control_epoch"; "snapshot_id"; "ref"] value path in
  match source with
  | None => found
  | Some source => found ++ concat [
      on_member validateIdentifier "browser_session_id" source path;
      on_member validateControlEpoch "control_epoch" source path;
      on_member validateIdentifier "snapshot_id" source path;
      on_member validateElementReference "ref" source path;
      on_member validateCommandTimeoutMs "timeout_ms" source path]
  end.
Definition validateBrowserTypeInputSubmit : json → string → list SchemaViolation := checkBoolean.
Definition validateBrowserTypeInput (value : json) (path : string) : list SchemaViolation :=
  let '(found, source) := checkObject
    ["browser_session_id"; "control_epoch"; "snapshot_id"; "ref"; "text"; "submit"; "timeout_ms"]
    ["browser_session_id"; "control_epoch"; "snapshot_id"; "ref"; "text"] value path in
  match source with
  | None => found
  | Some source => found ++ concat [
      on_member validateIdentifier "browser_session_id" source path;
      on_member validateControlEpoch "control_epoch" source path;
      on_member validateIdentifier "snapshot_id" source path;
      on_member validateElementReference "ref" source path;
      on_member validateTypedText "text" source path;
      on_member validateBrowserTypeInputSubmit "submit" source path;
      on_member validateCommandTimeoutMs "timeout_ms" source path]
  end.
Definition validateBrowserSelectOptionInputValues (value : json) (path : string) : list SchemaViolation :=
  let '(found, items) := checkArray 1 32 false value path in
  match items with None => found | Some items => on_items validateOptionValue items path end.
Definition validateBrowserSelectOptionInput (value : json) (path : string) : list SchemaViolation :=
  let '(found, source) := checkObject
    ["browser_session_id"; "control_epoch"; "snapshot_id"; "ref"; "values"; "timeout_ms"]
    ["browser_session_id"; "control_epoch"; "snapshot_id"; "ref"; "values"] value path in
  match source with
  | None => found
  | Some source => found ++ concat [
      on_member validateIdentifier "browser_session_id" source path;
      on_member validateControlEpoch "control_epoch" source path;
      on_member validateIdentifier "snapshot_id" source path;
      on_member validateElementReference "ref" source path;
      on_member validateBrowserSelectOptionInputValues "values" source path;
      on_member validateCommandTimeoutMs "timeout_ms" source path]
  end.
Definition validateBrowserPressKeyInput (value : json) (path : string) : list SchemaViolation :=
  let '(found, source) := checkObject
    ["browser_session_id"; "control_epoch"; "key"; "snapshot_id"; "ref"; "timeout_ms"]
    ["browser_session_id"; "control_epoch"; "key"] value path in
  match source with
  | None => found
  | Some source => found ++ concat [
      on_member validateIdentifier "browser_session_id" source path;
      on_member validateControlEpoch "control_epoch" source path;
      on_member validateKeyName "key" source path;
      on_member validateIdentifier "snapshot_id" source path;
      on_member validateElementReference "ref" source path;
      on_member validateCommandTimeoutMs "timeout_ms" source path]
  end.
Definition validateBrowserScrollInputAmountPx : json → string → list SchemaViolation := checkInteger 1 100000.
Definition validateBrowserScrollInput (value : json) (path : string) : list SchemaViolation :=
  let '(found, source) := checkObject
    ["browser_session_id"; "control_epoch"; "direction"; "amount_px"; "snapshot_id"; "ref"; "timeout_ms"]
    ["browser_session_id"; "control_epoch"; "direction"; "amount_px"] value path in
  match source with
  | None => found
  | Some source => found ++ concat [
      on_member validateIdentifier "browser_session_id" source path;
      on_member validateControlEpoch "control_epoch" source path;
      on_member validateScrollDirection "direction" source path;
      on_member validateBrowserScrollInputAmountPx "amount_px" source path;
      on_member validateIdentifier "snapshot_id" source path;
      on_member validateElementReference "ref" source path;
      on_member validateCommandTimeoutMs "timeout_ms" source path]
  end.
Definition validateBrowserResizeInput (value : json) (path : string) : list SchemaViolation :=
  let '(found, source) := checkObject
    ["browser_session_id"; "control_epoch"; "viewport"; "timeout_ms"]
    ["browser_session_id"; "control_epoch"; "viewport"] value path in
  match source with
  | None => found
  | Some source => found ++ concat [
      on_member validateIdentifier "browser_session_id" source path;
      on_member validateControlEpoch "control_epoch" source path;
      on_member validateViewport "viewport" source path;
      on_member validateCommandTimeoutMs "timeout_ms" source path]
  end.
Definition validateBrowserWaitInput (value : json) (path : string) : list SchemaViolation :=
  let '(found, source) := checkObject
    ["browser_session_id"; "control_epoch"; "condition"; "url_pattern"; "selector"; "text"; "timeout_ms"]
    ["browser_session_id"; "control_epoch"; "condition"] value path in
  match source with
  | None => found
  | Some source => found ++ concat [
      on_member validateIdentifier "browser_session_id" source path;
      on_member validateControlEpoch "control_epoch" source path;
      on_member validateWaitCondition "condition" source path;
      on_member validateUrlPattern "url_pattern" source path;
      on_member validateSelector "selector" source path;
      on_member validateCapturedText "text" source path;
      on_member validateCommandTimeoutMs "timeout_ms" source path] ++ concat [
      (if matchesCondition (get_member "condition" source) ["url_matches"]
       then concat [requireProperty source path "url_pattern" "a url_matches condition is defined by its pattern alone"]
         ++ concat [forbidProperty source path "selector" "a url_matches condition is defined by its pattern alone";
         forbidProperty source path "text" "a url_matches condition is defined by its pattern alone"]
       else []);
      (if matchesCondition (get_member "condition" source) ["selector_visible"; "selector_hidden"]
       then concat [requireProperty source path "selector" "a selector condition is defined by its selector alone"]
         ++ concat [forbidProperty source path "url_pattern" "a selector condition is defined by its selector alone";
         forbidProperty source path "text" "a selector condition is defined by its selector alone"]
       else []);
      (if matchesCondition (get_member "condition" source) ["text_visible"]
       then concat [requireProperty source path "text" "a text condition is defined by its text alone"]
         ++ concat [forbidProperty source path "url_pattern" "a text condition is defined by its text alone";
         forbidProperty source path "selector" "a text condition is defined by its text alone"]
       else []);
      (if matchesCondition (get_member "condition" source) ["network_idle"]
       then concat []
         ++ concat [forbidProperty source path "url_pattern" "network idleness has no target";
         forbidProperty source path "selector" "network idleness has no target";
         forbidProperty source path "text" "network idleness has no target"]
       else [])]
  end.
Definition validateProjectCurrentResult (value : json) (path : string) : list SchemaViolation :=
  let '(found, source) := checkObject
    ["project"; "workspace"; "policy"]
    ["project"; "policy"] value path in
  match source with
  | None => found
  | Some source => found ++ concat [
      on_member validateProjectReference "project" source path;
      on_member validateWorkspaceReference "workspace" source path;
      on_member validatePolicySummary "policy" source path]
  end.
Definition validateAgentSessionStatusResultGrantedCapabilities (value : json) (path : string) : list SchemaViolation :=
  let '(found, items) := checkArray 1 16 false value path in
  match items with None => found | Some items => on_items validateAgentCapability items path end.
Definition validateAgentSessionStatusResultBrowserSessions (value : json) (path : string) : list SchemaViolation :=
  let '(found, items) := checkArray 1 16 false value path in
  match items with None => found | Some items => on_items validateBrowserSessionView items path end.
Definition validateAgentSessionStatusResult (value : json) (path : string) : list SchemaViolation :=
  let '(found, source) := checkObject
    ["agent_session_id"; "status"; "client"; "project"; "workspace"; "capabilities"; "granted_capabilities";
      "browser_sessions"; "inbox_pending_count"; "expires_at"]
    ["agent_session_id"; "status"; "project"; "capabilities"; "granted_capabilities"] value path in
  match source with
  | None => found
  | Some source => found ++ concat [
      on_member validateIdentifier "agent_session_id" source path;
      on_member validateAgentSessionState "status" source path;
      on_member validateClientIdentity "client" source path;
      on_member validateProjectReference "project" source path;
      on_member validateWorkspaceReference "workspace" source path;
      on_member validateServerCapabilities "capabilities" source path;
      on_member validateAgentSessionStatusResultGrantedCapabilities "granted_capabilities" source path;
      on_member validateAgentSessionStatusResultBrowserSessions "browser_sessions" source path;
      on_member validateRecordCount "inbox_pending_count" source path;
      on_member validateTimestamp "expires_at" source path]
  end.
Definition validateReviewGetResultFindings (value : json) (path : string) : list SchemaViolation :=
  let '(found, items) := checkArray 1 50 false value path in
  match items with None => found | Some items => on_items validateFindingView items path end.
Definition validateReviewGetResultArtefactLinks (value : json) (path : string) : list SchemaViolation :=
  let '(found, items) := checkArray 1 50 false value path in
  match items with None => found | Some items => on_items validateArtefactLink items path end.
Definition validateReviewGetResultComments (value : json) (path : string) : list SchemaViolation :=
  let '(found, items) := checkArray 1 20 false value path in
  match items with None => found | Some items => on_items validateCommentView items path end.
Definition validateReviewGetResult (value : json) (path : string) : list SchemaViolation :=
  let '(found, source) := checkObject
    ["review"; "findings"; "findings_next_cursor"; "artefact_links"; "comments"; "comments_next_cursor";
      "staleness"]
    ["review"] value path in
  match source with
  | None => found
  | Some source => found ++ concat [
      on_member validateReviewView "review" source path;
      on_member validateReviewGetResultFindings "findings" source path;
      on_member validateCursor "findings_next_cursor" source path;
      on_member validateReviewGetResultArtefactLinks "artefact_links" source path;
      on_member validateReviewGetResultComments "comments" source path;
      on_member validateCursor "comments_next_cursor" source path;
      on_member validateReviewStaleness "staleness" source path]
  end.
Definition validateReviewListResultReviews (value : json) (path : string) : list SchemaViolation :=
  let '(found, items) := checkArray 0 50 false value path in
  match items with None => found | Some items => on_items validateReviewView items path end.
Definition validateReviewListResult (value : json) (path : string) : list SchemaViolation :=
  let '(found, source) := checkObject
    ["reviews"; "next_cursor"]
    ["reviews"] value path in
  match source with
  | None => found
  | Some source => found ++ concat [
      on_member validateReviewListResultReviews "reviews" source path;
      on_member validateCursor "next_cursor" source path]
  end.
Definition validateReviewSearchResultMatches (value : json) (path : string) : list SchemaViolation :=
  let '(found, items) := checkArray 0 25 false value path in
  match items with None => found | Some items => on_items validateReviewSearchMatch items path end.
Definition validateReviewSearchResult (value : json) (path : string) : list SchemaViolation :=
  let '(found, source) := checkObject
    ["matches"]
    ["matches"] value path in
  match source with
  | None => found
  | Some source => found ++ concat [
      on_member validateReviewSearchResultMatches "matches" source path]
  end.
Definition validateReviewAddCommentResult (value : json) (path : string) : list SchemaViolation :=
  let '(found, source) := checkObject
    ["comment"]
    ["comment"] value path in
  match source with
  | None => found
  | Some source => found ++ concat [
      on_member validateCommentView "comment" source path]
  end.
Definition validateAgentInboxListResultItems (value : json) (path : string) : list SchemaViolation :=
  let '(found, items) := checkArray 0 50 false value path in
  match items with None => found | Some items => on_items validateInboxItemView items path end.
Definition validateAgentInboxListResult (value : json) (path : string) : list SchemaViolation :=
  let '(found, source) := checkObject
    ["items"; "pending_count"; "next_cursor"]
    ["items"; "pending_count"] value path in
  match source with
  | None => found
  | Some source => found ++ concat [
      on_member validateAgentInboxListResultItems "items" source path;
      on_member validateRecordCount "pending_count" source path;
      on_member validateCursor "next_cursor" source path]
  end.
Definition validateAgentInboxAcknowledgeResult (value : json) (path : string) : list SchemaViolation :=
  let '(found, source) := checkObject
    ["item"; "previous_status"]
    ["item"] value path in
  match source with
  | None => found
  | Some source => found ++ concat [
      on_member validateInboxItemView "item" source path;
      on_member validateInboxItemStatus "previous_status" source path]
  end.
Definition validateReviewMutationResult (value : json) (path : string) : list SchemaViolation :=
  let '(found, source) := checkObject
    ["review"; "previous_status"]
    ["review"] value path in
  match source with
  | None => found
  | Some source => found ++ concat [
      on_member validateReviewView "review" source path;
      on_member validateReviewStatus "previous_status" source path]
  end.
Definition validateFindingGetResultAnnotations (value : json) (path : string) : list SchemaViolation :=
  let '(found, items) := checkArray 1 32 false value path in
  match items with None => found | Some items => on_items validateAnnotationView items path end.
Definition validateFindingGetResultComments (value : json) (path : string) : list SchemaViolation :=
  let '(found, items) := checkArray 1 20 false value path in
  match items with None => found | Some items => on_items validateCommentView items path end.
Definition validateFindingGetResultArtefactLinks (value : json) (path : string) : list SchemaViolation :=
  let '(found, items) := checkArray 1 16 false value path in
  match items with None => found | Some items => on_items validateArtefactLink items path end.
Definition validateFindingGetResult (value : json) (path : string) : list SchemaViolation :=
  let '(found, source) := checkObject
    ["finding"; "annotations"; "comments"; "comments_next_cursor"; "artefact_links"; "latest_verification"]
    ["finding"] value path in
  match source with
  | None => found
  | Some source => found ++ concat [
      on_member validateFindingView "finding" source path;
      on_member validateFindingGetResultAnnotations "annotations" source path;
      on_member validateFindingGetResultComments "comments" source path;
      on_member validateCursor "comments_next_cursor" source path;
      on_member validateFindingGetResultArtefactLinks "artefact_links" source path;
      on_member validateVerificationView "latest_verification" source path]
  end.
Definition validateFindingMutationResult (value : json) (path : string) : list SchemaViolation :=
  let '(found, source) := checkObject
    ["finding"; "previous_status"]
    ["finding"] value path in
  match source with
  | None => found
  | Some source => found ++ concat [
      on_member validateFindingView "finding" source path;
      on_member validateFindingStatus "previous_status" source path]
  end.
Definition validateFindingAddCommentResult (value : json) (path : string) : list SchemaViolation :=
  let '(found, source) := checkObject
    ["comment"]
    ["comment"] value path in
  match source with
  | None => found
  | Some source => found ++ concat [
      on_member validateCommentView "comment" source path]
  end.
Definition validateFindingSubmitVerificationResultMissing (value : json) (path : string) : list SchemaViolation :=
  let '(found, items) := checkArray 0 16 false value path in
  match items with None => found | Some items => on_items validateRequirementLabel items path end.
Definition validateCompletionRequirementsRequiredViewports (value : json) (path : string) : list SchemaViolation :=
  let '(found, items) := checkArray 1 8 false value path in
  match items with None => found | Some items => on_items validateRequirementLabel items path end.
Definition validateCompletionRequirementsConsoleReview : json → string → list SchemaViolation := checkBoolean.
Definition validateCompletionRequirementsNetworkReview : json → string → list SchemaViolation := checkBoolean.
Definition validateCompletionRequirementsFinalScreenshot : json → string → list SchemaViolation := checkBoolean.
Definition validateCompletionRequirementsAccessibilityCheck : json → string → list SchemaViolation := checkBoolean.
Definition validateCompletionRequirements (value : json) (path : string) : list SchemaViolation :=
  let '(found, source) := checkObject
    ["required_viewports"; "console_review"; "network_review"; "final_screenshot"; "accessibility_check"]
    ["required_viewports"; "console_review"; "network_review"; "final_screenshot"] value path in
  match source with
  | None => found
  | Some source => found ++ concat [
      on_member validateCompletionRequirementsRequiredViewports "required_viewports" source path;
      on_member validateCompletionRequirementsConsoleReview "console_review" source path;
      on_member validateCompletionRequirementsNetworkReview "network_review" source path;
      on_member validateCompletionRequirementsFinalScreenshot "final_screenshot" source path;
      on_member validateCompletionRequirementsAccessibilityCheck "accessibility_check" source path]
  end.
Definition validateFindingSubmitVerificationResult (value : json) (path : string) : list SchemaViolation :=
  let '(found, source) := checkObject
    ["verification"; "finding"; "requirements"; "missing"]
    ["verification"; "finding"; "requirements"; "missing"] value path in
  match source with
  | None => found
  | Some source => found ++ concat [
      on_member validateVerificationView "verification" source path;
      on_member validateFindingView "finding" source path;
      on_member validateCompletionRequirements "requirements" source path;
      on_member validateFindingSubmitVerificationResultMissing "missing" source path]
  end.
Definition validateBrowserControllerType : json → string → list SchemaViolation := checkString
     (of_values ["agent"; "human"; "system"]).
Definition validateBrowserController (value : json) (path : string) : list SchemaViolation :=
  let '(found, source) := checkObject
    ["type"; "id"]
    ["type"; "id"] value path in
  match source with
  | None => found
  | Some source => found ++ concat [
      on_member validateBrowserControllerType "type" source path;
      on_member validateIdentifier "id" source path]
  end.
Definition validateBrowserSessionDetailBrowserType : json → string → list SchemaViolation
     := checkString (of_values ["chromium"]).
Definition validateBrowserSessionDetailLiveViewAvailable : json → string → list SchemaViolation := checkBoolean.
Definition validateBrowserSessionDetail (value : json) (path : string) : list SchemaViolation :=
  let '(found, source) := checkObject
    ["browser_session_id"; "status"; "control_epoch"; "current_controller"; "viewport"; "browser_type";
      "browser_version"; "published_service_id"; "service_origin"; "url"; "live_view_available";
      "created_at"; "ended_at"]
    ["browser_session_id"; "status"; "control_epoch"; "viewport"; "live_view_available"] value path in
  match source with
  | None => found
  | Some source => found ++ concat [
      on_member validateIdentifier "browser_session_id" source path;
      on_member validateBrowserLifecycleStatus "status" source path;
      on_member validateControlEpoch "control_epoch" source path;
      on_member validateBrowserController "current_controller" source path;
      on_member validateViewport "viewport" source path;
      on_member validateBrowserSessionDetailBrowserType "browser_type" source path;
      on_member validateClientVersion "browser_version" source path;
      on_member validateIdentifier "published_service_id" source path;
      on_member validateCapturedUrl "service_origin" source path;
      on_member validateCapturedUrl "url" source path;
      on_member validateBrowserSessionDetailLiveViewAvailable "live_view_available" source path;
      on_member validateTimestamp "created_at" source path;
      on_member validateTimestamp "ended_at" source path]
  end.
Definition validateBrowserSessionResult (value : json) (path : string) : list SchemaViolation :=
  let '(found, source) := checkObject
    ["session"]
    ["session"] value path in
  match source with
  | None => found
  | Some source => found ++ concat [
      on_member validateBrowserSessionDetail "session" source path]
  end.
Definition validateBrowserSnapshotViewNodeCount : json → string → list SchemaViolation := checkInteger 0 500.
Definition validateBrowserSnapshotViewTruncated : json → string → list SchemaViolation := checkBoolean.
Definition validateBrowserSnapshotView (value : json) (path : string) : list SchemaViolation :=
  let '(found, source) := checkObject
    ["snapshot_id"; "viewport"; "node_count"; "truncated"; "text"]
    ["snapshot_id"; "viewport"; "node_count"; "truncated"; "text"] value path in
  match source with
  | None => found
  | Some source => found ++ concat [
      on_member validateIdentifier "snapshot_id" source path;
      on_member validateViewport "viewport" source path;
      on_member validateBrowserSnapshotViewNodeCount "node_count" source path;
      on_member validateBrowserSnapshotViewTruncated "truncated" source path;
      on_member validateSnapshotText "text" source path]
  end.
Definition validateBrowserNavigationViewHttpStatus : json → string → list SchemaViolation := checkInteger 100 599.
Definition validateBrowserNavigationViewRedirected : json → string → list SchemaViolation := checkBoolean.
Definition validateBrowserNavigationView (value : json) (path : string) : list SchemaViolation :=
  let '(found, source) := checkObject
    ["url"; "http_status"; "redirected"; "title"]
    ["url"; "redirected"; "title"] value path in
  match source with
  | None => found
  | Some source => found ++ concat [
      on_member validateCapturedUrl "url" source path;
      on_member validateBrowserNavigationViewHttpStatus "http_status" source path;
      on_member validateBrowserNavigationViewRedirected "redirected" source path;
      on_member validateCapturedText "title" source path]
  end.
Definition validateBrowserInteractionResultDurationMs : json → string → list SchemaViolation := checkInteger 0 600000.
Definition validateBrowserInteractionResult (value : json) (path : string) : list SchemaViolation :=
  let '(found, source) := checkObject
    ["browser_session_id"; "command"; "control_epoch"; "duration_ms"; "viewport"; "navigation"; "snapshot"]
    ["browser_session_id"; "command"; "control_epoch"; "duration_ms"] value path in
  match source with
  | None => found
  | Some source => found ++ concat [
      on_member validateIdentifier "browser_session_id" source path;
      on_member validateBrowserCommandName "command" source path;
      on_member validateControlEpoch "control_epoch" source path;
      on_member validateBrowserInteractionResultDurationMs "duration_ms" source path;
      on_member validateViewport "viewport" source path;
      on_member validateBrowserNavigationView "navigation" source path;
      on_member validateBrowserSnapshotView "snapshot" source path]
  end.
Definition validateBrowserTakeScreenshotResultFullPage : json → string → list SchemaViolation := checkBoolean.
Definition validateBrowserTakeScreenshotResult (value : json) (path : string) : list SchemaViolation :=
  let '(found, source) := checkObject
    ["artefact"; "browser_session_id"; "captured_at"; "viewport"; "full_page"; "url"]
    ["artefact"; "browser_session_id"; "captured_at"; "viewport"; "full_page"] value path in
  match source with
  | None => found
  | Some source => found ++ concat [
      on_member validateArtefactLink "artefact" source path;
      on_member validateIdentifier "browser_session_id" source path;
      on_member validateTimestamp "captured_at" source path;
      on_member validateViewport "viewport" source path;
      on_member validateBrowserTakeScreenshotResultFullPage "full_page" source path;
      on_member validateCapturedUrl "url" source path]
  end.
Definition validateToolRefusalProtocolVersion : json → string → list SchemaViolation := checkInteger 1 1.
Definition validateToolRefusalOk : json → string → list SchemaViolation := checkBoolean.
Definition validateToolRefusalWarnings (value : json) (path : string) : list SchemaViolation :=
  let '(found, items) := checkArray 1 8 false value path in
  match items with None => found | Some items => on_items validateWarning items path end.
Definition validateToolRefusal (value : json) (path : string) : list SchemaViolation :=
  let '(found, source) := checkObject
    ["protocol_version"; "ok"; "request_id"; "type"; "error"; "trust"; "instruction_policy"; "warnings"]
    ["protocol_version"; "ok"; "request_id"; "type"; "error"; "trust"; "instruction_policy"] value path in
  match source with
  | None => found
  | Some source => found ++ concat [
      on_member validateToolRefusalProtocolVersion "protocol_version" source path;
      on_member validateToolRefusalOk "ok" source path;
      on_member validateRequestId "request_id" source path;
      on_member validateMessageType "type" source path;
      on_member validateToolError "error" source path;
      on_member validateTrustLabel "trust" source path;
      on_member validateInstructionPolicy "instruction_policy" source path;
      on_member validateToolRefusalWarnings "warnings" source path]
  end.
Definition validateEnvelopeProtocolVersion : json → string → list SchemaViolation := checkInteger 1 1.
Definition validateEnvelopeOk : json → string → list SchemaViolation := checkBoolean.
Definition validateEnvelopeWarnings (value : json) (path : string) : list SchemaViolation :=
  let '(found, items) := checkArray 1 8 false value path in
  match items with None => found | Some items => on_items validateWarning items path end.
Definition validateEnvelopeData : json → string → list SchemaViolation := checkPlainObject.
Definition validateEnvelope (value : json) (path : string) : list SchemaViolation :=
  let '(found, source) := checkObject
    ["protocol_version"; "ok"; "request_id"; "type"; "trust"; "instruction_policy"; "warnings"; "data"]
    ["protocol_version"; "ok"; "request_id"; "type"; "trust"; "instruction_policy"; "data"] value path in
  match source with
  | None => found
  | Some source => found ++ concat [
      on_member validateEnvelopeProtocolVersion "protocol_version" source path;
      on_member validateEnvelopeOk "ok" source path;
      on_member validateRequestId "request_id" source path;
      on_member validateMessageType "type" source path;
      on_member validateTrustLabel "trust" source path;
      on_member validateInstructionPolicy "instruction_policy" source path;
      on_member validateEnvelopeWarnings "warnings" source path;
      on_member validateEnvelopeData "data" source path]
  end.
Definition validateDevelopmentServiceViewInternalOrigin : json → string → list SchemaViolation :=
  checkString (of_lengths 1 256 (Some PATTERN_22)).
Definition validateDevelopmentServiceViewObservedDestination : json → string → list SchemaViolation :=
  checkString (of_lengths 3 64 (Some PATTERN_23)).
Definition validateDevelopmentServiceView (value : json) (path : string) : list SchemaViolation :=
  let '(found, source) := checkObject
    ["id"; "status"; "workspace_id"; "local_host"; "local_port"; "protocol"; "internal_origin";
      "observed_destination"; "failure_class"; "expires_at"]
    ["id"; "status"; "local_host"; "local_port"; "protocol"; "internal_origin"; "expires_at"] value path in
  match source with
  | None => found
  | Some source => found ++ concat [
      on_member validateIdentifier "id" source path;
      on_member validatePublishedServiceStatus "status" source path;
      on_member validateIdentifier "workspace_id" source path;
      on_member validateLocalHost "local_host" source path;
      on_member validateLocalPort "local_port" source path;
      on_member validateDestinationProtocol "protocol" source path;
      on_member validateDevelopmentServiceViewInternalOrigin "internal_origin" source path;
      on_member validateDevelopmentServiceViewObservedDestination "observed_destination" source path;
      on_member validateErrorClass "failure_class" source path;
      on_member validateTimestamp "expires_at" source path]
  end.
Definition validateDevelopmentServicesListInput (value : json) (path : string) : list SchemaViolation :=
  let '(found, source) := checkObject
    ["limit"]
    [] value path in
  match source with
  | None => found
  | Some source => found ++ concat [
      on_member validatePageLimit "limit" source path]
  end.
Definition validateDevelopmentServicePublishInputTtlSeconds : json → string → list SchemaViolation := checkInteger 1 86400.
Definition validateDevelopmentServicePublishInput (value : json) (path : string) : list SchemaViolation :=
  let '(found, source) := checkObject
    ["workspace_id"; "local_host"; "local_port"; "protocol"; "ttl_seconds"; "idempotency_key"]
    ["workspace_id"; "local_port"; "idempotency_key"] value path in
  match source with
  | None => found
  | Some source => found ++ concat [
      on_member validateIdentifier "workspace_id" source path;
      on_member validateLocalHost "local_host" source path;
      on_member validateLocalPort "local_port" source path;
      on_member validateDestinationProtocol "protocol" source path;
      on_member validateDevelopmentServicePublishInputTtlSeconds "ttl_seconds" source path;
      on_member validateIdempotencyKey "idempotency_key" source path]
  end.
Definition validateDevelopmentServiceUnpublishInput (value : json) (path : string) : list SchemaViolation :=
  let '(found, source) := checkObject
    ["published_service_id"; "idempotency_key"]
    ["published_service_id"; "idempotency_key"] value path in
  match source with
  | None => found
  | Some source => found ++ concat [
      on_member validateIdentifier "published_service_id" source path;
      on_member validateIdempotencyKey "idempotency_key" source path]
  end.
Definition validateDevelopmentServicesListResultServices (value : json) (path : string) : list SchemaViolation :=
  let '(found, items) := checkArray 0 100 false value path in
  match items with None => found | Some items => on_items validateDevelopmentServiceView items path end.
Definition validateDevelopmentServicesListResult (value : json) (path : string) : list SchemaViolation :=
  let '(found, source) := checkObject
    ["services"]
    ["services"] value path in
  match source with
  | None => found
  | Some source => found ++ concat [
      on_member validateDevelopmentServicesListResultServices "services" source path]
  end.
Definition validateDevelopmentServiceResult (value : json) (path : string) : list SchemaViolation :=
  let '(found, source) := checkObject
    ["service"]
    ["service"] value path in
  match source with
  | None => found
  | Some source => found ++ concat [
      on_member validateDevelopmentServiceView "service" source path]
  end.
Definition validateFindingCompletionStateMissing (value : json) (path : string) : list SchemaViolation :=
  let '(found, items) := checkArray 0 16 false value path in
  match items with None => found | Some items => on_items validateRequirementLabel items path end.
Definition validateFindingCompletionState (value : json) (path : string) : list SchemaViolation :=
  let '(found, source) := checkObject
    ["finding_id"; "status"; "result"; "missing"; "verification_id"; "verification_count"]
    ["finding_id"; "status"; "result"; "missing"] value path in
  match source with
  | None => found
  | Some source => found ++ concat [
      on_member validateIdentifier "finding_id" source path;
      on_member validateFindingStatus "status" source path;
      on_member validateCompletionResult "result" source path;
      on_member validateFindingCompletionStateMissing "missing" source path;
      on_member validateIdentifier "verification_id" source path;
      on_member validateRecordCount "verification_count" source path]
  end.
Definition validateTaskValidationStatusInput (value : json) (path : string) : list SchemaViolation :=
  let '(found, source) := checkObject
    ["review"; "finding_id"]
    ["review"] value path in
  match source with
  | None => found
  | Some source => found ++ concat [
      on_member validateReviewSelector "review" source path;
      on_member validateIdentifier "finding_id" source path]
  end.
Definition validateTaskValidationStatusResultBrowserRequired : json → string → list SchemaViolation := checkBoolean.
Definition validateTaskValidationStatusResultMissing (value : json) (path : string) : list SchemaViolation :=
  let '(found, items) := checkArray 0 32 false value path in
  match items with None => found | Some items => on_items validateRequirementLabel items path end.
Definition validateTaskValidationStatusResultFindingStates (value : json) (path : string) : list SchemaViolation :=
  let '(found, items) := checkArray 0 50 false value path in
  match items with None => found | Some items => on_items validateFindingCompletionState items path end.
Definition validateTaskValidationStatusResult (value : json) (path : string) : list SchemaViolation :=
  let '(found, source) := checkObject
    ["browser_required"; "requirements"; "missing"; "assurance"; "finding_states"]
    ["browser_required"; "requirements"; "missing"; "assurance"] value path in
  match source with
  | None => found
  | Some source => found ++ concat [
      on_member validateTaskValidationStatusResultBrowserRequired "browser_required" source path;
      on_member validateCompletionRequirements "requirements" source path;
      on_member validateTaskValidationStatusResultMissing "missing" source path;
      on_member validateEvidenceAssurance "assurance" source path;
      on_member validateTaskValidationStatusResultFindingStates "finding_states" source path]
  end.
Definition validateTaskCompleteInput (value : json) (path : string) : list SchemaViolation :=
  let '(found, source) := checkObject
    ["review"; "finding_id"; "summary"; "idempotency_key"]
    ["review"; "idempotency_key"] value path in
  match source with
  | None => found
  | Some source => found ++ concat [
      on_member validateReviewSelector "review" source path;
      on_member validateIdentifier "finding_id" source path;
      on_member validateBodyText "summary" source path;
      on_member validateIdempotencyKey "idempotency_key" source path]
  end.
Definition validateTaskCompleteResultTerminatesSession : json → string → list SchemaViolation := checkBoolean.
Definition validateTaskCompleteResultMissing (value : json) (path : string) : list SchemaViolation :=
  let '(found, items) := checkArray 0 32 false value path in
  match items with None => found | Some items => on_items validateRequirementLabel items path end.
Definition validateTaskCompleteResultNextActions (value : json) (path : string) : list SchemaViolation :=
  let '(found, items) := checkArray 0 16 false value path in
  match items with None => found | Some items => on_items validateRequirementLabel items path end.
Definition validateTaskCompleteResultFindingStates (value : json) (path : string) : list SchemaViolation :=
  let '(found, items) := checkArray 0 50 false value path in
  match items with None => found | Some items => on_items validateFindingCompletionState items path end.
Definition validateTaskCompleteResult (value : json) (path : string) : list SchemaViolation :=
  let '(found, source) := checkObject
    ["result"; "terminates_session"; "requirements"; "missing"; "assurance"; "next_actions"; "finding_states"]
    ["result"; "terminates_session"; "requirements"; "missing"; "assurance"; "next_actions"] value path in
  match source with
  | None => found
  | Some source => found ++ concat [
      on_member validateCompletionResult "result" source path;
      on_member validateTaskCompleteResultTerminatesSession "terminates_session" source path;
      on_member validateCompletionRequirements "requirements" source path;
      on_member validateTaskCompleteResultMissing "missing" source path;
      on_member validateEvidenceAssurance "assurance" source path;
      on_member validateTaskCompleteResultNextActions "next_actions" source path;
      on_member validateTaskCompleteResultFindingStates "finding_states" source path]
  end.

(** The definitions of the schema, with the functions generated for them. *)
Definition mcp_validators : list (Schema * (json → string → list SchemaViolation)) :=
  [(schema_identifier, validateIdentifier);
   (schema_request_id, validateRequestId);
   (schema_idempotency_key, validateIdempotencyKey);
   (schema_timestamp, validateTimestamp);
   (schema_slug, validateSlug);
   (schema_review_selector, validateReviewSelector);
   (schema_project_hint, validateProjectHint);
   (schema_workspace_hint, validateWorkspaceHint);
   (schema_client_name, validateClientName);
   (schema_client_version, validateClientVersion);
   (schema_title_text, validateTitleText);
   (schema_body_text, validateBodyText);
   (schema_reason_text, validateReasonText);
   (schema_captured_url, validateCapturedUrl);
   (schema_navigation_target, validateNavigationTarget);
   (schema_captured_text, validateCapturedText);
   (schema_snapshot_text, validateSnapshotText);
   (schema_element_reference, validateElementReference);
   (schema_accessible_role, validateAccessibleRole);
   (schema_typed_text, validateTypedText);
   (schema_option_value, validateOptionValue);
   (schema_selector, validateSelector);
   (schema_url_pattern, validateUrlPattern);
   (schema_resource_uri, validateResourceUri);
   (schema_content_path, validateContentPath);
   (schema_branch_name, validateBranchName);
   (schema_commit_sha, validateCommitSha);
   (schema_sha256_hex, validateSha256Hex);
   (schema_media_type, validateMediaType);
   (schema_cursor, validateCursor);
   (schema_page_limit, validatePageLimit);
   (schema_record_count, validateRecordCount);
   (schema_version_number, validateVersionNumber);
   (schema_control_epoch, validateControlEpoch);
   (schema_command_timeout_ms, validateCommandTimeoutMs);
   (schema_byte_size, validateByteSize);
   (schema_pixel_extent, validatePixelExtent);
   (schema_css_pixel_offset, validateCssPixelOffset);
   (schema_device_scale_factor, validateDeviceScaleFactor);
   (schema_marker_number, validateMarkerNumber);
   (schema_normalised_coordinate, validateNormalisedCoordinate);
   (schema_retry_after_ms, validateRetryAfterMs);
   (schema_expires_in_seconds, validateExpiresInSeconds);
   (schema_trust_label, validateTrustLabel);
   (schema_instruction_policy, validateInstructionPolicy);
   (schema_untrusted_field_path, validateUntrustedFieldPath);
   (schema_warning_code, validateWarningCode);
   (schema_error_class, validateErrorClass);
   (schema_message_type, validateMessageType);
   (schema_agent_capability, validateAgentCapability);
   (schema_browser_lifecycle_status, validateBrowserLifecycleStatus);
   (schema_connector_status, validateConnectorStatus);
   (schema_agent_session_state, validateAgentSessionState);
   (schema_review_priority, validateReviewPriority);
   (schema_search_query, validateSearchQuery);
   (schema_inbox_item_status, validateInboxItemStatus);
   (schema_inbox_item_type, validateInboxItemType);
   (schema_review_status, validateReviewStatus);
   (schema_agent_review_status, validateAgentReviewStatus);
   (schema_finding_status, validateFindingStatus);
   (schema_agent_finding_status, validateAgentFindingStatus);
   (schema_finding_severity, validateFindingSeverity);
   (schema_finding_source, validateFindingSource);
   (schema_annotation_type, validateAnnotationType);
   (schema_artefact_kind, validateArtefactKind);
   (schema_verification_status, validateVerificationStatus);
   (schema_actor_type, validateActorType);
   (schema_key_name, validateKeyName);
   (schema_scroll_direction, validateScrollDirection);
   (schema_wait_until, validateWaitUntil);
   (schema_wait_condition, validateWaitCondition);
   (schema_browser_command_name, validateBrowserCommandName);
   (schema_screenshot_purpose, validateScreenshotPurpose);
   (schema_review_include, validateReviewInclude);
   (schema_review_search_field, validateReviewSearchField);
   (schema_finding_include, validateFindingInclude);
   (schema_session_include, validateSessionInclude);
   (schema_actor_reference, validateActorReference);
   (schema_viewport, validateViewport);
   (schema_scroll_position, validateScrollPosition);
   (schema_content_rectangle, validateContentRectangle);
   (schema_annotation_path_point, validateAnnotationPathPoint);
   (schema_annotation_geometry, validateAnnotationGeometry);
   (schema_element_context_view, validateElementContextView);
   (schema_project_reference, validateProjectReference);
   (schema_workspace_reference, validateWorkspaceReference);
   (schema_policy_summary, validatePolicySummary);
   (schema_server_capabilities, validateServerCapabilities);
   (schema_client_capabilities, validateClientCapabilities);
   (schema_warning, validateWarning);
   (schema_error_details, validateErrorDetails);
   (schema_tool_error, validateToolError);
   (schema_artefact_link, validateArtefactLink);
   (schema_annotation_view, validateAnnotationView);
   (schema_comment_view, validateCommentView);
   (schema_inbox_item_view, validateInboxItemView);
   (schema_review_staleness, validateReviewStaleness);
   (schema_review_view, validateReviewView);
   (schema_review_search_match, validateReviewSearchMatch);
   (schema_verification_checks, validateVerificationChecks);
   (schema_requirement_label, validateRequirementLabel);
   (schema_evidence_assurance, validateEvidenceAssurance);
   (schema_verification_view, validateVerificationView);
   (schema_finding_view, validateFindingView);
   (schema_browser_session_view, validateBrowserSessionView);
   (schema_client_identity, validateClientIdentity);
   (schema_session_initialisation_request, validateSessionInitialisationRequest);
   (schema_session_initialisation_result, validateSessionInitialisationResult);
   (schema_project_current_input, validateProjectCurrentInput);
   (schema_agent_session_status_input, validateAgentSessionStatusInput);
   (schema_agent_inbox_list_input, validateAgentInboxListInput);
   (schema_agent_inbox_acknowledge_input, validateAgentInboxAcknowledgeInput);
   (schema_review_list_input, validateReviewListInput);
   (schema_review_search_input, validateReviewSearchInput);
   (schema_review_get_input, validateReviewGetInput);
   (schema_review_claim_input, validateReviewClaimInput);
   (schema_review_update_status_input, validateReviewUpdateStatusInput);
   (schema_review_add_comment_input, validateReviewAddCommentInput);
   (schema_finding_get_input, validateFindingGetInput);
   (schema_finding_claim_input, validateFindingClaimInput);
   (schema_finding_update_status_input, validateFindingUpdateStatusInput);
   (schema_finding_mark_blocked_input, validateFindingMarkBlockedInput);
   (schema_finding_add_comment_input, validateFindingAddCommentInput);
   (schema_finding_submit_verification_input, validateFindingSubmitVerificationInput);
   (schema_browser_take_screenshot_input, validateBrowserTakeScreenshotInput);
   (schema_browser_session_start_input, validateBrowserSessionStartInput);
   (schema_browser_session_allocate_input, validateBrowserSessionAllocateInput);
   (schema_browser_session_reference_input, validateBrowserSessionReferenceInput);
   (schema_browser_session_control_input, validateBrowserSessionControlInput);
   (schema_browser_navigate_input, validateBrowserNavigateInput);
   (schema_browser_snapshot_input, validateBrowserSnapshotInput);
   (schema_browser_element_input, validateBrowserElementInput);
   (schema_browser_type_input, validateBrowserTypeInput);
   (schema_browser_select_option_input, validateBrowserSelectOptionInput);
   (schema_browser_press_key_input, validateBrowserPressKeyInput);
   (schema_browser_scroll_input, validateBrowserScrollInput);
   (schema_browser_resize_input, validateBrowserResizeInput);
   (schema_browser_wait_input, validateBrowserWaitInput);
   (schema_project_current_result, validateProjectCurrentResult);
   (schema_agent_session_status_result, validateAgentSessionStatusResult);
   (schema_review_get_result, validateReviewGetResult);
   (schema_review_list_result, validateReviewListResult);
   (schema_review_search_result, validateReviewSearchResult);
   (schema_review_add_comment_result, validateReviewAddCommentResult);
   (schema_agent_inbox_list_result, validateAgentInboxListResult);
   (schema_agent_inbox_acknowledge_result, validateAgentInboxAcknowledgeResult);
   (schema_review_mutation_result, validateReviewMutationResult);
   (schema_finding_get_result, validateFindingGetResult);
   (schema_finding_mutation_result, validateFindingMutationResult);
   (schema_finding_add_comment_result, validateFindingAddCommentResult);
   (schema_completion_requirements, validateCompletionRequirements);
   (schema_finding_submit_verification_result, validateFindingSubmitVerificationResult);
   (schema_browser_controller, validateBrowserController);
   (schema_browser_session_detail, validateBrowserSessionDetail);
   (schema_browser_session_result, validateBrowserSessionResult);
   (schema_browser_snapshot_view, validateBrowserSnapshotView);
   (schema_browser_navigation_view, validateBrowserNavigationView);
   (schema_browser_interaction_result, validateBrowserInteractionResult);
   (schema_browser_take_screenshot_result, validateBrowserTakeScreenshotResult);
   (schema_tool_refusal, validateToolRefusal);
   (schema_envelope, validateEnvelope);
   (schema_local_host, validateLocalHost);
   (schema_local_port, validateLocalPort);
   (schema_destination_protocol, validateDestinationProtocol);
   (schema_published_service_status, validatePublishedServiceStatus);
   (schema_development_service_view, validateDevelopmentServiceView);
   (schema_development_services_list_input, validateDevelopmentServicesListInput);
   (schema_development_service_publish_input, validateDevelopmentServicePublishInput);
   (schema_development_service_unpublish_input, validateDevelopmentServiceUnpublishInput);
   (schema_development_services_list_result, validateDevelopmentServicesListResult);
   (schema_development_service_result, validateDevelopmentServiceResult);
   (schema_completion_result, validateCompletionResult);
   (schema_finding_completion_state, validateFindingCompletionState);
   (schema_task_validation_status_input, validateTaskValidationStatusInput);
   (schema_task_validation_status_result, validateTaskValidationStatusResult);
   (schema_task_complete_input, validateTaskCompleteInput);
   (schema_task_complete_result, validateTaskCompleteResult)].

Lemma mcp_generated :
  Forall (λ e, ∀ value path, e.2 value path = violations e.1 value path) mcp_validators.
Proof. repeat (apply Forall_cons_2; [intros value path; reflexivity|]). apply Forall_nil_2. Qed.
