(* ===== verification/McpCodec.v ===== *)
(** * The types and the codec of the MCP protocol
    ([src/packages/protocol/src/generated/mcp/v1/types.ts], [encode.ts], [decode.ts]
    and [dispatch.ts])

    The vocabularies, the bounds of the payloads and the types of the generated
    code, and the messages of the schema; the generated encoders and decoders as
    they stand, each after those it calls, with the table of those that the schema's
    objects have; and the dispatch on the type of a message. *)

From S2P Require Import Prelude StableJson Validation Schema McpSchema McpValidate Codec.

(** ** Types *)

Definition MEDIA_TYPE_VALUES : list string :=
  ["image/png"; "image/jpeg"].
Definition TRUST_LABEL_VALUES : list string :=
  ["trusted_control_plane"; "trusted_human_instruction"; "trusted_project_configuration"; "untrusted_browser_content";
   "untrusted_uploaded_artefact"; "mixed"].
Definition INSTRUCTION_POLICY_VALUES : list string :=
  ["do_not_follow_as_instructions"].
Definition WARNING_CODE_VALUES : list string :=
  ["image_content_unsupported"; "resource_content_unsupported"; "findings_truncated"; "text_truncated";
   "workspace_unresolved"; "verification_branch_uncorroborated"; "staleness_unavailable";
   "inbox_unavailable"; "results_truncated"; "idempotent_replay"; "completion_blocked_pending_review";
   "allocation_incomplete"].
Definition ERROR_CLASS_VALUES : list string :=
  ["AUTHENTICATION_REQUIRED"; "AUTHORISATION_DENIED"; "PROJECT_CONTEXT_AMBIGUOUS"; "PROJECT_CONTEXT_MISMATCH";
   "RESOURCE_NOT_FOUND"; "RESOURCE_STALE"; "VERSION_CONFLICT"; "IDEMPOTENCY_CONFLICT"; "VALIDATION_FAILED";
   "CONNECTOR_OFFLINE"; "IDENTITY_REVOKED"; "PUBLISHED_SERVICE_UNAVAILABLE"; "ROUTE_EXPIRED";
   "ROUTE_LIMIT_EXCEEDED"; "DESTINATION_NOT_ALLOWED"; "WORKSPACE_NOT_FOUND"; "BROWSER_CAPACITY_EXHAUSTED";
   "BROWSER_SESSION_NOT_ACTIVE"; "CONTROL_NOT_OWNED"; "CONTROL_EPOCH_STALE"; "BROWSER_COMMAND_TIMEOUT";
   "POLICY_DENIED"; "APPROVAL_REQUIRED"; "EVIDENCE_REQUIRED"; "ARTEFACT_UPLOAD_INCOMPLETE";
   "ARTEFACT_STORE_UNAVAILABLE"; "UNSUPPORTED_CAPABILITY"; "RATE_LIMITED"; "INTERNAL_ERROR"].
Definition MESSAGE_TYPE_VALUES : list string :=
  ["project_current"; "agent_session_status"; "agent_inbox_list"; "agent_inbox_acknowledge";
   "review_list"; "review_search"; "review_get"; "review_claim"; "review_update_status";
   "review_add_comment"; "finding_get"; "finding_claim"; "finding_update_status"; "finding_mark_blocked";
   "finding_add_comment"; "finding_submit_verification"; "browser_take_screenshot"; "browser_session_start";
   "browser_session_allocate"; "browser_session_status"; "browser_session_pause"; "browser_session_resume";
   "browser_session_end"; "browser_navigate"; "browser_snapshot"; "browser_click"; "browser_type";
   "browser_select_option"; "browser_press_key"; "browser_scroll"; "browser_resize"; "browser_wait";
   "development_services_list"; "development_service_publish"; "development_service_unpublish";
   "task_validation_status"; "task_complete"].
Definition AGENT_CAPABILITY_VALUES : list string :=
  ["project:read"; "review:read"; "review:write"; "finding:read"; "finding:write"; "verification:submit";
   "browser:capture"; "service:publish"; "browser:control"].
Definition BROWSER_LIFECYCLE_STATUS_VALUES : list string :=
  ["REQUESTED"; "ALLOCATING"; "READY"; "ACTIVE"; "PAUSED"; "DEGRADED"; "TERMINATING"; "TERMINATED"; "FAILED"].
Definition CONNECTOR_STATUS_VALUES : list string :=
  ["PENDING_ENROLMENT"; "ACTIVE"; "DEGRADED"; "DISCONNECTED"; "REVOKED"].
Definition AGENT_SESSION_STATE_VALUES : list string :=
  ["STARTING"; "ACTIVE"; "WAITING"; "BLOCKED"; "DISCONNECTED"; "COMPLETED"; "FAILED"; "CANCELLED"].
Definition REVIEW_PRIORITY_VALUES : list string :=
  ["critical"; "high"; "medium"; "low"].
Definition INBOX_ITEM_STATUS_VALUES : list string :=
  ["pending"; "acknowledged"; "completed"; "dismissed"; "expired"].
Definition INBOX_ITEM_TYPE_VALUES : list string :=
  ["review_assigned"; "finding_reopened"].
Definition REVIEW_STATUS_VALUES : list string :=
  ["DRAFT"; "READY"; "ASSIGNED"; "IN_PROGRESS"; "AWAITING_HUMAN_REVIEW"; "CHANGES_REQUESTED";
   "ACCEPTED"; "CANCELLED"; "ARCHIVED"].
Definition AGENT_REVIEW_STATUS_VALUES : list string :=
  ["IN_PROGRESS"; "AWAITING_HUMAN_REVIEW"].
Definition FINDING_STATUS_VALUES : list string :=
  ["OPEN"; "CLAIMED"; "IN_PROGRESS"; "BLOCKED"; "FIXED_UNVERIFIED"; "AWAITING_HUMAN_REVIEW";
   "RESOLVED"; "REOPENED"; "WONT_FIX"; "DUPLICATE"].
Definition AGENT_FINDING_STATUS_VALUES : list string :=
  ["CLAIMED"; "IN_PROGRESS"; "BLOCKED"; "FIXED_UNVERIFIED"; "AWAITING_HUMAN_REVIEW"].
Definition FINDING_SEVERITY_VALUES : list string :=
  ["critical"; "high"; "medium"; "low"; "suggestion"].
Definition FINDING_SOURCE_VALUES : list string :=
  ["human"; "agent"].
Definition ANNOTATION_TYPE_VALUES : list string :=
  ["rectangle"; "ellipse"; "arrow"; "point"; "numbered_marker"; "freehand"].
Definition ARTEFACT_KIND_VALUES : list string :=
  ["screenshot"; "thumbnail"; "trace"; "dom_snapshot"; "console_log"; "network_log"].
Definition VERIFICATION_STATUS_VALUES : list string :=
  ["submitted"; "accepted"; "rejected"; "superseded"].
Definition ACTOR_TYPE_VALUES : list string :=
  ["human_user"; "agent_session"; "connector"; "browser_worker"; "system"; "integration"].
Definition KEY_NAME_VALUES : list string :=
  ["Enter"; "Tab"; "Shift+Tab"; "Escape"; "Backspace"; "Delete"; "Home"; "End"; "PageUp"; "PageDown";
   "ArrowUp"; "ArrowDown"; "ArrowLeft"; "ArrowRight"; "Space"].
Definition SCROLL_DIRECTION_VALUES : list string :=
  ["up"; "down"; "left"; "right"].
Definition WAIT_UNTIL_VALUES : list string :=
  ["commit"; "domcontentloaded"; "load"; "networkidle"].
Definition WAIT_CONDITION_VALUES : list string :=
  ["url_matches"; "selector_visible"; "selector_hidden"; "text_visible"; "network_idle"].
Definition BROWSER_COMMAND_NAME_VALUES : list string :=
  ["navigate"; "snapshot"; "click"; "type_text"; "select_option"; "press_key"; "scroll"; "resize";
   "wait"; "take_screenshot"].
Definition SCREENSHOT_PURPOSE_VALUES : list string :=
  ["verification"].
Definition REVIEW_INCLUDE_VALUES : list string :=
  ["findings"; "comments"; "artefact_links"; "staleness"].
Definition REVIEW_SEARCH_FIELD_VALUES : list string :=
  ["title"; "slug"; "description"; "finding"].
Definition FINDING_INCLUDE_VALUES : list string :=
  ["annotations"; "comments"; "verification"; "artefact_links"].
Definition SESSION_INCLUDE_VALUES : list string :=
  ["browser_sessions"; "capabilities"].
Definition ELEMENT_CONTEXT_VIEW_SELECTOR_STRATEGY_VALUES : list string :=
  ["testid"; "role"; "text"; "css"; "xpath"].
Definition BROWSER_CONTROLLER_TYPE_VALUES : list string :=
  ["agent"; "human"; "system"].
Definition BROWSER_SESSION_DETAIL_BROWSER_TYPE_VALUES : list string :=
  ["chromium"].
Definition DESTINATION_PROTOCOL_VALUES : list string :=
  ["http"; "https"].
Definition PUBLISHED_SERVICE_STATUS_VALUES : list string :=
  ["requested"; "ready"; "failed"; "expired"; "revoked"].
Definition COMPLETION_RESULT_VALUES : list string :=
  ["completed"; "completed_with_warnings"; "blocked_missing_evidence"; "blocked_pending_review"].
Definition PAYLOAD_MAX_BYTES : list (string * Z) :=
  [("project_current", 8192%Z);
   ("agent_session_status", 16384%Z);
   ("agent_inbox_list", 32768%Z);
   ("agent_inbox_acknowledge", 8192%Z);
   ("review_list", 32768%Z);
   ("review_search", 32768%Z);
   ("review_get", 65536%Z);
   ("review_claim", 8192%Z);
   ("review_update_status", 8192%Z);
   ("review_add_comment", 8192%Z);
   ("finding_get", 32768%Z);
   ("finding_claim", 16384%Z);
   ("finding_update_status", 16384%Z);
   ("finding_mark_blocked", 16384%Z);
   ("finding_add_comment", 8192%Z);
   ("finding_submit_verification", 32768%Z);
   ("browser_take_screenshot", 8192%Z);
   ("browser_session_start", 8192%Z);
   ("browser_session_allocate", 8192%Z);
   ("browser_session_status", 8192%Z);
   ("browser_session_pause", 8192%Z);
   ("browser_session_resume", 8192%Z);
   ("browser_session_end", 8192%Z);
   ("browser_navigate", 49152%Z);
   ("browser_snapshot", 49152%Z);
   ("browser_click", 49152%Z);
   ("browser_type", 49152%Z);
   ("browser_select_option", 49152%Z);
   ("browser_press_key", 49152%Z);
   ("browser_scroll", 49152%Z);
   ("browser_resize", 49152%Z);
   ("browser_wait", 49152%Z);
   ("development_services_list", 32768%Z);
   ("development_service_publish", 4096%Z);
   ("development_service_unpublish", 4096%Z);
   ("task_validation_status", 32768%Z);
   ("task_complete", 32768%Z)].
Definition Identifier : json → Prop := string_type.
Definition RequestId : json → Prop := string_type.
Definition IdempotencyKey : json → Prop := string_type.
Definition Timestamp : json → Prop := string_type.
Definition Slug : json → Prop := string_type.
Definition ReviewSelector : json → Prop := string_type.
Definition ProjectHint : json → Prop := string_type.
Definition WorkspaceHint : json → Prop := string_type.
Definition ClientName : json → Prop := string_type.
Definition ClientVersion : json → Prop := string_type.
Definition TitleText : json → Prop := string_type.
Definition BodyText : json → Prop := string_type.
Definition ReasonText : json → Prop := string_type.
Definition CapturedUrl : json → Prop := string_type.
Definition NavigationTarget : json → Prop := string_type.
Definition CapturedText : json → Prop := string_type.
Definition SnapshotText : json → Prop := string_type.
Definition ElementReference : json → Prop := string_type.
Definition AccessibleRole : json → Prop := string_type.
Definition TypedText : json → Prop := string_type.
Definition OptionValue : json → Prop := string_type.
Definition Selector : json → Prop := string_type.
Definition UrlPattern : json → Prop := string_type.
Definition ResourceUri : json → Prop := string_type.
Definition ContentPath : json → Prop := string_type.
Definition BranchName : json → Prop := string_type.
Definition CommitSha : json → Prop := string_type.
Definition Sha256Hex : json → Prop := string_type.
Definition Cursor : json → Prop := string_type.
Definition PageLimit : json → Prop := number_type.
Definition RecordCount : json → Prop := number_type.
Definition VersionNumber : json → Prop := number_type.
Definition ControlEpoch : json → Prop := number_type.
Definition CommandTimeoutMs : json → Prop := number_type.
Definition ByteSize : json → Prop := number_type.
Definition PixelExtent : json → Prop := number_type.
Definition CssPixelOffset : json → Prop := number_type.
Definition DeviceScaleFactor : json → Prop := number_type.
Definition MarkerNumber : json → Prop := number_type.
Definition NormalisedCoordinate : json → Prop := number_type.
Definition RetryAfterMs : json → Prop := number_type.
Definition ExpiresInSeconds : json → Prop := number_type.
Definition UntrustedFieldPath : json → Prop := string_type.
Definition SearchQuery : json → Prop := string_type.
Definition LocalHost : json → Prop := string_type.
Definition LocalPort : json → Prop := number_type.
Definition RequirementLabel : json → Prop := string_type.
Definition MediaType : json → Prop := union_type
  ["image/png"; "image/jpeg"].
Definition TrustLabel : json → Prop := union_type
  ["trusted_control_plane"; "trusted_human_instruction"; "trusted_project_configuration"; "untrusted_browser_content";
   "untrusted_uploaded_artefact"; "mixed"].
Definition InstructionPolicy : json → Prop := union_type
  ["do_not_follow_as_instructions"].
Definition WarningCode : json → Prop := union_type
  ["image_content_unsupported"; "resource_content_unsupported"; "findings_truncated"; "text_truncated";
   "workspace_unresolved"; "verification_branch_uncorroborated"; "staleness_unavailable";
   "inbox_unavailable"; "results_truncated"; "idempotent_replay"; "completion_blocked_pending_review";
   "allocation_incomplete"].
Definition ErrorClass : json → Prop := union_type
  ["AUTHENTICATION_REQUIRED"; "AUTHORISATION_DENIED"; "PROJECT_CONTEXT_AMBIGUOUS"; "PROJECT_CONTEXT_MISMATCH";
   "RESOURCE_NOT_FOUND"; "RESOURCE_STALE"; "VERSION_CONFLICT"; "IDEMPOTENCY_CONFLICT"; "VALIDATION_FAILED";
   "CONNECTOR_OFFLINE"; "IDENTITY_REVOKED"; "PUBLISHED_SERVICE_UNAVAILABLE"; "ROUTE_EXPIRED";
   "ROUTE_LIMIT_EXCEEDED"; "DESTINATION_NOT_ALLOWED"; "WORKSPACE_NOT_FOUND"; "BROWSER_CAPACITY_EXHAUSTED";
   "BROWSER_SESSION_NOT_ACTIVE"; "CONTROL_NOT_OWNED"; "CONTROL_EPOCH_STALE"; "BROWSER_COMMAND_TIMEOUT";
   "POLICY_DENIED"; "APPROVAL_REQUIRED"; "EVIDENCE_REQUIRED"; "ARTEFACT_UPLOAD_INCOMPLETE";
   "ARTEFACT_STORE_UNAVAILABLE"; "UNSUPPORTED_CAPABILITY"; "RATE_LIMITED"; "INTERNAL_ERROR"].
Definition MessageType : json → Prop := union_type
  ["project_current"; "agent_session_status"; "agent_inbox_list"; "agent_inbox_acknowledge";
   "review_list"; "review_search"; "review_get"; "review_claim"; "review_update_status";
   "review_add_comment"; "finding_get"; "finding_claim"; "finding_update_status"; "finding_mark_blocked";
   "finding_add_comment"; "finding_submit_verification"; "browser_take_screenshot"; "browser_session_start";
   "browser_session_allocate"; "browser_session_status"; "browser_session_pause"; "browser_session_resume";
   "browser_session_end"; "browser_navigate"; "browser_snapshot"; "browser_click"; "browser_type";
   "browser_select_option"; "browser_press_key"; "browser_scroll"; "browser_resize"; "browser_wait";
   "development_services_list"; "development_service_publish"; "development_service_unpublish";
   "task_validation_status"; "task_complete"].
Definition AgentCapability : json → Prop := union_type
  ["project:read"; "review:read"; "review:write"; "finding:read"; "finding:write"; "verification:submit";
   "browser:capture"; "service:publish"; "browser:control"].
Definition BrowserLifecycleStatus : json → Prop := union_type
  ["REQUESTED"; "ALLOCATING"; "READY"; "ACTIVE"; "PAUSED"; "DEGRADED"; "TERMINATING"; "TERMINATED"; "FAILED"].
Definition ConnectorStatus : json → Prop := union_type
  ["PENDING_ENROLMENT"; "ACTIVE"; "DEGRADED"; "DISCONNECTED"; "REVOKED"].
Definition AgentSessionState : json → Prop := union_type
  ["STARTING"; "ACTIVE"; "WAITING"; "BLOCKED"; "DISCONNECTED"; "COMPLETED"; "FAILED"; "CANCELLED"].
Definition ReviewPriority : json → Prop := union_type
  ["critical"; "high"; "medium"; "low"].
Definition InboxItemStatus : json → Prop := union_type
  ["pending"; "acknowledged"; "completed"; "dismissed"; "expired"].
Definition InboxItemType : json → Prop := union_type
  ["review_assigned"; "finding_reopened"].
Definition ReviewStatus : json → Prop := union_type
  ["DRAFT"; "READY"; "ASSIGNED"; "IN_PROGRESS"; "AWAITING_HUMAN_REVIEW"; "CHANGES_REQUESTED";
   "ACCEPTED"; "CANCELLED"; "ARCHIVED"].
Definition AgentReviewStatus : json → Prop := union_type
  ["IN_PROGRESS"; "AWAITING_HUMAN_REVIEW"].
Definition FindingStatus : json → Prop := union_type
  ["OPEN"; "CLAIMED"; "IN_PROGRESS"; "BLOCKED"; "FIXED_UNVERIFIED"; "AWAITING_HUMAN_REVIEW";
   "RESOLVED"; "REOPENED"; "WONT_FIX"; "DUPLICATE"].
Definition AgentFindingStatus : json → Prop := union_type
  ["CLAIMED"; "IN_PROGRESS"; "BLOCKED"; "FIXED_UNVERIFIED"; "AWAITING_HUMAN_REVIEW"].
Definition FindingSeverity : json → Prop := union_type
  ["critical"; "high"; "medium"; "low"; "suggestion"].
Definition FindingSource : json → Prop := union_type
  ["human"; "agent"].
Definition AnnotationType : json → Prop := union_type
  ["rectangle"; "ellipse"; "arrow"; "point"; "numbered_marker"; "freehand"].
Definition ArtefactKind : json → Prop := union_type
  ["screenshot"; "thumbnail"; "trace"; "dom_snapshot"; "console_log"; "network_log"].
Definition VerificationStatus : json → Prop := union_type
  ["submitted"; "accepted"; "rejected"; "superseded"].
Definition ActorType : json → Prop := union_type
  ["human_user"; "agent_session"; "connector"; "browser_worker"; "system"; "integration"].
Definition KeyName : json → Prop := union_type
  ["Enter"; "Tab"; "Shift+Tab"; "Escape"; "Backspace"; "Delete"; "Home"; "End"; "PageUp"; "PageDown";
   "ArrowUp"; "ArrowDown"; "ArrowLeft"; "ArrowRight"; "Space"].
Definition ScrollDirection : json → Prop := union_type
  ["up"; "down"; "left"; "right"].
Definition WaitUntil : json → Prop := union_type
  ["commit"; "domcontentloaded"; "load"; "networkidle"].
Definition WaitCondition : json → Prop := union_type
  ["url_matches"; "selector_visible"; "selector_hidden"; "text_visible"; "network_idle"].
Definition BrowserCommandName : json → Prop := union_type
  ["navigate"; "snapshot"; "click"; "type_text"; "select_option"; "press_key"; "scroll"; "resize";
   "wait"; "take_screenshot"].
Definition ScreenshotPurpose : json → Prop := union_type
  ["verification"].
Definition ReviewInclude : json → Prop := union_type
  ["findings"; "comments"; "artefact_links"; "staleness"].
Definition ReviewSearchField : json → Prop := union_type
  ["title"; "slug"; "description"; "finding"].
Definition FindingInclude : json → Prop := union_type
  ["annotations"; "comments"; "verification"; "artefact_links"].
Definition SessionInclude : json → Prop := union_type
  ["browser_sessions"; "capabilities"].
Definition ElementContextViewSelectorStrategy : json → Prop := union_type
  ["testid"; "role"; "text"; "css"; "xpath"].
Definition BrowserControllerType : json → Prop := union_type
  ["agent"; "human"; "system"].
Definition BrowserSessionDetailBrowserType : json → Prop := union_type
  ["chromium"].
Definition DestinationProtocol : json → Prop := union_type
  ["http"; "https"].
Definition PublishedServiceStatus : json → Prop := union_type
  ["requested"; "ready"; "failed"; "expired"; "revoked"].
Definition CompletionResult : json → Prop := union_type
  ["completed"; "completed_with_warnings"; "blocked_missing_evidence"; "blocked_pending_review"].
Definition ActorReference : json → Prop := interface_type [
    has "type" ActorType;
    may_have "id" Identifier;
    may_have "display" ReasonText].
Definition Viewport : json → Prop := interface_type [
    has "width" number_type;
    has "height" number_type;
    has "device_scale_factor" DeviceScaleFactor].
Definition ScrollPosition : json → Prop := interface_type [
    has "x" CssPixelOffset;
    has "y" CssPixelOffset].
Definition ContentRectangle : json → Prop := interface_type [
    has "width_px" PixelExtent;
    has "height_px" PixelExtent].
Definition AnnotationPathPoint : json → Prop := interface_type [
    has "x" NormalisedCoordinate;
    has "y" NormalisedCoordinate].
Definition AnnotationGeometry : json → Prop := interface_type [
    has "x" NormalisedCoordinate;
    has "y" NormalisedCoordinate;
    may_have "width" NormalisedCoordinate;
    may_have "height" NormalisedCoordinate;
    may_have "x2" NormalisedCoordinate;
    may_have "y2" NormalisedCoordinate;
    may_have "rotation" NormalisedCoordinate;
    may_have "path" (array_type AnnotationPathPoint)].
Definition ElementContextView : json → Prop := interface_type [
    may_have "selector" ReasonText;
    may_have "selector_strategy" ElementContextViewSelectorStrategy;
    may_have "role" ReasonText;
    may_have "accessible_name" ReasonText;
    may_have "text_excerpt" ReasonText;
    may_have "dom_fingerprint" Sha256Hex].
Definition ProjectReference : json → Prop := interface_type [
    has "id" Identifier;
    has "slug" Slug;
    may_have "name" TitleText].
Definition WorkspaceReference : json → Prop := interface_type [
    has "id" Identifier;
    may_have "root_path" WorkspaceHint;
    has "branch" BranchName;
    has "head_commit" CommitSha;
    may_have "dirty" boolean_type].
Definition PolicySummary : json → Prop := interface_type [
    has "agent_may_accept_findings" boolean_type;
    has "verification_required" boolean_type;
    has "secret_tools_available" boolean_type;
    has "required_viewports" (array_type ReasonText)].
Definition ServerCapabilities : json → Prop := interface_type [
    has "browser_live" boolean_type;
    has "image_resources" boolean_type;
    has "human_takeover" boolean_type;
    has "review_inbox" boolean_type;
    has "managed_messages" boolean_type;
    has "session_resume" boolean_type].
Definition ClientCapabilities : json → Prop := interface_type [
    may_have "resources" boolean_type;
    may_have "image_content" boolean_type;
    may_have "managed_messages" boolean_type;
    may_have "session_resume" boolean_type].
Definition Warning : json → Prop := interface_type [
    has "code" WarningCode;
    has "message" ReasonText;
    may_have "detail" ReasonText].
Definition ErrorDetails : json → Prop := interface_type [
    may_have "current_version" VersionNumber;
    may_have "expected_version" VersionNumber;
    may_have "current_epoch" ControlEpoch;
    may_have "field" ReasonText;
    may_have "candidates" (array_type ProjectReference);
    may_have "required_evidence" (array_type ReasonText);
    may_have "allowed_transitions" (array_type ReasonText);
    may_have "retry_after_ms" RetryAfterMs;
    may_have "browser_session_status" BrowserLifecycleStatus;
    may_have "detected" ReasonText;
    may_have "published_service_id" Identifier;
    may_have "connector_status" ConnectorStatus].
Definition ToolError : json → Prop := interface_type [
    has "code" ErrorClass;
    has "message" ReasonText;
    has "retryable" boolean_type;
    may_have "details" ErrorDetails].
Definition ArtefactLink : json → Prop := interface_type [
    has "artefact_id" Identifier;
    has "kind" ArtefactKind;
    may_have "role" ReasonText;
    has "resource_uri" ResourceUri;
    may_have "content_path" ContentPath;
    may_have "expires_at" Timestamp;
    has "content_type" MediaType;
    may_have "sha256" Sha256Hex;
    may_have "size_bytes" ByteSize;
    may_have "content_rectangle" ContentRectangle;
    has "trust" TrustLabel;
    has "instruction_policy" InstructionPolicy].
Definition AnnotationView : json → Prop := interface_type [
    has "id" Identifier;
    has "artefact_id" Identifier;
    has "type" AnnotationType;
    has "geometry" AnnotationGeometry;
    has "label" TitleText;
    may_have "marker_number" MarkerNumber].
Definition CommentView : json → Prop := interface_type [
    has "id" Identifier;
    has "review_id" Identifier;
    may_have "finding_id" Identifier;
    has "body" BodyText;
    has "author" ActorReference;
    has "created_at" Timestamp].
Definition InboxItemView : json → Prop := interface_type [
    has "id" Identifier;
    has "project_id" Identifier;
    has "type" InboxItemType;
    has "title" TitleText;
    has "status" InboxItemStatus;
    may_have "review_id" Identifier;
    may_have "review_slug" Slug;
    may_have "finding_id" Identifier;
    may_have "priority" ReviewPriority;
    may_have "finding_count" RecordCount;
    may_have "assigned_by" ActorReference;
    has "created_at" Timestamp;
    may_have "acknowledged_at" Timestamp;
    may_have "completed_at" Timestamp].
Definition ReviewStaleness : json → Prop := interface_type [
    has "computed" boolean_type;
    has "captured_branch" BranchName;
    has "captured_commit" CommitSha;
    may_have "workspace_branch" BranchName;
    may_have "workspace_head_commit" CommitSha].
Definition ReviewView : json → Prop := interface_type [
    has "id" Identifier;
    has "project_id" Identifier;
    has "slug" Slug;
    has "title" TitleText;
    may_have "description" BodyText;
    has "status" ReviewStatus;
    has "version" VersionNumber;
    has "captured_branch" BranchName;
    has "captured_commit" CommitSha;
    has "captured_workspace_id" Identifier;
    may_have "source_browser_session_id" Identifier;
    may_have "claimed_by" ActorReference;
    has "finding_count" RecordCount;
    has "resource_uri" ResourceUri;
    has "created_at" Timestamp;
    has "updated_at" Timestamp].
Definition ReviewSearchMatch : json → Prop := interface_type [
    has "review" ReviewView;
    has "matched" (array_type ReviewSearchField)].
Definition VerificationChecks : json → Prop := interface_type [
    has "reproduced_before" boolean_type;
    has "console_errors_reviewed" boolean_type;
    has "network_failures_reviewed" boolean_type;
    may_have "accessibility_checked" boolean_type].
Definition EvidenceAssurance : json → Prop := interface_type [
    has "verified_by_control_plane" (array_type RequirementLabel);
    has "asserted_by_agent" (array_type RequirementLabel);
    may_have "asserted_by" ActorReference].
Definition VerificationView : json → Prop := interface_type [
    has "verification_id" Identifier;
    has "finding_id" Identifier;
    has "status" VerificationStatus;
    has "summary" BodyText;
    has "branch" BranchName;
    has "commit" CommitSha;
    has "tested_viewports" (array_type Viewport);
    has "checks" VerificationChecks;
    may_have "assurance" EvidenceAssurance;
    may_have "artefacts" (array_type ArtefactLink);
    has "submitted_by" ActorReference;
    has "submitted_at" Timestamp;
    may_have "supersedes_verification_id" Identifier;
    may_have "superseded_by_verification_id" Identifier;
    may_have "superseded_at" Timestamp].
Definition FindingView : json → Prop := interface_type [
    has "id" Identifier;
    has "review_id" Identifier;
    has "title" TitleText;
    may_have "description" BodyText;
    has "severity" FindingSeverity;
    has "status" FindingStatus;
    has "source" FindingSource;
    has "version" VersionNumber;
    has "url" CapturedUrl;
    has "viewport" Viewport;
    has "scroll_position" ScrollPosition;
    has "captured_commit" CommitSha;
    has "screenshot_artefact_id" Identifier;
    may_have "acceptance_criteria" BodyText;
    may_have "claimed_by" ActorReference;
    may_have "annotation_count" RecordCount;
    may_have "element_context" ElementContextView;
    has "resource_uri" ResourceUri;
    has "untrusted_fields" (array_type UntrustedFieldPath)].
Definition BrowserSessionView : json → Prop := interface_type [
    has "id" Identifier;
    has "status" BrowserLifecycleStatus;
    has "control_epoch" ControlEpoch;
    may_have "controller" ActorReference;
    has "viewport" Viewport;
    may_have "service_origin" CapturedUrl].
Definition ClientIdentity : json → Prop := interface_type [
    has "name" ClientName;
    has "version" ClientVersion].
Definition SessionInitialisationRequest : json → Prop := interface_type [
    has "client" ClientIdentity;
    may_have "project_hint" ProjectHint;
    may_have "workspace_hint" WorkspaceHint;
    may_have "capabilities" ClientCapabilities].
Definition SessionInitialisationResult : json → Prop := interface_type [
    has "agent_session_id" Identifier;
    has "project" ProjectReference;
    may_have "workspace" WorkspaceReference;
    has "capabilities" ServerCapabilities;
    has "granted_capabilities" (array_type AgentCapability);
    may_have "expires_at" Timestamp].
Definition ProjectCurrentInput : json → Prop := interface_type [
    may_have "refresh_source_state" boolean_type].
Definition AgentSessionStatusInput : json → Prop := interface_type [
    may_have "include" (array_type SessionInclude)].
Definition AgentInboxListInput : json → Prop := interface_type [
    may_have "status" (array_type InboxItemStatus);
    may_have "limit" PageLimit;
    may_have "cursor" Cursor].
Definition AgentInboxAcknowledgeInput : json → Prop := interface_type [
    has "inbox_item_id" Identifier;
    has "idempotency_key" IdempotencyKey].
Definition ReviewListInput : json → Prop := interface_type [
    may_have "status" (array_type ReviewStatus);
    may_have "assigned_to_me" boolean_type;
    may_have "slug_prefix" Slug;
    may_have "updated_since" Timestamp;
    may_have "limit" PageLimit;
    may_have "cursor" Cursor].
Definition ReviewSearchInput : json → Prop := interface_type [
    has "query" SearchQuery;
    may_have "limit" PageLimit].
Definition ReviewGetInput : json → Prop := interface_type [
    has "review" ReviewSelector;
    may_have "include" (array_type ReviewInclude);
    may_have "findings_limit" PageLimit;
    may_have "findings_cursor" Cursor;
    may_have "comments_limit" PageLimit;
    may_have "comments_cursor" Cursor].
Definition ReviewClaimInput : json → Prop := interface_type [
    has "review_id" Identifier;
    has "expected_version" VersionNumber;
    has "idempotency_key" IdempotencyKey].
Definition ReviewUpdateStatusInput : json → Prop := interface_type [
    has "review_id" Identifier;
    has "expected_version" VersionNumber;
    has "status" AgentReviewStatus;
    may_have "reason" ReasonText;
    has "idempotency_key" IdempotencyKey].
Definition ReviewAddCommentInput : json → Prop := interface_type [
    has "review_id" Identifier;
    has "body" BodyText;
    has "idempotency_key" IdempotencyKey].
Definition FindingGetInput : json → Prop := interface_type [
    has "finding_id" Identifier;
    may_have "include" (array_type FindingInclude);
    may_have "comments_limit" PageLimit;
    may_have "comments_cursor" Cursor].
Definition FindingClaimInput : json → Prop := interface_type [
    has "finding_id" Identifier;
    has "expected_version" VersionNumber;
    has "idempotency_key" IdempotencyKey].
Definition FindingUpdateStatusInput : json → Prop := interface_type [
    has "finding_id" Identifier;
    has "expected_version" VersionNumber;
    has "status" AgentFindingStatus;
    may_have "resolution_note" BodyText;
    may_have "reason" ReasonText;
    has "idempotency_key" IdempotencyKey].
Definition FindingMarkBlockedInput : json → Prop := interface_type [
    has "finding_id" Identifier;
    has "expected_version" VersionNumber;
    has "reason" ReasonText;
    may_have "requested_human_action" ReasonText;
    has "idempotency_key" IdempotencyKey].
Definition FindingAddCommentInput : json → Prop := interface_type [
    has "finding_id" Identifier;
    has "body" BodyText;
    has "idempotency_key" IdempotencyKey].
Definition FindingSubmitVerificationInput : json → Prop := interface_type [
    has "finding_id" Identifier;
    may_have "expected_version" VersionNumber;
    has "summary" BodyText;
    has "branch" BranchName;
    has "commit" CommitSha;
    has "tested_viewports" (array_type Viewport);
    has "checks" VerificationChecks;
    has "artefact_ids" (array_type Identifier);
    has "idempotency_key" IdempotencyKey].
Definition BrowserTakeScreenshotInput : json → Prop := interface_type [
    has "browser_session_id" Identifier;
    has "control_epoch" ControlEpoch;
    may_have "full_page" boolean_type;
    has "purpose" ScreenshotPurpose;
    has "idempotency_key" IdempotencyKey].
Definition BrowserSessionStartInput : json → Prop := interface_type [
    may_have "published_service_id" Identifier;
    may_have "allocate" boolean_type;
    may_have "viewport" Viewport;
    has "idempotency_key" IdempotencyKey].
Definition BrowserSessionAllocateInput : json → Prop := interface_type [
    has "browser_session_id" Identifier;
    may_have "published_service_id" Identifier;
    has "idempotency_key" IdempotencyKey].
Definition BrowserSessionReferenceInput : json → Prop := interface_type [
    has "browser_session_id" Identifier].
Definition BrowserSessionControlInput : json → Prop := interface_type [
    has "browser_session_id" Identifier;
    has "control_epoch" ControlEpoch;
    has "idempotency_key" IdempotencyKey].
Definition BrowserNavigateInput : json → Prop := interface_type [
    has "browser_session_id" Identifier;
    has "control_epoch" ControlEpoch;
    has "url" NavigationTarget;
    may_have "wait_until" WaitUntil;
    may_have "timeout_ms" CommandTimeoutMs].
Definition BrowserSnapshotInput : json → Prop := interface_type [
    has "browser_session_id" Identifier;
    has "control_epoch" ControlEpoch;
    may_have "max_nodes" number_type;
    may_have "max_bytes" number_type;
    may_have "timeout_ms" CommandTimeoutMs].
Definition BrowserElementInput : json → Prop := interface_type [
    has "browser_session_id" Identifier;
    has "control_epoch" ControlEpoch;
    has "snapshot_id" Identifier;
    has "ref" ElementReference;
    may_have "timeout_ms" CommandTimeoutMs].
Definition BrowserTypeInput : json → Prop := interface_type [
    has "browser_session_id" Identifier;
    has "control_epoch" ControlEpoch;
    has "snapshot_id" Identifier;
    has "ref" ElementReference;
    has "text" TypedText;
    may_have "submit" boolean_type;
    may_have "timeout_ms" CommandTimeoutMs].
Definition BrowserSelectOptionInput : json → Prop := interface_type [
    has "browser_session_id" Identifier;
    has "control_epoch" ControlEpoch;
    has "snapshot_id" Identifier;
    has "ref" ElementReference;
    has "values" (array_type OptionValue);
    may_have "timeout_ms" CommandTimeoutMs].
Definition BrowserPressKeyInput : json → Prop := interface_type [
    has "browser_session_id" Identifier;
    has "control_epoch" ControlEpoch;
    has "key" KeyName;
    may_have "snapshot_id" Identifier;
    may_have "ref" ElementReference;
    may_have "timeout_ms" CommandTimeoutMs].
Definition BrowserScrollInput : json → Prop := interface_type [
    has "browser_session_id" Identifier;
    has "control_epoch" ControlEpoch;
    has "direction" ScrollDirection;
    has "amount_px" number_type;
    may_have "snapshot_id" Identifier;
    may_have "ref" ElementReference;
    may_have "timeout_ms" CommandTimeoutMs].
Definition BrowserResizeInput : json → Prop := interface_type [
    has "browser_session_id" Identifier;
    has "control_epoch" ControlEpoch;
    has "viewport" Viewport;
    may_have "timeout_ms" CommandTimeoutMs].
Definition BrowserWaitInput : json → Prop := interface_type [
    has "browser_session_id" Identifier;
    has "control_epoch" ControlEpoch;
    has "condition" WaitCondition;
    may_have "url_pattern" UrlPattern;
    may_have "selector" Selector;
    may_have "text" CapturedText;
    may_have "timeout_ms" CommandTimeoutMs].
Definition ProjectCurrentResult : json → Prop := interface_type [
    has "project" ProjectReference;
    may_have "workspace" WorkspaceReference;
    has "policy" PolicySummary].
Definition AgentSessionStatusResult : json → Prop := interface_type [
    has "agent_session_id" Identifier;
    has "status" AgentSessionState;
    may_have "client" ClientIdentity;
    has "project" ProjectReference;
    may_have "workspace" WorkspaceReference;
    has "capabilities" ServerCapabilities;
    has "granted_capabilities" (array_type AgentCapability);
    may_have "browser_sessions" (array_type BrowserSessionView);
    may_have "inbox_pending_count" RecordCount;
    may_have "expires_at" Timestamp].
Definition ReviewGetResult : json → Prop := interface_type [
    has "review" ReviewView;
    may_have "findings" (array_type FindingView);
    may_have "findings_next_cursor" Cursor;
    may_have "artefact_links" (array_type ArtefactLink);
    may_have "comments" (array_type CommentView);
    may_have "comments_next_cursor" Cursor;
    may_have "staleness" ReviewStaleness].
Definition ReviewListResult : json → Prop := interface_type [
    has "reviews" (array_type ReviewView);
    may_have "next_cursor" Cursor].
Definition ReviewSearchResult : json → Prop := interface_type [
    has "matches" (array_type ReviewSearchMatch)].
Definition ReviewAddCommentResult : json → Prop := interface_type [
    has "comment" CommentView].
Definition AgentInboxListResult : json → Prop := interface_type [
    has "items" (array_type InboxItemView);
    has "pending_count" RecordCount;
    may_have "next_cursor" Cursor].
Definition AgentInboxAcknowledgeResult : json → Prop := interface_type [
    has "item" InboxItemView;
    may_have "previous_status" InboxItemStatus].
Definition ReviewMutationResult : json → Prop := interface_type [
    has "review" ReviewView;
    may_have "previous_status" ReviewStatus].
Definition FindingGetResult : json → Prop := interface_type [
    has "finding" FindingView;
    may_have "annotations" (array_type AnnotationView);
    may_have "comments" (array_type CommentView);
    may_have "comments_next_cursor" Cursor;
    may_have "artefact_links" (array_type ArtefactLink);
    may_have "latest_verification" VerificationView].
Definition FindingMutationResult : json → Prop := interface_type [
    has "finding" FindingView;
    may_have "previous_status" FindingStatus].
Definition FindingAddCommentResult : json → Prop := interface_type [
    has "comment" CommentView].
Definition CompletionRequirements : json → Prop := interface_type [
    has "required_viewports" (array_type RequirementLabel);
    has "console_review" boolean_type;
    has "network_review" boolean_type;
    has "final_screenshot" boolean_type;
    may_have "accessibility_check" boolean_type].
Definition FindingSubmitVerificationResult : json → Prop := interface_type [
    has "verification" VerificationView;
    has "finding" FindingView;
    has "requirements" CompletionRequirements;
    has "missing" (array_type RequirementLabel)].
Definition BrowserController : json → Prop := interface_type [
    has "type" BrowserControllerType;
    has "id" Identifier].
Definition BrowserSessionDetail : json → Prop := interface_type [
    has "browser_session_id" Identifier;
    has "status" BrowserLifecycleStatus;
    has "control_epoch" ControlEpoch;
    may_have "current_controller" BrowserController;
    has "viewport" Viewport;
    may_have "browser_type" BrowserSessionDetailBrowserType;
    may_have "browser_version" ClientVersion;
    may_have "published_service_id" Identifier;
    may_have "service_origin" CapturedUrl;
    may_have "url" CapturedUrl;
    has "live_view_available" boolean_type;
    may_have "created_at" Timestamp;
    may_have "ended_at" Timestamp].
Definition BrowserSessionResult : json → Prop := interface_type [
    has "session" BrowserSessionDetail].
Definition BrowserSnapshotView : json → Prop := interface_type [
    has "snapshot_id" Identifier;
    has "viewport" Viewport;
    has "node_count" number_type;
    has "truncated" boolean_type;
    has "text" SnapshotText].
Definition BrowserNavigationView : json → Prop := interface_type [
    has "url" CapturedUrl;
    may_have "http_status" number_type;
    has "redirected" boolean_type;
    has "title" CapturedText].
Definition BrowserInteractionResult : json → Prop := interface_type [
    has "browser_session_id" Identifier;
    has "command" BrowserCommandName;
    has "control_epoch" ControlEpoch;
    has "duration_ms" number_type;
    may_have "viewport" Viewport;
    may_have "navigation" BrowserNavigationView;
    may_have "snapshot" BrowserSnapshotView].
Definition BrowserTakeScreenshotResult : json → Prop := interface_type [
    has "artefact" ArtefactLink;
    has "browser_session_id" Identifier;
    has "captured_at" Timestamp;
    has "viewport" Viewport;
    has "full_page" boolean_type;
    may_have "url" CapturedUrl].
Definition ToolRefusal : json → Prop := interface_type [
    has "protocol_version" number_type;
    has "ok" boolean_type;
    has "request_id" RequestId;
    has "type" MessageType;
    has "error" ToolError;
    has "trust" TrustLabel;
    has "instruction_policy" InstructionPolicy;
    may_have "warnings" (array_type Warning)].
Definition Envelope : json → Prop := interface_type [
    has "protocol_version" number_type;
    has "ok" boolean_type;
    has "request_id" RequestId;
    has "type" MessageType;
    has "trust" TrustLabel;
    has "instruction_policy" InstructionPolicy;
    may_have "warnings" (array_type Warning)].
Definition DevelopmentServiceView : json → Prop := interface_type [
    has "id" Identifier;
    has "status" PublishedServiceStatus;
    may_have "workspace_id" Identifier;
    has "local_host" LocalHost;
    has "local_port" LocalPort;
    has "protocol" DestinationProtocol;
    has "internal_origin" string_type;
    may_have "observed_destination" string_type;
    may_have "failure_class" ErrorClass;
    has "expires_at" Timestamp].
Definition DevelopmentServicesListInput : json → Prop := interface_type [
    may_have "limit" PageLimit].
Definition DevelopmentServicePublishInput : json → Prop := interface_type [
    has "workspace_id" Identifier;
    may_have "local_host" LocalHost;
    has "local_port" LocalPort;
    may_have "protocol" DestinationProtocol;
    may_have "ttl_seconds" number_type;
    has "idempotency_key" IdempotencyKey].
Definition DevelopmentServiceUnpublishInput : json → Prop := interface_type [
    has "published_service_id" Identifier;
    has "idempotency_key" IdempotencyKey].
Definition DevelopmentServicesListResult : json → Prop := interface_type [
    has "services" (array_type DevelopmentServiceView)].
Definition DevelopmentServiceResult : json → Prop := interface_type [
    has "service" DevelopmentServiceView].
Definition FindingCompletionState : json → Prop := interface_type [
    has "finding_id" Identifier;
    has "status" FindingStatus;
    has "result" CompletionResult;
    has "missing" (array_type RequirementLabel);
    may_have "verification_id" Identifier;
    may_have "verification_count" RecordCount].
Definition TaskValidationStatusInput : json → Prop := interface_type [
    has "review" ReviewSelector;
    may_have "finding_id" Identifier].
Definition TaskValidationStatusResult : json → Prop := interface_type [
    has "browser_required" boolean_type;
    has "requirements" CompletionRequirements;
    has "missing" (array_type RequirementLabel);
    has "assurance" EvidenceAssurance;
    may_have "finding_states" (array_type FindingCompletionState)].
Definition TaskCompleteInput : json → Prop := interface_type [
    has "review" ReviewSelector;
    may_have "finding_id" Identifier;
    may_have "summary" BodyText;
    has "idempotency_key" IdempotencyKey].
Definition TaskCompleteResult : json → Prop := interface_type [
    has "result" CompletionResult;
    has "terminates_session" boolean_type;
    has "requirements" CompletionRequirements;
    has "missing" (array_type RequirementLabel);
    has "assurance" EvidenceAssurance;
    has "next_actions" (array_type RequirementLabel);
    may_have "finding_states" (array_type FindingCompletionState)].

(** [x-protocol.messages] *)
Definition mcp_messages : list (string * Schema) :=
  [("project_current", schema_project_current_result);
   ("agent_session_status", schema_agent_session_status_result);
   ("agent_inbox_list", schema_agent_inbox_list_result);
   ("agent_inbox_acknowledge", schema_agent_inbox_acknowledge_result);
   ("review_list", schema_review_list_result);
   ("review_search", schema_review_search_result);
   ("review_get", schema_review_get_result);
   ("review_claim", schema_review_mutation_result);
   ("review_update_status", schema_review_mutation_result);
   ("review_add_comment", schema_review_add_comment_result);
   ("finding_get", schema_finding_get_result);
   ("finding_claim", schema_finding_mutation_result);
   ("finding_update_status", schema_finding_mutation_result);
   ("finding_mark_blocked", schema_finding_mutation_result);
   ("finding_add_comment", schema_finding_add_comment_result);
   ("finding_submit_verification", schema_finding_submit_verification_result);
   ("browser_take_screenshot", schema_browser_take_screenshot_result);
   ("browser_session_start", schema_browser_session_result);
   ("browser_session_allocate", schema_browser_session_result);
   ("browser_session_status", schema_browser_session_result);
   ("browser_session_pause", schema_browser_session_result);
   ("browser_session_resume", schema_browser_session_result);
   ("browser_session_end", schema_browser_session_result);
   ("browser_navigate", schema_browser_interaction_result);
   ("browser_snapshot", schema_browser_interaction_result);
   ("browser_click", schema_browser_interaction_result);
   ("browser_type", schema_browser_interaction_result);
   ("browser_select_option", schema_browser_interaction_result);
   ("browser_press_key", schema_browser_interaction_result);
   ("browser_scroll", schema_browser_interaction_result);
   ("browser_resize", schema_browser_interaction_result);
   ("browser_wait", schema_browser_interaction_result);
   ("development_services_list", schema_development_services_list_result);
   ("development_service_publish", schema_development_service_result);
   ("development_service_unpublish", schema_development_service_result);
   ("task_validation_status", schema_task_validation_status_result);
   ("task_complete", schema_task_complete_result)].

(** ** Encoders, decoders and dispatch *)

Definition encodeActorReference (value : option json) : result string string := object_text [
    push_field "type" jsonString value;
    push_optional "id" jsonString value;
    push_optional "display" jsonString value].
Definition encodeViewport (value : option json) : result string string := object_text [
    push_field "width" jsonInteger value;
    push_field "height" jsonInteger value;
    push_field "device_scale_factor" jsonNumber value].
Definition encodeScrollPosition (value : option json) : result string string := object_text [
    push_field "x" jsonInteger value;
    push_field "y" jsonInteger value].
Definition encodeContentRectangle (value : option json) : result string string := object_text [
    push_field "width_px" jsonInteger value;
    push_field "height_px" jsonInteger value].
Definition encodeAnnotationPathPoint (value : option json) : result string string := object_text [
    push_field "x" jsonNumber value;
    push_field "y" jsonNumber value].
Definition encodeAnnotationGeometry (value : option json) : result string string := object_text [
    push_field "x" jsonNumber value;
    push_field "y" jsonNumber value;
    push_optional "width" jsonNumber value;
    push_optional "height" jsonNumber value;
    push_optional "x2" jsonNumber value;
    push_optional "y2" jsonNumber value;
    push_optional "rotation" jsonNumber value;
    push_optional "path" (jsonItems encodeAnnotationPathPoint) value].
Definition encodeElementContextView (value : option json) : result string string := object_text [
    push_optional "selector" jsonString value;
    push_optional "selector_strategy" jsonString value;
    push_optional "role" jsonString value;
    push_optional "accessible_name" jsonString value;
    push_optional "text_excerpt" jsonString value;
    push_optional "dom_fingerprint" jsonString value].
Definition encodeProjectReference (value : option json) : result string string := object_text [
    push_field "id" jsonString value;
    push_field "slug" jsonString value;
    push_optional "name" jsonString value].
Definition encodeWorkspaceReference (value : option json) : result string string := object_text [
    push_field "id" jsonString value;
    push_optional "root_path" jsonString value;
    push_field "branch" jsonString value;
    push_field "head_commit" jsonString value;
    push_optional "dirty" jsonBoolean value].
Definition encodePolicySummary (value : option json) : result string string := object_text [
    push_field "agent_may_accept_findings" jsonBoolean value;
    push_field "verification_required" jsonBoolean value;
    push_field "secret_tools_available" jsonBoolean value;
    push_field "required_viewports" (jsonItems jsonString) value].
Definition encodeServerCapabilities (value : option json) : result string string := object_text [
    push_field "browser_live" jsonBoolean value;
    push_field "image_resources" jsonBoolean value;
    push_field "human_takeover" jsonBoolean value;
    push_field "review_inbox" jsonBoolean value;
    push_field "managed_messages" jsonBoolean value;
    push_field "session_resume" jsonBoolean value].
Definition encodeClientCapabilities (value : option json) : result string string := object_text [
    push_optional "resources" jsonBoolean value;
    push_optional "image_content" jsonBoolean value;
    push_optional "managed_messages" jsonBoolean value;
    push_optional "session_resume" jsonBoolean value].
Definition encodeWarning (value : option json) : result string string := object_text [
    push_field "code" jsonString value;
    push_field "message" jsonString value;
    push_optional "detail" jsonString value].
Definition encodeErrorDetails (value : option json) : result string string := object_text [
    push_optional "current_version" jsonInteger value;
    push_optional "expected_version" jsonInteger value;
    push_optional "current_epoch" jsonInteger value;
    push_optional "field" jsonString value;
    push_optional "candidates" (jsonItems encodeProjectReference) value;
    push_optional "required_evidence" (jsonItems jsonString) value;
    push_optional "allowed_transitions" (jsonItems jsonString) value;
    push_optional "retry_after_ms" jsonInteger value;
    push_optional "browser_session_status" jsonString value;
    push_optional "detected" jsonString value;
    push_optional "published_service_id" jsonString value;
    push_optional "connector_status" jsonString value].
Definition encodeToolError (value : option json) : result string string := object_text [
    push_field "code" jsonString value;
    push_field "message" jsonString value;
    push_field "retryable" jsonBoolean value;
    push_optional "details" encodeErrorDetails value].
Definition encodeArtefactLink (value : option json) : result string string := object_text [
    push_field "artefact_id" jsonString value;
    push_field "kind" jsonString value;
    push_optional "role" jsonString value;
    push_field "resource_uri" jsonString value;
    push_optional "content_path" jsonString value;
    push_optional "expires_at" jsonString value;
    push_field "content_type" jsonString value;
    push_optional "sha256" jsonString value;
    push_optional "size_bytes" jsonInteger value;
    push_optional "content_rectangle" encodeContentRectangle value;
    push_field "trust" jsonString value;
    push_field "instruction_policy" jsonString value].
Definition encodeAnnotationView (value : option json) : result string string := object_text [
    push_field "id" jsonString value;
    push_field "artefact_id" jsonString value;
    push_field "type" jsonString value;
    push_field "geometry" encodeAnnotationGeometry value;
    push_field "label" jsonString value;
    push_optional "marker_number" jsonInteger value].
Definition encodeCommentView (value : option json) : result string string := object_text [
    push_field "id" jsonString value;
    push_field "review_id" jsonString value;
    push_optional "finding_id" jsonString value;
    push_field "body" jsonString value;
    push_field "author" encodeActorReference value;
    push_field "created_at" jsonString value].
Definition encodeInboxItemView (value : option json) : result string string := object_text [
    push_field "id" jsonString value;
    push_field "project_id" jsonString value;
    push_field "type" jsonString value;
    push_field "title" jsonString value;
    push_field "status" jsonString value;
    push_optional "review_id" jsonString value;
    push_optional "review_slug" jsonString value;
    push_optional "finding_id" jsonString value;
    push_optional "priority" jsonString value;
    push_optional "finding_count" jsonInteger value;
    push_optional "assigned_by" encodeActorReference value;
    push_field "created_at" jsonString value;
    push_optional "acknowledged_at" jsonString value;
    push_optional "completed_at" jsonString value].
Definition encodeReviewStaleness (value : option json) : result string string := object_text [
    push_field "computed" jsonBoolean value;
    push_field "captured_branch" jsonString value;
    push_field "captured_commit" jsonString value;
    push_optional "workspace_branch" jsonString value;
    push_optional "workspace_head_commit" jsonString value].
Definition encodeReviewView (value : option json) : result string string := object_text [
    push_field "id" jsonString value;
    push_field "project_id" jsonString value;
    push_field "slug" jsonString value;
    push_field "title" jsonString value;
    push_optional "description" jsonString value;
    push_field "status" jsonString value;
    push_field "version" jsonInteger value;
    push_field "captured_branch" jsonString value;
    push_field "captured_commit" jsonString value;
    push_field "captured_workspace_id" jsonString value;
    push_optional "source_browser_session_id" jsonString value;
    push_optional "claimed_by" encodeActorReference value;
    push_field "finding_count" jsonInteger value;
    push_field "resource_uri" jsonString value;
    push_field "created_at" jsonString value;
    push_field "updated_at" jsonString value].
Definition encodeReviewSearchMatch (value : option json) : result string string := object_text [
    push_field "review" encodeReviewView value;
    push_field "matched" (jsonItems jsonString) value].
Definition encodeVerificationChecks (value : option json) : result string string := object_text [
    push_field "reproduced_before" jsonBoolean value;
    push_field "console_errors_reviewed" jsonBoolean value;
    push_field "network_failures_reviewed" jsonBoolean value;
    push_optional "accessibility_checked" jsonBoolean value].
Definition encodeEvidenceAssurance (value : option json) : result string string := object_text [
    push_field "verified_by_control_plane" (jsonItems jsonString) value;
    push_field "asserted_by_agent" (jsonItems jsonString) value;
    push_optional "asserted_by" encodeActorReference value].
Definition encodeVerificationView (value : option json) : result string string := object_text [
    push_field "verification_id" jsonString value;
    push_field "finding_id" jsonString value;
    push_field "status" jsonString value;
    push_field "summary" jsonString value;
    push_field "branch" jsonString value;
    push_field "commit" jsonString value;
    push_field "tested_viewports" (jsonItems encodeViewport) value;
    push_field "checks" encodeVerificationChecks value;
    push_optional "assurance" encodeEvidenceAssurance value;
    push_optional "artefacts" (jsonItems encodeArtefactLink) value;
    push_field "submitted_by" encodeActorReference value;
    push_field "submitted_at" jsonString value;
    push_optional "supersedes_verification_id" jsonString value;
    push_optional "superseded_by_verification_id" jsonString value;
    push_optional "superseded_at" jsonString value].
Definition encodeFindingView (value : option json) : result string string := object_text [
    push_field "id" jsonString value;
    push_field "review_id" jsonString value;
    push_field "title" jsonString value;
    push_optional "description" jsonString value;
    push_field "severity" jsonString value;
    push_field "status" jsonString value;
    push_field "source" jsonString value;
    push_field "version" jsonInteger value;
    push_field "url" jsonString value;
    push_field "viewport" encodeViewport value;
    push_field "scroll_position" encodeScrollPosition value;
    push_field "captured_commit" jsonString value;
    push_field "screenshot_artefact_id" jsonString value;
    push_optional "acceptance_criteria" jsonString value;
    push_optional "claimed_by" encodeActorReference value;
    push_optional "annotation_count" jsonInteger value;
    push_optional "element_context" encodeElementContextView value;
    push_field "resource_uri" jsonString value;
    push_field "untrusted_fields" (jsonItems jsonString) value].
Definition encodeBrowserSessionView (value : option json) : result string string := object_text [
    push_field "id" jsonString value;
    push_field "status" jsonString value;
    push_field "control_epoch" jsonInteger value;
    push_optional "controller" encodeActorReference value;
    push_field "viewport" encodeViewport value;
    push_optional "service_origin" jsonString value].
Definition encodeClientIdentity (value : option json) : result string string := object_text [
    push_field "name" jsonString value;
    push_field "version" jsonString value].
Definition encodeSessionInitialisationRequest (value : option json) : result string string := object_text [
    push_field "client" encodeClientIdentity value;
    push_optional "project_hint" jsonString value;
    push_optional "workspace_hint" jsonString value;
    push_optional "capabilities" encodeClientCapabilities value].
Definition encodeSessionInitialisationResult (value : option json) : result string string := object_text [
    push_field "agent_session_id" jsonString value;
    push_field "project" encodeProjectReference value;
    push_optional "workspace" encodeWorkspaceReference value;
    push_field "capabilities" encodeServerCapabilities value;
    push_field "granted_capabilities" (jsonItems jsonString) value;
    push_optional "expires_at" jsonString value].
Definition encodeProjectCurrentInput (value : option json) : result string string := object_text [
    push_optional "refresh_source_state" jsonBoolean value].
Definition encodeAgentSessionStatusInput (value : option json) : result string string := object_text [
    push_optional "include" (jsonItems jsonString) value].
Definition encodeAgentInboxListInput (value : option json) : result string string := object_text [
    push_optional "status" (jsonItems jsonString) value;
    push_optional "limit" jsonInteger value;
    push_optional "cursor" jsonString value].
Definition encodeAgentInboxAcknowledgeInput (value : option json) : result string string := object_text [
    push_field "inbox_item_id" jsonString value;
    push_field "idempotency_key" jsonString value].
Definition encodeReviewListInput (value : option json) : result string string := object_text [
    push_optional "status" (jsonItems jsonString) value;
    push_optional "assigned_to_me" jsonBoolean value;
    push_optional "slug_prefix" jsonString value;
    push_optional "updated_since" jsonString value;
    push_optional "limit" jsonInteger value;
    push_optional "cursor" jsonString value].
Definition encodeReviewSearchInput (value : option json) : result string string := object_text [
    push_field "query" jsonString value;
    push_optional "limit" jsonInteger value].
Definition encodeReviewGetInput (value : option json) : result string string := object_text [
    push_field "review" jsonString value;
    push_optional "include" (jsonItems jsonString) value;
    push_optional "findings_limit" jsonInteger value;
    push_optional "findings_cursor" jsonString value;
    push_optional "comments_limit" jsonInteger value;
    push_optional "comments_cursor" jsonString value].
Definition encodeReviewClaimInput (value : option json) : result string string := object_text [
    push_field "review_id" jsonString value;
    push_field "expected_version" jsonInteger value;
    push_field "idempotency_key" jsonString value].
Definition encodeReviewUpdateStatusInput (value : option json) : result string string := object_text [
    push_field "review_id" jsonString value;
    push_field "expected_version" jsonInteger value;
    push_field "status" jsonString value;
    push_optional "reason" jsonString value;
    push_field "idempotency_key" jsonString value].
Definition encodeReviewAddCommentInput (value : option json) : result string string := object_text [
    push_field "review_id" jsonString value;
    push_field "body" jsonString value;
    push_field "idempotency_key" jsonString value].
Definition encodeFindingGetInput (value : option json) : result string string := object_text [
    push_field "finding_id" jsonString value;
    push_optional "include" (jsonItems jsonString) value;
    push_optional "comments_limit" jsonInteger value;
    push_optional "comments_cursor" jsonString value].
Definition encodeFindingClaimInput (value : option json) : result string string := object_text [
    push_field "finding_id" jsonString value;
    push_field "expected_version" jsonInteger value;
    push_field "idempotency_key" jsonString value].
Definition encodeFindingUpdateStatusInput (value : option json) : result string string := object_text [
    push_field "finding_id" jsonString value;
    push_field "expected_version" jsonInteger value;
    push_field "status" jsonString value;
    push_optional "resolution_note" jsonString value;
    push_optional "reason" jsonString value;
    push_field "idempotency_key" jsonString value].
Definition encodeFindingMarkBlockedInput (value : option json) : result string string := object_text [
    push_field "finding_id" jsonString value;
    push_field "expected_version" jsonInteger value;
    push_field "reason" jsonString value;
    push_optional "requested_human_action" jsonString value;
    push_field "idempotency_key" jsonString value].
Definition encodeFindingAddCommentInput (value : option json) : result string string := object_text [
    push_field "finding_id" jsonString value;
    push_field "body" jsonString value;
    push_field "idempotency_key" jsonString value].
Definition encodeFindingSubmitVerificationInput (value : option json) : result string string := object_text [
    push_field "finding_id" jsonString value;
    push_optional "expected_version" jsonInteger value;
    push_field "summary" jsonString value;
    push_field "branch" jsonString value;
    push_field "commit" jsonString value;
    push_field "tested_viewports" (jsonItems encodeViewport) value;
    push_field "checks" encodeVerificationChecks value;
    push_field "artefact_ids" (jsonItems jsonString) value;
    push_field "idempotency_key" jsonString value].
Definition encodeBrowserTakeScreenshotInput (value : option json) : result string string := object_text [
    push_field "browser_session_id" jsonString value;
    push_field "control_epoch" jsonInteger value;
    push_optional "full_page" jsonBoolean value;
    push_field "purpose" jsonString value;
    push_field "idempotency_key" jsonString value].
Definition encodeBrowserSessionStartInput (value : option json) : result string string := object_text [
    push_optional "published_service_id" jsonString value;
    push_optional "allocate" jsonBoolean value;
    push_optional "viewport" encodeViewport value;
    push_field "idempotency_key" jsonString value].
Definition encodeBrowserSessionAllocateInput (value : option json) : result string string := object_text [
    push_field "browser_session_id" jsonString value;
    push_optional "published_service_id" jsonString value;
    push_field "idempotency_key" jsonString value].
Definition encodeBrowserSessionReferenceInput (value : option json) : result string string := object_text [
    push_field "browser_session_id" jsonString value].
Definition encodeBrowserSessionControlInput (value : option json) : result string string := object_text [
    push_field "browser_session_id" jsonString value;
    push_field "control_epoch" jsonInteger value;
    push_field "idempotency_key" jsonString value].
Definition encodeBrowserNavigateInput (value : option json) : result string string := object_text [
    push_field "browser_session_id" jsonString value;
    push_field "control_epoch" jsonInteger value;
    push_field "url" jsonString value;
    push_optional "wait_until" jsonString value;
    push_optional "timeout_ms" jsonInteger value].
Definition encodeBrowserSnapshotInput (value : option json) : result string string := object_text [
    push_field "browser_session_id" jsonString value;
    push_field "control_epoch" jsonInteger value;
    push_optional "max_nodes" jsonInteger value;
    push_optional "max_bytes" jsonInteger value;
    push_optional "timeout_ms" jsonInteger value].
Definition encodeBrowserElementInput (value : option json) : result string string := object_text [
    push_field "browser_session_id" jsonString value;
    push_field "control_epoch" jsonInteger value;
    push_field "snapshot_id" jsonString value;
    push_field "ref" jsonString value;
    push_optional "timeout_ms" jsonInteger value].
Definition encodeBrowserTypeInput (value : option json) : result string string := object_text [
    push_field "browser_session_id" jsonString value;
    push_field "control_epoch" jsonInteger value;
    push_field "snapshot_id" jsonString value;
    push_field "ref" jsonString value;
    push_field "text" jsonString value;
    push_optional "submit" jsonBoolean value;
    push_optional "timeout_ms" jsonInteger value].
Definition encodeBrowserSelectOptionInput (value : option json) : result string string := object_text [
    push_field "browser_session_id" jsonString value;
    push_field "control_epoch" jsonInteger value;
    push_field "snapshot_id" jsonString value;
    push_field "ref" jsonString value;
    push_field "values" (jsonItems jsonString) value;
    push_optional "timeout_ms" jsonInteger value].
Definition encodeBrowserPressKeyInput (value : option json) : result string string := object_text [
    push_field "browser_session_id" jsonString value;
    push_field "control_epoch" jsonInteger value;
    push_field "key" jsonString value;
    push_optional "snapshot_id" jsonString value;
    push_optional "ref" jsonString value;
    push_optional "timeout_ms" jsonInteger value].
Definition encodeBrowserScrollInput (value : option json) : result string string := object_text [
    push_field "browser_session_id" jsonString value;
    push_field "control_epoch" jsonInteger value;
    push_field "direction" jsonString value;
    push_field "amount_px" jsonInteger value;
    push_optional "snapshot_id" jsonString value;
    push_optional "ref" jsonString value;
    push_optional "timeout_ms" jsonInteger value].
Definition encodeBrowserResizeInput (value : option json) : result string string := object_text [
    push_field "browser_session_id" jsonString value;
    push_field "control_epoch" jsonInteger value;
    push_field "viewport" encodeViewport value;
    push_optional "timeout_ms" jsonInteger value].
Definition encodeBrowserWaitInput (value : option json) : result string string := object_text [
    push_field "browser_session_id" jsonString value;
    push_field "control_epoch" jsonInteger value;
    push_field "condition" jsonString value;
    push_optional "url_pattern" jsonString value;
    push_optional "selector" jsonString value;
    push_optional "text" jsonString value;
    push_optional "timeout_ms" jsonInteger value].
Definition encodeProjectCurrentResult (value : option json) : result string string := object_text [
    push_field "project" encodeProjectReference value;
    push_optional "workspace" encodeWorkspaceReference value;
    push_field "policy" encodePolicySummary value].
Definition encodeAgentSessionStatusResult (value : option json) : result string string := object_text [
    push_field "agent_session_id" jsonString value;
    push_field "status" jsonString value;
    push_optional "client" encodeClientIdentity value;
    push_field "project" encodeProjectReference value;
    push_optional "workspace" encodeWorkspaceReference value;
    push_field "capabilities" encodeServerCapabilities value;
    push_field "granted_capabilities" (jsonItems jsonString) value;
    push_optional "browser_sessions" (jsonItems encodeBrowserSessionView) value;
    push_optional "inbox_pending_count" jsonInteger value;
    push_optional "expires_at" jsonString value].
Definition encodeReviewGetResult (value : option json) : result string string := object_text [
    push_field "review" encodeReviewView value;
    push_optional "findings" (jsonItems encodeFindingView) value;
    push_optional "findings_next_cursor" jsonString value;
    push_optional "artefact_links" (jsonItems encodeArtefactLink) value;
    push_optional "comments" (jsonItems encodeCommentView) value;
    push_optional "comments_next_cursor" jsonString value;
    push_optional "staleness" encodeReviewStaleness value].
Definition encodeReviewListResult (value : option json) : result string string := object_text [
    push_field "reviews" (jsonItems encodeReviewView) value;
    push_optional "next_cursor" jsonString value].
Definition encodeReviewSearchResult (value : option json) : result string string := object_text [
    push_field "matches" (jsonItems encodeReviewSearchMatch) value].
Definition encodeReviewAddCommentResult (value : option json) : result string string := object_text [
    push_field "comment" encodeCommentView value].
Definition encodeAgentInboxListResult (value : option json) : result string string := object_text [
    push_field "items" (jsonItems encodeInboxItemView) value;
    push_field "pending_count" jsonInteger value;
    push_optional "next_cursor" jsonString value].
Definition encodeAgentInboxAcknowledgeResult (value : option json) : result string string := object_text [
    push_field "item" encodeInboxItemView value;
    push_optional "previous_status" jsonString value].
Definition encodeReviewMutationResult (value : option json) : result string string := object_text [
    push_field "review" encodeReviewView value;
    push_optional "previous_status" jsonString value].
Definition encodeFindingGetResult (value : option json) : result string string := object_text [
    push_field "finding" encodeFindingView value;
    push_optional "annotations" (jsonItems encodeAnnotationView) value;
    push_optional "comments" (jsonItems encodeCommentView) value;
    push_optional "comments_next_cursor" jsonString value;
    push_optional "artefact_links" (jsonItems encodeArtefactLink) value;
    push_optional "latest_verification" encodeVerificationView value].
Definition encodeFindingMutationResult (value : option json) : result string string := object_text [
    push_field "finding" encodeFindingView value;
    push_optional "previous_status" jsonString value].
Definition encodeFindingAddCommentResult (value : option json) : result string string := object_text [
    push_field "comment" encodeCommentView value].
Definition encodeCompletionRequirements (value : option json) : result string string := object_text [
    push_field "required_viewports" (jsonItems jsonString) value;
    push_field "console_review" jsonBoolean value;
    push_field "network_review" jsonBoolean value;
    push_field "final_screenshot" jsonBoolean value;
    push_optional "accessibility_check" jsonBoolean value].
Definition encodeFindingSubmitVerificationResult (value : option json) : result string string := object_text [
    push_field "verification" encodeVerificationView value;
    push_field "finding" encodeFindingView value;
    push_field "requirements" encodeCompletionRequirements value;
    push_field "missing" (jsonItems jsonString) value].
Definition encodeBrowserController (value : option json) : result string string := object_text [
    push_field "type" jsonString value;
    push_field "id" jsonString value].
Definition encodeBrowserSessionDetail (value : option json) : result string string := object_text [
    push_field "browser_session_id" jsonString value;
    push_field "status" jsonString value;
    push_field "control_epoch" jsonInteger value;
    push_optional "current_controller" encodeBrowserController value;
    push_field "viewport" encodeViewport value;
    push_optional "browser_type" jsonString value;
    push_optional "browser_version" jsonString value;
    push_optional "published_service_id" jsonString value;
    push_optional "service_origin" jsonString value;
    push_optional "url" jsonString value;
    push_field "live_view_available" jsonBoolean value;
    push_optional "created_at" jsonString value;
    push_optional "ended_at" jsonString value].
Definition encodeBrowserSessionResult (value : option json) : result string string := object_text [
    push_field "session" encodeBrowserSessionDetail value].
Definition encodeBrowserSnapshotView (value : option json) : result string string := object_text [
    push_field "snapshot_id" jsonString value;
    push_field "viewport" encodeViewport value;
    push_field "node_count" jsonInteger value;
    push_field "truncated" jsonBoolean value;
    push_field "text" jsonString value].
Definition encodeBrowserNavigationView (value : option json) : result string string := object_text [
    push_field "url" jsonString value;
    push_optional "http_status" jsonInteger value;
    push_field "redirected" jsonBoolean value;
    push_field "title" jsonString value].
Definition encodeBrowserInteractionResult (value : option json) : result string string := object_text [
    push_field "browser_session_id" jsonString value;
    push_field "command" jsonString value;
    push_field "control_epoch" jsonInteger value;
    push_field "duration_ms" jsonInteger value;
    push_optional "viewport" encodeViewport value;
    push_optional "navigation" encodeBrowserNavigationView value;
    push_optional "snapshot" encodeBrowserSnapshotView value].
Definition encodeBrowserTakeScreenshotResult (value : option json) : result string string := object_text [
    push_field "artefact" encodeArtefactLink value;
    push_field "browser_session_id" jsonString value;
    push_field "captured_at" jsonString value;
    push_field "viewport" encodeViewport value;
    push_field "full_page" jsonBoolean value;
    push_optional "url" jsonString value].
Definition encodeToolRefusal (value : option json) : result string string := object_text [
    push_field "protocol_version" jsonInteger value;
    push_field "ok" jsonBoolean value;
    push_field "request_id" jsonString value;
    push_field "type" jsonString value;
    push_field "error" encodeToolError value;
    push_field "trust" jsonString value;
    push_field "instruction_policy" jsonString value;
    push_optional "warnings" (jsonItems encodeWarning) value].
Definition encodeEnvelope (value : option json) (dataJson : string) : result string string := object_text [
    push_field "protocol_version" jsonInteger value;
    push_field "ok" jsonBoolean value;
    push_field "request_id" jsonString value;
    push_field "type" jsonString value;
    push_field "trust" jsonString value;
    push_field "instruction_policy" jsonString value;
    push_optional "warnings" (jsonItems encodeWarning) value;
    push_text "data" dataJson].
Definition encodeDevelopmentServiceView (value : option json) : result string string := object_text [
    push_field "id" jsonString value;
    push_field "status" jsonString value;
    push_optional "workspace_id" jsonString value;
    push_field "local_host" jsonString value;
    push_field "local_port" jsonInteger value;
    push_field "protocol" jsonString value;
    push_field "internal_origin" jsonString value;
    push_optional "observed_destination" jsonString value;
    push_optional "failure_class" jsonString value;
    push_field "expires_at" jsonString value].
Definition encodeDevelopmentServicesListInput (value : option json) : result string string := object_text [
    push_optional "limit" jsonInteger value].
Definition encodeDevelopmentServicePublishInput (value : option json) : result string string := object_text [
    push_field "workspace_id" jsonString value;
    push_optional "local_host" jsonString value;
    push_field "local_port" jsonInteger value;
    push_optional "protocol" jsonString value;
    push_optional "ttl_seconds" jsonInteger value;
    push_field "idempotency_key" jsonString value].
Definition encodeDevelopmentServiceUnpublishInput (value : option json) : result string string := object_text [
    push_field "published_service_id" jsonString value;
    push_field "idempotency_key" jsonString value].
Definition encodeDevelopmentServicesListResult (value : option json) : result string string := object_text [
    push_field "services" (jsonItems encodeDevelopmentServiceView) value].
Definition encodeDevelopmentServiceResult (value : option json) : result string string := object_text [
    push_field "service" encodeDevelopmentServiceView value].
Definition encodeFindingCompletionState (value : option json) : result string string := object_text [
    push_field "finding_id" jsonString value;
    push_field "status" jsonString value;
    push_field "result" jsonString value;
    push_field "missing" (jsonItems jsonString) value;
    push_optional "verification_id" jsonString value;
    push_optional "verification_count" jsonInteger value].
Definition encodeTaskValidationStatusInput (value : option json) : result string string := object_text [
    push_field "review" jsonString value;
    push_optional "finding_id" jsonString value].
Definition encodeTaskValidationStatusResult (value : option json) : result string string := object_text [
    push_field "browser_required" jsonBoolean value;
    push_field "requirements" encodeCompletionRequirements value;
    push_field "missing" (jsonItems jsonString) value;
    push_field "assurance" encodeEvidenceAssurance value;
    push_optional "finding_states" (jsonItems encodeFindingCompletionState) value].
Definition encodeTaskCompleteInput (value : option json) : result string string := object_text [
    push_field "review" jsonString value;
    push_optional "finding_id" jsonString value;
    push_optional "summary" jsonString value;
    push_field "idempotency_key" jsonString value].
Definition encodeTaskCompleteResult (value : option json) : result string string := object_text [
    push_field "result" jsonString value;
    push_field "terminates_session" jsonBoolean value;
    push_field "requirements" encodeCompletionRequirements value;
    push_field "missing" (jsonItems jsonString) value;
    push_field "assurance" encodeEvidenceAssurance value;
    push_field "next_actions" (jsonItems jsonString) value;
    push_optional "finding_states" (jsonItems encodeFindingCompletionState) value].

Definition decodeActorReference : json → result string json := read_object (λ source, [
    cast_field "type" as_is source;
    optional_field "id" as_is source;
    optional_field "display" as_is source]).
Definition decodeViewport : json → result string json := read_object (λ source, [
    cast_field "width" as_is source;
    cast_field "height" as_is source;
    cast_field "device_scale_factor" as_is source]).
Definition decodeScrollPosition : json → result string json := read_object (λ source, [
    cast_field "x" as_is source;
    cast_field "y" as_is source]).
Definition decodeContentRectangle : json → result string json := read_object (λ source, [
    cast_field "width_px" as_is source;
    cast_field "height_px" as_is source]).
Definition decodeAnnotationPathPoint : json → result string json := read_object (λ source, [
    cast_field "x" as_is source;
    cast_field "y" as_is source]).
Definition decodeAnnotationGeometry : json → result string json := read_object (λ source, [
    cast_field "x" as_is source;
    cast_field "y" as_is source;
    optional_field "width" as_is source;
    optional_field "height" as_is source;
    optional_field "x2" as_is source;
    optional_field "y2" as_is source;
    optional_field "rotation" as_is source;
    optional_field "path" (read_items decodeAnnotationPathPoint) source]).
Definition decodeElementContextView : json → result string json := read_object (λ source, [
    optional_field "selector" as_is source;
    optional_field "selector_strategy" as_is source;
    optional_field "role" as_is source;
    optional_field "accessible_name" as_is source;
    optional_field "text_excerpt" as_is source;
    optional_field "dom_fingerprint" as_is source]).
Definition decodeProjectReference : json → result string json := read_object (λ source, [
    cast_field "id" as_is source;
    cast_field "slug" as_is source;
    optional_field "name" as_is source]).
Definition decodeWorkspaceReference : json → result string json := read_object (λ source, [
    cast_field "id" as_is source;
    optional_field "root_path" as_is source;
    cast_field "branch" as_is source;
    cast_field "head_commit" as_is source;
    optional_field "dirty" as_is source]).
Definition decodePolicySummary : json → result string json := read_object (λ source, [
    cast_field "agent_may_accept_findings" as_is source;
    cast_field "verification_required" as_is source;
    cast_field "secret_tools_available" as_is source;
    read_field "required_viewports" (read_items as_is) source]).
Definition decodeServerCapabilities : json → result string json := read_object (λ source, [
    cast_field "browser_live" as_is source;
    cast_field "image_resources" as_is source;
    cast_field "human_takeover" as_is source;
    cast_field "review_inbox" as_is source;
    cast_field "managed_messages" as_is source;
    cast_field "session_resume" as_is source]).
Definition decodeClientCapabilities : json → result string json := read_object (λ source, [
    optional_field "resources" as_is source;
    optional_field "image_content" as_is source;
    optional_field "managed_messages" as_is source;
    optional_field "session_resume" as_is source]).
Definition decodeWarning : json → result string json := read_object (λ source, [
    cast_field "code" as_is source;
    cast_field "message" as_is source;
    optional_field "detail" as_is source]).
Definition decodeErrorDetails : json → result string json := read_object (λ source, [
    optional_field "current_version" as_is source;
    optional_field "expected_version" as_is source;
    optional_field "current_epoch" as_is source;
    optional_field "field" as_is source;
    optional_field "candidates" (read_items decodeProjectReference) source;
    optional_field "required_evidence" (read_items as_is) source;
    optional_field "allowed_transitions" (read_items as_is) source;
    optional_field "retry_after_ms" as_is source;
    optional_field "browser_session_status" as_is source;
    optional_field "detected" as_is source;
    optional_field "published_service_id" as_is source;
    optional_field "connector_status" as_is source]).
Definition decodeToolError : json → result string json := read_object (λ source, [
    cast_field "code" as_is source;
    cast_field "message" as_is source;
    cast_field "retryable" as_is source;
    optional_field "details" decodeErrorDetails source]).
Definition decodeArtefactLink : json → result string json := read_object (λ source, [
    cast_field "artefact_id" as_is source;
    cast_field "kind" as_is source;
    optional_field "role" as_is source;
    cast_field "resource_uri" as_is source;
    optional_field "content_path" as_is source;
    optional_field "expires_at" as_is source;
    cast_field "content_type" as_is source;
    optional_field "sha256" as_is source;
    optional_field "size_bytes" as_is source;
    optional_field "content_rectangle" decodeContentRectangle source;
    cast_field "trust" as_is source;
    cast_field "instruction_policy" as_is source]).
Definition decodeAnnotationView : json → result string json := read_object (λ source, [
    cast_field "id" as_is source;
    cast_field "artefact_id" as_is source;
    cast_field "type" as_is source;
    read_field "geometry" decodeAnnotationGeometry source;
    cast_field "label" as_is source;
    optional_field "marker_number" as_is source]).
Definition decodeCommentView : json → result string json := read_object (λ source, [
    cast_field "id" as_is source;
    cast_field "review_id" as_is source;
    optional_field "finding_id" as_is source;
    cast_field "body" as_is source;
    read_field "author" decodeActorReference source;
    cast_field "created_at" as_is source]).
Definition decodeInboxItemView : json → result string json := read_object (λ source, [
    cast_field "id" as_is source;
    cast_field "project_id" as_is source;
    cast_field "type" as_is source;
    cast_field "title" as_is source;
    cast_field "status" as_is source;
    optional_field "review_id" as_is source;
    optional_field "review_slug" as_is source;
    optional_field "finding_id" as_is source;
    optional_field "priority" as_is source;
    optional_field "finding_count" as_is source;
    optional_field "assigned_by" decodeActorReference source;
    cast_field "created_at" as_is source;
    optional_field "acknowledged_at" as_is source;
    optional_field "completed_at" as_is source]).
Definition decodeReviewStaleness : json → result string json := read_object (λ source, [
    cast_field "computed" as_is source;
    cast_field "captured_branch" as_is source;
    cast_field "captured_commit" as_is source;
    optional_field "workspace_branch" as_is source;
    optional_field "workspace_head_commit" as_is source]).
Definition decodeReviewView : json → result string json := read_object (λ source, [
    cast_field "id" as_is source;
    cast_field "project_id" as_is source;
    cast_field "slug" as_is source;
    cast_field "title" as_is source;
    optional_field "description" as_is source;
    cast_field "status" as_is source;
    cast_field "version" as_is source;
    cast_field "captured_branch" as_is source;
    cast_field "captured_commit" as_is source;
    cast_field "captured_workspace_id" as_is source;
    optional_field "source_browser_session_id" as_is source;
    optional_field "claimed_by" decodeActorReference source;
    cast_field "finding_count" as_is source;
    cast_field "resource_uri" as_is source;
    cast_field "created_at" as_is source;
    cast_field "updated_at" as_is source]).
Definition decodeReviewSearchMatch : json → result string json := read_object (λ source, [
    read_field "review" decodeReviewView source;
    read_field "matched" (read_items as_is) source]).
Definition decodeVerificationChecks : json → result string json := read_object (λ source, [
    cast_field "reproduced_before" as_is source;
    cast_field "console_errors_reviewed" as_is source;
    cast_field "network_failures_reviewed" as_is source;
    optional_field "accessibility_checked" as_is source]).
Definition decodeEvidenceAssurance : json → result string json := read_object (λ source, [
    read_field "verified_by_control_plane" (read_items as_is) source;
    read_field "asserted_by_agent" (read_items as_is) source;
    optional_field "asserted_by" decodeActorReference source]).
Definition decodeVerificationView : json → result string json := read_object (λ source, [
    cast_field "verification_id" as_is source;
    cast_field "finding_id" as_is source;
    cast_field "status" as_is source;
    cast_field "summary" as_is source;
    cast_field "branch" as_is source;
    cast_field "commit" as_is source;
    read_field "tested_viewports" (read_items decodeViewport) source;
    read_field "checks" decodeVerificationChecks source;
    optional_field "assurance" decodeEvidenceAssurance source;
    optional_field "artefacts" (read_items decodeArtefactLink) source;
    read_field "submitted_by" decodeActorReference source;
    cast_field "submitted_at" as_is source;
    optional_field "supersedes_verification_id" as_is source;
    optional_field "superseded_by_verification_id" as_is source;
    optional_field "superseded_at" as_is source]).
Definition decodeFindingView : json → result string json := read_object (λ source, [
    cast_field "id" as_is source;
    cast_field "review_id" as_is source;
    cast_field "title" as_is source;
    optional_field "description" as_is source;
    cast_field "severity" as_is source;
    cast_field "status" as_is source;
    cast_field "source" as_is source;
    cast_field "version" as_is source;
    cast_field "url" as_is source;
    read_field "viewport" decodeViewport source;
    read_field "scroll_position" decodeScrollPosition source;
    cast_field "captured_commit" as_is source;
    cast_field "screenshot_artefact_id" as_is source;
    optional_field "acceptance_criteria" as_is source;
    optional_field "claimed_by" decodeActorReference source;
    optional_field "annotation_count" as_is source;
    optional_field "element_context" decodeElementContextView source;
    cast_field "resource_uri" as_is source;
    read_field "untrusted_fields" (read_items as_is) source]).
Definition decodeBrowserSessionView : json → result string json := read_object (λ source, [
    cast_field "id" as_is source;
    cast_field "status" as_is source;
    cast_field "control_epoch" as_is source;
    optional_field "controller" decodeActorReference source;
    read_field "viewport" decodeViewport source;
    optional_field "service_origin" as_is source]).
Definition decodeClientIdentity : json → result string json := read_object (λ source, [
    cast_field "name" as_is source;
    cast_field "version" as_is source]).
Definition decodeSessionInitialisationRequest : json → result string json := read_object (λ source, [
    read_field "client" decodeClientIdentity source;
    optional_field "project_hint" as_is source;
    optional_field "workspace_hint" as_is source;
    optional_field "capabilities" decodeClientCapabilities source]).
Definition decodeSessionInitialisationResult : json → result string json := read_object (λ source, [
    cast_field "agent_session_id" as_is source;
    read_field "project" decodeProjectReference source;
    optional_field "workspace" decodeWorkspaceReference source;
    read_field "capabilities" decodeServerCapabilities source;
    read_field "granted_capabilities" (read_items as_is) source;
    optional_field "expires_at" as_is source]).
Definition decodeProjectCurrentInput : json → result string json := read_object (λ source, [
    optional_field "refresh_source_state" as_is source]).
Definition decodeAgentSessionStatusInput : json → result string json := read_object (λ source, [
    optional_field "include" (read_items as_is) source]).
Definition decodeAgentInboxListInput : json → result string json := read_object (λ source, [
    optional_field "status" (read_items as_is) source;
    optional_field "limit" as_is source;
    optional_field "cursor" as_is source]).
Definition decodeAgentInboxAcknowledgeInput : json → result string json := read_object (λ source, [
    cast_field "inbox_item_id" as_is source;
    cast_field "idempotency_key" as_is source]).
Definition decodeReviewListInput : json → result string json := read_object (λ source, [
    optional_field "status" (read_items as_is) source;
    optional_field "assigned_to_me" as_is source;
    optional_field "slug_prefix" as_is source;
    optional_field "updated_since" as_is source;
    optional_field "limit" as_is source;
    optional_field "cursor" as_is source]).
Definition decodeReviewSearchInput : json → result string json := read_object (λ source, [
    cast_field "query" as_is source;
    optional_field "limit" as_is source]).
Definition decodeReviewGetInput : json → result string json := read_object (λ source, [
    cast_field "review" as_is source;
    optional_field "include" (read_items as_is) source;
    optional_field "findings_limit" as_is source;
    optional_field "findings_cursor" as_is source;
    optional_field "comments_limit" as_is source;
    optional_field "comments_cursor" as_is source]).
Definition decodeReviewClaimInput : json → result string json := read_object (λ source, [
    cast_field "review_id" as_is source;
    cast_field "expected_version" as_is source;
    cast_field "idempotency_key" as_is source]).
Definition decodeReviewUpdateStatusInput : json → result string json := read_object (λ source, [
    cast_field "review_id" as_is source;
    cast_field "expected_version" as_is source;
    cast_field "status" as_is source;
    optional_field "reason" as_is source;
    cast_field "idempotency_key" as_is source]).
Definition decodeReviewAddCommentInput : json → result string json := read_object (λ source, [
    cast_field "review_id" as_is source;
    cast_field "body" as_is source;
    cast_field "idempotency_key" as_is source]).
Definition decodeFindingGetInput : json → result string json := read_object (λ source, [
    cast_field "finding_id" as_is source;
    optional_field "include" (read_items as_is) source;
    optional_field "comments_limit" as_is source;
    optional_field "comments_cursor" as_is source]).
Definition decodeFindingClaimInput : json → result string json := read_object (λ source, [
    cast_field "finding_id" as_is source;
    cast_field "expected_version" as_is source;
    cast_field "idempotency_key" as_is source]).
Definition decodeFindingUpdateStatusInput : json → result string json := read_object (λ source, [
    cast_field "finding_id" as_is source;
    cast_field "expected_version" as_is source;
    cast_field "status" as_is source;
    optional_field "resolution_note" as_is source;
    optional_field "reason" as_is source;
    cast_field "idempotency_key" as_is source]).
Definition decodeFindingMarkBlockedInput : json → result string json := read_object (λ source, [
    cast_field "finding_id" as_is source;
    cast_field "expected_version" as_is source;
    cast_field "reason" as_is source;
    optional_field "requested_human_action" as_is source;
    cast_field "idempotency_key" as_is source]).
Definition decodeFindingAddCommentInput : json → result string json := read_object (λ source, [
    cast_field "finding_id" as_is source;
    cast_field "body" as_is source;
    cast_field "idempotency_key" as_is source]).
Definition decodeFindingSubmitVerificationInput : json → result string json := read_object (λ source, [
    cast_field "finding_id" as_is source;
    optional_field "expected_version" as_is source;
    cast_field "summary" as_is source;
    cast_field "branch" as_is source;
    cast_field "commit" as_is source;
    read_field "tested_viewports" (read_items decodeViewport) source;
    read_field "checks" decodeVerificationChecks source;
    read_field "artefact_ids" (read_items as_is) source;
    cast_field "idempotency_key" as_is source]).
Definition decodeBrowserTakeScreenshotInput : json → result string json := read_object (λ source, [
    cast_field "browser_session_id" as_is source;
    cast_field "control_epoch" as_is source;
    optional_field "full_page" as_is source;
    cast_field "purpose" as_is source;
    cast_field "idempotency_key" as_is source]).
Definition decodeBrowserSessionStartInput : json → result string json := read_object (λ source, [
    optional_field "published_service_id" as_is source;
    optional_field "allocate" as_is source;
    optional_field "viewport" decodeViewport source;
    cast_field "idempotency_key" as_is source]).
Definition decodeBrowserSessionAllocateInput : json → result string json := read_object (λ source, [
    cast_field "browser_session_id" as_is source;
    optional_field "published_service_id" as_is source;
    cast_field "idempotency_key" as_is source]).
Definition decodeBrowserSessionReferenceInput : json → result string json := read_object (λ source, [
    cast_field "browser_session_id" as_is source]).
Definition decodeBrowserSessionControlInput : json → result string json := read_object (λ source, [
    cast_field "browser_session_id" as_is source;
    cast_field "control_epoch" as_is source;
    cast_field "idempotency_key" as_is source]).
Definition decodeBrowserNavigateInput : json → result string json := read_object (λ source, [
    cast_field "browser_session_id" as_is source;
    cast_field "control_epoch" as_is source;
    cast_field "url" as_is source;
    optional_field "wait_until" as_is source;
    optional_field "timeout_ms" as_is source]).
Definition decodeBrowserSnapshotInput : json → result string json := read_object (λ source, [
    cast_field "browser_session_id" as_is source;
    cast_field "control_epoch" as_is source;
    optional_field "max_nodes" as_is source;
    optional_field "max_bytes" as_is source;
    optional_field "timeout_ms" as_is source]).
Definition decodeBrowserElementInput : json → result string json := read_object (λ source, [
    cast_field "browser_session_id" as_is source;
    cast_field "control_epoch" as_is source;
    cast_field "snapshot_id" as_is source;
    cast_field "ref" as_is source;
    optional_field "timeout_ms" as_is source]).
Definition decodeBrowserTypeInput : json → result string json := read_object (λ source, [
    cast_field "browser_session_id" as_is source;
    cast_field "control_epoch" as_is source;
    cast_field "snapshot_id" as_is source;
    cast_field "ref" as_is source;
    cast_field "text" as_is source;
    optional_field "submit" as_is source;
    optional_field "timeout_ms" as_is source]).
Definition decodeBrowserSelectOptionInput : json → result string json := read_object (λ source, [
    cast_field "browser_session_id" as_is source;
    cast_field "control_epoch" as_is source;
    cast_field "snapshot_id" as_is source;
    cast_field "ref" as_is source;
    read_field "values" (read_items as_is) source;
    optional_field "timeout_ms" as_is source]).
Definition decodeBrowserPressKeyInput : json → result string json := read_object (λ source, [
    cast_field "browser_session_id" as_is source;
    cast_field "control_epoch" as_is source;
    cast_field "key" as_is source;
    optional_field "snapshot_id" as_is source;
    optional_field "ref" as_is source;
    optional_field "timeout_ms" as_is source]).
Definition decodeBrowserScrollInput : json → result string json := read_object (λ source, [
    cast_field "browser_session_id" as_is source;
    cast_field "control_epoch" as_is source;
    cast_field "direction" as_is source;
    cast_field "amount_px" as_is source;
    optional_field "snapshot_id" as_is source;
    optional_field "ref" as_is source;
    optional_field "timeout_ms" as_is source]).
Definition decodeBrowserResizeInput : json → result string json := read_object (λ source, [
    cast_field "browser_session_id" as_is source;
    cast_field "control_epoch" as_is source;
    read_field "viewport" decodeViewport source;
    optional_field "timeout_ms" as_is source]).
Definition decodeBrowserWaitInput : json → result string json := read_object (λ source, [
    cast_field "browser_session_id" as_is source;
    cast_field "control_epoch" as_is source;
    cast_field "condition" as_is source;
    optional_field "url_pattern" as_is source;
    optional_field "selector" as_is source;
    optional_field "text" as_is source;
    optional_field "timeout_ms" as_is source]).
Definition decodeProjectCurrentResult : json → result string json := read_object (λ source, [
    read_field "project" decodeProjectReference source;
    optional_field "workspace" decodeWorkspaceReference source;
    read_field "policy" decodePolicySummary source]).
Definition decodeAgentSessionStatusResult : json → result string json := read_object (λ source, [
    cast_field "agent_session_id" as_is source;
    cast_field "status" as_is source;
    optional_field "client" decodeClientIdentity source;
    read_field "project" decodeProjectReference source;
    optional_field "workspace" decodeWorkspaceReference source;
    read_field "capabilities" decodeServerCapabilities source;
    read_field "granted_capabilities" (read_items as_is) source;
    optional_field "browser_sessions" (read_items decodeBrowserSessionView) source;
    optional_field "inbox_pending_count" as_is source;
    optional_field "expires_at" as_is source]).
Definition decodeReviewGetResult : json → result string json := read_object (λ source, [
    read_field "review" decodeReviewView source;
    optional_field "findings" (read_items decodeFindingView) source;
    optional_field "findings_next_cursor" as_is source;
    optional_field "artefact_links" (read_items decodeArtefactLink) source;
    optional_field "comments" (read_items decodeCommentView) source;
    optional_field "comments_next_cursor" as_is source;
    optional_field "staleness" decodeReviewStaleness source]).
Definition decodeReviewListResult : json → result string json := read_object (λ source, [
    read_field "reviews" (read_items decodeReviewView) source;
    optional_field "next_cursor" as_is source]).
Definition decodeReviewSearchResult : json → result string json := read_object (λ source, [
    read_field "matches" (read_items decodeReviewSearchMatch) source]).
Definition decodeReviewAddCommentResult : json → result string json := read_object (λ source, [
    read_field "comment" decodeCommentView source]).
Definition decodeAgentInboxListResult : json → result string json := read_object (λ source, [
    read_field "items" (read_items decodeInboxItemView) source;
    cast_field "pending_count" as_is source;
    optional_field "next_cursor" as_is source]).
Definition decodeAgentInboxAcknowledgeResult : json → result string json := read_object (λ source, [
    read_field "item" decodeInboxItemView source;
    optional_field "previous_status" as_is source]).
Definition decodeReviewMutationResult : json → result string json := read_object (λ source, [
    read_field "review" decodeReviewView source;
    optional_field "previous_status" as_is source]).
Definition decodeFindingGetResult : json → result string json := read_object (λ source, [
    read_field "finding" decodeFindingView source;
    optional_field "annotations" (read_items decodeAnnotationView) source;
    optional_field "comments" (read_items decodeCommentView) source;
    optional_field "comments_next_cursor" as_is source;
    optional_field "artefact_links" (read_items decodeArtefactLink) source;
    optional_field "latest_verification" decodeVerificationView source]).
Definition decodeFindingMutationResult : json → result string json := read_object (λ source, [
    read_field "finding" decodeFindingView source;
    optional_field "previous_status" as_is source]).
Definition decodeFindingAddCommentResult : json → result string json := read_object (λ source, [
    read_field "comment" decodeCommentView source]).
Definition decodeCompletionRequirements : json → result string json := read_object (λ source, [
    read_field "required_viewports" (read_items as_is) source;
    cast_field "console_review" as_is source;
    cast_field "network_review" as_is source;
    cast_field "final_screenshot" as_is source;
    optional_field "accessibility_check" as_is source]).
Definition decodeFindingSubmitVerificationResult : json → result string json := read_object (λ source, [
    read_field "verification" decodeVerificationView source;
    read_field "finding" decodeFindingView source;
    read_field "requirements" decodeCompletionRequirements source;
    read_field "missing" (read_items as_is) source]).
Definition decodeBrowserController : json → result string json := read_object (λ source, [
    cast_field "type" as_is source;
    cast_field "id" as_is source]).
Definition decodeBrowserSessionDetail : json → result string json := read_object (λ source, [
    cast_field "browser_session_id" as_is source;
    cast_field "status" as_is source;
    cast_field "control_epoch" as_is source;
    optional_field "current_controller" decodeBrowserController source;
    read_field "viewport" decodeViewport source;
    optional_field "browser_type" as_is source;
    optional_field "browser_version" as_is source;
    optional_field "published_service_id" as_is source;
    optional_field "service_origin" as_is source;
    optional_field "url" as_is source;
    cast_field "live_view_available" as_is source;
    optional_field "created_at" as_is source;
    optional_field "ended_at" as_is source]).
Definition decodeBrowserSessionResult : json → result string json := read_object (λ source, [
    read_field "session" decodeBrowserSessionDetail source]).
Definition decodeBrowserSnapshotView : json → result string json := read_object (λ source, [
    cast_field "snapshot_id" as_is source;
    read_field "viewport" decodeViewport source;
    cast_field "node_count" as_is source;
    cast_field "truncated" as_is source;
    cast_field "text" as_is source]).
Definition decodeBrowserNavigationView : json → result string json := read_object (λ source, [
    cast_field "url" as_is source;
    optional_field "http_status" as_is source;
    cast_field "redirected" as_is source;
    cast_field "title" as_is source]).
Definition decodeBrowserInteractionResult : json → result string json := read_object (λ source, [
    cast_field "browser_session_id" as_is source;
    cast_field "command" as_is source;
    cast_field "control_epoch" as_is source;
    cast_field "duration_ms" as_is source;
    optional_field "viewport" decodeViewport source;
    optional_field "navigation" decodeBrowserNavigationView source;
    optional_field "snapshot" decodeBrowserSnapshotView source]).
Definition decodeBrowserTakeScreenshotResult : json → result string json := read_object (λ source, [
    read_field "artefact" decodeArtefactLink source;
    cast_field "browser_session_id" as_is source;
    cast_field "captured_at" as_is source;
    read_field "viewport" decodeViewport source;
    cast_field "full_page" as_is source;
    optional_field "url" as_is source]).
Definition decodeToolRefusal : json → result string json := read_object (λ source, [
    cast_field "protocol_version" as_is source;
    cast_field "ok" as_is source;
    cast_field "request_id" as_is source;
    cast_field "type" as_is source;
    read_field "error" decodeToolError source;
    cast_field "trust" as_is source;
    cast_field "instruction_policy" as_is source;
    optional_field "warnings" (read_items decodeWarning) source]).
Definition decodeEnvelope : json → result string json := read_object (λ source, [
    cast_field "protocol_version" as_is source;
    cast_field "ok" as_is source;
    cast_field "request_id" as_is source;
    cast_field "type" as_is source;
    cast_field "trust" as_is source;
    cast_field "instruction_policy" as_is source;
    optional_field "warnings" (read_items decodeWarning) source]).
Definition decodeDevelopmentServiceView : json → result string json := read_object (λ source, [
    cast_field "id" as_is source;
    cast_field "status" as_is source;
    optional_field "workspace_id" as_is source;
    cast_field "local_host" as_is source;
    cast_field "local_port" as_is source;
    cast_field "protocol" as_is source;
    cast_field "internal_origin" as_is source;
    optional_field "observed_destination" as_is source;
    optional_field "failure_class" as_is source;
    cast_field "expires_at" as_is source]).
Definition decodeDevelopmentServicesListInput : json → result string json := read_object (λ source, [
    optional_field "limit" as_is source]).
Definition decodeDevelopmentServicePublishInput : json → result string json := read_object (λ source, [
    cast_field "workspace_id" as_is source;
    optional_field "local_host" as_is source;
    cast_field "local_port" as_is source;
    optional_field "protocol" as_is source;
    optional_field "ttl_seconds" as_is source;
    cast_field "idempotency_key" as_is source]).
Definition decodeDevelopmentServiceUnpublishInput : json → result string json := read_object (λ source, [
    cast_field "published_service_id" as_is source;
    cast_field "idempotency_key" as_is source]).
Definition decodeDevelopmentServicesListResult : json → result string json := read_object (λ source, [
    read_field "services" (read_items decodeDevelopmentServiceView) source]).
Definition decodeDevelopmentServiceResult : json → result string json := read_object (λ source, [
    read_field "service" decodeDevelopmentServiceView source]).
Definition decodeFindingCompletionState : json → result string json := read_object (λ source, [
    cast_field "finding_id" as_is source;
    cast_field "status" as_is source;
    cast_field "result" as_is source;
    read_field "missing" (read_items as_is) source;
    optional_field "verification_id" as_is source;
    optional_field "verification_count" as_is source]).
Definition decodeTaskValidationStatusInput : json → result string json := read_object (λ source, [
    cast_field "review" as_is source;
    optional_field "finding_id" as_is source]).
Definition decodeTaskValidationStatusResult : json → result string json := read_object (λ source, [
    cast_field "browser_required" as_is source;
    read_field "requirements" decodeCompletionRequirements source;
    read_field "missing" (read_items as_is) source;
    read_field "assurance" decodeEvidenceAssurance source;
    optional_field "finding_states" (read_items decodeFindingCompletionState) source]).
Definition decodeTaskCompleteInput : json → result string json := read_object (λ source, [
    cast_field "review" as_is source;
    optional_field "finding_id" as_is source;
    optional_field "summary" as_is source;
    cast_field "idempotency_key" as_is source]).
Definition decodeTaskCompleteResult : json → result string json := read_object (λ source, [
    cast_field "result" as_is source;
    cast_field "terminates_session" as_is source;
    read_field "requirements" decodeCompletionRequirements source;
    read_field "missing" (read_items as_is) source;
    read_field "assurance" decodeEvidenceAssurance source;
    read_field "next_actions" (read_items as_is) source;
    optional_field "finding_states" (read_items decodeFindingCompletionState) source]).

Definition validatePayload (type : string) (value : json) (path : string) : list SchemaViolation :=
  if String.eqb type "project_current" then validateProjectCurrentResult value path else
  if String.eqb type "agent_session_status" then validateAgentSessionStatusResult value path else
  if String.eqb type "agent_inbox_list" then validateAgentInboxListResult value path else
  if String.eqb type "agent_inbox_acknowledge" then validateAgentInboxAcknowledgeResult value path else
  if String.eqb type "review_list" then validateReviewListResult value path else
  if String.eqb type "review_search" then validateReviewSearchResult value path else
  if String.eqb type "review_get" then validateReviewGetResult value path else
  if String.eqb type "review_claim" then validateReviewMutationResult value path else
  if String.eqb type "review_update_status" then validateReviewMutationResult value path else
  if String.eqb type "review_add_comment" then validateReviewAddCommentResult value path else
  if String.eqb type "finding_get" then validateFindingGetResult value path else
  if String.eqb type "finding_claim" then validateFindingMutationResult value path else
  if String.eqb type "finding_update_status" then validateFindingMutationResult value path else
  if String.eqb type "finding_mark_blocked" then validateFindingMutationResult value path else
  if String.eqb type "finding_add_comment" then validateFindingAddCommentResult value path else
  if String.eqb type "finding_submit_verification" then validateFindingSubmitVerificationResult value path else
  if String.eqb type "browser_take_screenshot" then validateBrowserTakeScreenshotResult value path else
  if String.eqb type "browser_session_start" then validateBrowserSessionResult value path else
  if String.eqb type "browser_session_allocate" then validateBrowserSessionResult value path else
  if String.eqb type "browser_session_status" then validateBrowserSessionResult value path else
  if String.eqb type "browser_session_pause" then validateBrowserSessionResult value path else
  if String.eqb type "browser_session_resume" then validateBrowserSessionResult value path else
  if String.eqb type "browser_session_end" then validateBrowserSessionResult value path else
  if String.eqb type "browser_navigate" then validateBrowserInteractionResult value path else
  if String.eqb type "browser_snapshot" then validateBrowserInteractionResult value path else
  if String.eqb type "browser_click" then validateBrowserInteractionResult value path else
  if String.eqb type "browser_type" then validateBrowserInteractionResult value path else
  if String.eqb type "browser_select_option" then validateBrowserInteractionResult value path else
  if String.eqb type "browser_press_key" then validateBrowserInteractionResult value path else
  if String.eqb type "browser_scroll" then validateBrowserInteractionResult value path else
  if String.eqb type "browser_resize" then validateBrowserInteractionResult value path else
  if String.eqb type "browser_wait" then validateBrowserInteractionResult value path else
  if String.eqb type "development_services_list" then validateDevelopmentServicesListResult value path else
  if String.eqb type "development_service_publish" then validateDevelopmentServiceResult value path else
  if String.eqb type "development_service_unpublish" then validateDevelopmentServiceResult value path else
  if String.eqb type "task_validation_status" then validateTaskValidationStatusResult value path else
  if String.eqb type "task_complete" then validateTaskCompleteResult value path else
  [].
(** The payload of the frame; a type of no message gives no frame. *)
Definition decodeFrame (type : string) (value : json) : option (result string json) :=
  if String.eqb type "project_current" then Some (decodeProjectCurrentResult value) else
  if String.eqb type "agent_session_status" then Some (decodeAgentSessionStatusResult value) else
  if String.eqb type "agent_inbox_list" then Some (decodeAgentInboxListResult value) else
  if String.eqb type "agent_inbox_acknowledge" then Some (decodeAgentInboxAcknowledgeResult value) else
  if String.eqb type "review_list" then Some (decodeReviewListResult value) else
  if String.eqb type "review_search" then Some (decodeReviewSearchResult value) else
  if String.eqb type "review_get" then Some (decodeReviewGetResult value) else
  if String.eqb type "review_claim" then Some (decodeReviewMutationResult value) else
  if String.eqb type "review_update_status" then Some (decodeReviewMutationResult value) else
  if String.eqb type "review_add_comment" then Some (decodeReviewAddCommentResult value) else
  if String.eqb type "finding_get" then Some (decodeFindingGetResult value) else
  if String.eqb type "finding_claim" then Some (decodeFindingMutationResult value) else
  if String.eqb type "finding_update_status" then Some (decodeFindingMutationResult value) else
  if String.eqb type "finding_mark_blocked" then Some (decodeFindingMutationResult value) else
  if String.eqb type "finding_add_comment" then Some (decodeFindingAddCommentResult value) else
  if String.eqb type "finding_submit_verification" then Some (decodeFindingSubmitVerificationResult value) else
  if String.eqb type "browser_take_screenshot" then Some (decodeBrowserTakeScreenshotResult value) else
  if String.eqb type "browser_session_start" then Some (decodeBrowserSessionResult value) else
  if String.eqb type "browser_session_allocate" then Some (decodeBrowserSessionResult value) else
  if String.eqb type "browser_session_status" then Some (decodeBrowserSessionResult value) else
  if String.eqb type "browser_session_pause" then Some (decodeBrowserSessionResult value) else
  if String.eqb type "browser_session_resume" then Some (decodeBrowserSessionResult value) else
  if String.eqb type "browser_session_end" then Some (decodeBrowserSessionResult value) else
  if String.eqb type "browser_navigate" then Some (decodeBrowserInteractionResult value) else
  if String.eqb type "browser_snapshot" then Some (decodeBrowserInteractionResult value) else
  if String.eqb type "browser_click" then Some (decodeBrowserInteractionResult value) else
  if String.eqb type "browser_type" then Some (decodeBrowserInteractionResult value) else
  if String.eqb type "browser_select_option" then Some (decodeBrowserInteractionResult value) else
  if String.eqb type "browser_press_key" then Some (decodeBrowserInteractionResult value) else
  if String.eqb type "browser_scroll" then Some (decodeBrowserInteractionResult value) else
  if String.eqb type "browser_resize" then Some (decodeBrowserInteractionResult value) else
  if String.eqb type "browser_wait" then Some (decodeBrowserInteractionResult value) else
  if String.eqb type "development_services_list" then Some (decodeDevelopmentServicesListResult value) else
  if String.eqb type "development_service_publish" then Some (decodeDevelopmentServiceResult value) else
  if String.eqb type "development_service_unpublish" then Some (decodeDevelopmentServiceResult value) else
  if String.eqb type "task_validation_status" then Some (decodeTaskValidationStatusResult value) else
  if String.eqb type "task_complete" then Some (decodeTaskCompleteResult value) else
  None.
Definition encodeFramePayload (type : string) (payload : option json) : option (result string string) :=
  if String.eqb type "project_current" then Some (encodeProjectCurrentResult payload) else
  if String.eqb type "agent_session_status" then Some (encodeAgentSessionStatusResult payload) else
  if String.eqb type "agent_inbox_list" then Some (encodeAgentInboxListResult payload) else
  if String.eqb type "agent_inbox_acknowledge" then Some (encodeAgentInboxAcknowledgeResult payload) else
  if String.eqb type "review_list" then Some (encodeReviewListResult payload) else
  if String.eqb type "review_search" then Some (encodeReviewSearchResult payload) else
  if String.eqb type "review_get" then Some (encodeReviewGetResult payload) else
  if String.eqb type "review_claim" then Some (encodeReviewMutationResult payload) else
  if String.eqb type "review_update_status" then Some (encodeReviewMutationResult payload) else
  if String.eqb type "review_add_comment" then Some (encodeReviewAddCommentResult payload) else
  if String.eqb type "finding_get" then Some (encodeFindingGetResult payload) else
  if String.eqb type "finding_claim" then Some (encodeFindingMutationResult payload) else
  if String.eqb type "finding_update_status" then Some (encodeFindingMutationResult payload) else
  if String.eqb type "finding_mark_blocked" then Some (encodeFindingMutationResult payload) else
  if String.eqb type "finding_add_comment" then Some (encodeFindingAddCommentResult payload) else
  if String.eqb type "finding_submit_verification" then Some (encodeFindingSubmitVerificationResult payload) else
  if String.eqb type "browser_take_screenshot" then Some (encodeBrowserTakeScreenshotResult payload) else
  if String.eqb type "browser_session_start" then Some (encodeBrowserSessionResult payload) else
  if String.eqb type "browser_session_allocate" then Some (encodeBrowserSessionResult payload) else
  if String.eqb type "browser_session_status" then Some (encodeBrowserSessionResult payload) else
  if String.eqb type "browser_session_pause" then Some (encodeBrowserSessionResult payload) else
  if String.eqb type "browser_session_resume" then Some (encodeBrowserSessionResult payload) else
  if String.eqb type "browser_session_end" then Some (encodeBrowserSessionResult payload) else
  if String.eqb type "browser_navigate" then Some (encodeBrowserInteractionResult payload) else
  if String.eqb type "browser_snapshot" then Some (encodeBrowserInteractionResult payload) else
  if String.eqb type "browser_click" then Some (encodeBrowserInteractionResult payload) else
  if String.eqb type "browser_type" then Some (encodeBrowserInteractionResult payload) else
  if String.eqb type "browser_select_option" then Some (encodeBrowserInteractionResult payload) else
  if String.eqb type "browser_press_key" then Some (encodeBrowserInteractionResult payload) else
  if String.eqb type "browser_scroll" then Some (encodeBrowserInteractionResult payload) else
  if String.eqb type "browser_resize" then Some (encodeBrowserInteractionResult payload) else
  if String.eqb type "browser_wait" then Some (encodeBrowserInteractionResult payload) else
  if String.eqb type "development_services_list" then Some (encodeDevelopmentServicesListResult payload) else
  if String.eqb type "development_service_publish" then Some (encodeDevelopmentServiceResult payload) else
  if String.eqb type "development_service_unpublish" then Some (encodeDevelopmentServiceResult payload) else
  if String.eqb type "task_validation_status" then Some (encodeTaskValidationStatusResult payload) else
  if String.eqb type "task_complete" then Some (encodeTaskCompleteResult payload) else
  None.

(** The objects of the schema, with the type and the functions generated for
    them. *)
Definition mcp_codec : list Coded :=
  [coded schema_actor_reference ActorReference validateActorReference encodeActorReference decodeActorReference;
   coded schema_viewport Viewport validateViewport encodeViewport decodeViewport;
   coded schema_scroll_position ScrollPosition validateScrollPosition encodeScrollPosition decodeScrollPosition;
   coded schema_content_rectangle ContentRectangle validateContentRectangle encodeContentRectangle decodeContentRectangle;
   coded schema_annotation_geometry AnnotationGeometry validateAnnotationGeometry encodeAnnotationGeometry decodeAnnotationGeometry;
   coded schema_element_context_view ElementContextView validateElementContextView encodeElementContextView decodeElementContextView;
   coded schema_annotation_path_point AnnotationPathPoint validateAnnotationPathPoint encodeAnnotationPathPoint decodeAnnotationPathPoint;
   coded schema_project_reference ProjectReference validateProjectReference encodeProjectReference decodeProjectReference;
   coded schema_workspace_reference WorkspaceReference validateWorkspaceReference encodeWorkspaceReference decodeWorkspaceReference;
   coded schema_policy_summary PolicySummary validatePolicySummary encodePolicySummary decodePolicySummary;
   coded schema_server_capabilities ServerCapabilities validateServerCapabilities encodeServerCapabilities decodeServerCapabilities;
   coded schema_client_capabilities ClientCapabilities validateClientCapabilities encodeClientCapabilities decodeClientCapabilities;
   coded schema_warning Warning validateWarning encodeWarning decodeWarning;
   coded schema_error_details ErrorDetails validateErrorDetails encodeErrorDetails decodeErrorDetails;
   coded schema_tool_error ToolError validateToolError encodeToolError decodeToolError;
   coded schema_artefact_link ArtefactLink validateArtefactLink encodeArtefactLink decodeArtefactLink;
   coded schema_annotation_view AnnotationView validateAnnotationView encodeAnnotationView decodeAnnotationView;
   coded schema_comment_view CommentView validateCommentView encodeCommentView decodeCommentView;
   coded schema_inbox_item_view InboxItemView validateInboxItemView encodeInboxItemView decodeInboxItemView;
   coded schema_review_staleness ReviewStaleness validateReviewStaleness encodeReviewStaleness decodeReviewStaleness;
   coded schema_review_search_match ReviewSearchMatch validateReviewSearchMatch encodeReviewSearchMatch decodeReviewSearchMatch;
   coded schema_verification_checks VerificationChecks validateVerificationChecks encodeVerificationChecks decodeVerificationChecks;
   coded schema_verification_view VerificationView validateVerificationView encodeVerificationView decodeVerificationView;
   coded schema_review_view ReviewView validateReviewView encodeReviewView decodeReviewView;
   coded schema_finding_view FindingView validateFindingView encodeFindingView decodeFindingView;
   coded schema_browser_session_view BrowserSessionView validateBrowserSessionView encodeBrowserSessionView decodeBrowserSessionView;
   coded schema_session_initialisation_request SessionInitialisationRequest validateSessionInitialisationRequest encodeSessionInitialisationRequest decodeSessionInitialisationRequest;
   coded schema_client_identity ClientIdentity validateClientIdentity encodeClientIdentity decodeClientIdentity;
   coded schema_session_initialisation_result SessionInitialisationResult validateSessionInitialisationResult encodeSessionInitialisationResult decodeSessionInitialisationResult;
   coded schema_project_current_input ProjectCurrentInput validateProjectCurrentInput encodeProjectCurrentInput decodeProjectCurrentInput;
   coded schema_agent_session_status_input AgentSessionStatusInput validateAgentSessionStatusInput encodeAgentSessionStatusInput decodeAgentSessionStatusInput;
   coded schema_agent_inbox_list_input AgentInboxListInput validateAgentInboxListInput encodeAgentInboxListInput decodeAgentInboxListInput;
   coded schema_agent_inbox_acknowledge_input AgentInboxAcknowledgeInput validateAgentInboxAcknowledgeInput encodeAgentInboxAcknowledgeInput decodeAgentInboxAcknowledgeInput;
   coded schema_review_list_input ReviewListInput validateReviewListInput encodeReviewListInput decodeReviewListInput;
   coded schema_review_search_input ReviewSearchInput validateReviewSearchInput encodeReviewSearchInput decodeReviewSearchInput;
   coded schema_review_get_input ReviewGetInput validateReviewGetInput encodeReviewGetInput decodeReviewGetInput;
   coded schema_review_claim_input ReviewClaimInput validateReviewClaimInput encodeReviewClaimInput decodeReviewClaimInput;
   coded schema_review_update_status_input ReviewUpdateStatusInput validateReviewUpdateStatusInput encodeReviewUpdateStatusInput decodeReviewUpdateStatusInput;
   coded schema_review_add_comment_input ReviewAddCommentInput validateReviewAddCommentInput encodeReviewAddCommentInput decodeReviewAddCommentInput;
   coded schema_finding_get_input FindingGetInput validateFindingGetInput encodeFindingGetInput decodeFindingGetInput;
   coded schema_finding_claim_input FindingClaimInput validateFindingClaimInput encodeFindingClaimInput decodeFindingClaimInput;
   coded schema_finding_update_status_input FindingUpdateStatusInput validateFindingUpdateStatusInput encodeFindingUpdateStatusInput decodeFindingUpdateStatusInput;
   coded schema_finding_mark_blocked_input FindingMarkBlockedInput validateFindingMarkBlockedInput encodeFindingMarkBlockedInput decodeFindingMarkBlockedInput;
   coded schema_finding_add_comment_input FindingAddCommentInput validateFindingAddCommentInput encodeFindingAddCommentInput decodeFindingAddCommentInput;
   coded schema_finding_submit_verification_input FindingSubmitVerificationInput validateFindingSubmitVerificationInput encodeFindingSubmitVerificationInput decodeFindingSubmitVerificationInput;
   coded schema_browser_take_screenshot_input BrowserTakeScreenshotInput validateBrowserTakeScreenshotInput encodeBrowserTakeScreenshotInput decodeBrowserTakeScreenshotInput;
   coded schema_browser_session_start_input BrowserSessionStartInput validateBrowserSessionStartInput encodeBrowserSessionStartInput decodeBrowserSessionStartInput;
   coded schema_browser_session_allocate_input BrowserSessionAllocateInput validateBrowserSessionAllocateInput encodeBrowserSessionAllocateInput decodeBrowserSessionAllocateInput;
   coded schema_browser_session_reference_input BrowserSessionReferenceInput validateBrowserSessionReferenceInput encodeBrowserSessionReferenceInput decodeBrowserSessionReferenceInput;
   coded schema_browser_session_control_input BrowserSessionControlInput validateBrowserSessionControlInput encodeBrowserSessionControlInput decodeBrowserSessionControlInput;
   coded schema_browser_navigate_input BrowserNavigateInput validateBrowserNavigateInput encodeBrowserNavigateInput decodeBrowserNavigateInput;
   coded schema_browser_snapshot_input BrowserSnapshotInput validateBrowserSnapshotInput encodeBrowserSnapshotInput decodeBrowserSnapshotInput;
   coded schema_browser_element_input BrowserElementInput validateBrowserElementInput encodeBrowserElementInput decodeBrowserElementInput;
   coded schema_browser_type_input BrowserTypeInput validateBrowserTypeInput encodeBrowserTypeInput decodeBrowserTypeInput;
   coded schema_browser_select_option_input BrowserSelectOptionInput validateBrowserSelectOptionInput encodeBrowserSelectOptionInput decodeBrowserSelectOptionInput;
   coded schema_browser_press_key_input BrowserPressKeyInput validateBrowserPressKeyInput encodeBrowserPressKeyInput decodeBrowserPressKeyInput;
   coded schema_browser_scroll_input BrowserScrollInput validateBrowserScrollInput encodeBrowserScrollInput decodeBrowserScrollInput;
   coded schema_browser_resize_input BrowserResizeInput validateBrowserResizeInput encodeBrowserResizeInput decodeBrowserResizeInput;
   coded schema_browser_wait_input BrowserWaitInput validateBrowserWaitInput encodeBrowserWaitInput decodeBrowserWaitInput;
   coded schema_project_current_result ProjectCurrentResult validateProjectCurrentResult encodeProjectCurrentResult decodeProjectCurrentResult;
   coded schema_agent_session_status_result AgentSessionStatusResult validateAgentSessionStatusResult encodeAgentSessionStatusResult decodeAgentSessionStatusResult;
   coded schema_review_get_result ReviewGetResult validateReviewGetResult encodeReviewGetResult decodeReviewGetResult;
   coded schema_review_list_result ReviewListResult validateReviewListResult encodeReviewListResult decodeReviewListResult;
   coded schema_review_search_result ReviewSearchResult validateReviewSearchResult encodeReviewSearchResult decodeReviewSearchResult;
   coded schema_review_add_comment_result ReviewAddCommentResult validateReviewAddCommentResult encodeReviewAddCommentResult decodeReviewAddCommentResult;
   coded schema_agent_inbox_list_result AgentInboxListResult validateAgentInboxListResult encodeAgentInboxListResult decodeAgentInboxListResult;
   coded schema_agent_inbox_acknowledge_result AgentInboxAcknowledgeResult validateAgentInboxAcknowledgeResult encodeAgentInboxAcknowledgeResult decodeAgentInboxAcknowledgeResult;
   coded schema_review_mutation_result ReviewMutationResult validateReviewMutationResult encodeReviewMutationResult decodeReviewMutationResult;
   coded schema_finding_get_result FindingGetResult validateFindingGetResult encodeFindingGetResult decodeFindingGetResult;
   coded schema_finding_mutation_result FindingMutationResult validateFindingMutationResult encodeFindingMutationResult decodeFindingMutationResult;
   coded schema_finding_add_comment_result FindingAddCommentResult validateFindingAddCommentResult encodeFindingAddCommentResult decodeFindingAddCommentResult;
   coded schema_finding_submit_verification_result FindingSubmitVerificationResult validateFindingSubmitVerificationResult encodeFindingSubmitVerificationResult decodeFindingSubmitVerificationResult;
   coded schema_browser_controller BrowserController validateBrowserController encodeBrowserController decodeBrowserController;
   coded schema_browser_session_detail BrowserSessionDetail validateBrowserSessionDetail encodeBrowserSessionDetail decodeBrowserSessionDetail;
   coded schema_browser_session_result BrowserSessionResult validateBrowserSessionResult encodeBrowserSessionResult decodeBrowserSessionResult;
   coded schema_browser_snapshot_view BrowserSnapshotView validateBrowserSnapshotView encodeBrowserSnapshotView decodeBrowserSnapshotView;
   coded schema_browser_navigation_view BrowserNavigationView validateBrowserNavigationView encodeBrowserNavigationView decodeBrowserNavigationView;
   coded schema_browser_interaction_result BrowserInteractionResult validateBrowserInteractionResult encodeBrowserInteractionResult decodeBrowserInteractionResult;
   coded schema_browser_take_screenshot_result BrowserTakeScreenshotResult validateBrowserTakeScreenshotResult encodeBrowserTakeScreenshotResult decodeBrowserTakeScreenshotResult;
   coded schema_tool_refusal ToolRefusal validateToolRefusal encodeToolRefusal decodeToolRefusal;
   coded schema_development_service_view DevelopmentServiceView validateDevelopmentServiceView encodeDevelopmentServiceView decodeDevelopmentServiceView;
   coded schema_development_services_list_input DevelopmentServicesListInput validateDevelopmentServicesListInput encodeDevelopmentServicesListInput decodeDevelopmentServicesListInput;
   coded schema_development_service_publish_input DevelopmentServicePublishInput validateDevelopmentServicePublishInput encodeDevelopmentServicePublishInput decodeDevelopmentServicePublishInput;
   coded schema_development_service_unpublish_input DevelopmentServiceUnpublishInput validateDevelopmentServiceUnpublishInput encodeDevelopmentServiceUnpublishInput decodeDevelopmentServiceUnpublishInput;
   coded schema_development_services_list_result DevelopmentServicesListResult validateDevelopmentServicesListResult encodeDevelopmentServicesListResult decodeDevelopmentServicesListResult;
   coded schema_development_service_result DevelopmentServiceResult validateDevelopmentServiceResult encodeDevelopmentServiceResult decodeDevelopmentServiceResult;
   coded schema_completion_requirements CompletionRequirements validateCompletionRequirements encodeCompletionRequirements decodeCompletionRequirements;
   coded schema_evidence_assurance EvidenceAssurance validateEvidenceAssurance encodeEvidenceAssurance decodeEvidenceAssurance;
   coded schema_finding_completion_state FindingCompletionState validateFindingCompletionState encodeFindingCompletionState decodeFindingCompletionState;
   coded schema_task_validation_status_input TaskValidationStatusInput validateTaskValidationStatusInput encodeTaskValidationStatusInput decodeTaskValidationStatusInput;
   coded schema_task_validation_status_result TaskValidationStatusResult validateTaskValidationStatusResult encodeTaskValidationStatusResult decodeTaskValidationStatusResult;
   coded schema_task_complete_input TaskCompleteInput validateTaskCompleteInput encodeTaskCompleteInput decodeTaskCompleteInput;
   coded schema_task_complete_result TaskCompleteResult validateTaskCompleteResult encodeTaskCompleteResult decodeTaskCompleteResult].

Lemma mcp_codec_generated : Forall codes mcp_codec.
Proof. repeat (apply Forall_cons_2; [by repeat split|]). apply Forall_nil_2. Qed.
(** The envelope, whose payload is text that was encoded before. *)
Lemma mcp_envelope_generated value text value' :
  encodeEnvelope value text = encoding text schema_envelope value
  ∧ (∀ source, decodeEnvelope source = decoding schema_envelope source)
  ∧ Envelope value' = typing schema_envelope value'.
Proof. by split. Qed.

(** The functions of the dispatch. *)
Definition mcp_dispatch : Dispatch :=
  {| payloads := mcp_messages; message_types := MESSAGE_TYPE_VALUES; validate_payload := validatePayload;
     decode_payload := decodeFrame; encode_payload := encodeFramePayload |}.
Lemma mcp_dispatch_generated : dispatches mcp_dispatch.
Proof.
  split; [reflexivity|]. repeat (apply Forall_cons_2; [by repeat split|]). apply Forall_nil_2.
Qed.
