(* ===== verification/ProtocolTheorems.v ===== *)
(** * What the protocols' generated code does

    The validators, codecs and dispatches of the six protocols, together, and what
    they do: a validator accepts exactly the documents of its schema; an accepted
    document is decoded to a value of its declared type, and encoding that value
    writes the document; equal documents are written with the same bytes; and each
    message goes to the functions of its payload. *)

From S2P Require Import Prelude ReviewDomain EntityId Regex Text Numbers StableJson Validation Schema Codec CodecTheorems.
From S2P Require PlatformSchema PlatformValidate PlatformCodec ReviewSchema ReviewValidate ReviewCodec.
From S2P Require ConnectorSchema ConnectorValidate ConnectorCodec BrowserSchema BrowserValidate BrowserCodec.
From S2P Require LiveViewSchema LiveViewValidate LiveViewCodec McpSchema McpValidate McpCodec.

(** Every validator with the schema it was generated from. *)
Definition all_validators : list (Schema * (json → string → list SchemaViolation)) :=
  PlatformValidate.platform_validators ++ ReviewValidate.review_validators
  ++ ConnectorValidate.connector_validators ++ BrowserValidate.browser_validators
  ++ LiveViewValidate.live_view_validators ++ McpValidate.mcp_validators.
Definition all_codecs : list Coded :=
  PlatformCodec.platform_codec ++ ReviewCodec.review_codec ++ ConnectorCodec.connector_codec
  ++ BrowserCodec.browser_codec ++ LiveViewCodec.live_view_codec ++ McpCodec.mcp_codec.
Definition all_dispatches : list Dispatch :=
  [PlatformCodec.platform_dispatch; ReviewCodec.review_dispatch; ConnectorCodec.connector_dispatch;
   BrowserCodec.browser_dispatch; LiveViewCodec.live_view_dispatch; McpCodec.mcp_dispatch].

Lemma all_generated : Forall (λ e, ∀ value path, e.2 value path = violations e.1 value path) all_validators.
Proof.
  repeat (apply Forall_app; split).
  - exact PlatformValidate.platform_generated.
  - exact ReviewValidate.review_generated.
  - exact ConnectorValidate.connector_generated.
  - exact BrowserValidate.browser_generated.
  - exact LiveViewValidate.live_view_generated.
  - exact McpValidate.mcp_generated.
Qed.
Lemma all_code : Forall codes all_codecs.
Proof.
  repeat (apply Forall_app; split).
  - exact PlatformCodec.platform_codec_generated.
  - exact ReviewCodec.review_codec_generated.
  - exact ConnectorCodec.connector_codec_generated.
  - exact BrowserCodec.browser_codec_generated.
  - exact LiveViewCodec.live_view_codec_generated.
  - exact McpCodec.mcp_codec_generated.
Qed.
Lemma all_encodable : forallb (λ c, encodable (of_schema c)) all_codecs = true.
Proof. vm_compute. reflexivity. Qed.
Lemma all_dispatch : Forall dispatches all_dispatches.
Proof.
  repeat apply Forall_cons_2; [..|by apply Forall_nil_2].
  - exact PlatformCodec.platform_dispatch_generated.
  - exact ReviewCodec.review_dispatch_generated.
  - exact ConnectorCodec.connector_dispatch_generated.
  - exact BrowserCodec.browser_dispatch_generated.
  - exact LiveViewCodec.live_view_dispatch_generated.
  - exact McpCodec.mcp_dispatch_generated.
Qed.
Lemma all_payloads_encodable : forallb (λ d, forallb (λ m, encodable m.2) (payloads d)) all_dispatches = true.
Proof. vm_compute. reflexivity. Qed.

(** A codec's functions are those of its schema. *)
Lemma accepted_conforms c v : c ∈ all_codecs → validator c v "" = [] → codes c ∧ encodable (of_schema c) = true
  ∧ conforms (as_read (of_schema c)) v.
Proof.
  intros Hc Hv. pose proof (proj1 (Forall_forall _ _) all_code c Hc) as Hcodes. split; [done|]. split.
  - pose proof all_encodable as Henc. rewrite forallb_forall in Henc. by apply Henc, list_elem_of_In.
  - apply (violations_exact _ _ ""). by rewrite <- (validates _ Hcodes).
Qed.

(** The messages are told apart by their type alone. *)
Fixpoint handler {A} (type : string) (table : list (string * A)) : option A :=
  match table with [] => None | (t, a) :: table' => if String.eqb type t then Some a else handler type table' end.
Lemma handler_None {A} type (table : list (string * A)) : type ∉ map fst table → handler type table = None.
Proof.
  induction table as [|[t a] table IH]; [done|]. cbn. intros [Ht Hn]%not_elem_of_cons.
  destruct (String.eqb_spec type t); [done|by apply IH].
Qed.
Lemma all_handlers : Forall (λ d, ∀ type value,
  decode_payload d type value = handler type (map (λ m, (m.1, decoding m.2 value)) (payloads d))
  ∧ encode_payload d type (Some value) = handler type (map (λ m, (m.1, encoding "" m.2 (Some value))) (payloads d)))
  all_dispatches.
Proof. repeat apply Forall_cons_2; [..|by apply Forall_nil_2]; intros type value; split; reflexivity. Qed.
Lemma other_types d type value : d ∈ all_dispatches → type ∉ message_types d →
  decode_payload d type value = None ∧ encode_payload d type (Some value) = None.
Proof.
  intros Hd Ht. pose proof (proj1 (Forall_forall _ _) all_dispatch d Hd) as [Hall _]. rewrite <- Hall in Ht.
  destruct (proj1 (Forall_forall _ _) all_handlers d Hd type value) as [-> ->].
  split; apply handler_None; by rewrite map_map.
Qed.

Lemma payload_functions d type s : d ∈ all_dispatches → (type, s) ∈ payloads d →
  encodable s = true ∧ (∀ value path, validate_payload d type value path = violations s value path)
  ∧ (∀ value, decode_payload d type value = Some (decoding s value))
  ∧ (∀ value, encode_payload d type (Some value) = Some (encoding "" s (Some value))).
Proof.
  intros Hd Hs. split.
  - pose proof all_payloads_encodable as Henc. rewrite forallb_forall in Henc.
    specialize (Henc d (proj1 (list_elem_of_In _ _) Hd)). rewrite forallb_forall in Henc.
    by apply (Henc (type, s)), list_elem_of_In.
  - pose proof (proj1 (Forall_forall _ _) all_dispatch d Hd) as [_ Heach]. rewrite Forall_forall in Heach.
    specialize (Heach _ Hs). cbn in Heach. split_and!; intros; by apply Heach.
Qed.

(** ** What they do *)


Definition sample_viewport : json := JObj [("height", JNum 800); ("width", JNum 1280); ("device_scale_factor", JNum 1)].

(** C8: An object of the protocols that its validator accepts is decoded without an
    error to a value of its declared type, and encoding that value writes the text
    of the object with the members in the order of the schema, none lost. *)
Theorem accepted_objects_survive c v (Hc : c ∈ all_codecs) (Hp : plain_json v) (Hv : validator c v "" = []) :
  ∃ w, decoder c v = Ok w ∧ declared c w
       ∧ encoder c (Some w) = Ok (stringify (projected (of_schema c) v))
       ∧ same_json (projected (of_schema c) v) v.
Proof.
  destruct (accepted_conforms c v Hc Hv) as (Hcodes & Henc & Hconf).
  destruct (conforming_carried _ Henc v Hp Hconf) as (w & Hd & Ht & He & Hs). exists w.
  by rewrite (decodes _ Hcodes), (declares _ Hcodes), (encodes _ Hcodes).
Qed.

Definition viewport_code : Coded :=
  coded BrowserSchema.schema_viewport BrowserCodec.Viewport BrowserValidate.validateViewport
    BrowserCodec.encodeViewport BrowserCodec.decodeViewport.
Lemma viewport_coded : viewport_code ∈ all_codecs.
Proof.
  unfold all_codecs. do 3 (apply elem_of_app; right). apply elem_of_app; left. right. left.
Qed.
Lemma sample_viewport_plain : plain_json sample_viewport.
Proof.
  split; [by apply (bool_decide_unpack _)|]. cbn. split_and!; try done; eexists; split; reflexivity.
Qed.
Lemma accepted_objects_survive_witness :
  ∃ w, BrowserCodec.decodeViewport sample_viewport = Ok w ∧ BrowserCodec.Viewport w
       ∧ BrowserCodec.encodeViewport (Some w) = Ok (stringify (projected BrowserSchema.schema_viewport sample_viewport))
       ∧ same_json (projected BrowserSchema.schema_viewport sample_viewport) sample_viewport.
Proof.
  apply (accepted_objects_survive viewport_code sample_viewport viewport_coded sample_viewport_plain).
  vm_compute. reflexivity.
Defined.

(** C9: The encoding is canonical: two accepted objects of one schema are decoded and
    encoded to the same bytes exactly when they are the same object, whatever the
    order of their members. *)
Theorem encoding_is_canonical c v w (Hc : c ∈ all_codecs) (Hpv : plain_json v) (Hpw : plain_json w)
    (Hv : validator c v "" = []) (Hw : validator c w "" = []) :
  (x ← decoder c v; encoder c (Some x)) = (x ← decoder c w; encoder c (Some x)) ↔ same_json v w.
Proof.
  destruct (accepted_conforms c v Hc Hv) as (Hcodes & Henc & Hcv).
  destruct (accepted_conforms c w Hc Hw) as (_ & _ & Hcw).
  destruct (conforming_carried _ Henc v Hpv Hcv) as (x & Hd & _ & He & _).
  destruct (conforming_carried _ Henc w Hpw Hcw) as (y & Hd' & _ & He' & _).
  rewrite !(decodes _ Hcodes), Hd, Hd'. cbn [mbind result_bind]. rewrite !(encodes _ Hcodes), He, He'.
  rewrite <- (same_text_iff _ v w Henc Hpv Hpw Hcv Hcw). split; [by intros [= ?]|by intros ->].
Qed.

Definition same_viewport : json := JObj [("width", JNum 1280); ("device_scale_factor", JNum 1); ("height", JNum 800)].
Lemma encoding_is_canonical_witness :
  (x ← BrowserCodec.decodeViewport sample_viewport; BrowserCodec.encodeViewport (Some x))
  = (x ← BrowserCodec.decodeViewport same_viewport; BrowserCodec.encodeViewport (Some x)).
Proof.
  apply (encoding_is_canonical viewport_code sample_viewport same_viewport viewport_coded).
  - exact sample_viewport_plain.
  - split; [by apply (bool_decide_unpack _)|]. cbn. split_and!; try done; eexists; split; reflexivity.
  - vm_compute. reflexivity.
  - vm_compute. reflexivity.
  - split; [done|]. cbn [foldr]. split_and!; [exists (JNum 800)|exists (JNum 1280)|exists (JNum 1)|done];
      (split; [apply list_elem_of_In; cbn; tauto|done]).
Defined.

(** C10: The messages of a protocol are those its dispatch handles: another type is
    decoded and encoded by nothing, and the payload of a message that was validated
    is decoded to a value of the type of its schema and encoded as it was, without
    an error. *)
Theorem every_message_dispatched d type v (Hd : d ∈ all_dispatches) (Hp : plain_json v) :
  (type ∉ message_types d → decode_payload d type v = None ∧ encode_payload d type (Some v) = None)
  ∧ (type ∈ message_types d → ∃ s, (type, s) ∈ payloads d
      ∧ (validate_payload d type v "" = [] ↔ conforms (as_read s) v)
      ∧ (validate_payload d type v "" = [] → ∃ w,
          decode_payload d type v = Some (Ok w) ∧ typing s w
          ∧ encode_payload d type (Some w) = Some (Ok (stringify (projected s v)))
          ∧ same_json (projected s v) v)).
Proof.
  split; [by apply other_types|]. intros Ht.
  pose proof (proj1 (Forall_forall _ _) all_dispatch d Hd) as [Hall _]. rewrite <- Hall in Ht.
  apply list_elem_of_fmap in Ht as ([t s] & -> & Hs). exists s. split; [done|].
  destruct (payload_functions d t s Hd Hs) as (Henc & Hval & Hdec & Hcode). cbn [fst]. rewrite Hval.
  split; [apply violations_exact|]. intros Hv%violations_exact.
  destruct (conforming_carried s Henc v Hp Hv) as (w & Hw & Hty & He & Hsame). exists w.
  by rewrite Hdec, Hcode, Hw, He.
Qed.

Definition sample_heartbeat : json := JObj [("last_sequence_rendered", JNum 7); ("observed_at", JStr "2024-05-01T10:00:00.000Z")].
Lemma every_message_dispatched_witness :
  LiveViewCodec.decodeFrame "live.beat" sample_heartbeat = None
  ∧ ∃ w, LiveViewCodec.decodeFrame "live.viewer_heartbeat" sample_heartbeat = Some (Ok w)
      ∧ LiveViewCodec.ViewerHeartbeat w.
Proof.
  assert (LiveViewCodec.live_view_dispatch ∈ all_dispatches) as Hd by (do 4 right; left).
  assert (plain_json sample_heartbeat) as Hp.
  { split; [by apply (bool_decide_unpack _)|]. cbn. split_and!; try done; eexists; split; reflexivity. }
  split.
  - destruct (every_message_dispatched _ "live.beat" _ Hd Hp) as [Hnone _].
    apply Hnone. by apply (bool_decide_unpack _).
  - destruct (every_message_dispatched _ "live.viewer_heartbeat" _ Hd Hp) as [_ Hsome].
    destruct Hsome as (s & Hs & _ & Hok); [by apply (bool_decide_unpack _)|].
    destruct Hok as (w & Hw & Hty & _); [vm_compute; reflexivity|]. exists w. split; [exact Hw|].
    apply list_elem_of_In in Hs. cbn in Hs.
    repeat destruct Hs as [[=]|Hs]; [subst s; exact Hty|contradiction].
Defined.

(** The generator drops a constant that is a boolean: the validator of a review's
    staleness, whose schema fixes [computed] to false, accepts true; that schema and
    the result that holds it are the only ones of the six protocols where what is
    accepted and what the schema says differ. *)
Theorem dropped_constants :
  McpValidate.validateReviewStaleness (JObj [("computed", JBool true); ("captured_branch", JStr "main");
    ("captured_commit", JStr "0123456789abcdef0123456789abcdef01234567")]) "" = []
  ∧ (∀ branch commit, ¬ conforms McpSchema.schema_review_staleness
       (JObj [("computed", JBool true); ("captured_branch", branch); ("captured_commit", commit)]))
  ∧ map fst (List.filter (λ e, has_false e.1) all_validators)
    = [McpSchema.schema_review_staleness; McpSchema.schema_review_get_result].
Proof.
  split; [vm_compute; reflexivity|]. split; [|reflexivity].
  intros branch commit (ms & [= <-] & _ & _ & (Hc & _) & _). by specialize (Hc (JBool true) eq_refl).
Qed.
