(* ===== verification/Idempotency.v ===== *)
(** * Idempotency of state-changing requests

    [IdempotencyStore] of [src/apps/server/src/modules/agents/idempotency.ts] and
    its two users: [underIdempotencyKey]
    ([src/apps/server/src/modules/reviews/routes.ts]) and [callTool]
    ([src/apps/mcp-server/src/tools.ts]).

    A call is a state machine: it waits at each statement and at the operation it
    guards, and the statements of any number of calls, of one process or several,
    interleave.  A process may die at any point.  SHA-256 is Node's [crypto] and a
    parameter.  No code removes a key because it has expired, so no step does. *)

From S2P Require Import Prelude Errors ReviewProtocol Events Bytes StableJson.

Definition requestDigest `{Sha256} (value : json) : string := sha256_hex (utf8 (stableJson value)).

(** ** The table *)

Definition IDEMPOTENCY_TTL_SECONDS : Z := 24 * 60 * 60.
Definition IN_FLIGHT_RETRY_AFTER_MS : Z := 500.

Record IdempotencyScope := {
  sc_projectId : string;
  sc_actorType : ActorType;
  sc_actorId : string;
  sc_tool : string;
  sc_key : string
}.
#[export] Instance IdempotencyScope_eq_dec : EqDecision IdempotencyScope.
Proof. solve_decision. Defined.
#[export] Instance ActorType_countable : Countable ActorType :=
  inj_countable' (actor_type_name) (λ s, default human_user (of_name s))
    ltac:(intros []; vm_compute; reflexivity).
#[export] Instance IdempotencyScope_countable : Countable IdempotencyScope :=
  inj_countable' (λ k, (sc_projectId k, sc_actorType k, sc_actorId k, sc_tool k, sc_key k))
    (λ '(p, a, i, t, k), Build_IdempotencyScope p a i t k) ltac:(by intros []).

(** A row of [idempotency_keys] (migrations 0054 and 0058); a NULL response is
    [None], and the JSON value [null] is [Some JNull]. *)
Record KeyRow := {
  ik_organisation_id : string;
  ik_request_sha256 : string;
  ik_response : option json;
  ik_created_at : Z;
  ik_completed_at : option Z;
  ik_expires_at : Z
}.
Abbreviation Keys := (gmap IdempotencyScope KeyRow).

(** The insert of [claim]: nothing is inserted for an unknown project or over a
    row that is there.  The number of rows is returned. *)
Definition insert_key (projects : gmap string string) (time : Z) (scope : IdempotencyScope)
    (digest : string) (t : Keys) : bool * Keys :=
  match projects !! sc_projectId scope, t !! scope with
  | Some organisation, None =>
      (true, <[scope := {| ik_organisation_id := organisation; ik_request_sha256 := digest;
                           ik_response := None; ik_created_at := time; ik_completed_at := None;
                           ik_expires_at := time + IDEMPOTENCY_TTL_SECONDS * 1000 |}]> t)
  | _, _ => (false, t)
  end.

Inductive IdempotencyOutcome := replay (response : json) | owned.

(** What the select of [claim] says; [None] is another attempt. *)
Definition read_key (t : Keys) (scope : IdempotencyScope) (digest : string) (attempt : nat) :
    option (result ApiError IdempotencyOutcome) :=
  match t !! scope with
  | None =>
      match attempt with
      | O => None
      | S _ => Some (throw RESOURCE_NOT_FOUND
                 "The project this idempotency key is scoped to was not found."
                 [("field", JStr "project_id")])
      end
  | Some row =>
      Some (
        if bool_decide (ik_request_sha256 row ≠ digest) then
          throw IDEMPOTENCY_CONFLICT
            ("The idempotency key " +:+ sc_key scope +:+ " was already used for " +:+ sc_tool scope
             +:+ " with different arguments. Choose a new key, or repeat the original request exactly.")
            [("field", JStr "idempotency_key")]
        else match ik_response row with
        | None | Some JNull =>
            throw RATE_LIMITED
              "The first call with this idempotency key has not finished. Retry shortly; it will not run twice."
              [("retry_after_ms", JNum IN_FLIGHT_RETRY_AFTER_MS)]
        | Some response => Ok (replay response)
        end)
  end.

(** [claim] without interruption. *)
Fixpoint claim_from (projects : gmap string string) (time : Z) (scope : IdempotencyScope)
    (digest : string) (attempt fuel : nat) (t : Keys) : result ApiError IdempotencyOutcome * Keys :=
  let '(inserted, t') := insert_key projects time scope digest t in
  if inserted then (Ok owned, t') else
  match read_key t' scope digest attempt, fuel with
  | Some r, _ => (r, t')
  | None, S fuel' => claim_from projects time scope digest (S attempt) fuel' t'
  | None, O => (Err (notFound "The project"), t')
  end.
Definition claim (projects : gmap string string) (time : Z) (scope : IdempotencyScope)
    (digest : string) (t : Keys) : result ApiError IdempotencyOutcome * Keys :=
  claim_from projects time scope digest 0 1 t.

Definition complete (time : Z) (scope : IdempotencyScope) (response : json) (t : Keys) : Keys :=
  alter (λ r, {| ik_organisation_id := ik_organisation_id r; ik_request_sha256 := ik_request_sha256 r;
                 ik_response := Some response; ik_created_at := ik_created_at r;
                 ik_completed_at := Some time; ik_expires_at := ik_expires_at r |}) scope t.

Definition release (scope : IdempotencyScope) (t : Keys) : Keys :=
  match t !! scope with
  | Some r => if bool_decide (ik_response r = None) then delete scope t else t
  | None => t
  end.

(** ** Calls *)

(** Who guards the operation: a route, which claims outside its [try], or
    [callTool], which claims inside it. *)
Inductive Guard := by_route | by_tool.
#[export] Instance Guard_eq_dec : EqDecision Guard.
Proof. solve_decision. Defined.

Inductive Outcome :=
| Answered (data : json)
| Replayed (data : json)
| Refused (e : ApiError).

Inductive Phase :=
| Inserting (attempt : nat)
| Reading (attempt : nat)
| Working
| Completing (data : json)
| Releasing (e : ApiError)
| Done (o : Outcome).

Record Call := { cl_guard : Guard; cl_scope : IdempotencyScope; cl_digest : string; cl_phase : Phase }.
Definition in_phase (p : Phase) (c : Call) : Call :=
  {| cl_guard := cl_guard c; cl_scope := cl_scope c; cl_digest := cl_digest c; cl_phase := p |}.

(** What a call does when [claim] threw: the [catch] of [callTool] releases the
    key; a route is not in its [try] yet. *)
Definition claim_threw (g : Guard) (e : ApiError) : Phase :=
  match g with by_route => Done (Refused e) | by_tool => Releasing e end.

(** An operation that took effect. *)
Record Effect := { ef_scope : IdempotencyScope; ef_digest : string; ef_data : json }.

(** One step of a call: the keys after it, its phase, and the effect of its
    operation.  [work] is what the operation does when it is run; an operation
    that throws has written nothing. *)
Definition call_step (projects : gmap string string) (time : Z) (work : result ApiError json)
    (c : Call) (t : Keys) : Keys * Phase * list Effect :=
  let scope := cl_scope c in
  match cl_phase c with
  | Inserting attempt =>
      let '(inserted, t') := insert_key projects time scope (cl_digest c) t in
      (t', if inserted then Working else Reading attempt, [])
  | Reading attempt =>
      (t, match read_key t scope (cl_digest c) attempt with
          | None => Inserting (S attempt)
          | Some (Ok (replay response)) => Done (Replayed response)
          | Some (Ok owned) => Working
          | Some (Err e) => claim_threw (cl_guard c) e
          end, [])
  | Working =>
      match work with
      | Ok data => (t, Completing data, [{| ef_scope := scope; ef_digest := cl_digest c; ef_data := data |}])
      | Err e => (t, Releasing e, [])
      end
  | Completing data => (complete time scope data t, Done (Answered data), [])
  | Releasing e => (release scope t, Done (Refused e), [])
  | Done o => (t, Done o, [])
  end.

(** ** The calls of all processes together *)

Record System := {
  sy_projects : gmap string string;
  sy_keys : Keys;
  sy_calls : gmap nat Call;
  sy_effects : list Effect
}.

Definition begin_call (g : Guard) (scope : IdempotencyScope) (digest : string) : Call :=
  {| cl_guard := g; cl_scope := scope; cl_digest := digest; cl_phase := Inserting 0 |}.

Definition advance (n : nat) (time : Z) (work : result ApiError json) (x : System) : System :=
  match sy_calls x !! n with
  | None => x
  | Some c =>
      let '(t, p, effects) := call_step (sy_projects x) time work c (sy_keys x) in
      {| sy_projects := sy_projects x; sy_keys := t;
         sy_calls := <[n := in_phase p c]> (sy_calls x); sy_effects := sy_effects x ++ effects |}
  end.

Inductive call_moves : System → System → Prop :=
| mv_begin x n g scope digest :
    sy_calls x !! n = None →
    call_moves x {| sy_projects := sy_projects x; sy_keys := sy_keys x;
                    sy_calls := <[n := begin_call g scope digest]> (sy_calls x);
                    sy_effects := sy_effects x |}
| mv_advance x n time work : call_moves x (advance n time work x)
| mv_die x n :
    call_moves x {| sy_projects := sy_projects x; sy_keys := sy_keys x;
                    sy_calls := delete n (sy_calls x); sy_effects := sy_effects x |}.

Definition fresh_system (projects : gmap string string) : System :=
  {| sy_projects := projects; sy_keys := ∅; sy_calls := ∅; sy_effects := [] |}.
