(* ===== verification/IdempotencyTheorems.v ===== *)
(** * What an idempotency key promises

    Over every interleaving of the calls of routes, and with processes dying, the
    operation behind a key takes effect at most once, and every answer given for
    the key is the answer of that one effect.  The calls of tools break this: one
    that is told to wait removes the key it was told about. *)

From S2P Require Import Prelude Errors ReviewProtocol Events Bytes StableJson Idempotency.

(** ** One call *)

Lemma insert_key_spec projects time scope digest t :
  let '(inserted, t') := insert_key projects time scope digest t in
  if inserted then
    t !! scope = None ∧ ∃ row, t' = <[scope := row]> t ∧ ik_response row = None ∧ ik_request_sha256 row = digest
  else t' = t.
Proof.
  unfold insert_key. destruct (projects !! sc_projectId scope), (t !! scope) eqn:Ht; try done.
  split; [done|]. eexists. done.
Qed.

Lemma read_key_ok t scope digest attempt o : read_key t scope digest attempt = Some (Ok o) →
  ∃ row data, t !! scope = Some row ∧ ik_request_sha256 row = digest ∧ ik_response row = Some data
    ∧ o = replay data.
Proof.
  unfold read_key. destruct (t !! scope) as [row|]; [|by destruct attempt].
  case_bool_decide as Hd; [done|].
  destruct (ik_response row) as [data|] eqn:Hr; [|done].
  intros He. exists row, data. split_and!; [done|done|done|]. by destruct data; simplify_eq/=.
Qed.

(** ** The invariant *)

Definition owns (p : Phase) : bool :=
  match p with Working | Completing _ | Releasing _ => true | _ => false end.
Definition effects_on (k : IdempotencyScope) (l : list Effect) : list Effect :=
  filter (λ e, ef_scope e = k) l.
Definition effect_of (c : Call) (data : json) : Effect :=
  {| ef_scope := cl_scope c; ef_digest := cl_digest c; ef_data := data |}.

(** What the owner of a key knows. *)
Definition owner_ok (t : Keys) (l : list Effect) (c : Call) : Prop :=
  ∃ row, t !! cl_scope c = Some row ∧ ik_response row = None ∧ ik_request_sha256 row = cl_digest c
    ∧ effects_on (cl_scope c) l = match cl_phase c with Completing data => [effect_of c data] | _ => [] end.
Definition row_ok (l : list Effect) (k : IdempotencyScope) (row : option KeyRow) : Prop :=
  match row with
  | None => effects_on k l = []
  | Some r =>
      match ik_response r with
      | None => effects_on k l = []
          ∨ ∃ data, effects_on k l = [{| ef_scope := k; ef_digest := ik_request_sha256 r; ef_data := data |}]
      | Some data => effects_on k l = [{| ef_scope := k; ef_digest := ik_request_sha256 r; ef_data := data |}]
      end
  end.
Definition outcome_ok (l : list Effect) (c : Call) : Prop :=
  match cl_phase c with
  | Done (Answered data) | Done (Replayed data) => effect_of c data ∈ l
  | _ => True
  end.

Record system_ok (x : System) : Prop := {
  one_owner : ∀ n m c c', sy_calls x !! n = Some c → sy_calls x !! m = Some c' →
    owns (cl_phase c) = true → owns (cl_phase c') = true → cl_scope c = cl_scope c' → n = m;
  owners_ok : map_Forall (λ _ c, owns (cl_phase c) = true → owner_ok (sy_keys x) (sy_effects x) c) (sy_calls x);
  rows_in_step : ∀ k, row_ok (sy_effects x) k (sy_keys x !! k);
  outcomes_ok : map_Forall (λ _ c, outcome_ok (sy_effects x) c) (sy_calls x)
}.

Lemma effects_on_app k l l' : effects_on k (l ++ l') = effects_on k l ++ effects_on k l'.
Proof. apply filter_app. Qed.

(** A step of one call keeps the invariant when it keeps it at its own key: nobody
    else owns that key, or the step leaves the key and its effects alone. *)
Lemma keeps (x : System) n c p t' effects :
  system_ok x → sy_calls x !! n = Some c →
  (∀ k, k ≠ cl_scope c → t' !! k = sy_keys x !! k) →
  Forall (λ e, ef_scope e = cl_scope c) effects →
  (t' !! cl_scope c = sy_keys x !! cl_scope c ∧ effects = []
    ∨ owns (cl_phase c) = true ∨ sy_keys x !! cl_scope c = None) →
  (owns p = true → owns (cl_phase c) = true ∨ sy_keys x !! cl_scope c = None) →
  row_ok (sy_effects x ++ effects) (cl_scope c) (t' !! cl_scope c) →
  (owns p = true → owner_ok t' (sy_effects x ++ effects) (in_phase p c)) →
  outcome_ok (sy_effects x ++ effects) (in_phase p c) →
  system_ok {| sy_projects := sy_projects x; sy_keys := t';
               sy_calls := <[n := in_phase p c]> (sy_calls x); sy_effects := sy_effects x ++ effects |}.
Proof.
  intros [Hone Hown Hrows Hout] Hn Hother Heffects Halone Hstill Hrow Hp Ho.
  assert (∀ m c', sy_calls x !! m = Some c' → owns (cl_phase c') = true → cl_scope c' = cl_scope c → m ≠ n →
    owns (cl_phase c) = true ∨ sy_keys x !! cl_scope c = None → False) as Hnobody.
  { intros m c' Hm Hc' Hs Hne [Hc|Hk]; [by eapply Hne, (Hone m n)|].
    destruct (Hown m c' Hm Hc') as (row & Hr & _). by rewrite Hs, Hk in Hr. }
  assert (∀ k, k ≠ cl_scope c → effects_on k (sy_effects x ++ effects) = effects_on k (sy_effects x)) as Heo.
  { intros k Hk. rewrite effects_on_app. unfold effects_on at 2. rewrite filter_none; [by rewrite app_nil_r|].
    intros e He. rewrite Forall_forall in Heffects. by rewrite (Heffects e He). }
  split; cbn [sy_projects sy_keys sy_calls sy_effects].
  - intros i j a b Hi Hj Ha Hb Hab.
    destruct (decide (i = n)) as [->|Hin], (decide (j = n)) as [->|Hjn]; [done| | |].
    + rewrite lookup_insert_eq in Hi. rewrite lookup_insert_ne in Hj by done. simplify_eq/=.
      exfalso. by eapply (Hnobody j b); auto.
    + rewrite lookup_insert_eq in Hj. rewrite lookup_insert_ne in Hi by done. simplify_eq/=.
      exfalso. by eapply (Hnobody i a); auto.
    + rewrite lookup_insert_ne in Hi, Hj by done. by eapply Hone.
  - apply map_Forall_lookup. intros m a. destruct (decide (m = n)) as [->|Hne].
    { rewrite lookup_insert_eq. intros [= <-]. done. }
    rewrite lookup_insert_ne by done. intros Hm Ha. destruct (Hown m a Hm Ha) as (row & Hr & Hresp & Hd & He).
    destruct (decide (cl_scope a = cl_scope c)) as [Hs|Hs].
    + destruct Halone as [[Ht ->]|Hc]; [|exfalso; by eapply (Hnobody m a)].
      exists row. rewrite app_nil_r. split_and!; [by rewrite Hs, Ht, <- Hs|done|done|done].
    + exists row. rewrite Hother, Heo by done. done.
  - intros k. destruct (decide (k = cl_scope c)) as [->|Hk]; [done|].
    specialize (Hrows k). rewrite Hother by done. unfold row_ok in *. by rewrite Heo.
  - apply map_Forall_lookup. intros m a. destruct (decide (m = n)) as [->|Hne].
    { rewrite lookup_insert_eq. by intros [= <-]. }
    rewrite lookup_insert_ne by done. intros Hm. specialize (Hout m a Hm). unfold outcome_ok in *.
    destruct (cl_phase a) as [| | | | |[]]; try done; apply elem_of_app; by left.
Qed.

Definition of_routes (x : System) : Prop := map_Forall (λ _ c, cl_guard c = by_route) (sy_calls x).
#[export] Instance of_routes_dec x : Decision (of_routes x).
Proof. unfold of_routes. apply _. Defined.

Lemma advance_keeps x n time work :
  of_routes x → system_ok x → system_ok (advance n time work x).
Proof.
  intros Hroutes Hok. unfold advance. destruct (sy_calls x !! n) as [c|] eqn:Hn; [|done].
  pose proof Hok as [_ Hown Hrows Hout]. specialize (Hown n c Hn). specialize (Hout n c Hn).
  specialize (Hroutes n c Hn). cbn beta in Hown, Hout, Hroutes. pose proof (Hrows (cl_scope c)) as Hrow.
  assert (Forall (λ e, ef_scope e = cl_scope c) []) as Hnil by constructor.
  unfold call_step. destruct (cl_phase c) as [attempt|attempt| |data|e|o] eqn:Hp.
  - pose proof (insert_key_spec (sy_projects x) time (cl_scope c) (cl_digest c) (sy_keys x)) as Hi.
    destruct (insert_key _ _ _ _ _) as [[|] t'].
    + destruct Hi as (Hnone & row & -> & Hresp & Hd).
      assert (effects_on (cl_scope c) (sy_effects x) = []) as He by by rewrite Hnone in Hrow.
      apply keeps; rewrite ?app_nil_r, ?Hp; auto.
      * intros k Hk. by rewrite lookup_insert_ne.
      * rewrite lookup_insert_eq. cbn. rewrite Hresp. by left.
      * intros _. exists row. cbn. by rewrite lookup_insert_eq.
      * done.
    + subst t'. apply keeps; rewrite ?app_nil_r; try done; auto.
  - destruct (read_key (sy_keys x) (cl_scope c) (cl_digest c) attempt) as [[[response|]|e]|] eqn:Hr.
    + apply read_key_ok in Hr as (row & data & Hk & Hd & Hresp & [= ->]).
      apply keeps; rewrite ?app_nil_r; try done; auto.
      unfold outcome_ok. cbn. rewrite Hk in Hrow. cbn in Hrow. rewrite Hresp, Hd in Hrow.
      assert (effect_of c data ∈ effects_on (cl_scope c) (sy_effects x)) as Hin by (rewrite Hrow; left).
      by apply list_elem_of_filter in Hin as [_ Hin].
    + apply read_key_ok in Hr as (? & ? & _ & _ & _ & ?). done.
    + rewrite Hroutes. apply keeps; rewrite ?app_nil_r; try done; auto.
    + apply keeps; rewrite ?app_nil_r; try done; auto.
  - destruct (Hown eq_refl) as (row & Hk & Hresp & Hd & He). rewrite Hp in He.
    destruct work as [data|e].
    + assert (effects_on (cl_scope c) (sy_effects x ++ [effect_of c data]) = [effect_of c data]) as He'.
      { rewrite effects_on_app, He. cbn. by rewrite decide_True. }
      fold (effect_of c data). apply keeps; rewrite ?Hp; auto.
      * rewrite Hk. cbn. rewrite Hresp. right. exists data. by rewrite Hd.
      * intros _. by exists row.
      * done.
    + apply keeps; rewrite ?app_nil_r, ?Hp; try done; auto. intros _. by exists row.
  - destruct (Hown eq_refl) as (row & Hk & Hresp & Hd & He). rewrite Hp in He.
    apply keeps; rewrite ?app_nil_r, ?Hp; try done; auto.
    + intros k Hne. unfold complete. by rewrite lookup_alter_ne.
    + unfold complete. rewrite lookup_alter_eq, Hk. cbn. rewrite Hd. exact He.
    + unfold outcome_ok. cbn.
      assert (effect_of c data ∈ effects_on (cl_scope c) (sy_effects x)) as Hin by (rewrite He; left).
      by apply list_elem_of_filter in Hin as [_ Hin].
  - destruct (Hown eq_refl) as (row & Hk & Hresp & Hd & He). rewrite Hp in He.
    unfold release. rewrite Hk, bool_decide_true by done.
    apply keeps; rewrite ?app_nil_r, ?Hp; try done; auto.
    + intros k Hne. by rewrite lookup_delete_ne.
    + by rewrite lookup_delete_eq.
  - apply keeps; rewrite ?app_nil_r; try done; auto. unfold outcome_ok in *. by rewrite Hp in Hout.
Qed.

Lemma move_keeps x y : call_moves x y → of_routes x → of_routes y → system_ok x → system_ok y.
Proof.
  destruct 1 as [x n g scope digest Hn|x n time work|x n]; intros Hx Hy Hok; [|by apply advance_keeps|].
  - destruct Hok as [Hone Hown Hrows Hout]. split; cbn [sy_projects sy_keys sy_calls sy_effects].
    + intros i j a b. rewrite !lookup_insert_Some.
      intros [[<- <-]|[_ Hi]] [[<- <-]|[_ Hj]] Ha Hb; cbn in *; try done. by eapply Hone.
    + apply map_Forall_insert_2; [done|exact Hown].
    + exact Hrows.
    + by apply map_Forall_insert_2.
  - destruct Hok as [Hone Hown Hrows Hout]. split; cbn [sy_projects sy_keys sy_calls sy_effects].
    + intros i j a b. rewrite !lookup_delete_Some. intros [_ Hi] [_ Hj]. by eapply Hone.
    + by apply map_Forall_delete.
    + exact Hrows.
    + by apply map_Forall_delete.
Qed.

(** The calls of routes, from no key at all. *)
Definition route_calls (projects : gmap string string) : System → Prop :=
  rtc (λ x y, call_moves x y ∧ of_routes y) (fresh_system projects).

Lemma route_calls_ok projects x : route_calls projects x → system_ok x.
Proof.
  intros Hx. assert (of_routes x ∧ system_ok x) as [_ Hok]; [|done]. unfold route_calls in Hx.
  assert (of_routes (fresh_system projects) ∧ system_ok (fresh_system projects)) as Hstart.
  { split; [apply map_Forall_empty|]. split; cbn; [|apply map_Forall_empty|done|apply map_Forall_empty].
    intros i j a b Hi. by rewrite lookup_empty in Hi. }
  revert Hstart. induction Hx as [|x y z [Hm Hy] _ IH]; [done|]. intros [Hr Hok]. apply IH.
  split; [done|]. by eapply move_keeps.
Qed.

Lemma one_effect (x : System) k : system_ok x →
  effects_on k (sy_effects x) = [] ∨ ∃ e, effects_on k (sy_effects x) = [e].
Proof.
  intros Hok. pose proof (rows_in_step x Hok k) as Hrow. unfold row_ok in Hrow.
  destruct (sy_keys x !! k) as [row|]; [|by left]. destruct (ik_response row); [by right; eexists|].
  destruct Hrow as [?|[data ?]]; [by left|by right; eexists].
Qed.
Lemma same_key_same_effect (x : System) e e' : system_ok x →
  e ∈ sy_effects x → e' ∈ sy_effects x → ef_scope e = ef_scope e' → e = e'.
Proof.
  intros Hok He He' Hs.
  assert (e ∈ effects_on (ef_scope e) (sy_effects x)) as H1 by by apply list_elem_of_filter.
  assert (e' ∈ effects_on (ef_scope e) (sy_effects x)) as H2 by by apply list_elem_of_filter.
  destruct (one_effect x (ef_scope e) Hok) as [Hl|[d Hl]]; rewrite Hl in H1, H2.
  - by apply elem_of_nil in H1.
  - apply list_elem_of_singleton in H1, H2. congruence.
Qed.
Lemma effects_nodup l : (∀ k, length (effects_on k l) ≤ 1) → NoDup (ef_scope <$> l).
Proof.
  induction l as [|e l IH]; intros Hl; [constructor|]. rewrite fmap_cons. constructor.
  - intros (e' & He & Hin)%list_elem_of_fmap. specialize (Hl (ef_scope e)).
    unfold effects_on in Hl. rewrite filter_cons_True in Hl by done. cbn in Hl.
    assert (e' ∈ filter (λ d, ef_scope d = ef_scope e) l) as Hf by by apply list_elem_of_filter.
    destruct (filter (λ d, ef_scope d = ef_scope e) l); [by apply elem_of_nil in Hf|]. cbn in Hl. lia.
  - apply IH. intros k. specialize (Hl k). unfold effects_on in *. rewrite filter_cons in Hl.
    case_decide; cbn in Hl; lia.
Qed.

Definition answer (c : Call) : option json :=
  match cl_phase c with Done (Answered data) | Done (Replayed data) => Some data | _ => None end.


(** ** A run *)

Definition sample_scope : IdempotencyScope :=
  {| sc_projectId := "prj_1"; sc_actorType := agent_session; sc_actorId := "ags_1";
     sc_tool := "verification_submit"; sc_key := "key-1" |}.
Definition sample_projects : gmap string string := {[ "prj_1" := "org_1" ]}.
Definition begin_at (n : nat) (g : Guard) (x : System) : System :=
  {| sy_projects := sy_projects x; sy_keys := sy_keys x;
     sy_calls := <[n := begin_call g sample_scope "digest"]> (sy_calls x); sy_effects := sy_effects x |}.
Definition works (data : string) : result ApiError json := Ok (JStr data).

(** Two calls of a route: the second is told to wait, comes again, and is given
    the answer of the first. *)
Definition retried (g : Guard) : list (System → System) :=
  [begin_at 0 g; advance 0 1 (works "a"); begin_at 1 g; advance 1 2 (works "b"); advance 1 2 (works "b");
   advance 0 3 (works "a"); advance 0 4 (works "a");
   begin_at 2 g; advance 2 5 (works "c"); advance 2 5 (works "c")].
Definition runs (l : list (System → System)) : System := foldl (λ x f, f x) (fresh_system sample_projects) l.
Definition run_of_routes : System := runs (retried by_route).

Lemma begin_moves x n g : sy_calls x !! n = None → call_moves x (begin_at n g x).
Proof. apply mv_begin. Qed.

Lemma run_of_routes_reachable : route_calls sample_projects run_of_routes.
Proof.
  assert (∀ x y, call_moves x y → bool_decide (of_routes y) = true → call_moves x y ∧ of_routes y) as Hstep.
  { intros x y Hm Hy. split; [done|]. by apply bool_decide_eq_true in Hy. }
  unfold run_of_routes, runs, retried, route_calls. cbn [foldl].
  do 10 (eapply rtc_r; [|apply Hstep; [first [apply mv_advance|apply begin_moves; vm_compute; reflexivity]
    |vm_compute; reflexivity]]).
  apply rtc_refl.
Qed.


(** ** The calls of tools *)

(** C40: A tool call that finds its key in use removes it: three calls of one
    request - the first at work, the second told to wait, the third a retry - and
    the operation takes effect twice, under one key and one digest. *)
Theorem waiting_tool_call_frees_the_key :
  ∃ x, rtc call_moves (fresh_system sample_projects) x ∧
    map_Forall (λ _ c, cl_guard c = by_tool ∧ cl_scope c = sample_scope ∧ cl_digest c = "digest") (sy_calls x) ∧
    ef_data <$> sy_effects x = [JStr "a"; JStr "c"] ∧
    (ef_scope <$> sy_effects x) = [sample_scope; sample_scope] ∧
    (answer <$> sy_calls x !! 0) = Some (Some (JStr "a")) ∧
    (answer <$> sy_calls x !! 2) = Some (Some (JStr "c")) ∧
    (refuse_code ∘ (λ c, match cl_phase c with Done (Refused e) => Err e | _ => Ok tt end)) <$> sy_calls x !! 1
      = Some (Some RATE_LIMITED).
Proof.
  exists (runs [begin_at 0 by_tool; advance 0 1 (works "a");
    begin_at 1 by_tool; advance 1 2 (works "b"); advance 1 2 (works "b"); advance 1 2 (works "b");
    begin_at 2 by_tool; advance 2 3 (works "c"); advance 0 4 (works "a"); advance 2 4 (works "c");
    advance 0 5 (works "a"); advance 2 5 (works "c")]).
  split.
  - unfold runs. cbn [foldl].
    do 12 (eapply rtc_r; [|first [apply mv_advance|apply begin_moves; vm_compute; reflexivity]]).
    apply rtc_refl.
  - split_and!; [|vm_compute; reflexivity..]. refine (bool_decide_unpack _ _). vm_compute. exact I.
Qed.
