(* ===== verification/RateLimit.v ===== *)
(** * Login rate limiting
    ([src/apps/server/src/modules/identity/rate-limit.ts])

    [LoginRateLimiter] and the sign-in that uses it
    ([src/apps/server/src/modules/identity/routes.ts]).  Times are milliseconds;
    the clock of the database and the clock of the process are separate arguments
    where the code reads both.  Verifying a password is an argument. *)

From S2P Require Import Prelude Errors Bytes Text.

#[local] Open Scope Z_scope.

Definition MAX_FAILURES_PER_WINDOW : Z := 5.
Definition FAILURE_WINDOW_SECONDS : Z := 15 * 60.
Definition BASE_LOCKOUT_SECONDS : Z := 30.
Definition MAX_LOCKOUT_SECONDS : Z := 15 * 60.

Record RateLimitDecision := { allowed : bool; retryAfterMs : Z }.
Definition permitted : RateLimitDecision := {| allowed := true; retryAfterMs := 0 |}.

(** A row of [authentication_attempt_limits] (migration 0070), by digest. *)
Record LimitRow := {
  al_window_started_at : Z;
  al_failure_count : Z;
  al_locked_until : option Z;
  al_updated_at : Z
}.
Abbreviation Limits := (gmap string LimitRow).

Section limiter.
Context `{Sha256}.

Definition digest (subject : string) : string := sha256_hex (utf8 subject).

Definition check (now_process : Z) (subject : string) (t : Limits) : RateLimitDecision :=
  match (t !! digest subject) ≫= al_locked_until with
  | None => permitted
  | Some lockedUntil =>
      let remaining := lockedUntil - now_process in
      if bool_decide (remaining <= 0) then permitted
      else {| allowed := false; retryAfterMs := remaining |}
  end.

(** The first statement of [recordFailure]: insert, or count in the window, or
    start a window. *)
Definition counted (now_db : Z) (row : option LimitRow) : LimitRow :=
  match row with
  | None => {| al_window_started_at := now_db; al_failure_count := 1;
               al_locked_until := None; al_updated_at := now_db |}
  | Some r =>
      let over := bool_decide (al_window_started_at r < now_db - FAILURE_WINDOW_SECONDS * 1000) in
      {| al_window_started_at := if over then now_db else al_window_started_at r;
         al_failure_count := if over then 1 else al_failure_count r + 1;
         al_locked_until := al_locked_until r; al_updated_at := now_db |}
  end.
Definition count_failure (now_db : Z) (subject : string) (t : Limits) : Limits :=
  <[digest subject := counted now_db (t !! digest subject)]> t.

Definition lockoutSeconds (failures : Z) : Z :=
  BASE_LOCKOUT_SECONDS * 2 ^ (failures - MAX_FAILURES_PER_WINDOW) `min` MAX_LOCKOUT_SECONDS.

(** The second statement. *)
Definition lock_out (now_db : Z) (failures : Z) (subject : string) (t : Limits) : Limits :=
  alter (λ r, {| al_window_started_at := al_window_started_at r; al_failure_count := al_failure_count r;
                 al_locked_until := Some (now_db + lockoutSeconds failures * 1000);
                 al_updated_at := now_db |}) (digest subject) t.

(** [recordFailure], its two statements after one another. *)
Definition recordFailure (now_db now_process : Z) (subject : string) (t : Limits) :
    RateLimitDecision * Limits :=
  let t1 := count_failure now_db subject t in
  let failures := from_option al_failure_count 1 (t1 !! digest subject) in
  if bool_decide (failures < MAX_FAILURES_PER_WINDOW) then (permitted, t1) else
  let t2 := lock_out now_db failures subject t1 in
  ({| allowed := false;
      retryAfterMs :=
        match (t2 !! digest subject) ≫= al_locked_until with
        | None => lockoutSeconds failures * 1000
        | Some lockedUntil => (lockedUntil - now_process) `max` 0
        end |}, t2).

Definition recordSuccess (subject : string) (t : Limits) : Limits := delete (digest subject) t.

(** Signing in with a password, as far as the limiter goes: a refused attempt, a
    guess that failed, or a session.  [verified] is what the account and the
    password give. *)
Inductive SignIn := limited (retry : Z) | failed (again : RateLimitDecision) | signed_in.
Definition sign_in (now : Z) (email : string) (verified : bool) (t : Limits) : SignIn * Limits :=
  let subject := "password:" +:+ toLowerCase email in
  let decision := check now subject t in
  if negb (allowed decision) then (limited (retryAfterMs decision), t) else
  if verified then (signed_in, recordSuccess subject t) else
  let '(failure, t') := recordFailure now now subject t in (failed failure, t').

(** ** The limiter by the row of one subject *)

Definition row_of (subject : string) (t : Limits) : option LimitRow := t !! digest subject.
Definition recorded (now_db : Z) (row : option LimitRow) : LimitRow :=
  let r := counted now_db row in
  if bool_decide (al_failure_count r < MAX_FAILURES_PER_WINDOW) then r else
  {| al_window_started_at := al_window_started_at r; al_failure_count := al_failure_count r;
     al_locked_until := Some (now_db + lockoutSeconds (al_failure_count r) * 1000);
     al_updated_at := now_db |}.

Lemma recordFailure_row now_db now_process subject t :
  row_of subject (recordFailure now_db now_process subject t).2 = Some (recorded now_db (row_of subject t)).
Proof.
  unfold recordFailure, row_of, recorded, count_failure, lock_out.
  rewrite lookup_insert_eq. cbn [from_option]. case_bool_decide; cbn [snd].
  - by rewrite lookup_insert_eq.
  - by rewrite lookup_alter_eq, lookup_insert_eq.
Qed.
End limiter.

(** ** How many guesses *)

(** The attempts of one address, one after another, with wrong passwords. *)
Definition unlocked (time : Z) (row : option LimitRow) : bool :=
  match row ≫= al_locked_until with None => true | Some l => bool_decide (l <= time) end.
(** How many of them reach the password, by the row they find. *)
Fixpoint guessed (row : option LimitRow) (times : list Z) : nat :=
  match times with
  | [] => 0
  | t :: times' =>
      if unlocked t row then S (guessed (Some (recorded t row)) times') else guessed row times'
  end.
Definition latest (t : Z) (times : list Z) : Z := foldl (λ _ t, t) t times.

Definition GUESSES_PER_WINDOW : Z := 9.

(** How long after the start of its window the [n]-th guess of it can come. *)
Definition earliest (n : Z) : Z :=
  if bool_decide (n <= 5) then 0 else 1000 * (30 * (2 ^ (n - 5) - 1)).

(** After [n] guesses in the window that began at [w]. *)
Definition in_window (r : LimitRow) : Prop :=
  1 <= al_failure_count r <= GUESSES_PER_WINDOW ∧
  al_window_started_at r + earliest (al_failure_count r) <= al_updated_at r ∧
  (5 <= al_failure_count r →
     al_locked_until r = Some (al_updated_at r + lockoutSeconds (al_failure_count r) * 1000)).

Lemma count_cases n : 1 <= n <= 9 → n = 1 ∨ n = 2 ∨ n = 3 ∨ n = 4 ∨ n = 5 ∨ n = 6 ∨ n = 7 ∨ n = 8 ∨ n = 9.
Proof. lia. Qed.

(** [recorded] by the count it arrives at. *)
Lemma recorded_early t row : al_failure_count (counted t row) < 5 → recorded t row = counted t row.
Proof. intros Hn. unfold recorded. by rewrite bool_decide_true. Qed.
Lemma recorded_late t row : 5 <= al_failure_count (counted t row) →
  recorded t row =
  {| al_window_started_at := al_window_started_at (counted t row);
     al_failure_count := al_failure_count (counted t row);
     al_locked_until := Some (t + lockoutSeconds (al_failure_count (counted t row)) * 1000);
     al_updated_at := t |}.
Proof. intros Hn. unfold recorded. rewrite bool_decide_false; [done|]. change MAX_FAILURES_PER_WINDOW with 5. lia. Qed.

Lemma first_recorded t row : match row with None => True | Some r => al_window_started_at r < t - 900000 end →
  in_window (recorded t row) ∧ al_window_started_at (recorded t row) = t ∧
  al_failure_count (recorded t row) = 1 ∧ al_updated_at (recorded t row) = t.
Proof.
  intros Hrow. assert (al_window_started_at (counted t row) = t ∧ al_failure_count (counted t row) = 1
    ∧ al_updated_at (counted t row) = t) as (Hw & Hn & Hu).
  { destruct row as [r|]; [|done]. cbn. change (15 * 60 * 1000) with 900000. by rewrite bool_decide_true. }
  rewrite recorded_early by (rewrite Hn; lia). unfold in_window. rewrite Hw, Hn, Hu.
  change (earliest 1) with 0. change GUESSES_PER_WINDOW with 9. lia.
Qed.

Lemma counted_in_window t r : t - 900000 <= al_window_started_at r →
  al_window_started_at (counted t (Some r)) = al_window_started_at r ∧
  al_failure_count (counted t (Some r)) = al_failure_count r + 1 ∧ al_updated_at (counted t (Some r)) = t.
Proof.
  intros Hw. unfold counted. change (FAILURE_WINDOW_SECONDS * 1000) with 900000.
  rewrite bool_decide_false by lia. done.
Qed.

(** Evaluate the tables at a numeral. *)
Ltac evaluate_tables :=
  repeat match goal with
  | _ : context [earliest ?n] |- _ => let v := eval vm_compute in (earliest n) in change (earliest n) with v in *
  | |- context [earliest ?n] => let v := eval vm_compute in (earliest n) in change (earliest n) with v in *
  | _ : context [lockoutSeconds ?n] |- _ =>
      let v := eval vm_compute in (lockoutSeconds n) in change (lockoutSeconds n) with v in *
  end.

(** The guess after the [n]-th waits for the lock that one set; after the ninth
    the lock outlasts the window. *)
Lemma next_guess t r : in_window r → unlocked t (Some r) = true → al_updated_at r <= t →
  t - 900000 <= al_window_started_at r →
  al_window_started_at r + earliest (al_failure_count r + 1) <= t ∧ al_failure_count r < 9.
Proof.
  intros (Hn & He & Hl) Hu Ht Hw. unfold unlocked in Hu. cbn in Hu. change GUESSES_PER_WINDOW with 9 in Hn.
  remember (al_failure_count r) as n eqn:E. remember (al_window_started_at r) as w eqn:Ew.
  remember (al_updated_at r) as u eqn:Eu. clear E Ew Eu.
  destruct (count_cases _ Hn) as [->|[->|[->|[->|[->|[->|[->|[->| ->]]]]]]]];
    try (specialize (Hl ltac:(lia)); rewrite Hl in Hu; apply bool_decide_eq_true in Hu); clear Hl; evaluate_tables; lia.
Qed.

Lemma next_recorded t r : in_window r → unlocked t (Some r) = true → al_updated_at r <= t →
  t - 900000 <= al_window_started_at r →
  in_window (recorded t (Some r)) ∧ al_window_started_at (recorded t (Some r)) = al_window_started_at r ∧
  al_failure_count (recorded t (Some r)) = al_failure_count r + 1 ∧ al_updated_at (recorded t (Some r)) = t.
Proof.
  intros Hin Hu Ht Hw. destruct (next_guess t r Hin Hu Ht Hw) as [He Hn].
  destruct (counted_in_window t r Hw) as (Cw & Cn & Cu). destruct Hin as [Hr _].
  destruct (Z.lt_ge_cases (al_failure_count r + 1) 5) as [Hlt|Hge].
  - rewrite recorded_early by (rewrite Cn; lia). unfold in_window. rewrite Cw, Cn, Cu.
    change GUESSES_PER_WINDOW with 9. split_and!; try lia; done.
  - rewrite recorded_late by (rewrite Cn; lia). unfold in_window. cbn -[counted]. rewrite Cw, Cn.
    change GUESSES_PER_WINDOW with 9. split_and!; try lia; done.
Qed.

(** ** The bound *)

Lemma latest_le t times : StronglySorted Z.le (t :: times) → t <= latest t times.
Proof.
  revert t. induction times as [|u times IH]; intros t Hs; cbn; [lia|].
  apply StronglySorted_inv in Hs as [Hs Ht]. apply Forall_cons in Ht as [Ht _].
  specialize (IH u Hs). unfold latest in *. lia.
Qed.

(** After [g] guesses in [k] windows, the last of which began at least [k - 1]
    windows after the first guess. *)
Lemma guessed_windows t0 r k g times u :
  in_window r → 1 <= k → t0 + (k - 1) * 900000 <= al_window_started_at r →
  al_window_started_at r <= al_updated_at r → al_updated_at r <= u →
  g <= GUESSES_PER_WINDOW * (k - 1) + al_failure_count r →
  StronglySorted Z.le (u :: times) →
  g + Z.of_nat (guessed (Some r) times) <= GUESSES_PER_WINDOW * (1 + (latest u times - t0) / 900000).
Proof.
  change GUESSES_PER_WINDOW with 9.
  revert r k g u. induction times as [|t times IH]; intros r k g u Hin Hk Hw Hwu Hu Hg Hs.
  - cbn. destruct Hin as ([_ Hn] & _). change GUESSES_PER_WINDOW with 9 in Hn.
    assert (k - 1 <= (u - t0) / 900000); [|lia]. apply Z.div_le_lower_bound; lia.
  - apply StronglySorted_inv in Hs as [Hs Ht]. apply Forall_cons in Ht as [Ht _].
    change (latest u (t :: times)) with (latest t times).
    cbn [guessed]. destruct (unlocked t (Some r)) eqn:Hlock; [|by apply (IH r k); try done; lia].
    destruct (Z.lt_ge_cases (al_window_started_at r) (t - 900000)) as [Hover|Hover].
    + destruct (first_recorded t (Some r) Hover) as (Hin' & Hw' & Hn' & Hu').
      specialize (IH (recorded t (Some r)) (k + 1) (g + 1) t Hin').
      destruct Hin as ([_ Hn] & _). change GUESSES_PER_WINDOW with 9 in Hn.
      lapply IH; [intros IH'|lia]. do 5 (lapply IH'; [clear IH'; intros IH'|lia || done]). lia.
    + destruct (next_recorded t r Hin Hlock ltac:(lia) ltac:(lia)) as (Hin' & Hw' & Hn' & Hu').
      specialize (IH (recorded t (Some r)) k (g + 1) t Hin').
      lapply IH; [intros IH'|lia]. do 5 (lapply IH'; [clear IH'; intros IH'|lia || done]). lia.
Qed.

Lemma guessed_bound row t times :
  row = None → StronglySorted Z.le (t :: times) →
  Z.of_nat (guessed row (t :: times)) <= GUESSES_PER_WINDOW * (1 + (latest t times - t) / 900000).
Proof.
  intros -> Hs. change (guessed None (t :: times)) with (S (guessed (Some (recorded t None)) times)).
  destruct (first_recorded t None I) as (Hin & Hw & Hn & Hu).
  pose proof (guessed_windows t (recorded t None) 1 1 times t Hin ltac:(lia) ltac:(lia) ltac:(lia) ltac:(lia)
    ltac:(rewrite Hn; change GUESSES_PER_WINDOW with 9; lia) Hs). lia.
Qed.

Section sign_ins.
Context `{Sha256}.

Definition account_of (email : string) : string := "password:" +:+ toLowerCase email.
Fixpoint wrong_guesses (email : string) (times : list Z) (t : Limits) : list SignIn * Limits :=
  match times with
  | [] => ([], t)
  | time :: times' =>
      let '(o, t1) := sign_in time email false t in
      let '(os, t2) := wrong_guesses email times' t1 in (o :: os, t2)
  end.
Definition reached_password (o : SignIn) : bool := match o with limited _ => false | _ => true end.

Lemma wrong_guesses_count email times t :
  length (filter (λ o, reached_password o = true) (wrong_guesses email times t).1)
  = guessed (row_of (account_of email) t) times.
Proof.
  revert t. induction times as [|time times IH]; intros t; [done|].
  cbn [wrong_guesses guessed]. unfold sign_in. fold (account_of email).
  assert (allowed (check time (account_of email) t) = unlocked time (row_of (account_of email) t)) as ->.
  { unfold check, unlocked, row_of. destruct (_ ≫= al_locked_until) as [l|]; [|done].
    repeat case_bool_decide; try done; lia. }
  destruct (unlocked time _); cbn [negb].
  - pose proof (recordFailure_row time time (account_of email) t) as Hrow.
    destruct (recordFailure time time (account_of email) t) as [failure t1]. cbn [snd] in Hrow.
    specialize (IH t1). destruct (wrong_guesses email times t1) as [os t2]. cbn [fst] in *.
    rewrite filter_cons_True by done. cbn [length]. by rewrite IH, Hrow.
  - specialize (IH t). destruct (wrong_guesses email times t) as [os t2]. cbn [fst] in *.
    by rewrite filter_cons_False.
Qed.


(** Attempts that are in flight together are all let through: nothing is recorded
    before the passwords are verified. *)
Lemma in_flight_together email now (n : nat) t :
  row_of (account_of email) t = None →
  Forall (λ d, d = permitted) (replicate n (check now (account_of email) t)).
Proof.
  intros Hrow. apply Forall_forall. intros d [-> _]%elem_of_replicate.
  unfold check. unfold row_of in Hrow. by rewrite Hrow.
Qed.
End sign_ins.

Definition toy_sha256 : Sha256 := λ l, String.string_of_list_ascii (ascii_of_byte <$> l).
#[local] Existing Instance toy_sha256.
