(* ===== verification/Geometry.v ===== *)
(** * Annotation geometry: the coordinate contract of a mark
    ([src/packages/protocol/src/annotation-geometry.ts]) and its check at the
    API boundary ([assertGeometry] of
    [src/apps/server/src/modules/reviews/domain.ts]) *)

From S2P Require Import Prelude Errors ReviewProtocol ReviewDomain Numbers.

(** ** The vocabulary *)

Inductive AnnotationType :=
| rectangle | ellipse | arrow | point | numbered_marker | freehand.

Inductive GeometryMember :=
| m_x | m_y | m_width | m_height | m_x2 | m_y2 | m_rotation | m_path.

#[export] Instance AnnotationType_eq_dec : EqDecision AnnotationType.
Proof. solve_decision. Defined.
#[export] Instance GeometryMember_eq_dec : EqDecision GeometryMember.
Proof. solve_decision. Defined.

Definition ANNOTATION_TYPE_VALUES : list AnnotationType :=
  [rectangle; ellipse; arrow; point; numbered_marker; freehand].

Definition annotation_type_name (t : AnnotationType) : string :=
  match t with
  | rectangle => "rectangle" | ellipse => "ellipse" | arrow => "arrow"
  | point => "point" | numbered_marker => "numbered_marker" | freehand => "freehand"
  end.

Definition ALL_MEMBERS : list GeometryMember :=
  [m_x; m_y; m_width; m_height; m_x2; m_y2; m_rotation; m_path].

Definition member_name (m : GeometryMember) : string :=
  match m with
  | m_x => "x" | m_y => "y" | m_width => "width" | m_height => "height"
  | m_x2 => "x2" | m_y2 => "y2" | m_rotation => "rotation" | m_path => "path"
  end.

#[export] Instance AnnotationType_vocabulary : Vocabulary AnnotationType.
Proof. refine {| vocab := ANNOTATION_TYPE_VALUES; name := annotation_type_name |};
  solve_vocabulary. Defined.
#[export] Instance GeometryMember_vocabulary : Vocabulary GeometryMember.
Proof. refine {| vocab := ALL_MEMBERS; name := member_name |}; solve_vocabulary. Defined.

Definition ARRAY_MEMBERS : list GeometryMember := [m_path].

Definition FREEHAND_MINIMUM : nat := 2.
Definition FREEHAND_MAXIMUM : nat := 128.

Definition GEOMETRY_BY_ANNOTATION_TYPE : list string :=
  ["rectangle:1:x,y,width,height:rotation";
   "ellipse:1:x,y,width,height:rotation";
   "arrow:1:x,y,x2,y2";
   "point:1:x,y";
   "numbered_marker:1:x,y";
   "freehand:1:x,y,width,height,path"].

Record GeometryRule := mk_rule {
  version : Z;
  required : list GeometryMember;
  optional : list GeometryMember
}.

(** [Number(version)] for a string of decimal digits, the form every version
    of the table has; [None] is NaN. *)
Fixpoint read_digits (s : string) (acc : Z) : option Z :=
  match s with
  | EmptyString => Some acc
  | String c s' =>
      let n := N_of_ascii c in
      if bool_decide (48 ≤ n ≤ 57)%N
      then read_digits s' (acc * 10 + Z.of_N (n - 48))%Z else None
  end.

Definition read_members (s : string) : option (list GeometryMember) :=
  mapM of_name (split ","%char s).

(** One entry, [type:version:required[:optional]]; further parts are ignored. *)
Definition read_entry (entry : string) : option (AnnotationType * GeometryRule) :=
  match split ":"%char entry with
  | type :: version :: req :: rest =>
      t ← of_name type;
      v ← (if bool_decide (version = "") then None else read_digits version 0);
      if bool_decide (v < 1)%Z then None else
      r ← read_members req;
      o ← match rest with
          | [] => Some []
          | opt :: _ => if bool_decide (opt = "") then Some [] else read_members opt
          end;
      Some (t, mk_rule v r o)
  | _ => None
  end.

(** [readGeometryVocabulary]: a later entry of a type replaces an earlier one;
    [None] is the error thrown while the module loads. *)
Definition rule_in (table : list (AnnotationType * GeometryRule)) (t : AnnotationType) :
    option GeometryRule :=
  foldl (λ found e, if bool_decide (e.1 = t) then Some e.2 else found) None table.

Definition readGeometryVocabulary (entries : list string) :
    option (list (AnnotationType * GeometryRule)) :=
  table ← mapM read_entry entries;
  mapM (λ t, rule ← rule_in table t; Some (t, rule)) ANNOTATION_TYPE_VALUES.

Definition GEOMETRY_RULES : list (AnnotationType * GeometryRule) :=
  default [] (readGeometryVocabulary GEOMETRY_BY_ANNOTATION_TYPE).

Definition geometry_rule (t : AnnotationType) : GeometryRule :=
  default (mk_rule 0 [] []) (rule_in GEOMETRY_RULES t).

Definition REQUIRED_GEOMETRY_MEMBERS (t : AnnotationType) : list GeometryMember :=
  required (geometry_rule t).
Definition OPTIONAL_GEOMETRY_MEMBERS (t : AnnotationType) : list GeometryMember :=
  optional (geometry_rule t).

Definition geometryVersionForType (t : AnnotationType) : Z := version (geometry_rule t).

(** ** The check *)

Inductive ViolationCode := v_required | v_forbidden | v_out_of_range | v_not_finite.

Record GeometryViolation := violation {
  v_member : GeometryMember;
  v_code : ViolationCode;
  v_message : string
}.

Definition isNormalisedCoordinate (value : option json) : bool :=
  match value ≫= as_number with
  | Some f => F_finite f && F_leb F_zero f && F_leb f F_one
  | None => false
  end.

Definition outside_message (what : string) (f : float) : string :=
  what +:+ " is " +:+ number_text f
    +:+ ", outside the 0 to 1 range of the artefact content rectangle".

(** The checks on one scalar: its kind, then its range. *)
Definition check_scalar (member : GeometryMember) (what : string) (value : option json) :
    list GeometryViolation :=
  match value ≫= as_number with
  | Some f =>
      if negb (F_finite f)
      then [violation member v_not_finite (what +:+ " must be a finite number")]
      else if F_ltb f F_zero || F_ltb F_one f
      then [violation member v_out_of_range (outside_message what f)]
      else []
  | None => [violation member v_not_finite (what +:+ " must be a finite number")]
  end.

(** [Object.keys] of a value that is an object, and its member [k]. *)
Definition object_keys (v : json) : option (list string) :=
  match v with
  | JObj ms => Some (fst <$> ms)
  | JArr l => Some ((λ i, pretty (Z.of_nat i)) <$> seq 0 (length l))
  | JDate _ => Some []
  | _ => None
  end.

Definition object_member (v : json) (k : string) : option json :=
  match v with JObj ms => get_member k ms | _ => None end.

(** The checks on the path's point number [index]. *)
Definition check_point (member : GeometryMember) (index : nat) (p : json) :
    list GeometryViolation :=
  let at_index := "geometry." +:+ name member +:+ "[" +:+ pretty (Z.of_nat index) +:+ "]" in
  match object_keys p with
  | None => [violation member v_not_finite (at_index +:+ " must be an object with x and y")]
  | Some keys =>
      check_scalar member (at_index +:+ ".x") (object_member p "x")
      ++ check_scalar member (at_index +:+ ".y") (object_member p "y")
      ++ ((λ key, violation member v_forbidden (at_index +:+ " must not carry " +:+ key))
            <$> filter (λ key, key ≠ "x" ∧ key ≠ "y") keys)
  end.

(** The loop over the points, left at the first bad one. *)
Fixpoint check_points (member : GeometryMember) (index : nat) (ps : list json) :
    list GeometryViolation :=
  match ps with
  | [] => []
  | p :: ps' =>
      match check_point member index p with
      | [] => check_points member (S index) ps'
      | vs => vs
      end
  end.

Definition checkPath (member : GeometryMember) (value : json) : list GeometryViolation :=
  let path_name := "geometry." +:+ name member in
  match value with
  | JArr ps =>
      if bool_decide (length ps < FREEHAND_MINIMUM) then
        [violation member v_required
           (path_name +:+ " must carry at least " +:+ pretty (Z.of_nat FREEHAND_MINIMUM)
              +:+ " points; a stroke of one point is a point annotation")]
      else if bool_decide (FREEHAND_MAXIMUM < length ps) then
        [violation member v_out_of_range
           (path_name +:+ " carries " +:+ pretty (Z.of_nat (length ps))
              +:+ " points, more than the " +:+ pretty (Z.of_nat FREEHAND_MAXIMUM)
              +:+ " a freehand stroke may hold; decimate the stroke before recording it")]
      else check_points member 0 ps
  | _ => [violation member v_not_finite
            (path_name +:+ " must be an array of normalised points")]
  end.

(** The body of the loop over the members. *)
Definition check_member (t : AnnotationType) (geometry : members) (m : GeometryMember) :
    list GeometryViolation :=
  let value := get_member (name m) geometry in
  let wanted := includes (REQUIRED_GEOMETRY_MEMBERS t) m in
  match value with
  | None =>
      if wanted
      then [violation m v_required ("a " +:+ name t +:+ " annotation requires geometry." +:+ name m)]
      else []
  | Some v =>
      if negb wanted && negb (includes (OPTIONAL_GEOMETRY_MEMBERS t) m)
      then [violation m v_forbidden
              ("a " +:+ name t +:+ " annotation must not carry geometry." +:+ name m)]
      else if includes ARRAY_MEMBERS m then checkPath m v
      else check_scalar m ("geometry." +:+ name m) value
  end.

(** One side of a box: the origin plus the extent stays within 1. *)
Definition check_extent (geometry : members) (origin extent : GeometryMember) :
    list GeometryViolation :=
  match get_member (name origin) geometry ≫= as_number,
        get_member (name extent) geometry ≫= as_number with
  | Some o, Some w =>
      if F_finite (F_add o w) && F_ltb F_one (F_add o w)
      then [violation extent v_out_of_range
              ("geometry." +:+ name origin +:+ " plus geometry." +:+ name extent
                 +:+ " leaves the artefact content rectangle")]
      else []
  | _, _ => []
  end.

Definition checkGeometryForType (t : AnnotationType) (geometry : members) :
    list GeometryViolation :=
  let req := REQUIRED_GEOMETRY_MEMBERS t in
  (ALL_MEMBERS ≫= check_member t geometry)
    ++ (if includes req m_width && includes req m_height
        then check_extent geometry m_x m_width ++ check_extent geometry m_y m_height
        else []).

(** [assertGeometry] (domain.ts).  A body is read from JSON, so an object that
    is not an array is a [JObj], or a date with no member of its own. *)
Definition plain_object (v : json) : option members :=
  match v with JObj ms => Some ms | JDate _ => Some [] | _ => None end.

Definition assertGeometry (t : AnnotationType) (geometry : json) : check :=
  match plain_object geometry with
  | None => throw UNSUPPORTED_CAPABILITY "geometry must be an object." (field "geometry")
  | Some ms =>
      match checkGeometryForType t ms with
      | [] => Ok tt
      | first :: _ =>
          throw UNSUPPORTED_CAPABILITY
            (v_message first +:+ ". Coordinates are normalised to the artefact content rectangle and must lie between 0 and 1 inclusive.")
            [("field", JStr ("geometry." +:+ name (v_member first)))]
      end
  end.

(** ** Conversions to and from rendered coordinates *)

Record Point := mk_point { px : float; py : float }.
Record Rectangle := mk_rectangle { rx : float; ry : float; rw : float; rh : float }.

(** [AnnotationGeometry], the members that hold coordinates. *)
Record AnnotationGeometry := {
  g_x : float;
  g_y : float;
  g_width : option float;
  g_height : option float;
  g_x2 : option float;
  g_y2 : option float;
  g_rotation : option float;
  g_path : option (list Point)
}.

Definition containedContentRectangle (box_width box_height content_width content_height : float) :
    Rectangle :=
  if negb (F_ltb F_zero box_width) || negb (F_ltb F_zero box_height)
     || negb (F_ltb F_zero content_width) || negb (F_ltb F_zero content_height)
  then mk_rectangle F_zero F_zero F_zero F_zero
  else
    let scale := F_min (F_div box_width content_width) (F_div box_height content_height) in
    let width := F_mul content_width scale in
    let height := F_mul content_height scale in
    mk_rectangle (F_div (F_sub box_width width) (F_of_Z 2))
                 (F_div (F_sub box_height height) (F_of_Z 2)) width height.

Definition toRenderedPoint (p : Point) (r : Rectangle) : Point :=
  mk_point (F_add (rx r) (F_mul (px p) (rw r))) (F_add (ry r) (F_mul (py p) (rh r))).

Definition toNormalisedPoint (p : Point) (r : Rectangle) : Point :=
  if negb (F_ltb F_zero (rw r)) || negb (F_ltb F_zero (rh r)) then mk_point F_zero F_zero
  else mk_point (F_div (F_sub (px p) (rx r)) (rw r)) (F_div (F_sub (py p) (ry r)) (rh r)).

Definition toRenderedBox (g : AnnotationGeometry) (r : Rectangle) : Rectangle :=
  let origin := toRenderedPoint (mk_point (g_x g) (g_y g)) r in
  mk_rectangle (px origin) (py origin)
    (F_mul (default F_zero (g_width g)) (rw r)) (F_mul (default F_zero (g_height g)) (rh r)).

Definition toRenderedArrow (g : AnnotationGeometry) (r : Rectangle) : Point * Point :=
  (toRenderedPoint (mk_point (g_x g) (g_y g)) r,
   toRenderedPoint (mk_point (default (g_x g) (g_x2 g)) (default (g_y g) (g_y2 g))) r).

Definition toRenderedPath (g : AnnotationGeometry) (r : Rectangle) : list Point :=
  (λ p, toRenderedPoint p r) <$> default [] (g_path g).

Definition roundNormalised (value : float) : float :=
  to_fixed_number 4 (F_min F_one (F_max F_zero value)).

Definition coordinates (x y : float) : AnnotationGeometry :=
  {| g_x := x; g_y := y; g_width := None; g_height := None; g_x2 := None; g_y2 := None;
     g_rotation := None; g_path := None |}.

Definition geometryForDrag (t : AnnotationType) (from to : Point) : AnnotationGeometry :=
  if bool_decide (t = arrow) then
    {| g_x := roundNormalised (px from); g_y := roundNormalised (py from);
       g_width := None; g_height := None;
       g_x2 := Some (roundNormalised (px to)); g_y2 := Some (roundNormalised (py to));
       g_rotation := None; g_path := None |}
  else if bool_decide (t = point) || bool_decide (t = numbered_marker) then
    coordinates (roundNormalised (px to)) (roundNormalised (py to))
  else
    let x := roundNormalised (F_min (px from) (px to)) in
    let y := roundNormalised (F_min (py from) (py to)) in
    {| g_x := x; g_y := y;
       g_width := Some (roundNormalised
         (F_min (SFabs (F_sub (px to) (px from))) (F_sub F_one x)));
       g_height := Some (roundNormalised
         (F_min (SFabs (F_sub (py to) (py from))) (F_sub F_one y)));
       g_x2 := None; g_y2 := None; g_rotation := None; g_path := None |}.

(** [pathBounds]: the loop starts over at the first point. *)
Definition pathBounds (path : list Point) : Rectangle :=
  match path with
  | [] => mk_rectangle F_zero F_zero F_zero F_zero
  | first :: _ =>
      let left := foldl (λ a p, F_min a (px p)) (px first) path in
      let top := foldl (λ a p, F_min a (py p)) (py first) path in
      let right := foldl (λ a p, F_max a (px p)) (px first) path in
      let bottom := foldl (λ a p, F_max a (py p)) (py first) path in
      mk_rectangle left top (F_sub right left) (F_sub bottom top)
  end.

(** ** Theorems *)

Lemma geometry_rules_complete : is_Some (readGeometryVocabulary GEOMETRY_BY_ANNOTATION_TYPE).
Proof. vm_compute. by eexists. Qed.

Lemma check_scalar_nil m what value :
  check_scalar m what value = [] ↔ isNormalisedCoordinate value = true.
Proof.
  unfold check_scalar, isNormalisedCoordinate.
  destruct (value ≫= as_number) as [f|]; [|done].
  destruct (F_finite f) eqn:Hf; [|done].
  rewrite (F_finite_ltb f F_zero), (F_finite_ltb F_one f) by done.
  destruct (F_leb F_zero f), (F_leb f F_one); done.
Qed.

(** A point of a path: an object with the coordinates [x] and [y] and no other
    member. *)
Definition path_point (p : json) : Prop :=
  ∃ ms, p = JObj ms
    ∧ isNormalisedCoordinate (get_member "x" ms) = true
    ∧ isNormalisedCoordinate (get_member "y" ms) = true
    ∧ (∀ k, k ∈ ms.*1 → k = "x" ∨ k = "y").

Lemma filter_nil {A} (P : A → Prop) `{∀ x, Decision (P x)} (l : list A) :
  filter P l = [] ↔ ∀ x, x ∈ l → ¬ P x.
Proof.
  split.
  - intros Hl x Hx HP. eapply not_elem_of_nil. rewrite <- Hl. by apply list_elem_of_filter.
  - intros Hl. destruct (filter P l) as [|x l'] eqn:He; [done|].
    assert (x ∈ filter P l) as [HP Hx]%list_elem_of_filter by (rewrite He; left). by destruct (Hl x).
Qed.

Lemma map_nil_iff {A B} (f : A → B) l : f <$> l = [] ↔ l = [].
Proof. by destruct l. Qed.

Lemma check_point_nil m i p : check_point m i p = [] ↔ path_point p.
Proof.
  unfold check_point, path_point. destruct (object_keys p) as [keys|] eqn:Hk.
  2: { split; [done|]. by intros (ms & -> & _). }
  rewrite !app_nil, !check_scalar_nil, map_nil_iff, filter_nil.
  split.
  - intros (Hx & Hy & Hkeys). destruct p; try discriminate. injection Hk as <-.
    eexists; repeat split; [done|done|]. intros k Hk.
    destruct (decide (k = "x")), (decide (k = "y")); auto. exfalso; by eapply Hkeys.
  - intros (ms & -> & Hx & Hy & Hkeys). injection Hk as <-.
    repeat split; [done|done|]. intros k Hk [??]. by destruct (Hkeys k Hk).
Qed.

Lemma check_points_nil m i ps : check_points m i ps = [] ↔ Forall path_point ps.
Proof.
  revert i; induction ps as [|p ps IH]; intros i; cbn; [done|].
  rewrite Forall_cons, <- (check_point_nil m i p).
  destruct (check_point m i p); [rewrite IH; naive_solver | naive_solver].
Qed.

Definition path_ok (v : json) : Prop :=
  ∃ ps, v = JArr ps ∧ FREEHAND_MINIMUM ≤ length ps ≤ FREEHAND_MAXIMUM ∧ Forall path_point ps.

Lemma checkPath_nil m v : checkPath m v = [] ↔ path_ok v.
Proof.
  unfold checkPath, path_ok. destruct v; try by (split; [|intros (?&?&_)]).
  repeat case_bool_decide; try (split; [done|]; intros (? & [= ->] & ? & _); lia).
  rewrite check_points_nil. split; [intros; eexists; repeat split; [lia..|done]|].
  by intros (? & [= ->] & _ & ?).
Qed.

(** What a geometry of type [t] must be. *)
Record geometry_ok (t : AnnotationType) (g : members) : Prop := {
  carries_required : ∀ m, m ∈ REQUIRED_GEOMETRY_MEMBERS t → is_Some (get_member (name m) g);
  carries_no_other : ∀ m, is_Some (get_member (name m) g) →
    m ∈ REQUIRED_GEOMETRY_MEMBERS t ∨ m ∈ OPTIONAL_GEOMETRY_MEMBERS t;
  scalars_normalised : ∀ m, m ≠ m_path → is_Some (get_member (name m) g) →
    isNormalisedCoordinate (get_member (name m) g) = true;
  path_bounded : ∀ v, get_member (name m_path) g = Some v → path_ok v;
  box_inside : ∀ o e, (o, e) ∈ [(m_x, m_width); (m_y, m_height)] →
    m_width ∈ REQUIRED_GEOMETRY_MEMBERS t → m_height ∈ REQUIRED_GEOMETRY_MEMBERS t →
    ∀ a b, get_member (name o) g ≫= as_number = Some a →
      get_member (name e) g ≫= as_number = Some b →
      F_finite (F_add a b) = true → F_leb (F_add a b) F_one = true
}.

Lemma check_member_nil t g m :
  check_member t g m = [] ↔
    (m ∈ REQUIRED_GEOMETRY_MEMBERS t → is_Some (get_member (name m) g))
    ∧ (is_Some (get_member (name m) g) →
         m ∈ REQUIRED_GEOMETRY_MEMBERS t ∨ m ∈ OPTIONAL_GEOMETRY_MEMBERS t)
    ∧ (m ≠ m_path → is_Some (get_member (name m) g) →
         isNormalisedCoordinate (get_member (name m) g) = true)
    ∧ (m = m_path → ∀ v, get_member (name m) g = Some v → path_ok v).
Proof.
  unfold check_member, includes.
  destruct (get_member (name m) g) as [v|].
  - destruct (decide (m ∈ REQUIRED_GEOMETRY_MEMBERS t)) as [Hr|Hr],
      (decide (m ∈ OPTIONAL_GEOMETRY_MEMBERS t)) as [Ho|Ho];
      rewrite ?(bool_decide_eq_true_2 _ Hr), ?(bool_decide_eq_false_2 _ Hr),
        ?(bool_decide_eq_true_2 _ Ho), ?(bool_decide_eq_false_2 _ Ho); cbn [negb andb];
      try (split; [done|]; intros (_ & H & _); by destruct (H (mk_is_Some _ _ eq_refl))).
    all: destruct (decide (m = m_path)) as [->|Hm].
    all: try (rewrite bool_decide_eq_true_2 by (unfold ARRAY_MEMBERS; left);
              rewrite checkPath_nil; split;
              [intros; repeat split; eauto; naive_solver | naive_solver]).
    all: rewrite bool_decide_eq_false_2 by (unfold ARRAY_MEMBERS; by rewrite list_elem_of_singleton);
         rewrite check_scalar_nil; split; [intros; repeat split; eauto; naive_solver|];
         intros (_ & _ & H & _); eauto.
  - case_bool_decide; split; try done.
    all: try (intros (H1 & _); by destruct H1).
    all: intros _; repeat split; try done; intros [? [=]].
Qed.

Lemma check_extent_nil g o e :
  check_extent g o e = [] ↔
    ∀ a b, get_member (name o) g ≫= as_number = Some a →
      get_member (name e) g ≫= as_number = Some b →
      F_finite (F_add a b) = true → F_leb (F_add a b) F_one = true.
Proof.
  unfold check_extent.
  destruct (get_member (name o) g ≫= as_number) as [a|], (get_member (name e) g ≫= as_number) as [b|];
    try by split.
  destruct (F_finite (F_add a b)) eqn:Hf.
  - rewrite (F_finite_ltb F_one) by done. destruct (F_leb _ F_one) eqn:Hl; cbn [negb andb]; split; try done.
    + intros _ ? ? [= <-] [= <-]; done.
    + intros H. specialize (H _ _ eq_refl eq_refl Hf). by rewrite Hl in H.
  - split; [|done]. intros _ ? ? [= <-] [= <-] Hf'. by rewrite Hf in Hf'.
Qed.

Lemma bind_nil {A B} (f : A → list B) l : l ≫= f = [] ↔ ∀ x, x ∈ l → f x = [].
Proof.
  induction l as [|a l IH]; cbn; [set_solver|].
  rewrite app_nil, IH. setoid_rewrite elem_of_cons. naive_solver.
Qed.

(** [assertGeometry] accepts an object exactly when it is a geometry of
    the annotation's type: it carries every required member and no member that
    is neither required nor optional, every scalar is a finite number between 0
    and 1, a path has 2 to 128 points that are normalised and carry nothing
    else, and a box stays inside the content rectangle.  Nothing is clamped. *)
Theorem assertGeometry_spec (t : AnnotationType) (g : members) :
  pass (assertGeometry t (JObj g)) ↔ geometry_ok t g.
Proof.
  assert (pass (assertGeometry t (JObj g)) ↔ checkGeometryForType t g = []) as ->.
  { unfold assertGeometry, plain_object. by destruct (checkGeometryForType t g). }
  unfold checkGeometryForType. rewrite app_nil, bind_nil. setoid_rewrite check_member_nil.
  unfold includes. repeat case_bool_decide; cbn [andb].
  1: rewrite app_nil, !check_extent_nil.
  all: split; [intros [Hm Hbox]; split | intros []; split].
  all: try (intros m; try intros ?; specialize (Hm m (vocab_complete m)); tauto).
  all: try (intros v; exact (proj2 (proj2 (proj2 (Hm m_path (vocab_complete m_path)))) eq_refl v)).
  all: try (intros m _; split_and!; eauto; by intros ->).
  all: try done.
  - destruct Hbox. intros o e Hoe _ _. 
    apply elem_of_cons in Hoe as [[= -> ->]|[= -> ->]%list_elem_of_singleton]; done.
  - split; apply box_inside0; try done; set_solver.
Qed.
