(* ===== verification/Store.v ===== *)
(** * The store: the tables the review service keeps in PostgreSQL, their
    constraints, and the transactions over them

    The rows are those of [src/apps/server/migrations] (0046, 0047, 0048, 0053,
    0100, 0130, 0150, 0151, 0152, 0153); [inTransaction] is
    [src/apps/server/src/db/pool.ts].  A method is a computation of the monad
    [M]: it may throw, and what it did to the state before throwing is kept,
    except that [inTransaction] puts the tables back. *)

From S2P Require Import Prelude Errors ReviewProtocol BrowserProtocol ReviewDomain Events Completion EntityId Geometry RepositoryIdentity.

(** ** Rows *)

(** [Scope]: the tenant a caller is confined to. *)
Record Scope := { organisationId : string; projectId : string }.

(** The three columns [<prefix>_actor_type], [_actor_id] and [_actor_display]
    are one [EventActor]; a NULL type is [None]. *)
Record ReviewRow := {
  rv_id : string;
  rv_organisation_id : string;
  rv_project_id : string;
  rv_slug : string;
  rv_title : string;
  rv_description : option string;
  rv_status : ReviewStatus;
  rv_priority : option ReviewPriority;
  rv_version : Z;
  rv_created_by : EventActor;
  rv_assigned_user_id : option string;
  rv_assigned_agent_session_id : option string;
  rv_captured_branch : string;
  rv_captured_commit : string;
  rv_captured_workspace_id : string;
  rv_source_browser_session_id : option string;
  rv_created_at : Z;
  rv_updated_at : Z;
  rv_closed_at : option Z;
  rv_reopen_count : Z;
  rv_accepted_at : option Z;
  rv_accepted_by : option EventActor
}.

Record FindingRow := {
  fn_id : string;
  fn_organisation_id : string;
  fn_project_id : string;
  fn_review_id : string;
  fn_title : string;
  fn_description : option string;
  fn_severity : FindingSeverity;
  fn_status : FindingStatus;
  fn_source : FindingSource;
  fn_version : Z;
  fn_created_by : EventActor;
  fn_claimed_by : option EventActor;
  fn_url : string;
  fn_viewport : json;
  fn_scroll_position : json;
  fn_captured_commit : string;
  fn_screenshot_artefact_id : string;
  fn_element_context : option json;
  fn_acceptance_criteria : option string;
  fn_resolution_note : option string;
  fn_created_at : Z;
  fn_updated_at : Z;
  fn_resolved_at : option Z;
  fn_resolved_by : option EventActor;
  fn_disposition_reason : option string;
  fn_duplicate_of_finding_id : option string;
  fn_reopen_count : Z
}.

Record VerificationRow := {
  vf_id : string;
  vf_organisation_id : string;
  vf_project_id : string;
  vf_review_id : string;
  vf_finding_id : string;
  vf_status : VerificationStatus;
  vf_summary : string;
  vf_branch : string;
  vf_commit_sha : string;
  vf_tested_viewports : list Viewport;
  vf_checks : VerificationChecks;
  vf_submitted_by : EventActor;
  vf_submitted_at : Z;
  vf_reviewed_at : option Z;
  vf_reviewed_by : option (ActorType * option string);
  vf_superseded_at : option Z;
  vf_superseded_by_verification_id : option string;
  vf_supersedes_verification_id : option string
}.

Inductive EvidenceRole := before | after | supporting.
#[export] Instance EvidenceRole_eq_dec : EqDecision EvidenceRole.
Proof. solve_decision. Defined.

Record VerificationArtefactRow := {
  va_verification_id : string;
  va_artefact_id : string;
  va_role : EvidenceRole;
  va_position : Z
}.

Record CommentRow := {
  cm_id : string;
  cm_organisation_id : string;
  cm_project_id : string;
  cm_review_id : string;
  cm_finding_id : option string;
  cm_body : string;
  cm_revision : Z;
  cm_created_by : EventActor;
  cm_supersedes_comment_id : option string;
  cm_superseded_at : option Z;
  cm_created_at : Z
}.

Record AnnotationRow := {
  an_id : string;
  an_revision : Z;
  an_organisation_id : string;
  an_project_id : string;
  an_finding_id : string;
  an_artefact_id : string;
  an_type : AnnotationType;
  an_geometry : json;
  an_geometry_version : Z;
  an_label : string;
  an_marker_number : option Z;
  an_style_hint : string;
  an_created_by : EventActor;
  an_created_at : Z;
  an_deleted_at : option Z
}.

Inductive InboxItemStatus := i_pending | i_acknowledged | i_completed | i_dismissed | i_expired.
Inductive InboxItemType := review_assigned | finding_reopened.
Inductive InboxRecipientType := to_human_user | to_agent_session.

#[export] Instance InboxItemStatus_eq_dec : EqDecision InboxItemStatus.
Proof. solve_decision. Defined.
#[export] Instance InboxItemType_eq_dec : EqDecision InboxItemType.
Proof. solve_decision. Defined.
#[export] Instance InboxRecipientType_eq_dec : EqDecision InboxRecipientType.
Proof. solve_decision. Defined.

(** The members of an item's [payload]. *)
Record InboxPayload := {
  ip_review_slug : option string;
  ip_priority : option ReviewPriority;
  ip_finding_count : option Z;
  ip_finding_source : option FindingSource
}.

Record InboxRow := {
  in_id : string;
  in_organisation_id : string;
  in_project_id : string;
  in_recipient_type : InboxRecipientType;
  in_recipient_id : option string;
  in_type : InboxItemType;
  in_title : string;
  in_status : InboxItemStatus;
  in_review_id : option string;
  in_finding_id : option string;
  in_payload : InboxPayload;
  in_created_by : option EventActor;
  in_created_at : Z;
  in_acknowledged_at : option Z;
  in_completed_at : option Z;
  in_expires_at : option Z
}.

(** A row of [projects] (migrations 0002 and 0072). *)
Inductive ProjectStatus := pj_active | pj_archived.
#[export] Instance ProjectStatus_eq_dec : EqDecision ProjectStatus.
Proof. solve_decision. Defined.
Record ProjectRow := {
  pj_id : string;
  pj_organisation_id : string;
  pj_name : string;
  pj_slug : string;
  pj_repository_identity : option RepositoryIdentity;
  pj_default_branch : string;
  pj_status : ProjectStatus;
  pj_settings : ProjectSettings;
  pj_version : Z;
  pj_created_at : Z;
  pj_updated_at : Z;
  pj_archived_at : option Z
}.

(** The columns of other modules' tables that the review service reads. *)
Record UserRow := { us_organisation_id : string }.
Record AgentSessionRow := { as_project_id : string; as_organisation_id : string }.

(** The columns [current_controller_type] and [current_controller_id] are
    written together: one optional controller. *)
Record BrowserSessionRow := {
  bs_id : string;
  bs_organisation_id : string;
  bs_project_id : string;
  bs_worker_id : option string;
  bs_agent_session_id : option string;
  bs_published_service_id : option string;
  bs_requested_published_service_id : option string;
  bs_allocation_requested_at : option Z;
  bs_service_origin : option string;
  bs_browser_version : option string;
  bs_status : SessionStatus;
  bs_current_controller : option ControllerIdentity;
  bs_control_epoch : Z;
  bs_last_sequence : Z;
  bs_viewport : json;
  bs_limits : json;
  bs_retention_policy : string;
  bs_created_at : Z;
  bs_ended_at : option Z
}.

Record ControlLeaseRow := {
  cl_id : string;
  cl_browser_session_id : string;
  cl_controller : ControllerIdentity;
  cl_epoch : Z;
  cl_issued_at : Z;
  cl_expires_at : Z;
  cl_revoked_at : option Z;
  cl_reason : option string
}.

(** The columns of a worker that scheduling reads. *)
Inductive WorkerStatus := w_active | w_degraded | w_lost | w_revoked.
#[export] Instance WorkerStatus_eq_dec : EqDecision WorkerStatus.
Proof. solve_decision. Defined.
Record BrowserWorkerRow := {
  bw_id : string;
  bw_status : WorkerStatus;
  bw_capacity : Z;
  bw_registered_at : Z;
  bw_last_heartbeat_at : option Z
}.
(** A route, the capabilities minted for it, and the columns of the records a
    route names. *)
Inductive PublishedServiceStatus := ps_requested | ps_ready | ps_failed | ps_expired | ps_revoked.
#[export] Instance PublishedServiceStatus_eq_dec : EqDecision PublishedServiceStatus.
Proof. solve_decision. Defined.
Record PublishedServiceRow := {
  ps_id : string;
  ps_organisation_id : string;
  ps_project_id : string;
  ps_connector_id : string;
  ps_workspace_id : string;
  ps_public_alias : string;
  ps_local_host : string;
  ps_local_port : Z;
  ps_protocol : string;
  ps_scope : string;
  ps_allowed_browser_session_ids : list string;
  ps_expires_at : Z;
  ps_status : PublishedServiceStatus;
  ps_failure_class : option string;
  ps_observed_destination : option string;
  ps_requested_at : Z;
  ps_ready_at : option Z;
  ps_ended_at : option Z
}.
Record RouteCapabilityRow := {
  rc_id : string;
  rc_organisation_id : string;
  rc_project_id : string;
  rc_published_service_id : string;
  rc_browser_session_id : string;
  rc_key_id : string;
  rc_issued_at : Z;
  rc_expires_at : Z;
  rc_revoked_at : option Z
}.
Inductive ConnectorStatus :=
| PENDING_ENROLMENT | C_ACTIVE | C_DEGRADED | C_DISCONNECTED | C_REVOKED.
#[export] Instance ConnectorStatus_eq_dec : EqDecision ConnectorStatus.
Proof. solve_decision. Defined.
Record ConnectorRow := {
  cn_organisation_id : string;
  cn_environment_id : string;
  cn_project_id : option string;
  cn_status : ConnectorStatus
}.
Record EnvironmentRow := { ev_project : option string }.
Record WorkspaceRow := { wk_organisation_id : string; wk_project_id : string }.

(** A durable job. *)
Inductive JobStatus := j_pending | j_running | j_succeeded | j_failed.
#[export] Instance JobStatus_eq_dec : EqDecision JobStatus.
Proof. solve_decision. Defined.
Record JobRow := {
  jb_id : string;
  jb_organisation_id : string;
  jb_project_id : option string;
  jb_kind : string;
  jb_payload : members;
  jb_status : JobStatus;
  jb_run_after : Z;
  jb_attempts : Z;
  jb_max_attempts : Z;
  jb_locked_until : option Z;
  jb_locked_by : option string;
  jb_last_error : option string;
  jb_idempotency_key : option string;
  jb_created_at : Z;
  jb_completed_at : option Z
}.

Inductive ArtefactState := a_pending | a_uploaded | a_available | a_failed.
#[export] Instance ArtefactState_eq_dec : EqDecision ArtefactState.
Proof. solve_decision. Defined.

Record ArtefactRow := {
  ar_organisation_id : string;
  ar_project_id : string;
  ar_kind : string;
  ar_state : ArtefactState;
  ar_browser_session_id : option string;
  ar_deleted_at : option Z
}.

(** The tables, by primary key. *)
Record Db := {
  reviews : gmap string ReviewRow;
  findings : gmap string FindingRow;
  verifications : gmap string VerificationRow;
  verification_artefacts : list VerificationArtefactRow;
  comments : gmap string CommentRow;
  annotations : gmap (string * Z) AnnotationRow;
  inbox_items : gmap string InboxRow;
  projects : gmap string ProjectRow;
  users : gmap string UserRow;
  agent_sessions : gmap string AgentSessionRow;
  browser_sessions : gmap string BrowserSessionRow;
  control_leases : gmap string ControlLeaseRow;
  browser_workers : gmap string BrowserWorkerRow;
  browser_worker_projects : list (string * string);
  connectors : gmap string ConnectorRow;
  environments : gmap string EnvironmentRow;
  workspaces : gmap string WorkspaceRow;
  published_services : gmap string PublishedServiceRow;
  route_capabilities : gmap string RouteCapabilityRow;
  jobs : gmap string JobRow;
  artefacts : gmap string ArtefactRow;
  log : EventLog
}.

Definition with_reviews (t : gmap string ReviewRow) (d : Db) : Db :=
  {| reviews := t; findings := findings d; verifications := verifications d;
     verification_artefacts := verification_artefacts d; comments := comments d;
     annotations := annotations d; inbox_items := inbox_items d; projects := projects d;
     users := users d; agent_sessions := agent_sessions d;
     browser_sessions := browser_sessions d; control_leases := control_leases d;
     browser_workers := browser_workers d; browser_worker_projects := browser_worker_projects d;
     connectors := connectors d; environments := environments d; workspaces := workspaces d;
     published_services := published_services d; route_capabilities := route_capabilities d; jobs := jobs d; artefacts := artefacts d; log := log d |}.
Definition with_findings (t : gmap string FindingRow) (d : Db) : Db :=
  {| reviews := reviews d; findings := t; verifications := verifications d;
     verification_artefacts := verification_artefacts d; comments := comments d;
     annotations := annotations d; inbox_items := inbox_items d; projects := projects d;
     users := users d; agent_sessions := agent_sessions d;
     browser_sessions := browser_sessions d; control_leases := control_leases d;
     browser_workers := browser_workers d; browser_worker_projects := browser_worker_projects d;
     connectors := connectors d; environments := environments d; workspaces := workspaces d;
     published_services := published_services d; route_capabilities := route_capabilities d; jobs := jobs d; artefacts := artefacts d; log := log d |}.
Definition with_verifications (t : gmap string VerificationRow) (d : Db) : Db :=
  {| reviews := reviews d; findings := findings d; verifications := t;
     verification_artefacts := verification_artefacts d; comments := comments d;
     annotations := annotations d; inbox_items := inbox_items d; projects := projects d;
     users := users d; agent_sessions := agent_sessions d;
     browser_sessions := browser_sessions d; control_leases := control_leases d;
     browser_workers := browser_workers d; browser_worker_projects := browser_worker_projects d;
     connectors := connectors d; environments := environments d; workspaces := workspaces d;
     published_services := published_services d; route_capabilities := route_capabilities d; jobs := jobs d; artefacts := artefacts d; log := log d |}.
Definition with_verification_artefacts (t : list VerificationArtefactRow) (d : Db) : Db :=
  {| reviews := reviews d; findings := findings d; verifications := verifications d;
     verification_artefacts := t; comments := comments d;
     annotations := annotations d; inbox_items := inbox_items d; projects := projects d;
     users := users d; agent_sessions := agent_sessions d;
     browser_sessions := browser_sessions d; control_leases := control_leases d;
     browser_workers := browser_workers d; browser_worker_projects := browser_worker_projects d;
     connectors := connectors d; environments := environments d; workspaces := workspaces d;
     published_services := published_services d; route_capabilities := route_capabilities d; jobs := jobs d; artefacts := artefacts d; log := log d |}.
Definition with_comments (t : gmap string CommentRow) (d : Db) : Db :=
  {| reviews := reviews d; findings := findings d; verifications := verifications d;
     verification_artefacts := verification_artefacts d; comments := t;
     annotations := annotations d; inbox_items := inbox_items d; projects := projects d;
     users := users d; agent_sessions := agent_sessions d;
     browser_sessions := browser_sessions d; control_leases := control_leases d;
     browser_workers := browser_workers d; browser_worker_projects := browser_worker_projects d;
     connectors := connectors d; environments := environments d; workspaces := workspaces d;
     published_services := published_services d; route_capabilities := route_capabilities d; jobs := jobs d; artefacts := artefacts d; log := log d |}.
Definition with_annotations (t : gmap (string * Z) AnnotationRow) (d : Db) : Db :=
  {| reviews := reviews d; findings := findings d; verifications := verifications d;
     verification_artefacts := verification_artefacts d; comments := comments d;
     annotations := t; inbox_items := inbox_items d; projects := projects d;
     users := users d; agent_sessions := agent_sessions d;
     browser_sessions := browser_sessions d; control_leases := control_leases d;
     browser_workers := browser_workers d; browser_worker_projects := browser_worker_projects d;
     connectors := connectors d; environments := environments d; workspaces := workspaces d;
     published_services := published_services d; route_capabilities := route_capabilities d; jobs := jobs d; artefacts := artefacts d; log := log d |}.
Definition with_inbox_items (t : gmap string InboxRow) (d : Db) : Db :=
  {| reviews := reviews d; findings := findings d; verifications := verifications d;
     verification_artefacts := verification_artefacts d; comments := comments d;
     annotations := annotations d; inbox_items := t; projects := projects d;
     users := users d; agent_sessions := agent_sessions d;
     browser_sessions := browser_sessions d; control_leases := control_leases d;
     browser_workers := browser_workers d; browser_worker_projects := browser_worker_projects d;
     connectors := connectors d; environments := environments d; workspaces := workspaces d;
     published_services := published_services d; route_capabilities := route_capabilities d; jobs := jobs d; artefacts := artefacts d; log := log d |}.
Definition with_projects (t : gmap string ProjectRow) (d : Db) : Db :=
  {| reviews := reviews d; findings := findings d; verifications := verifications d;
     verification_artefacts := verification_artefacts d; comments := comments d;
     annotations := annotations d; inbox_items := inbox_items d; projects := t;
     users := users d; agent_sessions := agent_sessions d;
     browser_sessions := browser_sessions d; control_leases := control_leases d;
     browser_workers := browser_workers d; browser_worker_projects := browser_worker_projects d;
     connectors := connectors d; environments := environments d; workspaces := workspaces d;
     published_services := published_services d; route_capabilities := route_capabilities d; jobs := jobs d; artefacts := artefacts d; log := log d |}.
Definition with_browser_sessions (t : gmap string BrowserSessionRow) (d : Db) : Db :=
  {| reviews := reviews d; findings := findings d; verifications := verifications d;
     verification_artefacts := verification_artefacts d; comments := comments d;
     annotations := annotations d; inbox_items := inbox_items d; projects := projects d;
     users := users d; agent_sessions := agent_sessions d;
     browser_sessions := t; control_leases := control_leases d;
     browser_workers := browser_workers d; browser_worker_projects := browser_worker_projects d;
     connectors := connectors d; environments := environments d; workspaces := workspaces d;
     published_services := published_services d; route_capabilities := route_capabilities d; jobs := jobs d; artefacts := artefacts d; log := log d |}.
Definition with_jobs (t : gmap string JobRow) (d : Db) : Db :=
  {| reviews := reviews d; findings := findings d; verifications := verifications d;
     verification_artefacts := verification_artefacts d; comments := comments d;
     annotations := annotations d; inbox_items := inbox_items d; projects := projects d;
     users := users d; agent_sessions := agent_sessions d;
     browser_sessions := browser_sessions d; control_leases := control_leases d;
     browser_workers := browser_workers d; browser_worker_projects := browser_worker_projects d;
     connectors := connectors d; environments := environments d; workspaces := workspaces d;
     published_services := published_services d; route_capabilities := route_capabilities d; jobs := t; artefacts := artefacts d; log := log d |}.
Definition with_control_leases (t : gmap string ControlLeaseRow) (d : Db) : Db :=
  {| reviews := reviews d; findings := findings d; verifications := verifications d;
     verification_artefacts := verification_artefacts d; comments := comments d;
     annotations := annotations d; inbox_items := inbox_items d; projects := projects d;
     users := users d; agent_sessions := agent_sessions d;
     browser_sessions := browser_sessions d; control_leases := t;
     browser_workers := browser_workers d; browser_worker_projects := browser_worker_projects d;
     connectors := connectors d; environments := environments d; workspaces := workspaces d;
     published_services := published_services d; route_capabilities := route_capabilities d; jobs := jobs d; artefacts := artefacts d; log := log d |}.
Definition with_published_services (t : gmap string PublishedServiceRow) (d : Db) : Db :=
  {| reviews := reviews d; findings := findings d; verifications := verifications d;
     verification_artefacts := verification_artefacts d; comments := comments d;
     annotations := annotations d; inbox_items := inbox_items d; projects := projects d;
     users := users d; agent_sessions := agent_sessions d;
     browser_sessions := browser_sessions d; control_leases := control_leases d;
     browser_workers := browser_workers d; browser_worker_projects := browser_worker_projects d;
     connectors := connectors d; environments := environments d; workspaces := workspaces d;
     published_services := t; route_capabilities := route_capabilities d; jobs := jobs d; artefacts := artefacts d; log := log d |}.
Definition with_route_capabilities (t : gmap string RouteCapabilityRow) (d : Db) : Db :=
  {| reviews := reviews d; findings := findings d; verifications := verifications d;
     verification_artefacts := verification_artefacts d; comments := comments d;
     annotations := annotations d; inbox_items := inbox_items d; projects := projects d;
     users := users d; agent_sessions := agent_sessions d;
     browser_sessions := browser_sessions d; control_leases := control_leases d;
     browser_workers := browser_workers d; browser_worker_projects := browser_worker_projects d;
     connectors := connectors d; environments := environments d; workspaces := workspaces d;
     published_services := published_services d; route_capabilities := t; jobs := jobs d; artefacts := artefacts d; log := log d |}.
Definition with_log (t : EventLog) (d : Db) : Db :=
  {| reviews := reviews d; findings := findings d; verifications := verifications d;
     verification_artefacts := verification_artefacts d; comments := comments d;
     annotations := annotations d; inbox_items := inbox_items d; projects := projects d;
     users := users d; agent_sessions := agent_sessions d;
     browser_sessions := browser_sessions d; control_leases := control_leases d;
     browser_workers := browser_workers d; browser_worker_projects := browser_worker_projects d;
     connectors := connectors d; environments := environments d; workspaces := workspaces d;
     published_services := published_services d; route_capabilities := route_capabilities d; jobs := jobs d; artefacts := artefacts d; log := t |}.

(** ** Queries *)

(** The rows of a table that satisfy a [WHERE] clause, in no particular order. *)
Definition rows {K A} `{Countable K} (t : gmap K A) : list A := snd <$> map_to_list t.
Definition select {K A} `{Countable K} (p : A → bool) (t : gmap K A) : list A :=
  filter (λ r, p r = true) (rows t).
Definition count {A} (l : list A) : Z := Z.of_nat (length l).

(** [ORDER BY time, id]. *)
Definition time_then_id {A} (time : A → Z) (id : A → string) (a b : A) : Prop :=
  (time a < time b)%Z ∨ (time a = time b ∧ String.leb (id a) (id b) = true).
#[export] Instance time_then_id_dec {A} (time : A → Z) (id : A → string) :
  RelDecision (time_then_id time id).
Proof. intros a b. unfold time_then_id. apply _. Defined.
Definition order_by {A} (time : A → Z) (id : A → string) (l : list A) : list A :=
  merge_sort (time_then_id time id) l.

Definition in_scope (scope : Scope) (org project : string) : bool :=
  bool_decide (org = organisationId scope) && bool_decide (project = projectId scope).
Definition review_in (scope : Scope) (r : ReviewRow) : bool :=
  in_scope scope (rv_organisation_id r) (rv_project_id r).
Definition finding_in (scope : Scope) (f : FindingRow) : bool :=
  in_scope scope (fn_organisation_id f) (fn_project_id f).
Definition verification_in (scope : Scope) (v : VerificationRow) : bool :=
  in_scope scope (vf_organisation_id v) (vf_project_id v).
Definition comment_in (scope : Scope) (c : CommentRow) : bool :=
  in_scope scope (cm_organisation_id c) (cm_project_id c).
Definition annotation_in (scope : Scope) (a : AnnotationRow) : bool :=
  in_scope scope (an_organisation_id a) (an_project_id a).
Definition inbox_in (scope : Scope) (i : InboxRow) : bool :=
  in_scope scope (in_organisation_id i) (in_project_id i).

(** [WHERE id = $1 AND organisation_id = $2 AND project_id = $3]. *)
Definition find_row {A} (t : gmap string A) (inside : A → bool) (id : string) : option A :=
  r ← t !! id; if inside r then Some r else None.

(** ** Constraints

    A constraint refuses a row when it evaluates to false; a NULL passes. *)

Definition tri := option bool.
Definition sql_and (a b : tri) : tri :=
  match a, b with
  | Some false, _ | _, Some false => Some false
  | Some true, Some true => Some true
  | _, _ => None
  end.
Definition check_passes (t : tri) : bool := match t with Some false => false | _ => true end.

Definition constraints := list (string * bool).
Definition violated (cs : constraints) : option string :=
  fst <$> head (filter (λ c, c.2 = false) cs).

(** The largest value of a PostgreSQL [integer] column. *)
Definition INT4_MAX : Z := 2147483647.
Definition int4 (z : Z) : bool := bool_decide (- 2147483648 ≤ z ≤ INT4_MAX)%Z.

Definition lower_alnum (c : ascii) : bool :=
  let n := N_of_ascii c in bool_decide (48 ≤ n ≤ 57)%N || bool_decide (97 ≤ n ≤ 122)%N.
Definition first_and_last (p : ascii → bool) (s : string) : bool :=
  match String.get 0 s, String.get (String.length s - 1) s with
  | Some a, Some b => p a && p b
  | _, _ => false
  end.

(** [slug ~ '^[a-z0-9]([a-z0-9-]*[a-z0-9])?$' AND length(slug) <= 64]. *)
Definition slug_shape (s : string) : bool :=
  first_and_last lower_alnum s
  && all_chars (λ c, lower_alnum c || bool_decide (c = "-"%char)) s
  && bool_decide (String.length s ≤ 64).

(** [commit ~ '^[0-9a-f]{7,64}$']. *)
Definition hex_char (c : ascii) : bool :=
  let n := N_of_ascii c in bool_decide (48 ≤ n ≤ 57)%N || bool_decide (97 ≤ n ≤ 102)%N.
Definition commit_shape (s : string) : bool :=
  bool_decide (7 ≤ String.length s ≤ 64) && all_chars hex_char s.

Definition review_checks (r : ReviewRow) : constraints :=
  [("integer out of range", int4 (rv_version r) && int4 (rv_reopen_count r));
   ("reviews_version_positive", bool_decide (1 ≤ rv_version r)%Z);
   ("reviews_slug_shape", slug_shape (rv_slug r));
   ("reviews_commit_shape", commit_shape (rv_captured_commit r));
   ("reviews_reopen_count_non_negative", bool_decide (0 ≤ rv_reopen_count r)%Z);
   ("reviews_acceptance_is_human",
     match rv_accepted_by r with None => true | Some a => bool_decide (actor_type a = human_user) end);
   ("reviews_acceptance_is_complete",
     bool_decide (rv_accepted_at r = None ↔ rv_accepted_by r = None));
   ("reviews_accepted_status_has_a_decider",
     negb (bool_decide (rv_status r = ACCEPTED)) || bool_decide (rv_accepted_by r ≠ None))].

(** The rows the index [reviews_active_slug_unique] covers. *)
Definition slug_indexed (r : ReviewRow) : bool :=
  negb (bool_decide (rv_status r = CANCELLED)) && negb (bool_decide (rv_status r = ARCHIVED)).
Definition slug_taken (t : gmap string ReviewRow) (r : ReviewRow) : bool :=
  slug_indexed r
  && existsb (λ r', bool_decide (rv_id r' ≠ rv_id r) && slug_indexed r'
                    && bool_decide (rv_project_id r' = rv_project_id r)
                    && bool_decide (rv_slug r' = rv_slug r)) (rows t).

(** [jsonb_typeof(v -> 'k') = 'number']: NULL when the member is absent. *)
Definition member_is_number (v : json) (k : string) : tri :=
  match v with
  | JObj ms => match get_member k ms with
               | Some m => Some (is_number (Some m))
               | None => None
               end
  | _ => None
  end.
Definition is_object (v : json) : tri :=
  Some match v with JObj _ => true | _ => false end.

Definition is_final_status (s : FindingStatus) : bool :=
  bool_decide (s ∈ [RESOLVED; WONT_FIX; DUPLICATE]).

Definition finding_checks (f : FindingRow) : constraints :=
  [("integer out of range", int4 (fn_version f) && int4 (fn_reopen_count f));
   ("findings_version_positive", bool_decide (1 ≤ fn_version f)%Z);
   ("findings_commit_shape", commit_shape (fn_captured_commit f));
   ("findings_viewport_shape",
     check_passes (sql_and (is_object (fn_viewport f))
       (sql_and (member_is_number (fn_viewport f) "width")
         (sql_and (member_is_number (fn_viewport f) "height")
                  (member_is_number (fn_viewport f) "device_scale_factor")))));
   ("findings_scroll_shape",
     check_passes (sql_and (is_object (fn_scroll_position f))
       (sql_and (member_is_number (fn_scroll_position f) "x")
                (member_is_number (fn_scroll_position f) "y"))));
   ("findings_reopen_count_non_negative", bool_decide (0 ≤ fn_reopen_count f)%Z);
   ("findings_disposition_is_human",
     match fn_resolved_by f with None => true | Some a => bool_decide (actor_type a = human_user) end);
   ("findings_disposition_is_complete",
     bool_decide (fn_resolved_at f = None ↔ fn_resolved_by f = None));
   ("findings_duplicate_is_another_finding",
     bool_decide (fn_duplicate_of_finding_id f ≠ Some (fn_id f)));
   ("findings_terminal_status_has_a_decider",
     negb (is_final_status (fn_status f)) || bool_decide (fn_resolved_by f ≠ None))].

Definition verification_checks (v : VerificationRow) : constraints :=
  [("verifications_commit_shape", commit_shape (vf_commit_sha v));
   ("verifications_decision_has_a_reviewer",
     bool_decide (vf_status v ∈ [submitted; superseded])
     || check_passes (sql_and (Some (bool_decide (vf_reviewed_at v ≠ None)))
          (match vf_reviewed_by v with
           | None => None
           | Some (a, _) => Some (bool_decide (a = human_user))
           end)));
   ("verifications_viewports_are_a_list", bool_decide (1 ≤ length (vf_tested_viewports v)));
   ("verifications_supersession_is_complete",
     bool_decide (vf_superseded_at v = None ↔ vf_superseded_by_verification_id v = None));
   ("verifications_superseded_status_agrees",
     bool_decide (vf_status v = superseded ↔ vf_superseded_by_verification_id v ≠ None));
   ("verifications_supersedes_is_another_verification",
     bool_decide (vf_supersedes_verification_id v ≠ Some (vf_id v)));
   ("verifications_superseded_by_is_another_verification",
     bool_decide (vf_superseded_by_verification_id v ≠ Some (vf_id v)));
   ("verifications_decision_records_a_time",
     bool_decide (vf_status v ∈ [accepted; rejected] ↔ vf_reviewed_at v ≠ None))].

(** The index [verifications_one_current_per_finding]. *)
Definition another_current (t : gmap string VerificationRow) (v : VerificationRow) : bool :=
  bool_decide (vf_status v = submitted)
  && existsb (λ v', bool_decide (vf_id v' ≠ vf_id v) && bool_decide (vf_status v' = submitted)
                    && bool_decide (vf_finding_id v' = vf_finding_id v)) (rows t).

(** [btrim(body)] is empty exactly when every character is a space. *)
Definition btrim_empty (s : string) : bool := all_chars (λ c, bool_decide (c = " "%char)) s.

Definition comment_checks (c : CommentRow) : constraints :=
  [("integer out of range", int4 (cm_revision c));
   ("comments_body_non_empty", negb (btrim_empty (cm_body c)));
   ("comments_revision_positive", bool_decide (1 ≤ cm_revision c)%Z);
   ("comments_supersedes_is_another_comment",
     bool_decide (cm_supersedes_comment_id c ≠ Some (cm_id c)));
   ("comments_first_revision_supersedes_nothing",
     bool_decide (cm_revision c = 1%Z ↔ cm_supersedes_comment_id c = None))].

(** The index [comments_one_successor_per_revision]. *)
Definition another_successor (t : gmap string CommentRow) (c : CommentRow) : bool :=
  bool_decide (cm_supersedes_comment_id c ≠ None)
  && existsb (λ c', bool_decide (cm_id c' ≠ cm_id c)
                    && bool_decide (cm_supersedes_comment_id c' = cm_supersedes_comment_id c))
       (rows t).

(** The constraints of [annotations], those on the geometry apart. *)
Definition annotation_checks (a : AnnotationRow) : constraints :=
  [("integer out of range", int4 (an_revision a));
   ("annotations_style_hint_known",
     bool_decide (an_style_hint a ∈ ["default"; "critical"; "informational"]));
   ("annotations_revision_positive", bool_decide (1 ≤ an_revision a)%Z);
   ("annotations_marker_number_range",
     match an_marker_number a with None => true | Some n => bool_decide (1 ≤ n ≤ 999)%Z end);
   ("annotations_geometry_version_positive", bool_decide (1 ≤ an_geometry_version a)%Z)].

Definition inbox_checks (i : InboxRow) : constraints :=
  [("inbox_items_acknowledged_has_time",
     negb (bool_decide (in_status i = i_acknowledged)) || bool_decide (in_acknowledged_at i ≠ None));
   ("inbox_items_completed_has_time",
     negb (bool_decide (in_status i = i_completed)) || bool_decide (in_completed_at i ≠ None));
   ("inbox_items_names_work",
     (bool_decide (in_type i = review_assigned) && bool_decide (in_review_id i ≠ None))
     || (bool_decide (in_type i = finding_reopened) && bool_decide (in_finding_id i ≠ None)))].

(** The statuses the two live-delivery indexes cover, and their key. *)
Definition is_live (s : InboxItemStatus) : bool := bool_decide (s ∈ [i_pending; i_acknowledged]).
Definition delivered_work (i : InboxRow) : option string :=
  match in_type i with review_assigned => in_review_id i | finding_reopened => in_finding_id i end.
Definition same_delivery (i i' : InboxRow) : bool :=
  bool_decide (in_type i = in_type i') && bool_decide (in_project_id i = in_project_id i')
  && bool_decide (delivered_work i = delivered_work i')
  && bool_decide (in_recipient_type i = in_recipient_type i')
  && bool_decide (default "" (in_recipient_id i) = default "" (in_recipient_id i')).
Definition live_delivery_taken (t : gmap string InboxRow) (i : InboxRow) : bool :=
  is_live (in_status i) && bool_decide (delivered_work i ≠ None)
  && existsb (λ i', bool_decide (in_id i' ≠ in_id i) && is_live (in_status i')
                    && same_delivery i i') (rows t).

(** ** Transactions *)

(** What can be thrown: an [ApiError], PostgreSQL's refusal of a row, or a
    plain [Error].  Of the foreign keys, the one from an evidence row to its
    claim is enforced here. *)
Inductive Failure :=
| ApiThrown (e : ApiError)
| UniqueViolation (constraint : string)
| CheckViolation (constraint : string)
| ForeignKeyViolation (constraint : string)
| PlainError (what : string).

(** [PendingDenial]. *)
Record PendingDenial := {
  pd_type : string;
  pd_correlation : members;
  pd_payload : members
}.

(** The state of a method: the tables, how many identifiers have been drawn,
    the clock, and its local variable [denied]. *)
Record St := {
  db : Db;
  drawn : nat;
  clock : Z;
  denied : option PendingDenial
}.

Definition with_db (d : Db) (s : St) : St :=
  {| db := d; drawn := drawn s; clock := clock s; denied := denied s |}.

Definition M (A : Type) : Type := St → result Failure A * St.

#[export] Instance M_ret : MRet M := λ A a s, (Ok a, s).
#[export] Instance M_bind : MBind M := λ A B f m s,
  match m s with
  | (Ok a, s') => f a s'
  | (Err e, s') => (Err e, s')
  end.

Definition throwM {A} (e : Failure) : M A := λ s, (Err e, s).
Definition lift {A} (r : result ApiError A) : M A := λ s,
  match r with Ok a => (Ok a, s) | Err e => (Err (ApiThrown e), s) end.
Definition gets {A} (f : Db → A) : M A := λ s, (Ok (f (db s)), s).
Definition modify (f : Db → Db) : M unit := λ s, (Ok tt, with_db (f (db s)) s).
Definition now : M Z := λ s, (Ok (clock s), s).
Definition set_denied (d : option PendingDenial) : M unit := λ s,
  (Ok tt, {| db := db s; drawn := drawn s; clock := clock s; denied := d |}).
Definition get_denied : M (option PendingDenial) := λ s, (Ok (denied s), s).
Definition unless_none {A} (o : option A) (e : ApiError) : M A :=
  match o with Some a => mret a | None => throwM (ApiThrown e) end.
Definition whenM (c : bool) (m : M unit) : M unit := if c then m else mret tt.

(** [for (const x of xs) await f(x)], and the same collecting the results. *)
Fixpoint each {A} (f : A → M unit) (l : list A) : M unit :=
  match l with [] => mret tt | a :: l' => f a ;; each f l' end.
Fixpoint collect {A B} (f : A → M B) (l : list A) : M (list B) :=
  match l with
  | [] => mret []
  | a :: l' => b ← f a; bs ← collect f l'; mret (b :: bs)
  end.

(** [inTransaction]: a failure rolls the tables back; the local variable and
    the identifiers drawn are not part of them. *)
Definition inTransaction {A} (work : M A) : M A := λ s,
  match work s with
  | (Ok a, s') => (Ok a, s')
  | (Err e, s') => (Err e, with_db (db s) s')
  end.

(** [try { m } catch (error) { h(error) }]. *)
Definition catching {A} (m : M A) (h : Failure → M A) : M A := λ s,
  match m s with
  | (Ok a, s') => (Ok a, s')
  | (Err e, s') => h e s'
  end.

(** The statements of [appendEvent], with the identifier drawn. *)
Definition write_event (id : string) (input : AppendEventInput) : M unit := λ s,
  match appendEvent (clock s) id input (log (db s)) with
  | Ok l => (Ok tt, with_db (with_log l (db s)) s)
  | Err (EventPayloadError m) => (Err (PlainError m), s)
  | Err DuplicateEventId => (Err (UniqueViolation "events_pkey"), s)
  end.

(** The platform's random source: the sixteen bytes of each draw. *)
Class Entropy := random_bytes : nat → list N.

Section operations.
Context `{Entropy}.

(** [newId(prefix)] of [src/apps/server/src/ids.ts]. *)
Definition newId (prefix : string) : M string := λ s,
  let s' := {| db := db s; drawn := S (drawn s); clock := clock s; denied := denied s |} in
  match newPrefixedId prefix (random_bytes (drawn s)) with
  | Ok id => (Ok id, s')
  | Err _ => (Err (PlainError "an identifier outside the character class"), s')
  end.

(** [appendEvent] on the caller's transaction, for a project's event: its
    identifier is drawn as [newId] draws one. *)
Definition append (type : string) (scope : Scope) (actor : EventActor)
    (correlation payload : members) : M unit :=
  id ← newId "evt_";
  write_event id (event_input type (organisationId scope) (projectId scope) actor
                    correlation payload).
(** The same with the time of the occurrence given. *)
Definition append_at (time : Z) (type : string) (scope : Scope) (actor : EventActor)
    (correlation payload : members) : M unit :=
  id ← newId "evt_";
  write_event id
    {| ev_in_type := type; ev_in_organisationId := organisationId scope;
       ev_in_projectId := Some (projectId scope); ev_in_actor := actor;
       ev_in_correlation := correlation; ev_in_payload := payload;
       ev_in_occurredAt := Some time; ev_in_enqueueOutbox := true |}.

(** [randomUUID().replaceAll("-", "")]: sixteen bytes but for the version and the
    variant. *)
Definition uuid_bytes (l : list N) : list N :=
  alter (λ b, N.lor (N.land b 15) 64) 6 (alter (λ b, N.lor (N.land b 63) 128) 8 l).
Definition randomUUID : M string := λ s,
  (Ok (randomSuffix (uuid_bytes (random_bytes (drawn s)))),
   {| db := db s; drawn := S (drawn s); clock := clock s; denied := denied s |}).
End operations.

(** A statement that writes one row: the constraints, then the unique indexes. *)
Definition guard_row (checks : constraints) (uniques : list (string * bool)) : M unit :=
  match violated checks with
  | Some c => throwM (CheckViolation c)
  | None =>
      match violated uniques with
      | Some c => throwM (UniqueViolation c)
      | None => mret tt
      end
  end.

Definition is_fresh {K A} `{Countable K} (t : gmap K A) (k : K) : bool :=
  bool_decide (t !! k = None).

(** The unique constraint on an organisation's slugs. *)
Definition project_slug_taken (t : gmap string ProjectRow) (r : ProjectRow) : bool :=
  existsb (λ r', bool_decide (pj_id r' ≠ pj_id r)
                 && bool_decide (pj_organisation_id r' = pj_organisation_id r)
                 && bool_decide (pj_slug r' = pj_slug r)) (rows t).
Definition project_checks (r : ProjectRow) : constraints :=
  [("projects_version_positive", bool_decide (1 ≤ pj_version r)%Z && int4 (pj_version r));
   ("projects_archived_at_matches_status",
      eqb (bool_decide (pj_status r = pj_archived)) (bool_decide (pj_archived_at r ≠ None)));
   ("projects_settings_have_viewports",
      bool_decide (1 ≤ length (default_validation_viewports (pj_settings r)) ≤ 8))].
Definition insert_project (r : ProjectRow) : M unit :=
  t ← gets projects;
  guard_row (project_checks r)
    [("projects_pkey", is_fresh t (pj_id r));
     ("projects_slug_unique_per_organisation", negb (project_slug_taken t r))] ;;
  modify (λ d, with_projects (<[pj_id r := r]> (projects d)) d).
Definition update_project (r : ProjectRow) : M unit :=
  t ← gets projects;
  guard_row (project_checks r)
    [("projects_slug_unique_per_organisation", negb (project_slug_taken t r))] ;;
  modify (λ d, with_projects (<[pj_id r := r]> (projects d)) d).

Definition insert_review (r : ReviewRow) : M unit :=
  t ← gets reviews;
  guard_row (review_checks r)
    [("reviews_pkey", is_fresh t (rv_id r));
     ("reviews_active_slug_unique", negb (slug_taken t r))] ;;
  modify (λ d, with_reviews (<[rv_id r := r]> (reviews d)) d).
Definition update_review (r : ReviewRow) : M unit :=
  t ← gets reviews;
  guard_row (review_checks r) [("reviews_active_slug_unique", negb (slug_taken t r))] ;;
  modify (λ d, with_reviews (<[rv_id r := r]> (reviews d)) d).

Definition insert_finding (f : FindingRow) : M unit :=
  t ← gets findings;
  guard_row (finding_checks f) [("findings_pkey", is_fresh t (fn_id f))] ;;
  modify (λ d, with_findings (<[fn_id f := f]> (findings d)) d).
Definition update_finding (f : FindingRow) : M unit :=
  guard_row (finding_checks f) [] ;;
  modify (λ d, with_findings (<[fn_id f := f]> (findings d)) d).

Definition insert_verification (v : VerificationRow) : M unit :=
  t ← gets verifications;
  guard_row (verification_checks v)
    [("verifications_pkey", is_fresh t (vf_id v));
     ("verifications_one_current_per_finding", negb (another_current t v))] ;;
  modify (λ d, with_verifications (<[vf_id v := v]> (verifications d)) d).
Definition update_verification (v : VerificationRow) : M unit :=
  t ← gets verifications;
  guard_row (verification_checks v)
    [("verifications_one_current_per_finding", negb (another_current t v))] ;;
  modify (λ d, with_verifications (<[vf_id v := v]> (verifications d)) d).

Definition insert_verification_artefact (a : VerificationArtefactRow) : M unit :=
  known ← gets (λ d, verifications d !! va_verification_id a);
  match known with
  | Some _ => mret tt
  | None => throwM (ForeignKeyViolation "verification_artefacts_verification_id_fkey")
  end ;;
  t ← gets verification_artefacts;
  guard_row [("verification_artefacts_position_non_negative",
               bool_decide (0 ≤ va_position a)%Z)]
    [("verification_artefacts_pkey",
       bool_decide ((va_verification_id a, va_artefact_id a)
                      ∉ (λ b, (va_verification_id b, va_artefact_id b)) <$> t))] ;;
  modify (λ d, with_verification_artefacts (verification_artefacts d ++ [a]) d).

Definition insert_comment (c : CommentRow) : M unit :=
  t ← gets comments;
  guard_row (comment_checks c)
    [("comments_pkey", is_fresh t (cm_id c));
     ("comments_one_successor_per_revision", negb (another_successor t c))] ;;
  modify (λ d, with_comments (<[cm_id c := c]> (comments d)) d).
Definition update_comment (c : CommentRow) : M unit :=
  t ← gets comments;
  guard_row (comment_checks c)
    [("comments_one_successor_per_revision", negb (another_successor t c))] ;;
  modify (λ d, with_comments (<[cm_id c := c]> (comments d)) d).

Definition insert_annotation (a : AnnotationRow) : M unit :=
  t ← gets annotations;
  guard_row (annotation_checks a)
    [("annotations_pkey", is_fresh t (an_id a, an_revision a))] ;;
  modify (λ d, with_annotations (<[(an_id a, an_revision a) := a]> (annotations d)) d).

(** [INSERT ... ON CONFLICT DO NOTHING]: whether the row was inserted. *)
Definition insert_inbox_item (i : InboxRow) : M bool :=
  t ← gets inbox_items;
  guard_row (inbox_checks i) [] ;;
  if is_fresh t (in_id i) && negb (live_delivery_taken t i)
  then modify (λ d, with_inbox_items (<[in_id i := i]> (inbox_items d)) d) ;; mret true
  else mret false.
Definition update_inbox_item (i : InboxRow) : M unit :=
  t ← gets inbox_items;
  guard_row (inbox_checks i)
    [("inbox_items_live_delivery", negb (live_delivery_taken t i))] ;;
  modify (λ d, with_inbox_items (<[in_id i := i]> (inbox_items d)) d).

(** ** Reasoning about computations *)

Section monad_lemmas.
Context {A B : Type}.
Implicit Types (m : M A) (f : A → M B) (s : St).

Lemma bindM_ok m f s b s' :
  (m ≫= f) s = (Ok b, s') ↔ ∃ a s1, m s = (Ok a, s1) ∧ f a s1 = (Ok b, s').
Proof.
  unfold mbind, M_bind. destruct (m s) as [[a|e] s1]; [naive_solver|].
  split; [done|]. by intros (? & ? & [=] & _).
Qed.

Lemma bindM_err m f s e s' :
  (m ≫= f) s = (Err e, s') ↔
    m s = (Err e, s') ∨ ∃ a s1, m s = (Ok a, s1) ∧ f a s1 = (Err e, s').
Proof. unfold mbind, M_bind. destruct (m s) as [[a|e'] s1]; naive_solver. Qed.

(** The same, to run a computation forward. *)
Lemma bind_return m f s a s1 : m s = (Ok a, s1) → (m ≫= f) s = f a s1.
Proof. unfold mbind, M_bind. by intros ->. Qed.
Lemma bind_throw m f s e s1 : m s = (Err e, s1) → (m ≫= f) s = (Err e, s1).
Proof. unfold mbind, M_bind. by intros ->. Qed.

Lemma inTransaction_ok m s a s' :
  inTransaction m s = (Ok a, s') → m s = (Ok a, s').
Proof. unfold inTransaction. destruct (m s) as [[]]; naive_solver. Qed.

Lemma inTransaction_err m s e s' :
  inTransaction m s = (Err e, s') → db s' = db s.
Proof. unfold inTransaction. destruct (m s) as [[] s1]; [done|]. by intros [= _ <-]. Qed.

Lemma catching_ok m h s a s' :
  catching m h s = (Ok a, s') ↔
    m s = (Ok a, s') ∨ ∃ e s1, m s = (Err e, s1) ∧ h e s1 = (Ok a, s').
Proof. unfold catching. destruct (m s) as [[] s1]; naive_solver. Qed.

Lemma lift_ok (r : result ApiError A) s a s' :
  lift r s = (Ok a, s') ↔ r = Ok a ∧ s' = s.
Proof. unfold lift. destruct r; naive_solver. Qed.

Lemma gets_ok (f : Db → A) s a s' : gets f s = (Ok a, s') ↔ a = f (db s) ∧ s' = s.
Proof. unfold gets. naive_solver. Qed.

Lemma retM_ok (a : A) s a' s' : (mret a : M A) s = (Ok a', s') ↔ a' = a ∧ s' = s.
Proof. unfold mret, M_ret. naive_solver. Qed.

Lemma throwM_ok e s a s' : (throwM e : M A) s = (Ok a, s') ↔ False.
Proof. unfold throwM. naive_solver. Qed.

Lemma unless_none_ok (o : option A) e s a s' :
  unless_none o e s = (Ok a, s') ↔ o = Some a ∧ s' = s.
Proof. destruct o; cbn; [rewrite retM_ok|rewrite throwM_ok]; naive_solver. Qed.
End monad_lemmas.

Lemma modify_ok f s u s' : modify f s = (Ok u, s') ↔ s' = with_db (f (db s)) s.
Proof. unfold modify. destruct u. naive_solver. Qed.

Lemma now_ok s t s' : now s = (Ok t, s') ↔ t = clock s ∧ s' = s.
Proof. unfold now. naive_solver. Qed.

Lemma get_denied_ok s d s' : get_denied s = (Ok d, s') ↔ d = denied s ∧ s' = s.
Proof. unfold get_denied. naive_solver. Qed.

Lemma set_denied_ok d s u s' :
  set_denied d s = (Ok u, s') ↔
    s' = {| db := db s; drawn := drawn s; clock := clock s; denied := d |}.
Proof. unfold set_denied. destruct u. naive_solver. Qed.

Lemma whenM_ok (c : bool) m s u s' :
  whenM c m s = (Ok u, s') ↔ (c = true ∧ m s = (Ok u, s')) ∨ (c = false ∧ s' = s).
Proof.
  destruct c, u; cbn; [naive_solver|]. rewrite retM_ok. naive_solver.
Qed.

Lemma head_filter_None {A} (p : A → bool) (l : list A) :
  head (filter (λ c, p c = false) l) = None ↔ Forall (λ c, p c = true) l.
Proof.
  induction l as [|a l IH]; [done|].
  rewrite filter_cons, Forall_cons. destruct (p a) eqn:Ha; case_decide; naive_solver.
Qed.

Lemma violated_None cs : violated cs = None ↔ Forall (λ c, c.2 = true) cs.
Proof.
  unfold violated. rewrite <- (head_filter_None snd), fmap_None. done.
Qed.

Lemma guard_row_ok checks uniques s u s' :
  guard_row checks uniques s = (Ok u, s') ↔
    violated checks = None ∧ violated uniques = None ∧ s' = s.
Proof.
  unfold guard_row.
  destruct (violated checks); [rewrite throwM_ok; naive_solver|].
  destruct (violated uniques); [rewrite throwM_ok; naive_solver|].
  rewrite retM_ok. destruct u. naive_solver.
Qed.

Create HintDb run.
#[export] Hint Rewrite @bindM_ok @lift_ok @gets_ok @retM_ok @throwM_ok
  @unless_none_ok modify_ok now_ok get_denied_ok set_denied_ok guard_row_ok : run.

(** Invert a run that returned: follow its steps one by one. *)
Ltac inv_run :=
  repeat match goal with
  | H : (_ ≫= _) _ = (Ok _, _) |- _ => apply bindM_ok in H as (? & ? & ? & H)
  | H : inTransaction _ _ = (Ok _, _) |- _ => apply inTransaction_ok in H
  | H : lift _ _ = (Ok _, _) |- _ => apply lift_ok in H as [H ->]
  | H : gets _ _ = (Ok _, _) |- _ => apply gets_ok in H as [-> ->]
  | H : mret _ _ = (Ok _, _) |- _ => apply retM_ok in H as [-> ->]
  | H : throwM _ _ = (Ok _, _) |- _ => by apply throwM_ok in H
  | H : unless_none _ _ _ = (Ok _, _) |- _ => apply unless_none_ok in H as [H ->]
  | H : modify _ _ = (Ok _, _) |- _ => apply modify_ok in H as ->
  | H : now _ = (Ok _, _) |- _ => apply now_ok in H as [-> ->]
  | H : get_denied _ = (Ok _, _) |- _ => apply get_denied_ok in H as [-> ->]
  | H : set_denied _ _ = (Ok _, _) |- _ => apply set_denied_ok in H as ->
  | H : guard_row _ _ _ = (Ok _, _) |- _ => apply guard_row_ok in H as (? & ? & ->)
  | u : unit |- _ => destruct u
  end.

(** *** What the statements do *)

Section statement_lemmas.
Context `{Entropy}.

Lemma newId_ok prefix s id s' :
  newId prefix s = (Ok id, s') →
  newPrefixedId prefix (random_bytes (drawn s)) = Ok id
  ∧ db s' = db s ∧ clock s' = clock s ∧ denied s' = denied s ∧ drawn s' = S (drawn s).
Proof. unfold newId. destruct (newPrefixedId _ _); [|done]. by intros [= <- <-]. Qed.

(** The event a call of [append] writes. *)
Definition is_event (type : string) (scope : Scope) (actor : EventActor)
    (correlation payload : members) (e : EventRow) : Prop :=
  ev_type e = type ∧ ev_actor e = actor ∧ ev_correlation e = correlation
  ∧ ev_payload e = payload ∧ ev_organisation_id e = organisationId scope
  ∧ ev_project_id e = Some (projectId scope).

(** [logged s s' P]: the only difference between the tables is one event that
    satisfies [P], appended to the log. *)
Definition logged (s s' : St) (P : EventRow → Prop) : Prop :=
  ∃ e l, db s' = with_log l (db s) ∧ events l = events (log (db s)) ++ [e] ∧ P e
    ∧ clock s' = clock s ∧ denied s' = denied s
    ∧ (log_ok (log (db s)) → log_ok l).

(** The next identifier drawn is not one the log holds. *)
Definition fresh_draw (s : St) : Prop :=
  ∃ i, newPrefixedId "evt_" (random_bytes (drawn s)) = Ok i
       ∧ i ∉ ev_id <$> events (log (db s)).

Lemma append_succeeds type scope actor correlation payload s :
  fresh_draw s →
  assertPayloadCarriesNoSecret (JObj payload) "payload" 0 = Ok tt →
  assertPayloadCarriesNoSecret (JObj correlation) "correlation" 0 = Ok tt →
  ∃ s', append type scope actor correlation payload s = (Ok tt, s').
Proof.
  intros (i & Hi & Hfresh) Hp Hc. unfold append.
  set (s1 := {| db := db s; drawn := S (drawn s); clock := clock s; denied := denied s |}).
  rewrite (bind_return _ _ s i s1) by (unfold newId; by rewrite Hi).
  unfold write_event, appendEvent. cbn [ev_in_payload ev_in_correlation event_input].
  rewrite Hp. cbn [mbind result_bind]. rewrite Hc. rewrite bool_decide_false by done.
  by eexists.
Qed.

Lemma append_logged type scope actor correlation payload s u s' :
  append type scope actor correlation payload s = (Ok u, s') →
  logged s s' (is_event type scope actor correlation payload).
Proof.
  unfold append. intros Hr. apply bindM_ok in Hr as (id & s1 & Hid & Hr).
  apply newId_ok in Hid as (_ & Hdb & Hclock & Hdenied & _).
  unfold write_event in Hr.
  destruct (appendEvent _ _ _ _) as [l|[]] eqn:Ha; [|done|done].
  injection Hr as _ <-. pose proof Ha as Ha'.
  apply appendEvent_ok in Ha
    as (_ & _ & _ & e & _ & ? & ? & ? & ? & ? & ? & _ & _ & _ & He & _).
  exists e, l. rewrite <- Hdb. split_and!; try done.
  intros Hok. eapply appendEvent_preserves; eassumption.
Qed.
End statement_lemmas.
