(* ===== verification/BrowserSessions.v ===== *)
(** * Browser sessions: the control plane's orchestration
    ([src/apps/server/src/modules/browser-sessions/service.ts], with the worker
    scheduling it reads from [workers.ts] and the sweep of [monitor.ts])

    A method that awaits another process between two of its statements is split
    where it waits, so that the pieces can be interleaved; the method is their
    composition.  What the worker, the binder and the authoriser answer are
    arguments.  Withdrawing a route capability touches no table of the model. *)

From S2P Require Import Prelude Errors ReviewProtocol BrowserProtocol Events ReviewDomain ControlAuthorisation Store.

(** ** Statements *)

Definition int8 (z : Z) : bool := bool_decide (- 9223372036854775808 ≤ z ≤ 9223372036854775807)%Z.

Definition session_checks (r : BrowserSessionRow) : constraints :=
  [("integer out of range", int4 (bs_control_epoch r));
   ("bigint out of range", int8 (bs_last_sequence r));
   ("browser_sessions_epoch_non_negative", bool_decide (0 ≤ bs_control_epoch r)%Z);
   ("browser_sessions_requested_route_has_a_time",
     bool_decide (bs_requested_published_service_id r = None
                    ↔ bs_allocation_requested_at r = None))].

Definition insert_session (r : BrowserSessionRow) : M unit :=
  t ← gets browser_sessions;
  guard_row (session_checks r) [("browser_sessions_pkey", is_fresh t (bs_id r))] ;;
  modify (λ d, with_browser_sessions (<[bs_id r := r]> (browser_sessions d)) d).

(** [UPDATE browser_sessions SET ... WHERE id = $1 AND ...]: whether a row was
    changed. *)
Definition update_session_where (id : string) (p : BrowserSessionRow → bool)
    (f : BrowserSessionRow → BrowserSessionRow) : M bool :=
  row ← gets (λ d, browser_sessions d !! id);
  match row with
  | Some r =>
      if p r then
        guard_row (session_checks (f r)) [] ;;
        modify (λ d, with_browser_sessions (<[id := f r]> (browser_sessions d)) d) ;;
        mret true
      else mret false
  | None => mret false
  end.
Definition update_session (id : string) (f : BrowserSessionRow → BrowserSessionRow) : M unit :=
  update_session_where id (λ _, true) f ;; mret tt.

Definition lease_checks (l : ControlLeaseRow) : constraints :=
  [("integer out of range", int4 (cl_epoch l));
   ("control_leases_epoch_non_negative", bool_decide (0 ≤ cl_epoch l)%Z)].

(** The indexes [control_leases_one_active_interactive] and
    [control_leases_epoch_unique]. *)
Definition interactive_lease (l : ControlLeaseRow) : bool :=
  bool_decide (cl_revoked_at l = None) && negb (bool_decide (ct_type (cl_controller l) = by_system)).
Definition another_active (t : gmap string ControlLeaseRow) (l : ControlLeaseRow) : bool :=
  interactive_lease l
  && existsb (λ l', bool_decide (cl_id l' ≠ cl_id l) && interactive_lease l'
                    && bool_decide (cl_browser_session_id l' = cl_browser_session_id l)) (rows t).
Definition epoch_taken (t : gmap string ControlLeaseRow) (l : ControlLeaseRow) : bool :=
  existsb (λ l', bool_decide (cl_id l' ≠ cl_id l)
                 && bool_decide (cl_browser_session_id l' = cl_browser_session_id l)
                 && bool_decide (cl_epoch l' = cl_epoch l)) (rows t).

Definition insert_lease (l : ControlLeaseRow) : M unit :=
  t ← gets control_leases;
  guard_row (lease_checks l)
    [("control_leases_pkey", is_fresh t (cl_id l));
     ("control_leases_one_active_interactive", negb (another_active t l));
     ("control_leases_epoch_unique", negb (epoch_taken t l))] ;;
  known ← gets (λ d, browser_sessions d !! cl_browser_session_id l);
  match known with
  | Some _ => mret tt
  | None => throwM (ForeignKeyViolation "control_leases_browser_session_id_fkey")
  end ;;
  modify (λ d, with_control_leases (<[cl_id l := l]> (control_leases d)) d).

Definition revoked (time : Z) (reason : string) (l : ControlLeaseRow) : ControlLeaseRow :=
  {| cl_id := cl_id l; cl_browser_session_id := cl_browser_session_id l;
     cl_controller := cl_controller l; cl_epoch := cl_epoch l; cl_issued_at := cl_issued_at l;
     cl_expires_at := cl_expires_at l; cl_revoked_at := Some time; cl_reason := Some reason |}.

(** [UPDATE control_leases SET revoked_at = now(), reason = $2 WHERE ... AND
    revoked_at IS NULL]; a revoked lease leaves the partial index. *)
Definition revoke_where (p : Z → ControlLeaseRow → bool) (reason : string) : M unit :=
  time ← now;
  modify (λ d, with_control_leases
    ((λ l, if bool_decide (cl_revoked_at l = None) && p time l then revoked time reason l else l)
       <$> control_leases d) d).

(** [#revokeLeases] *)
Definition revokeLeases (browserSessionId reason : string) : M unit :=
  revoke_where (λ _ l, bool_decide (cl_browser_session_id l = browserSessionId)) reason.

(** ** Reading *)

Definition session_scope (r : BrowserSessionRow) : Scope :=
  {| organisationId := bs_organisation_id r; projectId := bs_project_id r |}.

Definition getSession (browserSessionId : string) : M BrowserSessionRow :=
  row ← gets (λ d, browser_sessions d !! browserSessionId);
  unless_none row (notFound "The browser session").

Record SessionScope := { sc_organisationId : option string; sc_projectIds : option (list string) }.
Definition DEPLOYMENT_SCOPE : SessionScope := {| sc_organisationId := None; sc_projectIds := None |}.

Definition visible (scope : SessionScope) (d : Db) (r : BrowserSessionRow) : bool :=
  match projects d !! bs_project_id r with
  | None => false
  | Some p =>
      match sc_projectIds scope with None => true | Some ids => includes ids (bs_project_id r) end
      && match sc_organisationId scope with
         | None => true | Some o => bool_decide (pj_organisation_id p = o) end
  end.
Definition getForScope (browserSessionId : string) (scope : SessionScope) : M BrowserSessionRow :=
  row ← gets (λ d, r ← browser_sessions d !! browserSessionId;
                   if visible scope d r then Some r else None);
  unless_none row (notFound "The browser session").

(** [#routeAssociated] *)
Definition route_associated (session : BrowserSessionRow) : M (option bool) :=
  match bs_published_service_id session with
  | None => mret None
  | Some route =>
      time ← now;
      gets (λ d, Some match published_services d !! route with
        | Some p =>
            bool_decide (ps_project_id p = bs_project_id session)
            && bool_decide (ps_status p = ps_ready) && bool_decide (time < ps_expires_at p)%Z
            && includes (ps_allowed_browser_session_ids p) (bs_id session)
        | None => false
        end)
  end.

(** [#projectStream] *)
Definition projectStream (project : string) : M (option Scope) :=
  gets (λ d, (λ p, {| organisationId := pj_organisation_id p; projectId := project |})
               <$> projects d !! project).

(** ** What the statements set *)

Definition set_status (status : SessionStatus) (ended : option Z) (r : BrowserSessionRow) : BrowserSessionRow :=
  {| bs_id := bs_id r; bs_organisation_id := bs_organisation_id r;
     bs_project_id := bs_project_id r; bs_worker_id := bs_worker_id r;
     bs_agent_session_id := bs_agent_session_id r;
     bs_published_service_id := bs_published_service_id r;
     bs_requested_published_service_id := bs_requested_published_service_id r;
     bs_allocation_requested_at := bs_allocation_requested_at r;
     bs_service_origin := bs_service_origin r; bs_browser_version := bs_browser_version r;
     bs_status := status; bs_current_controller := bs_current_controller r;
     bs_control_epoch := bs_control_epoch r; bs_last_sequence := bs_last_sequence r;
     bs_viewport := bs_viewport r; bs_limits := bs_limits r;
     bs_retention_policy := bs_retention_policy r; bs_created_at := bs_created_at r;
     bs_ended_at := ended |}.
Definition set_control (controller : option ControllerIdentity) (epoch : Z) (r : BrowserSessionRow) : BrowserSessionRow :=
  {| bs_id := bs_id r; bs_organisation_id := bs_organisation_id r;
     bs_project_id := bs_project_id r; bs_worker_id := bs_worker_id r;
     bs_agent_session_id := bs_agent_session_id r;
     bs_published_service_id := bs_published_service_id r;
     bs_requested_published_service_id := bs_requested_published_service_id r;
     bs_allocation_requested_at := bs_allocation_requested_at r;
     bs_service_origin := bs_service_origin r; bs_browser_version := bs_browser_version r;
     bs_status := bs_status r; bs_current_controller := controller; bs_control_epoch := epoch;
     bs_last_sequence := bs_last_sequence r; bs_viewport := bs_viewport r;
     bs_limits := bs_limits r; bs_retention_policy := bs_retention_policy r;
     bs_created_at := bs_created_at r; bs_ended_at := bs_ended_at r |}.
Definition set_sequence (sequence : Z) (r : BrowserSessionRow) : BrowserSessionRow :=
  {| bs_id := bs_id r; bs_organisation_id := bs_organisation_id r;
     bs_project_id := bs_project_id r; bs_worker_id := bs_worker_id r;
     bs_agent_session_id := bs_agent_session_id r;
     bs_published_service_id := bs_published_service_id r;
     bs_requested_published_service_id := bs_requested_published_service_id r;
     bs_allocation_requested_at := bs_allocation_requested_at r;
     bs_service_origin := bs_service_origin r; bs_browser_version := bs_browser_version r;
     bs_status := bs_status r; bs_current_controller := bs_current_controller r;
     bs_control_epoch := bs_control_epoch r; bs_last_sequence := sequence;
     bs_viewport := bs_viewport r; bs_limits := bs_limits r;
     bs_retention_policy := bs_retention_policy r; bs_created_at := bs_created_at r;
     bs_ended_at := bs_ended_at r |}.
Definition set_requested_route (route : option string) (time : option Z) (r : BrowserSessionRow) : BrowserSessionRow :=
  {| bs_id := bs_id r; bs_organisation_id := bs_organisation_id r;
     bs_project_id := bs_project_id r; bs_worker_id := bs_worker_id r;
     bs_agent_session_id := bs_agent_session_id r;
     bs_published_service_id := bs_published_service_id r;
     bs_requested_published_service_id := route; bs_allocation_requested_at := time;
     bs_service_origin := bs_service_origin r; bs_browser_version := bs_browser_version r;
     bs_status := bs_status r; bs_current_controller := bs_current_controller r;
     bs_control_epoch := bs_control_epoch r; bs_last_sequence := bs_last_sequence r;
     bs_viewport := bs_viewport r; bs_limits := bs_limits r;
     bs_retention_policy := bs_retention_policy r; bs_created_at := bs_created_at r;
     bs_ended_at := bs_ended_at r |}.
Definition set_binding (route origin : string) (r : BrowserSessionRow) : BrowserSessionRow :=
  {| bs_id := bs_id r; bs_organisation_id := bs_organisation_id r;
     bs_project_id := bs_project_id r; bs_worker_id := bs_worker_id r;
     bs_agent_session_id := bs_agent_session_id r; bs_published_service_id := Some route;
     bs_requested_published_service_id := None; bs_allocation_requested_at := None;
     bs_service_origin := Some origin; bs_browser_version := bs_browser_version r;
     bs_status := bs_status r; bs_current_controller := bs_current_controller r;
     bs_control_epoch := bs_control_epoch r; bs_last_sequence := bs_last_sequence r;
     bs_viewport := bs_viewport r; bs_limits := bs_limits r;
     bs_retention_policy := bs_retention_policy r; bs_created_at := bs_created_at r;
     bs_ended_at := bs_ended_at r |}.
Definition set_browser (version : string) (viewport : json) (r : BrowserSessionRow) : BrowserSessionRow :=
  {| bs_id := bs_id r; bs_organisation_id := bs_organisation_id r;
     bs_project_id := bs_project_id r; bs_worker_id := bs_worker_id r;
     bs_agent_session_id := bs_agent_session_id r;
     bs_published_service_id := bs_published_service_id r;
     bs_requested_published_service_id := bs_requested_published_service_id r;
     bs_allocation_requested_at := bs_allocation_requested_at r;
     bs_service_origin := bs_service_origin r; bs_browser_version := Some version;
     bs_status := bs_status r; bs_current_controller := bs_current_controller r;
     bs_control_epoch := bs_control_epoch r; bs_last_sequence := bs_last_sequence r;
     bs_viewport := viewport; bs_limits := bs_limits r;
     bs_retention_policy := bs_retention_policy r; bs_created_at := bs_created_at r;
     bs_ended_at := bs_ended_at r |}.

Definition optional (o : option string) : json := or_null JStr o.
Definition session_correlation (r : BrowserSessionRow) : members :=
  ("browser_session_id", JStr (bs_id r)) :: opt_member "worker_id" JStr (bs_worker_id r).

Section orchestration.
Context `{Entropy}.

(** [#setStatus]: the status is written whatever the row holds by then; the
    event names the status the caller had read. *)
Definition setStatus (session : BrowserSessionRow) (status : SessionStatus) (actor : EventActor)
    (eventType : option string) (payload : members) : M unit :=
  let terminal := bool_decide (status ∈ [TERMINATED; FAILED]) in
  inTransaction (
    time ← now;
    update_session (bs_id session)
      (λ r, set_status status (if terminal then Some time else bs_ended_at r) r) ;;
    match eventType with
    | Some type =>
        append type (session_scope session) actor (session_correlation session)
          ([("previous_status", JStr (status_name (bs_status session)));
            ("new_status", JStr (status_name status))] ++ payload)
    | None => mret tt
    end).

(** ** Refusals *)

(** The parts of an input that a refusal records. *)
Record Attempt := {
  at_projectId : string;
  at_controller : ControllerIdentity;
  at_controlEpoch : Z;
  at_actor : EventActor
}.

Definition rejection_stream (session : BrowserSessionRow) (attempt : Attempt)
    (denial : CommandDenial) : M (option Scope) :=
  if bool_decide (cd_reason denial = "project_mismatch")
  then projectStream (at_projectId attempt)
  else mret (Some (session_scope session)).

(** What the record says of the session: nothing, when it is another project's. *)
Definition session_facts (session : BrowserSessionRow) (denial : CommandDenial) : members :=
  if bool_decide (cd_reason denial = "project_mismatch") then [("cross_project", JBool true)]
  else [("current_epoch", JNum (bs_control_epoch session));
        ("session_status", JStr (status_name (bs_status session)))].

Definition record_rejected (session : BrowserSessionRow) (attempt : Attempt)
    (denial : CommandDenial) (payload : members) : M unit :=
  stream ← rejection_stream session attempt denial;
  match stream with
  | None => mret tt
  | Some scope =>
      inTransaction (append "browser.command_rejected" scope (at_actor attempt)
        [("browser_session_id", JStr (bs_id session))] payload)
  end.

(** [#recordRejection] *)
Definition recordRejection (session : BrowserSessionRow) (attempt : Attempt)
    (command : BrowserCommand) (denial : CommandDenial) : M unit :=
  record_rejected session attempt denial
    ([("command", JStr (command_name (bc_command command)));
      ("reason_code", JStr (code_name (cd_code denial)));
      ("reason", JStr (cd_reason denial));
      ("interactive", JBool (isInteractive (bc_command command)));
      ("presented_epoch", JNum (at_controlEpoch attempt));
      ("presented_controller_type", JStr (controller_type_name (ct_type (at_controller attempt))))]
     ++ session_facts session denial).

Inductive LifecycleAct :=
| act_pause | act_resume | act_end | act_allocate | act_control_request | act_control_release.
Definition act_name (a : LifecycleAct) : string :=
  match a with
  | act_pause => "pause"
  | act_resume => "resume"
  | act_end => "end"
  | act_allocate => "allocate"
  | act_control_request => "control_request"
  | act_control_release => "control_release"
  end.

(** [#recordLifecycleRejection] *)
Definition recordLifecycleRejection (session : BrowserSessionRow) (attempt : Attempt)
    (act : LifecycleAct) (denial : CommandDenial) (extra : members) : M unit :=
  record_rejected session attempt denial
    ([("kind", JStr "lifecycle"); ("command", JStr (act_name act));
      ("reason_code", JStr (code_name (cd_code denial)));
      ("reason", JStr (cd_reason denial)); ("interactive", JBool true);
      ("presented_epoch", JNum (at_controlEpoch attempt));
      ("presented_controller_type", JStr (controller_type_name (ct_type (at_controller attempt))))]
     ++ session_facts session denial ++ extra).

Definition denial_error (denial : CommandDenial) : ApiError :=
  mk_ApiError (cd_code denial) (cd_message denial) (cd_details denial) None None.

(** [#refuseLifecycle] *)
Definition refuseLifecycle {A} (session : BrowserSessionRow) (attempt : Attempt)
    (act : LifecycleAct) (denial : CommandDenial) : M A :=
  recordLifecycleRejection session attempt act denial [] ;;
  throwM (ApiThrown (denial_error denial)).

Definition project_mismatch : CommandDenial :=
  {| cd_code := RESOURCE_NOT_FOUND; cd_message := "The browser session was not found.";
     cd_details := None; cd_reason := "project_mismatch" |}.
Definition not_active (status : SessionStatus) : CommandDenial :=
  {| cd_code := BROWSER_SESSION_NOT_ACTIVE;
     cd_message := "The browser session is " +:+ status_name status +:+ ".";
     cd_details := Some [("browser_session_status", JStr (status_name status))];
     cd_reason := "session_not_active" |}.
Definition epoch_stale (epoch : Z) : CommandDenial :=
  {| cd_code := CONTROL_EPOCH_STALE;
     cd_message := "Browser control changed. Refresh session state before retrying.";
     cd_details := Some [("current_epoch", JNum epoch)]; cd_reason := "control_epoch_stale" |}.
Definition not_owned (epoch : Z) : CommandDenial :=
  {| cd_code := CONTROL_NOT_OWNED;
     cd_message := "Another controller holds the interactive lease for this browser session.";
     cd_details := Some [("current_epoch", JNum epoch)]; cd_reason := "control_not_owned" |}.
End orchestration.

(** ** Commands *)

Record CommandInput := {
  ci_browserSessionId : string;
  ci_attempt : Attempt;
  ci_command : BrowserCommand
}.

Section commands.
Context `{Entropy}.

Definition command_context (session : BrowserSessionRow) (attempt : Attempt)
    (associated : option bool) : CommandContext :=
  {| sessionProjectId := bs_project_id session; actorProjectId := at_projectId attempt;
     cx_status := bs_status session; currentEpoch := bs_control_epoch session;
     currentController := bs_current_controller session;
     presentedEpoch := at_controlEpoch attempt; presentedController := at_controller attempt;
     cx_publishedServiceId := bs_published_service_id session; routeAssociated := associated |}.

Definition no_worker : CommandDenial :=
  {| cd_code := BROWSER_SESSION_NOT_ACTIVE; cd_message := "The browser session has no worker.";
     cd_details := None; cd_reason := "no_worker" |}.

(** [runCommand] up to the call of the worker: the checks, and the sequence
    number the command is sent under.  What it has read is kept for the end. *)
Definition beginCommand (input : CommandInput) : M (BrowserSessionRow * Z) :=
  let attempt := ci_attempt input in
  session ← getSession (ci_browserSessionId input);
  associated ← route_associated session;
  match authoriseBrowserCommand (command_context session attempt associated) (ci_command input) with
  | Some denial =>
      recordRejection session attempt (ci_command input) denial ;;
      throwM (ApiThrown (denial_error denial))
  | None =>
      match bs_worker_id session with
      | None =>
          recordRejection session attempt (ci_command input) no_worker ;;
          throwM (ApiThrown (denial_error no_worker))
      | Some _ =>
          let sequence := (bs_last_sequence session + 1)%Z in
          update_session (bs_id session) (set_sequence sequence) ;;
          mret (session, sequence)
      end
  end.

Definition navigated_event (session : BrowserSessionRow) (actor : EventActor)
    (result : BrowserCommandResult) : M unit :=
  append "browser_session.navigated" (session_scope session) actor
    [("browser_session_id", JStr (bs_id session))]
    [("url", optional (n ← br_navigation result; nv_url n));
     ("http_status", or_null JNum (n ← br_navigation result; nv_http_status n));
     ("trust", JStr (br_trust result))].
Definition screenshot_event (session : BrowserSessionRow) (actor : EventActor)
    (command : BrowserCommand) (shot : ScreenshotResult) : M unit :=
  append "screenshot.captured" (session_scope session) actor
    [("browser_session_id", JStr (bs_id session)); ("artefact_id", JStr (ss_artefact_id shot))]
    [("purpose", JStr (default "verification" (bc_screenshot_purpose command)));
     ("full_page", JBool (ss_full_page shot)); ("viewport", ss_viewport shot);
     ("size_bytes", JNum (ss_size_bytes shot)); ("sha256", JStr (ss_sha256 shot));
     ("captured_at", JStr (ss_captured_at shot))].

(** [runCommand] once the worker has answered. *)
Definition finishCommand (input : CommandInput) (session : BrowserSessionRow) (sequence : Z)
    (result : BrowserCommandResult) : M BrowserCommandResult :=
  let actor := at_actor (ci_attempt input) in
  inTransaction (
    whenM (br_ok result && bool_decide (bs_status session = BS_READY))
      (update_session (bs_id session) (λ r, set_status ACTIVE (bs_ended_at r) r)) ;;
    append (if br_ok result then "browser.command_executed" else "browser.command_rejected")
      (session_scope session) actor [("browser_session_id", JStr (bs_id session))]
      ([("command", JStr (command_name (bc_command (ci_command input))));
        ("sequence", JNum sequence);
        ("control_epoch", JNum (at_controlEpoch (ci_attempt input)))]
       ++ (if br_ok result then []
           else [("reason_code",
                   JStr (code_name (default INTERNAL_ERROR (ce_code <$> br_error result))))])) ;;
    whenM (br_ok result && bool_decide (bc_command (ci_command input) = navigate))
      (navigated_event session actor result) ;;
    match br_screenshot result with
    | Some shot => whenM (br_ok result) (screenshot_event session actor (ci_command input) shot)
    | None => mret tt
    end) ;;
  mret result.

(** [runCommand], the worker answering at once: [Err] is the error its client
    raises. *)
Definition runCommand (answer : Z → result Failure BrowserCommandResult) (input : CommandInput) :
    M BrowserCommandResult :=
  sent ← beginCommand input;
  match answer sent.2 with
  | Ok result => finishCommand input sent.1 sent.2 result
  | Err e => throwM e
  end.
End commands.

(** ** Lifecycle acts of a controller *)

Section acts.
Context `{Entropy}.

(** [#requireControl] *)
Definition requireControl (browserSessionId : string) (attempt : Attempt) (act : LifecycleAct)
    (from : list SessionStatus) : M BrowserSessionRow :=
  session ← getSession browserSessionId;
  let refuse denial := refuseLifecycle session attempt act denial in
  if negb (bool_decide (bs_project_id session = at_projectId attempt)) then refuse project_mismatch
  else if negb (includes from (bs_status session)) then refuse (not_active (bs_status session))
  else if negb (bool_decide (at_controlEpoch attempt = bs_control_epoch session)) then
    refuse (epoch_stale (bs_control_epoch session))
  else match bs_current_controller session with
  | Some controller =>
      if sameController controller (at_controller attempt) then mret session
      else refuse (not_owned (bs_control_epoch session))
  | None => mret session
  end.

Definition controller_member (attempt : Attempt) : members :=
  [("controller_type", JStr (controller_type_name (ct_type (at_controller attempt))))].

Definition pause (browserSessionId : string) (attempt : Attempt) : M BrowserSessionRow :=
  session ← requireControl browserSessionId attempt act_pause [BS_READY; ACTIVE];
  setStatus session PAUSED (at_actor attempt) (Some "browser_session.paused")
    (controller_member attempt) ;;
  getSession (bs_id session).

Definition resume (browserSessionId : string) (attempt : Attempt) : M BrowserSessionRow :=
  session ← requireControl browserSessionId attempt act_resume [PAUSED];
  setStatus session BS_READY (at_actor attempt) (Some "browser_session.resumed")
    (controller_member attempt) ;;
  getSession (bs_id session).

Definition is_over (status : SessionStatus) : bool := bool_decide (status ∈ [TERMINATED; FAILED]).

(** The worker is told between the two statuses; its answer is not waited on. *)
Definition terminate (browserSessionId : string) (reason : TerminationReason)
    (actor : EventActor) : M BrowserSessionRow :=
  session ← getSession browserSessionId;
  if is_over (bs_status session) then mret session
  else
    setStatus session TERMINATING actor None [] ;;
    revokeLeases (bs_id session) ("terminated: " +:+ reason_name reason) ;;
    terminating ← getSession browserSessionId;
    setStatus terminating TERMINATED actor (Some "browser_session.terminated")
      [("reason", JStr (reason_name reason))] ;;
    getSession browserSessionId.

(** [end] *)
Definition endSession (browserSessionId : string) (attempt : Attempt)
    (reason : TerminationReason) : M BrowserSessionRow :=
  session ← getSession browserSessionId;
  if negb (bool_decide (bs_project_id session = at_projectId attempt))
  then throwM (ApiThrown (notFound "The browser session"))
  else if is_over (bs_status session) then mret session
  else
    requireControl browserSessionId attempt act_end
      [REQUESTED; ALLOCATING; BS_READY; ACTIVE; PAUSED; DEGRADED] ;;
    terminate browserSessionId reason (at_actor attempt).

Definition applyWorkerReport (browserSessionId : string) (report : SessionStatusReport)
    (actor : EventActor) : M BrowserSessionRow :=
  session ← getSession browserSessionId;
  let eventType := match sr_status report with
    | BS_READY => Some "browser_session.ready"
    | FAILED => Some "browser_session.failed"
    | TERMINATED => Some "browser_session.terminated"
    | DEGRADED => Some "browser_session.degraded"
    | _ => None
    end in
  whenM (is_over (sr_status report))
    (revokeLeases (bs_id session) (default (status_name (sr_status report)) (sr_reason report))) ;;
  setStatus session (sr_status report) actor eventType
    [("reason", optional (sr_reason report)); ("reported_by", JStr "browser_worker")] ;;
  getSession browserSessionId.

Definition system_actor (display : string) : EventActor :=
  {| actor_type := system; actor_id := None; actor_display := Some display |}.

Definition markReconciled (browserSessionId : string) (status : SessionStatus) (reason : string) :
    M unit :=
  session ← getSession browserSessionId;
  if bool_decide (bs_status session = status) then mret tt
  else
    whenM (bool_decide (status = FAILED)) (revokeLeases (bs_id session) reason) ;;
    setStatus session status (system_actor "browser session reconciler")
      (Some (if bool_decide (status = FAILED) then "browser_session.failed"
             else "browser_session.degraded"))
      [("reason", JStr reason); ("trigger", JStr "reconciliation")].
End acts.

(** ** Control leases *)

Definition LEASE_SECONDS : Z := 900.

(** What a request has settled when it opens its transaction: an answer, or the
    row it has read and will act on. *)
Inductive Decision :=
| Answer (r : BrowserSessionRow)
| Proceed (r : BrowserSessionRow).

Section control.
Context `{Entropy}.

Definition lease (id : string) (time : Z) (browserSessionId : string) (c : ControllerIdentity)
    (epoch : Z) (reason : string) : ControlLeaseRow :=
  {| cl_id := id; cl_browser_session_id := browserSessionId; cl_controller := c;
     cl_epoch := epoch; cl_issued_at := time; cl_expires_at := time + LEASE_SECONDS * 1000;
     cl_revoked_at := None; cl_reason := Some reason |}.

(** The input of [requestControl]: it presents no epoch. *)
Record ControlRequest := {
  rq_browserSessionId : string;
  rq_projectId : string;
  rq_controller : ControllerIdentity;
  rq_reason : option string;
  rq_actor : EventActor
}.
Definition request_attempt (input : ControlRequest) (session : BrowserSessionRow) : Attempt :=
  {| at_projectId := rq_projectId input; at_controller := rq_controller input;
     at_controlEpoch := bs_control_epoch session; at_actor := rq_actor input |}.

(** [requestControl] up to its transaction. *)
Definition decideRequest (input : ControlRequest) : M Decision :=
  session ← getSession (rq_browserSessionId input);
  let attempt := request_attempt input session in
  if negb (bool_decide (bs_project_id session = rq_projectId input)) then
    refuseLifecycle session attempt act_control_request project_mismatch
  else if negb (bool_decide (bs_ended_at session = None)) || is_over (bs_status session) then
    refuseLifecycle session attempt act_control_request (not_active (bs_status session))
  else if bool_decide (ct_type (rq_controller input) = by_human) then
    inTransaction (append "browser.control_requested" (session_scope session) (rq_actor input)
      [("browser_session_id", JStr (bs_id session))]
      [("requested_controller_type", JStr (controller_type_name (ct_type (rq_controller input))));
       ("granted", JBool false); ("reason_code", JStr (code_name UNSUPPORTED_CAPABILITY))]) ;;
    throwM (ApiThrown (mk_ApiError UNSUPPORTED_CAPABILITY
      "Human interactive control arrives with takeover in Stage 2. The lease, the epoch and the rejection of stale commands are already in force."
      None None None))
  else if bool_decide (bs_current_controller session = Some (rq_controller input)) then
    mret (Answer session)
  else mret (Proceed session).

(** Its transaction, on the row it had read. *)
Definition grant_statements (input : ControlRequest) (session : BrowserSessionRow) : M unit :=
  let epoch := (bs_control_epoch session + 1)%Z in
  let c := rq_controller input in
  revokeLeases (bs_id session) "superseded by a new controller" ;;
  update_session (bs_id session) (set_control (Some c) epoch) ;;
  id ← newId "lse_";
  time ← now;
  insert_lease (lease id time (bs_id session) c epoch
                  (default "control requested" (rq_reason input))) ;;
  append "browser.control_requested" (session_scope session) (rq_actor input)
    [("browser_session_id", JStr (bs_id session))]
    [("requested_controller_type", JStr (controller_type_name (ct_type c)));
     ("granted", JBool true)] ;;
  append "browser.control_transferred" (session_scope session) (rq_actor input)
    [("browser_session_id", JStr (bs_id session))]
    [("previous_controller_type",
       or_null (λ c, JStr (controller_type_name (ct_type c))) (bs_current_controller session));
     ("new_controller_type", JStr (controller_type_name (ct_type c)));
     ("previous_epoch", JNum (bs_control_epoch session)); ("control_epoch", JNum epoch)].
Definition grantControl (input : ControlRequest) (session : BrowserSessionRow) :
    M BrowserSessionRow :=
  inTransaction (grant_statements input session) ;;
  getSession (bs_id session).

Definition requestControl (input : ControlRequest) : M BrowserSessionRow :=
  decision ← decideRequest input;
  match decision with Answer r => mret r | Proceed r => grantControl input r end.

(** [releaseControl] up to its transaction. *)
Definition decideRelease (browserSessionId : string) (attempt : Attempt) : M Decision :=
  session ← getSession browserSessionId;
  let refuse denial := refuseLifecycle session attempt act_control_release denial in
  if negb (bool_decide (bs_project_id session = at_projectId attempt)) then refuse project_mismatch
  else if negb (bool_decide (at_controlEpoch attempt = bs_control_epoch session)) then
    refuse (epoch_stale (bs_control_epoch session))
  else match bs_current_controller session with
  | None => mret (Answer session)
  | Some current =>
      if sameController current (at_controller attempt) then mret (Proceed session)
      else refuse (not_owned (bs_control_epoch session))
  end.

Definition dropControl (attempt : Attempt) (session : BrowserSessionRow) : M BrowserSessionRow :=
  let epoch := (bs_control_epoch session + 1)%Z in
  inTransaction (
    revokeLeases (bs_id session) "released by controller" ;;
    update_session (bs_id session) (set_control None epoch) ;;
    append "browser.control_released" (session_scope session) (at_actor attempt)
      [("browser_session_id", JStr (bs_id session))]
      [("previous_controller_type",
         or_null (λ c, JStr (controller_type_name (ct_type c))) (bs_current_controller session));
       ("previous_epoch", JNum (bs_control_epoch session)); ("control_epoch", JNum epoch)]) ;;
  getSession (bs_id session).

Definition releaseControl (browserSessionId : string) (attempt : Attempt) : M BrowserSessionRow :=
  decision ← decideRelease browserSessionId attempt;
  match decision with Answer r => mret r | Proceed r => dropControl attempt r end.
End control.

(** [expireStaleLeases] of [monitor.ts]. *)
Definition expireStaleLeases : M unit :=
  revoke_where (λ time l, bool_decide (cl_expires_at l < time)%Z) "lease expired".

(** ** Workers *)

(** [BrowserWorkerConfig]: the budgets of the liveness rule. *)
Class WorkerConfig := { heartbeatIntervalSeconds : Z; degradedAfterSeconds : Z }.

(** [workerLivePredicate]: [greatest(last_heartbeat_at, registered_at) > now() -
    make_interval(secs => $1)]. *)
Definition worker_live `{WorkerConfig} (time : Z) (w : BrowserWorkerRow) : bool :=
  bool_decide (time - degradedAfterSeconds * 1000
               < Z.max (default (bw_registered_at w) (bw_last_heartbeat_at w)) (bw_registered_at w))%Z.
Definition schedulable (w : BrowserWorkerRow) : bool :=
  bool_decide (bw_status w ∈ [w_active; w_degraded]).

(** [WorkerRegistry.active] and [assignedProjects]. *)
Definition activeWorker `{WorkerConfig} : M (option BrowserWorkerRow) :=
  time ← now;
  gets (λ d, head (order_by bw_registered_at bw_id
                     (select (λ w, schedulable w && worker_live time w) (browser_workers d)))).
Definition assignedProjects (workerId : string) : M (list string) :=
  gets (λ d, snd <$> filter (λ a, a.1 = workerId) (browser_worker_projects d)).

(** ** Reservations *)

Record StartSessionInput := {
  si_organisationId : string;
  si_projectId : string;
  si_agentSessionId : option string;
  si_viewport : json;
  si_controller : ControllerIdentity;
  si_retentionClass : string;
  si_limits : members;
  si_actor : EventActor
}.

Definition DEFAULT_SESSION_LIMITS : members :=
  [("max_duration_seconds", JNum 7200); ("default_timeout_ms", JNum 30000);
   ("max_command_timeout_ms", JNum 120000); ("screenshot_max_bytes", JNum 20971520);
   ("snapshot_max_nodes", JNum 400); ("snapshot_max_bytes", JNum 32768)].
(** [{ ...defaults, ...given }], for members the defaults name. *)
Definition spread (defaults given : members) : members :=
  (λ m, (m.1, default m.2 (get_member m.1 given))) <$> defaults.

(** The sessions that count against a worker's capacity. *)
Definition occupies (workerId : string) (r : BrowserSessionRow) : bool :=
  bool_decide (bs_worker_id r = Some workerId) && bool_decide (bs_ended_at r = None)
  && negb (is_over (bs_status r)).

Definition new_session (id : string) (time : Z) (workerId : string) (input : StartSessionInput) :
    BrowserSessionRow :=
  {| bs_id := id; bs_organisation_id := si_organisationId input; bs_project_id := si_projectId input;
     bs_worker_id := Some workerId; bs_agent_session_id := si_agentSessionId input;
     bs_published_service_id := None; bs_requested_published_service_id := None;
     bs_allocation_requested_at := None; bs_service_origin := None; bs_browser_version := None;
     bs_status := REQUESTED; bs_current_controller := Some (si_controller input);
     bs_control_epoch := 1; bs_last_sequence := -1; bs_viewport := si_viewport input;
     bs_limits := JObj (spread DEFAULT_SESSION_LIMITS (si_limits input));
     bs_retention_policy := si_retentionClass input; bs_created_at := time; bs_ended_at := None |}.

Section reservations.
Context `{Entropy} `{WorkerConfig}.

(** The transaction of [create]. *)
Definition create_statements (id workerId : string) (input : StartSessionInput) :
    M BrowserSessionRow :=
  time ← now;
  let session := new_session id time workerId input in
  insert_session session ;;
  leaseId ← newId "lse_";
  insert_lease (lease leaseId time id (si_controller input) 1 "initial allocation") ;;
  append "browser_session.requested" (session_scope session) (si_actor input)
    [("browser_session_id", JStr id); ("worker_id", JStr workerId)]
    [("viewport", si_viewport input); ("control_epoch", JNum 1)] ;;
  mret session.

(** [create] *)
Definition createSession (input : StartSessionInput) : M BrowserSessionRow :=
  found ← activeWorker;
  match found with
  | None =>
      throwM (ApiThrown (mk_ApiError BROWSER_CAPACITY_EXHAUSTED
        "No live browser worker is available. A registered worker that has stopped reporting is not counted as capacity; check `reviewplane status`."
        None None None))
  | Some worker =>
      assigned ← assignedProjects (bw_id worker);
      lift (if includes assigned (si_projectId input) then Ok tt
            else Err (mk_ApiError PROJECT_CONTEXT_MISMATCH
              "The registered browser worker is not assigned to this project." None None None)) ;;
      running ← gets (λ d, count (select (occupies (bw_id worker)) (browser_sessions d)));
      lift (if bool_decide (bw_capacity worker ≤ running)%Z
            then Err (mk_ApiError BROWSER_CAPACITY_EXHAUSTED
              ("The browser worker is already running its capacity of "
                 +:+ pretty (bw_capacity worker) +:+ " sessions.") None None None)
            else Ok tt) ;;
      id ← newId "brs_";
      inTransaction (create_statements id (bw_id worker) input)
  end.

(** The classes a failed allocation is recorded under. *)
Definition ALLOCATION_FAILURE_CLASSES : list ApiErrorCode :=
  [AUTHORISATION_DENIED; BROWSER_CAPACITY_EXHAUSTED; BROWSER_SESSION_NOT_ACTIVE;
   CONNECTOR_OFFLINE; IDENTITY_REVOKED; PROJECT_CONTEXT_MISMATCH; PUBLISHED_SERVICE_UNAVAILABLE;
   RESOURCE_NOT_FOUND; ROUTE_EXPIRED; UNSUPPORTED_CAPABILITY; VALIDATION_FAILED;
   CONTROL_PLANE_UNAVAILABLE].
Definition allocationFailureClassOf (error : Failure) : ApiErrorCode :=
  match error with
  | ApiThrown e => if includes ALLOCATION_FAILURE_CLASSES (code e) then code e else INTERNAL_ERROR
  | _ => INTERNAL_ERROR
  end.

Inductive FailureTrigger := allocation_refused | allocation_deadline.
Definition trigger_name (t : FailureTrigger) : string :=
  match t with
  | allocation_refused => "allocation_refused"
  | allocation_deadline => "allocation_deadline"
  end.

Definition connector_status_of (details : option members) : members :=
  match details ≫= get_member "connector_status" with
  | Some (JStr s) => [("connector_status", JStr s)]
  | _ => []
  end.

(** [#failReservation] *)
Definition failReservation (session : BrowserSessionRow) (actor : EventActor)
    (reasonCode : ApiErrorCode) (trigger : FailureTrigger) (route : option string)
    (details : option members) : M unit :=
  revokeLeases (bs_id session) ("allocation refused: " +:+ code_name reasonCode) ;;
  setStatus session FAILED actor (Some "browser_session.failed")
    (connector_status_of details ++ opt_member "published_service_id" JStr route
     ++ [("reason_code", JStr (code_name reasonCode)); ("trigger", JStr (trigger_name trigger))]).

(** [#recordAllocationRejection]; [exists_] is [existsUnscoped] of the route.
    The denial's message is not recorded. *)
Definition recordAllocationRejection (exists_ : option bool) (session : BrowserSessionRow)
    (actor : EventActor) (error : Failure) (route : option string) : M unit :=
  let c := allocationFailureClassOf error in
  let crossProject := bool_decide (c = RESOURCE_NOT_FOUND) && bool_decide (route ≠ None)
                      && default false exists_ in
  recordLifecycleRejection session
    {| at_projectId := bs_project_id session;
       at_controller := default {| ct_type := by_system; ct_id := "sys_allocation" |}
                          (bs_current_controller session);
       at_controlEpoch := bs_control_epoch session; at_actor := actor |}
    act_allocate
    {| cd_code := c; cd_message := ""; cd_details := None;
       cd_reason := if crossProject then "project_mismatch" else "allocation_refused" |}
    (opt_member "published_service_id" JStr route).

Definition only_reserved (status : SessionStatus) : Failure :=
  ApiThrown (api_error BROWSER_SESSION_NOT_ACTIVE
    "Only a reserved browser session can be allocated."
    [("browser_session_status", JStr (status_name status))]).

(** [#claimForAllocation] *)
Definition claimForAllocation (session : BrowserSessionRow) (actor : EventActor)
    (route : option string) : M bool :=
  inTransaction (
    claimed ← update_session_where (bs_id session)
      (λ r, bool_decide (bs_status r = REQUESTED)) (λ r, set_status ALLOCATING (bs_ended_at r) r);
    match claimed with
    | true =>
        append "browser_session.allocated" (session_scope session) actor
          (session_correlation session)
          [("previous_status", JStr "REQUESTED"); ("new_status", JStr "ALLOCATING");
           ("worker_id", optional (bs_worker_id session)); ("published_service_id", optional route)] ;;
        mret true
    | false => mret false
    end).
End reservations.

(** ** Allocation *)

(** What [bind] answers, and the parts of the worker's answer that are kept. *)
Record ServiceBinding := { sb_publishedServiceId : string; sb_serviceOrigin : string }.
Record SessionAllocated := {
  sa_status : SessionStatus;
  sa_browser_type : string;
  sa_browser_version : string;
  sa_viewport : json
}.

(** The answers of the processes an allocation speaks to. *)
Record Answers := {
  aw_exists : option bool;
  aw_bind : option (result Failure ServiceBinding);
  aw_worker : result Failure SessionAllocated
}.

Section allocation.
Context `{Entropy} `{WorkerConfig}.

Definition no_binder : Failure :=
  ApiThrown (mk_ApiError UNSUPPORTED_CAPABILITY
    "This control plane cannot bind a published service to a browser session." None None None).

(** [#explainWorkerRefusal] *)
Definition explainWorkerRefusal (session : BrowserSessionRow) (error : Failure) : M Failure :=
  match error, bs_worker_id session with
  | ApiThrown e, Some workerId =>
      if bool_decide (code e = PROJECT_CONTEXT_MISMATCH) then
        assigned ← assignedProjects workerId;
        mret (if includes assigned (bs_project_id session) then
          ApiThrown (api_error PROJECT_CONTEXT_MISMATCH
            ("The browser worker refused this session's project, but the control plane has it assigned: the worker's copy of its assignment is stale and is restated on its next heartbeat, within "
               +:+ pretty heartbeatIntervalSeconds
               +:+ " seconds of the assignment (ADR-0026). Retry after that; no restart is needed.")
            [("browser_worker_assignment", JStr "stale");
             ("heartbeat_interval_seconds", JNum heartbeatIntervalSeconds)])
        else error)
      else mret error
  | _, _ => mret error
  end.

Definition details_of (error : Failure) : option members :=
  match error with ApiThrown e => details e | _ => None end.

(** [try { binding = await binder.bind(...) } catch ...], and the bound row. *)
Definition bindService (answers : Answers) (session : BrowserSessionRow) (actor : EventActor)
    (route : string) : M unit :=
  match default (Err no_binder) (aw_bind answers) with
  | Err error =>
      failReservation session actor (allocationFailureClassOf error) allocation_refused
        (Some route) (details_of error) ;;
      throwM error
  | Ok binding =>
      update_session (bs_id session)
        (set_binding (sb_publishedServiceId binding) (sb_serviceOrigin binding))
  end.

(** What follows the worker's answer. *)
Definition settleAllocation (answers : Answers) (session : BrowserSessionRow)
    (actor : EventActor) : M BrowserSessionRow :=
  catching
    (allocated ← match aw_worker answers with Ok a => mret a | Err e => throwM e end;
     update_session (bs_id session)
       (set_browser (sa_browser_version allocated) (sa_viewport allocated)) ;;
     ready ← getSession (bs_id session);
     setStatus ready (sa_status allocated) actor (Some "browser_session.ready")
       [("browser_type", JStr (sa_browser_type allocated));
        ("browser_version", JStr (sa_browser_version allocated))] ;;
     getSession (bs_id session))
    (λ error,
     reported ← explainWorkerRefusal session error;
     failing ← getSession (bs_id session);
     setStatus failing FAILED actor (Some "browser_session.failed")
       [("reason_code", JStr (code_name (allocationFailureClassOf reported)));
        ("trigger", JStr "worker_refused")] ;;
     throwM reported).

Definition allocate (answers : Answers) (browserSessionId : string) (scope : SessionScope)
    (route : option string) (actor : EventActor) : M BrowserSessionRow :=
  session ← getForScope browserSessionId scope;
  if negb (bool_decide (bs_status session = REQUESTED)) then
    recordAllocationRejection (aw_exists answers) session actor
      (only_reserved (bs_status session)) route ;;
    throwM (only_reserved (bs_status session))
  else match bs_worker_id session with
  | None =>
      failReservation session actor BROWSER_CAPACITY_EXHAUSTED allocation_refused None None ;;
      throwM (ApiThrown (mk_ApiError BROWSER_CAPACITY_EXHAUSTED "This session has no worker."
                           None None None))
  | Some _ =>
      claimed ← claimForAllocation session actor route;
      if negb claimed then
        recordAllocationRejection (aw_exists answers) session actor (only_reserved ALLOCATING) route ;;
        throwM (only_reserved ALLOCATING)
      else
        match route with
        | Some r => bindService answers session actor r
        | None => mret tt
        end ;;
        settleAllocation answers session actor
  end.

(** [start]: the session is allocated in the caller's own scope. *)
Definition start (answers : Answers) (input : StartSessionInput) (route : option string) :
    M BrowserSessionRow :=
  created ← createSession input;
  allocate answers (bs_id created)
    {| sc_organisationId := Some (si_organisationId input);
       sc_projectIds := Some [si_projectId input] |} route (si_actor input).

(** [requestAllocation]; [authorise] is the authoriser's answer, if there is
    one.  The event's time is the one the request is stamped with. *)
Definition requestAllocation (exists_ : option bool) (authorise : option (result Failure unit))
    (browserSessionId : string) (scope : SessionScope) (route : string) (actor : EventActor)
    (requestId : string) : M BrowserSessionRow :=
  session ← getForScope browserSessionId scope;
  if negb (bool_decide (bs_status session = REQUESTED)) then
    recordAllocationRejection exists_ session actor (only_reserved (bs_status session)) (Some route) ;;
    throwM (only_reserved (bs_status session))
  else match authorise with
  | None =>
      throwM (ApiThrown (mk_ApiError UNSUPPORTED_CAPABILITY
        "This control plane cannot admit a browser session to a published service."
        None None None))
  | Some (Err error) =>
      recordAllocationRejection exists_ session actor error (Some route) ;;
      throwM error
  | Some (Ok _) =>
      time ← now;
      inTransaction (
        update_session_where (bs_id session) (λ r, bool_decide (bs_status r = REQUESTED))
          (set_requested_route (Some route) (Some time)) ;;
        append "browser_session.requested" (session_scope session) actor
          [("request_id", JStr requestId); ("browser_session_id", JStr (bs_id session));
           ("published_service_id", JStr route)]
          [("requested_published_service_id", JStr route);
           ("allocation_requested_at", JDate time);
           ("control_epoch", JNum (bs_control_epoch session))]) ;;
      getSession (bs_id session)
  end.

(** ** Sweeps *)

Definition ALLOCATION_GRACE_MS : Z := 2000.
Definition ALLOCATION_DEADLINE_MS : Z := 120000.

Definition requested_before (cutoff : Z) (r : BrowserSessionRow) : bool :=
  match bs_requested_published_service_id r, bs_allocation_requested_at r with
  | Some _, Some time => bool_decide (time ≤ cutoff)%Z
  | _, _ => false
  end.
Definition requested_time (r : BrowserSessionRow) : Z := default 0%Z (bs_allocation_requested_at r).

(** The reservations [failOverdueAllocations] selects. *)
Definition overdue (cutoff : Z) (one agentSession : option string) (r : BrowserSessionRow) : bool :=
  bool_decide (bs_ended_at r = None)
  && bool_decide (bs_status r ∈ [REQUESTED; ALLOCATING; DEGRADED])
  && requested_before cutoff r
  && match one with None => true | Some id => bool_decide (bs_id r = id) end
  && match agentSession with None => true | Some a => bool_decide (bs_agent_session_id r = Some a) end.

(** The worker is asked to drop a session that was being allocated; the answer
    is not waited on. *)
Definition failOverdueAllocations (deadlineMs : Z) (limit : nat) (one agentSession : option string) :
    M (list BrowserSessionRow) :=
  time ← now;
  found ← gets (λ d, take limit (order_by requested_time bs_id
                       (select (overdue (time - deadlineMs) one agentSession) (browser_sessions d))));
  collect (λ session,
    failReservation session (system_actor "browser session allocator") CONTROL_PLANE_UNAVAILABLE
      allocation_deadline (bs_requested_published_service_id session) None ;;
    getSession (bs_id session)) found.

(** The reservations [completePendingAllocations] selects, and what it does with
    each; a refusal does not stop the sweep. *)
Definition pending_allocation (cutoff : Z) (r : BrowserSessionRow) : bool :=
  bool_decide (bs_status r = REQUESTED) && bool_decide (bs_ended_at r = None)
  && requested_before cutoff r.
Definition completePendingAllocations (answers : string → Answers) (olderThanMs : Z) (limit : nat) :
    M (list BrowserSessionRow) :=
  time ← now;
  found ← gets (λ d, take limit (order_by requested_time bs_id
                       (select (pending_allocation (time - olderThanMs)) (browser_sessions d))));
  collect (λ session,
    catching
      (allocate (answers (bs_id session)) (bs_id session) DEPLOYMENT_SCOPE
         (bs_requested_published_service_id session) (system_actor "browser session allocator"))
      (λ _, catching (getSession (bs_id session)) (λ _, mret session))) found.
End allocation.
