(* ===== verification/WorkerSessions.v ===== *)
(** * The browser worker's sessions
    ([src/apps/browser-worker/src/session/manager.ts] and the control state of
    [session.ts])

    The worker holds one [BrowserSession] per allocation, with the epoch and the
    controller it was allocated under.  The page, its context and the live
    producer are outside the model: what a command does on the page, and whether
    the browser is still there, are arguments. *)

From S2P Require Import Prelude Errors BrowserProtocol ReviewDomain ControlAuthorisation.

(** ** State *)

Record BrowserSession := {
  ws_id : string;
  ws_projectId : string;
  ws_limits : members;
  ws_status : SessionStatus;
  ws_controlEpoch : Z;
  ws_controller : ControllerIdentity;
  ws_lastSequence : Z
}.

Record SessionManager := {
  sm_sessions : gmap string BrowserSession;
  sm_assignedProjects : option (list string);
  sm_capacity : nat
}.

(** The configured bounds [#boundLimits] applies. *)
Class WorkerLimits := worker_limits : members.

Definition with_sessions (t : gmap string BrowserSession) (w : SessionManager) : SessionManager :=
  {| sm_sessions := t; sm_assignedProjects := sm_assignedProjects w; sm_capacity := sm_capacity w |}.
Definition setAssignedProjects (projects : list string) (w : SessionManager) : SessionManager :=
  {| sm_sessions := sm_sessions w; sm_assignedProjects := Some projects;
     sm_capacity := sm_capacity w |}.

Definition with_session_status (status : SessionStatus) (s : BrowserSession) : BrowserSession :=
  {| ws_id := ws_id s; ws_projectId := ws_projectId s; ws_limits := ws_limits s;
     ws_status := status; ws_controlEpoch := ws_controlEpoch s;
     ws_controller := ws_controller s; ws_lastSequence := ws_lastSequence s |}.
Definition markActive (s : BrowserSession) : BrowserSession :=
  if bool_decide (ws_status s = BS_READY) then with_session_status ACTIVE s else s.
Definition recordSequence (sequence : Z) (s : BrowserSession) : BrowserSession :=
  {| ws_id := ws_id s; ws_projectId := ws_projectId s; ws_limits := ws_limits s;
     ws_status := ws_status s; ws_controlEpoch := ws_controlEpoch s;
     ws_controller := ws_controller s;
     ws_lastSequence := Z.max sequence (ws_lastSequence s) |}.
Definition acceptsCommands (s : BrowserSession) : bool :=
  bool_decide (ws_status s = BS_READY) || bool_decide (ws_status s = ACTIVE).

(** ** Operations *)

Definition refusal (c : ApiErrorCode) (m : string) (retryable : bool) (epoch : option Z) :
    CommandError :=
  {| ce_code := c; ce_message := m; ce_retryable := retryable; ce_current_epoch := epoch |}.

(** [#report]: what the observer is told of a transition. *)
Definition report (s : BrowserSession) (status previous : SessionStatus) (reason : string) :
    SessionStatusReport :=
  {| sr_status := status; sr_previous_status := Some previous; sr_reason := Some reason;
     sr_control_epoch := Some (ws_controlEpoch s); sr_current_controller := Some (ws_controller s) |}.

Record SessionAllocate := {
  sl_project_id : string;
  sl_limits : members;
  sl_control_epoch : Z;
  sl_controller : ControllerIdentity
}.

Section manager.
Context `{WorkerLimits}.

(** [Math.min(asked, configured)], limit by limit. *)
Definition boundLimits (asked : members) : members :=
  (λ m, (m.1, match m.2, get_member m.1 worker_limits with
              | JNum a, Some (JNum b) => JNum (Z.min a b)
              | v, _ => v
              end)) <$> asked.

(** [allocate]; [launch] is the failure of the browser context to come up, if
    it did not. *)
Definition allocateContext (launch : option CommandError) (browserSessionId : string)
    (request : SessionAllocate) (w : SessionManager) :
    result CommandError (BrowserSession * list SessionStatusReport) * SessionManager :=
  match sm_sessions w !! browserSessionId with
  | Some existing => (Ok (existing, []), w)
  | None =>
      if negb match sm_assignedProjects w with
              | Some ids => includes ids (sl_project_id request)
              | None => false
              end then
        (Err (refusal PROJECT_CONTEXT_MISMATCH
           "This worker is not assigned to the project the browser session belongs to."
           false None), w)
      else if bool_decide (sm_capacity w ≤ size (sm_sessions w))%nat then
        (Err (refusal BROWSER_CAPACITY_EXHAUSTED
           ("This worker is already running its capacity of " +:+ pretty (sm_capacity w)
              +:+ " browser sessions.") true None), w)
      else match launch with
      | Some e => (Err e, w)
      | None =>
        let s := {| ws_id := browserSessionId; ws_projectId := sl_project_id request;
                    ws_limits := boundLimits (sl_limits request); ws_status := BS_READY;
                    ws_controlEpoch := sl_control_epoch request;
                    ws_controller := sl_controller request; ws_lastSequence := -1 |} in
        (Ok (s, [report s BS_READY ALLOCATING "isolated context allocated"]),
         with_sessions (<[browserSessionId := s]> (sm_sessions w)) w)
      end
  end.
End manager.

(** [buildResult] without an outcome: a refusal as a result. *)
Definition refused (command : CommandName) (sequence epoch : Z) (error : CommandError) :
    BrowserCommandResult :=
  {| br_ok := false; br_command := command; br_sequence := sequence; br_control_epoch := epoch;
     br_trust := "trusted_control_plane"; br_error := Some error; br_navigation := None;
     br_screenshot := None |}.

(** [fail] and [terminate]: the session leaves the map and is destroyed. *)
Definition fail (s : BrowserSession) (reason : string) (w : SessionManager) :
    SessionStatusReport * SessionManager :=
  (report s FAILED (ws_status s) reason, with_sessions (delete (ws_id s) (sm_sessions w)) w).

Definition terminateContext (browserSessionId : string) (reason : TerminationReason)
    (detail : option string) (w : SessionManager) :
    result CommandError SessionStatusReport * SessionManager :=
  match sm_sessions w !! browserSessionId with
  | None => (Err (refusal RESOURCE_NOT_FOUND "No such browser session on this worker." false None), w)
  | Some s =>
      (Ok (report s TERMINATED (ws_status s)
             (default ("terminated: " +:+ reason_name reason) detail)),
       with_sessions (delete browserSessionId (sm_sessions w)) w)
  end.

(** [terminate] on one session after another, a refusal passed over. *)
Fixpoint terminateAll (ids : list string) (reason : TerminationReason) (detail : option string)
    (w : SessionManager) : list SessionStatusReport * SessionManager :=
  match ids with
  | [] => ([], w)
  | id :: rest =>
      let '(answer, w1) := terminateContext id reason detail w in
      let '(reports, w2) := terminateAll rest reason detail w1 in
      (match answer with Ok r => r :: reports | Err _ => reports end, w2)
  end.

(** [applyAssignment]: the sessions of projects no longer assigned are ended,
    each with its report. *)
Definition applyAssignment (projects : list string) (w : SessionManager) :
    list string * list SessionStatusReport * SessionManager :=
  let revoked := ws_id <$> filter (λ s, ws_projectId s ∉ projects)
                             (snd <$> map_to_list (sm_sessions w)) in
  let '(reports, w1) := terminateAll revoked tr_policy (Some "project assignment revoked") w in
  (revoked, reports, setAssignedProjects projects w1).
Definition shutdown (w : SessionManager) : list SessionStatusReport * SessionManager :=
  terminateAll (fst <$> map_to_list (sm_sessions w)) tr_worker_shutdown None w.

(** What [executeCommand] answers for a command on a session: the result, which
    carries the session's own epoch. *)
Definition Execution := BrowserSession → BrowserCommand → Z → BrowserCommandResult.

Definition timeout_limit (s : BrowserSession) : Z :=
  match get_member "max_command_timeout_ms" (ws_limits s) with Some (JNum n) => n | _ => 0 end.

(** [handleCommand]; [alive] is whether the browser process is still there. *)
Definition handleCommand (alive : bool) (executeCommand : Execution) (browserSessionId : string)
    (controller : ControllerIdentity) (epoch sequence : Z) (command : BrowserCommand)
    (w : SessionManager) : BrowserCommandResult * list SessionStatusReport * SessionManager :=
  let name := bc_command command in
  match sm_sessions w !! browserSessionId with
  | None =>
      (refused name sequence epoch
         (refusal BROWSER_SESSION_NOT_ACTIVE "No such browser session on this worker." false None),
       [], w)
  | Some s =>
      let current := ws_controlEpoch s in
      if negb (acceptsCommands s) then
        (refused name sequence current
           (refusal BROWSER_SESSION_NOT_ACTIVE
              ("Browser session is " +:+ status_name (ws_status s) +:+ ".") false (Some current)),
         [], w)
      else if negb alive then
        let '(r, w') := fail s "browser process is no longer connected" w in
        (refused name sequence current
           (refusal BROWSER_SESSION_NOT_ACTIVE "Browser session failed." false None), [r], w')
      else match authoriseCommand
                   {| cs_epoch := current; cs_controller := ws_controller s;
                      cs_lastSequence := ws_lastSequence s |}
                   {| ca_command := name; ca_controller := controller; ca_epoch := epoch;
                      ca_sequence := sequence |} with
      | Some denial =>
          (refused name sequence current
             (refusal (rf_code denial) (rf_message denial) (rf_retryable denial)
                (Some (rf_currentEpoch denial))), [], w)
      | None =>
          if bool_decide (timeout_limit s < bc_timeout_ms command)%Z then
            (refused name sequence current
               (refusal POLICY_DENIED
                  ("Command timeout exceeds the " +:+ pretty (timeout_limit s)
                     +:+ " ms session limit.") false None), [], w)
          else
            let s1 := recordSequence sequence s in
            let result := executeCommand s1 command sequence in
            let s2 := if br_ok result then markActive s1 else s1 in
            (result,
             if bool_decide (name = navigate) && br_ok result
             then [report s2 (ws_status s2) BS_READY "navigated"] else [],
             with_sessions (<[browserSessionId := s2]> (sm_sessions w)) w)
      end
  end.
