(* ===== verification/Jobs.v ===== *)
(** * Durable jobs on row locks and leases
    ([src/apps/server/src/jobs/runner.ts], [migrations/0057_durable_jobs.sql])

    A claim, a handler's work and the record of its outcome are transactions of
    their own: a runner can vanish, or lose its lease, between any two.  The
    handlers a deployment registers, what their failures say, and whether an
    attempt outlives its timer are arguments.  An attempt that outlives its
    timer is recorded as failed while its transaction goes on: the transaction
    is then another writer's. *)

From S2P Require Import Prelude Errors ReviewProtocol Events EntityId Store.

(** ** The vocabulary *)

Inductive JobKind :=
| event_outbox_dispatch | idempotency_key_expiry | published_service_expiry
| artefact_thumbnail | review_export.
#[export] Instance JobKind_eq_dec : EqDecision JobKind.
Proof. solve_decision. Defined.
Definition JOB_KIND_VALUES : list JobKind :=
  [event_outbox_dispatch; idempotency_key_expiry; published_service_expiry;
   artefact_thumbnail; review_export].
Definition job_kind_name (k : JobKind) : string :=
  match k with
  | event_outbox_dispatch => "event_outbox_dispatch"
  | idempotency_key_expiry => "idempotency_key_expiry"
  | published_service_expiry => "published_service_expiry"
  | artefact_thumbnail => "artefact_thumbnail"
  | review_export => "review_export"
  end.

Inductive JobFailureReason :=
| handler_error | attempt_timeout | attempts_exhausted | handler_unknown.
#[export] Instance JobFailureReason_eq_dec : EqDecision JobFailureReason.
Proof. solve_decision. Defined.
Definition JOB_FAILURE_REASON_VALUES : list JobFailureReason :=
  [handler_error; attempt_timeout; attempts_exhausted; handler_unknown].
Definition job_failure_reason_name (r : JobFailureReason) : string :=
  match r with
  | handler_error => "handler_error"
  | attempt_timeout => "attempt_timeout"
  | attempts_exhausted => "attempts_exhausted"
  | handler_unknown => "handler_unknown"
  end.

#[export] Instance JobKind_vocabulary : Vocabulary JobKind.
Proof. refine {| vocab := JOB_KIND_VALUES; name := job_kind_name |}; solve_vocabulary. Defined.
#[export] Instance JobFailureReason_vocabulary : Vocabulary JobFailureReason.
Proof.
  refine {| vocab := JOB_FAILURE_REASON_VALUES; name := job_failure_reason_name |};
  solve_vocabulary.
Defined.

Definition DEFAULT_LEASE_MS : Z := 60000.
Definition DEFAULT_ATTEMPT_TIMEOUT_MS : Z := 55000.
Definition BACKOFF_BASE_MS : Z := 2000.
Definition BACKOFF_MAX_MS : Z := 300000.

Record JobRecord := {
  jr_id : string;
  jr_organisationId : string;
  jr_projectId : option string;
  jr_kind : string;
  jr_payload : members;
  jr_attempts : Z;
  jr_maxAttempts : Z
}.

Record EnqueueJobInput := {
  ej_organisationId : string;
  ej_projectId : option string;
  ej_kind : JobKind;
  ej_payload : option members;
  ej_runAfter : option Z;
  ej_maxAttempts : option Z;
  ej_idempotencyKey : option string
}.

Definition toRecord (row : JobRow) : JobRecord :=
  {| jr_id := jb_id row; jr_organisationId := jb_organisation_id row;
     jr_projectId := jb_project_id row; jr_kind := jb_kind row; jr_payload := jb_payload row;
     jr_attempts := jb_attempts row; jr_maxAttempts := jb_max_attempts row |}.

(** ** The table *)

Definition job_checks (j : JobRow) : constraints :=
  [("integer out of range", int4 (jb_attempts j) && int4 (jb_max_attempts j));
   ("jobs_attempts_bounded", bool_decide (0 ≤ jb_attempts j ≤ jb_max_attempts j)%Z);
   ("jobs_max_attempts_positive", bool_decide (1 ≤ jb_max_attempts j ≤ 1000)%Z)].

(** The rows and the key of the index [jobs_idempotency_key_unique]. *)
Definition job_live (j : JobRow) : bool := bool_decide (jb_status j ∈ [j_pending; j_running]).
Definition key_taken (t : gmap string JobRow) (j : JobRow) : bool :=
  job_live j && bool_decide (jb_idempotency_key j ≠ None)
  && existsb (λ j', bool_decide (jb_id j' ≠ jb_id j) && job_live j'
                    && bool_decide (jb_kind j' = jb_kind j)
                    && bool_decide (jb_idempotency_key j' = jb_idempotency_key j)) (rows t).

(** [INSERT ... ON CONFLICT DO NOTHING]: whether the row was inserted. *)
Definition insert_job (j : JobRow) : M bool :=
  t ← gets jobs;
  guard_row (job_checks j) [] ;;
  if is_fresh t (jb_id j) && negb (key_taken t j)
  then modify (λ d, with_jobs (<[jb_id j := j]> (jobs d)) d) ;; mret true
  else mret false.
(** [UPDATE jobs SET ... WHERE id = $1]. *)
Definition update_job (id : string) (f : JobRow → JobRow) : M unit :=
  t ← gets jobs;
  match t !! id with
  | None => mret tt
  | Some j =>
      guard_row (job_checks (f j)) [("jobs_idempotency_key_unique", negb (key_taken t (f j)))] ;;
      modify (λ d, with_jobs (<[id := f j]> (jobs d)) d)
  end.

(** The columns the statements of the runner assign. *)
Definition set_job (status : JobStatus) (run_after attempts : Z) (locked_until : option Z)
    (locked_by last_error : option string) (completed_at : option Z) (j : JobRow) : JobRow :=
  {| jb_id := jb_id j; jb_organisation_id := jb_organisation_id j;
     jb_project_id := jb_project_id j; jb_kind := jb_kind j; jb_payload := jb_payload j;
     jb_status := status; jb_run_after := run_after; jb_attempts := attempts;
     jb_max_attempts := jb_max_attempts j; jb_locked_until := locked_until;
     jb_locked_by := locked_by; jb_last_error := last_error;
     jb_idempotency_key := jb_idempotency_key j; jb_created_at := jb_created_at j;
     jb_completed_at := completed_at |}.

(** The predicate of [#claim], and its [ORDER BY run_after, created_at]; rows
    it ties are taken by identifier. *)
Definition claimable (time : Z) (j : JobRow) : bool :=
  (bool_decide (jb_status j = j_pending) && bool_decide (jb_run_after j ≤ time)%Z)
  || (bool_decide (jb_status j = j_running)
      && match jb_locked_until j with Some l => bool_decide (l < time)%Z | None => false end).
Definition due_order (a b : JobRow) : Prop :=
  (jb_run_after a < jb_run_after b)%Z
  ∨ (jb_run_after a = jb_run_after b ∧ time_then_id jb_created_at jb_id a b).
#[export] Instance due_order_dec : RelDecision due_order.
Proof. intros a b. unfold due_order. apply _. Defined.

Section runner.
Context `{Entropy}.

Definition job_runner : EventActor :=
  {| actor_type := system; actor_id := None; actor_display := Some "job runner" |}.
Definition newJobId : M string := λ s,
  let s' := {| db := db s; drawn := S (drawn s); clock := clock s; denied := denied s |} in
  match newEntityId "job" (random_bytes (drawn s)) with
  | Ok id => (Ok id, s')
  | Err _ => (Err (PlainError "no identifier prefix is declared"), s')
  end.

(** [appendEvent] for a job's event: a job need not belong to a project. *)
Definition job_event (type id org : string) (project : option string) (payload : members) :
    AppendEventInput :=
  {| ev_in_type := type; ev_in_organisationId := org; ev_in_projectId := project;
     ev_in_actor := job_runner; ev_in_correlation := [("job_id", JStr id)];
     ev_in_payload := payload; ev_in_occurredAt := None; ev_in_enqueueOutbox := true |}.
Definition append_job (input : AppendEventInput) : M unit :=
  id ← newId "evt_"; write_event id input.

(** [enqueueJob]: the job's identifier, and whether it is a new job. *)
Definition new_job (id : string) (time : Z) (input : EnqueueJobInput) : JobRow :=
  {| jb_id := id; jb_organisation_id := ej_organisationId input;
     jb_project_id := ej_projectId input; jb_kind := name (ej_kind input);
     jb_payload := default [] (ej_payload input); jb_status := j_pending;
     jb_run_after := default time (ej_runAfter input); jb_attempts := 0;
     jb_max_attempts := default 5%Z (ej_maxAttempts input); jb_locked_until := None;
     jb_locked_by := None; jb_last_error := None;
     jb_idempotency_key := ej_idempotencyKey input; jb_created_at := time;
     jb_completed_at := None |}.
Definition enqueueJob (input : EnqueueJobInput) : M (string * bool) :=
  id ← newJobId;
  time ← now;
  let job := new_job id time input in
  created ← insert_job job;
  if (created : bool) then
    append_job (job_event "job.enqueued" id (ej_organisationId input) (ej_projectId input)
      [("job_id", JStr id); ("kind", JStr (name (ej_kind input)));
       ("run_after", JDate (jb_run_after job))]) ;;
    mret (id, true)
  else
    existing ← gets (λ d, head (select (λ j, job_live j && bool_decide (jb_kind j = jb_kind job)
                 && bool_decide (ej_idempotencyKey input ≠ None)
                 && bool_decide (jb_idempotency_key j = ej_idempotencyKey input)) (jobs d)));
    mret (match existing with Some j => jb_id j | None => id end, false).

(** ** One poll *)

Context (leaseMs attemptTimeoutMs : Z) (runnerId : string).

Definition claimed (time : Z) (j : JobRow) : JobRow :=
  set_job j_running (jb_run_after j) (jb_attempts j + 1) (Some (time + leaseMs)%Z)
    (Some runnerId) (jb_last_error j) (jb_completed_at j) j.
(** [#claim], passing over the rows other transactions hold. *)
Definition due (held : list string) (time : Z) (t : gmap string JobRow) : list JobRow :=
  merge_sort due_order (select (λ j, claimable time j && negb (includes held (jb_id j))) t).
Definition claim (held : list string) : M (option JobRecord) :=
  inTransaction (
    time ← now;
    found ← gets (λ d, due held time (jobs d));
    match found with
    | [] => mret None
    | row :: _ =>
        update_job (jb_id row) (claimed time) ;;
        mret (Some (toRecord (set_job (jb_status row) (jb_run_after row) (jb_attempts row + 1)
          (jb_locked_until row) (jb_locked_by row) (jb_last_error row) (jb_completed_at row) row)))
    end).

(** [#succeed] *)
Definition completed (time : Z) (j : JobRow) : JobRow :=
  set_job j_succeeded (jb_run_after j) (jb_attempts j) None None None (Some time) j.
Definition succeed (job : JobRecord) (durationMs : Z) : M unit :=
  inTransaction (
    time ← now;
    update_job (jr_id job) (completed time) ;;
    append_job (job_event "job.succeeded" (jr_id job) (jr_organisationId job) (jr_projectId job)
      [("job_id", JStr (jr_id job)); ("kind", JStr (jr_kind job));
       ("attempts", JNum (jr_attempts job)); ("duration_ms", JNum (Z.min durationMs 86400000))])).

(** [#fail] *)
Definition exhausted (job : JobRecord) : bool := bool_decide (jr_maxAttempts job ≤ jr_attempts job)%Z.
Definition backoff (job : JobRecord) : Z :=
  Z.min (BACKOFF_BASE_MS * 2 ^ (jr_attempts job - 1)) BACKOFF_MAX_MS.
Definition failed (time : Z) (job : JobRecord) (detail : string) (j : JobRow) : JobRow :=
  if exhausted job
  then set_job j_failed (jb_run_after j) (jb_attempts j) None None (Some (slice_to 500 detail))
         (Some time) j
  else set_job j_pending (time + backoff job) (jb_attempts j) None None
         (Some (slice_to 500 detail)) None j.
Definition fail (job : JobRecord) (reason : JobFailureReason) (detail : string) : M unit :=
  time ← now;
  let finalReason :=
    if exhausted job && bool_decide (reason = handler_error) then attempts_exhausted else reason in
  inTransaction (
    update_job (jr_id job) (failed time job detail) ;;
    append_job (job_event "job.failed" (jr_id job) (jr_organisationId job) (jr_projectId job)
      ([("job_id", JStr (jr_id job)); ("kind", JStr (jr_kind job));
        ("attempts", JNum (jr_attempts job)); ("reason", JStr (name finalReason));
        ("retrying", JBool (negb (exhausted job)))]
       ++ (if exhausted job then [] else [("next_attempt_at", JDate (time + backoff job))])))).

(** [#claimAndRun]: whether anything ran. *)
Definition Handler : Type := JobRecord → M unit.
Context (handlers : string → option Handler) (message : Failure → string)
  (overran : JobRecord → bool).

Definition attempt (handler : Handler) (job : JobRecord) :
    M (option (JobFailureReason * string)) :=
  if overran job
  then mret (Some (attempt_timeout, "attempt exceeded " +:+ pretty attemptTimeoutMs +:+ " ms"))
  else catching (inTransaction (handler job) ;; mret None)
         (λ error, mret (Some (handler_error, message error))).
Definition claimAndRun (held : list string) : M bool :=
  taken ← claim held;
  match taken with
  | None => mret false
  | Some job =>
      match handlers (jr_kind job) with
      | None =>
          fail job handler_unknown ("no handler is registered for " +:+ jr_kind job) ;; mret true
      | Some handler =>
          started ← now;
          refused ← attempt handler job;
          match refused with
          | Some (reason, detail) => fail job reason detail ;; mret true
          | None => finished ← now; succeed job (finished - started) ;; mret true
          end
      end
  end.

(** [drain(limit)] with no other runner about: how many polls ran a job. *)
Fixpoint drain (limit : nat) : M nat :=
  match limit with
  | O => mret O
  | S limit' =>
      ran ← claimAndRun [];
      if (ran : bool) then done ← drain limit'; mret (S done) else mret O
  end.
End runner.
