(* ===== verification/PublishedServices.v ===== *)
(** * Published services: routes and the capabilities minted for them
    ([src/apps/server/src/modules/published-services/service.ts],
    [repository.ts], [session-binder.ts])

    A method that waits for the connector or the gateway is split where it waits;
    the method is the composition of its pieces.  What the two processes answer
    is an argument.  Lifetimes are whole seconds and instants whole
    milliseconds; the service's clock is the database's. *)

From S2P Require Import Prelude Bytes Capability Errors ReviewProtocol BrowserProtocol Events EntityId ReviewDomain ControlAuthorisation DestinationPolicy Store BrowserSessions.

(** ** Names *)

Definition service_status_name (s : PublishedServiceStatus) : string :=
  match s with
  | ps_requested => "requested"
  | ps_ready => "ready"
  | ps_failed => "failed"
  | ps_expired => "expired"
  | ps_revoked => "revoked"
  end.
Definition connector_status_name (s : ConnectorStatus) : string :=
  match s with
  | PENDING_ENROLMENT => "PENDING_ENROLMENT"
  | C_ACTIVE => "ACTIVE"
  | C_DEGRADED => "DEGRADED"
  | C_DISCONNECTED => "DISCONNECTED"
  | C_REVOKED => "REVOKED"
  end.

Definition PUBLISHED_SERVICE_FAILURE_CLASS_VALUES : list ApiErrorCode :=
  [CONNECTOR_OFFLINE; CONTROL_PLANE_UNAVAILABLE; DESTINATION_NOT_ALLOWED; IDENTITY_REVOKED;
   INTERNAL_ERROR; PORT_NOT_LISTENING; PROJECT_NOT_AUTHORISED; PROTOCOL_UNSUPPORTED;
   PUBLISHED_SERVICE_UNAVAILABLE; ROUTE_EXPIRED; ROUTE_LIMIT_EXCEEDED; WORKSPACE_NOT_FOUND].
Definition failureClassOf (error : Failure) : string :=
  code_name match error with
  | ApiThrown e =>
      if includes PUBLISHED_SERVICE_FAILURE_CLASS_VALUES (code e) then code e else INTERNAL_ERROR
  | _ => INTERNAL_ERROR
  end.

Definition the_system : EventActor :=
  {| actor_type := system; actor_id := None; actor_display := None |}.
Definition service_scope (r : PublishedServiceRow) : Scope :=
  {| organisationId := ps_organisation_id r; projectId := ps_project_id r |}.

(** ** Statements *)

Definition service_checks (r : PublishedServiceRow) : constraints :=
  [("published_services_local_port_check", bool_decide (1 ≤ ps_local_port r ≤ 65535)%Z);
   ("published_services_protocol_check", includes ["http"; "https"] (ps_protocol r));
   ("published_services_scope_check", bool_decide (ps_scope r = "browser_session"));
   ("published_services_allowed_browser_session_ids_check",
     bool_decide (1 ≤ length (ps_allowed_browser_session_ids r) ≤ 32));
   ("published_services_failure_class_only_when_failed",
     bool_decide (ps_status r = ps_failed) || bool_decide (ps_failure_class r = None))].
Definition alias_taken (t : gmap string PublishedServiceRow) (r : PublishedServiceRow) : bool :=
  existsb (λ r', bool_decide (ps_id r' ≠ ps_id r)
                 && bool_decide (ps_public_alias r' = ps_public_alias r)) (rows t).

(** [insertRequested] *)
Definition insert_service (r : PublishedServiceRow) : M unit :=
  t ← gets published_services;
  guard_row (service_checks r)
    [("published_services_pkey", is_fresh t (ps_id r));
     ("published_services_alias_unique", negb (alias_taken t r))] ;;
  modify (λ d, with_published_services (<[ps_id r := r]> (published_services d)) d).

(** [UPDATE published_services SET ... WHERE id = $1 AND ... RETURNING]. *)
Definition update_service_where (id : string) (p : PublishedServiceRow → bool)
    (f : PublishedServiceRow → PublishedServiceRow) : M (option PublishedServiceRow) :=
  row ← gets (λ d, published_services d !! id);
  match row with
  | Some r =>
      if p r then
        guard_row (service_checks (f r)) [] ;;
        modify (λ d, with_published_services (<[id := f r]> (published_services d)) d) ;;
        mret (Some (f r))
      else mret None
  | None => mret None
  end.

Definition set_service (status : PublishedServiceStatus) (failure observed : option string)
    (ready ended : option Z) (r : PublishedServiceRow) : PublishedServiceRow :=
  {| ps_id := ps_id r; ps_organisation_id := ps_organisation_id r;
     ps_project_id := ps_project_id r; ps_connector_id := ps_connector_id r;
     ps_workspace_id := ps_workspace_id r; ps_public_alias := ps_public_alias r;
     ps_local_host := ps_local_host r; ps_local_port := ps_local_port r;
     ps_protocol := ps_protocol r; ps_scope := ps_scope r;
     ps_allowed_browser_session_ids := ps_allowed_browser_session_ids r;
     ps_expires_at := ps_expires_at r; ps_status := status; ps_failure_class := failure;
     ps_observed_destination := observed; ps_requested_at := ps_requested_at r;
     ps_ready_at := ready; ps_ended_at := ended |}.

Definition live_route (r : PublishedServiceRow) : bool :=
  bool_decide (ps_status r ∈ [ps_requested; ps_ready]).

Definition markReady (id observed : string) : M (option PublishedServiceRow) :=
  time ← now;
  update_service_where id (λ r, bool_decide (ps_status r = ps_requested))
    (λ r, set_service ps_ready (ps_failure_class r) (Some observed) (Some time) (ps_ended_at r) r).
Definition markFailed (id failure : string) : M (option PublishedServiceRow) :=
  time ← now;
  update_service_where id live_route
    (λ r, set_service ps_failed (Some failure) (ps_observed_destination r) (ps_ready_at r)
            (Some time) r).
Definition markEnded (id : string) (status : PublishedServiceStatus) : M (option PublishedServiceRow) :=
  time ← now;
  update_service_where id live_route
    (λ r, set_service status (ps_failure_class r) (ps_observed_destination r) (ps_ready_at r)
            (Some time) r).

Definition withdrawn (time : Z) (c : RouteCapabilityRow) : RouteCapabilityRow :=
  {| rc_id := rc_id c; rc_organisation_id := rc_organisation_id c;
     rc_project_id := rc_project_id c; rc_published_service_id := rc_published_service_id c;
     rc_browser_session_id := rc_browser_session_id c; rc_key_id := rc_key_id c;
     rc_issued_at := rc_issued_at c; rc_expires_at := rc_expires_at c;
     rc_revoked_at := Some time |}.
Definition live_capability (p : RouteCapabilityRow → bool) (c : RouteCapabilityRow) : bool :=
  p c && bool_decide (rc_revoked_at c = None).
(** [UPDATE route_capabilities SET revoked_at = now() WHERE ... AND revoked_at IS
    NULL RETURNING id]. *)
Definition withdraw_where (p : RouteCapabilityRow → bool) : M (list string) :=
  time ← now;
  ids ← gets (λ d, rc_id <$> select (live_capability p) (route_capabilities d));
  modify (λ d, with_route_capabilities
    ((λ c, if live_capability p c then withdrawn time c else c) <$> route_capabilities d) d) ;;
  mret ids.
Definition revokeCapabilitiesForService (id : string) : M (list string) :=
  withdraw_where (λ c, bool_decide (rc_published_service_id c = id)).

(** A session a capability may still be recorded for. *)
Definition session_alive (r : BrowserSessionRow) : bool :=
  bool_decide (bs_ended_at r = None)
  && negb (bool_decide (bs_status r ∈ [TERMINATED; FAILED; TERMINATING])).
(** [insertCapability]: nothing is written for a session that has ended. *)
Definition insertCapability (c : RouteCapabilityRow) : M bool :=
  session ← gets (λ d, browser_sessions d !! rc_browser_session_id c);
  if match session with Some r => session_alive r | None => false end then
    t ← gets route_capabilities;
    guard_row [("route_capabilities_check", bool_decide (rc_issued_at c < rc_expires_at c)%Z)]
      [("route_capabilities_pkey", is_fresh t (rc_id c))] ;;
    route ← gets (λ d, published_services d !! rc_published_service_id c);
    match route with
    | None => throwM (ForeignKeyViolation "route_capabilities_published_service_id_fkey")
    | Some _ =>
        modify (λ d, with_route_capabilities (<[rc_id c := c]> (route_capabilities d)) d) ;;
        mret true
    end
  else mret false.

(** ** Reads *)

Definition scope_covers (scope : SessionScope) (organisation project : string) : bool :=
  match sc_organisationId scope with None => true | Some o => bool_decide (organisation = o) end
  && match sc_projectIds scope with None => true | Some ids => includes ids project end.
Definition findInScope (id : string) (scope : SessionScope) (d : Db) : option PublishedServiceRow :=
  r ← published_services d !! id;
  if scope_covers scope (ps_organisation_id r) (ps_project_id r) then Some r else None.

(** [$3 IN (connectors.project_id, environments.project_id) OR (... IS NULL AND
    ... IS NULL)]. *)
Definition serves (project : string) (own environment : option string) : bool :=
  bool_decide (own = Some project) || bool_decide (environment = Some project)
  || (bool_decide (own = None) && bool_decide (environment = None)).
(** [findConnectorStatusInScope], and [findPublishableConnector] with its further
    term. *)
Definition findConnectorStatusInScope (id organisation project : string) (d : Db) :
    option ConnectorStatus :=
  c ← connectors d !! id;
  e ← environments d !! cn_environment_id c;
  if bool_decide (cn_organisation_id c = organisation)
     && serves project (cn_project_id c) (ev_project e)
  then Some (cn_status c) else None.
Definition findPublishableConnector (id organisation project : string) (d : Db) : bool :=
  bool_decide (findConnectorStatusInScope id organisation project d = Some C_ACTIVE).
Definition findWorkspaceInProject (id organisation project : string) (d : Db) : bool :=
  match workspaces d !! id with
  | Some w =>
      bool_decide (wk_organisation_id w = organisation) && bool_decide (wk_project_id w = project)
  | None => false
  end.
Definition session_in_project (organisation project : string) (d : Db) (id : string) : bool :=
  match browser_sessions d !! id with
  | Some r =>
      bool_decide (bs_organisation_id r = organisation) && bool_decide (bs_project_id r = project)
  | None => false
  end.
Definition findBrowserSessionsInProject (ids : list string) (organisation project : string) (d : Db) :
    list string :=
  filter (λ id, session_in_project organisation project d id = true) ids.
Definition countReadyForConnector (connector organisation : string) (d : Db) : Z :=
  count (select (λ r, bool_decide (ps_connector_id r = connector)
                      && bool_decide (ps_organisation_id r = organisation) && live_route r)
           (published_services d)).

(** [(limits ->> 'max_duration_seconds')::int], where the member is a number. *)
Definition max_duration (limits : json) : result Failure (option Z) :=
  match limits with
  | JObj ms =>
      match get_member "max_duration_seconds" ms with
      | None | Some JNull => Ok None
      | Some (JNum n) =>
          if int4 n then Ok (Some n) else Err (PlainError "integer out of range")
      | Some _ => Err (PlainError "invalid input syntax for type integer")
      end
  | _ => Ok None
  end.
Definition answered {A} (answer : result Failure A) : M A :=
  match answer with Ok a => mret a | Err e => throwM e end.

(** [findSessionLifetime]: when the session was created and how long it may
    last. *)
Definition findSessionLifetime (id organisation project : string) : M (option (Z * option Z)) :=
  session ← gets (λ d, browser_sessions d !! id);
  found ← gets (λ d, session_in_project organisation project d id);
  match session with
  | Some r =>
      if found : bool then
        limit ← answered (max_duration (bs_limits r));
        mret (Some (bs_created_at r, limit))
      else mret None
  | None => mret None
  end.

(** ** Views *)

Record SigningKey := { sk_keyId : string; sk_key : list byte; sk_ttlSeconds : Z }.
Class PublishedServiceConfig := {
  destinationPolicy : DestinationPolicy;
  internalSuffix : string;
  routeTtlMaxSeconds : Z;
  maxRoutesPerConnector : Z;
  capability : option SigningKey
}.

Record PublishedServiceView := {
  pv_id : string;
  pv_project_id : string;
  pv_connector_id : string;
  pv_workspace_id : string;
  pv_local_host : string;
  pv_local_port : Z;
  pv_protocol : string;
  pv_public_alias : string;
  pv_internal_origin : string;
  pv_scope : string;
  pv_allowed_browser_session_ids : list string;
  pv_expires_at : Z;
  pv_status : string;
  pv_failure_class : option string;
  pv_observed_destination : option string
}.

Section service.
Context `{Entropy} `{Hmac} `{PublishedServiceConfig}.

Definition origin (alias : string) : string := "https://" +:+ alias +:+ "." +:+ internalSuffix +:+ "/".
Definition view (r : PublishedServiceRow) : PublishedServiceView :=
  {| pv_id := ps_id r; pv_project_id := ps_project_id r; pv_connector_id := ps_connector_id r;
     pv_workspace_id := ps_workspace_id r; pv_local_host := ps_local_host r;
     pv_local_port := ps_local_port r; pv_protocol := ps_protocol r;
     pv_public_alias := ps_public_alias r; pv_internal_origin := origin (ps_public_alias r);
     pv_scope := ps_scope r;
     pv_allowed_browser_session_ids := ps_allowed_browser_session_ids r;
     pv_expires_at := ps_expires_at r; pv_status := service_status_name (ps_status r);
     pv_failure_class := ps_failure_class r;
     pv_observed_destination := ps_observed_destination r |}.

(** [#read] *)
Definition read (serviceId : string) (scope : SessionScope) : M PublishedServiceRow :=
  found ← gets (findInScope serviceId scope);
  unless_none found (mk_ApiError RESOURCE_NOT_FOUND "No such published service." None None None).

(** ** Requesting *)

Record CreatePublishedServiceInput := {
  pi_projectId : string;
  pi_organisationId : string;
  pi_connectorId : string;
  pi_workspaceId : string;
  pi_localHost : string;
  pi_localPort : Dec;
  pi_protocol : string;
  pi_ttlSeconds : Z;
  pi_allowedBrowserSessionIds : list string
}.

Definition in_field (field : string) : members := [("field", JStr field)].
Definition input_destination (input : CreatePublishedServiceInput) : Destination :=
  {| host := pi_localHost input; port := pi_localPort input; protocol := pi_protocol input |}.

(** What [request] decides on the input alone. *)
Definition request_checks (input : CreatePublishedServiceInput) : result ApiError unit :=
  let sessions := pi_allowedBrowserSessionIds input in
  if bool_decide (length sessions = 0) then
    throw VALIDATION_FAILED "A published service must authorise at least one browser session."
      (in_field "allowed_browser_session_ids")
  else if bool_decide (32 < length sessions) then
    throw VALIDATION_FAILED "A published service may authorise at most 32 browser sessions."
      (in_field "allowed_browser_session_ids")
  else if bool_decide (pi_ttlSeconds input ≤ 0)%Z
          || bool_decide (routeTtlMaxSeconds < pi_ttlSeconds input)%Z then
    Err (mk_ApiError ROUTE_EXPIRED "The requested route lifetime is not permitted."
           (Some [("max_ttl_seconds", JNum routeTtlMaxSeconds)]) (Some 422%Z) None)
  else match evaluateDestination destinationPolicy (input_destination input) with
  | Some rejection =>
      throw DESTINATION_NOT_ALLOWED "That local destination may not be published."
        [("reason", JStr (rejection_name rejection))]
  | None => Ok tt
  end.

(** [#explainConnectorRefusal] *)
Definition explainConnectorRefusal (input : CreatePublishedServiceInput) (d : Db) : ApiError :=
  match findConnectorStatusInScope (pi_connectorId input) (pi_organisationId input)
          (pi_projectId input) d with
  | None => api_error RESOURCE_NOT_FOUND "No such connector in this project." (in_field "connector_id")
  | Some status =>
      let details := in_field "connector_id"
                     ++ [("connector_status", JStr (connector_status_name status))] in
      if bool_decide (status = C_REVOKED) then
        api_error IDENTITY_REVOKED "This connector's identity has been revoked, so it may not carry a route. Enrol the development machine again, or publish through another connector." details
      else
        api_error CONNECTOR_OFFLINE "This connector is not connected, so there is nothing to publish through. It reconnects on its own; retry once it reports." details
  end.

(** What it decides on the tables. *)
Definition reference_checks (input : CreatePublishedServiceInput) (d : Db) : result ApiError unit :=
  let organisation := pi_organisationId input in
  let project := pi_projectId input in
  if negb (findPublishableConnector (pi_connectorId input) organisation project d) then
    Err (explainConnectorRefusal input d)
  else if negb (findWorkspaceInProject (pi_workspaceId input) organisation project d) then
    throw WORKSPACE_NOT_FOUND "No such workspace in this project." (in_field "workspace_id")
  else
    let reachable := findBrowserSessionsInProject (pi_allowedBrowserSessionIds input)
                       organisation project d in
    if existsb (λ id, negb (includes reachable id)) (pi_allowedBrowserSessionIds input) then
      throw RESOURCE_NOT_FOUND "A browser session named here does not belong to this project."
        (in_field "allowed_browser_session_ids")
    else if bool_decide (maxRoutesPerConnector
                         ≤ countReadyForConnector (pi_connectorId input) organisation d)%Z then
      throw ROUTE_LIMIT_EXCEEDED "This connector already carries the maximum number of routes."
        [("max_routes", JNum maxRoutesPerConnector)]
    else Ok tt.

Definition requested_row (id alias : string) (time : Z) (input : CreatePublishedServiceInput) :
    PublishedServiceRow :=
  {| ps_id := id; ps_organisation_id := pi_organisationId input;
     ps_project_id := pi_projectId input; ps_connector_id := pi_connectorId input;
     ps_workspace_id := pi_workspaceId input; ps_public_alias := alias;
     ps_local_host := pi_localHost input; ps_local_port := integer_of (pi_localPort input);
     ps_protocol := pi_protocol input; ps_scope := "browser_session";
     ps_allowed_browser_session_ids := pi_allowedBrowserSessionIds input;
     ps_expires_at := time + pi_ttlSeconds input * 1000; ps_status := ps_requested;
     ps_failure_class := None; ps_observed_destination := None; ps_requested_at := time;
     ps_ready_at := None; ps_ended_at := None |}.

Definition strings (l : list string) : json := JArr (JStr <$> l).
Definition request_statements (id alias : string) (time : Z) (input : CreatePublishedServiceInput)
    (actor : EventActor) (requestId : string) : M PublishedServiceView :=
  checked ← gets (reference_checks input);
  lift checked ;;
  let record := requested_row id alias time input in
  insert_service record ;;
  append_at time "published_service.requested" (service_scope record) actor
    [("request_id", JStr requestId); ("published_service_id", JStr id);
     ("connector_id", JStr (pi_connectorId input))]
    [("published_service_id", JStr id); ("connector_id", JStr (pi_connectorId input));
     ("workspace_id", JStr (pi_workspaceId input)); ("local_host", JStr (pi_localHost input));
     ("local_port", JNum (ps_local_port record)); ("protocol", JStr (pi_protocol input));
     ("public_alias", JStr alias); ("expires_at", JDate (ps_expires_at record));
     ("allowed_browser_session_ids", strings (pi_allowedBrowserSessionIds input));
     ("new_status", JStr "requested")] ;;
  mret (view record).

Definition request (input : CreatePublishedServiceInput) (actor : EventActor) (requestId : string) :
    M PublishedServiceView :=
  lift (request_checks input) ;;
  id ← randomUUID;
  alias ← randomUUID;
  time ← now;
  inTransaction (request_statements ("svc_" +:+ id) ("svc-" +:+ alias) time input actor requestId).

(** ** Completing *)

Record GatewayRouteView := {
  gr_observed_destination : string;
  gr_internal_origin : string;
  gr_connector_connected : bool
}.
(** What the connector and then the gateway answer. *)
Record PublicationAnswers := {
  pa_publish : result Failure string;
  pa_register : result Failure GatewayRouteView
}.

Definition no_longer_pending : Failure :=
  ApiThrown (mk_ApiError PUBLISHED_SERVICE_UNAVAILABLE "This route is no longer pending." None None None).
Definition settlePublication (record : PublishedServiceRow) (actor : EventActor) (requestId : string)
    (registered : GatewayRouteView) : M PublishedServiceView :=
  inTransaction (
    ready ← markReady (ps_id record) (gr_observed_destination registered);
    match ready with
    | None => throwM no_longer_pending
    | Some r =>
        append "published_service.ready" (service_scope record) actor
          [("request_id", JStr requestId); ("published_service_id", JStr (ps_id record));
           ("connector_id", JStr (ps_connector_id record))]
          [("published_service_id", JStr (ps_id record)); ("previous_status", JStr "requested");
           ("new_status", JStr "ready");
           ("observed_destination", JStr (gr_observed_destination registered));
           ("internal_origin", JStr (gr_internal_origin registered));
           ("connector_connected", JBool (gr_connector_connected registered))] ;;
        mret (view r)
    end).
(** The [catch] of [complete]. *)
Definition failPublication {A} (record : PublishedServiceRow) (actor : EventActor) (requestId : string)
    (error : Failure) : M A :=
  inTransaction (
    failed ← markFailed (ps_id record) (failureClassOf error);
    match failed with
    | None => mret tt
    | Some _ =>
        append "published_service.failed" (service_scope record) actor
          [("request_id", JStr requestId); ("published_service_id", JStr (ps_id record))]
          [("published_service_id", JStr (ps_id record)); ("previous_status", JStr "requested");
           ("new_status", JStr "failed"); ("error_class", JStr (failureClassOf error))]
    end) ;;
  throwM error.

(** [complete] from the gateway's answer on. *)
Definition finishPublication (record : PublishedServiceRow) (actor : EventActor) (requestId : string)
    (answer : result Failure GatewayRouteView) : M PublishedServiceView :=
  catching (registered ← answered answer; settlePublication record actor requestId registered)
    (failPublication record actor requestId).
Definition complete (answers : PublicationAnswers) (serviceId : string) (actor : EventActor)
    (requestId : string) : M PublishedServiceView :=
  record ← read serviceId DEPLOYMENT_SCOPE;
  if negb (bool_decide (ps_status record = ps_requested)) then mret (view record)
  else match pa_publish answers with
  | Err error => failPublication record actor requestId error
  | Ok _ => finishPublication record actor requestId (pa_register answers)
  end.

Definition create (answers : PublicationAnswers) (input : CreatePublishedServiceInput)
    (actor : EventActor) (requestId : string) : M PublishedServiceView :=
  requested ← request input actor requestId;
  complete answers (pv_id requested) actor requestId.

(** [findPending], [findDueForExpiry]. *)
Definition findPending (requestedBefore : Z) (limit : nat) (d : Db) : list PublishedServiceRow :=
  take limit (order_by ps_requested_at ps_id
    (select (λ r, bool_decide (ps_status r = ps_requested)
                  && bool_decide (ps_requested_at r ≤ requestedBefore)%Z) (published_services d))).
Definition findDueForExpiry (time : Z) (limit : nat) (d : Db) : list PublishedServiceRow :=
  take limit (order_by ps_expires_at ps_id
    (select (λ r, live_route r && bool_decide (ps_expires_at r ≤ time)%Z) (published_services d))).

(** A refusal does not stop the sweep: it is on the record, which is read again. *)
Definition completePending (answers : string → PublicationAnswers) (olderThanMs : Z) (limit : nat) :
    M (list PublishedServiceView) :=
  time ← now;
  pending ← gets (findPending (time - olderThanMs) limit);
  finished ← collect (λ record,
    catching
      (done ← complete (answers (ps_id record)) (ps_id record) the_system ("sweep_" +:+ ps_id record);
       mret (Some done))
      (λ _, gets (λ d, view <$> findInScope (ps_id record) DEPLOYMENT_SCOPE d))) pending;
  mret (omap id finished).

(** [list], newest first. *)
Definition listServices (projectId : string) (scope : SessionScope) (limit : nat) :
    M (list PublishedServiceView) :=
  gets (λ d, view <$> take limit (reverse (order_by ps_requested_at ps_id
    (select (λ r, bool_decide (ps_project_id r = projectId)
                  && scope_covers scope (ps_organisation_id r) (ps_project_id r))
       (published_services d))))).

(** ** Ending *)

(** [revoke], once the gateway has answered. *)
Definition finishRevoke (existing : PublishedServiceRow) (actor : EventActor) (requestId : string) :
    M PublishedServiceView :=
  inTransaction (
    ended ← markEnded (ps_id existing) ps_revoked;
    match ended with
    | None => mret (view existing)
    | Some r =>
        revokedCapabilities ← revokeCapabilitiesForService (ps_id existing);
        append "published_service.revoked" (service_scope r) actor
          [("request_id", JStr requestId); ("published_service_id", JStr (ps_id existing));
           ("connector_id", JStr (ps_connector_id r))]
          [("published_service_id", JStr (ps_id existing));
           ("previous_status", JStr (service_status_name (ps_status existing)));
           ("new_status", JStr "revoked");
           ("revoked_capability_ids", strings revokedCapabilities)] ;;
        mret (view r)
    end).
Definition revoke (gateway : result Failure unit) (serviceId : string) (scope : SessionScope)
    (actor : EventActor) (requestId : string) : M PublishedServiceView :=
  existing ← read serviceId scope;
  answered gateway ;;
  finishRevoke existing actor requestId.

(** One route of [expireDue], once the gateway has answered. *)
Definition expireOne (time : Z) (service : PublishedServiceRow) : M (option PublishedServiceView) :=
  inTransaction (
    ended ← markEnded (ps_id service) ps_expired;
    match ended with
    | None => mret None
    | Some r =>
        revokeCapabilitiesForService (ps_id service) ;;
        append_at time "published_service.expired" (service_scope r) the_system
          [("published_service_id", JStr (ps_id service)); ("connector_id", JStr (ps_connector_id r))]
          [("published_service_id", JStr (ps_id service));
           ("previous_status", JStr (service_status_name (ps_status service)));
           ("new_status", JStr "expired"); ("expires_at", JDate (ps_expires_at r))] ;;
        mret (Some (view r))
    end).
(** A gateway that cannot be reached stops the sweep. *)
Definition expireDue (gateway : string → result Failure unit) (limit : nat) :
    M (list PublishedServiceView) :=
  time ← now;
  due ← gets (findDueForExpiry time limit);
  expired ← collect (λ service,
    answered (gateway (ps_id service)) ;; expireOne time service) due;
  mret (omap id expired).
End service.

(** ** Minting *)

Record MintedCapability := {
  mc_capability_id : string;
  mc_capability : string;
  mc_browser_session_id : string;
  mc_internal_origin : string;
  mc_expires_at : Z
}.
(** What [mint] has decided before its transaction. *)
Record MintPlan := {
  mp_key : SigningKey;
  mp_service : PublishedServiceRow;
  mp_browserSessionId : string;
  mp_time : Z;
  mp_expiresAt : Z
}.

Section minting.
Context `{Entropy} `{Hmac} `{PublishedServiceConfig}.

Definition refusal {A} (c : ApiErrorCode) (m : string) (d : option members) : result ApiError A :=
  Err (mk_ApiError c m d None None).
Definition not_authorised {A} : result ApiError A :=
  refusal AUTHORISATION_DENIED
    "That browser session is not authorised for this published service." None.

(** The bounds a capability's life has: its own, the route's and the session's. *)
Definition capability_expiry (time ttlSeconds : Z) (service : PublishedServiceRow)
    (created : Z) (limit : option Z) : Z :=
  let bound := Z.min (time + ttlSeconds * 1000) (ps_expires_at service) in
  match limit with
  | None => bound
  | Some seconds => Z.min bound (created + seconds * 1000)
  end.

Definition check_lifetime (key : SigningKey) (ttlSeconds time expiresAt created : Z) (limit : option Z) :
    result ApiError unit :=
  if bool_decide (ttlSeconds ≤ 0)%Z || bool_decide (sk_ttlSeconds key < ttlSeconds)%Z then
    refusal VALIDATION_FAILED "The requested capability lifetime is not permitted."
      (Some [("max_ttl_seconds", JNum (sk_ttlSeconds key))])
  else if bool_decide (expiresAt ≤ time)%Z then
    if match limit with
       | Some seconds => bool_decide (created + seconds * 1000 ≤ time)%Z
       | None => false
       end
    then refusal BROWSER_SESSION_NOT_ACTIVE "This browser session has reached its maximum duration, and a route capability may not outlive the session it was minted for. Start a new session." None
    else refusal ROUTE_EXPIRED "This published service has expired." None
  else Ok tt.

(** [mint] up to the token. *)
Definition decideMint (serviceId browserSessionId : string) (ttlSeconds : option Z)
    (scope : SessionScope) : M MintPlan :=
  key ← unless_none capability (mk_ApiError UNSUPPORTED_CAPABILITY
    "This process holds no capability signing key and cannot mint route capabilities." None None None);
  service ← read serviceId scope;
  lift (if negb (bool_decide (ps_status service = ps_ready)) then
          refusal PUBLISHED_SERVICE_UNAVAILABLE "This published service is not carrying traffic."
            (Some [("status", JStr (service_status_name (ps_status service)))])
        else if negb (includes (ps_allowed_browser_session_ids service) browserSessionId) then
          not_authorised
        else Ok tt) ;;
  session ← findSessionLifetime browserSessionId (ps_organisation_id service) (ps_project_id service);
  '(created, limit) ← lift (match session with Some found => Ok found | None => not_authorised end);
  time ← now;
  let requested := default (sk_ttlSeconds key) ttlSeconds in
  let expiresAt := capability_expiry time requested service created limit in
  lift (check_lifetime key requested time expiresAt created limit) ;;
  mret {| mp_key := key; mp_service := service; mp_browserSessionId := browserSessionId;
          mp_time := time; mp_expiresAt := expiresAt |}.

Definition capability_row (id : string) (plan : MintPlan) : RouteCapabilityRow :=
  {| rc_id := id; rc_organisation_id := ps_organisation_id (mp_service plan);
     rc_project_id := ps_project_id (mp_service plan);
     rc_published_service_id := ps_id (mp_service plan);
     rc_browser_session_id := mp_browserSessionId plan; rc_key_id := sk_keyId (mp_key plan);
     rc_issued_at := mp_time plan; rc_expires_at := mp_expiresAt plan; rc_revoked_at := None |}.
Definition capability_claims (id : string) (plan : MintPlan) : CapabilityClaims string :=
  mk_claims (sk_keyId (mp_key plan)) id (ps_id (mp_service plan)) (ps_project_id (mp_service plan))
    (mp_browserSessionId plan) (mp_time plan / 1000) (mp_expiresAt plan / 1000).

(** The token and the transaction of [mint]. *)
Definition issue (plan : MintPlan) (actor : EventActor) (requestId : string) : M MintedCapability :=
  suffix ← randomUUID;
  let capabilityId := "cap_" +:+ suffix in
  token ← match mintCapability (sk_key (mp_key plan)) (capability_claims capabilityId plan) with
          | Ok token => mret token
          | Err message => throwM (PlainError message)
          end;
  inTransaction (
    recorded ← insertCapability (capability_row capabilityId plan);
    lift (if negb recorded then
            refusal BROWSER_SESSION_NOT_ACTIVE "This browser session ended before its route capability could be recorded, so none was issued." None
          else Ok tt) ;;
    append_at (mp_time plan) "published_service.ready" (service_scope (mp_service plan)) actor
      [("request_id", JStr requestId); ("published_service_id", JStr (ps_id (mp_service plan)));
       ("browser_session_id", JStr (mp_browserSessionId plan))]
      [("published_service_id", JStr (ps_id (mp_service plan)));
       ("capability_id", JStr capabilityId);
       ("browser_session_id", JStr (mp_browserSessionId plan));
       ("key_id", JStr (sk_keyId (mp_key plan))); ("expires_at", JDate (mp_expiresAt plan))]) ;;
  mret {| mc_capability_id := capabilityId; mc_capability := token;
          mc_browser_session_id := mp_browserSessionId plan;
          mc_internal_origin := origin (ps_public_alias (mp_service plan));
          mc_expires_at := mp_expiresAt plan |}.

Definition mint (serviceId browserSessionId : string) (ttlSeconds : option Z) (scope : SessionScope)
    (actor : EventActor) (requestId : string) : M MintedCapability :=
  plan ← decideMint serviceId browserSessionId ttlSeconds scope;
  issue plan actor requestId.

(** [revokeCapabilitiesForSession]; the gateway is told of each before, and a
    gateway that refuses changes nothing here. *)
Definition findLiveCapabilitiesForSession (browserSessionId : string) (d : Db) : list string :=
  rc_id <$> reverse (order_by rc_issued_at rc_id
    (select (live_capability (λ c, bool_decide (rc_browser_session_id c = browserSessionId)))
       (route_capabilities d))).
Definition revokeCapabilitiesForSession (browserSessionId : string) : M (list string) :=
  live ← gets (findLiveCapabilitiesForSession browserSessionId);
  if bool_decide (live = []) then mret []
  else inTransaction (withdraw_where (λ c, bool_decide (rc_browser_session_id c = browserSessionId))).

(** ** Binding a session to a route *)

Record BindableRoute := {
  br_published_service_id : string;
  br_public_alias : string;
  br_route_status : PublishedServiceStatus;
  br_route_expires_at : Z;
  br_connector_id : string;
  br_connector_status : ConnectorStatus;
  br_session_authorised : bool;
  br_session_created_at : Z;
  br_session_max_duration_seconds : option Z;
  br_organisation_id : string;
  br_project_id : string
}.

(** [findBindableRoute]: the four records of the join. *)
Definition bindable (publishedServiceId browserSessionId : string) (scope : SessionScope) (d : Db) :
    option (PublishedServiceRow * BrowserSessionRow * ProjectRow * ConnectorRow) :=
  s ← published_services d !! publishedServiceId;
  b ← browser_sessions d !! browserSessionId;
  p ← projects d !! ps_project_id s;
  c ← connectors d !! ps_connector_id s;
  if bool_decide (bs_project_id b = ps_project_id s)
     && scope_covers scope (pj_organisation_id p) (ps_project_id s)
  then Some (s, b, p, c) else None.
Definition findBindableRoute (publishedServiceId browserSessionId : string) (scope : SessionScope) :
    M (option BindableRoute) :=
  found ← gets (bindable publishedServiceId browserSessionId scope);
  match found with
  | None => mret None
  | Some (s, b, p, c) =>
      limit ← answered (max_duration (bs_limits b));
      mret (Some
        {| br_published_service_id := ps_id s; br_public_alias := ps_public_alias s;
           br_route_status := ps_status s; br_route_expires_at := ps_expires_at s;
           br_connector_id := ps_connector_id s; br_connector_status := cn_status c;
           br_session_authorised := includes (ps_allowed_browser_session_ids s) (bs_id b);
           br_session_created_at := bs_created_at b; br_session_max_duration_seconds := limit;
           br_organisation_id := pj_organisation_id p; br_project_id := ps_project_id s |})
  end.

Definition readAdmissible (publishedServiceId browserSessionId : string) (scope : SessionScope) :
    M BindableRoute :=
  found ← findBindableRoute publishedServiceId browserSessionId scope;
  route ← unless_none found
    (mk_ApiError RESOURCE_NOT_FOUND "No such published service." None None None);
  lift (if negb (br_session_authorised route) then
          throw AUTHORISATION_DENIED "That browser session is not authorised for this published service. A route names the sessions it authorises when it is published; reserve a session first and publish a route that names it."
            [("published_service_id", JStr (br_published_service_id route))]
        else Ok tt) ;;
  mret route.
Definition existsUnscoped (publishedServiceId : string) : M bool :=
  gets (λ d, bool_decide (published_services d !! publishedServiceId ≠ None)).

Definition check_bindable (time : Z) (route : BindableRoute) : result ApiError unit :=
  let id := ("published_service_id", JStr (br_published_service_id route)) in
  let status := connector_status_name (br_connector_status route) in
  if bool_decide (br_route_expires_at route ≤ time)%Z then
    throw ROUTE_EXPIRED "This published service has expired." [id]
  else if negb (bool_decide (br_route_status route = ps_ready)) then
    throw PUBLISHED_SERVICE_UNAVAILABLE "This published service is not carrying traffic."
      [("status", JStr (service_status_name (br_route_status route))); id]
  else if negb (bool_decide (br_connector_status route = C_ACTIVE)) then
    if bool_decide (br_connector_status route = C_REVOKED) then
      throw IDENTITY_REVOKED "The connector carrying this route has had its identity revoked, so the route reaches nothing. Publish through another connector."
        [("connector_status", JStr status); id]
    else
      throw CONNECTOR_OFFLINE "The connector carrying this route is not connected, so the route reaches nothing. It reconnects on its own; retry once it reports."
        [("connector_status", JStr status); id]
  else Ok tt.
Definition readBindable (publishedServiceId browserSessionId : string) (scope : SessionScope) :
    M BindableRoute :=
  route ← readAdmissible publishedServiceId browserSessionId scope;
  time ← now;
  lift (check_bindable time route) ;;
  mret route.

(** [PublishedServiceBinder]: [authorise] and [bind]. *)
Definition project_scope (organisation project : string) : SessionScope :=
  {| sc_organisationId := Some organisation; sc_projectIds := Some [project] |}.
Definition authorise (publishedServiceId organisation project browserSessionId : string) : M unit :=
  readAdmissible publishedServiceId browserSessionId (project_scope organisation project) ;; mret tt.
(** [minted.internal_origin.replace(/\/$/u, "")]. *)
Definition without_slash (origin : string) : string :=
  if ends_with "/" origin then slice_to (String.length origin - 1) origin else origin.
Definition bind (publishedServiceId organisation project browserSessionId : string)
    (actor : EventActor) (requestId : string) : M (ServiceBinding * string) :=
  let scope := project_scope organisation project in
  route ← readBindable publishedServiceId browserSessionId scope;
  minted ← mint (br_published_service_id route) browserSessionId None scope actor requestId;
  mret ({| sb_publishedServiceId := br_published_service_id route;
           sb_serviceOrigin := without_slash (mc_internal_origin minted) |}, mc_capability minted).
End minting.
