(* ===== verification/Reconciliation.v ===== *)
(** * Reconciliation after a connector reconnects
    ([src/apps/server/src/modules/connectors/reconciliation.ts],
    [src/apps/server/src/modules/published-services/reconciliation.ts])

    The decision table, and what is done with it.  The gateway's answers are
    arguments; the log lines and the classification of the connector's version
    are left out. *)

From S2P Require Import Prelude Errors ReviewProtocol BrowserProtocol ReviewDomain Events ControlAuthorisation DestinationPolicy Store BrowserSessions PublishedServices.

(** ** The decision table *)

Definition MAX_DECISIONS : nat := 16.

Record AuthoritativeRoute := {
  au_routeId : string;
  au_projectId : string;
  au_connectorId : string;
  au_workspaceId : string;
  au_localHost : string;
  au_localPort : Z;
  au_protocol : string;
  au_expiresAt : Z;
  au_status : PublishedServiceStatus;
  au_allowedBrowserSessionIds : list string;
  au_observedDestination : option string
}.
Record ClaimedRoute := {
  cm_routeId : string;
  cm_projectId : string;
  cm_workspaceId : string;
  cm_observedDestination : string
}.

Inductive RouteVerdict := v_continue | v_revoke.
#[export] Instance RouteVerdict_eq_dec : EqDecision RouteVerdict.
Proof. solve_decision. Defined.
Inductive RouteDecisionReason :=
| rr_authorised | rr_unknown_route | rr_expired | rr_revoked | rr_not_authorised
| rr_destination_mismatch.
Definition reason_name (r : RouteDecisionReason) : string :=
  match r with
  | rr_authorised => "authorised"
  | rr_unknown_route => "unknown_route"
  | rr_expired => "expired"
  | rr_revoked => "revoked"
  | rr_not_authorised => "not_authorised"
  | rr_destination_mismatch => "destination_mismatch"
  end.

Record RoutePublish := {
  rp_route_id : string;
  rp_project_id : string;
  rp_workspace_id : string;
  rp_local_host : string;
  rp_local_port : Z;
  rp_protocol : string;
  rp_expires_at : Z;
  rp_allowed_browser_session_ids : list string
}.
Record RouteDecision := {
  rd_route_id : string;
  rd_decision : RouteVerdict;
  rd_reason : RouteDecisionReason;
  rd_route : option RoutePublish
}.
Inductive RouteClosure := closed_expired | closed_revoked | closed_none.
#[export] Instance RouteClosure_eq_dec : EqDecision RouteClosure.
Proof. solve_decision. Defined.
Record ReconciledRoute := {
  rn_decision : RouteDecision;
  rn_closure : RouteClosure;
  rn_record : option AuthoritativeRoute
}.

Definition formatDestination (host : string) (port : Z) : string :=
  (if contains ":" host then "[" +:+ host +:+ "]" else host) +:+ ":" +:+ pretty port.

Definition restate (record : AuthoritativeRoute) : RoutePublish :=
  {| rp_route_id := au_routeId record; rp_project_id := au_projectId record;
     rp_workspace_id := au_workspaceId record; rp_local_host := au_localHost record;
     rp_local_port := au_localPort record; rp_protocol := au_protocol record;
     rp_expires_at := au_expiresAt record;
     rp_allowed_browser_session_ids := au_allowedBrowserSessionIds record |}.
Definition refuse_route (routeId : string) (reason : RouteDecisionReason) (closure : RouteClosure)
    (record : option AuthoritativeRoute) : ReconciledRoute :=
  {| rn_decision := {| rd_route_id := routeId; rd_decision := v_revoke; rd_reason := reason;
                       rd_route := None |};
     rn_closure := closure; rn_record := record |}.
Definition continue_route (record : AuthoritativeRoute) : ReconciledRoute :=
  {| rn_decision := {| rd_route_id := au_routeId record; rd_decision := v_continue;
                       rd_reason := rr_authorised; rd_route := Some (restate record) |};
     rn_closure := closed_none; rn_record := Some record |}.

(** One claim against the record it names. *)
Definition decide_claim (connectorId : string) (time : Z) (claim : ClaimedRoute)
    (record : option AuthoritativeRoute) : ReconciledRoute :=
  let id := cm_routeId claim in
  match record with
  | None => refuse_route id rr_unknown_route closed_none None
  | Some r =>
      if negb (bool_decide (au_connectorId r = connectorId)) then
        refuse_route id rr_not_authorised closed_none record
      else if bool_decide (au_status r = ps_expired) then
        refuse_route id rr_expired closed_none record
      else if negb (bool_decide (au_status r = ps_ready)) then
        refuse_route id rr_revoked
          (if bool_decide (au_status r = ps_requested) then closed_revoked else closed_none) record
      else if bool_decide (au_expiresAt r ≤ time)%Z then
        refuse_route id rr_expired closed_expired record
      else if negb (bool_decide (cm_projectId claim = au_projectId r))
              || negb (bool_decide (cm_workspaceId claim = au_workspaceId r)) then
        refuse_route id rr_not_authorised closed_revoked record
      else if negb (bool_decide (cm_observedDestination claim =
                default (formatDestination (au_localHost r) (au_localPort r))
                  (au_observedDestination r))) then
        refuse_route id rr_destination_mismatch closed_revoked record
      else continue_route r
  end.
(** A route of the connector's that it did not claim. *)
Definition decide_unclaimed (time : Z) (r : AuthoritativeRoute) : ReconciledRoute :=
  if bool_decide (au_expiresAt r ≤ time)%Z then
    refuse_route (au_routeId r) rr_expired closed_expired (Some r)
  else continue_route r.

Definition entry_id (e : ReconciledRoute) : string := rd_route_id (rn_decision e).
(** [byId.get(id)]: of two records with one identifier the later. *)
Definition record_of (authoritative : list AuthoritativeRoute) (id : string) : option AuthoritativeRoute :=
  last (filter (λ r, au_routeId r = id) authoritative).
Definition add_claim (connectorId : string) (time : Z) (authoritative : list AuthoritativeRoute)
    (decisions : list ReconciledRoute) (claim : ClaimedRoute) : list ReconciledRoute :=
  if includes (entry_id <$> decisions) (cm_routeId claim) then decisions
  else decisions ++ [decide_claim connectorId time claim (record_of authoritative (cm_routeId claim))].
Definition add_unclaimed (connectorId : string) (time : Z) (decisions : list ReconciledRoute)
    (r : AuthoritativeRoute) : list ReconciledRoute :=
  if negb (bool_decide (au_connectorId r = connectorId)) then decisions
  else if negb (bool_decide (au_status r = ps_ready)) then decisions
  else if includes (entry_id <$> decisions) (au_routeId r) then decisions
  else decisions ++ [decide_unclaimed time r].

(** [ORDER BY id], and JavaScript's order of strings. *)
Definition by_id {A} (id : A → string) : list A → list A := order_by (λ _, 0%Z) id.
Definition reconcileRoutes (connectorId : string) (claimed : list ClaimedRoute)
    (authoritative : list AuthoritativeRoute) (time : Z) : list ReconciledRoute :=
  by_id entry_id
    (foldl (add_unclaimed connectorId time)
       (foldl (add_claim connectorId time authoritative) [] claimed) authoritative).
Definition boundDecisions (routes : list ReconciledRoute) : list ReconciledRoute :=
  take MAX_DECISIONS routes.

Inductive SessionVerdict := v_re_establish | v_end.
Definition SessionDecision : Type := string * SessionVerdict.
Definition sessions_of (e : ReconciledRoute) : list string :=
  match rn_record e with Some r => au_allowedBrowserSessionIds r | None => [] end.
Definition continues_route (e : ReconciledRoute) : bool :=
  bool_decide (rd_decision (rn_decision e) = v_continue).
(** [[...new Set(l)].sort()]. *)
Definition sorted_set (l : list string) : list string := by_id id (remove_dups l).
Definition decideSessions (routes : list ReconciledRoute) : list SessionDecision :=
  let resumed := routes ≫= (λ e, if continues_route e then sessions_of e else []) in
  let ended := routes ≫= (λ e, if continues_route e then [] else sessions_of e) in
  take MAX_DECISIONS
    (((λ id, (id, v_re_establish)) <$> sorted_set resumed)
     ++ ((λ id, (id, v_end)) <$> filter (λ id, includes resumed id = false) (sorted_set ended))).

(** ** Reads *)

Definition MAX_LIVE_ROUTES : nat := 256.

Definition toAuthoritative (r : PublishedServiceRow) : AuthoritativeRoute :=
  {| au_routeId := ps_id r; au_projectId := ps_project_id r; au_connectorId := ps_connector_id r;
     au_workspaceId := ps_workspace_id r; au_localHost := ps_local_host r;
     au_localPort := ps_local_port r;
     au_protocol := if bool_decide (ps_protocol r = "https") then "https" else "http";
     au_expiresAt := ps_expires_at r; au_status := ps_status r;
     au_allowedBrowserSessionIds := ps_allowed_browser_session_ids r;
     au_observedDestination := ps_observed_destination r |}.

Definition live_for (connectorId : string) (r : PublishedServiceRow) : bool :=
  bool_decide (ps_connector_id r = connectorId) && live_route r.
Definition findLiveForConnector (connectorId : string) (limit : nat) (d : Db) :
    list PublishedServiceRow :=
  take limit (by_id ps_id (select (live_for connectorId) (published_services d))).
Definition findByIds (ids : list string) (d : Db) : list PublishedServiceRow :=
  by_id ps_id (select (λ r, includes ids (ps_id r)) (published_services d)).
(** What [reconcile] reads, both queries of one snapshot. *)
Definition authoritative_routes (connectorId : string) (claimed : list ClaimedRoute) (d : Db) :
    list AuthoritativeRoute :=
  let own := findLiveForConnector connectorId MAX_LIVE_ROUTES d in
  let named := findByIds (cm_routeId <$> claimed) d in
  toAuthoritative <$> own ++ filter (λ r, includes (ps_id <$> own) (ps_id r) = false) named.

Definition bound_to (connectorId : string) (d : Db) (s : BrowserSessionRow) : bool :=
  match bs_published_service_id s with
  | Some id =>
      match published_services d !! id with
      | Some r => bool_decide (ps_connector_id r = connectorId)
      | None => false
      end
  | None => false
  end.
Definition findLiveSessionsForConnector (connectorId : string) (d : Db) : list BrowserSessionRow :=
  by_id bs_id (select (λ s, bound_to connectorId d s && session_alive s) (browser_sessions d)).
Definition findLiveSessionsByIds (ids : list string) (d : Db) : list BrowserSessionRow :=
  by_id bs_id (select (λ s, includes ids (bs_id s) && session_alive s) (browser_sessions d)).

(** ** Statements *)

(** [setSessionStatus]: the status the session had. *)
Definition setSessionStatus (id : string) (status : SessionStatus) (from : list SessionStatus) :
    M (option SessionStatus) :=
  current ← gets (λ d, browser_sessions d !! id);
  changed ← update_session_where id (λ r, bool_decide (bs_status r ∈ from))
              (λ r, set_status status (bs_ended_at r) r);
  mret (if changed : bool then bs_status <$> current else None).

Class ReconcilerConfig := reconciler_organisation : string.

(** A route that is to end: what the record and the event will say. *)
Record Closing := {
  cg_route : string;
  cg_expired : bool;
  cg_actor : EventActor;
  cg_correlation : members;
  cg_payload : members
}.
Definition closing_status (c : Closing) : PublishedServiceStatus :=
  if cg_expired c then ps_expired else ps_revoked.

Section reconciler.
Context `{Entropy} `{ReconcilerConfig}.

Definition connector_actor (connectorId : string) : EventActor :=
  {| actor_type := connector; actor_id := Some connectorId; actor_display := None |}.
Definition closing_correlation (requestId connectorId routeId : string) : members :=
  [("request_id", JStr requestId); ("connector_id", JStr connectorId);
   ("published_service_id", JStr routeId)].

(** The transaction that ends a route, once the gateway was told; whether it
    did. *)
Definition finishClosing (time : Z) (c : Closing) : M bool :=
  inTransaction (
    ended ← markEnded (cg_route c) (closing_status c);
    match ended with
    | None => mret false
    | Some r =>
        revokedCapabilities ← revokeCapabilitiesForService (cg_route c);
        append_at time ("published_service." +:+ service_status_name (closing_status c))
          {| organisationId := reconciler_organisation; projectId := ps_project_id r |}
          (cg_actor c) (cg_correlation c)
          (cg_payload c ++ [("revoked_capability_ids", strings revokedCapabilities)]) ;;
        mret true
    end).

(** ** Reconnecting *)

Definition closing_of (connectorId requestId : string) (e : ReconciledRoute) : Closing :=
  let expired := bool_decide (rn_closure e = closed_expired) in
  {| cg_route := entry_id e; cg_expired := expired; cg_actor := connector_actor connectorId;
     cg_correlation := closing_correlation requestId connectorId (entry_id e);
     cg_payload :=
       [("published_service_id", JStr (entry_id e));
        ("previous_status", JStr match rn_record e with
                                 | Some r => service_status_name (au_status r)
                                 | None => "ready"
                                 end);
        ("new_status", JStr (if expired then "expired" else "revoked"));
        ("reason", JStr (reason_name (rd_reason (rn_decision e))));
        ("trigger", JStr "reconnect_reconciliation")] |}.
(** A claim on a route nobody has a record of. *)
Definition unknown_route_event (time : Z) (connectorId requestId : string) (e : ReconciledRoute) : M unit :=
  inTransaction (
    id ← newId "evt_";
    write_event id
      {| ev_in_type := "published_service.revoked"; ev_in_organisationId := reconciler_organisation;
         ev_in_projectId := None; ev_in_actor := connector_actor connectorId;
         ev_in_correlation := closing_correlation requestId connectorId (entry_id e);
         ev_in_payload :=
           [("published_service_id", JStr (entry_id e)); ("new_status", JStr "revoked");
            ("error_class", JStr "ROUTE_EXPIRED");
            ("reason", JStr (reason_name (rd_reason (rn_decision e))));
            ("trigger", JStr "reconnect_reconciliation")];
         ev_in_occurredAt := Some time; ev_in_enqueueOutbox := true |}).

Definition closeIfNeeded (gateway : string → result Failure unit) (time : Z)
    (connectorId requestId : string) (e : ReconciledRoute) : M unit :=
  if continues_route e then mret tt
  else if bool_decide (rn_closure e = closed_none) then
    match rn_record e with
    | None => unknown_route_event time connectorId requestId e
    | Some _ => mret tt
    end
  else
    answered (gateway (entry_id e)) ;;
    finishClosing time (closing_of connectorId requestId e) ;; mret tt.

(** The move of a session and its event. *)
Definition move_session (time : Z) (status : SessionStatus) (from : list SessionStatus)
    (type reason : string) (actor : EventActor) (correlation : BrowserSessionRow → members)
    (session : BrowserSessionRow) : M bool :=
  inTransaction (
    previous ← setSessionStatus (bs_id session) status from;
    match previous with
    | None => mret false
    | Some p =>
        append_at time type (session_scope session) actor (correlation session)
          [("previous_status", JStr (status_name p)); ("new_status", JStr (status_name status));
           ("reason", JStr reason)] ;;
        mret true
    end).
Definition member_if (key : string) (value : option string) : members :=
  match value with Some v => [(key, JStr v)] | None => [] end.
Definition bound_correlation (requestId connectorId : string) (session : BrowserSessionRow) : members :=
  [("request_id", JStr requestId); ("connector_id", JStr connectorId);
   ("browser_session_id", JStr (bs_id session))]
  ++ member_if "published_service_id" (bs_published_service_id session).

(** The sessions a continued route brings back: those bound to it, and those it
    names. *)
Definition resumable (connectorId : string) (decided : list ReconciledRoute) (d : Db) :
    list BrowserSessionRow :=
  let continued := filter (λ e, continues_route e = true) decided in
  let bound := filter (λ s, existsb (λ e, bool_decide (bs_published_service_id s = Some (entry_id e)))
                              continued = true)
                 (findLiveSessionsForConnector connectorId d) in
  bound ++ filter (λ s, includes (bs_id <$> bound) (bs_id s) = false)
             (findLiveSessionsByIds (continued ≫= sessions_of) d).
Definition applySessionDecisions (connectorId : string) (decided : list ReconciledRoute)
    (requestId : string) (time : Z) : M unit :=
  sessions ← gets (resumable connectorId decided);
  each (λ session,
    if negb (bool_decide (bs_status session = DEGRADED)) then mret tt
    else
      move_session time BS_READY [DEGRADED] "browser_session.resumed" "connector_reconnected"
        (connector_actor connectorId) (bound_correlation requestId connectorId) session ;; mret tt)
    sessions.

Record ReconnectResponse := {
  rs_reconciled_at : Z;
  rs_routes : list RouteDecision;
  rs_sessions : list SessionDecision
}.
Definition decided_routes (connectorId : string) (claimed : list ClaimedRoute) (time : Z) (d : Db) :
    list ReconciledRoute :=
  boundDecisions (reconcileRoutes connectorId claimed (authoritative_routes connectorId claimed d) time).
Definition reconcile (gateway : string → result Failure unit) (connectorId : string)
    (claimed : list ClaimedRoute) (requestId : string) : M ReconnectResponse :=
  time ← now;
  decided ← gets (decided_routes connectorId claimed time);
  each (closeIfNeeded gateway time connectorId requestId) decided ;;
  applySessionDecisions connectorId decided requestId time ;;
  mret {| rs_reconciled_at := time; rs_routes := rn_decision <$> decided;
          rs_sessions := decideSessions decided |}.

(** ** Losing the channel, and losing the identity *)

Definition usable_statuses : list SessionStatus := [REQUESTED; ALLOCATING; BS_READY; ACTIVE; PAUSED].
Definition handleDisconnect (connectorId requestId : string) : M unit :=
  time ← now;
  sessions ← gets (findLiveSessionsForConnector connectorId);
  each (λ session,
    move_session time DEGRADED usable_statuses "browser_session.degraded" "connector_disconnected"
      (connector_actor connectorId)
      (λ s, bound_correlation requestId connectorId s ++ member_if "worker_id" (bs_worker_id s))
      session ;; mret tt) sessions.

Definition revocation_of (connectorId requestId : string) (actor : EventActor)
    (r : PublishedServiceRow) : Closing :=
  {| cg_route := ps_id r; cg_expired := false; cg_actor := actor;
     cg_correlation := closing_correlation requestId connectorId (ps_id r);
     cg_payload :=
       [("published_service_id", JStr (ps_id r));
        ("previous_status", JStr (service_status_name (ps_status r)));
        ("new_status", JStr "revoked"); ("reason", JStr "revoked");
        ("trigger", JStr "connector_revoked")] |}.
Definition how_many (l : list bool) : Z := count (filter (λ b, b = true) l).
(** How many routes were revoked and how many sessions disconnected. *)
Definition revokeConnectorRoutes (gateway : string → result Failure unit)
    (connectorId requestId : string) (actor : EventActor) : M (Z * Z) :=
  time ← now;
  routes ← gets (findLiveForConnector connectorId MAX_LIVE_ROUTES);
  sessions ← gets (findLiveSessionsForConnector connectorId);
  revoked ← collect (λ route,
    answered (gateway (ps_id route)) ;;
    finishClosing time (revocation_of connectorId requestId actor route)) routes;
  degraded ← collect (move_session time DEGRADED usable_statuses "browser_session.degraded"
    "connector_revoked" actor (bound_correlation requestId connectorId)) sessions;
  mret (how_many revoked, how_many degraded).
End reconciler.
