(* ===== verification/Records.v ===== *)
(** * The response objects: what the rows look like to a client
    ([toReview], [toFinding], [toAnnotation], [toComment] and [toVerification]
    of [src/apps/server/src/modules/reviews/service.ts])

    The methods of the model return the row they wrote or read; the object the
    code answers with, and puts into event payloads, is the rendering here. *)

From S2P Require Import Prelude Errors ReviewProtocol ReviewDomain Events Completion Geometry Store.

(** A time, as [toISOString] renders it. *)
Definition timestamp (t : Z) : json := JDate t.

Definition named {A} `{Vocabulary A} (a : A) : json := JStr (name a).

Definition toReview (r : ReviewRow) (findingCount : option Z) : json :=
  JObj ([("id", JStr (rv_id r));
         ("organisation_id", JStr (rv_organisation_id r));
         ("project_id", JStr (rv_project_id r));
         ("slug", JStr (rv_slug r));
         ("title", JStr (rv_title r))]
    ++ opt_member "description" JStr (rv_description r)
    ++ [("status", named (rv_status r))]
    ++ opt_member "priority" named (rv_priority r)
    ++ [("version", JNum (rv_version r));
        ("created_by", eventActor (rv_created_by r))]
    ++ opt_member "assigned_user_id" JStr (rv_assigned_user_id r)
    ++ opt_member "assigned_agent_session_id" JStr (rv_assigned_agent_session_id r)
    ++ [("reopen_count", JNum (rv_reopen_count r));
        ("captured_branch", JStr (rv_captured_branch r));
        ("captured_commit", JStr (rv_captured_commit r));
        ("captured_workspace_id", JStr (rv_captured_workspace_id r));
        ("source_browser_session_id", JStr (default "" (rv_source_browser_session_id r)))]
    ++ opt_member "finding_count" JNum findingCount
    ++ [("created_at", timestamp (rv_created_at r));
        ("updated_at", timestamp (rv_updated_at r))]
    ++ opt_member "closed_at" timestamp (rv_closed_at r)).

Definition toFinding (f : FindingRow) (annotationCount : option Z) : json :=
  JObj ([("id", JStr (fn_id f));
         ("organisation_id", JStr (fn_organisation_id f));
         ("project_id", JStr (fn_project_id f));
         ("review_id", JStr (fn_review_id f));
         ("title", JStr (fn_title f))]
    ++ opt_member "description" JStr (fn_description f)
    ++ [("severity", named (fn_severity f));
        ("status", named (fn_status f));
        ("source", named (fn_source f));
        ("version", JNum (fn_version f));
        ("created_by", eventActor (fn_created_by f));
        ("url", JStr (fn_url f));
        ("viewport", fn_viewport f);
        ("scroll_position", fn_scroll_position f);
        ("captured_commit", JStr (fn_captured_commit f));
        ("screenshot_artefact_id", JStr (fn_screenshot_artefact_id f))]
    ++ opt_member "element_context" id (fn_element_context f)
    ++ opt_member "acceptance_criteria" JStr (fn_acceptance_criteria f)
    ++ opt_member "claimed_by" eventActor (fn_claimed_by f)
    ++ opt_member "annotation_count" JNum annotationCount
    ++ [("created_at", timestamp (fn_created_at f));
        ("updated_at", timestamp (fn_updated_at f))]).

Definition toAnnotation (a : AnnotationRow) : json :=
  JObj ([("id", JStr (an_id a));
         ("organisation_id", JStr (an_organisation_id a));
         ("project_id", JStr (an_project_id a));
         ("finding_id", JStr (an_finding_id a));
         ("artefact_id", JStr (an_artefact_id a));
         ("type", named (an_type a));
         ("geometry", an_geometry a);
         ("geometry_version", JNum (an_geometry_version a));
         ("label", JStr (an_label a))]
    ++ opt_member "marker_number" JNum (an_marker_number a)
    ++ [("style_hint", JStr (an_style_hint a));
        ("revision", JNum (an_revision a));
        ("created_by", eventActor (an_created_by a));
        ("created_at", timestamp (an_created_at a))]
    ++ opt_member "deleted_at" timestamp (an_deleted_at a)).

Definition toComment (c : CommentRow) : json :=
  JObj ([("id", JStr (cm_id c));
         ("organisation_id", JStr (cm_organisation_id c));
         ("project_id", JStr (cm_project_id c));
         ("review_id", JStr (cm_review_id c))]
    ++ opt_member "finding_id" JStr (cm_finding_id c)
    ++ [("body", JStr (cm_body c));
        ("created_by", eventActor (cm_created_by c));
        ("revision", JNum (cm_revision c))]
    ++ opt_member "supersedes_comment_id" JStr (cm_supersedes_comment_id c)
    ++ opt_member "superseded_at" timestamp (cm_superseded_at c)
    ++ [("created_at", timestamp (cm_created_at c))]).

(** The two [jsonb] columns of a verification. *)
Definition viewport_json (v : Viewport) : json :=
  JObj ([("width", JNum (vp_width v)); ("height", JNum (vp_height v))]
          ++ opt_member "device_scale_factor" JDec (vp_device_scale_factor v)).
Definition checks_json (c : VerificationChecks) : json :=
  JObj ([("reproduced_before", JBool (reproduced_before c));
         ("console_errors_reviewed", JBool (console_errors_reviewed c));
         ("network_failures_reviewed", JBool (network_failures_reviewed c))]
          ++ opt_member "accessibility_checked" JBool (accessibility_checked c)).

(** [Verification]: the row with the artefacts it rests on. *)
Record Verification := {
  verification_row : VerificationRow;
  artefact_ids : list string;
  before_artefact_id : option string;
  after_artefact_id : option string
}.

Definition toVerification (v : Verification) : json :=
  let row := verification_row v in
  JObj ([("verification_id", JStr (vf_id row));
         ("finding_id", JStr (vf_finding_id row));
         ("status", named (vf_status row));
         ("submitted_by", eventActor (vf_submitted_by row));
         ("summary", JStr (vf_summary row));
         ("branch", JStr (vf_branch row));
         ("commit", JStr (vf_commit_sha row))]
    ++ opt_member "before_artefact_id" JStr (before_artefact_id v)
    ++ opt_member "after_artefact_id" JStr (after_artefact_id v)
    ++ [("tested_viewports", JArr (viewport_json <$> vf_tested_viewports row));
        ("checks", checks_json (vf_checks row));
        ("artefact_ids", strs (artefact_ids v));
        ("submitted_at", timestamp (vf_submitted_at row))]
    ++ opt_member "reviewed_at" timestamp (vf_reviewed_at row)
    ++ opt_member "supersedes_verification_id" JStr (vf_supersedes_verification_id row)
    ++ opt_member "superseded_by_verification_id" JStr (vf_superseded_by_verification_id row)
    ++ opt_member "superseded_at" timestamp (vf_superseded_at row)).

(** The stored roles of a verification's artefacts, in the order of their
    positions: [array_agg(artefact_id ORDER BY position)] and the first artefact
    of a role. *)
Definition artefacts_of (d : Db) (verificationId : string) : list VerificationArtefactRow :=
  order_by va_position (λ _, "")
    (filter (λ a, va_verification_id a = verificationId) (verification_artefacts d)).

Definition artefact_with_role (d : Db) (verificationId : string) (role : EvidenceRole) :
    option string :=
  va_artefact_id <$> head (filter (λ a, va_role a = role) (artefacts_of d verificationId)).

Definition stored_verification (d : Db) (v : VerificationRow) : Verification :=
  {| verification_row := v;
     artefact_ids := va_artefact_id <$> artefacts_of d (vf_id v);
     before_artefact_id := artefact_with_role d (vf_id v) before;
     after_artefact_id := artefact_with_role d (vf_id v) after |}.
