(* ===== verification/ProjectInput.v ===== *)
(** * What a request may say of a project
    ([src/apps/server/src/modules/projects/service.ts])

    The readers of a request's attributes: the name, the slug and [slugify], the
    branch, the settings and the repository identity.  [unknown] attributes are
    JSON values; [undefined] is [None].  A reader refuses with an [ApiError], or
    stumbles over a value it did not expect with a plain [Error]. *)

From S2P Require Import Prelude Errors ReviewDomain Events Completion EntityId Regex Text RepositoryIdentity Numbers StableJson Validation Geometry Store.

(** ** Slugs *)

(** [s.normalize("NFKD")], code unit by code unit: the decompositions of
    Latin-1. *)
Definition MARKS : list (N * (N * N)) :=
  [(192, (65, 768)); (193, (65, 769)); (194, (65, 770)); (195, (65, 771)); (196, (65, 776));
   (197, (65, 778)); (199, (67, 807)); (200, (69, 768)); (201, (69, 769)); (202, (69, 770));
   (203, (69, 776)); (204, (73, 768)); (205, (73, 769)); (206, (73, 770)); (207, (73, 776));
   (209, (78, 771)); (210, (79, 768)); (211, (79, 769)); (212, (79, 770)); (213, (79, 771));
   (214, (79, 776)); (217, (85, 768)); (218, (85, 769)); (219, (85, 770)); (220, (85, 776));
   (221, (89, 769)); (224, (97, 768)); (225, (97, 769)); (226, (97, 770)); (227, (97, 771));
   (228, (97, 776)); (229, (97, 778)); (231, (99, 807)); (232, (101, 768)); (233, (101, 769));
   (234, (101, 770)); (235, (101, 776)); (236, (105, 768)); (237, (105, 769)); (238, (105, 770));
   (239, (105, 776)); (241, (110, 771)); (242, (111, 768)); (243, (111, 769)); (244, (111, 770));
   (245, (111, 771)); (246, (111, 776)); (249, (117, 768)); (250, (117, 769)); (251, (117, 770));
   (252, (117, 776)); (253, (121, 769)); (255, (121, 776));
   (168, (32, 776)); (175, (32, 772)); (180, (32, 769)); (184, (32, 807))]%N.
Definition SYMBOLS : list (N * list N) :=
  [(160, [32]); (170, [97]); (178, [50]); (179, [51]); (181, [956]); (185, [49]); (186, [111]);
   (188, [49; 8260; 52]); (189, [49; 8260; 50]); (190, [51; 8260; 52])]%N.
Definition NFKD (c : ascii) : list N :=
  let n := N_of_ascii c in
  match head (filter (λ e, e.1 = n) MARKS), head (filter (λ e, e.1 = n) SYMBOLS) with
  | Some (_, (base, mark)), _ => [base; mark]
  | _, Some (_, l) => l
  | _, _ => [n]
  end.
(** [toLowerCase] on those code units: the Greek letter and the fraction slash
    are their own. *)
Definition lower_unit (n : N) : N :=
  if bool_decide (n < 256)%N then N_of_ascii (latin_lower (ascii_of_N n)) else n.

Definition slug_unit (n : N) : bool := bool_decide (97 ≤ n ≤ 122 ∨ 48 ≤ n ≤ 57)%N.
Definition combining (n : N) : bool := bool_decide (768 ≤ n ≤ 879)%N.
(** [name.normalize("NFKD").replace(marks, "").toLowerCase()] *)
Definition folded (name : string) : list N :=
  lower_unit <$> filter (λ n, combining n = false) (String.list_ascii_of_string name ≫= NFKD).

(** [.replace(/[^a-z0-9]+/gu, "-")]: [run] tells that the unit before was replaced. *)
Fixpoint hyphenate (run : bool) (units : list N) : string :=
  match units with
  | [] => ""
  | n :: units' =>
      if slug_unit n then String (ascii_of_N n) (hyphenate false units')
      else if run then hyphenate true units' else String "-" (hyphenate true units')
  end.
(** [.replace(/^-+/gu, "")] and [.replace(/-+$/gu, "")] *)
Fixpoint strip_start (s : string) : string :=
  match s with String "-" s' => strip_start s' | _ => s end.
Fixpoint strip_end (s : string) : string :=
  match s with
  | EmptyString => ""
  | String c s' =>
      match strip_end s' with
      | EmptyString => if bool_decide (c = "-"%char) then "" else String c ""
      | t => String c t
      end
  end.

Definition slugify (name : string) : result ApiError string :=
  let slug := strip_end (slice_to 63 (strip_end (strip_start (hyphenate false (folded name))))) in
  if bool_decide (slug = "")
  then throw VALIDATION_FAILED
         "A project name must contain at least one letter or digit, or supply a slug directly."
         [("field", JStr "slug"); ("reason", JStr "slug_empty")]
  else Ok slug.

(** ** Patterns *)

Definition slug_char (c : ascii) : bool := lower_c c || digit_c c.
Definition SLUG_PATTERN (s : string) : bool :=
  match s with
  | String c s' =>
      slug_char c && all_chars (λ d, slug_char d || one_of "-" d) s' && bool_decide (String.length s' ≤ 62)
  | EmptyString => false
  end.
Definition BRANCH_PATTERN (s : string) : bool :=
  match s with
  | String c s' =>
      alnum_c c && all_chars (λ d, alnum_c d || one_of "._/-" d) s' && bool_decide (String.length s' ≤ 254)
  | EmptyString => false
  end.
Definition name_char (c : ascii) : bool := negb (between 0 31 c || between 127 127 c).
Definition NAME_PATTERN (s : string) : bool :=
  bool_decide (1 ≤ String.length s ≤ 200) && all_chars name_char s.

(** ** Readers *)

Definition readName (value : string) : result ApiError string :=
  if bool_decide (trim value = "")
  then throw VALIDATION_FAILED "A project name is required." [("field", JStr "name")]
  else if NAME_PATTERN (trim value) then Ok (trim value)
  else throw VALIDATION_FAILED "A project name must be at most 200 printable characters."
         [("field", JStr "name")].

Definition readSlug (value : string) : result ApiError string :=
  if SLUG_PATTERN value then Ok value
  else throw VALIDATION_FAILED
         "A slug is lowercase letters, digits and hyphens, starting with a letter or digit."
         [("field", JStr "slug"); ("reason", JStr "slug_malformed")].

Definition readBranch (value : string) : result ApiError string :=
  if BRANCH_PATTERN value then Ok value
  else throw VALIDATION_FAILED "That is not a branch name." [("field", JStr "default_branch")].

(** [path.replace(/\[[0-9]+\]/gu, "")]: the paths have brackets around indices
    only. *)
Definition without_indices (path : string) : string :=
  join "" ((λ part, from_option snd part (cut_first "]" part)) <$> split "[" path).

(** [value ?? defaultProjectSettings()].  What the validators accept has a value
    among [ProjectSettings]: see [settings_accepted]. *)
Definition readSettings (value : option json) : result Failure ProjectSettings :=
  match normaliseProjectSettings value with
  | Err violations =>
      Err (ApiThrown (match violations with
        | [] => api_error VALIDATION_FAILED "The project settings are not valid."
                  [("field", JStr "settings"); ("reason", JStr "invalid")]
        | first :: _ => api_error VALIDATION_FAILED (violation_message first)
                  [("field", JStr (without_indices (at_path first)));
                   ("reason", JStr (violation_name (violation_code first)))]
        end))
  | Ok normalised =>
      match settings_of_json normalised with
      | Some settings => Ok settings
      | None => Err (PlainError "settings with a number that is not read from JSON")
      end
  end.

Definition REPOSITORY_MESSAGES (reason : RepositoryIdentityFailure) : string :=
  match reason with
  | f_empty => "A repository identity is required when the field is present."
  | f_too_long => "That repository URL is longer than this field accepts."
  | f_invalid_characters => "A repository URL must not contain spaces or control characters."
  | f_unsupported_scheme => "A repository URL must be an https, http, ssh or git remote."
  | f_missing_host => "That repository URL names no host."
  | f_missing_path => "That repository URL names a host but no repository."
  | f_inconsistent_urls => "Those clone URLs are for different repositories."
  | f_too_many_clone_urls => "At most eight clone URLs may be recorded for one project."
  end.

(** The values [supplied] holds: the members are used as they are, so that one
    that is no string has no [trim], and one that cannot be spread throws. *)
Definition text_of (v : json) : result Failure string :=
  match v with JStr s => Ok s | _ => Err (PlainError "value.trim is not a function") end.
Definition spread (v : json) : result Failure (list json) :=
  match v with
  | JNull => Ok []
  | JArr items => Ok items
  | JStr s => Ok ((λ c, JStr (String c "")) <$> String.list_ascii_of_string s)
  | _ => Err (PlainError "clone_urls is not iterable")
  end.
Fixpoint texts_of (l : list json) : result Failure (list string) :=
  match l with
  | [] => Ok []
  | v :: l' => s ← text_of v; ss ← texts_of l'; Ok (s :: ss)
  end.
Definition identity_input (value : json) : result Failure RepositoryIdentityInput :=
  match value with
  | JStr url => Ok (one_url url)
  | JObj ms =>
      urls ← match get_member "clone_urls" ms with Some v => spread v | None => Ok [] end;
      canonical ← match get_member "canonical" ms with
                  | Some v => Some <$> text_of v
                  | None => Ok None
                  end;
      urls ← texts_of urls;
      Ok (identity_record canonical (Some urls))
  | JDate _ => Ok (identity_record None None)
  | _ => Err (ApiThrown (api_error VALIDATION_FAILED
               "A repository identity is a clone URL, or an object holding clone_urls."
               [("field", JStr "repository_identity")]))
  end.
Definition readRepositoryIdentity (value : json) : result Failure RepositoryIdentity :=
  input ← identity_input value;
  match normaliseRepositoryIdentity input with
  | Ok identity => Ok identity
  | Err reason =>
      Err (ApiThrown (api_error VALIDATION_FAILED (REPOSITORY_MESSAGES reason)
             [("field", JStr "repository_identity"); ("reason", JStr (failure_name reason))]))
  end.

(** A reading that may be an [ApiError]. *)
Definition reading {A} (r : result ApiError A) : result Failure A :=
  match r with Ok a => Ok a | Err e => Err (ApiThrown e) end.
(** [value === undefined ? undefined : read(value)] *)
Definition optional {A B} (read : A → result Failure B) (value : option A) : result Failure (option B) :=
  match value with Some a => Some <$> read a | None => Ok None end.

Example slugs :
  slugify "Refresh Surplus" = Ok "refresh-surplus"
  ∧ slugify ("  Caf" +:+ String "233" " -- N" +:+ String "186" " 2") = Ok "cafe-no-2"
  ∧ is_ok (slugify "---") = false
  ∧ without_indices "settings.default_validation_viewports[0].height"
    = "settings.default_validation_viewports.height".
Proof. split_and!; by vm_compute. Qed.
