(* ===== verification/ProjectInputTheorems.v ===== *)
(** * Slugs that are made, and settings that are accepted

    [slugify] makes what [readSlug] accepts, and leaves it as it is; settings
    that [readSettings] accepts are within their bounds, and are accepted again
    as they are stored. *)

From S2P Require Import Prelude Errors ReviewDomain Events Completion EntityId Regex Text RepositoryIdentity Numbers StableJson Validation Schema Geometry Store ProjectInput.

(** ** Slugs *)

(** Letters, digits and hyphens, no hyphen after another; [run] tells that the
    character before was one. *)
Fixpoint hyphens_single (run : bool) (s : string) : bool :=
  match s with
  | EmptyString => true
  | String c s' =>
      if bool_decide (c = "-"%char) then negb run && hyphens_single true s'
      else slug_char c && hyphens_single false s'
  end.
Fixpoint ends_in_hyphen (s : string) : bool :=
  match s with
  | EmptyString => false
  | String c s' => match s' with EmptyString => bool_decide (c = "-"%char) | _ => ends_in_hyphen s' end
  end.

Lemma slug_unit_char n : slug_unit n = true →
  slug_char (ascii_of_N n) = true ∧ ascii_of_N n ≠ "-"%char.
Proof.
  unfold slug_unit. rewrite bool_decide_eq_true. intros Hn.
  assert (N_of_ascii (ascii_of_N n) = n) as Hback by (apply N_ascii_embedding; lia).
  split; [|intros Hc; rewrite Hc in Hback; change (N_of_ascii "-") with 45%N in Hback; lia].
  unfold slug_char, lower_c, digit_c, between. rewrite Hback.
  destruct Hn; [rewrite bool_decide_true by lia; done|]. apply orb_true_iff. right. by apply bool_decide_eq_true.
Qed.

Lemma hyphenate_single run l : hyphens_single run (hyphenate run l) = true.
Proof.
  revert run. induction l as [|n l IH]; intros run; [done|]. cbn [hyphenate].
  destruct (slug_unit n) eqn:Hn.
  - apply slug_unit_char in Hn as [Hc Hne]. cbn [hyphens_single].
    by rewrite bool_decide_false, Hc, IH.
  - destruct run; [apply IH|]. cbn. apply IH.
Qed.
Lemma single_mono run s : hyphens_single true s = true → hyphens_single run s = true.
Proof. destruct run; [done|]. destruct s as [|c s]; [done|]. cbn. by case_bool_decide. Qed.
Lemma strip_start_single run s : hyphens_single run s = true → hyphens_single true (strip_start s) = true.
Proof.
  revert run. induction s as [|c s IH]; intros run; [done|].
  destruct (decide (c = "-"%char)) as [->|Hc].
  - cbn. intros [_ Hs]%andb_prop. by apply (IH true).
  - intros Hs. assert (strip_start (String c s) = String c s) as ->.
    { destruct c as [[] [] [] [] [] [] [] []]; done. }
    cbn [hyphens_single] in *. by rewrite bool_decide_false in *.
Qed.
Lemma slice_single run n s : hyphens_single run s = true → hyphens_single run (slice_to n s) = true.
Proof.
  unfold slice_to. revert run n. induction s as [|c s IH]; intros run [|n]; [done..|]. cbn.
  case_bool_decide; intros [Hr Hs]%andb_prop; by rewrite Hr, IH.
Qed.
Lemma strip_end_single run s : hyphens_single run s = true → hyphens_single run (strip_end s) = true.
Proof.
  revert run. induction s as [|c s IH]; intros run; [done|]. cbn [hyphens_single strip_end].
  case_bool_decide as Hc; intros [Hr Hs]%andb_prop; apply IH in Hs;
    destruct (strip_end s) eqn:Hs'; cbn; rewrite ?bool_decide_true, ?bool_decide_false by done;
    cbn in Hs; rewrite ?Hr, ?Hs; done.
Qed.
Lemma strip_end_ends s : ends_in_hyphen (strip_end s) = false.
Proof.
  induction s as [|c s IH]; [done|]. cbn. destruct (strip_end s) as [|d t] eqn:Hs; [|exact IH].
  case_bool_decide; [done|]. cbn. by case_bool_decide.
Qed.
Lemma strip_end_none s : ends_in_hyphen s = false → strip_end s = s.
Proof.
  induction s as [|c s IH]; [done|]. cbn. destruct s as [|d s].
  - cbn. by intros ->.
  - intros Hs. by rewrite (IH Hs).
Qed.

(** The rules of a slug that was made. *)
Definition made_slug (s : string) : Prop :=
  s ≠ "" ∧ hyphens_single true s = true ∧ ends_in_hyphen s = false ∧ String.length s ≤ 63.

Lemma single_chars run s : hyphens_single run s = true →
  all_chars (λ d, slug_char d || one_of "-" d) s = true.
Proof.
  revert run. induction s as [|c s IH]; intros run; [done|]. cbn [hyphens_single all_chars].
  case_bool_decide as Hc; intros [Hr Hs]%andb_prop; rewrite (IH _ Hs); [by subst|]. by rewrite Hr.
Qed.
Lemma made_slug_pattern s : made_slug s → SLUG_PATTERN s = true.
Proof.
  intros (Hne & Hs & _ & Hl). destruct s as [|c s]; [done|]. cbn in Hl, Hs. unfold SLUG_PATTERN.
  revert Hs. case_bool_decide; [done|]. intros [-> Hs]%andb_prop.
  rewrite (single_chars _ _ Hs). apply bool_decide_eq_true. lia.
Qed.

Lemma slug_char_folds c : slug_char c = true ∨ c = "-"%char →
  NFKD c = [N_of_ascii c] ∧ combining (N_of_ascii c) = false
  ∧ lower_unit (N_of_ascii c) = N_of_ascii c.
Proof.
  intros Hc. assert (slug_char c || bool_decide (c = "-"%char) = true) as H.
  { destruct Hc as [->| ->]; done. }
  clear Hc. revert c H.
  intros [[] [] [] [] [] [] [] []]; vm_compute; intros H; try discriminate; by split_and!.
Qed.
Lemma folded_slug run s : hyphens_single run s = true →
  folded s = N_of_ascii <$> String.list_ascii_of_string s.
Proof.
  revert run. unfold folded. induction s as [|c s IH]; intros run; [done|].
  cbn [String.list_ascii_of_string hyphens_single]. intros Hs.
  assert ((slug_char c = true ∨ c = "-"%char) ∧ ∃ run', hyphens_single run' s = true) as [Hc [run' Hs']].
  { revert Hs. case_bool_decide; intros [? ?]%andb_prop; eauto. }
  apply slug_char_folds in Hc as (HN & Hcomb & Hlow). rewrite bind_cons, HN, filter_app, fmap_app.
  rewrite filter_cons_True by done. cbn. rewrite Hlow. f_equal. by apply (IH run').
Qed.
Lemma hyphenate_slug run s : hyphens_single run s = true →
  hyphenate run (N_of_ascii <$> String.list_ascii_of_string s) = s.
Proof.
  revert run. induction s as [|c s IH]; intros run; [done|]. cbn.
  case_bool_decide as Hc; intros [Hr Hs]%andb_prop.
  - subst c. cbn. destruct run; [done|]. cbn. f_equal. by apply IH.
  - assert (slug_unit (N_of_ascii c) = true) as Hu by (clear -Hr; revert c Hr; every_char).
    rewrite Hu, ascii_N_embedding. f_equal. by apply IH.
Qed.
Lemma slice_all n s : String.length s ≤ n → slice_to n s = s.
Proof.
  unfold slice_to. revert n. induction s as [|c s IH]; intros [|n] Hl; cbn in *; try done; [lia|].
  f_equal. apply IH. lia.
Qed.
Lemma slugify_slug s : made_slug s → slugify s = Ok s.
Proof.
  intros (Hne & Hs & He & Hl). unfold slugify. rewrite (folded_slug true) by done.
  rewrite (hyphenate_slug false) by by apply single_mono.
  assert (strip_start s = s) as ->.
  { destruct s as [|c s]; [done|]. cbn in Hs. revert Hs. case_bool_decide as Hc; [done|]. intros _.
    clear -Hc. destruct c as [[] [] [] [] [] [] [] []]; done. }
  rewrite (strip_end_none s), slice_all, strip_end_none by done. by rewrite bool_decide_false.
Qed.

Lemma slice_length n s : String.length (slice_to n s) ≤ n.
Proof. unfold slice_to. revert n. induction s as [|c s IH]; intros [|n]; cbn; [lia..|]. by apply le_n_S. Qed.
Lemma strip_end_length s : String.length (strip_end s) ≤ String.length s.
Proof.
  induction s as [|c s IH]; [done|]. cbn. destruct (strip_end s); cbn in *; [|lia].
  case_bool_decide; cbn; lia.
Qed.
Lemma slugify_made name s : slugify name = Ok s → made_slug s.
Proof.
  unfold slugify. case_bool_decide as He; [done|]. intros [= <-]. split; [done|].
  split; [|split; [apply strip_end_ends|]].
  - apply strip_end_single, slice_single, strip_end_single.
    apply (strip_start_single false), hyphenate_single.
  - etrans; [apply strip_end_length|apply slice_length].
Qed.

(** What is left of text without letters and digits, and with one. *)
Lemma strip_start_hyphens s : all_chars (λ c, bool_decide (c = "-"%char)) s = true → strip_start s = "".
Proof. induction s as [|c s IH]; [done|]. cbn [all_chars]. intros [->%bool_decide_eq_true Hs]%andb_prop. by apply IH. Qed.
Lemma hyphenate_none run l : existsb slug_unit l = false →
  all_chars (λ c, bool_decide (c = "-"%char)) (hyphenate run l) = true.
Proof.
  revert run. induction l as [|n l IH]; intros run; [done|]. cbn. intros [-> Hl]%orb_false_elim.
  destruct run; cbn [all_chars]; rewrite IH by done; done.
Qed.
Lemma strip_end_empty s : strip_end s = "" → all_chars (λ c, bool_decide (c = "-"%char)) s = true.
Proof.
  induction s as [|c s IH]; [done|]. cbn. destruct (strip_end s); [|done].
  case_bool_decide as Hc; [|done]. intros _. by rewrite IH.
Qed.
Lemma hyphenate_some run l : existsb slug_unit l = true →
  ∃ c t, strip_start (hyphenate run l) = String c t ∧ c ≠ "-"%char.
Proof.
  revert run. induction l as [|n l IH]; intros run; [done|]. cbn. destruct (slug_unit n) eqn:Hn.
  - intros _. apply slug_unit_char in Hn as [_ Hc]. exists (ascii_of_N n), (hyphenate false l).
    split; [|done]. revert Hc. generalize (ascii_of_N n). intros [[] [] [] [] [] [] [] []]; done.
  - intros Hl. cbn in Hl. destruct run; [by apply IH|]. cbn. by apply (IH true).
Qed.
Lemma strip_end_cons c t : c ≠ "-"%char → ∃ t', strip_end (String c t) = String c t'.
Proof. intros Hc. cbn. destruct (strip_end t) as [|d u]; [rewrite bool_decide_false by done|]; eauto. Qed.
Lemma slugify_refused name : is_ok (slugify name) = existsb slug_unit (folded name).
Proof.
  unfold slugify. destruct (existsb slug_unit (folded name)) eqn:He.
  - apply (hyphenate_some false) in He as (c & t & -> & Hc).
    destruct (strip_end_cons c t Hc) as (t' & ->).
    change (slice_to 63 (String c t')) with (String c (slice_to 62 t')).
    destruct (strip_end_cons c (slice_to 62 t') Hc) as (t'' & ->). by rewrite bool_decide_false.
  - by rewrite strip_start_hyphens by by apply hyphenate_none.
Qed.

(** A name becomes a slug that the service accepts: of lower-case letters,
    digits and single inner hyphens, at most 63 characters, and a fixed point of
    [slugify]; and a name is refused exactly when, its accents taken off, it has
    no letter and no digit. *)
Theorem slugify_makes_slugs (name : string) :
  match slugify name with
  | Ok s => existsb slug_unit (folded name) = true
            ∧ readSlug s = Ok s ∧ slugify s = Ok s
            ∧ hyphens_single true s = true ∧ ends_in_hyphen s = false
  | Err e => existsb slug_unit (folded name) = false ∧ code e = VALIDATION_FAILED
  end.
Proof.
  pose proof (slugify_refused name) as Hr. destruct (slugify name) as [s|e] eqn:Hs; cbn in Hr.
  - pose proof (slugify_made _ _ Hs) as Hm. split; [done|].
    split; [by unfold readSlug; rewrite made_slug_pattern|].
    split; [by apply slugify_slug|]. by destruct Hm as (_ & ? & ? & _).
  - split; [done|]. revert Hs. unfold slugify. by case_bool_decide; [intros [= <-]|].
Qed.

(** ** Settings *)

Definition viewport_ok (v : ValidationViewport) : Prop :=
  (240 ≤ vv_width v ≤ 3840)%Z ∧ (240 ≤ vv_height v ≤ 2160)%Z
  ∧ match vv_device_scale_factor v with
    | Some d => ∃ x, as_number (number_json_of d) = Some x ∧ F_finite x = true
                     ∧ F_ltb x (F_of_Z 1) = false ∧ F_ltb (F_of_Z 4) x = false ∧ SFeqb x F_one = false
    | None => True
    end.
Definition settings_ok (s : ProjectSettings) : Prop :=
  1 ≤ length (default_validation_viewports s) ≤ 8 ∧ Forall viewport_ok (default_validation_viewports s).

(** The members that an object without violations has. *)
Lemma checkObject_pass allowed required v path source : checkObject allowed required v path = ([], Some source) →
  (v = JObj source ∨ ∃ t, v = JDate t ∧ source = []) ∧ ∀ k, k ∈ required → is_Some (get_member k source).
Proof.
  intros Hc. pose proof (checkObject_spec allowed required v path) as Hs. rewrite Hc in Hs. cbn [fst snd] in Hs.
  destruct (object_members v) as [ms|] eqn:Hms; [|by destruct Hs]. destruct Hs as [[= <-] Hs].
  destruct (proj1 Hs eq_refl) as [_ Hreq]. split; [|by intros k Hk; apply not_eq_None_Some, Hreq].
  destruct v; try done; injection Hms as ->; [right; by eexists|by left].
Qed.
Lemma on_member_pass check k source path v :
  on_member check k source path = [] → get_member k source = Some v → check v (path +:+ "." +:+ k) = [].
Proof. unfold on_member. intros Hc Hg. by rewrite Hg in Hc. Qed.

(** A viewport that [normaliseViewport] gave has no scale of one. *)
Definition not_one (v : json) : Prop :=
  ∀ ms y x, v = JObj ms → get_member "device_scale_factor" ms = Some y → as_number y = Some x →
  SFeqb x F_one = false.
Lemma get_member_filter k ms : get_member k (filter (λ kv : string * json, kv.1 ≠ k) ms) = None.
Proof.
  induction ms as [|[k' v] ms IH]; [done|]. destruct (decide (k' = k)) as [->|Hk].
  - rewrite filter_cons_False; [done|]. cbn. naive_solver.
  - rewrite filter_cons_True by done. rewrite get_member_cons. by rewrite decide_False.
Qed.
Lemma normaliseViewport_not_one v : not_one (normaliseViewport v).
Proof.
  intros ms y x. unfold normaliseViewport. destruct v as [| | | | | | | |source]; try done.
  destruct (get_member "device_scale_factor" source ≫= as_number) as [w|] eqn:Hw.
  - destruct (SFeqb w F_one) eqn:He; intros Heq; injection Heq as <-; [by rewrite get_member_filter|].
    intros Hy Hx. rewrite Hy in Hw. cbn in Hw. congruence.
  - intros Heq. injection Heq as <-. intros Hy Hx. rewrite Hy in Hw. cbn in Hw. congruence.
Qed.

Lemma viewport_accepted item v path :
  not_one item → validateValidationViewport item path = [] → viewport_of_json item = Some v → viewport_ok v.
Proof.
  intros Hone Hval Hv. destruct item as [| | | | | | | |ms]; try done. unfold validateValidationViewport in Hval.
  destruct (checkObject _ _ _ _) as [found [source|]] eqn:Hc; [|done].
  cbn [concat] in Hval. rewrite !app_nil_iff in Hval. destruct Hval as (-> & Hw & Hh & Hs & _).
  apply checkObject_pass in Hc as [[[= <-]|(t & ? & _)] _]; [|done]. cbn [viewport_of_json] in Hv.
  destruct (integer_member "width" ms) as [w|] eqn:Hiw; [|done].
  destruct (integer_member "height" ms) as [h|] eqn:Hih; [|done]. unfold integer_member in Hiw, Hih.
  destruct (get_member "width" ms) as [jw|] eqn:Hjw; [|done].
  destruct (get_member "height" ms) as [jh|] eqn:Hjh; [|done].
  apply on_member_pass with (v := jw) in Hw; [|done]. apply on_member_pass with (v := jh) in Hh; [|done].
  apply integer_exact in Hw as (xw & zw & Hxw & Hzw & Hrw), Hh as (xh & zh & Hxh & Hzh & Hrh).
  rewrite Hxw, Hzw in Hiw. rewrite Hxh, Hzh in Hih. injection Hiw as ->. injection Hih as ->.
  destruct (get_member "device_scale_factor" ms) as [js|] eqn:Hjs; [|injection Hv as <-; done].
  apply on_member_pass with (v := js) in Hs; [|done]. apply number_exact in Hs as (x & Hx & Hf & Hlo & Hhi).
  assert (∀ d, number_json_of d = js → v = {| vv_width := w; vv_height := h; vv_device_scale_factor := Some d |} →
            viewport_ok v) as Hok.
  { intros d Hd ->. unfold viewport_ok. cbn. split_and!; [lia..|]. exists x. rewrite Hd. split_and!; try done. by eapply Hone. }
  destruct js as [| |n|d| | | | |]; try done.
  - injection Hv as <-. by apply (Hok (dec_of_Z n)).
  - destruct (bool_decide (decimals d = 0)) eqn:Hd; [done|]. apply bool_decide_eq_false in Hd.
    injection Hv as <-. apply (Hok d); [|done]. unfold number_json_of. by destruct (decimals d).
Qed.

Lemma readSettings_ok value s : readSettings value = Ok s ↔
  ∃ n, normaliseProjectSettings value = Ok n ∧ settings_of_json n = Some s.
Proof.
  unfold readSettings. destruct (normaliseProjectSettings value) as [n|l]; [|naive_solver].
  destruct (settings_of_json n) eqn:Hn; naive_solver.
Qed.
Lemma get_set_member k v ms : get_member k (set_member k v ms) = Some v.
Proof.
  unfold set_member. case_bool_decide as Hin.
  - induction ms as [|[k' w] ms IH]; [by apply elem_of_nil in Hin|]. rewrite fmap_cons. cbn [fst].
    case_bool_decide as Hk; rewrite get_member_cons; [by rewrite decide_True|]. rewrite decide_False by done.
    apply IH. cbn in Hin. apply elem_of_cons in Hin as [?|?]; [congruence|done].
  - induction ms as [|[k' w] ms IH]; cbn [app]; rewrite get_member_cons; [by rewrite decide_True|].
    cbn in Hin. apply not_elem_of_cons in Hin as [? ?]. rewrite decide_False by done. by apply IH.
Qed.

(** The settings that the validators accept. *)
Lemma validated_settings source items s :
  validateProjectSettings (JObj source) "settings" = [] →
  get_member "default_validation_viewports" source = Some (JArr items) →
  Forall not_one items → settings_of_json (JObj source) = Some s → settings_ok s.
Proof.
  intros Hval Hitems Hone Hs. cbn in Hs. rewrite Hitems in Hs.
  apply fmap_Some in Hs as (vs & Hvs & ->). apply mapM_Some in Hvs. unfold validateProjectSettings in Hval.
  destruct (checkObject _ _ _ _) as [found [source'|]] eqn:Hc; [|done].
  cbn [concat] in Hval. rewrite !app_nil_iff in Hval. destruct Hval as (-> & Hval & _).
  apply checkObject_pass in Hc as [[[= <-]|(t & ? & _)] _]; [|done].
  apply on_member_pass with (v := JArr items) in Hval; [|done].
  unfold validateProjectSettingsDefaultValidationViewports, checkArray in Hval.
  pose proof (Forall2_length _ _ _ Hvs) as Hlen.
  case_bool_decide; [done|]. case_bool_decide; [done|]. destruct (true && _); [done|]. unfold on_items in Hval.
  split; [cbn; lia|]. cbn. rewrite imap_nil_iff in Hval. apply Forall_lookup. intros i v Hv.
  destruct (Forall2_lookup_r _ _ _ _ _ Hvs Hv) as (item & Hi & Hread).
  eapply viewport_accepted; [|by apply (Hval i)|done]. by eapply Forall_lookup in Hone.
Qed.
Lemma defaults_ok : settings_ok defaultProjectSettings.
Proof. split; [cbn; lia|]. repeat constructor; cbn; lia. Qed.

Lemma accepted_settings value s : readSettings value = Ok s → settings_ok s.
Proof.
  intros (n & Hn & Hs)%readSettings_ok.
  assert (∀ source, normalise_object source = Ok n → settings_ok s) as Hobj.
  { unfold normalise_object. intros source Hnorm.
    destruct (validateProjectSettings _ _) eqn:Hval; [|done]. injection Hnorm as <-.
    assert (get_member "default_validation_viewports" (settings_candidate source) = Some (settings_viewports source))
      as Hget by apply get_set_member.
    unfold settings_viewports in Hget.
    destruct (default _ (get_member "default_validation_viewports" source)) as [| | | | | | |items|];
      try (cbn in Hs; by rewrite Hget in Hs).
    eapply validated_settings; [done|done| |done].
    apply Forall_fmap, Forall_true. intros. apply normaliseViewport_not_one. }
  assert (n = settings_json defaultProjectSettings → settings_ok s) as Hdef.
  { intros ->. vm_compute in Hs. injection Hs as <-. apply defaults_ok. }
  destruct value as [v|]; [|injection Hn as <-; by apply Hdef].
  destruct v as [|b|z|d|f|t|t|l|source];
    [injection Hn as <-; by apply Hdef|discriminate Hn..|exact (Hobj [] Hn)|discriminate Hn|exact (Hobj _ Hn)].
Qed.

(** The sizes of a viewport are read back. *)
Definition read_back (z : Z) : bool := bool_decide (integer_of (F_of_Z z) = Some z).
Lemma sizes_read_back : forallb (λ n, read_back (Z.of_nat n)) (seq 240 3601) = true.
Proof. vm_compute. reflexivity. Qed.
Lemma integer_of_size z : (240 ≤ z ≤ 3840)%Z → integer_of (F_of_Z z) = Some z.
Proof.
  intros Hz. pose proof sizes_read_back as Hall. rewrite forallb_forall in Hall.
  specialize (Hall (Z.to_nat z)). rewrite Z2Nat.id in Hall by lia.
  apply (bool_decide_eq_true_1 _), Hall, in_seq. lia.
Qed.
Lemma checkInteger_size lo hi z path : (240 ≤ z ≤ 3840)%Z → (lo ≤ z ≤ hi)%Z → checkInteger lo hi (JNum z) path = [].
Proof.
  intros Hz Hr. unfold checkInteger. cbn [as_number]. rewrite integer_of_size by done.
  by rewrite !bool_decide_false by lia.
Qed.

Section a_viewport.
Context (v : ValidationViewport) (Hv : viewport_ok v).

Lemma viewport_members : ∃ ms, viewport_json v = JObj ms
  ∧ get_member "width" ms = Some (JNum (vv_width v)) ∧ get_member "height" ms = Some (JNum (vv_height v))
  ∧ get_member "device_scale_factor" ms = number_json_of <$> vv_device_scale_factor v
  ∧ checkObject ["width"; "height"; "device_scale_factor"] ["width"; "height"] (JObj ms) = λ _, ([], Some ms).
Proof using. clear Hv.
  eexists. split; [reflexivity|]. by destruct v as [w h [d|]].
Qed.
Lemma viewport_valid path : validateValidationViewport (viewport_json v) path = [].
Proof using Hv.
  destruct viewport_members as (ms & -> & Hw & Hh & Hs & Hc). unfold validateValidationViewport. rewrite Hc.
  destruct Hv as (? & ? & Hscale). unfold on_member. rewrite Hw, Hh, Hs.
  unfold validateValidationViewportWidth, validateValidationViewportHeight.
  rewrite !checkInteger_size by lia. destruct (vv_device_scale_factor v) as [d|]; [|done]. cbn [app fmap option_fmap option_map concat].
  rewrite app_nil_r. destruct Hscale as (x & Hx & Hf & Hlo & Hhi & _). apply number_exact. by exists x.
Qed.
Lemma viewport_normal : normaliseViewport (viewport_json v) = viewport_json v.
Proof using Hv.
  destruct viewport_members as (ms & -> & _ & _ & Hs & _). cbn [normaliseViewport]. rewrite Hs.
  destruct Hv as (_ & _ & Hscale). destruct (vv_device_scale_factor v) as [d|]; [|done]. cbn [fmap option_fmap option_map].
  destruct Hscale as (x & Hx & _ & _ & _ & Hone). change (Some ?a ≫= as_number) with (as_number a). by rewrite Hx, Hone.
Qed.
Lemma viewport_reads : viewport_of_json (viewport_json v) = Some v.
Proof using Hv.
  destruct viewport_members as (ms & -> & Hw & Hh & Hs & _). destruct Hv as (? & ? & _).
  cbn [viewport_of_json]. unfold integer_member. rewrite Hw, Hh, Hs. cbn [as_number].
  rewrite !integer_of_size by lia. destruct v as [w h [[m k]|]]; cbn; [|done].
  destruct k as [|k]; done.
Qed.
End a_viewport.

(** C25: Settings that are accepted have one to eight viewports, each within its
    bounds and with no scale of one; and they are accepted again, with the same
    value, when they are sent as they are stored, unless two viewports are then
    written alike. *)
Theorem settings_accepted_again (value : option json) (s : ProjectSettings) (Hr : readSettings value = Ok s) :
  settings_ok s
  ∧ (has_duplicates [] (viewport_json <$> default_validation_viewports s) = false →
     readSettings (Some (settings_json s)) = Ok s).
Proof.
  pose proof (accepted_settings _ _ Hr) as Hs. split; [done|]. intros Hd. destruct Hs as [Hlen Hall].
  destruct s as [vs]. cbn [default_validation_viewports] in *.
  assert (normaliseViewport <$> (viewport_json <$> vs) = viewport_json <$> vs) as Hnorm.
  { clear -Hall. induction Hall as [|v vs Hv _ IH]; [done|]. rewrite !fmap_cons, viewport_normal, IH by done. done. }
  assert (settings_candidate [("default_validation_viewports", JArr (viewport_json <$> vs))]
    = [("default_validation_viewports", JArr (viewport_json <$> vs))]) as Hcand.
  { unfold settings_candidate, settings_viewports. cbn. unfold set_member. cbn. do 3 f_equal. exact Hnorm. }
  apply readSettings_ok. exists (settings_json (Build_ProjectSettings vs)). split.
  - unfold settings_json. cbn [normaliseProjectSettings default_validation_viewports]. unfold normalise_object.
    rewrite Hcand. unfold validateProjectSettings. cbn [checkObject].
    assert (∀ path, validateProjectSettingsDefaultValidationViewports (JArr (viewport_json <$> vs)) path = [])
      as Hval.
    { intros path. unfold validateProjectSettingsDefaultValidationViewports, checkArray. rewrite length_fmap.
      rewrite !bool_decide_false, Hd by lia. cbn [andb]. unfold on_items. apply imap_nil_iff. intros i j.
      rewrite list_lookup_fmap. intros (v & Hv & ->)%fmap_Some. apply viewport_valid. by eapply Forall_lookup in Hall. }
    unfold on_member.
    change (get_member "default_validation_viewports" _) with (Some (JArr (viewport_json <$> vs))).
    cbn -[validateProjectSettingsDefaultValidationViewports]. rewrite Hval. done.
  - assert (mapM viewport_of_json (viewport_json <$> vs) = Some vs) as Hm.
    { apply mapM_Some. clear -Hall. induction Hall as [|v vs Hv _ IH]; [constructor|].
      rewrite fmap_cons. constructor; [by apply viewport_reads|done]. }
    change (settings_of_json _)
      with (Build_ProjectSettings <$> mapM viewport_of_json (viewport_json <$> vs)). by rewrite Hm.
Qed.

Lemma settings_accepted_again_witness :
  let value := Some (JObj [("default_validation_viewports",
    JArr [JObj [("width", JNum 390); ("height", JNum 844); ("device_scale_factor", JNum 1)];
          JObj [("height", JNum 900); ("width", JNum 1440); ("device_scale_factor", JDec (mk_dec 15 1))]])]) in
  let s := {| default_validation_viewports :=
    [{| vv_width := 390; vv_height := 844; vv_device_scale_factor := None |};
     {| vv_width := 1440; vv_height := 900; vv_device_scale_factor := Some (mk_dec 15 1) |}] |} in
  settings_ok s ∧ readSettings (Some (settings_json s)) = Ok s.
Proof.
  cbv zeta. destruct (settings_accepted_again (Some (JObj [("default_validation_viewports",
    JArr [JObj [("width", JNum 390); ("height", JNum 844); ("device_scale_factor", JNum 1)];
          JObj [("height", JNum 900); ("width", JNum 1440); ("device_scale_factor", JDec (mk_dec 15 1))]])]))
    {| default_validation_viewports :=
      [{| vv_width := 390; vv_height := 844; vv_device_scale_factor := None |};
       {| vv_width := 1440; vv_height := 900; vv_device_scale_factor := Some (mk_dec 15 1) |}] |}) as [H1 H2].
  - vm_compute. reflexivity.
  - split; [exact H1|]. apply H2. vm_compute. reflexivity.
Defined.

(** Two viewports that differ in the order of their members alone: they are not
    duplicates in the request, and are when they come back. *)
Remark same_viewport_twice :
  let value := Some (JObj [("default_validation_viewports",
    JArr [JObj [("width", JNum 390); ("height", JNum 844)]; JObj [("height", JNum 844); ("width", JNum 390)]])]) in
  match readSettings value with
  | Ok s => is_ok (readSettings (Some (settings_json s))) = false
  | Err _ => False
  end.
Proof. vm_compute. reflexivity. Qed.
