(* ===== verification/Projects.v ===== *)
(** * Projects
    ([ProjectService] of [src/apps/server/src/modules/projects/service.ts])

    Creating, changing and archiving a project: the attributes are read, then one
    transaction locks the row, compares its version, writes and appends the
    events. *)

From S2P Require Import Prelude Errors ReviewProtocol ReviewDomain Events Completion EntityId RepositoryIdentity Numbers StableJson Validation Geometry Store Records ProjectInput.

(** ** Representations *)

Definition repository_json (r : RepositoryIdentity) : json :=
  JObj [("canonical", JStr (ri_canonical r)); ("clone_urls", JArr (JStr <$> ri_clone_urls r))].
Definition project_status_name (s : ProjectStatus) : string :=
  match s with pj_active => "active" | pj_archived => "archived" end.

Definition projectView (row : ProjectRow) : json :=
  JObj ([("id", JStr (pj_id row)); ("organisation_id", JStr (pj_organisation_id row));
         ("name", JStr (pj_name row)); ("slug", JStr (pj_slug row))]
        ++ opt_member "repository_identity" repository_json (pj_repository_identity row)
        ++ [("default_branch", JStr (pj_default_branch row));
            ("status", JStr (project_status_name (pj_status row)));
            ("settings", settings_json (pj_settings row));
            ("version", JNum (pj_version row));
            ("created_at", timestamp (pj_created_at row));
            ("updated_at", timestamp (pj_updated_at row))]).

(** ** Inputs *)

Record CreateProjectInput := {
  cp_organisationId : string;
  cp_name : string;
  cp_slug : option string;
  cp_repositoryIdentity : option json;
  cp_defaultBranch : option string;
  cp_settings : option json;
  cp_actor : EventActor;
  cp_requestId : string
}.
Record UpdateProjectInput := {
  up_projectId : string;
  up_organisationId : string;
  up_expectedVersion : option Z;
  up_name : option string;
  up_slug : option string;
  up_repositoryIdentity : option json;
  up_defaultBranch : option string;
  up_settings : option json;
  up_actor : EventActor;
  up_requestId : string
}.
Record ArchiveProjectInput := {
  ap_projectId : string;
  ap_organisationId : string;
  ap_expectedVersion : option Z;
  ap_actor : EventActor;
  ap_requestId : string
}.

(** The attributes of a patch that were read. *)
Record ProjectPatch := {
  pp_name : option string;
  pp_slug : option string;
  pp_defaultBranch : option string;
  pp_settings : option ProjectSettings;
  pp_repository : option RepositoryIdentity
}.
Record NewProject := {
  np_name : string;
  np_slug : string;
  np_defaultBranch : string;
  np_settings : ProjectSettings;
  np_repository : option RepositoryIdentity
}.

(** The readings before the transaction, in their order. *)
Definition read_new (input : CreateProjectInput) : result Failure NewProject :=
  name ← reading (readName (cp_name input));
  slug ← reading (match cp_slug input with
                  | None | Some "" => slugify name
                  | Some slug => readSlug slug
                  end);
  defaultBranch ← reading (readBranch (default "main" (cp_defaultBranch input)));
  settings ← readSettings (cp_settings input);
  repository ← match cp_repositoryIdentity input with
               | None | Some JNull => Ok None
               | Some value => Some <$> readRepositoryIdentity value
               end;
  Ok {| np_name := name; np_slug := slug; np_defaultBranch := defaultBranch; np_settings := settings;
        np_repository := repository |}.

Definition empty_patch (p : ProjectPatch) : bool :=
  match p with
  | {| pp_name := None; pp_slug := None; pp_defaultBranch := None; pp_settings := None;
       pp_repository := None |} => true
  | _ => false
  end.
Definition read_patch (input : UpdateProjectInput) : result Failure ProjectPatch :=
  name ← optional (λ v, reading (readName v)) (up_name input);
  slug ← optional (λ v, reading (readSlug v)) (up_slug input);
  defaultBranch ← optional (λ v, reading (readBranch v)) (up_defaultBranch input);
  settings ← optional (λ v, readSettings (Some v)) (up_settings input);
  repository ← optional readRepositoryIdentity (up_repositoryIdentity input);
  let patch := {| pp_name := name; pp_slug := slug; pp_defaultBranch := defaultBranch;
                  pp_settings := settings; pp_repository := repository |} in
  if empty_patch patch
  then Err (ApiThrown (api_error VALIDATION_FAILED "The request changes nothing."
                         [("reason", JStr "empty_patch")]))
  else Ok patch.

(** A failure of the readings leaves the state. *)
Definition liftF {A} (r : result Failure A) : M A :=
  match r with Ok a => mret a | Err e => throwM e end.

(** ** Guards *)

Definition project_of (d : Db) (projectId organisationId : string) : option ProjectRow :=
  find_row (projects d) (λ r, bool_decide (pj_organisation_id r = organisationId)) projectId.
Definition lockProject (projectId organisationId : string) : M ProjectRow :=
  row ← gets (λ d, project_of d projectId organisationId);
  unless_none row (notFound "The project").

Definition assertVersion (row : ProjectRow) (expected : option Z) : result ApiError unit :=
  match expected with
  | None => Ok ()
  | Some expected =>
      if bool_decide (pj_version row ≠ expected)
      then throw VERSION_CONFLICT "The project changed since it was loaded."
             [("current_version", JNum (pj_version row)); ("expected_version", JNum expected)]
      else Ok ()
  end.

Definition translateSlugConflict (error : Failure) (slug : string) : Failure :=
  match error with
  | UniqueViolation c =>
      if bool_decide (c = "projects_slug_unique_per_organisation")
      then ApiThrown (api_error VALIDATION_FAILED
             ("Another project in this organisation already uses the slug " +:+ slug +:+ ".")
             [("field", JStr "slug"); ("reason", JStr "slug_not_unique")])
      else error
  | _ => error
  end.

Definition sameJson (left right : json) : bool := bool_decide (stableJson left = stableJson right).
Definition canonical_of_row (row : ProjectRow) : option string :=
  ri_canonical <$> pj_repository_identity row.

Definition changed_to (new : option string) (old : string) : bool :=
  match new with Some v => negb (bool_decide (v = old)) | None => false end.
(** [changes]: what actually moved. *)
Definition changes (p : ProjectPatch) (current : ProjectRow) : list string :=
  (if changed_to (pp_name p) (pj_name current) then ["name"] else [])
  ++ (if changed_to (pp_slug p) (pj_slug current) then ["slug"] else [])
  ++ (if changed_to (pp_defaultBranch p) (pj_default_branch current)
      then ["default_branch"] else [])
  ++ match pp_settings p with
     | Some v => if sameJson (settings_json v) (settings_json (pj_settings current))
                 then [] else ["settings"]
     | None => []
     end
  ++ match pp_repository p with
     | Some v => if sameJson (repository_json v) (or_null repository_json (pj_repository_identity current))
                 then [] else ["repository_identity"]
     | None => []
     end.
Definition repository_moved (p : ProjectPatch) (current : ProjectRow) : bool :=
  match pp_repository p with
  | Some v => negb (bool_decide (Some (ri_canonical v) = canonical_of_row current))
  | None => false
  end.

(** ** Rows *)

Definition new_project (id org : string) (time : Z) (p : NewProject) : ProjectRow :=
  {| pj_id := id; pj_organisation_id := org; pj_name := np_name p; pj_slug := np_slug p;
     pj_repository_identity := np_repository p; pj_default_branch := np_defaultBranch p;
     pj_status := pj_active; pj_settings := np_settings p; pj_version := 1;
     pj_created_at := time; pj_updated_at := time; pj_archived_at := None |}.
Definition patched (time : Z) (p : ProjectPatch) (r : ProjectRow) : ProjectRow :=
  {| pj_id := pj_id r; pj_organisation_id := pj_organisation_id r;
     pj_name := default (pj_name r) (pp_name p); pj_slug := default (pj_slug r) (pp_slug p);
     pj_repository_identity :=
       match pp_repository p with Some v => Some v | None => pj_repository_identity r end;
     pj_default_branch := default (pj_default_branch r) (pp_defaultBranch p);
     pj_status := pj_status r; pj_settings := default (pj_settings r) (pp_settings p);
     pj_version := (pj_version r + 1)%Z; pj_created_at := pj_created_at r;
     pj_updated_at := time; pj_archived_at := pj_archived_at r |}.
Definition archived (time : Z) (r : ProjectRow) : ProjectRow :=
  {| pj_id := pj_id r; pj_organisation_id := pj_organisation_id r;
     pj_name := pj_name r; pj_slug := pj_slug r;
     pj_repository_identity := pj_repository_identity r;
     pj_default_branch := pj_default_branch r; pj_status := pj_archived;
     pj_settings := pj_settings r; pj_version := (pj_version r + 1)%Z;
     pj_created_at := pj_created_at r; pj_updated_at := time; pj_archived_at := Some time |}.

Section service.
Context `{Entropy}.

(** [newEntityId("project")] *)
Definition newProjectId : M string := λ s,
  let s' := {| db := db s; drawn := S (drawn s); clock := clock s; denied := denied s |} in
  match newEntityId "project" (random_bytes (drawn s)) with
  | Ok id => (Ok id, s')
  | Err _ => (Err (PlainError "no prefix for the kind"), s')
  end.

Definition project_event (type : string) (org project requestId : string) (actor : EventActor)
    (payload : members) : M unit :=
  append type {| organisationId := org; projectId := project |} actor
    [("request_id", JStr requestId)] payload.

Definition create_body (input : CreateProjectInput) (id : string) (p : NewProject) : M ProjectRow :=
  time ← now;
  let row := new_project id (cp_organisationId input) time p in
  insert_project row ;;
  project_event "project.created" (cp_organisationId input) (pj_id row) (cp_requestId input) (cp_actor input)
    ([("slug", JStr (pj_slug row)); ("name", JStr (pj_name row));
      ("default_branch", JStr (pj_default_branch row))]
     ++ opt_member "repository_canonical" (λ r, JStr (ri_canonical r)) (np_repository p)) ;;
  mret row.
Definition createProject (input : CreateProjectInput) : M ProjectRow :=
  p ← liftF (read_new input);
  id ← newProjectId;
  catching (inTransaction (create_body input id p))
    (λ error, throwM (translateSlugConflict error (np_slug p))).

Definition update_body (input : UpdateProjectInput) (p : ProjectPatch) : M ProjectRow :=
  current ← lockProject (up_projectId input) (up_organisationId input);
  lift (assertVersion current (up_expectedVersion input)) ;;
  let moved := changes p current in
  match moved with
  | [] => mret current
  | _ =>
      time ← now;
      let row := patched time p current in
      update_project row ;;
      project_event "project.updated" (pj_organisation_id row) (pj_id row) (up_requestId input)
        (up_actor input) [("changed_fields", strs moved)] ;;
      whenM (repository_moved p current)
        (project_event "project.repository_changed" (pj_organisation_id row) (pj_id row)
           (up_requestId input) (up_actor input)
           (opt_member "previous_canonical" JStr (canonical_of_row current)
            ++ opt_member "new_canonical" (λ r, JStr (ri_canonical r)) (pp_repository p))) ;;
      mret row
  end.
Definition updateProject (input : UpdateProjectInput) : M ProjectRow :=
  p ← liftF (read_patch input);
  catching (inTransaction (update_body input p))
    (λ error, throwM (translateSlugConflict error (default "" (pp_slug p)))).

Definition archive_body (input : ArchiveProjectInput) : M ProjectRow :=
  current ← lockProject (ap_projectId input) (ap_organisationId input);
  lift (assertVersion current (ap_expectedVersion input)) ;;
  if bool_decide (pj_status current = pj_archived) then mret current else
  time ← now;
  let row := archived time current in
  update_project row ;;
  project_event "project.archived" (pj_organisation_id row) (pj_id row) (ap_requestId input) (ap_actor input)
    [("previous_status", JStr (project_status_name (pj_status current)));
     ("new_status", JStr "archived")] ;;
  mret row.
Definition archiveProject (input : ArchiveProjectInput) : M ProjectRow :=
  inTransaction (archive_body input).

(** [byId] *)
Definition projectById (projectId : string) : M (option ProjectRow) :=
  gets (λ d, projects d !! projectId).
End service.
