(* ===== verification/Inbox.v ===== *)
(** * The inbox: deliveries of work to a person or an agent session
    ([InboxStore] of [src/apps/server/src/modules/agents/inbox.ts]) *)

From S2P Require Import Prelude Errors ReviewProtocol ReviewDomain Events Completion Geometry Store.

#[export] Instance InboxItemStatus_vocabulary : Vocabulary InboxItemStatus.
Proof.
  refine {| vocab := [i_pending; i_acknowledged; i_completed; i_dismissed; i_expired];
            name := λ s, match s with
              | i_pending => "pending" | i_acknowledged => "acknowledged"
              | i_completed => "completed" | i_dismissed => "dismissed"
              | i_expired => "expired" end |}; solve_vocabulary.
Defined.
#[export] Instance InboxItemType_vocabulary : Vocabulary InboxItemType.
Proof.
  refine {| vocab := [review_assigned; finding_reopened];
            name := λ t, match t with
              | review_assigned => "review_assigned"
              | finding_reopened => "finding_reopened" end |}; solve_vocabulary.
Defined.
#[export] Instance InboxRecipientType_vocabulary : Vocabulary InboxRecipientType.
Proof.
  refine {| vocab := [to_human_user; to_agent_session];
            name := λ t, match t with
              | to_human_user => "human_user"
              | to_agent_session => "agent_session" end |}; solve_vocabulary.
Defined.

Definition LIVE_INBOX_STATUSES : list InboxItemStatus := [i_pending; i_acknowledged].

(** [TRANSITIONS]: the statuses an item may move to [t] from. *)
Definition TRANSITIONS (t : InboxItemStatus) : list InboxItemStatus :=
  match t with
  | i_pending => []
  | i_acknowledged => [i_pending]
  | i_completed | i_dismissed | i_expired => [i_pending; i_acknowledged]
  end.

Definition EVENT_FOR (t : InboxItemStatus) : string := "inbox_item." +:+ name t.

(** [CreateInboxItemInput]; an absent member and a null one are both [None]. *)
Record CreateInboxItemInput := {
  ci_organisationId : string;
  ci_projectId : string;
  ci_recipientType : InboxRecipientType;
  ci_recipientId : option string;
  ci_type : InboxItemType;
  ci_title : string;
  ci_reviewId : option string;
  ci_findingId : option string;
  ci_reviewSlug : option string;
  ci_priority : option ReviewPriority;
  ci_findingCount : option Z;
  ci_findingSource : option FindingSource
}.

(** The second query of [create]: the live item that carries the same work. *)
Definition carries_same_work (input : CreateInboxItemInput) (i : InboxRow) : bool :=
  bool_decide (in_project_id i = ci_projectId input)
  && bool_decide (in_type i = ci_type input)
  && bool_decide (in_recipient_type i = ci_recipientType input)
  && bool_decide (default "" (in_recipient_id i) = default "" (ci_recipientId input))
  && is_live (in_status i)
  && match ci_type input with
     | review_assigned =>
         match ci_reviewId input with
         | None => true
         | Some r => bool_decide (in_review_id i = Some r)
         end
     | finding_reopened =>
         match ci_findingId input with
         | None => true
         | Some f => bool_decide (in_finding_id i = Some f)
         end
     end.

Section store.
Context `{Entropy}.

(** [InboxStore.create], on the caller's transaction. *)
Definition create (input : CreateInboxItemInput) (actor : EventActor) : M InboxRow :=
  id ← newId "inb_";
  time ← now;
  let item :=
    {| in_id := id; in_organisation_id := ci_organisationId input;
       in_project_id := ci_projectId input;
       in_recipient_type := ci_recipientType input;
       in_recipient_id := ci_recipientId input;
       in_type := ci_type input; in_title := ci_title input; in_status := i_pending;
       in_review_id := ci_reviewId input; in_finding_id := ci_findingId input;
       in_payload := {| ip_review_slug := ci_reviewSlug input;
                        ip_priority := ci_priority input;
                        ip_finding_count := ci_findingCount input;
                        ip_finding_source := ci_findingSource input |};
       in_created_by := Some actor; in_created_at := time;
       in_acknowledged_at := None; in_completed_at := None; in_expires_at := None |} in
  inserted ← insert_inbox_item item;
  if inserted : bool then
    append "inbox_item.created"
      {| organisationId := in_organisation_id item; projectId := in_project_id item |} actor
      (opt_member "review_id" JStr (in_review_id item)
       ++ opt_member "finding_id" JStr (in_finding_id item)
       ++ (if bool_decide (in_recipient_type item = to_agent_session)
           then opt_member "agent_session_id" JStr (in_recipient_id item) else []))
      ([("inbox_item_id", JStr (in_id item));
        ("recipient_type", JStr (name (in_recipient_type item)))]
       ++ opt_member "recipient_id" JStr (in_recipient_id item)
       ++ [("type", JStr (name (in_type item))); ("status", JStr (name (in_status item)))]
       ++ opt_member "review_id" JStr (in_review_id item)
       ++ opt_member "finding_id" JStr (in_finding_id item)
       ++ opt_member "finding_count" JNum (ip_finding_count (in_payload item))
       ++ opt_member "priority" (λ p, JStr (name p)) (ip_priority (in_payload item))) ;;
    mret item
  else
    existing ← gets (λ d, last (order_by in_created_at (λ _, "")
                            (select (carries_same_work input) (inbox_items d))));
    unless_none existing
      (mk_ApiError INTERNAL_ERROR "The inbox item could not be recorded." None None None).

(** [pendingCount] and the rows [list] selects, before paging. *)
Definition addressed_to (recipient : InboxRecipientType) (id : option string) (i : InboxRow) :
    bool :=
  bool_decide (in_recipient_type i = recipient)
  && match id with
     | None => true
     | Some r => bool_decide (in_recipient_id i = Some r) || bool_decide (in_recipient_id i = None)
     end.

Definition pendingCount (scope : Scope) (recipient : InboxRecipientType) (id : option string) :
    M Z :=
  gets (λ d, count (select (λ i, inbox_in scope i && bool_decide (in_status i = i_pending)
                                  && addressed_to recipient id i) (inbox_items d))).

(** [get]. *)
Definition get (scope : Scope) (itemId : string) : M InboxRow :=
  row ← gets (λ d, find_row (inbox_items d) (inbox_in scope) itemId);
  unless_none row (notFound "The inbox item").

(** [transition]: the item and its previous status. *)
Definition transition (scope : Scope) (itemId : string) (t : InboxItemStatus)
    (actor : EventActor) (reason : option string)
    (recipient : option (InboxRecipientType * option string)) :
    M (InboxRow * InboxItemStatus) :=
  inTransaction (
    row ← gets (λ d, find_row (inbox_items d) (inbox_in scope) itemId);
    current ← unless_none row (notFound "The inbox item");
    lift match recipient with
         | None => Ok tt
         | Some (type, id) =>
             if bool_decide (in_recipient_type current = type)
                && (bool_decide (in_recipient_id current = None)
                    || bool_decide (in_recipient_id current = id))
             then Ok tt else Err (notFound "The inbox item")
         end ;;
    if bool_decide (in_status current = t) then mret (current, in_status current)
    else
      lift (if negb (includes (TRANSITIONS t) (in_status current))
            then throw POLICY_DENIED
                   ("An inbox item that is " +:+ name (in_status current)
                      +:+ " cannot become " +:+ name t +:+ ".") (field "status")
            else Ok tt) ;;
      time ← now;
      let item :=
        {| in_id := in_id current; in_organisation_id := in_organisation_id current;
           in_project_id := in_project_id current;
           in_recipient_type := in_recipient_type current;
           in_recipient_id := in_recipient_id current;
           in_type := in_type current; in_title := in_title current; in_status := t;
           in_review_id := in_review_id current; in_finding_id := in_finding_id current;
           in_payload := in_payload current; in_created_by := in_created_by current;
           in_created_at := in_created_at current;
           in_acknowledged_at := if bool_decide (t = i_acknowledged) then Some time
                                 else in_acknowledged_at current;
           in_completed_at := if bool_decide (t = i_completed) then Some time
                              else in_completed_at current;
           in_expires_at := in_expires_at current |} in
      update_inbox_item item ;;
      append (EVENT_FOR t) scope actor
        (opt_member "review_id" JStr (in_review_id item)
         ++ opt_member "finding_id" JStr (in_finding_id item))
        ([("inbox_item_id", JStr (in_id item));
          ("previous_status", JStr (name (in_status current)))]
         ++ opt_member "review_id" JStr (in_review_id item)
         ++ (if bool_decide (t = i_dismissed) then opt_member "reason" JStr reason else [])) ;;
      mret (item, in_status current)).
End store.
