(* ===== verification/ReviewService.v ===== *)
(** * Reviews: creation, edits, assignment and the lifecycle
    ([ReviewService] of [src/apps/server/src/modules/reviews/service.ts]) *)

From S2P Require Import Prelude Errors ReviewProtocol ReviewDomain Events Completion Geometry Store Records Inbox.

(** ** Inputs *)

Record CreateReviewInput := {
  cr_slug : string;
  cr_title : string;
  cr_description : option string;
  cr_status : option ReviewStatus;
  cr_priority : option ReviewPriority;
  cr_capturedBranch : string;
  cr_capturedCommit : string;
  cr_capturedWorkspaceId : string;
  cr_sourceBrowserSessionId : string
}.

Record UpdateReviewInput := {
  ur_expectedVersion : Z;
  ur_title : option string;
  ur_slug : option string;
  ur_description : option string;
  ur_status : option ReviewStatus;
  ur_priority : option ReviewPriority;
  ur_reason : option string
}.

Record AssignReviewInput := {
  ai_expectedVersion : Z;
  ai_assignedUserId : option string;
  ai_assignedAgentSessionId : option string;
  ai_reason : option string
}.

(** [ReviewTransitionInput], and [DisposeFindingInput] with its
    [duplicateOfFindingId]. *)
Record ReviewTransitionInput := {
  rt_expectedVersion : Z;
  rt_reason : option string;
  rt_verificationId : option string
}.

Definition is_some {A} (o : option A) : bool := match o with Some _ => true | None => false end.

(** [CASE WHEN c THEN a WHEN c' THEN b ELSE old END]. *)
Definition case_when {A} (c : bool) (a : A) (c' : bool) (b old : A) : A :=
  if c then a else if c' then b else old.

(** [COALESCE(a, b)] with a nullable second column. *)
Definition coalesce {A} (a b : option A) : option A :=
  match a with Some x => Some x | None => b end.

(** [toReview] of the failure's slug conflict: [#translateSlugConflict]. *)
Definition translateSlugConflict (error : Failure) (slug : string) : Failure :=
  match error with
  | UniqueViolation c =>
      if bool_decide (c = "reviews_active_slug_unique")
      then ApiThrown (api_error IDEMPOTENCY_CONFLICT
             ("An active review with the slug " +:+ slug +:+ " already exists in this project.")
             (field "slug"))
      else error
  | _ => error
  end.

Definition status_change_denied (type : string) (correlation payload : members) : PendingDenial :=
  {| pd_type := type; pd_correlation := correlation; pd_payload := payload |}.

Section service.
Context `{Entropy}.

(** ** Internals *)

(** [#recordDenial]: the audit record of a refusal, in its own transaction.
    A failure to write it is only logged. *)
Definition recordDenial (scope : Scope) (actor : EventActor) (error : Failure) : M unit :=
  pending ← get_denied;
  match pending, error with
  | Some d, ApiThrown e =>
      catching
        (inTransaction
           (append (pd_type d) scope actor (pd_correlation d)
              (pd_payload d ++ [("code", JStr (code_name (code e)));
                                ("reason", JStr (slice_to 500 (message e)))])))
        (λ _, mret tt)
  | _, _ => mret tt
  end.

(** [#lockReview]: the columns it reads are those of the row. *)
Definition lockReview (scope : Scope) (reviewId : string) : M ReviewRow :=
  row ← gets (λ d, find_row (reviews d) (review_in scope) reviewId);
  unless_none row (notFound "The review").

Definition findings_of (d : Db) (reviewId : string) : list FindingRow :=
  select (λ f, bool_decide (fn_review_id f = reviewId)) (findings d).

(** [getReview]: the row and the number of its findings. *)
Definition getReview (scope : Scope) (reviewId : string) : M (ReviewRow * Z) :=
  row ← gets (λ d, find_row (reviews d) (review_in scope) reviewId);
  r ← unless_none row (notFound "The review");
  n ← gets (λ d, count (findings_of d reviewId));
  mret (r, n).

(** [getReviewBySlug]: an active review of the project. *)
Definition getReviewBySlug (scope : Scope) (slug : string) : M (ReviewRow * Z) :=
  row ← gets (λ d, head (select (λ r, bool_decide (rv_slug r = slug) && review_in scope r
                                      && includes ACTIVE_REVIEW_STATUSES (rv_status r))
                           (reviews d)));
  r ← unless_none row (notFound "The review");
  n ← gets (λ d, count (findings_of d (rv_id r)));
  mret (r, n).

(** [#assertFindingsPermitAcceptance]. *)
Definition acceptance_finding (f : FindingRow) : AcceptanceFinding :=
  {| af_id := fn_id f; af_source := fn_source f; af_status := fn_status f |}.
Definition acceptance_findings (d : Db) (scope : Scope) (reviewId : string) :
    list AcceptanceFinding :=
  acceptance_finding <$>
    order_by fn_created_at fn_id
      (select (λ f, bool_decide (fn_review_id f = reviewId) && finding_in scope f)
         (findings d)).
Definition assertFindingsPermitAcceptance (scope : Scope) (reviewId : string) : M (Z * Z) :=
  fs ← gets (λ d, acceptance_findings d scope reviewId);
  lift (assertReviewAcceptable fs) ;;
  mret (count fs, count (filter (λ f, af_source f = human) fs)).

(** [#requireUserInOrganisation] and [#requireAgentSessionInProject]. *)
Definition requireUserInOrganisation (scope : Scope) (userId : string) : M unit :=
  row ← gets (λ d, find_row (users d)
                (λ u, bool_decide (us_organisation_id u = organisationId scope)) userId);
  _ ← unless_none row (notFound "The user"); mret tt.
Definition requireAgentSessionInProject (scope : Scope) (sessionId : string) : M unit :=
  row ← gets (λ d, find_row (agent_sessions d)
                (λ a, in_scope scope (as_organisation_id a) (as_project_id a)) sessionId);
  _ ← unless_none row (notFound "The agent session"); mret tt.

(** [#requireSessionInProject]. *)
Definition requireSessionInProject (scope : Scope) (browserSessionId : string) : M unit :=
  row ← gets (λ d, browser_sessions d !! browserSessionId);
  b ← unless_none row (notFound "The source browser session");
  lift (if bool_decide (bs_project_id b ≠ projectId scope)
        then throw PROJECT_CONTEXT_MISMATCH
               "The source browser session belongs to another project."
               (field "source_browser_session_id")
        else Ok tt).

(** ** Creation *)

Definition new_review (id : string) (time : Z) (scope : Scope) (input : CreateReviewInput)
    (status : ReviewStatus) (actor : EventActor) : ReviewRow :=
  {| rv_id := id; rv_organisation_id := organisationId scope;
     rv_project_id := projectId scope; rv_slug := cr_slug input;
     rv_title := cr_title input; rv_description := cr_description input;
     rv_status := status; rv_priority := Some (default pri_medium (cr_priority input));
     rv_version := 1; rv_created_by := actor; rv_assigned_user_id := None;
     rv_assigned_agent_session_id := None; rv_captured_branch := cr_capturedBranch input;
     rv_captured_commit := cr_capturedCommit input;
     rv_captured_workspace_id := cr_capturedWorkspaceId input;
     rv_source_browser_session_id := Some (cr_sourceBrowserSessionId input);
     rv_created_at := time; rv_updated_at := time; rv_closed_at := None;
     rv_reopen_count := 0; rv_accepted_at := None; rv_accepted_by := None |}.

Definition createReview (scope : Scope) (input : CreateReviewInput) (actor : EventActor) :
    M ReviewRow :=
  let status := default DRAFT (cr_status input) in
  lift (if negb (includes [DRAFT; READY] status)
        then throw POLICY_DENIED
               "A review is created as DRAFT or READY; every other status is reached by a transition."
               (field "status")
        else Ok tt) ;;
  requireSessionInProject scope (cr_sourceBrowserSessionId input) ;;
  id ← newId "rev_";
  catching
    (inTransaction (
       time ← now;
       let review := new_review id time scope input status actor in
       insert_review review ;;
       append "review.created" scope actor
         [("review_id", JStr (rv_id review));
          ("browser_session_id", JStr (cr_sourceBrowserSessionId input))]
         [("review", toReview review (Some 0%Z))] ;;
       append "review.named" scope actor
         [("review_id", JStr (rv_id review))]
         [("review_id", JStr (rv_id review)); ("slug", JStr (rv_slug review));
          ("title", JStr (rv_title review))] ;;
       mret review))
    (λ e, throwM (translateSlugConflict e (cr_slug input))).

(** ** Edits *)

(** The fields a patch names, apart from the status. *)
Definition patched_fields (input : UpdateReviewInput) : list string :=
  (if is_some (ur_title input) then ["title"] else [])
  ++ (if is_some (ur_slug input) then ["slug"] else [])
  ++ (if is_some (ur_description input) then ["description"] else [])
  ++ (if is_some (ur_priority input) then ["priority"] else []).

(** The row the [UPDATE] statement writes. *)
Definition updated_review (r : ReviewRow) (input : UpdateReviewInput) (t : ReviewStatus)
    (closed reopening accepting : bool) (actor : EventActor) (time : Z) : ReviewRow :=
  {| rv_id := rv_id r; rv_organisation_id := rv_organisation_id r;
     rv_project_id := rv_project_id r;
     rv_slug := default (rv_slug r) (ur_slug input);
     rv_title := default (rv_title r) (ur_title input);
     rv_description := coalesce (ur_description input) (rv_description r);
     rv_status := t;
     rv_priority := coalesce (ur_priority input) (rv_priority r);
     rv_version := rv_version r + 1;
     rv_created_by := rv_created_by r; rv_assigned_user_id := rv_assigned_user_id r;
     rv_assigned_agent_session_id := rv_assigned_agent_session_id r;
     rv_captured_branch := rv_captured_branch r;
     rv_captured_commit := rv_captured_commit r;
     rv_captured_workspace_id := rv_captured_workspace_id r;
     rv_source_browser_session_id := rv_source_browser_session_id r;
     rv_created_at := rv_created_at r; rv_updated_at := time;
     rv_closed_at := case_when closed (coalesce (rv_closed_at r) (Some time))
                       reopening None (rv_closed_at r);
     rv_reopen_count := rv_reopen_count r + (if reopening then 1 else 0);
     rv_accepted_at := case_when accepting (Some time) reopening None (rv_accepted_at r);
     rv_accepted_by := case_when accepting (Some actor) reopening None (rv_accepted_by r) |}.

Definition reason_member (reason : option string) : members := opt_member "reason" JStr reason.

Definition review_ref (reviewId : string) : members := [("review_id", JStr reviewId)].

(** The events [updateReview] writes after its [UPDATE], in order. *)
Definition review_named_event (scope : Scope) (actor : EventActor) (input : UpdateReviewInput)
    (current review : ReviewRow) : M unit :=
  append "review.named" scope actor (review_ref (rv_id review))
    (review_ref (rv_id review)
     ++ [("slug", JStr (rv_slug review)); ("title", JStr (rv_title review))]
     ++ match ur_slug input with
        | None => []
        | Some slug => if bool_decide (slug = rv_slug current) then []
                       else [("previous_slug", JStr (rv_slug current))]
        end).

Definition review_status_changed_event (scope : Scope) (actor : EventActor)
    (reason : option string) (current review : ReviewRow) : M unit :=
  append "review.status_changed" scope actor (review_ref (rv_id review))
    (review_ref (rv_id review)
     ++ [("from", named (rv_status current)); ("to", named (rv_status review));
         ("version", JNum (rv_version review))]
     ++ reason_member reason).

Definition review_accepted_event (scope : Scope) (actor : EventActor)
    (reason : option string) (counts : Z * Z) (review : ReviewRow) : M unit :=
  append "review.accepted" scope actor (review_ref (rv_id review))
    (review_ref (rv_id review)
     ++ [("accepted_by", eventActor actor); ("version", JNum (rv_version review));
         ("finding_count", JNum counts.1); ("human_finding_count", JNum counts.2)]
     ++ reason_member reason).

Definition review_reopened_event (scope : Scope) (actor : EventActor)
    (reason : option string) (current review : ReviewRow) : M unit :=
  append "review.reopened" scope actor (review_ref (rv_id review))
    (review_ref (rv_id review)
     ++ [("from", named (rv_status current)); ("to", named (rv_status review));
         ("version", JNum (rv_version review));
         ("reopen_count", JNum (rv_reopen_count review))]
     ++ reason_member reason).

Definition review_archived_event (scope : Scope) (actor : EventActor)
    (reason : option string) (current review : ReviewRow) : M unit :=
  append "review.archived" scope actor (review_ref (rv_id review))
    (review_ref (rv_id review)
     ++ [("from", named (rv_status current)); ("version", JNum (rv_version review))]
     ++ reason_member reason).

(** The body of [updateReview]'s transaction. *)
Definition updateReview_body (scope : Scope) (reviewId : string) (input : UpdateReviewInput)
    (actor : EventActor) : M ReviewRow :=
  current ← lockReview scope reviewId;
  lift (assertExpectedVersion (rv_version current) (ur_expectedVersion input) "review") ;;
  lift (assertReviewMutable (rv_status current) (ur_status input) (patched_fields input)) ;;
  let nextStatus := default (rv_status current) (ur_status input) in
  let changing := negb (bool_decide (nextStatus = rv_status current)) in
  whenM changing (
    set_denied (Some (status_change_denied "review.status_change_denied" (review_ref reviewId)
                        (review_ref reviewId
                         ++ [("from", named (rv_status current));
                             ("requested", named nextStatus)]))) ;;
    lift (assertActorMayCloseReview (actor_type actor) nextStatus) ;;
    lift (assertReviewTransition (rv_status current) nextStatus) ;;
    lift (assertActorMayMoveReview (actor_type actor) (rv_status current) nextStatus) ;;
    set_denied None) ;;
  let accepting := changing && bool_decide (nextStatus = ACCEPTED) in
  counts ← (if accepting : bool then assertFindingsPermitAcceptance scope reviewId
            else mret (0, 0)%Z);
  let reopening := changing && bool_decide (rv_status current = ACCEPTED) in
  let closed := includes [ACCEPTED; CANCELLED; ARCHIVED] nextStatus in
  time ← now;
  let review := updated_review current input nextStatus closed reopening accepting actor time in
  update_review review ;;
  whenM (is_some (ur_slug input) || is_some (ur_title input))
    (review_named_event scope actor input current review) ;;
  whenM changing (review_status_changed_event scope actor (ur_reason input) current review) ;;
  whenM accepting (review_accepted_event scope actor (ur_reason input) counts review) ;;
  whenM reopening (review_reopened_event scope actor (ur_reason input) current review) ;;
  whenM (changing && bool_decide (nextStatus = ARCHIVED))
    (review_archived_event scope actor (ur_reason input) current review) ;;
  mret review.

Definition updateReview (scope : Scope) (reviewId : string) (input : UpdateReviewInput)
    (actor : EventActor) : M ReviewRow :=
  set_denied None ;;
  catching (inTransaction (updateReview_body scope reviewId input actor))
    (λ e, recordDenial scope actor e ;;
          throwM (translateSlugConflict e (default "" (ur_slug input)))).

(** The lifecycle routes: [updateReview] with the target fixed. *)
Definition transition_input (input : ReviewTransitionInput) (t : ReviewStatus) :
    UpdateReviewInput :=
  {| ur_expectedVersion := rt_expectedVersion input; ur_title := None; ur_slug := None;
     ur_description := None; ur_status := Some t; ur_priority := None;
     ur_reason := rt_reason input |}.

Definition requestHumanReview scope reviewId input actor : M ReviewRow :=
  updateReview scope reviewId (transition_input input R_AWAITING_HUMAN_REVIEW) actor.
Definition acceptReview scope reviewId input actor : M ReviewRow :=
  updateReview scope reviewId (transition_input input ACCEPTED) actor.
Definition reopenReview scope reviewId input actor : M ReviewRow :=
  lift (assertDecisionReason "Reopening a review" (rt_reason input)) ;;
  updateReview scope reviewId (transition_input input CHANGES_REQUESTED) actor.
Definition archiveReview scope reviewId input actor : M ReviewRow :=
  updateReview scope reviewId (transition_input input ARCHIVED) actor.

(** ** Assignment *)

(** The row an assignment or a claim writes. *)
Definition reassigned (r : ReviewRow) (user session : option string) (t : ReviewStatus)
    (time : Z) : ReviewRow :=
  {| rv_id := rv_id r; rv_organisation_id := rv_organisation_id r;
     rv_project_id := rv_project_id r; rv_slug := rv_slug r; rv_title := rv_title r;
     rv_description := rv_description r; rv_status := t; rv_priority := rv_priority r;
     rv_version := rv_version r + 1; rv_created_by := rv_created_by r;
     rv_assigned_user_id := user; rv_assigned_agent_session_id := session;
     rv_captured_branch := rv_captured_branch r;
     rv_captured_commit := rv_captured_commit r;
     rv_captured_workspace_id := rv_captured_workspace_id r;
     rv_source_browser_session_id := rv_source_browser_session_id r;
     rv_created_at := rv_created_at r; rv_updated_at := time;
     rv_closed_at := rv_closed_at r; rv_reopen_count := rv_reopen_count r;
     rv_accepted_at := rv_accepted_at r; rv_accepted_by := rv_accepted_by r |}.

(** [READY] becomes [ASSIGNED]; the move is checked like any other. *)
Definition taken_status (s : ReviewStatus) : ReviewStatus :=
  if bool_decide (s = READY) then ASSIGNED else s.

Definition assert_taken (actor : EventActor) (s : ReviewStatus) : check :=
  if bool_decide (taken_status s ≠ s) then
    assertReviewTransition s (taken_status s) ;;
    assertActorMayMoveReview (actor_type actor) s (taken_status s)
  else Ok tt.

Definition assignment_recipient (input : AssignReviewInput) :
    option (InboxRecipientType * string) :=
  match ai_assignedAgentSessionId input with
  | Some a => Some (to_agent_session, a)
  | None =>
      match ai_assignedUserId input with
      | Some u => Some (to_human_user, u)
      | None => None
      end
  end.

Definition assignReview_body (scope : Scope) (reviewId : string) (input : AssignReviewInput)
    (actor : EventActor) : M ReviewRow :=
  current ← lockReview scope reviewId;
  lift (assertExpectedVersion (rv_version current) (ai_expectedVersion input) "review") ;;
  lift (assertReviewMutable (rv_status current) None ["assigned_to"]) ;;
  let nextStatus := taken_status (rv_status current) in
  lift (assert_taken actor (rv_status current)) ;;
  time ← now;
  let review := reassigned current (ai_assignedUserId input)
                  (ai_assignedAgentSessionId input) nextStatus time in
  update_review review ;;
  append "review.assigned" scope actor
    (review_ref reviewId
     ++ opt_member "agent_session_id" JStr (ai_assignedAgentSessionId input))
    (review_ref reviewId
     ++ opt_member "assigned_user_id" JStr (ai_assignedUserId input)
     ++ opt_member "assigned_agent_session_id" JStr (ai_assignedAgentSessionId input)
     ++ opt_member "previous_assigned_user_id" JStr (rv_assigned_user_id current)
     ++ opt_member "previous_assigned_agent_session_id" JStr
          (rv_assigned_agent_session_id current)
     ++ [("version", JNum (rv_version review))]
     ++ reason_member (ai_reason input)) ;;
  whenM (negb (bool_decide (nextStatus = rv_status current)))
    (review_status_changed_event scope actor (Some "assigned") current review) ;;
  match assignment_recipient input with
  | Some (type, id) =>
      n ← gets (λ d, count (findings_of d reviewId));
      _ ← create {| ci_organisationId := organisationId scope; ci_projectId := projectId scope;
                    ci_recipientType := type; ci_recipientId := Some id;
                    ci_type := review_assigned; ci_title := rv_title review;
                    ci_reviewId := Some reviewId; ci_findingId := None;
                    ci_reviewSlug := Some (rv_slug review); ci_priority := rv_priority review;
                    ci_findingCount := Some n; ci_findingSource := None |} actor;
      mret tt
  | None => mret tt
  end ;;
  mret review.

Definition assignReview (scope : Scope) (reviewId : string) (input : AssignReviewInput)
    (actor : EventActor) : M ReviewRow :=
  lift (if is_some (ai_assignedUserId input) && is_some (ai_assignedAgentSessionId input)
        then throw UNSUPPORTED_CAPABILITY
               "A review is assigned to a human or to an agent session, not to both: an assignment held by two principals does not answer the question it exists to answer."
               (field "assigned_agent_session_id")
        else Ok tt) ;;
  match ai_assignedUserId input with
  | Some u => requireUserInOrganisation scope u
  | None => mret tt
  end ;;
  match ai_assignedAgentSessionId input with
  | Some a => requireAgentSessionInProject scope a
  | None => mret tt
  end ;;
  inTransaction (assignReview_body scope reviewId input actor).

(** An actor that is an agent session, by its identifier. *)
Definition session_of (actor : EventActor) : option string :=
  if bool_decide (actor_type actor = agent_session) then actor_id actor else None.

Definition claimReview (scope : Scope) (reviewId : string) (expectedVersion : Z)
    (actor : EventActor) : M ReviewRow :=
  inTransaction (
    current ← lockReview scope reviewId;
    lift (assertExpectedVersion (rv_version current) expectedVersion "review") ;;
    lift (assertReviewMutable (rv_status current) None ["claimed_by"]) ;;
    let nextStatus := taken_status (rv_status current) in
    lift (assert_taken actor (rv_status current)) ;;
    time ← now;
    let review := reassigned current (rv_assigned_user_id current) (session_of actor)
                    nextStatus time in
    update_review review ;;
    append "review.claimed" scope actor
      (review_ref reviewId ++ opt_member "agent_session_id" JStr (session_of actor))
      (review_ref reviewId
       ++ [("claimed_by", eventActor actor); ("version", JNum (rv_version review))]) ;;
    whenM (negb (bool_decide (nextStatus = rv_status current)))
      (review_status_changed_event scope actor None current review) ;;
    mret review).
End service.
