(* ===== verification/FindingService.v ===== *)
(** * Findings, comments and annotations
    ([ReviewService] of [src/apps/server/src/modules/reviews/service.ts]) *)

From S2P Require Import Prelude Errors ReviewProtocol ReviewDomain Events Completion Geometry Store Records Inbox ReviewService.

(** ** Inputs *)

Record CreateAnnotationInput := {
  ca_artefactId : string;
  ca_type : AnnotationType;
  ca_geometry : json;
  ca_label : string;
  ca_markerNumber : option Z;
  ca_styleHint : option string
}.

Record CreateFindingInput := {
  cf_title : string;
  cf_description : option string;
  cf_severity : FindingSeverity;
  cf_url : string;
  cf_viewport : json;
  cf_scrollPosition : json;
  cf_capturedCommit : string;
  cf_screenshotArtefactId : string;
  cf_elementContext : option json;
  cf_acceptanceCriteria : option string;
  cf_annotations : list CreateAnnotationInput
}.

Record UpdateFindingInput := {
  uf_expectedVersion : Z;
  uf_title : option string;
  uf_description : option string;
  uf_severity : option FindingSeverity;
  uf_status : option FindingStatus;
  uf_acceptanceCriteria : option string;
  uf_resolutionNote : option string;
  uf_reason : option string;
  uf_duplicateOfFindingId : option string;
  uf_verificationId : option string
}.

Record UpdateAnnotationInput := {
  ua_expectedRevision : Z;
  ua_geometry : option json;
  ua_label : option string;
  ua_markerNumber : option Z;
  ua_styleHint : option string
}.

(** [sourceForActor]. *)
Definition sourceForActor (a : ActorType) : FindingSource :=
  if bool_decide (a = agent_session) then agent else human.

(** [#currentVerificationOn]. *)
Record CurrentClaim := {
  cc_id : string;
  cc_after_artefact_id : option string;
  cc_submitted_by : EventActor
}.

(** The finding's verifications, and its current one. *)
Definition verification_of (scope : Scope) (findingId : string) (v : VerificationRow) : bool :=
  bool_decide (vf_finding_id v = findingId) && verification_in scope v.
Definition is_current (scope : Scope) (findingId : string) (v : VerificationRow) : bool :=
  verification_of scope findingId v && bool_decide (vf_status v = submitted).
Definition current_row (d : Db) (scope : Scope) (findingId : string) : option VerificationRow :=
  head (select (is_current scope findingId) (verifications d)).

Section service.
Context `{Entropy}.

(** ** Internals *)

Definition finding_ref (findingId reviewId : string) : members :=
  [("finding_id", JStr findingId); ("review_id", JStr reviewId)].
Definition finding_correlation (reviewId findingId : string) : members :=
  [("review_id", JStr reviewId); ("finding_id", JStr findingId)].

(** [#lockFinding]. *)
Definition lockFinding (scope : Scope) (findingId : string) : M FindingRow :=
  row ← gets (λ d, find_row (findings d) (finding_in scope) findingId);
  unless_none row (notFound "The finding").

(** The current projection of a finding's annotations: the view
    [annotations_current]. *)
Definition is_newest (d : Db) (a : AnnotationRow) : bool :=
  negb (existsb (λ b, bool_decide (an_id b = an_id a) && bool_decide (an_revision a < an_revision b)%Z)
          (rows (annotations d))).
Definition current_annotations (d : Db) (findingId : string) : list AnnotationRow :=
  select (λ a, is_newest d a && bool_decide (an_finding_id a = findingId)
               && bool_decide (an_deleted_at a = None)) (annotations d).

(** [getFinding]: the row and the number of its annotations. *)
Definition getFinding (scope : Scope) (findingId : string) : M (FindingRow * Z) :=
  f ← lockFinding scope findingId;
  n ← gets (λ d, count (current_annotations d findingId));
  mret (f, n).

(** [#requireFindingInProject]. *)
Definition requireFindingInProject (scope : Scope) (findingId notThisOne : string) : M unit :=
  lift (if bool_decide (findingId = notThisOne)
        then throw UNSUPPORTED_CAPABILITY "A finding cannot duplicate itself."
               (field "duplicate_of_finding_id")
        else Ok tt) ;;
  row ← gets (λ d, find_row (findings d) (finding_in scope) findingId);
  _ ← unless_none row (notFound "The duplicated finding"); mret tt.

(** [#requireAvailableArtefact], with [getInScope] of the artefact service. *)
Definition requireAvailableArtefact (scope : Scope) (artefactId : string) : M unit :=
  row ← gets (λ d, find_row (artefacts d)
                (λ a, bool_decide (ar_deleted_at a = None)
                      && in_scope scope (ar_organisation_id a) (ar_project_id a)) artefactId);
  a ← unless_none row (notFound "The screenshot artefact");
  lift (if bool_decide (ar_state a ≠ a_available)
        then throw ARTEFACT_UPLOAD_INCOMPLETE
               "The screenshot has not been verified, so it cannot yet be used as evidence."
               (field "screenshot_artefact_id")
        else Ok tt).

Definition currentVerificationOn (scope : Scope) (findingId : string) :
    M (option CurrentClaim) :=
  gets (λ d, v ← current_row d scope findingId;
             Some {| cc_id := vf_id v;
                     cc_after_artefact_id := artefact_with_role d (vf_id v) after;
                     cc_submitted_by := vf_submitted_by v |}).

Definition countVerificationsOn (scope : Scope) (findingId : string) : M Z :=
  gets (λ d, count (select (verification_of scope findingId) (verifications d))).

(** [#missingEvidenceOn]: what the current claim is still short of.  The
    claim's branch and author do not matter to it. *)
Definition current_evidence (d : Db) (scope : Scope) (findingId : string) :
    option EvidenceUnderReview :=
  v ← current_row d scope findingId;
  Some {| eu_verification_id := vf_id v;
          eu_tested_viewports := vf_tested_viewports v;
          eu_checks := vf_checks v;
          eu_after_artefact_id := artefact_with_role d (vf_id v) after;
          eu_branch_corroborated := true;
          eu_submitted_by := {| actor_type := agent_session; actor_id := None;
                                actor_display := None |} |}.

Definition own_project (d : Db) (scope : Scope) : option ProjectRow :=
  find_row (projects d) (λ p, bool_decide (pj_organisation_id p = organisationId scope))
    (projectId scope).

Definition missingEvidenceOn (scope : Scope) (findingId : string) : M (list string) :=
  project ← gets (λ d, own_project d scope);
  p ← unless_none project (notFound "The project");
  gets (λ d, missingEvidence (pj_settings p) (completionRequirementsFor (pj_settings p))
               (current_evidence d scope findingId)).

(** ** Comments *)

(** [#writeComment]: one revision and its event, on the caller's
    transaction; [previous] is the revision it replaces. *)
Definition superseded_comment (c : CommentRow) (time : Z) : CommentRow :=
  {| cm_id := cm_id c; cm_organisation_id := cm_organisation_id c;
     cm_project_id := cm_project_id c; cm_review_id := cm_review_id c;
     cm_finding_id := cm_finding_id c; cm_body := cm_body c; cm_revision := cm_revision c;
     cm_created_by := cm_created_by c;
     cm_supersedes_comment_id := cm_supersedes_comment_id c;
     cm_superseded_at := Some time; cm_created_at := cm_created_at c |}.

Definition revision_superseded (revision : Z) : ApiError :=
  api_error VERSION_CONFLICT
    "This revision has already been superseded. Edit the current revision."
    [("current_version", JNum (revision + 1))].

Definition writeComment (scope : Scope) (reviewId : string) (findingId : option string)
    (body : string) (previous : option CommentRow) (actor : EventActor) : M CommentRow :=
  id ← newId "cmt_";
  time ← now;
  match previous with
  | None => mret tt
  | Some p =>
      row ← gets (λ d, find_row (comments d)
                    (λ c, comment_in scope c && bool_decide (cm_superseded_at c = None))
                    (cm_id p));
      c ← unless_none row (revision_superseded (cm_revision p));
      update_comment (superseded_comment c time)
  end ;;
  let comment :=
    {| cm_id := id; cm_organisation_id := organisationId scope;
       cm_project_id := projectId scope; cm_review_id := reviewId;
       cm_finding_id := findingId; cm_body := body;
       cm_revision := match previous with None => 1 | Some p => cm_revision p + 1 end;
       cm_created_by := actor; cm_supersedes_comment_id := cm_id <$> previous;
       cm_superseded_at := None; cm_created_at := time |} in
  insert_comment comment ;;
  append (match findingId with
          | None => "review.comment_added"
          | Some _ => "finding.comment_added"
          end) scope actor
    (review_ref reviewId ++ opt_member "finding_id" JStr findingId)
    [("comment", toComment comment)] ;;
  mret comment.

Definition insertComment scope reviewId findingId body previous actor : M CommentRow :=
  inTransaction (writeComment scope reviewId findingId body previous actor).

Definition addComment (scope : Scope) (findingId body : string) (actor : EventActor) :
    M CommentRow :=
  f ← getFinding scope findingId;
  insertComment scope (fn_review_id f.1) (Some findingId) body None actor.

Definition addReviewComment (scope : Scope) (reviewId body : string) (actor : EventActor) :
    M CommentRow :=
  _ ← getReview scope reviewId;
  insertComment scope reviewId None body None actor.

Definition editComment (scope : Scope) (commentId body : string) (actor : EventActor) :
    M CommentRow :=
  row ← gets (λ d, find_row (comments d) (comment_in scope) commentId);
  current ← unless_none row (notFound "The comment");
  lift (if is_some (cm_superseded_at current)
        then Err (revision_superseded (cm_revision current)) else Ok tt) ;;
  lift (if negb (bool_decide (actor_type (cm_created_by current) = actor_type actor))
           || negb (bool_decide (actor_id (cm_created_by current) = actor_id actor))
        then throw AUTHORISATION_DENIED
               "A comment may only be edited by the actor that wrote it." (field "body")
        else Ok tt) ;;
  insertComment scope (cm_review_id current) (cm_finding_id current) body (Some current) actor.

(** ** Updating a finding *)

Definition finding_denial (findingId : string) (current : FindingRow) (t : FindingStatus) :
    PendingDenial :=
  status_change_denied "finding.status_change_denied"
    (finding_correlation (fn_review_id current) findingId)
    (finding_ref findingId (fn_review_id current)
     ++ [("from", named (fn_status current)); ("requested", named t);
         ("source", named (fn_source current))]).

(** The checks of a requested move, in their order: disposition authority,
    legality, actor authority, then completion evidence. *)
Definition check_move (scope : Scope) (findingId : string) (input : UpdateFindingInput)
    (actor : EventActor) (current : FindingRow) (t : FindingStatus) : M unit :=
  set_denied (Some (finding_denial findingId current t)) ;;
  lift (assertActorMayDispose (actor_type actor) (fn_source current) t) ;;
  lift (assertFindingTransition (fn_status current) t) ;;
  lift (assertActorMayMoveFinding (actor_type actor) (fn_source current) (fn_status current) t) ;;
  set_denied None ;;
  missing ← (if bool_decide (t = AWAITING_HUMAN_REVIEW)
                && bool_decide (actor_type actor = agent_session)
             then m ← missingEvidenceOn scope findingId; mret (Some m)
             else mret None);
  whenM (match missing with Some (_ :: _) => true | _ => false end)
    (set_denied (Some (finding_denial findingId current t))) ;;
  lift (assertCompletionEvidence t
          (coalesce (uf_resolutionNote input) (fn_resolution_note current)) missing
          (Some (actor_type actor))) ;;
  set_denied None.

(** The claim a decision is about, checked against the one the caller named. *)
Definition check_claim (scope : Scope) (findingId : string) (input : UpdateFindingInput)
    (current : FindingRow) (t : FindingStatus) : M (option CurrentClaim) :=
  claim ← currentVerificationOn scope findingId;
  set_denied (Some (finding_denial findingId current t)) ;;
  lift (assertVerificationUnderReview (cc_id <$> claim) (uf_verificationId input)) ;;
  set_denied None ;;
  mret claim.

(** The row the [UPDATE] statement writes. *)
Definition updated_finding (f : FindingRow) (input : UpdateFindingInput) (t : FindingStatus)
    (claiming disposing reopening : bool) (actor : EventActor) (time : Z) : FindingRow :=
  {| fn_id := fn_id f; fn_organisation_id := fn_organisation_id f;
     fn_project_id := fn_project_id f; fn_review_id := fn_review_id f;
     fn_title := default (fn_title f) (uf_title input);
     fn_description := coalesce (uf_description input) (fn_description f);
     fn_severity := default (fn_severity f) (uf_severity input);
     fn_status := t; fn_source := fn_source f; fn_version := fn_version f + 1;
     fn_created_by := fn_created_by f;
     fn_claimed_by := if claiming then Some actor else fn_claimed_by f;
     fn_url := fn_url f; fn_viewport := fn_viewport f;
     fn_scroll_position := fn_scroll_position f;
     fn_captured_commit := fn_captured_commit f;
     fn_screenshot_artefact_id := fn_screenshot_artefact_id f;
     fn_element_context := fn_element_context f;
     fn_acceptance_criteria := coalesce (uf_acceptanceCriteria input) (fn_acceptance_criteria f);
     fn_resolution_note := coalesce (uf_resolutionNote input) (fn_resolution_note f);
     fn_created_at := fn_created_at f; fn_updated_at := time;
     fn_resolved_at := case_when disposing (Some time) reopening None (fn_resolved_at f);
     fn_resolved_by := case_when disposing (Some actor) reopening None (fn_resolved_by f);
     fn_disposition_reason :=
       case_when disposing (uf_reason input) reopening None (fn_disposition_reason f);
     fn_duplicate_of_finding_id :=
       case_when disposing (uf_duplicateOfFindingId input) reopening None
         (fn_duplicate_of_finding_id f);
     fn_reopen_count := fn_reopen_count f + (if reopening then 1 else 0) |}.

Definition finding_claimed_event scope actor (f : FindingRow) : M unit :=
  append "finding.claimed" scope actor (finding_correlation (fn_review_id f) (fn_id f))
    (finding_ref (fn_id f) (fn_review_id f)
     ++ [("claimed_by", eventActor actor); ("version", JNum (fn_version f))]).

Definition finding_status_changed_event scope actor (reason : option string)
    (current f : FindingRow) : M unit :=
  append "finding.status_changed" scope actor
    (finding_correlation (fn_review_id f) (fn_id f))
    (finding_ref (fn_id f) (fn_review_id f)
     ++ [("from", named (fn_status current)); ("to", named (fn_status f));
         ("version", JNum (fn_version f)); ("source", named (fn_source current))]
     ++ reason_member reason).

(** The claim's own decision: the row, then the event. *)
Definition decided_verification (v : VerificationRow) (yes : bool) (actor : EventActor)
    (time : Z) : VerificationRow :=
  {| vf_id := vf_id v; vf_organisation_id := vf_organisation_id v;
     vf_project_id := vf_project_id v; vf_review_id := vf_review_id v;
     vf_finding_id := vf_finding_id v;
     vf_status := if yes then accepted else rejected;
     vf_summary := vf_summary v; vf_branch := vf_branch v; vf_commit_sha := vf_commit_sha v;
     vf_tested_viewports := vf_tested_viewports v; vf_checks := vf_checks v;
     vf_submitted_by := vf_submitted_by v; vf_submitted_at := vf_submitted_at v;
     vf_reviewed_at := Some time;
     vf_reviewed_by := Some (actor_type actor, actor_id actor);
     vf_superseded_at := vf_superseded_at v;
     vf_superseded_by_verification_id := vf_superseded_by_verification_id v;
     vf_supersedes_verification_id := vf_supersedes_verification_id v |}.

Definition decide_claim scope actor (reason : option string) (yes : bool)
    (claim : CurrentClaim) (f : FindingRow) : M unit :=
  time ← now;
  row ← gets (λ d, find_row (verifications d) (verification_in scope) (cc_id claim));
  match row with
  | Some v => update_verification (decided_verification v yes actor time)
  | None => mret tt
  end ;;
  append (if yes then "finding.verification_accepted" else "finding.verification_rejected")
    scope actor (finding_correlation (fn_review_id f) (fn_id f))
    ([("verification_id", JStr (cc_id claim))] ++ finding_ref (fn_id f) (fn_review_id f)
     ++ [("submitted_by", eventActor (cc_submitted_by claim));
         ("decided_by", eventActor actor); ("version", JNum (fn_version f))]
     ++ (if yes then opt_member "after_artefact_id" JStr (cc_after_artefact_id claim) else [])
     ++ reason_member reason).

Definition finding_resolved_event scope actor (input : UpdateFindingInput)
    (current f : FindingRow) : M unit :=
  append "finding.resolved" scope actor (finding_correlation (fn_review_id f) (fn_id f))
    (finding_ref (fn_id f) (fn_review_id f)
     ++ [("disposition", named (fn_status f)); ("source", named (fn_source current));
         ("decided_by", eventActor actor); ("version", JNum (fn_version f))]
     ++ opt_member "duplicate_of_finding_id" JStr (uf_duplicateOfFindingId input)
     ++ reason_member (uf_reason input)).

Definition finding_reopened_event scope actor (reason : option string) (verificationCount : Z)
    (current f : FindingRow) : M unit :=
  append "finding.reopened" scope actor (finding_correlation (fn_review_id f) (fn_id f))
    (finding_ref (fn_id f) (fn_review_id f)
     ++ [("from", named (fn_status current)); ("version", JNum (fn_version f));
         ("verification_count", JNum verificationCount)]
     ++ reason_member reason).

(** The delivery of a reopened finding to whoever holds the review. *)
Definition deliver_reopened scope actor (f : FindingRow) : M unit :=
  holder ← gets (λ d, find_row (reviews d) (review_in scope) (fn_review_id f));
  match holder with
  | None => mret tt
  | Some r =>
      _ ← create {| ci_organisationId := organisationId scope; ci_projectId := projectId scope;
                    ci_recipientType :=
                      if is_some (rv_assigned_user_id r)
                         && negb (is_some (rv_assigned_agent_session_id r))
                      then to_human_user else to_agent_session;
                    ci_recipientId :=
                      coalesce (rv_assigned_agent_session_id r) (rv_assigned_user_id r);
                    ci_type := finding_reopened; ci_title := fn_title f;
                    ci_reviewId := Some (fn_review_id f); ci_findingId := Some (fn_id f);
                    ci_reviewSlug := Some (rv_slug r); ci_priority := rv_priority r;
                    ci_findingCount := None; ci_findingSource := Some (fn_source f) |} actor;
      mret tt
  end.

(** What follows the [UPDATE] statement of [updateFinding]: the events, the
    decision on the claim, the comment, the delivery. *)
Definition updateFinding_tail (scope : Scope) (findingId : string) (input : UpdateFindingInput)
    (actor : EventActor) (current : FindingRow) (claim : option CurrentClaim)
    (verificationCount : Z) (finding : FindingRow) : M FindingRow :=
  let nextStatus := default (fn_status current) (uf_status input) in
  let moving := negb (bool_decide (nextStatus = fn_status current)) in
  let claiming := moving && bool_decide (nextStatus = CLAIMED) in
  let disposing := moving && isFinalDisposition nextStatus in
  let reopening := moving && bool_decide (nextStatus = REOPENED) in
  whenM claiming (finding_claimed_event scope actor finding) ;;
  whenM moving (finding_status_changed_event scope actor (uf_reason input) current finding) ;;
  match claim with
  | Some c =>
      whenM (bool_decide (nextStatus = RESOLVED) || reopening)
        (decide_claim scope actor (uf_reason input) (bool_decide (nextStatus = RESOLVED))
           c finding)
  | None => mret tt
  end ;;
  whenM ((disposing || reopening)
         && negb (bool_decide (trim (default "" (uf_reason input)) = "")))
    (_ ← writeComment scope (fn_review_id finding) (Some findingId)
           (default "" (uf_reason input)) None actor;
     mret tt) ;;
  whenM disposing (finding_resolved_event scope actor input current finding) ;;
  whenM reopening
    (finding_reopened_event scope actor (uf_reason input) verificationCount current finding ;;
     deliver_reopened scope actor finding) ;;
  mret finding.

(** The body of [updateFinding]'s transaction. *)
Definition updateFinding_body (scope : Scope) (findingId : string) (input : UpdateFindingInput)
    (actor : EventActor) : M FindingRow :=
  current ← lockFinding scope findingId;
  lift (assertExpectedVersion (fn_version current) (uf_expectedVersion input) "finding") ;;
  let nextStatus := default (fn_status current) (uf_status input) in
  let moving := negb (bool_decide (nextStatus = fn_status current)) in
  whenM moving (check_move scope findingId input actor current nextStatus) ;;
  let claiming := moving && bool_decide (nextStatus = CLAIMED) in
  let disposing := moving && isFinalDisposition nextStatus in
  let reopening := moving && bool_decide (nextStatus = REOPENED) in
  match uf_duplicateOfFindingId input with
  | Some other => requireFindingInProject scope other findingId
  | None => mret tt
  end ;;
  claim ← (if disposing || reopening
           then check_claim scope findingId input current nextStatus else mret None);
  verificationCount ← (if reopening : bool then countVerificationsOn scope findingId
                       else mret 0%Z);
  time ← now;
  let finding := updated_finding current input nextStatus claiming disposing reopening
                   actor time in
  update_finding finding ;;
  updateFinding_tail scope findingId input actor current claim verificationCount finding.

Definition updateFinding (scope : Scope) (findingId : string) (input : UpdateFindingInput)
    (actor : EventActor) : M FindingRow :=
  set_denied None ;;
  catching (inTransaction (updateFinding_body scope findingId input actor))
    (λ e, recordDenial scope actor e ;; throwM e).

(** A request for a status and nothing else. *)
Definition move_input (expectedVersion : Z) (t : FindingStatus)
    (reason duplicateOf verificationId : option string) : UpdateFindingInput :=
  {| uf_expectedVersion := expectedVersion; uf_title := None; uf_description := None;
     uf_severity := None; uf_status := Some t; uf_acceptanceCriteria := None;
     uf_resolutionNote := None; uf_reason := reason;
     uf_duplicateOfFindingId := duplicateOf; uf_verificationId := verificationId |}.

Definition claimFinding scope findingId expectedVersion actor : M FindingRow :=
  updateFinding scope findingId (move_input expectedVersion CLAIMED None None None) actor.

Definition disposeFinding scope findingId (disposition : FindingStatus)
    (input : ReviewTransitionInput) (duplicateOf : option string) actor : M FindingRow :=
  lift (if bool_decide (disposition = WONT_FIX)
        then assertDecisionReason "Waiving a reported problem" (rt_reason input) else Ok tt) ;;
  lift (if bool_decide (disposition = DUPLICATE) && negb (is_some duplicateOf)
        then throw UNSUPPORTED_CAPABILITY "A duplicate must name the finding it duplicates."
               (field "duplicate_of_finding_id")
        else Ok tt) ;;
  updateFinding scope findingId
    (move_input (rt_expectedVersion input) disposition (rt_reason input) duplicateOf
       (rt_verificationId input)) actor.

Definition reopenFinding scope findingId (input : ReviewTransitionInput) actor : M FindingRow :=
  lift (assertDecisionReason "Reopening a finding" (rt_reason input)) ;;
  updateFinding scope findingId
    (move_input (rt_expectedVersion input) REOPENED (rt_reason input) None
       (rt_verificationId input)) actor.

(** ** Annotations *)

(** The row of one revision. *)
Definition annotation_row (id : string) (revision : Z) (scope : Scope)
    (findingId artefactId : string) (t : AnnotationType) (geometry : json) (version : Z)
    (label : string) (markerNumber : option Z) (styleHint : string) (actor : EventActor)
    (time : Z) (deletedAt : option Z) : AnnotationRow :=
  {| an_id := id; an_revision := revision; an_organisation_id := organisationId scope;
     an_project_id := projectId scope; an_finding_id := findingId;
     an_artefact_id := artefactId; an_type := t; an_geometry := geometry;
     an_geometry_version := version; an_label := label; an_marker_number := markerNumber;
     an_style_hint := styleHint; an_created_by := actor; an_created_at := time;
     an_deleted_at := deletedAt |}.

(** [#insertAnnotation]: the first revision. *)
Definition insertAnnotation (scope : Scope) (findingId : string)
    (input : CreateAnnotationInput) (actor : EventActor) : M AnnotationRow :=
  id ← newId "ann_";
  time ← now;
  let a := annotation_row id 1 scope findingId (ca_artefactId input) (ca_type input)
             (ca_geometry input) (geometryVersionForType (ca_type input)) (ca_label input)
             (ca_markerNumber input) (default "default" (ca_styleHint input)) actor time None in
  insert_annotation a ;; mret a.

Definition annotated_event scope actor (reviewId : option string) (a : AnnotationRow) : M unit :=
  append "finding.annotated" scope actor
    (opt_member "review_id" JStr reviewId
     ++ [("finding_id", JStr (an_finding_id a)); ("annotation_id", JStr (an_id a));
         ("artefact_id", JStr (an_artefact_id a))])
    [("annotation", toAnnotation a)].

Definition own_screenshot (what : string) (artefactId screenshot : string) : check :=
  if bool_decide (artefactId ≠ screenshot)
  then throw UNSUPPORTED_CAPABILITY
         "An annotation must be placed on the finding's own screenshot artefact." (field what)
  else Ok tt.

Definition createAnnotation (scope : Scope) (findingId : string)
    (input : CreateAnnotationInput) (actor : EventActor) : M AnnotationRow :=
  lift (assertGeometry (ca_type input) (ca_geometry input)) ;;
  f ← getFinding scope findingId;
  lift (own_screenshot "artefact_id" (ca_artefactId input) (fn_screenshot_artefact_id f.1)) ;;
  requireAvailableArtefact scope (ca_artefactId input) ;;
  inTransaction (
    a ← insertAnnotation scope findingId input actor;
    annotated_event scope actor (Some (fn_review_id f.1)) a ;;
    mret a).

(** [#lockAnnotation]: the newest revision. *)
Definition lockAnnotation (scope : Scope) (annotationId : string) : M AnnotationRow :=
  row ← gets (λ d, last (order_by an_revision (λ _, "")
                     (select (λ a, bool_decide (an_id a = annotationId) && annotation_in scope a)
                        (annotations d))));
  unless_none row (notFound "The annotation").

Definition revision_conflict (verb : string) (expected actual : Z) : ApiError :=
  api_error VERSION_CONFLICT
    ("The annotation has moved on to revision " +:+ pretty actual
       +:+ ". Re-read it and " +:+ verb +:+ " that revision.")
    [("expected_version", JNum expected); ("actual_version", JNum actual)].

Definition updateAnnotation (scope : Scope) (annotationId : string)
    (input : UpdateAnnotationInput) (actor : EventActor) : M AnnotationRow :=
  inTransaction (
    current ← lockAnnotation scope annotationId;
    lift (if is_some (an_deleted_at current)
          then throw POLICY_DENIED
                 "A withdrawn annotation cannot be edited. Its revisions are retained as history; record a new annotation instead."
                 [("reason", JStr "annotation_withdrawn")]
          else Ok tt) ;;
    lift (if bool_decide (ua_expectedRevision input ≠ an_revision current)
          then Err (revision_conflict "edit" (ua_expectedRevision input) (an_revision current))
          else Ok tt) ;;
    let geometry := default (an_geometry current) (ua_geometry input) in
    lift (assertGeometry (an_type current) geometry) ;;
    time ← now;
    let next := annotation_row annotationId (an_revision current + 1) scope
                  (an_finding_id current) (an_artefact_id current) (an_type current) geometry
                  (geometryVersionForType (an_type current))
                  (default (an_label current) (ua_label input))
                  (coalesce (ua_markerNumber input) (an_marker_number current))
                  (default (an_style_hint current) (ua_styleHint input)) actor time None in
    insert_annotation next ;;
    annotated_event scope actor None next ;;
    mret next).

Definition withdrawAnnotation (scope : Scope) (annotationId : string) (expectedRevision : Z)
    (actor : EventActor) : M AnnotationRow :=
  inTransaction (
    current ← lockAnnotation scope annotationId;
    if is_some (an_deleted_at current) : bool then mret current else
    lift (if bool_decide (expectedRevision ≠ an_revision current)
          then Err (revision_conflict "withdraw" expectedRevision (an_revision current))
          else Ok tt) ;;
    time ← now;
    let next := annotation_row annotationId (an_revision current + 1) scope
                  (an_finding_id current) (an_artefact_id current) (an_type current)
                  (an_geometry current) (an_geometry_version current) (an_label current)
                  (an_marker_number current) (an_style_hint current) actor time (Some time) in
    insert_annotation next ;;
    annotated_event scope actor None next ;;
    mret next).

(** ** Creating a finding *)

Definition captured_body (input : CreateFindingInput) : members :=
  [("url", JStr (cf_url input)); ("viewport", cf_viewport input);
   ("scroll_position", cf_scrollPosition input);
   ("captured_commit", JStr (cf_capturedCommit input));
   ("screenshot_artefact_id", JStr (cf_screenshotArtefactId input))].

Definition new_finding (id : string) (time : Z) (scope : Scope) (reviewId : string)
    (input : CreateFindingInput) (actor : EventActor) : FindingRow :=
  {| fn_id := id; fn_organisation_id := organisationId scope;
     fn_project_id := projectId scope; fn_review_id := reviewId;
     fn_title := cf_title input; fn_description := cf_description input;
     fn_severity := cf_severity input; fn_status := OPEN;
     fn_source := sourceForActor (actor_type actor); fn_version := 1;
     fn_created_by := actor; fn_claimed_by := None; fn_url := cf_url input;
     fn_viewport := cf_viewport input; fn_scroll_position := cf_scrollPosition input;
     fn_captured_commit := cf_capturedCommit input;
     fn_screenshot_artefact_id := cf_screenshotArtefactId input;
     fn_element_context := cf_elementContext input;
     fn_acceptance_criteria := cf_acceptanceCriteria input; fn_resolution_note := None;
     fn_created_at := time; fn_updated_at := time; fn_resolved_at := None;
     fn_resolved_by := None; fn_disposition_reason := None;
     fn_duplicate_of_finding_id := None; fn_reopen_count := 0 |}.

Definition createFinding (scope : Scope) (reviewId : string) (input : CreateFindingInput)
    (actor : EventActor) : M (FindingRow * list AnnotationRow) :=
  lift (assertCapturedContext (captured_body input)) ;;
  each (λ a, lift (assertGeometry (ca_type a) (ca_geometry a))) (cf_annotations input) ;;
  review ← getReview scope reviewId;
  lift (assertReviewMutable (rv_status review.1) None ["findings"]) ;;
  requireAvailableArtefact scope (cf_screenshotArtefactId input) ;;
  each (λ a, lift (own_screenshot "annotations" (ca_artefactId a)
                     (cf_screenshotArtefactId input))) (cf_annotations input) ;;
  id ← newId "fin_";
  inTransaction (
    time ← now;
    let finding := new_finding id time scope reviewId input actor in
    insert_finding finding ;;
    annotations ← collect (λ a, insertAnnotation scope id a actor) (cf_annotations input);
    append "finding.created" scope actor
      (finding_correlation reviewId (fn_id finding)
       ++ [("artefact_id", JStr (cf_screenshotArtefactId input))])
      [("finding", toFinding finding (Some (count annotations)))] ;;
    each (annotated_event scope actor (Some reviewId)) annotations ;;
    mret (finding, annotations)).
End service.
