(* ===== verification/VerificationService.v ===== *)
(** * Verifications: submitting evidence, superseding it, and the completion
    gate over it
    ([ReviewService] of [src/apps/server/src/modules/reviews/service.ts]) *)

From S2P Require Import Prelude Errors ReviewProtocol ReviewDomain Events Completion Geometry Store Records Inbox ReviewService FindingService.

Record SubmitVerificationInput := {
  sv_summary : string;
  sv_branch : string;
  sv_commit : string;
  sv_testedViewports : list Viewport;
  sv_checks : VerificationChecks;
  sv_artefactIds : list string;
  sv_workspaceBranch : option string;
  sv_expectedVersion : option Z
}.

(** One artefact of the evidence. *)
Record Evidence := { ev_artefact_id : string; ev_kind : string }.

(** Whether the artefact store's bytes can be read now ([storeReadable]). *)
Class ArtefactStore := store_readable : bool.

(** [[...new Set(ids)]]. *)
Definition unique (ids : list string) : list string := foldl set_add [] ids.

Section service.
Context `{Entropy} `{ArtefactStore}.

(** ** Evidence *)

(** A finding of the project whose original screenshot the artefact is. *)
Definition original_of (d : Db) (a : ArtefactRow) (artefactId : string) : option string :=
  fn_id <$> head (select (λ f, bool_decide (fn_screenshot_artefact_id f = artefactId)
                     && bool_decide (fn_organisation_id f = ar_organisation_id a)
                     && bool_decide (fn_project_id f = ar_project_id a)) (findings d)).

(** The checks on one artefact, against the row the scoped query found. *)
Definition own_evidence (d : Db) (scope : Scope) (forFindingId artefactId : string) :
    result ApiError Evidence :=
  let missing := notFound ("The evidence artefact " +:+ artefactId) in
  match find_row (artefacts d) (λ a, in_scope scope (ar_organisation_id a) (ar_project_id a))
          artefactId with
  | None => Err missing
  | Some a =>
      let session_project :=
        b ← ar_browser_session_id a; s ← browser_sessions d !! b; Some (bs_project_id s) in
      if bool_decide (ar_browser_session_id a ≠ None)
         && negb (bool_decide (session_project = Some (projectId scope)))
      then Err missing
      else if bool_decide (ar_state a ≠ a_available)
      then throw ARTEFACT_UPLOAD_INCOMPLETE
             ("Artefact " +:+ artefactId
                +:+ " has not been verified, so it cannot be submitted as evidence.")
             (field "artefact_ids")
      else match original_of d a artefactId with
      | Some other =>
          if bool_decide (other ≠ forFindingId)
          then throw POLICY_DENIED
                 ("Artefact " +:+ artefactId +:+ " is the original screenshot of finding "
                    +:+ other +:+ " and cannot be submitted as evidence for another finding.")
                 (field "artefact_ids")
          else Ok {| ev_artefact_id := artefactId; ev_kind := ar_kind a |}
      | None => Ok {| ev_artefact_id := artefactId; ev_kind := ar_kind a |}
      end
  end.

(** [#requireOwnedEvidence]. *)
Definition requireOwnedEvidence (scope : Scope) (artefactIds : list string)
    (forFindingId : string) : M (list Evidence) :=
  collect (λ id, r ← gets (λ d, own_evidence d scope forFindingId id); lift r)
    (unique artefactIds).

(** [#requireReachableEvidence]. *)
Definition requireReachableEvidence : M unit :=
  lift (if store_readable then Ok tt
        else throw ARTEFACT_STORE_UNAVAILABLE
               "The artefact store cannot be reached, so this verification was not recorded. Retry the same submission unchanged."
               [("reason", JStr "artefact_store_unavailable"); ("retryable", JBool true)]).

(** ** Submission *)

(** What the submission reads before its transaction. *)
Record Submission := {
  sb_finding : FindingRow;
  sb_evidence : list Evidence;
  sb_branchCorroborated : bool;
  sb_id : string;
  sb_afterArtefactId : option string
}.

Definition is_screenshot (e : Evidence) : bool := bool_decide (ev_kind e = "screenshot").

Definition prepareSubmission (scope : Scope) (findingId : string)
    (input : SubmitVerificationInput) : M Submission :=
  f ← getFinding scope findingId;
  let finding : FindingRow := f.1 in
  review ← getReview scope (fn_review_id finding);
  lift (assertReviewMutable (rv_status review.1) None ["verification"]) ;;
  lift (assertFindingTakesVerification (fn_status finding)) ;;
  evidence ← requireOwnedEvidence scope (sv_artefactIds input) findingId;
  let screenshots := filter (λ e, is_screenshot e = true) evidence in
  lift (if bool_decide (length screenshots = 0)
        then throw EVIDENCE_REQUIRED
               "A verification must carry at least one verified screenshot showing the state after the change."
               (field "artefact_ids" ++ [("required_evidence", strs ["after_screenshot_artefact"])])
        else Ok tt) ;;
  branchCorroborated ← lift (assertVerificationCommitContext (fn_captured_commit finding)
                               (sv_commit input) (sv_branch input) (sv_workspaceBranch input));
  requireReachableEvidence ;;
  id ← newId "ver_";
  mret {| sb_finding := finding; sb_evidence := evidence;
          sb_branchCorroborated := branchCorroborated; sb_id := id;
          sb_afterArtefactId := ev_artefact_id <$> last screenshots |}.

(** [#supersedeCurrentVerification]: the rows the [UPDATE] marks, and the
    identifier of the first. *)
Definition superseded_verification (v : VerificationRow) (replacementId : string) (time : Z) :
    VerificationRow :=
  {| vf_id := vf_id v; vf_organisation_id := vf_organisation_id v;
     vf_project_id := vf_project_id v; vf_review_id := vf_review_id v;
     vf_finding_id := vf_finding_id v; vf_status := superseded;
     vf_summary := vf_summary v; vf_branch := vf_branch v; vf_commit_sha := vf_commit_sha v;
     vf_tested_viewports := vf_tested_viewports v; vf_checks := vf_checks v;
     vf_submitted_by := vf_submitted_by v; vf_submitted_at := vf_submitted_at v;
     vf_reviewed_at := vf_reviewed_at v; vf_reviewed_by := vf_reviewed_by v;
     vf_superseded_at := Some time;
     vf_superseded_by_verification_id := Some replacementId;
     vf_supersedes_verification_id := vf_supersedes_verification_id v |}.

Definition supersedeCurrentVerification (scope : Scope) (findingId replacementId : string) :
    M (option string) :=
  time ← now;
  current ← gets (λ d, select (is_current scope findingId) (verifications d));
  each (λ v, update_verification (superseded_verification v replacementId time)) current ;;
  mret (vf_id <$> head current).

Definition new_verification (sb : Submission) (scope : Scope) (findingId : string)
    (input : SubmitVerificationInput) (actor : EventActor) (supersedes : option string)
    (time : Z) : VerificationRow :=
  {| vf_id := sb_id sb; vf_organisation_id := organisationId scope;
     vf_project_id := projectId scope; vf_review_id := fn_review_id (sb_finding sb);
     vf_finding_id := findingId; vf_status := submitted; vf_summary := sv_summary input;
     vf_branch := sv_branch input; vf_commit_sha := sv_commit input;
     vf_tested_viewports := sv_testedViewports input; vf_checks := sv_checks input;
     vf_submitted_by := actor; vf_submitted_at := time; vf_reviewed_at := None;
     vf_reviewed_by := None; vf_superseded_at := None;
     vf_superseded_by_verification_id := None;
     vf_supersedes_verification_id := supersedes |}.

(** The role each artefact is stored with. *)
Definition evidence_role (sb : Submission) (e : Evidence) : EvidenceRole :=
  if bool_decide (ev_artefact_id e = fn_screenshot_artefact_id (sb_finding sb)) then before
  else if bool_decide (Some (ev_artefact_id e) = sb_afterArtefactId sb) then after
  else supporting.

Definition evidence_rows (sb : Submission) : list VerificationArtefactRow :=
  imap (λ i e, {| va_verification_id := sb_id sb; va_artefact_id := ev_artefact_id e;
                  va_role := evidence_role sb e; va_position := Z.of_nat i |})
    (sb_evidence sb).

(** Where the submission may advance the finding, from the locked row. *)
Definition advanced_status (a : ActorType) (s : FindingStatus) : FindingStatus :=
  if mayActorMoveFinding a s FIXED_UNVERIFIED && negb (isFinalDisposition s)
  then FIXED_UNVERIFIED else s.

(** The row the [UPDATE findings] statement writes. *)
Definition noted_finding (f : FindingRow) (summary : string) (t : FindingStatus) (time : Z) :
    FindingRow :=
  {| fn_id := fn_id f; fn_organisation_id := fn_organisation_id f;
     fn_project_id := fn_project_id f; fn_review_id := fn_review_id f;
     fn_title := fn_title f; fn_description := fn_description f;
     fn_severity := fn_severity f; fn_status := t; fn_source := fn_source f;
     fn_version := fn_version f + 1; fn_created_by := fn_created_by f;
     fn_claimed_by := fn_claimed_by f; fn_url := fn_url f; fn_viewport := fn_viewport f;
     fn_scroll_position := fn_scroll_position f;
     fn_captured_commit := fn_captured_commit f;
     fn_screenshot_artefact_id := fn_screenshot_artefact_id f;
     fn_element_context := fn_element_context f;
     fn_acceptance_criteria := fn_acceptance_criteria f;
     fn_resolution_note := Some summary; fn_created_at := fn_created_at f;
     fn_updated_at := time; fn_resolved_at := fn_resolved_at f;
     fn_resolved_by := fn_resolved_by f; fn_disposition_reason := fn_disposition_reason f;
     fn_duplicate_of_finding_id := fn_duplicate_of_finding_id f;
     fn_reopen_count := fn_reopen_count f |}.

(** The answer's verification: what the submission knows, not what it stored. *)
Definition submitted_verification (sb : Submission) (v : VerificationRow) : Verification :=
  {| verification_row := v; artefact_ids := ev_artefact_id <$> sb_evidence sb;
     before_artefact_id := Some (fn_screenshot_artefact_id (sb_finding sb));
     after_artefact_id := sb_afterArtefactId sb |}.

(** The submission's transaction. *)
Definition commitSubmission (scope : Scope) (findingId : string)
    (input : SubmitVerificationInput) (actor : EventActor) (sb : Submission) :
    M (Verification * FindingRow) :=
  inTransaction (
    locked ← lockFinding scope findingId;
    match sv_expectedVersion input with
    | Some v => lift (assertExpectedVersion (fn_version locked) v "finding")
    | None => mret tt
    end ;;
    supersedes ← supersedeCurrentVerification scope findingId (sb_id sb);
    time ← now;
    let row := new_verification sb scope findingId input actor supersedes time in
    insert_verification row ;;
    each insert_verification_artefact (evidence_rows sb) ;;
    let moved := noted_finding locked (sv_summary input)
                   (advanced_status (actor_type actor) (fn_status locked)) time in
    update_finding moved ;;
    let verification := submitted_verification sb row in
    append "finding.verification_submitted" scope actor
      (finding_correlation (fn_review_id (sb_finding sb)) findingId
       ++ opt_member "artefact_id" JStr (sb_afterArtefactId sb)
       ++ opt_member "agent_session_id" JStr (session_of actor))
      ([("verification", toVerification verification)]
       ++ finding_ref findingId (fn_review_id (sb_finding sb))
       ++ [("version", JNum (fn_version moved))]
       ++ opt_member "supersedes_verification_id" JStr supersedes) ;;
    whenM (negb (bool_decide (fn_status moved = fn_status locked)))
      (append "finding.status_changed" scope actor
         (finding_correlation (fn_review_id (sb_finding sb)) findingId)
         (finding_ref findingId (fn_review_id (sb_finding sb))
          ++ [("from", named (fn_status locked)); ("to", named (fn_status moved));
              ("version", JNum (fn_version moved)); ("source", named (fn_source locked));
              ("reason", JStr "Verification submitted with evidence.")])) ;;
    mret (verification, moved)).

(** [submitVerification]: the verification, the finding, [branchCorroborated]. *)
Definition submitVerification (scope : Scope) (findingId : string)
    (input : SubmitVerificationInput) (actor : EventActor) :
    M (Verification * FindingRow * bool) :=
  sb ← prepareSubmission scope findingId input;
  r ← commitSubmission scope findingId input actor sb;
  mret (r, sb_branchCorroborated sb).

(** ** Reading verifications *)

(** [latestVerification]: the current claim, or else the newest. *)
Definition latest_row (d : Db) (scope : Scope) (findingId : string) : option VerificationRow :=
  match current_row d scope findingId with
  | Some v => Some v
  | None => last (order_by vf_submitted_at (λ _, "")
                    (select (verification_of scope findingId) (verifications d)))
  end.
Definition latestVerification (scope : Scope) (findingId : string) : M (option Verification) :=
  gets (λ d, stored_verification d <$> latest_row d scope findingId).

(** [listVerifications]: newest first, at most a hundred. *)
Definition listVerifications (scope : Scope) (findingId : string) : M (list Verification) :=
  gets (λ d, stored_verification d <$>
    take 100 (reverse (order_by vf_submitted_at vf_id
                         (select (verification_of scope findingId) (verifications d))))).

Definition evidence_of (v : Verification) (corroborated : bool) : EvidenceUnderReview :=
  {| eu_verification_id := vf_id (verification_row v);
     eu_tested_viewports := vf_tested_viewports (verification_row v);
     eu_checks := vf_checks (verification_row v);
     eu_after_artefact_id := after_artefact_id v;
     eu_branch_corroborated := corroborated;
     eu_submitted_by := vf_submitted_by (verification_row v) |}.

Definition verificationReview (scope : Scope) (findingId verificationId : string) :
    M (Verification * EvidenceAssurance * list string * bool) :=
  vs ← listVerifications scope findingId;
  v ← unless_none (snd <$> list_find (λ v, vf_id (verification_row v) = verificationId) vs)
        (notFound "The verification");
  let evidence := evidence_of v false in
  mret (v, assuranceFor (Some evidence), evidenceWarnings (Some evidence),
        bool_decide (vf_status (verification_row v) = submitted)).

(** ** The completion gate *)

Definition completionRequirements (scope : Scope) :
    M (ProjectSettings * CompletionRequirements) :=
  project ← gets (λ d, own_project d scope);
  p ← unless_none project (notFound "The project");
  mret (pj_settings p, completionRequirementsFor (pj_settings p)).

Definition completionEvidenceFor (scope : Scope) (findingId : string)
    (workspaceBranch : option string) : M (option EvidenceUnderReview) :=
  latest ← latestVerification scope findingId;
  mret (v ← latest;
        if bool_decide (vf_status (verification_row v) ∈ [submitted; accepted])
        then Some (evidence_of v (bool_decide
               (workspaceBranch = Some (vf_branch (verification_row v)))))
        else None).

(** [listFindings]: the findings of a review in the order they were created. *)
Definition listFindings (scope : Scope) (reviewId : string) : M (list FindingRow) :=
  _ ← getReview scope reviewId;
  gets (λ d, order_by fn_created_at (λ _, "")
               (select (λ f, bool_decide (fn_review_id f = reviewId) && finding_in scope f)
                  (findings d))).

Definition evaluateCompletion (scope : Scope) (reviewId : string) (findingId : option string)
    (workspaceBranch : option string) :
    M (ProjectSettings * CompletionRequirements * list FindingCompletionState) :=
  req ← completionRequirements scope;
  findings ← listFindings scope reviewId;
  let subject := match findingId with
                 | None => findings
                 | Some id => filter (λ f, fn_id f = id) findings
                 end in
  lift (if is_some findingId && bool_decide (length subject = 0)
        then Err (notFound "The finding") else Ok tt) ;;
  states ← collect (λ f,
    evidence ← completionEvidenceFor scope (fn_id f) workspaceBranch;
    n ← countVerificationsOn scope (fn_id f);
    mret (findingCompletionState (fn_id f) (fn_status f) req.1 req.2 evidence n))
    (take 50 subject);
  mret (req.1, req.2, states).
End service.
