(* ===== verification/Preserve.v ===== *)
(** * Predicates on the tables that a computation keeps, whether it returns or
    throws; and the rule that finds them step by step *)

From S2P Require Import Prelude Errors ReviewProtocol ReviewDomain Events Completion EntityId Geometry Store Records Inbox ReviewService FindingService VerificationService.

Definition preserves {A} (P : Db → Prop) (m : M A) : Prop :=
  ∀ s r s', m s = (r, s') → P (db s) → P (db s').

Section structural.
Context {A B : Type} (P : Db → Prop).

Lemma preserves_ret (a : A) : preserves P (mret a).
Proof. by intros s r s' [= _ <-]. Qed.
Lemma preserves_throw e : preserves P (throwM e : M A).
Proof. by intros s r s' [= _ <-]. Qed.
Lemma preserves_lift (r : result ApiError A) : preserves P (lift r).
Proof. destruct r; by intros s ? s' [= _ <-]. Qed.
Lemma preserves_gets (f : Db → A) : preserves P (gets f).
Proof. by intros s r s' [= _ <-]. Qed.
Lemma preserves_unless_none (o : option A) e : preserves P (unless_none o e).
Proof. destruct o; [apply preserves_ret | by intros s r s' [= _ <-]]. Qed.

Lemma preserves_bind (m : M A) (f : A → M B) :
  preserves P m → (∀ a, preserves P (f a)) → preserves P (m ≫= f).
Proof.
  intros Hm Hf s r s'. unfold mbind, M_bind.
  destruct (m s) as [[a|e] s1] eqn:Hs; intros Hr HP.
  - eapply Hf; [done|]. by eapply Hm.
  - injection Hr as _ <-. by eapply Hm.
Qed.

(** What follows a check may rely on it. *)
Lemma preserves_check (r : result ApiError unit) (m : M B) :
  (r = Ok tt → preserves P m) → preserves P (lift r ;; m).
Proof.
  intros Hm s x s'. unfold mbind, M_bind, lift. destruct r as [[]|e]; [by apply Hm|].
  by intros [= _ <-].
Qed.

Lemma preserves_inTransaction (m : M A) : preserves P m → preserves P (inTransaction m).
Proof.
  intros Hm s r s'. unfold inTransaction. destruct (m s) as [[a|e] s1] eqn:Hs.
  - intros [= _ <-] HP. by eapply Hm.
  - by intros [= _ <-].
Qed.

Lemma preserves_catching (m : M A) h :
  preserves P m → (∀ e, preserves P (h e)) → preserves P (catching m h).
Proof.
  intros Hm Hh s r s'. unfold catching. destruct (m s) as [[a|e] s1] eqn:Hs.
  - intros [= _ <-] HP. by eapply Hm.
  - intros Hr HP. eapply Hh; [done|]. by eapply Hm.
Qed.
End structural.

Section loops.
Context {A B : Type} (P : Db → Prop).

Lemma preserves_each (f : A → M unit) l : (∀ a, preserves P (f a)) → preserves P (each f l).
Proof.
  intros Hf. induction l as [|a l IH]; cbn.
  - apply preserves_ret.
  - by apply preserves_bind.
Qed.
Lemma preserves_collect (f : A → M B) l :
  (∀ a, preserves P (f a)) → preserves P (collect f l).
Proof.
  intros Hf. induction l as [|a l IH]; cbn.
  - apply preserves_ret.
  - apply preserves_bind; [done|intros b]. apply preserves_bind; [done|intros bs].
    apply preserves_ret.
Qed.
Lemma preserves_whenM (c : bool) (m : M unit) : preserves P m → preserves P (whenM c m).
Proof. destruct c; [done|]. intros _. apply preserves_ret. Qed.
Lemma preserves_now : preserves P now.
Proof. by intros s r s' [= _ <-]. Qed.
Lemma preserves_get_denied : preserves P get_denied.
Proof. by intros s r s' [= _ <-]. Qed.
Lemma preserves_set_denied d : preserves P (set_denied d).
Proof. by intros s r s' [= _ <-]. Qed.
Lemma preserves_guard_row cs us : preserves P (guard_row cs us).
Proof.
  unfold guard_row. destruct (violated cs); [apply preserves_throw|].
  destruct (violated us); [apply preserves_throw | apply preserves_ret].
Qed.
Lemma preserves_modify f : (∀ d, P d → P (f d)) → preserves P (modify f).
Proof. intros Hf s r s' [= _ <-] HP. by apply Hf. Qed.
End loops.

(** A predicate that the log does not matter to; the same for each table. *)
Class IgnoresLog (P : Db → Prop) := ignores_log : ∀ l d, P d → P (with_log l d).

Section statements.
Context `{Entropy} (P : Db → Prop).

Lemma preserves_newId prefix : preserves P (newId prefix).
Proof.
  intros s r s'. unfold newId. destruct (newPrefixedId _ _); by intros [= _ <-].
Qed.

(** [append] only ever adds an event in sequence to the log. *)
Lemma preserves_append type scope actor correlation payload :
  (∀ id time l d, P d →
     appendEvent time id (event_input type (organisationId scope) (projectId scope) actor
                            correlation payload) (log d) = Ok l → P (with_log l d)) →
  preserves P (append type scope actor correlation payload).
Proof.
  intros HP. apply preserves_bind; [apply preserves_newId|intros id].
  intros s r s'. unfold write_event.
  destruct (appendEvent _ _ _ _) as [l|[]] eqn:Ha; intros [= _ <-] HPs; [by eapply HP|done..].
Qed.

Lemma preserves_append_ignored `{!IgnoresLog P} type scope actor correlation payload :
  preserves P (append type scope actor correlation payload).
Proof. apply preserves_append. intros. by apply ignores_log. Qed.
Lemma preserves_append_at_ignored `{!IgnoresLog P} time type scope actor correlation payload :
  preserves P (append_at time type scope actor correlation payload).
Proof.
  apply preserves_bind; [apply preserves_newId|intros id]. intros s r s'. unfold write_event.
  destruct (appendEvent _ _ _ _) as [l|[]]; intros [= _ <-] HPs; [by apply ignores_log|done..].
Qed.
Lemma preserves_randomUUID : preserves P randomUUID.
Proof. by intros s r s' [= _ <-]. Qed.
End statements.

(** A computation preserves [P] when each of its steps does: the rule follows
    the code, and leaves the writes. *)
Ltac preserve_step :=
  first
    [ apply preserves_ret | apply preserves_throw | apply preserves_lift
    | apply preserves_gets | apply preserves_unless_none | apply preserves_now
    | apply preserves_get_denied | apply preserves_set_denied | apply preserves_guard_row
    | apply preserves_newId | apply preserves_append_ignored; apply _
    | apply preserves_append_at_ignored; apply _ | apply preserves_randomUUID
    | apply preserves_bind; [|intros ?] | apply preserves_inTransaction
    | apply preserves_catching; [|intros ?] | apply preserves_whenM
    | apply preserves_each; intros ? | apply preserves_collect; intros ?
    | assumption
    | apply preserves_modify; solve [intros; auto]
    | case_match ].
Ltac preserve := repeat preserve_step.

(** The same for a table that no statement of the computation writes. *)
Ltac frame :=
  unfold insert_review, update_review, insert_finding, update_finding, insert_verification,
    update_verification, insert_verification_artefact, insert_comment, update_comment,
    insert_annotation, insert_inbox_item, update_inbox_item;
  preserve.

(** ** The tables a statement does not touch *)

#[export] Instance reviews_ignore_log t : IgnoresLog (λ d, reviews d = t).
Proof. by intros l d. Qed.
#[export] Instance findings_ignore_log t : IgnoresLog (λ d, findings d = t).
Proof. by intros l d. Qed.
#[export] Instance verifications_ignore_log t : IgnoresLog (λ d, verifications d = t).
Proof. by intros l d. Qed.
#[export] Instance verification_artefacts_ignore_log t :
  IgnoresLog (λ d, verification_artefacts d = t).
Proof. by intros l d. Qed.
#[export] Instance comments_ignore_log t : IgnoresLog (λ d, comments d = t).
Proof. by intros l d. Qed.
#[export] Instance annotations_ignore_log t : IgnoresLog (λ d, annotations d = t).
Proof. by intros l d. Qed.
#[export] Instance inbox_ignore_log t : IgnoresLog (λ d, inbox_items d = t).
Proof. by intros l d. Qed.

#[export] Instance ignore_log_and P Q :
  IgnoresLog P → IgnoresLog Q → IgnoresLog (λ d, P d ∧ Q d).
Proof. intros HP HQ l d [? ?]. split; [by apply HP | by apply HQ]. Qed.

(** ** Operations other operations are made of *)

Section frames.
Context `{Entropy} (P : Db → Prop) `{!IgnoresLog P}.

Lemma create_frame input actor :
  (∀ t d, P d → P (with_inbox_items t d)) → preserves P (create input actor).
Proof. intros HP. unfold create. frame. Qed.
Lemma writeComment_frame scope rid fid body prev actor :
  (∀ t d, P d → P (with_comments t d)) →
  preserves P (writeComment scope rid fid body prev actor).
Proof. intros HP. unfold writeComment. frame. Qed.
Lemma decide_claim_frame scope actor reason yes claim f :
  (∀ t d, P d → P (with_verifications t d)) →
  preserves P (decide_claim scope actor reason yes claim f).
Proof. intros HP. unfold decide_claim. frame. Qed.
Lemma deliver_reopened_frame scope actor f :
  (∀ t d, P d → P (with_inbox_items t d)) → preserves P (deliver_reopened scope actor f).
Proof. intros HP. unfold deliver_reopened. pose proof create_frame. frame; auto. Qed.

Lemma updateFinding_tail_frame scope id input actor f claim n g :
  (∀ t d, P d → P (with_verifications t d)) → (∀ t d, P d → P (with_comments t d)) →
  (∀ t d, P d → P (with_inbox_items t d)) →
  preserves P (updateFinding_tail scope id input actor f claim n g).
Proof.
  intros. unfold updateFinding_tail, finding_claimed_event, finding_status_changed_event,
    finding_resolved_event, finding_reopened_event. cbv zeta.
  repeat first [ apply decide_claim_frame; assumption | apply writeComment_frame; assumption
               | apply deliver_reopened_frame; assumption | preserve_step ].
Qed.
End frames.
