(* ===== verification/Invariants.v ===== *)
(** * What holds of the tables at all times: every row satisfies the
    constraints of its table, the unique indexes hold, and the event log is in
    order; every operation of the service keeps it *)

From S2P Require Import Prelude Errors ReviewProtocol ReviewDomain Events Completion EntityId Geometry Store Records Inbox ReviewService FindingService VerificationService Preserve.

(** The rows of a table are stored under their own identifier and satisfy its
    constraints. *)
Definition rows_ok {K A} `{Countable K} (key : A → K) (checks : A → constraints)
    (t : gmap K A) : Prop :=
  map_Forall (λ k r, key r = k ∧ violated (checks r) = None) t.

(** No two distinct rows clash. *)
Definition no_clash {K A} `{Countable K} (clash : A → A → Prop) (t : gmap K A) : Prop :=
  ∀ k k' r r', t !! k = Some r → t !! k' = Some r' → clash r r' → k = k'.

Definition slug_clash (r r' : ReviewRow) : Prop :=
  slug_indexed r = true ∧ slug_indexed r' = true
  ∧ rv_project_id r' = rv_project_id r ∧ rv_slug r' = rv_slug r.
Definition current_clash (v v' : VerificationRow) : Prop :=
  vf_status v = submitted ∧ vf_status v' = submitted ∧ vf_finding_id v' = vf_finding_id v.
Definition successor_clash (c c' : CommentRow) : Prop :=
  cm_supersedes_comment_id c ≠ None
  ∧ cm_supersedes_comment_id c' = cm_supersedes_comment_id c.
Definition delivery_clash (i i' : InboxRow) : Prop :=
  is_live (in_status i) = true ∧ is_live (in_status i') = true
  ∧ delivered_work i ≠ None ∧ same_delivery i i' = true.

Definition annotation_key (a : AnnotationRow) : string * Z := (an_id a, an_revision a).

Record db_ok (d : Db) : Prop := {
  reviews_ok : rows_ok rv_id review_checks (reviews d);
  slugs_unique : no_clash slug_clash (reviews d);
  findings_ok : rows_ok fn_id finding_checks (findings d);
  verifications_ok : rows_ok vf_id verification_checks (verifications d);
  one_current : no_clash current_clash (verifications d);
  comments_ok : rows_ok cm_id comment_checks (comments d);
  one_successor : no_clash successor_clash (comments d);
  annotations_ok : rows_ok annotation_key annotation_checks (annotations d);
  inbox_ok : rows_ok in_id inbox_checks (inbox_items d);
  deliveries_unique : no_clash delivery_clash (inbox_items d);
  evidence_known : Forall (λ a, is_Some (verifications d !! va_verification_id a))
                     (verification_artefacts d);
  log_in_order : log_ok (log d)
}.

(** ** Inserting a row that the guard let through *)

Section tables.
Context {K A : Type} `{Countable K}.
Implicit Types (t : gmap K A).

Lemma elem_of_rows t r : r ∈ rows t ↔ ∃ k, t !! k = Some r.
Proof.
  unfold rows. rewrite list_elem_of_fmap. split.
  - intros ((k & x) & -> & Hk%elem_of_map_to_list). by exists k.
  - intros (k & Hk). exists (k, r). by rewrite elem_of_map_to_list.
Qed.

Lemma elem_of_select p t r : r ∈ select p t ↔ p r = true ∧ ∃ k, t !! k = Some r.
Proof. unfold select. by rewrite list_elem_of_filter, elem_of_rows. Qed.

Lemma existsb_rows (p : A → bool) t :
  existsb p (rows t) = false → ∀ k r, t !! k = Some r → p r = false.
Proof.
  intros He k r Hr. apply not_true_iff_false. intros Hp.
  apply not_true_iff_false in He. apply He, existsb_exists.
  exists r. split; [|done]. apply list_elem_of_In, elem_of_rows. by exists k.
Qed.

Lemma rows_ok_insert (key : A → K) checks t r :
  rows_ok key checks t → violated (checks r) = None → rows_ok key checks (<[key r := r]> t).
Proof. intros Ht Hr. by apply map_Forall_insert_2. Qed.

(** A unique index whose boolean test found no other row. *)
Lemma no_clash_insert (key : A → K) (checks : A → constraints) (clash : A → A → Prop) t r :
  rows_ok key checks t → no_clash clash t →
  (∀ r', clash r r' → clash r' r) →
  (∀ k r', t !! k = Some r' → key r' ≠ key r → ¬ clash r r') →
  (∀ r', clash r' r → clash r r') →
  no_clash clash (<[key r := r]> t).
Proof.
  intros Hok Ht Hsym Hnew Hsym' k k' x x' Hx Hx' Hc.
  apply lookup_insert_Some in Hx as [[<- <-]|[Hk Hx]];
    apply lookup_insert_Some in Hx' as [[<- <-]|[Hk' Hx']].
  - done.
  - exfalso. eapply Hnew; [exact Hx'| |exact Hc]. by rewrite (proj1 (Hok _ _ Hx')).
  - exfalso. eapply Hnew; [exact Hx| |exact (Hsym' _ Hc)]. by rewrite (proj1 (Hok _ _ Hx)).
  - by eapply Ht.
Qed.
End tables.

#[export] Instance time_then_id_trans {A} (time : A → Z) (key : A → string) :
  Transitive (time_then_id time key).
Proof.
  intros a b c [?|[? Hi]] [?|[? Hi']]; unfold time_then_id; [left; lia..|].
  right. split; [lia|]. by eapply leb_trans.
Qed.
#[export] Instance time_then_id_total {A} (time : A → Z) (key : A → string) :
  Total (time_then_id time key).
Proof.
  intros a b. unfold time_then_id. destruct (Z.lt_trichotomy (time a) (time b)) as [?|[?|?]]; auto.
  destruct (String.leb_total (key a) (key b)); auto 10.
Qed.
Lemma elem_of_order_by {A} (time : A → Z) (key : A → string) l x :
  x ∈ order_by time key l ↔ x ∈ l.
Proof. unfold order_by. by rewrite merge_sort_Permutation. Qed.

Lemma slug_taken_false t r k r' :
  slug_taken t r = false → t !! k = Some r' → rv_id r' ≠ rv_id r → ¬ slug_clash r r'.
Proof.
  unfold slug_taken, slug_clash. intros Hf Hr Hne (Hi & Hi' & Hp & Hs).
  rewrite Hi in Hf. cbn [andb] in Hf. eapply existsb_rows in Hf; [|exact Hr].
  rewrite Hi', Hp, Hs, !bool_decide_true in Hf; done.
Qed.

Lemma another_current_false t v k v' :
  another_current t v = false → t !! k = Some v' → vf_id v' ≠ vf_id v → ¬ current_clash v v'.
Proof.
  unfold another_current, current_clash. intros Hf Hr Hne (Hi & Hi' & Hp).
  rewrite Hi, bool_decide_true in Hf by done. cbn [andb] in Hf.
  eapply existsb_rows in Hf; [|exact Hr]. rewrite Hi', Hp, !bool_decide_true in Hf; done.
Qed.

Lemma another_successor_false t c k c' :
  another_successor t c = false → t !! k = Some c' → cm_id c' ≠ cm_id c → ¬ successor_clash c c'.
Proof.
  unfold another_successor, successor_clash. intros Hf Hr Hne (Hi & Hp).
  rewrite bool_decide_true in Hf by done. cbn [andb] in Hf.
  eapply existsb_rows in Hf; [|exact Hr]. rewrite Hp, !bool_decide_true in Hf; done.
Qed.

Lemma live_delivery_taken_false t i k i' :
  live_delivery_taken t i = false → t !! k = Some i' → in_id i' ≠ in_id i → ¬ delivery_clash i i'.
Proof.
  unfold live_delivery_taken, delivery_clash. intros Hf Hr Hne (Hi & Hi' & Hw & Hs).
  rewrite Hi, bool_decide_true in Hf by done. cbn [andb] in Hf.
  eapply existsb_rows in Hf; [|exact Hr]. rewrite Hi', Hs, bool_decide_true in Hf; done.
Qed.

Lemma same_delivery_spec i i' :
  same_delivery i i' = true ↔
    in_type i = in_type i' ∧ in_project_id i = in_project_id i'
    ∧ delivered_work i = delivered_work i' ∧ in_recipient_type i = in_recipient_type i'
    ∧ default "" (in_recipient_id i) = default "" (in_recipient_id i').
Proof. unfold same_delivery. rewrite !andb_true_iff, !bool_decide_eq_true. tauto. Qed.

Lemma delivery_clash_sym i i' : delivery_clash i i' → delivery_clash i' i.
Proof.
  unfold delivery_clash. rewrite !same_delivery_spec.
  intros (? & ? & ? & ? & ? & Hw & ? & ?). rewrite Hw in *. repeat split; congruence.
Qed.

(** ** Every statement keeps the tables well-formed *)

(** A guarded write: the guard has passed when the row is written. *)
Lemma preserves_guarded {T} (P : Db → Prop) (get : Db → T) checks (uniques : T → _) f :
  (∀ d, P d → violated checks = None → violated (uniques (get d)) = None → P (f d)) →
  preserves P (t ← gets get; guard_row checks (uniques t) ;; modify f).
Proof.
  intros Hf s r s' Hr HP. unfold mbind, M_bind, gets in Hr.
  destruct (guard_row checks (uniques (get (db s))) s) as [[u|e] s1] eqn:Hg.
  - apply guard_row_ok in Hg as (Hc & Hu & ->). injection Hr as _ <-. by apply Hf.
  - injection Hr as _ <-. by eapply preserves_guard_row.
Qed.

Lemma violated_cons c cs : violated (c :: cs) = None ↔ c.2 = true ∧ violated cs = None.
Proof. by rewrite !violated_None, Forall_cons. Qed.

Lemma rows_ok_key {K A} `{Countable K} (key : A → K) checks (t : gmap K A) k r :
  rows_ok key checks t → t !! k = Some r → key r = k.
Proof. intros Ht Hr. by destruct (Ht _ _ Hr). Qed.

Ltac write_row :=
  intros d [] Hc Hu; rewrite ?violated_cons in Hu; cbn [snd] in Hu;
  repeat match goal with H : _ ∧ _ |- _ => destruct H end;
  repeat match goal with H : negb _ = true |- _ => apply negb_true_iff in H end;
  constructor; cbn;
  first [ assumption | by apply rows_ok_insert | idtac ].

Lemma insert_review_ok r : preserves db_ok (insert_review r).
Proof.
  apply preserves_guarded. write_row.
  eapply no_clash_insert; eauto using slug_taken_false; unfold slug_clash; naive_solver.
Qed.
Lemma update_review_ok r : preserves db_ok (update_review r).
Proof.
  apply preserves_guarded. write_row.
  eapply no_clash_insert; eauto using slug_taken_false; unfold slug_clash; naive_solver.
Qed.
Lemma insert_finding_ok f : preserves db_ok (insert_finding f).
Proof. apply preserves_guarded. write_row. Qed.
Lemma update_finding_ok f : preserves db_ok (update_finding f).
Proof. apply (preserves_guarded db_ok (λ _, tt) _ (λ _, [])). write_row. Qed.
(** A row is not removed by writing another. *)
Lemma still_known (t : gmap string VerificationRow) k v (l : list VerificationArtefactRow) :
  Forall (λ a, is_Some (t !! va_verification_id a)) l →
  Forall (λ a, is_Some (<[k := v]> t !! va_verification_id a)) l.
Proof. intros Hl. eapply Forall_impl; [exact Hl|]. cbn. intros a Ha. apply lookup_insert_is_Some'. by right. Qed.

Lemma insert_verification_ok v : preserves db_ok (insert_verification v).
Proof.
  apply preserves_guarded. write_row; [|by apply still_known].
  eapply no_clash_insert; eauto using another_current_false; unfold current_clash; naive_solver.
Qed.
Lemma update_verification_ok v : preserves db_ok (update_verification v).
Proof.
  apply preserves_guarded. write_row; [|by apply still_known].
  eapply no_clash_insert; eauto using another_current_false; unfold current_clash; naive_solver.
Qed.
Lemma insert_verification_artefact_ok a : preserves db_ok (insert_verification_artefact a).
Proof.
  intros s r s' Hr Hs. unfold insert_verification_artefact in Hr.
  unfold mbind at 1, M_bind, gets in Hr.
  destruct (verifications (db s) !! va_verification_id a) as [v|] eqn:Hv;
    [|by injection Hr as _ <-].
  unfold mbind at 1, M_bind, mret, M_ret in Hr.
  unshelve epose proof (preserves_guarded
    (λ d, db_ok d ∧ verifications d = verifications (db s)) verification_artefacts _ _ _ _
    _ _ _ Hr (conj Hs eq_refl)) as [Hd _]; [|exact Hd].
  intros d [Hd Hveq] _ _. split; [|done]. destruct Hd. constructor; cbn; try assumption.
  apply Forall_app. split; [done|]. repeat constructor. cbn. rewrite Hveq. by eexists.
Qed.
Lemma insert_comment_ok c : preserves db_ok (insert_comment c).
Proof.
  apply preserves_guarded. write_row.
  eapply no_clash_insert; eauto using another_successor_false;
    unfold successor_clash; intuition congruence.
Qed.
Lemma update_comment_ok c : preserves db_ok (update_comment c).
Proof.
  apply preserves_guarded. write_row.
  eapply no_clash_insert; eauto using another_successor_false;
    unfold successor_clash; intuition congruence.
Qed.
Lemma insert_annotation_ok a : preserves db_ok (insert_annotation a).
Proof.
  apply preserves_guarded. write_row. by apply (rows_ok_insert annotation_key).
Qed.

Lemma delivery_no_clash t i :
  rows_ok in_id inbox_checks t → no_clash delivery_clash t → live_delivery_taken t i = false →
  no_clash delivery_clash (<[in_id i := i]> t).
Proof.
  intros. eapply no_clash_insert; eauto using live_delivery_taken_false, delivery_clash_sym.
Qed.

Lemma insert_inbox_item_ok i : preserves db_ok (insert_inbox_item i).
Proof.
  intros s r s' Hr HP. unfold insert_inbox_item in Hr.
  unfold mbind at 1, M_bind, gets in Hr. unfold mbind at 1, M_bind in Hr.
  destruct (guard_row (inbox_checks i) [] s) as [[u|e] s1] eqn:Hg.
  - apply guard_row_ok in Hg as (Hc & _ & ->).
    destruct (is_fresh _ _ && negb _) eqn:Ht; [|by injection Hr as _ <-].
    apply andb_true_iff in Ht as [_ Ht%negb_true_iff].
    injection Hr as _ <-. destruct HP. constructor; cbn; try assumption.
    + by apply rows_ok_insert.
    + by eapply delivery_no_clash.
  - injection Hr as _ <-. by eapply preserves_guard_row.
Qed.
Lemma update_inbox_item_ok i : preserves db_ok (update_inbox_item i).
Proof. apply preserves_guarded. write_row. by eapply delivery_no_clash. Qed.

Lemma write_log_ok id time input l d :
  db_ok d → appendEvent time id input (log d) = Ok l → db_ok (with_log l d).
Proof.
  intros [] Ha. constructor; cbn; try assumption.
  eapply appendEvent_preserves; eassumption.
Qed.

Section services.
Context `{Entropy} `{ArtefactStore}.

Lemma append_ok type scope actor correlation payload :
  preserves db_ok (append type scope actor correlation payload).
Proof. apply preserves_append. intros. by eapply write_log_ok. Qed.

Create HintDb keeps.
Hint Resolve insert_review_ok update_review_ok insert_finding_ok update_finding_ok
  insert_verification_ok update_verification_ok insert_verification_artefact_ok
  insert_comment_ok update_comment_ok insert_annotation_ok insert_inbox_item_ok
  update_inbox_item_ok append_ok : keeps.

Ltac keep := repeat first [ solve [auto with keeps nocore] | preserve_step ].

Lemma create_ok input actor : preserves db_ok (create input actor).
Proof. unfold create. keep. Qed.
Lemma transition_ok scope id t actor reason recipient :
  preserves db_ok (transition scope id t actor reason recipient).
Proof. unfold transition. keep. Qed.
Lemma writeComment_ok scope rid fid body prev actor :
  preserves db_ok (writeComment scope rid fid body prev actor).
Proof. unfold writeComment. keep. Qed.
Lemma recordDenial_ok scope actor e : preserves db_ok (recordDenial scope actor e).
Proof. unfold recordDenial. keep. Qed.
Lemma decide_claim_ok scope actor reason yes claim f :
  preserves db_ok (decide_claim scope actor reason yes claim f).
Proof. unfold decide_claim. keep. Qed.
Hint Resolve create_ok transition_ok writeComment_ok recordDenial_ok decide_claim_ok : keeps.

Lemma createReview_ok scope input actor : preserves db_ok (createReview scope input actor).
Proof. unfold createReview, requireSessionInProject. keep. Qed.
Lemma updateReview_ok scope id input actor : preserves db_ok (updateReview scope id input actor).
Proof.
  unfold updateReview, updateReview_body, lockReview, assertFindingsPermitAcceptance,
    review_named_event, review_status_changed_event, review_accepted_event,
    review_reopened_event, review_archived_event. keep.
Qed.
Lemma assignReview_ok scope id input actor : preserves db_ok (assignReview scope id input actor).
Proof.
  unfold assignReview, assignReview_body, requireUserInOrganisation,
    requireAgentSessionInProject, lockReview, review_status_changed_event. keep.
Qed.
Lemma claimReview_ok scope id version actor : preserves db_ok (claimReview scope id version actor).
Proof. unfold claimReview, lockReview, review_status_changed_event. keep. Qed.
Lemma updateFinding_ok scope id input actor : preserves db_ok (updateFinding scope id input actor).
Proof.
  unfold updateFinding, updateFinding_body, updateFinding_tail, lockFinding, check_move, missingEvidenceOn,
    requireFindingInProject, check_claim, currentVerificationOn, countVerificationsOn,
    finding_claimed_event, finding_status_changed_event, finding_resolved_event,
    finding_reopened_event, deliver_reopened. keep.
Qed.
Lemma insertComment_ok scope rid fid body prev actor :
  preserves db_ok (insertComment scope rid fid body prev actor).
Proof. unfold insertComment. keep. Qed.
Lemma getReview_ok scope id : preserves db_ok (getReview scope id).
Proof. unfold getReview. keep. Qed.
Lemma getFinding_ok scope id : preserves db_ok (getFinding scope id).
Proof. unfold getFinding, lockFinding. keep. Qed.
Hint Resolve insertComment_ok getReview_ok getFinding_ok : keeps.
Lemma editComment_ok scope id body actor : preserves db_ok (editComment scope id body actor).
Proof. unfold editComment. keep. Qed.
Lemma insertAnnotation_ok scope fid input actor :
  preserves db_ok (insertAnnotation scope fid input actor).
Proof. unfold insertAnnotation. keep. Qed.
Lemma annotated_event_ok scope actor rid a : preserves db_ok (annotated_event scope actor rid a).
Proof. unfold annotated_event. keep. Qed.
Lemma requireAvailableArtefact_ok scope id : preserves db_ok (requireAvailableArtefact scope id).
Proof. unfold requireAvailableArtefact. keep. Qed.
Hint Resolve insertAnnotation_ok annotated_event_ok requireAvailableArtefact_ok : keeps.
Lemma createFinding_ok scope rid input actor : preserves db_ok (createFinding scope rid input actor).
Proof. unfold createFinding. keep. Qed.
Lemma createAnnotation_ok scope fid input actor :
  preserves db_ok (createAnnotation scope fid input actor).
Proof. unfold createAnnotation. keep. Qed.
Lemma updateAnnotation_ok scope id input actor :
  preserves db_ok (updateAnnotation scope id input actor).
Proof. unfold updateAnnotation, lockAnnotation. keep. Qed.
Lemma withdrawAnnotation_ok scope id revision actor :
  preserves db_ok (withdrawAnnotation scope id revision actor).
Proof. unfold withdrawAnnotation, lockAnnotation. keep. Qed.
Lemma prepareSubmission_ok scope fid input : preserves db_ok (prepareSubmission scope fid input).
Proof. unfold prepareSubmission, requireOwnedEvidence, requireReachableEvidence. keep. Qed.
Lemma commitSubmission_ok scope fid input actor sb :
  preserves db_ok (commitSubmission scope fid input actor sb).
Proof. unfold commitSubmission, lockFinding, supersedeCurrentVerification. keep. Qed.
Hint Resolve prepareSubmission_ok commitSubmission_ok : keeps.
Lemma submitVerification_ok scope fid input actor :
  preserves db_ok (submitVerification scope fid input actor).
Proof. unfold submitVerification. keep. Qed.
End services.
