(* ===== verification/Samples.v ===== *)
(** * A sample history: one review, one finding, its claim, the evidence for it
    and the human decision, run through the operations

    The witnesses of the theorems are taken from it. *)

From S2P Require Import Prelude Errors ReviewProtocol BrowserProtocol ReviewDomain Events Completion EntityId Geometry Store Records Inbox ReviewService FindingService VerificationService Preserve Invariants.

(** Sixteen bytes per draw, different for each of the first 65536. *)
#[export] Instance sample_entropy : Entropy := λ n,
  N.of_nat (n mod 256) :: N.of_nat (n / 256) :: replicate 14 7%N.
#[export] Instance sample_store : ArtefactStore := true.

Definition scope1 : Scope := {| organisationId := "org_1"; projectId := "prj_1" |}.
Definition person : EventActor :=
  {| actor_type := human_user; actor_id := Some "usr_1"; actor_display := Some "Ada" |}.
Definition worker : EventActor :=
  {| actor_type := agent_session; actor_id := Some "ags_1"; actor_display := None |}.

Definition sample_artefact : ArtefactRow :=
  {| ar_organisation_id := "org_1"; ar_project_id := "prj_1"; ar_kind := "screenshot";
     ar_state := a_available; ar_browser_session_id := Some "brs_1"; ar_deleted_at := None |}.

(** A browser under the agent's control since epoch 1. *)
Definition agent1 : ControllerIdentity := {| ct_type := by_agent; ct_id := "ags_1" |}.
Definition sample_session : BrowserSessionRow :=
  {| bs_id := "brs_1"; bs_organisation_id := "org_1"; bs_project_id := "prj_1";
     bs_worker_id := Some "wkr_1"; bs_agent_session_id := Some "ags_1";
     bs_published_service_id := None; bs_requested_published_service_id := None;
     bs_allocation_requested_at := None; bs_service_origin := None; bs_browser_version := None;
     bs_status := BS_READY; bs_current_controller := Some agent1; bs_control_epoch := 1;
     bs_last_sequence := -1;
     bs_viewport := JObj [("width", JNum 1280); ("height", JNum 720)]; bs_limits := JObj [];
     bs_retention_policy := "verification_evidence"; bs_created_at := 900; bs_ended_at := None |}.
Definition sample_lease : ControlLeaseRow :=
  {| cl_id := "lse_1"; cl_browser_session_id := "brs_1"; cl_controller := agent1; cl_epoch := 1;
     cl_issued_at := 900; cl_expires_at := 900900; cl_revoked_at := None;
     cl_reason := Some "initial allocation" |}.

Definition sample_project : ProjectRow :=
  {| pj_id := "prj_1"; pj_organisation_id := "org_1"; pj_name := "Shop"; pj_slug := "shop";
     pj_repository_identity := None; pj_default_branch := "main"; pj_status := pj_active;
     pj_settings := {| default_validation_viewports :=
       [{| vv_width := 1280; vv_height := 720; vv_device_scale_factor := None |}] |};
     pj_version := 1; pj_created_at := 100; pj_updated_at := 100; pj_archived_at := None |}.

Definition empty_db : Db :=
  {| reviews := ∅; findings := ∅; verifications := ∅; verification_artefacts := [];
     comments := ∅; annotations := ∅; inbox_items := ∅;
     projects := {[ "prj_1" := sample_project ]};
     users := {[ "usr_1" := {| us_organisation_id := "org_1" |} ]};
     agent_sessions := {[ "ags_1" := {| as_project_id := "prj_1"; as_organisation_id := "org_1" |} ]};
     browser_sessions := {[ "brs_1" := sample_session ]};
     control_leases := {[ "lse_1" := sample_lease ]};
     browser_workers := {[ "wkr_1" :=
       {| bw_id := "wkr_1"; bw_status := w_active; bw_capacity := 4; bw_registered_at := 500;
          bw_last_heartbeat_at := Some 900%Z |} ]};
     browser_worker_projects := [("wkr_1", "prj_1")];
     connectors := {[ "con_1" :=
       {| cn_organisation_id := "org_1"; cn_environment_id := "env_1"; cn_project_id := None;
          cn_status := C_ACTIVE |} ]};
     environments := {[ "env_1" := {| ev_project := Some "prj_1" |} ]};
     workspaces := {[ "wsp_1" := {| wk_organisation_id := "org_1"; wk_project_id := "prj_1" |} ]};
     published_services := ∅; route_capabilities := ∅; jobs := ∅;
     artefacts := <["art_before" := sample_artefact]> {[ "art_after" := sample_artefact ]};
     log := empty_log |}.

Definition start : St := {| db := empty_db; drawn := 0; clock := 1000; denied := None |}.

Lemma rows_ok_empty {K A} `{Countable K} (key : A → K) checks : rows_ok key checks ∅.
Proof. apply map_Forall_empty. Qed.
Lemma no_clash_empty {K A} `{Countable K} (clash : A → A → Prop) :
  no_clash clash (∅ : gmap K A).
Proof. intros k k' r r' Hk. by rewrite lookup_empty in Hk. Qed.

Lemma start_ok : db_ok (db start).
Proof.
  constructor; cbn;
    first [apply rows_ok_empty | apply no_clash_empty | apply empty_log_ok | constructor].
Qed.

(** The row a run returned, for a run that returns. *)
Definition returned {A} (m : M A) (s : St) (dummy : A) : A :=
  match fst (m s) with Ok a => a | Err _ => dummy end.
Definition left_at {A} (m : M A) (s : St) : St := snd (m s).

Lemma left_at_ok {A} (m : M A) s : preserves db_ok m → db_ok (db s) → db_ok (db (left_at m s)).
Proof.
  intros Hm Hs. unfold left_at. destruct (m s) as [r s'] eqn:Hr. by eapply Hm.
Qed.

Definition some_review : ReviewRow :=
  new_review "" 0 scope1
    {| cr_slug := ""; cr_title := ""; cr_description := None; cr_status := None;
       cr_priority := None; cr_capturedBranch := ""; cr_capturedCommit := "";
       cr_capturedWorkspaceId := ""; cr_sourceBrowserSessionId := "" |} DRAFT person.

Definition review_input : CreateReviewInput :=
  {| cr_slug := "bugs-on-homepage"; cr_title := "Bugs on the homepage"; cr_description := None;
     cr_status := Some READY; cr_priority := None; cr_capturedBranch := "main";
     cr_capturedCommit := "0123abcd"; cr_capturedWorkspaceId := "wsp_1";
     cr_sourceBrowserSessionId := "brs_1" |}.

Definition create_review : M ReviewRow := createReview scope1 review_input person.
Definition s1 : St := left_at create_review start.
Definition review1 : ReviewRow := returned create_review start some_review.

Definition finding_input : CreateFindingInput :=
  {| cf_title := "The button is cut off"; cf_description := None; cf_severity := sev_high;
     cf_url := "http://localhost:3000/";
     cf_viewport := JObj [("width", JNum 1280); ("height", JNum 720);
                          ("device_scale_factor", JNum 1)];
     cf_scrollPosition := JObj [("x", JNum 0); ("y", JNum 0)];
     cf_capturedCommit := "0123abcd"; cf_screenshotArtefactId := "art_before";
     cf_elementContext := None; cf_acceptanceCriteria := None;
     cf_annotations := [{| ca_artefactId := "art_before"; ca_type := point;
                           ca_geometry := JObj [("x", JNum 0); ("y", JNum 1)];
                           ca_label := "here"; ca_markerNumber := None;
                           ca_styleHint := None |}] |}.

Definition some_finding : FindingRow := new_finding "" 0 scope1 "" finding_input person.

Definition create_finding : M (FindingRow * list AnnotationRow) :=
  createFinding scope1 (rv_id review1) finding_input person.
Definition s2 : St := left_at create_finding s1.
Definition finding1 : FindingRow := (returned create_finding s1 (some_finding, [])).1.
Definition fid : string := fn_id finding1.

Definition claim_finding : M FindingRow := claimFinding scope1 fid 1 worker.
Definition s3 : St := left_at claim_finding s2.
Definition start_work : M FindingRow :=
  updateFinding scope1 fid (move_input 2 IN_PROGRESS None None None) worker.
Definition s4 : St := left_at start_work s3.

Definition evidence_input : SubmitVerificationInput :=
  {| sv_summary := "Gave the button room."; sv_branch := "fix/button"; sv_commit := "89abcdef";
     sv_testedViewports := [{| vp_width := 1280; vp_height := 720;
                               vp_device_scale_factor := None |}];
     sv_checks := {| reproduced_before := true; console_errors_reviewed := true;
                     network_failures_reviewed := true; accessibility_checked := None |};
     sv_artefactIds := ["art_after"]; sv_workspaceBranch := None; sv_expectedVersion := Some 3%Z |}.

Definition submit : M (Verification * FindingRow * bool) :=
  submitVerification scope1 fid evidence_input worker.
Definition s5 : St := left_at submit s4.
Definition claim1 : string :=
  match fst (submit s4) with
  | Ok ((v, _), _) => vf_id (verification_row v)
  | Err _ => ""
  end.

Definition hand_over : M FindingRow :=
  updateFinding scope1 fid (move_input 4 AWAITING_HUMAN_REVIEW None None None) worker.
Definition s6 : St := left_at hand_over s5.
Definition resolve_input : UpdateFindingInput :=
  move_input 5 RESOLVED (Some "Looks right now.") None (Some claim1).
Definition resolve : M FindingRow := updateFinding scope1 fid resolve_input person.
Definition s7 : St := left_at resolve s6.
Definition resolved1 : FindingRow := returned resolve s6 some_finding.

Lemma s1_ok : db_ok (db s1).
Proof. apply left_at_ok; [apply createReview_ok | apply start_ok]. Qed.
Lemma s2_ok : db_ok (db s2).
Proof. apply left_at_ok; [apply createFinding_ok | apply s1_ok]. Qed.
Lemma s3_ok : db_ok (db s3).
Proof. apply left_at_ok; [apply updateFinding_ok | apply s2_ok]. Qed.
Lemma s4_ok : db_ok (db s4).
Proof. apply left_at_ok; [apply updateFinding_ok | apply s3_ok]. Qed.
Lemma s5_ok : db_ok (db s5).
Proof. apply left_at_ok; [apply submitVerification_ok | apply s4_ok]. Qed.
Lemma s6_ok : db_ok (db s6).
Proof. apply left_at_ok; [apply updateFinding_ok | apply s5_ok]. Qed.
Lemma s7_ok : db_ok (db s7).
Proof. apply left_at_ok; [apply updateFinding_ok | apply s6_ok]. Qed.

(** ** The review handed over, accepted and archived *)

Definition transition_at (version : Z) (reason : option string) : ReviewTransitionInput :=
  {| rt_expectedVersion := version; rt_reason := reason; rt_verificationId := None |}.

Definition claim_review : M ReviewRow := claimReview scope1 (rv_id review1) 1 worker.
Definition s8 : St := left_at claim_review s7.
Definition review_to (version : Z) (t : ReviewStatus) : UpdateReviewInput :=
  transition_input (transition_at version None) t.
Definition begin_review : M ReviewRow :=
  updateReview scope1 (rv_id review1) (review_to 2 R_IN_PROGRESS) worker.
Definition s9 : St := left_at begin_review s8.
Definition request_review : M ReviewRow :=
  requestHumanReview scope1 (rv_id review1) (transition_at 3 None) worker.
Definition s10 : St := left_at request_review s9.
Definition accept_review : M ReviewRow :=
  acceptReview scope1 (rv_id review1) (transition_at 4 (Some "Ready to ship.")) person.
Definition s11 : St := left_at accept_review s10.
Definition archive_review : M ReviewRow :=
  archiveReview scope1 (rv_id review1) (transition_at 5 None) person.
Definition s12 : St := left_at archive_review s11.

Definition awaiting_review1 : ReviewRow := returned request_review s9 some_review.
Definition accepted1 : ReviewRow := returned accept_review s10 some_review.
Definition archived1 : ReviewRow := returned archive_review s11 some_review.

Lemma s8_ok : db_ok (db s8).
Proof. apply left_at_ok; [apply claimReview_ok | apply s7_ok]. Qed.
Lemma s9_ok : db_ok (db s9).
Proof. apply left_at_ok; [apply updateReview_ok | apply s8_ok]. Qed.
Lemma s10_ok : db_ok (db s10).
Proof. apply left_at_ok; [apply updateReview_ok | apply s9_ok]. Qed.
Lemma s11_ok : db_ok (db s11).
Proof. apply left_at_ok; [apply updateReview_ok | apply s10_ok]. Qed.

(** The history's events, from the creation of the review to the decision. *)
Example history :
  ev_type <$> events (log (db s7)) =
    ["review.created"; "review.named"; "finding.created"; "finding.annotated";
     "finding.claimed"; "finding.status_changed"; "finding.status_changed";
     "finding.verification_submitted"; "finding.status_changed"; "finding.status_changed";
     "finding.status_changed"; "finding.verification_accepted"; "finding.comment_added";
     "finding.resolved"].
Proof. vm_compute. reflexivity. Qed.
