(* ===== verification/Effects.v ===== *)
(** * What a run did: the rows it wrote and the events it appended *)

From S2P Require Import Prelude Errors ReviewProtocol ReviewDomain Events Completion EntityId Geometry Store Records Inbox ReviewService FindingService VerificationService Preserve Invariants.

(** [wrote scope actor types s s']: the tables of [s'] are those of [s] but for
    the log, which gained events of the types listed, in that order, each
    attributed to the actor and placed in the scope. *)
Definition attributed (scope : Scope) (actor : EventActor) (e : EventRow) : Prop :=
  ev_actor e = actor ∧ ev_organisation_id e = organisationId scope
  ∧ ev_project_id e = Some (projectId scope).

Definition wrote (scope : Scope) (actor : EventActor) (types : list string) (s s' : St) : Prop :=
  ∃ l es, db s' = with_log l (db s)
    ∧ events l = events (log (db s)) ++ es
    ∧ ev_type <$> es = types ∧ Forall (attributed scope actor) es
    ∧ clock s' = clock s ∧ denied s' = denied s.

(** The tables of other modules. *)
Definition foreign (d : Db) := (projects d, users d, agent_sessions d, browser_sessions d, artefacts d).

Lemma with_log_same d : with_log (log d) d = d.
Proof. by destruct d. Qed.

(** The events of the log of [d'] after those of [d]. *)
Definition new_events (d d' : Db) : list EventRow :=
  drop (length (events (log d))) (events (log d')).

Section wrote.
Context `{Entropy} (scope : Scope) (actor : EventActor).

Lemma wrote_nil s s' :
  db s' = db s → clock s' = clock s → denied s' = denied s → wrote scope actor [] s s'.
Proof.
  intros Hd Hc Hn. exists (log (db s)), []. rewrite with_log_same, app_nil_r. done.
Qed.

Lemma wrote_app types types' s s1 s' :
  wrote scope actor types s s1 → wrote scope actor types' s1 s' →
  wrote scope actor (types ++ types') s s'.
Proof.
  intros (l & es & Hd & He & Ht & Ha & Hc & Hn) (l' & es' & Hd' & He' & Ht' & Ha' & Hc' & Hn').
  exists l', (es ++ es'). rewrite Hd', He', Hd in *. cbn in *.
  rewrite fmap_app, app_assoc, <- He. split_and!; [done|congruence..| |congruence|congruence].
  by apply Forall_app.
Qed.

Lemma append_wrote type correlation payload s u s' :
  append type scope actor correlation payload s = (Ok u, s') →
  wrote scope actor [type] s s'.
Proof.
  intros (e & l & Hd & He & (Ht & Ha & _ & _ & Ho & Hp) & Hc & Hn & _)%append_logged.
  exists l, [e]. split_and!; try done; [by rewrite <- Ht|].
  by repeat constructor.
Qed.

Lemma whenM_wrote (c : bool) m types s u s' :
  whenM c m s = (Ok u, s') →
  (∀ u s', m s = (Ok u, s') → wrote scope actor types s s') →
  wrote scope actor (if c then types else []) s s'.
Proof.
  intros [[-> Hm]|[-> ->]]%whenM_ok Hw; [by eapply Hw | by apply wrote_nil].
Qed.

Lemma wrote_db types s s' : wrote scope actor types s s' → db s' = with_log (log (db s')) (db s).
Proof. intros (l & es & Hd & _). by rewrite Hd. Qed.

End wrote.

(** [logs scope actor types d d']: the same of the log alone. *)
Definition logs (scope : Scope) (actor : EventActor) (types : list string) (d d' : Db) : Prop :=
  ∃ es, events (log d') = events (log d) ++ es
    ∧ ev_type <$> es = types ∧ Forall (attributed scope actor) es.

Section logs.
Context (scope : Scope) (actor : EventActor).

Lemma logs_same d d' : log d' = log d → logs scope actor [] d d'.
Proof. intros Hl. exists []. by rewrite Hl, app_nil_r. Qed.
Lemma logs_app types types' d d1 d' :
  logs scope actor types d d1 → logs scope actor types' d1 d' →
  logs scope actor (types ++ types') d d'.
Proof.
  intros (es & He & <- & Ha) (es' & He' & <- & Ha'). exists (es ++ es').
  rewrite He', He, fmap_app, app_assoc. split_and!; [done..|]. by apply Forall_app.
Qed.
Lemma wrote_logs types s s' : wrote scope actor types s s' → logs scope actor types (db s) (db s').
Proof.
  intros (l & es & Hd & He & Ht & Ha & _). exists es. by rewrite Hd.
Qed.
Lemma logs_types types d d' :
  logs scope actor types d d' →
  ev_type <$> new_events d d' = types ∧ Forall (attributed scope actor) (new_events d d').
Proof. intros (es & He & Ht & Ha). unfold new_events. by rewrite He, drop_app_length. Qed.
End logs.

(** ** Reviews *)

Section reviews.
Context `{Entropy}.

Lemma lockReview_run scope id s r s' :
  lockReview scope id s = (Ok r, s') →
  s' = s ∧ find_row (reviews (db s)) (review_in scope) id = Some r.
Proof.
  unfold lockReview. rewrite bindM_ok. intros (o & s1 & Hg & Hu).
  apply gets_ok in Hg as [-> ->]. apply unless_none_ok in Hu as [? ->]. done.
Qed.

Lemma find_row_Some {A} (t : gmap string A) inside id r :
  find_row t inside id = Some r ↔ t !! id = Some r ∧ inside r = true.
Proof.
  unfold find_row. destruct (t !! id) as [x|]; cbn; [|by split; [|intros [? _]]].
  destruct (inside x) eqn:Hi; split.
  - by intros [= <-].
  - by intros [[= <-] _].
  - done.
  - intros [[= <-] Hx]. by rewrite Hi in Hx.
Qed.

Lemma assertFindingsPermitAcceptance_run scope id s c s' :
  assertFindingsPermitAcceptance scope id s = (Ok c, s') →
  s' = s ∧ pass (assertReviewAcceptable (acceptance_findings (db s) scope id)).
Proof.
  unfold assertFindingsPermitAcceptance. rewrite bindM_ok. intros (fs & s1 & Hg & Hr).
  apply gets_ok in Hg as [-> ->]. apply bindM_ok in Hr as ([] & s2 & Hl & Hr).
  apply lift_ok in Hl as [? ->]. apply retM_ok in Hr as [_ ->]. done.
Qed.

(** One guarded write. *)
Lemma update_review_run r s u s' :
  update_review r s = (Ok u, s') →
  violated (review_checks r) = None
  ∧ s' = with_db (with_reviews (<[rv_id r := r]> (reviews (db s))) (db s)) s.
Proof.
  unfold update_review. intros (t & s1 & Hg & Hr)%bindM_ok.
  apply gets_ok in Hg as [-> ->]. apply bindM_ok in Hr as ([] & s2 & Hg & Hm).
  apply guard_row_ok in Hg as (? & _ & ->). by apply modify_ok in Hm as ->.
Qed.

(** The events of an update, by type. *)
Definition review_event_types (input : UpdateReviewInput) (f t : ReviewStatus) : list string :=
  let changing := negb (bool_decide (t = f)) in
  (if is_some (ur_slug input) || is_some (ur_title input) then ["review.named"] else [])
  ++ (if changing then ["review.status_changed"] else [])
  ++ (if changing && bool_decide (t = ACCEPTED) then ["review.accepted"] else [])
  ++ (if changing && bool_decide (f = ACCEPTED) then ["review.reopened"] else [])
  ++ (if changing && bool_decide (t = ARCHIVED) then ["review.archived"] else []).

(** The row a successful update leaves. *)
Definition review_after (r : ReviewRow) (input : UpdateReviewInput) (actor : EventActor)
    (time : Z) : ReviewRow :=
  let t := default (rv_status r) (ur_status input) in
  let changing := negb (bool_decide (t = rv_status r)) in
  updated_review r input t (includes [ACCEPTED; CANCELLED; ARCHIVED] t)
    (changing && bool_decide (rv_status r = ACCEPTED))
    (changing && bool_decide (t = ACCEPTED)) actor time.

Record review_updated (scope : Scope) (id : string) (input : UpdateReviewInput)
    (actor : EventActor) (d : Db) (time : Z) (r r' : ReviewRow) (d' : Db) : Prop := {
  ru_found : find_row (reviews d) (review_in scope) id = Some r;
  ru_version : rv_version r = ur_expectedVersion input;
  ru_mutable : pass (assertReviewMutable (rv_status r) (ur_status input) (patched_fields input));
  ru_moves : ∀ t, ur_status input = Some t → t ≠ rv_status r →
    pass (review_move_checks (actor_type actor) (rv_status r) t);
  ru_acceptable : ur_status input = Some ACCEPTED → rv_status r ≠ ACCEPTED →
    pass (assertReviewAcceptable (acceptance_findings d scope id));
  ru_row : r' = review_after r input actor time;
  ru_checked : violated (review_checks r') = None;
  ru_db : d' = with_log (log d') (with_reviews (<[rv_id r' := r']> (reviews d)) d);
  ru_events : ev_type <$> new_events d d' =
    review_event_types input (rv_status r) (default (rv_status r) (ur_status input));
  ru_attributed : Forall (attributed scope actor) (new_events d d');
  ru_logs : ∃ types, logs scope actor types d d'
}.

Lemma updateReview_body_run scope id input actor s r' s' :
  db_ok (db s) →
  updateReview_body scope id input actor s = (Ok r', s') →
  ∃ r, review_updated scope id input actor (db s) (clock s) r r' (db s').
Proof.
  intros Hok. unfold updateReview_body.
  intros (r & s1 & (-> & Hfind)%lockReview_run & Hr)%bindM_ok.
  apply bindM_ok in Hr as ([] & s1 & (Hversion & ->)%lift_ok & Hr).
  apply assertExpectedVersion_pass in Hversion.
  apply bindM_ok in Hr as ([] & s1 & (Hmutable & ->)%lift_ok & Hr).
  set (t := default (rv_status r) (ur_status input)) in *.
  set (changing := negb (bool_decide (t = rv_status r))) in *.
  apply bindM_ok in Hr as ([] & s1 & Hchecks & Hr).
  assert (db s1 = db s ∧ clock s1 = clock s ∧
    (changing = true → pass (review_move_checks (actor_type actor) (rv_status r) t)))
    as (Hdb1 & Hclock1 & Hmove).
  { apply whenM_ok in Hchecks as [[_ Hc]|[Hc ->]]; [|by rewrite Hc].
    inv_run. split; [done|]. split; [done|]. intros _. unfold review_move_checks.
    rewrite !then_ok. auto. }
  apply bindM_ok in Hr as (counts & s2 & Hcounts & Hr).
  assert (s2 = s1 ∧ (changing && bool_decide (t = ACCEPTED) = true →
    pass (assertReviewAcceptable (acceptance_findings (db s) scope id)))) as [-> Hacc].
  { destruct (changing && bool_decide (t = ACCEPTED)).
    - apply assertFindingsPermitAcceptance_run in Hcounts as [-> ?]. by rewrite <- Hdb1.
    - apply retM_ok in Hcounts as [_ ->]. done. }
  apply bindM_ok in Hr as (time & s2 & (-> & ->)%now_ok & Hr).
  apply bindM_ok in Hr as ([] & s2 & (Hrow & ->)%update_review_run & Hr).
  fold t changing in Hrow, Hr. rewrite Hclock1, Hdb1 in *.
  apply bindM_ok in Hr as ([] & s3 & H3%(whenM_wrote scope actor _ _ ["review.named"]) & Hr);
    [|by intros; eapply append_wrote].
  apply bindM_ok in Hr as ([] & s4 & H4%(whenM_wrote scope actor _ _ ["review.status_changed"]) & Hr);
    [|by intros; eapply append_wrote].
  apply bindM_ok in Hr as ([] & s5 & H5%(whenM_wrote scope actor _ _ ["review.accepted"]) & Hr);
    [|by intros; eapply append_wrote].
  apply bindM_ok in Hr as ([] & s6 & H6%(whenM_wrote scope actor _ _ ["review.reopened"]) & Hr);
    [|by intros; eapply append_wrote].
  apply bindM_ok in Hr as ([] & s7 & H7%(whenM_wrote scope actor _ _ ["review.archived"]) & Hr);
    [|by intros; eapply append_wrote].
  apply retM_ok in Hr as [-> ->].
  pose proof (wrote_app _ _ _ _ _ _ _ H3 (wrote_app _ _ _ _ _ _ _ H4
    (wrote_app _ _ _ _ _ _ _ H5 (wrote_app _ _ _ _ _ _ _ H6 H7)))) as Hw.
  exists r. split; try done.
  - intros t' Ht' Hne. assert (t = t') as <- by (subst t; by rewrite Ht'). apply Hmove.
    subst changing. by rewrite bool_decide_false.
  - intros Ht' Hne. assert (t = ACCEPTED) as Ht by (subst t; by rewrite Ht'). apply Hacc.
    subst changing. rewrite Ht, !bool_decide_false, bool_decide_true by done. done.
  - apply wrote_db in Hw. done.
  - by apply wrote_logs, logs_types in Hw as [? ?].
  - by apply wrote_logs, logs_types in Hw as [? ?].
  - eexists. by apply wrote_logs in Hw.
Qed.
End reviews.

(** ** Findings *)

Section findings.
Context `{Entropy}.

Lemma lockFinding_run scope id s f s' :
  lockFinding scope id s = (Ok f, s') →
  s' = s ∧ find_row (findings (db s)) (finding_in scope) id = Some f.
Proof. unfold lockFinding. intros Hr. inv_run. done. Qed.

Lemma update_finding_run f s u s' :
  update_finding f s = (Ok u, s') →
  violated (finding_checks f) = None
  ∧ s' = with_db (with_findings (<[fn_id f := f]> (findings (db s))) (db s)) s.
Proof. unfold update_finding. intros Hr. inv_run. done. Qed.

Lemma requireFindingInProject_run scope other id s u s' :
  requireFindingInProject scope other id s = (Ok u, s') →
  s' = s ∧ other ≠ id ∧ is_Some (find_row (findings (db s)) (finding_in scope) other).
Proof.
  unfold requireFindingInProject. intros Hr. inv_run.
  case_bool_decide; [done|]. split_and!; [done..|by eexists].
Qed.

(** What the project still asks of the finding's current claim. *)
Definition outstanding_evidence (d : Db) (scope : Scope) (findingId : string) :
    option (list string) :=
  p ← own_project d scope;
  Some (missingEvidence (pj_settings p) (completionRequirementsFor (pj_settings p))
          (current_evidence d scope findingId)).

Lemma missingEvidenceOn_run scope id s m s' :
  missingEvidenceOn scope id s = (Ok m, s') →
  s' = s ∧ outstanding_evidence (db s) scope id = Some m.
Proof.
  unfold missingEvidenceOn, outstanding_evidence. intros Hr. inv_run.
  split; [done|].
  match goal with H : own_project _ _ = Some _ |- _ => by rewrite H end.
Qed.

(** What completion evidence a passed move carried. *)
Record evidence_shown (scope : Scope) (id : string) (input : UpdateFindingInput)
    (actor : EventActor) (d : Db) (f : FindingRow) (t : FindingStatus) : Prop := {
  es_note : t = FIXED_UNVERIFIED →
    ∃ note, coalesce (uf_resolutionNote input) (fn_resolution_note f) = Some note
            ∧ trim note ≠ "";
  es_complete : t = AWAITING_HUMAN_REVIEW → actor_type actor = agent_session →
    outstanding_evidence d scope id = Some []
}.

Lemma assertCompletionEvidence_pass t note missing a :
  pass (assertCompletionEvidence t note missing (Some a)) →
  (t = FIXED_UNVERIFIED → ∃ n, note = Some n ∧ trim n ≠ "")
  ∧ (t = AWAITING_HUMAN_REVIEW → a = agent_session → missing = None ∨ missing = Some []).
Proof.
  unfold assertCompletionEvidence. intros Hp. split.
  - intros ->. rewrite bool_decide_true in Hp by done. destruct note as [n|]; [|done].
    exists n. split; [done|]. by case_bool_decide.
  - intros -> ->. rewrite bool_decide_false in Hp by done.
    destruct missing as [[]|]; auto. done.
Qed.

Lemma check_move_run scope id input actor f t s u s' :
  check_move scope id input actor f t s = (Ok u, s') →
  db s' = db s ∧ clock s' = clock s
  ∧ pass (finding_move_checks (actor_type actor) (fn_source f) (fn_status f) t)
  ∧ evidence_shown scope id input actor (db s) f t.
Proof.
  unfold check_move. intros Hr.
  apply bindM_ok in Hr as ([] & s1 & ->%set_denied_ok & Hr).
  apply bindM_ok in Hr as ([] & s1 & (Hd & ->)%lift_ok & Hr).
  apply bindM_ok in Hr as ([] & s1 & (Ht & ->)%lift_ok & Hr).
  apply bindM_ok in Hr as ([] & s1 & (Hm & ->)%lift_ok & Hr).
  apply bindM_ok in Hr as ([] & s1 & ->%set_denied_ok & Hr). cbn [db drawn clock] in Hr.
  apply bindM_ok in Hr as (missing & s1 & Hmissing & Hr).
  apply bindM_ok in Hr as ([] & s2 & Hw & Hr).
  apply bindM_ok in Hr as ([] & s3 & (He & ->)%lift_ok & ->%set_denied_ok).
  apply assertCompletionEvidence_pass in He as [Hnote Hagent].
  assert (db s1 = db s ∧ clock s1 = clock s ∧
    (t = AWAITING_HUMAN_REVIEW → actor_type actor = agent_session →
     missing = outstanding_evidence (db s) scope id ∧ missing ≠ None)) as (Hdb & Hck & Hmiss).
  { destruct (bool_decide (t = AWAITING_HUMAN_REVIEW)) eqn:Hta;
      [destruct (bool_decide (actor_type actor = agent_session)) eqn:Hag|]; cbn [andb] in Hmissing.
    - apply bindM_ok in Hmissing as (m & s4 & (-> & Ho)%missingEvidenceOn_run & Hm').
      apply retM_ok in Hm' as [-> ->]. cbn [db] in Ho.
      split_and!; [done..|]. intros _ _. by rewrite Ho.
    - apply retM_ok in Hmissing as [-> ->]. split_and!; [done..|].
      by apply bool_decide_eq_false_1 in Hag.
    - apply retM_ok in Hmissing as [-> ->]. split_and!; [done..|].
      by apply bool_decide_eq_false_1 in Hta. }
  assert (db s2 = db s1 ∧ clock s2 = clock s1) as [Hdb2 Hck2].
  { apply whenM_ok in Hw as [[_ ->%set_denied_ok]|[_ ->]]; done. }
  cbn [db clock]. split_and!; [congruence|congruence| |split].
  - unfold finding_move_checks. rewrite !then_ok. auto.
  - exact Hnote.
  - intros Hta Hag. destruct (Hmiss Hta Hag) as [<- Hne].
    destruct (Hagent Hta Hag) as [->| ->]; done.
Qed.

Lemma check_claim_run scope id input f t s claim s' :
  check_claim scope id input f t s = (Ok claim, s') →
  db s' = db s ∧ clock s' = clock s
  ∧ cc_id <$> claim = vf_id <$> current_row (db s) scope id
  ∧ pass (assertVerificationUnderReview (vf_id <$> current_row (db s) scope id)
            (uf_verificationId input)).
Proof.
  unfold check_claim, currentVerificationOn. intros Hr.
  apply bindM_ok in Hr as (c & s1 & (-> & ->)%gets_ok & Hr).
  apply bindM_ok in Hr as ([] & s1 & ->%set_denied_ok & Hr). cbn [db clock drawn] in Hr.
  apply bindM_ok in Hr as ([] & s2 & (Hp & ->)%lift_ok & Hr).
  apply bindM_ok in Hr as ([] & s2 & ->%set_denied_ok & (-> & ->)%retM_ok).
  cbn [db clock]. assert (∀ o : option VerificationRow,
    cc_id <$> (v ← o; Some {| cc_id := vf_id v;
                     cc_after_artefact_id := artefact_with_role (db s) (vf_id v) after;
                     cc_submitted_by := vf_submitted_by v |}) = vf_id <$> o) as Heq
    by by intros [].
  rewrite Heq in Hp. done.
Qed.

(** The decision a move to [RESOLVED] or [REOPENED] takes on the claim. *)
Lemma decide_claim_run scope actor reason yes claim f s u s' :
  decide_claim scope actor reason yes claim f s = (Ok u, s') →
  let v := find_row (verifications (db s)) (verification_in scope) (cc_id claim) in
  verifications (db s') =
    match v with
    | Some v => <[vf_id v := decided_verification v yes actor (clock s)]> (verifications (db s))
    | None => verifications (db s)
    end
  ∧ clock s' = clock s
  ∧ logs scope actor
      [if yes then "finding.verification_accepted" else "finding.verification_rejected"]
      (db s) (db s').
Proof.
  unfold decide_claim. intros Hr.
  apply bindM_ok in Hr as (time & s1 & (-> & ->)%now_ok & Hr).
  apply bindM_ok in Hr as (row & s1 & (-> & ->)%gets_ok & Hr). cbv zeta.
  destruct (find_row _ _ _) as [v|].
  - apply bindM_ok in Hr as ([] & s1 & Hu & Hr). unfold update_verification in Hu. inv_run.
    apply append_wrote in Hr as Hw. pose proof (wrote_logs _ _ _ _ _ Hw) as Hl.
    destruct Hw as (l & es & Hdb & _ & _ & _ & Hck & _). split_and!; [by rewrite Hdb|done|done].
  - apply bindM_ok in Hr as ([] & s1 & (_ & ->)%retM_ok & Hr).
    apply append_wrote in Hr as Hw. pose proof (wrote_logs _ _ _ _ _ Hw) as Hl.
    destruct Hw as (l & es & Hdb & _ & _ & _ & Hck & _). split_and!; [by rewrite Hdb|done|done].
Qed.

(** A new comment and its event. *)
Definition is_comment (scope : Scope) (reviewId : string) (findingId : option string)
    (body : string) (actor : EventActor) (time : Z) (c : CommentRow) : Prop :=
  cm_organisation_id c = organisationId scope ∧ cm_project_id c = projectId scope
  ∧ cm_review_id c = reviewId ∧ cm_finding_id c = findingId ∧ cm_body c = body
  ∧ cm_revision c = 1%Z ∧ cm_created_by c = actor ∧ cm_supersedes_comment_id c = None
  ∧ cm_superseded_at c = None ∧ cm_created_at c = time.

Lemma writeComment_run scope rid fid body actor s c s' :
  writeComment scope rid fid body None actor s = (Ok c, s') →
  comments (db s) !! cm_id c = None
  ∧ comments (db s') = <[cm_id c := c]> (comments (db s))
  ∧ is_comment scope rid fid body actor (clock s) c
  ∧ clock s' = clock s
  ∧ logs scope actor [match fid with None => "review.comment_added"
                                   | Some _ => "finding.comment_added" end] (db s) (db s').
Proof.
  unfold writeComment. intros Hr.
  apply bindM_ok in Hr as (id & s1 & (_ & Hdb & Hck & _)%newId_ok & Hr).
  apply bindM_ok in Hr as (time & s2 & (-> & ->)%now_ok & Hr).
  apply bindM_ok in Hr as ([] & s2 & (_ & ->)%retM_ok & Hr).
  apply bindM_ok in Hr as ([] & s2 & Hi & Hr). unfold insert_comment in Hi. inv_run.
  match goal with H : append _ _ _ _ _ _ = _ |- _ => apply append_wrote in H as Hw end.
  pose proof (wrote_logs _ _ _ _ _ Hw) as Hl.
  destruct Hw as (l & es & Hdb' & _ & _ & _ & Hck' & _). rewrite Hdb'. cbn in *.
  match goal with H : violated [_; _] = None |- _ =>
    rewrite !violated_cons in H; destruct H as (Hfresh & _) end.
  cbn in Hfresh. apply bool_decide_eq_true in Hfresh. rewrite Hdb in *.
  split_and!; [done|done| |congruence|].
  - repeat split; done.
  - destruct fid; rewrite Hdb' in Hl; exact Hl.
Qed.

(** A delivery writes at most one event. *)
Lemma create_run input actor s i s' :
  create input actor s = (Ok i, s') →
  clock s' = clock s
  ∧ ∃ types, (types = [] ∨ types = ["inbox_item.created"])
     ∧ logs {| organisationId := ci_organisationId input; projectId := ci_projectId input |}
         actor types (db s) (db s').
Proof.
  unfold create. intros Hr.
  apply bindM_ok in Hr as (id & s1 & (_ & Hdb & Hck & _)%newId_ok & Hr).
  apply bindM_ok in Hr as (time & s2 & (-> & ->)%now_ok & Hr).
  apply bindM_ok in Hr as (inserted & s2 & Hi & Hr).
  assert (clock s2 = clock s1 ∧ log (db s2) = log (db s1)) as [Hck2 Hlog2].
  { unfold insert_inbox_item in Hi. inv_run. destruct (_ && _); inv_run; done. }
  destruct inserted.
  - apply bindM_ok in Hr as ([] & s3 & Hw%append_wrote & (-> & ->)%retM_ok).
    pose proof (wrote_logs _ _ _ _ _ Hw) as (es & He & Ht & Ha).
    destruct Hw as (_ & _ & _ & _ & _ & _ & Hck3 & _).
    split; [congruence|]. eexists. split; [by right|].
    exists es. rewrite He, Hlog2, Hdb. done.
  - inv_run. split; [congruence|]. exists []. split; [by left|].
    apply logs_same. by rewrite Hlog2, Hdb.
Qed.

Definition moving (f : FindingRow) (t : FindingStatus) : bool :=
  negb (bool_decide (t = fn_status f)).
Definition disposing (f : FindingRow) (t : FindingStatus) : bool :=
  moving f t && isFinalDisposition t.
Definition reopening (f : FindingRow) (t : FindingStatus) : bool :=
  moving f t && bool_decide (t = REOPENED).
Definition reason_given (input : UpdateFindingInput) : bool :=
  negb (bool_decide (trim (default "" (uf_reason input)) = "")).

(** The row a successful update leaves. *)
Definition finding_after (f : FindingRow) (input : UpdateFindingInput) (actor : EventActor)
    (time : Z) : FindingRow :=
  let t := default (fn_status f) (uf_status input) in
  updated_finding f input t (moving f t && bool_decide (t = CLAIMED)) (disposing f t)
    (reopening f t) actor time.

(** The claim a decision is about: the current one, when there is a decision. *)
Definition claim_under_decision (d : Db) (scope : Scope) (id : string) (f : FindingRow)
    (t : FindingStatus) : option VerificationRow :=
  if disposing f t || reopening f t then current_row d scope id else None.
Definition claim_decided (f : FindingRow) (t : FindingStatus) : bool :=
  bool_decide (t = RESOLVED) || reopening f t.

(** The events of an update before its delivery, by type. *)
Definition finding_event_types (input : UpdateFindingInput) (f : FindingRow)
    (t : FindingStatus) (has_claim : bool) : list string :=
  (if moving f t && bool_decide (t = CLAIMED) then ["finding.claimed"] else [])
  ++ (if moving f t then ["finding.status_changed"] else [])
  ++ (if has_claim && claim_decided f t
      then [if bool_decide (t = RESOLVED) then "finding.verification_accepted"
            else "finding.verification_rejected"] else [])
  ++ (if (disposing f t || reopening f t) && reason_given input
      then ["finding.comment_added"] else [])
  ++ (if disposing f t then ["finding.resolved"] else [])
  ++ (if reopening f t then ["finding.reopened"] else []).

Record finding_updated (scope : Scope) (id : string) (input : UpdateFindingInput)
    (actor : EventActor) (d : Db) (time : Z) (f f' : FindingRow) (d' : Db) : Prop := {
  fu_found : find_row (findings d) (finding_in scope) id = Some f;
  fu_version : fn_version f = uf_expectedVersion input;
  fu_moves : ∀ t, uf_status input = Some t → t ≠ fn_status f →
    pass (finding_move_checks (actor_type actor) (fn_source f) (fn_status f) t)
    ∧ evidence_shown scope id input actor d f t;
  fu_duplicate : ∀ other, uf_duplicateOfFindingId input = Some other →
    other ≠ id ∧ is_Some (find_row (findings d) (finding_in scope) other);
  fu_row : f' = finding_after f input actor time;
  fu_checked : violated (finding_checks f') = None;
  fu_claim : disposing f (fn_status f') || reopening f (fn_status f') = true →
    pass (assertVerificationUnderReview (vf_id <$> current_row d scope id)
            (uf_verificationId input));
  fu_findings : findings d' = <[fn_id f' := f']> (findings d);
  fu_verifications : verifications d' =
    match claim_under_decision d scope id f (fn_status f') with
    | Some v => if claim_decided f (fn_status f')
                then <[vf_id v := decided_verification v
                         (bool_decide (fn_status f' = RESOLVED)) actor time]> (verifications d)
                else verifications d
    | None => verifications d
    end;
  fu_comments :
    if (disposing f (fn_status f') || reopening f (fn_status f')) && reason_given input
    then ∃ c, comments d !! cm_id c = None ∧ comments d' = <[cm_id c := c]> (comments d)
           ∧ is_comment scope (fn_review_id f) (Some id) (default "" (uf_reason input))
               actor time c
    else comments d' = comments d;
  fu_others : reviews d' = reviews d ∧ annotations d' = annotations d
    ∧ verification_artefacts d' = verification_artefacts d;
  fu_events : ∃ delivery,
    (delivery = [] ∨ reopening f (fn_status f') = true ∧ delivery = ["inbox_item.created"])
    ∧ logs scope actor
        (finding_event_types input f (fn_status f')
           (is_some (claim_under_decision d scope id f (fn_status f'))) ++ delivery) d d'
}.

(** A frame: what a computation preserves holds at the end of its run. *)
Lemma preserves_run {A} (P : Db → Prop) (m : M A) s r s' :
  m s = (r, s') → preserves P m → P (db s) → P (db s').
Proof. intros Hr Hp. by eapply Hp. Qed.

Lemma current_row_spec d scope id v :
  current_row d scope id = Some v →
  is_current scope id v = true ∧ ∃ k, verifications d !! k = Some v.
Proof.
  unfold current_row. intros Hh.
  apply elem_of_select. destruct (select _ _) as [|x l]; [done|].
  injection Hh as ->. left.
Qed.

(** The row a claim's update finds is the claim itself. *)
Lemma find_current d scope id v :
  db_ok d → current_row d scope id = Some v →
  find_row (verifications d) (verification_in scope) (vf_id v) = Some v.
Proof.
  intros Hok Hc. apply current_row_spec in Hc as [Hcur [k Hk]].
  rewrite (rows_ok_key _ _ _ _ _ (verifications_ok _ Hok) Hk).
  apply find_row_Some. split; [done|].
  unfold is_current, verification_of in Hcur. by rewrite !andb_true_iff in Hcur; destruct Hcur as [[_ ?] _].
Qed.

(** The steps before the [UPDATE]: what they checked and what they read. *)
Lemma updateFinding_checks_run scope id input actor s f' s' :
  updateFinding_body scope id input actor s = (Ok f', s') →
  ∃ f claim n sc su,
    find_row (findings (db s)) (finding_in scope) id = Some f
    ∧ fn_version f = uf_expectedVersion input
    ∧ (∀ t, uf_status input = Some t → t ≠ fn_status f →
        pass (finding_move_checks (actor_type actor) (fn_source f) (fn_status f) t)
        ∧ evidence_shown scope id input actor (db s) f t)
    ∧ (∀ other, uf_duplicateOfFindingId input = Some other →
        other ≠ id ∧ is_Some (find_row (findings (db s)) (finding_in scope) other))
    ∧ (let t := default (fn_status f) (uf_status input) in
       if disposing f t || reopening f t
       then cc_id <$> claim = vf_id <$> current_row (db s) scope id
            ∧ pass (assertVerificationUnderReview (vf_id <$> current_row (db s) scope id)
                      (uf_verificationId input))
       else claim = None)
    ∧ db sc = db s ∧ clock sc = clock s
    ∧ update_finding (finding_after f input actor (clock s)) sc = (Ok tt, su)
    ∧ updateFinding_tail scope id input actor f claim n (finding_after f input actor (clock s)) su
      = (Ok f', s').
Proof.
  unfold updateFinding_body.
  intros (f & s1 & (-> & Hfind)%lockFinding_run & Hr)%bindM_ok.
  apply bindM_ok in Hr as ([] & s1 & (Hversion%assertExpectedVersion_pass & ->)%lift_ok & Hr).
  set (t := default (fn_status f) (uf_status input)) in *.
  apply bindM_ok in Hr as ([] & s1 & Hmove & Hr).
  assert (db s1 = db s ∧ clock s1 = clock s ∧ (moving f t = true →
    pass (finding_move_checks (actor_type actor) (fn_source f) (fn_status f) t)
    ∧ evidence_shown scope id input actor (db s) f t)) as (Hdb1 & Hck1 & Hpass).
  { apply whenM_ok in Hmove as [[_ Hm]|[Hm ->]].
    - apply check_move_run in Hm as (? & ? & ? & ?). done.
    - split_and!; [done..|]. unfold moving. fold t. by rewrite Hm. }
  apply bindM_ok in Hr as ([] & s2 & Hdup & Hr).
  assert (s2 = s1 ∧ ∀ other, uf_duplicateOfFindingId input = Some other →
    other ≠ id ∧ is_Some (find_row (findings (db s)) (finding_in scope) other)) as [-> Hother].
  { destruct (uf_duplicateOfFindingId input) as [o|].
    - apply requireFindingInProject_run in Hdup as (-> & ? & ?). rewrite <- Hdb1.
      split; [done|]. by intros ? [= <-].
    - apply retM_ok in Hdup as [_ ->]. done. }
  apply bindM_ok in Hr as (claim & s3 & Hclaim & Hr).
  assert (db s3 = db s ∧ clock s3 = clock s ∧
    if disposing f t || reopening f t
    then cc_id <$> claim = vf_id <$> current_row (db s) scope id
         ∧ pass (assertVerificationUnderReview (vf_id <$> current_row (db s) scope id)
                   (uf_verificationId input))
    else claim = None) as (Hdb3 & Hck3 & Hcl).
  { fold (moving f t) (disposing f t) (reopening f t) in Hclaim.
    destruct (disposing f t || reopening f t).
    - apply check_claim_run in Hclaim as (? & ? & ? & ?). rewrite Hdb1 in *.
      split_and!; congruence.
    - apply retM_ok in Hclaim as [-> ->]. done. }
  apply bindM_ok in Hr as (n & s4 & Hn & Hr).
  assert (s4 = s3) as ->.
  { fold (moving f t) (reopening f t) in Hn. unfold countVerificationsOn in Hn.
    destruct (reopening f t); inv_run; done. }
  apply bindM_ok in Hr as (time & s4 & (-> & ->)%now_ok & Hr). rewrite Hck3 in Hr.
  apply bindM_ok in Hr as ([] & su & Hu & Hr).
  exists f, claim, n, s3, su. split_and!; try done.
  intros t' Ht' Hne. assert (t = t') as <- by (subst t; by rewrite Ht'). apply Hpass.
  unfold moving. by rewrite bool_decide_false.
Qed.

(** The reopen event and its delivery. *)
Lemma deliver_run scope actor g reason n f s u s' :
  (finding_reopened_event scope actor reason n f g ;; deliver_reopened scope actor g) s
    = (Ok u, s') →
  ∃ delivery, (delivery = [] ∨ true = true ∧ delivery = ["inbox_item.created"])
    ∧ logs scope actor (["finding.reopened"] ++ delivery) (db s) (db s').
Proof.
  intros ([] & s1 & Hw%append_wrote%wrote_logs & Hd)%bindM_ok.
  unfold deliver_reopened in Hd. apply bindM_ok in Hd as (row & s2 & (-> & ->)%gets_ok & Hd).
  destruct (find_row _ _ _) as [r|].
  - apply bindM_ok in Hd as (i & s2 & Hc & (_ & ->)%retM_ok).
    apply create_run in Hc as (_ & types & Ht & Hl). exists types.
    split; [naive_solver|]. eapply logs_app; [exact Hw|]. by destruct scope.
  - apply retM_ok in Hd as [_ ->]. exists []. split; [by left|]. by rewrite app_nil_r.
Qed.

(** What the steps after the [UPDATE] did. *)
Lemma updateFinding_tail_run scope id input actor f claim n g s f' s' :
  let t := default (fn_status f) (uf_status input) in
  updateFinding_tail scope id input actor f claim n g s = (Ok f', s') →
  fn_id g = id → fn_review_id g = fn_review_id f →
  f' = g
  ∧ verifications (db s') =
      match claim with
      | Some c =>
          if claim_decided f t then
            match find_row (verifications (db s)) (verification_in scope) (cc_id c) with
            | Some v => <[vf_id v := decided_verification v (bool_decide (t = RESOLVED))
                                       actor (clock s)]> (verifications (db s))
            | None => verifications (db s)
            end
          else verifications (db s)
      | None => verifications (db s)
      end
  ∧ (if (disposing f t || reopening f t) && reason_given input
     then ∃ c, comments (db s) !! cm_id c = None
            ∧ comments (db s') = <[cm_id c := c]> (comments (db s))
            ∧ is_comment scope (fn_review_id f) (Some id) (default "" (uf_reason input))
                actor (clock s) c
     else comments (db s') = comments (db s))
  ∧ ∃ delivery,
      (delivery = [] ∨ reopening f t = true ∧ delivery = ["inbox_item.created"])
      ∧ logs scope actor (finding_event_types input f t (is_some claim) ++ delivery)
          (db s) (db s').
Proof.
  intros t. unfold updateFinding_tail. intros Hr Hid Hrev.
  cbv zeta in Hr. fold t (moving f t) (disposing f t) (reopening f t) in Hr.
  apply bindM_ok in Hr as ([] & s1 & H1%(whenM_wrote scope actor _ _ ["finding.claimed"]) & Hr);
    [|by intros; eapply append_wrote].
  apply bindM_ok in Hr as ([] & s2 & H2%(whenM_wrote scope actor _ _ ["finding.status_changed"]) & Hr);
    [|by intros; eapply append_wrote].
  pose proof (wrote_app _ _ _ _ _ _ _ H1 H2) as Hw.
  pose proof Hw as (l2 & _ & Hdb2 & _ & _ & _ & Hck2 & _).
  apply wrote_logs in Hw as Hl2.
  apply bindM_ok in Hr as ([] & s3 & Hclaim & Hr).
  pose proof (preserves_run (λ d, comments d = comments (db s2)) _ _ _ _ Hclaim) as Hc3.
  assert (comments (db s3) = comments (db s2)) as Hcom3.
  { apply Hc3; [|done]. destruct claim; [|apply preserves_ret].
    apply preserves_whenM, decide_claim_frame; [apply _|done]. }
  clear Hc3.
  assert (clock s3 = clock s2
    ∧ verifications (db s3) = match claim with
      | Some c =>
          if claim_decided f t then
            match find_row (verifications (db s2)) (verification_in scope) (cc_id c) with
            | Some v => <[vf_id v := decided_verification v (bool_decide (t = RESOLVED))
                                       actor (clock s2)]> (verifications (db s2))
            | None => verifications (db s2)
            end
          else verifications (db s2)
      | None => verifications (db s2)
      end
    ∧ logs scope actor
        (if is_some claim && claim_decided f t
         then [if bool_decide (t = RESOLVED) then "finding.verification_accepted"
               else "finding.verification_rejected"] else []) (db s2) (db s3))
    as (Hck3 & Hv3 & Hl3).
  { destruct claim as [c|]; cbn [is_some andb].
    - fold (claim_decided f t) in Hclaim. destruct (claim_decided f t).
      + cbn [whenM] in Hclaim. apply decide_claim_run in Hclaim as (? & ? & ?). done.
      + apply retM_ok in Hclaim as [_ ->]. split_and!; [done..|]. by apply logs_same.
    - apply retM_ok in Hclaim as [_ ->]. split_and!; [done..|]. by apply logs_same. }
  rewrite Hdb2, Hck2 in Hv3. cbn [verifications with_log] in Hv3.
  rewrite Hdb2 in Hcom3. cbn [comments with_log] in Hcom3. rewrite Hck2 in Hck3.
  apply bindM_ok in Hr as ([] & s4 & Hcomment & Hr).
  fold (reason_given input) in Hcomment.
  assert (verifications (db s4) = verifications (db s3)) as Hv4.
  { eapply (preserves_run (λ d, verifications d = verifications (db s3)));
      [exact Hcomment| |done].
    apply preserves_whenM, preserves_bind; [apply writeComment_frame; [apply _|done]|].
    intros ?. apply preserves_ret. }
  set (commented := (disposing f t || reopening f t) && reason_given input) in *.
  assert ((if commented
     then ∃ c, comments (db s3) !! cm_id c = None
            ∧ comments (db s4) = <[cm_id c := c]> (comments (db s3))
            ∧ is_comment scope (fn_review_id f) (Some id) (default "" (uf_reason input))
                actor (clock s) c
     else comments (db s4) = comments (db s3))
    ∧ logs scope actor (if commented then ["finding.comment_added"] else []) (db s3) (db s4))
    as [Hcom4 Hl4].
  { destruct commented; cbn [whenM] in Hcomment.
    - apply bindM_ok in Hcomment as (c & s5 & Hwc & (_ & ->)%retM_ok).
      apply writeComment_run in Hwc as (? & ? & Hc & _ & ?). rewrite Hck3, Hrev in Hc. eauto.
    - apply retM_ok in Hcomment as [_ ->]. split; [done|]. by apply logs_same. }
  apply bindM_ok in Hr as ([] & s5 & H5%(whenM_wrote scope actor _ _ ["finding.resolved"]) & Hr);
    [|by intros; eapply append_wrote].
  apply wrote_logs in H5 as Hl5. destruct H5 as (l5 & _ & Hdb5 & _).
  apply bindM_ok in Hr as ([] & s6 & Hreopen & (-> & ->)%retM_ok).
  assert (verifications (db s6) = verifications (db s5)) as Hv6.
  { eapply (preserves_run (λ d, verifications d = verifications (db s5)));
      [exact Hreopen| |done].
    apply preserves_whenM, preserves_bind; [by apply preserves_append_ignored; apply _|].
    intros ?. apply deliver_reopened_frame; [apply _|done]. }
  assert (comments (db s6) = comments (db s5)) as Hcom6.
  { eapply (preserves_run (λ d, comments d = comments (db s5)));
      [exact Hreopen| |done].
    apply preserves_whenM, preserves_bind; [by apply preserves_append_ignored; apply _|].
    intros ?. apply deliver_reopened_frame; [apply _|done]. }
  assert (∃ delivery,
      (delivery = [] ∨ reopening f t = true ∧ delivery = ["inbox_item.created"])
      ∧ logs scope actor ((if reopening f t then ["finding.reopened"] else []) ++ delivery)
          (db s5) (db s6)) as (delivery & Hdel & Hl6).
  { apply whenM_ok in Hreopen as [[-> Hreopen]|[-> ->]].
    - by eapply (deliver_run scope actor g).
    - exists []. split; [by left|]. by apply logs_same. }
  split; [done|]. split; [|split].
  - rewrite Hv6, Hdb5. cbn [verifications with_log]. by rewrite Hv4.
  - rewrite Hcom6, Hdb5. cbn [comments with_log]. by rewrite Hcom3 in Hcom4.
  - exists delivery. split; [done|]. unfold finding_event_types. fold commented.
    pose proof (logs_app _ _ _ _ _ _ _ Hl2 (logs_app _ _ _ _ _ _ _ Hl3 (logs_app _ _ _ _ _ _ _ Hl4
      (logs_app _ _ _ _ _ _ _ Hl5 Hl6)))) as Hl.
    by rewrite <- !app_assoc in *.
Qed.

Lemma updateFinding_body_run scope id input actor s f' s' :
  db_ok (db s) →
  updateFinding_body scope id input actor s = (Ok f', s') →
  ∃ f, finding_updated scope id input actor (db s) (clock s) f f' (db s').
Proof.
  intros Hok (f & claim & n & sc & su & Hfind & Hversion & Hmoves & Hdup & Hclaim & Hdbc & Hckc
    & Hu & Htail)%updateFinding_checks_run.
  apply update_finding_run in Hu as [Hchecked ->]. rewrite Hdbc in Htail.
  set (g := finding_after f input actor (clock s)) in *.
  assert (fn_id f = id) as Hid.
  { apply find_row_Some in Hfind as [Hfind _]. by apply (rows_ok_key _ _ _ _ _ (findings_ok _ Hok)). }
  pose proof (updateFinding_tail_frame (λ d, findings d = <[fn_id g := g]> (findings (db s)))
    scope id input actor f claim n g) as Hframe_f.
  pose proof (updateFinding_tail_frame (λ d, reviews d = reviews (db s)
      ∧ annotations d = annotations (db s)
      ∧ verification_artefacts d = verification_artefacts (db s))
    scope id input actor f claim n g) as Hframe_o.
  apply (preserves_run _ _ _ _ _ Htail) in Hframe_f as Hf'; [|auto..].
  apply (preserves_run _ _ _ _ _ Htail) in Hframe_o as Ho'; [|auto..].
  apply updateFinding_tail_run in Htail as (-> & Hv & Hc & delivery & Hdel & Hlogs); [|done..].
  cbn in Hv, Hc, Hlogs. cbv zeta in Hclaim. rewrite Hckc in *.
  change (default (fn_status f) (uf_status input)) with (fn_status g) in *.
  assert (claim_under_decision (db s) scope id f (fn_status g) = None ∧ claim = None
    ∨ ∃ c v, claim = Some c ∧ cc_id c = vf_id v
        ∧ claim_under_decision (db s) scope id f (fn_status g) = Some v
        ∧ find_row (verifications (db s)) (verification_in scope) (vf_id v) = Some v) as Hcl.
  { unfold claim_under_decision. destruct (disposing _ _ || reopening _ _); [|auto].
    destruct Hclaim as [Hclaim _].
    destruct claim as [c|], (current_row (db s) scope id) as [v|] eqn:Hcur; try discriminate.
    - right. exists c, v. injection Hclaim as Hcid. split_and!; [done..|].
      by apply (find_current _ _ id).
    - by left. }
  exists f. split; try done.
  - intros Hd. rewrite Hd in Hclaim. by destruct Hclaim.
  - destruct Hcl as [[-> ->]|(c & v & -> & Hcid & -> & Hfound)]; [done|].
    by rewrite Hcid, Hfound in Hv.
  - exists delivery. split; [done|].
    by destruct Hcl as [[-> ->]|(c & v & -> & _ & -> & _)].
Qed.
End findings.
