(* ===== verification/ProjectTheorems.v ===== *)
(** * What happens to projects

    What a patch decides and writes, what a refusal leaves, and what holds of the
    projects after any sequence of requests, whatever their outcomes. *)

From S2P Require Import Prelude Errors ReviewProtocol ReviewDomain Events Completion EntityId Regex Text RepositoryIdentity RepositoryTheorems Numbers StableJson Validation Geometry Store Records ProjectInput ProjectInputTheorems Projects Inbox ReviewService FindingService VerificationService Preserve Invariants Samples Effects.

(** ** Runs of the bodies *)

Definition project_scope (r : ProjectRow) : Scope :=
  {| organisationId := pj_organisation_id r; projectId := pj_id r |}.
(** The tables after the row was written and events were appended. *)
Definition stored_project (r : ProjectRow) (d d' : Db) : Prop :=
  d' = with_log (log d') (with_projects (<[pj_id r := r]> (projects d)) d).
Definition may_store (r : ProjectRow) (d : Db) : Prop :=
  violated (project_checks r) = None ∧ project_slug_taken (projects d) r = false.

Section runs.
Context `{Entropy}.

Lemma liftF_ok {A} (x : result Failure A) s a s' : liftF x s = (Ok a, s') ↔ x = Ok a ∧ s' = s.
Proof. destruct x; cbn; [rewrite retM_ok|rewrite throwM_ok]; naive_solver. Qed.

Lemma insert_project_run r s u s' : insert_project r s = (Ok u, s') →
  may_store r (db s) ∧ projects (db s) !! pj_id r = None
  ∧ s' = with_db (with_projects (<[pj_id r := r]> (projects (db s))) (db s)) s.
Proof.
  unfold insert_project, may_store. intros Hr. inv_run. rewrite !violated_cons in *. cbn [snd] in *.
  destruct H1 as (Hfresh & Hslug & _). apply negb_true_iff in Hslug.
  by apply bool_decide_eq_true in Hfresh.
Qed.
Lemma update_project_run r s u s' : update_project r s = (Ok u, s') →
  may_store r (db s) ∧ s' = with_db (with_projects (<[pj_id r := r]> (projects (db s))) (db s)) s.
Proof.
  unfold update_project, may_store. intros Hr. inv_run. rewrite violated_cons in *. cbn [snd] in *.
  destruct H1 as [Hslug _]. by apply negb_true_iff in Hslug.
Qed.
Lemma stored_wrote r scope actor types s s1 s' :
  s1 = with_db (with_projects (<[pj_id r := r]> (projects (db s))) (db s)) s →
  wrote scope actor types s1 s' → stored_project r (db s) (db s') ∧ logs scope actor types (db s) (db s').
Proof.
  intros -> Hw. split; [by apply wrote_db in Hw|]. apply wrote_logs in Hw as (es & He & ?). by exists es.
Qed.

Lemma lockProject_run id org s r s' : lockProject id org s = (Ok r, s') →
  s' = s ∧ project_of (db s) id org = Some r.
Proof. unfold lockProject. intros Hr. inv_run. done. Qed.

Lemma create_body_run input id p s r s' : create_body input id p s = (Ok r, s') →
  r = new_project id (cp_organisationId input) (clock s) p
  ∧ may_store r (db s) ∧ projects (db s) !! id = None ∧ stored_project r (db s) (db s')
  ∧ logs (project_scope r) (cp_actor input) ["project.created"] (db s) (db s').
Proof.
  unfold create_body. intros (time & s1 & (-> & ->)%now_ok & Hr)%bindM_ok.
  apply bindM_ok in Hr as ([] & s1 & (Hmay & Hnone & Hs1)%insert_project_run & Hr).
  apply bindM_ok in Hr as ([] & s2 & Hw%append_wrote & Hr). apply retM_ok in Hr as [-> ->].
  split; [done|]. split; [done|]. split; [done|].
  eapply stored_wrote in Hw; [|done]. exact Hw.
Qed.

Definition update_types (p : ProjectPatch) (r : ProjectRow) : list string :=
  "project.updated" :: (if repository_moved p r then ["project.repository_changed"] else []).
Lemma assertVersion_pass r expected :
  assertVersion r expected = Ok () ↔ ∀ v, expected = Some v → v = pj_version r.
Proof. destruct expected as [v|]; cbn; [|naive_solver]. case_bool_decide; naive_solver. Qed.

Lemma update_body_run input p s r' s' : update_body input p s = (Ok r', s') →
  ∃ r, project_of (db s) (up_projectId input) (up_organisationId input) = Some r
    ∧ (∀ v, up_expectedVersion input = Some v → v = pj_version r)
    ∧ ((changes p r = [] ∧ r' = r ∧ s' = s)
       ∨ (changes p r ≠ [] ∧ r' = patched (clock s) p r ∧ may_store r' (db s)
          ∧ stored_project r' (db s) (db s')
          ∧ logs (project_scope r) (up_actor input) (update_types p r) (db s) (db s')
          ∧ ∃ e, events (log (db s')) !! length (events (log (db s))) = Some e
                 ∧ ev_payload e = [("changed_fields", strs (changes p r))])).
Proof.
  unfold update_body. intros (r & s1 & (-> & Hfind)%lockProject_run & Hr)%bindM_ok.
  apply bindM_ok in Hr as ([] & s1 & (Hversion & ->)%lift_ok & Hr).
  rewrite assertVersion_pass in Hversion. exists r. split; [done|]. split; [done|].
  destruct (changes p r) as [|c cs] eqn:Hc.
  - apply retM_ok in Hr as [-> ->]. by left.
  - right. split; [done|]. apply bindM_ok in Hr as (time & s1 & (-> & ->)%now_ok & Hr).
    apply bindM_ok in Hr as ([] & s1 & (Hmay & Hs1)%update_project_run & Hr).
    apply bindM_ok in Hr as ([] & s2 & Hlog & Hr). pose proof Hlog as H2%append_wrote.
    apply append_logged in Hlog as (e & l & Hd & He & (_ & _ & _ & Hpay & _) & _).
    apply bindM_ok in Hr as ([] & s3 & H3%(whenM_wrote (project_scope r) (up_actor input) _ _ ["project.repository_changed"]) & Hr);
      [|by intros; eapply append_wrote].
    apply retM_ok in Hr as [-> ->]. split; [done|]. split; [done|].
    destruct (stored_wrote _ _ _ _ _ _ _ Hs1 (wrote_app _ _ _ _ _ _ _ H2 H3)) as [? ?].
    split; [done|]. split; [done|]. exists e. split; [|done].
    apply wrote_logs in H3 as (es & -> & _). rewrite Hd. cbn. rewrite He, Hs1. cbn.
    rewrite lookup_app_l by (rewrite length_app; cbn; lia). by apply list_lookup_middle.
Qed.

Lemma archive_body_run input s r' s' : archive_body input s = (Ok r', s') →
  ∃ r, project_of (db s) (ap_projectId input) (ap_organisationId input) = Some r
    ∧ (∀ v, ap_expectedVersion input = Some v → v = pj_version r)
    ∧ ((pj_status r = pj_archived ∧ r' = r ∧ s' = s)
       ∨ (pj_status r = pj_active ∧ r' = archived (clock s) r ∧ may_store r' (db s)
          ∧ stored_project r' (db s) (db s')
          ∧ logs (project_scope r) (ap_actor input) ["project.archived"] (db s) (db s'))).
Proof.
  unfold archive_body. intros (r & s1 & (-> & Hfind)%lockProject_run & Hr)%bindM_ok.
  apply bindM_ok in Hr as ([] & s1 & (Hversion & ->)%lift_ok & Hr).
  rewrite assertVersion_pass in Hversion. exists r. split; [done|]. split; [done|].
  case_bool_decide as Hst.
  - apply retM_ok in Hr as [-> ->]. by left.
  - right. split; [by destruct (pj_status r)|]. apply bindM_ok in Hr as (time & s1 & (-> & ->)%now_ok & Hr).
    apply bindM_ok in Hr as ([] & s1 & (Hmay & Hs1)%update_project_run & Hr).
    apply bindM_ok in Hr as ([] & s2 & H2%append_wrote & Hr).
    apply retM_ok in Hr as [-> ->]. split; [done|]. split; [done|]. by eapply stored_wrote.
Qed.

(** A refusal leaves the tables. *)
Lemma transaction_refused {A} (m : M A) (h : Failure → Failure) s e s' :
  catching (inTransaction m) (λ error, throwM (h error)) s = (Err e, s') → db s' = db s.
Proof.
  unfold catching. destruct (inTransaction m s) as [[a|e'] s1] eqn:Hm; [done|]. unfold throwM.
  intros [= _ <-]. by eapply inTransaction_err.
Qed.
Lemma transaction_returned {A} (m : M A) (h : Failure → Failure) s a s' :
  catching (inTransaction m) (λ error, throwM (h error)) s = (Ok a, s') → m s = (Ok a, s').
Proof. intros [Hm|(e & s1 & _ & Ht)]%catching_ok; [by apply inTransaction_ok|by apply throwM_ok in Ht]. Qed.
End runs.

(** ** What a patch changes *)

Lemma repository_text (a b : RepositoryIdentity) :
  stableJson (repository_json a) = stableJson (repository_json b) → a = b.
Proof.
  assert (∀ x, plain_json (repository_json x)) as Hplain.
  { intros x. apply plain_obj. split; [by repeat constructor; set_solver|].
    constructor; [done|]. constructor; [|done]. apply plain_arr, Forall_fmap, Forall_true. done. }
  intros He. destruct (texts_unambiguous (repository_json a) (repository_json b) "" "") as [Hs _];
    [done|done|done|done|by rewrite !append_nil_r|].
  apply same_obj in Hs as [_ Hs]. apply Forall_cons in Hs as [Hc Hs]. apply Forall_cons in Hs as [Hu _].
  destruct Hc as (c & Hc & Hcs), Hu as (u & Hu & Hus). cbn in Hc, Hu, Hcs, Hus.
  apply list_elem_of_In in Hc, Hu. cbn in Hc, Hu.
  destruct Hc as [[= <-]|[[= ]|[]]], Hu as [[= ]|[[= <-]|[]]].
  destruct a as [ca ua], b as [cb ub]. cbn in *. f_equal; [done|].
  apply (same_arr (JStr <$> ua) (JStr <$> ub)) in Hus. clear -Hus.
  revert ub Hus. induction ua as [|x ua IH]; intros [|y ub] H; inversion H; subst; f_equal; [done|by apply IH].
Qed.
Lemma sameJson_repository v o :
  sameJson (repository_json v) (or_null repository_json o) = bool_decide (Some v = o).
Proof.
  unfold sameJson. destruct o as [w|]; [|done]. cbn [or_null]. apply bool_decide_ext. split; [|by intros [= ->]].
  intros He. f_equal. by apply repository_text.
Qed.

(** The attributes in which two rows of a project differ. *)
Definition differing (r r' : ProjectRow) : list string :=
  (if bool_decide (pj_name r' = pj_name r) then [] else ["name"])
  ++ (if bool_decide (pj_slug r' = pj_slug r) then [] else ["slug"])
  ++ (if bool_decide (pj_default_branch r' = pj_default_branch r) then [] else ["default_branch"])
  ++ (if sameJson (settings_json (pj_settings r')) (settings_json (pj_settings r)) then [] else ["settings"])
  ++ (if bool_decide (pj_repository_identity r' = pj_repository_identity r) then [] else ["repository_identity"]).

Lemma changed_to_default new old k :
  (if changed_to new old then [k] else []) = (if bool_decide (default old new = old) then [] else [k] : list string).
Proof. destruct new as [v|]; cbn; [by case_bool_decide|]. by rewrite bool_decide_true. Qed.
Lemma sameJson_refl v : sameJson v v = true.
Proof. by apply bool_decide_eq_true. Qed.
Lemma changes_differing time p r : changes p r = differing r (patched time p r).
Proof.
  unfold changes, differing, patched. cbn [pj_name pj_slug pj_default_branch pj_settings pj_repository_identity].
  rewrite !changed_to_default. do 3 f_equal. f_equal.
  - destruct (pp_settings p) as [v|]; cbn [default]; [done|]. by rewrite sameJson_refl.
  - destruct (pp_repository p) as [v|]; [|by rewrite bool_decide_true]. by rewrite sameJson_repository.
Qed.

Lemma update_project_taken r s : violated (project_checks r) = None →
  project_slug_taken (projects (db s)) r = true →
  update_project r s = (Err (UniqueViolation "projects_slug_unique_per_organisation"), s).
Proof.
  intros Hc Ht. unfold update_project. rewrite (bind_return _ _ s (projects (db s)) s) by done.
  apply bind_throw. unfold guard_row. by rewrite Hc, Ht.
Qed.

Section decisions.
Context `{Entropy}.
Context (input : UpdateProjectInput) (p : ProjectPatch) (s : St) (r : ProjectRow).
Context (Hfind : project_of (db s) (up_projectId input) (up_organisationId input) = Some r).

Lemma update_body_checked :
  update_body input p s =
    (lift (assertVersion r (up_expectedVersion input)) ;;
     match changes p r with
     | [] => mret r
     | moved =>
         time ← now;
         let row := patched time p r in
         update_project row ;;
         project_event "project.updated" (pj_organisation_id row) (pj_id row) (up_requestId input)
           (up_actor input) [("changed_fields", strs moved)] ;;
         whenM (repository_moved p r)
           (project_event "project.repository_changed" (pj_organisation_id row) (pj_id row)
              (up_requestId input) (up_actor input)
              (opt_member "previous_canonical" JStr (canonical_of_row r)
               ++ opt_member "new_canonical" (λ v, JStr (ri_canonical v)) (pp_repository p))) ;;
         mret row
     end) s.
Proof using Hfind.
  unfold update_body. rewrite (bind_return _ _ s r s); [by destruct (changes p r)|].
  unfold lockProject. rewrite (bind_return _ _ s (Some r) s); [done|]. unfold gets. by rewrite Hfind.
Qed.
Lemma update_body_stale v :
  up_expectedVersion input = Some v → v ≠ pj_version r →
  update_body input p s =
    (Err (ApiThrown (api_error VERSION_CONFLICT "The project changed since it was loaded."
       [("current_version", JNum (pj_version r)); ("expected_version", JNum v)])), s).
Proof using Hfind.
  intros Hv Hne. rewrite update_body_checked, Hv. cbn [assertVersion].
  by rewrite bool_decide_true by congruence.
Qed.
Lemma update_body_current :
  (∀ v, up_expectedVersion input = Some v → v = pj_version r) →
  changes p r = [] → update_body input p s = (Ok r, s).
Proof using Hfind. intros Hv Hc. rewrite update_body_checked, (proj2 (assertVersion_pass _ _) Hv), Hc. done. Qed.
Lemma update_body_taken :
  (∀ v, up_expectedVersion input = Some v → v = pj_version r) → changes p r ≠ [] →
  violated (project_checks (patched (clock s) p r)) = None →
  project_slug_taken (projects (db s)) (patched (clock s) p r) = true →
  update_body input p s = (Err (UniqueViolation "projects_slug_unique_per_organisation"), s).
Proof using Hfind.
  intros Hv Hc Hchecks Htaken. rewrite update_body_checked, (proj2 (assertVersion_pass _ _) Hv).
  destruct (changes p r) as [|c cs]; [done|]. rewrite (bind_return (lift (Ok ())) _ s tt s) by done.
  rewrite (bind_return now _ s (clock s) s) by done. cbv zeta.
  apply bind_throw. by apply update_project_taken.
Qed.
End decisions.

Lemma updateProject_read `{Entropy} input p s : read_patch input = Ok p →
  updateProject input s = catching (inTransaction (update_body input p))
    (λ error, throwM (Projects.translateSlugConflict error (default "" (pp_slug p)))) s.
Proof. intros Hp. unfold updateProject. rewrite Hp. done. Qed.

(** C18: A patch that was read, of a project of the caller's organisation: with
    another version than the project has it is refused with the two versions; with
    nothing that moves it returns the project and touches nothing; with a slug that
    another project of the organisation has it is refused by that name.  Where it
    returns otherwise, the row is the patched one, a version further, the log gained
    the event of the update, which names exactly the attributes in which the two
    rows differ, and the event of the repository exactly when the canonical
    identity moved.  Every refusal leaves the tables as they were. *)
Theorem update_decision `{Entropy} (input : UpdateProjectInput) (p : ProjectPatch) (s : St) (r : ProjectRow)
    (Hp : read_patch input = Ok p)
    (Hfind : project_of (db s) (up_projectId input) (up_organisationId input) = Some r) :
  let '(out, s') := updateProject input s in
  let r' := patched (clock s) p r in
  let current := ∀ v, up_expectedVersion input = Some v → v = pj_version r in
  (∀ v, up_expectedVersion input = Some v → v ≠ pj_version r →
     out = Err (ApiThrown (api_error VERSION_CONFLICT "The project changed since it was loaded."
       [("current_version", JNum (pj_version r)); ("expected_version", JNum v)])))
  ∧ (current → differing r r' = [] → out = Ok r ∧ s' = s)
  ∧ (current → differing r r' ≠ [] → violated (project_checks r') = None →
     project_slug_taken (projects (db s)) r' = true →
     out = Err (Projects.translateSlugConflict (UniqueViolation "projects_slug_unique_per_organisation")
                  (default "" (pp_slug p))))
  ∧ match out with
    | Ok row => current ∧ (differing r r' ≠ [] →
        row = r' ∧ stored_project r' (db s) (db s')
        ∧ logs (project_scope r) (up_actor input) (update_types p r) (db s) (db s')
        ∧ ∃ e, events (log (db s')) !! length (events (log (db s))) = Some e
               ∧ ev_payload e = [("changed_fields", strs (differing r r'))])
    | Err _ => db s' = db s
    end.
Proof.
  rewrite (updateProject_read _ p) by done.
  destruct (catching _ _ s) as [out s'] eqn:Hrun. cbv zeta. rewrite <- (changes_differing (clock s)).
  split_and!.
  - intros v Hv Hne. unfold catching, inTransaction in Hrun.
    rewrite (update_body_stale _ _ _ _ Hfind v Hv Hne) in Hrun. by injection Hrun as <- _.
  - intros Hv Hc. unfold catching, inTransaction in Hrun.
    rewrite (update_body_current _ _ _ _ Hfind Hv Hc) in Hrun. by injection Hrun as <- <-.
  - intros Hv Hc Hch Ht. unfold catching, inTransaction in Hrun.
    rewrite (update_body_taken _ _ _ _ Hfind Hv Hc Hch Ht) in Hrun. by injection Hrun as <- _.
  - destruct out as [row|e]; [|by eapply (transaction_refused _ (λ e, Projects.translateSlugConflict e _))].
    apply (transaction_returned _ (λ e, Projects.translateSlugConflict e _)), update_body_run in Hrun
      as (r0 & Hr0 & Hv & Hcase). rewrite Hfind in Hr0. injection Hr0 as <-. split; [done|]. intros Hne.
    destruct Hcase as [[? _]|(_ & -> & _ & Hst & Hl & He)]; [done|]. done.
Qed.

(** ** Histories *)

Inductive ProjectRequest :=
| Create (input : CreateProjectInput)
| Update (input : UpdateProjectInput)
| Archive (input : ArchiveProjectInput).
Definition perform `{Entropy} (q : ProjectRequest) : M ProjectRow :=
  match q with
  | Create input => createProject input
  | Update input => updateProject input
  | Archive input => archiveProject input
  end.

(** A request, whatever its outcome; or whatever leaves the projects alone, the
    clock going on. *)
Inductive project_step `{Entropy} : St → St → Prop :=
| Requested q s out s' : perform q s = (out, s') → project_step s s'
| Elsewhere s s' : projects (db s') = projects (db s) → project_step s s'.

Definition repository_ok (v : RepositoryIdentity) : Prop :=
  CANONICAL_PATTERN (ri_canonical v) = true ∧ String.length (ri_canonical v) ≤ 255
  ∧ NoDup (ri_clone_urls v).
Record attributes_ok (r : ProjectRow) : Prop := {
  name_trimmed : trim (pj_name r) = pj_name r;
  name_printable : NAME_PATTERN (pj_name r) = true;
  slug_shaped : SLUG_PATTERN (pj_slug r) = true;
  branch_shaped : BRANCH_PATTERN (pj_default_branch r) = true;
  settings_valid : settings_ok (pj_settings r);
  repository_valid : ∀ v, pj_repository_identity r = Some v → repository_ok v
}.
Definition project_slug_clash (r r' : ProjectRow) : Prop :=
  pj_organisation_id r = pj_organisation_id r' ∧ pj_slug r = pj_slug r'.
Record projects_ok (t : gmap string ProjectRow) : Prop := {
  project_rows_ok : rows_ok pj_id project_checks t;
  project_slugs_unique : no_clash project_slug_clash t;
  attributes_valid : map_Forall (λ _ r, attributes_ok r) t
}.

(** What may become of a project. *)
Record project_evolves (r r' : ProjectRow) : Prop := {
  same_project : pj_id r' = pj_id r ∧ pj_organisation_id r' = pj_organisation_id r
    ∧ pj_created_at r' = pj_created_at r;
  version_rises : r' = r ∨ (pj_version r < pj_version r')%Z;
  archived_stays : pj_status r = pj_archived →
    pj_status r' = pj_archived ∧ pj_archived_at r' = pj_archived_at r
}.
#[export] Instance project_evolves_refl : Reflexive project_evolves.
Proof. intros r. split; [done|by left|done]. Qed.
#[export] Instance project_evolves_trans : Transitive project_evolves.
Proof.
  intros a b c [(? & ? & ?) Hv Ha] [(? & ? & ?) Hv' Ha']. split; [split_and!; congruence| |].
  - destruct Hv as [->|Hv], Hv' as [->|Hv']; [by left|by right|by right|right; lia].
  - intros [Hb ?]%Ha. destruct (Ha' Hb). split; congruence.
Qed.

(** *** What was read *)

Lemma readName_ok v x : readName v = Ok x → trim x = x ∧ NAME_PATTERN x = true.
Proof.
  unfold readName. case_bool_decide; [done|]. destruct (NAME_PATTERN _) eqn:Hn; [|done].
  intros [= <-]. split; [apply trim_trim|done].
Qed.
Lemma readSlug_ok v x : readSlug v = Ok x → SLUG_PATTERN x = true.
Proof. unfold readSlug. destruct (SLUG_PATTERN v) eqn:Hs; [|done]. by intros [= <-]. Qed.
Lemma readBranch_ok v x : readBranch v = Ok x → BRANCH_PATTERN x = true.
Proof. unfold readBranch. destruct (BRANCH_PATTERN v) eqn:Hs; [|done]. by intros [= <-]. Qed.
Lemma readRepository_ok v x : readRepositoryIdentity v = Ok x → repository_ok x.
Proof.
  unfold readRepositoryIdentity. intros (input & _ & Hn)%bind_ok.
  destruct (normaliseRepositoryIdentity input) as [y|] eqn:Hy; [|done]. injection Hn as <-.
  apply normalise_ok in Hy as [Hr _]. destruct (present_in input) as [|u us] eqn:Hp; [done|].
  apply reduce_urls_ok in Hr as (_ & Hall & _ & Hnd). apply Forall_cons in Hall as [Hu _].
  apply canonicalise_ok in Hu as [? ?]. split_and!; [done|done|]. apply Hnd. constructor.
Qed.
Lemma reading_ok {A} (x : result ApiError A) a : reading x = Ok a ↔ x = Ok a.
Proof. destruct x; cbn; naive_solver. Qed.
Lemma optional_ok {A B} (read : A → result Failure B) v o :
  optional read v = Ok o → ∀ b, o = Some b → ∃ a, v = Some a ∧ read a = Ok b.
Proof.
  destruct v as [a|]; cbn; [|by intros [= <-]]. destruct (read a) as [b|] eqn:Hr; [|done].
  intros [= <-] b' [= <-]. by exists a.
Qed.

(** The attributes of a patch are good ones. *)
Record patch_ok (p : ProjectPatch) : Prop := {
  patch_name : ∀ x, pp_name p = Some x → trim x = x ∧ NAME_PATTERN x = true;
  patch_slug : ∀ x, pp_slug p = Some x → SLUG_PATTERN x = true;
  patch_branch : ∀ x, pp_defaultBranch p = Some x → BRANCH_PATTERN x = true;
  patch_settings : ∀ x, pp_settings p = Some x → settings_ok x;
  patch_repository : ∀ x, pp_repository p = Some x → repository_ok x
}.
Lemma read_patch_ok input p : read_patch input = Ok p → patch_ok p.
Proof.
  unfold read_patch. intros (n & Hn & Hr)%bind_ok. apply bind_ok in Hr as (sl & Hs & Hr).
  apply bind_ok in Hr as (b & Hb & Hr). apply bind_ok in Hr as (st & Hst & Hr).
  apply bind_ok in Hr as (rp & Hrp & Hr). destruct (empty_patch _); [done|]. injection Hr as <-.
  split; cbn; intros x Hx.
  - destruct (optional_ok _ _ _ Hn _ Hx) as (v & _ & Hv%reading_ok). by eapply readName_ok.
  - destruct (optional_ok _ _ _ Hs _ Hx) as (v & _ & Hv%reading_ok). by eapply readSlug_ok.
  - destruct (optional_ok _ _ _ Hb _ Hx) as (v & _ & Hv%reading_ok). by eapply readBranch_ok.
  - destruct (optional_ok _ _ _ Hst _ Hx) as (v & _ & Hv). by eapply accepted_settings.
  - destruct (optional_ok _ _ _ Hrp _ Hx) as (v & _ & Hv). by eapply readRepository_ok.
Qed.
Lemma patched_ok time p r : patch_ok p → attributes_ok r → attributes_ok (patched time p r).
Proof.
  intros [Hn Hs Hb Hst Hrp] [? ? ? ? ? ?]. destruct p as [n sl b st rp]. cbn in *.
  split; cbn; destruct n, sl, b, st, rp; cbn; naive_solver.
Qed.
Lemma read_new_ok input id org time p : read_new input = Ok p → attributes_ok (new_project id org time p).
Proof.
  unfold read_new. intros (n & Hn%reading_ok & Hr)%bind_ok. apply bind_ok in Hr as (sl & Hs%reading_ok & Hr).
  apply bind_ok in Hr as (b & Hb%reading_ok & Hr). apply bind_ok in Hr as (st & Hst & Hr).
  apply bind_ok in Hr as (rp & Hrp & Hr). injection Hr as <-. apply readName_ok in Hn as [Hn Hn'].
  split; cbn; [done|done| |by eapply readBranch_ok|by eapply accepted_settings|].
  - assert (∀ x, slugify n = Ok x → SLUG_PATTERN x = true) as Hmade.
    { intros x Hx%slugify_made. by apply made_slug_pattern. }
    destruct (cp_slug input) as [[|c cs]|]; [by apply Hmade|by eapply readSlug_ok|by apply Hmade].
  - intros v ->. destruct (cp_repositoryIdentity input) as [[]|]; try done;
      (destruct (readRepositoryIdentity _) eqn:Hv; [|done]; injection Hrp as <-; by eapply readRepository_ok).
Qed.

(** *** What is written *)

Lemma project_slug_taken_false t r k r' :
  project_slug_taken t r = false → t !! k = Some r' → pj_id r' ≠ pj_id r → ¬ project_slug_clash r r'.
Proof.
  unfold project_slug_taken, project_slug_clash. intros Hf Hr Hne [Ho Hs]. eapply existsb_rows in Hf; [|exact Hr].
  by rewrite !bool_decide_true in Hf by congruence.
Qed.
Lemma projects_ok_store r d : may_store r d → attributes_ok r → projects_ok (projects d) →
  projects_ok (<[pj_id r := r]> (projects d)).
Proof.
  intros [Hc Ht] Ha [Hrows Hslugs Hattrs]. split; [by apply rows_ok_insert| |by apply map_Forall_insert_2].
  eapply no_clash_insert; [done|done| | |]; unfold project_slug_clash; [naive_solver| |naive_solver].
  intros k r' Hk Hne. by eapply project_slug_taken_false.
Qed.

(** A row that was stored is new, or what became of the one that was there. *)
Definition next_row (t : gmap string ProjectRow) (r : ProjectRow) : Prop :=
  t !! pj_id r = None ∨ ∃ r0, t !! pj_id r = Some r0 ∧ project_evolves r0 r.
Definition project_change (d d' : Db) : Prop :=
  projects d' = projects d
  ∨ ∃ r, may_store r d ∧ attributes_ok r ∧ next_row (projects d) r
         ∧ projects d' = <[pj_id r := r]> (projects d).

Lemma stored_projects r d d' : stored_project r d d' → projects d' = <[pj_id r := r]> (projects d).
Proof. by intros ->. Qed.
Lemma project_of_row d id org r : projects_ok (projects d) → project_of d id org = Some r →
  projects d !! pj_id r = Some r ∧ attributes_ok r.
Proof.
  intros [Hrows _ Ha] Hf. apply find_row_Some in Hf as [Hr _]. pose proof (Hrows _ _ Hr) as [Hid _]. cbn in Hid. subst id.
  split; [done|]. by apply (Ha _ _ Hr).
Qed.
Lemma patched_evolves time p r : project_evolves r (patched time p r).
Proof. split; [done|right; cbn; lia|done]. Qed.
Lemma archived_evolves time r : pj_status r = pj_active → project_evolves r (archived time r).
Proof. intros Hs. split; [done|right; cbn; lia|by rewrite Hs]. Qed.

Section steps.
Context `{Entropy}.

Lemma create_change input s out s' : createProject input s = (out, s') → project_change (db s) (db s').
Proof.
  unfold createProject. destruct (read_new input) as [p|e] eqn:Hp; [|by intros [= _ <-]; left].
  set (s1 := {| db := db s; drawn := S (drawn s); clock := clock s; denied := denied s |}).
  rewrite (bind_return (liftF (Ok p)) _ s p s) by done.
  rewrite (bind_return newProjectId _ s ("prj_" +:+ randomSuffix (random_bytes (drawn s))) s1) by done.
  intros Hr. destruct out as [r|e].
  - apply (transaction_returned _ (λ e, Projects.translateSlugConflict e (np_slug p))), create_body_run in Hr
      as (-> & Hmay & Hnone & Hst & _). right. eexists. split; [exact Hmay|].
    split; [by eapply read_new_ok|]. split; [by left|]. by apply stored_projects in Hst.
  - left. f_equal. by apply (transaction_refused _ (λ e, Projects.translateSlugConflict e (np_slug p))) in Hr.
Qed.
Lemma update_change input s out s' : projects_ok (projects (db s)) →
  updateProject input s = (out, s') → project_change (db s) (db s').
Proof.
  intros Hok Hr. destruct (read_patch input) as [p|e] eqn:Hp.
  - rewrite (updateProject_read _ p) in Hr by done. destruct out as [r'|e].
    + apply (transaction_returned _ (λ e, Projects.translateSlugConflict e (default "" (pp_slug p)))), update_body_run in Hr
        as (r & Hf & _ & [(_ & _ & ->)|(_ & -> & Hmay & Hst & _)]); [by left|right].
      destruct (project_of_row _ _ _ _ Hok Hf) as [Hrow Ha]. eexists. split; [exact Hmay|].
      split; [by apply patched_ok; [eapply read_patch_ok|]|]. split; [|by apply stored_projects].
      right. exists r. split; [done|]. apply patched_evolves.
    + left. f_equal. by apply (transaction_refused _ (λ e, Projects.translateSlugConflict e (default "" (pp_slug p)))) in Hr.
  - unfold updateProject in Hr. rewrite Hp in Hr. injection Hr as _ <-. by left.
Qed.
Lemma archive_change input s out s' : projects_ok (projects (db s)) →
  archiveProject input s = (out, s') → project_change (db s) (db s').
Proof.
  intros Hok Hr. unfold archiveProject in Hr. destruct out as [r'|e].
  - apply inTransaction_ok, archive_body_run in Hr
      as (r & Hf & _ & [(_ & _ & ->)|(Hact & -> & Hmay & Hst & _)]); [by left|right].
    destruct (project_of_row _ _ _ _ Hok Hf) as [Hrow Ha]. eexists. split; [exact Hmay|].
    split; [by destruct Ha|]. split; [|by apply stored_projects].
    right. exists r. split; [done|]. by apply archived_evolves.
  - left. f_equal. by eapply inTransaction_err.
Qed.

Lemma change_step d d' : projects_ok (projects d) → project_change d d' →
  projects_ok (projects d') ∧ ∀ k r, projects d !! k = Some r →
    ∃ r', projects d' !! k = Some r' ∧ project_evolves r r'.
Proof.
  intros Hok [->|(r & Hmay & Ha & Hnext & ->)]; [split; [done|]; intros k r ?; by exists r|].
  split; [by apply projects_ok_store|]. intros k x Hx. destruct (decide (k = pj_id r)) as [->|Hk].
  - exists r. split; [by rewrite lookup_insert_eq|].
    destruct Hnext as [Hn|(r0 & Hn & Hev)]; rewrite Hx in Hn; [done|]. by injection Hn as ->.
  - exists x. by rewrite lookup_insert_ne.
Qed.
Lemma project_step_change s s' : projects_ok (projects (db s)) → project_step s s' →
  project_change (db s) (db s').
Proof.
  intros Hok Hstep. destruct Hstep as [q s out s' Hr|s s' Hp]; [|by left].
  destruct q as [i|i|i]; cbn [perform] in Hr;
    [by eapply create_change|by eapply update_change|by eapply archive_change].
Qed.
End steps.

(** C19: After any sequence of requests to create, change and archive projects,
    accepted or refused, with anything else in between: the rows satisfy the
    constraints and the patterns of the readers, no two projects of an organisation
    share a slug, and every project is still there, of the same organisation and
    time of creation, unchanged or with a higher version, and archived at the same
    time if it was archived. *)
Theorem projects_history `{Entropy} (s s' : St) (Hok : projects_ok (projects (db s)))
    (Hsteps : rtc project_step s s') :
  projects_ok (projects (db s'))
  ∧ ∀ k r, projects (db s) !! k = Some r →
      ∃ r', projects (db s') !! k = Some r' ∧ project_evolves r r'.
Proof.
  induction Hsteps as [s|s s1 s' Hstep _ IH]; [split; [done|]; intros k r ?; by exists r|].
  apply project_step_change, change_step in Hstep as [Hok1 Hev1]; [|done..].
  destruct (IH Hok1) as [Hok' Hev']. split; [done|]. intros k r (r1 & Hr1 & He1)%Hev1.
  apply Hev' in Hr1 as (r' & ? & ?). exists r'. split; [done|by etrans].
Qed.

(** ** A sample *)

Definition rename_project : UpdateProjectInput :=
  {| up_projectId := "prj_1"; up_organisationId := "org_1"; up_expectedVersion := Some 1%Z;
     up_name := Some " Shop front "; up_slug := None;
     up_repositoryIdentity := Some (JStr "https://github.com/example/shop.git");
     up_defaultBranch := Some "main"; up_settings := None; up_actor := person; up_requestId := "req_1" |}.
Definition renaming : ProjectPatch :=
  {| pp_name := Some "Shop front"; pp_slug := None; pp_defaultBranch := Some "main"; pp_settings := None;
     pp_repository := Some {| ri_canonical := "github.com/example/shop";
                              ri_clone_urls := ["https://github.com/example/shop.git"] |} |}.
Definition new_shop : CreateProjectInput :=
  {| cp_organisationId := "org_1"; cp_name := "Second shop"; cp_slug := None; cp_repositoryIdentity := None;
     cp_defaultBranch := None; cp_settings := None; cp_actor := person; cp_requestId := "req_2" |}.
Definition close_shop : ArchiveProjectInput :=
  {| ap_projectId := "prj_1"; ap_organisationId := "org_1"; ap_expectedVersion := None; ap_actor := person;
     ap_requestId := "req_3" |}.
Definition after_creation : St := left_at (createProject new_shop) start.
Definition after_archiving : St := left_at (archiveProject close_shop) after_creation.

Lemma update_decision_witness :
  let row := patched 1000 renaming sample_project in
  differing sample_project row = ["name"; "repository_identity"]
  ∧ projects (db (left_at (updateProject rename_project) start)) = {["prj_1" := row]}
  ∧ ev_type <$> events (log (db (left_at (updateProject rename_project) start)))
    = ["project.updated"; "project.repository_changed"].
Proof.
  cbv zeta. pose proof (update_decision rename_project renaming start sample_project
    ltac:(vm_compute; reflexivity) ltac:(vm_compute; reflexivity)) as Hd.
  unfold left_at. destruct (updateProject rename_project start) as [out s'] eqn:Hr.
  assert (is_ok out = true) as Hout.
  { change out with (fst (out, s')). rewrite <- Hr. vm_compute. reflexivity. }
  destruct Hd as (_ & _ & _ & Hd). destruct out as [row|e]; [|discriminate].
  assert (differing sample_project (patched 1000 renaming sample_project) = ["name"; "repository_identity"])
    as Hdiff by (vm_compute; reflexivity).
  change (clock start) with 1000%Z in Hd. rewrite Hdiff in Hd.
  destruct Hd as [_ Hd]. destruct (Hd ltac:(discriminate)) as (_ & Hst & (es & Hev & Hty & _) & _).
  cbn [snd]. split; [exact Hdiff|]. split; [rewrite Hst; vm_compute; reflexivity|].
  rewrite Hev. cbn. rewrite Hty. vm_compute. reflexivity.
Defined.

Lemma start_projects_ok : projects_ok (projects (db start)).
Proof.
  change (projects (db start)) with ({["prj_1" := sample_project]} : gmap string ProjectRow). split.
  - apply map_Forall_singleton. split; [done|]. vm_compute. reflexivity.
  - intros k k' r r' Hk Hk' _. apply lookup_singleton_Some in Hk as [<- _], Hk' as [<- _]. reflexivity.
  - apply map_Forall_singleton. split; [vm_compute; reflexivity..| |discriminate].
    split; [cbn; lia|]. repeat constructor; cbn; lia.
Qed.
Lemma projects_history_witness :
  projects_ok (projects (db after_archiving))
  ∧ (pj_status <$> projects (db after_archiving) !! "prj_1") = Some pj_archived
  ∧ size (projects (db after_archiving)) = 2.
Proof.
  split; [|split; vm_compute; reflexivity].
  refine (proj1 (projects_history start after_archiving start_projects_ok _)).
  eapply rtc_l; [apply (Requested (Create new_shop) start (fst (createProject new_shop start)) after_creation)|].
  - unfold after_creation, left_at. cbn [perform]. by destruct (createProject new_shop start).
  - apply rtc_once. apply (Requested (Archive close_shop) _ (fst (archiveProject close_shop after_creation))).
    unfold after_archiving, left_at. cbn [perform]. by destruct (archiveProject close_shop after_creation).
Defined.
