(* ===== verification/ControlInvariants.v ===== *)
(** * What holds of browser sessions and their leases at all times *)

From S2P Require Import Prelude Errors ReviewProtocol BrowserProtocol Events ControlAuthorisation Store BrowserSessions Preserve Invariants Effects.

Definition same_epoch (l l' : ControlLeaseRow) : Prop :=
  cl_browser_session_id l' = cl_browser_session_id l ∧ cl_epoch l' = cl_epoch l.
Definition both_active (l l' : ControlLeaseRow) : Prop :=
  interactive_lease l = true ∧ interactive_lease l' = true
  ∧ cl_browser_session_id l' = cl_browser_session_id l.

(** [c] was given the control of [session] at [epoch]: the lease may have been
    revoked since. *)
Definition lease_given (session : string) (epoch : Z) (c : ControllerIdentity) (d : Db) : Prop :=
  ∃ i l, control_leases d !! i = Some l ∧ cl_browser_session_id l = session
    ∧ cl_epoch l = epoch ∧ cl_controller l = c.

Record control_ok (d : Db) : Prop := {
  sessions_ok : rows_ok bs_id session_checks (browser_sessions d);
  leases_ok : rows_ok cl_id lease_checks (control_leases d);
  epochs_unique : no_clash same_epoch (control_leases d);
  one_active : no_clash both_active (control_leases d);
  controller_has_lease : ∀ k r c, browser_sessions d !! k = Some r →
    bs_current_controller r = Some c → lease_given k (bs_control_epoch r) c d
}.

#[export] Instance control_ok_ignores_log : IgnoresLog control_ok.
Proof. intros l d []. by constructor. Qed.
#[export] Instance lease_given_ignores_log session epoch c : IgnoresLog (lease_given session epoch c).
Proof. by intros l d. Qed.

(** An epoch was given to one controller. *)
Lemma one_controller_per_lease d session epoch c c' :
  control_ok d → lease_given session epoch c d → lease_given session epoch c' d → c = c'.
Proof.
  intros Hok (i & l & Hi & Hs & He & <-) (i' & l' & Hi' & Hs' & He' & <-).
  assert (i = i') as -> by (eapply (epochs_unique d Hok); [done..|]; split; congruence).
  congruence.
Qed.

(** ** Statements *)

Lemma update_session_where_run id p f s b s' :
  update_session_where id p f s = (Ok b, s') →
  (b = false ∧ s' = s ∧ ∀ r, browser_sessions (db s) !! id = Some r → p r = false) ∨
  (b = true ∧ ∃ r, browser_sessions (db s) !! id = Some r ∧ p r = true
    ∧ violated (session_checks (f r)) = None
    ∧ s' = with_db (with_browser_sessions (<[id := f r]> (browser_sessions (db s))) (db s)) s).
Proof.
  unfold update_session_where. intros Hr. apply bindM_ok in Hr as (row & s1 & Hrow & Hr).
  apply gets_ok in Hrow as [-> ->].
  destruct (browser_sessions (db s) !! id) as [r|] eqn:Hl.
  - destruct (p r) eqn:Hp; inv_run; [right|left].
    + split; [done|]. by exists r.
    + split_and!; [done..|]. by intros ? [= <-].
  - inv_run. left. by split_and!.
Qed.
Lemma update_session_run id f s u s' :
  update_session id f s = (Ok u, s') →
  (browser_sessions (db s) !! id = None ∧ s' = s) ∨
  (∃ r, browser_sessions (db s) !! id = Some r ∧ violated (session_checks (f r)) = None
    ∧ s' = with_db (with_browser_sessions (<[id := f r]> (browser_sessions (db s))) (db s)) s).
Proof.
  unfold update_session. intros Hr. inv_run.
  destruct (update_session_where_run _ _ _ _ _ _ H) as [(-> & -> & Hn)|(-> & r & Hl & _ & Hv & ->)].
  - left. split; [|done]. destruct (browser_sessions (db s) !! id) as [r|]; [|done].
    by specialize (Hn r eq_refl).
  - right. eauto.
Qed.

Lemma revoke_where_run p reason s :
  revoke_where p reason s = (Ok tt, with_db (with_control_leases
         ((λ l, if bool_decide (cl_revoked_at l = None) && p (clock s) l
                then revoked (clock s) reason l else l) <$> control_leases (db s)) (db s)) s).
Proof. done. Qed.

Lemma guard_row_err cs us s e s' : guard_row cs us s = (Err e, s') → s' = s.
Proof. unfold guard_row. destruct (violated cs), (violated us); by intros [= _ <-]. Qed.

Lemma insert_lease_run l s u s' :
  insert_lease l s = (Ok u, s') →
  violated (lease_checks l) = None ∧ control_leases (db s) !! cl_id l = None
  ∧ another_active (control_leases (db s)) l = false ∧ epoch_taken (control_leases (db s)) l = false
  ∧ is_Some (browser_sessions (db s) !! cl_browser_session_id l)
  ∧ s' = with_db (with_control_leases (<[cl_id l := l]> (control_leases (db s))) (db s)) s.
Proof.
  unfold insert_lease. intros Hr. inv_run. rewrite !violated_cons in *. cbn [snd] in *.
  destruct_and!. rewrite !negb_true_iff in *. unfold is_fresh in *. rewrite bool_decide_eq_true in *.
  destruct (browser_sessions (db s) !! cl_browser_session_id l) eqn:Hk; [|inv_run].
  match goal with Hm : _ = (Ok _, _) |- _ => injection Hm as <- end. split_and!; [done..|by eexists|done].
Qed.
Lemma insert_lease_err l s e s' : insert_lease l s = (Err e, s') → s' = s.
Proof.
  intros [?|(t & s1 & Ht & Hr)]%bindM_err; [done|]. apply gets_ok in Ht as [-> ->].
  apply bindM_err in Hr as [?%guard_row_err|(u & s1 & Hg & Hr)]; [done|].
  apply guard_row_ok in Hg as (_ & _ & ->).
  apply bindM_err in Hr as [?|(k & s1 & Hk & Hr)]; [done|]. apply gets_ok in Hk as [-> ->].
  destruct (browser_sessions (db s) !! cl_browser_session_id l).
  - by apply bindM_err in Hr as [?|(? & ? & ? & ?)].
  - apply bindM_err in Hr as [Hr|(? & ? & ? & ?)]; [by injection Hr|done].
Qed.

(** ** What the statements keep *)

Lemma update_session_where_err id p f s e s' :
  update_session_where id p f s = (Err e, s') → s' = s.
Proof.
  intros [?|(row & s1 & Ht & Hr)]%bindM_err; [done|]. apply gets_ok in Ht as [-> ->].
  destruct (browser_sessions (db s) !! id) as [r|]; [|done]. destruct (p r); [|done].
  apply bindM_err in Hr as [?%guard_row_err|(? & ? & _ & [?|(? & ? & _ & ?)]%bindM_err)]; done.
Qed.

(** An update that leaves the identity and the control of a session alone. *)
Definition keeps_control (f : BrowserSessionRow → BrowserSessionRow) : Prop :=
  ∀ r, bs_id (f r) = bs_id r ∧ bs_current_controller (f r) = bs_current_controller r
       ∧ bs_control_epoch (f r) = bs_control_epoch r.

Lemma update_session_where_keeps id p f :
  keeps_control f → preserves control_ok (update_session_where id p f).
Proof.
  intros Hf s r s' Hr Hok. destruct r as [b|e].
  - apply update_session_where_run in Hr as [(_ & -> & _)|(_ & r & Hl & _ & Hv & ->)]; [done|].
    destruct Hok as [Hs Hls He Ha Hc]. constructor; cbn; try done.
    + assert (bs_id (f r) = id) as Hid
        by (by rewrite (proj1 (Hf r)), (rows_ok_key _ _ _ _ _ Hs Hl)).
      rewrite <- Hid. by apply rows_ok_insert.
    + intros k r' c Hk Hcc. apply lookup_insert_Some in Hk as [[<- <-]|[_ Hk]]; [|by eauto].
      destruct (Hf r) as (_ & Hcon & Hep). rewrite Hcon in Hcc. rewrite Hep. by eapply Hc.
  - by apply update_session_where_err in Hr as ->.
Qed.
Lemma update_session_keeps id f : keeps_control f → preserves control_ok (update_session id f).
Proof.
  intros Hf. apply preserves_bind; [by apply update_session_where_keeps|].
  intros _. apply preserves_ret.
Qed.

Lemma no_clash_fmap {K A} `{Countable K} (clash : A → A → Prop) (f : A → A) (t : gmap K A) :
  (∀ a b, clash (f a) (f b) → clash a b) → no_clash clash t → no_clash clash (f <$> t).
Proof.
  intros Hf Ht k k' a b Ha Hb Hc. rewrite lookup_fmap_Some in Ha, Hb.
  destruct Ha as (a' & <- & Ha), Hb as (b' & <- & Hb). eauto.
Qed.

Lemma revoked_not_interactive time reason l : interactive_lease (revoked time reason l) = false.
Proof. done. Qed.

Lemma revoke_leases_sound p reason s :
  rows_ok cl_id lease_checks (control_leases (db s)) → no_clash same_epoch (control_leases (db s)) →
  no_clash both_active (control_leases (db s)) →
  let t := control_leases (db (snd (revoke_where p reason s))) in
  rows_ok cl_id lease_checks t ∧ no_clash same_epoch t ∧ no_clash both_active t.
Proof.
  intros Hl He Ha. rewrite revoke_where_run. cbn. split_and!.
  - intros i l Hi. rewrite lookup_fmap_Some in Hi. destruct Hi as (l' & <- & Hi).
    apply Hl in Hi. by case_match.
  - apply no_clash_fmap; [|done]. intros a b. unfold same_epoch. repeat case_match; done.
  - apply no_clash_fmap; [|done]. intros a b (Hia & Hib & Hab).
    repeat case_match; rewrite ?revoked_not_interactive in Hia, Hib; done.
Qed.

Lemma revoke_where_keeps p reason : preserves control_ok (revoke_where p reason).
Proof.
  intros s r s' Hr Hok. destruct Hok as [Hs Hl He Ha Hc].
  destruct (revoke_leases_sound p reason s Hl He Ha) as (Hl' & He' & Ha').
  rewrite revoke_where_run in *. injection Hr as _ <-. constructor; cbn; try done.
  - intros k r0 c Hk Hcon. destruct (Hc _ _ _ Hk Hcon) as (i & l & Hi & ? & ? & ?).
    eexists i, _. cbn. rewrite lookup_fmap, Hi. cbn. split; [done|]. by case_match.
Qed.

Lemma lease_given_revoke session epoch c p reason :
  preserves (lease_given session epoch c) (revoke_where p reason).
Proof.
  intros s r s' Hr (i & l & Hi & ? & ? & ?). rewrite revoke_where_run in Hr.
  injection Hr as _ <-. eexists i, _. cbn.
  rewrite lookup_fmap, Hi. cbn. split; [done|]. by case_match.
Qed.
Lemma lease_given_update session epoch c id p f :
  preserves (lease_given session epoch c) (update_session_where id p f).
Proof. unfold update_session_where. preserve. Qed.
Lemma lease_given_insert session epoch c l :
  preserves (lease_given session epoch c) (insert_lease l).
Proof.
  intros s r s' Hr (i & l' & Hi & ?). destruct r as [u|e].
  - apply insert_lease_run in Hr as (_ & Hn & _ & _ & _ & ->). exists i, l'. split; [|done]. cbn.
    rewrite lookup_insert_ne; [done|]. intros Hid. congruence.
  - apply insert_lease_err in Hr as ->. by exists i, l'.
Qed.

(** ** Taking and dropping control

    The row is written before the lease exists; both are there when the
    transaction commits. *)
Section transfer.
Context `{Entropy}.

Lemma epoch_not_taken t l k l' :
  epoch_taken t l = false → t !! k = Some l' → cl_id l' ≠ cl_id l → ¬ same_epoch l l'.
Proof.
  intros Ht Hk Hne [Hs He]. unfold epoch_taken in Ht.
  eapply existsb_rows in Ht; [|exact Hk]. cbn in Ht. rewrite !bool_decide_true in Ht; done.
Qed.
Lemma not_another_active t l k l' :
  another_active t l = false → t !! k = Some l' → cl_id l' ≠ cl_id l → ¬ both_active l l'.
Proof.
  intros Ht Hk Hne (Hi & Hi' & Hs). unfold another_active in Ht. rewrite Hi in Ht. cbn [andb] in Ht.
  eapply existsb_rows in Ht; [|exact Hk]. cbn in Ht. rewrite Hi', !bool_decide_true in Ht; done.
Qed.

(** The part of the invariant that is about the leases alone. *)
Definition leases_sound (d : Db) : Prop :=
  rows_ok cl_id lease_checks (control_leases d) ∧ no_clash same_epoch (control_leases d)
  ∧ no_clash both_active (control_leases d).
#[local] Instance leases_sound_ignores_log : IgnoresLog leases_sound.
Proof. by intros l d. Qed.

Lemma insert_lease_ok l : preserves leases_sound (insert_lease l).
Proof.
  intros s r s' Hr (Hl & He & Ha). destruct r as [u|e]; [|by apply insert_lease_err in Hr as ->].
  apply insert_lease_run in Hr as (Hc & Hn & Hact & Hep & _ & ->). cbn. split_and!.
  - by apply rows_ok_insert.
  - eapply no_clash_insert; eauto using epoch_not_taken; unfold same_epoch; intuition congruence.
  - eapply no_clash_insert; eauto using not_another_active; unfold both_active; intuition congruence.
Qed.

Definition all_revoked (time : Z) (session reason : string) (t : gmap string ControlLeaseRow) :
    gmap string ControlLeaseRow :=
  (λ l, if bool_decide (cl_revoked_at l = None)
           && bool_decide (cl_browser_session_id l = session)
        then revoked time reason l else l) <$> t.

(** The tables once the statements of a granted request are through, [r0] being
    the row the request had read and [r] the row they find. *)
Record granted (input : ControlRequest) (r0 : BrowserSessionRow) (s s' : St)
    (r : BrowserSessionRow) (l : ControlLeaseRow) : Prop := {
  gr_row : browser_sessions (db s) !! bs_id r0 = Some r;
  gr_lease : ∃ id, l = lease id (clock s) (bs_id r0) (rq_controller input)
    (bs_control_epoch r0 + 1) (default "control requested" (rq_reason input));
  gr_checks : violated (session_checks
    (set_control (Some (rq_controller input)) (bs_control_epoch r0 + 1) r)) = None;
  gr_fresh : control_leases (db s) !! cl_id l = None;
  gr_epoch : ∀ k l', control_leases (db s) !! k = Some l' →
    cl_browser_session_id l' = bs_id r0 → cl_epoch l' = (bs_control_epoch r0 + 1)%Z → cl_id l' = cl_id l;
  gr_db : ∃ s1, db s1 =
      with_control_leases
        (<[cl_id l := l]> (all_revoked (clock s) (bs_id r0) "superseded by a new controller"
                             (control_leases (db s))))
        (with_browser_sessions
           (<[bs_id r0 := set_control (Some (rq_controller input)) (bs_control_epoch r0 + 1) r]>
              (browser_sessions (db s))) (db s))
    ∧ wrote (session_scope r0) (rq_actor input)
        ["browser.control_requested"; "browser.control_transferred"] s1 s'
}.

Lemma getSession_run id s r s' :
  getSession id s = (Ok r, s') → browser_sessions (db s) !! id = Some r ∧ s' = s.
Proof.
  unfold getSession. intros Hr. apply bindM_ok in Hr as (row & s1 & Hrow & Hr).
  apply gets_ok in Hrow as [-> ->]. by apply unless_none_ok in Hr as [-> ->].
Qed.

(** A row found afterwards was there when it was updated. *)
Lemma update_session_found id f s u s' r' :
  update_session id f s = (Ok u, s') → browser_sessions (db s') !! id = Some r' →
  ∃ r, browser_sessions (db s) !! id = Some r ∧ r' = f r ∧ violated (session_checks (f r)) = None
    ∧ s' = with_db (with_browser_sessions (<[id := f r]> (browser_sessions (db s))) (db s)) s.
Proof.
  intros [(Hn & ->)|(r & Hl & Hv & ->)]%update_session_run Hf; [congruence|].
  cbn in Hf. rewrite lookup_insert_eq in Hf. exists r. by simplify_eq.
Qed.

Lemma all_revoked_lookup time session reason t k l :
  all_revoked time session reason t !! k = Some l →
  ∃ l', t !! k = Some l' ∧ cl_id l = cl_id l' ∧ cl_epoch l = cl_epoch l'
    ∧ cl_browser_session_id l = cl_browser_session_id l' ∧ cl_controller l = cl_controller l'.
Proof.
  unfold all_revoked. rewrite lookup_fmap_Some. intros (l' & <- & Hl). exists l'. by case_match.
Qed.
Lemma lookup_all_revoked time session reason t k l :
  t !! k = Some l →
  ∃ l', all_revoked time session reason t !! k = Some l' ∧ cl_id l' = cl_id l
    ∧ cl_epoch l' = cl_epoch l ∧ cl_browser_session_id l' = cl_browser_session_id l
    ∧ cl_controller l' = cl_controller l
    ∧ (cl_browser_session_id l = session → cl_revoked_at l' ≠ None).
Proof.
  intros Hl. unfold all_revoked. rewrite lookup_fmap, Hl. cbn. eexists. split; [done|].
  case_match eqn:Hc; [done|]. split_and!; [done..|]. intros Hs Hn.
  by rewrite !bool_decide_true in Hc.
Qed.

Lemma grant_statements_run input r0 s u s' :
  grant_statements input r0 s = (Ok u, s') → ∃ r l, granted input r0 s s' r l.
Proof.
  unfold grant_statements. cbv zeta. intros Hr. inv_run.
  rename select (revokeLeases _ _ _ = _) into Hrev. rename select (update_session _ _ _ = _) into Hup.
  rename select (newId _ _ = _) into Hid. rename select (insert_lease _ _ = _) into Hins.
  unfold revokeLeases in Hrev. rewrite revoke_where_run in Hrev. injection Hrev as <-.
  apply newId_ok in Hid as (_ & Hdb & Hclock & _).
  match type of Hins with insert_lease ?l _ = _ => remember l as nl eqn:Hnl in Hins end.
  apply insert_lease_run in Hins as (_ & Hnew & _ & Hep & [r' Hx] & ->).
  repeat match goal with H : append _ _ _ _ _ _ = _ |- _ => apply append_wrote in H end.
  rename select (wrote _ _ ["browser.control_requested"] _ _) into Hw1.
  rename select (wrote _ _ ["browser.control_transferred"] _ _) into Hw2.
  pose proof (wrote_app _ _ _ _ _ _ _ Hw1 Hw2) as Hw. rewrite Hnl, Hdb in Hx. cbn in Hx.
  destruct (update_session_found _ _ _ _ _ _ Hup Hx) as (r & Hl & -> & Hv & ->).
  cbn in *. exists r, nl. constructor.
  - done.
  - rewrite Hnl, Hclock. eexists. reflexivity.
  - done.
  - destruct (control_leases (db s) !! cl_id nl) as [l'|] eqn:Hk; [|done].
    destruct (lookup_all_revoked (clock s) (bs_id r0) "superseded by a new controller"
      _ _ _ Hk) as (l2 & Hl2 & _). rewrite Hdb in Hnew. cbn in Hnew. unfold all_revoked in Hl2.
    by rewrite Hl2 in Hnew.
  - intros k l' Hk Hs He. rewrite Hdb in Hep.
    destruct (lookup_all_revoked (clock s) (bs_id r0) "superseded by a new controller"
      _ _ _ Hk) as (l2 & Hl2 & Hi2 & He2 & Hs2 & _).
    eapply existsb_rows in Hep; [|exact Hl2]. cbn in Hep.
    destruct (decide (cl_id l' = cl_id nl)) as [|Hne]; [done|]. exfalso.
    rewrite !bool_decide_true in Hep by (rewrite Hnl in *; cbn in *; congruence). done.
  - eexists. split; [|exact Hw]. cbn. rewrite Hdb. done.
Qed.

Lemma grantControl_run input r0 s x s' :
  grantControl input r0 s = (Ok x, s') →
  ∃ r l, granted input r0 s s' r l
    ∧ x = set_control (Some (rq_controller input)) (bs_control_epoch r0 + 1) r.
Proof.
  unfold grantControl. intros Hr. apply bindM_ok in Hr as (u & s1 & Ht & Hr).
  apply getSession_run in Hr as [Hx ->]. apply inTransaction_ok in Ht.
  apply grant_statements_run in Ht as (r & l & Hg). exists r, l. split; [done|].
  destruct (gr_db _ _ _ _ _ _ Hg) as (s2 & Hd & Hw).
  rewrite (wrote_db _ _ _ _ _ Hw) in Hx. cbn in Hx. rewrite Hd in Hx. cbn in Hx.
  rewrite lookup_insert_eq in Hx. by injection Hx.
Qed.

(** The lease a granted request inserts is new. *)
Lemma granted_new input r0 s s' r l :
  control_ok (db s) → granted input r0 s s' r l → ∀ k l',
  control_leases (db s) !! k = Some l' →
  cl_browser_session_id l' = bs_id r0 → cl_epoch l' ≠ (bs_control_epoch r0 + 1)%Z.
Proof.
  intros Hok Hg k l' Hk Hs He. pose proof (gr_epoch _ _ _ _ _ _ Hg _ _ Hk Hs He) as Hid.
  pose proof (rows_ok_key _ _ _ _ _ (leases_ok _ Hok) Hk) as Hkey.
  pose proof (gr_fresh _ _ _ _ _ _ Hg). congruence.
Qed.

Lemma revoke_sound p reason : preserves leases_sound (revoke_where p reason).
Proof.
  intros s r s' Hr (Hl & He & Ha). pose proof (revoke_leases_sound p reason s Hl He Ha) as Hs.
  by rewrite Hr in Hs.
Qed.
Lemma grant_leases_sound input r0 : preserves leases_sound (grant_statements input r0).
Proof.
  unfold grant_statements, update_session, update_session_where. cbv zeta.
  repeat first [ apply revoke_sound | apply insert_lease_ok | preserve_step ].
Qed.

(** What a granted request leaves: the invariant, and the lease of the new epoch. *)
Lemma granted_ok input r0 s s' r l :
  control_ok (db s) → leases_sound (db s') → granted input r0 s s' r l →
  control_ok (db s') ∧
  lease_given (bs_id r0) (bs_control_epoch r0 + 1) (rq_controller input) (db s').
Proof.
  intros Hok (Hl & He & Ha) [Hrow [id ->] Hv Hfresh _ (s1 & Hd & Hw)].
  rewrite (wrote_db _ _ _ _ _ Hw), Hd in *. cbn in *.
  assert (lease_given (bs_id r0) (bs_control_epoch r0 + 1) (rq_controller input) (db s1)) as Hnew.
  { rewrite Hd. eexists _, _. cbn. rewrite lookup_insert_eq. done. }
  rewrite Hd in Hnew. split; [|exact Hnew]. constructor; cbn; try done.
  - assert (bs_id r = bs_id r0) as Hid by (by eapply rows_ok_key; [apply (sessions_ok _ Hok)|]).
    rewrite <- Hid. apply (rows_ok_insert bs_id session_checks _
      (set_control (Some (rq_controller input)) (bs_control_epoch r0 + 1) r)); [apply Hok|done].
  - intros k r1 c Hk Hc. apply lookup_insert_Some in Hk as [[<- <-]|[Hne Hk]].
    + injection Hc as <-. exact Hnew.
    + destruct (controller_has_lease _ Hok _ _ _ Hk Hc) as (i & l & Hi & Hs & Hep & Hcc).
      destruct (lookup_all_revoked (clock s) (bs_id r0) "superseded by a new controller" _ _ _ Hi)
        as (l' & Hl' & _ & He' & Hs' & Hc' & _).
      exists i, l'. cbn. rewrite lookup_insert_ne by congruence. split_and!; congruence.
Qed.

Lemma grant_ok input r0 : preserves control_ok (inTransaction (grant_statements input r0)).
Proof.
  intros s [u|e] s' Hr Hok.
  - apply inTransaction_ok in Hr. pose proof (grant_leases_sound _ _ _ _ _ Hr) as Hl.
    apply grant_statements_run in Hr as (r & l & Hg).
    eapply granted_ok; [exact Hok| |exact Hg]. apply Hl. by destruct Hok.
  - by apply inTransaction_err in Hr as ->.
Qed.

Record dropped (attempt : Attempt) (r0 : BrowserSessionRow) (s s' : St) (r : BrowserSessionRow) :
    Prop := {
  dr_row : browser_sessions (db s) !! bs_id r0 = Some r;
  dr_checks : violated (session_checks (set_control None (bs_control_epoch r0 + 1) r)) = None;
  dr_db : ∃ s1, db s1 =
      with_control_leases
        (all_revoked (clock s) (bs_id r0) "released by controller" (control_leases (db s)))
        (with_browser_sessions
           (<[bs_id r0 := set_control None (bs_control_epoch r0 + 1) r]> (browser_sessions (db s)))
           (db s))
    ∧ wrote (session_scope r0) (at_actor attempt) ["browser.control_released"] s1 s'
}.

Lemma dropControl_run attempt r0 s x s' :
  dropControl attempt r0 s = (Ok x, s') →
  ∃ r, dropped attempt r0 s s' r ∧ x = set_control None (bs_control_epoch r0 + 1) r.
Proof.
  unfold dropControl. cbv zeta. intros Hr. inv_run.
  rename select (revokeLeases _ _ _ = _) into Hrev. rename select (update_session _ _ _ = _) into Hup.
  apply getSession_run in Hr as [Hx ->].
  unfold revokeLeases in Hrev. rewrite revoke_where_run in Hrev. injection Hrev as <-.
  rename select (append _ _ _ _ _ _ = _) into Hw. apply append_wrote in Hw.
  rewrite (wrote_db _ _ _ _ _ Hw) in Hx. cbn in Hx.
  destruct (update_session_found _ _ _ _ _ _ Hup Hx) as (r & Hl & -> & Hv & ->).
  cbn in *. exists r. split; [|reflexivity]. constructor; [done..|].
  eexists. split; [|exact Hw]. done.
Qed.
End transfer.

(** ** Every operation keeps the invariant, and every lease that was given *)

Section operations.
Context `{Entropy} `{WorkerConfig}.

Lemma drop_ok attempt r0 : preserves control_ok (dropControl attempt r0).
Proof.
  unfold dropControl. cbv zeta. apply preserves_bind; [|intros u; unfold getSession; preserve].
  intros s [u'|e] s' Hr Hok; [|by apply inTransaction_err in Hr as ->].
  apply inTransaction_ok in Hr. inv_run.
  rename select (revokeLeases _ _ _ = _) into Hrev. rename select (update_session _ _ _ = _) into Hup.
  pose proof (revoke_where_keeps _ _ _ _ _ Hrev Hok) as Hok1. clear Hrev.
  apply append_wrote in Hr. rewrite (wrote_db _ _ _ _ _ Hr). apply ignores_log.
  apply update_session_run in Hup as [(_ & ->)|(r & Hl & Hv & ->)]; [done|].
  destruct Hok1 as [Hs Hls He Ha Hc]. constructor; cbn in *; try done.
  - assert (bs_id r = bs_id r0) as Hid by (by eapply rows_ok_key).
    rewrite <- Hid. by apply (rows_ok_insert bs_id session_checks _
      (set_control None (bs_control_epoch r0 + 1) r)).
  - intros k r1 c Hk Hcc. apply lookup_insert_Some in Hk as [[<- <-]|[Hne Hk]]; [done|]. by eapply Hc.
Qed.

Lemma insert_session_run r s u s' :
  insert_session r s = (Ok u, s') →
  violated (session_checks r) = None ∧ browser_sessions (db s) !! bs_id r = None
  ∧ s' = with_db (with_browser_sessions (<[bs_id r := r]> (browser_sessions (db s))) (db s)) s.
Proof.
  unfold insert_session. intros Hr. inv_run. rewrite !violated_cons in *. cbn [snd] in *.
  destruct_and!. unfold is_fresh in *. rewrite bool_decide_eq_true in *. done.
Qed.

(** What a new session leaves. *)
Lemma create_statements_ok id w input :
  preserves control_ok (inTransaction (create_statements id w input)).
Proof.
  intros s [x|e] s' Hr Hok; [|by apply inTransaction_err in Hr as ->].
  apply inTransaction_ok in Hr. unfold create_statements in Hr. cbv zeta in Hr. inv_run.
  rename select (insert_session _ _ = _) into Hs. rename select (newId _ _ = _) into Hid.
  rename select (insert_lease _ _ = _) into Hins. rename select (append _ _ _ _ _ _ = _) into Hw.
  apply append_wrote in Hw. rewrite (wrote_db _ _ _ _ _ Hw). apply ignores_log.
  apply insert_session_run in Hs as (Hv & Hn & ->). apply newId_ok in Hid as (_ & Hdb & _).
  pose proof (insert_lease_ok _ _ _ _ Hins) as Hl. rewrite Hdb in Hl. cbn in Hl.
  destruct Hl as (Hl & He & Ha); [by destruct Hok|].
  apply insert_lease_run in Hins as (_ & Hnl & _ & _ & _ & ->). rewrite Hdb in *. cbn in *.
  constructor; cbn; try done.
  - apply (rows_ok_insert bs_id session_checks _ (new_session id (clock s) w input)); [apply Hok|done].
  - intros k r c Hk Hc. apply lookup_insert_Some in Hk as [[<- <-]|[Hne Hk]].
    + cbn in Hc. injection Hc as <-. eexists _, _. cbn. by rewrite lookup_insert_eq.
    + destruct (controller_has_lease _ Hok _ _ _ Hk Hc) as (i & l & Hi & ?).
      exists i, l. cbn. rewrite lookup_insert_ne; [done|]. intros Heq. congruence.
Qed.
Lemma createSession_ok input : preserves control_ok (createSession input).
Proof.
  unfold createSession, activeWorker, assignedProjects.
  repeat first [ apply create_statements_ok | preserve_step ].
Qed.

(** The rules for the operations that never write the control columns. *)
Ltac keep_control :=
  repeat first
    [ apply update_session_keeps; solve [by intros ?]
    | apply update_session_where_keeps; solve [by intros ?]
    | apply revoke_where_keeps
    | preserve_step ].

Lemma getSession_ok id : preserves control_ok (getSession id).
Proof. unfold getSession. keep_control. Qed.
Lemma setStatus_ok session status actor type payload :
  preserves control_ok (setStatus session status actor type payload).
Proof. unfold setStatus. cbv zeta. keep_control. Qed.
Lemma record_rejected_ok session attempt denial payload :
  preserves control_ok (record_rejected session attempt denial payload).
Proof. unfold record_rejected, rejection_stream, projectStream. keep_control. Qed.
Lemma recordRejection_ok session attempt command denial :
  preserves control_ok (recordRejection session attempt command denial).
Proof. apply record_rejected_ok. Qed.
Lemma recordLifecycleRejection_ok session attempt act denial extra :
  preserves control_ok (recordLifecycleRejection session attempt act denial extra).
Proof. apply record_rejected_ok. Qed.
Lemma refuseLifecycle_ok {A} session attempt act denial :
  preserves control_ok (refuseLifecycle (A := A) session attempt act denial).
Proof.
  apply preserves_bind; [apply recordLifecycleRejection_ok|intros u; apply preserves_throw].
Qed.
End operations.

Create HintDb control.
#[export] Hint Resolve getSession_ok setStatus_ok recordRejection_ok recordLifecycleRejection_ok
  refuseLifecycle_ok create_statements_ok createSession_ok grant_ok drop_ok revoke_where_keeps : control.

(** An operation keeps the invariant when the operations it is made of do. *)
Ltac control :=
  repeat first
    [ solve [eauto with control nocore]
    | apply update_session_keeps; solve [by intros ?]
    | apply update_session_where_keeps; solve [by intros ?]
    | preserve_step ].

Section methods.
Context `{Entropy} `{WorkerConfig}.

Lemma begin_ok input : preserves control_ok (beginCommand input).
Proof. unfold beginCommand, route_associated. cbv zeta. control. Qed.
Lemma finish_ok input session sequence result :
  preserves control_ok (finishCommand input session sequence result).
Proof. unfold finishCommand, navigated_event, screenshot_event. cbv zeta. control. Qed.
Lemma requireControl_ok id attempt act from : preserves control_ok (requireControl id attempt act from).
Proof. unfold requireControl. cbv zeta. control. Qed.
Lemma pause_ok id attempt : preserves control_ok (pause id attempt).
Proof. pose proof requireControl_ok. unfold pause. control. Qed.
Lemma resume_ok id attempt : preserves control_ok (resume id attempt).
Proof. pose proof requireControl_ok. unfold resume. control. Qed.
Lemma terminate_ok id reason actor : preserves control_ok (terminate id reason actor).
Proof. unfold terminate, revokeLeases. control. Qed.
Lemma end_ok id attempt reason : preserves control_ok (endSession id attempt reason).
Proof. pose proof requireControl_ok. pose proof terminate_ok. unfold endSession. control. Qed.
Lemma applyWorkerReport_ok id report actor : preserves control_ok (applyWorkerReport id report actor).
Proof. unfold applyWorkerReport, revokeLeases. cbv zeta. control. Qed.
Lemma markReconciled_ok id status reason : preserves control_ok (markReconciled id status reason).
Proof. unfold markReconciled, revokeLeases. control. Qed.
Lemma decideRequest_ok input : preserves control_ok (decideRequest input).
Proof. unfold decideRequest. cbv zeta. control. Qed.
Lemma grantControl_ok input r : preserves control_ok (grantControl input r).
Proof. unfold grantControl. control. Qed.
Lemma decideRelease_ok id attempt : preserves control_ok (decideRelease id attempt).
Proof. unfold decideRelease. cbv zeta. control. Qed.
Lemma expire_ok : preserves control_ok expireStaleLeases.
Proof. apply revoke_where_keeps. Qed.
Lemma failReservation_ok session actor c trigger route details :
  preserves control_ok (failReservation session actor c trigger route details).
Proof. unfold failReservation, revokeLeases. control. Qed.
Lemma allocate_ok answers id scope route actor :
  preserves control_ok (allocate answers id scope route actor).
Proof.
  pose proof failReservation_ok.
  unfold allocate, getForScope, recordAllocationRejection, claimForAllocation, bindService,
    settleAllocation, explainWorkerRefusal, assignedProjects. cbv zeta. control.
Qed.
Lemma requestAllocation_ok exists_ authorise id scope route actor requestId :
  preserves control_ok (requestAllocation exists_ authorise id scope route actor requestId).
Proof.
  unfold requestAllocation, getForScope, recordAllocationRejection. cbv zeta. control.
Qed.
Lemma failOverdue_ok deadline limit one agentSession :
  preserves control_ok (failOverdueAllocations deadline limit one agentSession).
Proof. pose proof failReservation_ok. unfold failOverdueAllocations. control. Qed.
Lemma completePending_ok answers older limit :
  preserves control_ok (completePendingAllocations answers older limit).
Proof. pose proof allocate_ok. unfold completePendingAllocations. control. Qed.
End methods.
