(* ===== verification/BrowserLifecycle.v ===== *)
(** * Browser sessions under concurrent requests

    The state is the tables, the methods that wait for another process (the
    worker's answer) or for their transaction to open, and the commands that
    were sent to the worker so far.  A waiting method has read the session's row
    and acts on what it read, whatever happened since. *)

From S2P Require Import Prelude Errors ReviewProtocol BrowserProtocol Events ControlAuthorisation Store BrowserSessions Preserve Invariants Effects ControlInvariants.

(** ** Requests that run through *)

Inductive BrowserRequest :=
| do_create (input : StartSessionInput)
| do_allocate (answers : Answers) (id : string) (scope : SessionScope) (route : option string)
    (actor : EventActor)
| do_request_allocation (exists_ : option bool) (authorise : option (result Failure unit))
    (id : string) (scope : SessionScope) (route : string) (actor : EventActor) (requestId : string)
| do_pause (id : string) (attempt : Attempt)
| do_resume (id : string) (attempt : Attempt)
| do_end (id : string) (attempt : Attempt) (reason : TerminationReason)
| do_terminate (id : string) (reason : TerminationReason) (actor : EventActor)
| do_report (id : string) (report : SessionStatusReport) (actor : EventActor)
| do_reconcile (id : string) (status : SessionStatus) (reason : string)
| do_expire_leases
| do_fail_overdue (deadlineMs : Z) (limit : nat) (one agentSession : option string)
| do_complete_pending (answers : string → Answers) (olderThanMs : Z) (limit : nat).

Definition quietly {A} (m : M A) : M unit := m ;; mret tt.

Section system.
Context `{Entropy} `{WorkerConfig}.

Definition serve (r : BrowserRequest) : M unit :=
  match r with
  | do_create input => quietly (createSession input)
  | do_allocate answers id scope route actor => quietly (allocate answers id scope route actor)
  | do_request_allocation exists_ authorise id scope route actor requestId =>
      quietly (requestAllocation exists_ authorise id scope route actor requestId)
  | do_pause id attempt => quietly (pause id attempt)
  | do_resume id attempt => quietly (resume id attempt)
  | do_end id attempt reason => quietly (endSession id attempt reason)
  | do_terminate id reason actor => quietly (terminate id reason actor)
  | do_report id report actor => quietly (applyWorkerReport id report actor)
  | do_reconcile id status reason => markReconciled id status reason
  | do_expire_leases => expireStaleLeases
  | do_fail_overdue deadlineMs limit one agentSession =>
      quietly (failOverdueAllocations deadlineMs limit one agentSession)
  | do_complete_pending answers olderThanMs limit =>
      quietly (completePendingAllocations answers olderThanMs limit)
  end.

(** ** The system *)

(** A command the control plane has let through. *)
Record Sent := {
  sn_session : string;
  sn_epoch : Z;
  sn_controller : ControllerIdentity;
  sn_command : CommandName;
  sn_sequence : Z
}.

Inductive InFlight :=
| awaits_worker (input : CommandInput) (session : BrowserSessionRow) (sequence : Z)
| awaits_grant (input : ControlRequest) (session : BrowserSessionRow)
| awaits_release (attempt : Attempt) (session : BrowserSessionRow).

Record Browsers := { bw_st : St; in_flight : list InFlight; sent : list Sent }.

Definition sent_as (input : CommandInput) (session : BrowserSessionRow) (sequence : Z) : Sent :=
  {| sn_session := bs_id session; sn_epoch := at_controlEpoch (ci_attempt input);
     sn_controller := at_controller (ci_attempt input);
     sn_command := bc_command (ci_command input); sn_sequence := sequence |}.

Definition at_st (s : St) (x : Browsers) : Browsers :=
  {| bw_st := s; in_flight := in_flight x; sent := sent x |}.
Definition waiting (p : InFlight) (x : Browsers) : Browsers :=
  {| bw_st := bw_st x; in_flight := p :: in_flight x; sent := sent x |}.
Definition resumed (s : St) (ps : list InFlight) (x : Browsers) : Browsers :=
  {| bw_st := s; in_flight := ps; sent := sent x |}.
Definition later (t : Z) (s : St) : St :=
  {| db := db s; drawn := drawn s; clock := t; denied := denied s |}.

(** One request, one half of a request, or time passing. *)
Inductive moves (x : Browsers) : Browsers → Prop :=
| mv_time t : (clock (bw_st x) ≤ t)%Z → moves x (at_st (later t (bw_st x)) x)
| mv_serve r res s' : serve r (bw_st x) = (res, s') → moves x (at_st s' x)
| mv_send input session sequence s' :
    beginCommand input (bw_st x) = (Ok (session, sequence), s') →
    moves x {| bw_st := s'; in_flight := awaits_worker input session sequence :: in_flight x;
               sent := sent_as input session sequence :: sent x |}
| mv_refuse_command input e s' :
    beginCommand input (bw_st x) = (Err e, s') → moves x (at_st s' x)
| mv_worker_answers ps ps' input session sequence result res s' :
    in_flight x = ps ++ awaits_worker input session sequence :: ps' →
    finishCommand input session sequence result (bw_st x) = (res, s') →
    moves x (resumed s' (ps ++ ps') x)
| mv_worker_fails ps ps' input session sequence :
    in_flight x = ps ++ awaits_worker input session sequence :: ps' →
    moves x (resumed (bw_st x) (ps ++ ps') x)
| mv_request input r s' :
    decideRequest input (bw_st x) = (Ok (Proceed r), s') →
    moves x (waiting (awaits_grant input r) (at_st s' x))
| mv_answer_request input r s' :
    decideRequest input (bw_st x) = (Ok (Answer r), s') → moves x (at_st s' x)
| mv_refuse_request input e s' :
    decideRequest input (bw_st x) = (Err e, s') → moves x (at_st s' x)
| mv_grant ps ps' input r res s' :
    in_flight x = ps ++ awaits_grant input r :: ps' →
    grantControl input r (bw_st x) = (res, s') → moves x (resumed s' (ps ++ ps') x)
| mv_release id attempt r s' :
    decideRelease id attempt (bw_st x) = (Ok (Proceed r), s') →
    moves x (waiting (awaits_release attempt r) (at_st s' x))
| mv_answer_release id attempt r s' :
    decideRelease id attempt (bw_st x) = (Ok (Answer r), s') → moves x (at_st s' x)
| mv_refuse_release id attempt e s' :
    decideRelease id attempt (bw_st x) = (Err e, s') → moves x (at_st s' x)
| mv_drop ps ps' attempt r res s' :
    in_flight x = ps ++ awaits_release attempt r :: ps' →
    dropControl attempt r (bw_st x) = (res, s') → moves x (resumed s' (ps ++ ps') x).

Definition quiet (s : St) : Browsers := {| bw_st := s; in_flight := []; sent := [] |}.

(** What every move keeps: a predicate on the tables that every operation
    preserves. *)
Lemma moves_keep (P : Db → Prop) x y :
  (∀ r, preserves P (serve r)) → (∀ input, preserves P (beginCommand input)) →
  (∀ input r n result, preserves P (finishCommand input r n result)) →
  (∀ input, preserves P (decideRequest input)) → (∀ input r, preserves P (grantControl input r)) →
  (∀ id a, preserves P (decideRelease id a)) → (∀ a r, preserves P (dropControl a r)) →
  moves x y → P (db (bw_st x)) → P (db (bw_st y)).
Proof.
  intros Hs Hb Hf Hq Hg Hr Hd Hm HP.
  destruct Hm; cbn; try done; match goal with H : _ = (_, ?s') |- P (db ?s') => revert H end;
    intros Hrun; [eapply Hs|eapply Hb|eapply Hb|eapply Hf|eapply Hq|eapply Hq|eapply Hq|eapply Hg
                 |eapply Hr|eapply Hr|eapply Hr|eapply Hd]; done.
Qed.

(** ** The invariant of the tables *)

Lemma quietly_keeps {A} P (m : M A) : preserves P m → preserves P (quietly m).
Proof. intros Hm. apply preserves_bind; [done|intros a; apply preserves_ret]. Qed.

Lemma serve_ok r : preserves control_ok (serve r).
Proof.
  destruct r; cbn [serve]; try apply quietly_keeps;
    eauto using createSession_ok, allocate_ok, requestAllocation_ok, pause_ok, resume_ok, end_ok,
      terminate_ok, applyWorkerReport_ok, markReconciled_ok, expire_ok, failOverdue_ok,
      completePending_ok.
Qed.

Lemma moves_ok x y : moves x y → control_ok (db (bw_st x)) → control_ok (db (bw_st y)).
Proof.
  apply moves_keep; eauto using serve_ok, begin_ok, finish_ok, decideRequest_ok, grantControl_ok,
    decideRelease_ok, drop_ok.
Qed.

(** ** Leases are never forgotten *)

Ltac keep_leases :=
  repeat first
    [ apply lease_given_revoke | apply lease_given_insert | apply lease_given_update
    | apply quietly_keeps | solve [auto] | preserve_step ].

Section leases.
Context (session : string) (epoch : Z) (c : ControllerIdentity).

Lemma setStatus_keeps_lease r status actor type payload :
  preserves (lease_given session epoch c) (setStatus r status actor type payload).
Proof. unfold setStatus, update_session. cbv zeta. keep_leases. Qed.
Lemma serve_keeps_lease r : preserves (lease_given session epoch c) (serve r).
Proof.
  pose proof setStatus_keeps_lease. destruct r; cbn [serve];
    unfold createSession, create_statements, activeWorker, insert_session, completePendingAllocations,
      allocate, requestAllocation, getForScope, recordAllocationRejection, claimForAllocation,
      bindService, settleAllocation, explainWorkerRefusal, assignedProjects, failOverdueAllocations,
      failReservation, pause, resume, endSession, terminate, applyWorkerReport, markReconciled,
      requireControl, refuseLifecycle, recordLifecycleRejection, record_rejected, rejection_stream,
      projectStream, getSession, update_session, revokeLeases, expireStaleLeases;
    cbv zeta; keep_leases.
Qed.
Lemma begin_keeps_lease input : preserves (lease_given session epoch c) (beginCommand input).
Proof.
  unfold beginCommand, getSession, route_associated, recordRejection, record_rejected,
    rejection_stream, projectStream, update_session. cbv zeta. keep_leases.
Qed.
Lemma finish_keeps_lease input r n result :
  preserves (lease_given session epoch c) (finishCommand input r n result).
Proof.
  unfold finishCommand, navigated_event, screenshot_event, update_session. cbv zeta. keep_leases.
Qed.
Lemma decideRequest_keeps_lease input : preserves (lease_given session epoch c) (decideRequest input).
Proof.
  unfold decideRequest, getSession, refuseLifecycle, recordLifecycleRejection, record_rejected,
    rejection_stream, projectStream. cbv zeta. keep_leases.
Qed.
Lemma grant_keeps_lease input r : preserves (lease_given session epoch c) (grantControl input r).
Proof.
  unfold grantControl, grant_statements, getSession, revokeLeases, update_session. cbv zeta.
  keep_leases.
Qed.
Lemma decideRelease_keeps_lease id a : preserves (lease_given session epoch c) (decideRelease id a).
Proof.
  unfold decideRelease, getSession, refuseLifecycle, recordLifecycleRejection, record_rejected,
    rejection_stream, projectStream. cbv zeta. keep_leases.
Qed.
Lemma drop_keeps_lease a r : preserves (lease_given session epoch c) (dropControl a r).
Proof. unfold dropControl, getSession, revokeLeases, update_session. cbv zeta. keep_leases. Qed.

Lemma moves_keep_lease x y :
  moves x y → lease_given session epoch c (db (bw_st x)) → lease_given session epoch c (db (bw_st y)).
Proof.
  apply moves_keep; auto using serve_keeps_lease, begin_keeps_lease, finish_keeps_lease,
    decideRequest_keeps_lease, grant_keeps_lease, decideRelease_keeps_lease, drop_keeps_lease.
Qed.
End leases.
End system.
