(* ===== verification/ControlTheorems.v ===== *)
(** * Who controls a browser

    What the epochs and leases of a session guarantee, and where the layers that
    read them part. *)

From S2P Require Import Prelude Errors ReviewProtocol BrowserProtocol ReviewDomain Events EntityId ControlAuthorisation Store BrowserSessions WorkerSessions Preserve Invariants Samples Effects ControlInvariants BrowserLifecycle.

(** ** A command that was let through *)

Record let_through (input : CommandInput) (s s' : St) (r : BrowserSessionRow) (n : Z) : Prop := {
  lt_row : browser_sessions (db s) !! ci_browserSessionId input = Some r;
  lt_passes : ∃ associated, authoriseBrowserCommand
    (command_context r (ci_attempt input) associated) (ci_command input) = None;
  lt_sequence : n = (bs_last_sequence r + 1)%Z;
  lt_worker : is_Some (bs_worker_id r)
}.

Section commands.
Context `{Entropy}.

Lemma route_associated_run r s a s' :
  route_associated r s = (Ok a, s') → s' = s.
Proof. unfold route_associated. case_match; intros Hr; by inv_run. Qed.

Lemma beginCommand_run input s r n s' :
  beginCommand input s = (Ok (r, n), s') → let_through input s s' r n.
Proof.
  unfold beginCommand. cbv zeta. intros Hr. apply bindM_ok in Hr as (r0 & s1 & Hg & Hr).
  apply getSession_run in Hg as [Hl ->]. apply bindM_ok in Hr as (a & s1 & Ha & Hr).
  apply route_associated_run in Ha as ->.
  destruct (authoriseBrowserCommand _ _) as [d|] eqn:Hauth.
  { apply bindM_ok in Hr as (? & ? & _ & Hr). by apply throwM_ok in Hr. }
  destruct (bs_worker_id r0) as [w|] eqn:Hw.
  - apply bindM_ok in Hr as (u & s1 & _ & Hr). apply retM_ok in Hr as [[= -> ->] ->].
    constructor; [done|by eexists|done|by eexists].
  - apply bindM_ok in Hr as (? & ? & _ & Hr). by apply throwM_ok in Hr.
Qed.

(** An interactive command was sent by the controller the session had. *)
Lemma let_through_interactive input s s' r n :
  let_through input s s' r n → isInteractive (bc_command (ci_command input)) = true →
  at_controlEpoch (ci_attempt input) = bs_control_epoch r
  ∧ bs_current_controller r = Some (at_controller (ci_attempt input)).
Proof.
  intros [_ [a Ha] _ _] Hi. apply authorise_iff in Ha as (_ & _ & He & Hs & _). cbn in *.
  split; [done|]. destruct Hs as [?|[Hc _]]; [done|]. exfalso.
  unfold isInteractive, includes in Hi. rewrite bool_decide_eq_true in Hi.
  destruct (bc_command (ci_command input)); set_solver.
Qed.
End commands.

Section epochs.
Context `{Entropy} `{WorkerConfig}.

(** What a reachable state keeps: the tables' invariant, and that every
    interactive command went out under a lease its sender had been given. *)
Definition commands_leased (x : Browsers) : Prop :=
  control_ok (db (bw_st x)) ∧
  ∀ a, a ∈ sent x → isInteractive (sn_command a) = true →
    lease_given (sn_session a) (sn_epoch a) (sn_controller a) (db (bw_st x)).

Lemma moves_leased x y : moves x y → commands_leased x → commands_leased y.
Proof.
  intros Hm [Hok Hsent]. pose proof (moves_ok _ _ Hm Hok) as Hok'. split; [done|].
  intros a Ha Hi.
  assert (a ∈ sent x → lease_given (sn_session a) (sn_epoch a) (sn_controller a) (db (bw_st y)))
    as Hold by (intros Hin; eapply moves_keep_lease; [exact Hm|by apply Hsent]).
  destruct Hm; try (apply Hold; exact Ha). cbn in *. rewrite elem_of_cons in Ha.
  destruct Ha as [->|?]; [|by apply Hold].
  rename select (beginCommand _ _ = _) into Hb.
  pose proof (beginCommand_run _ _ _ _ _ Hb) as Hlt.
  destruct (let_through_interactive _ _ _ _ _ Hlt Hi) as [He Hc].
  apply (begin_keeps_lease _ _ _ _ _ _ _ Hb). cbn. rewrite He.
  pose proof (lt_row _ _ _ _ _ Hlt) as Hr.
  rewrite (rows_ok_key _ _ _ _ _ (sessions_ok _ Hok) Hr). by eapply controller_has_lease.
Qed.

Lemma reachable_leased s x : control_ok (db s) → rtc moves (quiet s) x → commands_leased x.
Proof.
  intros Hok Hr. assert (commands_leased (quiet s)) as Hq.
  { split; [done|]. by intros a ?%not_elem_of_nil. }
  revert Hq. induction Hr as [x|x y z Hm _ IH]; [done|].
  intros Hx. apply IH. by eapply moves_leased.
Qed.

(** C6: one interactive controller per epoch.  However requests for control,
    releases, commands, worker reports and sweeps interleave, each acting on
    what it had read, all the interactive commands ever sent to a session under
    one epoch come from one controller. *)
Theorem one_controller_per_epoch s x a b :
  control_ok (db s) → rtc moves (quiet s) x → a ∈ sent x → b ∈ sent x →
  isInteractive (sn_command a) = true → isInteractive (sn_command b) = true →
  sn_session a = sn_session b → sn_epoch a = sn_epoch b → sn_controller a = sn_controller b.
Proof.
  intros Hok Hr Ha Hb Hia Hib Hs He. destruct (reachable_leased _ _ Hok Hr) as [Hx Hsent].
  pose proof (Hsent _ Ha Hia) as Hla. pose proof (Hsent _ Hb Hib) as Hlb.
  rewrite <- Hs, <- He in Hlb. by eapply one_controller_per_lease.
Qed.
End epochs.

(** ** Taking control *)

Section control.
Context `{Entropy}.

Lemma refuse_run {A} session attempt act denial s (a : A) s' :
  refuseLifecycle session attempt act denial s = (Ok a, s') → False.
Proof. intros (? & ? & _ & Hr)%bindM_ok. by apply throwM_ok in Hr. Qed.

(** A request that was not refused, and the row it was decided on. *)
Record requestable (input : ControlRequest) (s : St) (r : BrowserSessionRow) : Prop := {
  rb_row : browser_sessions (db s) !! rq_browserSessionId input = Some r;
  rb_project : bs_project_id r = rq_projectId input;
  rb_live : bs_ended_at r = None ∧ is_over (bs_status r) = false;
  rb_machine : ct_type (rq_controller input) ≠ by_human
}.
Lemma decideRequest_run input s d s' :
  decideRequest input s = (Ok d, s') → s' = s ∧ ∃ r, requestable input s r ∧
    ((d = Answer r ∧ bs_current_controller r = Some (rq_controller input)) ∨
     (d = Proceed r ∧ bs_current_controller r ≠ Some (rq_controller input))).
Proof.
  unfold decideRequest. cbv zeta. intros Hr. apply bindM_ok in Hr as (r & s1 & Hg & Hr).
  apply getSession_run in Hg as [Hl ->].
  case_bool_decide as Hp; cbn [negb] in Hr; [|by apply refuse_run in Hr].
  destruct (negb (bool_decide (bs_ended_at r = None)) || is_over (bs_status r)) eqn:Ho;
    [by apply refuse_run in Hr|].
  apply orb_false_iff in Ho as [He%negb_false_iff%bool_decide_eq_true Ho].
  case_bool_decide as Hh; [apply bindM_ok in Hr as (? & ? & _ & Hr); by apply throwM_ok in Hr|].
  case_bool_decide as Hc; apply retM_ok in Hr as [-> ->]; (split; [done|]); exists r;
    (split; [by constructor|]); [by left|by right].
Qed.

(** What a granted request has done to the session it found as [r]. *)
Record control_taken (input : ControlRequest) (s s' : St) (r x : BrowserSessionRow) : Prop := {
  tk_row : x = set_control (Some (rq_controller input)) (bs_control_epoch r + 1) r;
  tk_sessions : browser_sessions (db s') = <[bs_id r := x]> (browser_sessions (db s));
  tk_leases : ∀ k l, control_leases (db s') !! k = Some l → cl_browser_session_id l = bs_id r →
    cl_revoked_at l = None →
    cl_controller l = rq_controller input ∧ cl_epoch l = bs_control_epoch x;
  tk_tables : db s' = with_log (log (db s')) (with_browser_sessions (browser_sessions (db s'))
    (with_control_leases (control_leases (db s')) (db s)));
  tk_events : logs (session_scope r) (rq_actor input)
    ["browser.control_requested"; "browser.control_transferred"] (db s) (db s');
  tk_commands : ∀ command sent_row n s2, beginCommand command s' = (Ok (sent_row, n), s2) →
    ci_browserSessionId command = bs_id r →
    at_controlEpoch (ci_attempt command) = bs_control_epoch x ∧
    (isInteractive (bc_command (ci_command command)) = true →
       at_controller (ci_attempt command) = rq_controller input)
}.

Lemma takes_control input s x s' :
  control_ok (db s) → requestControl input s = (Ok x, s') →
  ∃ r, requestable input s r ∧
    ((bs_current_controller r = Some (rq_controller input) ∧ x = r ∧ s' = s) ∨
     control_taken input s s' r x).
Proof.
  intros Hok Hr. unfold requestControl in Hr. apply bindM_ok in Hr as (d & s1 & Hd & Hr).
  apply decideRequest_run in Hd as (-> & r & Hrb & [[-> Hc]|[-> Hc]]);
    exists r; (split; [done|]); [left|right].
  { apply retM_ok in Hr as [-> ->]. done. }
  pose proof Hr as Hrun. apply grantControl_run in Hr as (r' & l & Hg & ->).
  pose proof (rb_row _ _ _ Hrb) as Hrow. pose proof (gr_row _ _ _ _ _ _ Hg) as Hrow'.
  assert (bs_id r = rq_browserSessionId input) as Hid
    by (eapply rows_ok_key; [apply (sessions_ok _ Hok)|done]).
  rewrite Hid, Hrow in Hrow'. injection Hrow' as <-.
  destruct (gr_db _ _ _ _ _ _ Hg) as (s2 & Hdb & Hw).
  pose proof (wrote_db _ _ _ _ _ Hw) as Hw'. destruct (gr_lease _ _ _ _ _ _ Hg) as [lid Hl].
  assert (browser_sessions (db s') = <[bs_id r := set_control (Some (rq_controller input))
    (bs_control_epoch r + 1) r]> (browser_sessions (db s))) as Hbs by (by rewrite Hw', Hdb).
  constructor; [done|exact Hbs| | | |].
  - rewrite Hw', Hdb. cbn. intros k l' Hk Hs Hn. apply lookup_insert_Some in Hk as [[<- <-]|[Hne Hk]].
    + by rewrite Hl.
    + apply all_revoked_lookup in Hk as Hk'. destruct Hk' as (l0 & Hk0 & _ & _ & Hs0 & _).
      destruct (lookup_all_revoked (clock s) (bs_id r) "superseded by a new controller" _ _ _ Hk0)
        as (l1 & Hl1 & _ & _ & _ & _ & Hrev).
      unfold all_revoked in *. rewrite Hk in Hl1. injection Hl1 as <-.
      by destruct Hrev; [congruence|].
  - by rewrite Hw', Hdb.
  - apply wrote_logs in Hw. unfold logs in *. by rewrite Hdb in Hw.
  - intros command sr n s3 Hb Hcs. apply beginCommand_run in Hb as Hlt.
    pose proof (lt_row _ _ _ _ _ Hlt) as Hsr. rewrite Hcs, Hbs, lookup_insert_eq in Hsr.
    injection Hsr as <-. split.
    + destruct (lt_passes _ _ _ _ _ Hlt) as [a Ha]. apply authorise_iff in Ha. by destruct Ha as (_ & _ & ? & _).
    + intros Hi. destruct (let_through_interactive _ _ _ _ _ Hlt Hi) as [_ Hcc].
      cbn in Hcc. by injection Hcc.
Qed.

(** taking control.  A request for control that is not refused is for a live
    session of the caller's project and not for a human.  When the caller holds
    control already nothing changes.  Otherwise the session is the caller's at
    the next epoch, every other lease of the session is revoked, no other session
    and no other table changes, exactly two events are written, and from then on
    no interactive command of anyone else, nor any command under another epoch,
    is let through. *)
Theorem requestControl_takes_control input s x s' :
  control_ok (db s) → requestControl input s = (Ok x, s') →
  ∃ r, requestable input s r ∧
    ((bs_current_controller r = Some (rq_controller input) ∧ x = r ∧ s' = s) ∨
     control_taken input s s' r x).
Proof. apply takes_control. Qed.
End control.

(** ** Samples: one browser, controlled by an agent since epoch 1 *)

#[export] Instance sample_config : WorkerConfig :=
  {| heartbeatIntervalSeconds := 15; degradedAfterSeconds := 45 |}.

Lemma no_clash_singleton {K A} `{Countable K} (clash : A → A → Prop) (k : K) (a : A) :
  no_clash clash {[ k := a ]}.
Proof. intros i j x y Hi Hj _. rewrite lookup_singleton_Some in Hi, Hj. naive_solver. Qed.

Lemma start_control_ok : control_ok (db Samples.start).
Proof.
  constructor; cbn.
  - by apply map_Forall_singleton.
  - by apply map_Forall_singleton.
  - apply no_clash_singleton.
  - apply no_clash_singleton.
  - intros k r c [<- <-]%lookup_singleton_Some [= <-]. by exists "lse_1", sample_lease.
Qed.

Definition other_agent (id : string) : ControllerIdentity := {| ct_type := by_agent; ct_id := id |}.
Definition presents (c : ControllerIdentity) (epoch : Z) : Attempt :=
  {| at_projectId := "prj_1"; at_controller := c; at_controlEpoch := epoch; at_actor := Samples.worker |}.
Definition asks (c : ControllerIdentity) : ControlRequest :=
  {| rq_browserSessionId := "brs_1"; rq_projectId := "prj_1"; rq_controller := c;
     rq_reason := None; rq_actor := Samples.worker |}.
Definition plain (c : CommandName) : BrowserCommand :=
  {| bc_command := c; bc_timeout_ms := 1000; bc_type_text := None; bc_screenshot_purpose := None |}.
Definition issues (c : ControllerIdentity) (epoch : Z) (command : CommandName) : CommandInput :=
  {| ci_browserSessionId := "brs_1"; ci_attempt := presents c epoch; ci_command := plain command |}.
Definition session_at (s : St) : option BrowserSessionRow := browser_sessions (db s) !! "brs_1".

(** The agent's click, then its navigation. *)
Definition after_click : St := snd (beginCommand (issues agent1 1 click) Samples.start).

Lemma one_controller_per_epoch_witness :
  let row := sample_session in
  sn_controller (sent_as (issues agent1 1 navigate) (set_sequence 0 row) 1)
  = sn_controller (sent_as (issues agent1 1 click) row 0).
Proof.
  apply (one_controller_per_epoch Samples.start
    {| bw_st := snd (beginCommand (issues agent1 1 navigate) after_click);
       in_flight := [awaits_worker (issues agent1 1 navigate) (set_sequence 0 sample_session) 1;
                     awaits_worker (issues agent1 1 click) sample_session 0];
       sent := [sent_as (issues agent1 1 navigate) (set_sequence 0 sample_session) 1;
                sent_as (issues agent1 1 click) sample_session 0] |}).
  - apply start_control_ok.
  - eapply rtc_l.
    { apply (mv_send (quiet Samples.start) (issues agent1 1 click) sample_session 0 after_click).
      vm_compute. reflexivity. }
    eapply rtc_l; [|apply rtc_refl].
    apply (mv_send
      {| bw_st := after_click; in_flight := [awaits_worker (issues agent1 1 click) sample_session 0];
         sent := [sent_as (issues agent1 1 click) sample_session 0] |} (issues agent1 1 navigate) (set_sequence 0 sample_session) 1
      (snd (beginCommand (issues agent1 1 navigate) after_click))).
    vm_compute. reflexivity.
  - left.
  - right. left.
  - reflexivity.
  - reflexivity.
  - reflexivity.
  - reflexivity.
Defined.

Lemma requestControl_takes_control_witness :
  let x := set_control (Some (other_agent "ags_2")) 2 sample_session in
  let s' := snd (requestControl (asks (other_agent "ags_2")) Samples.start) in
  ∃ r, requestable (asks (other_agent "ags_2")) Samples.start r ∧
    ((bs_current_controller r = Some (other_agent "ags_2") ∧ x = r ∧ s' = Samples.start) ∨
     control_taken (asks (other_agent "ags_2")) Samples.start s' r x).
Proof.
  apply (requestControl_takes_control (asks (other_agent "ags_2")) Samples.start
    (set_control (Some (other_agent "ags_2")) 2 sample_session)).
  - apply start_control_ok.
  - vm_compute. reflexivity.
Defined.

(** ** A release that commits late *)

(** The first agent's release has read epoch 1 when a second and a third agent
    take control. *)
Definition release_waits : InFlight := awaits_release (presents agent1 1) sample_session.
Definition taken_twice : St :=
  snd (requestControl (asks (other_agent "ags_3"))
    (snd (requestControl (asks (other_agent "ags_2")) Samples.start))).
Definition released_late : St := snd (dropControl (presents agent1 1) sample_session taken_twice).

Lemma taken_twice_reachable :
  rtc moves (quiet Samples.start)
    {| bw_st := taken_twice; in_flight := [release_waits]; sent := [] |}.
Proof.
  set (second := snd (requestControl (asks (other_agent "ags_2")) Samples.start)).
  set (row2 := set_control (Some (other_agent "ags_2")) 2 sample_session).
  eapply rtc_l.
  { apply (mv_release (quiet Samples.start) "brs_1" (presents agent1 1) sample_session Samples.start).
    vm_compute. reflexivity. }
  eapply rtc_l.
  { apply (mv_request (waiting release_waits (quiet Samples.start)) (asks (other_agent "ags_2"))
             sample_session Samples.start). vm_compute. reflexivity. }
  eapply rtc_l.
  { apply (mv_grant (waiting (awaits_grant (asks (other_agent "ags_2")) sample_session)
                       (waiting release_waits (quiet Samples.start)))
             [] [release_waits] (asks (other_agent "ags_2")) sample_session (Ok row2) second);
      [reflexivity|vm_compute; reflexivity]. }
  eapply rtc_l.
  { apply (mv_request (resumed second [release_waits] (quiet Samples.start))
             (asks (other_agent "ags_3")) row2 second). vm_compute. reflexivity. }
  eapply rtc_l; [|apply rtc_refl].
  apply (mv_grant (waiting (awaits_grant (asks (other_agent "ags_3")) row2)
                     (resumed second [release_waits] (quiet Samples.start)))
           [] [release_waits] (asks (other_agent "ags_3")) row2
           (Ok (set_control (Some (other_agent "ags_3")) 3 row2)) taken_twice);
    [reflexivity|vm_compute; reflexivity].
Qed.

(** the epoch can move back, and then nobody can take control again.  A
    release reads the session before its transaction and writes the epoch it
    computed then: in a reachable state the session is at epoch 3, under a third
    agent; the first agent's release commits and the session is at epoch 2 with
    no controller, the third agent's lease revoked; and from there every request
    of an agent for control fails on the unique index of the leases, since
    epoch 3 has had its lease. *)
Theorem late_release_moves_the_epoch_back :
  ∃ x y r r', rtc moves (quiet Samples.start) x ∧ moves x y ∧
    session_at (bw_st x) = Some r ∧ session_at (bw_st y) = Some r' ∧
    bs_current_controller r = Some (other_agent "ags_3") ∧ bs_current_controller r' = None ∧
    (bs_control_epoch r' < bs_control_epoch r)%Z ∧
    ∀ id, fst (requestControl (asks (other_agent id)) (bw_st y))
          = Err (UniqueViolation "control_leases_epoch_unique").
Proof.
  exists {| bw_st := taken_twice; in_flight := [release_waits]; sent := [] |},
    {| bw_st := released_late; in_flight := []; sent := [] |},
    (set_control (Some (other_agent "ags_3")) 3 sample_session), (set_control None 2 sample_session).
  split_and!; try (vm_compute; reflexivity).
  - apply taken_twice_reachable.
  - apply (mv_drop {| bw_st := taken_twice; in_flight := [release_waits]; sent := [] |}
             [] [] (presents agent1 1) sample_session (Ok (set_control None 2 sample_session)));
      [reflexivity|vm_compute; reflexivity].
Qed.

(** ** A report that arrives late *)

Definition worker1 : EventActor :=
  {| actor_type := browser_worker; actor_id := Some "wkr_1"; actor_display := None |}.

(** The worker's side of the sample session, allocated at epoch 1. *)
#[export] Instance sample_limits : WorkerLimits := [("max_command_timeout_ms", JNum 120000)].
Definition worker_session : BrowserSession :=
  {| ws_id := "brs_1"; ws_projectId := "prj_1";
     ws_limits := [("max_command_timeout_ms", JNum 120000)]; ws_status := BS_READY;
     ws_controlEpoch := 1; ws_controller := agent1; ws_lastSequence := -1 |}.
Definition sample_manager : SessionManager :=
  {| sm_sessions := {[ "brs_1" := worker_session ]}; sm_assignedProjects := Some ["prj_1"];
     sm_capacity := 4 |}.
Definition always_ok : Execution := λ s command sequence,
  {| br_ok := true; br_command := bc_command command; br_sequence := sequence;
     br_control_epoch := ws_controlEpoch s; br_trust := "untrusted_browser_content";
     br_error := None;
     br_navigation := Some {| nv_url := Some "https://app.invalid/"; nv_http_status := Some 200%Z |};
     br_screenshot := None |}.
Definition navigation :
    BrowserCommandResult * list SessionStatusReport * SessionManager :=
  handleCommand true always_ok "brs_1" agent1 1 0 (plain navigate) sample_manager.
Definition navigated_report : SessionStatusReport :=
  report (markActive (recordSequence 0 worker_session)) ACTIVE BS_READY "navigated".

Definition navigating : St := snd (beginCommand (issues agent1 1 navigate) Samples.start).
Definition paused_meanwhile : St := snd (pause "brs_1" (presents agent1 1) navigating).
Definition reported : St := snd (applyWorkerReport "brs_1" navigated_report worker1 paused_meanwhile).
Definition ended_meanwhile : St :=
  snd (endSession "brs_1" (presents agent1 1) tr_requested navigating).
Definition reported_after_end : St :=
  snd (applyWorkerReport "brs_1" navigated_report worker1 ended_meanwhile).

(** A report that arrives late undoes a pause, and an end.  While a
    navigation is at the worker its session is paused; the worker, which is not
    told, reports the session it navigated as ACTIVE, and a click is let through
    again although nobody resumed the session.  The same report on a session
    ended meanwhile leaves it ACTIVE with the time it ended. *)
Theorem late_report_undoes_pause :
  (∃ result w, navigation = (result, [navigated_report], w)) ∧
  bs_status <$> session_at paused_meanwhile = Some PAUSED ∧
  (∃ e s, beginCommand (issues agent1 1 click) paused_meanwhile = (Err (ApiThrown e), s)
     ∧ code e = BROWSER_SESSION_NOT_ACTIVE) ∧
  rtc moves (quiet Samples.start)
    {| bw_st := reported; in_flight := [awaits_worker (issues agent1 1 navigate) sample_session 0];
       sent := [sent_as (issues agent1 1 navigate) sample_session 0] |} ∧
  bs_status <$> session_at reported = Some ACTIVE ∧
  is_ok (fst (beginCommand (issues agent1 1 click) reported)) = true ∧
  (bs_status <$> session_at ended_meanwhile = Some TERMINATED) ∧
  (bs_status <$> session_at reported_after_end = Some ACTIVE) ∧
  (bs_ended_at <$> session_at reported_after_end = Some (Some 1000%Z)) ∧
  is_ok (fst (beginCommand (issues agent1 1 click) reported_after_end)) = true.
Proof.
  split_and!; try (vm_compute; reflexivity).
  - eexists _, _. vm_compute. reflexivity.
  - eexists _, _. vm_compute. split; reflexivity.
  - set (flight := [awaits_worker (issues agent1 1 navigate) sample_session 0]).
    set (gone := [sent_as (issues agent1 1 navigate) sample_session 0]).
    eapply rtc_l.
    { apply (mv_send (quiet Samples.start) (issues agent1 1 navigate) sample_session 0 navigating).
      vm_compute. reflexivity. }
    eapply rtc_l.
    { apply (mv_serve {| bw_st := navigating; in_flight := flight; sent := gone |}
               (do_pause "brs_1" (presents agent1 1)) (Ok tt) paused_meanwhile).
      vm_compute. reflexivity. }
    eapply rtc_l; [|apply rtc_refl].
    apply (mv_serve {| bw_st := paused_meanwhile; in_flight := flight; sent := gone |}
             (do_report "brs_1" navigated_report worker1) (Ok tt) reported).
    vm_compute. reflexivity.
Qed.

(** ** Leases and the commands they are meant to authorise *)

(** The same tables with other leases. *)
Definition with_leases (t : gmap string ControlLeaseRow) (s : St) : St :=
  with_db (with_control_leases t (db s)) s.

(** A computation that does not look at the leases, and leaves them alone. *)
Definition blind {A} (m : M A) : Prop :=
  ∀ t s, m (with_leases t s) = (fst (m s), with_leases t (snd (m s))).

Section blind.
Context `{Entropy}.

Lemma blind_ret {A} (a : A) : blind (mret a).
Proof. done. Qed.
Lemma blind_throw {A} e : blind (throwM e : M A).
Proof. done. Qed.
Lemma blind_bind {A B} (m : M A) (f : A → M B) : blind m → (∀ a, blind (f a)) → blind (m ≫= f).
Proof.
  intros Hm Hf t s. unfold mbind, M_bind. rewrite (Hm t s).
  destruct (m s) as [[a|e] s1]; cbn; [apply Hf|done].
Qed.
Lemma blind_gets {A} (f : Db → A) :
  (∀ t d, f (with_control_leases t d) = f d) → blind (gets f).
Proof. intros Hf t s. unfold gets, with_leases. cbn. by rewrite Hf. Qed.
Lemma blind_modify f :
  (∀ t d, f (with_control_leases t d) = with_control_leases t (f d)) → blind (modify f).
Proof. intros Hf t s. unfold modify, with_leases. cbn. by rewrite Hf. Qed.
Lemma blind_now : blind now.
Proof. done. Qed.
Lemma blind_guard cs us : blind (guard_row cs us).
Proof. intros t s. unfold guard_row. by destruct (violated cs), (violated us). Qed.
Lemma blind_inTransaction {A} (m : M A) : blind m → blind (inTransaction m).
Proof.
  intros Hm t s. unfold inTransaction. rewrite (Hm t s).
  by destruct (m s) as [[a|e] s1].
Qed.
Lemma blind_append type scope actor correlation payload :
  blind (append type scope actor correlation payload).
Proof.
  apply blind_bind.
  - intros t s. unfold newId. by destruct (newPrefixedId _ _).
  - intros id t s. unfold write_event. cbn. by destruct (appendEvent _ _ _ _) as [|[]].
Qed.

Ltac blind_step :=
  first
    [ apply blind_ret | apply blind_throw | apply blind_now | apply blind_guard
    | apply blind_gets; solve [done] | apply blind_modify; solve [done] | apply blind_append
    | apply blind_bind; [|intros ?] | apply blind_inTransaction
    | assumption | case_match ].

Lemma beginCommand_blind input : blind (beginCommand input).
Proof.
  unfold beginCommand, getSession, unless_none, route_associated, recordRejection, record_rejected,
    rejection_stream, projectStream, update_session, update_session_where. cbv zeta.
  repeat blind_step.
Qed.

(** An expired lease still controls.  Expiring the stale leases changes no
    session, so whether a command is sent, refused or fails, and under which
    sequence number, is the same before and after, whoever issues it and
    whichever leases ran out. *)
Theorem expired_lease_still_controls s input :
  ∃ s1, expireStaleLeases s = (Ok tt, s1) ∧
    (∀ k l, control_leases (db s1) !! k = Some l → cl_revoked_at l = None →
       (clock s ≤ cl_expires_at l)%Z) ∧
    browser_sessions (db s1) = browser_sessions (db s) ∧
    fst (beginCommand input s1) = fst (beginCommand input s).
Proof.
  unfold expireStaleLeases. rewrite revoke_where_run. eexists. split; [done|]. split_and!.
  - cbn. intros k l Hk Hn. rewrite lookup_fmap_Some in Hk. destruct Hk as (l0 & <- & Hk).
    case_match eqn:Hc; [done|]. rewrite (bool_decide_true (cl_revoked_at l0 = None)) in Hc by done.
    cbn [andb] in Hc. rewrite bool_decide_eq_false in Hc. lia.
  - done.
  - exact (f_equal fst (beginCommand_blind input _ s)).
Qed.
End blind.

(** ** The worker's copy *)

Section stranded.
Context `{Entropy} `{WorkerLimits}.

(** One operation of the worker. *)
Inductive works (w : SessionManager) : SessionManager → Prop :=
| wk_allocate launch id request res w' :
    allocateContext launch id request w = (res, w') → works w w'
| wk_command alive exec id c epoch n command res w' :
    handleCommand alive exec id c epoch n command w = (res, w') → works w w'
| wk_terminate id reason detail res w' :
    terminateContext id reason detail w = (res, w') → works w w'
| wk_fail s reason res w' : fail s reason w = (res, w') → works w w'
| wk_assign projects res w' : applyAssignment projects w = (res, w') → works w w'
| wk_shutdown res w' : shutdown w = (res, w') → works w w'
| wk_told projects : works w (setAssignedProjects projects w).

(** While the worker holds the session. *)
Inductive works_holding (id : string) (w : SessionManager) : SessionManager → Prop :=
| wh_here : is_Some (sm_sessions w !! id) → works_holding id w w
| wh_more w' w'' : works_holding id w w' → works w' w'' → is_Some (sm_sessions w'' !! id) →
    works_holding id w w''.

Lemma terminateAll_keeps ids reason detail w reports w' k s :
  terminateAll ids reason detail w = (reports, w') → sm_sessions w' !! k = Some s →
  sm_sessions w !! k = Some s.
Proof.
  revert w reports w'. induction ids as [|id ids IH]; intros w reports w' Hr Hk; cbn in Hr.
  - by injection Hr as _ <-.
  - unfold terminateContext in Hr. destruct (sm_sessions w !! id) as [x|].
    + destruct (terminateAll _ _ _ _) as [rs w2] eqn:Ht. injection Hr as _ <-.
      specialize (IH _ _ _ Ht Hk). cbn in IH. by apply lookup_delete_Some in IH as [_ ?].
    + destruct (terminateAll _ _ _ _) as [rs w2] eqn:Ht. injection Hr as _ <-. by eapply IH.
Qed.

Lemma works_epoch w w' id s s' :
  works w w' → sm_sessions w !! id = Some s → sm_sessions w' !! id = Some s' →
  ws_controlEpoch s' = ws_controlEpoch s ∧ ws_controller s' = ws_controller s.
Proof.
  assert (∀ t : gmap string BrowserSession, ∀ k x, t !! id = Some s →
    (t !! k = Some x ∨ t !! k = None) →
    ∀ y, (∀ x, t !! k = Some x → ws_controlEpoch y = ws_controlEpoch x ∧ ws_controller y = ws_controller x) →
    (<[k := y]> t) !! id = Some s' →
    ws_controlEpoch s' = ws_controlEpoch s ∧ ws_controller s' = ws_controller s) as Hins.
  { intros t k x Hs _ y Hy Hs'. apply lookup_insert_Some in Hs' as [[-> ->]|[_ Hs']]; [by apply Hy|].
    by rewrite Hs in Hs'; injection Hs' as ->. }
  assert (∀ (t : gmap string BrowserSession) k, t !! id = Some s → delete k t !! id = Some s' →
    s' = s) as Hdel.
  { intros t k Hs Hs'. apply lookup_delete_Some in Hs' as [_ Hs']. congruence. }
  intros Hw Hs Hs'. assert (sm_sessions w !! id = Some s' →
    ws_controlEpoch s' = ws_controlEpoch s ∧ ws_controller s' = ws_controller s) as Hsame
    by (rewrite Hs; by intros [= ->]).
  destruct Hw as [launch k request res w' Hr|alive exec k c e n command res w' Hr
    |k reason detail res w' Hr|x reason res w' Hr|projects res w' Hr|res w' Hr|projects].
  - unfold allocateContext in Hr. destruct (sm_sessions w !! k) as [x|] eqn:Hk;
      [injection Hr as _ <-; by apply Hsame|].
    destruct (negb _); [injection Hr as _ <-; by apply Hsame|].
    case_bool_decide; [injection Hr as _ <-; by apply Hsame|].
    destruct launch; injection Hr as _ <-; [by apply Hsame|]. cbn in Hs'.
    eapply (Hins _ k s Hs); [by right| |exact Hs']. intros x Hx. congruence.
  - unfold handleCommand in Hr. cbv zeta in Hr. destruct (sm_sessions w !! k) as [x|] eqn:Hk;
      [|injection Hr as _ <-; by apply Hsame].
    destruct (negb (acceptsCommands x)); [injection Hr as _ <-; by apply Hsame|].
    destruct (negb alive); [injection Hr as _ <-; rewrite (Hdel _ _ Hs Hs'); done|].
    destruct (authoriseCommand _ _); [injection Hr as _ <-; by apply Hsame|].
    case_bool_decide; injection Hr as _ <-; [by apply Hsame|]. cbn in Hs'.
    eapply (Hins _ k x Hs); [by left| |exact Hs']. intros x' Hx'. rewrite Hk in Hx'.
    injection Hx' as <-. unfold markActive. repeat case_match; done.
  - unfold terminateContext in Hr. destruct (sm_sessions w !! k); injection Hr as _ <-; [|by apply Hsame].
    by rewrite (Hdel _ _ Hs Hs').
  - injection Hr as _ <-. by rewrite (Hdel _ _ Hs Hs').
  - unfold applyAssignment in Hr. destruct (terminateAll _ _ _ _) as [rs w1] eqn:Ht.
    injection Hr as _ <-. by eapply Hsame, terminateAll_keeps.
  - by eapply Hsame, terminateAll_keeps.
  - by apply Hsame.
Qed.

Lemma held_epoch id w w' s :
  works_holding id w w' → sm_sessions w !! id = Some s →
  ∃ s', sm_sessions w' !! id = Some s' ∧ ws_controlEpoch s' = ws_controlEpoch s
    ∧ ws_controller s' = ws_controller s.
Proof.
  intros Hw Hs. induction Hw as [|w' w'' Hw IH Hstep [s'' Hs'']]; [eauto|].
  destruct IH as (s' & Hs' & He & Hc). destruct (works_epoch _ _ _ _ _ Hstep Hs' Hs'').
  exists s''. split_and!; [done|congruence..].
Qed.

Lemma stale_never_runs alive exec id c epoch n command w s :
  sm_sessions w !! id = Some s → epoch ≠ ws_controlEpoch s →
  br_ok (fst (fst (handleCommand alive exec id c epoch n command w))) = false.
Proof.
  intros Hs He. unfold handleCommand. rewrite Hs. cbv zeta.
  destruct (negb (acceptsCommands s)); [done|]. destruct (negb alive); [done|].
  unfold authoriseCommand. cbn [ca_epoch cs_epoch]. by rewrite bool_decide_false by done.
Qed.

End stranded.


(** ** Refusals *)

Section refusals.
Context `{Entropy}.

(** Where a refusal is recorded: on the session's stream, unless the session is
    another project's; then on the actor's. *)
Definition refusal_scope (d : Db) (r : BrowserSessionRow) (attempt : Attempt) (denial : CommandDenial) :
    option Scope :=
  if bool_decide (cd_reason denial = "project_mismatch")
  then (λ p, {| organisationId := pj_organisation_id p; projectId := at_projectId attempt |})
         <$> projects d !! at_projectId attempt
  else Some (session_scope r).

Lemma record_rejected_logged r attempt denial payload scope s :
  fresh_draw s → refusal_scope (db s) r attempt denial = Some scope →
  assertPayloadCarriesNoSecret (JObj payload) "payload" 0 = Ok tt →
  ∃ s', record_rejected r attempt denial payload s = (Ok tt, s') ∧
    logged s s' (is_event "browser.command_rejected" scope (at_actor attempt)
                   [("browser_session_id", JStr (bs_id r))] payload).
Proof.
  intros Hfresh Hscope Hp.
  destruct (append_succeeds "browser.command_rejected" scope (at_actor attempt)
    [("browser_session_id", JStr (bs_id r))] payload s Hfresh Hp) as [s' Hs']; [done|].
  exists s'. split; [|by apply append_logged in Hs'].
  unfold record_rejected. rewrite (bind_return _ _ s (Some scope) s).
  - unfold inTransaction. by rewrite Hs'.
  - rewrite <- Hscope. unfold rejection_stream, refusal_scope, projectStream.
    by case_bool_decide.
Qed.

Definition rejection_payload (r : BrowserSessionRow) (attempt : Attempt) (command : CommandName)
    (denial : CommandDenial) : members :=
  [("command", JStr (command_name command)); ("reason_code", JStr (code_name (cd_code denial)));
   ("reason", JStr (cd_reason denial)); ("interactive", JBool (isInteractive command));
   ("presented_epoch", JNum (at_controlEpoch attempt));
   ("presented_controller_type", JStr (controller_type_name (ct_type (at_controller attempt))))]
  ++ (if bool_decide (cd_reason denial = "project_mismatch") then [("cross_project", JBool true)]
      else [("current_epoch", JNum (bs_control_epoch r));
            ("session_status", JStr (status_name (bs_status r)))]).

Lemma rejection_payload_clean r attempt command denial :
  assertPayloadCarriesNoSecret (JObj (rejection_payload r attempt command denial)) "payload" 0 = Ok tt.
Proof.
  unfold rejection_payload. destruct (bool_decide _); vm_compute; reflexivity.
Qed.

(** C37: a refused command is recorded.  Whatever the denial, and whatever the
    worker would have answered, the command fails with the denial's error and the
    only change is one event that names the actor, the command, the reason and
    the epoch presented, never the command's argument: on the session's stream,
    or, for a session of another project, on the actor's own, without the
    session's epoch or status. *)
Theorem refused_command_is_recorded input answer s r associated denial scope :
  browser_sessions (db s) !! ci_browserSessionId input = Some r →
  route_associated r s = (Ok associated, s) →
  authoriseBrowserCommand (command_context r (ci_attempt input) associated) (ci_command input)
    = Some denial →
  refusal_scope (db s) r (ci_attempt input) denial = Some scope → fresh_draw s →
  ∃ s', runCommand answer input s = (Err (ApiThrown (denial_error denial)), s') ∧
    logged s s' (is_event "browser.command_rejected" scope (at_actor (ci_attempt input))
      [("browser_session_id", JStr (bs_id r))]
      (rejection_payload r (ci_attempt input) (bc_command (ci_command input)) denial)).
Proof.
  intros Hr Ha Hd Hscope Hfresh.
  destruct (record_rejected_logged r (ci_attempt input) denial _ _ _ Hfresh Hscope
    (rejection_payload_clean r (ci_attempt input) (bc_command (ci_command input)) denial))
    as (s' & Hrun & Hlog).
  exists s'. split; [|exact Hlog].
  unfold runCommand. apply bind_throw. unfold beginCommand. cbv zeta.
  rewrite (bind_return _ _ s r s) by (unfold getSession; by rewrite (bind_return _ _ s (Some r) s);
    [|unfold gets; rewrite Hr]).
  rewrite (bind_return _ _ s associated s) by exact Ha. rewrite Hd.
  rewrite (bind_return _ _ s tt s') by exact Hrun. done.
Qed.
End refusals.

Lemma refused_command_is_recorded_witness :
  ∃ s', runCommand (λ _, Err (PlainError "not asked")) (issues (other_agent "ags_2") 1 click) Samples.start
      = (Err (ApiThrown (denial_error (not_owned 1))), s') ∧
    logged Samples.start s' (is_event "browser.command_rejected" scope1 Samples.worker
      [("browser_session_id", JStr "brs_1")]
      (rejection_payload sample_session (presents (other_agent "ags_2") 1) click (not_owned 1))).
Proof.
  apply (refused_command_is_recorded (issues (other_agent "ags_2") 1 click) _ Samples.start
    sample_session None (not_owned 1) scope1).
  - reflexivity.
  - reflexivity.
  - vm_compute. reflexivity.
  - reflexivity.
  - eexists. split; [vm_compute; reflexivity|]. apply not_elem_of_nil.
Defined.
