(* ===== verification/SweepTheorems.v ===== *)
(** * The sweep that ends overdue reservations *)

From S2P Require Import Prelude Errors ReviewProtocol BrowserProtocol ReviewDomain Events EntityId ControlAuthorisation Store BrowserSessions Preserve Invariants Samples Effects ControlInvariants ControlTheorems.

(** The rows a query selects have distinct identifiers. *)
Lemma select_keys_nodup {A} (key : A → string) checks (t : gmap string A) p :
  rows_ok key checks t → NoDup (key <$> select p t).
Proof.
  intros Ht. assert (key <$> rows t = fst <$> map_to_list t) as Hk.
  { unfold rows. rewrite <- list_fmap_compose. apply list_fmap_ext. intros i [k r] Hi. cbn.
    apply list_elem_of_lookup_2, elem_of_map_to_list in Hi. by destruct (Ht _ _ Hi). }
  unfold select. apply (sublist_NoDup _ (key <$> rows t)).
  - rewrite Hk. apply NoDup_fst_map_to_list.
  - apply fmap_sublist, sublist_filter.
Qed.

Section sweep.
Context `{Entropy}.

(** The next [n] identifiers drawn for events are new. *)
Definition event_ids (s : St) : list string := ev_id <$> events (log (db s)).
Definition fresh_draws (n : nat) (s : St) : Prop :=
  ∃ ids, length ids = n ∧ NoDup (ids ++ event_ids s) ∧
    ∀ i id, ids !! i = Some id → newPrefixedId "evt_" (random_bytes (drawn s + i)) = Ok id.

Lemma record_forward n input s :
  fresh_draws (S n) s →
  assertPayloadCarriesNoSecret (JObj (ev_in_payload input)) "payload" 0 = Ok tt →
  assertPayloadCarriesNoSecret (JObj (ev_in_correlation input)) "correlation" 0 = Ok tt →
  ∃ s', (id ← newId "evt_"; write_event id input) s = (Ok tt, s') ∧
    db s' = with_log (log (db s')) (db s) ∧ clock s' = clock s ∧ fresh_draws n s'.
Proof.
  intros (ids & Hlen & Hnd & Hids) Hp Hc. destruct ids as [|id ids]; [done|].
  pose proof (Hids 0%nat id eq_refl) as Hid. rewrite Nat.add_0_r in Hid.
  apply NoDup_cons in Hnd as [Hnew Hnd].
  set (s1 := {| db := db s; drawn := S (drawn s); clock := clock s; denied := denied s |}).
  rewrite (bind_return _ _ s id s1) by (unfold newId; by rewrite Hid).
  unfold write_event, appendEvent.
  rewrite Hp. cbn [mbind result_bind]. rewrite Hc.
  rewrite bool_decide_false by (intros Hin; apply Hnew, elem_of_app; by right).
  eexists. split; [reflexivity|]. split_and!; [done..|].
  exists ids. split_and!.
  - by injection Hlen.
  - unfold event_ids. cbn. rewrite fmap_app. cbn.
    rewrite app_assoc, (Permutation_app_comm _ [id]). constructor; [done|exact Hnd].
  - intros i id' Hi. cbn. rewrite <- Nat.add_succ_r. by apply Hids.
Qed.

Lemma append_forward n type scope actor correlation payload s :
  fresh_draws (S n) s →
  assertPayloadCarriesNoSecret (JObj payload) "payload" 0 = Ok tt →
  assertPayloadCarriesNoSecret (JObj correlation) "correlation" 0 = Ok tt →
  ∃ s', append type scope actor correlation payload s = (Ok tt, s') ∧
    db s' = with_log (log (db s')) (db s) ∧ clock s' = clock s ∧ fresh_draws n s'.
Proof. apply (record_forward n (event_input _ _ _ _ _ _)). Qed.

(** One reservation: the row, the lease and the event. *)
Definition failing_payload (r0 : BrowserSessionRow) : members :=
  [("previous_status", JStr (status_name (bs_status r0))); ("new_status", JStr "FAILED")]
  ++ opt_member "published_service_id" JStr (bs_requested_published_service_id r0)
  ++ [("reason_code", JStr "CONTROL_PLANE_UNAVAILABLE"); ("trigger", JStr "allocation_deadline")].

Lemma failing_payload_clean r0 :
  assertPayloadCarriesNoSecret (JObj (failing_payload r0)) "payload" 0 = Ok tt ∧
  assertPayloadCarriesNoSecret (JObj (session_correlation r0)) "correlation" 0 = Ok tt.
Proof.
  unfold failing_payload, session_correlation.
  destruct (bs_requested_published_service_id r0), (bs_worker_id r0); vm_compute; done.
Qed.

Definition fail_one (r0 : BrowserSessionRow) : M BrowserSessionRow :=
  failReservation r0 (system_actor "browser session allocator") CONTROL_PLANE_UNAVAILABLE
    allocation_deadline (bs_requested_published_service_id r0) None ;;
  getSession (bs_id r0).

Definition sweep_reason : string := "allocation refused: CONTROL_PLANE_UNAVAILABLE".

Lemma fail_one_run n r0 r s :
  control_ok (db s) → browser_sessions (db s) !! bs_id r0 = Some r → fresh_draws (S n) s →
  ∃ s', fail_one r0 s = (Ok (set_status FAILED (Some (clock s)) r), s') ∧
    browser_sessions (db s') =
      <[bs_id r0 := set_status FAILED (Some (clock s)) r]> (browser_sessions (db s)) ∧
    control_leases (db s') = all_revoked (clock s) (bs_id r0) sweep_reason (control_leases (db s)) ∧
    clock s' = clock s ∧ fresh_draws n s' ∧ control_ok (db s').
Proof.
  intros Hok Hr Hfresh.
  set (s1 := with_db (with_control_leases (all_revoked (clock s) (bs_id r0) sweep_reason
    (control_leases (db s))) (db s)) s).
  set (r' := set_status FAILED (Some (clock s)) r).
  set (s2 := with_db (with_browser_sessions (<[bs_id r0 := r']> (browser_sessions (db s))) (db s1)) s1).
  destruct (failing_payload_clean r0) as [Hp Hc].
  destruct (append_forward n "browser_session.failed" (session_scope r0)
    (system_actor "browser session allocator") (session_correlation r0) (failing_payload r0) s2
    Hfresh Hp Hc) as (s' & Ha & Hdb & Hclock & Hfresh').
  assert (fail_one r0 s = (Ok r', s')) as Hrun.
  { unfold fail_one, failReservation.
    rewrite (bind_return _ _ s tt s'); [|].
    - unfold getSession. rewrite (bind_return _ _ s' (Some r') s'); [done|].
      unfold gets. rewrite Hdb. cbn. by rewrite lookup_insert_eq.
    - rewrite (bind_return _ _ s tt s1) by exact (revoke_where_run _ _ s).
      unfold setStatus, inTransaction. cbv zeta.
      rewrite (bind_return _ _ s1 (clock s) s1) by done.
      rewrite (bind_return _ _ s1 tt s2).
      + cbn -[append]. change (append _ _ _ _ _ s2) with (append "browser_session.failed"
          (session_scope r0) (system_actor "browser session allocator") (session_correlation r0)
          (failing_payload r0) s2). by rewrite Ha.
      + unfold update_session. rewrite (bind_return _ _ s1 true s2); [done|].
        unfold update_session_where. rewrite (bind_return _ _ s1 (Some r) s1)
          by (unfold gets; cbn; by rewrite Hr).
        cbn [mbind]. rewrite (bind_return _ _ s1 tt s1); [done|].
        apply guard_row_ok. split_and!; [|done..]. exact (proj2 (sessions_ok _ Hok _ _ Hr)). }
  exists s'. split_and!; [exact Hrun|by rewrite Hdb|by rewrite Hdb|done|done|].
  pose proof failReservation_ok as Hf.
  assert (preserves control_ok (fail_one r0)) as Hk.
  { unfold fail_one. apply preserves_bind; [apply failReservation_ok|intros; apply getSession_ok]. }
  exact (Hk _ _ _ Hrun Hok).
Qed.

(** All of them, one after the other. *)
Lemma fail_all_run l s :
  control_ok (db s) → NoDup (bs_id <$> l) →
  (∀ r, r ∈ l → browser_sessions (db s) !! bs_id r = Some r) → fresh_draws (length l) s →
  ∃ rs s', collect fail_one l s = (Ok rs, s') ∧ clock s' = clock s ∧ control_ok (db s') ∧
    (∀ k, k ∉ bs_id <$> l → browser_sessions (db s') !! k = browser_sessions (db s) !! k) ∧
    (∀ r, r ∈ l → browser_sessions (db s') !! bs_id r = Some (set_status FAILED (Some (clock s)) r)) ∧
    (∀ i x, control_leases (db s') !! i = Some x → cl_revoked_at x = None →
       cl_browser_session_id x ∉ bs_id <$> l ∧ control_leases (db s) !! i = Some x).
Proof.
  revert s. induction l as [|r l IH]; intros s Hok Hnd Hl Hfresh.
  - exists [], s. split_and!; try done. + by intros r ?%not_elem_of_nil.
    + intros i x Hx _. split; [apply not_elem_of_nil|done].
  - cbn in Hnd. apply NoDup_cons in Hnd as [Hnew Hnd].
    destruct (fail_one_run (length l) r r s Hok (Hl r (list_elem_of_here _ _)) Hfresh)
      as (s1 & Hrun & Hs1 & Hl1 & Hc1 & Hf1 & Hok1).
    assert (∀ r', r' ∈ l → browser_sessions (db s1) !! bs_id r' = Some r') as Hl'.
    { intros r' Hr'. rewrite Hs1, lookup_insert_ne; [apply Hl; by right|].
      intros Heq. apply Hnew. rewrite Heq. by apply list_elem_of_fmap_2. }
    destruct (IH s1 Hok1 Hnd Hl' Hf1) as (rs & s' & Hrs & Hc & Hok' & Hother & Hfailed & Hleases).
    exists (set_status FAILED (Some (clock s)) r :: rs), s'. split_and!; [|congruence|done|..].
    + cbn [collect]. rewrite (bind_return _ _ s _ s1) by exact Hrun.
      by rewrite (bind_return _ _ s1 rs s') by exact Hrs.
    + intros k Hk. cbn in Hk. apply not_elem_of_cons in Hk as [Hk1 Hk2].
      rewrite Hother, Hs1 by done. by rewrite lookup_insert_ne.
    + intros r' [->|Hr']%elem_of_cons; [|rewrite Hfailed by done; congruence].
      rewrite Hother by done. rewrite Hs1. by rewrite lookup_insert_eq.
    + intros i x Hx Hn. destruct (Hleases i x Hx Hn) as [Hni Hx1]. rewrite Hl1 in Hx1.
      unfold all_revoked in Hx1. rewrite lookup_fmap_Some in Hx1. destruct Hx1 as (x0 & Hx0 & Hi).
      case_match eqn:Hc0; [by rewrite <- Hx0 in Hn|]. rewrite <- Hx0 in *. split; [|done].
      cbn. apply not_elem_of_cons. split; [|done]. intros Heq.
      by rewrite !bool_decide_true in Hc0.
Qed.

(** C36: nothing stays requested.  When a sweep's limit covers the reservations
    that have outlived the deadline and the identifiers it draws are new, the
    sweep returns, and every such reservation is FAILED with the time of the
    sweep as its end and no lease left on it; no other session and no other
    lease changes, none of them counts against a worker any more, and nothing
    is overdue. *)
Theorem overdue_reservations_end deadlineMs limit one agentSession s :
  let late := select (overdue (clock s - deadlineMs) one agentSession) (browser_sessions (db s)) in
  control_ok (db s) → (length late ≤ limit)%nat → fresh_draws (length late) s →
  ∃ rs s', failOverdueAllocations deadlineMs limit one agentSession s = (Ok rs, s') ∧
    (∀ r, r ∈ late → ∃ r', browser_sessions (db s') !! bs_id r = Some r' ∧ bs_status r' = FAILED ∧
       bs_ended_at r' = Some (clock s) ∧ (∀ w, occupies w r' = false) ∧
       ∀ i l, control_leases (db s') !! i = Some l → cl_browser_session_id l = bs_id r →
         cl_revoked_at l ≠ None) ∧
    (∀ k, k ∉ bs_id <$> late → browser_sessions (db s') !! k = browser_sessions (db s) !! k) ∧
    select (overdue (clock s - deadlineMs) one agentSession) (browser_sessions (db s')) = [].
Proof.
  intros late Hok Hlimit Hfresh.
  assert (∀ r, r ∈ late → browser_sessions (db s) !! bs_id r = Some r) as Hlate.
  { intros r [_ [k Hk]]%elem_of_select.
    by rewrite (rows_ok_key _ _ _ _ _ (sessions_ok _ Hok) Hk). }
  set (found := order_by requested_time bs_id late).
  assert (found ≡ₚ late) as Hperm by apply merge_sort_Permutation.
  assert (NoDup (bs_id <$> found)) as Hnd.
  { rewrite Hperm. unfold late. eapply select_keys_nodup. by destruct Hok. }
  assert (take limit found = found) as Htake by (apply take_ge; rewrite Hperm; done).
  destruct (fail_all_run found s Hok Hnd) as (rs & s' & Hrun & Hc & Hok' & Hother & Hfailed & Hleases).
  { intros r Hr. apply Hlate. by rewrite <- Hperm. }
  { by rewrite Hperm. }
  exists rs, s'. split_and!.
  - unfold failOverdueAllocations. rewrite (bind_return _ _ s (clock s) s) by done.
    rewrite (bind_return _ _ s found s); [exact Hrun|]. exact (f_equal (λ l, (Ok l, s)) Htake).
  - intros r Hr. rewrite <- Hperm in Hr. eexists. split; [by apply Hfailed|].
    split_and!; [done..| |].
    + intros w. unfold occupies. cbn. by rewrite andb_false_r.
    + intros i l Hi Hs Hn. destruct (Hleases _ _ Hi Hn) as [Hni _]. apply Hni. rewrite Hs.
      by apply list_elem_of_fmap_2.
  - intros k Hk. apply Hother. by rewrite Hperm.
  - apply filter_none. intros r Hr Hov. apply elem_of_rows in Hr as [k Hk].
    destruct (decide (k ∈ bs_id <$> found)) as [Hin|Hnin].
    + apply list_elem_of_fmap in Hin as (r0 & -> & Hr0). rewrite Hfailed in Hk by done.
      injection Hk as <-. unfold overdue in Hov. cbn in Hov. done.
    + rewrite Hother in Hk by done. apply Hnin. rewrite Hperm. apply list_elem_of_fmap.
      exists r. split; [by rewrite (rows_ok_key _ _ _ _ _ (sessions_ok _ Hok) Hk)|].
      apply elem_of_select. eauto.
Qed.
End sweep.

(** A reservation that asked for a route at time 0 and was never allocated. *)
Definition stranded : BrowserSessionRow :=
  set_requested_route (Some "psv_1") (Some 0%Z) (set_status REQUESTED None sample_session).
Definition long_after : St :=
  {| db := with_browser_sessions {[ "brs_1" := stranded ]} (db Samples.start); drawn := 0;
     clock := 200000; denied := None |}.

Lemma long_after_ok : control_ok (db long_after).
Proof.
  destruct start_control_ok as [_ Hl He Ha _]. constructor; cbn; try done.
  - by apply map_Forall_singleton.
  - intros k r c [<- <-]%lookup_singleton_Some [= <-]. by exists "lse_1", sample_lease.
Qed.

Lemma overdue_reservations_end_witness :
  let late := select (overdue (200000 - 120000) None None) (browser_sessions (db long_after)) in
  ∃ rs s', failOverdueAllocations 120000 50 None None long_after = (Ok rs, s') ∧
    (∀ r, r ∈ late → ∃ r', browser_sessions (db s') !! bs_id r = Some r' ∧ bs_status r' = FAILED ∧
       bs_ended_at r' = Some 200000%Z ∧ (∀ w, occupies w r' = false) ∧
       ∀ i l, control_leases (db s') !! i = Some l → cl_browser_session_id l = bs_id r →
         cl_revoked_at l ≠ None) ∧
    (∀ k, k ∉ bs_id <$> late → browser_sessions (db s') !! k = browser_sessions (db long_after) !! k) ∧
    select (overdue (200000 - 120000) None None) (browser_sessions (db s')) = [].
Proof.
  apply (overdue_reservations_end 120000 50 None None long_after).
  - apply long_after_ok.
  - vm_compute. repeat constructor.
  - exists [match newPrefixedId "evt_" (random_bytes 0) with Ok id => id | Err _ => "" end].
    split_and!.
    + vm_compute. reflexivity.
    + apply NoDup_singleton.
    + intros [|i] id Hi; [|discriminate Hi]. injection Hi as <-. vm_compute. reflexivity.
Defined.
