(* ===== verification/RouteLifecycle.v ===== *)
(** * Routes under concurrent requests

    The state is the tables, the methods that wait for the connector, for the
    gateway or for their transaction to open, and the instructions sent to the
    gateway so far, the last one first.  Other modules may change their own
    tables between any two steps; a session keeps its identity. *)

From S2P Require Import Prelude Bytes Capability Errors ReviewProtocol BrowserProtocol Events ControlAuthorisation DestinationPolicy Store BrowserSessions PublishedServices Reconciliation Preserve Invariants Effects ControlInvariants BrowserLifecycle.

(** ** What holds of routes and capabilities *)

(** What a route is published with and never changes. *)
Definition static (r : PublishedServiceRow) : PublishedServiceRow :=
  set_service ps_requested None None None None r.
Definition session_identity (b : BrowserSessionRow) :=
  (bs_id b, bs_organisation_id b, bs_project_id b, bs_limits b, bs_created_at b).

(** The columns that come with each status. *)
Definition well_staged (r : PublishedServiceRow) : Prop :=
  match ps_status r with
  | ps_requested => ps_observed_destination r = None ∧ ps_ready_at r = None ∧ ps_ended_at r = None
  | ps_ready => ps_observed_destination r ≠ None ∧ ps_ready_at r ≠ None ∧ ps_ended_at r = None
  | ps_failed => ps_failure_class r ≠ None ∧ ps_ended_at r ≠ None
  | ps_expired | ps_revoked => ps_ended_at r ≠ None
  end.
Definition row_destination (r : PublishedServiceRow) : Destination :=
  {| host := ps_local_host r; port := dec_of_Z (ps_local_port r); protocol := ps_protocol r |}.

Definition same_alias (r r' : PublishedServiceRow) : Prop := ps_public_alias r' = ps_public_alias r.

Section invariant.
Context `{PublishedServiceConfig}.

Record service_ok (d : Db) (r : PublishedServiceRow) : Prop := {
  stage : well_staged r;
  permitted : evaluateDestination destinationPolicy (row_destination r) = None;
  lifetime : (0 < ps_expires_at r - ps_requested_at r ≤ routeTtlMaxSeconds * 1000)%Z;
  sessions_inside : ∀ id, id ∈ ps_allowed_browser_session_ids r →
    session_in_project (ps_organisation_id r) (ps_project_id r) d id = true
}.

(** A capability against the route and the session it was minted for. *)
Record capability_ok (d : Db) (c : RouteCapabilityRow) (r : PublishedServiceRow)
    (b : BrowserSessionRow) : Prop := {
  of_route : published_services d !! rc_published_service_id c = Some r;
  of_session : browser_sessions d !! rc_browser_session_id c = Some b;
  in_organisation : rc_organisation_id c = ps_organisation_id r ∧ bs_organisation_id b = ps_organisation_id r;
  in_project : rc_project_id c = ps_project_id r ∧ bs_project_id b = ps_project_id r;
  allow_listed : rc_browser_session_id c ∈ ps_allowed_browser_session_ids r;
  signed : ∃ key, capability = Some key ∧ rc_key_id c = sk_keyId key
    ∧ (rc_expires_at c ≤ rc_issued_at c + sk_ttlSeconds key * 1000)%Z;
  lasts : (rc_issued_at c < rc_expires_at c ≤ ps_expires_at r)%Z;
  within_session : ∀ limit, max_duration (bs_limits b) = Ok (Some limit) →
    (rc_expires_at c ≤ bs_created_at b + limit * 1000)%Z
}.

Record routes_ok (d : Db) : Prop := {
  services_ok : rows_ok ps_id service_checks (published_services d);
  aliases_unique : no_clash same_alias (published_services d);
  services_staged : map_Forall (λ _, service_ok d) (published_services d);
  capabilities_ok : map_Forall (λ k c, rc_id c = k ∧ ∃ r b, capability_ok d c r b)
                      (route_capabilities d)
}.
End invariant.

(** ** How tables may go on *)

(** A route that has ended stays as it is; one that is ready stays so or ends. *)
Definition goes_on (r r' : PublishedServiceRow) : Prop :=
  static r' = static r ∧
  (r' = r ∨ ps_status r = ps_requested ∨ ps_status r = ps_ready ∧
     ps_status r' ∈ [ps_failed; ps_expired; ps_revoked]
     ∧ ps_observed_destination r' = ps_observed_destination r ∧ ps_ready_at r' = ps_ready_at r).
Definition capability_goes_on (c c' : RouteCapabilityRow) : Prop :=
  c' = c ∨ rc_revoked_at c = None ∧ ∃ time, c' = withdrawn time c.

Record advances (d d' : Db) : Prop := {
  services_go_on : ∀ k r, published_services d !! k = Some r →
    ∃ r', published_services d' !! k = Some r' ∧ goes_on r r';
  capabilities_go_on : ∀ k c, route_capabilities d !! k = Some c →
    ∃ c', route_capabilities d' !! k = Some c' ∧ capability_goes_on c c';
  sessions_go_on : ∀ k b, browser_sessions d !! k = Some b →
    ∃ b', browser_sessions d' !! k = Some b' ∧ session_identity b' = session_identity b
}.

Lemma route_goes_on_trans r r' r'' : goes_on r r' → goes_on r' r'' → goes_on r r''.
Proof.
  intros [Hs H1] [Hs' H2]. split; [congruence|].
  destruct H1 as [->|[?|(Hr & He & Ho & Hre)]]; [done|by right; left|].
  destruct H2 as [->|[H2|(H2 & _)]]; [by right; right|..];
    rewrite H2, !elem_of_cons in He; destruct He as [?|[?|[?|[]%elem_of_nil]]]; done.
Qed.
Lemma capability_goes_on_trans c c' c'' :
  capability_goes_on c c' → capability_goes_on c' c'' → capability_goes_on c c''.
Proof.
  intros [->|[Hn [t ->]]] [->|[Hn' [t' ->]]]; [by left|by right; eauto|by right; eauto|done].
Qed.

#[export] Instance advances_preorder : PreOrder advances.
Proof.
  split.
  - intros d. split; [intros k r Hk; exists r|intros k c Hk; exists c|intros k b Hk; exists b];
      (split; [done|]); [split; [done|by left]|by left|done].
  - intros d d' d'' [Hs Hc Hb] [Hs' Hc' Hb']. split.
    + intros k r (r' & (r'' & Hr & H2)%Hs' & H1)%Hs. eauto using route_goes_on_trans.
    + intros k c (c' & (c'' & Hr & H2)%Hc' & H1)%Hc. eauto using capability_goes_on_trans.
    + intros k b (b' & (b'' & Hr & H2)%Hb' & H1)%Hb. exists b''. split; [done|congruence].
Qed.
#[export] Instance advances_ignores_log d : IgnoresLog (advances d).
Proof. intros l d' []. by split. Qed.

(** The static part decides what depends on it. *)
Lemma static_eq r r' : static r = static r' →
  ps_id r = ps_id r' ∧ ps_organisation_id r = ps_organisation_id r' ∧ ps_project_id r = ps_project_id r'
  ∧ ps_allowed_browser_session_ids r = ps_allowed_browser_session_ids r'
  ∧ ps_expires_at r = ps_expires_at r' ∧ ps_requested_at r = ps_requested_at r'
  ∧ ps_public_alias r = ps_public_alias r' ∧ ps_local_host r = ps_local_host r'
  ∧ ps_local_port r = ps_local_port r' ∧ ps_protocol r = ps_protocol r'.
Proof. destruct r, r'. unfold static, set_service. cbn. intros [=]. by subst. Qed.

Section stability.
Context `{PublishedServiceConfig}.

Lemma session_in_project_advances d d' o p id :
  advances d d' → session_in_project o p d id = true → session_in_project o p d' id = true.
Proof.
  intros Ha. unfold session_in_project.
  destruct (browser_sessions d !! id) as [b|] eqn:Hb; [|done].
  destruct (sessions_go_on _ _ Ha _ _ Hb) as (b' & -> & [= _ -> -> _ _]). done.
Qed.
Lemma service_ok_advances d d' r : advances d d' → service_ok d r → service_ok d' r.
Proof. intros Ha []. split; [done..|]. eauto using session_in_project_advances. Qed.
Lemma capability_ok_advances d d' c r b :
  advances d d' → capability_ok d c r b → ∃ r' b', capability_ok d' c r' b'.
Proof.
  intros Ha [Hr Hb Ho Hp Hal Hs Hl Hw].
  destruct (services_go_on _ _ Ha _ _ Hr) as (r' & Hr' & Hgo & _).
  destruct (sessions_go_on _ _ Ha _ _ Hb) as (b' & Hb' & [= Hi Ho' Hp' Hli Hc]).
  exists r', b'. apply static_eq in Hgo as (E1 & E2 & E3 & E4 & E5 & _).
  split; rewrite ?E2, ?E3, ?E4, ?E5, ?Ho', ?Hp', ?Hli, ?Hc; done.
Qed.
Lemma capability_ok_withdrawn d c r b time :
  capability_ok d c r b → capability_ok d (withdrawn time c) r b.
Proof. by intros []. Qed.

(** What is left alone stays well formed. *)
Lemma routes_ok_same d d' :
  advances d d' → published_services d' = published_services d →
  route_capabilities d' = route_capabilities d → routes_ok d → routes_ok d'.
Proof.
  intros Ha Hs Hc [H1 H2 H3 H4]. split; rewrite ?Hs, ?Hc; try done.
  - eapply map_Forall_impl; [exact H3|]. eauto using service_ok_advances.
  - eapply map_Forall_impl; [exact H4|]. intros k c (Hk & r & b & Hb). split; [done|].
    by eapply capability_ok_advances.
Qed.
Lemma routes_ok_ignores_log : IgnoresLog routes_ok.
Proof. intros l d. apply routes_ok_same; [|done..]. apply ignores_log. reflexivity. Qed.

(** The routes whose end the gateway was to be told of. *)
Definition ended_route (d : Db) (k : string) : Prop :=
  ∃ r, published_services d !! k = Some r ∧ ps_status r ∈ [ps_expired; ps_revoked].
(** The tables are well formed, have gone on from where they were, and of the
    routes only those named were expired or revoked. *)
Record good (ids : list string) (d0 d : Db) : Prop := {
  good_ok : routes_ok d;
  good_advances : advances d0 d;
  good_ends : ∀ k, ended_route d k → k ∈ ids ∨ ended_route d0 k
}.
#[export] Instance good_ignores_log ids d0 : IgnoresLog (good ids d0).
Proof. intros l d [? ? ?]. split; [by apply routes_ok_ignores_log|by apply ignores_log|done]. Qed.
Lemma good_refl ids d : routes_ok d → good ids d d.
Proof. intros. split; [done|done|by right]. Qed.
End stability.
#[export] Existing Instance routes_ok_ignores_log.
#[export] Existing Instance good_ignores_log.

(** ** What the statements keep *)

Section statements.
Context `{Entropy} `{PublishedServiceConfig}.

Lemma update_service_run id p f s o s' :
  update_service_where id p f s = (Ok o, s') →
  (o = None ∧ s' = s ∧ ∀ r, published_services (db s) !! id = Some r → p r = false) ∨
  ∃ r, published_services (db s) !! id = Some r ∧ p r = true ∧ violated (service_checks (f r)) = None
    ∧ o = Some (f r)
    ∧ s' = with_db (with_published_services (<[id := f r]> (published_services (db s))) (db s)) s.
Proof.
  unfold update_service_where. intros (row & s1 & Hrow & Hr)%bindM_ok.
  apply gets_ok in Hrow as [-> ->].
  destruct (published_services (db s) !! id) as [r|] eqn:Hl; [|inv_run; by left].
  destruct (p r) eqn:Hp; inv_run; [right; by exists r|left]. split_and!; [done..|]. by intros ? [= <-].
Qed.
Lemma update_service_err id p f s e s' : update_service_where id p f s = (Err e, s') → s' = s.
Proof.
  intros [?|(row & s1 & Ht & Hr)]%bindM_err; [done|]. apply gets_ok in Ht as [-> ->].
  destruct (published_services (db s) !! id) as [r|]; [|done]. destruct (p r); [|done].
  apply bindM_err in Hr as [?%guard_row_err|(? & ? & _ & [?|(? & ? & _ & ?)]%bindM_err)]; done.
Qed.

(** An update that only moves a route on. *)
Definition moves_on (ids : list string) (id : string) (p : PublishedServiceRow → bool)
    (f : PublishedServiceRow → PublishedServiceRow) : Prop :=
  ∀ r, p r = true → goes_on r (f r) ∧ (well_staged r → well_staged (f r))
    ∧ (ps_status (f r) ∈ [ps_expired; ps_revoked] → id ∈ ids).

Lemma update_service_good ids d0 id p f :
  moves_on ids id p f → preserves (good ids d0) (update_service_where id p f).
Proof.
  intros Hf s [o|e] s' Hr Hgood; [|by apply update_service_err in Hr as ->].
  apply update_service_run in Hr as [(_ & -> & _)|(r & Hl & Hp & Hv & _ & ->)]; [done|].
  destruct (Hf r Hp) as ((Hstatic & Hgo) & Hstage & Hends).
  destruct Hgood as [[Hs Ha Hst Hc] Had Hen].
  assert (static (f r) = static r) as (E1 & E2 & E3 & E4 & E5 & E6 & E7 & E8 & E9 & E10)%static_eq
    by done.
  assert (ps_id r = id) as Hid by by eapply rows_ok_key.
  set (d' := with_published_services (<[id := f r]> (published_services (db s))) (db s)).
  assert (advances (db s) d') as Hstep.
  { split; cbn.
    - intros k x Hk. destruct (decide (k = id)) as [->|Hne].
      + rewrite lookup_insert_eq. assert (x = r) as -> by congruence. by exists (f r).
      + rewrite lookup_insert_ne by done. exists x. split; [done|]. by split; [|left].
    - intros k c Hk. exists c. by split; [|left].
    - intros k b Hk. by exists b. }
  split.
  - split; cbn.
    + rewrite <- Hid, <- E1. by apply rows_ok_insert.
    + intros k k' x x' Hk Hk' Hsame.
      assert (∀ k x, <[id := f r]> (published_services (db s)) !! k = Some x →
        ∃ y, published_services (db s) !! k = Some y ∧ ps_public_alias y = ps_public_alias x) as Hback.
      { intros j y [[<- <-]|[_ Hj]]%lookup_insert_Some; [by exists r|by exists y]. }
      apply Hback in Hk as (y & Hk & Hy). apply Hback in Hk' as (y' & Hk' & Hy').
      apply (Ha k k' y y' Hk Hk'). unfold same_alias in *. congruence.
    + apply map_Forall_insert_2.
      * destruct (Hst _ _ Hl) as [H1 H2 H3 H4]. split; [by apply Hstage|..].
        -- unfold row_destination in *. by rewrite E8, E9, E10.
        -- by rewrite E5, E6.
        -- rewrite E2, E3, E4. eauto using session_in_project_advances.
      * eapply map_Forall_impl; [exact Hst|]. eauto using service_ok_advances.
    + eapply map_Forall_impl; [exact Hc|]. intros k c (Hk & x & b & Hb). split; [done|].
      by eapply capability_ok_advances.
  - by etrans.
  - intros k (x & Hk & Hx). cbn in Hk. apply lookup_insert_Some in Hk as [[<- <-]|[_ Hk]].
    + left. by apply Hends.
    + apply Hen. by exists x.
Qed.

Lemma withdraw_where_run p s :
  withdraw_where p s =
    (Ok (rc_id <$> select (live_capability p) (route_capabilities (db s))),
     with_db (with_route_capabilities
       ((λ c, if live_capability p c then withdrawn (clock s) c else c) <$> route_capabilities (db s))
       (db s)) s).
Proof. done. Qed.

Lemma withdraw_good ids d0 p : preserves (good ids d0) (withdraw_where p).
Proof.
  intros s r s' Hr [[Hs Ha Hst Hc] Had Hen]. rewrite withdraw_where_run in Hr.
  injection Hr as _ <-. cbn [db with_db].
  assert (∀ c, capability_goes_on c (if live_capability p c then withdrawn (clock s) c else c)) as Hgo.
  { intros c. destruct (live_capability p c) eqn:Hl; [right|by left].
    unfold live_capability in Hl. apply andb_true_iff in Hl as [_ Hl%bool_decide_eq_true]. eauto. }
  match goal with |- good _ _ ?d => assert (advances (db s) d) as Hstep end.
  { split; cbn.
    - intros k x Hk. exists x. split; [done|]. by split; [|left].
    - intros k c Hk. rewrite lookup_fmap, Hk. by eexists.
    - intros k b Hk. by exists b. }
  split; [split; cbn|by etrans|done].
  - done.
  - done.
  - eapply map_Forall_impl; [exact Hst|]. eauto using service_ok_advances.
  - intros k c Hk. rewrite lookup_fmap_Some in Hk. destruct Hk as (c0 & <- & Hk).
    destruct (Hc _ _ Hk) as (Hid & x & b & Hb).
    destruct (live_capability p c0); (split; [done|]).
    + eapply capability_ok_advances; [exact Hstep|]. by apply capability_ok_withdrawn.
    + by eapply capability_ok_advances.
Qed.

Lemma insertCapability_good ids d0 c :
  (∀ d, good ids d0 d → (rc_issued_at c < rc_expires_at c)%Z → ∃ r b, capability_ok d c r b) →
  preserves (good ids d0) (insertCapability c).
Proof.
  intros Hnew s [o|e] s' Hr Hgood.
  - unfold insertCapability in Hr. apply bindM_ok in Hr as (b & s1 & (-> & ->)%gets_ok & Hr).
    case_match; [|inv_run; done]. apply bindM_ok in Hr as (t & s1 & (-> & ->)%gets_ok & Hr).
    apply bindM_ok in Hr as ([] & s1 & (Hv & Hu & ->)%guard_row_ok & Hr).
    apply bindM_ok in Hr as (x & s1 & (-> & ->)%gets_ok & Hr).
    destruct (published_services (db s) !! _) as [r|] eqn:Hl; [|inv_run]. inv_run.
    rewrite !violated_cons in *. cbn [snd] in *. destruct_and!.
    unfold is_fresh in *. rewrite bool_decide_eq_true in *.
    destruct (Hnew _ Hgood) as (r' & b' & Hb); [done|].
    destruct Hgood as [[Hs Ha Hst Hc] Had Hen]. cbn [db with_db].
    match goal with |- good _ _ ?d => assert (advances (db s) d) as Hstep end.
    { split; cbn.
      - intros k x Hk. exists x. split; [done|]. by split; [|left].
      - intros k y Hk. exists y. rewrite lookup_insert_ne by congruence. split; [done|by left].
      - intros k y Hk. by exists y. }
    split; [split; cbn|by etrans|done].
    + done.
    + done.
    + eapply map_Forall_impl; [exact Hst|]. eauto using service_ok_advances.
    + apply map_Forall_insert_2.
      * split; [done|]. by eapply capability_ok_advances.
      * eapply map_Forall_impl; [exact Hc|]. intros k y (Hk & z & w & Hz). split; [done|].
        by eapply capability_ok_advances.
  - assert (s' = s) as ->; [|done]. unfold insertCapability in Hr.
    apply bindM_err in Hr as [?|(b & s1 & (-> & ->)%gets_ok & Hr)]; [done|].
    case_match; [|done]. apply bindM_err in Hr as [?|(t & s1 & (-> & ->)%gets_ok & Hr)]; [done|].
    apply bindM_err in Hr as [?%guard_row_err|([] & s1 & (_ & _ & ->)%guard_row_ok & Hr)]; [done|].
    apply bindM_err in Hr as [?|(x & s1 & (-> & ->)%gets_ok & Hr)]; [done|].
    case_match; [by apply bindM_err in Hr as [?|(? & ? & ? & ?)]|by injection Hr].
Qed.
End statements.

(** ** Requests *)

Section requests.
Context `{Entropy} `{PublishedServiceConfig}.

(** What a request must satisfy: on its own, and against the tables. *)
Record acceptable (input : CreatePublishedServiceInput) : Prop := {
  names_sessions : 1 ≤ length (pi_allowedBrowserSessionIds input) ≤ 32;
  lifetime_allowed : (0 < pi_ttlSeconds input ≤ routeTtlMaxSeconds)%Z;
  destination_allowed : evaluateDestination destinationPolicy (input_destination input) = None
}.
Record resolves (input : CreatePublishedServiceInput) (d : Db) : Prop := {
  connector_serves : ∃ c e, connectors d !! pi_connectorId input = Some c
    ∧ environments d !! cn_environment_id c = Some e ∧ cn_status c = C_ACTIVE
    ∧ cn_organisation_id c = pi_organisationId input
    ∧ (cn_project_id c = Some (pi_projectId input) ∨ ev_project e = Some (pi_projectId input)
       ∨ cn_project_id c = None ∧ ev_project e = None);
  workspace_inside : ∃ w, workspaces d !! pi_workspaceId input = Some w
    ∧ wk_organisation_id w = pi_organisationId input ∧ wk_project_id w = pi_projectId input;
  all_sessions_inside : ∀ id, id ∈ pi_allowedBrowserSessionIds input →
    session_in_project (pi_organisationId input) (pi_projectId input) d id = true;
  below_limit : (countReadyForConnector (pi_connectorId input) (pi_organisationId input) d
                 < maxRoutesPerConnector)%Z
}.

Lemma request_checks_pass input : pass (request_checks input) ↔ acceptable input.
Proof.
  unfold request_checks. split.
  - intros Hr. repeat case_bool_decide; try discriminate; cbn in Hr; try discriminate.
    destruct (evaluateDestination _ _) eqn:He; [discriminate|]. split; [lia|lia|done].
  - intros [? ? ->]. rewrite !bool_decide_false by lia. done.
Qed.

Lemma publishable_spec id o p d :
  findPublishableConnector id o p d = true ↔
  ∃ c e, connectors d !! id = Some c ∧ environments d !! cn_environment_id c = Some e
    ∧ cn_status c = C_ACTIVE ∧ cn_organisation_id c = o
    ∧ (cn_project_id c = Some p ∨ ev_project e = Some p ∨ cn_project_id c = None ∧ ev_project e = None).
Proof.
  unfold findPublishableConnector, findConnectorStatusInScope, serves. rewrite bool_decide_eq_true.
  destruct (connectors d !! id) as [c|]; cbn; [|split; [done|by intros (? & ? & ? & _)]].
  destruct (environments d !! cn_environment_id c) as [e|] eqn:He; cbn;
    [|split; [done|intros (? & ? & [= <-] & ? & _); congruence]].
  rewrite !bool_decide_decide. split.
  - intros Hr. exists c, e. repeat case_decide; cbn in Hr; simplify_eq; split_and!; auto.
  - intros (? & ? & [= <-] & He' & Hs & Ho & Hp). assert (x0 = e) as -> by congruence.
    rewrite decide_True, Hs by done.
    destruct Hp as [Hp|[Hp|[Hp Hp']]];
      repeat case_decide; cbn; try done; congruence.
Qed.

Lemma reference_checks_pass input d : pass (reference_checks input d) ↔ resolves input d.
Proof.
  unfold reference_checks.
  assert (existsb (λ id, negb (includes (findBrowserSessionsInProject (pi_allowedBrowserSessionIds input)
      (pi_organisationId input) (pi_projectId input) d) id)) (pi_allowedBrowserSessionIds input) = false
    ↔ ∀ id, id ∈ pi_allowedBrowserSessionIds input →
        session_in_project (pi_organisationId input) (pi_projectId input) d id = true) as Hsessions.
  { rewrite <- not_true_iff_false, existsb_elem. unfold includes, findBrowserSessionsInProject.
    setoid_rewrite negb_true_iff. setoid_rewrite bool_decide_eq_false.
    setoid_rewrite list_elem_of_filter. split.
    - intros Hn id Hid. destruct (session_in_project _ _ d id) eqn:Hs; [done|].
      destruct Hn. exists id. split; [done|]. intros [? _]. congruence.
    - intros Hall (id & Hid & Hn). apply Hn. auto. }
  split.
  - destruct (findPublishableConnector _ _ _ _) eqn:Hc; [|done]. cbn [negb].
    destruct (findWorkspaceInProject _ _ _ _) eqn:Hw; [|done]. cbn [negb].
    destruct (existsb _ _) eqn:Hs; [done|]. case_bool_decide as Hn; [done|]. intros _.
    apply publishable_spec in Hc. unfold findWorkspaceInProject in Hw.
    destruct (workspaces d !! _) as [w|] eqn:Hl; [|done]. apply andb_true_iff in Hw as [Ho Hp].
    apply bool_decide_eq_true in Ho, Hp. split; [done|by exists w|by apply Hsessions|lia].
  - intros [Hc (w & Hw & Ho & Hp) Hs Hn]. rewrite (proj2 (publishable_spec _ _ _ _) Hc). cbn [negb].
    unfold findWorkspaceInProject. rewrite Hw, !bool_decide_true by done. cbn [andb negb].
    rewrite (proj2 Hsessions Hs), bool_decide_false by lia. done.
Qed.

Lemma integer_destination input :
  evaluateDestination destinationPolicy (input_destination input) = None →
  evaluateDestination destinationPolicy
    {| host := pi_localHost input; port := dec_of_Z (integer_of (pi_localPort input));
       protocol := pi_protocol input |} = None.
Proof. rewrite !evaluate_None. intros (a & Ha & Hn & Hp & (_ & Hr & Hl) & Hpr). by exists a. Qed.

(** What a route that was requested is, and all that was written. *)
Record requested (input : CreatePublishedServiceInput) (actor : EventActor) (s s' : St)
    (r : PublishedServiceRow) : Prop := {
  rq_row : ∃ id alias, r = requested_row ("svc_" +:+ id) ("svc-" +:+ alias) (clock s) input;
  rq_acceptable : acceptable input;
  rq_resolves : resolves input (db s);
  rq_checked : violated (service_checks r) = None;
  rq_new : published_services (db s) !! ps_id r = None;
  rq_alias : ∀ k r', published_services (db s) !! k = Some r' → ps_id r' ≠ ps_id r → ¬ same_alias r r';
  rq_db : ∃ l, db s' = with_log l (with_published_services (<[ps_id r := r]> (published_services (db s))) (db s))
    ∧ ∃ e, events l = events (log (db s)) ++ [e] ∧ ev_type e = "published_service.requested"
      ∧ ev_actor e = actor ∧ ev_organisation_id e = ps_organisation_id r
      ∧ ev_project_id e = Some (ps_project_id r) ∧ ev_occurred_at e = clock s
}.

Lemma write_event_run id input s u s' :
  write_event id input s = (Ok u, s') → ∃ l e, s' = with_db (with_log l (db s)) s
    ∧ events l = events (log (db s)) ++ [e] ∧ ev_type e = ev_in_type input
    ∧ ev_actor e = ev_in_actor input ∧ ev_organisation_id e = ev_in_organisationId input
    ∧ ev_project_id e = ev_in_projectId input ∧ ev_payload e = ev_in_payload input
    ∧ ev_occurred_at e = default (clock s) (ev_in_occurredAt input).
Proof.
  unfold write_event, appendEvent. destruct (_ ;; _); [|done]. case_bool_decide; [done|].
  intros [= _ <-]. eexists _, _. split; [reflexivity|]. by cbn.
Qed.
Lemma append_at_run time type scope actor correlation payload s u s' :
  append_at time type scope actor correlation payload s = (Ok u, s') →
  ∃ l e, db s' = with_log l (db s) ∧ clock s' = clock s
    ∧ events l = events (log (db s)) ++ [e] ∧ ev_type e = type ∧ ev_actor e = actor
    ∧ ev_organisation_id e = organisationId scope ∧ ev_project_id e = Some (projectId scope)
    ∧ ev_payload e = payload ∧ ev_occurred_at e = time.
Proof.
  unfold append_at. intros (id & s1 & Hid & Hw)%bindM_ok.
  apply newId_ok in Hid as (_ & Hdb & Hclock & _).
  apply write_event_run in Hw as (l & e & -> & He & Ht & Ha & Ho & Hp & Hpl & Hoc).
  rewrite Hdb in He. exists l, e. cbn. rewrite Hdb. done.
Qed.

Lemma request_run input actor requestId s v s' :
  request input actor requestId s = (Ok v, s') →
  ∃ r, requested input actor s s' r ∧ v = view r.
Proof.
  unfold request. intros Hr.
  apply bindM_ok in Hr as ([] & s0 & (Hc%request_checks_pass & ->)%lift_ok & Hr).
  apply bindM_ok in Hr as (id & s1 & [= <- <-] & Hr).
  apply bindM_ok in Hr as (alias & s2 & [= <- <-] & Hr).
  apply bindM_ok in Hr as (time & s3 & (-> & ->)%now_ok & Hr). apply inTransaction_ok in Hr.
  unfold request_statements in Hr. cbv zeta in Hr.
  apply bindM_ok in Hr as (ck & s4 & (-> & ->)%gets_ok & Hr).
  apply bindM_ok in Hr as ([] & s4 & (Hres%reference_checks_pass & ->)%lift_ok & Hr).
  apply bindM_ok in Hr as ([] & s5 & Hins & Hr).
  apply bindM_ok in Hr as ([] & s6 & Ha & (-> & ->)%retM_ok).
  match type of Ha with context [ requested_row ?i ?a ?t input ] => set (r := requested_row i a t input) in * end.
  unfold insert_service in Hins. inv_run. rewrite !violated_cons in *. cbn [snd] in *. destruct_and!.
  rewrite !negb_true_iff in *. unfold is_fresh in *. rewrite bool_decide_eq_true in *. cbn [db] in *.
  apply append_at_run in Ha as (l & e & Hdb & _ & He & Ht & Hac & Ho & Hp & _ & Hoc). cbn in Hdb, He.
  exists r. split; [|done]. split; try done; [by eexists _, _| |].
  - intros k r' Hk Hne Hs. unfold alias_taken in *.
    match goal with Hf : existsb _ _ = false |- _ => eapply existsb_rows in Hf; [|exact Hk] end.
    cbn in *. unfold same_alias in Hs. rewrite !bool_decide_true in * by done. done.
  - exists l. split; [done|]. by exists e.
Qed.

Lemma requested_service_ok input actor s s' r :
  requested input actor s s' r → service_ok (db s) r.
Proof.
  intros [(id & alias & ->) [Hn Hl Hd] [_ _ Hs _] _ _ _ _]. split; cbn.
  - done.
  - by apply integer_destination.
  - lia.
  - done.
Qed.
Lemma requested_good ids d0 input actor s s' r :
  requested input actor s s' r → good ids d0 (db s) → good ids d0 (db s').
Proof.
  intros Hq [[Hs Ha Hst Hc] Had Hen]. pose proof (requested_service_ok _ _ _ _ _ Hq) as Hok.
  destruct Hq as [(id & alias & Hrow) _ _ Hck Hnew Halias (l & -> & _)]. apply good_ignores_log.
  match goal with |- good _ _ ?d => assert (advances (db s) d) as Hstep end.
  { split; cbn.
    - intros k x Hk. exists x. rewrite lookup_insert_ne by congruence. split; [done|].
      by split; [|left].
    - intros k c Hk. exists c. by split; [|left].
    - intros k b Hk. by exists b. }
  split; [split; cbn|by etrans|].
  - by apply rows_ok_insert.
  - eapply (no_clash_insert ps_id service_checks); [done|done|intros ? ?; unfold same_alias; congruence| |].
    + intros k r' Hk Hne. by eapply Halias.
    + intros ? ?. unfold same_alias. congruence.
  - apply map_Forall_insert_2; [by eapply service_ok_advances|].
    eapply map_Forall_impl; [exact Hst|]. eauto using service_ok_advances.
  - eapply map_Forall_impl; [exact Hc|]. intros k c (Hk & x & b & Hb). split; [done|].
    by eapply capability_ok_advances.
  - intros k (x & Hk & Hx). cbn in Hk. apply lookup_insert_Some in Hk as [[_ <-]|[_ Hk]].
    + rewrite Hrow in Hx. cbn in Hx. rewrite !elem_of_cons in Hx. by destruct Hx as [?|[?|?%elem_of_nil]].
    + apply Hen. by exists x.
Qed.
End requests.

(** ** The operations keep the tables well formed *)

Section operations.
Context `{Entropy} `{Hmac} `{PublishedServiceConfig}.

Ltac moves_on :=
  intros r Hp; rewrite ?bool_decide_eq_true in Hp;
  unfold live_route in Hp; rewrite ?bool_decide_eq_true, ?elem_of_cons, ?elem_of_nil in Hp.

Lemma markReady_moves observed time id :
  moves_on [] id (λ r, bool_decide (ps_status r = ps_requested))
    (λ r, set_service ps_ready (ps_failure_class r) (Some observed) (Some time) (ps_ended_at r) r).
Proof.
  moves_on. split_and!.
  - split; [done|right; by left].
  - unfold well_staged. rewrite Hp. by intros (_ & _ & ->).
  - cbn. rewrite !elem_of_cons. by intros [?|[?|?%elem_of_nil]].
Qed.
Lemma markFailed_moves failure time id :
  moves_on [] id live_route
    (λ r, set_service ps_failed (Some failure) (ps_observed_destination r) (ps_ready_at r) (Some time) r).
Proof.
  moves_on. split_and!.
  - split; [done|]. destruct Hp as [Hp|[Hp|[]]]; [right; by left|]. right. right. cbn.
    split_and!; try done. by left.
  - by cbn.
  - cbn. rewrite !elem_of_cons. by intros [?|[?|?%elem_of_nil]].
Qed.
Lemma markEnded_moves status time id :
  status ∈ [ps_expired; ps_revoked] →
  moves_on [id] id live_route
    (λ r, set_service status (ps_failure_class r) (ps_observed_destination r) (ps_ready_at r)
            (Some time) r).
Proof.
  intros Hst. moves_on. split_and!.
  - split; [done|]. destruct Hp as [Hp|[Hp|[]]]; [right; by left|]. right. right. cbn.
    split_and!; try done. by right.
  - rewrite !elem_of_cons in Hst. destruct Hst as [->|[->|[]%elem_of_nil]]; by cbn.
  - intros _. by left.
Qed.

(** The rules for what a route's operations are made of. *)
Ltac keep_good :=
  repeat lazymatch goal with
    | |- preserves _ (update_service_where _ _ _) =>
        apply update_service_good;
        first [apply markReady_moves|apply markFailed_moves|apply markEnded_moves; by repeat constructor]
    | |- preserves _ (withdraw_where _) => apply withdraw_good
    | |- preserves _ (mbind _ _) => apply preserves_bind; [|intros ?]
    | |- _ => preserve_step
    end.

Lemma failPublication_good {A} d0 record actor requestId error :
  preserves (good [] d0) (failPublication (A := A) record actor requestId error).
Proof. unfold failPublication, markFailed. keep_good. Qed.
Lemma finishPublication_good d0 record actor requestId answer :
  preserves (good [] d0) (finishPublication record actor requestId answer).
Proof.
  unfold finishPublication, answered, settlePublication, markReady.
  repeat first [apply failPublication_good | progress keep_good].
Qed.
Lemma finishRevoke_good d0 existing actor requestId :
  preserves (good [ps_id existing] d0) (finishRevoke existing actor requestId).
Proof. unfold finishRevoke, markEnded, revokeCapabilitiesForService. keep_good. Qed.
Lemma expireOne_good d0 time service :
  preserves (good [ps_id service] d0) (expireOne time service).
Proof. unfold expireOne, markEnded, revokeCapabilitiesForService. keep_good. Qed.
Lemma finishClosing_good `{ReconcilerConfig} d0 time c :
  preserves (good [cg_route c] d0) (finishClosing time c).
Proof.
  unfold finishClosing, markEnded, closing_status, revokeCapabilitiesForService.
  destruct (cg_expired c); keep_good.
Qed.
Lemma revokeCapabilitiesForSession_good d0 id :
  preserves (good [] d0) (revokeCapabilitiesForSession id).
Proof. unfold revokeCapabilitiesForSession. keep_good. Qed.

Lemma request_err input actor requestId s e s' :
  request input actor requestId s = (Err e, s') → db s' = db s.
Proof.
  unfold request. intros Hr. apply bindM_err in Hr as [Hr|([] & s1 & (_ & ->)%lift_ok & Hr)].
  { unfold lift in Hr. by case_match; injection Hr as _ <-. }
  apply bindM_err in Hr as [Hr|(id & s1 & [= _ <-] & Hr)]; [done|].
  apply bindM_err in Hr as [Hr|(alias & s2 & [= _ <-] & Hr)]; [done|].
  apply bindM_err in Hr as [Hr|(time & s3 & (-> & ->)%now_ok & Hr)]; [done|].
  by apply inTransaction_err in Hr as ->.
Qed.
Lemma request_good d0 input actor requestId : preserves (good [] d0) (request input actor requestId).
Proof.
  intros s [v|e] s' Hr Hg.
  - apply request_run in Hr as (r & Hq & _). by eapply requested_good.
  - by rewrite (request_err _ _ _ _ _ _ Hr).
Qed.

(** *** Minting *)

(** A plan against the tables it was made on. *)
Record plan_ok (d : Db) (plan : MintPlan) (r : PublishedServiceRow) (b : BrowserSessionRow) : Prop := {
  plan_route : published_services d !! ps_id (mp_service plan) = Some r
    ∧ static r = static (mp_service plan);
  plan_session : browser_sessions d !! mp_browserSessionId plan = Some b
    ∧ bs_organisation_id b = ps_organisation_id r ∧ bs_project_id b = ps_project_id r;
  plan_listed : mp_browserSessionId plan ∈ ps_allowed_browser_session_ids r;
  plan_key : capability = Some (mp_key plan);
  plan_expiry : (mp_time plan < mp_expiresAt plan ≤ ps_expires_at r)%Z
    ∧ (mp_expiresAt plan ≤ mp_time plan + sk_ttlSeconds (mp_key plan) * 1000)%Z;
  plan_limit : ∀ limit, max_duration (bs_limits b) = Ok (Some limit) →
    (mp_expiresAt plan ≤ bs_created_at b + limit * 1000)%Z
}.
Definition planned (d : Db) (plan : MintPlan) : Prop := ∃ r b, plan_ok d plan r b.

Lemma planned_advances d d' plan : advances d d' → planned d plan → planned d' plan.
Proof.
  intros Ha (r & b & [[Hr Hst] (Hb & Ho & Hp) Hl Hk He Hw]).
  destruct (services_go_on _ _ Ha _ _ Hr) as (r' & Hr' & Hgo & _).
  destruct (sessions_go_on _ _ Ha _ _ Hb) as (b' & Hb' & [= Hi Ho' Hp' Hli Hc]).
  exists r', b'. pose proof Hgo as (E1 & E2 & E3 & E4 & E5 & _)%static_eq.
  split; rewrite ?E2, ?E3, ?E4, ?E5, ?Ho', ?Hp', ?Hli, ?Hc; try done.
  split; [done|congruence].
Qed.

Lemma findInScope_run id scope d r :
  findInScope id scope d = Some r →
  published_services d !! id = Some r ∧ scope_covers scope (ps_organisation_id r) (ps_project_id r) = true.
Proof.
  unfold findInScope. destruct (published_services d !! id) as [x|]; cbn; [|done].
  destruct (scope_covers scope _ _) eqn:Hc; by intros [= <-].
Qed.
Lemma answered_ok {A} (r : result Failure A) s a s' : answered r s = (Ok a, s') ↔ r = Ok a ∧ s' = s.
Proof. destruct r; cbn; [rewrite retM_ok|]; naive_solver. Qed.
Lemma findSessionLifetime_run id o p s found s' :
  findSessionLifetime id o p s = (Ok found, s') →
  s' = s ∧ ∀ created limit, found = Some (created, limit) →
    ∃ b, browser_sessions (db s) !! id = Some b ∧ bs_organisation_id b = o ∧ bs_project_id b = p
      ∧ created = bs_created_at b ∧ max_duration (bs_limits b) = Ok limit.
Proof.
  unfold findSessionLifetime. intros Hr.
  apply bindM_ok in Hr as (b & s1 & (-> & ->)%gets_ok & Hr).
  apply bindM_ok in Hr as (f & s1 & (-> & ->)%gets_ok & Hr). unfold session_in_project in Hr.
  destruct (browser_sessions (db s) !! id) as [b|]; [|apply retM_ok in Hr as [-> ->]; by split].
  destruct (_ && _) eqn:Hf; [|apply retM_ok in Hr as [-> ->]; by split].
  apply bindM_ok in Hr as (l & s1 & (Hl & ->)%answered_ok & (-> & ->)%retM_ok). split; [done|].
  intros ? ? [= <- <-]. apply andb_true_iff in Hf as [Ho Hp].
  apply bool_decide_eq_true in Ho, Hp. by exists b.
Qed.

Lemma decideMint_run id sid ttl scope s plan s' :
  decideMint id sid ttl scope s = (Ok plan, s') →
  s' = s ∧ mp_time plan = clock s ∧ mp_browserSessionId plan = sid
  ∧ findInScope id scope (db s) = Some (mp_service plan) ∧ ps_status (mp_service plan) = ps_ready
  ∧ (routes_ok (db s) → planned (db s) plan).
Proof.
  unfold decideMint. intros Hr.
  apply bindM_ok in Hr as (key & s1 & (Hkey & ->)%unless_none_ok & Hr).
  apply bindM_ok in Hr as (service & s1 & Hread & Hr). unfold read in Hread.
  apply bindM_ok in Hread as (f & s2 & (-> & ->)%gets_ok & (Hf & ->)%unless_none_ok).
  apply bindM_ok in Hr as ([] & s1 & (Hck & ->)%lift_ok & Hr).
  case_bool_decide as Hready; [|done]. cbn [negb] in Hck.
  destruct (includes _ sid) eqn:Hl; [|done]. apply bool_decide_eq_true in Hl. clear Hck.
  apply bindM_ok in Hr as (found & s1 & (-> & Hfound)%findSessionLifetime_run & Hr).
  apply bindM_ok in Hr as ([created limit] & s1 & (Hfo & ->)%lift_ok & Hr).
  destruct found as [[c l]|]; [|done]. injection Hfo as -> ->.
  destruct (Hfound _ _ eq_refl) as (b & Hb & Ho & Hp & -> & Hlim).
  apply bindM_ok in Hr as (time & s1 & (-> & ->)%now_ok & Hr).
  apply bindM_ok in Hr as ([] & s1 & (Hck & ->)%lift_ok & (-> & ->)%retM_ok). cbn.
  unfold check_lifetime in Hck. case_bool_decide; [done|]. case_bool_decide; [done|].
  case_bool_decide as Hexp; [by repeat case_match|]. cbn [orb] in Hck.
  split_and!; [done..|]. intros Hok. apply findInScope_run in Hf as [Hf _].
  assert (ps_id service = id) as Hid by (by eapply rows_ok_key; [apply services_ok|]).
  exists service, b. unfold capability_expiry in *. split; cbn.
  - by rewrite Hid.
  - done.
  - done.
  - done.
  - destruct limit; lia.
  - intros n Hn. rewrite Hlim in Hn. injection Hn as ->. lia.
Qed.

Lemma issue_good d0 plan actor requestId :
  planned d0 plan → preserves (good [] d0) (issue plan actor requestId).
Proof.
  intros Hplan. unfold issue.
  repeat first [apply insertCapability_good | preserve_step].
  intros d Hg Hlt. apply (planned_advances _ _ _ (good_advances _ _ _ Hg)) in Hplan.
  destruct Hplan as (r & b & [[Hr Hst] (Hb & Ho & Hp) Hl Hk [He Ht] Hw]).
  exists r, b. pose proof Hst as (E1 & E2 & E3 & E4 & E5 & _)%static_eq.
  split; cbn; rewrite <- ?E2, <- ?E3; try done. by eexists.
Qed.
End operations.

(** ** The system *)

Inductive Instruction :=
| told_register (id observed : string)
| told_withdraw (id : string)
| told_withdraw_capability (id : string).

Inductive PendingRoute :=
| awaits_connector (record : PublishedServiceRow) (actor : EventActor) (requestId : string)
| awaits_registration (record : PublishedServiceRow) (actor : EventActor) (requestId : string)
| awaits_revocation (existing : PublishedServiceRow) (actor : EventActor) (requestId : string)
| expiring (time : Z) (due : list PublishedServiceRow)
| awaits_expiry (time : Z) (service : PublishedServiceRow) (due : list PublishedServiceRow)
| awaits_issue (plan : MintPlan) (actor : EventActor) (requestId : string)
| awaits_capabilities (browserSessionId : string)
| closing (time : Z) (due : list Closing)
| awaits_closing (time : Z) (c : Closing) (due : list Closing).

Record Routes := { rt_st : St; rt_pending : list PendingRoute; rt_told : list Instruction }.

(** What a reconciliation is to close. *)
Definition needs_closing (e : ReconciledRoute) : bool :=
  negb (continues_route e) && negb (bool_decide (rn_closure e = closed_none)).

Section system.
Context `{Entropy} `{Hmac} `{PublishedServiceConfig} `{ReconcilerConfig}.

(** A method begins: the state it leaves, what it waits in, what it has told the
    gateway.  [completePending] begins a completion of each route it reads. *)
Inductive begins (s : St) : St → list PendingRoute → list Instruction → Prop :=
| bg_request input actor requestId res s' :
    request input actor requestId s = (res, s') → begins s s' [] []
| bg_complete id actor requestId record s' :
    read id DEPLOYMENT_SCOPE s = (Ok record, s') → ps_status record = ps_requested →
    begins s s' [awaits_connector record actor requestId] []
| bg_revoke id scope actor requestId existing s' :
    read id scope s = (Ok existing, s') →
    begins s s' [awaits_revocation existing actor requestId] [told_withdraw id]
| bg_expire limit : begins s s [expiring (clock s) (findDueForExpiry (clock s) limit (db s))] []
| bg_mint id browserSessionId ttlSeconds scope actor requestId plan s' :
    decideMint id browserSessionId ttlSeconds scope s = (Ok plan, s') →
    begins s s' [awaits_issue plan actor requestId] []
| bg_session_over id :
    findLiveCapabilitiesForSession id (db s) ≠ [] →
    begins s s [awaits_capabilities id]
      (told_withdraw_capability <$> findLiveCapabilitiesForSession id (db s))
| bg_reconnect connectorId requestId claimed :
    begins s s [closing (clock s) (closing_of connectorId requestId <$>
      filter (λ e, needs_closing e = true) (decided_routes connectorId claimed (clock s) (db s)))] []
| bg_connector_revoked connectorId requestId actor :
    begins s s [closing (clock s) (revocation_of connectorId requestId actor <$>
      findLiveForConnector connectorId MAX_LIVE_ROUTES (db s))] [].

(** A waiting method is answered, or finds the gateway or the connector out of
    reach. *)
Inductive continues (s : St) : PendingRoute → St → list PendingRoute → list Instruction → Prop :=
| ct_refused record actor requestId error (res : result Failure PublishedServiceView) s' :
    failPublication record actor requestId error s = (res, s') →
    continues s (awaits_connector record actor requestId) s' [] []
| ct_published record actor requestId observed :
    continues s (awaits_connector record actor requestId) s
      [awaits_registration record actor requestId] [told_register (ps_id record) observed]
| ct_registered record actor requestId answer res s' :
    finishPublication record actor requestId answer s = (res, s') →
    continues s (awaits_registration record actor requestId) s' [] []
| ct_revoked existing actor requestId res s' :
    finishRevoke existing actor requestId s = (res, s') →
    continues s (awaits_revocation existing actor requestId) s' [] []
| ct_not_revoked existing actor requestId :
    continues s (awaits_revocation existing actor requestId) s [] []
| ct_expire time service due :
    continues s (expiring time (service :: due)) s [awaits_expiry time service due]
      [told_withdraw (ps_id service)]
| ct_expired_all time : continues s (expiring time []) s [] []
| ct_expired time service due view s' :
    expireOne time service s = (Ok view, s') →
    continues s (awaits_expiry time service due) s' [expiring time due] []
| ct_expiry_failed time service due e s' :
    expireOne time service s = (Err e, s') → continues s (awaits_expiry time service due) s' [] []
| ct_not_expired time service due : continues s (awaits_expiry time service due) s [] []
| ct_issued plan actor requestId res s' :
    issue plan actor requestId s = (res, s') →
    continues s (awaits_issue plan actor requestId) s' [] []
| ct_capabilities id ids s' :
    withdraw_where (λ c, bool_decide (rc_browser_session_id c = id)) s = (ids, s') →
    continues s (awaits_capabilities id) s' [] []
| ct_close time c due :
    continues s (closing time (c :: due)) s [awaits_closing time c due] [told_withdraw (cg_route c)]
| ct_closed_all time : continues s (closing time []) s [] []
| ct_closed time c due ended s' :
    finishClosing time c s = (Ok ended, s') →
    continues s (awaits_closing time c due) s' [closing time due] []
| ct_closing_failed time c due e s' :
    finishClosing time c s = (Err e, s') → continues s (awaits_closing time c due) s' [] []
| ct_not_closed time c due : continues s (awaits_closing time c due) s [] [].

(** What other modules may do: whatever leaves these two tables alone and no
    session under another identity. *)
Record elsewhere (d d' : Db) : Prop := {
  same_services : published_services d' = published_services d;
  same_capabilities : route_capabilities d' = route_capabilities d;
  same_sessions : ∀ k b, browser_sessions d !! k = Some b →
    ∃ b', browser_sessions d' !! k = Some b' ∧ session_identity b' = session_identity b
}.

Inductive route_moves (x : Routes) : Routes → Prop :=
| rm_begin s' ps told :
    begins (rt_st x) s' ps told →
    route_moves x {| rt_st := s'; rt_pending := ps ++ rt_pending x; rt_told := told ++ rt_told x |}
| rm_continue p before after s' ps told :
    rt_pending x = before ++ p :: after → continues (rt_st x) p s' ps told →
    route_moves x {| rt_st := s'; rt_pending := before ++ ps ++ after; rt_told := told ++ rt_told x |}
| rm_time t : (clock (rt_st x) ≤ t)%Z →
    route_moves x {| rt_st := later t (rt_st x); rt_pending := rt_pending x; rt_told := rt_told x |}
| rm_elsewhere s' :
    elsewhere (db (rt_st x)) (db s') →
    route_moves x {| rt_st := s'; rt_pending := rt_pending x; rt_told := rt_told x |}.

(** The gateway was told of every route that expired or was revoked, and of
    every one that is about to be. *)
Definition pending_ok (x : Routes) (p : PendingRoute) : Prop :=
  match p with
  | awaits_revocation existing _ _ | awaits_expiry _ existing _ =>
      told_withdraw (ps_id existing) ∈ rt_told x
  | awaits_closing _ c _ => told_withdraw (cg_route c) ∈ rt_told x
  | awaits_issue plan _ _ => planned (db (rt_st x)) plan
  | _ => True
  end.
Record system_ok (x : Routes) : Prop := {
  tables_ok : routes_ok (db (rt_st x));
  gateway_told : ∀ k, ended_route (db (rt_st x)) k → told_withdraw k ∈ rt_told x;
  waiting_ok : ∀ p, p ∈ rt_pending x → pending_ok x p
}.

(** A step of a method: what it did to the tables, and what it has told. *)
Lemma step_ok x s' (ps : list PendingRoute) told ids before :
  system_ok x → good ids (db (rt_st x)) (db s') →
  (∀ k, k ∈ ids → told_withdraw k ∈ rt_told x) →
  let y := {| rt_st := s'; rt_pending := before; rt_told := told ++ rt_told x |} in
  (∀ p, p ∈ before → p ∈ rt_pending x ∨ p ∈ ps) → (∀ p, p ∈ ps → pending_ok y p) →
  system_ok y ∧ advances (db (rt_st x)) (db s').
Proof.
  intros [Ht Hg Hw] [Hok Had Hen] Hids y Hbefore Hps. split; [|done]. split; cbn.
  - done.
  - intros k Hk. apply elem_of_app. right. destruct (Hen _ Hk); auto.
  - intros p [Hp%Hw|Hp%Hps]%Hbefore; [|done]. destruct p; cbn in *; try done;
      first [apply elem_of_app; by right|by eapply planned_advances].
Qed.

Lemma begins_ok x s' ps told :
  system_ok x → begins (rt_st x) s' ps told →
  system_ok {| rt_st := s'; rt_pending := ps ++ rt_pending x; rt_told := told ++ rt_told x |}
  ∧ advances (db (rt_st x)) (db s').
Proof.
  intros Hx Hb. pose proof (good_refl [] _ (tables_ok _ Hx)) as Hrefl.
  apply (step_ok x s' ps told []); try done.
  - destruct Hb as [? ? ? ? ? Hr|? ? ? ? ? Hr|? ? ? ? ? ? Hr| |? ? ? ? ? ? ? ? Hr| | |]; [|try done..].
    + by eapply request_good.
    + unfold read in Hr. by inv_run.
    + unfold read in Hr. by inv_run.
    + by apply decideMint_run in Hr as [-> _].
  - by intros k ?%elem_of_nil.
  - intros p [?|?]%elem_of_app; auto.
  - destruct Hb as [|? ? ? ? ? Hr|? ? ? ? ? ? Hr| |? ? ? ? ? ? ? ? Hr| | |]; intros p Hp; cbn in Hp;
      try (by apply elem_of_nil in Hp); apply elem_of_cons in Hp as [->|[]%elem_of_nil]; cbn; try done.
    + unfold read in Hr. apply bindM_ok in Hr as (f & s1 & (-> & ->)%gets_ok & (Hf & ->)%unless_none_ok).
      apply findInScope_run in Hf as [Hf _].
      rewrite (rows_ok_key _ _ _ _ _ (services_ok _ (tables_ok _ Hx)) Hf). left.
    + apply decideMint_run in Hr as (-> & _ & _ & _ & _ & Hp). apply Hp, tables_ok, Hx.
Qed.

Lemma continues_ok x p before after s' ps told :
  system_ok x → rt_pending x = before ++ p :: after → continues (rt_st x) p s' ps told →
  system_ok {| rt_st := s'; rt_pending := before ++ ps ++ after; rt_told := told ++ rt_told x |}
  ∧ advances (db (rt_st x)) (db s').
Proof.
  intros Hx Hpend Hc.
  assert (p ∈ rt_pending x) as Hp by (rewrite Hpend; apply elem_of_app; right; left).
  pose proof (waiting_ok _ Hx _ Hp) as Hpok.
  assert (∀ ids, good ids (db (rt_st x)) (db s') → (∀ k, k ∈ ids → told_withdraw k ∈ rt_told x) →
    (∀ q, q ∈ ps → pending_ok {| rt_st := s'; rt_pending := before ++ ps ++ after;
                                 rt_told := told ++ rt_told x |} q) →
    system_ok {| rt_st := s'; rt_pending := before ++ ps ++ after; rt_told := told ++ rt_told x |}
    ∧ advances (db (rt_st x)) (db s')) as Hstep.
  { intros ids Hg Hids Hps. eapply step_ok; try done.
    intros q. rewrite Hpend, !elem_of_app, elem_of_cons. tauto. }
  assert (∀ ids, good ids (db (rt_st x)) (db (rt_st x))) as Hrefl
    by (intros; apply good_refl, tables_ok, Hx).
  assert (∀ k, k ∈ @nil string → told_withdraw k ∈ rt_told x) as Hnone by by intros k ?%elem_of_nil.
  destruct Hc as [? ? ? ? ? ? Hr| |? ? ? ? ? ? Hr|? ? ? ? ? Hr| | | |? ? ? ? ? Hr|? ? ? ? ? Hr| |? ? ? ? ? Hr|? ? ? Hr
    | | |? ? ? ? ? Hr|? ? ? ? ? Hr|]; cbn in Hpok.
  - apply (Hstep []); [by eapply failPublication_good|done|by intros q ?%elem_of_nil].
  - apply (Hstep []); [done|done|]. by intros q [->|?%elem_of_nil]%elem_of_cons.
  - apply (Hstep []); [by eapply finishPublication_good|done|by intros q ?%elem_of_nil].
  - apply (Hstep [ps_id existing]); [by eapply finishRevoke_good| |by intros q ?%elem_of_nil].
    by intros k [->|?%elem_of_nil]%elem_of_cons.
  - apply (Hstep []); [done|done|by intros q ?%elem_of_nil].
  - apply (Hstep []); [done|done|]. intros q [->|?%elem_of_nil]%elem_of_cons; [|done]. cbn. left.
  - apply (Hstep []); [done|done|by intros q ?%elem_of_nil].
  - apply (Hstep [ps_id service]); [by eapply expireOne_good| |by intros q [->|?%elem_of_nil]%elem_of_cons].
    by intros k [->|?%elem_of_nil]%elem_of_cons.
  - apply (Hstep [ps_id service]); [by eapply expireOne_good| |by intros q ?%elem_of_nil].
    by intros k [->|?%elem_of_nil]%elem_of_cons.
  - apply (Hstep []); [done|done|by intros q ?%elem_of_nil].
  - apply (Hstep []); [by eapply issue_good|done|by intros q ?%elem_of_nil].
  - apply (Hstep []); [by eapply withdraw_good|done|by intros q ?%elem_of_nil].
  - apply (Hstep []); [done|done|]. intros q [->|?%elem_of_nil]%elem_of_cons; [|done]. cbn. left.
  - apply (Hstep []); [done|done|by intros q ?%elem_of_nil].
  - apply (Hstep [cg_route c]); [by eapply finishClosing_good| |by intros q [->|?%elem_of_nil]%elem_of_cons].
    by intros k [->|?%elem_of_nil]%elem_of_cons.
  - apply (Hstep [cg_route c]); [by eapply finishClosing_good| |by intros q ?%elem_of_nil].
    by intros k [->|?%elem_of_nil]%elem_of_cons.
  - apply (Hstep []); [done|done|by intros q ?%elem_of_nil].
Qed.

Lemma elsewhere_advances d d' : elsewhere d d' → advances d d'.
Proof.
  intros [Hs Hc Hb]. split; rewrite ?Hs, ?Hc.
  - intros k r Hk. exists r. split; [done|]. by split; [|left].
  - intros k c Hk. exists c. by split; [|left].
  - done.
Qed.

Lemma route_moves_ok x y : route_moves x y → system_ok x →
  system_ok y ∧ advances (db (rt_st x)) (db (rt_st y)).
Proof.
  intros [s' ps told Hb|p before after s' ps told Hp Hc|t Ht|s' He] Hx.
  - by apply begins_ok.
  - by eapply continues_ok.
  - split; [|reflexivity]. destruct Hx as [Hok Hg Hw]. split; [done..|]. intros p Hp.
    specialize (Hw p Hp). by destruct p.
  - pose proof (elsewhere_advances _ _ He) as Ha. split; [|done]. destruct Hx as [Hok Hg Hw].
    destruct He as [Hs Hc Hb]. split; cbn.
    + by eapply routes_ok_same.
    + intros k (r & Hk & Hr). apply Hg. exists r. by rewrite <- Hs.
    + intros p Hp. specialize (Hw p Hp). destruct p; try done. by eapply planned_advances.
Qed.

(** What is reached from a deployment without routes. *)
Definition no_routes (s : St) : Prop := published_services (db s) = ∅ ∧ route_capabilities (db s) = ∅.
Definition idle (s : St) : Routes := {| rt_st := s; rt_pending := []; rt_told := [] |}.
Definition route_reachable (x : Routes) : Prop := ∃ s, no_routes s ∧ rtc route_moves (idle s) x.

Lemma idle_ok s : no_routes s → system_ok (idle s).
Proof.
  intros [Hs Hc]. split; cbn.
  - split; rewrite ?Hs, ?Hc; try apply map_Forall_empty. intros k k' r r' Hk. by rewrite lookup_empty in Hk.
  - intros k (r & Hk & _). by rewrite Hs in Hk.
  - by intros p ?%elem_of_nil.
Qed.
Lemma moves_advance x y : rtc route_moves x y → system_ok x →
  system_ok y ∧ advances (db (rt_st x)) (db (rt_st y)).
Proof.
  induction 1 as [x|x y z Hxy _ IH]; intros Hx; [by split|].
  destruct (route_moves_ok _ _ Hxy Hx) as [Hy Ha]. destruct (IH Hy) as [Hz Ha'].
  split; [done|by etrans].
Qed.
Lemma route_reachable_ok x : route_reachable x → system_ok x.
Proof. intros (s & Hs & Hr). by apply (moves_advance _ _ Hr), idle_ok. Qed.
End system.
