(* ===== verification/RouteTheorems.v ===== *)
(** * What the published services guarantee *)

From S2P Require Import Prelude Bytes Capability Errors ReviewProtocol BrowserProtocol ReviewDomain Events EntityId ControlAuthorisation DestinationPolicy Store BrowserSessions PublishedServices Reconciliation Preserve Invariants Samples Effects ControlInvariants BrowserLifecycle RouteLifecycle.

(** ** The browser sessions are elsewhere

    Whatever the browser-session service does, interleaved as it may be, is one
    of the steps the system of routes allows for. *)

Section browsers.
Context `{Entropy} `{WorkerConfig} (d0 : Db).

Lemma elsewhere_same d t :
  elsewhere d0 d → elsewhere d0 (with_log t d).
Proof. by intros []. Qed.
#[export] Instance elsewhere_ignores_log : IgnoresLog (elsewhere d0).
Proof. intros l d. apply elsewhere_same. Qed.
Lemma elsewhere_leases d t : elsewhere d0 d → elsewhere d0 (with_control_leases t d).
Proof. by intros []. Qed.

Lemma elsewhere_put d k (b' : BrowserSessionRow) :
  (∀ b, browser_sessions d !! k = Some b → session_identity b' = session_identity b) →
  elsewhere d0 d → elsewhere d0 (with_browser_sessions (<[k := b']> (browser_sessions d)) d).
Proof.
  intros Hb [Hs Hc Hss]. split; [done..|]. intros j b (x & Hx & Hid)%Hss. cbn.
  destruct (decide (j = k)) as [->|Hne].
  - rewrite lookup_insert_eq. exists b'. split; [done|]. rewrite <- Hid. by apply Hb.
  - rewrite lookup_insert_ne by done. by exists x.
Qed.
Lemma elsewhere_update id p f :
  (∀ b, session_identity (f b) = session_identity b) →
  preserves (elsewhere d0) (update_session_where id p f).
Proof.
  intros Hf s [o|e] s' Hr Hd; [|by apply update_session_where_err in Hr as ->].
  unfold update_session_where in Hr. apply bindM_ok in Hr as (row & s1 & (-> & ->)%gets_ok & Hr).
  destruct (browser_sessions (db s) !! id) as [b|] eqn:Hb; [|by inv_run].
  destruct (p b); [|by inv_run]. inv_run. cbn [db with_db].
  apply elsewhere_put; [|done]. intros x Hx. assert (x = b) as -> by congruence. done.
Qed.
Lemma elsewhere_insert r : preserves (elsewhere d0) (insert_session r).
Proof.
  intros s [o|e] s' Hr Hd.
  - apply insert_session_run in Hr as (_ & Hn & ->). cbn. apply elsewhere_put; [|done].
    intros b Hb. congruence.
  - unfold insert_session in Hr. apply bindM_err in Hr as [?|(t & s1 & (-> & ->)%gets_ok & Hr)]; [done|].
    apply bindM_err in Hr as [->%guard_row_err|(? & ? & _ & ?)]; done.
Qed.

Ltac keep_elsewhere :=
  repeat first
    [ apply elsewhere_update; solve [by intros ?] | apply elsewhere_insert
    | apply preserves_modify; intros ?; apply elsewhere_leases
    | apply quietly_keeps | solve [auto] | preserve_step ].

Lemma setStatus_elsewhere r status actor type payload :
  preserves (elsewhere d0) (setStatus r status actor type payload).
Proof. unfold setStatus, update_session. cbv zeta. keep_elsewhere. Qed.
Lemma serve_elsewhere r : preserves (elsewhere d0) (serve r).
Proof.
  pose proof setStatus_elsewhere. destruct r; cbn [serve];
    unfold createSession, create_statements, activeWorker, insert_lease, completePendingAllocations,
      allocate, requestAllocation, getForScope, recordAllocationRejection, claimForAllocation,
      bindService, settleAllocation, explainWorkerRefusal, assignedProjects, failOverdueAllocations,
      failReservation, pause, resume, endSession, terminate, applyWorkerReport, markReconciled,
      requireControl, refuseLifecycle, recordLifecycleRejection, record_rejected, rejection_stream,
      projectStream, getSession, update_session, revokeLeases, expireStaleLeases, revoke_where;
    cbv zeta; keep_elsewhere.
Qed.
Lemma moves_elsewhere x y :
  moves x y → elsewhere d0 (db (bw_st x)) → elsewhere d0 (db (bw_st y)).
Proof.
  apply moves_keep; try apply serve_elsewhere; intros;
    unfold beginCommand, finishCommand, navigated_event, screenshot_event, decideRequest, grantControl,
      grant_statements, insert_lease, decideRelease, dropControl, getSession, route_associated,
      recordRejection, refuseLifecycle, recordLifecycleRejection, record_rejected, rejection_stream,
      projectStream, update_session, revokeLeases, revoke_where;
    cbv zeta; keep_elsewhere.
Qed.

(** So is what a lost or returning connector does to the sessions. *)
Lemma move_session_elsewhere time status from type reason actor correlation r :
  preserves (elsewhere d0) (move_session time status from type reason actor correlation r).
Proof. unfold move_session, setSessionStatus. keep_elsewhere. Qed.
Lemma handleDisconnect_elsewhere connectorId requestId :
  preserves (elsewhere d0) (handleDisconnect connectorId requestId).
Proof. pose proof move_session_elsewhere. unfold handleDisconnect. keep_elsewhere. Qed.
Lemma applySessionDecisions_elsewhere connectorId decided requestId time :
  preserves (elsewhere d0) (applySessionDecisions connectorId decided requestId time).
Proof. pose proof move_session_elsewhere. unfold applySessionDecisions. keep_elsewhere. Qed.
End browsers.

(** A session operation between two steps of the routes. *)
Lemma browsers_move_routes `{Entropy} `{WorkerConfig} `{Hmac} `{PublishedServiceConfig}
    `{ReconcilerConfig} x b b' :
  bw_st b = rt_st x → moves b b' →
  route_moves x {| rt_st := bw_st b'; rt_pending := rt_pending x; rt_told := rt_told x |}.
Proof.
  intros Hb Hm. apply rm_elsewhere. rewrite <- Hb. eapply moves_elsewhere; [exact Hm|].
  split; [done..|]. intros k r Hk. by exists r.
Qed.

(** ** Requests *)

Section requests.
Context `{Entropy} `{Hmac} `{PublishedServiceConfig}.

Lemma statements_refused id alias time input actor requestId s e :
  reference_checks input (db s) = Err e →
  (inTransaction (request_statements id alias time input actor requestId) s).1 = Err (ApiThrown e).
Proof.
  intros He. unfold inTransaction, request_statements.
  by rewrite (bind_return (gets (reference_checks input)) _ s (reference_checks input (db s)) s), He.
Qed.

(** what a request for a route does.  It returns only for an input that names
    one to thirty-two sessions, a lifetime within the deployment's and a permitted
    destination, through an active connector that serves the project, from a
    workspace of the project, for sessions every one of which belongs to the
    project, below the connector's limit; it then wrote one new row with those
    columns, [requested], under an alias no other route has, and one event, and
    nothing else.  A refusal is that of the first check that fails, the input's
    before the tables', and leaves the tables as they were. *)
Theorem request_decision (input : CreatePublishedServiceInput) (actor : EventActor)
    (requestId : string) (s : St) :
  (∀ v s', request input actor requestId s = (Ok v, s') →
     ∃ r, requested input actor s s' r ∧ v = view r) ∧
  (∀ e s', request input actor requestId s = (Err e, s') → db s' = db s) ∧
  (∀ e, request_checks input = Err e → request input actor requestId s = (Err (ApiThrown e), s)) ∧
  (∀ e, pass (request_checks input) → reference_checks input (db s) = Err e →
     (request input actor requestId s).1 = Err (ApiThrown e)) ∧
  (pass (request_checks input) ↔ acceptable input) ∧
  (pass (reference_checks input (db s)) ↔ resolves input (db s)).
Proof.
  split_and!.
  - intros v s' Hr. by apply request_run in Hr.
  - intros e s' Hr. by eapply request_err.
  - intros e He. unfold request. by rewrite He.
  - intros e Hc He. unfold request. rewrite Hc. by apply statements_refused.
  - apply request_checks_pass.
  - apply reference_checks_pass.
Qed.
End requests.

(** ** Lifecycle *)

Section lifecycle.
Context `{Entropy} `{Hmac} `{PublishedServiceConfig} `{ReconcilerConfig}.


(** C13: what a capability can reach, and for how long.  In every reachable state
    each capability on record was minted for a route of its own project and
    organisation and for a session of the same project that the route names,
    under the configured key; it expires, no later than the route, than the
    configured lifetime and than the session may last; and once recorded it
    changes only by being revoked, once. *)
Theorem capability_bounds (x : Routes) (Hx : route_reachable x) :
  (∀ k c, route_capabilities (db (rt_st x)) !! k = Some c →
     ∃ r b key, published_services (db (rt_st x)) !! rc_published_service_id c = Some r ∧
       browser_sessions (db (rt_st x)) !! rc_browser_session_id c = Some b ∧
       rc_project_id c = ps_project_id r ∧ bs_project_id b = ps_project_id r ∧
       rc_organisation_id c = ps_organisation_id r ∧ bs_organisation_id b = ps_organisation_id r ∧
       rc_browser_session_id c ∈ ps_allowed_browser_session_ids r ∧
       capability = Some key ∧ rc_key_id c = sk_keyId key ∧
       (rc_issued_at c < rc_expires_at c ≤ ps_expires_at r)%Z ∧
       (rc_expires_at c ≤ rc_issued_at c + sk_ttlSeconds key * 1000)%Z ∧
       ∀ limit, max_duration (bs_limits b) = Ok (Some limit) →
         (rc_expires_at c ≤ bs_created_at b + limit * 1000)%Z) ∧
  ∀ y k c, rtc route_moves x y → route_capabilities (db (rt_st x)) !! k = Some c →
    ∃ c', route_capabilities (db (rt_st y)) !! k = Some c' ∧ capability_goes_on c c'.
Proof.
  apply route_reachable_ok in Hx. pose proof Hx as [[_ _ _ Hc] _ _]. split.
  - intros k c Hk. destruct (Hc _ _ Hk) as (_ & r & b & [Hr Hb [Ho1 Ho2] [Hp1 Hp2] Hal (key & Hkey & Hkid & Httl) Hl Hw]).
    exists r, b, key. split_and!; first [done|apply Hl].
  - intros y k c Hy Hk. destruct (moves_advance _ _ Hy Hx) as [_ Had].
    by apply (capabilities_go_on _ _ Had).
Qed.
End lifecycle.

(** ** Binding *)

Section binding.
Context `{Entropy} `{Hmac} `{PublishedServiceConfig}.

Lemma project_scope_covers organisation project o p :
  scope_covers (project_scope organisation project) o p = true ↔ o = organisation ∧ p = project.
Proof.
  unfold scope_covers, includes. cbn.
  by rewrite andb_true_iff, !bool_decide_eq_true, list_elem_of_singleton.
Qed.
Lemma bindable_run id sid scope d r b p c :
  bindable id sid scope d = Some (r, b, p, c) →
  published_services d !! id = Some r ∧ browser_sessions d !! sid = Some b ∧
  projects d !! ps_project_id r = Some p ∧ connectors d !! ps_connector_id r = Some c ∧
  bs_project_id b = ps_project_id r ∧
  scope_covers scope (pj_organisation_id p) (ps_project_id r) = true.
Proof.
  unfold bindable. intros Hb.
  destruct (published_services d !! id) as [r0|]; [|done]. cbn in Hb.
  destruct (browser_sessions d !! sid) as [b0|]; [|done]. cbn in Hb.
  destruct (projects d !! ps_project_id r0) as [p0|] eqn:Hp; [|done]. cbn in Hb.
  destruct (connectors d !! ps_connector_id r0) as [c0|] eqn:Hc; [|done]. cbn in Hb.
  case_bool_decide; [|done]. cbn in Hb. destruct (scope_covers _ _ _) eqn:Hs; [|done].
  by injection Hb as -> -> -> ->.
Qed.

Lemma readBindable_run id sid scope s route s' :
  readBindable id sid scope s = (Ok route, s') →
  s' = s ∧ ∃ r b p c, bindable id sid scope (db s) = Some (r, b, p, c)
    ∧ br_published_service_id route = ps_id r ∧ bs_id b ∈ ps_allowed_browser_session_ids r
    ∧ (clock s < ps_expires_at r)%Z ∧ ps_status r = ps_ready ∧ cn_status c = C_ACTIVE.
Proof.
  unfold readBindable, readAdmissible, findBindableRoute. intros Hr.
  apply bindM_ok in Hr as (x & s1 & Hr & Hrest).
  apply bindM_ok in Hr as (found & s2 & Hfound & Hr).
  apply bindM_ok in Hfound as (f & s3 & (-> & ->)%gets_ok & Hfound).
  destruct (bindable id sid scope (db s)) as [[[[r b] p] c]|]; cycle 1.
  { apply retM_ok in Hfound as [-> ->]. by inv_run. }
  apply bindM_ok in Hfound as (limit & s3 & (_ & ->)%answered_ok & (-> & ->)%retM_ok).
  apply bindM_ok in Hr as (y & s4 & ([= <-] & ->)%unless_none_ok & Hr).
  apply bindM_ok in Hr as ([] & s4 & (Hl & ->)%lift_ok & (-> & ->)%retM_ok).
  apply bindM_ok in Hrest as (time & s5 & (-> & ->)%now_ok & Hrest).
  apply bindM_ok in Hrest as ([] & s5 & (Hc & ->)%lift_ok & (-> & ->)%retM_ok).
  cbn in Hl. destruct (includes _ (bs_id b)) eqn:Hin; [|done]. apply bool_decide_eq_true in Hin.
  unfold check_bindable in Hc. cbn in Hc. cbv zeta in Hc.
  case_bool_decide; [done|]. case_bool_decide as Hready; [|done].
  case_bool_decide as Hactive; [|by repeat case_match].
  split; [done|]. exists r, b, p, c. split_and!; try done. lia.
Qed.

(** What [issue] recorded. *)
Lemma issue_run plan actor requestId s m s' :
  issue plan actor requestId s = (Ok m, s') →
  mintCapability (sk_key (mp_key plan)) (capability_claims (mc_capability_id m) plan)
    = Ok (mc_capability m) ∧
  mc_internal_origin m = origin (ps_public_alias (mp_service plan)) ∧
  route_capabilities (db s) !! mc_capability_id m = None ∧
  (∃ b, browser_sessions (db s) !! mp_browserSessionId plan = Some b ∧ session_alive b = true) ∧
  ∃ l, db s' = with_log l (with_route_capabilities
    (<[mc_capability_id m := capability_row (mc_capability_id m) plan]> (route_capabilities (db s))) (db s)).
Proof.
  unfold issue. intros Hr. apply bindM_ok in Hr as (suffix & s1 & [= <- <-] & Hr). cbv zeta in Hr.
  apply bindM_ok in Hr as (token & s2 & Ht & Hr).
  match type of Ht with context [ mintCapability ?k ?c ] => destruct (mintCapability k c) eqn:Hm end;
    [|done]. apply retM_ok in Ht as [-> ->].
  apply bindM_ok in Hr as ([] & s3 & Htx%inTransaction_ok & (-> & ->)%retM_ok). cbn in *.
  apply bindM_ok in Htx as (recorded & s4 & Hins & Htx).
  apply bindM_ok in Htx as ([] & s5 & (Hck & ->)%lift_ok & Ha).
  destruct recorded; [|done]. clear Hck.
  apply append_at_run in Ha as (l & e & Hdb & _).
  unfold insertCapability in Hins. apply bindM_ok in Hins as (b & s6 & (-> & ->)%gets_ok & Hins).
  destruct (browser_sessions _ !! _) as [b|] eqn:Hb; [|by apply retM_ok in Hins as [? _]].
  cbn match in Hins. destruct (session_alive b) eqn:Halive; [|by apply retM_ok in Hins as [? _]].
  apply bindM_ok in Hins as (t & s6 & (-> & ->)%gets_ok & Hins).
  apply bindM_ok in Hins as ([] & s6 & (_ & Hu & ->)%guard_row_ok & Hins).
  apply bindM_ok in Hins as (o & s6 & (-> & ->)%gets_ok & Hins).
  destruct (published_services _ !! _); [|done]. inv_run.
  rewrite violated_cons in Hu. destruct Hu as [Hu _]. cbn in Hu. unfold is_fresh in Hu.
  apply bool_decide_eq_true in Hu. cbn in *.
  apply retM_ok in Hins as [_ ->]. split_and!; [done|done|done|by exists b|by exists l].
Qed.

(** C15: a browser is bound only to a route that carries traffic for it.  When
    [bind] returns, the route exists in the caller's organisation and project, is
    ready and has not expired, its connector is active, it names the session, and
    the session is one of the same project that has not ended; exactly one
    capability was recorded, for that route and session and within the route's
    life; and the token handed over is one that a gateway holding the key accepts,
    with claims that name the route, the project and the session, until the
    capability's expiry. *)
Theorem bind_sound (id organisation project sid requestId : string) (actor : EventActor)
    (s s' : St) (binding : ServiceBinding) (token : string)
    (Hmac : ∀ k m, length (hmac_sha256 k m) = 32) (Hok : routes_ok (db s))
    (Hbound : bind id organisation project sid actor requestId s = (Ok (binding, token), s')) :
  ∃ r b p c key capabilityId expiresAt,
    published_services (db s) !! id = Some r ∧ browser_sessions (db s) !! sid = Some b ∧
    projects (db s) !! project = Some p ∧ connectors (db s) !! ps_connector_id r = Some c ∧
    pj_organisation_id p = organisation ∧ ps_organisation_id r = organisation ∧
    ps_project_id r = project ∧ bs_project_id b = project ∧ session_alive b = true ∧
    ps_status r = ps_ready ∧ cn_status c = C_ACTIVE ∧
    sid ∈ ps_allowed_browser_session_ids r ∧ capability = Some key ∧
    (clock s < expiresAt ≤ ps_expires_at r)%Z ∧
    binding = {| sb_publishedServiceId := id;
                 sb_serviceOrigin := without_slash (origin (ps_public_alias r)) |} ∧
    (∃ l, db s' = with_log l (with_route_capabilities (<[capabilityId :=
       {| rc_id := capabilityId; rc_organisation_id := organisation; rc_project_id := project;
          rc_published_service_id := id; rc_browser_session_id := sid; rc_key_id := sk_keyId key;
          rc_issued_at := clock s; rc_expires_at := expiresAt; rc_revoked_at := None |}]>
       (route_capabilities (db s))) (db s))) ∧
    ∀ ring nowUnix, ring !! units (sk_keyId key) = Some (sk_key key) →
      verifyCapability ring token nowUnix =
        if bool_decide (nowUnix < expiresAt / 1000)%Z
        then Ok (mk_claims (units (sk_keyId key)) (units capabilityId) (units id) (units project)
                   (units sid) (clock s / 1000)%Z (expiresAt / 1000)%Z)
        else refused expired "capability expired".
Proof.
  unfold bind in Hbound. cbv zeta in Hbound.
  apply bindM_ok in Hbound as (route & s1 & Hroute & Hbound).
  apply readBindable_run in Hroute as (-> & r & b & p & c & Hb & Hid & Hal & Hexp & Hready & Hactive).
  apply bindM_ok in Hbound as (m & s2 & Hmint & (Heq & ->)%retM_ok). injection Heq as -> ->.
  apply bindable_run in Hb as (Hr & Hbs & Hp & Hc & Hproj & [Horg Hprj]%project_scope_covers).
  assert (ps_id r = id) as Hkey by (by eapply rows_ok_key; [apply services_ok|]).
  rewrite Hid, Hkey in *. unfold mint in Hmint.
  apply bindM_ok in Hmint as (plan & s3 & Hplan & Hissue).
  apply decideMint_run in Hplan as (-> & Htime & Hsid & Hfind & _ & Hplanned).
  apply findInScope_run in Hfind as [Hfind Hscope].
  assert (mp_service plan = r) as Hserv by congruence.
  destruct (Hplanned Hok) as (r1 & b1 & [[Hr1 _] (Hb1 & Ho1 & Hp1) Hl1 Hk1 [He1 _] _]).
  rewrite Hserv, Hkey in Hr1. assert (r1 = r) as -> by congruence. clear Hr1.
  rewrite Hsid in *. assert (b1 = b) as -> by congruence.
  assert (ps_organisation_id r = organisation) as Horg'.
  { apply project_scope_covers in Hscope. rewrite <- Hserv. apply Hscope. }
  apply issue_run in Hissue as (Htok & Horigin & Hfresh & (b2 & Hb2 & Halive) & l & Hdb).
  rewrite Hsid in Hb2. assert (b2 = b) as -> by congruence.
  exists r, b, p, c, (mp_key plan), (mc_capability_id m), (mp_expiresAt plan).
  rewrite Hprj in *. split_and!; try done.
  - lia.
  - lia.
  - by rewrite Horigin, Hserv.
  - exists l. rewrite Hdb. unfold capability_row. by rewrite Hserv, Hkey, Hsid, Htime, Horg', Hprj.
  - intros ring nowUnix Hring.
    rewrite (minted_verifies _ _ _ ring nowUnix Hmac Htok Hring).
    unfold capability_claims, claims_units. cbn.
    by rewrite Hserv, Hkey, Hsid, Htime, Hprj.
Qed.
End binding.

(** ** A deployment with one connector *)

#[export] Instance sample_publishing : PublishedServiceConfig := {|
  destinationPolicy := STAGE_0_DESTINATION_POLICY;
  internalSuffix := "preview.internal";
  routeTtlMaxSeconds := 3600;
  maxRoutesPerConnector := 8;
  capability := Some {| sk_keyId := "k1"; sk_key := sample_key; sk_ttlSeconds := 600 |}
|}.
#[export] Instance sample_reconciler : ReconcilerConfig := "org_1".
Definition route_input : CreatePublishedServiceInput :=
  {| pi_projectId := "prj_1"; pi_organisationId := "org_1"; pi_connectorId := "con_1";
     pi_workspaceId := "wsp_1"; pi_localHost := "127.0.0.1"; pi_localPort := dec_of_Z 3000;
     pi_protocol := "http"; pi_ttlSeconds := 1800; pi_allowedBrowserSessionIds := ["brs_1"] |}.

Definition asked : St := left_at (request route_input person "req_1") Samples.start.
Definition route_id : string := "svc_" +:+ randomSuffix (uuid_bytes (random_bytes 0)).
Definition row_at (s : St) : PublishedServiceRow :=
  default (requested_row "" "" 0 route_input) (published_services (db s) !! route_id).
Definition accepted_by_the_gateway : GatewayRouteView :=
  {| gr_observed_destination := "127.0.0.1:3000"; gr_internal_origin := "";
     gr_connector_connected := true |}.
Definition finish : M PublishedServiceView :=
  finishPublication (row_at asked) person "req_1" (Ok accepted_by_the_gateway).
Definition carried : St := left_at finish asked.
Definition failed_after_all : St := left_at finish carried.
Definition withdrawn_first : St := left_at (finishRevoke (row_at asked) person "req_2") asked.
Definition finished_last : St := left_at finish withdrawn_first.

Example carried_route : ps_status (row_at carried) = ps_ready.
Proof. vm_compute. reflexivity. Qed.

(** The systems those states are part of. *)
Definition carrying : Routes :=
  {| rt_st := carried; rt_pending := []; rt_told := [told_register route_id "127.0.0.1:3000"] |}.
Lemma asked_reads : read route_id DEPLOYMENT_SCOPE asked = (Ok (row_at asked), asked).
Proof. vm_compute. reflexivity. Qed.
Lemma ran {A} (m : M A) s : m s = ((m s).1, left_at m s).
Proof. apply surjective_pairing. Qed.

Lemma begin_step s s' ps told' pending told :
  begins s s' ps told' →
  route_moves (Build_Routes s pending told) (Build_Routes s' (ps ++ pending) (told' ++ told)).
Proof. intros Hb. by apply (rm_begin (Build_Routes s pending told)). Qed.
Lemma continue_step s p before after told s' ps told' :
  continues s p s' ps told' →
  route_moves (Build_Routes s (before ++ p :: after) told)
    (Build_Routes s' (before ++ ps ++ after) (told' ++ told)).
Proof. intros Hc. by apply (rm_continue (Build_Routes s (before ++ p :: after) told) p). Qed.

(** A request; a completion of it that waits for the connector; the connector's
    answer, and the gateway's. *)
Lemma asked_reachable : route_reachable (Build_Routes asked [] []).
Proof.
  exists Samples.start. split; [done|]. apply rtc_once.
  apply (begin_step Samples.start asked [] [] [] []). eapply bg_request, ran.
Qed.
#[local] Notation registering := (awaits_registration (row_at asked) person "req_1").
#[local] Notation connecting := (awaits_connector (row_at asked) person "req_1").
#[local] Notation registered := (told_register route_id "127.0.0.1:3000").
Lemma complete_step pending told :
  route_moves (Build_Routes asked pending told) (Build_Routes asked (connecting :: pending) told).
Proof.
  apply (begin_step asked asked [connecting] []). eapply bg_complete; [apply asked_reads|].
  vm_compute. reflexivity.
Qed.
Lemma published_step s before after told :
  route_moves (Build_Routes s (before ++ connecting :: after) told)
    (Build_Routes s (before ++ registering :: after) (registered :: told)).
Proof. apply (continue_step s connecting before after told s [registering] [registered]). apply ct_published. Qed.
Lemma registered_step s before after told :
  route_moves (Build_Routes s (before ++ registering :: after) told)
    (Build_Routes (left_at finish s) (before ++ after) told).
Proof.
  apply (continue_step s registering before after told (left_at finish s) [] []).
  eapply ct_registered, ran.
Qed.

#[local] Notation revoking := (awaits_revocation (row_at asked) person "req_2").
Lemma revoke_step pending told :
  route_moves (Build_Routes asked pending told)
    (Build_Routes asked (revoking :: pending) (told_withdraw route_id :: told)).
Proof.
  apply (begin_step asked asked [revoking] [told_withdraw route_id]). eapply bg_revoke, asked_reads.
Qed.
Lemma revoked_step before after told :
  route_moves (Build_Routes asked (before ++ revoking :: after) told)
    (Build_Routes withdrawn_first (before ++ after) told).
Proof.
  apply (continue_step asked revoking before after told withdrawn_first [] []).
  unfold withdrawn_first. eapply ct_revoked, ran.
Qed.

Lemma reachable_step x y : route_reachable x → route_moves x y → route_reachable y.
Proof. intros (s & Hs & Hr) Hm. exists s. split; [done|]. by eapply rtc_r. Qed.
Lemma carrying_reachable : route_reachable carrying.
Proof.
  eapply (reachable_step (Build_Routes asked [registering] [registered]));
    [|apply (registered_step asked [] [])].
  eapply (reachable_step (Build_Routes asked [connecting] [])); [|apply (published_step asked [] [])].
  eapply reachable_step; [apply asked_reachable|apply complete_step].
Qed.

Lemma carried_row : published_services (db carried) !! route_id = Some (row_at carried).
Proof. vm_compute. reflexivity. Qed.

(** A capability minted for the sample session. *)
Definition no_plan : MintPlan :=
  {| mp_key := {| sk_keyId := ""; sk_key := []; sk_ttlSeconds := 0 |}; mp_service := row_at asked;
     mp_browserSessionId := ""; mp_time := 0; mp_expiresAt := 0 |}.
Definition plan1 : MintPlan :=
  returned (decideMint route_id "brs_1" None DEPLOYMENT_SCOPE) carried no_plan.
Definition minted1 : St := left_at (issue plan1 person "req_3") carried.
Definition capability_id : string := "cap_" +:+ randomSuffix (uuid_bytes (random_bytes (drawn carried))).
Definition minting_system : Routes := Build_Routes minted1 [] (rt_told carrying).

Lemma planned1 :
  decideMint route_id "brs_1" None DEPLOYMENT_SCOPE carried = (Ok plan1, carried).
Proof. vm_compute. reflexivity. Qed.
Lemma minting_reachable : route_reachable minting_system.
Proof.
  unfold minting_system.
  eapply (reachable_step (Build_Routes carried [awaits_issue plan1 person "req_3"] (rt_told carrying))).
  - eapply reachable_step; [apply carrying_reachable|].
    apply (begin_step carried carried [awaits_issue plan1 person "req_3"] [] [] (rt_told carrying)).
    eapply bg_mint, planned1.
  - apply (continue_step carried (awaits_issue plan1 person "req_3") [] [] (rt_told carrying) minted1 [] []).
    unfold minted1. eapply ct_issued, ran.
Qed.
Lemma minted_row :
  route_capabilities (db minted1) !! capability_id = Some (capability_row capability_id plan1).
Proof. vm_compute. reflexivity. Qed.
Lemma capability_bounds_witness :
  ∃ r, published_services (db minted1) !! route_id = Some r ∧
    (mp_time plan1 < mp_expiresAt plan1 ≤ ps_expires_at r)%Z.
Proof.
  destruct (capability_bounds minting_system minting_reachable) as (Hrows & _).
  destruct (Hrows capability_id (capability_row capability_id plan1) minted_row)
    as (r & b & key & Hr & _ & _ & _ & _ & _ & _ & _ & _ & Hl & _).
  exists r. split; [exact Hr|exact Hl].
Defined.

Definition bound1 : ServiceBinding * string :=
  returned (bind route_id "org_1" "prj_1" "brs_1" person "req_4") carried
    ({| sb_publishedServiceId := ""; sb_serviceOrigin := "" |}, "").
Definition bound_st : St := left_at (bind route_id "org_1" "prj_1" "brs_1" person "req_4") carried.
Lemma binds1 :
  bind route_id "org_1" "prj_1" "brs_1" person "req_4" carried = (Ok (bound1.1, bound1.2), bound_st).
Proof. vm_compute. reflexivity. Qed.
Lemma bind_sound_witness :
  ∃ r claims, published_services (db carried) !! route_id = Some r ∧ ps_status r = ps_ready ∧
    sb_serviceOrigin bound1.1 = without_slash (origin (ps_public_alias r)) ∧
    verifyCapability sample_ring bound1.2 0 = Ok claims ∧ cap_routeId claims = units route_id.
Proof.
  destruct (bind_sound route_id "org_1" "prj_1" "brs_1" "req_4" person carried bound_st
    bound1.1 bound1.2 toy_mac_length (tables_ok _ (route_reachable_ok _ carrying_reachable)) binds1)
    as (r & b & p & c & key & cid & expiry & Hr & _ & _ & _ & _ & _ & _ & _ & _ & Hready & _ & _ & Hkey & Hexp
        & Hb & _ & Hv).
  injection Hkey as <-. specialize (Hv sample_ring 0%Z eq_refl).
  assert (clock carried = 1000%Z) as Hclock by (vm_compute; reflexivity). rewrite Hclock in Hexp.
  assert (1 ≤ expiry / 1000)%Z by (apply Z.div_le_lower_bound; lia).
  rewrite bool_decide_true in Hv by lia. rewrite Hb.
  eexists r, _. split; [exact Hr|]. split; [exact Hready|]. split; [reflexivity|].
  split; [exact Hv|reflexivity].
Defined.

(** ** Two completions of one route *)

Lemma failed_last : ∃ e,
  published_services (db failed_after_all) !! route_id = Some (row_at failed_after_all) ∧
  ps_status (row_at failed_after_all) = ps_failed ∧ ps_ready_at (row_at failed_after_all) ≠ None ∧
  ps_failure_class (row_at failed_after_all) = Some "PUBLISHED_SERVICE_UNAVAILABLE" ∧
  e ∈ events (log (db failed_after_all)) ∧
  ev_type e = "published_service.failed" ∧ ("previous_status", JStr "requested") ∈ ev_payload e.
Proof.
  destruct (events (log (db failed_after_all)) !! 2) as [e|] eqn:He; [|by vm_compute in He].
  exists e. split; [vm_compute; reflexivity|]. split; [vm_compute; reflexivity|].
  split; [by vm_compute|]. split; [vm_compute; reflexivity|].
  split; [by eapply list_elem_of_lookup_2|]. vm_compute in He. injection He as <-. cbn.
  split; [done|by repeat constructor].
Qed.
Lemma revoked_row :
  published_services (db finished_last) !! route_id = Some (row_at finished_last) ∧
  ps_status (row_at finished_last) = ps_revoked.
Proof. by vm_compute. Qed.

(** the gateway can be left carrying a route that has ended.  When two
    completions of a route both wait for the gateway, the first makes it ready,
    and the second, which finds it no longer pending, marks the ready route
    failed, on a record that says it had been [requested]; when a route is
    revoked while its completion waits for the connector, the gateway is told to
    carry it after it was told to drop it.  In both nothing is left waiting, and
    the gateway was not told again. *)
Theorem gateway_left_carrying_an_ended_route :
  (∃ x r e, route_reachable x ∧ rt_pending x = [] ∧
     rt_told x = [told_register route_id "127.0.0.1:3000"; told_register route_id "127.0.0.1:3000"] ∧
     published_services (db (rt_st x)) !! route_id = Some r ∧
     ps_status r = ps_failed ∧ ps_ready_at r ≠ None ∧
     ps_failure_class r = Some "PUBLISHED_SERVICE_UNAVAILABLE" ∧
     e ∈ events (log (db (rt_st x))) ∧ ev_type e = "published_service.failed" ∧
     ("previous_status", JStr "requested") ∈ ev_payload e) ∧
  ∃ x r, route_reachable x ∧ rt_pending x = [] ∧
    rt_told x = [told_register route_id "127.0.0.1:3000"; told_withdraw route_id] ∧
    published_services (db (rt_st x)) !! route_id = Some r ∧ ps_status r = ps_revoked.
Proof.
  split.
  - set (both := [told_register route_id "127.0.0.1:3000"; told_register route_id "127.0.0.1:3000"]).
    exists (Build_Routes failed_after_all [] both), (row_at failed_after_all).
    destruct failed_last as (e & He). exists e. split; [|split; [reflexivity|split; [reflexivity|exact He]]].
    eapply reachable_step; [|apply (registered_step carried [] [] both)].
    eapply reachable_step; [|apply (registered_step asked [registering] [] both)].
    eapply reachable_step; [|apply (published_step asked [] [registering])].
    eapply reachable_step; [|apply (published_step asked [connecting] [] [])].
    eapply reachable_step; [|apply (complete_step [connecting] [])].
    eapply reachable_step; [apply asked_reachable|apply complete_step].
  - exists (Build_Routes finished_last [] [registered; told_withdraw route_id]), (row_at finished_last).
    split; [|split; [reflexivity|split; [reflexivity|exact revoked_row]]].
    eapply reachable_step; [|apply (registered_step withdrawn_first [] [])].
    eapply reachable_step; [|apply (published_step withdrawn_first [] [] [told_withdraw route_id])].
    eapply reachable_step; [|apply (revoked_step [] [connecting])].
    eapply reachable_step; [|apply revoke_step].
    eapply reachable_step; [apply asked_reachable|apply complete_step].
Qed.
