(* ===== verification/ReconciliationTheorems.v ===== *)
(** * What a reconciliation decides, and does *)

From S2P Require Import Prelude Bytes Capability Errors ReviewProtocol BrowserProtocol ReviewDomain Events EntityId ControlAuthorisation DestinationPolicy Store BrowserSessions PublishedServices Reconciliation Preserve Invariants Samples Effects ControlInvariants BrowserLifecycle SweepTheorems RouteLifecycle RouteTheorems.

(** ** One route at a time *)

(** Decisions added for what has none yet: the first with an identifier counts. *)
Section first_wins.
Context {A : Type} (key : A → string) (mk : A → ReconciledRoute).
Context (Hkey : ∀ a, entry_id (mk a) = key a).

Definition add_new (acc : list ReconciledRoute) (a : A) : list ReconciledRoute :=
  if includes (entry_id <$> acc) (key a) then acc else acc ++ [mk a].
Definition first_of (id : string) (l : list A) : option A := head (filter (λ a, key a = id) l).

Lemma first_of_cons id a l :
  first_of id (a :: l) = if decide (key a = id) then Some a else first_of id l.
Proof. unfold first_of. rewrite filter_cons. by case_decide. Qed.
Lemma first_of_Some id l a : first_of id l = Some a → a ∈ l ∧ key a = id.
Proof.
  intros Ha. assert (a ∈ filter (λ a, key a = id) l) as [? ?]%list_elem_of_filter; [|done].
  unfold first_of in Ha. destruct (filter _ l); [done|]. injection Ha as ->. left.
Qed.

Lemma add_new_spec l acc :
  NoDup (entry_id <$> acc) →
  NoDup (entry_id <$> foldl add_new acc l) ∧
  ∀ e, e ∈ foldl add_new acc l ↔
    e ∈ acc ∨ entry_id e ∉ entry_id <$> acc ∧ ∃ a, first_of (entry_id e) l = Some a ∧ e = mk a.
Proof.
  revert acc. induction l as [|a l IH]; intros acc Hd; cbn [foldl].
  { split; [done|]. intros e. split; [by left|]. intros [?|(_ & ? & [=] & _)]. done. }
  unfold add_new at 2 4, includes. case_bool_decide as Hin.
  - destruct (IH acc Hd) as [H1 H2]. split; [done|]. intros e. rewrite H2. f_equiv.
    split; intros (Hn & b & Hb & He); (split; [done|]); exists b; rewrite first_of_cons in *;
      (rewrite decide_False in * by (intros E; apply Hn; by rewrite <- E)); done.
  - destruct (IH (acc ++ [mk a])) as [H1 H2].
    { rewrite fmap_app. apply NoDup_app. split; [done|]. split; [|apply NoDup_singleton].
      intros x Hx ->%list_elem_of_singleton. by rewrite Hkey in Hx. }
    split; [done|]. intros e. rewrite H2, elem_of_app, list_elem_of_singleton, fmap_app, elem_of_app.
    cbn [fmap list_fmap]. rewrite list_elem_of_singleton, Hkey, first_of_cons. split.
    + intros [[?| ->]|(Hn & b & Hb & He)]; [by left|right|right].
      * rewrite Hkey. split; [done|]. exists a. by rewrite decide_True.
      * split; [tauto|]. exists b. rewrite decide_False by (intros ?; apply Hn; by right). done.
    + intros [?|(Hn & b & Hb & He)]; [by left; left|]. case_decide as Heq.
      * injection Hb as <-. by left; right.
      * right. split; [|by exists b]. intros [?|?]; congruence.
Qed.
End first_wins.

Section table.
Context (connectorId : string) (claimed : list ClaimedRoute)
  (authoritative : list AuthoritativeRoute) (time : Z).

Definition own_ready (r : AuthoritativeRoute) : bool :=
  bool_decide (au_connectorId r = connectorId) && bool_decide (au_status r = ps_ready).
(** The decision on one route, from the first claim on it and its record. *)
Definition verdict (id : string) : option ReconciledRoute :=
  match first_of cm_routeId id claimed, record_of authoritative id with
  | Some c, record => Some (decide_claim connectorId time c record)
  | None, Some r => if own_ready r then Some (decide_unclaimed time r) else None
  | None, None => None
  end.

Lemma record_of_Some id r : record_of authoritative id = Some r → r ∈ authoritative ∧ au_routeId r = id.
Proof.
  unfold record_of. intros (l & Hl)%last_Some.
  assert (r ∈ filter (λ r, au_routeId r = id) authoritative) as [? ?]%list_elem_of_filter; [|done].
  rewrite Hl. apply elem_of_app. right. left.
Qed.
Lemma record_of_unique r :
  NoDup (au_routeId <$> authoritative) → r ∈ authoritative →
  record_of authoritative (au_routeId r) = Some r.
Proof.
  intros Hd Hr. destruct (record_of authoritative (au_routeId r)) as [r'|] eqn:He.
  - apply record_of_Some in He as [Hr' He]. f_equal. by eapply NoDup_fmap_elem.
  - unfold record_of in He. apply last_None in He.
    assert (r ∈ filter (λ r', au_routeId r' = au_routeId r) authoritative) as Hin
      by by apply list_elem_of_filter.
    rewrite He in Hin. by apply elem_of_nil in Hin.
Qed.

Notation on_claim := (λ c, decide_claim connectorId time c (record_of authoritative (cm_routeId c))).
Lemma entry_id_claim c : entry_id (on_claim c) = cm_routeId c.
Proof.
  unfold decide_claim. destruct (record_of _ _) as [r|] eqn:Hr; [|done].
  apply record_of_Some in Hr as [_ Hr]. by repeat case_match.
Qed.
Lemma entry_id_unclaimed r : entry_id (decide_unclaimed time r) = au_routeId r.
Proof. unfold decide_unclaimed. by case_match. Qed.

Lemma unclaimed_filter l acc :
  foldl (add_unclaimed connectorId time) acc l
    = foldl (add_new au_routeId (decide_unclaimed time)) acc (filter (λ r, own_ready r = true) l).
Proof.
  revert acc. induction l as [|r l IH]; intros acc; [done|]. cbn [foldl].
  rewrite IH, filter_cons. unfold add_unclaimed, own_ready.
  case_bool_decide; cbn [negb andb]; [|by rewrite decide_False].
  case_bool_decide; cbn [negb andb]; [|by rewrite decide_False].
  by rewrite decide_True.
Qed.

Lemma reconcile_unsorted :
  NoDup (au_routeId <$> authoritative) →
  let l := foldl (add_unclaimed connectorId time)
             (foldl (add_claim connectorId time authoritative) [] claimed) authoritative in
  NoDup (entry_id <$> l) ∧ ∀ e, e ∈ l ↔ verdict (entry_id e) = Some e.
Proof.
  intros Hd l. subst l.
  destruct (add_new_spec cm_routeId on_claim entry_id_claim claimed []) as [Hc1 Hc2];
    [apply NoDup_nil_2|].
  change (foldl (add_claim _ _ _) [] claimed) with (foldl (add_new cm_routeId on_claim) [] claimed).
  set (acc := foldl (add_new cm_routeId on_claim) [] claimed) in *.
  rewrite unclaimed_filter.
  destruct (add_new_spec au_routeId (decide_unclaimed time) entry_id_unclaimed
    (filter (λ r, own_ready r = true) authoritative) acc Hc1) as [Hu1 Hu2].
  split; [done|]. intros e. rewrite Hu2, Hc2. unfold verdict.
  assert (entry_id e ∈ entry_id <$> acc ↔ ∃ c, first_of cm_routeId (entry_id e) claimed = Some c) as Hin.
  { rewrite list_elem_of_fmap. split.
    - intros (e' & He & [[]%elem_of_nil|(_ & c & Hc & _)]%Hc2). rewrite He. eauto.
    - intros (c & Hc). exists (on_claim c). rewrite entry_id_claim.
      pose proof Hc as [_ Hk]%first_of_Some. split; [done|]. apply Hc2. right.
      split; [by intros ?%elem_of_nil|]. exists c. by rewrite entry_id_claim, Hk. }
  destruct (first_of cm_routeId (entry_id e) claimed) as [c|] eqn:Hc.
  - apply first_of_Some in Hc as [_ Hk]. split.
    + intros [[[]%elem_of_nil|(_ & c' & [= <-] & He)]|(Hn & _)]; [by rewrite Hk in He; rewrite <- He|].
      destruct Hn. apply Hin. by exists c.
    + intros [= He]. left. right. split; [by intros ?%elem_of_nil|]. exists c. by rewrite Hk.
  - split.
    + intros [[[]%elem_of_nil|(_ & c' & [=] & _)]|(Hn & r & Hr & He)].
      pose proof Hr as [[Hown Hmem]%list_elem_of_filter Hk]%first_of_Some.
      rewrite <- Hk, record_of_unique, Hown by done. by rewrite He.
    + destruct (record_of authoritative (entry_id e)) as [r|] eqn:Hr; [|done].
      destruct (own_ready r) eqn:Hown; [|done]. intros [= He]. right.
      split; [rewrite Hin; by intros [? ?]|]. exists r. split; [|done].
      apply record_of_Some in Hr as [Hr Hk]. unfold first_of.
      destruct (filter (λ a, au_routeId a = entry_id e) (filter (λ r, own_ready r = true) authoritative))
        as [|r' l'] eqn:Hl.
      * assert (r ∈ @nil AuthoritativeRoute) as []%elem_of_nil. rewrite <- Hl.
        apply list_elem_of_filter. split; [done|]. by apply list_elem_of_filter.
      * assert (r' ∈ r' :: l') as Hr' by left. rewrite <- Hl in Hr'.
        apply list_elem_of_filter in Hr' as [Hk' [_ Hr']%list_elem_of_filter]. cbn. f_equal.
        eapply (NoDup_fmap_elem au_routeId); [exact Hd|done|done|congruence].
Qed.
End table.

Definition agrees (c : ClaimedRoute) (r : AuthoritativeRoute) : Prop :=
  cm_projectId c = au_projectId r ∧ cm_workspaceId c = au_workspaceId r ∧
  cm_observedDestination c
    = default (formatDestination (au_localHost r) (au_localPort r)) (au_observedDestination r).
Definition live_record (r : AuthoritativeRoute) : Prop := au_status r ∈ [ps_requested; ps_ready].

Section decisions.
Context (connectorId : string) (time : Z).

Lemma own_ready_spec r :
  own_ready connectorId r = true ↔ au_connectorId r = connectorId ∧ au_status r = ps_ready.
Proof. unfold own_ready. by rewrite andb_true_iff, !bool_decide_eq_true. Qed.

(** The outcomes of a claim. *)
Lemma decide_claim_cases c record :
  let e := decide_claim connectorId time c record in
  (∃ r, record = Some r ∧ own_ready connectorId r = true ∧ (time < au_expiresAt r)%Z ∧ agrees c r ∧
     e = continue_route r) ∨
  continues_route e = false ∧
    (rn_closure e = closed_none ∧ (∀ r, record = Some r → au_connectorId r = connectorId → ¬ live_record r) ∨
     rn_closure e ≠ closed_none ∧ ∃ r, record = Some r ∧ au_connectorId r = connectorId ∧ live_record r ∧
       ¬ (own_ready connectorId r = true ∧ (time < au_expiresAt r)%Z ∧ agrees c r)).
Proof.
  intros e. subst e. unfold decide_claim, live_record, agrees. setoid_rewrite own_ready_spec.
  destruct record as [r|]; [|right; split; [done|left; split; [done|by intros ? [=]]]].
  setoid_rewrite elem_of_cons. setoid_rewrite list_elem_of_singleton.
  case_bool_decide as Hc; cbn [negb]; cycle 1.
  { right. split; [done|left; split; [done|by intros ? [= <-]]]. }
  case_bool_decide as He.
  { right. split; [done|left; split; [done|]]. intros ? [= <-] _. rewrite He. by intros [|]. }
  case_bool_decide as Hr; cbn [negb]; cycle 1.
  { right. split; [done|]. case_bool_decide as Hq; [right|left]; cbn.
    - split; [done|]. exists r. split_and!; auto. by intros ([_ ?] & _).
    - split; [done|]. intros ? [= <-] _ [?|?]; congruence. }
  case_bool_decide as Ht.
  { right. split; [done|]. right. split; [done|]. exists r. split_and!; auto. intros (_ & ? & _). lia. }
  destruct (decide (cm_projectId c = au_projectId r ∧ cm_workspaceId c = au_workspaceId r))
    as [[Hp Hw]|Hpw]; cycle 1.
  { assert (negb (bool_decide (cm_projectId c = au_projectId r))
      || negb (bool_decide (cm_workspaceId c = au_workspaceId r)) = true) as ->.
    { rewrite <- negb_andb, negb_true_iff, andb_false_iff, !bool_decide_eq_false. by apply not_and_l. }
    right. split; [done|]. right. split; [done|]. exists r. split_and!; auto. tauto. }
  rewrite !bool_decide_true by done. cbn [negb orb].
  case_bool_decide as Hd; cbn [negb].
  - left. exists r. split_and!; auto. lia.
  - right. split; [done|]. right. split; [done|]. exists r. split_and!; auto. tauto.
Qed.
Lemma decide_unclaimed_cases r :
  own_ready connectorId r = true →
  let e := decide_unclaimed time r in
  ((time < au_expiresAt r)%Z ∧ e = continue_route r) ∨
  (au_expiresAt r ≤ time)%Z ∧ continues_route e = false ∧ rn_closure e = closed_expired.
Proof.
  intros Hr e. subst e. unfold decide_unclaimed. case_bool_decide; [right|left]; split_and!; try done. lia.
Qed.
End decisions.

Lemma StronglySorted_by_id {A} (key : A → string) l :
  StronglySorted (λ a b, String.leb (key a) (key b) = true) (by_id key l).
Proof.
  pose proof (StronglySorted_merge_sort (time_then_id (λ _, 0%Z) key) l) as Hs.
  unfold by_id, order_by. induction Hs as [|a l' Hs IH Ha]; constructor; [done|].
  eapply Forall_impl; [exact Ha|]. by intros b [?|[_ ?]]; [lia|].
Qed.
Lemma first_of_None {A} (key : A → string) id l : first_of key id l = None → id ∉ key <$> l.
Proof.
  induction l as [|a l IH]; [by intros _ ?%elem_of_nil|]. rewrite first_of_cons.
  case_decide as Hk; [done|]. intros Hn. rewrite fmap_cons, elem_of_cons. intros [?|?]; [congruence|].
  by apply IH.
Qed.
Lemma verdict_id connectorId claimed authoritative time id e :
  verdict connectorId claimed authoritative time id = Some e → entry_id e = id.
Proof.
  unfold verdict. destruct (first_of cm_routeId id claimed) as [c|] eqn:Hc.
  - apply first_of_Some in Hc as [_ <-]. intros [= <-]. apply entry_id_claim.
  - destruct (record_of authoritative id) as [r|] eqn:Hr; [|done]. case_match; [|done].
    intros [= <-]. rewrite entry_id_unclaimed. by apply record_of_Some in Hr as [_ ?].
Qed.

Lemma verdict_cases connectorId claimed authoritative time id e :
  verdict connectorId claimed authoritative time id = Some e →
  (∃ r, record_of authoritative id = Some r ∧ own_ready connectorId r = true ∧
     (time < au_expiresAt r)%Z ∧ e = continue_route r ∧
     ∀ c, first_of cm_routeId id claimed = Some c → agrees c r) ∨
  continues_route e = false ∧
    (rn_closure e = closed_none ∧
       (∀ r, record_of authoritative id = Some r → au_connectorId r = connectorId → ¬ live_record r) ∨
     rn_closure e ≠ closed_none ∧ ∃ r, record_of authoritative id = Some r ∧
       au_connectorId r = connectorId ∧ live_record r).
Proof.
  unfold verdict. destruct (first_of cm_routeId id claimed) as [c|] eqn:Hc.
  - intros [= <-].
    destruct (decide_claim_cases connectorId time c (record_of authoritative id))
      as [(r & Hr & Ho & Ht & Hag & Hx)|[Hx [[Hn Hl]|[Hn (r & Hr & Hown & Hl & _)]]]].
    + left. exists r. split_and!; try done. by intros ? [= <-].
    + right. split; [done|]. by left.
    + right. split; [done|]. right. split; [done|]. by exists r.
  - destruct (record_of authoritative id) as [r|] eqn:Hr; [|done].
    destruct (own_ready connectorId r) eqn:Ho; [|done]. intros [= <-].
    pose proof Ho as [Hown Hs]%own_ready_spec.
    destruct (decide_unclaimed_cases connectorId time r Ho) as [[Ht Hx]|(Ht & Hx & Hcl)].
    + left. by exists r.
    + right. split; [done|]. right. rewrite Hcl. split; [done|]. exists r. split_and!; try done.
      unfold live_record. rewrite Hs. by right; left.
Qed.

(** C26: the reconciliation decides each route by itself.  The decisions are in the
    order of the routes' identifiers, one for each route that was claimed and for
    each ready route of the connector's, and each is what the first claim on that
    route and its record alone give.  A route continues, restated from its record,
    exactly when the connector holds it, it is ready and has not expired, and what
    the connector claims of it, if it claims it, is what the record says; a route
    is closed only where it is the connector's own and live; and no ready route of
    the connector's is left without one or the other. *)
Theorem reconcileRoutes_table (connectorId : string) (claimed : list ClaimedRoute)
    (authoritative : list AuthoritativeRoute) (time : Z)
    (Hids : NoDup (au_routeId <$> authoritative)) :
  let decided := reconcileRoutes connectorId claimed authoritative time in
  StronglySorted (λ a b, String.leb (entry_id a) (entry_id b) = true) decided ∧
  NoDup (entry_id <$> decided) ∧
  (∀ e, e ∈ decided ↔ verdict connectorId claimed authoritative time (entry_id e) = Some e) ∧
  (∀ id, id ∈ entry_id <$> decided ↔ id ∈ cm_routeId <$> claimed ∨
     ∃ r, r ∈ authoritative ∧ au_routeId r = id ∧ own_ready connectorId r = true) ∧
  (∀ e, e ∈ decided →
     if continues_route e
     then ∃ r, r ∈ authoritative ∧ e = continue_route r ∧ own_ready connectorId r = true ∧
       (time < au_expiresAt r)%Z ∧
       ∀ c, first_of cm_routeId (entry_id e) claimed = Some c → agrees c r
     else rn_closure e ≠ closed_none → ∃ r, r ∈ authoritative ∧ au_routeId r = entry_id e ∧
       au_connectorId r = connectorId ∧ live_record r) ∧
  ∀ r, r ∈ authoritative → own_ready connectorId r = true →
    ∃ e, e ∈ decided ∧ entry_id e = au_routeId r ∧
      if bool_decide (au_expiresAt r ≤ time)%Z then rn_closure e ≠ closed_none
      else (∀ c, first_of cm_routeId (au_routeId r) claimed = Some c → agrees c r) →
        e = continue_route r.
Proof.
  destruct (reconcile_unsorted connectorId claimed authoritative time Hids) as [Hd Hv].
  set (l := foldl _ _ _) in *. intros decided.
  assert (∀ e, e ∈ decided ↔ e ∈ l) as Hl by (intros; apply elem_of_order_by).
  assert (∀ e, e ∈ decided ↔ verdict connectorId claimed authoritative time (entry_id e) = Some e)
    as Hdec by (intros; by rewrite Hl, Hv).
  assert (∀ id, is_Some (verdict connectorId claimed authoritative time id) →
    ∃ e, e ∈ decided ∧ entry_id e = id ∧ verdict connectorId claimed authoritative time id = Some e) as Hsome.
  { intros id [e He]. pose proof (verdict_id _ _ _ _ _ _ He) as Hid. exists e. rewrite Hdec, Hid. done. }
  split_and!.
  - apply StronglySorted_by_id.
  - unfold decided, reconcileRoutes, by_id, order_by. by rewrite merge_sort_Permutation.
  - done.
  - intros id. rewrite list_elem_of_fmap. split.
    + intros (e & -> & He%Hdec). unfold verdict in He.
      destruct (first_of _ _ claimed) as [c|] eqn:Hc.
      * left. apply first_of_Some in Hc as [Hc Hk]. rewrite <- Hk. by apply list_elem_of_fmap_2.
      * destruct (record_of authoritative (entry_id e)) as [r|] eqn:Hr; [|done].
        apply record_of_Some in Hr as [Hr Hk]. destruct (own_ready connectorId r) eqn:Ho; [|done].
        right. by exists r.
    + intros Hid. destruct (Hsome id) as (e & He & Hk & _); [|by exists e]. unfold verdict.
      destruct (first_of cm_routeId id claimed) eqn:Hc; [done|]. destruct Hid as [Hid|(r & Hr & Hk & Ho)].
      * by destruct (first_of_None _ _ _ Hc).
      * rewrite <- Hk, (record_of_unique _ _ Hids Hr), Ho. done.
  - intros e He%Hdec.
    destruct (verdict_cases _ _ _ _ _ _ He) as [(r & Hr & Ho & Ht & -> & Hag)|[-> [[-> _]|[_ (r & Hr & Hown & Hl')]]]].
    + apply record_of_Some in Hr as [Hr _]. cbn. by exists r.
    + done.
    + intros _. apply record_of_Some in Hr as [Hr Hk]. by exists r.
  - intros r Hr Ho. destruct (Hsome (au_routeId r)) as (e & He & Hk & Hve).
    { unfold verdict. rewrite (record_of_unique _ _ Hids Hr), Ho. by case_match. }
    exists e. split_and!; [done|done|]. unfold verdict in Hve. rewrite (record_of_unique _ _ Hids Hr), Ho in Hve.
    pose proof Ho as [Hown Hst]%own_ready_spec.
    destruct (first_of cm_routeId (au_routeId r) claimed) as [c|] eqn:Hc.
    + assert (e = decide_claim connectorId time c (Some r)) as -> by congruence.
      destruct (decide_claim_cases connectorId time c (Some r))
        as [(r' & [= <-] & _ & Ht & Hag & Hx)|[_ [[_ Hn]|[Hn (r' & [= <-] & _ & _ & Hnot)]]]].
      * rewrite bool_decide_false by lia. intros _. exact Hx.
      * destruct (Hn r eq_refl Hown). unfold live_record. rewrite Hst. right; left.
      * case_bool_decide; [done|]. intros Hag. destruct Hnot. split_and!; [done|lia|by apply Hag].
    + assert (e = decide_unclaimed time r) as -> by congruence.
      destruct (decide_unclaimed_cases connectorId time r Ho) as [[Ht Hx]|(Ht & _ & Hx)].
      * rewrite bool_decide_false by lia. done.
      * rewrite bool_decide_true by lia. congruence.
Qed.

(** ** What closing routes does to the tables *)

Definition ended_from (r r' : PublishedServiceRow) : Prop :=
  static r' = static r ∧ ps_status r' ∈ [ps_expired; ps_revoked].
(** The routes named that were live have ended and lost their capabilities, and
    nothing else changed in these tables. *)
Record settled (ids : list string) (d d' : Db) : Prop := {
  settled_routes : ∀ k,
    match published_services d !! k with
    | Some r =>
        if live_route r && bool_decide (k ∈ ids)
        then ∃ r', published_services d' !! k = Some r' ∧ ended_from r r'
        else published_services d' !! k = Some r
    | None => published_services d' !! k = None
    end;
  settled_capabilities : ∀ k,
    match route_capabilities d !! k with
    | Some c => ∃ c', route_capabilities d' !! k = Some c' ∧ capability_goes_on c c'
    | None => route_capabilities d' !! k = None
    end;
  settled_revoked : ∀ k c r, route_capabilities d' !! k = Some c → rc_published_service_id c ∈ ids →
    published_services d !! rc_published_service_id c = Some r → live_route r = true →
    rc_revoked_at c ≠ None
}.
Definition same_routes (d d' : Db) : Prop :=
  published_services d' = published_services d ∧ route_capabilities d' = route_capabilities d.

Lemma same_routes_settled d d' : same_routes d d' → settled [] d d'.
Proof.
  intros [Hs Hc]. split.
  - intros k. rewrite Hs. destruct (published_services d !! k); [|done].
    rewrite bool_decide_false by by intros ?%elem_of_nil. by rewrite andb_false_r.
  - intros k. rewrite Hc. destruct (route_capabilities d !! k) as [c|]; [|done]. exists c. by split; [|left].
  - by intros ? ? ? _ ?%elem_of_nil.
Qed.
Lemma capability_goes_on_service c c' :
  capability_goes_on c c' → rc_published_service_id c' = rc_published_service_id c.
Proof. by intros [->|[_ [t ->]]]. Qed.
Lemma capability_stays_revoked c c' :
  capability_goes_on c c' → rc_revoked_at c ≠ None → rc_revoked_at c' ≠ None.
Proof. intros [->|[? _]] ?; done. Qed.
Lemma ended_route_not_live r r' : ended_from r r' → live_route r' = false.
Proof.
  intros [_ He]. unfold live_route. apply bool_decide_eq_false. rewrite !elem_of_cons in *.
  by destruct He as [->|[->|?%elem_of_nil]]; intros [?|[?|?%elem_of_nil]].
Qed.

Lemma settled_trans ids ids' d d' d'' :
  settled ids d d' → settled ids' d' d'' → settled (ids ++ ids') d d''.
Proof.
  intros [Hr Hc Hrev] [Hr' Hc' Hrev']. split.
  - intros k. specialize (Hr k). specialize (Hr' k).
    destruct (published_services d !! k) as [r|]; [|by rewrite Hr in Hr'].
    rewrite (bool_decide_ext (k ∈ ids ++ ids') (k ∈ ids ∨ k ∈ ids')) by apply elem_of_app.
    destruct (live_route r) eqn:Hl; cbn [andb] in *; [|by rewrite Hr, Hl in Hr'].
    destruct (decide (k ∈ ids)) as [Hk|Hk].
    + rewrite (bool_decide_true (k ∈ ids)) in Hr by done. rewrite bool_decide_true by by left.
      destruct Hr as (r' & Hr & He). rewrite Hr, (ended_route_not_live _ _ He) in Hr'. by exists r'.
    + rewrite (bool_decide_false (k ∈ ids)) in Hr by done. rewrite Hr, Hl in Hr'. cbn [andb] in Hr'.
      rewrite (bool_decide_ext (k ∈ ids ∨ k ∈ ids') (k ∈ ids')) by tauto. done.
  - intros k. specialize (Hc k). specialize (Hc' k). destruct (route_capabilities d !! k) as [c|].
    + destruct Hc as (c1 & Hc & H1). rewrite Hc in Hc'. destruct Hc' as (c2 & Hc' & H2).
      exists c2. split; [done|]. by eapply capability_goes_on_trans.
    + by rewrite Hc in Hc'.
  - intros k c r Hk Hin Hs Hl. specialize (Hc' k).
    destruct (route_capabilities d' !! k) as [c1|] eqn:Hk1; [|congruence].
    destruct Hc' as (c2 & Hk2 & Hgo). assert (c2 = c) as -> by congruence.
    pose proof (capability_goes_on_service _ _ Hgo) as Hid. rewrite Hid in *.
    destruct (decide (rc_published_service_id c1 ∈ ids)) as [Hi|Hi].
    + eapply capability_stays_revoked; [exact Hgo|]. by eapply Hrev.
    + apply elem_of_app in Hin as [?|Hin]; [done|]. specialize (Hr (rc_published_service_id c1)).
      rewrite Hs, Hl, bool_decide_false in Hr by done. apply (Hrev' k c r); rewrite ?Hid; done.
Qed.
#[export] Instance settled_ignores_log ids d : IgnoresLog (settled ids d).
Proof. intros l d' []. by split. Qed.

Section closings.
Context `{Entropy} `{ReconcilerConfig}.

Lemma withdraw_revokes (p : RouteCapabilityRow → bool) time c :
  p c = true → rc_revoked_at (if live_capability p c then withdrawn time c else c) ≠ None.
Proof.
  intros Hp. unfold live_capability. rewrite Hp. cbn [andb]. by case_bool_decide.
Qed.
Lemma withdraw_goes_on (p : RouteCapabilityRow → bool) time c :
  capability_goes_on c (if live_capability p c then withdrawn time c else c).
Proof.
  destruct (live_capability p c) eqn:Hl; [right|by left]. apply andb_true_iff in Hl as [_ Hl].
  apply bool_decide_eq_true in Hl. eauto.
Qed.

(** One route: it ends exactly when it was live. *)
Lemma finishClosing_run time c s b s' :
  finishClosing time c s = (Ok b, s') →
  settled [cg_route c] (db s) (db s') ∧ browser_sessions (db s') = browser_sessions (db s) ∧
  ∀ r, published_services (db s) !! cg_route c = Some r → b = live_route r.
Proof.
  unfold finishClosing. intros Hr%inTransaction_ok.
  apply bindM_ok in Hr as (ended & s1 & He & Hr). unfold markEnded in He.
  apply bindM_ok in He as (t & s2 & (-> & ->)%now_ok & He).
  apply update_service_run in He as [(-> & -> & Hn)|(r & Hl & Hlive & _ & -> & ->)].
  - apply retM_ok in Hr as [-> ->]. split_and!; [|done|intros r Hr; symmetry; by apply Hn].
    split.
    + intros k. destruct (published_services (db s) !! k) as [r|] eqn:Hk; [|done].
      case_bool_decide as Hin; [|by rewrite andb_false_r]. apply list_elem_of_singleton in Hin as ->.
      by rewrite (Hn r Hk).
    + intros k. destruct (route_capabilities (db s) !! k) as [x|]; [|done]. exists x. by split; [|left].
    + intros k x r _ ->%list_elem_of_singleton Hk Hlive. by rewrite (Hn r Hk) in Hlive.
  - apply bindM_ok in Hr as (ids & s2 & Hw & Hr). unfold revokeCapabilitiesForService in Hw.
    rewrite withdraw_where_run in Hw. injection Hw as _ <-.
    apply bindM_ok in Hr as ([] & s3 & Ha & (-> & ->)%retM_ok).
    apply append_at_run in Ha as (l & e & Hdb & _). cbn in Hdb. rewrite Hdb.
    split; [apply settled_ignores_log|split; [done|]].
    + split; cbn.
      * intros k. destruct (decide (k = cg_route c)) as [->|Hne].
        -- rewrite Hl, Hlive, bool_decide_true by by left. cbn [andb]. rewrite lookup_insert_eq.
           eexists. split; [reflexivity|]. split; [done|]. unfold closing_status. cbn.
           destruct (cg_expired c); [by left|by right; left].
        -- rewrite lookup_insert_ne by done. destruct (published_services (db s) !! k); [|done].
           rewrite bool_decide_false by by intros ?%list_elem_of_singleton. by rewrite andb_false_r.
      * intros k. rewrite lookup_fmap. destruct (route_capabilities (db s) !! k) as [x|]; [|done].
        eexists. split; [reflexivity|]. apply withdraw_goes_on.
      * intros k x r' Hk Hin _ _. rewrite lookup_fmap_Some in Hk. destruct Hk as (x0 & <- & Hk).
        apply withdraw_revokes, bool_decide_eq_true.
        rewrite (capability_goes_on_service _ _ (withdraw_goes_on _ _ _)) in Hin.
        by apply list_elem_of_singleton in Hin.
    + intros r' Hr'. congruence.
Qed.
End closings.

(** ** Sequences of steps *)

Section sequences.
Context {A : Type} (Rel : list string → Db → Db → Prop) (names : A → list string).
Context (Hrefl : ∀ d, Rel [] d d)
  (Htrans : ∀ l l' d d' d'', Rel l d d' → Rel l' d' d'' → Rel (l ++ l') d d'').

Lemma each_rel (f : A → M unit) l s s' :
  (∀ a s u s', f a s = (Ok u, s') → Rel (names a) (db s) (db s')) →
  each f l s = (Ok tt, s') → Rel (l ≫= names) (db s) (db s').
Proof.
  intros Hf. revert s. induction l as [|a l IH]; intros s Hr; cbn [each] in Hr.
  - by apply retM_ok in Hr as [_ ->].
  - apply bindM_ok in Hr as ([] & s1 & Ha & Hr). rewrite bind_cons. eauto.
Qed.
Lemma collect_rel {B} (f : A → M B) l s bs s' :
  (∀ a s b s', f a s = (Ok b, s') → Rel (names a) (db s) (db s')) →
  collect f l s = (Ok bs, s') → Rel (l ≫= names) (db s) (db s').
Proof.
  intros Hf. revert s bs. induction l as [|a l IH]; intros s bs Hr; cbn [collect] in Hr.
  - by apply retM_ok in Hr as [_ ->].
  - apply bindM_ok in Hr as (b & s1 & Ha & Hr). apply bindM_ok in Hr as (bs' & s2 & Hr & (_ & ->)%retM_ok).
    rewrite bind_cons. eauto.
Qed.
End sequences.
Lemma collect_ran {A B} (f : A → M B) l s bs s' :
  collect f l s = (Ok bs, s') → ∀ a, a ∈ l → ∃ s1 b s2, f a s1 = (Ok b, s2).
Proof.
  revert s bs s'. induction l as [|a l IH]; intros s bs s' Hr; [by intros ? ?%elem_of_nil|]. cbn [collect] in Hr.
  apply bindM_ok in Hr as (b & s1 & Ha & Hr). apply bindM_ok in Hr as (bs' & s2 & Hr & _).
  intros x [->|Hx]%elem_of_cons; [by exists s, b, s1|]. by eapply IH.
Qed.
Lemma each_ran {A} (f : A → M unit) l s u s' :
  each f l s = (Ok u, s') → ∀ a, a ∈ l → ∃ s1 s2, f a s1 = (Ok tt, s2).
Proof.
  revert s. induction l as [|a l IH]; intros s Hr; [by intros ? ?%elem_of_nil|]. cbn [each] in Hr.
  apply bindM_ok in Hr as ([] & s1 & Ha & Hr). intros b [->|Hb]%elem_of_cons; [by eauto|]. by eapply IH.
Qed.

(** ** What moving sessions does to the tables *)

Definition moved (ids : list string) (status : SessionStatus) (from : list SessionStatus)
    (k : string) (b : BrowserSessionRow) : BrowserSessionRow :=
  if bool_decide (k ∈ ids) && bool_decide (bs_status b ∈ from)
  then set_status status (bs_ended_at b) b else b.
Record sessions_moved (status : SessionStatus) (from : list SessionStatus) (ids : list string)
    (d d' : Db) : Prop := {
  moved_rows : ∀ k, browser_sessions d' !! k = moved ids status from k <$> browser_sessions d !! k;
  moved_routes : same_routes d d';
  moved_leases : control_leases d' = control_leases d
}.

Lemma moved_outside ids status from k b : k ∉ ids → moved ids status from k b = b.
Proof. intros Hk. unfold moved. by rewrite bool_decide_false. Qed.
Lemma sessions_moved_refl status from d : sessions_moved status from [] d d.
Proof.
  split; [|done|done]. intros k. by destruct (browser_sessions d !! k).
Qed.
Lemma sessions_moved_trans status from ids ids' d d' d'' : status ∉ from →
  sessions_moved status from ids d d' → sessions_moved status from ids' d' d'' →
  sessions_moved status from (ids ++ ids') d d''.
Proof.
  intros Hs [Hr [Hp Hc] Hl] [Hr' [Hp' Hc'] Hl']. split; [|split; congruence|congruence].
  intros k. rewrite Hr', Hr. destruct (browser_sessions d !! k) as [b|]; [|done]. cbn. f_equal.
  unfold moved. rewrite (bool_decide_ext (k ∈ ids ++ ids') (k ∈ ids ∨ k ∈ ids')) by apply elem_of_app.
  destruct (decide (k ∈ ids)) as [Hi|Hi].
  - rewrite (bool_decide_true (k ∈ ids)), (bool_decide_true (_ ∨ _)) by auto. cbn [andb].
    destruct (decide (bs_status b ∈ from)) as [Hf|Hf].
    + rewrite (bool_decide_true (bs_status b ∈ from)) by done.
      rewrite (bool_decide_false (bs_status _ ∈ from)) by done. by rewrite andb_false_r.
    + rewrite !(bool_decide_false (bs_status b ∈ from)) by done. by rewrite andb_false_r.
  - rewrite (bool_decide_false (k ∈ ids)) by done. cbn [andb].
    by rewrite (bool_decide_ext (k ∈ ids ∨ k ∈ ids') (k ∈ ids')) by tauto.
Qed.

Section sessions.
Context `{Entropy}.

Lemma move_session_run time status from type reason actor correlation b s r s' :
  move_session time status from type reason actor correlation b s = (Ok r, s') →
  sessions_moved status from [bs_id b] (db s) (db s').
Proof.
  unfold move_session. intros Hr%inTransaction_ok.
  apply bindM_ok in Hr as (previous & s1 & Hp & Hr). unfold setSessionStatus in Hp.
  apply bindM_ok in Hp as (current & s2 & (-> & ->)%gets_ok & Hp).
  apply bindM_ok in Hp as (changed & s2 & Hu & (-> & ->)%retM_ok).
  assert (∀ k x, k ≠ bs_id b → moved [bs_id b] status from k x = x) as Hother
    by (intros; by apply moved_outside; intros ?%list_elem_of_singleton).
  apply update_session_where_run in Hu as [(-> & -> & Hn)|(-> & r0 & Hl & Hin & _ & ->)].
  - apply retM_ok in Hr as [_ ->]. split; [|done|done]. intros k.
    destruct (browser_sessions (db s) !! k) as [x|] eqn:Hx; [|done]. cbn. f_equal. symmetry.
    destruct (decide (k = bs_id b)) as [->|Hne]; [|by apply Hother].
    unfold moved. specialize (Hn x Hx). cbn in Hn. by rewrite Hn, andb_false_r.
  - rewrite Hl in Hr. cbn in Hr. apply bindM_ok in Hr as ([] & s3 & Ha & (_ & ->)%retM_ok).
    apply append_at_run in Ha as (l & e & Hdb & _). cbn in Hdb. rewrite Hdb. split; [|done|done]. cbn.
    intros k. destruct (decide (k = bs_id b)) as [->|Hne].
    + rewrite lookup_insert_eq, Hl. cbn. f_equal. unfold moved.
      rewrite (bool_decide_true (bs_id b ∈ _)) by by left. by rewrite Hin.
    + rewrite lookup_insert_ne by done. destruct (browser_sessions (db s) !! k) as [x|]; [|done].
      cbn. f_equal. symmetry. by apply Hother.
Qed.

Lemma bind_singletons {A} (f : A → string) l : l ≫= (λ a, [f a]) = f <$> l.
Proof. induction l as [|a l IH]; [done|]. by rewrite bind_cons, IH. Qed.

Lemma handleDisconnect_run connectorId requestId s u s' :
  handleDisconnect connectorId requestId s = (Ok u, s') →
  sessions_moved DEGRADED usable_statuses
    (bs_id <$> findLiveSessionsForConnector connectorId (db s)) (db s) (db s').
Proof.
  unfold handleDisconnect. intros Hr. apply bindM_ok in Hr as (time & s1 & (-> & ->)%now_ok & Hr).
  apply bindM_ok in Hr as (sessions & s1 & (-> & ->)%gets_ok & Hr). destruct u.
  rewrite <- bind_singletons. revert Hr. apply each_rel; [apply sessions_moved_refl| |].
  - intros. by eapply sessions_moved_trans; [intros Hin; vm_compute in Hin; set_solver| |].
  - intros b t u t' Hm. apply bindM_ok in Hm as (x & t1 & Hm & (_ & ->)%retM_ok).
    by eapply move_session_run.
Qed.

Lemma applySessionDecisions_run connectorId decided requestId time s u s' :
  applySessionDecisions connectorId decided requestId time s = (Ok u, s') →
  sessions_moved BS_READY [DEGRADED]
    (bs_id <$> filter (λ b, bs_status b = DEGRADED) (resumable connectorId decided (db s))) (db s) (db s').
Proof.
  unfold applySessionDecisions. intros Hr.
  apply bindM_ok in Hr as (sessions & s1 & (-> & ->)%gets_ok & Hr). destruct u.
  assert (∀ l, bs_id <$> filter (λ b, bs_status b = DEGRADED) l
    = l ≫= (λ b, if bool_decide (bs_status b = DEGRADED) then [bs_id b] else [])) as ->.
  { induction l as [|b l IH]; [done|]. rewrite bind_cons, <- IH, filter_cons.
    case_bool_decide; [by rewrite decide_True|by rewrite decide_False]. }
  revert Hr. apply each_rel; [apply sessions_moved_refl| |].
  - intros. by eapply sessions_moved_trans; [set_solver| |].
  - intros b t u t' Hm. case_bool_decide; cbn [negb] in Hm.
    + apply bindM_ok in Hm as (x & t1 & Hm & (_ & ->)%retM_ok). by eapply move_session_run.
    + apply retM_ok in Hm as [_ ->]. apply sessions_moved_refl.
Qed.
End sessions.

(** ** What is read *)

Lemma elem_of_by_id {A} (key : A → string) l x : x ∈ by_id key l ↔ x ∈ l.
Proof. apply elem_of_order_by. Qed.
Lemma elem_of_take_in {A} n (l : list A) x : x ∈ take n l → x ∈ l.
Proof. rewrite <- (take_drop n l) at 2. rewrite elem_of_app. by left. Qed.

Section reads.
Context (d : Db) (Hok : rows_ok ps_id service_checks (published_services d)).

Lemma findLive_elem connectorId limit r :
  r ∈ findLiveForConnector connectorId limit d →
  published_services d !! ps_id r = Some r ∧ live_for connectorId r = true.
Proof.
  intros Hr%elem_of_take_in. apply elem_of_by_id, elem_of_select in Hr as [Hl [k Hk]].
  split; [|done]. by rewrite (rows_ok_key _ _ _ _ _ Hok Hk).
Qed.
Lemma findByIds_elem ids r :
  r ∈ findByIds ids d ↔ published_services d !! ps_id r = Some r ∧ ps_id r ∈ ids.
Proof.
  unfold findByIds. rewrite elem_of_by_id, elem_of_select. unfold includes.
  rewrite bool_decide_eq_true. split.
  - intros [Hi [k Hk]]. split; [|done]. by rewrite (rows_ok_key _ _ _ _ _ Hok Hk).
  - intros [Hr Hi]. by eauto.
Qed.

Lemma authoritative_elem connectorId claimed a :
  a ∈ authoritative_routes connectorId claimed d →
  ∃ r, published_services d !! au_routeId a = Some r ∧ a = toAuthoritative r.
Proof.
  unfold authoritative_routes. intros (r & -> & Hr)%list_elem_of_fmap. exists r. split; [|done]. cbn.
  apply elem_of_app in Hr as [[? _]%findLive_elem|[_ [? _]%findByIds_elem]%list_elem_of_filter]; done.
Qed.
Lemma authoritative_NoDup connectorId claimed :
  NoDup (au_routeId <$> authoritative_routes connectorId claimed d).
Proof.
  unfold authoritative_routes. rewrite <- list_fmap_compose.
  assert (∀ p limit, NoDup (ps_id <$> take limit (by_id ps_id (select p (published_services d))))) as Hnd.
  { intros p limit. eapply sublist_NoDup; [|apply fmap_sublist, sublist_take].
    unfold by_id, order_by. rewrite merge_sort_Permutation. by eapply select_keys_nodup. }
  change (compose au_routeId toAuthoritative) with ps_id. rewrite fmap_app. apply NoDup_app. split_and!.
  - apply Hnd.
  - intros id Hid (r & -> & [Hn _]%list_elem_of_filter)%list_elem_of_fmap.
    unfold includes in Hn. apply bool_decide_eq_false in Hn. done.
  - eapply sublist_NoDup; [|apply fmap_sublist, sublist_filter].
    specialize (Hnd (λ r, includes (cm_routeId <$> claimed) (ps_id r))
      (length (findByIds (cm_routeId <$> claimed) d))).
    unfold findByIds in *. by rewrite take_ge in Hnd by done.
Qed.
Lemma authoritative_claimed connectorId claimed k r :
  published_services d !! k = Some r → k ∈ cm_routeId <$> claimed →
  toAuthoritative r ∈ authoritative_routes connectorId claimed d.
Proof.
  intros Hk Hc. assert (ps_id r = k) as Hid by by eapply rows_ok_key.
  apply list_elem_of_fmap_2, elem_of_app.
  set (own := findLiveForConnector connectorId MAX_LIVE_ROUTES d).
  destruct (includes (ps_id <$> own) (ps_id r)) eqn:Hi.
  - left. unfold includes in Hi. apply bool_decide_eq_true, list_elem_of_fmap in Hi as (r' & He & Hr').
    pose proof Hr' as [Hl _]%findLive_elem. rewrite <- He, Hid in Hl. by assert (r' = r) as -> by congruence.
  - right. apply list_elem_of_filter. split; [done|]. apply findByIds_elem. by rewrite Hid.
Qed.
End reads.

(** A decision against the tables it was made on. *)
Lemma decided_entry connectorId claimed time d e :
  rows_ok ps_id service_checks (published_services d) →
  e ∈ decided_routes connectorId claimed time d →
  (∃ r, published_services d !! entry_id e = Some r ∧ ps_connector_id r = connectorId ∧
     ps_status r = ps_ready ∧ (time < ps_expires_at r)%Z ∧ e = continue_route (toAuthoritative r)) ∨
  continues_route e = false ∧
    ((rn_closure e = closed_none ∧ ∀ r, published_services d !! entry_id e = Some r →
        ps_connector_id r = connectorId → live_route r = false) ∨
     rn_closure e ≠ closed_none ∧ ∃ r, published_services d !! entry_id e = Some r ∧
        ps_connector_id r = connectorId ∧ live_route r = true).
Proof.
  intros Hok He%elem_of_take_in. apply elem_of_by_id in He.
  pose proof (authoritative_NoDup d Hok connectorId claimed) as Hnd.
  apply (reconcile_unsorted connectorId claimed _ time Hnd) in He.
  assert (∀ r, record_of (authoritative_routes connectorId claimed d) (entry_id e) = Some r →
    ∃ x, published_services d !! entry_id e = Some x ∧ r = toAuthoritative x) as Hrec.
  { intros r [Hr Hid]%record_of_Some. rewrite <- Hid. by eapply authoritative_elem. }
  assert (∀ x, live_record (toAuthoritative x) ↔ live_route x = true) as Hlive
    by (intros; unfold live_record, live_route; by rewrite bool_decide_eq_true).
  destruct (verdict_cases _ _ _ _ _ _ He) as [(r & Hr & Ho & Ht & -> & _)|[Hc [[Hn Hnl]|[Hn (r & Hr & Hown & Hl)]]]].
  - left. destruct (Hrec _ Hr) as (x & Hx & ->). apply own_ready_spec in Ho as [? ?]. by exists x.
  - right. split; [done|]. left. split; [done|]. intros x Hx Hown.
    apply not_true_iff_false. intros Hl%Hlive.
    destruct (record_of (authoritative_routes connectorId claimed d) (entry_id e)) as [r|] eqn:Hr.
    + destruct (Hrec r eq_refl) as (x' & Hx' & ->). assert (x' = x) as -> by congruence.
      by eapply Hnl.
    + unfold verdict in He. rewrite Hr in He.
      destruct (first_of cm_routeId (entry_id e) claimed) as [c|] eqn:Hf; [|done].
      apply first_of_Some in Hf as [Hf Hid].
      assert (toAuthoritative x ∈ authoritative_routes connectorId claimed d) as Hin.
      { eapply authoritative_claimed; [done|done|]. rewrite <- Hid. by apply list_elem_of_fmap_2. }
      apply (record_of_unique _ _ Hnd) in Hin.
      change (au_routeId (toAuthoritative x)) with (ps_id x) in Hin.
      rewrite (rows_ok_key _ _ _ _ _ Hok Hx) in Hin. congruence.
  - right. split; [done|]. right. split; [done|]. destruct (Hrec _ Hr) as (x & Hx & ->).
    exists x. split_and!; [done|done|by apply Hlive].
Qed.

Section reconciles.
Context `{Entropy} `{ReconcilerConfig}.

Definition closed_by (e : ReconciledRoute) : list string := if needs_closing e then [entry_id e] else [].
Lemma closeIfNeeded_run gateway time connectorId requestId e s u s' :
  closeIfNeeded gateway time connectorId requestId e s = (Ok u, s') →
  settled (closed_by e) (db s) (db s') ∧ browser_sessions (db s') = browser_sessions (db s) ∧
  (needs_closing e = true → gateway (entry_id e) = Ok tt).
Proof.
  unfold closeIfNeeded, closed_by, needs_closing. destruct (continues_route e); cbn [negb andb].
  { intros [_ ->]%retM_ok. split_and!; [by apply same_routes_settled|done|done]. }
  case_bool_decide as Hn; cbn [negb].
  - intros Hr. assert (∃ l, db s' = with_log l (db s)) as [l ->].
    { destruct (rn_record e); [apply retM_ok in Hr as [_ ->]; exists (log (db s)); by destruct (db s)|].
      apply inTransaction_ok, bindM_ok in Hr as (id & s1 & Hid & Hw).
      apply newId_ok in Hid as (_ & Hdb & _). apply write_event_run in Hw as (l & ? & -> & _).
      exists l. cbn. by rewrite Hdb. }
    split_and!; [apply same_routes_settled; by split|done|done].
  - intros Hr. apply bindM_ok in Hr as ([] & s1 & (Hg & ->)%answered_ok & Hr).
    apply bindM_ok in Hr as (b & s1 & Hr & (_ & ->)%retM_ok).
    apply finishClosing_run in Hr as (Hset & Hs & _). split_and!; [exact Hset|done|done].
Qed.

Definition same_sessions_settled (ids : list string) (d d' : Db) : Prop :=
  settled ids d d' ∧ browser_sessions d' = browser_sessions d.
Lemma reconcile_run gateway connectorId claimed requestId s resp s' :
  reconcile gateway connectorId claimed requestId s = (Ok resp, s') →
  let decided := decided_routes connectorId claimed (clock s) (db s) in
  resp = {| rs_reconciled_at := clock s; rs_routes := rn_decision <$> decided;
            rs_sessions := decideSessions decided |} ∧
  (∀ e, e ∈ decided → needs_closing e = true → gateway (entry_id e) = Ok tt) ∧
  ∃ d, settled (decided ≫= closed_by) (db s) d ∧ browser_sessions d = browser_sessions (db s) ∧
    sessions_moved BS_READY [DEGRADED]
      (bs_id <$> filter (λ b, bs_status b = DEGRADED) (resumable connectorId decided d)) d (db s').
Proof.
  unfold reconcile. intros Hr. apply bindM_ok in Hr as (time & s1 & (-> & ->)%now_ok & Hr).
  apply bindM_ok in Hr as (decided & s1 & (-> & ->)%gets_ok & Hr).
  apply bindM_ok in Hr as ([] & s2 & Hclose & Hr).
  apply bindM_ok in Hr as ([] & s3 & Happly & (-> & ->)%retM_ok). split; [done|]. split.
  - intros e He Hn. destruct (each_ran _ _ _ _ _ Hclose _ He) as (t & t' & Ht).
    by apply closeIfNeeded_run in Ht as (_ & _ & ?); auto.
  - exists (db s2). apply applySessionDecisions_run in Happly.
    destruct (each_rel same_sessions_settled closed_by) with (4 := Hclose) as [Hset Hs]; try done.
    + intros d. split; [by apply same_routes_settled|done].
    + intros l l' d d' d'' [? ?] [? ?]. split; [by eapply settled_trans|congruence].
    + intros e t u t' Ht. by apply closeIfNeeded_run in Ht as (? & ? & _).
Qed.
End reconciles.

Lemma decided_unique connectorId claimed time d e e' :
  rows_ok ps_id service_checks (published_services d) →
  e ∈ decided_routes connectorId claimed time d → e' ∈ decided_routes connectorId claimed time d →
  entry_id e = entry_id e' → e = e'.
Proof.
  intros Hok He%elem_of_take_in He'%elem_of_take_in Hid. apply elem_of_by_id in He, He'.
  apply (reconcile_unsorted connectorId claimed _ time (authoritative_NoDup d Hok _ _)) in He, He'.
  rewrite Hid in He. congruence.
Qed.
Lemma elem_of_closed id l : id ∈ l ≫= closed_by ↔ ∃ e, e ∈ l ∧ needs_closing e = true ∧ entry_id e = id.
Proof.
  rewrite list_elem_of_bind. unfold closed_by. split.
  - intros (e & Hid & He). destruct (needs_closing e) eqn:Hn; [|by apply elem_of_nil in Hid].
    apply list_elem_of_singleton in Hid as ->. by exists e.
  - intros (e & He & Hn & <-). exists e. rewrite Hn. split; [by left|done].
Qed.
Lemma needs_closing_spec e :
  needs_closing e = true ↔ continues_route e = false ∧ rn_closure e ≠ closed_none.
Proof.
  unfold needs_closing. by rewrite andb_true_iff, !negb_true_iff, bool_decide_eq_false.
Qed.

(** A session that can be resumed is a live one that a continued route names or
    that is bound to it. *)
Lemma resumable_elem connectorId decided d b :
  rows_ok bs_id session_checks (browser_sessions d) → b ∈ resumable connectorId decided d →
  browser_sessions d !! bs_id b = Some b ∧ session_alive b = true ∧
  ∃ e, e ∈ decided ∧ continues_route e = true ∧
    (bs_published_service_id b = Some (entry_id e) ∨ bs_id b ∈ sessions_of e).
Proof.
  intros Hok Hb. unfold resumable in Hb. apply elem_of_app in Hb as [Hb|Hb].
  - apply list_elem_of_filter in Hb as [Hc Hb]. apply elem_of_by_id, elem_of_select in Hb as [Hb [k Hk]].
    apply andb_true_iff in Hb as [_ Ha]. rewrite (rows_ok_key _ _ _ _ _ Hok Hk). split_and!; [done..|].
    apply existsb_elem in Hc as (e & He & Hs%bool_decide_eq_true).
    apply list_elem_of_filter in He as [? ?]. exists e. auto.
  - apply list_elem_of_filter in Hb as [_ Hb]. apply elem_of_by_id, elem_of_select in Hb as [Hb [k Hk]].
    apply andb_true_iff in Hb as [Hi Ha]. rewrite <- (rows_ok_key _ _ _ _ _ Hok Hk) in Hk. split_and!; [done..|].
    unfold includes in Hi. apply bool_decide_eq_true, list_elem_of_bind in Hi as (e & Hs & He).
    apply list_elem_of_filter in He as [? ?]. exists e. auto.
Qed.

Section answers.
Context `{Entropy} `{ReconcilerConfig} `{PublishedServiceConfig}.

(** C16: the answer a connector gets is what the tables say.  When a reconciliation
    returns, every route it told the connector to go on with is that connector's,
    ready, unexpired and restated from its record, which is untouched; no route it
    told the connector to close is still live in that connector's name; no route
    of another connector has changed; a route that has changed was live, was first
    withdrawn at the gateway, has ended, and has no capability left; and a session
    that has changed is a live one that was degraded, is ready now, and is bound to
    a continued route or named by it. *)
Theorem reconcile_settles (gateway : string → result Failure unit) (connectorId requestId : string)
    (claimed : list ClaimedRoute) (s s' : St) (resp : ReconnectResponse)
    (Hok : routes_ok (db s)) (Hsessions : rows_ok bs_id session_checks (browser_sessions (db s)))
    (Hr : reconcile gateway connectorId claimed requestId s = (Ok resp, s')) :
  rs_reconciled_at resp = clock s ∧
  (∀ x, x ∈ rs_routes resp →
     match rd_decision x with
     | v_continue => ∃ r, published_services (db s) !! rd_route_id x = Some r ∧
         published_services (db s') !! rd_route_id x = Some r ∧ ps_connector_id r = connectorId ∧
         ps_status r = ps_ready ∧ (rs_reconciled_at resp < ps_expires_at r)%Z ∧
         rd_route x = Some (restate (toAuthoritative r))
     | v_revoke => ∀ r, published_services (db s') !! rd_route_id x = Some r →
         ps_connector_id r = connectorId → live_route r = false
     end) ∧
  (∀ k r, published_services (db s) !! k = Some r → ps_connector_id r ≠ connectorId →
     published_services (db s') !! k = Some r) ∧
  (∀ k r r', published_services (db s) !! k = Some r → published_services (db s') !! k = Some r' →
     r' ≠ r → live_route r = true ∧ gateway k = Ok tt ∧ ended_from r r' ∧
       ∀ j c, route_capabilities (db s') !! j = Some c → rc_published_service_id c = k →
         rc_revoked_at c ≠ None) ∧
  ∀ k b b', browser_sessions (db s) !! k = Some b → browser_sessions (db s') !! k = Some b' → b' ≠ b →
    bs_status b = DEGRADED ∧ b' = set_status BS_READY (bs_ended_at b) b ∧ session_alive b = true ∧
    ∃ x p, x ∈ rs_routes resp ∧ rd_decision x = v_continue ∧ rd_route x = Some p ∧
      (bs_published_service_id b = Some (rd_route_id x) ∨ k ∈ rp_allowed_browser_session_ids p).
Proof.
  apply reconcile_run in Hr as (-> & Hgate & d & [Hset Hcaps Hrev] & Hsame & [Hmoved [Hps Hrc] _]).
  set (decided := decided_routes connectorId claimed (clock s) (db s)) in *.
  pose proof (services_ok _ Hok) as Hrows.
  assert (∀ e, e ∈ decided → _) as Hentry by (intros e He; exact (decided_entry _ _ _ _ e Hrows He)).
  rewrite Hps, Hrc. cbn [rs_reconciled_at rs_routes].
  assert (∀ k r, published_services (db s) !! k = Some r → live_route r = true →
    k ∈ decided ≫= closed_by → ps_connector_id r = connectorId) as Hown.
  { intros k r Hk Hl (e & He & Hn & <-)%elem_of_closed. apply needs_closing_spec in Hn as [Hc Hn].
    destruct (Hentry e He) as [(x & _ & _ & _ & _ & ->)|[_ [[? _]|[_ (x & Hx & Ho & _)]]]]; try done.
    by assert (x = r) as <- by congruence. }
  split; [done|]. split; [|split; [|split]].
  - intros x (e & -> & He)%list_elem_of_fmap. specialize (Hset (entry_id e)).
    destruct (Hentry e He) as [(r & Hr & Ho & Hs & Ht & Heq)|[Hc Hcase]].
    + rewrite Hr in Hset. assert (rd_decision (rn_decision e) = v_continue) as -> by by rewrite Heq.
      assert (entry_id e ∉ decided ≫= closed_by) as Hnot.
      { intros (e' & He' & Hn & Hid)%elem_of_closed.
        rewrite (decided_unique _ _ _ _ _ _ Hrows He' He Hid), Heq in Hn. done. }
      rewrite bool_decide_false, andb_false_r in Hset by done.
      exists r. split_and!; try done. by rewrite Heq.
    + assert (rd_decision (rn_decision e) = v_revoke) as ->
        by (unfold continues_route in Hc; case_bool_decide; [done|]; by destruct (rd_decision _)).
      intros r' Hr' Ho'. change (rd_route_id (rn_decision e)) with (entry_id e) in Hr'.
      destruct (published_services (db s) !! entry_id e) as [r|] eqn:Hr; [|congruence].
      destruct (live_route r && bool_decide (entry_id e ∈ decided ≫= closed_by)) eqn:Hl.
      * destruct Hset as (x & Hx & Hend). assert (x = r') as <- by congruence. by eapply ended_route_not_live.
      * assert (r' = r) as -> by congruence. destruct Hcase as [[_ Hn]|[Hn (x & Hx & _ & Hlive)]]; [by apply Hn|].
        assert (x = r) as -> by congruence. rewrite Hlive, bool_decide_true in Hl; [done|].
        apply elem_of_closed. exists e. split_and!; [done|by apply needs_closing_spec|done].
  - intros k r Hk Hne. specialize (Hset k). rewrite Hk in Hset.
    destruct (live_route r) eqn:Hl; [|done]. case_bool_decide as Hin; [|done]. by destruct Hne; eapply Hown.
  - intros k r r' Hk Hk' Hne. specialize (Hset k). rewrite Hk in Hset.
    destruct (live_route r) eqn:Hl; [|cbn in Hset; congruence].
    case_bool_decide as Hin; [|cbn in Hset; congruence]. destruct Hset as (x & Hx & Hend).
    assert (x = r') as -> by congruence. split_and!; try done.
    + apply elem_of_closed in Hin as (e & He & Hn & <-). by apply Hgate.
    + intros j c Hj <-. by eapply Hrev.
  - intros k b b' Hk Hk' Hne. rewrite Hmoved, Hsame, Hk in Hk'. cbn in Hk'. injection Hk' as <-.
    unfold moved in *. case_bool_decide as Hin; [|done]. case_bool_decide as Hd; [|done]. cbn [andb] in *.
    apply list_elem_of_fmap in Hin as (b0 & -> & Hb0). apply list_elem_of_filter in Hb0 as [_ Hb0].
    apply resumable_elem in Hb0 as (Hb0 & Ha & e & He & Hc & Hs); [|by rewrite Hsame].
    rewrite Hsame in Hb0. assert (b0 = b) as -> by congruence.
    split_and!; [by apply list_elem_of_singleton in Hd|done|done|].
    destruct (Hentry e He) as [(r & Hr & Ho & Hst & Ht & Heq)|[? _]]; [|congruence].
    exists (rn_decision e), (restate (toAuthoritative r)).
    split_and!; [by apply list_elem_of_fmap_2|by rewrite Heq|by rewrite Heq|].
    destruct Hs as [?|Hs]; [by left|right]. by rewrite Heq in Hs.
Qed.
End answers.

(** ** Losing the identity *)

Section revocations.
Context `{Entropy} `{ReconcilerConfig}.

Definition revoking_route (gateway : string → result Failure unit) (time : Z)
    (connectorId requestId : string) (actor : EventActor) (r : PublishedServiceRow) : M bool :=
  answered (gateway (ps_id r)) ;; finishClosing time (revocation_of connectorId requestId actor r).
Lemma revoking_route_run gateway time connectorId requestId actor r s b s' :
  revoking_route gateway time connectorId requestId actor r s = (Ok b, s') →
  settled [ps_id r] (db s) (db s') ∧ browser_sessions (db s') = browser_sessions (db s) ∧
  (published_services (db s) !! ps_id r = Some r → b = live_route r).
Proof.
  unfold revoking_route. intros Hr. apply bindM_ok in Hr as ([] & s1 & (_ & ->)%answered_ok & Hr).
  apply finishClosing_run in Hr as (Hset & Hs & Hb). split_and!; [done|done|]. intros Hl. by apply Hb.
Qed.

(** Each of the live routes it read is revoked by it. *)
Lemma revocations_all gateway time connectorId requestId actor l s bs s' :
  NoDup (ps_id <$> l) →
  (∀ r, r ∈ l → published_services (db s) !! ps_id r = Some r ∧ live_route r = true) →
  collect (revoking_route gateway time connectorId requestId actor) l s = (Ok bs, s') →
  how_many bs = count l.
Proof.
  revert s bs. induction l as [|r l IH]; intros s bs Hnd Hl Hr; cbn [collect] in Hr.
  { by apply retM_ok in Hr as [-> _]. }
  apply bindM_ok in Hr as (b & s1 & Hb & Hr). apply bindM_ok in Hr as (bs' & s2 & Hr & (-> & ->)%retM_ok).
  rewrite fmap_cons, NoDup_cons in Hnd. destruct Hnd as [Hn Hnd].
  apply revoking_route_run in Hb as ([Hset _ _] & _ & Hb). destruct (Hl r) as [Hr0 Hlive]; [by left|].
  rewrite (Hb Hr0), Hlive. unfold how_many. rewrite filter_cons_True by done. unfold count in *. cbn [length].
  assert (Z.of_nat (length (filter (λ b, b = true) bs')) = Z.of_nat (length l)); [|lia].
  apply (IH s1 bs'); [done| |done]. intros x Hx. destruct (Hl x) as [Hx0 Hxl]; [by right|].
  split; [|done]. specialize (Hset (ps_id x)). rewrite Hx0, Hxl, bool_decide_false in Hset; [done|].
  intros He%list_elem_of_singleton. apply Hn. rewrite <- He. by apply list_elem_of_fmap_2.
Qed.

Lemma alive_usable b : session_alive b = true → bs_status b ∈ usable_statuses ∨ bs_status b = DEGRADED.
Proof.
  unfold session_alive, usable_statuses. rewrite andb_true_iff, negb_true_iff, bool_decide_eq_false.
  rewrite !elem_of_cons, !elem_of_nil. destruct (bs_status b); tauto.
Qed.
(** After the move of all live bound sessions none of them is usable. *)
Lemma degraded_all connectorId d0 d d' k b :
  rows_ok bs_id session_checks (browser_sessions d0) → browser_sessions d = browser_sessions d0 →
  sessions_moved DEGRADED usable_statuses (bs_id <$> findLiveSessionsForConnector connectorId d0) d d' →
  browser_sessions d' !! k = Some b → bound_to connectorId d0 b = true → session_alive b = true →
  bs_status b = DEGRADED.
Proof.
  intros Hok Hsame [Hm _ _] Hk Hbound Ha. rewrite Hm, Hsame in Hk.
  destruct (browser_sessions d0 !! k) as [b0|] eqn:Hb0; [|done]. cbn in Hk. injection Hk as <-.
  destruct (decide (k ∈ bs_id <$> findLiveSessionsForConnector connectorId d0)) as [Hin|Hin].
  - unfold moved in *. rewrite (bool_decide_true (k ∈ _)) in * by done. cbn [andb] in *.
    destruct (bool_decide (bs_status b0 ∈ usable_statuses)) eqn:Hu; [done|].
    apply bool_decide_eq_false in Hu. by destruct (alive_usable _ Ha).
  - rewrite moved_outside in * by done. destruct Hin. rewrite <- (rows_ok_key _ _ _ _ _ Hok Hb0). apply list_elem_of_fmap_2, elem_of_by_id.
    apply elem_of_select. rewrite Hbound, Ha. eauto.
Qed.

(** What is read of a connector that has no more live routes than are read. *)
Lemma few_live connectorId d :
  rows_ok ps_id service_checks (published_services d) →
  length (select (live_for connectorId) (published_services d)) ≤ MAX_LIVE_ROUTES →
  let live := findLiveForConnector connectorId MAX_LIVE_ROUTES d in
  NoDup (ps_id <$> live) ∧ length live = length (select (live_for connectorId) (published_services d)) ∧
  ∀ r, r ∈ live ↔ published_services d !! ps_id r = Some r ∧ live_for connectorId r = true.
Proof.
  intros Hok Hfew live. subst live. unfold findLiveForConnector, by_id, order_by.
  rewrite take_ge by (by rewrite (Permutation_length (merge_sort_Permutation _ _))). split_and!.
  - rewrite merge_sort_Permutation. by eapply select_keys_nodup.
  - apply Permutation_length, merge_sort_Permutation.
  - intros r. rewrite merge_sort_Permutation, elem_of_select. split.
    + intros [Hl [k Hk]]. split; [|done]. by rewrite (rows_ok_key _ _ _ _ _ Hok Hk).
    + intros [Hk Hl]. by eauto.
Qed.

Lemma revokeConnectorRoutes_run gateway connectorId requestId actor s revoked disconnected s' :
  revokeConnectorRoutes gateway connectorId requestId actor s = (Ok (revoked, disconnected), s') →
  let live := findLiveForConnector connectorId MAX_LIVE_ROUTES (db s) in
  (NoDup (ps_id <$> live) →
   (∀ r, r ∈ live → published_services (db s) !! ps_id r = Some r ∧ live_route r = true) →
   revoked = count live) ∧
  (∀ r, r ∈ live → gateway (ps_id r) = Ok tt) ∧
  ∃ d, settled (ps_id <$> live) (db s) d ∧ browser_sessions d = browser_sessions (db s) ∧
    sessions_moved DEGRADED usable_statuses
      (bs_id <$> findLiveSessionsForConnector connectorId (db s)) d (db s').
Proof.
  unfold revokeConnectorRoutes. intros Hr. apply bindM_ok in Hr as (time & s1 & (-> & ->)%now_ok & Hr).
  apply bindM_ok in Hr as (routes & s1 & (-> & ->)%gets_ok & Hr).
  apply bindM_ok in Hr as (sessions & s1 & (-> & ->)%gets_ok & Hr).
  apply bindM_ok in Hr as (bs & s1 & Hbs & Hr). apply bindM_ok in Hr as (ds & s2 & Hds & (Heq & ->)%retM_ok).
  injection Heq as -> ->. split_and!.
  - intros Hnd Hl. by eapply revocations_all.
  - intros r Hmem. destruct (collect_ran _ _ _ _ _ Hbs r Hmem) as (t & b & t' & Ht).
    by apply bindM_ok in Ht as ([] & t1 & (? & _)%answered_ok & _).
  - exists (db s1).
    destruct (collect_rel same_sessions_settled (λ r, [ps_id r])) with (4 := Hbs) as [Hset Hsame].
    { intros d. split; [by apply same_routes_settled|done]. }
    { intros l l' d d' d'' [? ?] [? ?]. split; [by eapply settled_trans|congruence]. }
    { intros r t b t' Ht. by apply revoking_route_run in Ht as (? & ? & _). }
    rewrite bind_singletons in Hset. split_and!; [done|done|].
    rewrite <- bind_singletons. revert Hds. apply collect_rel; [apply sessions_moved_refl| |].
    + intros. by eapply sessions_moved_trans; [intros Hin; vm_compute in Hin; set_solver| |].
    + intros b t u t' Hm. by eapply move_session_run.
Qed.

(** C17: a revoked connector carries nothing.  When the revocation of a
    connector's routes returns, for a connector of no more live routes than it
    reads, no route of that connector is live, none of the capabilities of those
    that were has been left, the count it reports is the number of routes that
    were, the gateway was told of each, the routes of other connectors are as they
    were, and no live browser session bound to that connector's routes is usable. *)
Theorem connector_revocation_ends_routes (gateway : string → result Failure unit)
    (connectorId requestId : string) (actor : EventActor) (s s' : St) (revoked disconnected : Z)
    (Hok : rows_ok ps_id service_checks (published_services (db s)))
    (Hsessions : rows_ok bs_id session_checks (browser_sessions (db s)))
    (Hfew : length (select (live_for connectorId) (published_services (db s))) ≤ MAX_LIVE_ROUTES)
    (Hr : revokeConnectorRoutes gateway connectorId requestId actor s = (Ok (revoked, disconnected), s')) :
  (∀ k r, published_services (db s') !! k = Some r → ps_connector_id r = connectorId →
     live_route r = false) ∧
  (∀ j c r, route_capabilities (db s') !! j = Some c →
     published_services (db s) !! rc_published_service_id c = Some r →
     live_for connectorId r = true → rc_revoked_at c ≠ None) ∧
  revoked = count (select (live_for connectorId) (published_services (db s))) ∧
  (∀ k r, published_services (db s) !! k = Some r → live_for connectorId r = true → gateway k = Ok tt) ∧
  (∀ k r, published_services (db s) !! k = Some r → ps_connector_id r ≠ connectorId →
     published_services (db s') !! k = Some r) ∧
  ∀ k b, browser_sessions (db s') !! k = Some b → bound_to connectorId (db s) b = true →
    session_alive b = true → bs_status b = DEGRADED.
Proof.
  apply revokeConnectorRoutes_run in Hr as (Hcount & Hgate & d & [Hset _ Hrev] & Hsame & Hmoved).
  destruct (few_live connectorId (db s) Hok Hfew) as (Hnd & Hlen & Hread).
  set (live := findLiveForConnector connectorId MAX_LIVE_ROUTES (db s)) in *.
  assert (∀ k r, published_services (db s) !! k = Some r → live_for connectorId r = true →
    r ∈ live ∧ k ∈ ps_id <$> live ∧ live_route r = true) as Hin.
  { intros k r Hk Hl. assert (ps_id r = k) as Hid by by eapply rows_ok_key.
    assert (r ∈ live) by (apply Hread; by rewrite Hid). apply andb_true_iff in Hl as [_ ?].
    rewrite <- Hid. split_and!; [done|by apply list_elem_of_fmap_2|done]. }
  destruct (moved_routes _ _ _ _ _ Hmoved) as [Hps Hrc]. rewrite Hps, Hrc. split_and!.
  - intros k r Hk Ho. specialize (Hset k).
    destruct (published_services (db s) !! k) as [r0|] eqn:Hr0; [|congruence].
    destruct (live_route r0 && bool_decide (k ∈ ps_id <$> live)) eqn:Hl.
    + destruct Hset as (x & Hx & He). assert (x = r) as <- by congruence. by eapply ended_route_not_live.
    + assert (r = r0) as -> by congruence. destruct (live_route r0) eqn:Hlive; [|done].
      destruct (Hin k r0 Hr0) as (_ & Hk' & _); [unfold live_for; by rewrite Ho, Hlive, bool_decide_true|].
      by rewrite bool_decide_true in Hl.
  - intros j c r Hj Hr Hl. destruct (Hin _ _ Hr Hl) as (_ & Hk & Hlive). by eapply Hrev.
  - rewrite Hcount; [unfold count; by rewrite Hlen|done|].
    intros r [Hk Hl]%Hread. split; [done|]. by apply andb_true_iff in Hl as [_ ?].
  - intros k r Hk Hl. destruct (Hin k r Hk Hl) as (Hmem & _ & _).
    rewrite <- (rows_ok_key _ _ _ _ _ Hok Hk). by apply Hgate.
  - intros k r Hk Hne. specialize (Hset k). rewrite Hk in Hset.
    rewrite bool_decide_false, andb_false_r in Hset; [done|].
    intros (r' & -> & Hr')%list_elem_of_fmap. apply Hread in Hr' as [Hr' Hl].
    assert (r' = r) as -> by congruence. apply andb_true_iff in Hl as [Hl _].
    by apply bool_decide_eq_true in Hl.
  - intros k b Hk Hb Ha. by eapply degraded_all.
Qed.
End revocations.

(** ** The sample deployment again *)

Definition claim1 : ClaimedRoute :=
  {| cm_routeId := route_id; cm_projectId := "prj_1"; cm_workspaceId := "wsp_1";
     cm_observedDestination := "127.0.0.1:3000" |}.
Definition reachable_gateway : string → result Failure unit := λ _, Ok tt.
Definition no_response : ReconnectResponse :=
  {| rs_reconciled_at := 0; rs_routes := []; rs_sessions := [] |}.

Lemma reconcileRoutes_table_witness :
  NoDup (entry_id <$> reconcileRoutes "con_1" [claim1] [toAuthoritative (row_at carried)] 2000) ∧
  ∃ e, e ∈ reconcileRoutes "con_1" [claim1] [toAuthoritative (row_at carried)] 2000 ∧
    entry_id e = route_id.
Proof.
  destruct (reconcileRoutes_table "con_1" [claim1] [toAuthoritative (row_at carried)] 2000
    (NoDup_singleton _)) as (_ & Hnd & _ & Hids & _).
  split; [exact Hnd|].
  assert (route_id ∈ entry_id <$> reconcileRoutes "con_1" [claim1] [toAuthoritative (row_at carried)] 2000)
    as Hin by (apply Hids; left; left).
  apply list_elem_of_fmap in Hin. destruct Hin as (e & He & Hin). exists e. split; [exact Hin|].
  symmetry. exact He.
Defined.

Definition answer1 : ReconnectResponse :=
  returned (reconcile reachable_gateway "con_1" [claim1] "req_5") carried no_response.
Definition reconnected : St := left_at (reconcile reachable_gateway "con_1" [claim1] "req_5") carried.
Lemma carried_sessions : rows_ok bs_id session_checks (browser_sessions (db carried)).
Proof.
  assert (browser_sessions (db carried) = {[ "brs_1" := sample_session ]}) as -> by (vm_compute; reflexivity).
  apply map_Forall_singleton. split; vm_compute; reflexivity.
Qed.
Lemma reconnects1 :
  reconcile reachable_gateway "con_1" [claim1] "req_5" carried = (Ok answer1, reconnected).
Proof. vm_compute. reflexivity. Qed.
Lemma reconcile_settles_witness :
  ∃ x r, rs_routes answer1 = [x] ∧ published_services (db reconnected) !! rd_route_id x = Some r ∧
    ps_status r = ps_ready ∧ rd_route x = Some (restate (toAuthoritative r)).
Proof.
  destruct (reconcile_settles reachable_gateway "con_1" "req_5" [claim1] carried reconnected answer1
    (tables_ok _ (route_reachable_ok _ carrying_reachable)) carried_sessions reconnects1) as (_ & Hx & _).
  destruct (rs_routes answer1) as [|x l] eqn:Hroutes; [by vm_compute in Hroutes|].
  specialize (Hx x ltac:(left)). vm_compute in Hroutes. injection Hroutes as Hx0 Hl. subst l.
  assert (rd_decision x = v_continue) as Hd by (rewrite <- Hx0; reflexivity). rewrite Hd in Hx.
  destruct Hx as (r & _ & Hr & _ & Hs & _ & Hp). exists x, r. split; [reflexivity|].
  split; [exact Hr|]. split; [exact Hs|exact Hp].
Defined.

Definition revoked_connector : St :=
  left_at (revokeConnectorRoutes reachable_gateway "con_1" "req_5" person) carried.
Lemma revokes1 :
  revokeConnectorRoutes reachable_gateway "con_1" "req_5" person carried
    = (Ok (1%Z, 0%Z), revoked_connector).
Proof. vm_compute. reflexivity. Qed.
Lemma connector_revocation_ends_routes_witness :
  ∃ r, published_services (db revoked_connector) !! route_id = Some r ∧ live_route r = false.
Proof.
  destruct (connector_revocation_ends_routes reachable_gateway "con_1" "req_5" person carried
    revoked_connector 1 0 (services_ok _ (tables_ok _ (route_reachable_ok _ carrying_reachable)))
    carried_sessions ltac:(vm_compute; lia) revokes1) as [Hlive _].
  destruct (published_services (db revoked_connector) !! route_id) as [r|] eqn:Hr;
    [|vm_compute in Hr; discriminate].
  exists r. split; [reflexivity|]. apply (Hlive route_id r Hr).
  vm_compute in Hr. injection Hr as Hr. subst r. reflexivity.
Defined.

(** ** What a reconnect should not do *)

(** The sample session bound to the route, with a status. *)
Definition bound_session (status : SessionStatus) : BrowserSessionRow :=
  set_status status None (set_binding route_id "https://preview.internal" sample_session).
Definition serving (status : SessionStatus) : St :=
  with_db (with_browser_sessions {[ "brs_1" := bound_session status ]} (db carried)) carried.
Definition status_in (s : St) : option SessionStatus := bs_status <$> browser_sessions (db s) !! "brs_1".

Definition outage (before : SessionStatus) : St :=
  left_at (handleDisconnect "con_1" "req_6") (serving before).
Definition repaired (before : SessionStatus) : St :=
  left_at (reconcile reachable_gateway "con_1" [claim1] "req_7") (outage before).
Definition repair_answer (before : SessionStatus) : ReconnectResponse :=
  returned (reconcile reachable_gateway "con_1" [claim1] "req_7") (outage before) no_response.
Lemma outages :
  Forall (λ before,
    handleDisconnect "con_1" "req_6" (serving before) = (Ok tt, outage before) ∧
    status_in (outage before) = Some DEGRADED ∧
    reconcile reachable_gateway "con_1" [claim1] "req_7" (outage before)
      = (Ok (repair_answer before), repaired before) ∧
    status_in (repaired before) = Some BS_READY ∧
    ev_type <$> last (events (log (db (repaired before)))) = Some "browser_session.resumed")
    usable_statuses.
Proof.
  unfold usable_statuses. rewrite !Forall_cons. cbv beta.
  repeat match goal with |- _ ∧ _ => split end; first [apply Forall_nil_2|vm_compute; reflexivity].
Qed.

(** a pause does not outlive an outage.  Whatever status a session that is
    bound to a route had, losing the connector's channel makes it degraded, and
    the next reconnect that goes on with the route makes it ready: a session a
    person had paused takes commands again, on an event that says it was resumed,
    though nobody resumed it. *)
Theorem reconnect_undoes_a_pause :
  Forall (λ before, ∃ s1 resp s2,
    handleDisconnect "con_1" "req_6" (serving before) = (Ok tt, s1) ∧ status_in s1 = Some DEGRADED ∧
    reconcile reachable_gateway "con_1" [claim1] "req_7" s1 = (Ok resp, s2) ∧
    status_in s2 = Some BS_READY ∧
    ev_type <$> last (events (log (db s2))) = Some "browser_session.resumed") usable_statuses.
Proof.
  eapply Forall_impl; [exact outages|]. intros before Hrun.
  exists (outage before), (repair_answer before), (repaired before). exact Hrun.
Qed.

(** a connector can ask about another's sessions.  One that claims a route of
    another connector is told to close it, and its answer names the browser
    sessions of that route, which may be another organisation's; the reason tells
    it that the route exists. *)
Theorem foreign_claim_names_its_sessions :
  ∃ resp s', reconcile reachable_gateway "con_2" [claim1] "req_8" carried = (Ok resp, s') ∧
    rs_sessions resp = [("brs_1", v_end)] ∧
    (λ x, (rd_route_id x, rd_reason x)) <$> rs_routes resp = [(route_id, rr_not_authorised)] ∧
    ps_connector_id (row_at carried) = "con_1" ∧
    published_services (db s') !! route_id = Some (row_at carried).
Proof.
  exists (returned (reconcile reachable_gateway "con_2" [claim1] "req_8") carried no_response).
  exists (left_at (reconcile reachable_gateway "con_2" [claim1] "req_8") carried).
  split; [vm_compute; reflexivity|]. split; [vm_compute; reflexivity|].
  split; [vm_compute; reflexivity|]. split; vm_compute; reflexivity.
Qed.
