(* ===== verification/JobTheorems.v ===== *)
(** * What the job runner guarantees, and what a vanished runner leaves *)

From S2P Require Import Prelude Errors ReviewProtocol Events EntityId Store Jobs Preserve Invariants Samples Effects SweepTheorems.

(** ** The order of the claim *)

#[export] Instance due_order_trans : Transitive due_order.
Proof.
  intros a b c [Hab|[Hab Hab']] [Hbc|[Hbc Hbc']]; unfold due_order; [left; lia..|].
  right. split; [congruence|]. destruct Hab' as [?|[? Hi]], Hbc' as [?|[? Hi']];
    unfold time_then_id; [left; lia..|].
  right. split; [congruence|]. by eapply leb_trans.
Qed.
#[export] Instance due_order_total : Total due_order.
Proof.
  intros a b. unfold due_order, time_then_id.
  destruct (Z.lt_trichotomy (jb_run_after a) (jb_run_after b)) as [?|[?|?]]; auto.
  destruct (Z.lt_trichotomy (jb_created_at a) (jb_created_at b)) as [?|[?|?]]; auto.
  destruct (String.leb_total (jb_id a) (jb_id b)); auto 10.
Qed.

Lemma elem_of_due held time t j :
  j ∈ due held time t ↔ claimable time j = true ∧ jb_id j ∉ held ∧ (∃ k, t !! k = Some j).
Proof.
  unfold due. rewrite merge_sort_Permutation, elem_of_select, andb_true_iff, negb_true_iff.
  unfold includes. rewrite bool_decide_eq_false. tauto.
Qed.
Lemma due_first held time t j js :
  due held time t = j :: js →
  ∀ j', claimable time j' = true → jb_id j' ∉ held → (∃ k, t !! k = Some j') → due_order j j'.
Proof.
  intros Hd j' Hc Hh Hk.
  assert (StronglySorted due_order (j :: js)) as Hs by (rewrite <- Hd; by apply (StronglySorted_merge_sort due_order)).
  assert (j' ∈ j :: js) as Hin by (rewrite <- Hd; by apply elem_of_due).
  apply StronglySorted_inv in Hs as [_ Hj]. apply elem_of_cons in Hin as [->|Hin].
  - by destruct (due_order_total j j).
  - rewrite Forall_forall in Hj. by apply Hj.
Qed.

(** ** The table *)

Definition same_key (j j' : JobRow) : Prop :=
  job_live j = true ∧ job_live j' = true ∧ jb_idempotency_key j ≠ None
  ∧ jb_kind j' = jb_kind j ∧ jb_idempotency_key j' = jb_idempotency_key j.
Record jobs_ok (d : Db) : Prop := {
  job_rows_ok : rows_ok jb_id job_checks (jobs d);
  keys_unique : no_clash same_key (jobs d)
}.
#[export] Instance jobs_ok_ignores_log : IgnoresLog jobs_ok.
Proof. intros l d []. by constructor. Qed.

Lemma job_at d k j : jobs_ok d → jobs d !! k = Some j → jb_id j = k.
Proof. intros [Hr _]. by apply rows_ok_key with (checks := job_checks). Qed.

Lemma key_free t j k j' :
  key_taken t j = false → t !! k = Some j' → jb_id j' ≠ jb_id j → ¬ same_key j j'.
Proof.
  unfold key_taken, same_key. intros Hf Hj Hne (Hl & Hl' & Hn & Hk & Hi).
  rewrite Hl, bool_decide_true in Hf by done. cbn in Hf.
  apply (existsb_rows _ _ Hf) in Hj. cbn in Hj. by rewrite !bool_decide_true, Hl' in Hj.
Qed.

Lemma same_key_sym j j' : same_key j j' → same_key j' j.
Proof. unfold same_key. intuition congruence. Qed.

(** Writing over a row with its identifier, kind and key. *)
Definition rekeyed (j j' : JobRow) : Prop :=
  jb_id j' = jb_id j ∧ jb_kind j' = jb_kind j ∧ jb_idempotency_key j' = jb_idempotency_key j.

Lemma jobs_ok_insert d k j' :
  jobs_ok d → jb_id j' = k → violated (job_checks j') = None → key_taken (jobs d) j' = false →
  jobs_ok (with_jobs (<[k := j']> (jobs d)) d).
Proof.
  intros [Hr Hu] <- Hc Hf. constructor; cbn; [by apply rows_ok_insert|].
  eapply no_clash_insert; [exact Hr|exact Hu|apply same_key_sym| |intros ?; apply same_key_sym].
  intros k j Hj Hne. by eapply key_free.
Qed.

Lemma job_checks_spec j :
  violated (job_checks j) = None ↔
  (0 ≤ jb_attempts j ≤ jb_max_attempts j ∧ 1 ≤ jb_max_attempts j ≤ 1000)%Z.
Proof.
  unfold job_checks, int4, INT4_MAX. rewrite !violated_cons. cbn.
  rewrite andb_true_iff, !bool_decide_eq_true. split; [tauto|]. intros [? ?]. split_and!; [lia..|done].
Qed.

Lemma update_job_run k f j s :
  jobs_ok (db s) → jobs (db s) !! k = Some j → rekeyed j (f j) →
  (job_live (f j) = true → job_live j = true ∨ jb_idempotency_key j = None) →
  violated (job_checks (f j)) = None →
  let s' := with_db (with_jobs (<[k := f j]> (jobs (db s))) (db s)) s in
  update_job k f s = (Ok tt, s') ∧ jobs_ok (db s').
Proof.
  intros Hok Hj (Hid & Hkind & Hkey) Hlive Hc s'.
  assert (key_taken (jobs (db s)) (f j) = false) as Hfree.
  { unfold key_taken. destruct (job_live (f j)) eqn:Hl; [|done].
    destruct (bool_decide (jb_idempotency_key (f j) ≠ None)) eqn:Hn; [|done]. cbn.
    apply not_true_iff_false. intros (j' & Hj' & Ht)%existsb_exists.
    apply list_elem_of_In, elem_of_rows in Hj' as (k' & Hj').
    rewrite !andb_true_iff, !bool_decide_eq_true in Ht. destruct Ht as [[[Hne Hl'] Hk] Hi].
    apply bool_decide_eq_true in Hn.
    assert (job_live j = true) as Hlj by (destruct (Hlive eq_refl); [done|congruence]).
    assert (k = k') as <-.
    { eapply (keys_unique _ Hok); [exact Hj|exact Hj'|]. unfold same_key. intuition congruence. }
    assert (j' = j) as -> by congruence. by rewrite Hid in Hne. }
  split.
  - unfold update_job. rewrite (bind_return _ _ s (jobs (db s)) s) by done. rewrite Hj.
    rewrite (bind_return _ _ s tt s); [done|]. apply guard_row_ok. split_and!; [done| |done].
    by rewrite Hfree.
  - apply jobs_ok_insert; [done| |done|done]. rewrite Hid. by eapply job_at.
Qed.

Section claims.
Context (leaseMs : Z) (runnerId : string).

Lemma claimed_checks time j :
  violated (job_checks j) = None →
  violated (job_checks (claimed leaseMs runnerId time j)) =
    if bool_decide (jb_attempts j < jb_max_attempts j)%Z then None else Some "jobs_attempts_bounded".
Proof.
  rewrite job_checks_spec. intros [Ha Hm]. case_bool_decide as Hlt.
  - apply job_checks_spec. cbn. lia.
  - unfold job_checks, violated, int4, INT4_MAX. cbn.
    rewrite (bool_decide_true (_ ≤ jb_attempts j + 1 ≤ _)%Z) by lia.
    rewrite (bool_decide_true (_ ≤ jb_max_attempts j ≤ 2147483647)%Z) by lia.
    rewrite (bool_decide_false (0 ≤ jb_attempts j + 1 ≤ _)%Z) by lia. done.
Qed.

Lemma claimable_live time j : claimable time j = true → job_live j = true.
Proof.
  unfold claimable, job_live. rewrite orb_true_iff, !andb_true_iff, !bool_decide_eq_true.
  intros [[-> _]|[-> _]]; repeat constructor.
Qed.

Lemma with_db_same s : with_db (db s) s = s.
Proof. by destruct s. Qed.

Lemma claim_none held s :
  due held (clock s) (jobs (db s)) = [] → claim leaseMs runnerId held s = (Ok None, s).
Proof.
  intros Hd. unfold claim, inTransaction.
  rewrite (bind_return _ _ s (clock s) s) by done.
  rewrite (bind_return _ _ s _ s) by reflexivity. by rewrite Hd.
Qed.

(** The row after a claim, and the state. *)
Definition taken_row (s : St) (j : JobRow) : JobRow := claimed leaseMs runnerId (clock s) j.
Definition after_claim (s : St) (j : JobRow) : St :=
  with_db (with_jobs (<[jb_id j := taken_row s j]> (jobs (db s))) (db s)) s.

Lemma claim_some held s j js :
  jobs_ok (db s) → due held (clock s) (jobs (db s)) = j :: js →
  jobs (db s) !! jb_id j = Some j ∧
  if bool_decide (jb_attempts j < jb_max_attempts j)%Z
  then claim leaseMs runnerId held s = (Ok (Some (toRecord (taken_row s j))), after_claim s j)
       ∧ jobs_ok (db (after_claim s j))
  else claim leaseMs runnerId held s = (Err (CheckViolation "jobs_attempts_bounded"), s).
Proof.
  intros Hok Hd.
  assert (j ∈ due held (clock s) (jobs (db s))) as Hin by (rewrite Hd; constructor).
  apply elem_of_due in Hin as (Hc & Hh & k & Hk).
  assert (jobs (db s) !! jb_id j = Some j) as Hj by (by rewrite (job_at _ _ _ Hok Hk)).
  assert (violated (job_checks j) = None) as Hv by apply (job_rows_ok _ Hok _ _ Hk).
  split; [done|]. pose proof (claimed_checks (clock s) j Hv) as Hcc.
  assert (claim leaseMs runnerId held s = inTransaction (
    update_job (jb_id j) (claimed leaseMs runnerId (clock s)) ;;
    mret (Some (toRecord (taken_row s j)))) s) as ->.
  { unfold claim, inTransaction. rewrite (bind_return _ _ s (clock s) s) by done.
    rewrite (bind_return _ _ s _ s) by reflexivity. by rewrite Hd. }
  unfold inTransaction. case_bool_decide as Hlt.
  - destruct (update_job_run (jb_id j) (claimed leaseMs runnerId (clock s)) j s) as [Hrun Hok'];
      [done..| |by apply claimable_live in Hc; left|done|].
    { by split_and!. }
    by rewrite (bind_return _ _ s tt _ Hrun).
  - rewrite (bind_throw _ _ s (CheckViolation "jobs_attempts_bounded") s).
    + by rewrite with_db_same.
    + unfold update_job. rewrite (bind_return _ _ s (jobs (db s)) s) by done. rewrite Hj.
      apply bind_throw. unfold guard_row. by rewrite Hcc.
Qed.
End claims.

(** ** The record of an outcome *)

Section outcomes.
Context `{Entropy}.

Lemma outcome_run n id f j type org project payload s :
  jobs_ok (db s) → jobs (db s) !! id = Some j → rekeyed j (f j) →
  (job_live (f j) = true → job_live j = true ∨ jb_idempotency_key j = None) →
  violated (job_checks (f j)) = None → fresh_draws (S n) s → assertPayloadCarriesNoSecret (JObj payload) "payload" 0 = Ok tt →
  ∃ s', inTransaction (update_job id f ;;
          append_job (job_event type id org project payload)) s = (Ok tt, s') ∧
    jobs (db s') = <[id := f j]> (jobs (db s)) ∧ jobs_ok (db s') ∧ clock s' = clock s ∧
    fresh_draws n s'.
Proof.
  intros Hok Hj Hk Hl Hv Hfresh Hp.
  destruct (update_job_run id f j s Hok Hj Hk Hl Hv) as [Hrun Hok1].
  set (s1 := with_db (with_jobs (<[id := f j]> (jobs (db s))) (db s)) s) in *.
  destruct (record_forward n (job_event type id org project payload) s1 Hfresh Hp eq_refl)
    as (s' & Ha & Hdb & Hclock & Hfresh').
  exists s'. unfold inTransaction. rewrite (bind_return _ _ s tt s1 Hrun). unfold append_job.
  rewrite Ha. split_and!; [done|by rewrite Hdb| |done|done].
  rewrite Hdb. by apply jobs_ok_ignores_log.
Qed.

Lemma succeed_run n j ms s :
  jobs_ok (db s) → jobs (db s) !! jb_id j = Some j → job_live j = true → fresh_draws (S n) s →
  ∃ s', succeed (toRecord j) ms s = (Ok tt, s') ∧
    jobs (db s') = <[jb_id j := completed (clock s) j]> (jobs (db s)) ∧ jobs_ok (db s') ∧
    clock s' = clock s ∧ fresh_draws n s'.
Proof.
  intros Hok Hj Hl Hfresh. unfold succeed.
  assert (violated (job_checks j) = None) as Hv by apply (job_rows_ok _ Hok _ _ Hj).
  destruct (outcome_run n (jb_id j) (completed (clock s)) j "job.succeeded" (jb_organisation_id j)
    (jb_project_id j) [("job_id", JStr (jb_id j)); ("kind", JStr (jb_kind j));
       ("attempts", JNum (jb_attempts j)); ("duration_ms", JNum (Z.min ms 86400000))] s)
    as (s' & Hrun & Hrest); [done..|by split_and!|by left| |done|by vm_compute|].
  { by apply job_checks_spec in Hv; apply job_checks_spec. }
  exists s'. split; [|done]. revert Hrun. unfold inTransaction. cbv zeta.
  rewrite (bind_return now _ s (clock s) s) by done. done.
Qed.

Lemma fail_run n job reason detail j s :
  jobs_ok (db s) → jobs (db s) !! jr_id job = Some j →
  (job_live j = true ∨ jb_idempotency_key j = None) → fresh_draws (S n) s →
  ∃ s', fail job reason detail s = (Ok tt, s') ∧
    jobs (db s') = <[jr_id job := failed (clock s) job detail j]> (jobs (db s)) ∧
    jobs_ok (db s') ∧ clock s' = clock s ∧ fresh_draws n s'.
Proof.
  intros Hok Hj Hl Hfresh. unfold fail.
  rewrite (bind_return now _ s (clock s) s) by done. cbv zeta.
  assert (violated (job_checks j) = None) as Hv by apply (job_rows_ok _ Hok _ _ Hj).
  apply outcome_run with (f := failed (clock s) job detail) (j := j); [done..| |done| |done|].
  - unfold failed. by destruct (exhausted _).
  - apply job_checks_spec in Hv. apply job_checks_spec. unfold failed. by destruct (exhausted _).
  - destruct (exhausted job), reason; by vm_compute.
Qed.
End outcomes.

(** ** Polling *)

(** What a failed or a successful attempt makes of the row it claimed. *)
Definition settled (time : Z) (j j' : JobRow) : Prop :=
  jb_id j' = jb_id j ∧ jb_attempts j' = (jb_attempts j + 1)%Z
  ∧ jb_max_attempts j' = jb_max_attempts j
  ∧ (jb_status j' = j_succeeded
     ∨ jb_status j' = j_failed ∧ jb_attempts j' = jb_max_attempts j'
     ∨ jb_status j' = j_pending ∧ (jb_attempts j' < jb_max_attempts j')%Z
       ∧ (jb_run_after j' ≤ time + BACKOFF_MAX_MS)%Z).

(** A job that has not ended can be claimed within the longest backoff, and has
    an attempt left. *)
Definition claimable_soon (s : St) : Prop :=
  ∀ k j, jobs (db s) !! k = Some j → job_live j = true →
    claimable (clock s + BACKOFF_MAX_MS) j = true ∧ (jb_attempts j < jb_max_attempts j)%Z.

(** The attempts that remain. *)
Definition attempts_left (j : JobRow) : nat :=
  if job_live j then Z.to_nat (jb_max_attempts j - jb_attempts j) else 0.
Definition work_left (t : gmap string JobRow) : nat := sum_list_with attempts_left (rows t).

Section polling.
Context `{Entropy} (leaseMs attemptTimeoutMs : Z) (runnerId : string)
  (handlers : string → option Handler) (message : Failure → string) (overran : JobRecord → bool).

(** The handlers leave the queue to the runner and draw at most [draws]
    identifiers each. *)
Definition modest (draws : nat) (m : M unit) : Prop := ∀ s,
  let s' := snd (inTransaction m s) in
  jobs (db s') = jobs (db s) ∧ (clock s ≤ clock s')%Z
  ∧ ∀ n, fresh_draws (draws + n) s → fresh_draws n s'.

(** A poll after the longest backoff. *)
Definition later (ms : Z) (s : St) : St :=
  {| db := db s; drawn := drawn s; clock := clock s + ms; denied := denied s |}.
Definition run_job (held : list string) : M bool :=
  claimAndRun leaseMs attemptTimeoutMs runnerId handlers message overran held.
Definition poll : M bool := λ s, run_job [] (later BACKOFF_MAX_MS s).
Fixpoint polls (n : nat) : M unit :=
  match n with O => mret tt | S n' => poll ;; polls n' end.

Lemma fresh_fewer m n s : fresh_draws (m + n) s → fresh_draws n s.
Proof.
  intros (ids & Hl & Hnd & Hids). exists (take n ids). split_and!.
  - rewrite length_take. lia.
  - rewrite <- (take_drop n ids) in Hnd. rewrite <- app_assoc in Hnd.
    apply NoDup_app in Hnd as (H1 & H2 & H3). apply NoDup_app in H3 as (_ & _ & H3).
    apply NoDup_app. split_and!; [done| |done]. intros x Hx Hin. apply (H2 x Hx).
    apply elem_of_app. by right.
  - intros i id Hi. apply Hids. by apply lookup_take_Some in Hi as [? _].
Qed.

(** A claimed job is run to an outcome. *)
Lemma failed_settled j time detail :
  violated (job_checks (claimed leaseMs runnerId time j)) = None → ∀ time',
  settled time' j (failed time' (toRecord (claimed leaseMs runnerId time j)) detail
                          (claimed leaseMs runnerId time j)).
Proof.
  rewrite job_checks_spec. cbn. intros [Ha Hm] time'. unfold settled, failed, exhausted. cbn.
  case_bool_decide as Hex; cbn; split_and!; try done; right.
  - left. split; [done|lia].
  - right. split_and!; [done|lia|]. unfold backoff. lia.
Qed.

Lemma run_job_claimed n draws j js s :
  (∀ kind h job, handlers kind = Some h → modest draws (h job)) →
  jobs_ok (db s) → due [] (clock s) (jobs (db s)) = j :: js →
  (jb_attempts j < jb_max_attempts j)%Z → fresh_draws (draws + S n) s →
  ∃ s' j', run_job [] s = (Ok true, s') ∧ jobs (db s) !! jb_id j = Some j ∧
    jobs (db s') = <[jb_id j := j']> (jobs (db s)) ∧ settled (clock s') j j' ∧
    jobs_ok (db s') ∧ (clock s ≤ clock s')%Z ∧ fresh_draws n s'.
Proof.
  intros Hmodest Hok Hd Hlt Hfresh.
  destruct (claim_some leaseMs runnerId [] s j js Hok Hd) as [Hj Hclaim].
  rewrite bool_decide_true in Hclaim by done. destruct Hclaim as [Hclaim Hok1].
  set (s1 := after_claim leaseMs runnerId s j) in *.
  set (c := taken_row leaseMs runnerId s j) in *.
  assert (jobs (db s1) !! jb_id c = Some c) as Hc by apply lookup_insert_eq.
  assert (violated (job_checks c) = None) as Hv by apply (job_rows_ok _ Hok1 _ _ Hc).
  assert (∀ reason detail s2, jobs (db s2) = jobs (db s1) → jobs_ok (db s2) →
    (clock s ≤ clock s2)%Z → fresh_draws (S n) s2 →
    ∃ s' j', (fail (toRecord c) reason detail ;; mret true) s2 = (Ok true, s') ∧
      jobs (db s) !! jb_id j = Some j ∧ jobs (db s') = <[jb_id j := j']> (jobs (db s)) ∧
      settled (clock s') j j' ∧ jobs_ok (db s') ∧ (clock s ≤ clock s')%Z ∧ fresh_draws n s') as Hfail.
  { intros reason detail s2 Hs2 Hok2 Hcl Hf2.
    assert (jobs (db s2) !! jb_id c = Some c) as Hc2 by (by rewrite Hs2).
    destruct (fail_run n (toRecord c) reason detail c s2 Hok2 Hc2 (or_introl eq_refl) Hf2) as (s' & Hrun & Hjobs & Hok' & Ht & Hf').
    exists s', (failed (clock s2) (toRecord c) detail c).
    rewrite (bind_return _ _ s2 tt s' Hrun), Hjobs, Hs2, Ht. split_and!; try done.
    - apply insert_insert_eq.
    - by apply failed_settled. }
  unfold run_job, claimAndRun. rewrite (bind_return _ _ s _ s1 Hclaim). cbv beta iota.
  destruct (handlers (jr_kind (toRecord c))) as [h|] eqn:Hh.
  2:{ apply Hfail; [done..|]. by apply fresh_fewer with draws. }
  rewrite (bind_return now _ s1 (clock s1) s1) by done. unfold attempt.
  destruct (overran (toRecord c)).
  { rewrite (bind_return _ _ s1 _ s1) by reflexivity. apply Hfail; [done..|].
    by apply fresh_fewer with draws. }
  destruct (Hmodest _ _ (toRecord c) Hh s1) as (Hs2 & Hcl & Hf2).
  set (s2 := (inTransaction (h (toRecord c)) s1).2) in *.
  assert (jobs_ok (db s2)) as Hok2 by (destruct Hok1; by constructor; rewrite Hs2).
  destruct (inTransaction (h (toRecord c)) s1) as [[u|e] s2'] eqn:Hrun; cbn in s2; subst s2.
  - rewrite (bind_return _ _ s1 None s2')
      by (unfold catching; by rewrite (bind_return _ _ s1 u s2' Hrun)).
    rewrite (bind_return now _ s2' (clock s2') s2') by done. cbn in Hs2, Hcl, Hf2, Hok2.
    assert (jobs (db s2') !! jb_id c = Some c) as Hc2 by (by rewrite Hs2).
    destruct (succeed_run n c (clock s2' - clock s1) s2' Hok2 Hc2 eq_refl) as (s' & Hr & Hjobs & Hok' & Ht & Hf').
    { apply Hf2. by rewrite Nat.add_succ_r in Hfresh |- *. }
    exists s', (completed (clock s2') c). rewrite (bind_return _ _ s2' tt s' Hr), Hjobs, Hs2, Ht.
    split_and!; try done.
    + apply insert_insert_eq.
    + split_and!; try done. by left.
  - rewrite (bind_return _ _ s1 (Some (handler_error, message e)) s2')
      by (unfold catching; by rewrite (bind_throw _ _ s1 e s2' Hrun)).
    apply Hfail; try done. by apply Hf2.
Qed.

(** ** Every job ends *)

Lemma work_left_insert t k j j' :
  t !! k = Some j → work_left (<[k := j']> t) + attempts_left j = work_left t + attempts_left j'.
Proof.
  intros Hj. rewrite <- (insert_delete_id t k j Hj) at 2.
  rewrite <- (insert_delete_eq t k j'). unfold work_left, rows.
  rewrite !map_to_list_insert by apply lookup_delete_eq. cbn. lia.
Qed.

Lemma none_left l : (∀ j, j ∈ l → attempts_left j = 0) → sum_list_with attempts_left l = 0.
Proof.
  induction l as [|j l IH]; intros Hl; [done|]. cbn. rewrite (Hl j) by constructor.
  apply IH. intros j' Hj'. apply Hl. by constructor.
Qed.

Lemma claimable_later time time' j :
  claimable time j = true → (time ≤ time')%Z → claimable time' j = true.
Proof.
  unfold claimable. rewrite !orb_true_iff, !andb_true_iff, !bool_decide_eq_true.
  intros [[? ?]|[? Hl]] ?; [left; split; [done|lia]|right; split; [done|]].
  destruct (jb_locked_until j); [|done]. apply bool_decide_eq_true in Hl.
  apply bool_decide_eq_true. lia.
Qed.

Definition ended (j : JobRow) : Prop :=
  jb_status j = j_succeeded ∨ jb_status j = j_failed ∧ jb_attempts j = jb_max_attempts j.
Definition goes_on (t t' : gmap string JobRow) : Prop := ∀ k j, t !! k = Some j →
  ∃ j', t' !! k = Some j' ∧ (job_live j = false → j' = j)
    ∧ (job_live j = true → job_live j' = true ∨ ended j').

Lemma ended_not_live j : ended j → job_live j = false.
Proof. unfold ended, job_live. by intros [-> | [-> _]]. Qed.

Lemma goes_on_refl t : goes_on t t.
Proof. intros k j Hj. exists j. split_and!; auto. Qed.
Lemma goes_on_trans t t1 t' : goes_on t t1 → goes_on t1 t' → goes_on t t'.
Proof.
  intros H1 H2 k j Hj. destruct (H1 k j Hj) as (j1 & Hj1 & Hn1 & Hl1).
  destruct (H2 k j1 Hj1) as (j' & Hj' & Hn2 & Hl2). exists j'. split_and!; [done|..].
  - intros Hl. specialize (Hn1 Hl). subst j1. by apply Hn2.
  - intros Hl. destruct (Hl1 Hl) as [Hl'|He]; [by apply Hl2|].
    rewrite (Hn2 (ended_not_live _ He)). by right.
Qed.

Lemma live_status j :
  job_live j = match jb_status j with j_pending | j_running => true | _ => false end.
Proof. unfold job_live. by destruct (jb_status j). Qed.

Lemma settled_next time j j' :
  job_live j = true → (jb_attempts j < jb_max_attempts j)%Z → settled time j j' →
  attempts_left j' < attempts_left j ∧ (job_live j' = true ∨ ended j')
  ∧ (job_live j' = true → claimable (time + BACKOFF_MAX_MS) j' = true
                          ∧ (jb_attempts j' < jb_max_attempts j')%Z).
Proof.
  intros Hl Hlt (_ & Ha & Hm & Hs). unfold attempts_left at 2. rewrite Hl.
  unfold attempts_left, ended, claimable. rewrite (live_status j').
  destruct Hs as [->|[[-> Hs]|(-> & Hlt' & Hr)]]; cbn.
  - split_and!; [lia|by right; left|done].
  - split_and!; [lia|by right; right|done].
  - split_and!; [lia|by left|]. intros _. by rewrite (bool_decide_true (_ ≤ _)%Z).
Qed.

Lemma poll_step n draws s :
  (∀ kind h job, handlers kind = Some h → modest draws (h job)) →
  jobs_ok (db s) → claimable_soon s → fresh_draws (S draws + n) s →
  ∃ s' b, poll s = (Ok b, s') ∧ jobs_ok (db s') ∧ claimable_soon s' ∧ fresh_draws n s' ∧
    goes_on (jobs (db s)) (jobs (db s')) ∧
    (work_left (jobs (db s')) < work_left (jobs (db s))
     ∨ work_left (jobs (db s)) = 0 ∧ jobs (db s') = jobs (db s)).
Proof.
  intros Hmodest Hok Hsoon Hfresh. set (s0 := later BACKOFF_MAX_MS s).
  destruct (due [] (clock s0) (jobs (db s0))) as [|j js] eqn:Hd.
  - exists s0, false. split_and!; [|done| |by apply fresh_fewer with (S draws)|apply goes_on_refl|].
    + unfold poll, run_job, claimAndRun. by rewrite (bind_return _ _ _ _ _ (claim_none _ _ _ _ Hd)).
    + intros k j Hj Hl. destruct (Hsoon k j Hj Hl) as [Hc ?]. split; [|done].
      eapply claimable_later; [exact Hc|]. unfold s0. cbn. unfold BACKOFF_MAX_MS. lia.
    + right. split; [|done]. unfold work_left. apply none_left. intros j [k Hj]%elem_of_rows. unfold attempts_left. destruct (job_live j) eqn:Hl; [|done].
      exfalso. destruct (Hsoon k j Hj Hl) as [Hc _]. apply (not_elem_of_nil j). rewrite <- Hd.
      apply elem_of_due. split_and!; [done|apply not_elem_of_nil|by exists k].
  - assert (j ∈ due [] (clock s0) (jobs (db s0))) as Hin by (rewrite Hd; constructor).
    apply elem_of_due in Hin as (Hc & _ & k & Hk). pose proof (claimable_live _ _ Hc) as Hl.
    destruct (Hsoon k j Hk Hl) as [_ Hlt].
    destruct (run_job_claimed n draws j js s0 Hmodest Hok Hd Hlt) as
      (s' & j' & Hrun & Hj & Hjobs & Hset & Hok' & Ht & Hf').
    { by rewrite Nat.add_succ_r. }
    change (jobs (db s) !! jb_id j = Some j) in Hj.
    destruct (settled_next _ _ _ Hl Hlt Hset) as (Hless & Hgoes & Hnext).
    exists s', true. split_and!; try done.
    + intros k1 j1 Hj1 Hl1. rewrite Hjobs in Hj1.
      apply lookup_insert_Some in Hj1 as [[<- <-]|[_ Hj1]]; [by apply Hnext|].
      destruct (Hsoon k1 j1 Hj1 Hl1) as [Hc1 ?]. split; [|done].
      eapply claimable_later; [exact Hc1|]. cbn in Ht. unfold BACKOFF_MAX_MS in *. lia.
    + intros k1 j1 Hj1. rewrite Hjobs. destruct (decide (jb_id j = k1)) as [<-|Hne].
      * exists j'. rewrite lookup_insert_eq. assert (j1 = j) as -> by congruence.
        split_and!; [done|congruence|done].
      * exists j1. rewrite lookup_insert_ne by done. split_and!; auto.
    + left. rewrite Hjobs. pose proof (work_left_insert _ _ _ j' Hj). cbn in *. lia.
Qed.

Lemma polls_run m draws s :
  (∀ kind h job, handlers kind = Some h → modest draws (h job)) →
  jobs_ok (db s) → claimable_soon s → fresh_draws (m * S draws) s →
  work_left (jobs (db s)) ≤ m →
  ∃ s', polls m s = (Ok tt, s') ∧ work_left (jobs (db s')) = 0 ∧ claimable_soon s'
    ∧ goes_on (jobs (db s)) (jobs (db s')).
Proof.
  intros Hmodest. revert s. induction m as [|m IH]; intros s Hok Hsoon Hfresh Hw.
  - exists s. split_and!; [done|lia|done|apply goes_on_refl].
  - destruct (poll_step (m * S draws) draws s Hmodest Hok Hsoon Hfresh)
      as (s1 & b & Hrun & Hok1 & Hsoon1 & Hf1 & Hgo & Hwork).
    destruct (IH s1 Hok1 Hsoon1 Hf1) as (s' & Hrun' & Hw' & Hsoon' & Hgo').
    { destruct Hwork as [?|[? ->]]; lia. }
    exists s'. split_and!; [|done|done|by eapply goes_on_trans].
    cbn. by rewrite (bind_return _ _ s b s1 Hrun).
Qed.

End polling.

(** ** The claim *)

Lemma due_order_antisym a b : due_order a b → due_order b a → jb_id a = jb_id b.
Proof.
  intros [Hab|[Hab [?|[? Hi]]]] [Hba|[Hba [?|[? Hi']]]]; try lia. by apply String.leb_antisym.
Qed.

(** a claim takes the first due job, and only that.  Either every claimable
    row is held by another transaction and nothing happens, or the first of
    the others in the order of the query is leased to this runner with its
    attempt counted, every other row as it was; or, when that first row has no
    attempt left, the table's check refuses the statement and the claim throws
    with nothing changed.  A leased row is not claimable before its lease
    expires. *)
Theorem claim_decision leaseMs runnerId held s :
  jobs_ok (db s) →
  ((∀ k j, jobs (db s) !! k = Some j → claimable (clock s) j = true → jb_id j ∈ held)
   ∧ claim leaseMs runnerId held s = (Ok None, s))
  ∨ ∃ j, jobs (db s) !! jb_id j = Some j ∧ claimable (clock s) j = true ∧ jb_id j ∉ held
      ∧ (∀ k j', jobs (db s) !! k = Some j' → claimable (clock s) j' = true → jb_id j' ∉ held →
           due_order j j')
      ∧ (((jb_attempts j < jb_max_attempts j)%Z ∧
          let j' := claimed leaseMs runnerId (clock s) j in
          let d' := with_jobs (<[jb_id j := j']> (jobs (db s))) (db s) in
          claim leaseMs runnerId held s = (Ok (Some (toRecord j')), with_db d' s) ∧ jobs_ok d'
          ∧ ∀ t, (t ≤ clock s + leaseMs)%Z → claimable t j' = false)
         ∨ jb_attempts j = jb_max_attempts j
           ∧ claim leaseMs runnerId held s = (Err (CheckViolation "jobs_attempts_bounded"), s)).
Proof.
  intros Hok. destruct (due held (clock s) (jobs (db s))) as [|j js] eqn:Hd.
  - left. split; [|by apply claim_none]. intros k j Hj Hc. apply dec_stable. intros Hh.
    apply (not_elem_of_nil j). rewrite <- Hd. apply elem_of_due. eauto.
  - right. exists j. assert (j ∈ due held (clock s) (jobs (db s))) as Hin by (rewrite Hd; constructor).
    apply elem_of_due in Hin as (Hc & Hh & k & Hk).
    destruct (claim_some leaseMs runnerId held s j js Hok Hd) as [Hj Hclaim].
    split_and!; [done..| |].
    + intros k' j' Hj' Hc' Hh'. eapply due_first; eauto.
    + case_bool_decide as Hlt; [left|right].
      * split; [done|]. destruct Hclaim as [Hrun Hok']. split_and!; [exact Hrun|exact Hok'|].
        intros t Ht. unfold claimable, claimed. cbn. apply bool_decide_false. lia.
      * split; [|done]. pose proof (proj2 (job_rows_ok _ Hok _ _ Hk)) as Hv.
        apply job_checks_spec in Hv. lia.
Qed.

(** a runner that vanishes during a job's last attempt stops the queue.  Once
    the lease of a running job with no attempt left has expired and every
    other job comes after it, each later poll of a runner that is not passing
    over its row throws and changes nothing, however long one waits: the jobs
    behind it are not run. *)
Theorem lost_last_attempt_stops_the_queue `{Entropy} leaseMs attemptTimeoutMs runnerId handlers
    message overran held j l s :
  jobs_ok (db s) → jobs (db s) !! jb_id j = Some j → jb_status j = j_running →
  jb_attempts j = jb_max_attempts j → jb_locked_until j = Some l → (l < clock s)%Z →
  jb_id j ∉ held →
  (∀ k j', jobs (db s) !! k = Some j' → job_live j' = true → due_order j j') →
  ∀ ms, (0 ≤ ms)%Z →
    run_job leaseMs attemptTimeoutMs runnerId handlers message overran held (later ms s)
    = (Err (CheckViolation "jobs_attempts_bounded"), later ms s).
Proof.
  intros Hok Hj Hrunning Hspent Hl Hexp Hh Hfirst ms Hms. set (s1 := later ms s).
  assert (claimable (clock s1) j = true) as Hc.
  { unfold claimable. rewrite Hrunning, Hl. cbn. apply bool_decide_true. lia. }
  destruct (due held (clock s1) (jobs (db s1))) as [|j0 js] eqn:Hd.
  { exfalso. apply (not_elem_of_nil j). rewrite <- Hd. apply elem_of_due. eauto. }
  destruct (claim_some leaseMs runnerId held s1 j0 js Hok Hd) as [Hj0 Hclaim].
  assert (j0 = j) as ->.
  { assert (j0 ∈ due held (clock s1) (jobs (db s1))) as Hin by (rewrite Hd; constructor).
    apply elem_of_due in Hin as (Hc0 & _ & k0 & Hk0). apply claimable_live in Hc0.
    assert (jb_id j0 = jb_id j) as Hid.
    { apply due_order_antisym; [eapply due_first; eauto|by eapply Hfirst]. }
    rewrite Hid in Hj0. change (jobs (db s1)) with (jobs (db s)) in Hj0. congruence. }
  rewrite bool_decide_false in Hclaim by lia.
  unfold run_job, claimAndRun. by rewrite (bind_throw _ _ _ _ _ Hclaim).
Qed.

(** A failure reported late undoes a success: a runner that lost its lease during
    an attempt that was not the last records the failure of that attempt
    whatever has become of the job.  One that another runner has completed in
    the meantime is pending again, with no time of completion, and is run again
    when the backoff has passed. *)
Lemma late_failure_reruns_a_finished_job `{Entropy} n leaseMs runnerId time j reason detail s :
  let taken := claimed leaseMs runnerId time j in
  let job := toRecord taken in
  jobs_ok (db s) → jb_idempotency_key j = None → (jr_attempts job < jr_maxAttempts job)%Z →
  (time < clock s)%Z → jobs (db s) !! jr_id job = Some (completed (clock s) taken) →
  fresh_draws (S n) s →
  ∃ s' j', fail job reason detail s = (Ok tt, s') ∧ jobs (db s') !! jr_id job = Some j' ∧
    jb_completed_at j' = None ∧ jb_status j' = j_pending ∧
    claimable (clock s' + backoff job) j' = true.
Proof.
  intros taken job Hok Hkey Hlt Htime Hj Hfresh.
  assert (violated (job_checks (completed (clock s) taken)) = None) as Hv
    by apply (job_rows_ok _ Hok _ _ Hj).
  assert (exhausted job = false) as Hex by (apply bool_decide_false; lia).
  destruct (fail_run n job reason detail (completed (clock s) taken) s)
    as (s' & Hrun & Hjobs & _ & Ht & _); [done..|by right|done|].
  exists s', (failed (clock s) job detail (completed (clock s) taken)).
  rewrite Hjobs, lookup_insert_eq, Ht. unfold failed. rewrite Hex.
  split_and!; [done..|]. unfold claimable. cbn. by rewrite (bool_decide_true (_ ≤ _)%Z).
Qed.

(** ** A queue *)

Definition boom : string → option Handler := λ kind,
  if bool_decide (kind = "review_export") then Some (λ _, throwM (PlainError "boom")) else None.
Definition export_job (runAfter maxAttempts : option Z) : EnqueueJobInput :=
  {| ej_organisationId := "org_1"; ej_projectId := Some "prj_1"; ej_kind := review_export;
     ej_payload := None; ej_runAfter := runAfter; ej_maxAttempts := maxAttempts;
     ej_idempotencyKey := None |}.
Definition queued : St :=
  left_at (enqueueJob (export_job None (Some 2%Z)) ;; enqueueJob (export_job (Some 5000%Z) None)) start.

Lemma insert_job_ok j : preserves jobs_ok (insert_job j).
Proof.
  intros s r s' Hr Hok. unfold insert_job in Hr. cbn in Hr.
  destruct (guard_row (job_checks j) [] s) as [[u|e] s1] eqn:Hg.
  - apply guard_row_ok in Hg as (Hv & _ & ->). unfold mbind, M_bind, gets in Hr. cbn in Hr.
    revert Hr. unfold guard_row. rewrite Hv. cbn.
    destruct (is_fresh _ _ && _) eqn:Hf; intros [= <- <-]; [|done].
    apply andb_true_iff in Hf as [_ Hk%negb_true_iff]. by apply jobs_ok_insert.
  - unfold mbind, M_bind, gets in Hr. cbn in Hr. rewrite Hg in Hr. injection Hr as _ <-.
    by apply (preserves_guard_row jobs_ok (job_checks j) [] s _ _ Hg).
Qed.
Lemma enqueueJob_ok `{Entropy} input : preserves jobs_ok (enqueueJob input).
Proof.
  unfold enqueueJob. apply preserves_bind.
  { intros s r s' Hr Hok. unfold newJobId in Hr. by destruct (newEntityId _ _); injection Hr as _ <-. }
  intros id. apply preserves_bind; [apply preserves_now|intros time].
  cbv zeta. apply preserves_bind; [apply insert_job_ok|intros [|]].
  - apply preserves_bind; [|intros; apply preserves_ret].
    unfold append_job. apply preserves_bind; [apply preserves_newId|]. intros e s r s' Hr Hok.
    unfold write_event in Hr. destruct (appendEvent _ _ _ _) as [l|[]]; injection Hr as _ <-; [|done..].
    by apply jobs_ok_ignores_log.
  - apply preserves_bind; [apply preserves_gets|intros; apply preserves_ret].
Qed.

(** New identifiers, by drawing them. *)
Definition drawn_id `{Entropy} (s : St) (i : nat) : string :=
  match newPrefixedId "evt_" (random_bytes (drawn s + i)) with Ok id => id | Err _ => "" end.
Definition draws_new `{Entropy} (n : nat) (s : St) : bool :=
  forallb (λ i, is_ok (newPrefixedId "evt_" (random_bytes (drawn s + i)))) (seq 0 n)
  && bool_decide (NoDup ((drawn_id s <$> seq 0 n) ++ event_ids s)).
Lemma draws_new_fresh `{Entropy} n s : draws_new n s = true → fresh_draws n s.
Proof.
  unfold draws_new. rewrite andb_true_iff, bool_decide_eq_true. intros [Hok Hnd].
  eexists. split_and!; [|exact Hnd|].
  - by rewrite length_fmap, length_seq.
  - intros i id Hi. apply list_lookup_fmap_Some in Hi as (x & -> & [-> Hlt]%lookup_seq). cbn.
    rewrite forallb_forall in Hok. specialize (Hok i ltac:(apply in_seq; lia)).
    unfold drawn_id. by destruct (newPrefixedId "evt_" (random_bytes (drawn s + i))).
Qed.

Lemma queued_ok : jobs_ok (db queued).
Proof.
  assert (jobs_ok (db start)) as Hstart.
  { constructor; [apply rows_ok_empty|apply no_clash_empty]. }
  unfold queued, left_at.
  destruct ((enqueueJob _ ;; enqueueJob _) start) as [r s'] eqn:Hr.
  eapply (preserves_bind jobs_ok); [apply enqueueJob_ok|intros; apply enqueueJob_ok|exact Hr|exact Hstart].
Qed.

Definition soon_check (s : St) : bool :=
  forallb (λ j, negb (job_live j) || claimable (clock s + BACKOFF_MAX_MS) j
                && bool_decide (jb_attempts j < jb_max_attempts j)%Z) (rows (jobs (db s))).
Lemma soon_check_ok s : soon_check s = true → claimable_soon s.
Proof.
  unfold soon_check. rewrite forallb_forall. intros Hc k j Hj Hl.
  assert (In j (rows (jobs (db s)))) as Hin by (apply list_elem_of_In, elem_of_rows; by exists k).
  specialize (Hc j Hin). cbn in Hc. rewrite Hl in Hc. cbn in Hc.
  apply andb_true_iff in Hc as [? Hlt]. by apply bool_decide_eq_true in Hlt.
Qed.

Lemma boom_modest kind h job : boom kind = Some h → modest 0 (h job).
Proof.
  unfold boom. case_bool_decide; intros [= <-]. intros s. cbn. rewrite with_db_same. done.
Qed.


Lemma claim_decision_witness :
  ((∀ k j, jobs (db queued) !! k = Some j → claimable (clock queued) j = true → jb_id j ∈ [])
   ∧ claim 60000 "job_r" [] queued = (Ok None, queued))
  ∨ ∃ j, jobs (db queued) !! jb_id j = Some j ∧ claimable (clock queued) j = true ∧ jb_id j ∉ []
      ∧ (∀ k j', jobs (db queued) !! k = Some j' → claimable (clock queued) j' = true →
           jb_id j' ∉ [] → due_order j j')
      ∧ (((jb_attempts j < jb_max_attempts j)%Z ∧
          let j' := claimed 60000 "job_r" (clock queued) j in
          let d' := with_jobs (<[jb_id j := j']> (jobs (db queued))) (db queued) in
          claim 60000 "job_r" [] queued = (Ok (Some (toRecord j')), with_db d' queued) ∧ jobs_ok d'
          ∧ ∀ t, (t ≤ clock queued + 60000)%Z → claimable t j' = false)
         ∨ jb_attempts j = jb_max_attempts j
           ∧ claim 60000 "job_r" [] queued = (Err (CheckViolation "jobs_attempts_bounded"), queued)).
Proof. apply (claim_decision 60000 "job_r" [] queued), queued_ok. Defined.

(** The first job fails once; its last attempt begins, the runner vanishes, and
    its lease expires. *)
Definition run_boom : M bool := run_job 60000 55000 "job_r" boom (λ _, "boom") (λ _, false) [].
Definition abandoned : St :=
  later 60001 (left_at (claim 60000 "job_s" []) (later 2000 (left_at run_boom queued))).
Definition some_job : JobRow := new_job "" 0 (export_job None None).
Definition spent_job : JobRow := hd some_job (select (λ j, bool_decide (jb_status j = j_running)) (jobs (db abandoned))).

Lemma jobs_ok_check d :
  bool_decide (map_Forall (λ k j, jb_id j = k ∧ violated (job_checks j) = None
    ∧ jb_idempotency_key j = None) (jobs d)) = true → jobs_ok d.
Proof.
  rewrite bool_decide_eq_true. intros Hd. constructor.
  - intros k j Hj. by destruct (Hd k j Hj) as (? & ? & _).
  - intros k k' j j' Hj _ (_ & _ & Hn & _). by destruct (Hd k j Hj) as (_ & _ & ?).
Qed.

Lemma first_check d j :
  forallb (λ j', negb (job_live j') || bool_decide (due_order j j')) (rows (jobs d)) = true →
  ∀ k j', jobs d !! k = Some j' → job_live j' = true → due_order j j'.
Proof.
  rewrite forallb_forall. intros Hc k j' Hj Hl.
  assert (In j' (rows (jobs d))) as Hin by (apply list_elem_of_In, elem_of_rows; by exists k).
  specialize (Hc j' Hin). cbn in Hc. rewrite Hl in Hc. by apply bool_decide_eq_true in Hc.
Qed.

(** A week later neither job has been run. *)
Lemma lost_last_attempt_stops_the_queue_witness :
  run_job 60000 55000 "job_r" boom (λ _, "boom") (λ _, false) [] (later 604800000 abandoned)
  = (Err (CheckViolation "jobs_attempts_bounded"), later 604800000 abandoned).
Proof.
  apply (lost_last_attempt_stops_the_queue 60000 55000 "job_r" boom (λ _, "boom") (λ _, false) []
    spent_job (default 0%Z (jb_locked_until spent_job)) abandoned).
  - apply jobs_ok_check. vm_compute. reflexivity.
  - vm_compute. reflexivity.
  - vm_compute. reflexivity.
  - vm_compute. reflexivity.
  - vm_compute. reflexivity.
  - vm_compute. reflexivity.
  - apply not_elem_of_nil.
  - apply first_check. vm_compute. reflexivity.
  - lia.
Defined.
