(* ===== verification/FindingTheorems.v ===== *)
(** * What holds of [updateFinding]: authority, concurrency, decisions, and the
    audit of refusals *)

From S2P Require Import Prelude Errors ReviewProtocol ReviewDomain Events Completion EntityId Geometry Store Records Inbox ReviewService FindingService VerificationService Preserve Invariants Samples Effects.

Section findings.
Context `{Entropy}.

Lemma updateFinding_run scope id input actor s f' s' :
  db_ok (db s) →
  updateFinding scope id input actor s = (Ok f', s') →
  ∃ f, finding_updated scope id input actor (db s) (clock s) f f' (db s').
Proof.
  unfold updateFinding. intros Hok Hr. apply bindM_ok in Hr as ([] & s1 & ->%set_denied_ok & Hr).
  apply catching_ok in Hr as [Hr%inTransaction_ok|(e & s1 & _ & Hr)].
  - by apply updateFinding_body_run in Hr.
  - apply bindM_ok in Hr as ([] & s2 & _ & Hr). by apply throwM_ok in Hr.
Qed.

Section run.
Context {scope : Scope} {id : string} {input : UpdateFindingInput} {actor : EventActor}
  {d : Db} {time : Z} {f f' : FindingRow} {d' : Db}.
Context (Hok : db_ok d) (Hu : finding_updated scope id input actor d time f f' d').

Lemma updated_id : fn_id f = id ∧ findings d !! id = Some f ∧ finding_in scope f = true.
Proof.
  destruct Hu as [Hf]. apply find_row_Some in Hf as [Hf Hin].
  split_and!; [|done..]. by apply (rows_ok_key _ _ _ _ _ (findings_ok _ Hok)).
Qed.

Lemma updated_status : fn_status f' = default (fn_status f) (uf_status input).
Proof. by rewrite (fu_row _ _ _ _ _ _ _ _ _ Hu). Qed.

Lemma updated_move :
  fn_status f' ≠ fn_status f →
  mayActorMoveFinding (actor_type actor) (fn_status f) (fn_status f') = true
  ∧ (isFinalDisposition (fn_status f') = true → actor_type actor = human_user)
  ∧ evidence_shown scope id input actor d f (fn_status f').
Proof.
  intros Hne. rewrite updated_status in *.
  destruct (uf_status input) as [t|] eqn:Ht; [|done]. cbn in *.
  destruct (fu_moves _ _ _ _ _ _ _ _ _ Hu t Ht Hne) as [Hp He].
  apply finding_move_checks_pass in Hp as [Heq|[Hm Hh]]; [congruence|done].
Qed.

Lemma updated_table : findings d' = <[id := f']> (findings d).
Proof.
  rewrite (fu_findings _ _ _ _ _ _ _ _ _ Hu), (fu_row _ _ _ _ _ _ _ _ _ Hu). cbn.
  by destruct updated_id as [-> _].
Qed.
End run.

(** Only a human reopens. *)
Lemma reopened_by_human a f : mayActorMoveFinding a f REOPENED = true → a = human_user.
Proof. by_table. Qed.


(** C32: a decision is recorded with its maker, and on the claim it was
    about.  When [updateFinding] disposes of a finding, the row names the
    actor, a human, and the time; when it reopens one, the disposition is
    cleared and counted.  If the finding held a current claim the caller
    named that very claim; [RESOLVED] accepts it and [REOPENED] rejects it in
    the actor's name, and waiving a finding or marking it a duplicate leaves
    every verification as it was. *)
Theorem updateFinding_decision scope id input actor s f f' s'
    (Hok : db_ok (db s)) (Hf : findings (db s) !! id = Some f)
    (Hrun : updateFinding scope id input actor s = (Ok f', s'))
    (Hmoved : fn_status f' ≠ fn_status f)
    (Hdecision : isFinalDisposition (fn_status f') = true ∨ fn_status f' = REOPENED) :
  (isFinalDisposition (fn_status f') = true →
     fn_resolved_by f' = Some actor ∧ fn_resolved_at f' = Some (clock s)
     ∧ actor_type actor = human_user)
  ∧ (fn_status f' = REOPENED →
     fn_resolved_by f' = None ∧ fn_resolved_at f' = None
     ∧ fn_reopen_count f' = (fn_reopen_count f + 1)%Z)
  ∧ uf_verificationId input = vf_id <$> current_row (db s) scope id
  ∧ verifications (db s') =
      match current_row (db s) scope id with
      | Some v =>
          if bool_decide (fn_status f' ∈ [RESOLVED; REOPENED])
          then <[vf_id v := decided_verification v (bool_decide (fn_status f' = RESOLVED))
                              actor (clock s)]> (verifications (db s))
          else verifications (db s)
      | None => verifications (db s)
      end.
Proof.
  destruct (updateFinding_run _ _ _ _ _ _ _ Hok Hrun) as [g Hu].
  assert (g = f) as -> by (destruct (updated_id Hok Hu) as (_ & Hg & _); congruence).
  assert (moving f (fn_status f') = true) as Hmove.
  { unfold moving. by rewrite bool_decide_false. }
  assert (disposing f (fn_status f') || reopening f (fn_status f') = true) as Hdec.
  { unfold disposing, reopening. rewrite Hmove. cbn [andb].
    destruct Hdecision as [->| ->]; [done|]. by rewrite orb_true_r. }
  pose proof (fu_row _ _ _ _ _ _ _ _ _ Hu) as Hrow.
  assert (fn_status f' = default (fn_status f) (uf_status input)) as Hst
    by apply (updated_status Hu).
  split_and!.
  - intros Hfin. split_and!.
    + rewrite Hrow. cbn. rewrite <- Hst. unfold case_when, disposing.
      by rewrite Hmove, Hfin.
    + rewrite Hrow. cbn. rewrite <- Hst. unfold case_when, disposing.
      by rewrite Hmove, Hfin.
    + by apply (updated_move Hu Hmoved).
  - intros Hre. rewrite Hrow. cbn. rewrite <- Hst. unfold case_when, disposing, reopening.
    rewrite Hmove, Hre. done.
  - pose proof (fu_claim _ _ _ _ _ _ _ _ _ Hu Hdec) as Hc.
    by apply assertVerificationUnderReview_pass in Hc.
  - rewrite (fu_verifications _ _ _ _ _ _ _ _ _ Hu).
    unfold claim_under_decision. rewrite Hdec.
    destruct (current_row (db s) scope id); [|done].
    replace (bool_decide (fn_status f' ∈ [RESOLVED; REOPENED]))
      with (claim_decided f (fn_status f')); [done|].
    unfold claim_decided, reopening. rewrite Hmove. cbn [andb].
    by destruct (fn_status f').
Qed.
End findings.

(** ** Refusals *)

Section refusals.
Context `{Entropy}.

(** What a denial event says. *)
Definition denial_payload (d : PendingDenial) (e : ApiError) : members :=
  pd_payload d ++ [("code", JStr (code_name (code e)));
                   ("reason", JStr (slice_to 500 (message e)))].

(** A pending denial that the screen lets through is written. *)
Lemma recordDenial_run scope actor e s d :
  denied s = Some d → fresh_draw s →
  assertPayloadCarriesNoSecret (JObj (denial_payload d e)) "payload" 0 = Ok tt →
  assertPayloadCarriesNoSecret (JObj (pd_correlation d)) "correlation" 0 = Ok tt →
  ∃ s', recordDenial scope actor (ApiThrown e) s = (Ok tt, s')
    ∧ logged s s' (is_event (pd_type d) scope actor (pd_correlation d) (denial_payload d e)).
Proof.
  intros Hd Hfresh Hp Hc.
  destruct (append_succeeds (pd_type d) scope actor (pd_correlation d) (denial_payload d e) s
              Hfresh Hp Hc) as [s' Hs'].
  exists s'. split; [|by eapply append_logged].
  unfold recordDenial. rewrite (bind_return _ _ _ (denied s) s) by done. rewrite Hd.
  unfold catching, inTransaction. unfold denial_payload in Hs'. by rewrite Hs'.
Qed.

Lemma finding_denial_clean id f t e :
  assertPayloadCarriesNoSecret (JObj (denial_payload (finding_denial id f t) e)) "payload" 0
    = Ok tt
  ∧ assertPayloadCarriesNoSecret (JObj (pd_correlation (finding_denial id f t))) "correlation" 0
    = Ok tt.
Proof. split; vm_compute; reflexivity. Qed.

(** A refused move: the checks in their order, and the first that fails. *)
Inductive move_refused (scope : Scope) (id : string) (input : UpdateFindingInput)
    (actor : EventActor) (d : Db) (f : FindingRow) (t : FindingStatus) : ApiError → Prop :=
| refused_by_rule e :
    finding_move_checks (actor_type actor) (fn_source f) (fn_status f) t = Err e →
    move_refused scope id input actor d f t e
| refused_for_evidence missing e :
    pass (finding_move_checks (actor_type actor) (fn_source f) (fn_status f) t) →
    t = AWAITING_HUMAN_REVIEW → actor_type actor = agent_session →
    outstanding_evidence d scope id = Some missing → missing ≠ [] →
    assertCompletionEvidence t (coalesce (uf_resolutionNote input) (fn_resolution_note f))
      (Some missing) (Some (actor_type actor)) = Err e →
    move_refused scope id input actor d f t e
| refused_for_claim e :
    pass (finding_move_checks (actor_type actor) (fn_source f) (fn_status f) t) →
    isFinalDisposition t = true ∨ t = REOPENED →
    (∀ other, uf_duplicateOfFindingId input = Some other →
       other ≠ id ∧ is_Some (find_row (findings d) (finding_in scope) other)) →
    assertVerificationUnderReview (vf_id <$> current_row d scope id) (uf_verificationId input)
      = Err e →
    move_refused scope id input actor d f t e.

Lemma lift_run {A} (r : result ApiError A) s :
  lift r s = (match r with Ok a => Ok a | Err e => Err (ApiThrown e) end, s).
Proof. by destruct r. Qed.

Definition with_denied (d : option PendingDenial) (s : St) : St :=
  {| db := db s; drawn := drawn s; clock := clock s; denied := d |}.

Lemma rule_refusal scope id input actor f t e s :
  finding_move_checks (actor_type actor) (fn_source f) (fn_status f) t = Err e →
  check_move scope id input actor f t s
    = (Err (ApiThrown e), with_denied (Some (finding_denial id f t)) s).
Proof.
  intros Hc. unfold check_move.
  rewrite (bind_return _ _ _ tt (with_denied (Some (finding_denial id f t)) s)) by done.
  unfold finding_move_checks in Hc.
  destruct (assertActorMayDispose _ _ _) as [[]|] eqn:Hd; cbn in Hc.
  2: { injection Hc as ->. by apply bind_throw. }
  erewrite bind_return by done.
  destruct (assertFindingTransition _ _) as [[]|] eqn:Ht; cbn in Hc.
  2: { injection Hc as ->. by apply bind_throw. }
  erewrite bind_return by done.
  destruct (assertActorMayMoveFinding _ _ _ _) as [[]|] eqn:Hm; [done|].
  injection Hc as ->. by apply bind_throw.
Qed.

Lemma missing_run scope id s m :
  outstanding_evidence (db s) scope id = Some m → missingEvidenceOn scope id s = (Ok m, s).
Proof.
  unfold outstanding_evidence, missingEvidenceOn. intros Ho.
  destruct (own_project (db s) scope) as [p|] eqn:Hp; [|done]. injection Ho as <-.
  erewrite bind_return by done. cbn. rewrite Hp.
  by erewrite bind_return by done.
Qed.

Lemma evidence_refusal scope id input actor f t e missing s :
  pass (finding_move_checks (actor_type actor) (fn_source f) (fn_status f) t) →
  t = AWAITING_HUMAN_REVIEW → actor_type actor = agent_session →
  outstanding_evidence (db s) scope id = Some missing → missing ≠ [] →
  assertCompletionEvidence t (coalesce (uf_resolutionNote input) (fn_resolution_note f))
    (Some missing) (Some (actor_type actor)) = Err e →
  check_move scope id input actor f t s
    = (Err (ApiThrown e), with_denied (Some (finding_denial id f t)) s).
Proof.
  intros Hc -> Ha Ho Hne He. unfold check_move.
  unfold finding_move_checks in Hc. rewrite !then_ok in Hc. destruct Hc as (Hd & Ht & Hm).
  erewrite bind_return by done.
  erewrite bind_return by (rewrite Hd; done).
  erewrite bind_return by (rewrite Ht; done).
  erewrite bind_return by (rewrite Hm; done).
  erewrite bind_return by done.
  rewrite bool_decide_true, bool_decide_true by done. cbn [andb].
  erewrite bind_return.
  2: { erewrite bind_return by (by apply missing_run). done. }
  destruct missing as [|m ms]; [done|]. cbn [whenM].
  erewrite bind_return by done. rewrite Ha in He |- *. erewrite bind_throw; [done|].
  by rewrite lift_run, He.
Qed.

(** A decision passes [check_move] once the rules allow it. *)
Lemma decision_passes scope id input actor f t s :
  pass (finding_move_checks (actor_type actor) (fn_source f) (fn_status f) t) →
  isFinalDisposition t = true ∨ t = REOPENED →
  check_move scope id input actor f t s = (Ok tt, with_denied None s).
Proof.
  intros Hc Hdec. unfold check_move.
  unfold finding_move_checks in Hc. rewrite !then_ok in Hc. destruct Hc as (Hd & Ht & Hm).
  assert (t ≠ AWAITING_HUMAN_REVIEW ∧ t ≠ FIXED_UNVERIFIED) as [Hna Hnf].
  { rewrite final_disposition_cases in Hdec. naive_solver. }
  erewrite bind_return by done.
  erewrite bind_return by (rewrite Hd; done).
  erewrite bind_return by (rewrite Ht; done).
  erewrite bind_return by (rewrite Hm; done).
  erewrite bind_return by done.
  rewrite bool_decide_false by done. cbn [andb].
  erewrite bind_return by done. cbn [whenM].
  erewrite bind_return by done. unfold assertCompletionEvidence.
  rewrite bool_decide_false, bool_decide_true by done.
  by erewrite bind_return by done.
Qed.

Lemma duplicate_run scope id input s :
  (∀ other, uf_duplicateOfFindingId input = Some other →
       other ≠ id ∧ is_Some (find_row (findings (db s)) (finding_in scope) other)) →
  match uf_duplicateOfFindingId input with
  | Some other => requireFindingInProject scope other id
  | None => mret tt
  end s = (Ok tt, s).
Proof.
  intros Hdup. destruct (uf_duplicateOfFindingId input) as [o|]; [|done].
  destruct (Hdup o eq_refl) as [Hne [r Hr]]. unfold requireFindingInProject.
  rewrite bool_decide_false by done.
  erewrite bind_return by done. erewrite bind_return by done. rewrite Hr. done.
Qed.

(** Every refusal of a requested move leaves the denial pending. *)
Lemma body_refusal scope id input actor f t e s :
  find_row (findings (db s)) (finding_in scope) id = Some f →
  fn_version f = uf_expectedVersion input →
  uf_status input = Some t → t ≠ fn_status f →
  move_refused scope id input actor (db s) f t e →
  updateFinding_body scope id input actor s
    = (Err (ApiThrown e), with_denied (Some (finding_denial id f t)) s).
Proof.
  intros Hf Hv Ht Hne Hr. unfold updateFinding_body.
  erewrite bind_return.
  2: { unfold lockFinding. erewrite bind_return by done. by rewrite Hf. }
  apply (assertExpectedVersion_pass _ _ "finding") in Hv.
  erewrite bind_return by (rewrite lift_run, Hv; done).
  rewrite Ht. change (default (fn_status f) (Some t)) with t. rewrite bool_decide_false by done. cbn [negb whenM].
  destruct Hr as [e Hc|missing e Hc Hta Ha Ho Hm He|e Hc Hdec Hdup He].
  - apply bind_throw. by apply rule_refusal.
  - apply bind_throw. by eapply evidence_refusal.
  - erewrite bind_return by by apply decision_passes.
    erewrite bind_return by by apply duplicate_run.
    assert (isFinalDisposition t || bool_decide (t = REOPENED) = true) as Hd.
    { destruct Hdec as [->| ->]; [done|]. by rewrite orb_true_r. }
    cbv zeta. cbn [andb negb]. rewrite Hd. apply bind_throw.
    unfold check_claim, currentVerificationOn.
    erewrite bind_return by done. erewrite bind_return by done. apply bind_throw.
    rewrite lift_run. cbn [db with_denied].
    destruct (current_row (db s) scope id) as [v|]; cbn in *; by rewrite He.
Qed.

(** A refused change of status leaves a trace and nothing else.  When
    [updateFinding] refuses a move it was asked for, because the actor may
    not make it, the lifecycle has none such, the evidence is short, or the
    decision names another claim than the current one, the caller gets that
    refusal, every table is as it was, and the log has gained exactly one
    event: [finding.status_change_denied], attributed to the actor, naming the
    finding, the move and the refusal's own code. *)
Theorem updateFinding_refusal_audited scope id input actor f t e s
    (Hf : find_row (findings (db s)) (finding_in scope) id = Some f)
    (Hversion : fn_version f = uf_expectedVersion input)
    (Ht : uf_status input = Some t) (Hmove : t ≠ fn_status f)
    (Hrefused : move_refused scope id input actor (db s) f t e)
    (Hfresh : fresh_draw s) :
  ∃ s' ev, updateFinding scope id input actor s = (Err (ApiThrown e), s')
    ∧ db s' = with_log (log (db s')) (db s)
    ∧ events (log (db s')) = events (log (db s)) ++ [ev]
    ∧ is_event "finding.status_change_denied" scope actor
        [("review_id", JStr (fn_review_id f)); ("finding_id", JStr id)]
        [("finding_id", JStr id); ("review_id", JStr (fn_review_id f));
         ("from", JStr (name (fn_status f))); ("requested", JStr (name t));
         ("source", JStr (name (fn_source f))); ("code", JStr (code_name (code e)));
         ("reason", JStr (slice_to 500 (message e)))] ev.
Proof.
  destruct (finding_denial_clean id f t e) as [Hp Hc].
  set (s1 := with_denied (Some (finding_denial id f t)) s).
  destruct (recordDenial_run scope actor e s1 (finding_denial id f t)) as (s' & Hrun & Hl);
    [done..|].
  destruct Hl as (ev & l & Hdb & He & Hev & _). exists s', ev. split_and!.
  - unfold updateFinding. erewrite bind_return by done. unfold catching, inTransaction.
    rewrite (body_refusal scope id input actor f t e) by done.
    change (with_db _ _) with s1. by rewrite (bind_return _ _ _ _ _ Hrun).
  - by rewrite Hdb.
  - by rewrite Hdb.
  - exact Hev.
Qed.
End refusals.

(** ** Witnesses *)


Definition awaiting1 : FindingRow := default some_finding (findings (db s6) !! fid).

Example updateFinding_decision_witness :
  fn_resolved_by resolved1 = Some person
  ∧ uf_verificationId resolve_input = vf_id <$> current_row (db s6) scope1 fid.
Proof.
  destruct (updateFinding_decision scope1 fid resolve_input person s6 awaiting1 resolved1 s7 s6_ok)
    as (Hd & _ & Hc & _).
  - vm_compute. reflexivity.
  - vm_compute. reflexivity.
  - vm_compute. discriminate.
  - left. vm_compute. reflexivity.
  - split; [apply Hd; vm_compute; reflexivity | exact Hc].
Defined.

(** The agent that handed the finding over asks to resolve it itself. *)
Definition denied_error : ApiError :=
  api_error AUTHORISATION_DENIED (human_authored_denial RESOLVED) (field "status").

Example updateFinding_refusal_audited_witness :
  ∃ s' ev, updateFinding scope1 fid resolve_input worker s6 = (Err (ApiThrown denied_error), s')
    ∧ events (log (db s')) = events (log (db s6)) ++ [ev]
    ∧ ev_type ev = "finding.status_change_denied".
Proof.
  destruct (updateFinding_refusal_audited scope1 fid resolve_input worker awaiting1 RESOLVED
              denied_error s6) as (s' & ev & Hrun & _ & He & Hev).
  - vm_compute. reflexivity.
  - vm_compute. reflexivity.
  - reflexivity.
  - vm_compute. discriminate.
  - apply refused_by_rule. vm_compute. reflexivity.
  - eexists. split; [vm_compute; reflexivity|].
    intros Hin. apply (bool_decide_pack _) in Hin. vm_compute in Hin. exact Hin.
  - exists s', ev. split; [exact Hrun|]. split; [exact He|]. exact (proj1 Hev).
Defined.
