(* ===== verification/SubmissionTheorems.v ===== *)
(** * What holds of [submitVerification]: the evidence it asks for, the claim it
    records, the claim it replaces, and how far it moves the finding *)

From S2P Require Import Prelude Errors ReviewProtocol ReviewDomain Events Completion EntityId Geometry Store Records Inbox ReviewService FindingService VerificationService Preserve Invariants Samples Effects FindingTheorems.

(** ** The current claim of a finding *)

Lemma rows_NoDup {K A} `{Countable K} (key : A → K) checks (t : gmap K A) :
  rows_ok key checks t → NoDup (key <$> rows t).
Proof.
  intros Hok. unfold rows. rewrite <- list_fmap_compose.
  assert ((key ∘ snd) <$> map_to_list t = fst <$> map_to_list t) as ->.
  { apply list_fmap_ext. intros i [k r] Hi. cbn.
    apply list_elem_of_lookup_2, elem_of_map_to_list in Hi. by destruct (Hok _ _ Hi). }
  apply NoDup_fst_map_to_list.
Qed.

Lemma is_current_true scope id v :
  is_current scope id v = true →
  verification_in scope v = true ∧ vf_status v = submitted ∧ vf_finding_id v = id.
Proof.
  unfold is_current, verification_of. rewrite !andb_true_iff, !bool_decide_eq_true. tauto.
Qed.

(** The query for the current claim finds at most one row. *)
Lemma current_rows d scope id :
  db_ok d →
  select (is_current scope id) (verifications d) =
    match current_row d scope id with Some v => [v] | None => [] end.
Proof.
  intros Hok. unfold current_row.
  destruct (select (is_current scope id) (verifications d)) as [|v [|w l]] eqn:Hs; [done..|].
  exfalso.
  assert (∀ x, x ∈ v :: w :: l →
    is_current scope id x = true ∧ verifications d !! vf_id x = Some x) as Hin.
  { intros x Hx. rewrite <- Hs in Hx. apply elem_of_select in Hx as [Hc [k Hk]].
    split; [done|]. by rewrite (rows_ok_key _ _ _ _ _ (verifications_ok _ Hok) Hk). }
  destruct (Hin v) as [Hv Hkv]; [by left|]. destruct (Hin w) as [Hw Hkw]; [by right; left|].
  apply is_current_true in Hv as (_ & Hv & Hfv). apply is_current_true in Hw as (_ & Hw & Hfw).
  assert (vf_id v = vf_id w) as Heq.
  { eapply (one_current _ Hok); [exact Hkv|exact Hkw|]. split_and!; congruence. }
  pose proof (rows_NoDup _ _ _ (verifications_ok _ Hok)) as Hnd.
  assert (NoDup (vf_id <$> v :: w :: l)) as Hnd'.
  { rewrite <- Hs. eapply sublist_NoDup; [exact Hnd|]. apply fmap_sublist, sublist_filter. }
  apply NoDup_cons in Hnd' as [Hnot _]. apply Hnot. cbn. rewrite Heq. left.
Qed.

Lemma current_row_iff d scope id v :
  db_ok d → current_row d scope id = Some v ↔
    verifications d !! vf_id v = Some v ∧ is_current scope id v = true.
Proof.
  intros Hok. split.
  - intros Hc. pose proof (find_current _ _ _ _ Hok Hc) as [? _]%find_row_Some.
    apply current_row_spec in Hc as [? _]. done.
  - intros [Hk Hc]. pose proof (current_rows d scope id Hok) as Hs.
    assert (v ∈ select (is_current scope id) (verifications d)) as Hin
      by (apply elem_of_select; split; [done|by eexists]).
    rewrite Hs in Hin. destruct (current_row d scope id); [|by apply elem_of_nil in Hin].
    by apply list_elem_of_singleton in Hin as ->.
Qed.

Section submission.
Context `{Entropy} `{ArtefactStore}.

(** ** What was checked before the transaction *)

Definition owned (d : Db) (scope : Scope) (findingId : string) (e : Evidence) : Prop :=
  ∃ a, artefacts d !! ev_artefact_id e = Some a
    ∧ in_scope scope (ar_organisation_id a) (ar_project_id a) = true
    ∧ ar_state a = a_available ∧ ev_kind e = ar_kind a
    ∧ (∀ b, ar_browser_session_id a = Some b →
         bs_project_id <$> browser_sessions d !! b = Some (projectId scope))
    ∧ (∀ other, original_of d a (ev_artefact_id e) = Some other → other = findingId).

Lemma own_evidence_ok d scope fid id e :
  own_evidence d scope fid id = Ok e → ev_artefact_id e = id ∧ owned d scope fid e.
Proof.
  unfold own_evidence. destruct (find_row _ _ _) as [a|] eqn:Hf; [|done].
  apply find_row_Some in Hf as [Hf Hin]. cbv zeta.
  destruct (bool_decide (ar_browser_session_id a ≠ None) && _) eqn:Hs; [done|].
  destruct (bool_decide (ar_state a ≠ a_available)) eqn:Hst; [done|].
  apply bool_decide_eq_false, dec_stable in Hst.
  assert (∀ b, ar_browser_session_id a = Some b →
    bs_project_id <$> browser_sessions d !! b = Some (projectId scope)) as Hses.
  { intros b Hb. rewrite Hb in Hs. cbn in Hs. apply negb_false_iff, bool_decide_eq_true in Hs.
    by destruct (browser_sessions d !! b). }
  clear Hs. destruct (original_of d a id) as [other|] eqn:Ho.
  - case_bool_decide as Hne; [done|]. intros [= <-]. split; [done|].
    exists a. cbn. split_and!; try done. intros o' Ho'. congruence.
  - intros [= <-]. split; [done|]. exists a. cbn. split_and!; try done. congruence.
Qed.

Lemma requireOwnedEvidence_run scope ids fid s es s' :
  requireOwnedEvidence scope ids fid s = (Ok es, s') →
  s' = s ∧ ev_artefact_id <$> es = unique ids ∧ Forall (owned (db s) scope fid) es.
Proof.
  unfold requireOwnedEvidence. generalize (unique ids). intros l. revert es s'.
  induction l as [|id l IH]; intros es s' Hr; cbn in Hr.
  - apply retM_ok in Hr as [-> ->]. done.
  - apply bindM_ok in Hr as (e & s1 & He & Hr).
    apply bindM_ok in He as (r & s2 & (-> & ->)%gets_ok & He).
    apply lift_ok in He as [[Hid Hown]%own_evidence_ok ->].
    apply bindM_ok in Hr as (es' & s2 & (-> & Hes & Hall)%IH & (-> & ->)%retM_ok).
    split_and!; [done| |by constructor]. cbn. by rewrite Hid, Hes.
Qed.

Record submission_prepared (scope : Scope) (id : string) (input : SubmitVerificationInput)
    (d : Db) (sb : Submission) : Prop := {
  sp_found : find_row (findings d) (finding_in scope) id = Some (sb_finding sb);
  sp_review : ∃ r, find_row (reviews d) (review_in scope) (fn_review_id (sb_finding sb)) = Some r
                   ∧ isImmutableReviewStatus (rv_status r) = false;
  sp_open : isFinalDisposition (fn_status (sb_finding sb)) = false;
  sp_evidence : ev_artefact_id <$> sb_evidence sb = unique (sv_artefactIds input);
  sp_owned : Forall (owned d scope id) (sb_evidence sb);
  sp_after : ∃ e, e ∈ sb_evidence sb ∧ ev_kind e = "screenshot"
                  ∧ sb_afterArtefactId sb = Some (ev_artefact_id e);
  sp_commit : sv_commit input ≠ fn_captured_commit (sb_finding sb);
  sp_branch : ∀ w, sv_workspaceBranch input = Some w → w = sv_branch input;
  sp_readable : store_readable = true
}.

Lemma assertVerificationCommitContext_ok captured commit branch w b :
  assertVerificationCommitContext captured commit branch w = Ok b →
  commit ≠ captured ∧ (∀ x, w = Some x → x = branch).
Proof.
  unfold assertVerificationCommitContext. case_bool_decide as Hc; [done|].
  destruct w as [x|]; [|done]. case_bool_decide as Hx; [done|].
  intros _. split; [done|]. congruence.
Qed.

Lemma getReview_run scope id s r s' :
  getReview scope id s = (Ok r, s') →
  s' = s ∧ find_row (reviews (db s)) (review_in scope) id = Some r.1.
Proof. unfold getReview. intros Hr. inv_run. done. Qed.

Lemma getFinding_run scope id s f s' :
  getFinding scope id s = (Ok f, s') →
  s' = s ∧ find_row (findings (db s)) (finding_in scope) id = Some f.1.
Proof.
  unfold getFinding. intros Hr. apply bindM_ok in Hr as (g & s1 & (-> & Hf)%lockFinding_run & Hr).
  inv_run. done.
Qed.

Lemma prepareSubmission_run scope id input s sb s' :
  prepareSubmission scope id input s = (Ok sb, s') →
  db s' = db s ∧ clock s' = clock s ∧ denied s' = denied s
  ∧ submission_prepared scope id input (db s) sb.
Proof.
  unfold prepareSubmission. intros Hr.
  apply bindM_ok in Hr as (f & s1 & (-> & Hf)%getFinding_run & Hr).
  apply bindM_ok in Hr as (r & s1 & (-> & Hrev)%getReview_run & Hr).
  apply bindM_ok in Hr as ([] & s1 & (Hm%assertReviewMutable_pass & ->)%lift_ok & Hr).
  apply bindM_ok in Hr as ([] & s1 & (Hopen%assertFindingTakesVerification_pass & ->)%lift_ok & Hr).
  apply bindM_ok in Hr as (es & s1 & (-> & Hids & Hown)%requireOwnedEvidence_run & Hr).
  apply bindM_ok in Hr as ([] & s1 & (Hshots & ->)%lift_ok & Hr).
  apply bindM_ok in Hr as (b & s1 & ([Hc Hw]%assertVerificationCommitContext_ok & ->)%lift_ok & Hr).
  apply bindM_ok in Hr as ([] & s1 & Hread & Hr).
  apply lift_ok in Hread as [Hread ->].
  apply bindM_ok in Hr as (vid & s1 & (_ & Hdb & Hck & Hden & _)%newId_ok & (-> & ->)%retM_ok).
  split_and!; [done..|]. split; cbn; try done.
  - exists r.1. split; [done|]. by destruct Hm as [Hm|[[=] _]].
  - case_bool_decide as Hlen; [done|].
    destruct (last (filter (λ e, is_screenshot e = true) es)) as [e|] eqn:Hlast.
    + exists e. apply last_Some in Hlast as [l Hl].
      assert (e ∈ filter (λ e, is_screenshot e = true) es) as Hin.
      { rewrite Hl. apply elem_of_app. right. by apply list_elem_of_singleton. }
      apply list_elem_of_filter in Hin as [He Hin].
      split_and!; [done| |done]. by apply bool_decide_eq_true in He.
    + apply last_None in Hlast. by rewrite Hlast in Hlen.
  - by destruct store_readable.
Qed.

(** ** What the transaction wrote *)

Lemma update_verification_writes v s u s' :
  update_verification v s = (Ok u, s') →
  s' = with_db (with_verifications (<[vf_id v := v]> (verifications (db s))) (db s)) s.
Proof. unfold update_verification. intros Hr. inv_run. done. Qed.

(** The claim being replaced is marked, and nothing else. *)
Definition replaced (d : Db) (scope : Scope) (id replacement : string) (time : Z) : Db :=
  match current_row d scope id with
  | Some v => with_verifications
                (<[vf_id v := superseded_verification v replacement time]> (verifications d)) d
  | None => d
  end.

Lemma supersede_run scope id replacement s o s' :
  db_ok (db s) → supersedeCurrentVerification scope id replacement s = (Ok o, s') →
  o = vf_id <$> current_row (db s) scope id
  ∧ s' = with_db (replaced (db s) scope id replacement (clock s)) s.
Proof.
  intros Hok Hr. unfold supersedeCurrentVerification in Hr.
  apply bindM_ok in Hr as (time & s1 & (-> & ->)%now_ok & Hr).
  apply bindM_ok in Hr as (l & s1 & (-> & ->)%gets_ok & Hr).
  rewrite (current_rows _ _ _ Hok) in Hr. unfold replaced.
  destruct (current_row (db s) scope id) as [v|]; cbn in Hr.
  - apply bindM_ok in Hr as ([] & s1 & Hw & (-> & ->)%retM_ok). split; [done|].
    apply bindM_ok in Hw as ([] & s2 & ->%update_verification_writes & (_ & ->)%retM_ok). done.
  - apply bindM_ok in Hr as ([] & s1 & (_ & ->)%retM_ok & (-> & ->)%retM_ok).
    split; [done|]. by destruct s.
Qed.

Lemma insert_verification_writes v s u s' :
  insert_verification v s = (Ok u, s') →
  verifications (db s) !! vf_id v = None
  ∧ s' = with_db (with_verifications (<[vf_id v := v]> (verifications (db s))) (db s)) s.
Proof.
  unfold insert_verification. intros Hr. inv_run.
  match goal with H : violated [_; _] = None |- _ =>
    rewrite violated_cons in H; destruct H as [H%bool_decide_eq_true _] end.
  done.
Qed.

Lemma insert_evidence_writes l s u s' :
  each insert_verification_artefact l s = (Ok u, s') →
  s' = with_db (with_verification_artefacts (verification_artefacts (db s) ++ l) (db s)) s.
Proof.
  revert s. induction l as [|a l IH]; intros s Hr; cbn in Hr.
  - apply retM_ok in Hr as [_ ->]. rewrite app_nil_r. destruct s as [[]]; done.
  - apply bindM_ok in Hr as ([] & s1 & Ha & Hr). unfold insert_verification_artefact in Ha.
    apply bindM_ok in Ha as (o & s2 & (-> & ->)%gets_ok & Ha).
    destruct (verifications (db s) !! va_verification_id a) eqn:Hv; inv_run.
    apply IH in Hr as ->. cbn. by rewrite <- app_assoc.
Qed.

Record submission_recorded (scope : Scope) (id : string) (input : SubmitVerificationInput)
    (actor : EventActor) (sb : Submission) (d : Db) (time : Z)
    (f : FindingRow) (v : Verification) (f' : FindingRow) (d' : Db) : Prop := {
  sr_found : find_row (findings d) (finding_in scope) id = Some f;
  sr_version : ∀ n, sv_expectedVersion input = Some n → fn_version f = n;
  sr_claim : v = submitted_verification sb
    (new_verification sb scope id input actor (vf_id <$> current_row d scope id) time);
  sr_fresh : verifications (replaced d scope id (sb_id sb) time) !! sb_id sb = None;
  sr_verifications : verifications d' =
    <[sb_id sb := verification_row v]> (verifications (replaced d scope id (sb_id sb) time));
  sr_evidence : verification_artefacts d' = verification_artefacts d ++ evidence_rows sb;
  sr_row : f' = noted_finding f (sv_summary input)
                  (advanced_status (actor_type actor) (fn_status f)) time;
  sr_findings : findings d' = <[fn_id f := f']> (findings d);
  sr_others : reviews d' = reviews d ∧ comments d' = comments d
    ∧ annotations d' = annotations d ∧ inbox_items d' = inbox_items d
    ∧ foreign d' = foreign d;
  sr_logs : logs scope actor
    (["finding.verification_submitted"]
     ++ (if bool_decide (fn_status f' = fn_status f) then [] else ["finding.status_changed"])) d d'
}.

Lemma commitSubmission_run scope id input actor sb s v f' s' :
  db_ok (db s) → commitSubmission scope id input actor sb s = (Ok (v, f'), s') →
  ∃ f, submission_recorded scope id input actor sb (db s) (clock s) f v f' (db s').
Proof.
  intros Hok Hr%inTransaction_ok.
  apply bindM_ok in Hr as (f & s1 & (-> & Hf)%lockFinding_run & Hr).
  apply bindM_ok in Hr as ([] & s1 & Hv & Hr).
  assert (s1 = s ∧ ∀ n, sv_expectedVersion input = Some n → fn_version f = n) as [-> Hversion].
  { destruct (sv_expectedVersion input).
    - apply lift_ok in Hv as [Hv%assertExpectedVersion_pass ->]. split; [done|]. by intros n [= <-].
    - by apply retM_ok in Hv as [_ ->]. }
  apply bindM_ok in Hr as (o & s1 & Hs & Hr).
  apply (supersede_run _ _ _ _ _ _ Hok) in Hs as [-> ->].
  apply bindM_ok in Hr as (time & s1 & (-> & ->)%now_ok & Hr).
  apply bindM_ok in Hr as ([] & s1 & [Hfresh ->]%insert_verification_writes & Hr).
  apply bindM_ok in Hr as ([] & s1 & ->%insert_evidence_writes & Hr).
  apply bindM_ok in Hr as ([] & s1 & (_ & ->)%update_finding_run & Hr).
  apply bindM_ok in Hr as ([] & s2 & H2%append_wrote & Hr).
  apply bindM_ok in Hr as ([] & s3 & H3%(whenM_wrote scope actor _ _ ["finding.status_changed"]) & Hr);
    [|by intros; eapply append_wrote].
  apply retM_ok in Hr as [[= -> ->] ->].
  pose proof (wrote_app _ _ _ _ _ _ _ H2 H3) as Hw.
  pose proof (wrote_logs _ _ _ _ _ Hw) as Hl. apply wrote_db in Hw.
  assert (∀ d t x y, reviews (replaced d scope x y t) = reviews d
    ∧ findings (replaced d scope x y t) = findings d
    ∧ comments (replaced d scope x y t) = comments d
    ∧ annotations (replaced d scope x y t) = annotations d
    ∧ inbox_items (replaced d scope x y t) = inbox_items d
    ∧ foreign (replaced d scope x y t) = foreign d
    ∧ verification_artefacts (replaced d scope x y t) = verification_artefacts d
    ∧ log (replaced d scope x y t) = log d) as Hrep
    by (intros d t x y; unfold replaced; destruct (current_row d scope x); split_and!; reflexivity).
  destruct (Hrep (db s) (clock s) id (sb_id sb)) as (Hr1 & Hr2 & Hr3 & Hr4 & Hr5 & Hr6 & Hr7 & Hr8).
  exists f. rewrite Hw. split; cbn in *; try done.
  - by rewrite Hr7.
  - by rewrite Hr2.
  - destruct Hl as (es & He & Ht & Ha). exists es. cbn in He. rewrite Hr8 in He. split; [done|].
    split; [|done]. rewrite Ht. by case_bool_decide.
Qed.

(** The two phases run on the same tables. *)
Lemma submitVerification_run scope id input actor s v f' c s' :
  db_ok (db s) → submitVerification scope id input actor s = (Ok ((v, f'), c), s') →
  ∃ sb f, submission_prepared scope id input (db s) sb
    ∧ submission_recorded scope id input actor sb (db s) (clock s) f v f' (db s')
    ∧ sb_finding sb = f ∧ c = sb_branchCorroborated sb.
Proof.
  intros Hok Hr. apply bindM_ok in Hr as (sb & s1 & (Hdb & Hck & _ & Hp)%prepareSubmission_run & Hr).
  apply bindM_ok in Hr as ([v1 f1] & s2 & Hc & Hr). apply retM_ok in Hr as [[= -> -> ->] ->].
  apply commitSubmission_run in Hc as [f Hc]; [|by rewrite Hdb]. rewrite Hdb, Hck in Hc.
  exists sb, f. split_and!; [done|done| |done].
  pose proof (sp_found _ _ _ _ _ Hp). pose proof (sr_found _ _ _ _ _ _ _ _ _ _ _ Hc). congruence.
Qed.

Section recorded.
Context {scope : Scope} {id : string} {input : SubmitVerificationInput} {actor : EventActor}
  {sb : Submission} {d : Db} {time : Z} {f : FindingRow} {v : Verification} {f' : FindingRow}
  {d' : Db}.
Context (Hok : db_ok d) (Hc : submission_recorded scope id input actor sb d time f v f' d').

Lemma claim_id : vf_id (verification_row v) = sb_id sb.
Proof. by rewrite (sr_claim _ _ _ _ _ _ _ _ _ _ _ Hc). Qed.

(** The claim's identifier is not one the tables knew. *)
Lemma claim_is_new : verifications d !! sb_id sb = None.
Proof.
  pose proof (sr_fresh _ _ _ _ _ _ _ _ _ _ _ Hc) as Hf. unfold replaced in Hf.
  destruct (current_row d scope id); [|done]. cbn in Hf.
  by apply lookup_insert_None in Hf as [? _].
Qed.

Lemma replaced_claim old :
  current_row d scope id = Some old →
  verifications d' !! vf_id old = Some (superseded_verification old (sb_id sb) time).
Proof.
  intros Hold. rewrite (sr_verifications _ _ _ _ _ _ _ _ _ _ _ Hc).
  pose proof Hold as [Hk _]%current_row_iff; [|done].
  rewrite lookup_insert_ne by (intros He; pose proof claim_is_new; congruence).
  unfold replaced. rewrite Hold. by apply lookup_insert_eq.
Qed.

Lemma other_claims k :
  k ≠ sb_id sb → (∀ old, current_row d scope id = Some old → k ≠ vf_id old) →
  verifications d' !! k = verifications d !! k.
Proof.
  intros Hk Hold. rewrite (sr_verifications _ _ _ _ _ _ _ _ _ _ _ Hc), lookup_insert_ne by done.
  unfold replaced. destruct (current_row d scope id) as [old|]; [|done].
  apply lookup_insert_ne. by apply not_eq_sym, Hold.
Qed.

Lemma recorded_claim : verifications d' !! sb_id sb = Some (verification_row v).
Proof. rewrite (sr_verifications _ _ _ _ _ _ _ _ _ _ _ Hc). apply lookup_insert_eq. Qed.

Lemma claim_is_current : db_ok d' → current_row d' scope id = Some (verification_row v).
Proof.
  intros Hok'. apply current_row_iff; [done|]. rewrite claim_id. split; [apply recorded_claim|].
  rewrite (sr_claim _ _ _ _ _ _ _ _ _ _ _ Hc). unfold is_current, verification_of,
    verification_in, in_scope. cbn. by rewrite !bool_decide_true.
Qed.

Lemma noted_status :
  fn_status f' = fn_status f
  ∨ fn_status f' = FIXED_UNVERIFIED
    ∧ mayActorMoveFinding (actor_type actor) (fn_status f) FIXED_UNVERIFIED = true
    ∧ isFinalDisposition (fn_status f) = false.
Proof.
  rewrite (sr_row _ _ _ _ _ _ _ _ _ _ _ Hc). cbn. unfold advanced_status.
  destruct (mayActorMoveFinding _ _ _); [|by left]. destruct (isFinalDisposition _); [by left|].
  by right.
Qed.

(** The evidence stored with the claim is what was submitted, in order. *)
Lemma claim_evidence :
  filter (λ a, va_verification_id a = sb_id sb) (verification_artefacts d') = evidence_rows sb.
Proof.
  rewrite (sr_evidence _ _ _ _ _ _ _ _ _ _ _ Hc), filter_app.
  assert (filter (λ a, va_verification_id a = sb_id sb) (verification_artefacts d) = []) as ->.
  { apply filter_none. intros a Ha He.
    pose proof (evidence_known _ Hok) as Hk. rewrite Forall_forall in Hk.
    destruct (Hk a Ha) as [w Hw]. rewrite He, claim_is_new in Hw. done. }
  cbn. apply filter_all. intros a Ha. unfold evidence_rows in Ha.
  apply elem_of_lookup_imap in Ha as (i & e & -> & _). done.
Qed.
End recorded.


(** The finding's own screenshot stands in for the evidence, and is not
    counted.  When the last screenshot of a submission is the finding's
    original, the submission succeeds and answers with it as the after
    screenshot; but the stored claim has none, and the gate still asks for it. *)
Theorem original_submitted_as_after scope id input actor s v f' c s' p
    (Hok : db_ok (db s)) (Hproject : own_project (db s) scope = Some p)
    (Hrun : submitVerification scope id input actor s = (Ok ((v, f'), c), s'))
    (Hafter : after_artefact_id v = Some (fn_screenshot_artefact_id f')) :
  after_artefact_id (stored_verification (db s') (verification_row v)) = None
  ∧ ∃ missing, outstanding_evidence (db s') scope id = Some missing
               ∧ "after screenshot" ∈ missing.
Proof.
  assert (db_ok (db s')) as Hok' by (by eapply submitVerification_ok).
  destruct (submitVerification_run _ _ _ _ _ _ _ _ _ Hok Hrun) as (sb & f & Hp & Hc & Hf & _).
  assert (artefact_with_role (db s') (vf_id (verification_row v)) after = None) as Hnone.
  { rewrite (claim_id Hc). unfold artefact_with_role, artefacts_of.
    rewrite (claim_evidence Hok Hc). apply fmap_None, head_None, filter_none.
    intros a Ha Hrole. rewrite elem_of_order_by in Ha. unfold evidence_rows in Ha.
    apply elem_of_lookup_imap in Ha as (i & e & -> & _). cbn in Hrole.
    unfold evidence_role in Hrole. rewrite Hf in Hrole.
    rewrite (sr_claim _ _ _ _ _ _ _ _ _ _ _ Hc), (sr_row _ _ _ _ _ _ _ _ _ _ _ Hc) in Hafter.
    cbn in Hafter. rewrite Hafter in Hrole.
    case_bool_decide as H1; [done|]. case_bool_decide as H2; [congruence|done]. }
  split; [exact Hnone|].
  assert (own_project (db s') scope = Some p) as Hproject'.
  { unfold own_project in *.
    destruct (sr_others _ _ _ _ _ _ _ _ _ _ _ Hc) as (_ & _ & _ & _ & [= ->]). done. }
  unfold outstanding_evidence, current_evidence. rewrite Hproject'.
  rewrite (claim_is_current Hc Hok'). eexists. split; [reflexivity|].
  cbn [mbind option_bind missingEvidence eu_after_artefact_id completionRequirementsFor
    final_screenshot]. rewrite Hnone. left.
Qed.
End submission.

(** ** Witnesses *)

Definition submitted1 : Verification * FindingRow * bool :=
  returned submit s4 ({| verification_row := new_verification
      {| sb_finding := some_finding; sb_evidence := []; sb_branchCorroborated := false;
         sb_id := ""; sb_afterArtefactId := None |} scope1 "" evidence_input worker None 0;
      artefact_ids := []; before_artefact_id := None; after_artefact_id := None |},
    some_finding, false).


(** The agent sends the finding's own screenshot back as the evidence. *)
Definition original_again : SubmitVerificationInput :=
  {| sv_summary := "Looks the same."; sv_branch := "fix/button"; sv_commit := "89abcdef";
     sv_testedViewports := sv_testedViewports evidence_input;
     sv_checks := sv_checks evidence_input; sv_artefactIds := ["art_before"];
     sv_workspaceBranch := None; sv_expectedVersion := None |}.
Definition submit_original : M (Verification * FindingRow * bool) :=
  submitVerification scope1 fid original_again worker.
Definition resubmitted1 : Verification * FindingRow * bool :=
  returned submit_original s4 submitted1.

Example original_submitted_as_after_witness :
  after_artefact_id resubmitted1.1.1 = Some "art_before"
  ∧ after_artefact_id (stored_verification (db (left_at submit_original s4))
                         (verification_row resubmitted1.1.1)) = None.
Proof.
  split; [vm_compute; reflexivity|].
  refine (proj1 (original_submitted_as_after scope1 fid original_again worker s4 resubmitted1.1.1
            resubmitted1.1.2 resubmitted1.2 (left_at submit_original s4) _ s4_ok _ _ _)).
  - vm_compute. reflexivity.
  - vm_compute. reflexivity.
  - vm_compute. reflexivity.
Defined.
