(* ===== verification/ReviewTheorems.v ===== *)
(** * What holds of [updateReview]: authority, acceptance, archival, and the
    audit of refusals *)

From S2P Require Import Prelude Errors ReviewProtocol ReviewDomain Events Completion EntityId Geometry Store Records Inbox ReviewService FindingService VerificationService Preserve Invariants Samples Effects FindingTheorems.

Section reviews.
Context `{Entropy}.

Lemma updateReview_run scope id input actor s r' s' :
  db_ok (db s) →
  updateReview scope id input actor s = (Ok r', s') →
  ∃ r, review_updated scope id input actor (db s) (clock s) r r' (db s').
Proof.
  unfold updateReview. intros Hok Hr. apply bindM_ok in Hr as ([] & s1 & ->%set_denied_ok & Hr).
  apply catching_ok in Hr as [Hr%inTransaction_ok|(e & s1 & _ & Hr)].
  - by apply updateReview_body_run in Hr.
  - apply bindM_ok in Hr as ([] & s2 & _ & Hr). by apply throwM_ok in Hr.
Qed.

Section run.
Context {scope : Scope} {id : string} {input : UpdateReviewInput} {actor : EventActor}
  {d : Db} {time : Z} {r r' : ReviewRow} {d' : Db}.
Context (Hok : db_ok d) (Hu : review_updated scope id input actor d time r r' d').

Lemma review_updated_id : rv_id r = id ∧ reviews d !! id = Some r ∧ review_in scope r = true.
Proof.
  destruct Hu as [Hf]. apply find_row_Some in Hf as [Hf Hin].
  split_and!; [|done..]. by apply (rows_ok_key _ _ _ _ _ (reviews_ok _ Hok)).
Qed.

Lemma review_updated_status : rv_status r' = default (rv_status r) (ur_status input).
Proof. by rewrite (ru_row _ _ _ _ _ _ _ _ _ Hu). Qed.

Lemma review_updated_move :
  rv_status r' ≠ rv_status r →
  mayActorMoveReview (actor_type actor) (rv_status r) (rv_status r') = true
  ∧ (isImmutableReviewStatus (rv_status r') = true → actor_type actor = human_user).
Proof.
  intros Hne. rewrite review_updated_status in *.
  destruct (ur_status input) as [t|] eqn:Ht; [|done]. cbn in *.
  pose proof (ru_moves _ _ _ _ _ _ _ _ _ Hu t Ht Hne) as Hp.
  apply review_move_checks_pass in Hp as [Heq|[Hm Hh]]; [congruence|done].
Qed.

Lemma review_updated_db :
  d' = with_log (log d') (with_reviews (<[id := r']> (reviews d)) d).
Proof.
  pose proof (ru_db _ _ _ _ _ _ _ _ _ Hu) as Hd.
  replace (rv_id r') with id in Hd; [done|].
  rewrite (ru_row _ _ _ _ _ _ _ _ _ Hu). cbn. by destruct review_updated_id.
Qed.

(** A closed review only changes by being archived or, once accepted, by
    being reopened. *)
Lemma review_updated_mutable :
  isImmutableReviewStatus (rv_status r) = true →
  patched_fields input = []
  ∧ (ur_status input = Some ARCHIVED
     ∨ rv_status r = ACCEPTED ∧ ur_status input = Some CHANGES_REQUESTED).
Proof.
  intros Him. pose proof (ru_mutable _ _ _ _ _ _ _ _ _ Hu) as Hp.
  apply assertReviewMutable_pass in Hp as [Hp|[? ?]]; [congruence|done].
Qed.
End run.

Lemma acceptance_findings_elem d scope id x :
  x ∈ acceptance_findings d scope id ↔
    ∃ k f, findings d !! k = Some f ∧ fn_review_id f = id ∧ finding_in scope f = true
           ∧ x = acceptance_finding f.
Proof.
  unfold acceptance_findings. rewrite list_elem_of_fmap. split.
  - intros (f & -> & Hf). rewrite elem_of_order_by, elem_of_select in Hf.
    destruct Hf as (Hp & k & Hk). apply andb_true_iff in Hp as [Hid Hin].
    apply bool_decide_eq_true in Hid. by exists k, f.
  - intros (k & f & Hk & Hid & Hin & ->). exists f. split; [done|].
    rewrite elem_of_order_by, elem_of_select. split; [|by exists k].
    apply andb_true_iff. split; [by apply bool_decide_eq_true|done].
Qed.

(** C33: a successful [updateReview] was the caller's to make.  The review was
    in the caller's organisation and project and at the version the caller
    named; it is now at the next version and nothing but that row and the log
    changed; a change of status is one the lifecycle table gives this kind of
    actor, and accepting, cancelling or archiving was a human's; and a closed
    review changed only by being archived or, once accepted, reopened. *)
Theorem updateReview_authorised scope id input actor s r' s'
    (Hok : db_ok (db s)) (Hrun : updateReview scope id input actor s = (Ok r', s')) :
  ∃ r, reviews (db s) !! id = Some r ∧ review_in scope r = true
    ∧ rv_version r = ur_expectedVersion input ∧ rv_version r' = (rv_version r + 1)%Z
    ∧ db s' = with_log (log (db s')) (with_reviews (<[id := r']> (reviews (db s))) (db s))
    ∧ rv_status r' = default (rv_status r) (ur_status input)
    ∧ (rv_status r' ≠ rv_status r →
         mayActorMoveReview (actor_type actor) (rv_status r) (rv_status r') = true
         ∧ (isImmutableReviewStatus (rv_status r') = true → actor_type actor = human_user))
    ∧ (isImmutableReviewStatus (rv_status r) = true →
         patched_fields input = []
         ∧ (ur_status input = Some ARCHIVED
            ∨ rv_status r = ACCEPTED ∧ ur_status input = Some CHANGES_REQUESTED)).
Proof.
  destruct (updateReview_run _ _ _ _ _ _ _ Hok Hrun) as [r Hu]. exists r.
  destruct (review_updated_id Hok Hu) as (_ & Hf & Hin).
  split; [done|]. split; [done|].
  split; [apply (ru_version _ _ _ _ _ _ _ _ _ Hu)|].
  split; [by rewrite (ru_row _ _ _ _ _ _ _ _ _ Hu)|].
  split; [apply (review_updated_db Hok Hu)|].
  split; [apply (review_updated_status Hu)|].
  split; [apply (review_updated_move Hu) | apply (review_updated_mutable Hu)].
Qed.

(** C34: a review is accepted by a human, with nothing of a human's left
    open.  When [updateReview] moves a review to [ACCEPTED], the actor is
    human, every human-authored finding of the review in the caller's project
    has a final disposition, the row records the actor and the time, and the
    decision is in the log as the caller's. *)
Theorem updateReview_acceptance scope id input actor s r r' s'
    (Hok : db_ok (db s)) (Hr : reviews (db s) !! id = Some r)
    (Hrun : updateReview scope id input actor s = (Ok r', s'))
    (Hfrom : rv_status r ≠ ACCEPTED) (Hto : rv_status r' = ACCEPTED) :
  actor_type actor = human_user
  ∧ (∀ k f, findings (db s) !! k = Some f → fn_review_id f = id → finding_in scope f = true →
       fn_source f = human → isFinalDisposition (fn_status f) = true)
  ∧ rv_accepted_by r' = Some actor ∧ rv_accepted_at r' = Some (clock s)
  ∧ is_Some (rv_closed_at r')
  ∧ (∃ e, e ∈ new_events (db s) (db s') ∧ ev_type e = "review.accepted" ∧ ev_actor e = actor).
Proof.
  destruct (updateReview_run _ _ _ _ _ _ _ Hok Hrun) as [g Hu].
  assert (g = r) as -> by (destruct (review_updated_id Hok Hu) as (_ & Hg & _); congruence).
  assert (ur_status input = Some ACCEPTED) as Hin.
  { rewrite (review_updated_status Hu) in Hto. by destruct (ur_status input); cbn in *; subst. }
  pose proof (ru_row _ _ _ _ _ _ _ _ _ Hu) as Hrow.
  split_and!.
  - apply (review_updated_move Hu); [congruence|]. by rewrite Hto.
  - intros k f Hk Hrev Hsc Hsrc.
    pose proof (ru_acceptable _ _ _ _ _ _ _ _ _ Hu Hin Hfrom) as Hp.
    rewrite assertReviewAcceptable_pass in Hp. apply (Hp (acceptance_finding f)); [|done].
    apply acceptance_findings_elem. eauto 6.
  - rewrite Hrow. unfold review_after. rewrite Hin. cbn.
    rewrite bool_decide_false by done. done.
  - rewrite Hrow. unfold review_after. rewrite Hin. cbn.
    rewrite bool_decide_false by done. done.
  - rewrite Hrow. unfold review_after. rewrite Hin. cbn. by destruct (rv_closed_at r).
  - pose proof (ru_events _ _ _ _ _ _ _ _ _ Hu) as He.
    assert ("review.accepted" ∈ ev_type <$> new_events (db s) (db s')) as Hmem.
    { rewrite He, Hin. unfold review_event_types.
      change (default (rv_status r) (Some ACCEPTED)) with ACCEPTED.
      rewrite bool_decide_false, bool_decide_true by done. cbn [negb andb].
      rewrite !elem_of_app. right. right. left. left. }
    apply list_elem_of_fmap in Hmem as (e & Ht & He').
    exists e. split_and!; [done|done|].
    pose proof (ru_attributed _ _ _ _ _ _ _ _ _ Hu) as Ha. rewrite Forall_forall in Ha.
    by destruct (Ha e He').
Qed.

(** Archiving an accepted review is carried out as a reopen.  A move from
    [ACCEPTED] to [ARCHIVED] that succeeds erases who accepted the review and
    when, counts one more reopen, keeps the closing time, and writes
    [review.reopened] beside [review.archived]. *)
Theorem archive_of_accepted_is_a_reopen scope id input actor s r r' s'
    (Hok : db_ok (db s)) (Hr : reviews (db s) !! id = Some r)
    (Hrun : updateReview scope id input actor s = (Ok r', s'))
    (Hfrom : rv_status r = ACCEPTED) (Hto : ur_status input = Some ARCHIVED) :
  rv_accepted_by r' = None ∧ rv_accepted_at r' = None
  ∧ rv_reopen_count r' = (rv_reopen_count r + 1)%Z
  ∧ rv_closed_at r' = coalesce (rv_closed_at r) (Some (clock s))
  ∧ ev_type <$> new_events (db s) (db s') =
      ["review.status_changed"; "review.reopened"; "review.archived"].
Proof.
  destruct (updateReview_run _ _ _ _ _ _ _ Hok Hrun) as [g Hu].
  assert (g = r) as -> by (destruct (review_updated_id Hok Hu) as (_ & Hg & _); congruence).
  pose proof (ru_row _ _ _ _ _ _ _ _ _ Hu) as Hrow. unfold review_after in Hrow.
  rewrite Hto in Hrow. rewrite Hrow, (ru_events _ _ _ _ _ _ _ _ _ Hu), Hto.
  unfold review_event_types. rewrite Hfrom.
  assert (patched_fields input = []) as Hnone
    by (apply (review_updated_mutable Hu); by rewrite Hfrom).
  unfold patched_fields in Hnone.
  destruct (ur_slug input), (ur_title input); cbn in *; done.
Qed.

(** ** Refusals *)

Definition review_denial (id : string) (r : ReviewRow) (t : ReviewStatus) : PendingDenial :=
  status_change_denied "review.status_change_denied" (review_ref id)
    (review_ref id ++ [("from", named (rv_status r)); ("requested", named t)]).

Lemma review_denial_clean id r t e :
  assertPayloadCarriesNoSecret (JObj (denial_payload (review_denial id r t) e)) "payload" 0
    = Ok tt
  ∧ assertPayloadCarriesNoSecret (JObj (pd_correlation (review_denial id r t))) "correlation" 0
    = Ok tt.
Proof. split; vm_compute; reflexivity. Qed.

Lemma review_body_refusal scope id input actor r t e s :
  find_row (reviews (db s)) (review_in scope) id = Some r →
  rv_version r = ur_expectedVersion input →
  pass (assertReviewMutable (rv_status r) (ur_status input) (patched_fields input)) →
  ur_status input = Some t → t ≠ rv_status r →
  review_move_checks (actor_type actor) (rv_status r) t = Err e →
  updateReview_body scope id input actor s
    = (Err (ApiThrown e), with_denied (Some (review_denial id r t)) s).
Proof.
  intros Hf Hv Hm Ht Hne Hc. unfold updateReview_body.
  erewrite bind_return.
  2: { unfold lockReview. erewrite bind_return by done. by rewrite Hf. }
  apply (assertExpectedVersion_pass _ _ "review") in Hv.
  erewrite bind_return by (rewrite lift_run, Hv; done).
  erewrite bind_return by (rewrite lift_run, Hm; done).
  rewrite Ht. change (default (rv_status r) (Some t)) with t.
  rewrite bool_decide_false by done. cbn [negb whenM].
  apply bind_throw. erewrite bind_return by done. unfold review_move_checks in Hc.
  destruct (assertActorMayCloseReview _ _) as [[]|] eqn:H1; cbn in Hc.
  2: { injection Hc as ->. by apply bind_throw. }
  erewrite bind_return by done.
  destruct (assertReviewTransition _ _) as [[]|] eqn:H2; cbn in Hc.
  2: { injection Hc as ->. by apply bind_throw. }
  erewrite bind_return by done.
  destruct (assertActorMayMoveReview _ _ _) as [[]|] eqn:H3; [done|].
  injection Hc as ->. by apply bind_throw.
Qed.

(** A refused change of a review's status is audited.  When
    [updateReview] refuses a move because the actor may not make it or the
    lifecycle has none such, the caller gets that refusal, every table is as
    it was, and the log has gained exactly one event,
    [review.status_change_denied], naming the actor, the move and the
    refusal's own code. *)
Theorem updateReview_refusal_audited scope id input actor r t e s
    (Hr : find_row (reviews (db s)) (review_in scope) id = Some r)
    (Hversion : rv_version r = ur_expectedVersion input)
    (Hmutable : pass (assertReviewMutable (rv_status r) (ur_status input) (patched_fields input)))
    (Ht : ur_status input = Some t) (Hmove : t ≠ rv_status r)
    (Hrefused : review_move_checks (actor_type actor) (rv_status r) t = Err e)
    (Hfresh : fresh_draw s) :
  ∃ s' ev, updateReview scope id input actor s = (Err (ApiThrown e), s')
    ∧ db s' = with_log (log (db s')) (db s)
    ∧ events (log (db s')) = events (log (db s)) ++ [ev]
    ∧ is_event "review.status_change_denied" scope actor [("review_id", JStr id)]
        [("review_id", JStr id); ("from", JStr (name (rv_status r)));
         ("requested", JStr (name t)); ("code", JStr (code_name (code e)));
         ("reason", JStr (slice_to 500 (message e)))] ev.
Proof.
  destruct (review_denial_clean id r t e) as [Hp Hc].
  set (s1 := with_denied (Some (review_denial id r t)) s).
  destruct (recordDenial_run scope actor e s1 (review_denial id r t)) as (s' & Hrun & Hl);
    [done..|].
  destruct Hl as (ev & l & Hdb & He & Hev & _). exists s', ev. split_and!.
  - unfold updateReview. erewrite bind_return by done. unfold catching, inTransaction.
    rewrite (review_body_refusal scope id input actor r t e) by done.
    change (with_db _ _) with s1. by rewrite (bind_return _ _ _ _ _ Hrun).
  - by rewrite Hdb.
  - by rewrite Hdb.
  - exact Hev.
Qed.
End reviews.

(** ** Witnesses *)

Definition acceptance : UpdateReviewInput :=
  transition_input (transition_at 4 (Some "Ready to ship.")) ACCEPTED.
Definition archival : UpdateReviewInput := transition_input (transition_at 5 None) ARCHIVED.

Example updateReview_authorised_witness :
  ∃ r, reviews (db s10) !! rv_id review1 = Some r ∧ rv_version r = 4%Z
       ∧ rv_version accepted1 = (rv_version r + 1)%Z.
Proof.
  destruct (updateReview_authorised scope1 (rv_id review1) acceptance person s10 accepted1 s11
              s10_ok) as (r & Hr & _ & Hv & Hv' & _).
  - vm_compute. reflexivity.
  - exists r. split; [exact Hr|]. split; [exact Hv|exact Hv'].
Defined.

Example updateReview_acceptance_witness :
  rv_accepted_by accepted1 = Some person ∧ rv_accepted_at accepted1 = Some 1000%Z.
Proof.
  destruct (updateReview_acceptance scope1 (rv_id review1) acceptance person s10 awaiting_review1
              accepted1 s11 s10_ok) as (_ & _ & Hby & Hat & _).
  - vm_compute. reflexivity.
  - vm_compute. reflexivity.
  - vm_compute. discriminate.
  - vm_compute. reflexivity.
  - split; [exact Hby|]. rewrite Hat. vm_compute. reflexivity.
Defined.

Example archive_of_accepted_is_a_reopen_witness :
  rv_accepted_by archived1 = None ∧ rv_reopen_count archived1 = 1%Z.
Proof.
  destruct (archive_of_accepted_is_a_reopen scope1 (rv_id review1) archival person s11 accepted1
              archived1 s12 s11_ok) as (Hby & _ & Hcount & _).
  - vm_compute. reflexivity.
  - vm_compute. reflexivity.
  - vm_compute. reflexivity.
  - reflexivity.
  - split; [exact Hby|]. rewrite Hcount. vm_compute. reflexivity.
Defined.

(** The agent that asked for the human review asks to accept it itself. *)
Definition not_yours_to_accept : ApiError :=
  api_error AUTHORISATION_DENIED only_a_human_accepts (field "status").

Example updateReview_refusal_audited_witness :
  ∃ s' ev, updateReview scope1 (rv_id review1) acceptance worker s10
             = (Err (ApiThrown not_yours_to_accept), s')
    ∧ events (log (db s')) = events (log (db s10)) ++ [ev]
    ∧ ev_type ev = "review.status_change_denied".
Proof.
  destruct (updateReview_refusal_audited scope1 (rv_id review1) acceptance worker awaiting_review1
              ACCEPTED not_yours_to_accept s10) as (s' & ev & Hrun & _ & He & Hev).
  - vm_compute. reflexivity.
  - vm_compute. reflexivity.
  - vm_compute. reflexivity.
  - reflexivity.
  - vm_compute. discriminate.
  - vm_compute. reflexivity.
  - eexists. split; [vm_compute; reflexivity|].
    intros Hin. apply (bool_decide_pack _) in Hin. vm_compute in Hin. exact Hin.
  - exists s', ev. split; [exact Hrun|]. split; [exact He|]. exact (proj1 Hev).
Defined.
