(* ===== verification/Evolution.v ===== *)
(** * How the tables may change: a preorder that every operation stays within,
    whether it succeeds or fails

    [evolves scope actor d d'] allows what a caller may do in one or more
    operations: rows of the caller's own project are added or changed, never
    removed; what a row recorded at its creation stays; a changed row has a
    higher version; and only a human's operation changes what a human decides. *)

From S2P Require Import Prelude Errors ReviewProtocol ReviewDomain Events Completion EntityId Geometry Store Records Inbox ReviewService FindingService VerificationService Preserve Invariants Effects FindingTheorems SubmissionTheorems ReviewTheorems.

(** ** One table *)

(** Every row of [t] is in [t'], the same or changed by [step]; the others of
    [t'] are new and satisfy [born]. *)
Record changes {K A} `{Countable K} (step : A → A → Prop) (born : A → Prop)
    (t t' : gmap K A) : Prop := {
  rows_kept : ∀ k r, t !! k = Some r → ∃ r', t' !! k = Some r' ∧ (r' = r ∨ step r r');
  rows_born : ∀ k r, t' !! k = Some r → t !! k = None → born r
}.

Section changes.
Context {K A : Type} `{Countable K} (step : A → A → Prop) (born : A → Prop).
Implicit Types (t : gmap K A).

Lemma changes_refl t : changes step born t t.
Proof. split; [eauto | intros k r -> [=]]. Qed.

Lemma changes_trans t t1 t' :
  (∀ a b c, step a b → step b c → step a c) → (∀ a b, born a → step a b → born b) →
  changes step born t t1 → changes step born t1 t' → changes step born t t'.
Proof.
  intros Htrans Hborn [Hk Hb] [Hk' Hb']. split.
  - intros k r Hr. destruct (Hk k r Hr) as (r1 & Hr1 & H1).
    destruct (Hk' k r1 Hr1) as (r' & Hr' & H2). exists r'. split; [done|].
    destruct H1 as [->|?], H2 as [->|?]; eauto.
  - intros k r' Hr' Hnone. destruct (t1 !! k) as [r1|] eqn:Hr1; [|by eapply Hb'].
    destruct (Hk' k r1 Hr1) as (r2 & Hr2 & H2). rewrite Hr' in Hr2. injection Hr2 as <-.
    pose proof (Hb _ _ Hr1 Hnone). destruct H2 as [->|?]; eauto.
Qed.

Lemma changes_insert_new t k r :
  t !! k = None → born r → changes step born t (<[k := r]> t).
Proof.
  intros Hnone Hr. split.
  - intros k' r' Hr'. exists r'. split; [|by left].
    rewrite lookup_insert_ne; [done|]. intros ->. congruence.
  - intros k' r' [[<- <-]|[_ Hr']]%lookup_insert_Some Hk; [done|congruence].
Qed.

Lemma changes_insert_old t k r r' :
  t !! k = Some r → step r r' → changes step born t (<[k := r']> t).
Proof.
  intros Hr Hstep. split.
  - intros k' x Hx. destruct (decide (k' = k)) as [->|Hne].
    + exists r'. rewrite lookup_insert_eq. split; [done|]. right. congruence.
    + exists x. rewrite lookup_insert_ne by done. auto.
  - intros k' x [[<- <-]|[_ Hx]]%lookup_insert_Some Hk; congruence.
Qed.
End changes.

(** ** What may happen to a row *)

Section steps.
Context (scope : Scope) (actor : EventActor).

Definition by_human : Prop := actor_type actor = human_user.

(** What a review records when it is created. *)
Definition review_origin (r : ReviewRow) :=
  (rv_id r, rv_organisation_id r, rv_project_id r, rv_created_by r, rv_captured_branch r,
   rv_captured_commit r, rv_captured_workspace_id r, rv_source_browser_session_id r,
   rv_created_at r).

Record review_step (r r' : ReviewRow) : Prop := {
  rs_scope : review_in scope r = true;
  rs_origin : review_origin r' = review_origin r;
  rs_version : (rv_version r < rv_version r')%Z;
  rs_human : ¬ by_human → rv_accepted_by r' = rv_accepted_by r
    ∧ (isImmutableReviewStatus (rv_status r) || isImmutableReviewStatus (rv_status r') = true →
       rv_status r' = rv_status r)
}.
Definition review_born (r : ReviewRow) : Prop :=
  review_in scope r = true ∧ rv_created_by r = actor
  ∧ (¬ by_human → isImmutableReviewStatus (rv_status r) = false).

(** What a finding records when it is captured. *)
Definition finding_origin (f : FindingRow) :=
  (fn_id f, fn_organisation_id f, fn_project_id f, fn_review_id f, fn_source f, fn_created_by f,
   (fn_url f, fn_viewport f, fn_scroll_position f, fn_captured_commit f,
    fn_screenshot_artefact_id f, fn_element_context f, fn_created_at f)).

Record finding_step (f f' : FindingRow) : Prop := {
  fs_scope : finding_in scope f = true;
  fs_origin : finding_origin f' = finding_origin f;
  fs_version : (fn_version f < fn_version f')%Z;
  fs_human : ¬ by_human → fn_resolved_by f' = fn_resolved_by f
    ∧ (isFinalDisposition (fn_status f) || isFinalDisposition (fn_status f') = true →
       fn_status f' = fn_status f)
}.
Definition finding_born (f : FindingRow) : Prop :=
  finding_in scope f = true ∧ fn_created_by f = actor
  ∧ fn_source f = sourceForActor (actor_type actor)
  ∧ (¬ by_human → isFinalDisposition (fn_status f) = false).

(** The claim and its evidence; only its decision or its replacement is
    recorded later, once. *)
Definition claim_origin (v : VerificationRow) :=
  (vf_id v, vf_organisation_id v, vf_project_id v, vf_review_id v, vf_finding_id v,
   (vf_summary v, vf_branch v, vf_commit_sha v, vf_tested_viewports v, vf_checks v,
    vf_submitted_by v, vf_submitted_at v, vf_supersedes_verification_id v)).

Record verification_step (v v' : VerificationRow) : Prop := {
  vs_scope : verification_in scope v = true;
  vs_origin : claim_origin v' = claim_origin v;
  vs_current : vf_status v = submitted ∧ vf_status v' ≠ submitted;
  vs_human : ¬ by_human → vf_status v' = superseded
}.
Lemma submitted_undecided : submitted ∉ [accepted; rejected].
Proof. set_solver. Qed.
Definition verification_born (v : VerificationRow) : Prop :=
  verification_in scope v = true ∧ vf_submitted_by v = actor
  ∧ (¬ by_human → vf_status v ∉ [accepted; rejected]).

(** A comment is only ever marked as superseded. *)
Definition comment_step (c c' : CommentRow) : Prop :=
  comment_in scope c = true ∧ cm_superseded_at c = None
  ∧ ∃ time, c' = superseded_comment c time.
Definition comment_born (c : CommentRow) : Prop :=
  comment_in scope c = true ∧ cm_created_by c = actor.

(** A revision of an annotation never changes. *)
Definition annotation_step (a a' : AnnotationRow) : Prop := False.
Definition annotation_born (a : AnnotationRow) : Prop :=
  annotation_in scope a = true ∧ an_created_by a = actor.

Definition delivery_origin (i : InboxRow) :=
  (in_id i, in_organisation_id i, in_project_id i, in_recipient_type i, in_recipient_id i,
   in_type i, in_title i, (in_review_id i, in_finding_id i, in_payload i, in_created_by i,
   in_created_at i)).
Definition inbox_step (i i' : InboxRow) : Prop :=
  inbox_in scope i = true ∧ delivery_origin i' = delivery_origin i
  ∧ in_status i ∈ TRANSITIONS (in_status i').
Definition inbox_born (i : InboxRow) : Prop :=
  inbox_in scope i = true ∧ in_created_by i = Some actor.

Record evolves (d d' : Db) : Prop := {
  evo_reviews : changes review_step review_born (reviews d) (reviews d');
  evo_findings : changes finding_step finding_born (findings d) (findings d');
  evo_verifications : changes verification_step verification_born
                        (verifications d) (verifications d');
  evo_comments : changes comment_step comment_born (comments d) (comments d');
  evo_annotations : changes annotation_step annotation_born (annotations d) (annotations d');
  evo_inbox : changes inbox_step inbox_born (inbox_items d) (inbox_items d');
  evo_evidence : verification_artefacts d `prefix_of` verification_artefacts d';
  evo_log : ∃ types, logs scope actor types d d';
  evo_foreign : foreign d' = foreign d
}.
End steps.

(** ** A preorder *)

Section preorder.
Context (scope : Scope) (actor : EventActor).

Lemma review_step_trans a b c :
  review_step scope actor a b → review_step scope actor b c → review_step scope actor a c.
Proof.
  intros [Hs Ho Hv Hh] [Hs' Ho' Hv' Hh']. split; [done|congruence|lia|].
  intros Hn. destruct (Hh Hn) as [Ha Hst], (Hh' Hn) as [Ha' Hst']. split; [congruence|].
  destruct (isImmutableReviewStatus (rv_status a)) eqn:Hi; cbn in *.
  - intros _. rewrite Hst in * by done. rewrite Hi in *. by rewrite Hst'.
  - intros Hc. rewrite Hc, orb_true_r in Hst'. rewrite Hst' in * by done.
    by rewrite Hst.
Qed.

Lemma finding_step_trans a b c :
  finding_step scope actor a b → finding_step scope actor b c → finding_step scope actor a c.
Proof.
  intros [Hs Ho Hv Hh] [Hs' Ho' Hv' Hh']. split; [done|congruence|lia|].
  intros Hn. destruct (Hh Hn) as [Ha Hst], (Hh' Hn) as [Ha' Hst']. split; [congruence|].
  destruct (isFinalDisposition (fn_status a)) eqn:Hi; cbn in *.
  - intros _. rewrite Hst in * by done. rewrite Hi in *. by rewrite Hst'.
  - intros Hc. rewrite Hc, orb_true_r in Hst'. rewrite Hst' in * by done.
    by rewrite Hst.
Qed.

(** A claim changes once. *)
Lemma verification_step_trans a b c :
  verification_step scope actor a b → verification_step scope actor b c →
  verification_step scope actor a c.
Proof. intros [_ _ [_ Hb] _] [_ _ [Hb' _] _]. done. Qed.

Lemma comment_step_trans a b c :
  comment_step scope a b → comment_step scope b c → comment_step scope a c.
Proof. intros (_ & _ & t & ->) (_ & Hb & _). done. Qed.

Lemma inbox_step_trans a b c :
  inbox_step scope a b → inbox_step scope b c → inbox_step scope a c.
Proof.
  intros (Hs & Ho & Ht) (_ & Ho' & Ht'). split_and!; [done|congruence|].
  revert Ht Ht'. generalize (in_status a) (in_status b) (in_status c).
  intros [] [] []; cbn; rewrite ?elem_of_cons, ?elem_of_nil; naive_solver.
Qed.

Lemma review_born_step a b :
  review_born scope actor a → review_step scope actor a b → review_born scope actor b.
Proof.
  intros (Hs & Hc & Hi) [_ Ho _ Hh]. unfold review_born, review_in, review_origin in *.
  split_and!; [congruence..|]. intros Hn. apply not_true_iff_false. intros Hb.
  destruct (Hh Hn) as [_ Hst]. rewrite Hb, orb_true_r in Hst. rewrite Hst in Hb by done.
  by rewrite Hi in Hb.
Qed.
Lemma finding_born_step a b :
  finding_born scope actor a → finding_step scope actor a b → finding_born scope actor b.
Proof.
  intros (Hs & Hc & Hsrc & Hi) [_ Ho _ Hh]. unfold finding_born, finding_in, finding_origin in *.
  split_and!; [congruence..|]. intros Hn. apply not_true_iff_false. intros Hb.
  destruct (Hh Hn) as [_ Hst]. rewrite Hb, orb_true_r in Hst. rewrite Hst in Hb by done.
  by rewrite Hi in Hb.
Qed.
Lemma verification_born_step a b :
  verification_born scope actor a → verification_step scope actor a b →
  verification_born scope actor b.
Proof.
  intros (Hs & Hc & _) [_ Ho _ Hh]. unfold verification_born, verification_in, claim_origin in *.
  split_and!; [congruence..|]. intros Hn. rewrite (Hh Hn). set_solver.
Qed.
Lemma comment_born_step a b :
  comment_born scope actor a → comment_step scope a b → comment_born scope actor b.
Proof. by intros (Hs & Hc) (_ & _ & t & ->). Qed.
Lemma inbox_born_step a b :
  inbox_born scope actor a → inbox_step scope a b → inbox_born scope actor b.
Proof.
  intros (Hs & Hc) (_ & Ho & _). unfold inbox_born, inbox_in, delivery_origin in *.
  split_and!; congruence.
Qed.

#[export] Instance evolves_preorder : PreOrder (evolves scope actor).
Proof.
  split.
  - intros d. split; try apply changes_refl; [done| |done].
    exists []. by apply logs_same.
  - intros d d1 d' [] []. split.
    + eapply changes_trans; eauto using review_step_trans, review_born_step.
    + eapply changes_trans; eauto using finding_step_trans, finding_born_step.
    + eapply changes_trans; eauto using verification_step_trans, verification_born_step.
    + eapply changes_trans; eauto using comment_step_trans, comment_born_step.
    + eapply changes_trans; eauto; by intros ? ? [].
    + eapply changes_trans; eauto using inbox_step_trans, inbox_born_step.
    + by etrans.
    + destruct evo_log0 as [ts ?], evo_log1 as [ts' ?]. exists (ts ++ ts').
      by eapply logs_app.
    + congruence.
Qed.
End preorder.

(** ** What each statement does to the tables *)

Section statements.
Context (scope : Scope) (actor : EventActor).

Lemma evolves_reviews d t :
  changes (review_step scope actor) (review_born scope actor) (reviews d) t →
  evolves scope actor d (with_reviews t d).
Proof. intros Ht. split; try apply changes_refl; try done. exists []. by apply logs_same. Qed.
Lemma evolves_findings d t :
  changes (finding_step scope actor) (finding_born scope actor) (findings d) t →
  evolves scope actor d (with_findings t d).
Proof. intros Ht. split; try apply changes_refl; try done. exists []. by apply logs_same. Qed.
Lemma evolves_verifications d t :
  changes (verification_step scope actor) (verification_born scope actor) (verifications d) t →
  evolves scope actor d (with_verifications t d).
Proof. intros Ht. split; try apply changes_refl; try done. exists []. by apply logs_same. Qed.
Lemma evolves_evidence d l :
  evolves scope actor d (with_verification_artefacts (verification_artefacts d ++ l) d).
Proof.
  split; try apply changes_refl; try done; [|by exists []; apply logs_same].
  by exists l.
Qed.
Lemma evolves_comments d t :
  changes (comment_step scope) (comment_born scope actor) (comments d) t →
  evolves scope actor d (with_comments t d).
Proof. intros Ht. split; try apply changes_refl; try done. exists []. by apply logs_same. Qed.
Lemma evolves_annotations d t :
  changes annotation_step (annotation_born scope actor) (annotations d) t →
  evolves scope actor d (with_annotations t d).
Proof. intros Ht. split; try apply changes_refl; try done. exists []. by apply logs_same. Qed.
Lemma evolves_inbox d t :
  changes (inbox_step scope) (inbox_born scope actor) (inbox_items d) t →
  evolves scope actor d (with_inbox_items t d).
Proof. intros Ht. split; try apply changes_refl; try done. exists []. by apply logs_same. Qed.
Lemma evolves_log d l types :
  logs scope actor types d (with_log l d) → evolves scope actor d (with_log l d).
Proof. intros Hl. split; try apply changes_refl; try done. by exists types. Qed.

Lemma in_own_scope : in_scope scope (organisationId scope) (projectId scope) = true.
Proof. unfold in_scope. by rewrite !bool_decide_true. Qed.
End statements.

(** ** Statements and operations that only add *)

Section additions.
Context `{Entropy} `{ArtefactStore} (scope : Scope) (actor : EventActor) (d0 : Db).

Abbreviation stays := (preserves (evolves scope actor d0)).

Lemma append_stays type correlation payload :
  stays (append type scope actor correlation payload).
Proof.
  apply preserves_append. intros id time l d Hd Ha. etrans; [exact Hd|].
  apply appendEvent_ok in Ha
    as (_ & _ & _ & e & _ & Ht & Hact & _ & _ & Hp & Ho & _ & _ & _ & He & _).
  apply (evolves_log _ _ _ _ [type]). exists [e]. cbn in *. split; [done|].
  split; [by rewrite Ht|]. by repeat constructor.
Qed.

Local Ltac fresh_row :=
  match goal with
  | H : violated (_ :: _) = None |- _ => rewrite violated_cons in H; cbn in H;
      destruct H as [H%bool_decide_eq_true _]; exact H
  end.

Lemma insert_review_stays r : review_born scope actor r → stays (insert_review r).
Proof.
  intros Hr. apply preserves_guarded. intros d Hd _ Hu. etrans; [exact Hd|].
  apply evolves_reviews, changes_insert_new; [fresh_row|done].
Qed.
Lemma insert_finding_stays f : finding_born scope actor f → stays (insert_finding f).
Proof.
  intros Hr. apply preserves_guarded. intros d Hd _ Hu. etrans; [exact Hd|].
  apply evolves_findings, changes_insert_new; [fresh_row|done].
Qed.
Lemma insert_verification_stays v :
  verification_born scope actor v → stays (insert_verification v).
Proof.
  intros Hr. apply preserves_guarded. intros d Hd _ Hu. etrans; [exact Hd|].
  apply evolves_verifications, changes_insert_new; [fresh_row|done].
Qed.
Lemma insert_verification_artefact_stays a : stays (insert_verification_artefact a).
Proof.
  unfold insert_verification_artefact. apply preserves_bind; [apply preserves_gets|intros o].
  apply preserves_bind; [destruct o; [apply preserves_ret|apply preserves_throw]|intros ?].
  apply preserves_guarded. intros d Hd _ Hu. etrans; [exact Hd|]. apply evolves_evidence.
Qed.
Lemma insert_comment_stays c : comment_born scope actor c → stays (insert_comment c).
Proof.
  intros Hr. apply preserves_guarded. intros d Hd _ Hu. etrans; [exact Hd|].
  apply evolves_comments, changes_insert_new; [fresh_row|done].
Qed.
Lemma insert_annotation_stays a : annotation_born scope actor a → stays (insert_annotation a).
Proof.
  intros Hr. apply preserves_guarded. intros d Hd _ Hu. etrans; [exact Hd|].
  apply evolves_annotations, changes_insert_new; [fresh_row|done].
Qed.
Lemma insert_inbox_item_stays i : inbox_born scope actor i → stays (insert_inbox_item i).
Proof.
  intros Hi. unfold insert_inbox_item. intros s r s' Hr HP.
  unfold mbind at 1, M_bind, gets in Hr. unfold mbind at 1, M_bind in Hr.
  destruct (guard_row (inbox_checks i) [] s) as [[u|e] s1] eqn:Hg.
  - apply guard_row_ok in Hg as (_ & _ & ->).
    destruct (is_fresh _ _ && negb _) eqn:Ht; [|by injection Hr as _ <-].
    apply andb_true_iff in Ht as [Ht%bool_decide_eq_true _].
    injection Hr as _ <-. etrans; [exact HP|].
    by apply evolves_inbox, changes_insert_new.
  - injection Hr as _ <-. by eapply preserves_guard_row.
Qed.

Create HintDb stays.
Hint Resolve append_stays insert_review_stays insert_finding_stays insert_verification_stays
  insert_verification_artefact_stays insert_comment_stays insert_annotation_stays
  insert_inbox_item_stays : stays.

(** A row built in the caller's scope by the caller. *)
Local Ltac born :=
  split_and!; cbn; first [apply in_own_scope | done | intros _; apply submitted_undecided].
Hint Extern 4 (review_born _ _ _) => born : stays.
Hint Extern 4 (finding_born _ _ _) => born : stays.
Hint Extern 4 (verification_born _ _ _) => born : stays.
Hint Extern 4 (comment_born _ _ _) => born : stays.
Hint Extern 4 (annotation_born _ _ _) => born : stays.

Ltac stay := repeat first [ solve [auto with stays nocore] | preserve_step ].

Lemma create_stays input :
  ci_organisationId input = organisationId scope → ci_projectId input = projectId scope →
  stays (create input actor).
Proof.
  intros Ho Hp. unfold create. apply preserves_bind; [apply preserves_newId|intros id].
  apply preserves_bind; [apply preserves_now|intros time].
  apply preserves_bind.
  - apply insert_inbox_item_stays. split; [|done]. unfold inbox_in. cbn. rewrite Ho, Hp.
    apply in_own_scope.
  - intros []; [|stay]. cbn [in_organisation_id in_project_id]. rewrite Ho, Hp.
    assert ({| organisationId := organisationId scope; projectId := projectId scope |} = scope)
      as -> by by destruct scope. stay.
Qed.

Lemma createReview_stays input : stays (createReview scope input actor).
Proof.
  unfold createReview, requireSessionInProject. apply preserves_check. intros Hstatus.
  assert (isImmutableReviewStatus (default DRAFT (cr_status input)) = false) as Hopen
    by (revert Hstatus; by destruct (default DRAFT (cr_status input))).
  assert (∀ id time, review_born scope actor
    (new_review id time scope input (default DRAFT (cr_status input)) actor))
    by (intros; split_and!; [apply in_own_scope|done|done]).
  stay.
Qed.
Lemma createFinding_stays rid input : stays (createFinding scope rid input actor).
Proof.
  unfold createFinding, getReview, requireAvailableArtefact, insertAnnotation, annotated_event.
  stay.
Qed.
Lemma createAnnotation_stays fid input : stays (createAnnotation scope fid input actor).
Proof.
  unfold createAnnotation, getFinding, lockFinding, requireAvailableArtefact, insertAnnotation,
    annotated_event. stay.
Qed.
Lemma updateAnnotation_stays id input : stays (updateAnnotation scope id input actor).
Proof. unfold updateAnnotation, lockAnnotation, annotated_event. stay. Qed.
Lemma withdrawAnnotation_stays id revision :
  stays (withdrawAnnotation scope id revision actor).
Proof. unfold withdrawAnnotation, lockAnnotation, annotated_event. stay. Qed.
Lemma prepareSubmission_stays fid input : stays (prepareSubmission scope fid input).
Proof.
  unfold prepareSubmission, getFinding, getReview, requireOwnedEvidence, requireReachableEvidence.
  stay.
Qed.
Lemma recordDenial_stays e : stays (recordDenial scope actor e).
Proof. unfold recordDenial. stay. Qed.
Lemma deliver_reopened_stays f : stays (deliver_reopened scope actor f).
Proof.
  unfold deliver_reopened. apply preserves_bind; [apply preserves_gets|intros []]; [|stay].
  apply preserves_bind; [by apply create_stays|intros ?; stay].
Qed.
End additions.

(** ** Operations that change a row: the row is the one that was read *)

Section evolving.
Context `{Entropy} `{ArtefactStore} (scope : Scope) (actor : EventActor).

Definition evolving {A} (m : M A) : Prop :=
  ∀ s r s', db_ok (db s) → m s = (r, s') → evolves scope actor (db s) (db s').

Lemma evolving_stays {A} (m : M A) :
  (∀ d0, preserves (evolves scope actor d0) m) → evolving m.
Proof. intros Hm s r s' _ Hr. by eapply Hm. Qed.

Lemma evolving_bind {A B} (m : M A) (f : A → M B) :
  evolving m → preserves db_ok m → (∀ a, evolving (f a)) → evolving (m ≫= f).
Proof.
  intros Hm Hok Hf s r s' Hs. unfold mbind, M_bind. destruct (m s) as [[a|e] s1] eqn:Hr.
  - intros Hr'. etrans; [by eapply Hm|]. eapply Hf; [|done]. by eapply Hok.
  - intros [= _ <-]. by eapply Hm.
Qed.

Lemma evolving_transaction {A} (m : M A) :
  (∀ s a s', db_ok (db s) → m s = (Ok a, s') → evolves scope actor (db s) (db s')) →
  evolving (inTransaction m).
Proof.
  intros Hm s r s' Hs. unfold inTransaction. destruct (m s) as [[a|e] s1] eqn:Hr.
  - intros [= _ <-]. by eapply Hm.
  - by intros [= _ <-].
Qed.

Lemma evolving_catching {A} (m : M A) h :
  evolving m → preserves db_ok m → (∀ e, evolving (h e)) → evolving (catching m h).
Proof.
  intros Hm Hok Hh s r s' Hs. unfold catching. destruct (m s) as [[a|e] s1] eqn:Hr.
  - intros [= _ <-]. by eapply Hm.
  - intros Hr'. etrans; [by eapply Hm|]. eapply Hh; [|done]. by eapply Hok.
Qed.

(** The row is written, and the rest of the operation only adds. *)
Lemma changed_then {A} (m : M A) s s1 r s' :
  evolves scope actor (db s) (db s1) → m s1 = (r, s') →
  (∀ d0, preserves (evolves scope actor d0) m) → evolves scope actor (db s) (db s').
Proof. intros Hc Hr Hm. by eapply Hm. Qed.

Lemma review_changed d id r r' :
  db_ok d → find_row (reviews d) (review_in scope) id = Some r → rv_id r' = rv_id r →
  review_step scope actor r r' →
  evolves scope actor d (with_reviews (<[rv_id r' := r']> (reviews d)) d).
Proof.
  intros Hok [Hf Hin]%find_row_Some -> Hstep.
  apply evolves_reviews, (changes_insert_old _ _ _ _ r); [|done].
  by rewrite (rows_ok_key _ _ _ _ _ (reviews_ok _ Hok) Hf).
Qed.
Lemma finding_changed d id f f' :
  db_ok d → find_row (findings d) (finding_in scope) id = Some f → fn_id f' = fn_id f →
  finding_step scope actor f f' →
  evolves scope actor d (with_findings (<[fn_id f' := f']> (findings d)) d).
Proof.
  intros Hok [Hf Hin]%find_row_Some -> Hstep.
  apply evolves_findings, (changes_insert_old _ _ _ _ f); [|done].
  by rewrite (rows_ok_key _ _ _ _ _ (findings_ok _ Hok) Hf).
Qed.

(** Only a human moves a review or a finding out of a decision. *)
Lemma closed_review_moved_by_human a f t :
  mayActorMoveReview a f t = true → isImmutableReviewStatus f = true → a = human_user.
Proof. by_table. Qed.
Lemma final_finding_moved_by_human a f t :
  mayActorMoveFinding a f t = true → isFinalDisposition f = true → a = human_user.
Proof. by_table. Qed.

Lemma review_after_step d id input time r r' d' :
  review_updated scope id input actor d time r r' d' → review_step scope actor r r'.
Proof.
  intros Hu. pose proof (ru_row _ _ _ _ _ _ _ _ _ Hu) as Hrow.
  pose proof (ru_found _ _ _ _ _ _ _ _ _ Hu) as [_ Hin]%find_row_Some.
  split; [done|by rewrite Hrow|rewrite Hrow; cbn; lia|]. intros Hn.
  assert (rv_status r' ≠ rv_status r →
    isImmutableReviewStatus (rv_status r) = false
    ∧ isImmutableReviewStatus (rv_status r') = false) as Hmove.
  { intros Hne. destruct (review_updated_move Hu Hne) as [Hm Hh].
    split; apply not_true_iff_false; [|by intros ?%Hh].
    intros Hi. by apply Hn, (closed_review_moved_by_human _ _ _ Hm). }
  split.
  - rewrite (review_updated_status Hu) in Hmove. rewrite Hrow. unfold review_after. cbn.
    case_bool_decide as Heq; [done|]. destruct (Hmove Heq) as [Hf Ht]. cbn [negb andb].
    rewrite !bool_decide_false; [done|..]; intros Hs; rewrite Hs in *; done.
  - intros Hc. apply dec_stable. intros Hne. destruct (Hmove Hne) as [Hf Ht].
    by rewrite Hf, Ht in Hc.
Qed.

Lemma finding_after_step d id input time f f' d' :
  finding_updated scope id input actor d time f f' d' → finding_step scope actor f f'.
Proof.
  intros Hu. pose proof (fu_row _ _ _ _ _ _ _ _ _ Hu) as Hrow.
  pose proof (fu_found _ _ _ _ _ _ _ _ _ Hu) as [_ Hin]%find_row_Some.
  split; [done|by rewrite Hrow|rewrite Hrow; cbn; lia|]. intros Hn.
  assert (fn_status f' ≠ fn_status f →
    isFinalDisposition (fn_status f) = false ∧ isFinalDisposition (fn_status f') = false
    ∧ fn_status f' ≠ REOPENED) as Hmove.
  { intros Hne. destruct (updated_move Hu Hne) as (Hm & Hh & _).
    split_and!; [..|by intros Hr; rewrite Hr in Hm; apply reopened_by_human in Hm].
    - apply not_true_iff_false. intros Hi. by apply Hn, (final_finding_moved_by_human _ _ _ Hm).
    - apply not_true_iff_false. by intros ?%Hh. }
  split.
  - rewrite (updated_status Hu) in Hmove. rewrite Hrow. unfold finding_after, disposing, reopening,
      moving. cbn.
    case_bool_decide as Heq; [done|]. destruct (Hmove Heq) as (Hf & Ht & Hr). cbn [negb andb].
    rewrite Ht, bool_decide_false by done. done.
  - intros Hc. apply dec_stable. intros Hne. destruct (Hmove Hne) as (Hf & Ht & _).
    by rewrite Hf, Ht in Hc.
Qed.

(** Assigning and claiming. *)
Lemma reassigned_step r user session time fields :
  review_in scope r = true → fields ≠ [] →
  pass (assertReviewMutable (rv_status r) None fields) →
  review_step scope actor r (reassigned r user session (taken_status (rv_status r)) time).
Proof.
  intros Hin Hfields Hm. apply assertReviewMutable_pass in Hm as [Hm|[Hm _]]; [|done].
  split; [done|done|cbn; lia|]. intros _. split; [done|]. cbn. rewrite Hm. cbn [orb].
  unfold taken_status. case_bool_decide; [done|]. by rewrite Hm.
Qed.
End evolving.

(** ** The operations *)

Section operations.
Context `{Entropy} `{ArtefactStore} (scope : Scope) (actor : EventActor).

Abbreviation evolving := (evolving scope actor).

Lemma evolves_logged d d' t types :
  evolves scope actor d t → logs scope actor types d d' → log t = log d →
  d' = with_log (log d') t → evolves scope actor d d'.
Proof.
  intros Hd Hl Ht ->. etrans; [exact Hd|]. apply (evolves_log _ _ _ _ types).
  destruct Hl as (es & He & Hl). exists es. by rewrite Ht.
Qed.

(** [try { inTransaction } catch]: a failed transaction left nothing. *)
Lemma evolving_attempt {A} (m : M A) h :
  (∀ s a s', db_ok (db s) → m s = (Ok a, s') → evolves scope actor (db s) (db s')) →
  (∀ e, evolving (h e)) → evolving (catching (inTransaction m) h).
Proof.
  intros Hm Hh s r s' Hs. unfold catching, inTransaction.
  destruct (m s) as [[a|e] s1] eqn:Hr.
  - intros [= _ <-]. by eapply Hm.
  - intros Hr'. by apply (Hh e (with_db (db s) s1) r s').
Qed.

Lemma denied_evolving e (f : Failure) :
  evolving ((recordDenial scope actor e ;; throwM f) : M ReviewRow)
  ∧ evolving ((recordDenial scope actor e ;; throwM f) : M FindingRow).
Proof.
  split; (apply evolving_stays; intros; apply preserves_bind;
    [apply recordDenial_stays|intros; apply preserves_throw]).
Qed.

Lemma updateReview_evolving id input : evolving (updateReview scope id input actor).
Proof.
  unfold updateReview. apply evolving_bind.
  { apply evolving_stays. intros. apply preserves_set_denied. }
  { apply preserves_set_denied. }
  intros []. apply evolving_attempt; [|intros e; apply denied_evolving].
  intros s r' s' Hok Hr.
  destruct (updateReview_body_run _ _ _ _ _ _ _ Hok Hr) as [r Hu].
  pose proof (ru_row _ _ _ _ _ _ _ _ _ Hu) as Hrow.
  destruct (ru_logs _ _ _ _ _ _ _ _ _ Hu) as [types Hl].
  eapply evolves_logged; [|exact Hl| |apply (ru_db _ _ _ _ _ _ _ _ _ Hu)]; [|done].
  eapply review_changed; [done|apply (ru_found _ _ _ _ _ _ _ _ _ Hu)|by rewrite Hrow|].
  by eapply review_after_step.
Qed.

(** The common part of assigning and claiming, up to the [UPDATE]. *)
Lemma taken_evolves id r user session time fields s u s' :
  db_ok (db s) → find_row (reviews (db s)) (review_in scope) id = Some r →
  pass (assertReviewMutable (rv_status r) None fields) → fields ≠ [] →
  update_review (reassigned r user session (taken_status (rv_status r)) time) s = (Ok u, s') →
  evolves scope actor (db s) (db s').
Proof.
  intros Hok Hf Hm Hne (_ & ->)%update_review_run. cbn.
  eapply (review_changed _ _ _ _ _ (reassigned _ _ _ _ _)); [done|exact Hf|done|].
  apply find_row_Some in Hf as [_ Hin]. by eapply reassigned_step.
Qed.

Ltac stay :=
  repeat first [ apply append_stays | by apply create_stays | preserve_step ].

Lemma assignReview_evolving id input : evolving (assignReview scope id input actor).
Proof.
  unfold assignReview, requireUserInOrganisation, requireAgentSessionInProject.
  repeat (apply evolving_bind; [apply evolving_stays; intros; by stay|by stay|intros ?]).
  apply evolving_transaction. unfold assignReview_body. intros s r' s' Hok Hr.
  apply bindM_ok in Hr as (r & s1 & (-> & Hfind)%lockReview_run & Hr).
  apply bindM_ok in Hr as (? & s1 & (_ & ->)%lift_ok & Hr).
  apply bindM_ok in Hr as ([] & s1 & (Hm & ->)%lift_ok & Hr).
  apply bindM_ok in Hr as (? & s1 & (_ & ->)%lift_ok & Hr).
  apply bindM_ok in Hr as (time & s1 & (-> & ->)%now_ok & Hr).
  apply bindM_ok in Hr as (? & s1 & Hu & Hr).
  eapply changed_then; [by eapply taken_evolves|exact Hr|]. intros d0.
  unfold review_status_changed_event. cbv zeta. stay.
Qed.

Lemma claimReview_evolving id version : evolving (claimReview scope id version actor).
Proof.
  apply evolving_transaction. intros s r' s' Hok Hr.
  apply bindM_ok in Hr as (r & s1 & (-> & Hfind)%lockReview_run & Hr).
  apply bindM_ok in Hr as (? & s1 & (_ & ->)%lift_ok & Hr).
  apply bindM_ok in Hr as ([] & s1 & (Hm & ->)%lift_ok & Hr).
  apply bindM_ok in Hr as (? & s1 & (_ & ->)%lift_ok & Hr).
  apply bindM_ok in Hr as (time & s1 & (-> & ->)%now_ok & Hr).
  apply bindM_ok in Hr as (? & s1 & Hu & Hr).
  eapply changed_then; [by eapply taken_evolves|exact Hr|]. intros d0.
  unfold review_status_changed_event. cbv zeta. stay.
Qed.

(** *** Verifications *)

Lemma update_verification_run v s u s' :
  update_verification v s = (Ok u, s') →
  violated (verification_checks v) = None
  ∧ s' = with_db (with_verifications (<[vf_id v := v]> (verifications (db s))) (db s)) s.
Proof. unfold update_verification. intros Hr. inv_run. done. Qed.

Lemma claim_changed d v v' :
  verifications d !! vf_id v = Some v → verification_step scope actor v v' →
  vf_id v' = vf_id v →
  evolves scope actor d (with_verifications (<[vf_id v' := v']> (verifications d)) d).
Proof.
  intros Hv Hstep ->. by apply evolves_verifications, (changes_insert_old _ _ _ _ v).
Qed.

Lemma is_current_spec id v :
  is_current scope id v = true →
  verification_in scope v = true ∧ vf_status v = submitted ∧ vf_finding_id v = id.
Proof.
  unfold is_current, verification_of. rewrite !andb_true_iff, !bool_decide_eq_true. tauto.
Qed.

(** The decision on the current claim. *)
Lemma decide_claim_evolves reason yes claim f v s u s' :
  by_human actor →
  find_row (verifications (db s)) (verification_in scope) (cc_id claim) = Some v →
  vf_id v = cc_id claim → vf_status v = submitted →
  decide_claim scope actor reason yes claim f s = (Ok u, s') →
  evolves scope actor (db s) (db s').
Proof.
  intros Hhuman Hf Hid Hst Hr. unfold decide_claim in Hr.
  apply bindM_ok in Hr as (time & s1 & (-> & ->)%now_ok & Hr).
  apply bindM_ok in Hr as (row & s1 & (-> & ->)%gets_ok & Hr). rewrite Hf in Hr.
  apply bindM_ok in Hr as ([] & s1 & (_ & ->)%update_verification_run & Hr).
  eapply changed_then; [|exact Hr|intros; apply append_stays].
  apply find_row_Some in Hf as [Hf Hin]. cbn.
  eapply (claim_changed _ v (decided_verification _ _ _ _)); [by rewrite Hid| |done].
  split; [done|done|by destruct yes|done].
Qed.

Lemma updateFinding_tail_evolves id input f claim n g s f' s' :
  (∀ c, claim = Some c → by_human actor ∧
     ∃ v, find_row (verifications (db s)) (verification_in scope) (cc_id c) = Some v
          ∧ vf_id v = cc_id c ∧ vf_status v = submitted) →
  updateFinding_tail scope id input actor f claim n g s = (Ok f', s') →
  evolves scope actor (db s) (db s').
Proof.
  intros Hclaim Hr. unfold updateFinding_tail in Hr. cbv zeta in Hr.
  apply bindM_ok in Hr as (? & s1 & H1 & Hr). apply bindM_ok in Hr as (? & s2 & H2 & Hr).
  assert (evolves scope actor (db s) (db s2) ∧ verifications (db s2) = verifications (db s))
    as [Hevo Hv].
  { apply (whenM_wrote scope actor _ _ ["finding.claimed"]) in H1;
      [|by intros; eapply append_wrote].
    apply (whenM_wrote scope actor _ _ ["finding.status_changed"]) in H2;
      [|by intros; eapply append_wrote].
    pose proof (wrote_app _ _ _ _ _ _ _ H1 H2) as Hw. pose proof (wrote_logs _ _ _ _ _ Hw) as Hl.
    apply wrote_db in Hw. split; [|by rewrite Hw].
    by eapply evolves_logged; [|exact Hl| |exact Hw]. }
  apply bindM_ok in Hr as (? & s3 & H3 & Hr).
  assert (evolves scope actor (db s2) (db s3)) as Hevo3.
  { destruct claim as [c|]; [|by apply retM_ok in H3 as [_ ->]].
    apply whenM_ok in H3 as [[_ H3]|[_ ->]]; [|done].
    destruct (Hclaim c eq_refl) as (Hh & v & Hf & Hid & Hst).
    eapply decide_claim_evolves; [done|by rewrite Hv|done|done|exact H3]. }
  eapply changed_then; [by etrans|exact Hr|]. intros d0. unfold writeComment,
    finding_resolved_event, finding_reopened_event.
  repeat first [ apply append_stays | apply deliver_reopened_stays
    | apply insert_comment_stays; split; [apply in_own_scope|done] | preserve_step ].
Qed.

Lemma updateFinding_evolving id input : evolving (updateFinding scope id input actor).
Proof.
  unfold updateFinding. apply evolving_bind.
  { apply evolving_stays. intros. apply preserves_set_denied. }
  { apply preserves_set_denied. }
  intros []. apply evolving_attempt; [|intros e; apply denied_evolving].
  intros s f' s' Hok Hr.
  destruct (updateFinding_body_run _ _ _ _ _ _ _ Hok Hr) as [f0 Hu].
  apply updateFinding_checks_run in Hr
    as (f & claim & n & sc & su & Hfind & _ & _ & _ & Hclaim & Hdbc & _ & Hupd & Htail).
  assert (f0 = f) as -> by (pose proof (fu_found _ _ _ _ _ _ _ _ _ Hu); congruence).
  set (g := finding_after f input actor (clock s)) in *.
  assert (f' = g) as -> by apply (fu_row _ _ _ _ _ _ _ _ _ Hu).
  apply update_finding_run in Hupd as [_ ->]. rewrite Hdbc in Htail.
  etrans; [eapply (finding_changed _ _ _ _ _ g); [done|exact Hfind|done|]|].
  { by eapply finding_after_step. }
  apply updateFinding_tail_evolves in Htail; [exact Htail|]. cbn.
  intros c ->. cbv zeta in Hclaim.
  change (default (fn_status f) (uf_status input)) with (fn_status g) in Hclaim.
  destruct (disposing f (fn_status g) || reopening f (fn_status g)) eqn:Hd; [|done].
  destruct Hclaim as [Hcid _].
  destruct (current_row (db s) scope id) as [v|] eqn:Hcur; [|done]. injection Hcid as Hcid.
  split.
  - assert (fn_status g ≠ fn_status f) as Hne.
    { intros Heq. unfold disposing, reopening, moving in Hd.
      by rewrite bool_decide_true in Hd. }
    destruct (updated_move Hu Hne) as (Hm & Hh & _).
    apply orb_true_iff in Hd as [[_ Hd]%andb_true_iff|[_ Hd%bool_decide_eq_true]%andb_true_iff].
    + by apply Hh.
    + rewrite Hd in Hm. by apply reopened_by_human in Hm.
  - exists v. rewrite Hcid. split; [by eapply find_current|]. split; [done|].
    apply current_row_spec in Hcur as [Hcur _]. by apply is_current_spec in Hcur as (_ & ? & _).
Qed.

(** *** Comments *)

Lemma insertComment_evolving rid fid body prev :
  evolving (insertComment scope rid fid body prev actor).
Proof.
  apply evolving_transaction. intros s c s' Hok Hr. unfold writeComment in Hr.
  apply bindM_ok in Hr as (id & s1 & (_ & Hdb & _)%newId_ok & Hr). rewrite <- Hdb in *.
  apply bindM_ok in Hr as (time & s2 & (-> & ->)%now_ok & Hr).
  apply bindM_ok in Hr as ([] & s2 & Hprev & Hr).
  eapply changed_then; [|exact Hr|].
  - destruct prev as [p|]; [|by apply retM_ok in Hprev as [_ ->]].
    unfold update_comment in Hprev. inv_run. cbn.
    match goal with H : find_row _ _ _ = Some _ |- _ =>
      apply find_row_Some in H as [Hf [Hin Hsup%bool_decide_eq_true]%andb_true_iff] end.
    rewrite (rows_ok_key _ _ _ _ _ (comments_ok _ Hok) Hf).
    eapply evolves_comments, changes_insert_old; [exact Hf|]. split_and!; [done..|]. by eexists.
  - intros d0.
    repeat first [ apply append_stays
      | apply insert_comment_stays; split; [apply in_own_scope|done] | preserve_step ].
Qed.

Lemma addComment_evolving fid body : evolving (addComment scope fid body actor).
Proof.
  apply evolving_bind; [|apply getFinding_ok|intros; apply insertComment_evolving].
  apply evolving_stays. intros. unfold getFinding, lockFinding. stay.
Qed.
Lemma addReviewComment_evolving rid body : evolving (addReviewComment scope rid body actor).
Proof.
  apply evolving_bind; [|apply getReview_ok|intros; apply insertComment_evolving].
  apply evolving_stays. intros. unfold getReview. stay.
Qed.
Lemma editComment_evolving id body : evolving (editComment scope id body actor).
Proof.
  unfold editComment.
  repeat (apply evolving_bind; [apply evolving_stays; intros; by stay|by stay|intros ?]).
  apply insertComment_evolving.
Qed.

(** *** The inbox *)

Lemma transition_evolving id t reason recipient :
  evolving (transition scope id t actor reason recipient).
Proof.
  apply evolving_transaction. intros s x s' Hok Hr.
  apply bindM_ok in Hr as (row & s1 & (-> & ->)%gets_ok & Hr).
  apply bindM_ok in Hr as (i & s1 & (Hf & ->)%unless_none_ok & Hr).
  apply bindM_ok in Hr as (? & s1 & (_ & ->)%lift_ok & Hr).
  case_bool_decide; [by apply retM_ok in Hr as [_ ->]|].
  apply bindM_ok in Hr as ([] & s1 & (Ht & ->)%lift_ok & Hr).
  apply bindM_ok in Hr as (time & s1 & (-> & ->)%now_ok & Hr).
  apply bindM_ok in Hr as (? & s1 & Hu & Hr).
  eapply changed_then; [|exact Hr|intros; stay].
  unfold update_inbox_item in Hu. inv_run. cbn.
  apply find_row_Some in Hf as [Hf Hin].
  eapply evolves_inbox, (changes_insert_old _ _ _ _ i);
    [by rewrite (rows_ok_key _ _ _ _ _ (inbox_ok _ Hok) Hf)|].
  split; [done|]. split; [done|]. cbn.
  unfold includes in Ht.
  destruct (bool_decide (in_status i ∈ TRANSITIONS t)) eqn:Hb; [|done].
  by apply bool_decide_eq_true in Hb.
Qed.
(** *** Submissions *)

Lemma noted_finding_step id input sb d time f v f' d' :
  submission_recorded scope id input actor sb d time f v f' d' → finding_step scope actor f f'.
Proof.
  intros Hc. pose proof (sr_row _ _ _ _ _ _ _ _ _ _ _ Hc) as Hrow.
  pose proof (sr_found _ _ _ _ _ _ _ _ _ _ _ Hc) as [_ Hin]%find_row_Some.
  split; [done|by rewrite Hrow|rewrite Hrow; cbn; lia|]. intros _. split; [by rewrite Hrow|].
  destruct (noted_status Hc) as [?|(-> & _ & ->)]; done.
Qed.

Lemma replaced_evolves d id replacement time :
  db_ok d → evolves scope actor d (replaced d scope id replacement time).
Proof.
  intros Hok. unfold replaced. destruct (current_row d scope id) as [v|] eqn:Hv; [|done].
  apply current_row_iff in Hv as [Hk (Hin & Hst & _)%is_current_true]; [|done].
  by apply (claim_changed _ v (superseded_verification _ _ _)).
Qed.

Lemma commitSubmission_evolving id input sb :
  evolving (commitSubmission scope id input actor sb).
Proof.
  intros s [[v f']|e] s' Hok Hr; [|by apply inTransaction_err in Hr as ->].
  destruct (commitSubmission_run _ _ _ _ _ _ _ _ _ Hok Hr) as [f Hc].
  pose proof (replaced_evolves (db s) id (sb_id sb) (clock s) Hok) as Hrep.
  pose proof (noted_finding_step _ _ _ _ _ _ _ _ _ Hc) as Hstep.
  pose proof Hc as [Hf _ Hv Hfresh Hver Hev Hrow Hfn (Hr1 & Hr2 & Hr3 & Hr4 & Hr5) Hlog].
  split.
  - rewrite Hr1. apply changes_refl.
  - rewrite Hfn. apply find_row_Some in Hf as [Hf _].
    apply (changes_insert_old _ _ _ _ f); [|done].
    by rewrite (rows_ok_key _ _ _ _ _ (findings_ok _ Hok) Hf).
  - rewrite Hver. eapply changes_trans; [apply verification_step_trans|
      apply verification_born_step|apply (evo_verifications _ _ _ _ Hrep)|].
    apply changes_insert_new; [done|]. rewrite Hv.
    split_and!; [apply in_own_scope|reflexivity|intros _; apply submitted_undecided].
  - rewrite Hr2. apply changes_refl.
  - rewrite Hr3. apply changes_refl.
  - rewrite Hr4. apply changes_refl.
  - rewrite Hev. by eexists.
  - by eexists.
  - done.
Qed.

Lemma submitVerification_evolving id input :
  evolving (submitVerification scope id input actor).
Proof.
  apply evolving_bind; [apply evolving_stays; intros; apply prepareSubmission_stays|
    apply prepareSubmission_ok|intros sb].
  apply evolving_bind; [apply commitSubmission_evolving|apply commitSubmission_ok|intros r].
  apply evolving_stays. intros. apply preserves_ret.
Qed.
End operations.
