(* ===== verification/Lifecycle.v ===== *)
(** * The service as a system of steps: every request a caller can make, the two
    phases of a submission apart, and what no sequence of them can do *)

From S2P Require Import Prelude Errors ReviewProtocol ReviewDomain Events Completion EntityId Geometry Store Records Inbox ReviewService FindingService VerificationService Preserve Invariants Samples Effects FindingTheorems SubmissionTheorems ReviewTheorems Evolution.

(** ** The steps *)

(** The requests that run in one transaction, with their arguments. *)
Inductive Operation :=
| CreateReview (input : CreateReviewInput)
| UpdateReview (id : string) (input : UpdateReviewInput)
| ReopenReview (id : string) (input : ReviewTransitionInput)
| AssignReview (id : string) (input : AssignReviewInput)
| ClaimReview (id : string) (version : Z)
| CreateFinding (reviewId : string) (input : CreateFindingInput)
| UpdateFinding (id : string) (input : UpdateFindingInput)
| DisposeFinding (id : string) (disposition : FindingStatus) (input : ReviewTransitionInput)
    (duplicateOf : option string)
| ReopenFinding (id : string) (input : ReviewTransitionInput)
| CreateAnnotation (findingId : string) (input : CreateAnnotationInput)
| UpdateAnnotation (id : string) (input : UpdateAnnotationInput)
| WithdrawAnnotation (id : string) (revision : Z)
| AddComment (findingId body : string)
| AddReviewComment (reviewId body : string)
| EditComment (id body : string)
| SubmitVerification (findingId : string) (input : SubmitVerificationInput)
| TransitionInboxItem (id : string) (t : InboxItemStatus) (reason : option string)
    (recipient : option (InboxRecipientType * option string)).

Definition ignoring {A} (m : M A) : M unit := _ ← m; mret tt.

(** A submission between its two phases. *)
Record Awaiting := {
  aw_scope : Scope;
  aw_actor : EventActor;
  aw_finding : string;
  aw_input : SubmitVerificationInput;
  aw_submission : Submission
}.
Record System := { sys : St; awaiting : list Awaiting }.
Abbreviation tables x := (db (sys x)).

Section steps.
Context `{Entropy} `{ArtefactStore}.

Definition execute (scope : Scope) (actor : EventActor) (op : Operation) : M unit :=
  match op with
  | CreateReview input => ignoring (createReview scope input actor)
  | UpdateReview id input => ignoring (updateReview scope id input actor)
  | ReopenReview id input => ignoring (reopenReview scope id input actor)
  | AssignReview id input => ignoring (assignReview scope id input actor)
  | ClaimReview id version => ignoring (claimReview scope id version actor)
  | CreateFinding rid input => ignoring (createFinding scope rid input actor)
  | UpdateFinding id input => ignoring (updateFinding scope id input actor)
  | DisposeFinding id t input other => ignoring (disposeFinding scope id t input other actor)
  | ReopenFinding id input => ignoring (reopenFinding scope id input actor)
  | CreateAnnotation fid input => ignoring (createAnnotation scope fid input actor)
  | UpdateAnnotation id input => ignoring (updateAnnotation scope id input actor)
  | WithdrawAnnotation id revision => ignoring (withdrawAnnotation scope id revision actor)
  | AddComment fid body => ignoring (addComment scope fid body actor)
  | AddReviewComment rid body => ignoring (addReviewComment scope rid body actor)
  | EditComment id body => ignoring (editComment scope id body actor)
  | SubmitVerification fid input => ignoring (submitVerification scope fid input actor)
  | TransitionInboxItem id t reason recipient =>
      ignoring (transition scope id t actor reason recipient)
  end.

(** A step of the system, by a caller in a scope: a request, whatever its
    outcome; the first phase of a submission; the second phase of one that
    waits; or the passing of time. *)
Inductive step (scope : Scope) (actor : EventActor) : System → System → Prop :=
| Performed op s r s' l :
    execute scope actor op s = (r, s') →
    step scope actor {| sys := s; awaiting := l |} {| sys := s'; awaiting := l |}
| Prepared id input s sb s' l :
    prepareSubmission scope id input s = (Ok sb, s') →
    step scope actor {| sys := s; awaiting := l |}
      {| sys := s';
         awaiting := {| aw_scope := scope; aw_actor := actor; aw_finding := id;
                        aw_input := input; aw_submission := sb |} :: l |}
| Committed id input sb s r s' l l' :
    commitSubmission scope id input actor sb s = (r, s') →
    step scope actor
      {| sys := s;
         awaiting := l ++ {| aw_scope := scope; aw_actor := actor; aw_finding := id;
                             aw_input := input; aw_submission := sb |} :: l' |}
      {| sys := s'; awaiting := l ++ l' |}
| Elapsed s t l :
    (clock s ≤ t)%Z →
    step scope actor {| sys := s; awaiting := l |}
      {| sys := {| db := db s; drawn := drawn s; clock := t; denied := denied s |};
         awaiting := l |}.

(** Any number of steps, all by callers of a kind. *)
Definition steps (who : Scope → EventActor → Prop) : System → System → Prop :=
  rtc (λ a b, ∃ scope actor, who scope actor ∧ step scope actor a b).

Definition anyone (scope : Scope) (actor : EventActor) : Prop := True.

(** Tables with no review in them yet. *)
Definition initial (x : System) : Prop :=
  reviews (tables x) = ∅ ∧ findings (tables x) = ∅ ∧ verifications (tables x) = ∅
  ∧ verification_artefacts (tables x) = [] ∧ comments (tables x) = ∅
  ∧ annotations (tables x) = ∅ ∧ inbox_items (tables x) = ∅ ∧ log (tables x) = empty_log
  ∧ awaiting x = [].
Definition reachable (x : System) : Prop := ∃ x0, initial x0 ∧ steps anyone x0 x.

(** ** What one step keeps *)

Lemma ignoring_evolving {A} scope actor (m : M A) :
  evolving scope actor m → preserves db_ok m → evolving scope actor (ignoring m).
Proof.
  intros Hm Hok. apply evolving_bind; [done|done|]. intros _. apply evolving_stays.
  intros. apply preserves_ret.
Qed.
Lemma ignoring_ok {A} (m : M A) : preserves db_ok m → preserves db_ok (ignoring m).
Proof. intros Hm. apply preserves_bind; [done|intros _; apply preserves_ret]. Qed.

Lemma checked_evolving {A} scope actor (r : result ApiError unit) (m : M A) :
  evolving scope actor m → evolving scope actor (lift r ;; m).
Proof.
  intros Hm. apply evolving_bind; [|apply preserves_lift|done].
  apply evolving_stays. intros. apply preserves_lift.
Qed.
Lemma checked_ok {A} (r : result ApiError unit) (m : M A) :
  preserves db_ok m → preserves db_ok (lift r ;; m).
Proof. intros Hm. by apply preserves_check. Qed.

Lemma addComment_ok scope fid body actor : preserves db_ok (addComment scope fid body actor).
Proof. apply preserves_bind; [apply getFinding_ok|intros; apply insertComment_ok]. Qed.
Lemma addReviewComment_ok scope rid body actor :
  preserves db_ok (addReviewComment scope rid body actor).
Proof. apply preserves_bind; [apply getReview_ok|intros; apply insertComment_ok]. Qed.

(** The entry points that check a reason first. *)
Lemma reopenReview_ok scope id input actor : preserves db_ok (reopenReview scope id input actor).
Proof. apply checked_ok, updateReview_ok. Qed.
Lemma disposeFinding_ok scope id t input other actor :
  preserves db_ok (disposeFinding scope id t input other actor).
Proof. apply checked_ok, checked_ok, updateFinding_ok. Qed.
Lemma reopenFinding_ok scope id input actor :
  preserves db_ok (reopenFinding scope id input actor).
Proof. apply checked_ok, updateFinding_ok. Qed.
Lemma reopenReview_evolving scope id input actor :
  evolving scope actor (reopenReview scope id input actor).
Proof. apply checked_evolving, updateReview_evolving. Qed.
Lemma disposeFinding_evolving scope id t input other actor :
  evolving scope actor (disposeFinding scope id t input other actor).
Proof. apply checked_evolving, checked_evolving, updateFinding_evolving. Qed.
Lemma reopenFinding_evolving scope id input actor :
  evolving scope actor (reopenFinding scope id input actor).
Proof. apply checked_evolving, updateFinding_evolving. Qed.

Create HintDb service.
Hint Resolve createReview_ok updateReview_ok reopenReview_ok assignReview_ok claimReview_ok
  createFinding_ok updateFinding_ok disposeFinding_ok reopenFinding_ok createAnnotation_ok
  updateAnnotation_ok withdrawAnnotation_ok addComment_ok addReviewComment_ok editComment_ok
  submitVerification_ok transition_ok : service.
Hint Resolve updateReview_evolving reopenReview_evolving assignReview_evolving
  claimReview_evolving updateFinding_evolving disposeFinding_evolving reopenFinding_evolving
  addComment_evolving addReviewComment_evolving editComment_evolving
  submitVerification_evolving transition_evolving : service.
Hint Resolve evolving_stays createReview_stays createFinding_stays createAnnotation_stays
  updateAnnotation_stays withdrawAnnotation_stays : service.

Lemma execute_ok scope actor op : preserves db_ok (execute scope actor op).
Proof. destruct op; apply ignoring_ok; auto with service nocore. Qed.
Lemma execute_evolving scope actor op : evolving scope actor (execute scope actor op).
Proof. destruct op; (apply ignoring_evolving; [|auto with service nocore]); auto with service nocore. Qed.

Lemma step_kept scope actor x y :
  db_ok (tables x) → step scope actor x y →
  db_ok (tables y) ∧ evolves scope actor (tables x) (tables y).
Proof.
  intros Hok Hs. revert Hok.
  destruct Hs as [op s r s' l Hr|id input s sb s' l Hr|id input sb s r s' l l' Hr|s t l _];
    cbn [sys]; intros Hok.
  - split; [exact (execute_ok _ _ _ _ _ _ Hr Hok)|exact (execute_evolving _ _ _ _ _ _ Hok Hr)].
  - split; [exact (prepareSubmission_ok _ _ _ _ _ _ Hr Hok)|].
    by refine (prepareSubmission_stays _ _ (db s) _ _ _ _ _ Hr _).
  - split; [exact (commitSubmission_ok _ _ _ _ _ _ _ _ Hr Hok)|exact (commitSubmission_evolving _ _ _ _ _ _ _ _ Hok Hr)].
  - split; [done|reflexivity].
Qed.

(** Induction over steps, with well-formed tables throughout. *)
Lemma steps_ind_ok who (R : Db → Db → Prop) `{!PreOrder R} x y :
  (∀ scope actor d d', who scope actor → evolves scope actor d d' → R d d') →
  db_ok (tables x) → steps who x y → db_ok (tables y) ∧ R (tables x) (tables y).
Proof.
  intros HR Hok Hs. induction Hs as [|a b c (scope & actor & Hw & Hab) Hbc IH]; [done|].
  destruct (step_kept _ _ _ _ Hok Hab) as [Hok' He]. destruct (IH Hok') as [Hc Hr].
  split; [done|]. etrans; [by eapply HR|done].
Qed.
End steps.
