(* ===== verification/LifecycleTheorems.v ===== *)
(** * What no sequence of requests can do: cross a tenant, decide for a person,
    rewrite history, act on a version that has passed; and what two defects of
    the service let happen *)

From S2P Require Import Prelude Errors ReviewProtocol ReviewDomain Events Completion EntityId Geometry Store Records Inbox ReviewService FindingService VerificationService Preserve Invariants Samples Effects FindingTheorems SubmissionTheorems ReviewTheorems Evolution Lifecycle.

(** ** Views of a table that a step does not change *)

Lemma changes_view {K A B} `{Countable K} (step : A → A → Prop) (born : A → Prop)
    (g : A → option B) (t t' : gmap K A) :
  changes step born t t' → (∀ a b, step a b → g b = g a) → (∀ a, born a → g a = None) →
  omap g t' = omap g t.
Proof.
  intros [Hk Hb] Hstep Hborn. apply map_eq. intros k. rewrite !lookup_omap.
  destruct (t !! k) as [r|] eqn:Hr; cbn.
  - destruct (Hk k r Hr) as (r' & -> & [->|Hs]); cbn; [done|by apply Hstep].
  - destruct (t' !! k) as [r'|] eqn:Hr'; cbn; [|done]. apply Hborn. by eapply Hb.
Qed.

(** *** A tenant's rows *)

Definition own {A} (inside : Scope → A → bool) (T : Scope) (r : A) : option A :=
  if inside T r then Some r else None.
Definition event_in (T : Scope) (e : EventRow) : Prop :=
  ev_organisation_id e = organisationId T ∧ ev_project_id e = Some (projectId T).
#[export] Instance event_in_dec T e : Decision (event_in T e).
Proof. unfold event_in. apply _. Defined.

Definition tenant (T : Scope) (d : Db) :=
  (omap (own review_in T) (reviews d), omap (own finding_in T) (findings d),
   omap (own verification_in T) (verifications d), omap (own comment_in T) (comments d),
   omap (own annotation_in T) (annotations d), omap (own inbox_in T) (inbox_items d),
   filter (event_in T) (events (log d))).

Lemma other_scope scope T o p : scope ≠ T → in_scope scope o p = true → in_scope T o p = false.
Proof.
  intros Hne. unfold in_scope. rewrite andb_true_iff, !bool_decide_eq_true. intros [-> ->].
  apply not_true_iff_false. rewrite andb_true_iff, !bool_decide_eq_true. intros [Ho Hp].
  apply Hne. destruct scope, T. cbn in *. congruence.
Qed.

Lemma evolves_tenant scope actor T d d' :
  scope ≠ T → evolves scope actor d d' → tenant T d' = tenant T d.
Proof.
  intros Hne [Hr Hf Hv Hc Ha Hi _ Hl _]. pose proof (other_scope scope T) as Ho. unfold tenant.
  assert (filter (event_in T) (events (log d')) = filter (event_in T) (events (log d))) as ->.
  { destruct Hl as (types & es & -> & _ & Hes). rewrite filter_app, (filter_none _ es), app_nil_r;
      [done|]. rewrite Forall_forall in Hes. intros e He [Ht1 Ht2].
    destruct (Hes e He) as (_ & H1 & H2). apply Hne. destruct scope, T; cbn in *. congruence. }
  rewrite (changes_view _ _ (own review_in T) _ _ Hr), (changes_view _ _ (own finding_in T) _ _ Hf),
    (changes_view _ _ (own verification_in T) _ _ Hv),
    (changes_view _ _ (own comment_in T) _ _ Hc),
    (changes_view _ _ (own annotation_in T) _ _ Ha), (changes_view _ _ (own inbox_in T) _ _ Hi);
    [done|..]; unfold own.
  - intros a b (Hs & Hd & _). unfold inbox_in, delivery_origin in *.
    assert (in_organisation_id b = in_organisation_id a ∧ in_project_id b = in_project_id a)
      as [-> ->] by (split; congruence). by rewrite Ho.
  - intros a [Hs _]. unfold inbox_in in *. by rewrite Ho.
  - by intros a b [].
  - intros a [Hs _]. unfold annotation_in in *. by rewrite Ho.
  - intros a b (Hs & _ & t & ->). unfold comment_in in *. cbn. by rewrite Ho.
  - intros a [Hs _]. unfold comment_in in *. by rewrite Ho.
  - intros a b [Hs Hd _ _]. unfold verification_in, claim_origin in *.
    assert (vf_organisation_id b = vf_organisation_id a ∧ vf_project_id b = vf_project_id a)
      as [-> ->] by (split; congruence). by rewrite Ho.
  - intros a [Hs _]. unfold verification_in in *. by rewrite Ho.
  - intros a b [Hs Hd _ _]. unfold finding_in, finding_origin in *.
    assert (fn_organisation_id b = fn_organisation_id a ∧ fn_project_id b = fn_project_id a)
      as [-> ->] by (split; congruence). by rewrite Ho.
  - intros a [Hs _]. unfold finding_in in *. by rewrite Ho.
  - intros a b [Hs Hd _ _]. unfold review_in, review_origin in *.
    assert (rv_organisation_id b = rv_organisation_id a ∧ rv_project_id b = rv_project_id a)
      as [-> ->] by (split; congruence). by rewrite Ho.
  - intros a [Hs _]. unfold review_in in *. by rewrite Ho.
Qed.

(** *** What has been decided *)

Definition review_decision (r : ReviewRow) :=
  if isImmutableReviewStatus (rv_status r) then Some (rv_status r, rv_accepted_by r) else None.
Definition finding_decision (f : FindingRow) :=
  if isFinalDisposition (fn_status f) then Some (fn_status f, fn_resolved_by f) else None.
Definition claim_decision (v : VerificationRow) :=
  if bool_decide (vf_status v ∈ [accepted; rejected])
  then Some (vf_status v, vf_reviewed_by v, vf_reviewed_at v) else None.
Definition decisions (d : Db) :=
  (omap review_decision (reviews d), omap finding_decision (findings d),
   omap claim_decision (verifications d)).

Lemma evolves_decisions scope actor d d' :
  ¬ by_human actor → evolves scope actor d d' → decisions d' = decisions d.
Proof.
  intros Hn [Hr Hf Hv _ _ _ _ _ _]. unfold decisions.
  rewrite (changes_view _ _ review_decision _ _ Hr), (changes_view _ _ finding_decision _ _ Hf),
    (changes_view _ _ claim_decision _ _ Hv); [done|..]; unfold claim_decision.
  - intros a b [_ _ [Hs _] Hh]. rewrite Hs, (Hh Hn). by rewrite !bool_decide_false by set_solver.
  - intros a (_ & _ & Hb). by rewrite bool_decide_false by auto.
  - intros a b [_ _ _ Hh]. destruct (Hh Hn) as [Hby Hst]. unfold finding_decision.
    destruct (isFinalDisposition (fn_status a)) eqn:Ha; cbn in Hst.
    + specialize (Hst eq_refl). by rewrite Hst, Ha, Hby.
    + destruct (isFinalDisposition (fn_status b)) eqn:Hb; [|done].
      specialize (Hst eq_refl). congruence.
  - intros a (_ & _ & _ & Hb). unfold finding_decision. by rewrite Hb.
  - intros a b [_ _ _ Hh]. destruct (Hh Hn) as [Hby Hst]. unfold review_decision.
    destruct (isImmutableReviewStatus (rv_status a)) eqn:Ha; cbn in Hst.
    + specialize (Hst eq_refl). by rewrite Hst, Ha, Hby.
    + destruct (isImmutableReviewStatus (rv_status b)) eqn:Hb; [|done].
      specialize (Hst eq_refl). congruence.
  - intros a (_ & _ & Hb). unfold review_decision. by rewrite Hb.
Qed.

(** *** What is never rewritten *)

Record grown (d d' : Db) : Prop := {
  gr_events : events (log d) `prefix_of` events (log d');
  gr_evidence : verification_artefacts d `prefix_of` verification_artefacts d';
  gr_annotations : annotations d ⊆ annotations d';
  gr_comments : ∀ k c, comments d !! k = Some c → ∃ c', comments d' !! k = Some c'
    ∧ (c' = c ∨ cm_superseded_at c = None ∧ ∃ t, c' = superseded_comment c t);
  gr_claims : ∀ k v, verifications d !! k = Some v → ∃ v', verifications d' !! k = Some v'
    ∧ claim_origin v' = claim_origin v ∧ (vf_status v ≠ submitted → v' = v);
  gr_findings : ∀ k f, findings d !! k = Some f → ∃ f', findings d' !! k = Some f'
    ∧ finding_origin f' = finding_origin f ∧ (f' = f ∨ fn_version f < fn_version f')%Z;
  gr_reviews : ∀ k r, reviews d !! k = Some r → ∃ r', reviews d' !! k = Some r'
    ∧ review_origin r' = review_origin r ∧ (r' = r ∨ rv_version r < rv_version r')%Z
}.

#[export] Instance grown_preorder : PreOrder grown.
Proof.
  split.
  - intros d. split; eauto 6.
  - intros d d1 d' [H1 H2 H3 H4 H5 H6 H7] [G1 G2 G3 G4 G5 G6 G7].
    split; [by etrans|by etrans|by etrans|..].
    + intros k c Hc. destruct (H4 k c Hc) as (c1 & Hc1 & Hs).
      destruct (G4 k c1 Hc1) as (c' & Hc' & Hs'). exists c'. split; [done|].
      destruct Hs as [->|(Hn & t & ->)]; [done|]. destruct Hs' as [->|(Hn' & _)]; [|done].
      right. split; [done|]. by exists t.
    + intros k v Hv. destruct (H5 k v Hv) as (v1 & Hv1 & Ho & Hs).
      destruct (G5 k v1 Hv1) as (v' & Hv' & Ho' & Hs'). exists v'.
      split_and!; [done|congruence|]. intros Hn. rewrite (Hs Hn) in Hs'. by apply Hs'.
    + intros k f Hf. destruct (H6 k f Hf) as (f1 & Hf1 & Ho & Hs).
      destruct (G6 k f1 Hf1) as (f' & Hf' & Ho' & Hs'). exists f'.
      split_and!; [done|congruence|]. destruct Hs as [->|?], Hs' as [->|?]; auto. right. lia.
    + intros k f Hf. destruct (H7 k f Hf) as (f1 & Hf1 & Ho & Hs).
      destruct (G7 k f1 Hf1) as (f' & Hf' & Ho' & Hs'). exists f'.
      split_and!; [done|congruence|]. destruct Hs as [->|?], Hs' as [->|?]; auto. right. lia.
Qed.

Lemma evolves_grown scope actor d d' : evolves scope actor d d' → grown d d'.
Proof.
  intros [Hr Hf Hv Hc Ha _ He Hl _]. split; [|done|..].
  - destruct Hl as (types & es & -> & _). by eexists.
  - apply map_subseteq_spec. intros k a Hk. by destruct (rows_kept _ _ _ _ Ha k a Hk) as (? & ? & [->|[]]).
  - intros k c Hk. destruct (rows_kept _ _ _ _ Hc k c Hk) as (c' & ? & [->|(_ & ? & ?)]); eauto.
  - intros k v Hk. destruct (rows_kept _ _ _ _ Hv k v Hk) as (v' & ? & [->|[_ Ho [Hs _] _]]); [eauto|].
    exists v'. split_and!; [done|done|]. by intros [].
  - intros k f Hk. destruct (rows_kept _ _ _ _ Hf k f Hk) as (f' & ? & [->|[_ Ho Hs _]]); eauto 6.
  - intros k f Hk. destruct (rows_kept _ _ _ _ Hr k f Hk) as (f' & ? & [->|[_ Ho Hs _]]); eauto 6.
Qed.

(** ** A refused request *)

(** Every table but the log is as it was, and the log gained at most one event. *)
Definition refused (d d' : Db) : Prop :=
  d' = with_log (log d') d ∧ length (new_events d d') ≤ 1.

Lemma refused_same d : refused d d.
Proof. split; [by rewrite with_log_same|]. unfold new_events. rewrite drop_all. cbn. lia. Qed.

Section refusals.
Context `{Entropy} `{ArtefactStore}.

Definition reads {A} (m : M A) : Prop := ∀ d0, preserves (λ d, d = d0) m.
Definition clean {A} (m : M A) : Prop :=
  ∀ s e s', m s = (Err e, s') → refused (db s) (db s').

Lemma reads_run {A} (m : M A) s r s' : reads m → m s = (r, s') → db s' = db s.
Proof. intros Hm Hr. by eapply (Hm (db s)). Qed.

Lemma clean_transaction {A} (m : M A) : clean (inTransaction m).
Proof. intros s e s' ->%inTransaction_err. apply refused_same. Qed.
Lemma clean_bind {A B} (m : M A) (f : A → M B) :
  reads m → (∀ a, clean (f a)) → clean (m ≫= f).
Proof.
  intros Hm Hf s e s' [Hr|(a & s1 & Hr & Hr')]%bindM_err.
  - rewrite (reads_run _ _ _ _ Hm Hr). apply refused_same.
  - apply (reads_run _ _ _ _ Hm) in Hr as <-. by eapply Hf.
Qed.
Lemma clean_then {A B} (m : M A) (f : A → B) : clean m → clean (a ← m; mret (f a)).
Proof. intros Hm s e s' [Hr|(a & s1 & _ & Ht)]%bindM_err; [by eapply Hm|done]. Qed.
Lemma clean_ignoring {A} (m : M A) : clean m → clean (ignoring m).
Proof. by apply (clean_then m (λ _, tt)). Qed.

Lemma recordDenial_refused scope actor e s r s' :
  recordDenial scope actor e s = (r, s') → refused (db s) (db s').
Proof.
  unfold recordDenial. intros Hr. unfold mbind at 1, M_bind, get_denied in Hr.
  destruct (denied s) as [d|], e as [e|?|?|?|?]; try (injection Hr as _ <-; apply refused_same).
  unfold catching, inTransaction in Hr.
  destruct (append _ _ _ _ _ s) as [[u|f] s1] eqn:Ha; injection Hr as _ <-;
    [|apply refused_same].
  apply append_logged in Ha as (ev & l & -> & He & _). split; [done|].
  unfold new_events. cbn. rewrite He, drop_app_length. done.
Qed.
Lemma clean_rethrow {A} (m : M A) f : clean (catching (inTransaction m) (λ e, throwM (f e))).
Proof.
  intros s e s'. unfold catching, inTransaction. destruct (m s) as [[a|g] s1]; [done|].
  intros [= _ <-]. apply refused_same.
Qed.
Lemma clean_attempt {A} scope actor (m : M A) (f : Failure → Failure) :
  clean (catching (inTransaction m) (λ e, recordDenial scope actor e ;; throwM (f e))).
Proof.
  intros s e s'. unfold catching, inTransaction.
  destruct (m s) as [[a|g] s1] eqn:Hm; [done|]. intros Hr. apply bindM_err in Hr.
  change (db s) with (db (with_db (db s) s1)).
  destruct Hr as [Hr|(u & s2 & Hr & Ht)].
  - by eapply recordDenial_refused.
  - injection Ht as _ <-. by eapply recordDenial_refused.
Qed.

Ltac read := intros d0; preserve.
Ltac clean :=
  repeat first [ apply clean_transaction | apply clean_attempt
               | apply clean_bind; [solve [read]|intros ?] ].

Lemma updateReview_clean scope id input actor : clean (updateReview scope id input actor).
Proof. unfold updateReview. clean. Qed.
Lemma updateFinding_clean scope id input actor : clean (updateFinding scope id input actor).
Proof.
  unfold updateFinding. apply clean_bind; [read|intros ?].
  apply (clean_attempt _ _ _ (λ e, e)).
Qed.
Lemma createReview_clean scope input actor : clean (createReview scope input actor).
Proof.
  unfold createReview, requireSessionInProject. do 3 (apply clean_bind; [read|intros ?]).
  apply clean_rethrow.
Qed.
Lemma submitVerification_clean scope id input actor :
  clean (submitVerification scope id input actor).
Proof.
  apply clean_bind; [|intros sb; apply clean_then, clean_transaction].
  unfold prepareSubmission, getFinding, lockFinding, getReview, requireOwnedEvidence,
    requireReachableEvidence. read.
Qed.

Lemma execute_clean scope actor op : clean (execute scope actor op).
Proof.
  destruct op; apply clean_ignoring; unfold reopenReview, disposeFinding, reopenFinding,
    assignReview, claimReview, createFinding, createAnnotation, updateAnnotation,
    withdrawAnnotation, addComment, addReviewComment, editComment, insertComment, transition,
    requireUserInOrganisation, requireAgentSessionInProject, getReview, getFinding, lockFinding,
    requireAvailableArtefact;
    solve [ auto using updateReview_clean, updateFinding_clean, createReview_clean,
              submitVerification_clean
          | clean; auto using updateReview_clean, updateFinding_clean ].
Qed.

(** ** Versions *)

(** A version that has passed is refused. *)
Lemma stale_finding scope id input actor f s r s' :
  findings (db s) !! id = Some f → fn_version f ≠ uf_expectedVersion input →
  updateFinding scope id input actor s = (r, s') →
  ∃ e, r = Err (ApiThrown e) ∧ code e ∈ [VERSION_CONFLICT; RESOURCE_NOT_FOUND] ∧ db s' = db s.
Proof.
  intros Hf Hv Hr. unfold updateFinding in Hr.
  erewrite bind_return in Hr by done. fold (with_denied None s) in Hr.
  assert (∃ e, updateFinding_body scope id input actor (with_denied None s)
    = (Err (ApiThrown e), with_denied None s) ∧ code e ∈ [VERSION_CONFLICT; RESOURCE_NOT_FOUND])
    as (e & Hb & He).
  { unfold updateFinding_body, lockFinding, find_row.
    destruct (finding_in scope f) eqn:Hin.
    - eexists. split.
      + erewrite bind_return by (erewrite bind_return by done; cbn; by rewrite Hf; cbn; rewrite Hin).
        apply bind_throw. rewrite lift_run. unfold assertExpectedVersion.
        by rewrite bool_decide_true.
      + left.
    - eexists. split.
      + apply bind_throw. erewrite bind_return by done. cbn. rewrite Hf. cbn. by rewrite Hin.
      + right. left. }
  exists e. unfold catching, inTransaction in Hr. rewrite Hb in Hr. by injection Hr as <- <-.
Qed.
End refusals.

(** ** Reachable tables *)

(** A finding's source is the kind of the actor that reported it. *)
Definition provenance (d : Db) : Prop :=
  map_Forall (λ _ f, fn_source f = sourceForActor (actor_type (fn_created_by f))) (findings d).

Lemma evolves_provenance scope actor d d' :
  evolves scope actor d d' → provenance d → provenance d'.
Proof.
  intros [_ Hf _ _ _ _ _ _ _] Hp k f' Hk. destruct (findings d !! k) as [f|] eqn:Hold.
  - destruct (rows_kept _ _ _ _ Hf k f Hold) as (g & Hg & Hs). rewrite Hk in Hg.
    injection Hg as <-. pose proof (Hp k f Hold) as Hsrc. cbn in Hsrc.
    destruct Hs as [->|[_ Ho _ _]]; [done|]. unfold finding_origin in Ho. congruence.
  - destruct (rows_born _ _ _ _ Hf k f' Hk Hold) as (_ & Hc & Hsrc & _). by rewrite Hc.
Qed.

Lemma initial_ok x : initial x → db_ok (tables x) ∧ provenance (tables x).
Proof.
  intros (Hr & Hf & Hv & He & Hc & Ha & Hi & Hl & _). split.
  - constructor; rewrite ?Hr, ?Hf, ?Hv, ?He, ?Hc, ?Ha, ?Hi, ?Hl;
      first [apply rows_ok_empty | apply no_clash_empty | apply empty_log_ok | constructor].
  - unfold provenance. rewrite Hf. apply map_Forall_empty.
Qed.

Section reachability.
Context `{Entropy} `{ArtefactStore}.

#[local] Instance implied_preorder (P : Db → Prop) : PreOrder (λ d d', P d → P d').
Proof. split; unfold Reflexive, Transitive; auto. Qed.

Lemma reachable_ok x : reachable x → db_ok (tables x) ∧ provenance (tables x).
Proof.
  intros (x0 & [Hok Hp]%initial_ok & Hs).
  eapply (steps_ind_ok anyone (λ d d', provenance d → provenance d')) in Hs as [Hok' Hp'];
    [by auto| |done]. intros scope actor d d' _. apply evolves_provenance.
Qed.
(** A view that the steps of some callers do not change. *)
#[local] Instance same_preorder {T} (g : Db → T) : PreOrder (λ d d', g d' = g d).
Proof. split; [done|]. intros a b c Hab Hbc. congruence. Qed.
Lemma steps_same {T} (g : Db → T) who x y :
  (∀ scope actor d d', who scope actor → evolves scope actor d d' → g d' = g d) →
  db_ok (tables x) → steps who x y → g (tables y) = g (tables x).
Proof.
  intros Hg Hok Hs. by apply (steps_ind_ok _ (λ d d', g d' = g d)) in Hs as [_ ?].
Qed.
End reachability.

(** A constraint of a stored row holds. *)
Lemma constraint_holds {K A} `{Countable K} (key : A → K) (checks : A → constraints) t k r c b :
  rows_ok key checks t → t !! k = Some r → (c, b) ∈ checks r → b = true.
Proof.
  intros Hok Hk Hin. destruct (Hok k r Hk) as [_ Hv]. apply violated_None in Hv.
  rewrite Forall_forall in Hv. exact (Hv _ Hin).
Qed.

Lemma disposed_by_human d k f :
  db_ok d → findings d !! k = Some f → isFinalDisposition (fn_status f) = true →
  ∃ a, fn_resolved_by f = Some a ∧ actor_type a = human_user.
Proof.
  intros Hok Hk Hfin.
  assert (Hdec := constraint_holds _ _ _ _ _ "findings_terminal_status_has_a_decider" _
    (findings_ok _ Hok) Hk ltac:(unfold finding_checks; do 9 right; left)).
  assert (Hhum := constraint_holds _ _ _ _ _ "findings_disposition_is_human" _
    (findings_ok _ Hok) Hk ltac:(unfold finding_checks; do 6 right; left)).
  assert (is_final_status (fn_status f) = true) as Hs by (revert Hfin; by destruct (fn_status f)).
  rewrite Hs in Hdec. cbn [negb orb] in Hdec. apply bool_decide_eq_true in Hdec.
  destruct (fn_resolved_by f) as [a|]; [|done]. exists a. split; [done|].
  by apply bool_decide_eq_true in Hhum.
Qed.

Lemma accepted_by_human d k r :
  db_ok d → reviews d !! k = Some r → rv_status r = ACCEPTED →
  ∃ a, rv_accepted_by r = Some a ∧ actor_type a = human_user.
Proof.
  intros Hok Hk Hacc.
  assert (Hdec := constraint_holds _ _ _ _ _ "reviews_accepted_status_has_a_decider" _
    (reviews_ok _ Hok) Hk ltac:(unfold review_checks; do 7 right; left)).
  assert (Hhum := constraint_holds _ _ _ _ _ "reviews_acceptance_is_human" _
    (reviews_ok _ Hok) Hk ltac:(unfold review_checks; do 5 right; left)).
  rewrite bool_decide_true in Hdec by done. cbn [negb orb] in Hdec.
  apply bool_decide_eq_true in Hdec. destruct (rv_accepted_by r) as [a|]; [|done].
  exists a. split; [done|]. by apply bool_decide_eq_true in Hhum.
Qed.

(** ** The theorems *)

Section theorems.
Context `{Entropy} `{ArtefactStore}.

(** C1: a tenant is out of reach of every other.  However many requests are
    made by callers of other organisations or projects, in whatever order, the
    reviews, findings, claims, comments, annotations, inbox items and events of
    a tenant are the same afterwards: nothing of it was changed and nothing
    added to it. *)
Theorem tenant_isolation T x y
    (Hok : db_ok (tables x)) (Hsteps : steps (λ scope _, scope ≠ T) x y) :
  tenant T (tables y) = tenant T (tables x).
Proof.
  eapply steps_same; [|exact Hok|exact Hsteps].
  intros scope actor d d' Hne. by apply evolves_tenant.
Qed.

(** C2: without a person nothing is decided.  However many requests agents and
    the system make, the closed reviews, the finally disposed findings and the
    decided claims are the same ones afterwards, with the same outcome and the
    same author: none was decided, and no decision was undone. *)
Theorem agents_decide_nothing x y
    (Hok : db_ok (tables x))
    (Hsteps : steps (λ _ actor, actor_type actor ≠ human_user) x y) :
  decisions (tables y) = decisions (tables x).
Proof.
  eapply steps_same; [|exact Hok|exact Hsteps].
  intros scope actor d d' Hne. by apply evolves_decisions.
Qed.

Lemma reported_by_agent a : sourceForActor a = agent ↔ a = agent_session.
Proof. unfold sourceForActor. by case_bool_decide. Qed.

(** C3: whatever is requested, the tables stay well-formed.  In every
    reachable state each row satisfies the constraints of its table, the unique
    indexes hold, the log is in sequence and every evidence row has its claim;
    a finding counts as an agent's exactly when an agent reported it; a final
    disposition and an acceptance name the human who made them; and a finding
    has at most one current claim. *)
Theorem reachable_well_formed x (Hx : reachable x) :
  db_ok (tables x)
  ∧ (∀ k f, findings (tables x) !! k = Some f →
       fn_id f = k ∧ (fn_source f = agent ↔ actor_type (fn_created_by f) = agent_session)
       ∧ (isFinalDisposition (fn_status f) = true →
          ∃ a, fn_resolved_by f = Some a ∧ actor_type a = human_user))
  ∧ (∀ k r, reviews (tables x) !! k = Some r → rv_status r = ACCEPTED →
       ∃ a, rv_accepted_by r = Some a ∧ actor_type a = human_user)
  ∧ (∀ k k' v v', verifications (tables x) !! k = Some v →
       verifications (tables x) !! k' = Some v' → vf_status v = submitted →
       vf_status v' = submitted → vf_finding_id v = vf_finding_id v' → k = k').
Proof.
  apply reachable_ok in Hx as [Hok Hp]. split; [done|]. split; [|split].
  - intros k f Hk. split; [apply (rows_ok_key _ _ _ _ _ (findings_ok _ Hok) Hk)|].
    split; [by rewrite (Hp k f Hk), reported_by_agent|]. by eapply disposed_by_human.
  - intros k r. by apply accepted_by_human.
  - intros k k' v v' Hk Hk' Hs Hs' Hf. by apply (one_current _ Hok k k' v v').
Qed.

(** C4: history only grows.  Whatever is requested, the events recorded, the
    evidence and every revision of an annotation are still there unchanged; a
    comment is at most marked as superseded, once; a claim keeps what was
    claimed, and once decided or superseded never changes; a finding and a
    review keep what was captured with them, and any change of theirs raises
    the version. *)
Theorem history_only_grows x y (Hok : db_ok (tables x)) (Hsteps : steps anyone x y) :
  grown (tables x) (tables y).
Proof.
  apply (steps_ind_ok _ grown) in Hsteps as [_ Ht]; [done| |done].
  intros scope actor d d' _. apply evolves_grown.
Qed.

(** C5: no update is lost.  Once a finding has been changed by an update, an
    update that names the version it was changed from, made by anyone at any
    later time, is refused as a version conflict (or as not found, out of the
    finding's scope) and changes no table. *)
Theorem stale_update_refused scope id input actor x f f' s' y scope' input' actor' r s''
    (Hok : db_ok (tables x)) (Hf : findings (tables x) !! id = Some f)
    (Hrun : updateFinding scope id input actor (sys x) = (Ok f', s'))
    (Hsteps : steps anyone {| sys := s'; awaiting := awaiting x |} y)
    (Hstale : uf_expectedVersion input' = fn_version f)
    (Hrun' : updateFinding scope' id input' actor' (sys y) = (r, s'')) :
  ∃ e, r = Err (ApiThrown e) ∧ code e ∈ [VERSION_CONFLICT; RESOURCE_NOT_FOUND]
       ∧ db s'' = tables y.
Proof.
  destruct (updateFinding_run _ _ _ _ _ _ _ Hok Hrun) as [g Hu].
  destruct (updated_id Hok Hu) as (Hid & Hg & Hin).
  assert (g = f) as -> by congruence.
  assert (db_ok (db s')) as Hok' by (eapply updateFinding_ok; eassumption).
  apply (steps_ind_ok _ grown) in Hsteps as [_ Hgrown];
    [|by intros ? ? ? ? _; apply evolves_grown|exact Hok'].
  destruct (gr_findings _ _ Hgrown id f') as (h & Hh & _ & Hv).
  { cbn. rewrite (updated_table Hok Hu). apply lookup_insert_eq. }
  eapply stale_finding; [exact Hh| |exact Hrun'].
  rewrite Hstale. pose proof (fu_row _ _ _ _ _ _ _ _ _ Hu) as Hrow.
  assert (fn_version f' = (fn_version f + 1)%Z) as Hn by (by rewrite Hrow).
  destruct Hv as [->|Hv]; lia.
Qed.

(** C38: a refused request leaves only an audit record.  When any request of
    the service fails, for whatever reason, every table but the log is as it
    was, and the log gained at most one event. *)
Theorem failed_request_changes_only_the_log scope actor op s e s'
    (Hrun : execute scope actor op s = (Err e, s')) :
  db s' = with_log (log (db s')) (db s) ∧ length (new_events (db s) (db s')) ≤ 1.
Proof. exact (execute_clean _ _ _ _ _ _ Hrun). Qed.
End theorems.

(** ** Histories *)

(** A request of the sample history, whatever it answers. *)
Lemma performs scope actor op s l :
  step scope actor {| sys := s; awaiting := l |}
    {| sys := left_at (execute scope actor op) s; awaiting := l |}.
Proof. unfold left_at. eapply Performed. apply surjective_pairing. Qed.

Lemma then_step who scope actor x y z :
  steps who x y → who scope actor → step scope actor y z → steps who x z.
Proof. intros Hxy Hw Hyz. eapply rtc_r; [exact Hxy|]. by exists scope, actor. Qed.

(** The reopening of the finding after the review was accepted. *)
Definition reopening1 : ReviewTransitionInput :=
  {| rt_expectedVersion := 6; rt_reason := Some "Still cut off on a phone.";
     rt_verificationId := None |}.

Definition idle (s : St) : System := {| sys := s; awaiting := [] |}.

Lemma left_at_ignoring {A} (m : M A) s : left_at (ignoring m) s = left_at m s.
Proof. unfold left_at, ignoring, mbind, M_bind. by destruct (m s) as [[]]. Qed.

(** The sample history as steps. *)
Ltac performed op :=
  lazymatch goal with
  | |- step ?scope ?actor ?x _ =>
      let H := fresh in pose proof (performs scope actor op (sys x) (awaiting x)) as H;
      cbn [sys awaiting idle] in H; unfold execute in H; exact H
  end.
Lemma step1 : step scope1 person (idle start) (idle s1).
Proof.
  unfold s1, create_review. rewrite <- left_at_ignoring.
  performed (CreateReview review_input).
Qed.
Lemma step2 : step scope1 person (idle s1) (idle s2).
Proof.
  unfold s2, create_finding. rewrite <- left_at_ignoring.
  performed (CreateFinding (rv_id review1) finding_input).
Qed.
Lemma step3 : step scope1 worker (idle s2) (idle s3).
Proof.
  unfold s3, claim_finding, claimFinding. rewrite <- left_at_ignoring.
  performed (UpdateFinding fid (move_input 1 CLAIMED None None None)).
Qed.
Lemma step4 : step scope1 worker (idle s3) (idle s4).
Proof.
  unfold s4, start_work. rewrite <- left_at_ignoring.
  performed (UpdateFinding fid (move_input 2 IN_PROGRESS None None None)).
Qed.
Lemma step5 : step scope1 worker (idle s4) (idle s5).
Proof.
  unfold s5, submit. rewrite <- left_at_ignoring.
  performed (SubmitVerification fid evidence_input).
Qed.
Lemma step6 : step scope1 worker (idle s5) (idle s6).
Proof.
  unfold s6, hand_over. rewrite <- left_at_ignoring.
  performed (UpdateFinding fid (move_input 4 AWAITING_HUMAN_REVIEW None None None)).
Qed.
Lemma step7 l :
  step scope1 person {| sys := s6; awaiting := l |} {| sys := s7; awaiting := l |}.
Proof.
  unfold s7, resolve. rewrite <- left_at_ignoring.
  performed (UpdateFinding fid resolve_input).
Qed.
Lemma step8 : step scope1 worker (idle s7) (idle s8).
Proof.
  unfold s8, claim_review. rewrite <- left_at_ignoring.
  performed (ClaimReview (rv_id review1) 1).
Qed.
Lemma step9 : step scope1 worker (idle s8) (idle s9).
Proof.
  unfold s9, begin_review. rewrite <- left_at_ignoring.
  performed (UpdateReview (rv_id review1) (review_to 2 R_IN_PROGRESS)).
Qed.
Lemma step10 : step scope1 worker (idle s9) (idle s10).
Proof.
  unfold s10, request_review, requestHumanReview. rewrite <- left_at_ignoring.
  performed (UpdateReview (rv_id review1)
    (transition_input (transition_at 3 None) R_AWAITING_HUMAN_REVIEW)).
Qed.
Lemma step11 : step scope1 person (idle s10) (idle s11).
Proof.
  unfold s11, accept_review, acceptReview. rewrite <- left_at_ignoring.
  performed (UpdateReview (rv_id review1)
    (transition_input (transition_at 4 (Some "Ready to ship.")) ACCEPTED)).
Qed.

Lemma start_initial : initial (idle start).
Proof. repeat split. Qed.

Lemma anyone_step x y scope actor :
  reachable x → step scope actor x y → reachable y.
Proof.
  intros (x0 & Hi & Hs) Hst. exists x0. split; [done|]. by eapply (then_step anyone).
Qed.
Lemma reachable_start : reachable (idle start).
Proof. exists (idle start). split; [apply start_initial|apply rtc_refl]. Qed.
Lemma reachable_s6 : reachable (idle s6).
Proof.
  eapply anyone_step; [|apply step6]. eapply anyone_step; [|apply step5].
  eapply anyone_step; [|apply step4]. eapply anyone_step; [|apply step3].
  eapply anyone_step; [|apply step2]. eapply anyone_step; [apply reachable_start|apply step1].
Qed.
Lemma reachable_s11 : reachable (idle s11).
Proof.
  eapply anyone_step; [|apply step11]. eapply anyone_step; [|apply step10].
  eapply anyone_step; [|apply step9]. eapply anyone_step; [|apply step8].
  eapply anyone_step; [apply reachable_s6|apply step7].
Qed.

(** *** Two interleavings *)

(** More evidence, prepared before the decision and committed after it. *)
Definition late_input : SubmitVerificationInput :=
  {| sv_summary := "One more screenshot."; sv_branch := "fix/button"; sv_commit := "89abcdef";
     sv_testedViewports := sv_testedViewports evidence_input;
     sv_checks := sv_checks evidence_input; sv_artefactIds := ["art_after"];
     sv_workspaceBranch := None; sv_expectedVersion := None |}.
Definition prepare_late : M Submission := prepareSubmission scope1 fid late_input.
Definition late_submission : Submission :=
  returned prepare_late s6 {| sb_finding := some_finding; sb_evidence := [];
    sb_branchCorroborated := false; sb_id := ""; sb_afterArtefactId := None |}.
Definition late_state : St := left_at prepare_late s6.
Definition decided_late : St := left_at resolve late_state.
Definition commit_late : M (Verification * FindingRow) :=
  commitSubmission scope1 fid late_input worker late_submission.
Definition committed_late : St := left_at commit_late decided_late.

Lemma reachable_late : reachable (idle committed_late).
Proof.
  set (w := {| aw_scope := scope1; aw_actor := worker; aw_finding := fid;
               aw_input := late_input; aw_submission := late_submission |}).
  assert (reachable {| sys := late_state; awaiting := [w] |}) as H1.
  { eapply anyone_step; [apply reachable_s6|]. apply Prepared. vm_compute. reflexivity. }
  assert (reachable {| sys := decided_late; awaiting := [w] |}) as H2.
  { eapply anyone_step; [apply H1|]. unfold decided_late, resolve. rewrite <- left_at_ignoring.
    apply (performs scope1 person (UpdateFinding fid resolve_input)). }
  eapply anyone_step; [apply H2|].
  eapply (Committed scope1 worker fid late_input late_submission decided_late _ _ [] []).
  unfold committed_late, left_at, commit_late. apply surjective_pairing.
Qed.

(** A claim can arrive after the decision.  A submission checks the
    finding before its transaction and names no version; a human disposes of
    the finding in between; the submission is recorded all the same, so the
    finding is finally disposed of and has a current claim that nobody has
    decided. *)
Theorem late_claim_on_a_disposed_finding :
  ∃ x f v, reachable x ∧ findings (tables x) !! fid = Some f
    ∧ isFinalDisposition (fn_status f) = true
    ∧ current_row (tables x) scope1 fid = Some v ∧ vf_reviewed_at v = None.
Proof.
  destruct (findings (db committed_late) !! fid) as [f|] eqn:Hf.
  2: { vm_compute in Hf. discriminate. }
  destruct (current_row (db committed_late) scope1 fid) as [v|] eqn:Hv.
  2: { vm_compute in Hv. discriminate. }
  exists (idle committed_late), f, v. split_and!; [apply reachable_late|done| |done|].
  - vm_compute in Hf. injection Hf as <-. reflexivity.
  - vm_compute in Hv. injection Hv as <-. reflexivity.
Qed.

(** An accepted review can hold an open finding.  Reopening a finding looks
    at the finding only; after the acceptance of its review a human-authored
    finding can be reopened, and the review stays accepted. *)
Theorem accepted_review_with_a_reopened_finding :
  ∃ x r f, reachable x ∧ reviews (tables x) !! rv_id review1 = Some r
    ∧ findings (tables x) !! fid = Some f ∧ rv_status r = ACCEPTED
    ∧ fn_review_id f = rv_id r ∧ fn_source f = human ∧ fn_status f = REOPENED.
Proof.
  set (s := left_at (reopenFinding scope1 fid reopening1 person) s11).
  assert (reachable (idle s)) as Hs.
  { eapply anyone_step; [apply reachable_s11|]. unfold s. rewrite <- left_at_ignoring.
    apply (performs scope1 person (ReopenFinding fid reopening1)). }
  destruct (findings (db s) !! fid) as [f|] eqn:Hf.
  2: { vm_compute in Hf. discriminate. }
  destruct (reviews (db s) !! rv_id review1) as [r|] eqn:Hr.
  2: { vm_compute in Hr. discriminate. }
  exists (idle s), r, f. split_and!; [done..| | | |].
  - vm_compute in Hr. injection Hr as <-. reflexivity.
  - vm_compute in Hr, Hf. injection Hr as <-. injection Hf as <-. reflexivity.
  - vm_compute in Hf. injection Hf as <-. reflexivity.
  - vm_compute in Hf. injection Hf as <-. reflexivity.
Qed.

(** ** Witnesses *)

Definition other_tenant : Scope := {| organisationId := "org_2"; projectId := "prj_9" |}.

Example tenant_isolation_witness : tenant other_tenant (db s1) = tenant other_tenant (db start).
Proof.
  apply (tenant_isolation other_tenant (idle start) (idle s1) start_ok).
  eapply then_step; [apply rtc_refl| |apply step1]. cbn. discriminate.
Defined.

Example agents_decide_nothing_witness : decisions (db s4) = decisions (db s2).
Proof.
  apply (agents_decide_nothing (idle s2) (idle s4) s2_ok).
  eapply then_step; [eapply then_step; [apply rtc_refl| |apply step3]| |apply step4];
    discriminate.
Defined.

Example reachable_well_formed_witness : reachable (idle s6) ∧ db_ok (db s6).
Proof.
  split; [apply reachable_s6|]. exact (proj1 (reachable_well_formed (idle s6) reachable_s6)).
Defined.

Example history_only_grows_witness : grown (db s1) (db s2).
Proof.
  apply (history_only_grows (idle s1) (idle s2) s1_ok).
  eapply then_step; [apply rtc_refl|done|apply step2].
Defined.

Example stale_update_refused_witness :
  ∃ e, fst (updateFinding scope1 fid (move_input 1 CLAIMED None None None) worker s4)
         = Err (ApiThrown e) ∧ code e ∈ [VERSION_CONFLICT; RESOURCE_NOT_FOUND].
Proof.
  destruct (stale_update_refused scope1 fid (move_input 1 CLAIMED None None None) worker (idle s2)
    finding1 (returned claim_finding s2 some_finding) s3 (idle s4) scope1
    (move_input 1 CLAIMED None None None) worker
    (fst (updateFinding scope1 fid (move_input 1 CLAIMED None None None) worker s4))
    (snd (updateFinding scope1 fid (move_input 1 CLAIMED None None None) worker s4)) s2_ok)
    as (e & He & Hc & _).
  - vm_compute. reflexivity.
  - vm_compute. reflexivity.
  - eapply then_step; [apply rtc_refl|done|apply step4].
  - vm_compute. reflexivity.
  - apply surjective_pairing.
  - exists e. split; [exact He|exact Hc].
Defined.

(** An agent asks to accept a review. *)
Definition refused_acceptance : Operation :=
  UpdateReview (rv_id review1) (transition_input (transition_at 4 None) ACCEPTED).
Example failed_request_witness :
  ∃ e, fst (execute scope1 worker refused_acceptance s10) = Err e
    ∧ db (left_at (execute scope1 worker refused_acceptance) s10)
        = with_log (log (db (left_at (execute scope1 worker refused_acceptance) s10))) (db s10).
Proof.
  destruct (fst (execute scope1 worker refused_acceptance s10)) as [u|e] eqn:Hr.
  - vm_compute in Hr. discriminate.
  - exists e. split; [reflexivity|].
    apply (failed_request_changes_only_the_log scope1 worker refused_acceptance s10 e).
    rewrite <- Hr. apply surjective_pairing.
Defined.
