(* ===== verification/LiveStream.v ===== *)
(** * The internal leg of the live view: length-prefixed records
    ([src/packages/protocol/src/live-view-stream.ts])

    A [Uint8Array] is a list of bytes.  The decoder's state is its buffer; a
    [push] that throws leaves the buffer at the record it refused. *)

From S2P Require Import Prelude Bytes.

Local Open Scope N_scope.

Inductive LiveRecordKind := LIVE_RECORD_MESSAGE | LIVE_RECORD_FRAME_PAYLOAD.
#[export] Instance LiveRecordKind_eq_dec : EqDecision LiveRecordKind.
Proof. solve_decision. Defined.

Definition kind_code (k : LiveRecordKind) : byte :=
  match k with LIVE_RECORD_MESSAGE => "001" | LIVE_RECORD_FRAME_PAYLOAD => "002" end%byte.
Definition kind_of (b : byte) : option LiveRecordKind :=
  if Byte.eqb b "001"%byte then Some LIVE_RECORD_MESSAGE
  else if Byte.eqb b "002"%byte then Some LIVE_RECORD_FRAME_PAYLOAD
  else None.

Definition LIVE_RECORD_HEADER_BYTES : nat := 5.

Record LiveRecord := { kind : LiveRecordKind; bytes : list byte }.

(** [LIMITS] of the generated live-view model. *)
Definition MAX_LIVE_MESSAGE_BYTES : N := 8192.
Definition MAX_FRAME_PAYLOAD_BYTES : N := 4194304.

Definition boundFor (k : LiveRecordKind) : N :=
  match k with
  | LIVE_RECORD_MESSAGE => MAX_LIVE_MESSAGE_BYTES
  | LIVE_RECORD_FRAME_PAYLOAD => MAX_FRAME_PAYLOAD_BYTES
  end.

Definition byteLength (l : list byte) : N := N.of_nat (length l).

(** [LiveStreamFramingError]: its message. *)
Definition out_of_bound (what : string) (n : N) (k : LiveRecordKind) : string :=
  what +:+ " of " +:+ pretty n +:+ " bytes exceeds the " +:+ pretty (boundFor k)
    +:+ " byte bound for kind " +:+ pretty (Byte.to_N (kind_code k)).
Definition unknown_kind (b : byte) : string :=
  "unknown live record kind " +:+ pretty (Byte.to_N b).

(** ** 32-bit big-endian lengths *)

(** [view.setUint32(1, n, false)] and [view.getUint32(1, false)]. *)
Definition setUint32 (n : N) : list byte :=
  [to_byte (N.shiftr n 24); to_byte (N.shiftr n 16); to_byte (N.shiftr n 8); to_byte n].
Definition getUint32 (b3 b2 b1 b0 : byte) : N :=
  N.lor (N.shiftl (Byte.to_N b3) 24)
    (N.lor (N.shiftl (Byte.to_N b2) 16)
       (N.lor (N.shiftl (Byte.to_N b1) 8) (Byte.to_N b0))).

(** ** Encoding *)

Definition encodeLiveRecord (k : LiveRecordKind) (l : list byte) : result string (list byte) :=
  if bool_decide (boundFor k < byteLength l) then Err (out_of_bound "record" (byteLength l) k)
  else Ok (kind_code k :: setUint32 (byteLength l) ++ l).

(** ** Decoding *)

(** One turn of the loop of [push]. *)
Inductive Progress :=
| Waiting
| Broken (e : string)
| Complete (r : LiveRecord) (rest : list byte).

Definition next_record (buffer : list byte) : Progress :=
  match buffer with
  | k :: b3 :: b2 :: b1 :: b0 :: body =>
      match kind_of k with
      | None => Broken (unknown_kind k)
      | Some kd =>
          let n := getUint32 b3 b2 b1 b0 in
          if bool_decide (boundFor kd < n) then Broken (out_of_bound "live record" n kd)
          else if bool_decide (byteLength body < n) then Waiting
          else Complete {| kind := kd; bytes := take (N.to_nat n) body |}
                 (drop (N.to_nat n) body)
      end
  | _ => Waiting
  end.

Fixpoint drain (fuel : nat) (buffer : list byte) : result string (list LiveRecord) * list byte :=
  match fuel with
  | O => (Ok [], buffer)
  | S fuel' =>
      match next_record buffer with
      | Waiting => (Ok [], buffer)
      | Broken e => (Err e, buffer)
      | Complete r rest => let '(res, b) := drain fuel' rest in ((cons r) <$> res, b)
      end
  end.

(** [LiveRecordDecoder.push]; a turn of the loop consumes at least a header, so
    one turn per byte is enough: [drain_enough]. *)
Definition push (buffer chunk : list byte) : result string (list LiveRecord) * list byte :=
  let combined := buffer ++ chunk in drain (length combined) combined.

(** The calls of [push] on a sequence of chunks, until one throws. *)
Fixpoint push_all (buffer : list byte) (chunks : list (list byte)) :
    result string (list LiveRecord) * list byte :=
  match chunks with
  | [] => (Ok [], buffer)
  | c :: cs =>
      match push buffer c with
      | (Ok rs, b) => let '(res, b') := push_all b cs in ((app rs) <$> res, b')
      | (Err e, b) => (Err e, b)
      end
  end.

(** ** Lemmas *)

Lemma uint32_round_trip n :
  n < 2 ^ 32 →
  getUint32 (to_byte (N.shiftr n 24)) (to_byte (N.shiftr n 16)) (to_byte (N.shiftr n 8)) (to_byte n)
    = n.
Proof.
  intros Hn. unfold getUint32. rewrite !to_byte_N. apply N.bits_inj. intros i.
  change 255 with (N.ones 8).
  assert (32 ≤ i → N.testbit n i = false) as Hhigh.
  { intros Hi. destruct (decide (n = 0)) as [->|Hz]; [by rewrite N.bits_0|].
    apply N.bits_above_log2. apply N.log2_lt_pow2 in Hn; lia. }
  rewrite !N.lor_spec.
  assert (∀ k, N.testbit (N.shiftl (N.land (N.shiftr n k) (N.ones 8)) k) i
    = (bool_decide (k ≤ i) && bool_decide (i < k + 8) && N.testbit n i)) as Hpart.
  { intros k. case_bool_decide as Hk.
    - rewrite N.shiftl_spec_high', N.land_spec, N.shiftr_spec' by done.
      replace (i - k + k) with i by lia.
      case_bool_decide.
      + rewrite N.ones_spec_low by lia. by rewrite andb_true_r.
      + rewrite N.ones_spec_high by lia. by rewrite andb_false_r.
    - rewrite N.shiftl_spec_low by lia. done. }
  rewrite !Hpart, N.land_spec.
  assert (N.testbit (N.ones 8) i = bool_decide (i < 8)) as ->.
  { case_bool_decide; [apply N.ones_spec_low|apply N.ones_spec_high]; lia. }
  destruct (N.testbit n i) eqn:Hb; rewrite ?andb_true_r, ?andb_false_r; [|done].
  destruct (decide (32 ≤ i)) as [Hi|Hi]; [specialize (Hhigh Hi); congruence|].
  repeat case_bool_decide; cbn; try done; lia.
Qed.

Lemma kind_of_code k : kind_of (kind_code k) = Some k.
Proof. by destruct k. Qed.
Lemma kind_of_Some b k : kind_of b = Some k → b = kind_code k.
Proof.
  unfold kind_of.
  destruct (Byte.eqb b "001"%byte) eqn:H1; [intros [= <-]; by apply Byte.byte_dec_bl|].
  destruct (Byte.eqb b "002"%byte) eqn:H2; [intros [= <-]; by apply Byte.byte_dec_bl|done].
Qed.
Lemma bound_32 k : boundFor k < 2 ^ 32.
Proof. by destruct k. Qed.

Lemma next_encoded k l e rest :
  encodeLiveRecord k l = Ok e → next_record (e ++ rest) = Complete {| kind := k; bytes := l |} rest.
Proof.
  unfold encodeLiveRecord. case_bool_decide as Hb; [done|]. intros [= <-].
  cbn [app setUint32 next_record]. rewrite kind_of_code. cbv zeta.
  pose proof (bound_32 k). rewrite uint32_round_trip by lia.
  rewrite bool_decide_false by done.
  assert (N.to_nat (byteLength l) = length l) as Hl by (unfold byteLength; lia).
  rewrite bool_decide_false by (unfold byteLength; rewrite length_app; lia).
  by rewrite Hl, take_app_length, drop_app_length.
Qed.

Lemma next_complete buffer r rest :
  next_record buffer = Complete r rest →
  byteLength (bytes r) ≤ boundFor (kind r) ∧ ∃ h, length h = 5%nat ∧ buffer = h ++ bytes r ++ rest.
Proof.
  destruct buffer as [|k [|b3 [|b2 [|b1 [|b0 body]]]]]; try (intros Hc; discriminate Hc).
  cbn [next_record].
  destruct (kind_of k) as [kd|]; [|done]. cbv zeta.
  case_bool_decide as Hb; [done|]. case_bool_decide as Hn; [done|]. intros [= <- <-].
  cbn [kind bytes]. split.
  - unfold byteLength in *. rewrite length_take. lia.
  - exists [k; b3; b2; b1; b0]. split; [done|]. cbn [app]. by rewrite take_drop.
Qed.

Lemma next_shrinks buffer r rest :
  next_record buffer = Complete r rest → (length rest < length buffer)%nat.
Proof. intros (_ & h & Hh & ->)%next_complete. rewrite !length_app. lia. Qed.

(** What more bytes do not change. *)
Lemma next_app buffer more :
  match next_record buffer with
  | Waiting => True
  | Broken e => next_record (buffer ++ more) = Broken e
  | Complete r rest => next_record (buffer ++ more) = Complete r (rest ++ more)
  end.
Proof.
  destruct buffer as [|k [|b3 [|b2 [|b1 [|b0 body]]]]]; try exact I. cbn [next_record app].
  destruct (kind_of k) as [kd|]; [|done]. cbv zeta.
  case_bool_decide as Hb; [done|]. case_bool_decide as Hn; [exact I|].
  rewrite bool_decide_false by (unfold byteLength in *; rewrite length_app; lia).
  unfold byteLength in Hn. rewrite take_app_le, drop_app_le by lia. done.
Qed.

(** Enough turns of the loop. *)
Lemma drain_enough n m buffer :
  (length buffer ≤ n)%nat → (length buffer ≤ m)%nat → drain n buffer = drain m buffer.
Proof.
  revert m buffer. induction n as [|n IH]; intros m buffer Hn Hm.
  - assert (buffer = []) as -> by (by apply nil_length_inv; lia). by destruct m.
  - destruct m as [|m].
    { assert (buffer = []) as -> by (by apply nil_length_inv; lia). done. }
    cbn. destruct (next_record buffer) as [|e|r rest] eqn:Hr; [done..|].
    apply next_shrinks in Hr. by rewrite (IH m) by lia.
Qed.

Lemma drain_app n buffer more rs b :
  (length buffer ≤ n)%nat → drain n buffer = (Ok rs, b) →
  drain (n + length more) (buffer ++ more)
    = (let '(res, b') := drain (length (b ++ more)) (b ++ more) in ((app rs) <$> res, b')).
Proof.
  assert (∀ x : result string (list LiveRecord) * list byte,
    x = (let '(res, b') := x in ((app []) <$> res, b'))) as Hid by (by intros [[] ]).
  revert buffer rs b. induction n as [|n IH]; intros buffer rs b Hn Hd.
  - assert (buffer = []) as -> by (by apply nil_length_inv; lia). injection Hd as <- <-.
    rewrite <- Hid. by apply drain_enough; cbn.
  - cbn in Hd. pose proof (next_app buffer more) as Hm.
    destruct (next_record buffer) as [|e|r rest] eqn:Hr; [|done|].
    + injection Hd as <- <-. rewrite <- Hid. apply drain_enough; rewrite length_app; lia.
    + destruct (drain n rest) as [[rs1|e1] b1] eqn:Hd1; [|done].
      injection Hd as <- <-. apply next_shrinks in Hr. cbn [plus drain]. rewrite Hm.
      rewrite (IH rest rs1 b1) by (done || lia).
      destruct (drain (length (b1 ++ more)) (b1 ++ more)) as [[l|e] x]; reflexivity.
Qed.

(** Two chunks are one. *)
Lemma push_app buffer c c' rs b :
  push buffer c = (Ok rs, b) →
  push buffer (c ++ c') = (let '(res, b') := push b c' in ((app rs) <$> res, b')).
Proof.
  unfold push. intros Hp. rewrite app_assoc.
  rewrite <- (drain_app _ _ _ _ _ (le_n _) Hp). f_equal. by rewrite (length_app (buffer ++ c)).
Qed.

Lemma push_broken buffer c e b c' :
  push buffer c = (Err e, b) → push buffer (c ++ c') = (Err e, b ++ c').
Proof.
  unfold push. rewrite app_assoc. generalize (buffer ++ c). intros l Hp.
  assert (∀ n m l, (length l ≤ n)%nat → (length (l ++ c') ≤ m)%nat → drain n l = (Err e, b) →
    drain m (l ++ c') = (Err e, b ++ c')) as Hgen.
  { clear. induction n as [|n IH]; intros m l Hn Hm Hd; [done|]. cbn in Hd.
    pose proof (next_app l c') as Hmore.
    destruct (next_record l) as [|e1|r rest] eqn:Hr; [done| |].
    - injection Hd as -> ->. destruct m as [|m].
      + destruct b; [done|]. cbn in Hm. lia.
      + cbn. by rewrite Hmore.
    - destruct (drain n rest) as [[rs1|e1] b1] eqn:Hd1; [done|]. injection Hd as -> ->.
      pose proof (next_shrinks _ _ _ Hr). rewrite length_app in Hm. destruct m as [|m]; [lia|].
      cbn. rewrite Hmore. rewrite (IH m rest); [done|lia|rewrite length_app; lia|done]. }
  eapply Hgen; [|done|exact Hp]. done.
Qed.

(** A record and its bytes on the wire. *)
Definition encodes (r : LiveRecord) (e : list byte) : Prop :=
  encodeLiveRecord (kind r) (bytes r) = Ok e.

(** What the reader may hold between two pushes: less than a header, or the
    beginning of one record within its bound. *)
Definition partial_record (b : list byte) : Prop :=
  (length b < LIVE_RECORD_HEADER_BYTES)%nat ∨
  ∃ r e rest, encodes r e ∧ e = b ++ rest ∧ rest ≠ [].

Lemma byte_range b : Byte.to_N b < 256.
Proof. pose proof (Byte.to_N_bounded b). lia. Qed.

Lemma to_byte_of b n : N.land n 255 = Byte.to_N b → to_byte n = b.
Proof. intros Hn. unfold to_byte. by rewrite Hn, Byte.of_to_N. Qed.

(** A header is the header of its own length. *)
Lemma getUint32_inv b3 b2 b1 b0 : setUint32 (getUint32 b3 b2 b1 b0) = [b3; b2; b1; b0].
Proof.
  unfold setUint32, getUint32.
  assert (∀ b i, 8 ≤ i → N.testbit (Byte.to_N b) i = false) as Hhigh.
  { intros b i Hi. pose proof (byte_range b). destruct (decide (Byte.to_N b = 0)) as [->|Hz].
    - apply N.bits_0.
    - apply N.bits_above_log2. assert (N.log2 (Byte.to_N b) < 8) by (apply N.log2_lt_pow2; lia). lia. }
  assert (∀ b k s i, N.testbit (N.shiftl (Byte.to_N b) s) (i + k)
    = if bool_decide (i + k < s) then false
      else if bool_decide (s + 8 ≤ i + k) then false else N.testbit (Byte.to_N b) (i + k - s)) as Hs.
  { intros b k s i. case_bool_decide; [by rewrite N.shiftl_spec_low|].
    rewrite N.shiftl_spec_high' by lia. case_bool_decide; [apply Hhigh; lia|done]. }
  assert (∀ b k i, N.testbit (Byte.to_N b) (i + k)
    = if bool_decide (8 ≤ i + k) then false else N.testbit (Byte.to_N b) (i + k)) as H0.
  { intros b k i. case_bool_decide; [by apply Hhigh|done]. }
  assert (∀ k n b, (∀ i, i < 8 → N.testbit n (i + k) = N.testbit (Byte.to_N b) i) →
    to_byte (N.shiftr n k) = b) as Hbyte.
  { intros k n b Hb. apply to_byte_of. apply N.bits_inj. intros i.
    change 255 with (N.ones 8). rewrite N.land_spec, N.shiftr_spec'.
    destruct (decide (i < 8)).
    - rewrite N.ones_spec_low, andb_true_r by done. by apply Hb.
    - rewrite N.ones_spec_high, andb_false_r by lia. symmetry. apply Hhigh. lia. }
  assert (∀ n b, (∀ i, i < 8 → N.testbit n i = N.testbit (Byte.to_N b) i) → to_byte n = b) as Hlow.
  { intros n b Hb. rewrite <- (N.shiftr_0_r n). apply Hbyte. intros i. rewrite N.add_0_r. apply Hb. }
  repeat apply (f_equal2 (@cons byte)); try done;
    [apply Hbyte..|apply Hlow]; intros i Hi; rewrite !N.lor_spec.
  1-3: rewrite !Hs, H0; repeat case_bool_decide; try lia; rewrite ?orb_false_r; cbn [orb];
    f_equal; lia.
  rewrite !N.shiftl_spec_low by lia. done.
Qed.

Lemma getUint32_range b3 b2 b1 b0 : getUint32 b3 b2 b1 b0 < 2 ^ 32.
Proof.
  unfold getUint32. pose proof (byte_range b3). pose proof (byte_range b2).
  pose proof (byte_range b1). pose proof (byte_range b0).
  assert (∀ x y k, x < 2 ^ k → y < 2 ^ k → N.lor x y < 2 ^ k) as Hlor.
  { intros x y k Hx Hy. destruct (decide (N.lor x y = 0)) as [->|Hz]; [lia|].
    apply N.log2_lt_pow2; [lia|]. rewrite N.log2_lor.
    destruct (decide (x = 0)) as [->|]; destruct (decide (y = 0)) as [->|]; [done|..];
      apply N.max_lub_lt; try (apply N.log2_lt_pow2; lia); change (N.log2 0) with 0;
      assert (k ≠ 0) by (intros ->; cbn in *; lia); lia. }
  repeat apply Hlor; rewrite ?N.shiftl_mul_pow2; change (2 ^ 32) with 4294967296;
    change (2 ^ 24) with 16777216; change (2 ^ 16) with 65536; change (2 ^ 8) with 256; lia.
Qed.

Lemma next_complete_iff buffer r rest :
  next_record buffer = Complete r rest ↔ ∃ e, encodes r e ∧ buffer = e ++ rest.
Proof.
  split; [|intros (e & He & ->); destruct r; by apply next_encoded].
  destruct buffer as [|k [|b3 [|b2 [|b1 [|b0 body]]]]]; try (intros Hc; discriminate Hc).
  cbn [next_record].
  destruct (kind_of k) as [kd|] eqn:Hk; [|done]. apply kind_of_Some in Hk as ->. cbv zeta.
  case_bool_decide as Hb; [done|]. case_bool_decide as Hn; [done|]. intros [= <- <-].
  set (n := getUint32 b3 b2 b1 b0) in *.
  assert (byteLength (take (N.to_nat n) body) = n) as Hlen
    by (unfold byteLength in *; rewrite length_take; lia).
  exists (kind_code kd :: setUint32 n ++ take (N.to_nat n) body). split.
  - unfold encodes, encodeLiveRecord. cbn [kind bytes]. rewrite Hlen.
    by rewrite bool_decide_false by done.
  - unfold n. rewrite getUint32_inv. cbn [app]. by rewrite take_drop.
Qed.

Lemma next_waiting_iff b : next_record b = Waiting ↔ partial_record b.
Proof.
  split.
  - destruct b as [|k [|b3 [|b2 [|b1 [|b0 body]]]]]; 
      try (intros _; left; unfold LIVE_RECORD_HEADER_BYTES; cbn; lia).
    cbn [next_record]. destruct (kind_of k) as [kd|] eqn:Hk; [|done].
    apply kind_of_Some in Hk as ->. cbv zeta.
    case_bool_decide as Hb; [done|]. case_bool_decide as Hn; [|done]. intros _. right.
    set (n := getUint32 b3 b2 b1 b0) in *.
    set (pad := replicate (N.to_nat n - length body) "000"%byte).
    assert (byteLength (body ++ pad) = n) as Hlen.
    { unfold byteLength, pad in *. rewrite length_app, length_replicate. lia. }
    exists {| kind := kd; bytes := body ++ pad |}, (kind_code kd :: setUint32 n ++ body ++ pad), pad.
    split_and!.
    + unfold encodes, encodeLiveRecord. cbn [kind bytes]. rewrite Hlen.
      by rewrite bool_decide_false by done.
    + unfold n. rewrite getUint32_inv. done.
    + unfold pad, byteLength in *. destruct (N.to_nat n - length body)%nat eqn:?; [lia|done].
  - intros [Hs|(r & e & rest & He & Heq & Hne)].
    + unfold LIVE_RECORD_HEADER_BYTES in Hs.
      destruct b as [|k [|b3 [|b2 [|b1 [|b0 body]]]]]; try done. cbn in Hs. lia.
    + assert (next_record (b ++ rest) = Complete r []) as Hc.
      { apply next_complete_iff. exists e. by rewrite app_nil_r. }
      pose proof (next_app b rest) as Hm.
      destruct (next_record b) as [|x|r' rest'] eqn:Hb; [done|congruence|].
      rewrite Hc in Hm. injection Hm as _ Hm. symmetry in Hm. by apply app_eq_nil in Hm as [_ ?].
Qed.

Lemma drain_iff n buffer rs b :
  (length buffer ≤ n)%nat →
  drain n buffer = (Ok rs, b) ↔
    ∃ es, Forall2 encodes rs es ∧ buffer = concat es ++ b ∧ next_record b = Waiting.
Proof.
  revert buffer rs. induction n as [|n IH]; intros buffer rs Hn.
  - assert (buffer = []) as -> by (by apply nil_length_inv; lia). cbn. split.
    + intros [= <- <-]. by exists [].
    + intros (es & Hes & Heq & _). symmetry in Heq. apply app_eq_nil in Heq as [Hc ->].
      destruct Hes as [|r e rs es He]; [done|]. cbn in Hc. apply app_eq_nil in Hc as [-> _].
      unfold encodes, encodeLiveRecord in He. by case_bool_decide.
  - cbn [drain]. destruct (next_record buffer) as [|x|r rest] eqn:Hr.
    + split; [intros [= <- <-]; by exists []|]. intros (es & Hes & Heq & Hw).
      destruct Hes as [|r e rs es He]; [by rewrite Heq|].
      cbn [concat] in Heq. rewrite <- app_assoc in Heq.
      assert (next_record buffer = Complete r (concat es ++ b)) by (apply next_complete_iff; eauto).
      congruence.
    + split; [done|]. intros (es & Hes & Heq & Hw).
      destruct Hes as [|r e rs es He]; [cbn in Heq; congruence|].
      cbn [concat] in Heq. rewrite <- app_assoc in Heq.
      assert (next_record buffer = Complete r (concat es ++ b)) by (apply next_complete_iff; eauto).
      congruence.
    + pose proof (next_shrinks _ _ _ Hr) as Hlt. destruct (drain n rest) as [res b'] eqn:Hd. split.
      * destruct res as [rs'|e]; [|done]. intros [= <- <-].
        apply IH in Hd as (es & Hes & -> & Hw); [|lia].
        apply next_complete_iff in Hr as (e & He & ->).
        exists (e :: es). split_and!; [by constructor| |done]. cbn [concat]. by rewrite app_assoc.
      * intros (es & Hes & Heq & Hw). destruct Hes as [|r' e rs' es He]; [cbn in Heq; congruence|].
        cbn [concat] in Heq. rewrite <- app_assoc in Heq.
        assert (next_record buffer = Complete r' (concat es ++ b)) as Hr'
          by (apply next_complete_iff; eauto).
        rewrite Hr in Hr'. injection Hr' as <- ->.
        assert (drain n (concat es ++ b) = (Ok rs', b)) as Hd' by (apply IH; [lia|eauto]).
        rewrite Hd in Hd'. by injection Hd' as -> ->.
Qed.

Lemma push_waiting buffer c rs b : push buffer c = (Ok rs, b) → next_record b = Waiting.
Proof. intros Hp. by apply drain_iff in Hp as (? & ? & ? & ?). Qed.

(** Chunks are pushed one by one, or all together. *)
Lemma push_all_one buffer chunks rs b :
  next_record buffer = Waiting →
  push_all buffer chunks = (Ok rs, b) ↔ push buffer (concat chunks) = (Ok rs, b).
Proof.
  revert buffer rs b. induction chunks as [|c cs IH]; intros buffer rs b Hw.
  - cbn [push_all concat]. unfold push. rewrite app_nil_r. cbv zeta.
    destruct buffer as [|x buffer]; [done|]. cbn [length drain]. by rewrite Hw.
  - cbn [push_all concat]. destruct (push buffer c) as [[rs1|e] b1] eqn:Hp.
    + rewrite (push_app _ _ _ _ _ Hp). apply push_waiting in Hp.
      destruct (push_all b1 cs) as [res b'] eqn:Ha, (push b1 (concat cs)) as [res2 b2] eqn:H2.
      destruct res as [l|e], res2 as [l2|e2].
      * apply IH in Ha; [|done]. rewrite H2 in Ha. by injection Ha as -> ->.
      * apply IH in Ha; [|done]. congruence.
      * apply IH in H2; [|done]. congruence.
      * done.
    + by rewrite (push_broken _ _ _ _ _ Hp).
Qed.

Lemma push_all_iff chunks rs b :
  push_all [] chunks = (Ok rs, b) ↔
    ∃ es, Forall2 encodes rs es ∧ concat chunks = concat es ++ b ∧ partial_record b.
Proof.
  rewrite push_all_one by done. unfold push. cbn [app].
  rewrite drain_iff by done. by setoid_rewrite next_waiting_iff.
Qed.

Lemma partial_record_short b :
  partial_record b → byteLength b < N.of_nat LIVE_RECORD_HEADER_BYTES + MAX_FRAME_PAYLOAD_BYTES.
Proof.
  unfold partial_record, byteLength, LIVE_RECORD_HEADER_BYTES.
  intros [Hs|(r & e & rest & He & -> & Hne)]; [unfold MAX_FRAME_PAYLOAD_BYTES; lia|].
  unfold encodes, encodeLiveRecord in He. case_bool_decide as Hb; [done|].
  injection He as He. apply (f_equal length) in He. rewrite length_app in He.
  cbn [length setUint32 app] in He.
  assert (length rest ≠ 0%nat) by (by destruct rest).
  assert (boundFor (kind r) ≤ MAX_FRAME_PAYLOAD_BYTES) by (by destruct (kind r)).
  unfold byteLength in *. lia.
Qed.

(** ** Properties *)

(** C11: whatever the boundaries at which the bytes of a stream arrive, the
    successive calls of [push] return exactly the records whose encodings the
    stream is made of, and keep exactly the bytes that follow them: less than a
    header, or the beginning of one record within its bound.  Conversely a
    stream of that form is never refused. *)
Theorem decoder_implements_stream chunks rs b :
  push_all [] chunks = (Ok rs, b) ↔
    ∃ es, Forall2 encodes rs es ∧ concat chunks = concat es ++ b ∧ partial_record b.
Proof. apply push_all_iff. Qed.

(** Records that were encoded one after the other are read back, in order,
    nothing left over, however the bytes were cut into chunks. *)
Theorem decode_encoded rs es chunks :
  Forall2 encodes rs es → concat chunks = concat es → push_all [] chunks = (Ok rs, []).
Proof.
  intros Hes Hc. apply push_all_iff. exists es. rewrite app_nil_r. split_and!; [done..|].
  left. unfold LIVE_RECORD_HEADER_BYTES. cbn. lia.
Qed.

Lemma decode_encoded_witness :
  push_all []
    [["001"; "000"; "000"]; ["000"; "003"; "123"; "034"]; []; ["125"; "002"; "000"];
     ["000"; "000"; "001"; "255"]]%byte
  = (Ok [ {| kind := LIVE_RECORD_MESSAGE; bytes := ["123"; "034"; "125"]%byte |};
          {| kind := LIVE_RECORD_FRAME_PAYLOAD; bytes := ["255"]%byte |} ], []).
Proof.
  apply (decode_encoded _
    [["001"; "000"; "000"; "000"; "003"; "123"; "034"; "125"];
     ["002"; "000"; "000"; "000"; "001"; "255"]]%byte); [|reflexivity].
  repeat constructor.
Defined.

(** a push that returns never leaves a whole record's bytes behind, and no
    record it returns exceeds the bound of its kind: whatever length a hostile
    sender announces, the reader holds less than a header and the largest
    payload. *)
Theorem decoder_bounds buffer chunk rs b :
  push buffer chunk = (Ok rs, b) →
  byteLength b < N.of_nat LIVE_RECORD_HEADER_BYTES + MAX_FRAME_PAYLOAD_BYTES ∧
  ∀ r, r ∈ rs → byteLength (bytes r) ≤ boundFor (kind r).
Proof.
  intros (es & Hes & _ & Hw)%drain_iff; [|done]. apply next_waiting_iff in Hw.
  split; [by apply partial_record_short|].
  intros r (i & Hi)%list_elem_of_lookup. apply (Forall2_lookup_l _ _ _ _ _ Hes) in Hi as (e & _ & He).
  unfold encodes, encodeLiveRecord in He. case_bool_decide as Hb; [done|]. lia.
Qed.

Lemma decoder_bounds_witness :
  byteLength ["002"; "000"; "064"; "000"; "000"; "007"]%byte
    < N.of_nat LIVE_RECORD_HEADER_BYTES + MAX_FRAME_PAYLOAD_BYTES ∧
  ∀ r, r ∈ ([] : list LiveRecord) → byteLength (bytes r) ≤ boundFor (kind r).
Proof.
  apply (decoder_bounds ["002"; "000"; "064"]%byte ["000"; "000"; "007"]%byte). reflexivity.
Defined.
